(* ===== verification/_CoqProject ===== *)
-Q . S2P
Prelude.v
Codec.v
CodecFacts.v
Queue.v
QueueFacts.v
QueueConc.v
Strconv.v
LineProto.v
Ckdb.v
CkdbFacts.v
Meter.v
MeterFacts.v
Tag.v
TagFacts.v
TagMini.v
TagText.v
Document.v
DocumentWire.v
DocumentFacts.v
CKWriter.v
CKWriterFacts.v
Expand.v
ExpandFacts.v
Roze.v
RozeFacts.v
Lru.v
LruFacts.v
Platform.v
PlatformFacts.v
Networks.v
PlatformReload.v
Ranges.v
RangesFacts.v
Labeler.v
LabelerFacts.v
LabelerQueries.v
IdMap.v
IdMapFacts.v
LabelerMap.v
Drop.v
DropFacts.v
Throttle.v
Receiver.v
ReceiverFacts.v
ReceiverRoze.v
CloudModel.v
MysqlModel.v
DiffBase.v
RecorderCache.v
Updater.v
UpdaterResources.v
Recorder.v
CacheFacts.v
UpdaterFacts.v
ResourceFacts.v
RecorderFacts.v
RecorderRest.v
RecorderStore.v
RecorderSpec.v
RecorderSub.v
RecorderLoop.v
