(* ===== verification/Prelude.v ===== *)
(** Verification of the metrics path and of the recorder of the MetaFlow server.

    * The program

    MetaFlow agents observe traffic and send documents: a tag (what the document is
    about), a meter (its statistics) and a time stamp.  The server receives them in
    buffers, decodes them, looks up the resources behind their addresses in data that
    the controller sends, and stores them in ClickHouse.  On the way they pass queues
    that overwrite their oldest items rather than block.  All paths below are
    relative to [src/server].

    - [libs/receiver] reads frames from datagrams and connections and hands their buffers
      to the queues of their type.  It asks [libs/cache/drop_detection.go] for losses.
    - [libs/codec] writes and reads the bytes of a message.
    - [libs/zerodoc] and [libs/app] define tags, meters and documents, with their
      protobuf, text and database forms.
    - [libs/ckdb] describes tables and writes the rows of a batch.
    - [ingester/roze] is the thread that decodes, expands, counts and routes documents.
      It calls [libs/grpc/grpc_platformdata.go] to expand them, and that file calls
      [libs/hmap/lru] for its caches and [libs/grpc/labeler.go] for services.
    - [libs/grpc/labeler.go] calls [libs/policy/group_labeler.go] for groups of addresses,
      [libs/datatype/utils.go] for ranges, and [libs/hmap/idmap] for its cache.
    - [ingester/pkg/ckwriter] takes the documents of a table from its queues
      ([libs/queue]) and writes them in batches.
    - [ingester/stream/throttler] and [libs/datastructure/leaky_bucket.go] limit rates.

    The resources themselves come from clouds that the controller polls.  Its recorder
    ([controller/recorder]) keeps the tables of MySQL in step with what a cloud reports:

    - [recorder.go] runs one updater for each resource, first to add and update in the order
      in which resources refer to each other, then to delete in the opposite order, for a
      domain and then for its sub-domains.
    - [updater] compares the items of the cloud ([cloud/model]) with the entries of the
      cache, and writes what differs through [db] to the tables of [db/mysql/model.go].
    - [cache] has these entries and the maps between identifiers and keys; it is changed with
      every row that is written, and rebuilt from the tables from time to time.

    * Conventions

    A Go integer is a [Z] that is reduced to its width after every operation whose
    result may leave it ([wrap], [swrap], [u8] to [u64], [i16] to [i64]); a byte slice is
    a [list Z].  A panic is [None] (or [Panic], [WPanic] where an error is a third
    outcome).  Code that changes an object is a state-passing function or a program of
    the monad [ST], about which [runs] states that it does not panic and what it leaves.
    A type class holds each interface between components and each piece of code that is
    not in the sources, and a second class its laws; clients are proved against the
    laws.  [sync.Pool] may return any object, so what it returns is an argument.  A
    file [XFacts] holds the proofs about the definitions of [X].

    * Files, and the code that they model

    - [Prelude]: machine integers, bytes, loops, [ST] and [runs], lemmas about lists.
    - [Codec], [CodecFacts]: [libs/codec/simple_codec.go], [varint_codec.go],
      [prefix_varint_codec.go].  [SimpleEncoder] and [SimpleDecoder] are records; there is
      one definition for each Write and Read method.
    - [Queue], [QueueFacts]: [libs/queue/queue.go], [multi_queue.go], one call at a time.
      [QueueConc]: the same queue as a step relation over the critical sections of one
      writer and any number of readers.
    - [Strconv], [LineProto]: printing of numbers, and writing into a fixed buffer
      ([marshalKeyValues] of [libs/zerodoc/basic_meter.go]).
    - [Ckdb], [CkdbFacts]: [libs/ckdb/ckdb.go], [table.go].
    - [Meter], [MeterFacts]: [libs/zerodoc/basic_meter.go], [app_meter.go],
      [flow_meter.go], [usage_meter.go], [const.go].
    - [Tag], [TagFacts], [TagText]: [libs/zerodoc/tag.go], [libs/datatype/tap_port.go].
      [TagMini]: [libs/zerodoc/tag_mini.go] and [ReadFromPB] of [tag.go].
    - [Document], [DocumentFacts], [DocumentWire]: [libs/app/document.go], [codec.go],
      [libs/zerodoc/pb/doc.go], [libs/pool/reference_count.go].
    - [CKWriter], [CKWriterFacts]: [ingester/pkg/ckwriter/ckwriter.go].
    - [Expand], [ExpandFacts]: [ingester/roze/unmarshaller/handle_document.go].
    - [Roze], [RozeFacts]: [ingester/roze/unmarshaller/unmarshaller.go],
      [ingester/roze/dbwriter/dbwriter.go].
    - [Lru], [LruFacts]: [libs/hmap/lru/u64_lru.go], [common.go].
    - [Platform], [PlatformFacts], [Networks], [PlatformReload]:
      [libs/grpc/grpc_platformdata.go].
    - [Ranges], [RangesFacts]: [libs/datatype/utils.go], [port_range.go].
    - [Labeler], [LabelerFacts], [LabelerQueries]: [libs/grpc/labeler.go],
      [libs/policy/group_labeler.go].
    - [IdMap], [IdMapFacts]: [libs/hmap/idmap/u128_id_map.go], [common.go] and
      [libs/hmap/keyhash/jenkins.go].  [LabelerMap]: this map as a cache of the labeler.
    - [Drop], [DropFacts]: [libs/cache/drop_detection.go].
    - [Throttle]: [ingester/stream/throttler/throttling_queue.go] (module [Throttling]) and
      [libs/datastructure/leaky_bucket.go] (module [Bucket]).
    - [Receiver], [ReceiverFacts]: [libs/receiver/receiver.go] and
      [libs/datatype/droplet-message.go].  A round of each loop is a step; [step] runs the
      threads in the order of a list of events.  [ReceiverRoze]: the receiver with [Roze].
    - [CloudModel]: [controller/cloud/model/model.go].  [MysqlModel]:
      [controller/db/mysql/model.go].  One record for each struct.
    - [DiffBase], [RecorderCache], [CacheFacts]: [controller/recorder/cache/diff_base.go],
      [tool_map.go], [cache.go].  The state is a [World]: the cache, the database and the
      statements sent to it.  Code that the source repeats for each resource, or that is
      generic in it, is a function of the table where its copies agree.
    - [Updater], [UpdaterFacts]: [controller/recorder/db/operator.go], the deletions of
      [db/vm.go] and [db/pod_node.go], and [controller/recorder/updater/updater.go].
      [UpdaterResources], [ResourceFacts]: the other files of [controller/recorder/updater],
      as instances of [DataGenerator] and of its laws [GeneratorLaws].
    - [Recorder], [RecorderFacts], [RecorderRest]: [controller/recorder/recorder.go],
      [updater/ip.go] and the [CacheManager] of [cache.go].  [RecorderSpec] and
      [RecorderSub] have the theorems, for a domain and for a sub-domain.
      [RecorderLoop]: the goroutines of [recorder.go] around their channel, as steps.
      [RecorderStore]: a database in memory that meets the laws.

    * What the theorems show

    - Formats.  Messages ([message_roundtrip]) and documents ([document_roundtrip]) are
      read as they were written, but for the global thread identifier of a document, which
      the server does not read; reading any bytes stays in the buffer and counts its
      failures ([message_read_safe]); the unrolled varint decoder agrees with the plain one
      ([DecodeVarint_equiv_slow]).  The text of a tag parses to its fields ([tag_text]).
    - Rows.  What tags, meters and documents write matches the columns of their table
      in order, type and meaning ([tag_row_matches], [meter_row_matches],
      [document_row_matches], [TableID_spec], [metrics_tables]).  The theorem about tags is
      about all of them: it says which have fewer cells than columns and which panic.
    - Queues.  Any sequence of calls refines a bounded list ([queue_refines]) that keeps the
      order and balances its counters ([queue_fifo_conservation]); with one reader every
      interleaving is consistent and loses no wake-up ([conc_single_reader],
      [conc_no_lost_wakeup]).
    - Receiver.  However reads cut the bytes and in whatever order the threads run, frames
      are handed over whole, in order and once ([tcp_frames_delivered]); a datagram is
      handed over or refused and counted ([udp_datagrams]); documents that an agent sends
      over TCP go through a cache of the receiver, its flush and a queue to the unmarshaller,
      which stores or releases each ([tcp_documents_stored]); the controller is told of every
      agent once ([agents_reported]).
    - Pipeline.  A buffer of documents, none of them a per-second one of access control, is
      handled to its end, and each document is stored or released by a stated condition
      on it and on the answers of the platform data ([roze_stores]); the decoding loop
      ends on any bytes ([decode_rounds_suffice]); a writer thread writes, counts and releases each item once
      ([ckwriter_thread]); a document is refused by its region alone ([expand_region]);
      merging does not depend on order ([meter_merge_order_independent]).
    - Lookups.  The cache refines a list by time of use ([lru_refines]) and the map of
      identifiers a finite map ([idmap_refines]); neither caches nor earlier calls
      show in the answers of the platform data ([platform_queries],
      [networks_longest_match]) or of the labeler ([labeler_matches], which says too what an
      IPv4 client of the Internet gets, and that only the last service of a pod group is
      found); ranges of addresses become networks of the same addresses ([ipv4_range_exact],
      [ipv6_range_exact]; the latter names the ranges that become all addresses, or none).
    - Rates.  The counter of losses is a stated function of the numbers that came, restarts
      and what they miscount included ([drop_counts]); limits hold over any sequence of
      calls and of changes of the rate ([throttle_bounds], [leaky_rate]).
    - Recorder.  A refresh of proper cloud data, without sub-domains and CEN, leaves the
      entries and rows of this data and the rows that the cache did not know, and known
      entries with its values ([recorder_exact]); the third of three refreshes with the
      same data sends only the [Save] of the domain ([recorder_comes_to_rest]).  Whatever
      the database answers, refreshes and rebuilds end, and an entry of the cache has a live
      row, unless it is a connection of a container node ([recorder_cache_sound],
      [cache_rebuilt]).  Goroutines do not meet in the cache, and none is stuck
      ([recorder_exclusive]).  The state of a domain is the worst one
      ([domain_state_is_worst]).
    - Where the code fails.  [queue_release_exact], [conc_two_readers_underflow],
      [ReadFromPB_panics_iff], [ckwriter_reconnects_without_account],
      [acl_second_document_panics], [wan_network_lost],
      [restart_counts_one], [first_number_keeps_marks],
      [tcp_panics_iff] and [udp_short_datagram_panics] give the inputs on which it panics,
      loses or miscounts; [sub_domain_connections_stay] and [new_sub_domain_keeps_rows]
      what the recorder never deletes.  [tag_row_matches], [labeler_matches],
      [ipv6_range_exact], [drop_counts] and [leaky_rate] do not exclude the inputs on
      which the code goes wrong, and say what it does there.

    * Composition

    [Platform] is an instance of the interface that [Expand] and [Roze] use, and its laws
    are proved ([Platform_laws]); [U64LRU] is an instance of its cache ([U64LRU_laws]); the
    documents are proved against the laws of the protobuf code, of which [DocumentWire] is
    a model; [ckwriter_thread] and the receiver run on the queues of [Queue], and the receiver
    on the windows of [Drop]; what it hands over is what [Roze] stores; [U128IDMap] is an instance
    of the map that the labeler uses ([U128_laws]).  The platform data relies on less of
    its labeler than [labeler_matches] proves, namely that answers are indexes of services;
    but it asks for it of any list of services and without a bound on the number of
    queries, while [labeler_matches] holds for at most 65536 services with fields of their
    widths and for less than 2^31 queries, after which the places of a cache no longer fit.  So the
    labeler of [Labeler] is not made an instance of the one of [Platform].

    The generic updater is proved against [GeneratorLaws], which each of the 41 resources
    meets ([ResourceFacts]), and against the laws of the database ([MysqlLaws]), which the one
    of [RecorderStore] meets.  A refresh is a list of jobs, one for each updater;
    [RecorderFacts] shows of a list of jobs what its order and the references between
    its items give, and [RecorderSpec] that the lists of the source are in such an order.

    * Bounds and fuel

    - The chains of a cache or a map are followed for one round more than there are nodes;
      [lru_refines] and [idmap_refines] show that no call runs out.
    - The conversions of ranges of addresses run for at most 2^33 and 2^129 rounds, more than
      there are addresses ([rounds] halves, so that evaluation is not affected); the
      theorems about them show that a result is reached.
    - The decoding loop gets one round for each byte and one more, since every round reads
      at least one byte; [decode_rounds_suffice] shows that they are enough.
    - The thread of the ClickHouse writer runs for any given number of rounds, and for as
      many as its queue needs the queue is empty at the end.
    - A read of a number of bytes gets as many rounds, since every read returns one at least;
      the theorems about the receiver assume less than 2^63 packets, whose number picks
      the queue as a signed integer.
    - Numbers have at most 64 binary digits and varints at most ten groups, which bound the
      loops of [Strconv] and [Codec]; sizes that are rounded to a power of two have at
      most 31 bits, as in the code.
    - Theorems about maps and labelers assume less than 2^31 calls, those about queues a size
      of at most 2^31, those about caches a capacity of at most 2^30: the widths of the
      indexes of the code.

    - A refresh needs no fuel: its loops are over the cloud data and the entries.  The
      theorems ask that the sequence number, which every refresh raises by one, stays below
      2^63.

    * Not modelled

    - Code outside of the sources: the ClickHouse driver, the generated protobuf code, the
      generated maps of other key sizes, the parsers of package [net].  They are
      parameters with laws, and an instance shows that each set of laws can hold.
    - Object pools, beyond the reference counts of documents and encoders; log lines and the
      texts for debugging commands; the registration of statistics.
    - [WriteArray] of [libs/ckdb], whose argument has any type; the port status table of
      [libs/datatype].
    - Sockets, the session with the controller and the start of the process.  A read of a
      socket is an argument of a round of the receiver.  Its threads are interleaved at
      the rounds of their loops, not at every access to shared memory.
    - The paths of flow logs (apart from their sampling queue), external metrics and system
      logs, the querier, the command line and the agents: other programs
      or other paths, which share only the libraries above.
    - Of the recorder: CEN, one of its 42 resources (so that the updaters of a domain are
      those of the source without the one of CEN), whose comparison sorts arrays that the
      cache and the cloud data share; the timer that removes rows deleted long ago; what the
      conditions of a query select and the columns of the rows that MySQL has, which are the
      database's.  [recorder_exact] is about cloud data without sub-domains: theirs are
      written to the same tables.  The times of tickers and rows are arguments.
    - The rest of the controller: clients of the interfaces of clouds, HTTP handlers, and the
      push of configuration and platform data to agents, whose generated messages and
      tables are not in the sources. *)

From stdpp Require Export base numbers list gmap.
From Stdlib Require Export ZArith Lia.

#[global] Open Scope Z_scope.

(** * Machine integers

    A Go value of an unsigned type of width [w] is a [Z] in [[0, 2^w)]; every
    arithmetic result is reduced with [wrap w].  A value of a signed type of
    width [w] is a [Z] in [[-2^(w-1), 2^(w-1))], reduced with [swrap w]. *)

Definition wrap (w x : Z) : Z := x mod 2 ^ w.

Definition swrap (w x : Z) : Z := (x + 2 ^ (w - 1)) mod 2 ^ w - 2 ^ (w - 1).

Definition is_u (w x : Z) : Prop := 0 <= x < 2 ^ w.

Definition is_i (w x : Z) : Prop := - 2 ^ (w - 1) <= x < 2 ^ (w - 1).

Abbreviation u8 := (wrap 8).
Abbreviation u16 := (wrap 16).
Abbreviation u32 := (wrap 32).
Abbreviation u64 := (wrap 64).
Abbreviation i16 := (swrap 16).
Abbreviation i32 := (swrap 32).
Abbreviation i64 := (swrap 64).

(** Go's left shift drops the bits above the width; a right shift of an
    unsigned value is logical and of a signed value arithmetic, both [≫]. *)
Definition shl (w x n : Z) : Z := wrap w (x ≪ n).

#[global] Instance is_u_dec w x : Decision (is_u w x).
Proof. unfold is_u. apply _. Defined.

#[global] Instance is_i_dec w x : Decision (is_i w x).
Proof. unfold is_i. apply _. Defined.

(** * Byte slices

    A [[]byte] is a [list Z] of values in [[0, 256)].  [slice b lo n] is the
    Go slice [b[lo : lo+n]] for indices that are in range. *)

Definition bytes_ok (b : list Z) : Prop := Forall (is_u 8) b.

Definition zlen {A} (l : list A) : Z := Z.of_nat (length l).

Definition slice {A} (l : list A) (lo n : Z) : list A :=
  take (Z.to_nat n) (drop (Z.to_nat lo) l).

(** [binary.LittleEndian.PutUintN] and [binary.LittleEndian.UintN], and their
    big endian versions, on [n] bytes. *)
Definition le_put (n v : Z) : list Z := Z_to_little_endian n 8 v.

Definition le_get (b : list Z) : Z := little_endian_to_Z 8 b.

Definition be_put (n v : Z) : list Z := reverse (le_put n v).

Definition be_get (b : list Z) : Z := le_get (reverse b).

(** [b[i]] for an index the code has checked to be in range. *)
Definition byte_at (b : list Z) (i : Z) : Z := default 0 (b !! Z.to_nat i).

(** * Loops

    [while fuel cond body s] is Go's [for cond { body }] on the loop state
    [s], cut after [fuel] rounds; [while_exit] gives the fuel that is enough
    for the loop to end by its own condition. *)
Fixpoint while {S : Type} (fuel : nat) (cond : S -> bool) (body : S -> S) (s : S) : S :=
  match fuel with
  | O => s
  | Datatypes.S fuel => if cond s then while fuel cond body (body s) else s
  end.

(** [rounds n body s] runs [body] until it gives a result, at most [2 ^ n] times:
    [inl] is the state of the next round.  [rounds_exit] gives the [n] that is
    enough. *)
Fixpoint rounds {S R : Type} (n : nat) (body : S -> S + R) (s : S) : S + R :=
  match n with
  | O => body s
  | Datatypes.S n =>
      match rounds n body s with
      | inl s => rounds n body s
      | inr r => inr r
      end
  end.

(** * State with panics

    [ST S A] is code that reads and writes a state [S] and returns an [A];
    [None] is a panic, after which there is no state. *)
Definition ST (S A : Type) : Type := S -> option (A * S).

#[global] Instance ST_ret {S} : MRet (ST S) := fun A a s => Some (a, s).

#[global] Instance ST_bind {S} : MBind (ST S) := fun A B f m s =>
  match m s with Some (a, s) => f a s | None => None end.

Definition panic {S A} : ST S A := fun _ => None.

Definition get_state {S} : ST S S := fun s => Some (s, s).

Definition modify {S} (f : S -> S) : ST S unit := fun s => Some (tt, f s).

Definition of_option {S A} (o : option A) : ST S A := fun s => (fun a => (a, s)) <$> o.

(** [for _, x := range xs { body }] *)
Fixpoint for_each {S A} (body : A -> ST S unit) (xs : list A) : ST S unit :=
  match xs with
  | [] => mret tt
  | x :: xs => body x ;; for_each body xs
  end.

(** * Tactics *)

(** Splits conjunctions, existentials and pairs of the context. *)
Ltac dest :=
  repeat match goal with
  | H : _ /\ _ |- _ => destruct H
  | H : exists _, _ |- _ => destruct H
  | H : (_, _) = (_, _) |- _ => injection H as ?; subst
  | H : Some _ = Some _ |- _ => injection H as ?; subst
  end.

(** Case analysis on the integer comparison that blocks the goal. *)
Ltac zcase :=
  match goal with
  | |- context [Z.ltb ?a ?b] => destruct (Z.ltb_spec a b)
  | |- context [Z.leb ?a ?b] => destruct (Z.leb_spec a b)
  | |- context [Z.eqb ?a ?b] => destruct (Z.eqb_spec a b)
  | |- context [Z.gtb ?a ?b] => rewrite (Z.gtb_ltb a b); destruct (Z.ltb_spec b a)
  | |- context [Z.geb ?a ?b] => rewrite (Z.geb_leb a b); destruct (Z.leb_spec b a)
  end.

Ltac zcases := repeat (zcase; try lia).

(** Evaluates the integer comparisons of the goal that [lia] decides. *)
Ltac ztest e := first [ replace e with true by lia | replace e with false by lia ].

Ltac ztests :=
  repeat match goal with
  | |- context [Z.ltb ?a ?b] => ztest (Z.ltb a b)
  | |- context [Z.leb ?a ?b] => ztest (Z.leb a b)
  | |- context [Z.eqb ?a ?b] => ztest (Z.eqb a b)
  | |- context [Z.gtb ?a ?b] => ztest (Z.gtb a b)
  | |- context [Z.geb ?a ?b] => ztest (Z.geb a b)
  end.

(** Closed powers of two, so that [lia] sees literals. *)
Ltac pow2 :=
  repeat match goal with
  | |- context [2 ^ ?n] =>
      match n with Z0 => idtac | Zpos _ => idtac end;
      let v := eval vm_compute in (2 ^ n) in change (2 ^ n) with v
  | H : context [2 ^ ?n] |- _ =>
      match n with Z0 => idtac | Zpos _ => idtac end;
      let v := eval vm_compute in (2 ^ n) in change (2 ^ n) with v in H
  end.

Ltac ranges := unfold is_u, is_i in *; pow2.

Create HintDb gow.
Create Rewrite HintDb gow.

(** * Machine-integer lemmas *)

Lemma pow2_pos w : 0 <= w -> 0 < 2 ^ w.
Proof. intros. apply Z.pow_pos_nonneg; lia. Qed.

Lemma wrap_range w x : 0 <= w -> is_u w (wrap w x).
Proof. intros. apply Z.mod_pos_bound, pow2_pos. done. Qed.

Lemma wrap_small w x : is_u w x -> wrap w x = x.
Proof. apply Z.mod_small. Qed.

Lemma wrap_wrap w x : 0 <= w -> wrap w (wrap w x) = wrap w x.
Proof. intros. apply wrap_small, wrap_range. done. Qed.

Lemma swrap_range w x : 0 < w -> is_i w (swrap w x).
Proof.
  intros. unfold is_i, swrap.
  pose proof (Z.mod_pos_bound (x + 2 ^ (w - 1)) (2 ^ w) (pow2_pos w ltac:(lia))).
  assert (2 ^ w = 2 * 2 ^ (w - 1)) by (rewrite <- Z.pow_succ_r by lia; f_equal; lia).
  lia.
Qed.

Lemma swrap_small w x : 0 < w -> is_i w x -> swrap w x = x.
Proof.
  unfold is_i, swrap. intros.
  assert (2 ^ w = 2 * 2 ^ (w - 1)) by (rewrite <- Z.pow_succ_r by lia; f_equal; lia).
  rewrite Z.mod_small; lia.
Qed.

(** Two residues that differ by a multiple of [2^w] wrap to the same value. *)
Lemma swrap_add_l w x y : swrap w (swrap w x + y) = swrap w (x + y).
Proof.
  unfold swrap. f_equal.
  replace ((x + 2 ^ (w - 1)) mod 2 ^ w - 2 ^ (w - 1) + y + 2 ^ (w - 1))
    with ((x + 2 ^ (w - 1)) mod 2 ^ w + y) by lia.
  rewrite Zplus_mod_idemp_l. f_equal. lia.
Qed.

Lemma wrap_add_mul w x k : 0 <= w -> wrap w (x + k * 2 ^ w) = wrap w x.
Proof. intros. apply Z_mod_plus_full. Qed.

Lemma shiftl_mul x n : 0 <= n -> x ≪ n = x * 2 ^ n.
Proof. apply Z.shiftl_mul_pow2. Qed.

Lemma shiftr_div x n : 0 <= n -> x ≫ n = x / 2 ^ n.
Proof. apply Z.shiftr_div_pow2. Qed.

(** Masking with [2^n - 1] is a remainder. *)
Lemma land_mask x n : 0 <= n -> Z.land x (2 ^ n - 1) = x mod 2 ^ n.
Proof.
  intros. rewrite <- Z.land_ones by done. f_equal. rewrite Z.ones_equiv. lia.
Qed.

Lemma testbit_high w x i : is_u w x -> w <= i -> Z.testbit x i = false.
Proof.
  intros [??] ?. destruct (Z.eq_dec x 0) as [->|]; [apply Z.bits_0|].
  apply Z.bits_above_log2; [done|].
  destruct (Z.le_gt_cases w 0).
  - assert (2 ^ w <= 1); [|lia].
    destruct (Z.eq_dec w 0) as [->|]; [done|]. rewrite Z.pow_neg_r; lia.
  - apply Z.lt_le_trans with w; [|done]. apply Z.log2_lt_pow2; lia.
Qed.

(** Or-ing a low part with a shifted high part is adding them. *)
Lemma lor_shiftl_add a b n : 0 <= n -> is_u n a -> Z.lor a (b ≪ n) = a + b * 2 ^ n.
Proof.
  intros. rewrite <- shiftl_mul by done. symmetry. apply Z.add_nocarry_lor.
  apply Z.bits_inj'. intros i ?. rewrite Z.land_spec, Z.bits_0.
  destruct (Z.le_gt_cases n i).
  - rewrite (testbit_high n) by done. done.
  - rewrite Z.shiftl_spec_low by done. apply andb_false_r.
Qed.

Lemma pow2_half w : 0 < w -> 2 ^ w = 2 * 2 ^ (w - 1).
Proof. intros. rewrite <- Z.pow_succ_r by lia. f_equal. lia. Qed.

Lemma wrap_m1 w : 0 < w -> wrap w (-1) = 2 ^ w - 1.
Proof.
  intros. unfold wrap. pose proof (pow2_pos w ltac:(lia)).
  symmetry. apply (Z.mod_unique _ _ (-1)); lia.
Qed.

Lemma is_u_mono w w' x : is_u w x -> w <= w' -> is_u w' x.
Proof. unfold is_u. intros. assert (2 ^ w <= 2 ^ w') by (apply Z.pow_le_mono_r; lia). lia. Qed.

(** ** Zigzag arithmetic *)

Lemma lxor_ones w a : 0 <= w -> is_u w a -> Z.lxor a (2 ^ w - 1) = 2 ^ w - 1 - a.
Proof.
  intros Hw Ha. replace (2 ^ w - 1) with (Z.ones w) by (rewrite Z.ones_equiv; lia).
  assert (Z.ones w - a = Z.ldiff (Z.ones w) a) as ->.
  { apply Z.sub_nocarry_ldiff. apply Z.bits_inj'. intros i Hi.
    rewrite Z.ldiff_spec, Z.bits_0. destruct (Z.le_gt_cases w i).
    - by rewrite (testbit_high w a).
    - rewrite Z.ones_spec_low by lia. apply andb_false_r. }
  apply Z.bits_inj'. intros i Hi. rewrite Z.lxor_spec, Z.ldiff_spec.
  destruct (Z.le_gt_cases w i).
  - by rewrite (testbit_high w a), Z.ones_spec_high by (done || lia).
  - rewrite Z.ones_spec_low by lia. by destruct (Z.testbit a i).
Qed.

Lemma is_u_lor w a b : 0 <= w -> is_u w a -> is_u w b -> is_u w (Z.lor a b).
Proof.
  intros Hw Ha Hb. split; [apply Z.lor_nonneg; split; [apply Ha|apply Hb]|].
  destruct (Z.eq_dec (Z.lor a b) 0) as [->|Hne]; [by apply pow2_pos|].
  assert (0 <= Z.lor a b) by (apply Z.lor_nonneg; split; [apply Ha|apply Hb]).
  apply Z.log2_lt_cancel. rewrite Z.log2_pow2 by done.
  rewrite Z.log2_lor by (apply Ha || apply Hb).
  destruct (Z.le_gt_cases w (Z.log2 a `max` Z.log2 b)) as [Hm|]; [|done].
  exfalso. pose proof (Z.bit_log2 (Z.lor a b) ltac:(lia)) as Hbit.
  rewrite Z.log2_lor in Hbit by (apply Ha || apply Hb).
  by rewrite Z.lor_spec, (testbit_high w a), (testbit_high w b) in Hbit.
Qed.

Lemma is_u_lxor w a b : 0 <= w -> is_u w a -> is_u w b -> is_u w (Z.lxor a b).
Proof.
  intros Hw Ha Hb.
  assert (is_u w (Z.lxor a b) <-> wrap w (Z.lxor a b) = Z.lxor a b) as ->.
  { split; [apply wrap_small|]. intros <-. by apply wrap_range. }
  unfold wrap. rewrite <- Z.land_ones by done. apply Z.bits_inj'. intros i Hi.
  rewrite Z.land_spec. destruct (Z.le_gt_cases w i).
  - by rewrite Z.lxor_spec, (testbit_high w a), (testbit_high w b).
  - rewrite Z.ones_spec_low by lia. apply andb_true_r.
Qed.

Lemma is_u_shiftr w x n : 0 <= n -> is_u w x -> is_u w (x ≫ n).
Proof.
  intros Hn [H1 H2]. rewrite shiftr_div by done. pose proof (pow2_pos n Hn).
  split; [by apply Z.div_pos|]. apply Z.le_lt_trans with x; [|done].
  apply Z.div_le_upper_bound; nia.
Qed.

(** The lowest set bit of [x = 2^k * (2q+1)] is what [x & -x] keeps. *)
Lemma land_odd_odd a b : Z.land (2 * a + 1) (2 * b + 1) = 2 * Z.land a b + 1.
Proof.
  apply Z.bits_inj'. intros i Hi. rewrite Z.land_spec.
  destruct (Z.eq_dec i 0) as [->|]; [by rewrite !Z.testbit_odd_0|].
  replace i with (Z.succ (i - 1)) by lia. rewrite !Z.testbit_odd_succ by lia.
  by rewrite Z.land_spec.
Qed.

Lemma land_complement w q : 0 <= w -> is_u w q -> Z.land q (2 ^ w - 1 - q) = 0.
Proof.
  intros Hw Hq. rewrite <- lxor_ones by done.
  replace (2 ^ w - 1) with (Z.ones w) by (rewrite Z.ones_equiv; lia).
  apply Z.bits_inj'. intros i Hi. rewrite Z.land_spec, Z.lxor_spec, Z.bits_0.
  destruct (Z.le_gt_cases w i).
  - by rewrite (testbit_high w q).
  - rewrite Z.ones_spec_low by lia. by destruct (Z.testbit q i).
Qed.

Lemma land_neg w k q :
  0 <= k -> 0 <= q -> 2 ^ k * (2 * q + 1) < 2 ^ w ->
  Z.land (2 ^ k * (2 * q + 1)) (wrap w (- (2 ^ k * (2 * q + 1)))) = 2 ^ k.
Proof.
  intros Hk Hq Hw. pose proof (pow2_pos k Hk).
  assert (0 <= w).
  { destruct (Z.lt_ge_cases w 0) as [Hn|]; [|done]. rewrite (Z.pow_neg_r 2 w Hn) in Hw. nia. }
  assert (2 ^ k < 2 ^ w) by nia.
  assert (k < w) by (apply (Z.pow_lt_mono_r_iff 2); lia).
  assert (2 ^ w = 2 ^ k * 2 ^ (w - k)) as E by (rewrite <- Z.pow_add_r by lia; f_equal; lia).
  pose proof (pow2_half (w - k) ltac:(lia)) as E2.
  replace (wrap w _) with (2 ^ k * (2 ^ (w - k) - (2 * q + 1))).
  2:{ unfold wrap. apply (Z.mod_unique _ _ (-1)); [left|]; nia. }
  rewrite (Z.mul_comm (2 ^ k) (2 * q + 1)), (Z.mul_comm (2 ^ k) (_ - _)), <- !shiftl_mul by done.
  rewrite <- Z.shiftl_land, E2.
  replace (2 * 2 ^ (w - k - 1) - (2 * q + 1)) with (2 * (2 ^ (w - k - 1) - 1 - q) + 1) by lia.
  rewrite land_odd_odd, land_complement by (unfold is_u; try lia; nia).
  rewrite shiftl_mul by done. lia.
Qed.

Lemma forall_below (n : Z) (P : Z -> bool) :
  forallb P (seqZ 0 n) = true -> forall k, 0 <= k < n -> P k = true.
Proof.
  intros H k Hk. rewrite forallb_forall in H. apply H, list_elem_of_In, elem_of_seqZ. lia.
Qed.

Lemma byte_forall (P : Z -> bool) :
  forallb P (seqZ 0 256) = true -> forall b, is_u 8 b -> P b = true.
Proof.
  intros H b Hb. rewrite forallb_forall in H. apply H, list_elem_of_In, elem_of_seqZ.
  ranges. lia.
Qed.

#[export] Hint Resolve pow2_pos wrap_range wrap_small : gow.
#[export] Hint Extern 5 (_ <= _) => lia : gow.
#[export] Hint Extern 5 (_ < _) => lia : gow.
#[export] Hint Rewrite @wrap_wrap using lia : gow.

(** * Loops: termination and invariants *)

Lemma while_exit {S} (m : S -> nat) cond body fuel (s : S) :
  (forall s, cond s = true -> (m (body s) < m s)%nat) ->
  (m s <= fuel)%nat -> cond (while fuel cond body s) = false.
Proof.
  intros Hm. revert s. induction fuel as [|fuel IH]; intros s Hs; simpl.
  - destruct (cond s) eqn:E; [|done]. specialize (Hm s E). lia.
  - destruct (cond s) eqn:E; [|done]. apply IH. specialize (Hm s E). lia.
Qed.

Lemma while_inv {S} (P : S -> Prop) cond body fuel (s : S) :
  (forall s, P s -> cond s = true -> P (body s)) -> P s -> P (while fuel cond body s).
Proof.
  intros HP. revert s. induction fuel as [|fuel IH]; intros s Hs; simpl; [done|].
  destruct (cond s) eqn:E; eauto.
Qed.

Lemma rounds_step {S R} (I : S -> Prop) (Q : R -> Prop) (m : S -> Z) (body : S -> S + R) n s :
  (forall s, I s -> match body s with inl s' => I s' /\ m s' < m s | inr r => Q r end) -> I s ->
  match rounds n body s with inl s' => I s' /\ m s' <= m s - 2 ^ Z.of_nat n | inr r => Q r end.
Proof.
  intros Hb. revert s. induction n as [|n IH]; intros s Hs; cbn [rounds].
  - specialize (Hb s Hs). destruct (body s) as [s'|r]; [|done]. split; [tauto|]. cbn. lia.
  - specialize (IH s Hs) as IH1. destruct (rounds n body s) as [s1|r]; [|done]. destruct IH1 as [H1 M1].
    specialize (IH s1 H1). destruct (rounds n body s1) as [s2|r]; [|done]. destruct IH as [H2 M2].
    split; [done|]. rewrite Nat2Z.inj_succ, Z.pow_succ_r by lia. lia.
Qed.

Lemma rounds_exit {S R} (I : S -> Prop) (Q : R -> Prop) (m : S -> Z) (body : S -> S + R) n s :
  (forall s, I s -> match body s with inl s' => I s' /\ m s' < m s | inr r => Q r end) ->
  (forall s, I s -> 0 <= m s) -> I s -> m s < 2 ^ Z.of_nat n ->
  exists r, rounds n body s = inr r /\ Q r.
Proof.
  intros Hb Hm Hs Hn. pose proof (rounds_step I Q m body n s Hb Hs) as H.
  destruct (rounds n body s) as [s'|r]; [|by exists r]. destruct H as [Hs' Hlt]. specialize (Hm s' Hs'). lia.
Qed.

(** * Slices *)

Lemma zlen_app {A} (l k : list A) : zlen (l ++ k) = zlen l + zlen k.
Proof. unfold zlen. rewrite length_app. lia. Qed.

Lemma zlen_cons {A} (x : A) l : zlen (x :: l) = 1 + zlen l.
Proof. unfold zlen. simpl. lia. Qed.

Lemma zlen_nil {A} : zlen (@nil A) = 0.
Proof. done. Qed.

Lemma zlen_nonneg {A} (l : list A) : 0 <= zlen l.
Proof. unfold zlen. lia. Qed.

#[export] Hint Rewrite @zlen_app @zlen_cons @zlen_nil : gow.

(** The slice that holds exactly the middle part of a concatenation. *)
Lemma slice_mid {A} (p w s : list A) lo n :
  lo = zlen p -> n = zlen w -> slice (p ++ w ++ s) lo n = w.
Proof.
  intros -> ->. unfold slice, zlen. rewrite !Nat2Z.id, drop_app_length.
  apply take_app_length.
Qed.

Lemma slice_zlen {A} (l : list A) lo n :
  0 <= lo -> 0 <= n -> lo + n <= zlen l -> zlen (slice l lo n) = n.
Proof.
  unfold slice, zlen. intros. rewrite length_take, length_drop. lia.
Qed.

Lemma lookup_mid {A} (p s : list A) x i :
  i = zlen p -> (p ++ x :: s) !! Z.to_nat i = Some x.
Proof.
  intros ->. unfold zlen. rewrite Nat2Z.id, lookup_app_r by lia.
  by rewrite Nat.sub_diag.
Qed.

Lemma split_at {A} (l : list A) i :
  0 <= i < zlen l -> exists p x s, l = p ++ x :: s /\ i = zlen p.
Proof.
  unfold zlen. intros Hi.
  destruct (lookup_lt_is_Some_2 l (Z.to_nat i)) as [x Hx]; [lia|].
  exists (take (Z.to_nat i) l), x, (drop (S (Z.to_nat i)) l).
  apply lookup_lt_Some in Hx as Hl.
  rewrite take_drop_middle by done. rewrite length_take. split; [done|lia].
Qed.

Lemma byte_at_mid p x s : byte_at (p ++ x :: s) (zlen p) = x.
Proof. unfold byte_at. by rewrite lookup_mid. Qed.

Lemma bytes_ok_app b c : bytes_ok b -> bytes_ok c -> bytes_ok (b ++ c).
Proof. intros. by apply Forall_app. Qed.

Lemma bytes_ok_slice b lo n : bytes_ok b -> bytes_ok (slice b lo n).
Proof. intros. by apply Forall_take, Forall_drop. Qed.

Lemma byte_at_ok b i : bytes_ok b -> is_u 8 (byte_at b i).
Proof.
  intros H. unfold byte_at. destruct (b !! Z.to_nat i) eqn:E; cbn; [|by ranges].
  by apply (Forall_lookup_1 _ _ _ _ H E).
Qed.

#[export] Hint Resolve bytes_ok_app : gow.

(** * Little and big endian integers *)

Lemma le_put_zlen n v : 0 <= n -> zlen (le_put n v) = n.
Proof. apply length_Z_to_little_endian. Qed.

Lemma le_put_ok n v : 0 <= n -> bytes_ok (le_put n v).
Proof. intros. by apply Z_to_little_endian_bound. Qed.

Lemma le_get_put n v : 0 <= n -> is_u (n * 8) v -> le_get (le_put n v) = v.
Proof.
  intros. unfold le_get, le_put.
  rewrite little_endian_to_Z_to_little_endian by lia. by apply Z.mod_small.
Qed.

Lemma le_put_get b : bytes_ok b -> le_put (zlen b) (le_get b) = b.
Proof. intros. by apply Z_to_little_endian_to_Z. Qed.

Lemma le_get_range b : bytes_ok b -> is_u (zlen b * 8) (le_get b).
Proof.
  intros H. pose proof (le_put_get b H) as E. unfold le_put, le_get in *.
  apply (f_equal (little_endian_to_Z 8)) in E.
  rewrite little_endian_to_Z_to_little_endian in E by (unfold zlen; lia).
  rewrite <- E. apply Z.mod_pos_bound, pow2_pos. unfold zlen. lia.
Qed.

Lemma be_get_put n v : 0 <= n -> is_u (n * 8) v -> be_get (be_put n v) = v.
Proof. intros. unfold be_get, be_put. rewrite reverse_involutive. by apply le_get_put. Qed.

Lemma be_put_zlen n v : 0 <= n -> zlen (be_put n v) = n.
Proof. intros. unfold be_put, zlen. rewrite length_reverse. by apply le_put_zlen. Qed.

Lemma be_put_ok n v : 0 <= n -> bytes_ok (be_put n v).
Proof. intros. apply Forall_reverse, le_put_ok. done. Qed.

Lemma be_get_range b : bytes_ok b -> is_u (8 * zlen b) (be_get b).
Proof.
  intros Hb. unfold be_get. assert (bytes_ok (reverse b)) as Hr by (by apply Forall_reverse).
  apply le_get_range in Hr. unfold zlen in *. rewrite length_reverse in Hr. by rewrite Z.mul_comm.
Qed.

Lemma le_get_cons x b : is_u 8 x -> le_get (x :: b) = x + le_get b * 2 ^ 8.
Proof. intros. unfold le_get. simpl. by apply lor_shiftl_add. Qed.

Lemma le_get_app a b : bytes_ok a -> le_get (a ++ b) = le_get a + le_get b * 2 ^ (8 * zlen a).
Proof.
  intros Ha. induction Ha as [|x a Hx Ha IH].
  - change (2 ^ (8 * zlen [])) with 1. change (le_get []) with 0. simpl. lia.
  - simpl app. rewrite !le_get_cons, IH, zlen_cons by done.
    pose proof (zlen_nonneg a).
    replace (8 * (1 + zlen a)) with (8 + 8 * zlen a) by lia. rewrite Z.pow_add_r by lia. lia.
Qed.

Lemma le_get_slice_ok b lo n :
  bytes_ok b -> 0 <= lo -> 0 <= n -> lo + n <= zlen b -> is_u (n * 8) (le_get (slice b lo n)).
Proof.
  intros. pose proof (le_get_range (slice b lo n)) as H'. rewrite slice_zlen in H' by done.
  by apply H', bytes_ok_slice.
Qed.

Lemma le_put_head n y : 0 < n -> exists t, le_put n y = y mod 256 :: t.
Proof.
  intros. unfold le_put. replace n with (Z.succ (n - 1)) by lia.
  rewrite Z_to_little_endian_succ, Z.land_ones by lia. eauto.
Qed.

#[export] Hint Rewrite le_put_zlen be_put_zlen using lia : gow.
#[export] Hint Resolve le_put_ok : gow.

(** * Code with state

    [runs m s Q]: [m] does not panic from [s], and its result and state satisfy
    [Q].  The rules below are those of a weakest precondition. *)

Definition runs {S A} (m : ST S A) (s : S) (Q : A -> S -> Prop) : Prop :=
  match m s with Some (a, s) => Q a s | None => False end.

Section Runs.
Context {S : Type}.

Lemma runs_exists {A} (m : ST S A) s Q : runs m s Q <-> exists a s', m s = Some (a, s') /\ Q a s'.
Proof.
  unfold runs. destruct (m s) as [[a s']|]; split.
  - eauto.
  - intros (? & ? & [= <- <-] & ?). done.
  - done.
  - by intros (? & ? & ? & _).
Qed.

Lemma runs_mono {A} (m : ST S A) s (Q Q' : A -> S -> Prop) :
  runs m s Q -> (forall a s, Q a s -> Q' a s) -> runs m s Q'.
Proof. unfold runs. destruct (m s) as [[a s']|]; auto. Qed.

Lemma runs_bind {A B} (m : ST S A) (f : A -> ST S B) s Q :
  runs m s (fun a s => runs (f a) s Q) -> runs (m ≫= f) s Q.
Proof. unfold runs, mbind, ST_bind. by destruct (m s) as [[a s']|]. Qed.

Lemma runs_ret {A} (a : A) s (Q : A -> S -> Prop) : Q a s -> runs (mret a) s Q.
Proof. done. Qed.

Lemma runs_modify (f : S -> S) s (Q : unit -> S -> Prop) : Q tt (f s) -> runs (modify f) s Q.
Proof. done. Qed.

Lemma runs_get (s : S) (Q : S -> S -> Prop) : Q s s -> runs get_state s Q.
Proof. done. Qed.

Lemma runs_of_option {A} (o : option A) a s (Q : A -> S -> Prop) :
  o = Some a -> Q a s -> runs (of_option o) s Q.
Proof. by intros ->. Qed.

(** A loop that keeps an invariant of the elements seen so far. *)
Lemma runs_for_each {A} (body : A -> ST S unit) (P : list A -> S -> Prop) xs s :
  (forall seen x s, P seen s -> runs (body x) s (fun _ => P (seen ++ [x]))) ->
  forall seen, P seen s -> runs (for_each body xs) s (fun _ => P (seen ++ xs)).
Proof.
  intros Hb. revert s. induction xs as [|x xs IH]; intros s seen HP; cbn [for_each].
  - rewrite app_nil_r. by apply runs_ret.
  - apply runs_bind. eapply runs_mono; [by apply Hb|]. intros [] s' HP'.
    rewrite cons_middle, app_assoc. by apply IH.
Qed.
End Runs.
