(* ===== verification/Codec.v ===== *)
(** The binary codec of [server/libs/codec]: the buffered [SimpleEncoder], the
    bounds-checked [SimpleDecoder], the varint and zigzag formats
    ([varint_codec.go]) and the prefix varint format
    ([prefix_varint_codec.go]).

    The encoder's state is its buffer and its reference count; the decoder's is
    its buffer, its read offset and the number of failed reads.  A Go [int]
    that only counts bytes of one buffer (offset, err, lengths) is a [Z]. *)

From S2P Require Import Prelude.

(** * Encoder *)

Record SimpleEncoder := mkEncoder {
  e_buf : list Z;
  ReferenceCount : Z
}.

(** [e.buf = append(e.buf, bs...)] *)
Definition e_append (e : SimpleEncoder) (bs : list Z) : SimpleEncoder :=
  mkEncoder (e_buf e ++ bs) (ReferenceCount e).

(** What the encoder and decoder need of a protobuf message.  [MarshalTo]
    gets the buffer it writes into and returns that buffer after the write with
    the number of bytes written, or [None] for an error.  [Unmarshal] merges the
    fields of its input into its receiver, and returns it with [true] when there is
    no error. *)
Class PBCodec (A : Type) := {
  pb_Size : A -> Z;
  pb_MarshalTo : A -> list Z -> option (list Z * Z);
  pb_Unmarshal : A -> list Z -> A * bool
}.

(** [copy(dst, src)] into the front of [dst]. *)
Definition copy_to {A} (dst src : list A) : list A :=
  take (length dst) src ++ drop (length src) dst.

(** [None] is the panic on a marshal error. *)
Definition WritePB `{PBCodec A} (e : SimpleEncoder) (v : A) : option SimpleEncoder :=
  let offset := zlen (e_buf e) in
  let buf := e_buf e ++ replicate (Z.to_nat (pb_Size v + 16)) 0 in
  match pb_MarshalTo v (drop (Z.to_nat (offset + 4)) buf) with
  | None => None
  | Some (tail, n) =>
      let buf := take (Z.to_nat (offset + 4)) buf ++ tail in
      let buf := take (Z.to_nat offset) buf
                 ++ copy_to (drop (Z.to_nat offset) buf) (le_put 4 (u32 n)) in
      Some (mkEncoder (take (Z.to_nat (offset + 4 + n)) buf) (ReferenceCount e))
  end.

Definition WriteBool (e : SimpleEncoder) (v : bool) : SimpleEncoder :=
  if v then e_append e [1] else e_append e [0].

Definition WriteU8 (e : SimpleEncoder) (v : Z) : SimpleEncoder := e_append e [v].

Definition WriteU16 (e : SimpleEncoder) (v : Z) : SimpleEncoder :=
  e_append e (le_put 2 v).

Definition WriteU32 (e : SimpleEncoder) (v : Z) : SimpleEncoder :=
  e_append e (le_put 4 v).

Definition WriteU64 (e : SimpleEncoder) (v : Z) : SimpleEncoder :=
  e_append e (le_put 8 v).

Definition WriteU16Slice (e : SimpleEncoder) (vs : list Z) : SimpleEncoder :=
  foldl (fun e v => e_append e (le_put 2 v)) (WriteU32 e (u32 (zlen vs))) vs.

Definition WriteU32Slice (e : SimpleEncoder) (vs : list Z) : SimpleEncoder :=
  foldl (fun e v => e_append e (le_put 4 v)) (WriteU32 e (u32 (zlen vs))) vs.

(** [None] is the panic on a slice that is not 16 bytes long. *)
Definition WriteIPv6 (e : SimpleEncoder) (v : list Z) : option SimpleEncoder :=
  if negb (zlen v =? 16) then None else Some (e_append e v).

Definition WriteString255 (e : SimpleEncoder) (v : list Z) : SimpleEncoder :=
  let len := if zlen v >? 255 then 255 else zlen v in
  let e := e_append e [u8 len] in
  e_append e (take (Z.to_nat len) v).

Definition WriteRawString (e : SimpleEncoder) (v : list Z) : SimpleEncoder :=
  e_append e v.

Definition WriteBytes (e : SimpleEncoder) (v : list Z) : SimpleEncoder :=
  e_append (WriteU32 e (u32 (zlen v))) v.

(** ** Varint writers *)

(** The loop of [encodeVarint] on the pair (bytes appended so far, x). *)
Definition encodeVarint_cond (s : list Z * Z) : bool := s.2 >=? 1 ≪ 7.

Definition encodeVarint_body (s : list Z * Z) : list Z * Z :=
  (s.1 ++ [u8 (Z.lor (Z.land s.2 0x7f) 0x80)], s.2 ≫ 7).

(** A [uint64] has at most ten groups of seven bits, so nine rounds are enough
    ([encodeVarint_terminates]). *)
Definition encodeVarint (e : SimpleEncoder) (x : Z) : SimpleEncoder :=
  let '(buf, x) := while 9 encodeVarint_cond encodeVarint_body (e_buf e, x) in
  e_append (mkEncoder buf (ReferenceCount e)) [u8 x].

Definition WriteZigzagU32 (e : SimpleEncoder) (v : Z) : SimpleEncoder :=
  encodeVarint e (Z.lxor (shl 32 v 1) (u32 (i32 v ≫ 31))).

Definition WriteZigzagU64 (e : SimpleEncoder) (v : Z) : SimpleEncoder :=
  encodeVarint e (Z.lxor (shl 64 v 1) (u64 (i64 v ≫ 63))).

Definition WriteVarintU32 (e : SimpleEncoder) (v : Z) : SimpleEncoder :=
  encodeVarint e v.

Definition WriteVarintU64 (e : SimpleEncoder) (v : Z) : SimpleEncoder :=
  encodeVarint e v.

Definition WriteBytesWithVarintLen (e : SimpleEncoder) (v : list Z) : SimpleEncoder :=
  e_append (WriteVarintU32 e (u32 (zlen v))) v.

(** ** Prefix varint writer *)

Definition de_Bruijn_lookup_trailing : list Z :=
  [0; 1; 28; 2; 29; 14; 24; 3; 30; 22; 20; 15; 25; 17; 4; 8; 31; 27; 13; 23; 21;
   19; 16; 7; 26; 12; 18; 6; 11; 5; 10; 9].

Definition de_Bruijn_lookup_leading : list Z :=
  [31; 22; 30; 21; 18; 10; 29; 2; 20; 17; 15; 13; 9; 6; 28; 1; 23; 19; 11; 3; 16;
   14; 7; 24; 12; 4; 8; 25; 5; 26; 27; 0].

Definition count_trailing_zeros_32 (x : Z) : Z :=
  byte_at de_Bruijn_lookup_trailing
    (Z.land (u32 (Z.land x (u32 (- x)) * 0x077cb531)) 0xffffffff ≫ 27).

Definition count_leading_zeros_32 (x : Z) : Z :=
  let x := Z.lor x (x ≫ 1) in
  let x := Z.lor x (x ≫ 2) in
  let x := Z.lor x (x ≫ 4) in
  let x := Z.lor x (x ≫ 8) in
  let x := Z.lor x (x ≫ 16) in
  byte_at de_Bruijn_lookup_leading (Z.land (u32 (x * 0x07c4acdd)) 0xffffffff ≫ 27).

Definition count_leading_zeros_64 (x : Z) : Z :=
  if x ≫ 32 =? 0 then 32 + count_leading_zeros_32 (u32 (Z.land x 0xffffffff))
  else count_leading_zeros_32 (u32 (x ≫ 32)).

(** The [for n := 0; n < bytes; n++] loop that appends the low bytes of [x]. *)
Fixpoint WritePrefixU64_loop (bytes : nat) (buf : list Z) (x : Z) : list Z :=
  match bytes with
  | O => buf
  | S bytes => WritePrefixU64_loop bytes (buf ++ [u8 (Z.land x 0xff)]) (x ≫ 8)
  end.

Definition WritePrefixU64 (e : SimpleEncoder) (x : Z) : SimpleEncoder :=
  let bits := 64 - count_leading_zeros_64 (Z.lor x 1) in
  let bytes := 1 + Z.quot (bits - 1) 7 in
  let '(buf, bytes, x) :=
    if bits >? 56 then (e_buf e ++ [0], 8, x)
    else (e_buf e, bytes, shl 64 (u64 (2 * x + 1)) (bytes - 1)) in
  mkEncoder (WritePrefixU64_loop (Z.to_nat bytes) buf x) (ReferenceCount e).

(** ** Buffer and reference count *)

Definition Encoder_Reset (e : SimpleEncoder) : SimpleEncoder :=
  mkEncoder [] (ReferenceCount e).

Definition Encoder_Bytes (e : SimpleEncoder) : list Z := e_buf e.

(** * Decoder *)

Record SimpleDecoder := mkDecoder {
  d_buf : list Z;
  d_offset : Z;
  d_err : Z
}.

Definition Decoder_Init (buf : list Z) : SimpleDecoder := mkDecoder buf 0 0.

(** [d.offset += n] and [d.err++] *)
Definition advance (d : SimpleDecoder) (n : Z) : SimpleDecoder :=
  mkDecoder (d_buf d) (d_offset d + n) (d_err d).

Definition fail (d : SimpleDecoder) : SimpleDecoder :=
  mkDecoder (d_buf d) (d_offset d) (d_err d + 1).

(** The guard [d.offset > len(d.buf)] of every bounds-checked read. *)
Definition past_end (d : SimpleDecoder) : bool := d_offset d >? zlen (d_buf d).

Definition ReadU8 (d : SimpleDecoder) : Z * SimpleDecoder :=
  let d := advance d 1 in
  if past_end d then (0, fail d) else (byte_at (d_buf d) (d_offset d - 1), d).

Definition ReadBool (d : SimpleDecoder) : bool * SimpleDecoder :=
  let d := advance d 1 in
  if past_end d then (false, fail d) else (byte_at (d_buf d) (d_offset d - 1) =? 1, d).

Definition ReadU16 (d : SimpleDecoder) : Z * SimpleDecoder :=
  let d := advance d 2 in
  if past_end d then (0, fail d) else (le_get (slice (d_buf d) (d_offset d - 2) 2), d).

Definition ReadU32 (d : SimpleDecoder) : Z * SimpleDecoder :=
  let d := advance d 4 in
  if past_end d then (0, fail d) else (le_get (slice (d_buf d) (d_offset d - 4) 4), d).

Definition ReadU64 (d : SimpleDecoder) : Z * SimpleDecoder :=
  let d := advance d 8 in
  if past_end d then (0, fail d) else (le_get (slice (d_buf d) (d_offset d - 8) 8), d).

(** The [for i := l; i > 0; i--] loops of the slice readers, with the element
    width [w] in bytes. *)
Fixpoint read_elems (w : Z) (d : SimpleDecoder) (i : nat) : list Z :=
  match i with
  | O => []
  | S i' => le_get (slice (d_buf d) (d_offset d - w * Z.of_nat i) w) :: read_elems w d i'
  end.

Definition ReadU16Slice (d : SimpleDecoder) : list Z * SimpleDecoder :=
  let '(l, d) := ReadU32 d in
  if l =? 0 then ([], d)
  else
    let d := advance d (l * 2) in
    if past_end d then ([], fail d) else (read_elems 2 d (Z.to_nat l), d).

Definition ReadU32Slice (d : SimpleDecoder) : list Z * SimpleDecoder :=
  let '(l, d) := ReadU32 d in
  if l =? 0 then ([], d)
  else
    let d := advance d (l * 4) in
    if past_end d then ([], fail d) else (read_elems 4 d (Z.to_nat l), d).

(** [None] is the panic on a destination of the wrong length; otherwise the
    destination after the call is returned. *)
Definition ReadIPv6 (d : SimpleDecoder) (v : list Z) : option (list Z * SimpleDecoder) :=
  if negb (zlen v =? 16) then None
  else
    let d := advance d 16 in
    if past_end d then Some (v, fail d)
    else Some (copy_to v (slice (d_buf d) (d_offset d - 16) 16), d).

Definition ReadIPv4 (d : SimpleDecoder) (v : list Z) : option (list Z * SimpleDecoder) :=
  if negb (zlen v =? 4) then None
  else
    let d := advance d 4 in
    if past_end d then Some (v, fail d)
    else Some (copy_to v (slice (d_buf d) (d_offset d - 4) 4), d).

Definition ReadString255 (d : SimpleDecoder) : list Z * SimpleDecoder :=
  let '(l, d) := ReadU8 d in
  let d := advance d l in
  if past_end d then ([], fail d) else (slice (d_buf d) (d_offset d - l) l, d).

Definition ReadBytes (d : SimpleDecoder) : list Z * SimpleDecoder :=
  let '(l, d) := ReadU32 d in
  let d := advance d l in
  if past_end d then ([], fail d) else (slice (d_buf d) (d_offset d - l) l, d).

(** The message after the call, [true] when no error is returned, and the decoder. *)
Definition ReadPB `{PBCodec A} (d : SimpleDecoder) (pb : A) : A * bool * SimpleDecoder :=
  let d := advance d 4 in
  if past_end d then (pb, false, fail d)
  else
    let n := le_get (slice (d_buf d) (d_offset d - 4) 4) in
    let d := advance d n in
    if past_end d then (pb, false, fail d)
    else
      let '(pb, ok) := pb_Unmarshal pb (slice (d_buf d) (d_offset d - n) n) in
      (pb, ok, if ok then d else fail d).

(** ** Varint readers *)

(** The loop of [decodeVarintSlow]: one round per shift 0, 7, ..., 63. *)
Fixpoint decodeVarintSlow_loop (shifts : list Z) (d : SimpleDecoder) (i x : Z)
    : Z * SimpleDecoder :=
  match shifts with
  | [] => (x, fail d)
  | shift :: shifts =>
      if i >=? zlen (d_buf d) then (x, fail d)
      else
        let b := byte_at (d_buf d) i in
        let i := i + 1 in
        let x := Z.lor x (shl 64 (Z.land b 0x7f) shift) in
        if b <? 0x80 then (x, mkDecoder (d_buf d) i (d_err d))
        else decodeVarintSlow_loop shifts d i x
  end.

Definition decodeVarintSlow (d : SimpleDecoder) : Z * SimpleDecoder :=
  decodeVarintSlow_loop [0; 7; 14; 21; 28; 35; 42; 49; 56; 63] d (d_offset d) 0.

(** The nine unrolled steps of [DecodeVarint] after the first byte: one per
    shift 7, 14, ..., 63; [x] is adjusted after every step but the last. *)
Fixpoint DecodeVarint_unrolled (shifts : list Z) (d : SimpleDecoder) (i x : Z)
    : Z * SimpleDecoder :=
  match shifts with
  | [] => (0, fail d)
  | shift :: shifts =>
      let b := byte_at (d_buf d) i in
      let i := i + 1 in
      let x := u64 (x + shl 64 b shift) in
      if Z.land b 0x80 =? 0 then (x, mkDecoder (d_buf d) i (d_err d))
      else DecodeVarint_unrolled shifts d i (u64 (x - shl 64 0x80 shift))
  end.

Definition DecodeVarint (d : SimpleDecoder) : Z * SimpleDecoder :=
  let i := d_offset d in
  let buf := d_buf d in
  if i >=? zlen buf then (0, fail d)
  else if byte_at buf i <? 0x80 then (byte_at buf i, advance d 1)
  else if zlen buf - i <? 10 then decodeVarintSlow d
  else
    DecodeVarint_unrolled [7; 14; 21; 28; 35; 42; 49; 56; 63] d (i + 1)
      (u64 (byte_at buf i - 0x80)).

Definition ReadZigzagU32 (d : SimpleDecoder) : Z * SimpleDecoder :=
  let '(x, d) := DecodeVarint d in
  (Z.lxor (u32 x ≫ 1) (u32 (i32 (Z.land x 1 ≪ 31) ≫ 31)), d).

Definition ReadZigzagU64 (d : SimpleDecoder) : Z * SimpleDecoder :=
  let '(x, d) := DecodeVarint d in
  (Z.lxor (x ≫ 1) (u64 (i64 (Z.land x 1 ≪ 63) ≫ 63)), d).

Definition ReadVarintU32 (d : SimpleDecoder) : Z * SimpleDecoder :=
  let '(x, d) := DecodeVarint d in (u32 x, d).

Definition ReadVarintU64 (d : SimpleDecoder) : Z * SimpleDecoder := DecodeVarint d.

Definition ReadBytesWithVarintLen (d : SimpleDecoder) : list Z * SimpleDecoder :=
  let '(l, d) := ReadVarintU32 d in
  let d := advance d l in
  if past_end d then ([], fail d) else (slice (d_buf d) (d_offset d - l) l, d).

(** ** Prefix varint reader *)

Fixpoint bytesToUint64_loop (b : list Z) (i r : Z) : Z :=
  match b with
  | [] => r
  | x :: b => bytesToUint64_loop b (i + 1) (Z.lor r (shl 64 x (8 * i)))
  end.

Definition bytesToUint64 (b : list Z) : Z := bytesToUint64_loop b 0 0.

(** No bounds check: [None] is the panic of an index expression that is out of range, or
    of a slice expression that reaches past the capacity of the buffer: [beyond] is
    the memory between its length and its capacity. *)
Definition ReadPrefixU64 (beyond : list Z) (d : SimpleDecoder) : option (Z * SimpleDecoder) :=
  match d_buf d !! Z.to_nat (d_offset d) with
  | None => None
  | Some b0 =>
      let length := 1 + count_trailing_zeros_32 (Z.lor b0 0x100) in
      let d := advance d length in
      let buf := d_buf d in
      let offset := d_offset d in
      if length <? 9 then
        let unused := 64 - 8 * length in
        if zlen buf - offset + length >? 7 then
          Some (shl 64 (le_get (slice buf (offset - length) 8)) unused ≫ (unused + length), d)
        else if offset >? zlen (buf ++ beyond) then None
        else
          Some (shl 64 (bytesToUint64 (slice (buf ++ beyond) (offset - length) length)) unused
                  ≫ (unused + length), d)
      else if offset >? zlen (buf ++ beyond) then None
      else Some (le_get (slice (buf ++ beyond) (offset - length + 1) 8), d)
  end.

(** ** Status *)

Definition Offset (d : SimpleDecoder) : Z := d_offset d.

Definition Failed (d : SimpleDecoder) : bool := negb (d_err d =? 0).

Definition IsEnd (d : SimpleDecoder) : bool := d_offset d >=? zlen (d_buf d).
