(* ===== verification/CodecFacts.v ===== *)
(** Correctness of the codec of [Codec.v]: the varint, zigzag and De Bruijn
    arithmetic, the round trip of every format as a [WireFormat] instance, the
    safety of reading untrusted bytes as a [SoundRead] instance, and the
    properties of whole messages. *)

From S2P Require Import Prelude Codec.

(** * Varint lemmas *)

Lemma land_7f b : Z.land b 0x7f = b mod 128.
Proof. exact (land_mask b 7 ltac:(lia)). Qed.

Lemma land_80 b : is_u 8 b -> (Z.land b 0x80 =? 0) = (b <? 0x80).
Proof.
  intros Hb. apply eqb_true_iff. revert b Hb.
  apply byte_forall. vm_compute. done.
Qed.

Lemma lor_7f_80 x : Z.lor (Z.land x 0x7f) 0x80 = x mod 128 + 128.
Proof.
  rewrite land_7f. change 0x80 with (1 ≪ 7).
  apply (lor_shiftl_add (x mod 128) 1 7); [lia|]. apply (wrap_range 7). lia.
Qed.

Fixpoint varint_bytes (n : nat) (x : Z) : list Z :=
  match n with
  | O => [x]
  | S n => if x <? 128 then [x] else (x mod 128 + 128) :: varint_bytes n (x / 128)
  end.

Lemma encodeVarint_bytes_aux n buf x :
  is_u (7 * (Z.of_nat n + 1)) x ->
  (let '(b, y) := while n encodeVarint_cond encodeVarint_body (buf, x) in b ++ [u8 y])
  = buf ++ varint_bytes n x.
Proof.
  revert buf x. induction n as [|n IH]; intros buf x Hx; cbn [while varint_bytes].
  - rewrite wrap_small; [done|]. ranges. lia.
  - unfold encodeVarint_cond at 1; cbn [fst snd]. change (1 ≪ 7) with 128.
    rewrite Z.geb_leb, Z.leb_antisym.
    destruct (Z.ltb_spec x 128); cbn [negb].
    + rewrite wrap_small; [done|]. ranges. lia.
    + unfold encodeVarint_body; cbn [fst snd]. rewrite IH.
      2:{ rewrite shiftr_div by lia. unfold is_u in *.
          rewrite Nat2Z.inj_succ in Hx.
          replace (7 * (Z.succ (Z.of_nat n) + 1)) with (7 * (Z.of_nat n + 1) + 7) in Hx by lia.
          rewrite Z.pow_add_r in Hx by lia. split.
          - apply Z.div_pos; lia.
          - apply Z.div_lt_upper_bound; lia. }
      rewrite lor_7f_80, shiftr_div, wrap_small, <- app_assoc by (ranges; try lia; pose proof (Z.mod_pos_bound x 128); lia).
      done.
Qed.

(** The loop of [encodeVarint] has ended by its own condition. *)
Lemma encodeVarint_terminates n buf x :
  is_u (7 * (Z.of_nat n + 1)) x ->
  encodeVarint_cond (while n encodeVarint_cond encodeVarint_body (buf, x)) = false.
Proof.
  revert buf x. induction n as [|n IH]; intros buf x Hx; cbn [while].
  - unfold encodeVarint_cond. cbn [snd]. change (1 ≪ 7) with 128. destruct Hx as [_ Hx].
    change (2 ^ _) with 128 in Hx. lia.
  - destruct (encodeVarint_cond (buf, x)) eqn:E; [|done]. apply IH.
    cbn [snd]. rewrite shiftr_div by lia. unfold is_u in *.
    replace (7 * (Z.of_nat (S n) + 1)) with (7 * (Z.of_nat n + 1) + 7) in Hx by lia.
    rewrite Z.pow_add_r in Hx by lia. change (2 ^ 7) with 128 in *.
    split; [apply Z.div_pos; lia|apply Z.div_lt_upper_bound; lia].
Qed.

Lemma encodeVarint_bytes e x :
  is_u 64 x -> encodeVarint e x = e_append e (varint_bytes 9 x).
Proof.
  intros Hx. pose proof (encodeVarint_bytes_aux 9 (e_buf e) x) as H.
  unfold encodeVarint, e_append.
  destruct (while 9 _ _ _) as [b y]. cbn [e_buf ReferenceCount]. f_equal. apply H.
  ranges. lia.
Qed.

Fixpoint vshifts (n : nat) : list Z :=
  match n with O => [63] | S m => (63 - 7 * Z.of_nat n) :: vshifts m end.

Lemma decodeVarintSlow_step shift shifts d p b s x :
  0 <= shift -> is_u shift x -> (b mod 128) * 2 ^ shift < 2 ^ 64 ->
  d_buf d = p ++ b :: s ->
  decodeVarintSlow_loop (shift :: shifts) d (zlen p) x
  = let x := x + (b mod 128) * 2 ^ shift in
    if b <? 0x80 then (x, mkDecoder (d_buf d) (zlen p + 1) (d_err d))
    else decodeVarintSlow_loop shifts d (zlen p + 1) x.
Proof.
  intros Hs Hx Hb Hd. cbn [decodeVarintSlow_loop].
  rewrite Hd, byte_at_mid, land_7f. autorewrite with gow.
  pose proof (zlen_nonneg s). ztests.
  unfold shl. rewrite wrap_small; [rewrite lor_shiftl_add by done|].
  2:{ rewrite shiftl_mul by done. pose proof (Z.mod_pos_bound b 128). pose proof (pow2_pos shift). unfold is_u. nia. }
  rewrite <- Hd. done.
Qed.

Lemma decodeVarintSlow_bytes n d p s v x :
  (n <= 9)%nat ->
  0 <= v -> v * 2 ^ (63 - 7 * Z.of_nat n) < 2 ^ 64 -> is_u (63 - 7 * Z.of_nat n) x ->
  d_buf d = p ++ varint_bytes n v ++ s ->
  decodeVarintSlow_loop (vshifts n) d (zlen p) x
  = (x + v * 2 ^ (63 - 7 * Z.of_nat n),
     mkDecoder (d_buf d) (zlen p + zlen (varint_bytes n v)) (d_err d)).
Proof.
  revert p v x. induction n as [|n IH]; intros p v x Hn Hv Hb Hx Hbuf; cbn [vshifts varint_bytes] in *.
  - assert (v < 2) by (ranges; simpl in *; lia).
    rewrite (decodeVarintSlow_step _ _ _ p v s); [|lia|done| |done].
    + rewrite Z.mod_small by lia. zcases. done.
    + rewrite Z.mod_small by lia. done.
  - set (sh := 63 - 7 * Z.of_nat (S n)) in *. assert (0 <= sh) by lia.
    pose proof (pow2_pos sh ltac:(lia)).
    destruct (Z.ltb_spec v 128).
    + rewrite (decodeVarintSlow_step _ _ _ p v s); [|lia|done| |done];
        rewrite Z.mod_small by lia; [|done]. zcases. done.
    + pose proof (Z.div_mod v 128 ltac:(lia)). pose proof (Z.mod_pos_bound v 128 ltac:(lia)).
      assert (2 ^ (sh + 7) = 2 ^ sh * 128) as Hp by (rewrite Z.pow_add_r by lia; lia).
      replace (63 - 7 * Z.of_nat n) with (sh + 7) in IH by lia.
      rewrite (decodeVarintSlow_step _ _ _ p (v mod 128 + 128) (varint_bytes n (v / 128) ++ s)); [|lia|done| |done];
        rewrite <- Z.add_mod_idemp_r, Z.mod_same, Z.add_0_r, Z.mod_mod by lia; [|nia].
      zcase; [lia|]. cbv zeta.
      replace (zlen p + 1) with (zlen (p ++ [v mod 128 + 128])) by (autorewrite with gow; lia).
      rewrite (IH _ (v / 128)); [| lia | lia | nia | unfold is_u in *; nia | by rewrite <- app_assoc].
      autorewrite with gow. f_equal; [nia|f_equal; lia].
Qed.

Lemma shl_63_parity b x :
  is_u 63 x -> is_u 8 b -> b < 128 -> u64 (x + shl 64 b 63) = Z.lor x (shl 64 (b mod 128) 63).
Proof.
  intros Hx Hb Hs. rewrite (Z.mod_small b 128) by (ranges; lia).
  unfold shl. rewrite shiftl_mul by lia.
  assert (u64 (b * 2 ^ 63) = (b mod 2) ≪ 63) as ->.
  { rewrite shiftl_mul by lia. unfold wrap.
    rewrite (Z.mul_comm b), (Z.mul_comm (b mod 2)). change (2 ^ 64) with (2 ^ 63 * 2).
    rewrite Zmult_mod_distr_l. done. }
  rewrite lor_shiftl_add, shiftl_mul by (try done; lia).
  apply wrap_small. pose proof (Z.mod_pos_bound b 2 ltac:(lia)). ranges. lia.
Qed.

Lemma DecodeVarint_unrolled_slow n d i x :
  (n <= 8)%nat -> bytes_ok (d_buf d) -> 0 <= i -> i + Z.of_nat n < zlen (d_buf d) ->
  is_u (63 - 7 * Z.of_nat n) x ->
  DecodeVarint_unrolled (vshifts n) d i x
  = let '(y, d') := decodeVarintSlow_loop (vshifts n) d i x in
    (if d_err d' =? d_err d then y else 0, d').
Proof.
  intros Hn Hok. revert i x. induction n as [|n IH]; intros i x Hi Hl Hx.
  - destruct (split_at (d_buf d) i) as (p & b & s & Hd & ->); [lia|].
    assert (is_u 8 b) as Hb by (rewrite Hd in Hok; apply Forall_app in Hok as [_ Hok]; by inversion Hok).
    cbn [vshifts DecodeVarint_unrolled decodeVarintSlow_loop].
    rewrite Hd, byte_at_mid, land_80, land_7f by done.
    pose proof (zlen_nonneg s). autorewrite with gow. ztests.
    destruct (Z.ltb_spec b 0x80).
    + cbn. rewrite Z.eqb_refl. f_equal. by apply shl_63_parity.
    + cbn. ztests. done.
  - destruct (split_at (d_buf d) i) as (p & b & s & Hd & ->); [lia|].
    assert (is_u 8 b) as Hb by (rewrite Hd in Hok; apply Forall_app in Hok as [_ Hok]; by inversion Hok).
    cbn [vshifts]. set (sh := 63 - 7 * Z.of_nat (S n)) in *.
    assert (0 <= sh <= 56) by lia.
    assert (2 ^ sh <= 2 ^ 56) by (apply Z.pow_le_mono_r; lia).
    pose proof (pow2_pos sh ltac:(lia)). pose proof (Z.mod_pos_bound b 128 ltac:(lia)).
    rewrite (decodeVarintSlow_step _ _ _ p b s) by (try done; ranges; nia).
    assert (byte_at (d_buf d) (zlen p) = b) as Hat by (rewrite Hd; apply byte_at_mid).
    cbn [DecodeVarint_unrolled]. cbv zeta. rewrite Hat, land_80 by done.
    assert (shl 64 b sh = b * 2 ^ sh) as ->.
    { unfold shl. rewrite shiftl_mul by lia. apply wrap_small. ranges. nia. }
    assert (shl 64 128 sh = 128 * 2 ^ sh) as ->.
    { unfold shl. rewrite shiftl_mul by lia. apply wrap_small. ranges. nia. }
    rewrite (wrap_small 64 (x + b * 2 ^ sh)) by (ranges; nia).
    destruct (Z.ltb_spec b 0x80).
    + cbn. rewrite Z.eqb_refl, Z.mod_small by (ranges; lia). done.
    + assert (b mod 128 = b - 128) as ->.
      { rewrite (Z.mod_eq b 128) by lia. ranges. assert (b / 128 = 1); [|lia].
        symmetry. apply (Z.div_unique _ _ _ (b - 128)); lia. }
      rewrite wrap_small by (ranges; nia).
      replace (x + b * 2 ^ sh - 128 * 2 ^ sh) with (x + (b - 128) * 2 ^ sh) by lia.
      apply IH; [lia|lia|rewrite Hd in *; autorewrite with gow in *; lia|].
      replace (63 - 7 * Z.of_nat n) with (sh + 7) by lia.
      unfold is_u in *. rewrite Z.pow_add_r by lia. pow2. nia.
Qed.

Definition zigzag (w v : Z) : Z := Z.lxor (shl w v 1) (wrap w (swrap w v ≫ (w - 1))).

Definition unzigzag (w x : Z) : Z :=
  Z.lxor (x ≫ 1) (wrap w (swrap w (Z.land x 1 ≪ (w - 1)) ≫ (w - 1))).

Lemma zigzag_val w v :
  0 < w -> is_u w v ->
  zigzag w v = if v <? 2 ^ (w - 1) then 2 * v else 2 ^ w - 1 - (2 * v - 2 ^ w).
Proof.
  intros Hw Hv. unfold zigzag, shl, swrap, is_u in *.
  pose proof (pow2_half w Hw). pose proof (pow2_pos (w - 1) ltac:(lia)).
  rewrite shiftl_mul, shiftr_div by lia. change (2 ^ 1) with 2. unfold wrap.
  destruct (Z.ltb_spec v (2 ^ (w - 1))).
  - rewrite (Z.mod_small (v + 2 ^ (w - 1))), (Z.mod_small (v * 2)) by lia.
    rewrite Z.add_simpl_r, (Z.div_small v), Z.mod_0_l, Z.lxor_0_r by lia. lia.
  - replace ((v + 2 ^ (w - 1)) mod 2 ^ w) with (v - 2 ^ (w - 1))
      by (apply (Z.mod_unique _ _ 1); lia).
    replace ((v - 2 ^ (w - 1) - 2 ^ (w - 1)) / 2 ^ (w - 1)) with (-1)
      by (apply (Z.div_unique _ _ _ (v - 2 ^ (w - 1))); lia).
    replace ((v * 2) mod 2 ^ w) with (v * 2 - 2 ^ w) by (apply (Z.mod_unique _ _ 1); lia).
    fold (wrap w (-1)). rewrite wrap_m1, lxor_ones by (unfold is_u; lia). lia.
Qed.

Lemma zigzag_range w v : 0 < w -> is_u w v -> is_u w (zigzag w v).
Proof.
  intros Hw Hv. rewrite zigzag_val by done. unfold is_u in *.
  pose proof (pow2_half w Hw). destruct (Z.ltb_spec v (2 ^ (w - 1))); lia.
Qed.

Lemma unzigzag_val w x :
  0 < w -> is_u w x -> unzigzag w x = if x mod 2 =? 0 then x / 2 else 2 ^ w - 1 - x / 2.
Proof.
  intros Hw Hx. unfold unzigzag, is_u in *.
  pose proof (pow2_half w Hw). pose proof (pow2_pos (w - 1) ltac:(lia)).
  pose proof (Z.mod_pos_bound x 2 ltac:(lia)).
  change (Z.land x 1) with (Z.land x (2 ^ 1 - 1)). rewrite land_mask, shiftl_mul by lia.
  rewrite (shiftr_div x) by lia. change (2 ^ 1) with 2.
  assert (x mod 2 = 0 \/ x mod 2 = 1) as [-> | ->] by lia; cbn [Z.eqb Pos.eqb].
  - rewrite Z.mul_0_l, swrap_small by (unfold is_i; lia).
    rewrite Z.shiftr_0_l. unfold wrap. rewrite Z.mod_0_l, Z.lxor_0_r by lia. done.
  - rewrite Z.mul_1_l. replace (swrap w (2 ^ (w - 1))) with (- 2 ^ (w - 1)).
    2:{ unfold swrap. replace (2 ^ (w - 1) + 2 ^ (w - 1)) with (2 ^ w) by lia.
        rewrite Z.mod_same by lia. lia. }
    rewrite shiftr_div by lia.
    replace (- 2 ^ (w - 1) / 2 ^ (w - 1)) with (-1) by (apply (Z.div_unique _ _ _ 0); lia).
    rewrite wrap_m1, lxor_ones; [done|lia| |lia].
    unfold is_u. split; [apply Z.div_pos; lia|]. apply Z.div_lt_upper_bound; lia.
Qed.

Lemma unzigzag_zigzag w v : 0 < w -> is_u w v -> unzigzag w (zigzag w v) = v.
Proof.
  intros Hw Hv. rewrite unzigzag_val by auto using zigzag_range.
  rewrite zigzag_val by done. unfold is_u in *. pose proof (pow2_half w Hw).
  destruct (Z.ltb_spec v (2 ^ (w - 1))).
  - rewrite Z.mul_comm, Z.mod_mul, Z.div_mul by lia. done.
  - replace (2 ^ w - 1 - (2 * v - 2 ^ w)) with ((2 ^ w - 1 - v) * 2 + 1) by lia.
    rewrite Z.add_comm, Z.mod_add, Z.div_add by lia. change (1 mod 2) with 1.
    change (1 / 2) with 0. cbn [Z.eqb]. lia.
Qed.

(** * Wire formats *)

Class WireFormat {A} (ok : A -> Prop)
    (write : SimpleEncoder -> A -> SimpleEncoder)
    (read : SimpleDecoder -> A * SimpleDecoder) := {
  wire : A -> list Z;
  wire_bytes v : ok v -> bytes_ok (wire v);
  wire_write e v : ok v -> write e v = e_append e (wire v);
  wire_read d p v s :
    ok v -> bytes_ok p -> bytes_ok s ->
    d_buf d = p ++ wire v ++ s -> d_offset d = zlen p ->
    read d = (v, advance d (zlen (wire v)))
}.

(** The guard does not fire while the bytes that were written are read. *)
Lemma past_end_mid d p w s n :
  d_buf d = p ++ w ++ s -> d_offset d = zlen p -> n = zlen w -> past_end (advance d n) = false.
Proof.
  intros Hb Ho ->. unfold past_end; cbn. rewrite Hb, Ho. autorewrite with gow.
  pose proof (zlen_nonneg s). lia.
Qed.

Lemma slice_advance d p w s n :
  d_buf d = p ++ w ++ s -> d_offset d = zlen p -> n = zlen w ->
  slice (d_buf (advance d n)) (d_offset (advance d n) - n) n = w.
Proof.
  intros Hb Ho ->. cbn. rewrite Hb, Ho, Z.add_simpl_r. by apply slice_mid.
Qed.

Lemma read_fixed d p s n v :
  0 <= n -> is_u (n * 8) v ->
  d_buf d = p ++ le_put n v ++ s -> d_offset d = zlen p ->
  past_end (advance d n) = false /\
  le_get (slice (d_buf (advance d n)) (d_offset (advance d n) - n) n) = v.
Proof.
  intros. split.
  - eapply past_end_mid; eauto. by rewrite le_put_zlen.
  - erewrite slice_advance; eauto using le_get_put. by rewrite le_put_zlen.
Qed.

#[export] Program Instance U16_wire : WireFormat (is_u 16) WriteU16 ReadU16 :=
  {| wire v := le_put 2 v |}.
Next Obligation. intros. by apply le_put_ok. Qed.
Next Obligation. done. Qed.
Next Obligation.
  intros d p v s Hv _ _ Hb Ho. unfold ReadU16. rewrite le_put_zlen by lia.
  destruct (read_fixed d p s 2 v) as [-> ->]; done.
Qed.

#[export] Program Instance U32_wire : WireFormat (is_u 32) WriteU32 ReadU32 :=
  {| wire v := le_put 4 v |}.
Next Obligation. intros. by apply le_put_ok. Qed.
Next Obligation. done. Qed.
Next Obligation.
  intros d p v s Hv _ _ Hb Ho. unfold ReadU32. rewrite le_put_zlen by lia.
  destruct (read_fixed d p s 4 v) as [-> ->]; done.
Qed.

#[export] Program Instance U64_wire : WireFormat (is_u 64) WriteU64 ReadU64 :=
  {| wire v := le_put 8 v |}.
Next Obligation. intros. by apply le_put_ok. Qed.
Next Obligation. done. Qed.
Next Obligation.
  intros d p v s Hv _ _ Hb Ho. unfold ReadU64. rewrite le_put_zlen by lia.
  destruct (read_fixed d p s 8 v) as [-> ->]; done.
Qed.

Lemma byte_at_advance d p x s :
  d_buf d = p ++ [x] ++ s -> d_offset d = zlen p ->
  byte_at (d_buf (advance d 1)) (d_offset (advance d 1) - 1) = x.
Proof. intros Hb Ho. cbn. rewrite Hb, Ho, Z.add_simpl_r. apply byte_at_mid. Qed.

#[export] Program Instance U8_wire : WireFormat (is_u 8) WriteU8 ReadU8 :=
  {| wire v := [v] |}.
Next Obligation. intros. by constructor. Qed.
Next Obligation. done. Qed.
Next Obligation.
  intros d p v s Hv _ _ Hb Ho. unfold ReadU8.
  erewrite past_end_mid, byte_at_advance by eauto. done.
Qed.

#[export] Program Instance Bool_wire : WireFormat (fun _ => True) WriteBool ReadBool :=
  {| wire (v : bool) := [if v then 1 else 0] |}.
Next Obligation. intros [] _; by repeat constructor. Qed.
Next Obligation. by intros e [] _. Qed.
Next Obligation.
  intros d p v s _ _ _ Hb Ho. unfold ReadBool.
  erewrite past_end_mid, byte_at_advance by eauto. by destruct v.
Qed.

(** ** Varints *)

Lemma varint_bytes_ok n x : is_u (7 * (Z.of_nat n + 1)) x -> bytes_ok (varint_bytes n x).
Proof.
  revert x. induction n as [|n IH]; intros x Hx; cbn [varint_bytes].
  - constructor; [|constructor]. ranges. lia.
  - destruct (Z.ltb_spec x 128).
    + constructor; [|constructor]. ranges. lia.
    + pose proof (Z.mod_pos_bound x 128 ltac:(lia)). constructor; [ranges; lia|].
      apply IH. unfold is_u in *.
      replace (7 * (Z.of_nat (S n) + 1)) with (7 * (Z.of_nat n + 1) + 7) in Hx by lia.
      rewrite Z.pow_add_r in Hx by lia.
      split; [apply Z.div_pos; lia|apply Z.div_lt_upper_bound; lia].
Qed.

Lemma decodeVarintSlow_wire d p v s :
  is_u 64 v -> d_buf d = p ++ varint_bytes 9 v ++ s -> d_offset d = zlen p ->
  decodeVarintSlow d = (v, advance d (zlen (varint_bytes 9 v))).
Proof.
  intros Hv Hb Ho. unfold decodeVarintSlow.
  change [0; 7; 14; 21; 28; 35; 42; 49; 56; 63] with (vshifts 9).
  rewrite Ho, (decodeVarintSlow_bytes 9 d p s v 0); [| |ranges..| ]; try done; try lia.
  unfold advance. rewrite Ho. f_equal. simpl. lia.
Qed.

(** The first round of the slow path is the part [DecodeVarint] unrolls by
    hand before its nine steps. *)
Lemma DecodeVarint_slow d :
  bytes_ok (d_buf d) -> 0 <= d_offset d ->
  (DecodeVarint d).2 = (decodeVarintSlow d).2 /\
  (d_err (decodeVarintSlow d).2 = d_err d -> (DecodeVarint d).1 = (decodeVarintSlow d).1).
Proof.
  intros Hok H0. unfold DecodeVarint, decodeVarintSlow.
  destruct (Z.geb_spec (d_offset d) (zlen (d_buf d))); cbv zeta.
  { cbn [decodeVarintSlow_loop]. ztests. done. }
  destruct (split_at (d_buf d) (d_offset d)) as (p & b & s & Hd & Ho); [lia|].
  assert (is_u 8 b) as Hb by (rewrite Hd in Hok; apply Forall_app in Hok as [_ Hok]; by inversion Hok).
  assert (byte_at (d_buf d) (d_offset d) = b) as -> by (rewrite Hd, Ho; apply byte_at_mid).
  pose proof (Z.mod_pos_bound b 128 ltac:(lia)).
  destruct (Z.ltb_spec b 0x80).
  - rewrite Ho, (decodeVarintSlow_step _ _ _ p b s), Z.mod_small by (try done; ranges; lia).
    ztests. cbn. unfold advance. rewrite Ho. split; [done|]. intros _. lia.
  - destruct (Z.ltb_spec (zlen (d_buf d) - d_offset d) 10); [done|].
    rewrite Ho, (decodeVarintSlow_step _ _ _ p b s) by (try done; ranges; lia).
    ztests. cbv zeta.
    assert (b mod 128 = b - 128) as ->.
    { symmetry. apply (Z.mod_unique_pos _ _ 1); ranges; lia. }
    rewrite wrap_small by (ranges; lia).
    change [7; 14; 21; 28; 35; 42; 49; 56; 63] with (vshifts 8).
    rewrite DecodeVarint_unrolled_slow by (try done; rewrite ?Ho in *; ranges; try lia).
    replace (0 + (b - 128) * 2 ^ 0) with (b - 128) by lia.
    destruct (decodeVarintSlow_loop _ _ _ _) as [y d']. cbn [fst snd]. split; [done|].
    intros ->. by rewrite Z.eqb_refl.
Qed.

Lemma DecodeVarint_wire d p v s :
  is_u 64 v -> bytes_ok p -> bytes_ok s ->
  d_buf d = p ++ varint_bytes 9 v ++ s -> d_offset d = zlen p ->
  DecodeVarint d = (v, advance d (zlen (varint_bytes 9 v))).
Proof.
  intros Hv Hp Hs Hb Ho.
  assert (bytes_ok (varint_bytes 9 v)) by (apply varint_bytes_ok; ranges; lia).
  destruct (DecodeVarint_slow d) as [E2 E1].
  { rewrite Hb. auto with gow. }
  { rewrite Ho. apply zlen_nonneg. }
  rewrite (decodeVarintSlow_wire d p v s) in * by done.
  destruct (DecodeVarint d) as [y d']. cbn in *. rewrite E1 by done. by subst.
Qed.

#[export] Program Instance VarintU64_wire : WireFormat (is_u 64) WriteVarintU64 ReadVarintU64 :=
  {| wire v := varint_bytes 9 v |}.
Next Obligation. intros. apply varint_bytes_ok. ranges. lia. Qed.
Next Obligation. intros. by apply encodeVarint_bytes. Qed.
Next Obligation. intros d p v s **. by apply (DecodeVarint_wire d p v s). Qed.

#[export] Program Instance VarintU32_wire : WireFormat (is_u 32) WriteVarintU32 ReadVarintU32 :=
  {| wire v := varint_bytes 9 v |}.
Next Obligation. intros. apply varint_bytes_ok. ranges. lia. Qed.
Next Obligation. intros. apply encodeVarint_bytes. ranges. lia. Qed.
Next Obligation.
  intros d p v s Hv **. unfold ReadVarintU32.
  rewrite (DecodeVarint_wire d p v s) by eauto using is_u_mono with lia.
  by rewrite wrap_small.
Qed.

#[export] Program Instance ZigzagU32_wire : WireFormat (is_u 32) WriteZigzagU32 ReadZigzagU32 :=
  {| wire v := varint_bytes 9 (zigzag 32 v) |}.
Next Obligation.
  intros v Hv. apply varint_bytes_ok. pose proof (zigzag_range 32 v). ranges. lia.
Qed.
Next Obligation.
  intros e v Hv. apply encodeVarint_bytes. pose proof (zigzag_range 32 v). ranges. lia.
Qed.
Next Obligation.
  intros d p v s Hv **. unfold ReadZigzagU32.
  pose proof (zigzag_range 32 v ltac:(lia) Hv).
  rewrite (DecodeVarint_wire d p (zigzag 32 v) s) by eauto using is_u_mono with lia.
  rewrite wrap_small by done. f_equal. exact (unzigzag_zigzag 32 v ltac:(lia) Hv).
Qed.

#[export] Program Instance ZigzagU64_wire : WireFormat (is_u 64) WriteZigzagU64 ReadZigzagU64 :=
  {| wire v := varint_bytes 9 (zigzag 64 v) |}.
Next Obligation.
  intros v Hv. apply varint_bytes_ok. pose proof (zigzag_range 64 v). ranges. lia.
Qed.
Next Obligation.
  intros e v Hv. apply encodeVarint_bytes. by apply (zigzag_range 64 v).
Qed.
Next Obligation.
  intros d p v s Hv **. unfold ReadZigzagU64.
  pose proof (zigzag_range 64 v ltac:(lia) Hv).
  rewrite (DecodeVarint_wire d p (zigzag 64 v) s) by done.
  f_equal. exact (unzigzag_zigzag 64 v ltac:(lia) Hv).
Qed.

(** ** Length-prefixed formats *)

Lemma e_append_app e b c : e_append (e_append e b) c = e_append e (b ++ c).
Proof. unfold e_append. cbn. by rewrite app_assoc. Qed.

Lemma advance_advance d n m : advance (advance d n) m = advance d (n + m).
Proof. unfold advance. cbn. by rewrite Z.add_assoc. Qed.

Definition le_all (w : Z) (vs : list Z) : list Z := flat_map (le_put w) vs.

Lemma le_all_zlen w vs : 0 <= w -> zlen (le_all w vs) = w * zlen vs.
Proof.
  intros. induction vs as [|v vs IH]; simpl; autorewrite with gow; [lia|].
  rewrite IH. lia.
Qed.

Lemma le_all_ok w vs : 0 <= w -> bytes_ok (le_all w vs).
Proof. intros. induction vs; simpl; [constructor|]. auto with gow. Qed.

Lemma foldl_append w e vs :
  foldl (fun e v => e_append e (le_put w v)) e vs = e_append e (le_all w vs).
Proof.
  revert e. induction vs as [|v vs IH]; intros e; simpl.
  - unfold e_append. rewrite app_nil_r. by destruct e.
  - by rewrite IH, e_append_app.
Qed.

Lemma read_elems_wire w d p s vs :
  0 <= w -> Forall (is_u (w * 8)) vs ->
  d_buf d = p ++ le_all w vs ++ s -> d_offset d = zlen p + w * zlen vs ->
  read_elems w d (length vs) = vs.
Proof.
  intros Hw Hvs. revert p. induction Hvs as [|v vs Hv Hvs IH]; intros p Hb Ho; [done|].
  cbn [length read_elems]. f_equal.
  - rewrite Hb. simpl. rewrite <- app_assoc, slice_mid; [by apply le_get_put| |].
    + rewrite Ho. unfold zlen. simpl. lia.
    + by rewrite le_put_zlen.
  - apply (IH (p ++ le_put w v)).
    + rewrite Hb. simpl. by rewrite <- !app_assoc.
    + rewrite Ho. autorewrite with gow. lia.
Qed.

Definition slice_ok (w : Z) (vs : list Z) : Prop := zlen vs < 2 ^ 32 /\ Forall (is_u w) vs.

Lemma u32_zlen {A} (l : list A) : zlen l < 2 ^ 32 -> is_u 32 (zlen l).
Proof. pose proof (zlen_nonneg l). split; lia. Qed.

#[export] Hint Resolve u32_zlen : gow.

Lemma elem_slice_read w d p s vs :
  0 < w -> slice_ok (w * 8) vs -> bytes_ok p -> bytes_ok s ->
  d_buf d = p ++ (le_put 4 (zlen vs) ++ le_all w vs) ++ s -> d_offset d = zlen p ->
  (let '(l, d) := ReadU32 d in
   if l =? 0 then ([], d)
   else let d := advance d (l * w) in
        if past_end d then ([], fail d) else (read_elems w d (Z.to_nat l), d))
  = (vs, advance d (4 + w * zlen vs)).
Proof.
  intros Hw [Hl Hvs] Hp Hs Hb Ho. rewrite <- app_assoc in Hb.
  rewrite (wire_read (WireFormat := U32_wire) d p (zlen vs) (le_all w vs ++ s))
    by (cbn; auto using le_all_ok with gow).
  cbn [wire U32_wire]. autorewrite with gow.
  destruct (Z.eqb_spec (zlen vs) 0) as [E|E].
  { destruct vs; [|unfold zlen in E; simpl in E; lia]. f_equal. f_equal. unfold zlen. simpl. lia. }
  cbv zeta. rewrite advance_advance, (Z.mul_comm _ w).
  rewrite (past_end_mid d p (le_put 4 (zlen vs) ++ le_all w vs) s).
  - f_equal. replace (Z.to_nat (zlen vs)) with (length vs) by (unfold zlen; lia).
    apply (read_elems_wire w _ (p ++ le_put 4 (zlen vs)) s); [lia|done|..].
    + cbn. rewrite Hb. by rewrite <- !app_assoc.
    + cbn. autorewrite with gow. lia.
  - by rewrite <- app_assoc.
  - done.
  - autorewrite with gow. rewrite le_all_zlen by lia. lia.
Qed.

#[export] Program Instance U16Slice_wire : WireFormat (slice_ok 16) WriteU16Slice ReadU16Slice :=
  {| wire vs := le_put 4 (zlen vs) ++ le_all 2 vs |}.
Next Obligation. intros. cbn beta. auto using le_all_ok with gow. Qed.
Next Obligation.
  intros e v [Hl _]. unfold WriteU16Slice, WriteU32.
  by rewrite foldl_append, e_append_app, wrap_small by auto with gow.
Qed.
Next Obligation.
  intros d p v s **. cbn beta in *. autorewrite with gow. rewrite le_all_zlen by lia.
  by apply (elem_slice_read 2 d p s v).
Qed.

#[export] Program Instance U32Slice_wire : WireFormat (slice_ok 32) WriteU32Slice ReadU32Slice :=
  {| wire vs := le_put 4 (zlen vs) ++ le_all 4 vs |}.
Next Obligation. intros. cbn beta. auto using le_all_ok with gow. Qed.
Next Obligation.
  intros e v [Hl _]. unfold WriteU32Slice, WriteU32.
  by rewrite foldl_append, e_append_app, wrap_small by auto with gow.
Qed.
Next Obligation.
  intros d p v s **. cbn beta in *. autorewrite with gow. rewrite le_all_zlen by lia.
  by apply (elem_slice_read 4 d p s v).
Qed.

(** A length read by any integer format followed by that many bytes. *)
Lemma read_block {ok wr rd} `{W : !WireFormat ok wr rd} d p v s :
  ok (zlen v) -> bytes_ok v -> bytes_ok p -> bytes_ok s ->
  d_buf d = p ++ (wire (WireFormat := W) (zlen v) ++ v) ++ s -> d_offset d = zlen p ->
  (let '(l, d) := rd d in
   let d := advance d l in
   if past_end d then ([], fail d) else (slice (d_buf d) (d_offset d - l) l, d))
  = (v, advance d (zlen (wire (WireFormat := W) (zlen v) ++ v))).
Proof.
  intros Hl Hv Hp Hs Hb Ho. rewrite <- app_assoc in Hb.
  rewrite (wire_read d p (zlen v) (v ++ s)) by auto with gow.
  cbv zeta. rewrite app_assoc in Hb.
  set (d' := advance d (zlen (wire (zlen v)))).
  assert (d_offset d' = zlen (p ++ wire (WireFormat := W) (zlen v))) as Ho'.
  { cbn. rewrite Ho. by autorewrite with gow. }
  rewrite (past_end_mid d' (p ++ wire (WireFormat := W) (zlen v)) v s) by done.
  rewrite (slice_advance d' (p ++ wire (WireFormat := W) (zlen v)) v s) by done.
  f_equal. unfold d'. rewrite advance_advance. by autorewrite with gow.
Qed.

Definition block_ok (n : Z) (v : list Z) : Prop := zlen v < n /\ bytes_ok v.

#[export] Program Instance Bytes_wire : WireFormat (block_ok (2 ^ 32)) WriteBytes ReadBytes :=
  {| wire v := le_put 4 (zlen v) ++ v |}.
Next Obligation. intros v [_ Hv]. cbn beta. auto with gow. Qed.
Next Obligation.
  intros e v [Hl _]. unfold WriteBytes, WriteU32.
  by rewrite e_append_app, wrap_small by auto with gow.
Qed.
Next Obligation.
  intros d p v s [Hl Hv] **. apply (read_block (W := U32_wire) d p v s); auto with gow.
Qed.

#[export] Program Instance BytesWithVarintLen_wire :
    WireFormat (block_ok (2 ^ 32)) WriteBytesWithVarintLen ReadBytesWithVarintLen :=
  {| wire v := varint_bytes 9 (zlen v) ++ v |}.
Next Obligation.
  intros v [Hl Hv]. apply bytes_ok_app; [|done].
  apply varint_bytes_ok. pose proof (zlen_nonneg v). ranges. lia.
Qed.
Next Obligation.
  intros e v [Hl _]. unfold WriteBytesWithVarintLen.
  rewrite wrap_small by auto with gow.
  rewrite (wire_write (WireFormat := VarintU32_wire)) by auto with gow.
  by rewrite e_append_app.
Qed.
Next Obligation.
  intros d p v s [Hl Hv] **. apply (read_block (W := VarintU32_wire) d p v s); auto with gow.
Qed.

#[export] Program Instance String255_wire : WireFormat (block_ok 256) WriteString255 ReadString255 :=
  {| wire v := [zlen v] ++ v |}.
Next Obligation.
  intros v [Hl Hv]. apply bytes_ok_app; [|done]. repeat constructor; [apply zlen_nonneg|done].
Qed.
Next Obligation.
  intros e v [Hl _]. unfold WriteString255. pose proof (zlen_nonneg v). ztests.
  rewrite e_append_app, wrap_small by (split; done). unfold zlen at 2.
  by rewrite Nat2Z.id, firstn_all.
Qed.
Next Obligation.
  intros d p v s [Hl Hv] **. apply (read_block (W := U8_wire) d p v s); try done.
  pose proof (zlen_nonneg v). by split.
Qed.

(** Two formats one after the other. *)
#[export] Program Instance pair_wire {A B okA okB wA wB rA rB}
    `{WA : !WireFormat (A := A) okA wA rA, WB : !WireFormat (A := B) okB wB rB} :
    WireFormat (fun v => okA v.1 /\ okB v.2)
      (fun e v => wB (wA e v.1) v.2)
      (fun d => let '(a, d) := rA d in let '(b, d) := rB d in ((a, b), d)) :=
  {| wire v := wire (WireFormat := WA) v.1 ++ wire (WireFormat := WB) v.2 |}.
Next Obligation. intros * [? ?]. apply bytes_ok_app; by apply wire_bytes. Qed.
Next Obligation. intros * [? ?]. cbn beta. rewrite (wire_write _ v.2), (wire_write e v.1) by done. apply e_append_app. Qed.
Next Obligation.
  intros A B okA okB wA wB rA rB WA WB d p [a b] s [Ha Hb] Hp Hs Hd Ho. cbn in *.
  rewrite <- app_assoc in Hd.
  rewrite (wire_read d p a (wire (WireFormat := WB) b ++ s)) by auto using wire_bytes with gow.
  rewrite (wire_read (advance d (zlen (wire (WireFormat := WA) a)))
             (p ++ wire (WireFormat := WA) a) b s).
  - rewrite advance_advance. by autorewrite with gow.
  - done.
  - auto using wire_bytes with gow.
  - done.
  - cbn. by rewrite <- app_assoc.
  - cbn. rewrite Ho. by autorewrite with gow.
Qed.

(** ** Protobuf messages *)

(** What the codec relies on of a message type: a message within the ranges of
    its field types marshals into any buffer that is long enough, and
    unmarshalling its bytes into a receiver without content gives a message that
    reads the same. *)
Class PBLaws (A : Type) `{PBCodec A} := {
  pb_valid : A -> Prop;
  pb_ready : A -> Prop;
  pb_reads : A -> A -> Prop;
  pb_bytes : A -> list Z;
  pb_bytes_ok v : pb_valid v -> bytes_ok (pb_bytes v);
  pb_size v : pb_valid v -> pb_Size v = zlen (pb_bytes v);
  pb_marshal v b :
    pb_valid v -> zlen (pb_bytes v) <= zlen b ->
    pb_MarshalTo v b = Some (copy_to b (pb_bytes v), zlen (pb_bytes v));
  pb_unmarshal r v :
    pb_valid v -> pb_ready r -> exists v', pb_Unmarshal r (pb_bytes v) = (v', true) /\ pb_reads v v'
}.

Lemma copy_to_app {A} (dst src : list A) :
  (length src <= length dst)%nat -> copy_to dst src = src ++ drop (length src) dst.
Proof. intros. unfold copy_to. by rewrite take_ge. Qed.

Lemma WritePB_wire `{PBLaws A} e (v : A) :
  pb_valid v -> zlen (pb_bytes v) < 2 ^ 32 ->
  WritePB e v = Some (e_append e (le_put 4 (zlen (pb_bytes v)) ++ pb_bytes v)).
Proof.
  intros Hv Hl. unfold WritePB. cbv zeta. rewrite pb_size by done.
  set (bs := pb_bytes v) in *. set (n := length bs).
  assert (zlen bs = Z.of_nat n) as Hn by done.
  replace (Z.to_nat (zlen bs + 16)) with (4 + (n + 12))%nat by lia.
  replace (Z.to_nat (zlen (e_buf e) + 4)) with (length (e_buf e) + 4)%nat by (unfold zlen; lia).
  set (room := replicate (n + 12) 0).
  assert (length room = n + 12)%nat as Hr by apply length_replicate.
  replace (replicate (4 + (n + 12)) 0) with (replicate 4 0 ++ room) by (symmetry; apply replicate_add).
  rewrite drop_app_add, (drop_app_length' (replicate 4 0)) by done.
  rewrite pb_marshal by (unfold zlen; fold bs; done || lia). fold bs.
  rewrite take_app_add, (take_app_length' (replicate 4 0)) by done.
  rewrite copy_to_app by lia.
  rewrite wrap_small by auto with gow. rewrite Hn.
  replace (Z.to_nat (zlen (e_buf e))) with (length (e_buf e)) by (unfold zlen; lia).
  rewrite <- !app_assoc, take_app_length, drop_app_length.
  assert (length (le_put 4 (Z.of_nat n)) = 4%nat) as Hp.
  { pose proof (le_put_zlen 4 (Z.of_nat n)). unfold zlen in *. lia. }
  rewrite copy_to_app by (rewrite !length_app, Hp; simpl; lia).
  rewrite Hp, (drop_app_length' (replicate 4 0)) by done.
  replace (Z.to_nat (zlen (e_buf e) + 4 + Z.of_nat n)) with (length (e_buf e) + (4 + n))%nat
    by (unfold zlen; lia).
  rewrite take_app_add, <- Hp, take_app_add. unfold n. rewrite take_app_length. done.
Qed.

Lemma ReadPB_wire `{PBLaws A} d p (r v : A) s :
  pb_valid v -> pb_ready r -> zlen (pb_bytes v) < 2 ^ 32 ->
  d_buf d = p ++ (le_put 4 (zlen (pb_bytes v)) ++ pb_bytes v) ++ s -> d_offset d = zlen p ->
  exists v', ReadPB d r = (v', true, advance d (4 + zlen (pb_bytes v))) /\ pb_reads v v'.
Proof.
  intros Hv Hr Hl Hb Ho. destruct (pb_unmarshal r v Hv Hr) as (v' & Hu & Hreads).
  exists v'. split; [|done]. unfold ReadPB. set (bs := pb_bytes v) in *.
  rewrite <- app_assoc in Hb.
  destruct (read_fixed d p (bs ++ s) 4 (zlen bs)) as [-> ->]; auto with gow.
  rewrite advance_advance, app_assoc in *.
  assert (d_offset (advance d 4) = zlen (p ++ le_put 4 (zlen bs))) as Ho'.
  { cbn. rewrite Ho. by autorewrite with gow. }
  pose proof (past_end_mid (advance d 4) _ bs s _ Hb Ho' eq_refl) as E.
  pose proof (slice_advance (advance d 4) _ bs s _ Hb Ho' eq_refl) as E'.
  rewrite advance_advance in E, E'. by rewrite E, E', Hu.
Qed.

(** ** De Bruijn bit counts *)

(** The bits of [x] from [k] down to [k - s + 1] are set and none above. *)
Definition smeared (k s x : Z) : Prop :=
  forall i, 0 <= i -> (k - s < i <= k -> Z.testbit x i = true) /\ (k < i -> Z.testbit x i = false).

Lemma smeared_step k s x : 0 < s -> smeared k s x -> smeared k (2 * s) (Z.lor x (x ≫ s)).
Proof.
  intros Hs Hx i Hi. rewrite Z.lor_spec, Z.shiftr_spec by done.
  destruct (Hx i Hi) as [Ht Hf]. destruct (Hx (i + s)) as [Ht' Hf']; [lia|]. split; intros Hk.
  - destruct (Z.lt_ge_cases (k - s) i).
    + by rewrite Ht by lia.
    + rewrite Ht' by lia. apply orb_true_r.
  - by rewrite Hf, Hf' by lia.
Qed.

Lemma smeared_log2 x : 0 < x -> smeared (Z.log2 x) 1 x.
Proof.
  intros Hx i Hi. split; intros Hk.
  - replace i with (Z.log2 x) by lia. by apply Z.bit_log2.
  - apply Z.bits_above_log2; lia.
Qed.

Lemma smeared_all k s x : 0 <= k < s -> smeared k s x -> x = Z.ones (k + 1).
Proof.
  intros Hk Hx. apply Z.bits_inj'. intros i Hi. destruct (Hx i Hi) as [Ht Hf].
  destruct (Z.le_gt_cases i k).
  - rewrite Ht, Z.ones_spec_low by lia. done.
  - rewrite Hf, Z.ones_spec_high by lia. done.
Qed.

Lemma u32_log2 x : 0 < x -> is_u 32 x -> 0 <= Z.log2 x < 32.
Proof. intros ? [? ?]. split; [apply Z.log2_nonneg|]. apply Z.log2_lt_pow2; lia. Qed.

Lemma count_leading_zeros_32_log2 x :
  0 < x -> is_u 32 x -> count_leading_zeros_32 x = 31 - Z.log2 x.
Proof.
  intros Hx Hu. pose proof (u32_log2 x Hx Hu) as Hk. unfold count_leading_zeros_32.
  set (y := Z.lor _ (_ ≫ 16)).
  assert (y = Z.ones (Z.log2 x + 1)) as ->.
  { apply (smeared_all _ 32); [done|]. unfold y.
    apply (smeared_step _ 16), (smeared_step _ 8), (smeared_step _ 4), (smeared_step _ 2),
      (smeared_step _ 1), smeared_log2; lia. }
  generalize dependent (Z.log2 x). clear. intros k Hk. apply Z.eqb_eq.
  refine (forall_below 32 (fun k => _ =? 31 - k) _ k Hk). vm_compute. reflexivity.
Qed.

Lemma count_trailing_zeros_32_spec k q :
  0 <= k -> 0 <= q -> 2 ^ k * (2 * q + 1) < 2 ^ 32 ->
  count_trailing_zeros_32 (2 ^ k * (2 * q + 1)) = k.
Proof.
  intros Hk Hq Hx. unfold count_trailing_zeros_32. rewrite land_neg by done.
  assert (k < 32) by (apply (Z.pow_lt_mono_r_iff 2); [lia|lia|pose proof (pow2_pos k Hk); nia]).
  apply Z.eqb_eq. clear Hx.
  refine (forall_below 32 (fun k => _ =? k) _ k (conj Hk H)). vm_compute. reflexivity.
Qed.

Lemma count_leading_zeros_64_log2 x :
  0 < x -> is_u 64 x -> count_leading_zeros_64 x = 63 - Z.log2 x.
Proof.
  intros Hx Hu. unfold count_leading_zeros_64.
  change 0xffffffff with (2 ^ 32 - 1). rewrite land_mask, shiftr_div by lia.
  destruct (Z.eqb_spec (x / 2 ^ 32) 0) as [E|E].
  - assert (x < 2 ^ 32) by (apply Z.div_small_iff in E; lia).
    rewrite (Z.mod_small x), wrap_small by (ranges; lia).
    rewrite count_leading_zeros_32_log2 by (ranges; lia). lia.
  - assert (0 < x / 2 ^ 32) by (pose proof (Z.div_pos x (2 ^ 32)); ranges; lia).
    assert (is_u 32 (x / 2 ^ 32)).
    { split; [lia|]. apply Z.div_lt_upper_bound; ranges; lia. }
    rewrite wrap_small, count_leading_zeros_32_log2 by done.
    rewrite <- shiftr_div, Z.log2_shiftr by lia.
    assert (2 ^ 32 <= x). { destruct (Z.le_gt_cases (2 ^ 32) x); [done|]. rewrite Z.div_small in E by lia. lia. }
    pose proof (Z.log2_le_mono (2 ^ 32) x ltac:(done)). rewrite Z.log2_pow2 in H2 by lia. lia.
Qed.

(** ** Prefix varints *)

Lemma WritePrefixU64_loop_bytes n buf x :
  WritePrefixU64_loop n buf x = buf ++ le_put (Z.of_nat n) x.
Proof.
  revert buf x. induction n as [|n IH]; intros buf x; cbn [WritePrefixU64_loop].
  - by rewrite app_nil_r.
  - rewrite IH, Nat2Z.inj_succ. unfold le_put. rewrite Z_to_little_endian_succ by lia.
    rewrite <- app_assoc. f_equal. simpl. f_equal.
    change 255 with (2 ^ 8 - 1). rewrite land_mask, Z.land_ones by lia.
    apply wrap_small, (wrap_range 8). lia.
Qed.

(** The number of bytes [WritePrefixU64] uses for a value below [2^56]. *)
Definition prefix_len (x : Z) : Z := 1 + Z.log2 (Z.lor x 1) / 7.

Lemma lor_1 x : is_u 64 x -> 0 < Z.lor x 1 /\ is_u 64 (Z.lor x 1) /\ x <= Z.lor x 1 /\ Z.lor x 1 <= x + 1.
Proof.
  intros Hx. pose proof (Z.add_lor_land x 1) as E.
  change (Z.land x 1) with (Z.land x (2 ^ 1 - 1)) in E. rewrite land_mask in E by lia.
  change (2 ^ 1) with 2 in E. pose proof (Z.mod_pos_bound x 2 ltac:(lia)).
  pose proof (Z.div_mod x 2 ltac:(lia)).
  ranges. lia.
Qed.

Lemma prefix_len_bound x :
  is_u 64 x -> Z.log2 (Z.lor x 1) < 56 -> 1 <= prefix_len x <= 8 /\ x < 2 ^ (7 * prefix_len x).
Proof.
  intros Hx Hl. destruct (lor_1 x Hx) as (H1 & _ & H2 & _). unfold prefix_len.
  set (k := Z.log2 (Z.lor x 1)) in *. pose proof (Z.log2_nonneg (Z.lor x 1)).
  pose proof (Z.div_mod k 7 ltac:(lia)). pose proof (Z.mod_pos_bound k 7 ltac:(lia)).
  split; [lia|]. apply Z.le_lt_trans with (Z.lor x 1); [done|].
  apply Z.lt_le_trans with (2 ^ Z.succ k); [by apply Z.log2_spec|].
  apply Z.pow_le_mono_r; lia.
Qed.

Lemma WritePrefixU64_short e x :
  is_u 64 x -> Z.log2 (Z.lor x 1) < 56 ->
  WritePrefixU64 e x
  = e_append e (le_put (prefix_len x) ((2 * x + 1) * 2 ^ (prefix_len x - 1))).
Proof.
  intros Hx Hl. destruct (lor_1 x Hx) as (H1 & H2 & _ & _).
  destruct (prefix_len_bound x Hx Hl) as [Hn Hb]. pose proof (Z.log2_nonneg (Z.lor x 1)).
  unfold WritePrefixU64. rewrite count_leading_zeros_64_log2 by done.
  replace (64 - (63 - Z.log2 (Z.lor x 1))) with (Z.log2 (Z.lor x 1) + 1) by lia.
  ztests. rewrite Z.add_simpl_r, Z.quot_div_nonneg by lia. fold (prefix_len x).
  rewrite WritePrefixU64_loop_bytes, Z2Nat.id by lia. unfold e_append. do 3 f_equal.
  set (n := prefix_len x) in *.
  assert (2 ^ (7 * n) <= 2 ^ 56) by (apply Z.pow_le_mono_r; lia).
  rewrite (wrap_small 64 (2 * x + 1)) by (ranges; lia).
  unfold shl. rewrite shiftl_mul by lia. apply wrap_small.
  assert (2 ^ (7 * n) * 2 * 2 ^ (n - 1) <= 2 ^ 64).
  { replace (2 ^ (7 * n) * 2 * 2 ^ (n - 1)) with (2 ^ (7 * n + 1 + (n - 1)))
      by (rewrite !Z.pow_add_r by lia; lia).
    apply Z.pow_le_mono_r; lia. }
  pose proof (pow2_pos (n - 1) ltac:(lia)). unfold is_u in *. split; [nia|].
  assert (2 * x + 1 < 2 ^ (7 * n) * 2) by lia. nia.
Qed.

Lemma WritePrefixU64_long e x :
  is_u 64 x -> 56 <= Z.log2 (Z.lor x 1) -> WritePrefixU64 e x = e_append e (0 :: le_put 8 x).
Proof.
  intros Hx Hl. destruct (lor_1 x Hx) as (H1 & H2 & _ & _).
  unfold WritePrefixU64. rewrite count_leading_zeros_64_log2 by done.
  ztests. rewrite WritePrefixU64_loop_bytes. unfold e_append. f_equal. by rewrite <- app_assoc.
Qed.

Lemma bytesToUint64_loop_le b i r :
  bytes_ok b -> 0 <= i -> i + zlen b <= 8 -> is_u (8 * i) r ->
  bytesToUint64_loop b i r = r + le_get b * 2 ^ (8 * i).
Proof.
  intros Hb. revert i r. induction Hb as [|x b Hx Hb IH]; intros i r Hi Hl Hr; cbn [bytesToUint64_loop].
  - change (le_get []) with 0. lia.
  - autorewrite with gow in Hl. pose proof (zlen_nonneg b).
    pose proof (pow2_pos (8 * i) ltac:(lia)).
    assert (2 ^ (8 * i) <= 2 ^ 56) by (apply Z.pow_le_mono_r; lia).
    unfold shl. rewrite wrap_small.
    2:{ rewrite shiftl_mul by lia. ranges. nia. }
    rewrite lor_shiftl_add by (done || lia). rewrite le_get_cons by done.
    replace (2 ^ (8 * (i + 1))) with (2 ^ (8 * i) * 2 ^ 8) in IH
      by (rewrite <- Z.pow_add_r by lia; f_equal; lia).
    rewrite IH.
    + replace (8 * (i + 1)) with (8 * i + 8) by lia. rewrite Z.pow_add_r by lia. lia.
    + lia.
    + lia.
    + unfold is_u in *. replace (8 * (i + 1)) with (8 * i + 8) by lia.
      rewrite Z.pow_add_r by lia. pow2. nia.
Qed.

Lemma bytesToUint64_le b : bytes_ok b -> zlen b <= 8 -> bytesToUint64 b = le_get b.
Proof.
  intros Hb Hl. unfold bytesToUint64.
  rewrite bytesToUint64_loop_le by (done || lia). change (2 ^ (8 * 0)) with 1. lia.
Qed.

(** Shifting out the unused high bytes and the length prefix. *)
Lemma prefix_unshift n v x :
  1 <= n <= 8 -> 0 <= x < 2 ^ (7 * n) ->
  v mod 2 ^ (8 * n) = (2 * x + 1) * 2 ^ (n - 1) ->
  shl 64 v (64 - 8 * n) ≫ (64 - 8 * n + n) = x.
Proof.
  intros Hn Hx Hv. unfold shl, wrap. rewrite shiftl_mul, shiftr_div by lia.
  assert (2 ^ 64 = 2 ^ (8 * n) * 2 ^ (64 - 8 * n)) as ->
    by (rewrite <- Z.pow_add_r by lia; f_equal; lia).
  rewrite Zmult_mod_distr_r, Hv.
  assert (2 ^ n = 2 ^ (n - 1) * 2) as E by (rewrite (pow2_half n) by lia; lia).
  rewrite (Z.add_comm (64 - 8 * n)), Z.pow_add_r by lia.
  rewrite Z.div_mul_cancel_r by (apply Z.pow_nonzero; lia).
  rewrite E. pose proof (pow2_pos (n - 1) ltac:(lia)).
  symmetry. apply (Z.div_unique _ _ _ (2 ^ (n - 1))); lia.
Qed.

Lemma prefix_ctz n x y :
  1 <= n <= 8 -> 0 <= x -> y = (2 * x + 1) * 2 ^ (n - 1) ->
  count_trailing_zeros_32 (Z.lor (y mod 256) 0x100) = n - 1.
Proof.
  intros Hn Hx Hy.
  replace (Z.lor (y mod 256) 0x100) with (y mod 256 + 1 * 2 ^ 8)
    by (symmetry; apply (lor_shiftl_add _ 1 8); [lia|apply (wrap_range 8); lia]).
  set (q := x - 2 ^ (8 - n) * (y / 256 - 1)).
  assert (2 ^ (n - 1) * 2 * 2 ^ (8 - n) = 256) as E.
  { change 256 with (2 ^ 8). rewrite <- (Z.mul_1_l 2) at 2. change (1 * 2) with (2 ^ 1).
    rewrite <- !Z.pow_add_r by lia. f_equal. lia. }
  pose proof (Z.div_mod y 256 ltac:(lia)). pose proof (Z.mod_pos_bound y 256 ltac:(lia)).
  pose proof (pow2_pos (n - 1) ltac:(lia)). pose proof (pow2_pos (8 - n) ltac:(lia)).
  assert (y mod 256 + 1 * 2 ^ 8 = 2 ^ (n - 1) * (2 * q + 1)) as Eq.
  { unfold q. pow2. replace (y mod 256) with (y - 256 * (y / 256)) by lia.
    rewrite <- E at 1. rewrite Hy at 1. nia. }
  rewrite Eq. apply count_trailing_zeros_32_spec; [lia| |rewrite <- Eq; pow2; lia].
  assert (0 < 2 * q + 1); [|lia]. apply (Z.mul_pos_cancel_l (2 ^ (n - 1))); lia.
Qed.

Lemma ReadPrefixU64_short beyond d p s n x :
  1 <= n <= 8 -> 0 <= x < 2 ^ (7 * n) -> bytes_ok s ->
  d_buf d = p ++ le_put n ((2 * x + 1) * 2 ^ (n - 1)) ++ s -> d_offset d = zlen p ->
  ReadPrefixU64 beyond d = Some (x, advance d n).
Proof.
  intros Hn Hx Hs Hb Ho. set (y := (2 * x + 1) * 2 ^ (n - 1)) in *.
  assert (is_u (n * 8) y) as Hy.
  { pose proof (pow2_pos (n - 1) ltac:(lia)). split; [nia|].
    replace (n * 8) with (7 * n + 1 + (n - 1)) by lia. rewrite !Z.pow_add_r by lia.
    unfold y. change (2 ^ 1) with 2. nia. }
  destruct (le_put_head n y) as [t Ht]; [lia|].
  unfold ReadPrefixU64.
  replace (d_buf d !! Z.to_nat (d_offset d)) with (Some (y mod 256)).
  2:{ rewrite Hb, Ht. symmetry. by apply lookup_mid. }
  rewrite (prefix_ctz n x y) by (done || lia). replace (1 + (n - 1)) with n by lia. cbv zeta.
  ztests. pose proof (zlen_nonneg s). pose proof (zlen_nonneg beyond).
  cbn [advance d_buf d_offset]. rewrite Z.add_simpl_r, Ho, Hb. autorewrite with gow.
  destruct (Z.gtb_spec (zlen p + (n + zlen s) - (zlen p + n) + n) 7) as [Hlong|Hshort].
  - f_equal. f_equal. apply prefix_unshift; [done..|].
    unfold slice. unfold zlen at 1. rewrite Nat2Z.id, drop_app_length.
    rewrite take_app_ge by (pose proof (le_put_zlen n y); unfold zlen in *; lia).
    rewrite le_get_app by auto with gow. autorewrite with gow.
    rewrite le_get_put, (Z.mul_comm 8 n), Z_mod_plus_full, Z.mod_small by (try done; try lia; apply Hy).
    done.
  - ztests. f_equal. f_equal. apply prefix_unshift; [done..|].
    rewrite <- !app_assoc, slice_mid by (by autorewrite with gow).
    rewrite bytesToUint64_le by (autorewrite with gow; auto with gow).
    rewrite le_get_put, Z.mod_small by (try done; try lia; rewrite Z.mul_comm; apply Hy). done.
Qed.

Lemma ReadPrefixU64_long beyond d p s x :
  is_u 64 x -> d_buf d = p ++ (0 :: le_put 8 x) ++ s -> d_offset d = zlen p ->
  ReadPrefixU64 beyond d = Some (x, advance d 9).
Proof.
  intros Hx Hb Ho. unfold ReadPrefixU64.
  replace (d_buf d !! Z.to_nat (d_offset d)) with (Some 0).
  2:{ rewrite Hb. symmetry. by apply lookup_mid. }
  change (1 + count_trailing_zeros_32 (Z.lor 0 256)) with 9. cbv zeta.
  ztests. cbn [advance d_buf d_offset]. rewrite Ho, Hb. autorewrite with gow.
  pose proof (zlen_nonneg s). pose proof (zlen_nonneg beyond). ztests. f_equal. f_equal.
  replace ((p ++ (0 :: le_put 8 x) ++ s) ++ beyond) with ((p ++ [0]) ++ (le_put 8 x ++ s ++ beyond))
    by (by rewrite <- !app_assoc).
  rewrite slice_mid; [by apply le_get_put| |]; autorewrite with gow; lia.
Qed.

(** * Reading untrusted bytes *)

(** A reader that keeps the buffer, never moves backwards, counts every failure
    and, when it does not fail, stays inside the buffer and returns a value of
    its type. *)
Class SoundRead {A} (ok : A -> Prop) (read : SimpleDecoder -> A * SimpleDecoder) : Prop :=
  sound_read d :
    bytes_ok (d_buf d) -> 0 <= d_offset d ->
    d_buf (read d).2 = d_buf d /\ d_err d <= d_err (read d).2 /\
    d_offset d <= d_offset (read d).2 /\
    (d_err (read d).2 = d_err d -> d_offset (read d).2 <= zlen (d_buf d) /\ ok (read d).1).

Lemma past_end_false d n :
  past_end (advance d n) = false <-> d_offset d + n <= zlen (d_buf d).
Proof. unfold past_end. cbn. lia. Qed.

(** The guard and what holds on each side of it. *)
Lemma guarded_read {A} (ok : A -> Prop) d n (z v : A) :
  0 <= n -> (d_offset d + n <= zlen (d_buf d) -> ok v) ->
  let r := if past_end (advance d n) then (z, fail (advance d n)) else (v, advance d n) in
  d_buf r.2 = d_buf d /\ d_err d <= d_err r.2 /\ d_offset d <= d_offset r.2 /\
  (d_err r.2 = d_err d -> d_offset r.2 <= zlen (d_buf d) /\ ok r.1).
Proof.
  intros Hn Hv. rewrite <- past_end_false in Hv.
  destruct (past_end (advance d n)) eqn:E; cbn.
  - repeat split; lia.
  - apply past_end_false in E. repeat split; auto; lia.
Qed.

#[export] Instance U8_sound : SoundRead (is_u 8) ReadU8.
Proof. intros d Hb Ho. apply (guarded_read _ d 1); [lia|]. intros. by apply byte_at_ok. Qed.

#[export] Instance Bool_sound : SoundRead (fun _ => True) ReadBool.
Proof. intros d Hb Ho. by apply (guarded_read (fun _ => True) d 1). Qed.

#[export] Instance U16_sound : SoundRead (is_u 16) ReadU16.
Proof.
  intros d Hb Ho. apply (guarded_read _ d 2); [lia|]. intros.
  apply (le_get_slice_ok _ _ 2); cbn; auto; lia.
Qed.

#[export] Instance U32_sound : SoundRead (is_u 32) ReadU32.
Proof.
  intros d Hb Ho. apply (guarded_read _ d 4); [lia|]. intros.
  apply (le_get_slice_ok _ _ 4); cbn; auto; lia.
Qed.

#[export] Instance U64_sound : SoundRead (is_u 64) ReadU64.
Proof.
  intros d Hb Ho. apply (guarded_read _ d 8); [lia|]. intros.
  apply (le_get_slice_ok _ _ 8); cbn; auto; lia.
Qed.

(** A length read soundly, then that many bytes. *)
Lemma block_sound {okl rdl} (n : Z) :
  SoundRead okl rdl -> (forall d, bytes_ok (d_buf d) -> 0 <= d_offset d -> 0 <= (rdl d).1) ->
  (forall l, okl l -> l < n) ->
  SoundRead (block_ok n) (fun d =>
    let '(l, d) := rdl d in
    let d := advance d l in
    if past_end d then ([], fail d) else (slice (d_buf d) (d_offset d - l) l, d)).
Proof.
  intros HS Hpos Hn d Hb Ho. destruct (HS d Hb Ho) as (H1 & H2 & H3 & H4).
  specialize (Hpos d Hb Ho). destruct (rdl d) as [l d'] eqn:E. cbn [fst snd] in *. cbv zeta.
  destruct (past_end (advance d' l)) eqn:P; cbn.
  - repeat split; try done; lia.
  - apply past_end_false in P. repeat split; try done; try lia; rewrite H1 in *.
    + lia.
    + rewrite slice_zlen by lia. apply Hn, H4. lia.
    + by apply bytes_ok_slice.
Qed.

#[export] Instance Bytes_sound : SoundRead (block_ok (2 ^ 32)) ReadBytes.
Proof.
  apply (block_sound (okl := is_u 32) (rdl := ReadU32)); [apply _| |by intros l [_ ?]].
  intros d Hb Ho. unfold ReadU32. destruct (past_end _) eqn:P; cbn; [lia|].
  apply past_end_false in P. by apply (le_get_slice_ok _ _ 4); cbn; auto; lia.
Qed.

#[export] Instance String255_sound : SoundRead (block_ok 256) ReadString255.
Proof.
  apply (block_sound (okl := is_u 8) (rdl := ReadU8)); [apply _| |by intros l [_ ?]].
  intros d Hb Ho. unfold ReadU8. destruct (past_end _) eqn:P; cbn; [lia|].
  by apply byte_at_ok.
Qed.

Lemma read_elems_ok w d i :
  bytes_ok (d_buf d) -> 0 <= w -> w * Z.of_nat i <= d_offset d <= zlen (d_buf d) ->
  Forall (is_u (w * 8)) (read_elems w d i) /\ length (read_elems w d i) = i.
Proof.
  intros Hb Hw. induction i as [|i IH]; intros Hi; cbn [read_elems length]; [by split|].
  destruct IH as [IH1 IH2]; [lia|]. split; [|by rewrite IH2].
  constructor; [|done]. apply le_get_slice_ok; auto; lia.
Qed.

Lemma elem_slice_sound w :
  0 < w ->
  SoundRead (slice_ok (w * 8)) (fun d =>
    let '(l, d) := ReadU32 d in
    if l =? 0 then ([], d)
    else let d := advance d (l * w) in
         if past_end d then ([], fail d) else (read_elems w d (Z.to_nat l), d)).
Proof.
  intros Hw d Hb Ho. destruct (U32_sound d Hb Ho) as (H1 & H2 & H3 & H4).
  assert (0 <= (ReadU32 d).1) as Hpos.
  { unfold ReadU32. destruct (past_end _) eqn:P; cbn; [lia|]. apply past_end_false in P.
    by apply (le_get_slice_ok _ _ 4); cbn; auto; lia. }
  destruct (ReadU32 d) as [l d'] eqn:E. cbn [fst snd] in *.
  destruct (Z.eqb_spec l 0) as [->|Hl]; cbn [fst snd].
  { repeat split; try done; try lia. }
  cbv zeta. destruct (past_end (advance d' (l * w))) eqn:P; cbn.
  { repeat split; try done; try nia. }
  apply past_end_false in P. rewrite H1 in *.
  destruct (read_elems_ok w (advance d' (l * w)) (Z.to_nat l)) as [R1 R2]; cbn; try rewrite H1; [done|lia|nia|].
  repeat split; try done; try nia. unfold zlen. rewrite R2.
  destruct H4 as [_ [_ ?]]; [nia|]. lia.
Qed.

#[export] Instance U16Slice_sound : SoundRead (slice_ok 16) ReadU16Slice.
Proof. by apply (elem_slice_sound 2). Qed.

#[export] Instance U32Slice_sound : SoundRead (slice_ok 32) ReadU32Slice.
Proof. by apply (elem_slice_sound 4). Qed.

Lemma decodeVarintSlow_loop_sound shifts d i x :
  bytes_ok (d_buf d) -> 0 <= i -> d_offset d <= i -> is_u 64 x ->
  let r := decodeVarintSlow_loop shifts d i x in
  d_buf r.2 = d_buf d /\ d_err d <= d_err r.2 /\ d_offset d <= d_offset r.2 /\
  is_u 64 r.1 /\ (d_err r.2 = d_err d -> d_offset r.2 <= zlen (d_buf d)).
Proof.
  intros Hb. revert i x. induction shifts as [|sh shifts IH]; intros i x Hi Ho Hx;
    cbn [decodeVarintSlow_loop].
  - cbn. repeat split; try apply Hx; lia.
  - destruct (Z.geb_spec i (zlen (d_buf d))); [cbn; repeat split; try apply Hx; lia|].
    assert (is_u 64 (Z.lor x (shl 64 (Z.land (byte_at (d_buf d) i) 127) sh)))
      by (apply is_u_lor; auto with gow; by apply wrap_range).
    destruct (byte_at (d_buf d) i <? 128).
    + cbn. repeat split; try apply H0; lia.
    + apply IH; auto; lia.
Qed.

#[export] Instance VarintU64_sound : SoundRead (is_u 64) ReadVarintU64.
Proof.
  intros d Hb Ho. unfold ReadVarintU64.
  destruct (DecodeVarint_slow d Hb Ho) as [E2 E1].
  pose proof (decodeVarintSlow_loop_sound [0; 7; 14; 21; 28; 35; 42; 49; 56; 63] d (d_offset d) 0)
    as (H1 & H2 & H3 & H4 & H5); [done|done|lia|by ranges|].
  fold (decodeVarintSlow d) in *. rewrite E2.
  repeat split; auto; rewrite E1 by done; apply H4.
Qed.

Lemma map_sound {A B okA okB rd} (f : A -> B) :
  SoundRead okA rd -> (forall x, okA x -> okB (f x)) ->
  SoundRead okB (fun d => let '(x, d) := rd d in (f x, d)).
Proof.
  intros HS Hf d Hb Ho. destruct (HS d Hb Ho) as (H1 & H2 & H3 & H4).
  destruct (rd d) as [x d']. cbn in *. repeat split; auto; try apply H4; auto.
  apply Hf, H4. done.
Qed.

#[export] Instance VarintU32_sound : SoundRead (is_u 32) ReadVarintU32.
Proof. apply (map_sound (fun x => u32 x) VarintU64_sound). intros. by apply wrap_range. Qed.

#[export] Instance ZigzagU32_sound : SoundRead (is_u 32) ReadZigzagU32.
Proof.
  apply (map_sound (fun x => Z.lxor (u32 x ≫ 1) (u32 (i32 (Z.land x 1 ≪ 31) ≫ 31))) VarintU64_sound).
  intros. apply is_u_lxor; [lia|apply is_u_shiftr; [lia|]|]; by apply wrap_range.
Qed.

#[export] Instance ZigzagU64_sound : SoundRead (is_u 64) ReadZigzagU64.
Proof.
  apply (map_sound (fun x => Z.lxor (x ≫ 1) (u64 (i64 (Z.land x 1 ≪ 63) ≫ 63))) VarintU64_sound).
  intros. apply is_u_lxor; [lia|by apply is_u_shiftr|by apply wrap_range].
Qed.

#[export] Instance BytesWithVarintLen_sound : SoundRead (block_ok (2 ^ 32)) ReadBytesWithVarintLen.
Proof.
  apply (block_sound (okl := is_u 32) (rdl := ReadVarintU32)); [apply _| |by intros l [_ ?]].
  intros d Hb Ho. unfold ReadVarintU32. destruct (DecodeVarint d). cbn. by apply wrap_range.
Qed.

(** * Messages

    A message is a sequence of fields; every field has one of the formats of
    the codec. *)

Inductive kind :=
| KBool | KU8 | KU16 | KU32 | KU64 | KU16Slice | KU32Slice | KString255 | KBytes
| KBytesVarint | KVarintU32 | KVarintU64 | KZigzagU32 | KZigzagU64.

Definition kval (k : kind) : Type :=
  match k with
  | KBool => bool
  | KU8 | KU16 | KU32 | KU64 | KVarintU32 | KVarintU64 | KZigzagU32 | KZigzagU64 => Z
  | _ => list Z
  end.

Definition kok (k : kind) : kval k -> Prop :=
  match k with
  | KBool => fun _ => True
  | KU8 => is_u 8
  | KU16 => is_u 16
  | KU32 | KVarintU32 | KZigzagU32 => is_u 32
  | KU64 | KVarintU64 | KZigzagU64 => is_u 64
  | KU16Slice => slice_ok 16
  | KU32Slice => slice_ok 32
  | KString255 => block_ok 256
  | KBytes | KBytesVarint => block_ok (2 ^ 32)
  end.

Definition kwrite (k : kind) : SimpleEncoder -> kval k -> SimpleEncoder :=
  match k with
  | KBool => WriteBool
  | KU8 => WriteU8
  | KU16 => WriteU16
  | KU32 => WriteU32
  | KU64 => WriteU64
  | KU16Slice => WriteU16Slice
  | KU32Slice => WriteU32Slice
  | KString255 => WriteString255
  | KBytes => WriteBytes
  | KBytesVarint => WriteBytesWithVarintLen
  | KVarintU32 => WriteVarintU32
  | KVarintU64 => WriteVarintU64
  | KZigzagU32 => WriteZigzagU32
  | KZigzagU64 => WriteZigzagU64
  end.

Definition kread (k : kind) : SimpleDecoder -> kval k * SimpleDecoder :=
  match k with
  | KBool => ReadBool
  | KU8 => ReadU8
  | KU16 => ReadU16
  | KU32 => ReadU32
  | KU64 => ReadU64
  | KU16Slice => ReadU16Slice
  | KU32Slice => ReadU32Slice
  | KString255 => ReadString255
  | KBytes => ReadBytes
  | KBytesVarint => ReadBytesWithVarintLen
  | KVarintU32 => ReadVarintU32
  | KVarintU64 => ReadVarintU64
  | KZigzagU32 => ReadZigzagU32
  | KZigzagU64 => ReadZigzagU64
  end.

Definition field : Type := {k : kind & kval k}.

Definition field_ok (f : field) : Prop := kok (projT1 f) (projT2 f).

Definition write_fields (e : SimpleEncoder) (fs : list field) : SimpleEncoder :=
  foldl (fun e f => kwrite (projT1 f) e (projT2 f)) e fs.

Fixpoint read_fields (ks : list kind) (d : SimpleDecoder) : list field * SimpleDecoder :=
  match ks with
  | [] => ([], d)
  | k :: ks =>
      let '(v, d) := kread k d in
      let '(fs, d) := read_fields ks d in (existT k v :: fs, d)
  end.

Definition kwire (k : kind) : WireFormat (kok k) (kwrite k) (kread k).
Proof. destruct k; apply _. Defined.

Lemma ksound (k : kind) : SoundRead (kok k) (kread k).
Proof. destruct k; apply _. Qed.

Definition fields_bytes (fs : list field) : list Z :=
  flat_map (fun f => wire (WireFormat := kwire (projT1 f)) (projT2 f)) fs.

Lemma fields_bytes_ok fs : Forall field_ok fs -> bytes_ok (fields_bytes fs).
Proof.
  induction 1 as [|f fs Hf Hfs IH]; [constructor|]. apply bytes_ok_app; [|done].
  by apply wire_bytes.
Qed.

Lemma write_fields_bytes e fs :
  Forall field_ok fs -> write_fields e fs = e_append e (fields_bytes fs).
Proof.
  intros H. revert e. induction H as [|f fs Hf Hfs IH]; intros e; cbn.
  - unfold e_append. rewrite app_nil_r. by destruct e.
  - unfold write_fields in IH. rewrite IH. rewrite (wire_write (WireFormat := kwire (projT1 f))) by done.
    apply e_append_app.
Qed.

Lemma read_fields_bytes d p s fs :
  Forall field_ok fs -> bytes_ok p -> bytes_ok s ->
  d_buf d = p ++ fields_bytes fs ++ s -> d_offset d = zlen p ->
  read_fields (projT1 <$> fs) d = (fs, advance d (zlen (fields_bytes fs))).
Proof.
  intros H. revert d p. induction H as [|[k v] fs Hf Hfs IH]; intros d p Hp Hs Hb Ho; cbn.
  - f_equal. unfold advance. destruct d. cbn. f_equal. unfold zlen. cbn. lia.
  - cbn in Hb. rewrite <- app_assoc in Hb.
    rewrite (wire_read (WireFormat := kwire k) d p v (fields_bytes fs ++ s))
      by auto using fields_bytes_ok with gow.
    rewrite (IH _ (p ++ wire (WireFormat := kwire k) v)).
    + rewrite advance_advance. by autorewrite with gow.
    + apply bytes_ok_app; [done|]. by apply wire_bytes.
    + done.
    + cbn. by rewrite <- app_assoc.
    + cbn. rewrite Ho. by autorewrite with gow.
Qed.

Lemma read_fields_sound ks d :
  bytes_ok (d_buf d) -> 0 <= d_offset d ->
  let r := read_fields ks d in
  d_buf r.2 = d_buf d /\ d_err d <= d_err r.2 /\ d_offset d <= d_offset r.2 /\
  (d_err r.2 = d_err d -> (d_offset d <= zlen (d_buf d) -> d_offset r.2 <= zlen (d_buf d)) /\
                           Forall field_ok r.1 /\ projT1 <$> r.1 = ks).
Proof.
  revert d. induction ks as [|k ks IH]; intros d Hb Ho; cbn.
  { repeat split; try done; lia. }
  destruct (ksound k d Hb Ho) as (H1 & H2 & H3 & H4).
  destruct (kread k d) as [v d1]. cbn [fst snd] in *.
  destruct (IH d1) as (I1 & I2 & I3 & I4); [by rewrite H1|lia|].
  destruct (read_fields ks d1) as [fs d2]. cbn [fst snd] in *.
  split; [congruence|]. split; [lia|]. split; [lia|]. intros E.
  destruct H4 as [H4 H4']; [lia|]. destruct I4 as (I4 & I5 & I6); [lia|].
  rewrite H1 in I4. split; [auto|]. split; [by constructor|]. cbn. by rewrite I6.
Qed.

(** * Properties *)

(** C8: A message is read back as it was written.  For every sequence of
    well-formed fields, of any mix of the formats of the codec, written after
    any content of the encoder and followed by any bytes, reading the same kinds
    of fields from where the message starts returns exactly the fields, leaves
    the decoder at the end of the message and counts no failure. *)
Theorem message_roundtrip e fs s err :
  Forall field_ok fs -> bytes_ok (e_buf e) -> bytes_ok s ->
  let b := e_buf (write_fields e fs) in
  read_fields (projT1 <$> fs) (mkDecoder (b ++ s) (zlen (e_buf e)) err)
  = (fs, mkDecoder (b ++ s) (zlen b) err).
Proof.
  intros Hfs He Hs. cbv zeta. rewrite write_fields_bytes by done. cbn [e_append e_buf].
  rewrite (read_fields_bytes _ (e_buf e) s) by (try done; cbn; by rewrite app_assoc).
  unfold advance. cbn. by autorewrite with gow.
Qed.

Example message_roundtrip_witness :
  let fs := [existT KU16 513; existT KString255 [104; 105]; existT KZigzagU32 4294967295;
             existT KU32Slice [7; 8]; existT KVarintU64 (2 ^ 64 - 1); existT KBool true] in
  let e := mkEncoder [9] 1 in
  let b := e_buf (write_fields e fs) in
  read_fields [KU16; KString255; KZigzagU32; KU32Slice; KVarintU64; KBool]
    (mkDecoder (b ++ [5]) 1 0) = (fs, mkDecoder (b ++ [5]) (zlen b) 0).
Proof.
  apply (message_roundtrip (mkEncoder [9] 1)
    [existT KU16 513; existT KString255 [104; 105]; existT KZigzagU32 4294967295;
     existT KU32Slice [7; 8]; existT KVarintU64 (2 ^ 64 - 1); existT KBool true] [5] 0);
    repeat constructor; vm_compute; congruence.
Defined.

(** C32: Reading a message from arbitrary bytes is safe.  Whatever the buffer
    holds, reading any sequence of fields keeps the buffer, never moves the
    offset backwards and never lowers the failure count; and when the decoder
    counts no new failure, the offset is still inside the buffer and every value
    read is a value of its type, in the order asked for. *)
Theorem message_read_safe ks d :
  bytes_ok (d_buf d) -> 0 <= d_offset d <= zlen (d_buf d) ->
  let '(fs, d') := read_fields ks d in
  d_buf d' = d_buf d /\ d_err d <= d_err d' /\ d_offset d <= d_offset d' /\
  (d_err d' = d_err d ->
   d_offset d' <= zlen (d_buf d) /\ Forall field_ok fs /\ projT1 <$> fs = ks).
Proof.
  intros Hb Ho. destruct (read_fields_sound ks d Hb) as (H1 & H2 & H3 & H4); [lia|].
  destruct (read_fields ks d) as [fs d']. cbn in *. repeat split; auto; intros; apply H4; auto; lia.
Qed.

Example message_read_safe_witness :
  let d := mkDecoder [255; 255; 255; 255; 1] 0 0 in
  let '(fs, d') := read_fields [KU32Slice; KU8] d in
  d_buf d' = d_buf d /\ d_err d <= d_err d' /\ d_offset d <= d_offset d' /\
  (d_err d' = d_err d ->
   d_offset d' <= zlen (d_buf d) /\ Forall field_ok fs /\ projT1 <$> fs = [KU32Slice; KU8]).
Proof.
  apply (message_read_safe [KU32Slice; KU8] (mkDecoder [255; 255; 255; 255; 1] 0 0)).
  - repeat constructor; vm_compute; congruence.
  - vm_compute. split; congruence.
Defined.

(** C33: The unrolled varint decoder agrees with the byte-by-byte one.  On any
    buffer and offset [DecodeVarint] leaves the decoder in the same state as
    [decodeVarintSlow] (same offset, same failure count) and, unless the read
    failed, returns the same value. *)
Theorem DecodeVarint_equiv_slow d :
  bytes_ok (d_buf d) -> 0 <= d_offset d ->
  (DecodeVarint d).2 = (decodeVarintSlow d).2 /\
  (d_err (decodeVarintSlow d).2 = d_err d -> (DecodeVarint d).1 = (decodeVarintSlow d).1).
Proof. apply DecodeVarint_slow. Qed.

Example DecodeVarint_equiv_slow_witness :
  let d := mkDecoder [200; 255; 255; 255; 255; 255; 255; 255; 255; 1; 7] 0 0 in
  (DecodeVarint d).2 = (decodeVarintSlow d).2 /\
  (d_err (decodeVarintSlow d).2 = d_err d -> (DecodeVarint d).1 = (decodeVarintSlow d).1).
Proof.
  apply (DecodeVarint_equiv_slow
           (mkDecoder [200; 255; 255; 255; 255; 255; 255; 255; 255; 1; 7] 0 0)).
  - repeat constructor; vm_compute; congruence.
  - done.
Defined.

(** Prefix varints are read back as they were written, for every 64-bit
    value, in both layouts (one to eight bytes with the length in the low bits,
    nine bytes for the large values) and through both decoding branches (eight
    bytes available or fewer). *)
Theorem prefix_varint_roundtrip e v s beyond err :
  is_u 64 v -> bytes_ok s ->
  let b := e_buf (WritePrefixU64 e v) in
  ReadPrefixU64 beyond (mkDecoder (b ++ s) (zlen (e_buf e)) err)
  = Some (v, mkDecoder (b ++ s) (zlen b) err).
Proof.
  intros Hv Hs. cbv zeta. destruct (Z.lt_ge_cases (Z.log2 (Z.lor v 1)) 56) as [Hl|Hl].
  - destruct (prefix_len_bound v Hv Hl) as [Hn Hb].
    rewrite WritePrefixU64_short by done. cbn [e_append e_buf].
    rewrite (ReadPrefixU64_short _ _ (e_buf e) s (prefix_len v) v);
      [|lia|split; [apply Hv|done]|done|cbn; by rewrite app_assoc|done].
    unfold advance. cbn. autorewrite with gow. done.
  - rewrite WritePrefixU64_long by done. cbn [e_append e_buf].
    rewrite (ReadPrefixU64_long _ _ (e_buf e) s v) by (try done; cbn; by rewrite <- app_assoc).
    unfold advance. cbn. autorewrite with gow. done.
Qed.

Example prefix_varint_roundtrip_witness :
  let b := e_buf (WritePrefixU64 (mkEncoder [1; 2] 1) 123456789) in
  ReadPrefixU64 [7] (mkDecoder (b ++ [3]) 2 0) = Some (123456789, mkDecoder (b ++ [3]) (zlen b) 0).
Proof.
  apply (prefix_varint_roundtrip (mkEncoder [1; 2] 1) 123456789 [3] [7] 0).
  - vm_compute. split; congruence.
  - repeat constructor; vm_compute; congruence.
Defined.

(** The prefix varint reader has no bounds check.  It panics exactly when
    the offset is at or past the end of the buffer or the length announced by the
    first byte reaches past its capacity; no truncated input is reported through the
    failure count, as every other reader of the decoder does. *)
Theorem ReadPrefixU64_panics_iff beyond d :
  0 <= d_offset d ->
  ReadPrefixU64 beyond d = None <->
  zlen (d_buf d) <= d_offset d \/
  zlen (d_buf d ++ beyond)
  < d_offset d + 1 + count_trailing_zeros_32 (Z.lor (byte_at (d_buf d) (d_offset d)) 0x100).
Proof.
  intros Ho. unfold ReadPrefixU64, byte_at.
  destruct (d_buf d !! Z.to_nat (d_offset d)) as [b0|] eqn:E; cbn [default].
  - apply lookup_lt_Some in E. set (n := count_trailing_zeros_32 _). cbv zeta.
    cbn [advance d_buf d_offset]. unfold zlen in *. rewrite length_app.
    destruct (Z.ltb_spec (1 + n) 9); zcases; split; intros; try done; lia.
  - apply lookup_ge_None in E. unfold zlen. split; [lia|done].
Qed.

Example ReadPrefixU64_panics_iff_witness :
  ReadPrefixU64 [] (mkDecoder [2] 0 0) = None <->
  zlen [2] <= 0 \/ zlen [2] < 0 + 1 + count_trailing_zeros_32 (Z.lor (byte_at [2] 0) 0x100).
Proof. apply (ReadPrefixU64_panics_iff [] (mkDecoder [2] 0 0)). done. Defined.

(** Written and read back, for the proofs about messages. *)
Lemma PB_written_read `{PBLaws A} e (r v : A) s err :
  pb_valid v -> pb_ready r -> zlen (pb_bytes v) < 2 ^ 32 ->
  exists e' v', WritePB e v = Some e' /\
    e_buf e' = e_buf e ++ le_put 4 (zlen (pb_bytes v)) ++ pb_bytes v /\
    ReadPB (mkDecoder (e_buf e' ++ s) (zlen (e_buf e)) err) r
    = (v', true, mkDecoder (e_buf e' ++ s) (zlen (e_buf e')) err) /\
    pb_reads v v'.
Proof.
  intros Hv Hr Hl. rewrite WritePB_wire by done.
  set (e' := e_append e _).
  destruct (ReadPB_wire (mkDecoder (e_buf e' ++ s) (zlen (e_buf e)) err) (e_buf e) r v s)
    as (v' & Hread & Hreads); try done.
  { cbn. by rewrite <- !app_assoc. }
  exists e', v'. split_and!; [done|done| |done].
  rewrite Hread. unfold advance, e'. cbn. by autorewrite with gow.
Qed.

(** A protobuf message written with its length is read back.  For every
    message type whose generated code marshals into the front of the buffer it is
    given and unmarshals what it marshalled into a message without content,
    [WritePB] appends the length and the message, leaves none of the padding it
    reserved in the buffer, and [ReadPB] returns the message and stops right
    after it. *)
Theorem pb_roundtrip `{PBLaws A} e (r v : A) s err :
  pb_valid v -> pb_ready r -> zlen (pb_bytes v) < 2 ^ 32 ->
  exists e' v', WritePB e v = Some e' /\
    e_buf e' = e_buf e ++ le_put 4 (zlen (pb_bytes v)) ++ pb_bytes v /\
    ReadPB (mkDecoder (e_buf e' ++ s) (zlen (e_buf e)) err) r
    = (v', true, mkDecoder (e_buf e' ++ s) (zlen (e_buf e')) err) /\
    pb_reads v v'.
Proof. apply PB_written_read. Qed.

(** A message with one varint field, as protobuf lays it out. *)
Definition flag_bytes (b : bool) : list Z := [8; if b then 1 else 0].

#[local] Instance flag_PBCodec : PBCodec bool := {|
  pb_Size _ := 2;
  pb_MarshalTo b buf := if zlen buf <? 2 then None else Some (copy_to buf (flag_bytes b), 2);
  pb_Unmarshal _ bs := match bs with [8; 0] => (false, true) | [8; 1] => (true, true) | _ => (false, false) end
|}.

#[local] Program Instance flag_PBLaws : PBLaws bool := {|
  pb_valid _ := True; pb_ready r := r = false; pb_reads v v' := v = v'; pb_bytes := flag_bytes
|}.
Next Obligation. intros [] _; repeat constructor; vm_compute; congruence. Qed.
Next Obligation. done. Qed.
Next Obligation. intros v b _ Hb. change (zlen (flag_bytes v)) with 2 in *. cbn [pb_MarshalTo flag_PBCodec]. by ztests. Qed.
Next Obligation. intros r [] _ _; eauto. Qed.

Example pb_roundtrip_witness :
  exists e' v', WritePB (mkEncoder [7] 1) true = Some e' /\
    e_buf e' = [7] ++ le_put 4 2 ++ [8; 1] /\
    ReadPB (mkDecoder (e_buf e' ++ []) 1 0) false
    = (v', true, mkDecoder (e_buf e' ++ []) (zlen (e_buf e')) 0) /\ true = v'.
Proof. exact (pb_roundtrip (mkEncoder [7] 1) false true [] 0 I eq_refl eq_refl). Defined.

(** The De Bruijn tables count bits: for every non-zero 64-bit value the
    number of leading zeros is 63 minus the position of the highest set bit, and
    for every non-zero 32-bit value, written [2^k * (2q+1)], the number of
    trailing zeros is [k]. *)
Theorem de_Bruijn_counts :
  (forall x, 0 < x -> is_u 64 x -> count_leading_zeros_64 x = 63 - Z.log2 x) /\
  (forall k q, 0 <= k -> 0 <= q -> is_u 32 (2 ^ k * (2 * q + 1)) ->
     count_trailing_zeros_32 (2 ^ k * (2 * q + 1)) = k).
Proof.
  split.
  - apply count_leading_zeros_64_log2.
  - intros k q Hk Hq [_ Hx]. by apply count_trailing_zeros_32_spec.
Qed.

Example de_Bruijn_counts_witness :
  count_leading_zeros_64 (2 ^ 40 + 5) = 23 /\ count_trailing_zeros_32 (2 ^ 2 * (2 * 1 + 1)) = 2.
Proof.
  split.
  - apply (proj1 de_Bruijn_counts (2 ^ 40 + 5)); vm_compute; [|split]; congruence.
  - apply (proj2 de_Bruijn_counts 2 1); vm_compute; [..|split]; congruence.
Defined.
