(* ===== verification/Queue.v ===== *)
(** The overwriting queue of [server/libs/queue]: a ring of [2^k] slots whose
    writer overwrites the oldest items when it is full ([queue.go]), and the
    table of queues indexed by a hash key ([multi_queue.go]).

    An item is an [interface{}]: [Some x], or [None] for nil, which the flush
    indicator puts.  [uint] fields are 64 bits wide.  [Put] and the read
    operations are modelled as the transition they make when they run alone; the
    interleavings of their critical sections are in [QueueConc.v]. *)

From S2P Require Import Prelude.

Section Queue.
Context {A : Type}.

Record Counter := mkCounter {
  In : Z;
  Out : Z;
  Overwritten : Z;
  Pending : Z
}.

Definition zero_Counter : Counter := mkCounter 0 0 0 0.

(** [release] says whether a release callback is set; the callback itself is
    the list of items it has been given, in order. *)
Record OverwriteQueue := mkQueue {
  items : list (option A);
  size : Z;
  writeCursor : Z;
  pending : Z;
  readerWaiting : Z;
  release : bool;
  released : list A;
  counter : Counter
}.

Definition set_items (q : OverwriteQueue) (l : list (option A)) : OverwriteQueue :=
  mkQueue l (size q) (writeCursor q) (pending q) (readerWaiting q) (release q) (released q)
    (counter q).

Definition set_pending (q : OverwriteQueue) (n : Z) : OverwriteQueue :=
  mkQueue (items q) (size q) (writeCursor q) n (readerWaiting q) (release q) (released q)
    (counter q).

Definition set_counter (q : OverwriteQueue) (c : Counter) : OverwriteQueue :=
  mkQueue (items q) (size q) (writeCursor q) (pending q) (readerWaiting q) (release q)
    (released q) c.

(** ** Initialisation *)

(** The loop that rounds the requested size up to a power of two. *)
Fixpoint round_size (rounds : nat) (i size : Z) : Z :=
  match rounds with
  | O => size
  | S rounds => if 1 ≪ i >=? size then 1 ≪ i else round_size rounds (i + 1) size
  end.

(** [Init] on a queue whose size is still zero; [rel] is the release option. *)
Definition Init (size : Z) (rel : bool) : OverwriteQueue :=
  let size := round_size 32 0 size in
  mkQueue (replicate (Z.to_nat size) None) size 0 0 0 rel [] zero_Counter.

Definition GetCounter (q : OverwriteQueue) : Counter * OverwriteQueue :=
  (counter q, set_counter q zero_Counter).

Definition firstIndex (q : OverwriteQueue) : Z :=
  Z.land (u64 (u64 (writeCursor q + size q) - pending q)) (u64 (size q - 1)).

Definition Len (q : OverwriteQueue) : Z := i64 (pending q).

(** ** Put *)

(** [copy(dst[off:], src)] *)
Definition copy_at {B} (dst : list B) (off : Z) (src : list B) : list B :=
  take (Z.to_nat off) dst
  ++ take (length (drop (Z.to_nat off) dst)) src
  ++ drop (length src) (drop (Z.to_nat off) dst).

(** Calls the release callback on every item of the slice that is not nil. *)
Definition releaseOverwritten (q : OverwriteQueue) (overwritten : list (option A))
    : OverwriteQueue :=
  mkQueue (items q) (size q) (writeCursor q) (pending q) (readerWaiting q) (release q)
    (released q ++ omap id overwritten) (counter q).

(** The part of [Put] that releases the items about to be overwritten. *)
Definition Put_release (q : OverwriteQueue) (itemSize freeSize : Z) : OverwriteQueue :=
  if release q && (itemSize >? freeSize) then
    let releaseFrom := firstIndex q in
    let releaseTo := u64 (writeCursor q + itemSize) in
    let releaseTo :=
      if releaseTo >? size q then Z.land releaseTo (u64 (size q - 1)) else releaseTo in
    if releaseFrom <=? releaseTo then
      releaseOverwritten q (slice (items q) releaseFrom (releaseTo - releaseFrom))
    else
      let q := releaseOverwritten q (slice (items q) releaseFrom (size q - releaseFrom)) in
      releaseOverwritten q (slice (items q) 0 releaseTo)
  else q.

(** The two [copy] calls that write the new items into the ring. *)
Definition Put_copy (q : OverwriteQueue) (its : list (option A)) : OverwriteQueue :=
  let copied := Z.min (zlen (items q) - writeCursor q) (zlen its) in
  let l := copy_at (items q) (writeCursor q) its in
  if negb (copied =? zlen its) then set_items q (copy_at l 0 (drop (Z.to_nat copied) its))
  else set_items q l.

Definition Put_count (q : OverwriteQueue) (itemSize freeSize : Z) : OverwriteQueue :=
  let c := counter q in
  let c := mkCounter (u64 (In c + itemSize)) (Out c) (Overwritten c) (Pending c) in
  set_counter q
    (if itemSize >? freeSize then
       mkCounter (In c) (Out c) (u64 (Overwritten c + u64 (itemSize - freeSize))) (Pending c)
     else c).

(** The critical section that publishes the items; [true] when a waiting
    reader is to be woken. *)
Definition Put_publish (q : OverwriteQueue) (itemSize : Z) : bool * OverwriteQueue :=
  let pending' :=
    if u64 (pending q + itemSize) <? size q then u64 (pending q + itemSize) else size q in
  let cursor := Z.land (u64 (writeCursor q + itemSize)) (u64 (size q - 1)) in
  let wake := readerWaiting q >? 0 in
  (wake, mkQueue (items q) (size q) cursor pending'
           (if wake then readerWaiting q - 1 else readerWaiting q)
           (release q) (released q) (counter q)).

Definition Put_gauge (q : OverwriteQueue) : OverwriteQueue :=
  let c := counter q in
  if Pending c <? pending q then set_counter q (mkCounter (In c) (Out c) (Overwritten c) (pending q))
  else q.

(** The error is [OverflowError]; the first component is [true] when it is
    returned. *)
Definition Put (q : OverwriteQueue) (its : list (option A)) : bool * OverwriteQueue :=
  let itemSize := zlen its in
  if itemSize >? size q then (true, q)
  else
    let freeSize := u64 (size q - pending q) in
    let q :=
      if itemSize >? freeSize then Put_release q itemSize (u64 (size q - pending q)) else q in
    let q := Put_copy q its in
    let q := Put_count q itemSize freeSize in
    let '(_, q) := Put_publish q itemSize in
    (false, Put_gauge q).

(** ** Get *)

(** [get], which runs under the lock.  [None] is the panic of an index out of
    range. *)
Definition get (q : OverwriteQueue) : option (option A * OverwriteQueue) :=
  let first := firstIndex q in
  match items q !! Z.to_nat first with
  | None => None
  | Some item =>
      let c := counter q in
      let q := set_items q (<[Z.to_nat first := None]> (items q)) in
      let q := set_pending q (u64 (pending q - 1)) in
      Some (item, set_counter q (mkCounter (In c) (u64 (Out c + 1)) (Overwritten c) (Pending c)))
  end.

(** What a read does when it runs alone: it returns, blocks on an empty queue,
    or panics. *)
Inductive outcome (X : Type) :=
  | Returned (x : X) (q : OverwriteQueue)
  | Blocked
  | Panicked.
Arguments Returned {X}.
Arguments Blocked {X}.
Arguments Panicked {X}.

Definition Get (q : OverwriteQueue) : outcome (option A) :=
  if pending q =? 0 then Blocked
  else match get q with
       | Some (item, q) => Returned item q
       | None => Panicked
       end.

(** [gets] with an output slice of length [n]: the items written to its front
    (their number is the result of the call) and the queue. *)
Definition gets (q : OverwriteQueue) (n : Z) : list (option A) * OverwriteQueue :=
  let sz := if n <? pending q then n else pending q in
  let first := firstIndex q in
  let part1 := take (Z.to_nat sz) (drop (Z.to_nat first) (items q)) in
  let copied := length part1 in
  let l := copy_at (items q) first (replicate copied None) in
  let '(part2, l) :=
    if negb (Z.of_nat copied =? sz) then
      let part2 := take (Z.to_nat sz - copied) l in
      (part2, copy_at l 0 (replicate (length part2) None))
    else ([], l) in
  let c := counter q in
  let q := set_pending (set_items q l) (u64 (pending q - sz)) in
  (part1 ++ part2,
   set_counter q (mkCounter (In c) (u64 (Out c + sz)) (Overwritten c) (Pending c))).

Definition MAX_BATCH_GET_SIZE : Z := 1 ≪ 16.

Definition Gets (q : OverwriteQueue) (n : Z) : outcome (list (option A)) :=
  if n >? MAX_BATCH_GET_SIZE then Panicked
  else if pending q =? 0 then Blocked
  else let '(output, q) := gets q n in Returned output q.

End Queue.

Arguments OverwriteQueue : clear implicits.
Arguments Returned {A X}.
Arguments Blocked {A X}.
Arguments Panicked {A X}.

(** * Queue tables *)

Definition MAX_QUEUE_COUNT : Z := 16.

(** A [FixedMultiQueue] is a table of queue indices; [None] is the panic of an
    index out of range. *)
Definition entry (table : list Z) (key : Z) : option Z :=
  table !! Z.to_nat (Z.land key (u8 (zlen table - 1))).

Definition table_size_cond (size : Z) (tableSize : Z) : bool := tableSize <? size.

(** The table of [NewOverwriteQueues] for [count] queues; [None] is a panic
    ([count] too large, or the division by zero of [i % size]).  Doubling from 1
    reaches [MAX_QUEUE_COUNT] in four rounds. *)
Definition NewOverwriteQueues_table (count : Z) : option (list Z) :=
  if count >? MAX_QUEUE_COUNT then None
  else
    let tableSize := while 4 (table_size_cond count) (fun t => t ≪ 1) 1 in
    if count =? 0 then None
    else Some ((fun i => i mod count) <$> seqZ 0 tableSize).

(** The queues themselves; entries of the table that are equal are the same queue. *)
Record MultiQueue (A : Type) := mkMulti { entries : list Z; queues : list (OverwriteQueue A) }.
Arguments mkMulti {A}.
Arguments entries {A}.
Arguments queues {A}.

(** [count] is a [uint8]. *)
Definition NewOverwriteQueues {A} (count queueSize : Z) (rel : bool) : option (MultiQueue A) :=
  (fun table => mkMulti table (replicate (Z.to_nat count) (Init queueSize rel)))
  <$> NewOverwriteQueues_table count.

(** Runs an operation on the queue of a key. *)
Definition on_entry {A X} (q : MultiQueue A) (key : Z)
    (f : OverwriteQueue A -> X * OverwriteQueue A) : option (X * MultiQueue A) :=
  i ← entry (entries q) key;
  queue ← queues q !! Z.to_nat i;
  let '(x, queue) := f queue in
  Some (x, mkMulti (entries q) (<[Z.to_nat i := queue]> (queues q))).

Definition Multi_Put {A} (q : MultiQueue A) (key : Z) (its : list (option A))
    : option (bool * MultiQueue A) :=
  on_entry q key (fun queue => Put queue its).

(** [None] is a panic, [Some None] a read that blocks. *)
Definition Multi_Gets {A} (q : MultiQueue A) (key n : Z)
    : option (option (list (option A)) * MultiQueue A) :=
  i ← entry (entries q) key;
  queue ← queues q !! Z.to_nat i;
  match Gets queue n with
  | Returned out queue => Some (Some out, mkMulti (entries q) (<[Z.to_nat i := queue]> (queues q)))
  | Blocked => Some (None, q)
  | Panicked => None
  end.
