(* ===== verification/QueueFacts.v ===== *)
(** Facts of the overwriting queue ([Queue.v]): the ring holds the pending items
    in order, [Put], [Get] and [Gets] refine a bounded list that forgets its oldest
    items, the counters balance, and the release callback gets the overwritten
    items. *)

From S2P Require Import Prelude Queue.

(** * Rotations *)

Section Rot.
Context {B : Type}.
Implicit Types l : list B.

(** The ring [l] read from position [n]. *)
Definition rot (n : nat) l : list B := drop n l ++ take n l.

Lemma rot_length n l : length (rot n l) = length l.
Proof. unfold rot. rewrite length_app, length_drop, length_take. lia. Qed.

Lemma rot_0 l : rot 0 l = l.
Proof. unfold rot. rewrite drop_0, take_0. apply app_nil_r. Qed.

Lemma rot_full l : rot (length l) l = l.
Proof. unfold rot. rewrite drop_ge, take_ge by lia. done. Qed.

Lemma rot_app l1 l2 : rot (length l1) (l1 ++ l2) = l2 ++ l1.
Proof. unfold rot. by rewrite drop_app_length, take_app_length. Qed.

Lemma rot_app_eq n l1 l2 : n = length l1 -> rot n (l1 ++ l2) = l2 ++ l1.
Proof. intros ->. apply rot_app. Qed.

(** Every list splits at a position. *)
Lemma list_split n l : (n <= length l)%nat -> exists a b, l = a ++ b /\ length a = n.
Proof.
  intros. exists (take n l), (drop n l). rewrite take_drop, length_take. split; [done|lia].
Qed.

Lemma rot_rot n m l :
  (n < length l)%nat -> (m <= length l)%nat ->
  rot m (rot n l) = rot (if decide (n + m < length l)%nat then n + m else n + m - length l) l.
Proof.
  intros Hn Hm. destruct (list_split n l) as (a & b & -> & <-); [lia|].
  rewrite rot_app. rewrite length_app in *. case_decide.
  - destruct (list_split m b) as (c & d & -> & <-); [lia|].
    rewrite <- (app_assoc c d a), rot_app, (app_assoc a c d).
    rewrite rot_app_eq by (rewrite length_app; lia). by rewrite app_assoc.
  - destruct (list_split (m - length b) a) as (c & d & -> & Hc); [lia|].
    rewrite length_app in *. rewrite <- (app_assoc c d b), (rot_app_eq _ c) by lia.
    rewrite (app_assoc b c d), rot_app_eq by (rewrite length_app; lia).
    by rewrite app_assoc.
Qed.

(** Position [i] of the ring read from [n]. *)
Lemma rot_inj n l l' : length l = length l' -> rot n l = rot n l' -> l = l'.
Proof.
  unfold rot. intros Hl H. apply app_inj_1 in H as [H1 H2].
  - rewrite <- (take_drop n l), <- (take_drop n l'). congruence.
  - rewrite !length_drop. lia.
Qed.

(** Writing [src] cyclically from position [n], as [Put] and [gets] do with two
    [copy] calls, replaces the front of the ring read from [n]. *)
Lemma copy_at_fit l n src :
  (n + length src <= length l)%nat ->
  rot n (copy_at l (Z.of_nat n) src) = src ++ drop (length src) (rot n l) /\
  length (copy_at l (Z.of_nat n) src) = length l.
Proof.
  intros H. destruct (list_split n l) as (a & b & -> & <-); [lia|].
  rewrite length_app in H. destruct (list_split (length src) b) as (c & d & -> & Hc); [lia|].
  unfold copy_at. rewrite Nat2Z.id, rot_app, take_app_length, drop_app_length.
  rewrite (take_ge src) by lia. rewrite <- Hc, drop_app_length.
  rewrite <- (app_assoc c d a), drop_app_length, rot_app, !length_app.
  rewrite <- app_assoc. split; [done|lia].
Qed.

Lemma copy_at_wrap l n s1 s2 :
  (n + length s1 = length l)%nat -> (length s1 + length s2 <= length l)%nat ->
  rot n (copy_at (copy_at l (Z.of_nat n) (s1 ++ s2)) 0 s2) =
    s1 ++ s2 ++ drop (length s1 + length s2) (rot n l) /\
  length (copy_at (copy_at l (Z.of_nat n) (s1 ++ s2)) 0 s2) = length l.
Proof.
  intros H1 H2. destruct (list_split n l) as (a & b & -> & <-); [lia|].
  rewrite length_app in H1, H2. destruct (list_split (length s2) a) as (c & d & -> & Hc); [lia|].
  rewrite length_app in *.
  assert (length s1 = length b) as Hb by lia.
  unfold copy_at. rewrite Nat2Z.id. rewrite <- (length_app c d), take_app_length, drop_app_length.
  rewrite <- Hb, take_app_length, (drop_ge b) by (rewrite length_app; lia).
  rewrite app_nil_r. change (Z.to_nat 0) with 0%nat. rewrite take_0, drop_0, app_nil_l.
  rewrite (take_ge s2) by (rewrite !length_app; lia).
  rewrite <- (app_assoc c d s1), <- Hc, drop_app_length.
  rewrite (app_assoc s2 d s1), rot_app_eq by (rewrite !length_app; lia).
  rewrite rot_app, <- drop_drop, Hb, drop_app_length, drop_app_length.
  rewrite !length_app. split; [done|lia].
Qed.
End Rot.

(** * Representation *)

Section Rep.
Context {A : Type}.
Implicit Types (q : OverwriteQueue A) (W C its : list (option A)).

(** [inflight q W C]: the ring of [q] holds the pending items [C], oldest first,
    the items [W] have been copied behind them but not yet published, and every
    other slot is nil. *)
Record inflight q W C : Prop := mkRep {
  rep_size : exists k, 0 <= k <= 62 /\ size q = 2 ^ k;
  rep_length : zlen (items q) = size q;
  rep_cursor : 0 <= writeCursor q < size q;
  rep_pending : pending q = zlen C;
  rep_bound : zlen W + zlen C <= size q;
  rep_ring : rot (Z.to_nat (writeCursor q)) (items q)
             = W ++ replicate (Z.to_nat (size q - zlen W - zlen C)) None ++ C
}.

(** [rep q C]: the ring holds exactly the pending items [C]. *)
Definition rep q C : Prop := inflight q [] C.

Lemma rep_size_range q W C : inflight q W C -> 0 < size q <= 2 ^ 62.
Proof.
  intros [(k & Hk & ->) _ _ _ _ _]. split; [apply pow2_pos; lia|].
  apply Z.pow_le_mono_r; lia.
Qed.

Lemma size_mask q W C x : inflight q W C -> Z.land x (u64 (size q - 1)) = x mod size q.
Proof.
  intros H. pose proof (rep_size_range _ _ _ H). pow2.
  rewrite wrap_small by (ranges; lia).
  destruct (rep_size _ _ _ H) as (k & Hk & ->). apply land_mask. lia.
Qed.

Lemma firstIndex_eq q W C :
  inflight q W C ->
  firstIndex q = (if zlen C <=? writeCursor q then writeCursor q - zlen C
                  else writeCursor q + size q - zlen C).
Proof.
  intros H. pose proof (rep_size_range _ _ _ H). pose proof (rep_cursor _ _ _ H).
  pose proof (rep_bound _ _ _ H). pose proof (zlen_nonneg C); pose proof (zlen_nonneg W). pow2.
  unfold firstIndex. rewrite (size_mask _ _ _ _ H), (rep_pending _ _ _ H).
  rewrite (wrap_small 64 (writeCursor q + size q)) by (ranges; lia).
  rewrite wrap_small by (ranges; lia). zcase.
  - symmetry. apply (Z.mod_unique _ _ 1); lia.
  - apply Z.mod_small. lia.
Qed.

Lemma firstIndex_range q W C : inflight q W C -> 0 <= firstIndex q < size q.
Proof.
  intros H. rewrite (firstIndex_eq _ _ _ H). pose proof (rep_cursor _ _ _ H).
  pose proof (rep_bound _ _ _ H). pose proof (zlen_nonneg C); pose proof (zlen_nonneg W). zcases; lia.
Qed.

(** The ring read from the first pending item. *)
Lemma rep_first q W C :
  inflight q W C ->
  rot (Z.to_nat (firstIndex q)) (items q)
    = C ++ W ++ replicate (Z.to_nat (size q - zlen W - zlen C)) None.
Proof.
  intros H. pose proof (rep_cursor _ _ _ H). pose proof (rep_bound _ _ _ H).
  pose proof (rep_length _ _ _ H) as Hl. pose proof (zlen_nonneg C). pose proof (zlen_nonneg W).
  rewrite <- (rot_app (W ++ replicate _ None) C), <- app_assoc, <- (rep_ring _ _ _ H).
  rewrite length_app, length_replicate. unfold zlen in *.
  rewrite rot_rot by lia. f_equal.
  rewrite (firstIndex_eq _ _ _ H). unfold zlen. case_decide; zcases; lia.
Qed.

(** Reading [n] items: a ring whose first [n] of the pending items have been
    cleared holds the others. *)
Lemma rep_intro_first q q' W C n :
  inflight q W C -> 0 <= n <= zlen C ->
  size q' = size q -> writeCursor q' = writeCursor q -> pending q' = pending q - n ->
  length (items q') = length (items q) ->
  rot (Z.to_nat (firstIndex q)) (items q')
    = replicate (Z.to_nat n) None ++ drop (Z.to_nat n) (rot (Z.to_nat (firstIndex q)) (items q)) ->
  inflight q' W (drop (Z.to_nat n) C).
Proof.
  intros H Hn Hs Hw Hp Hl Hr. pose proof (rep_cursor _ _ _ H). pose proof (rep_bound _ _ _ H).
  pose proof (rep_length _ _ _ H) as Hl'. pose proof (firstIndex_range _ _ _ H).
  assert (zlen (drop (Z.to_nat n) C) = zlen C - n) as Hd
    by (unfold zlen in *; rewrite length_drop; lia).
  rewrite (rep_first _ _ _ H), drop_app_le in Hr by (unfold zlen in *; lia).
  assert (exists D, drop (Z.to_nat n) C = D) as [D HD] by eauto. rewrite HD in *.
  split; rewrite ?Hs, ?Hw, ?Hp, ?Hd; try done.
  - apply H.
  - unfold zlen in *. lia.
  - rewrite (rep_pending _ _ _ H). done.
  - lia.
  - replace (size q - zlen W - (zlen C - n)) with (size q - zlen W - zlen C + n) by lia.
    rewrite Z2Nat.inj_add, replicate_add by lia. rewrite <- !app_assoc.
    rewrite (app_assoc W), <- (rot_app (replicate (Z.to_nat n) None ++ D)), <- !app_assoc.
    rewrite <- Hr, length_app, length_replicate. unfold zlen in *.
    rewrite rot_rot by lia. f_equal. rewrite (firstIndex_eq _ _ _ H). unfold zlen.
    case_decide; zcases; lia.
Qed.

(** ** Initialisation *)

Lemma round_size_power rounds i n :
  0 <= i -> n <= 2 ^ (i + Z.of_nat rounds - 1) -> (0 < rounds)%nat ->
  exists k, i <= k <= i + Z.of_nat rounds - 1 /\ round_size rounds i n = 2 ^ k /\ n <= 2 ^ k
    /\ (i < k -> 2 ^ (k - 1) < n).
Proof.
  revert i. induction rounds as [|rounds IH]; intros i Hi Hn Hr; [lia|]. cbn [round_size].
  rewrite shiftl_mul, Z.mul_1_l, Z.geb_leb by lia. destruct (Z.leb_spec n (2 ^ i)).
  - exists i. repeat split; try done; lia.
  - destruct rounds as [|rounds].
    { exfalso. replace (i + Z.of_nat 1 - 1) with i in Hn by lia. lia. }
    destruct (IH (i + 1)) as (k & Hk & -> & Hn' & Hlow); [lia| |lia|].
    { replace (i + 1 + Z.of_nat (S rounds) - 1) with (i + Z.of_nat (S (S rounds)) - 1) by lia. done. }
    exists k. repeat split; try done; try lia. intros _.
    destruct (Z.eq_dec k (i + 1)) as [->|]; [by rewrite Z.add_simpl_r|apply Hlow; lia].
Qed.

Lemma Init_size n rel :
  0 <= n <= 2 ^ 31 ->
  exists k, 0 <= k <= 31 /\ size (Init (A:=A) n rel) = 2 ^ k /\ n <= 2 ^ k /\ (0 < k -> 2 ^ (k - 1) < n).
Proof.
  intros ?. destruct (round_size_power 32 0 n) as (k & ? & ? & ?); [lia..|].
  exists k. cbn. split; [lia|done].
Qed.

Lemma Init_rep n rel : 0 <= n <= 2 ^ 31 -> rep (Init n rel) [].
Proof.
  intros Hn. destruct (Init_size n rel Hn) as (k & Hk & Hs & _).
  pose proof (pow2_pos k ltac:(lia)).
  split; cbn [Init items size writeCursor pending] in *.
  - exists k. split; [lia|done].
  - unfold zlen. rewrite length_replicate, Hs. lia.
  - lia.
  - done.
  - change (zlen []) with 0. lia.
  - change (Z.to_nat 0) with 0%nat. rewrite rot_0, app_nil_l, (app_nil_r (replicate _ _)).
    change (zlen []) with 0. f_equal. lia.
Qed.

(** ** Put *)

Lemma Put_copy_ring q W C its :
  inflight q W C -> zlen its <= size q ->
  let q' := Put_copy q its in
  rot (Z.to_nat (writeCursor q)) (items q')
    = its ++ drop (length its) (rot (Z.to_nat (writeCursor q)) (items q)) /\
  q' = set_items q (items q') /\ length (items q') = length (items q).
Proof.
  intros H Hi. pose proof (rep_cursor _ _ _ H). pose proof (rep_length _ _ _ H). unfold zlen in *.
  unfold Put_copy, zlen. set (wc := Z.to_nat (writeCursor q)).
  assert (writeCursor q = Z.of_nat wc) as Hwc by (subst wc; lia).
  clearbody wc. rewrite !Hwc in *.
  destruct (Z.le_gt_cases (Z.of_nat wc + Z.of_nat (length its)) (Z.of_nat (length (items q)))).
  - rewrite Z.min_r by lia. ztests. cbn [negb].
    destruct (copy_at_fit (items q) wc its) as [Hr Hlen]; [lia|]. done.
  - rewrite Z.min_l by lia. ztests. cbn [negb].
    destruct (list_split (length (items q) - wc) its) as (s1 & s2 & -> & Hs); [lia|].
    rewrite length_app in *.
    rewrite (drop_app_length' s1 s2) by lia.
    destruct (copy_at_wrap (items q) wc s1 s2) as [Hr Hlen]; [lia..|].
    cbn [items set_items]. rewrite Hr, <- app_assoc. done.
Qed.

(** The last [n] items of a list: what is left of it in a ring of [n] slots. *)
Definition last_n (n : Z) (l : list (option A)) : list (option A) :=
  drop (length l - Z.to_nat n) l.

Lemma last_n_zlen n l : 0 <= n -> zlen (last_n n l) = Z.min n (zlen l).
Proof. intros. unfold last_n, zlen. rewrite length_drop. lia. Qed.

Lemma last_n_fits n l : zlen l <= n -> last_n n l = l.
Proof.
  unfold last_n, zlen. intros. replace (length l - Z.to_nat n)%nat with 0%nat by lia.
  apply drop_0.
Qed.

(** Publishing items that were copied over the oldest slots. *)
Lemma Put_publish_rep q C its :
  (exists k, 0 <= k <= 62 /\ size q = 2 ^ k) -> zlen (items q) = size q ->
  0 <= writeCursor q < size q -> pending q = zlen C -> zlen C <= size q -> zlen its <= size q ->
  rot (Z.to_nat (writeCursor q)) (items q)
    = its ++ drop (length its) (replicate (Z.to_nat (size q - zlen C)) None ++ C) ->
  rep (Put_publish q (zlen its)).2 (last_n (size q) (C ++ its)).
Proof.
  intros (k & Hk & Hs) Hl Hc Hp HC Hi Hr.
  pose proof (pow2_pos k ltac:(lia)). pose proof (zlen_nonneg C). pose proof (zlen_nonneg its).
  assert (2 ^ k <= 2 ^ 62) by (apply Z.pow_le_mono_r; lia). pow2.
  assert (Z.land (u64 (writeCursor q + zlen its)) (u64 (size q - 1))
          = (writeCursor q + zlen its) mod size q) as Hm.
  { rewrite !wrap_small by (ranges; lia). rewrite Hs. apply land_mask. lia. }
  split; cbn [Put_publish snd size items writeCursor pending]; rewrite ?Hm.
  - exists k. done.
  - done.
  - apply Z.mod_pos_bound. lia.
  - rewrite !wrap_small, Hp by (ranges; lia). rewrite last_n_zlen, zlen_app by lia. zcases; lia.
  - change (zlen []) with 0. rewrite last_n_zlen, zlen_app by lia. lia.
  - change (zlen []) with 0. rewrite last_n_zlen, zlen_app, app_nil_l by lia.
    transitivity (rot (length its) (rot (Z.to_nat (writeCursor q)) (items q))).
    { unfold zlen in *. rewrite rot_rot by lia. f_equal.
      case_decide; [rewrite Z.mod_small by lia; lia|].
      replace (writeCursor q + Z.of_nat (length its))
        with (writeCursor q + Z.of_nat (length its) - size q + 1 * size q) by lia.
      rewrite Z_mod_plus_full, Z.mod_small by lia. lia. }
    rewrite Hr, rot_app. unfold last_n, zlen in *. rewrite length_app.
    destruct (decide (length C + length its <= Z.to_nat (size q))%nat).
    + replace (length C + length its - Z.to_nat (size q))%nat with 0%nat by lia.
      rewrite drop_0, drop_app_le by (rewrite length_replicate; lia).
      rewrite drop_replicate, <- app_assoc. do 2 f_equal. lia.
    + rewrite drop_app_ge, length_replicate by (rewrite length_replicate; lia).
      rewrite (drop_app_le C) by lia. rewrite Z.min_l by lia.
      replace (Z.to_nat (size q - 0 - size q)) with 0%nat by lia.
      cbn [replicate app]. do 2 f_equal. lia.
Qed.

(** The release step of [Put] touches nothing but the released items. *)
Lemma Put_release_frame q n free :
  Put_release q n free
  = mkQueue (items q) (size q) (writeCursor q) (pending q) (readerWaiting q) (release q)
      (released (Put_release q n free)) (counter q).
Proof. unfold Put_release. destruct q; cbn. repeat case_match; done. Qed.

Lemma Put_frame q its :
  zlen its <= size q ->
  let free := u64 (size q - pending q) in
  let q1 := mkQueue (items q) (size q) (writeCursor q) (pending q) (readerWaiting q)
              (release q) (released (Put_release q (zlen its) free)) (counter q) in
  Put q its = (false, Put_gauge (Put_publish (Put_count (Put_copy q1 its) (zlen its) free)
                        (zlen its)).2).
Proof.
  intros Hi. unfold Put. cbn zeta. ztest (zlen its >? size q).
  rewrite <- Put_release_frame. destruct (_ >? u64 _) eqn:E.
  - by destruct Put_publish.
  - replace (Put_release _ _ _) with q by (unfold Put_release; by rewrite E, andb_false_r).
    by destruct Put_publish.
Qed.

Lemma Put_gauge_frame q :
  let q' := Put_gauge q in
  items q' = items q /\ size q' = size q /\ writeCursor q' = writeCursor q /\
  pending q' = pending q /\ readerWaiting q' = readerWaiting q /\ released q' = released q /\
  release q' = release q.
Proof. unfold Put_gauge. case_match; done. Qed.

Lemma rep_ext q q' W C :
  items q' = items q -> size q' = size q -> writeCursor q' = writeCursor q ->
  pending q' = pending q -> inflight q W C -> inflight q' W C.
Proof. intros H1 H2 H3 H4 []. split; rewrite ?H1, ?H2, ?H3, ?H4; done. Qed.

Lemma Put_rep q C its :
  rep q C -> zlen its <= size q ->
  (Put q its).1 = false /\ rep (Put q its).2 (last_n (size q) (C ++ its)).
Proof.
  intros H Hi. rewrite Put_frame by done. cbn zeta.
  split; [done|]. set (q1 := mkQueue _ _ _ _ _ _ _ _) in *.
  assert (rep q1 C) as H1 by (apply (rep_ext q); done).
  destruct (Put_copy_ring q1 [] C its H1 Hi) as (Hr & He & Hl). cbn zeta in *.
  set (q2 := Put_count _ _ _).
  assert (rep (Put_publish q2 (zlen its)).2 (last_n (size q) (C ++ its))) as H2.
  { assert (items q2 = items (Put_copy q1 its)) as E1 by done.
    assert (size q2 = size q) as E2 by (subst q2; cbn; rewrite He; done).
    assert (writeCursor q2 = writeCursor q) as E3 by (subst q2; cbn; rewrite He; done).
    assert (pending q2 = pending q) as E4 by (subst q2; cbn; rewrite He; done).
    rewrite <- E2. apply Put_publish_rep; rewrite ?E1, ?E2, ?E3, ?E4; try apply H.
    - unfold zlen in *. rewrite Hl. apply H.
    - pose proof (rep_bound _ _ _ H). change (zlen []) with 0 in *. lia.
    - cbn in Hr. rewrite Hr. rewrite (rep_ring _ _ _ H).
      change (zlen []) with 0. by rewrite Z.sub_0_r. }
  destruct (Put_gauge_frame (Put_publish q2 (zlen its)).2) as (?&?&?&?&_).
  by eapply rep_ext.
Qed.

(** Too many items at once: an error, and the queue is unchanged. *)
Lemma Put_overflow q its : size q < zlen its -> Put q its = (true, q).
Proof. intros. unfold Put. cbn zeta. by ztest (zlen its >? size q). Qed.

(** ** Get *)

Lemma rot_lookup_0 {B} n (l : list B) x r :
  (n < length l)%nat -> rot n l = x :: r -> l !! n = Some x.
Proof.
  intros Hn H. destruct (list_split n l) as (a & b & -> & <-); [lia|].
  rewrite rot_app in H. rewrite length_app in Hn.
  destruct b as [|y b]; [cbn in Hn; lia|]. cbn in H. injection H as -> _.
  by rewrite list_lookup_middle.
Qed.

Lemma rot_insert_0 {B} n (l : list B) x :
  (n < length l)%nat -> rot n (<[n := x]> l) = x :: drop 1 (rot n l).
Proof.
  intros Hn. destruct (list_split n l) as (a & b & -> & <-); [lia|].
  rewrite length_app in Hn. destruct b as [|y b]; [cbn in Hn; lia|].
  rewrite insert_app_r_alt, Nat.sub_diag, !rot_app by lia. done.
Qed.

Lemma get_rep q W C x :
  inflight q W (x :: C) ->
  exists q', get q = Some (x, q') /\ inflight q' W C /\
    q' = mkQueue (items q') (size q) (writeCursor q) (pending q - 1) (readerWaiting q)
           (release q) (released q)
           (mkCounter (In (counter q)) (u64 (Out (counter q) + 1)) (Overwritten (counter q))
              (Pending (counter q))).
Proof.
  intros H. pose proof (firstIndex_range _ _ _ H). pose proof (rep_first _ _ _ H) as Hf.
  pose proof (rep_pending _ _ _ H) as Hp. pose proof (rep_bound _ _ _ H) as Hb.
  pose proof (rep_length _ _ _ H) as Hl. rewrite zlen_cons in *.
  pose proof (zlen_nonneg C). pose proof (zlen_nonneg W). pose proof (rep_size_range _ _ _ H). pow2.
  unfold get. rewrite (rot_lookup_0 (Z.to_nat (firstIndex q)) (items q) x _ ltac:(unfold zlen in Hl; lia) Hf).
  eexists. split; [done|]. cbn. rewrite wrap_small by (ranges; lia). split; [|done].
  change C with (drop (Z.to_nat 1) (x :: C)).
  eapply (rep_intro_first q); cbn; try done; rewrite ?zlen_cons.
  - lia.
  - by rewrite length_insert.
  - rewrite rot_insert_0 by (unfold zlen in *; lia). done.
Qed.

(** The two copies and the two clearings of [gets] on a ring read from [f]. *)
Definition gets_ring (l : list (option A)) (f sz : Z) : list (option A) * list (option A) :=
  let part1 := take (Z.to_nat sz) (drop (Z.to_nat f) l) in
  let copied := length part1 in
  let l := copy_at l f (replicate copied None) in
  let '(part2, l) :=
    if negb (Z.of_nat copied =? sz) then
      let part2 := take (Z.to_nat sz - copied) l in
      (part2, copy_at l 0 (replicate (length part2) None))
    else ([], l) in
  (part1 ++ part2, l).

Lemma copy_at_trunc {B} (l : list B) n s1 s2 :
  (n + length s1 = length l)%nat -> copy_at l (Z.of_nat n) s1 = copy_at l (Z.of_nat n) (s1 ++ s2).
Proof.
  intros H. unfold copy_at. rewrite Nat2Z.id, length_drop. f_equal.
  rewrite !drop_ge by (rewrite ?length_app, length_drop; lia). rewrite !app_nil_r.
  rewrite take_app_le by lia. done.
Qed.

Lemma gets_ring_spec l f m :
  (f < length l)%nat -> (m <= length l)%nat ->
  let '(out, l') := gets_ring l (Z.of_nat f) (Z.of_nat m) in
  out = take m (rot f l) /\ rot f l' = replicate m None ++ drop m (rot f l) /\
  length l' = length l.
Proof.
  intros Hf Hm. unfold gets_ring. rewrite !Nat2Z.id, length_take, length_drop.
  destruct (Nat.le_gt_cases m (length l - f)).
  - rewrite Nat.min_l by lia. ztests. cbn [negb]. rewrite app_nil_r.
    destruct (copy_at_fit l f (replicate m None)) as [Hr Hl]; [rewrite length_replicate; lia|].
    rewrite length_replicate in Hr. split; [|done].
    unfold rot. rewrite take_app_le by (rewrite length_drop; lia). done.
  - rewrite Nat.min_r by lia. rewrite (proj2 (Z.eqb_neq _ _)) by lia. cbn [negb].
    set (k := (length l - f)%nat) in *.
    rewrite (copy_at_trunc l f (replicate k None) (replicate (m - k) None))
      by (rewrite length_replicate; lia).
    destruct (copy_at_wrap l f (replicate k None) (replicate (m - k) None)) as [Hr Hl];
      [rewrite ?length_replicate; lia..|].
    rewrite !length_replicate in Hr. rewrite length_take.
    rewrite <- (copy_at_trunc l f (replicate k None)) in * by (rewrite length_replicate; lia).
    destruct (copy_at_fit l f (replicate k None)) as [_ Hl1]; [rewrite length_replicate; lia|].
    rewrite Hl1, Nat.min_l by lia. rewrite Hr, Hl. split; [|split; [|done]].
    + unfold rot. rewrite (take_app_ge (drop f l)), length_drop by (rewrite length_drop; lia).
      rewrite take_take, (take_ge (drop f l)) by (rewrite length_drop; lia).
      f_equal. unfold copy_at. rewrite Nat2Z.id.
      rewrite take_app_le by (rewrite length_take; lia). rewrite take_take. f_equal; lia.
    + rewrite app_assoc, <- replicate_add. f_equal; f_equal; lia.
Qed.

Lemma gets_rep q W C n :
  inflight q W C -> 0 <= n ->
  let sz := Z.min n (zlen C) in
  exists q', gets q n = (take (Z.to_nat sz) C, q') /\ inflight q' W (drop (Z.to_nat sz) C) /\
    q' = mkQueue (items q') (size q) (writeCursor q) (pending q - sz) (readerWaiting q)
           (release q) (released q)
           (mkCounter (In (counter q)) (u64 (Out (counter q) + sz)) (Overwritten (counter q))
              (Pending (counter q))).
Proof.
  intros H Hn sz. pose proof (firstIndex_range _ _ _ H). pose proof (rep_first _ _ _ H) as Hf.
  pose proof (rep_pending _ _ _ H) as Hp. pose proof (rep_bound _ _ _ H) as Hb.
  pose proof (rep_length _ _ _ H) as Hl. pose proof (rep_size_range _ _ _ H).
  pose proof (zlen_nonneg C). pose proof (zlen_nonneg W). pow2.
  assert (gets q n = let '(out, l) := gets_ring (items q) (firstIndex q) sz in
    (out, set_counter (set_pending (set_items q l) (u64 (pending q - sz)))
       (mkCounter (In (counter q)) (u64 (Out (counter q) + sz)) (Overwritten (counter q))
          (Pending (counter q))))) as ->.
  { unfold gets, gets_ring. replace (if n <? pending q then n else pending q) with sz
      by (subst sz; rewrite Hp; zcases; lia). cbn zeta. case_match; done. }
  assert (0 <= sz <= zlen C) as Hsz by (subst sz; lia). clearbody sz.
  pose proof (gets_ring_spec (items q) (Z.to_nat (firstIndex q)) (Z.to_nat sz)) as Hg.
  rewrite !Z2Nat.id in Hg by lia. unfold zlen in Hl, Hsz, Hb.
  destruct (gets_ring (items q) (firstIndex q) sz) as [out l]. destruct Hg as (-> & Hr & Hl'); [lia..|].
  eexists. rewrite wrap_small by (ranges; rewrite Hp; unfold zlen; lia).
  split; [rewrite Hf, take_app_le by lia; done|]. split; [|done].
  eapply (rep_intro_first q); cbn; try done.
Qed.

(** ** The released items *)

Lemma slice_rot {B} (l : list B) f j :
  0 <= f -> f + j <= zlen l -> slice l f j = take (Z.to_nat j) (rot (Z.to_nat f) l).
Proof.
  intros. unfold slice, rot, zlen in *. rewrite take_app_le by (rewrite length_drop; lia). done.
Qed.

Lemma slice_rot_wrap {B} (l : list B) f j :
  0 <= f <= zlen l -> zlen l <= f + j -> j <= zlen l ->
  slice l f (zlen l - f) ++ slice l 0 (f + j - zlen l) = take (Z.to_nat j) (rot (Z.to_nat f) l).
Proof.
  intros. unfold slice, rot, zlen in *. rewrite take_app, length_drop, take_take.
  change (Z.to_nat 0) with 0%nat. rewrite drop_0. f_equal.
  - rewrite !take_ge by (rewrite length_drop; lia). done.
  - f_equal. lia.
Qed.

(** [Put] of every slot of a full ring, with the cursor not at the start. *)
Definition full_turn q its : Prop :=
  pending q = size q /\ zlen its = size q /\ writeCursor q <> 0.

Lemma omap_id_app {B} (l k : list (option B)) : omap id (l ++ k) = omap id l ++ omap id k.
Proof. induction l as [|[] l IH]; cbn in *; [done|by rewrite IH|done]. Qed.

Lemma Put_release_spec q C its :
  rep q C -> zlen its <= size q -> release q = true -> ~ full_turn q its ->
  released (Put_release q (zlen its) (u64 (size q - pending q)))
  = released q ++ omap id (take (Z.to_nat (zlen C + zlen its - size q)) C).
Proof.
  intros H Hi Hrel Hft. pose proof (firstIndex_eq _ _ _ H) as Hf.
  pose proof (rep_cursor _ _ _ H). pose proof (rep_bound _ _ _ H). pose proof (rep_size_range _ _ _ H).
  pose proof (rep_length _ _ _ H) as Hl. pose proof (rep_first _ _ _ H) as Hr.
  pose proof (zlen_nonneg C). pose proof (zlen_nonneg its). change (zlen []) with 0 in *. pow2.
  unfold full_turn in Hft. rewrite (rep_pending _ _ _ H) in *.
  unfold Put_release. rewrite Hrel, (size_mask _ _ _ _ H). cbn [andb].
  rewrite !wrap_small by (ranges; lia). rewrite Z.gtb_ltb.
  destruct (Z.ltb_spec (size q - zlen C) (zlen its)) as [Hov|Hov].
  2: { replace (Z.to_nat (zlen C + zlen its - size q)) with 0%nat by lia.
       rewrite take_0. cbn. by rewrite app_nil_r. }
  set (j := zlen C + zlen its - size q).
  assert (take (Z.to_nat j) (rot (Z.to_nat (firstIndex q)) (items q)) = take (Z.to_nat j) C) as <-.
  { rewrite Hr, take_app_le by (unfold zlen in *; lia). done. }
  assert (0 <= firstIndex q < size q) by (apply (firstIndex_range _ _ _ H)).
  rewrite Z.gtb_ltb. destruct (Z.ltb_spec (size q) (writeCursor q + zlen its)).
  - assert ((writeCursor q + zlen its) mod size q = writeCursor q + zlen its - size q) as ->
      by (symmetry; apply (Z.mod_unique _ _ 1); lia).
    destruct (Z.leb_spec (zlen C) (writeCursor q)).
    + ztests. cbn. rewrite slice_rot by lia. do 3 f_equal. lia.
    + ztests. cbn. rewrite <- app_assoc, <- omap_id_app.
      rewrite <- (slice_rot_wrap (items q)) by lia. do 4 f_equal; lia.
  - destruct (Z.leb_spec (zlen C) (writeCursor q)); [lia|].
    ztests. cbn. rewrite slice_rot by lia. do 3 f_equal. lia.
Qed.

Lemma Put_release_full_turn q C its :
  rep q C -> full_turn q its ->
  released (Put_release q (zlen its) (u64 (size q - pending q))) = released q.
Proof.
  intros H (Hp & Hi & Hw). pose proof (firstIndex_eq _ _ _ H) as Hf.
  pose proof (rep_cursor _ _ _ H). pose proof (rep_size_range _ _ _ H). pow2.
  rewrite <- (rep_pending _ _ _ H), Hp in Hf.
  unfold Put_release. rewrite (size_mask _ _ _ _ H), Hp, Hi.
  rewrite !wrap_small by (ranges; lia). destruct (release q); [|done]. cbn [andb].
  rewrite Hf. ztests.
  replace ((writeCursor q + size q) mod size q) with (writeCursor q)
    by (apply (Z.mod_unique _ _ 1); lia).
  replace (writeCursor q + size q - size q) with (writeCursor q) by lia.
  ztests. rewrite Z.sub_diag. cbn. apply app_nil_r.
Qed.

Lemma Put_released q its :
  zlen its <= size q ->
  released (Put q its).2 = released (Put_release q (zlen its) (u64 (size q - pending q))).
Proof.
  intros. rewrite Put_frame by done. cbn zeta.
  destruct (Put_gauge_frame (Put_publish (Put_count (Put_copy (mkQueue (items q) (size q)
    (writeCursor q) (pending q) (readerWaiting q) (release q)
    (released (Put_release q (zlen its) (u64 (size q - pending q)))) (counter q)) its)
    (zlen its) (u64 (size q - pending q))) (zlen its)).2) as (_&_&_&_&_&E&_).
  cbn [snd]. rewrite E. cbn. unfold Put_copy. by case_match.
Qed.

(** ** Counters *)

Definition lost (cap : Z) C its : Z := Z.max 0 (zlen C + zlen its - cap).

Lemma Put_counter q C its :
  rep q C -> zlen its <= size q ->
  counter (Put q its).2
  = mkCounter (u64 (In (counter q) + zlen its)) (Out (counter q))
      (if 0 <? lost (size q) C its then u64 (Overwritten (counter q) + lost (size q) C its)
       else Overwritten (counter q))
      (Z.max (Pending (counter q)) (zlen (last_n (size q) (C ++ its)))).
Proof.
  intros H Hi. pose proof (Put_rep q C its H Hi) as [_ H'].
  pose proof (rep_pending _ _ _ H') as Hp. rewrite Put_frame in * by done. cbn zeta in *.
  pose proof (rep_bound _ _ _ H). pose proof (rep_size_range _ _ _ H).
  pose proof (zlen_nonneg C). pose proof (zlen_nonneg its). change (zlen []) with 0 in *. pow2.
  rewrite (rep_pending _ _ _ H), (wrap_small 64 (size q - zlen C)) in * by (ranges; lia).
  set (q1 := Put_copy _ its) in *.
  assert (counter q1 = counter q) as Hc by (subst q1; unfold Put_copy; by case_match).
  destruct (Put_gauge_frame (Put_publish (Put_count q1 (zlen its) (size q - zlen C)) (zlen its)).2)
    as (_&_&_&E&_).
  cbn [snd] in *. rewrite E in Hp. unfold Put_gauge. rewrite Hp.
  set (n := zlen (last_n _ _)). clearbody n. unfold lost.
  destruct (Z.gtb_spec (zlen its) (size q - zlen C)) as [Hl|Hl].
  - rewrite Z.max_r by lia. ztest (0 <? zlen C + zlen its - size q).
    cbn. rewrite (proj2 (Z.gtb_lt _ _)) by lia. rewrite Hc. cbn.
    rewrite (wrap_small 64 (zlen its - _)) by (ranges; lia).
    replace (zlen its - (size q - zlen C)) with (zlen C + zlen its - size q) by lia.
    destruct (Z.ltb_spec (Pending (counter q)) n); cbn; f_equal; lia.
  - rewrite Z.max_l by lia. cbn.
    replace (zlen its >? size q - zlen C) with false by lia. rewrite Hc. cbn.
    destruct (Z.ltb_spec (Pending (counter q)) n); cbn; rewrite ?Hc; f_equal; lia.
Qed.

(** * The abstract queue *)

Inductive op :=
  | OPut (its : list (option A))
  | OGet
  | OGets (n : Z)
  | OStat.

Inductive result :=
  | RPut (overflow : bool)
  | RGet (x : option A)
  | RGets (xs : list (option A))
  | RStat (c : Counter)
  | RBlocked
  | RPanicked.

Definition run_op q (o : op) : result * OverwriteQueue A :=
  match o with
  | OPut its => let '(e, q) := Put q its in (RPut e, q)
  | OGet => match Get q with
            | Returned x q => (RGet x, q)
            | Blocked => (RBlocked, q)
            | Panicked => (RPanicked, q)
            end
  | OGets n => match Gets q n with
               | Returned xs q => (RGets xs, q)
               | Blocked => (RBlocked, q)
               | Panicked => (RPanicked, q)
               end
  | OStat => let '(c, q) := GetCounter q in (RStat c, q)
  end.

Fixpoint run q (ops : list op) : list result * OverwriteQueue A :=
  match ops with
  | [] => ([], q)
  | o :: ops =>
      let '(r, q) := run_op q o in let '(rs, q) := run q ops in (r :: rs, q)
  end.

(** The specification: a bounded list of pending items that forgets its oldest
    ones, and the counters. *)
Definition spec_out (c : Counter) (n : Z) : Counter :=
  mkCounter (In c) (u64 (Out c + n)) (Overwritten c) (Pending c).

Definition spec_op (cap : Z) (s : list (option A) * Counter) (o : op)
    : result * (list (option A) * Counter) :=
  let '(C, c) := s in
  match o with
  | OPut its =>
      if cap <? zlen its then (RPut true, s)
      else
        let C' := last_n cap (C ++ its) in
        (RPut false,
         (C', mkCounter (u64 (In c + zlen its)) (Out c)
                (if 0 <? lost cap C its then u64 (Overwritten c + lost cap C its)
                 else Overwritten c)
                (Z.max (Pending c) (zlen C'))))
  | OGet => match C with
            | [] => (RBlocked, s)
            | x :: C => (RGet x, (C, spec_out c 1))
            end
  | OGets n =>
      if MAX_BATCH_GET_SIZE <? n then (RPanicked, s)
      else match C with
           | [] => (RBlocked, s)
           | _ => let sz := Z.min n (zlen C) in
                  (RGets (take (Z.to_nat sz) C), (drop (Z.to_nat sz) C, spec_out c sz))
           end
  | OStat => (RStat c, (C, zero_Counter))
  end.

Fixpoint spec_run (cap : Z) s (ops : list op) : list result * (list (option A) * Counter) :=
  match ops with
  | [] => ([], s)
  | o :: ops =>
      let '(r, s) := spec_op cap s o in let '(rs, s) := spec_run cap s ops in (r :: rs, s)
  end.

(** The length of an output slice is not negative. *)
Definition op_ok (o : op) : Prop := match o with OGets n => 0 <= n | _ => True end.

Lemma Put_size q its : size (Put q its).2 = size q.
Proof.
  destruct (Z.ltb_spec (size q) (zlen its)); [by rewrite Put_overflow|].
  rewrite Put_frame by done. cbn zeta. cbn [snd].
  set (q1 := Put_publish _ _). destruct (Put_gauge_frame q1.2) as (_&->&_).
  subst q1. cbn. unfold Put_copy. by case_match.
Qed.

(** One operation refines its specification. *)
Lemma run_op_refines q C o :
  rep q C -> op_ok o ->
  let '(r, q') := run_op q o in
  let '(r', (C', c')) := spec_op (size q) (C, counter q) o in
  r = r' /\ rep q' C' /\ counter q' = c' /\ size q' = size q.
Proof.
  intros H Ho. pose proof (rep_pending _ _ _ H) as Hp. destruct o as [its| |n|]; cbn.
  - destruct (Z.ltb_spec (size q) (zlen its)); [by rewrite Put_overflow|].
    destruct (Put_rep q C its H) as [He Hr]; [done|].
    pose proof (Put_counter q C its H ltac:(done)) as Hc. pose proof (Put_size q its) as Hs.
    destruct (Put q its) as [e q']. cbn in *. by subst e.
  - unfold Get. rewrite Hp. destruct C as [|x C]; [done|].
    rewrite zlen_cons. pose proof (zlen_nonneg C). ztests.
    destruct (get_rep _ _ _ _ H) as (q' & -> & Hr & E).
    by split_and!; [| |rewrite E..].
  - unfold Gets. rewrite Z.gtb_ltb. destruct (_ <? n); [done|]. rewrite Hp.
    destruct C as [|x C]; [done|]. pose proof (zlen_nonneg C).
    destruct (gets_rep _ _ _ n H Ho) as (q' & -> & Hr & E).
    rewrite zlen_cons in *. ztests. by split_and!; [| |rewrite E..].
  - split; [done|]. split; [|done]. by apply (rep_ext q).
Qed.

Lemma run_refines q C ops :
  rep q C -> Forall op_ok ops ->
  let '(rs, q') := run q ops in
  let '(rs', (C', c')) := spec_run (size q) (C, counter q) ops in
  rs = rs' /\ rep q' C' /\ counter q' = c'.
Proof.
  intros H Ho. revert q C H. induction Ho as [|o ops Ho Hops IH]; intros q C H; [done|].
  cbn [run spec_run]. pose proof (run_op_refines q C o H Ho) as Hr.
  destruct (run_op q o) as [r q1]. destruct (spec_op _ _ o) as [r' [C' c']].
  destruct Hr as (-> & Hr & <- & Hs). specialize (IH q1 C' Hr). rewrite Hs in IH.
  destruct (run q1 ops) as [rs q2]. destruct (spec_run _ _ ops) as [rs' [C'' c'']].
  destruct IH as (-> & Hr' & Hc'). by split_and!.
Qed.

(** ** Delivered and accepted items *)

Definition delivered (r : result) : list (option A) :=
  match r with RGet x => [x] | RGets xs => xs | _ => [] end.

Definition accepted (o : op) (r : result) : list (option A) :=
  match o, r with OPut its, RPut false => its | _, _ => [] end.

Lemma spec_op_fifo cap C c o :
  let '(r, (C', _)) := spec_op cap (C, c) o in
  delivered r ++ C' `sublist_of` C ++ accepted o r.
Proof.
  destruct o as [its| |n|]; cbn.
  - destruct (_ <? _); cbn; [by rewrite app_nil_r|]. apply sublist_drop.
  - destruct C; cbn; by rewrite ?app_nil_r.
  - destruct (_ <? n); cbn; [by rewrite app_nil_r|].
    destruct C as [|x C]; cbn [delivered]; rewrite app_nil_r; [done|]. by rewrite take_drop.
  - by rewrite app_nil_r.
Qed.

Lemma spec_run_fifo cap C c ops :
  let '(rs, (C', _)) := spec_run cap (C, c) ops in
  concat (delivered <$> rs) ++ C' `sublist_of` C ++ concat (zip_with accepted ops rs).
Proof.
  revert C c. induction ops as [|o ops IH]; intros C c; cbn [spec_run];
    [by rewrite app_nil_r|].
  pose proof (spec_op_fifo cap C c o) as Ho. destruct (spec_op cap (C, c) o) as [r [C1 c1]].
  specialize (IH C1 c1). destruct (spec_run cap (C1, c1) ops) as [rs [C2 c2]]. cbn.
  rewrite <- (app_assoc (delivered r)). etransitivity; [by apply sublist_app|].
  rewrite !app_assoc. by apply sublist_app.
Qed.

(** The scraped counters, and the balance of a counter: [In] less [Out] less
    [Overwritten]. *)
Definition balance (c : Counter) : Z := In c - Out c - Overwritten c.

Definition scraped (r : result) : Z := match r with RStat c => balance c | _ => 0 end.

Definition sum (l : list Z) : Z := foldr Z.add 0 l.

Lemma u64_eq x : u64 x = x - 2 ^ 64 * (x / 2 ^ 64).
Proof. apply Z.mod_eq. done. Qed.

Lemma spec_op_balance cap C c o :
  op_ok o -> 0 <= cap ->
  let '(r, (C', c')) := spec_op cap (C, c) o in
  exists k, scraped r + balance c' - zlen C' = balance c - zlen C + k * 2 ^ 64.
Proof.
  intros Ho Hcap. destruct o as [its| |n|]; cbn.
  - destruct (_ <? _); cbn; [by exists 0; lia|]. unfold balance. cbn.
    rewrite last_n_zlen, zlen_app by done.
    unfold lost. pose proof (zlen_nonneg C). pose proof (zlen_nonneg its).
    destruct (Z.ltb_spec 0 (Z.max 0 (zlen C + zlen its - cap))); rewrite !u64_eq.
    + exists ((Overwritten c + Z.max 0 (zlen C + zlen its - cap)) / 2 ^ 64
              - (In c + zlen its) / 2 ^ 64). lia.
    + exists (- ((In c + zlen its) / 2 ^ 64)). lia.
  - destruct C as [|x C]; cbn; [exists 0; lia|]. unfold balance. cbn. rewrite u64_eq, zlen_cons.
    exists ((Out c + 1) / 2 ^ 64). lia.
  - destruct (_ <? n); [exists 0; cbn; lia|]. destruct C as [|x C]; [exists 0; cbn; lia|].
    unfold balance. cbn. rewrite u64_eq.
    assert (zlen (drop (Z.to_nat (Z.min n (zlen (x :: C)))) (x :: C))
            = zlen (x :: C) - Z.min n (zlen (x :: C))) as ->.
    { unfold zlen. rewrite length_drop. cbn in Ho. lia. }
    exists ((Out c + Z.min n (zlen (x :: C))) / 2 ^ 64). lia.
  - exists 0. unfold balance. cbn. lia.
Qed.

Lemma spec_run_balance cap C c ops :
  Forall op_ok ops -> 0 <= cap ->
  let '(rs, (C', c')) := spec_run cap (C, c) ops in
  exists k, sum (scraped <$> rs) + balance c' - zlen C' = balance c - zlen C + k * 2 ^ 64.
Proof.
  intros Ho Hcap. revert C c. induction Ho as [|o ops Ho Hops IH]; intros C c; cbn [spec_run];
    [exists 0; cbn; lia|].
  pose proof (spec_op_balance cap C c o Ho Hcap) as Hb.
  destruct (spec_op cap (C, c) o) as [r [C1 c1]]. destruct Hb as [k1 Hk1].
  specialize (IH C1 c1). destruct (spec_run cap (C1, c1) ops) as [rs [C2 c2]].
  destruct IH as [k2 Hk2]. cbn. exists (k1 + k2). unfold sum in *. lia.
Qed.

End Rep.

#[global] Instance full_turn_dec {A} (q : OverwriteQueue A) its : Decision (full_turn q its).
Proof. unfold full_turn. apply _. Defined.

(** * Properties *)

(** C4: From [Init], any sequence of [Put], [Get], [Gets] and [GetCounter] calls
    returns exactly what a bounded list that forgets its oldest items returns,
    counters and errors included; the capacity is the least power of two that
    is not below the requested size, no slot index panics, and every slot that
    holds no pending item is nil at the end. *)
Theorem queue_refines {A} (n : Z) (rel : bool) (ops : list (op (A:=A))) :
  0 <= n <= 2 ^ 31 -> Forall op_ok ops ->
  let cap := size (Init (A:=A) n rel) in
  (exists k, 0 <= k <= 31 /\ cap = 2 ^ k /\ n <= cap /\ (0 < k -> 2 ^ (k - 1) < n)) /\
  let '(rs, q) := run (Init n rel) ops in
  let '(rs', (C, c)) := spec_run cap ([], zero_Counter) ops in
  rs = rs' /\ rep q C /\ counter q = c.
Proof.
  intros Hn Hops cap. split.
  - destruct (Init_size (A:=A) n rel Hn) as (k & Hk & Hs & Hle & Hlow).
    exists k. subst cap. rewrite Hs. done.
  - apply (run_refines (Init n rel) [] ops); [by apply Init_rep|done].
Qed.

Example queue_refines_witness :
  let ops := [OPut [Some 1; Some 2; Some 3]; OGet; OPut [Some 4; None; Some 6];
              OGets 9; OGet; OStat] in
  (run (Init 3 true) ops).1 =
    [RPut false; RGet (Some 1); RPut false; RGets [Some 3; Some 4; None; Some 6]; RBlocked;
     RStat (mkCounter 6 5 1 4)].
Proof.
  pose proof (queue_refines 3 true
    [OPut [Some 1; Some 2; Some 3]; OGet; OPut [Some 4; None; Some 6]; OGets 9; OGet; OStat]
    ltac:(lia) ltac:(repeat constructor; cbn; lia)) as [_ H].
  cbn zeta. destruct (run _ _) as [rs q]. destruct (spec_run _ _ _) as [rs' [C c]] eqn:E.
  destruct H as (-> & _). vm_compute in E. by injection E as <- _ _.
Defined.

(** C14: No item is duplicated, invented or reordered, and none is lost without
    being counted: what the reads returned followed by what is pending is a
    subsequence of the accepted items in their order, and [In] less [Out] less
    [Overwritten], summed over every scraped counter and the current one, is
    the number of pending items modulo [2^64]. *)
Theorem queue_fifo_conservation {A} (n : Z) (rel : bool) (ops : list (op (A:=A))) :
  0 <= n <= 2 ^ 31 -> Forall op_ok ops ->
  let '(rs, q) := run (Init n rel) ops in
  exists C, rep q C /\
    concat (delivered <$> rs) ++ C `sublist_of` concat (zip_with accepted ops rs) /\
    u64 (sum (scraped <$> rs) + balance (counter q)) = u64 (pending q).
Proof.
  intros Hn Hops. pose proof (run_refines (Init n rel) [] ops (Init_rep n rel Hn) Hops) as H.
  pose proof (Init_rep (A:=A) n rel Hn) as Hi. pose proof (rep_size_range _ _ _ Hi) as Hs.
  pose proof (spec_run_fifo (size (Init (A:=A) n rel)) [] zero_Counter ops) as Hf.
  pose proof (spec_run_balance (size (Init (A:=A) n rel)) [] zero_Counter ops Hops ltac:(lia)) as Hb.
  destruct (run _ ops) as [rs q]. change (counter (Init n rel)) with zero_Counter in H.
  destruct (spec_run _ _ ops) as [rs' [C c]]. destruct H as (-> & Hr & ->).
  destruct Hb as [k Hk]. change (balance zero_Counter - zlen []) with 0 in Hk. exists C. split_and!; [done|done|].
  rewrite (rep_pending _ _ _ Hr).
  replace (sum (scraped <$> rs') + balance c) with (zlen C + k * 2 ^ 64) by lia.
  apply wrap_add_mul. lia.
Qed.

Example queue_fifo_conservation_witness :
  let '(rs, q) := run (Init 2 false) [OPut [Some 1; Some 2]; OStat; OPut [Some 3]; OGet] in
  u64 (sum (scraped <$> rs) + balance (counter q)) = u64 (pending q).
Proof.
  pose proof (queue_fifo_conservation 2 false
    [OPut [Some 1; Some 2]; OStat; OPut [Some 3]; OGet]
    ltac:(lia) ltac:(repeat constructor)) as H.
  destruct (run _ _) as [rs q]. destruct H as (C & _ & _ & H). exact H.
Defined.

(** [Put] calls the release callback on exactly the non-nil items it
    overwrites, oldest first; except that a [Put] of every slot of a full
    queue whose cursor is not at the start overwrites every item and
    releases none. *)
Theorem queue_release_exact {A} (q : OverwriteQueue A) C its :
  rep q C -> zlen its <= size q -> release q = true ->
  released (Put q its).2
  = released q ++
    (if decide (full_turn q its) then []
     else omap id (take (Z.to_nat (zlen C + zlen its - size q)) C)).
Proof.
  intros H Hi Hr. rewrite Put_released by done. case_decide.
  - rewrite app_nil_r. by apply (Put_release_full_turn q C).
  - by apply Put_release_spec.
Qed.

(** A full queue of two slots whose cursor is at 1. *)
Definition full_queue : OverwriteQueue Z :=
  (run (Init 2 true) [OPut [Some 7]; OPut [Some 8]; OGet; OPut [Some 9]]).2.

Example queue_release_exact_witness :
  released (Put full_queue [Some 10]).2 = [8] /\
  released (Put full_queue [Some 10; Some 11]).2 = [].
Proof.
  assert (rep full_queue [Some 8; Some 9]) as H.
  { pose proof (run_refines (Init 2 true) [] [OPut [Some 7]; OPut [Some 8]; OGet; OPut [Some 9]]
      (Init_rep 2 true ltac:(lia)) ltac:(repeat constructor)) as H.
    unfold full_queue. destruct (run _ _) as [rs q]. destruct (spec_run _ _ _) as [rs' [C c]] eqn:E.
    destruct H as (_ & H & _). vm_compute in E. injection E as _ <- _. exact H. }
  split.
  - rewrite (queue_release_exact full_queue _ [Some 10] H) by (vm_compute; done).
    vm_compute. reflexivity.
  - rewrite (queue_release_exact full_queue _ [Some 10; Some 11] H) by (vm_compute; done).
    vm_compute. reflexivity.
Defined.

(** Every key has a queue; a key below the number of queues is its index. *)
Lemma table_entry count :
  1 <= count <= MAX_QUEUE_COUNT ->
  exists table, NewOverwriteQueues_table count = Some table /\
    forall key, is_u 8 key -> exists i, entry table key = Some i /\ 0 <= i < count /\
      (key < count -> i = key) /\ entry table (key mod zlen table) = Some i.
Proof.
  intros Hc. change MAX_QUEUE_COUNT with 16 in Hc.
  set (chk := fun c k => match NewOverwriteQueues_table c with
    | Some table => match entry table k with
        | Some i => (0 <=? i) && (i <? c) && (negb (k <? c) || (i =? k))
                    && bool_decide (entry table (k mod zlen table) = Some i)
        | None => false
        end
    | None => false end).
  assert (forall key, is_u 8 key -> chk count key = true) as Hchk.
  { intros key Hk. replace count with (count - 1 + 1) by lia.
    refine (byte_forall (fun k => chk (count - 1 + 1) k) _ key Hk).
    refine (forall_below 16 (fun c => forallb (fun k => chk (c + 1) k) (seqZ 0 256)) _ (count - 1) _);
      [vm_compute; reflexivity|lia]. }
  unfold chk in Hchk. destruct (NewOverwriteQueues_table count) as [table|]; [|by specialize (Hchk 0 ltac:(done))].
  exists table. split; [done|]. intros key Hk. specialize (Hchk key Hk).
  destruct (entry table key) as [i|]; [|done]. apply andb_prop in Hchk as [Hchk He].
  apply bool_decide_eq_true in He. exists i. split_and!; try done; lia.
Qed.

(** The queue table of [NewOverwriteQueues] serves every 8-bit key without
    an index panic, gives key [i] below [count] the [i]-th queue, and
    depends on the low bits of the key only; no queues, or more than
    [MAX_QUEUE_COUNT], panic. *)
Theorem multi_queue_entry (count : Z) :
  is_u 8 count ->
  match NewOverwriteQueues_table count with
  | None => count = 0 \/ MAX_QUEUE_COUNT < count
  | Some table =>
      1 <= count <= MAX_QUEUE_COUNT /\
      forall key, is_u 8 key ->
        exists i, entry table key = Some i /\ 0 <= i < count /\
          (key < count -> i = key) /\ entry table (key mod zlen table) = Some i
  end.
Proof.
  intros Hc. destruct (Z.eq_dec count 0) as [->|H0]; [by left|].
  destruct (Z.ltb_spec MAX_QUEUE_COUNT count).
  { unfold NewOverwriteQueues_table. rewrite Z.gtb_ltb, (proj2 (Z.ltb_lt _ _)) by done. by right. }
  unfold is_u in Hc. destruct (table_entry count ltac:(lia)) as (table & -> & Ht). split; [lia|done].
Qed.

Example multi_queue_entry_witness :
  match NewOverwriteQueues_table 3 with
  | None => False
  | Some table => table = [0; 1; 2; 0]
  end.
Proof.
  pose proof (multi_queue_entry 3 ltac:(done)) as H.
  destruct (NewOverwriteQueues_table 3) as [t|] eqn:E; [|by destruct H].
  vm_compute in E. by injection E as <-.
Defined.
