(* ===== verification/QueueConc.v ===== *)
(** Interleavings of the overwriting queue of [server/libs/queue/queue.go].

    Writers hold [writeLock] for the whole of [Put], so at most one is active;
    its phases are the points where it does not hold the queue lock.  Readers
    are threads that hold the queue lock in [get] and [gets] and wait on the
    wait group [reader] when the queue is empty.  Each step is one critical
    section, or one access outside of them: the unlocked read of [pending], the
    unlocked copy of the fast path, the [Done] call after unlocking and the
    update of the [Pending] gauge. *)

From S2P Require Import Prelude Queue QueueFacts.

Section Conc.
Context {A : Type}.
Implicit Types q : OverwriteQueue A.

(** What a reader asked for: [Get], or [Gets] with a slice of length [n]. *)
Inductive request := RqGet | RqGets (n : nat).

(** [Gets] panics on a longer slice before it takes the lock. *)
Definition request_ok (r : request) : bool :=
  match r with RqGet => true | RqGets n => Z.of_nat n <=? MAX_BATCH_GET_SIZE end.

(** [RAdded]: has registered itself and released the lock, has not called [Wait]
    yet; [RWaiting]: inside [Wait]; [RWoken]: [Wait] has returned. *)
Inductive reader_phase :=
  | RIdle
  | RAdded (r : request)
  | RWaiting (r : request)
  | RWoken (r : request).

(** [WFast]: read the free size and found it sufficient; [WSlow]: found it
    insufficient; [WCopied]: copied without the lock; [WSignal]: published and
    unlocked; [WGauge]: about to update the gauge. *)
Inductive writer_phase :=
  | WIdle
  | WFast (its : list (option A)) (free : Z)
  | WSlow (its : list (option A))
  | WCopied (its : list (option A))
  | WSignal (wake : bool)
  | WGauge.

(** [group] is the counter of the wait group.  The logs are the published items,
    the items taken out of the ring (read or overwritten) and the items read,
    all in order. *)
Record state := mkState {
  queue : OverwriteQueue A;
  writer : writer_phase;
  readers : list reader_phase;
  group : Z;
  published : list (option A);
  removed : list (option A);
  read : list (option A)
}.

(** Lines of [get] and [gets] for either request. *)
Definition serve (q : OverwriteQueue A) (r : request)
    : option (list (option A) * OverwriteQueue A) :=
  match r with
  | RqGet => match get q with Some (x, q) => Some ([x], q) | None => None end
  | RqGets n => Some (gets q (Z.of_nat n))
  end.

(** A [Done] that brings the group to zero lets every waiting reader go. *)
Definition wake_all (rs : list reader_phase) : list reader_phase :=
  (fun r => match r with RWaiting q => RWoken q | r => r end) <$> rs.

(** The locked path of [Put]. *)
Definition Put_locked (q : OverwriteQueue A) (its : list (option A)) : bool * OverwriteQueue A :=
  let itemSize := zlen its in
  let freeSize := u64 (size q - pending q) in
  Put_publish (Put_count (Put_copy (Put_release q itemSize freeSize) its) itemSize freeSize)
    itemSize.

Inductive step : state -> state -> Prop :=
  | step_begin q rs g pub rm rd its free :
      its <> [] -> zlen its <= size q -> free = u64 (size q - pending q) ->
      step (mkState q WIdle rs g pub rm rd)
        (mkState q (if zlen its >? free then WSlow its else WFast its free) rs g pub rm rd)
  | step_copy q rs g pub rm rd its free :
      step (mkState q (WFast its free) rs g pub rm rd)
        (mkState (Put_count (Put_copy q its) (zlen its) free) (WCopied its) rs g pub rm rd)
  | step_publish q q' wake rs g pub rm rd its :
      Put_publish q (zlen its) = (wake, q') ->
      step (mkState q (WCopied its) rs g pub rm rd)
        (mkState q' (WSignal wake) rs g (pub ++ its) rm rd)
  | step_slow q q' wake rs g pub rm rd its over :
      Put_locked q its = (wake, q') ->
      over = slice (rot (Z.to_nat (firstIndex q)) (items q)) 0
               (zlen its - u64 (size q - pending q)) ->
      step (mkState q (WSlow its) rs g pub rm rd)
        (mkState q' (WSignal wake) rs g (pub ++ its) (rm ++ over) rd)
  | step_signal q wake rs g pub rm rd :
      step (mkState q (WSignal wake) rs g pub rm rd)
        (mkState q WGauge
           (if wake && (g - 1 =? 0) then wake_all rs else rs)
           (if wake then g - 1 else g) pub rm rd)
  | step_gauge q rs g pub rm rd :
      step (mkState q WGauge rs g pub rm rd) (mkState (Put_gauge q) WIdle rs g pub rm rd)
  | step_read q q' w rs g pub rm rd i r out :
      rs !! i = Some RIdle -> request_ok r -> pending q <> 0 -> serve q r = Some (out, q') ->
      step (mkState q w rs g pub rm rd)
        (mkState q' w rs g pub (rm ++ out) (rd ++ out))
  | step_wait q w rs g pub rm rd i r :
      rs !! i = Some RIdle -> request_ok r -> pending q = 0 ->
      step (mkState q w rs g pub rm rd)
        (mkState (mkQueue (items q) (size q) (writeCursor q) (pending q) (readerWaiting q + 1)
                    (release q) (released q) (counter q))
           w (<[i := RAdded r]> rs) (g + 1) pub rm rd)
  | step_enter q w rs g pub rm rd i r :
      rs !! i = Some (RAdded r) ->
      step (mkState q w rs g pub rm rd)
        (mkState q w (<[i := if g =? 0 then RWoken r else RWaiting r]> rs) g pub rm rd)
  | step_woken q q' w rs g pub rm rd i r out :
      rs !! i = Some (RWoken r) -> serve q r = Some (out, q') ->
      step (mkState q w rs g pub rm rd)
        (mkState q' w (<[i := RIdle]> rs) g pub (rm ++ out) (rd ++ out)).

Definition start (n : Z) (rel : bool) (nreaders : nat) : state :=
  mkState (Init n rel) WIdle (replicate nreaders RIdle) 0 [] [] [].

Definition reachable (n : Z) (rel : bool) (nreaders : nat) : state -> Prop :=
  rtc step (start n rel nreaders).

(** * One reader *)

(** The items the writer has copied but not published. *)
Definition copied (w : writer_phase) : list (option A) :=
  match w with WCopied its => its | _ => [] end.

(** What the writer's phase says of the queue. *)
Definition writer_inv (q : OverwriteQueue A) (C : list (option A)) (w : writer_phase) : Prop :=
  match w with
  | WFast its free => its <> [] /\ zlen its <= free /\ free <= size q - zlen C
  | WSlow its => its <> [] /\ zlen its <= size q
  | WCopied its => its <> []
  | _ => True
  end.

Definition waking (w : writer_phase) : Z := match w with WSignal true => 1 | _ => 0 end.

(** What the reader's phase says of the queue and the wait group. *)
Definition reader_inv (q : OverwriteQueue A) (C : list (option A)) (w : writer_phase) (g : Z)
    (r : reader_phase) : Prop :=
  g = readerWaiting q + waking w /\
  match r with
  | RIdle => g = 0 /\ readerWaiting q = 0
  | RAdded _ => (readerWaiting q = 1 /\ C = [] /\ waking w = 0) \/ (readerWaiting q = 0 /\ C <> [])
  | RWaiting _ => (readerWaiting q = 1 /\ C = [] /\ waking w = 0)
                  \/ (readerWaiting q = 0 /\ C <> [] /\ waking w = 1)
  | RWoken _ => g = 0 /\ readerWaiting q = 0 /\ C <> []
  end.

Definition inv (st : state) : Prop :=
  exists C r,
    readers st = [r] /\ inflight (queue st) (copied (writer st)) C /\
    writer_inv (queue st) C (writer st) /\ reader_inv (queue st) C (writer st) (group st) r /\
    published st = removed st ++ C /\ read st `sublist_of` removed st.

Ltac st_cbn :=
  cbn [queue writer readers group published removed read copied writer_inv].

Ltac st_cbn_in_all :=
  cbn [queue writer readers group published removed read copied writer_inv] in *.

Lemma serve_rep q W C r :
  inflight q W C -> C <> [] ->
  exists out q' C', serve q r = Some (out, q') /\ C = out ++ C' /\ inflight q' W C' /\
    size q' = size q /\ readerWaiting q' = readerWaiting q.
Proof.
  intros H HC. destruct r as [|n]; cbn [serve].
  - destruct C as [|x C]; [done|]. destruct (get_rep _ _ _ _ H) as (q' & -> & H' & E).
    exists [x], q', C. by split_and!; [| | |rewrite E..].
  - destruct (gets_rep _ _ _ (Z.of_nat n) H) as (q' & -> & H' & E); [lia|].
    eexists _, q', _. split_and!; [done| |exact H'|by rewrite E..]. by rewrite take_drop.
Qed.

(** Pending items only leave: a free size that was read stays available. *)
Lemma writer_inv_read q q' C out C' w :
  C = out ++ C' -> size q' = size q -> writer_inv q C w -> writer_inv q' C' w.
Proof.
  intros -> Hs. pose proof (zlen_nonneg out). destruct w; cbn; rewrite ?Hs, ?zlen_app; try done.
  intros (?&?&?). split_and!; [done|done|lia].
Qed.

Lemma Put_copy_inflight q C its free :
  rep q C -> zlen its <= size q - zlen C ->
  inflight (Put_count (Put_copy q its) (zlen its) free) its C /\
  readerWaiting (Put_count (Put_copy q its) (zlen its) free) = readerWaiting q.
Proof.
  intros H Hi. pose proof (zlen_nonneg C). pose proof (zlen_nonneg its).
  destruct (Put_copy_ring q [] C its H ltac:(lia)) as (Hr & He & Hl). cbn zeta in *.
  split; [|cbn; by rewrite He].
  apply (rep_ext (Put_copy q its)); try done. pose proof H as [].
  rewrite He. split; cbn [set_items size items writeCursor pending]; try done.
  - unfold zlen in *. by rewrite Hl.
  - lia.
  - rewrite Hr, rep_ring, app_nil_l. change (zlen []) with 0.
    rewrite drop_app_le, drop_replicate by (rewrite length_replicate; unfold zlen in *; lia).
    do 3 f_equal. unfold zlen in *. lia.
Qed.

Lemma inflight_publish q its C :
  inflight q its C -> rep (Put_publish q (zlen its)).2 (C ++ its).
Proof.
  intros H. pose proof H as [Hs Hl Hc Hp Hb Hr]. pose proof (zlen_nonneg C).
  pose proof (zlen_nonneg its). rewrite <- (last_n_fits (size q) (C ++ its)) by (rewrite zlen_app; lia).
  apply Put_publish_rep; try done; [lia..|].
  rewrite Hr, drop_app_le, drop_replicate by (rewrite length_replicate; unfold zlen in *; lia).
  do 3 f_equal. unfold zlen. lia.
Qed.

Lemma Put_publish_wake q n :
  0 <= readerWaiting q ->
  let '(wake, q') := Put_publish q n in
  readerWaiting q = readerWaiting q' + (if wake then 1 else 0) /\
  (readerWaiting q <= 1 -> readerWaiting q' = 0).
Proof. intros. cbn. rewrite Z.gtb_ltb. destruct (Z.ltb_spec 0 (readerWaiting q)); lia. Qed.

Lemma reader_inv_waiting q C w g r :
  reader_inv q C w g r -> 0 <= readerWaiting q <= 1 /\ (readerWaiting q = 1 -> waking w = 0).
Proof. intros [Hg Hr]. assert (0 <= waking w <= 1) by (by destruct w as [| | | |[]|]). destruct r; lia. Qed.

(** Publishing at least one item takes a registered reader off the list. *)
Lemma reader_inv_publish q q' C C' w g (wake : bool) r :
  reader_inv q C w g r -> waking w = 0 ->
  readerWaiting q = readerWaiting q' + (if wake then 1 else 0) ->
  (readerWaiting q <= 1 -> readerWaiting q' = 0) -> C' <> [] ->
  reader_inv q' C' (WSignal wake) g r.
Proof.
  intros Hr Hw H1 H2 HC. pose proof (reader_inv_waiting _ _ _ _ _ Hr) as [Hq _].
  destruct Hr as [Hg Hr]. split; [destruct wake; cbn; lia|].
  assert (waking (WSignal wake) = if wake then 1 else 0) as Hwk by (by destruct wake).
  rewrite Hwk. destruct r; [lia| | |].
  - right. split; [lia|done].
  - right. split_and!; [lia|done|]. destruct wake; lia.
  - split_and!; [lia|lia|done].
Qed.

Lemma inv_start n rel : 0 <= n <= 2 ^ 31 -> inv (start n rel 1).
Proof.
  intros Hn. exists [], RIdle. split_and!; try done. by apply Init_rep.
Qed.

Lemma inv_step_begin q rs g pub rm rd its free :
  its <> [] -> zlen its <= size q -> free = u64 (size q - pending q) ->
  inv (mkState q WIdle rs g pub rm rd) ->
  inv (mkState q (if zlen its >? free then WSlow its else WFast its free) rs g pub rm rd).
Proof.
  intros Hn Hi -> (C & r & Hrs & Hq & _ & Hr & Hp & Hd). cbn in *. exists C, r.
  pose proof Hq as [_ _ _ Hpend Hb _]. pose proof (rep_size_range _ _ _ Hq).
  pose proof (zlen_nonneg C). change (zlen []) with 0 in Hb. pow2.
  rewrite Hpend, wrap_small by (ranges; lia). rewrite Z.gtb_ltb.
  destruct (Z.ltb_spec (size q - zlen C) (zlen its)); split_and!; cbn; try done.
Qed.

Lemma inv_step_copy q rs g pub rm rd its free :
  inv (mkState q (WFast its free) rs g pub rm rd) ->
  inv (mkState (Put_count (Put_copy q its) (zlen its) free) (WCopied its) rs g pub rm rd).
Proof.
  intros (C & r & Hrs & Hq & Hw & Hr & Hp & Hd). st_cbn_in_all.
  destruct Hw as (Hn & H1 & H2).
  destruct (Put_copy_inflight q C its free Hq) as [Hq' Hw']; [lia|].
  exists C, r. st_cbn.
  split_and!; try done. unfold reader_inv. by rewrite Hw'.
Qed.

Lemma inv_step_publish q q' wake rs g pub rm rd its :
  Put_publish q (zlen its) = (wake, q') ->
  inv (mkState q (WCopied its) rs g pub rm rd) ->
  inv (mkState q' (WSignal wake) rs g (pub ++ its) rm rd).
Proof.
  intros Hpub (C & r & Hrs & Hq & Hw & Hr & Hp & Hd). st_cbn_in_all.
  pose proof (inflight_publish _ _ _ Hq) as Hq'. rewrite Hpub in Hq'.
  pose proof (reader_inv_waiting _ _ _ _ _ Hr) as [Hrw _].
  pose proof (Put_publish_wake q (zlen its) ltac:(lia)) as Hwk. rewrite Hpub in Hwk.
  destruct Hwk as [H1 H2]. exists (C ++ its), r. cbn.
  split_and!; try done; [|by rewrite Hp, app_assoc].
  apply (reader_inv_publish q q' C _ (WCopied its)); try done.
  intros E. apply app_eq_nil in E as [_ ?]. done.
Qed.

Lemma Put_locked_rep q C its wake q' :
  rep q C -> zlen its <= size q -> Put_locked q its = (wake, q') ->
  rep q' (last_n (size q) (C ++ its)) /\ (0 <= readerWaiting q ->
  readerWaiting q = readerWaiting q' + (if wake then 1 else 0) /\
  (readerWaiting q <= 1 -> readerWaiting q' = 0)).
Proof.
  intros H Hi E. destruct (Put_rep q C its H Hi) as [_ Hr]. rewrite Put_frame in Hr by done.
  cbn zeta in Hr. rewrite <- Put_release_frame in Hr. cbn [snd] in Hr.
  unfold Put_locked in E. cbn zeta in E. rewrite E in Hr. cbn [snd] in Hr.
  destruct (Put_gauge_frame q') as (E1&E2&E3&E4&_).
  split; [by apply (rep_ext (Put_gauge q'))|]. intros H0.
  set (q1 := Put_count _ _ _) in E.
  assert (readerWaiting q1 = readerWaiting q) as Hq1.
  { subst q1. cbn. rewrite Put_release_frame. unfold Put_copy. by case_match. }
  pose proof (Put_publish_wake q1 (zlen its) ltac:(lia)) as Hwk. rewrite E in Hwk.
  by rewrite <- Hq1.
Qed.

Lemma inv_step_slow q q' wake rs g pub rm rd its :
  Put_locked q its = (wake, q') ->
  inv (mkState q (WSlow its) rs g pub rm rd) ->
  inv (mkState q' (WSignal wake) rs g (pub ++ its)
    (rm ++ slice (rot (Z.to_nat (firstIndex q)) (items q)) 0 (zlen its - u64 (size q - pending q))) rd).
Proof.
  intros HP (C & r & Hrs & Hq & Hw & Hr & Hp & Hd). st_cbn_in_all.
  destruct Hw as [Hn Hi]. pose proof (reader_inv_waiting _ _ _ _ _ Hr) as [Hrw _].
  destruct (Put_locked_rep q C its wake q' Hq Hi HP) as [Hq' Hwk].
  destruct Hwk as [H1 H2]; [lia|]. pose proof Hq as [_ _ _ Hpend Hb _].
  pose proof (rep_size_range _ _ _ Hq). pose proof (zlen_nonneg C). pose proof (zlen_nonneg its).
  change (zlen []) with 0 in Hb. pow2.
  exists (last_n (size q) (C ++ its)), r. st_cbn.
  split_and!; try done.
  - apply (reader_inv_publish q q' C _ (WSlow its)); try done.
    intros E%(f_equal zlen). rewrite last_n_zlen, zlen_app in E by lia. change (zlen []) with 0 in E.
    destruct its; [done|]. rewrite zlen_cons in *. pose proof (zlen_nonneg its). lia.
  - rewrite (rep_first _ _ _ Hq), app_nil_l, Hpend, wrap_small by (ranges; lia).
    rewrite Hp, <- !app_assoc. f_equal. unfold slice, last_n, zlen in *.
    change (Z.to_nat 0) with 0%nat. rewrite drop_0, length_app, take_app_le by lia.
    rewrite <- (take_drop (Z.to_nat (Z.of_nat (length its) - (size q - Z.of_nat (length C)))) C) at 1.
    rewrite <- app_assoc. f_equal. rewrite drop_app_le by lia. do 2 f_equal. lia.
  - by apply sublist_inserts_r.
Qed.

Lemma inv_step_signal q wake rs g pub rm rd :
  inv (mkState q (WSignal wake) rs g pub rm rd) ->
  inv (mkState q WGauge (if wake && (g - 1 =? 0) then wake_all rs else rs)
         (if wake then g - 1 else g) pub rm rd).
Proof.
  intros (C & r & Hrs & Hq & _ & [Hg Hr] & Hp & Hd). st_cbn_in_all.
  subst rs. destruct wake; cbn [andb].
  - assert (g = 1 /\ readerWaiting q = 0 /\ C <> []) as (-> & Hw & HC).
    { cbn in *. destruct r; destruct_or?; destruct_and?; split_and!; done || lia. }
    exists C. exists (match r with RWaiting q => RWoken q | r => r end).
    cbn. split_and!; try done. split; [cbn; lia|].
    destruct r; cbn in *; [lia|by right|done|lia].
  - exists C, r. cbn in *. by split_and!.
Qed.

Lemma inv_step_gauge q rs g pub rm rd :
  inv (mkState q WGauge rs g pub rm rd) -> inv (mkState (Put_gauge q) WIdle rs g pub rm rd).
Proof.
  intros (C & r & Hrs & Hq & _ & Hr & Hp & Hd). st_cbn_in_all.
  destruct (Put_gauge_frame q) as (E1&E2&E3&E4&E5&_). exists C, r. st_cbn.
  split_and!; try done; [by apply (rep_ext q)|]. unfold reader_inv in *. by rewrite E5.
Qed.

(** A read by the reader, idle or woken. *)
Lemma inv_step_serve q q' w g pub rm rd r0 r out :
  serve q r = Some (out, q') ->
  (r0 = RIdle /\ pending q <> 0) \/ (exists r', r0 = RWoken r') ->
  inv (mkState q w [r0] g pub rm rd) ->
  inv (mkState q' w [RIdle] g pub (rm ++ out) (rd ++ out)).
Proof.
  intros Hs H0 (C & r1 & Hrs & Hq & Hw & [Hg Hr] & Hp & Hd). st_cbn_in_all. injection Hrs as <-.
  assert (g = 0 /\ readerWaiting q = 0 /\ C <> []) as (-> & Hrw & HC).
  { destruct H0 as [[-> H0]|[r' ->]]; [|done]. split_and!; [by apply Hr..|].
    rewrite (rep_pending _ _ _ Hq) in H0. by intros ->. }
  destruct (serve_rep q (copied w) C r Hq HC) as (o & q1 & C' & E & -> & Hq1 & Hsz & Hrw').
  rewrite Hs in E. injection E as <- <-. exists C', RIdle. st_cbn. split_and!; try done.
  - by apply (writer_inv_read q q' (out ++ C') out).
  - split; [lia|]. split; [done|lia].
  - by rewrite Hp, app_assoc.
  - by apply sublist_app.
Qed.

Lemma inv_step_wait q w g pub rm rd r :
  pending q = 0 ->
  inv (mkState q w [RIdle] g pub rm rd) ->
  inv (mkState (mkQueue (items q) (size q) (writeCursor q) (pending q) (readerWaiting q + 1)
                  (release q) (released q) (counter q)) w [RAdded r] (g + 1) pub rm rd).
Proof.
  intros H0 (C & r1 & Hrs & Hq & Hw & [Hg Hr] & Hp & Hd). st_cbn_in_all. injection Hrs as <-.
  rewrite (rep_pending _ _ _ Hq) in H0. destruct C; [|rewrite zlen_cons in H0; unfold zlen in H0; lia].
  exists [], (RAdded r). st_cbn. split_and!; try done; [by apply (rep_ext q)|].
  split; [cbn; lia|]. left. cbn. split_and!; [lia|done|lia].
Qed.

Lemma inv_step_enter q w g pub rm rd r :
  inv (mkState q w [RAdded r] g pub rm rd) ->
  inv (mkState q w [if g =? 0 then RWoken r else RWaiting r] g pub rm rd).
Proof.
  intros (C & r1 & Hrs & Hq & Hw & [Hg Hr] & Hp & Hd). st_cbn_in_all. injection Hrs as <-.
  assert (0 <= waking w <= 1) by (by destruct w as [| | | |[]|]).
  eexists C, _. st_cbn. split_and!; try done. split; [done|]. destruct (Z.eqb_spec g 0).
  - split; [done|]. destruct_or!; destruct_and!; [lia|done].
  - destruct_or!; destruct_and!; [by left|right]. split_and!; [done|done|lia].
Qed.

Lemma inv_step st st' : step st st' -> inv st -> inv st'.
Proof.
  intros Hs Hi. pose proof Hi as (_ & r0 & Hrs & _). destruct Hs; cbn in Hrs; try subst rs.
  - by apply inv_step_begin.
  - by apply inv_step_copy.
  - by eapply inv_step_publish.
  - subst. by apply inv_step_slow.
  - by apply inv_step_signal.
  - by apply inv_step_gauge.
  - destruct i; [|done]. injection H as ->.
    by eapply inv_step_serve; [done|left|].
  - destruct i; [|done]. injection H as ->. by apply inv_step_wait.
  - destruct i; [|done]. injection H as ->. by apply inv_step_enter.
  - destruct i; [|done]. injection H as ->.
    by eapply inv_step_serve; [done|right; eexists|].
Qed.

Lemma inv_reachable n rel st : 0 <= n <= 2 ^ 31 -> reachable n rel 1 st -> inv st.
Proof.
  intros Hn Hr. unfold reachable in Hr. pose proof (inv_start n rel Hn) as Hi. revert Hi.
  induction Hr as [|st1 st2 st3 Hs _ IH]; [done|]. intros Hi. by apply IH, (inv_step st1).
Qed.
End Conc.

(** A run in which the only reader blocks, and is woken by a [Put]. *)
Lemma woken_run :
  exists st : state (A:=Z), reachable 1 false 1 st /\ readers st = [RWoken RqGet].
Proof.
  eexists. split.
  - unfold reachable, start.
    eapply rtc_l; [by apply (step_wait _ _ _ _ _ _ _ 0 RqGet)|].
    eapply rtc_l; [by apply (step_enter _ _ _ _ _ _ _ 0 RqGet)|].
    eapply rtc_l; [by apply (step_begin _ _ _ _ _ _ [Some 5] 1)|]. cbn [Z.gtb].
    eapply rtc_l; [by apply step_copy|].
    eapply rtc_l; [apply step_publish; vm_compute; reflexivity|].
    eapply rtc_l; [apply step_signal|]. apply rtc_refl.
  - vm_compute. reflexivity.
Qed.

(** A run in which the only reader blocks. *)
Lemma blocked_run :
  exists st : state (A:=Z), reachable 1 false 1 st /\ readers st = [RWaiting RqGet] /\
    writer st = WIdle.
Proof.
  eexists. split.
  - unfold reachable, start.
    eapply rtc_l; [by apply (step_wait _ _ _ _ _ _ _ 0 RqGet)|].
    eapply rtc_l; [by apply (step_enter _ _ _ _ _ _ _ 0 RqGet)|]. apply rtc_refl.
  - done.
Qed.

(** * Properties *)

(** C6: With one reader, in every reachable interleaving of [Put], [Get] and
    [Gets] the published items are the ones taken out followed by the ones in
    the ring, what was read is a subsequence of what was taken out, the
    number of pending items never exceeds the size (so it never wrapped
    below zero), and a reader that [Wait] let go finds an item. *)
Theorem conc_single_reader {A} (n : Z) (rel : bool) (st : state (A:=A)) :
  0 <= n <= 2 ^ 31 -> reachable n rel 1 st ->
  exists C, inflight (queue st) (copied (writer st)) C /\
    published st = removed st ++ C /\ read st `sublist_of` removed st /\
    0 <= pending (queue st) <= size (queue st) /\
    (forall r, readers st = [RWoken r] -> 0 < pending (queue st)).
Proof.
  intros Hn Hr. destruct (inv_reachable n rel st Hn Hr) as (C & r & Hrs & Hq & _ & [_ Hi] & Hp & Hd).
  pose proof Hq as [_ _ _ E Hb _]. pose proof (zlen_nonneg C). pose proof (zlen_nonneg (copied (writer st))).
  exists C. split_and!; try done; try lia. intros r' Hr'. rewrite Hr' in Hrs. injection Hrs as <-.
  destruct Hi as (_ & _ & HC). rewrite E. destruct C as [|x C]; [done|].
  rewrite zlen_cons. pose proof (zlen_nonneg C). lia.
Qed.

Example conc_single_reader_witness :
  exists st : state (A:=Z), reachable 1 false 1 st /\ 0 < pending (queue st).
Proof.
  destruct woken_run as (st & Hr & Hw).
  destruct (conc_single_reader 1 false st ltac:(lia) Hr) as (C & _ & _ & _ & _ & H).
  exists st. split; [exact Hr|exact (H _ Hw)].
Defined.

(** C15: No wake-up is lost: with one reader, whenever it is inside [Wait] and
    no [Put] is about to call [Done], the queue is empty. *)
Theorem conc_no_lost_wakeup {A} (n : Z) (rel : bool) (st : state (A:=A)) (r : request) :
  0 <= n <= 2 ^ 31 -> reachable n rel 1 st -> readers st = [RWaiting r] ->
  writer st <> WSignal true ->
  pending (queue st) = 0 /\ readerWaiting (queue st) = 1 /\ group st = 1.
Proof.
  intros Hn Hr Hw Hs. destruct (inv_reachable n rel st Hn Hr) as (C & r' & Hrs & Hq & _ & [Hg Hi] & _).
  rewrite Hw in Hrs. injection Hrs as <-. rewrite (rep_pending _ _ _ Hq).
  destruct Hi as [(H1 & -> & H2)|(_ & _ & H1)]; [split_and!; [done|lia..]|].
  by destruct (writer st) as [| | | |[]|].
Qed.


Example conc_no_lost_wakeup_witness :
  exists st : state (A:=Z), reachable 1 false 1 st /\ pending (queue st) = 0.
Proof.
  destruct blocked_run as (st & Hr & Hw & Hi). exists st. split; [exact Hr|].
  refine (proj1 (conc_no_lost_wakeup 1 false st RqGet ltac:(lia) Hr Hw _)). by rewrite Hi.
Defined.

(** C34: With two readers the wake-up is not checked again: a second reader can
    take the item between [Put] and the resumption of the first, which then
    reads an empty queue and leaves [pending] at [2^64 - 1]. *)
Theorem conc_two_readers_underflow :
  exists st : state (A:=Z), reachable 1 false 2 st /\ read st = [Some 5; None] /\
    pending (queue st) = 2 ^ 64 - 1.
Proof.
  eexists. split.
  - unfold reachable, start.
    eapply rtc_l; [by apply (step_wait _ _ _ _ _ _ _ 0 RqGet)|].
    eapply rtc_l; [by apply (step_enter _ _ _ _ _ _ _ 0 RqGet)|].
    eapply rtc_l; [by apply (step_begin _ _ _ _ _ _ [Some 5] 1)|]. cbn [Z.gtb].
    eapply rtc_l; [by apply step_copy|].
    eapply rtc_l; [apply step_publish; vm_compute; reflexivity|].
    eapply rtc_l; [eapply (step_read _ _ _ _ _ _ _ _ 1 RqGet);
      [reflexivity|done|vm_compute; done|vm_compute; reflexivity]|].
    eapply rtc_l; [apply step_signal|].
    eapply rtc_l; [eapply (step_woken _ _ _ _ _ _ _ _ 0 RqGet); vm_compute; reflexivity|].
    apply rtc_refl.
  - vm_compute. done.
Qed.
