(* ===== verification/Strconv.v ===== *)
(** Strings: the parts of Go's [strconv] and [strings] packages that the
    libraries print numbers and lists with ([FormatUint], [FormatInt],
    [strings.Join]), with reading back as the specification of printing, and
    the lemmas about separators that the line protocol needs. *)

From S2P Require Import Prelude.
From stdpp Require Export strings.
From Stdlib Require Export Ascii.

#[local] Open Scope string_scope.
#[local] Open Scope list_scope.
#[local] Open Scope Z_scope.

(** * Printing numbers *)

Definition digit (d : Z) : ascii :=
  ascii_of_nat (Z.to_nat (if d <? 10 then 48 + d else 87 + d)).

(** Digits from the least significant one; 64 rounds are enough for any value
    of 64 bits in any base. *)
Fixpoint format_loop (fuel : nat) (base v : Z) (acc : string) : string :=
  match fuel with
  | O => acc
  | S fuel =>
      let acc := String (digit (v mod base)) acc in
      if v / base =? 0 then acc else format_loop fuel base (v / base) acc
  end.

Definition FormatUint (v base : Z) : string := format_loop 64 base v "".

Definition FormatInt (v base : Z) : string :=
  if v <? 0 then String "-" (FormatUint (- v) base) else FormatUint v base.

(** * Reading numbers back *)

Definition digit_value (c : ascii) : Z :=
  let n := Z.of_nat (nat_of_ascii c) in
  if (48 <=? n) && (n <? 58) then n - 48
  else if (97 <=? n) && (n <? 123) then n - 87
  else -1.

(** [None] on a character that is no digit of the base. *)
Fixpoint parse_loop (base : Z) (s : string) (acc : Z) : option Z :=
  match s with
  | EmptyString => Some acc
  | String c s =>
      let d := digit_value c in
      if (d <? 0) || (base <=? d) then None else parse_loop base s (acc * base + d)
  end.

Definition parse_uint (base : Z) (s : string) : option Z :=
  match s with EmptyString => None | _ => parse_loop base s 0 end.

Definition parse_int (base : Z) (s : string) : option Z :=
  match s with
  | String "-" s => Z.opp <$> parse_uint base s
  | _ => parse_uint base s
  end.

(** * Joining and splitting *)

(** [strings.Join] *)
Fixpoint Join (l : list string) (sep : string) : string :=
  match l with
  | [] => ""
  | [x] => x
  | x :: l => x +:+ sep +:+ Join l sep
  end.

(** Every character of [s] satisfies [P]; [without c s]: [c] does not occur. *)
Fixpoint sforall (P : ascii -> bool) (s : string) : bool :=
  match s with
  | EmptyString => true
  | String d s => P d && sforall P s
  end.

Definition without (c : ascii) (s : string) : bool :=
  sforall (fun d => negb (bool_decide (c = d))) s.

(** [strings.Split] with a separator of one character. *)
Fixpoint Split (c : ascii) (s : string) : list string :=
  match s with
  | EmptyString => [""]
  | String d s =>
      if bool_decide (c = d) then "" :: Split c s
      else match Split c s with
           | [] => [String d ""]
           | x :: l => String d x :: l
           end
  end.

(** * Lemmas *)

Lemma digit_value_digit d : 0 <= d < 36 -> digit_value (digit d) = d.
Proof.
  intros Hd. apply Z.eqb_eq.
  refine (forall_below 36 (fun d => digit_value (digit d) =? d) _ d Hd). vm_compute. reflexivity.
Qed.

Lemma sapp_cons x a b : String x a +:+ b = String x (a +:+ b).
Proof. done. Qed.

Lemma sapp_nil_l a : "" +:+ a = a.
Proof. done. Qed.

Lemma sapp_assoc a b c : a +:+ (b +:+ c) = (a +:+ b) +:+ c.
Proof. induction a as [|x a IH]; [done|]. rewrite ?sapp_cons. cbn. by rewrite IH. Qed.

Lemma sapp_nil_r a : a +:+ "" = a.
Proof. induction a as [|x a IH]; [done|]. rewrite ?sapp_cons. cbn. by rewrite IH. Qed.

Lemma slength_app a b : String.length (a +:+ b) = (String.length a + String.length b)%nat.
Proof. induction a as [|x a IH]; [done|]. rewrite ?sapp_cons. cbn. by rewrite IH. Qed.

Lemma sforall_app P a b : sforall P (a +:+ b) = sforall P a && sforall P b.
Proof. induction a as [|x a IH]; [done|]. rewrite sapp_cons. cbn. by rewrite IH, andb_assoc. Qed.

Lemma sforall_impl (P Q : ascii -> bool) s :
  (forall c, P c = true -> Q c = true) -> sforall P s = true -> sforall Q s = true.
Proof.
  intros H. induction s as [|c s IH]; [done|]. cbn. intros [H1 H2]%andb_prop.
  by rewrite H, IH.
Qed.

Lemma without_app c a b : without c (a +:+ b) = without c a && without c b.
Proof. apply sforall_app. Qed.

Lemma parse_loop_app base a b x :
  parse_loop base (a +:+ b) x = parse_loop base a x ≫= parse_loop base b.
Proof. revert x. induction a as [|c a IH]; intros x; [done|].
  rewrite sapp_cons. cbn. case_match; [done|]. apply IH.
Qed.

(** Printing a number whose digits do not fit in one is printing the quotient
    and then the last digit. *)
Lemma format_loop_app fuel base v acc :
  format_loop fuel base v acc = format_loop fuel base v "" +:+ acc.
Proof.
  revert v acc. induction fuel as [|fuel IH]; intros v acc; [done|]. cbn.
  case_match; [done|]. rewrite IH, (IH _ (String _ "")). by rewrite <- sapp_assoc.
Qed.

Lemma format_loop_step fuel base v :
  format_loop (S fuel) base v "" =
    (if v / base =? 0 then "" else format_loop fuel base (v / base) "")
      +:+ String (digit (v mod base)) "".
Proof. cbn. case_match; [done|]. apply format_loop_app. Qed.

Lemma format_loop_nonempty fuel base v : format_loop (S fuel) base v "" <> "".
Proof. rewrite format_loop_step. by destruct (if _ =? _ then _ else _). Qed.

Lemma parse_format_loop fuel base v :
  2 <= base <= 36 -> 0 <= v < base ^ Z.of_nat (S fuel) ->
  parse_loop base (format_loop (S fuel) base v "") 0 = Some v.
Proof.
  intros Hb. revert v. induction fuel as [|fuel IH]; intros v Hv.
  - change (Z.of_nat 1) with 1 in Hv. rewrite Z.pow_1_r in Hv. rewrite format_loop_step.
    rewrite Z.div_small, Z.mod_small, Z.eqb_refl, sapp_nil_l by lia. cbn [parse_loop].
    rewrite digit_value_digit by lia. by ztests.
  - rewrite format_loop_step. rewrite Nat2Z.inj_succ, Z.pow_succ_r in Hv by lia.
    assert (0 <= v mod base < base) by (apply Z.mod_pos_bound; lia).
    destruct (Z.eqb_spec (v / base) 0) as [E|E].
    + rewrite sapp_nil_l. cbn [parse_loop]. rewrite digit_value_digit by lia. ztests.
      cbn [orb]. f_equal. pose proof (Z.div_mod v base). lia.
    + rewrite parse_loop_app, IH.
      * cbn [mbind option_bind parse_loop]. rewrite digit_value_digit by lia. ztests.
        cbn [orb]. f_equal. pose proof (Z.div_mod v base). lia.
      * split; [apply Z.div_pos; lia|]. apply Z.div_lt_upper_bound; lia.
Qed.

Lemma format_loop_length fuel base v n :
  2 <= base -> 0 <= v < base ^ Z.of_nat (S n) ->
  (String.length (format_loop fuel base v "") <= S n)%nat.
Proof.
  intros Hb. revert v n. induction fuel as [|fuel IH]; intros v n Hv; [cbn; lia|].
  rewrite format_loop_step, slength_app. cbn [String.length].
  destruct (Z.eqb_spec (v / base) 0) as [E|E]; [cbn; lia|].
  destruct n as [|n].
  - rewrite Z.pow_1_r in Hv. rewrite Z.div_small in E by lia. done.
  - rewrite Nat2Z.inj_succ, Z.pow_succ_r in Hv by lia.
    assert (String.length (format_loop fuel base (v / base) "") <= S n)%nat; [|lia].
    apply IH. split; [apply Z.div_pos; lia|]. apply Z.div_lt_upper_bound; lia.
Qed.

Lemma format_loop_digits P fuel base v :
  2 <= base <= 36 -> (forall d, 0 <= d < base -> P (digit d) = true) ->
  sforall P (format_loop fuel base v "") = true.
Proof.
  intros Hb HP. revert v. induction fuel as [|fuel IH]; intros v; [done|].
  rewrite format_loop_step, sforall_app. cbn. rewrite HP by (apply Z.mod_pos_bound; lia).
  case_match; [done|]. by rewrite IH.
Qed.

Lemma pow_base_64 base : 2 <= base -> 2 ^ 64 <= base ^ Z.of_nat 64.
Proof. intros. change (Z.of_nat 64) with 64. apply Z.pow_le_mono_l. lia. Qed.

(** What was printed is read back. *)
Lemma parse_FormatUint base v :
  2 <= base <= 36 -> is_u 64 v -> parse_uint base (FormatUint v base) = Some v.
Proof.
  intros Hb Hv. unfold parse_uint, FormatUint.
  pose proof (format_loop_nonempty 63 base v).
  destruct (format_loop 64 base v "") eqn:E; [done|]. rewrite <- E.
  apply parse_format_loop; [done|]. pose proof (pow_base_64 base). unfold is_u in Hv. lia.
Qed.

Lemma FormatUint_length v : is_u 64 v -> (String.length (FormatUint v 10) <= 20)%nat.
Proof.
  intros Hv. apply (format_loop_length _ _ _ 19); [lia|]. unfold is_u in Hv.
  assert (2 ^ 64 < 10 ^ Z.of_nat 20) by done. lia.
Qed.

Lemma FormatUint_length_32 v : is_u 32 v -> (String.length (FormatUint v 10) <= 10)%nat.
Proof.
  intros Hv. apply (format_loop_length _ _ _ 9); [lia|]. unfold is_u in Hv.
  assert (2 ^ 32 < 10 ^ Z.of_nat 10) by done. lia.
Qed.

(** A printed number has no character that is not a digit of the base. *)
Lemma FormatUint_without c v base :
  2 <= base <= 36 -> (0 <=? digit_value c) && (digit_value c <? base) = false ->
  without c (FormatUint v base) = true.
Proof.
  intros Hb Hc. apply format_loop_digits; [done|]. intros d Hd.
  rewrite bool_decide_eq_false_2; [done|]. intros ->.
  rewrite digit_value_digit in Hc; lia.
Qed.

(** ** Splitting what was joined *)

Lemma Split_without c s : without c s = true -> Split c s = [s].
Proof.
  induction s as [|d s IH]; [done|]. cbn. intros [H1 H2]%andb_prop.
  destruct (bool_decide (c = d)); [done|]. by rewrite IH.
Qed.

Lemma Split_ne c s : Split c s <> [].
Proof. destruct s; cbn; [done|]. case_bool_decide; [done|]. by destruct (Split c s). Qed.

Lemma Split_app c s t :
  without c s = true -> Split c (s +:+ String c t) = s :: Split c t.
Proof.
  induction s as [|d s IH]; rewrite ?sapp_cons, ?sapp_nil_l; cbn;
    [by rewrite bool_decide_eq_true_2|].
  intros [H1 H2]%andb_prop. destruct (bool_decide (c = d)); [done|]. by rewrite IH.
Qed.

Lemma Split_Join c l :
  l <> [] -> Forall (fun s => without c s = true) l -> Split c (Join l (String c "")) = l.
Proof.
  intros Hl H. induction H as [|x l Hx Hf IH]; [done|]. destruct l as [|y l].
  - by apply Split_without.
  - change (Join (x :: y :: l) (String c "")) with (x +:+ String c (Join (y :: l) (String c ""))).
    rewrite Split_app by done. f_equal. by apply IH.
Qed.
