(* ===== verification/LineProto.v ===== *)
(** Writing into a fixed buffer, as the [MarshalTo] methods of
    [server/libs/zerodoc] do, and the key-value lists of the line protocol
    ([marshalKeyValues] of [basic_meter.go]).

    A marshaller runs on a buffer of [cap] bytes whose first bytes, up to
    [offset], are the string [out]; it returns the longer string, or [None] when
    an index is out of range. *)

From S2P Require Import Prelude Strconv.

#[local] Open Scope string_scope.
#[local] Open Scope list_scope.
#[local] Open Scope Z_scope.

Definition slen (s : string) : Z := Z.of_nat (String.length s).

Definition Marshal : Type := Z -> string -> option string.

(** [offset += copy(b[offset:], s)] *)
Definition bput (s : string) : Marshal := fun cap out =>
  Some (out +:+ String.substring 0 (Z.to_nat (cap - slen out)) s).

(** [b[offset] = c; offset++] *)
Definition bputc (c : Ascii.ascii) : Marshal := fun cap out =>
  if slen out <? cap then Some (out +:+ String c "") else None.

Definition bseq (m1 m2 : Marshal) : Marshal := fun cap out => m1 cap out ≫= m2 cap.

Definition bret : Marshal := fun _ out => Some out.

Definition bif (c : bool) (m : Marshal) : Marshal := if c then m else bret.

(** [offset += x.MarshalTo(b[offset:])] *)
Definition bsub (m : Marshal) : Marshal := fun cap out =>
  (fun s => out +:+ s) <$> m (cap - slen out) "".

Notation "m1 ;+ m2" := (bseq m1 m2) (at level 62, right associativity).

(** The last byte before [offset]. *)
Fixpoint last_char (s : string) : option Ascii.ascii :=
  match s with
  | EmptyString => None
  | String c EmptyString => Some c
  | String _ s => last_char s
  end.

(** [offset--] *)
Definition drop_last (s : string) : string := String.substring 0 (String.length s - 1) s.

(** The loop of [marshalKeyValues] from field [i] on. *)
Fixpoint marshalKeyValues_loop (fields : list string) (values : list Z) : Marshal :=
  match fields, values with
  | f :: fields, v :: values =>
      if v =? 0 then marshalKeyValues_loop fields values
      else
        (fun cap out => bif (0 <? slen out) (bputc ","%char) cap out) ;+
        bput f ;+ bput (FormatUint v 10) ;+ bputc "i"%char ;+
        marshalKeyValues_loop fields values
  | _, _ => bret
  end.

(** Fields and values of different lengths panic. *)
Definition marshalKeyValues (fields : list string) (values : list Z) : Marshal := fun cap out =>
  if bool_decide (length fields = length values) then marshalKeyValues_loop fields values cap out
  else None.

(** * Specification *)

(** [m] appends [s] when it fits. *)
Definition appends (m : Marshal) (s : string) : Prop :=
  forall cap out, slen out + slen s <= cap -> m cap out = Some (out +:+ s).

(** The text of the fields whose value is not zero. *)
Definition kv_texts (fields : list string) (values : list Z) : list string :=
  omap (fun fv : string * Z =>
          if fv.2 =? 0 then None else Some (fv.1 +:+ FormatUint fv.2 10 +:+ "i"))
       (zip fields values).

(** Reading a line back: [name=123i] fields separated by commas. *)
Definition parse_kv (s : string) : option (string * Z) :=
  match Split "="%char s with
  | [n; r] => match Split "i"%char r with
              | [d; EmptyString] => (fun v => (n, v)) <$> parse_uint 10 d
              | _ => None
              end
  | _ => None
  end.

Definition parse_line (s : string) : option (list (string * Z)) :=
  match s with EmptyString => Some [] | _ => mapM parse_kv (Split ","%char s) end.

(** A field name of the line protocol: [name=] with a plain name. *)
Definition field_ok (f : string) : bool :=
  match Split "="%char f with
  | [n; EmptyString] => without ","%char n
  | _ => false
  end.

Definition field_name (f : string) : string := default "" (head (Split "="%char f)).

(** The pairs a line should hold. *)
Definition kv_pairs (fields : list string) (values : list Z) : list (string * Z) :=
  omap (fun fv : string * Z => if fv.2 =? 0 then None else Some (field_name fv.1, fv.2))
       (zip fields values).

(** * Lemmas *)

Lemma slen_app a b : slen (a +:+ b) = slen a + slen b.
Proof. unfold slen. rewrite slength_app. lia. Qed.

Lemma slen_nonneg s : 0 <= slen s.
Proof. unfold slen. lia. Qed.

Lemma slen_cons c s : slen (String c s) = 1 + slen s.
Proof. unfold slen. cbn [String.length]. lia. Qed.

Lemma substring_full n s : (String.length s <= n)%nat -> String.substring 0 n s = s.
Proof.
  revert n. induction s as [|c s IH]; intros n Hn; [by destruct n|].
  destruct n as [|n]; cbn in *; [lia|]. by rewrite IH by lia.
Qed.

Lemma substring_app a b : String.substring 0 (String.length a) (a +:+ b) = a.
Proof.
  induction a as [|c a IH]; rewrite ?sapp_cons, ?sapp_nil_l; cbn; [by destruct b|]. by rewrite IH.
Qed.

Lemma drop_last_snoc s c : drop_last (s +:+ String c "") = s.
Proof.
  unfold drop_last. rewrite slength_app. cbn [String.length]. rewrite Nat.add_sub. apply substring_app.
Qed.

Lemma last_char_snoc s c : last_char (s +:+ String c "") = Some c.
Proof.
  induction s as [|d s IH]; [done|]. rewrite sapp_cons. cbn. by destruct (s +:+ String c "") eqn:E; [destruct s|].
Qed.

Lemma appends_bput s : appends (bput s) s.
Proof.
  intros cap out H. unfold bput. rewrite substring_full; [done|]. unfold slen in *. lia.
Qed.

Lemma appends_bputc c : appends (bputc c) (String c "").
Proof.
  intros cap out H. unfold bputc. rewrite slen_cons in H. pose proof (slen_nonneg "").
  by rewrite (proj2 (Z.ltb_lt _ _)) by lia.
Qed.

Lemma appends_bret : appends bret "".
Proof. intros cap out _. unfold bret. by rewrite sapp_nil_r. Qed.

Lemma appends_bseq m1 m2 s1 s2 :
  appends m1 s1 -> appends m2 s2 -> appends (m1 ;+ m2) (s1 +:+ s2).
Proof.
  intros H1 H2 cap out H. unfold bseq. rewrite slen_app in H.
  pose proof (slen_nonneg s2). pose proof (slen_nonneg s1).
  rewrite H1 by lia. cbn. rewrite H2 by (rewrite slen_app; lia). by rewrite sapp_assoc.
Qed.

Lemma appends_then m s k cap out :
  appends m s -> slen out + slen s <= cap -> (m ;+ k) cap out = k cap (out +:+ s).
Proof. intros H Hc. unfold bseq. by rewrite H. Qed.

Lemma appends_bif (c : bool) m s : appends m s -> appends (bif c m) (if c then s else "").
Proof. intros H. destruct c; [done|apply appends_bret]. Qed.

Lemma appends_bsub m s : appends m s -> appends (bsub m) s.
Proof.
  intros H cap out Hc. unfold bsub. rewrite H; [done|]. change (slen "") with 0. lia.
Qed.

(** ** Key-value lists *)

(** Adding texts to what is already there, with commas between them. *)
Definition add_text (out x : string) : string :=
  if bool_decide (out = "") then x else out +:+ "," +:+ x.

Definition add_texts (out : string) (l : list string) : string := foldl add_text out l.

Lemma slen_add_text out x : slen out <= slen (add_text out x).
Proof.
  unfold add_text. case_bool_decide as E; [subst; apply slen_nonneg|].
  rewrite slen_app. pose proof (slen_nonneg ("," +:+ x)). lia.
Qed.

Lemma slen_add_texts out l : slen out <= slen (add_texts out l).
Proof.
  revert out. induction l as [|x l IH]; intros out; [done|]. cbn.
  pose proof (slen_add_text out x). pose proof (IH (add_text out x)). unfold add_texts in *. lia.
Qed.

Lemma kv_texts_cons f v fields values :
  kv_texts (f :: fields) (v :: values)
  = if v =? 0 then kv_texts fields values
    else (f +:+ FormatUint v 10 +:+ "i") :: kv_texts fields values.
Proof. unfold kv_texts. cbn. by destruct (v =? 0). Qed.

Lemma marshalKeyValues_loop_spec fields values cap out :
  slen (add_texts out (kv_texts fields values)) <= cap ->
  marshalKeyValues_loop fields values cap out = Some (add_texts out (kv_texts fields values)).
Proof.
  revert values out. induction fields as [|f fields IH]; intros values out H; [done|].
  destruct values as [|v values]; [done|]. cbn [marshalKeyValues_loop].
  rewrite kv_texts_cons in *. destruct (v =? 0); [by apply IH|].
  set (x := f +:+ FormatUint v 10 +:+ "i") in *. cbn [add_texts foldl] in *.
  assert (slen (add_text out x) <= cap) as Hx
    by (etrans; [apply (slen_add_texts _ (kv_texts fields values))|exact H]).
  assert (slen x = slen f + slen (FormatUint v 10) + 1) as Hlx
    by (subst x; rewrite !slen_app; change (slen "i") with 1; lia).
  pose proof (slen_nonneg f). pose proof (slen_nonneg (FormatUint v 10)).
  set (o := if bool_decide (out = "") then out else out +:+ ",").
  assert (add_text out x = o +:+ x) as Hadd.
  { unfold add_text, o. case_bool_decide; [by subst|]. by rewrite sapp_assoc. }
  assert (bif (0 <? slen out) (bputc ","%char) cap out = Some o) as Ho.
  { rewrite Hadd, slen_app in Hx. unfold o in *. clear Hadd o.
    destruct out as [|c out]; [done|]. rewrite bool_decide_eq_false_2 in * by done.
    rewrite slen_app in Hx. rewrite slen_cons in *. pose proof (slen_nonneg out).
    rewrite (proj2 (Z.ltb_lt _ _)) by lia. apply appends_bputc.
    rewrite slen_cons. change (slen ",") with 1 in *. change (slen (String "," "")) with 1. lia. }
  unfold bseq at 1. rewrite Ho. cbn [mbind option_bind].
  rewrite Hadd, slen_app in Hx.
  rewrite (appends_then _ f) by (apply appends_bput || lia).
  rewrite (appends_then _ (FormatUint v 10)) by (apply appends_bput || (rewrite slen_app; lia)).
  rewrite (appends_then _ "i") by (apply appends_bputc || (rewrite !slen_app; change (slen "i") with 1; lia)).
  rewrite <- !sapp_assoc. fold x. rewrite <- Hadd. by apply IH.
Qed.

(** On a buffer of its own. *)
Lemma marshalKeyValues_spec fields values cap :
  length fields = length values ->
  slen (add_texts "" (kv_texts fields values)) <= cap ->
  marshalKeyValues fields values cap "" = Some (add_texts "" (kv_texts fields values)).
Proof.
  intros Hl H. unfold marshalKeyValues. rewrite bool_decide_eq_true_2 by done.
  by apply marshalKeyValues_loop_spec.
Qed.

(** *** Joining *)

Lemma add_texts_nonempty out l :
  out <> "" -> add_texts out l = out +:+ match l with [] => "" | _ => "," +:+ Join l "," end.
Proof.
  revert out. induction l as [|x l IH]; intros out Ho; [by rewrite sapp_nil_r|].
  cbn [add_texts foldl]. fold (add_texts (add_text out x) l).
  unfold add_text at 1. rewrite bool_decide_eq_false_2 by done.
  rewrite IH by (destruct out; done). destruct l as [|y l].
  - by rewrite sapp_nil_r.
  - change (Join (x :: y :: l) ",") with (x +:+ "," +:+ Join (y :: l) ",").
    by rewrite <- !sapp_assoc.
Qed.

Lemma add_texts_Join l : Forall (fun s => s <> "") l -> add_texts "" l = Join l ",".
Proof.
  intros H. destruct H as [|x l Hx Hl]; [done|]. cbn [add_texts foldl].
  fold (add_texts (add_text "" x) l). unfold add_text. rewrite bool_decide_eq_true_2 by done.
  rewrite add_texts_nonempty by done. destruct l; [by rewrite sapp_nil_r|done].
Qed.

Lemma kv_texts_nonempty fields values : Forall (fun s => s <> "") (kv_texts fields values).
Proof.
  revert values. induction fields as [|f fields IH]; intros [|v values]; try constructor.
  rewrite kv_texts_cons. destruct (v =? 0); [done|]. constructor; [|done].
  intros E%(f_equal String.length). rewrite !slength_app in E. cbn in E. lia.
Qed.

Lemma Join_app l k sep :
  l <> [] -> k <> [] -> Join (l ++ k) sep = Join l sep +:+ sep +:+ Join k sep.
Proof.
  intros Hl Hk. induction l as [|x l IH]; [done|]. destruct l as [|y l].
  - destruct k; [done|]. done.
  - change (Join ((x :: y :: l) ++ k) sep) with (x +:+ sep +:+ Join ((y :: l) ++ k) sep).
    rewrite IH by done. change (Join (x :: y :: l) sep) with (x +:+ sep +:+ Join (y :: l) sep).
    by rewrite <- !sapp_assoc.
Qed.

Lemma Join_last c l sep :
  l <> [] -> Forall (fun s => last_char s = Some c) l -> last_char (Join l sep) = Some c.
Proof.
  intros Hl H. induction H as [|x l Hx Hf IH]; [done|]. destruct l as [|y l]; [done|].
  change (Join (x :: y :: l) sep) with (x +:+ sep +:+ Join (y :: l) sep).
  assert (forall a b d, last_char b = Some d -> last_char (a +:+ b) = Some d) as Happ.
  { clear. intros a b d Hb. induction a as [|e a IHa]; [done|]. rewrite sapp_cons. cbn.
    destruct (a +:+ b) eqn:E; [by destruct a; destruct b|done]. }
  by apply Happ, Happ, IH.
Qed.

Lemma kv_texts_last fields values :
  Forall (fun s => last_char s = Some "i"%char) (kv_texts fields values).
Proof.
  revert values. induction fields as [|f fields IH]; intros [|v values]; try constructor.
  rewrite kv_texts_cons. destruct (v =? 0); [done|]. constructor; [|done].
  rewrite sapp_assoc. apply last_char_snoc.
Qed.

(** *** Reading back *)

Lemma parse_kv_text f v :
  field_ok f = true -> is_u 64 v ->
  parse_kv (f +:+ FormatUint v 10 +:+ "i") = Some (field_name f, v) /\
  without ","%char (f +:+ FormatUint v 10 +:+ "i") = true.
Proof.
  unfold field_ok, field_name. intros Hf Hv.
  destruct (Split "="%char f) as [|n [|[|] [|]]] eqn:E; try done. cbn [head default].
  assert (f = n +:+ "=" /\ without "="%char n = true) as [-> Hn].
  { clear Hf. revert n E. induction f as [|c f IH]; intros n E; [done|]. cbn in E.
    case_bool_decide as Hc.
    - subst c. injection E as <- E. split; [|done]. destruct f as [|c f]; [done|]. cbn in E.
      case_bool_decide; [injection E as E; by apply Split_ne in E|]. by destruct (Split "="%char f).
    - destruct (Split "="%char f) as [|m l] eqn:Ef; [done|]. injection E as <- ->.
      destruct (IH m eq_refl) as [-> Hm]. split; [done|]. unfold without. cbn.
      rewrite bool_decide_eq_false_2 by done. done. }
  split.
  - unfold parse_kv. rewrite <- !sapp_assoc.
    change ("=" +:+ FormatUint v 10 +:+ "i") with (String "=" (FormatUint v 10 +:+ "i")).
    rewrite Split_app by done.
    rewrite (Split_without "="%char) by (rewrite without_app, FormatUint_without by (lia || done); done).
    change "i" with (String "i" ""). rewrite Split_app by (apply FormatUint_without; [lia|done]).
    cbn [Split]. by rewrite parse_FormatUint by (lia || done).
  - rewrite !without_app, Hf, FormatUint_without by (lia || done). done.
Qed.

Lemma parse_kv_texts fields values :
  forallb field_ok fields = true -> Forall (is_u 64) values ->
  mapM parse_kv (kv_texts fields values) = Some (kv_pairs fields values) /\
  Forall (fun s => without ","%char s = true) (kv_texts fields values).
Proof.
  revert values. induction fields as [|f fields IH]; intros values Hf Hv; [done|].
  destruct Hv as [|v values Hv Hvs]; [done|]. cbn in Hf. apply andb_prop in Hf as [Hf Hfs].
  destruct (IH values Hfs Hvs) as [IH1 IH2]. rewrite kv_texts_cons.
  unfold kv_pairs in *. cbn [zip_with omap list_omap fst snd]. destruct (v =? 0); [done|].
  destruct (parse_kv_text f v Hf Hv) as [H1 H2]. split; [|by constructor].
  cbn [mapM]. by rewrite H1, IH1.
Qed.

(** A joined list of texts is read back. *)
Lemma parse_line_Join l ps :
  Forall (fun s => s <> "") l -> mapM parse_kv l = Some ps ->
  Forall (fun s => without ","%char s = true) l -> parse_line (Join l ",") = Some ps.
Proof.
  intros Hn Hp Hw. unfold parse_line. destruct l as [|x l]; [exact Hp|].
  destruct (Join (x :: l) ",") eqn:E.
  - exfalso. inversion Hn as [|? ? Hx]. subst. destruct l; [done|].
    change (Join (x :: s :: l) ",") with (x +:+ "," +:+ Join (s :: l) ",") in E. by destruct x.
  - rewrite <- E. change "," with (String "," ""). by rewrite Split_Join.
Qed.
