(* ===== verification/Ckdb.v ===== *)
(** The ClickHouse layer of [server/libs/ckdb]: column descriptions and the SQL
    statements of a table ([ckdb.go], [table.go]), and the block writer
    ([Block]), which appends one value to each column of a batch in turn.

    The batch is the ClickHouse driver's, which is not part of the sources:
    [Append b i v] is the call [Batch.Column(i).Append(v)], which fails with an
    error or returns the new batch.  A [cell] is the slice of one element
    that a write method passes to it, tagged with the element type. *)

From S2P Require Import Prelude Strconv.

#[local] Open Scope string_scope.
#[local] Open Scope list_scope.
#[local] Open Scope Z_scope.

(** * Columns *)

(** [TString] is [ckdb.String]. *)
Inductive ColumnType :=
  | UInt64 | UInt64Nullable | UInt32 | UInt32Nullable | UInt16 | UInt16Nullable
  | UInt8 | UInt8Nullable | Int64 | Int64Nullable | Int32 | Int32Nullable
  | Int16 | Int16Nullable | Int8 | Int8Nullable | Float64 | Float64Nullable
  | TString | IPv6 | IPv4 | ArrayString | ArrayUInt16 | ArrayUInt32 | ArrayInt64
  | ArrayFloat64 | DateTime | DateTime64 | DateTime64ms | DateTime64us | FixString8
  | LowCardinalityString.

#[global] Instance ColumnType_eq_dec : EqDecision ColumnType.
Proof. solve_decision. Defined.

Definition ColumnType_String (t : ColumnType) : string :=
  match t with
  | UInt64 => "UInt64"
  | UInt64Nullable => "Nullable(UInt64)"
  | UInt32 => "UInt32"
  | UInt32Nullable => "Nullable(UInt32)"
  | UInt16 => "UInt16"
  | UInt16Nullable => "Nullable(UInt16)"
  | UInt8 => "UInt8"
  | UInt8Nullable => "Nullable(UInt8)"
  | Int64 => "Int64"
  | Int64Nullable => "Nullable(Int64)"
  | Int32 => "Int32"
  | Int32Nullable => "Nullable(Int32)"
  | Int16 => "Int16"
  | Int16Nullable => "Nullable(Int16)"
  | Int8 => "Int8"
  | Int8Nullable => "Nullable(Int8)"
  | Float64 => "Float64"
  | Float64Nullable => "Nullable(Float64)"
  | TString => "String"
  | IPv6 => "IPv6"
  | IPv4 => "IPv4"
  | ArrayString => "Array(String)"
  | ArrayUInt16 => "Array(UInt16)"
  | ArrayUInt32 => "Array(UInt32)"
  | ArrayInt64 => "Array(Int64)"
  | ArrayFloat64 => "Array(Float64)"
  | DateTime => "DateTime('Asia/Shanghai')"
  | DateTime64 => "DateTime64(0, 'Asia/Shanghai')"
  | DateTime64ms => "DateTime64(3, 'Asia/Shanghai')"
  | DateTime64us => "DateTime64(6, 'Asia/Shanghai')"
  | FixString8 => "FixedString(8)"
  | LowCardinalityString => "LowCardinality(String)"
  end.

Inductive CodecType :=
  | CodecDefault | CodecLZ4 | CodecLZ4HC | CodecZSTD | CodecT64 | CodecDelta
  | CodecDoubleDelta | CodecGorilla | CodecNone.

#[global] Instance CodecType_eq_dec : EqDecision CodecType.
Proof. solve_decision. Defined.

Definition CodecType_String (t : CodecType) : string :=
  match t with
  | CodecDefault => ""
  | CodecLZ4 => "LZ4"
  | CodecLZ4HC => "LZ4HC"
  | CodecZSTD => "ZSTD"
  | CodecT64 => "T64"
  | CodecDelta => "Delta"
  | CodecDoubleDelta => "DoubleDelta"
  | CodecGorilla => "Gorilla"
  | CodecNone => "None"
  end.

Inductive IndexType := IndexNone | IndexMinmax | IndexSet | IndexBloomfilter.

#[global] Instance IndexType_eq_dec : EqDecision IndexType.
Proof. solve_decision. Defined.

Definition IndexType_String (t : IndexType) : string :=
  match t with
  | IndexNone => ""
  | IndexMinmax => "minmax"
  | IndexSet => "set(300)"
  | IndexBloomfilter => "bloom_filter"
  end.

Inductive TimeFuncType :=
  | TimeFuncNone | TimeFuncMinute | TimeFuncTenMinute | TimeFuncHour | TimeFuncFourHour
  | TimeFuncTwelveHour | TimeFuncDay | TimeFuncWeek | TimeFuncMonth | TimeFuncYYYYMM
  | TimeFuncYYYYMMDD.

(** The format strings with the one [%s] filled in. *)
Definition TimeFuncType_String (t : TimeFuncType) (timeKey : string) : string :=
  match t with
  | TimeFuncNone => timeKey
  | TimeFuncMinute => "toStartOfMinute(" +:+ timeKey +:+ ")"
  | TimeFuncTenMinute => "toStartOfTenMinute(" +:+ timeKey +:+ ")"
  | TimeFuncHour => "toStartOfHour(" +:+ timeKey +:+ ")"
  | TimeFuncFourHour => "toStartOfInterval(" +:+ timeKey +:+ ", INTERVAL 4 hour)"
  | TimeFuncTwelveHour => "toStartOfInterval(" +:+ timeKey +:+ ", INTERVAL 12 hour)"
  | TimeFuncDay => "toStartOfDay(" +:+ timeKey +:+ ")"
  | TimeFuncWeek => "toStartOfWeek(" +:+ timeKey +:+ ")"
  | TimeFuncMonth => "toStartOfMonth(" +:+ timeKey +:+ ")"
  | TimeFuncYYYYMM => "toYYYYMM(" +:+ timeKey +:+ ")"
  | TimeFuncYYYYMMDD => "toYYYYMMDD(" +:+ timeKey +:+ ")"
  end.

Inductive EngineType :=
  | Distributed | MergeTree | ReplicatedMergeTree | AggregatingMergeTree
  | ReplicatedAggregatingMergeTree.

#[global] Instance EngineType_eq_dec : EqDecision EngineType.
Proof. solve_decision. Defined.

Inductive ClusterType := DF_CLUSTER | DF_REPLICATED_CLUSTER.

Definition ClusterType_String (t : ClusterType) : string :=
  match t with
  | DF_CLUSTER => "df_cluster"
  | DF_REPLICATED_CLUSTER => "df_replicated_cluster"
  end.

Definition DF_STORAGE_POLICY : string := "df_storage".

Record Column := mkColumn {
  Name : string;
  Type_ : ColumnType;
  Codec_ : CodecType;
  Index : IndexType;
  GroupBy : bool;
  Comment : string
}.

(** Method calls read from left to right, as in the sources. *)
Notation "x |> f" := (f x) (at level 61, left associativity, only parsing).

Definition SetGroupBy (c : Column) : Column :=
  mkColumn (Name c) (Type_ c) (Codec_ c) (Index c) true (Comment c).

Definition SetCodec (ct : CodecType) (c : Column) : Column :=
  mkColumn (Name c) (Type_ c) ct (Index c) (GroupBy c) (Comment c).

Definition SetIndex (i : IndexType) (c : Column) : Column :=
  mkColumn (Name c) (Type_ c) (Codec_ c) i (GroupBy c) (Comment c).

Definition SetComment (comment : string) (c : Column) : Column :=
  mkColumn (Name c) (Type_ c) (Codec_ c) (Index c) (GroupBy c) comment.

Definition NewColumn (name : string) (t : ColumnType) : Column :=
  let '(index, codec) :=
    match t with
    | UInt8 => (IndexSet, CodecDefault)
    | UInt16 | UInt32 | Int32 | IPv4 | IPv6 | ArrayUInt16 => (IndexMinmax, CodecDefault)
    | UInt64 | Int64 => (IndexNone, CodecT64)
    | DateTime | DateTime64ms | DateTime64us => (IndexMinmax, CodecDoubleDelta)
    | Float64 => (IndexNone, CodecGorilla)
    | _ => (IndexNone, CodecDefault)
    end in
  mkColumn name t codec index false "".

Definition NewColumnWithGroupBy (name : string) (t : ColumnType) : Column :=
  NewColumn name t |> SetGroupBy.

Definition NewColumns (names : list string) (t : ColumnType) : list Column :=
  (fun name => NewColumn name t) <$> names.

Definition NewColumnsWithComment (nameComments : list (string * string)) (t : ColumnType)
    : list Column :=
  (fun nc => NewColumn nc.1 t |> SetComment nc.2) <$> nameComments.

(** * Tables *)

Definition METRICS_DB : string := "flow_metrics".
Definition LOCAL_SUBFFIX : string := "_local".

Record Table := mkTable {
  Version : string;
  ID : Z;
  Database : string;
  LocalName : string;
  GlobalName : string;
  Columns : list Column;
  TimeKey : string;
  TTL : Z;
  PartitionFunc : TimeFuncType;
  Cluster : ClusterType;
  Engine : EngineType;
  OrderKeys : list string;
  PrimaryKeyCount : Z
}.

Definition EngineType_String (t : EngineType) : string :=
  match t with
  | Distributed => "Distributed('%s', '%s', '%s', rand())"
  | MergeTree => "MergeTree()"
  | ReplicatedMergeTree => "ReplicatedMergeTree('/clickhouse/tables/{shard}/%s/%s', '{replica}')"
  | AggregatingMergeTree => "AggregatingMergeTree()"
  | ReplicatedAggregatingMergeTree =>
      "ReplicatedAggregatingMergeTree('/clickhouse/tables/{shard}/%s/%s', '{replica}')"
  end.

(** [fmt.Sprintf] on a format whose verbs are all [%s]: the verbs are replaced
    in order; a verb without an argument is written [%!s(MISSING)]. *)
Fixpoint Sprintf_s (format : string) (args : list string) : string :=
  match format with
  | String "%"%char (String "s"%char format) =>
      match args with
      | a :: args => a +:+ Sprintf_s format args
      | [] => "%!s(MISSING)" +:+ Sprintf_s format []
      end
  | String c format => String c (Sprintf_s format args)
  | EmptyString => ""
  end.

Definition newline : string := String (Ascii.ascii_of_nat 10) "".

(** The loop over the columns: the column (whose comment becomes the version of
    the table when it is the time key) and its clauses. *)
Definition column_clauses (t : Table) (c : Column) : Column * list string :=
  let c := if bool_decide (Name c = TimeKey t) then SetComment (Version t) c else c in
  let comment := if bool_decide (Comment c = "") then "" else "COMMENT '" +:+ Comment c +:+ "'" in
  let codec :=
    if bool_decide (Codec_ c = CodecDefault) then ""
    else "CODEC(" +:+ CodecType_String (Codec_ c) +:+ ")" in
  (c,
   ("`" +:+ Name c +:+ "` " +:+ ColumnType_String (Type_ c) +:+ " " +:+ comment +:+ " " +:+ codec)
   :: (if bool_decide (Index c = IndexNone) then []
       else ["INDEX " +:+ Name c +:+ "_idx (" +:+ Name c +:+ ") TYPE "
             +:+ IndexType_String (Index c) +:+ " GRANULARITY 3"])).

(** The statement and the table, whose columns are updated in place; [None] is
    the panic of slicing the order keys. *)
Definition MakeLocalTableCreateSQL (t : Table) : option (string * Table) :=
  let cs := column_clauses t <$> Columns t in
  let columns := concat (snd <$> cs) in
  let t' := mkTable (Version t) (ID t) (Database t) (LocalName t) (GlobalName t) (fst <$> cs)
              (TimeKey t) (TTL t) (PartitionFunc t) (Cluster t) (Engine t) (OrderKeys t)
              (PrimaryKeyCount t) in
  let engine :=
    if bool_decide (Engine t = ReplicatedMergeTree)
       || bool_decide (Engine t = ReplicatedAggregatingMergeTree)
    then Sprintf_s (EngineType_String (Engine t)) [Database t; LocalName t]
    else EngineType_String (Engine t) in
  if (PrimaryKeyCount t <? 0) || (zlen (OrderKeys t) <? PrimaryKeyCount t) then None
  else Some
    (newline +:+ "CREATE TABLE IF NOT EXISTS " +:+ Database t +:+ ".`" +:+ LocalName t +:+ "`"
     +:+ newline +:+ "(" +:+ Join columns ("," +:+ newline) +:+ ")"
     +:+ newline +:+ "ENGINE = " +:+ engine
     +:+ newline +:+ "PRIMARY KEY (" +:+ Join (take (Z.to_nat (PrimaryKeyCount t)) (OrderKeys t)) ","
     +:+ ")"
     +:+ newline +:+ "ORDER BY (" +:+ Join (OrderKeys t) "," +:+ ")"
     +:+ newline +:+ "PARTITION BY " +:+ TimeFuncType_String (PartitionFunc t) (TimeKey t)
     +:+ newline +:+ "TTL " +:+ TimeKey t +:+ " +  toIntervalDay(" +:+ FormatInt (TTL t) 10 +:+ ")"
     +:+ newline +:+ "SETTINGS storage_policy = '" +:+ DF_STORAGE_POLICY +:+ "'", t').

Definition MakeGlobalTableCreateSQL (t : Table) : string :=
  let engine := Sprintf_s (EngineType_String Distributed)
                  [ClusterType_String (Cluster t); Database t; LocalName t] in
  "CREATE TABLE IF NOT EXISTS " +:+ Database t +:+ ".`" +:+ GlobalName t +:+ "` AS "
  +:+ Database t +:+ ".`" +:+ LocalName t +:+ "` ENGINE=" +:+ engine.

Definition MakePrepareTableInsertSQL (t : Table) : string :=
  let columns := Name <$> Columns t in
  let values := (fun _ => "?") <$> Columns t in
  "INSERT INTO " +:+ Database t +:+ ".`" +:+ LocalName t +:+ "` (" +:+ Join columns ","
  +:+ ") VALUES (" +:+ Join values "," +:+ ")".

(** * Blocks *)

Inductive cell :=
  | CUInt8 (v : Z) | CUInt8Nullable (v : option Z)
  | CUInt16 (v : Z) | CUInt16Nullable (v : option Z)
  | CUInt32 (v : Z) | CUInt32Nullable (v : option Z)
  | CUInt64 (v : Z) | CUInt64Nullable (v : option Z)
  | CInt8 (v : Z) | CInt8Nullable (v : option Z)
  | CInt16 (v : Z) | CInt16Nullable (v : option Z)
  | CInt32 (v : Z) | CInt32Nullable (v : option Z)
  | CInt64 (v : Z) | CInt64Nullable (v : option Z)
  | CFloat64 (v : Z) | CFloat64Nullable (v : option Z)
  | CString (v : string)
  | CIP (v : list Z)
  | CArrayString (v : list string)
  | CArrayInt64 (v : list Z)
  | CArrayUInt64 (v : list Z)
  | CArrayFloat64 (v : list Z)
  | CTime (v : Z).

#[global] Instance cell_eq_dec : EqDecision cell.
Proof. solve_decision. Defined.

(** [utils.IpFromUint32] and [utils.Bool2UInt8]. *)
Definition IpFromUint32 (ip : Z) : list Z := be_put 4 ip.

Definition Bool2UInt8 (v : bool) : Z := if v then 1 else 0.

Section Block.
Context {B : Type} (Append : B -> Z -> cell -> option B).

Record Block := mkBlock { Batch : B; index : Z }.

(** A write returns normally, returns an error, or panics. *)
Inductive written :=
  | WOk (b : Block)
  | WErr (b : Block)
  | WPanic.

Definition Write : Type := Block -> written.

(** Sequencing with the early return of [if err := ...; err != nil]. *)
Definition wseq (w1 w2 : Write) : Write := fun b =>
  match w1 b with WOk b => w2 b | r => r end.

Definition wret : Write := WOk.

Definition wpanic : Write := fun _ => WPanic.

Definition wif (c : bool) (w : Write) : Write := if c then w else wret.

Definition ResetIndex (b : Block) : Block := mkBlock (Batch b) 0.

(** The body shared by the write methods. *)
Definition write (c : cell) : Write := fun b =>
  match Append (Batch b) (index b) c with
  | None => WErr b
  | Some batch => WOk (mkBlock batch (index b + 1))
  end.

Definition WriteBool (v : bool) : Write := write (CUInt8 (Bool2UInt8 v)).
Definition WriteUInt8 (v : Z) : Write := write (CUInt8 v).
Definition WriteUInt8Nullable (v : option Z) : Write := write (CUInt8Nullable v).
Definition WriteUInt16 (v : Z) : Write := write (CUInt16 v).
Definition WriteUInt16Nullable (v : option Z) : Write := write (CUInt16Nullable v).
Definition WriteUInt32 (v : Z) : Write := write (CUInt32 v).
Definition WriteUInt32Nullable (v : option Z) : Write := write (CUInt32Nullable v).
Definition WriteUInt64 (v : Z) : Write := write (CUInt64 v).
Definition WriteUInt64Nullable (v : option Z) : Write := write (CUInt64Nullable v).
Definition WriteInt8 (v : Z) : Write := write (CInt8 v).
Definition WriteInt8Nullable (v : option Z) : Write := write (CInt8Nullable v).
Definition WriteInt16 (v : Z) : Write := write (CInt16 v).
Definition WriteInt16Nullable (v : option Z) : Write := write (CInt16Nullable v).
Definition WriteInt32 (v : Z) : Write := write (CInt32 v).
Definition WriteInt32Nullable (v : option Z) : Write := write (CInt32Nullable v).
Definition WriteInt64 (v : Z) : Write := write (CInt64 v).
Definition WriteInt64Nullable (v : option Z) : Write := write (CInt64Nullable v).
Definition WriteFloat64 (v : Z) : Write := write (CFloat64 v).
Definition WriteFloat64Nullable (v : option Z) : Write := write (CFloat64Nullable v).
Definition WriteString (v : string) : Write := write (CString v).
Definition WriteIPv4 (v : Z) : Write := write (CIP (IpFromUint32 v)).
Definition WriteIPv6 (v : list Z) : Write := write (CIP v).
Definition WriteArrayString (v : list string) : Write := write (CArrayString v).
Definition WriteArrayInt64 (v : list Z) : Write := write (CArrayInt64 v).
Definition WriteArrayUInt64 (v : list Z) : Write := write (CArrayUInt64 v).
Definition WriteArrayFloat64 (v : list Z) : Write := write (CArrayFloat64 v).
Definition WriteDateTime (v : Z) : Write := write (CTime v).

(** A loop of writes over a list of values. *)
Fixpoint write_each {V} (f : V -> Write) (vs : list V) : Write :=
  match vs with
  | [] => wret
  | v :: vs => wseq (f v) (write_each f vs)
  end.
End Block.

Arguments Block : clear implicits.
Arguments written : clear implicits.
Arguments Write : clear implicits.

(** Statement sequences of writes. *)
Notation "w1 ;> w2" := (wseq w1 w2) (at level 62, right associativity).
