(* ===== verification/CkdbFacts.v ===== *)
(** Facts of the ClickHouse layer ([Ckdb.v]): writers as the cells they emit, and
    what a batch holds after a writer whose cells match the columns of its
    table.  The driver behind a block is an interface, [ClickHouse], with one
    law; a batch of lists is an instance of it. *)

From S2P Require Import Prelude Strconv Ckdb.

#[local] Open Scope string_scope.
#[local] Open Scope list_scope.
#[local] Open Scope Z_scope.

(** The element type a column of each type takes. *)
Definition fits (t : ColumnType) (c : cell) : bool :=
  match t, c with
  | UInt64, CUInt64 _ | UInt64Nullable, CUInt64Nullable _
  | UInt32, CUInt32 _ | UInt32Nullable, CUInt32Nullable _
  | UInt16, CUInt16 _ | UInt16Nullable, CUInt16Nullable _
  | UInt8, CUInt8 _ | UInt8Nullable, CUInt8Nullable _
  | Int64, CInt64 _ | Int64Nullable, CInt64Nullable _
  | Int32, CInt32 _ | Int32Nullable, CInt32Nullable _
  | Int16, CInt16 _ | Int16Nullable, CInt16Nullable _
  | Int8, CInt8 _ | Int8Nullable, CInt8Nullable _
  | Float64, CFloat64 _ | Float64Nullable, CFloat64Nullable _
  | TString, CString _ | LowCardinalityString, CString _ | FixString8, CString _
  | IPv6, CIP _ | IPv4, CIP _
  | ArrayString, CArrayString _ | ArrayInt64, CArrayInt64 _ | ArrayFloat64, CArrayFloat64 _
  | DateTime, CTime _ | DateTime64, CTime _ | DateTime64ms, CTime _ | DateTime64us, CTime _ => true
  | _, _ => false
  end.

(** What the block writer relies on: an [Append] of a fitting value to a column
    of the batch succeeds, adds the value at its end and leaves the other
    columns alone. *)
Class ClickHouse {B : Type} (Append : B -> Z -> cell -> option B) := {
  column : B -> Z -> option (ColumnType * list cell);
  Append_fits b i ty vs c :
    column b i = Some (ty, vs) -> fits ty c = true ->
    exists b', Append b i c = Some b' /\ column b' i = Some (ty, vs ++ [c]) /\
      forall j, j <> i -> column b' j = column b j
}.

(** First entry of an association list. *)
Fixpoint assoc {V} (n : string) (l : list (string * V)) : option V :=
  match l with
  | [] => None
  | (k, v) :: l => if String.eqb n k then Some v else assoc n l
  end.

Section Rows.
Context {B : Type} (Append : B -> Z -> cell -> option B).
Implicit Types (w : Write B) (cols : list Column) (cells : list cell).

(** The writer writes exactly these cells, in order. *)
Definition emits w cells : Prop := forall b, w b = write_each (write Append) cells b.

Lemma emits_write c : emits (write Append c) [c].
Proof. intros b. cbn. unfold wseq, wret. by destruct (write Append c b). Qed.

Lemma emits_ret : emits wret [].
Proof. done. Qed.

Lemma emits_seq w1 w2 cells1 cells2 :
  emits w1 cells1 -> emits w2 cells2 -> emits (w1 ;> w2) (cells1 ++ cells2).
Proof.
  intros H1 H2 b. unfold wseq at 1. rewrite H1. clear H1. revert b.
  induction cells1 as [|c cells1 IH]; intros b; cbn; [apply H2|].
  unfold wseq. destruct (write Append c b); [apply IH|done..].
Qed.

Lemma emits_each {V} (f : V -> cell) vs :
  emits (write_each (fun v => write Append (f v)) vs) (f <$> vs).
Proof.
  induction vs as [|v vs IH]; [done|].
  change (f <$> v :: vs) with ([f v] ++ (f <$> vs)). apply emits_seq; [apply emits_write|done].
Qed.

(** [ok n c]: the cell [c] is what a column named [n] should hold. *)
Definition describes (ok : string -> cell -> Prop) (col : Column) (c : cell) : Prop :=
  fits (Type_ col) c = true /\ ok (Name col) c.

(** The writer writes one row of these columns. *)
Definition row ok w cols : Prop :=
  exists cells, emits w cells /\ Forall2 (describes ok) cols cells.

Lemma row_nil ok : row ok wret [].
Proof. exists []. split; [apply emits_ret|constructor]. Qed.

Lemma row_seq ok w1 w2 cols1 cols2 :
  row ok w1 cols1 -> row ok w2 cols2 -> row ok (w1 ;> w2) (cols1 ++ cols2).
Proof.
  intros (c1 & H1 & F1) (c2 & H2 & F2). exists (c1 ++ c2).
  split; [by apply emits_seq|by apply Forall2_app].
Qed.

Lemma row_assoc ok w1 w2 w3 cols :
  row ok ((w1 ;> w2) ;> w3) cols -> row ok (w1 ;> w2 ;> w3) cols.
Proof.
  intros (cells & He & Hf). exists cells. split; [|done]. intros b. rewrite <- He.
  unfold wseq. by destruct (w1 b).
Qed.

Lemma row_if ok (b : bool) w cols :
  (b = true -> row ok w cols) -> row ok (wif b w) (if b then cols else []).
Proof. destruct b; intros H; [by apply H|apply row_nil]. Qed.

Lemma row_write ok c col : describes ok col c -> row ok (write Append c) [col].
Proof. intros H. exists [c]. split; [apply emits_write|]. constructor; [done|constructor]. Qed.

Lemma row_write_cons ok c col w cols :
  describes ok col c -> row ok w cols -> row ok (write Append c ;> w) (col :: cols).
Proof. intros H1 H2. apply (row_seq _ _ _ [col]); [by apply row_write|done]. Qed.

Lemma row_each ok {V} (f : V -> cell) vs cols :
  Forall2 (describes ok) cols (f <$> vs) -> row ok (write_each (fun v => write Append (f v)) vs) cols.
Proof. intros H. exists (f <$> vs). split; [apply emits_each|done]. Qed.

Lemma row_impl (ok ok' : string -> cell -> Prop) w cols :
  (forall n c, ok n c -> ok' n c) -> row ok w cols -> row ok' w cols.
Proof.
  intros H (cells & He & Hf). exists cells. split; [done|].
  eapply Forall2_impl; [done|]. intros col c [? ?]. split; auto.
Qed.

(** The batch has the columns [cols] from column [i] on. *)
Definition opened `{!ClickHouse Append} (b : B) (i : Z) cols : Prop :=
  forall k col, cols !! k = Some col -> exists vs, column b (i + Z.of_nat k) = Some (Type_ col, vs).

(** What the columns hold after one more row: each of them one more cell, the
    one that its name asks for. *)
Definition appended `{!ClickHouse Append} ok (b b' : B) (i : Z) cols : Prop :=
  (forall k col, cols !! k = Some col ->
     exists vs c, column b (i + Z.of_nat k) = Some (Type_ col, vs) /\ ok (Name col) c /\
       column b' (i + Z.of_nat k) = Some (Type_ col, vs ++ [c])) /\
  (forall j, j < i \/ i + zlen cols <= j -> column b' j = column b j).

Lemma cells_written `{!ClickHouse Append} ok cols cells b :
  Forall2 (describes ok) cols cells -> opened (Batch b) (index b) cols ->
  exists b', write_each (write Append) cells b = WOk b' /\ index b' = index b + zlen cols /\
    appended ok (Batch b) (Batch b') (index b) cols.
Proof.
  intros Hf. revert b. induction Hf as [|col c cols cells [Hfit Hok] Hf IH]; intros b Ho.
  - exists b. split_and!; [done|unfold zlen; cbn; lia|]. split; done.
  - destruct (Ho 0%nat col eq_refl) as (vs & Hcol). rewrite Z.add_0_r in Hcol.
    destruct (Append_fits _ _ _ _ c Hcol Hfit) as (b1 & Ha & Hc1 & Hother).
    destruct (IH (mkBlock b1 (index b + 1))) as (b' & Hw & Hi & Hcols & Hrest).
    { intros k col' Hk. cbn [Batch index]. destruct (Ho (S k) col' Hk) as (vs' & Hv). exists vs'.
      rewrite Hother by lia. rewrite <- Hv. f_equal. lia. }
    exists b'. cbn [Batch index] in Hi, Hcols, Hrest. cbn [write_each]. unfold wseq, write at 1. rewrite Ha.
    rewrite zlen_cons. split_and!; [done|lia|]. split.
    + intros [|k] col' Hk; cbn in Hk.
      * injection Hk as <-. rewrite Z.add_0_r. exists vs, c. split_and!; [done|done|].
        rewrite Hrest by lia. done.
      * destruct (Hcols k col' Hk) as (vs' & c' & Hv & Hok' & Hv').
        replace (index b + Z.of_nat (S k)) with (index b + 1 + Z.of_nat k) by lia.
        exists vs', c'. rewrite Hother in Hv by lia. done.
    + intros j Hj. rewrite zlen_cons in Hj. pose proof (zlen_nonneg cols).
      rewrite Hrest by lia. apply Hother. lia.
Qed.

Lemma row_written `{!ClickHouse Append} ok w cols b :
  row ok w cols -> opened (Batch b) (index b) cols ->
  exists b', w b = WOk b' /\ index b' = index b + zlen cols /\
    appended ok (Batch b) (Batch b') (index b) cols.
Proof. intros (cells & He & Hf) Ho. rewrite He. by apply (cells_written _ _ cells). Qed.

(** ** Writers that may leave cells out or panic *)

(** Without an error the writer takes up [n] columns, and it does not panic. *)
Definition counts w (n : Z) : Prop := forall b,
  match w b with WOk b' => index b' = index b + n | WErr _ => True | WPanic => False end.

(** The writer does not come to its end. *)
Definition stops w : Prop := forall b b', w b <> WOk b'.

(** The writer panics in the middle of a row of these columns. *)
Definition row_panic ok w cols : Prop :=
  exists cells n, (forall b, w b = (write_each (write Append) cells ;> wpanic) b) /\
    Forall2 (describes ok) (take n cols) cells.

Lemma counts_write c : counts (write Append c) 1.
Proof. intros b. unfold write. by destruct (Append _ _ _). Qed.

Lemma counts_seq w1 w2 n1 n2 : counts w1 n1 -> counts w2 n2 -> counts (w1 ;> w2) (n1 + n2).
Proof.
  intros H1 H2 b. specialize (H1 b). unfold wseq. destruct (w1 b) as [b1|b1|]; [|done..].
  specialize (H2 b1). destruct (w2 b1); [lia|done..].
Qed.

Lemma counts_if (c : bool) w n : counts w n -> counts (wif c w) (if c then n else 0).
Proof. destruct c; intros H; [done|]. intros b. cbn. lia. Qed.

Lemma counts_row ok w cols : row ok w cols -> counts w (zlen cols).
Proof.
  intros (cells & He & Hf). enough (counts (write_each (write Append) cells) (zlen cols)) as H.
  { intros b. rewrite He. apply H. }
  clear He. induction Hf as [|col c cols cells _ _ IH]; [intros b; cbn; unfold zlen; cbn; lia|].
  rewrite zlen_cons. apply (counts_seq _ _ 1); [apply counts_write|apply IH].
Qed.

Lemma stops_l w1 w2 : stops w1 -> stops (w1 ;> w2).
Proof. intros H b b'. specialize (H b). unfold wseq. destruct (w1 b) as [b1|b1|]; [by destruct (H b1)|done..]. Qed.

Lemma stops_r w1 w2 : stops w2 -> stops (w1 ;> w2).
Proof. intros H b b'. unfold wseq. destruct (w1 b); [apply H|done..]. Qed.

Lemma row_panic_here ok w cols : row_panic ok (wpanic ;> w) cols.
Proof. exists [], 0%nat. split; [done|constructor]. Qed.

Lemma row_panic_l ok w1 w2 cols1 cols2 : row_panic ok w1 cols1 -> row_panic ok (w1 ;> w2) (cols1 ++ cols2).
Proof.
  intros (cells & n & Hw & Hf). exists cells, (Nat.min n (length cols1)). split.
  - intros b. unfold wseq at 1. rewrite Hw. unfold wseq, wpanic. by destruct (write_each _ _ _).
  - rewrite take_app_le by lia. by rewrite <- take_take, (take_ge cols1) by lia.
Qed.

Lemma row_panic_r ok w1 w2 cols1 cols2 :
  row ok w1 cols1 -> row_panic ok w2 cols2 -> row_panic ok (w1 ;> w2) (cols1 ++ cols2).
Proof.
  intros (cells1 & He & Hf1) (cells2 & n & Hw & Hf2). exists (cells1 ++ cells2), (length cols1 + n)%nat. split.
  - intros b. unfold wseq. rewrite He. clear He Hf1. revert b.
    induction cells1 as [|c cells1 IH]; intros b; cbn; [apply Hw|].
    unfold wseq. destruct (write Append c b); [apply IH|done..].
  - rewrite take_app_add. by apply Forall2_app.
Qed.

Lemma row_panic_impl (ok ok' : string -> cell -> Prop) w cols :
  (forall n c, ok n c -> ok' n c) -> row_panic ok w cols -> row_panic ok' w cols.
Proof.
  intros H (cells & n & Hw & Hf). exists cells, n. split; [done|].
  eapply Forall2_impl; [done|]. intros col c [? ?]. split; auto.
Qed.

Lemma panics_in_row `{!ClickHouse Append} ok w cols b :
  row_panic ok w cols -> opened (Batch b) (index b) cols -> w b = WPanic.
Proof.
  intros (cells & n & Hw & Hf) Ho. rewrite Hw. unfold wseq.
  destruct (cells_written ok (take n cols) cells b Hf) as (b' & -> & _); [|done].
  intros k col Hk. apply Ho. by apply lookup_take_Some in Hk as [? _].
Qed.

(** A writer of these columns that leaves [missing] cells out and panics when
    told so. *)
Record shape ok w cols (missing : Z) (panics : bool) : Prop := {
  shape_missing : 0 <= missing;
  shape_row : missing = 0 -> panics = false -> row ok w cols;
  shape_panic : missing = 0 -> panics = true -> row_panic ok w cols;
  shape_counts : panics = false -> counts w (zlen cols - missing);
  shape_stops : panics = true -> stops w
}.

Lemma shape_of_row ok w cols : row ok w cols -> shape ok w cols 0 false.
Proof. intros H. split; intros; [lia|done|done|rewrite Z.sub_0_r; by eapply counts_row|done]. Qed.

Lemma shape_seq ok w1 w2 cols1 cols2 m1 m2 p1 p2 :
  shape ok w1 cols1 m1 p1 -> shape ok w2 cols2 m2 p2 ->
  shape ok (w1 ;> w2) (cols1 ++ cols2) (m1 + m2) (p1 || p2).
Proof.
  intros [Hm1 Hr1 Hp1 Hc1 Hs1] [Hm2 Hr2 Hp2 Hc2 Hs2]. split; [lia|..].
  - intros Hm [Hl Hr]%orb_false_iff. apply row_seq; [apply Hr1|apply Hr2]; first [done|lia].
  - intros Hm Hp. destruct p1; [apply row_panic_l, Hp1; first [done|lia]|].
    apply row_panic_r; [apply Hr1|apply Hp2]; first [done|lia].
  - intros [Hl Hr]%orb_false_iff.
    replace (zlen (cols1 ++ cols2) - (m1 + m2)) with (zlen cols1 - m1 + (zlen cols2 - m2)) by (rewrite zlen_app; lia).
    apply counts_seq; auto.
  - intros [H|H]%orb_true_iff; [apply stops_l|apply stops_r]; auto.
Qed.

Lemma shape_row_seq ok w1 w2 cols1 cols2 m p :
  row ok w1 cols1 -> shape ok w2 cols2 m p -> shape ok (w1 ;> w2) (cols1 ++ cols2) m p.
Proof. intros H1 H2. apply (shape_seq _ _ _ _ _ 0 m false p); [by apply shape_of_row|done]. Qed.

Lemma shape_assoc ok w1 w2 w3 cols m p :
  shape ok ((w1 ;> w2) ;> w3) cols m p -> shape ok (w1 ;> w2 ;> w3) cols m p.
Proof.
  assert (forall b, (w1 ;> w2 ;> w3) b = ((w1 ;> w2) ;> w3) b) as E by (intros b; unfold wseq; by destruct (w1 b)).
  intros [Hm Hr Hp Hc Hs]. split; [done|..]; intros.
  - by apply row_assoc, Hr.
  - destruct Hp as (cells & n & Hw & Hf); [done..|]. exists cells, n. split; [|done]. intros b. by rewrite E.
  - intros b. rewrite E. by apply Hc.
  - intros b. rewrite E. by apply Hs.
Qed.

Lemma shape_impl (ok ok' : string -> cell -> Prop) w cols missing panics :
  (forall n c, ok n c -> ok' n c) -> shape ok w cols missing panics -> shape ok' w cols missing panics.
Proof.
  intros H [Hm Hr Hp Hc Hs]. split; [done|..|done|done]; intros.
  - apply (row_impl ok); auto.
  - apply (row_panic_impl ok); auto.
Qed.

(** What becomes of a block: with no cell left out every column gets its cell;
    otherwise the row is short by that many cells, if it gets written at all. *)
Definition outcome `{!ClickHouse Append} ok w cols (missing : Z) (panics : bool) (b : Block B) : Prop :=
  match w b with
  | WOk b' => panics = false /\ index b' = index b + zlen cols - missing /\
      (missing = 0 -> appended ok (Batch b) (Batch b') (index b) cols)
  | WErr _ => missing <> 0
  | WPanic => panics = true
  end.

Lemma shape_outcome `{!ClickHouse Append} ok w cols missing panics b :
  shape ok w cols missing panics -> opened (Batch b) (index b) cols -> outcome ok w cols missing panics b.
Proof.
  intros [_ Hr Hp Hc Hs] Ho. unfold outcome. destruct (decide (missing = 0)) as [->|Hm].
  - destruct panics.
    + rewrite (panics_in_row ok w cols b); auto.
    + destruct (row_written ok w cols b) as (b' & -> & Hi & Ha); [auto|done|]. split_and!; [done|lia|done].
  - destruct panics.
    + specialize (Hs eq_refl b). destruct (w b) as [b'|b'|]; [by destruct (Hs b')|done..].
    + specialize (Hc eq_refl b). destruct (w b); [|done..]. split_and!; [done|lia|done].
Qed.
End Rows.

(** * A batch of lists *)

Definition ListBatch : Type := list (ColumnType * list cell).

Definition ListAppend (b : ListBatch) (i : Z) (c : cell) : option ListBatch :=
  if i <? 0 then None
  else match b !! Z.to_nat i with
       | Some (ty, vs) => if fits ty c then Some (<[Z.to_nat i := (ty, vs ++ [c])]> b) else None
       | None => None
       end.

#[global] Program Instance ListClickHouse : ClickHouse ListAppend := {|
  column b i := if i <? 0 then None else b !! Z.to_nat i
|}.
Next Obligation.
  cbn beta. intros b i ty vs c Hc Hf. unfold ListAppend. destruct (Z.ltb_spec i 0); [done|].
  rewrite Hc, Hf. eexists. split; [done|]. split.
  - apply list_lookup_insert_eq. by eapply lookup_lt_Some.
  - intros j Hj. destruct (Z.ltb_spec j 0); [done|]. apply list_lookup_insert_ne. lia.
Qed.

(** An empty batch with these columns. *)
Definition empty_batch (cols : list Column) : ListBatch := (fun c => (Type_ c, [])) <$> cols.

Lemma empty_batch_opened cols : opened ListAppend (empty_batch cols) 0 cols.
Proof.
  intros k col Hk. exists []. cbn [column ListClickHouse]. rewrite Z.add_0_l, Nat2Z.id.
  rewrite (proj2 (Z.ltb_ge _ _)) by lia.
  unfold empty_batch.
  etransitivity; [apply list_lookup_fmap|]. by rewrite Hk.
Qed.
