(* ===== verification/Meter.v ===== *)
(** The meters of [server/libs/zerodoc]: the statistics of a document, as
    structs ([basic_meter.go], [app_meter.go]), and the three meters that embed
    them ([flow_meter.go], [usage_meter.go], [app_meter.go]).

    Every method of a struct [S] is a definition [S_Method] on its record: the
    conversions to and from the protobuf message [pb_S], the merges, the text
    form, the ClickHouse columns and the row written to them.  A method that
    updates its receiver returns the new value. *)

From S2P Require Import Prelude Strconv LineProto Ckdb.

#[local] Open Scope string_scope.
#[local] Open Scope list_scope.
#[local] Open Scope Z_scope.

(** Additions of 64 and of 32 bits. *)
Notation "x +64 y" := (wrap 64 (x + y)) (at level 50, left associativity) : Z_scope.
Notation "x +32 y" := (wrap 32 (x + y)) (at level 50, left associativity) : Z_scope.

(** [if x < y { x = y }] *)
Definition upd_max (x y : Z) : Z := if x <? y then y else x.

(** The integer that [float64(v)] is for an unsigned [v]: rounding to 53
    significant bits, ties to even. *)
Definition to_float64 (v : Z) : Z :=
  let e := Z.log2 v - 52 in
  if e <=? 0 then v
  else
    let q := v / 2 ^ e in
    let r := v mod 2 ^ e in
    let q := if (r >? 2 ^ (e - 1)) || ((r =? 2 ^ (e - 1)) && Z.odd q) then q + 1 else q in
    q * 2 ^ e.

Section Meters.
Context {B : Type} (Append : B -> Z -> cell -> option B).

(** * Statistics *)

(** ** Traffic *)

Record Traffic := mkTraffic {
  Traffic_PacketTx : Z;
  Traffic_PacketRx : Z;
  Traffic_ByteTx : Z;
  Traffic_ByteRx : Z;
  Traffic_L3ByteTx : Z;
  Traffic_L3ByteRx : Z;
  Traffic_L4ByteTx : Z;
  Traffic_L4ByteRx : Z;
  Traffic_NewFlow : Z;
  Traffic_ClosedFlow : Z;
  Traffic_L7Request : Z;
  Traffic_L7Response : Z
}.

(** The database names of the fields, from the [db] tags. *)
Definition Traffic_db (m : Traffic) : list (string * Z) :=
  [
    ("packet_tx", Traffic_PacketTx m); ("packet_rx", Traffic_PacketRx m);
    ("byte_tx", Traffic_ByteTx m); ("byte_rx", Traffic_ByteRx m);
    ("l3_byte_tx", Traffic_L3ByteTx m); ("l3_byte_rx", Traffic_L3ByteRx m);
    ("l4_byte_tx", Traffic_L4ByteTx m); ("l4_byte_rx", Traffic_L4ByteRx m);
    ("new_flow", Traffic_NewFlow m); ("closed_flow", Traffic_ClosedFlow m);
    ("l7_request", Traffic_L7Request m); ("l7_response", Traffic_L7Response m)
  ].

Record pb_Traffic := mkpb_Traffic {
  pb_Traffic_PacketTx : Z;
  pb_Traffic_PacketRx : Z;
  pb_Traffic_ByteTx : Z;
  pb_Traffic_ByteRx : Z;
  pb_Traffic_L3ByteTx : Z;
  pb_Traffic_L3ByteRx : Z;
  pb_Traffic_L4ByteTx : Z;
  pb_Traffic_L4ByteRx : Z;
  pb_Traffic_NewFlow : Z;
  pb_Traffic_ClosedFlow : Z;
  pb_Traffic_L7Request : Z;
  pb_Traffic_L7Response : Z
}.

Definition Traffic_WriteToPB (t : Traffic) : pb_Traffic := {|
  pb_Traffic_PacketTx := Traffic_PacketTx t;
  pb_Traffic_PacketRx := Traffic_PacketRx t;
  pb_Traffic_ByteTx := Traffic_ByteTx t;
  pb_Traffic_ByteRx := Traffic_ByteRx t;
  pb_Traffic_L3ByteTx := Traffic_L3ByteTx t;
  pb_Traffic_L3ByteRx := Traffic_L3ByteRx t;
  pb_Traffic_L4ByteTx := Traffic_L4ByteTx t;
  pb_Traffic_L4ByteRx := Traffic_L4ByteRx t;
  pb_Traffic_NewFlow := Traffic_NewFlow t;
  pb_Traffic_ClosedFlow := Traffic_ClosedFlow t;
  pb_Traffic_L7Request := Traffic_L7Request t;
  pb_Traffic_L7Response := Traffic_L7Response t
|}.

Definition Traffic_ReadFromPB (p : pb_Traffic) : Traffic := {|
  Traffic_PacketTx := pb_Traffic_PacketTx p;
  Traffic_PacketRx := pb_Traffic_PacketRx p;
  Traffic_ByteTx := pb_Traffic_ByteTx p;
  Traffic_ByteRx := pb_Traffic_ByteRx p;
  Traffic_L3ByteTx := pb_Traffic_L3ByteTx p;
  Traffic_L3ByteRx := pb_Traffic_L3ByteRx p;
  Traffic_L4ByteTx := pb_Traffic_L4ByteTx p;
  Traffic_L4ByteRx := pb_Traffic_L4ByteRx p;
  Traffic_NewFlow := pb_Traffic_NewFlow p;
  Traffic_ClosedFlow := pb_Traffic_ClosedFlow p;
  Traffic_L7Request := pb_Traffic_L7Request p;
  Traffic_L7Response := pb_Traffic_L7Response p
|}.

Definition Traffic_Reverse (t : Traffic) : Traffic := {|
  Traffic_PacketTx := Traffic_PacketRx t;
  Traffic_PacketRx := Traffic_PacketTx t;
  Traffic_ByteTx := Traffic_ByteRx t;
  Traffic_ByteRx := Traffic_ByteTx t;
  Traffic_L3ByteTx := Traffic_L3ByteRx t;
  Traffic_L3ByteRx := Traffic_L3ByteTx t;
  Traffic_L4ByteTx := Traffic_L4ByteRx t;
  Traffic_L4ByteRx := Traffic_L4ByteTx t;
  Traffic_NewFlow := Traffic_NewFlow t;
  Traffic_ClosedFlow := Traffic_ClosedFlow t;
  Traffic_L7Request := Traffic_L7Request t;
  Traffic_L7Response := Traffic_L7Response t
|}.

Definition Traffic_ConcurrentMerge (t other : Traffic) : Traffic := {|
  Traffic_PacketTx := Traffic_PacketTx t +64 Traffic_PacketTx other;
  Traffic_PacketRx := Traffic_PacketRx t +64 Traffic_PacketRx other;
  Traffic_ByteTx := Traffic_ByteTx t +64 Traffic_ByteTx other;
  Traffic_ByteRx := Traffic_ByteRx t +64 Traffic_ByteRx other;
  Traffic_L3ByteTx := Traffic_L3ByteTx t +64 Traffic_L3ByteTx other;
  Traffic_L3ByteRx := Traffic_L3ByteRx t +64 Traffic_L3ByteRx other;
  Traffic_L4ByteTx := Traffic_L4ByteTx t +64 Traffic_L4ByteTx other;
  Traffic_L4ByteRx := Traffic_L4ByteRx t +64 Traffic_L4ByteRx other;
  Traffic_NewFlow := Traffic_NewFlow t +64 Traffic_NewFlow other;
  Traffic_ClosedFlow := Traffic_ClosedFlow t +64 Traffic_ClosedFlow other;
  Traffic_L7Request := Traffic_L7Request t +32 Traffic_L7Request other;
  Traffic_L7Response := Traffic_L7Response t +32 Traffic_L7Response other
|}.

Definition Traffic_SequentialMerge (t other : Traffic) : Traffic := Traffic_ConcurrentMerge t other.

Definition Traffic_fields : list string :=
  [
    "packet_tx="; "packet_rx="; "byte_tx="; "byte_rx="; "byte="; "l3_byte_tx="; "l3_byte_rx=";
    "l4_byte_tx="; "l4_byte_rx="; "new_flow="; "closed_flow="; "l7_request="; "l7_response="
  ].

Definition Traffic_values (t : Traffic) : list Z :=
  [
    Traffic_PacketTx t; Traffic_PacketRx t; Traffic_ByteTx t; Traffic_ByteRx t;
    Traffic_ByteTx t +64 Traffic_ByteRx t; Traffic_L3ByteTx t; Traffic_L3ByteRx t;
    Traffic_L4ByteTx t; Traffic_L4ByteRx t; Traffic_NewFlow t; Traffic_ClosedFlow t;
    Traffic_L7Request t; Traffic_L7Response t
  ].

(** [packet] is always written; without any other field the comma after it is
    taken back. *)
Definition Traffic_MarshalTo (t : Traffic) : Marshal :=
  bput "packet=" ;+ bput (FormatUint (Traffic_PacketTx t +64 Traffic_PacketRx t) 10) ;+
  bput "i," ;+
  (fun cap out =>
     n ← marshalKeyValues Traffic_fields (Traffic_values t) (cap - slen out) "";
     Some (if slen n =? 0 then drop_last out else out +:+ n)).

Definition TrafficColumns : list Column :=
  NewColumnsWithComment
    [
      ("packet_tx", "累计发送总包数");
      ("packet_rx", "累计接收总包数");
      ("packet", "累计总包数");
      ("byte_tx", "累计发送总字节数");
      ("byte_rx", "累计接收总字节数");
      ("byte", "累计总字节数");
      ("l3_byte_tx", "累计发送网络层负载总字节数");
      ("l3_byte_rx", "累计接收网络层负载总字节数");
      ("l4_byte_tx", "累计发送应用层负载总字节数");
      ("l4_byte_rx", "累计接收应用层负载总字节数");
      ("new_flow", "累计新建连接数");
      ("closed_flow", "累计关闭连接数");
      ("l7_request", "累计应用请求数");
      ("l7_response", "累计应用响应数")
    ] UInt64.

Definition Traffic_WriteBlock (t : Traffic) : Write B :=
  write_each (WriteUInt64 Append) [
    Traffic_PacketTx t; Traffic_PacketRx t; Traffic_PacketTx t +64 Traffic_PacketRx t;
    Traffic_ByteTx t; Traffic_ByteRx t; Traffic_ByteTx t +64 Traffic_ByteRx t;
    Traffic_L3ByteTx t; Traffic_L3ByteRx t; Traffic_L4ByteTx t; Traffic_L4ByteRx t;
    Traffic_NewFlow t; Traffic_ClosedFlow t; Traffic_L7Request t; Traffic_L7Response t
  ].

(** ** Latency *)

Record Latency := mkLatency {
  Latency_RTTMax : Z;
  Latency_RTTClientMax : Z;
  Latency_RTTServerMax : Z;
  Latency_SRTMax : Z;
  Latency_ARTMax : Z;
  Latency_RRTMax : Z;
  Latency_RTTSum : Z;
  Latency_RTTClientSum : Z;
  Latency_RTTServerSum : Z;
  Latency_SRTSum : Z;
  Latency_ARTSum : Z;
  Latency_RRTSum : Z;
  Latency_RTTCount : Z;
  Latency_RTTClientCount : Z;
  Latency_RTTServerCount : Z;
  Latency_SRTCount : Z;
  Latency_ARTCount : Z;
  Latency_RRTCount : Z
}.

Definition Latency_db (m : Latency) : list (string * Z) :=
  [
    ("rtt_max", Latency_RTTMax m); ("rtt_client_max", Latency_RTTClientMax m);
    ("rtt_server_max", Latency_RTTServerMax m); ("srt_max", Latency_SRTMax m);
    ("art_max", Latency_ARTMax m); ("rrt_max", Latency_RRTMax m); ("rtt_sum", Latency_RTTSum m);
    ("rtt_client_sum", Latency_RTTClientSum m); ("rtt_server_sum", Latency_RTTServerSum m);
    ("srt_sum", Latency_SRTSum m); ("art_sum", Latency_ARTSum m); ("rrt_sum", Latency_RRTSum m);
    ("rtt_count", Latency_RTTCount m); ("rtt_client_count", Latency_RTTClientCount m);
    ("rtt_server_count", Latency_RTTServerCount m); ("srt_count", Latency_SRTCount m);
    ("art_count", Latency_ARTCount m); ("rrt_count", Latency_RRTCount m)
  ].

Record pb_Latency := mkpb_Latency {
  pb_Latency_RttMax : Z;
  pb_Latency_RttClientMax : Z;
  pb_Latency_RttServerMax : Z;
  pb_Latency_SrtMax : Z;
  pb_Latency_ArtMax : Z;
  pb_Latency_RrtMax : Z;
  pb_Latency_RttSum : Z;
  pb_Latency_RttClientSum : Z;
  pb_Latency_RttServerSum : Z;
  pb_Latency_SrtSum : Z;
  pb_Latency_ArtSum : Z;
  pb_Latency_RrtSum : Z;
  pb_Latency_RttCount : Z;
  pb_Latency_RttClientCount : Z;
  pb_Latency_RttServerCount : Z;
  pb_Latency_SrtCount : Z;
  pb_Latency_ArtCount : Z;
  pb_Latency_RrtCount : Z
}.

Definition Latency_WriteToPB (l : Latency) : pb_Latency := {|
  pb_Latency_RttMax := Latency_RTTMax l;
  pb_Latency_RttClientMax := Latency_RTTClientMax l;
  pb_Latency_RttServerMax := Latency_RTTServerMax l;
  pb_Latency_SrtMax := Latency_SRTMax l;
  pb_Latency_ArtMax := Latency_ARTMax l;
  pb_Latency_RrtMax := Latency_RRTMax l;
  pb_Latency_RttSum := Latency_RTTSum l;
  pb_Latency_RttClientSum := Latency_RTTClientSum l;
  pb_Latency_RttServerSum := Latency_RTTServerSum l;
  pb_Latency_SrtSum := Latency_SRTSum l;
  pb_Latency_ArtSum := Latency_ARTSum l;
  pb_Latency_RrtSum := Latency_RRTSum l;
  pb_Latency_RttCount := Latency_RTTCount l;
  pb_Latency_RttClientCount := Latency_RTTClientCount l;
  pb_Latency_RttServerCount := Latency_RTTServerCount l;
  pb_Latency_SrtCount := Latency_SRTCount l;
  pb_Latency_ArtCount := Latency_ARTCount l;
  pb_Latency_RrtCount := Latency_RRTCount l
|}.

Definition Latency_ReadFromPB (p : pb_Latency) : Latency := {|
  Latency_RTTMax := pb_Latency_RttMax p;
  Latency_RTTClientMax := pb_Latency_RttClientMax p;
  Latency_RTTServerMax := pb_Latency_RttServerMax p;
  Latency_SRTMax := pb_Latency_SrtMax p;
  Latency_ARTMax := pb_Latency_ArtMax p;
  Latency_RRTMax := pb_Latency_RrtMax p;
  Latency_RTTSum := pb_Latency_RttSum p;
  Latency_RTTClientSum := pb_Latency_RttClientSum p;
  Latency_RTTServerSum := pb_Latency_RttServerSum p;
  Latency_SRTSum := pb_Latency_SrtSum p;
  Latency_ARTSum := pb_Latency_ArtSum p;
  Latency_RRTSum := pb_Latency_RrtSum p;
  Latency_RTTCount := pb_Latency_RttCount p;
  Latency_RTTClientCount := pb_Latency_RttClientCount p;
  Latency_RTTServerCount := pb_Latency_RttServerCount p;
  Latency_SRTCount := pb_Latency_SrtCount p;
  Latency_ARTCount := pb_Latency_ArtCount p;
  Latency_RRTCount := pb_Latency_RrtCount p
|}.

Definition Latency_Reverse (m : Latency) : Latency := m.

Definition Latency_ConcurrentMerge (l other : Latency) : Latency := {|
  Latency_RTTMax := upd_max (Latency_RTTMax l) (Latency_RTTMax other);
  Latency_RTTClientMax := upd_max (Latency_RTTClientMax l) (Latency_RTTClientMax other);
  Latency_RTTServerMax := upd_max (Latency_RTTServerMax l) (Latency_RTTServerMax other);
  Latency_SRTMax := upd_max (Latency_SRTMax l) (Latency_SRTMax other);
  Latency_ARTMax := upd_max (Latency_ARTMax l) (Latency_ARTMax other);
  Latency_RRTMax := upd_max (Latency_RRTMax l) (Latency_RRTMax other);
  Latency_RTTSum := Latency_RTTSum l +64 Latency_RTTSum other;
  Latency_RTTClientSum := Latency_RTTClientSum l +64 Latency_RTTClientSum other;
  Latency_RTTServerSum := Latency_RTTServerSum l +64 Latency_RTTServerSum other;
  Latency_SRTSum := Latency_SRTSum l +64 Latency_SRTSum other;
  Latency_ARTSum := Latency_ARTSum l +64 Latency_ARTSum other;
  Latency_RRTSum := Latency_RRTSum l +64 Latency_RRTSum other;
  Latency_RTTCount := Latency_RTTCount l +32 Latency_RTTCount other;
  Latency_RTTClientCount := Latency_RTTClientCount l +32 Latency_RTTClientCount other;
  Latency_RTTServerCount := Latency_RTTServerCount l +32 Latency_RTTServerCount other;
  Latency_SRTCount := Latency_SRTCount l +32 Latency_SRTCount other;
  Latency_ARTCount := Latency_ARTCount l +32 Latency_ARTCount other;
  Latency_RRTCount := Latency_RRTCount l +32 Latency_RRTCount other
|}.

Definition Latency_SequentialMerge (l other : Latency) : Latency := Latency_ConcurrentMerge l other.

Definition Latency_fields : list string :=
  [
    "rtt_sum="; "rtt_client_sum="; "rtt_server_sum="; "srt_sum="; "art_sum="; "rrt_sum=";
    "rtt_count="; "rtt_client_count="; "rtt_server_count="; "srt_count="; "art_count=";
    "rrt_count="; "rtt_max="; "rtt_client_max="; "rtt_server_max="; "srt_max="; "art_max=";
    "rrt_max="
  ].

Definition Latency_values (l : Latency) : list Z :=
  [
    Latency_RTTSum l; Latency_RTTClientSum l; Latency_RTTServerSum l; Latency_SRTSum l;
    Latency_ARTSum l; Latency_RRTSum l; Latency_RTTCount l; Latency_RTTClientCount l;
    Latency_RTTServerCount l; Latency_SRTCount l; Latency_ARTCount l; Latency_RRTCount l;
    Latency_RTTMax l; Latency_RTTClientMax l; Latency_RTTServerMax l; Latency_SRTMax l;
    Latency_ARTMax l; Latency_RRTMax l
  ].

Definition Latency_MarshalTo (l : Latency) : Marshal :=
  marshalKeyValues Latency_fields (Latency_values l).

Definition LatencyColumns : list Column :=
  NewColumnsWithComment
    [
      ("rtt_sum", "累计建立连接RTT(us)");
      ("rtt_client_sum", "客户端累计建立连接RTT(us)");
      ("rtt_server_sum", "服务端累计建立连接RTT(us)");
      ("srt_sum", "累计所有系统响应时延(us)");
      ("art_sum", "累计所有应用响应时延(us)");
      ("rrt_sum", "累计所有应用请求响应时延(us)")
    ] Float64
  ++ NewColumnsWithComment
    [
      ("rtt_count", "建立连接时延计算次数");
      ("rtt_client_count", "客户端建立连接时延计算次数");
      ("rtt_server_count", "服务端建立连接时延计算次数");
      ("srt_count", "系统响应时延计算次数");
      ("art_count", "应用响应时延计算次数");
      ("rrt_count", "应用请求响应时延计算次数")
    ] UInt64
  ++ (SetIndex IndexNone <$> NewColumnsWithComment
    [
      ("rtt_max", "建立连接RTT最大值(us)");
      ("rtt_client_max", "客户端建立连接RTT最大值(us)");
      ("rtt_server_max", "服务端建立连接RTT最大值(us)");
      ("srt_max", "所有系统响应时延最大值(us)");
      ("art_max", "所有应用响应时延最大值(us)");
      ("rrt_max", "所有应用请求响应时延最大值(us)")
    ] UInt32).

Definition Latency_WriteBlock (l : Latency) : Write B :=
  write_each (WriteFloat64 Append) [
    to_float64 (Latency_RTTSum l); to_float64 (Latency_RTTClientSum l);
    to_float64 (Latency_RTTServerSum l); to_float64 (Latency_SRTSum l);
    to_float64 (Latency_ARTSum l); to_float64 (Latency_RRTSum l)
  ] ;>
  write_each (WriteUInt64 Append) [
    Latency_RTTCount l; Latency_RTTClientCount l; Latency_RTTServerCount l; Latency_SRTCount l;
    Latency_ARTCount l; Latency_RRTCount l
  ] ;>
  write_each (WriteUInt32 Append) [
    Latency_RTTMax l; Latency_RTTClientMax l; Latency_RTTServerMax l; Latency_SRTMax l;
    Latency_ARTMax l; Latency_RRTMax l
  ].

(** ** Performance *)

Record Performance := mkPerformance {
  Performance_RetransTx : Z;
  Performance_RetransRx : Z;
  Performance_ZeroWinTx : Z;
  Performance_ZeroWinRx : Z
}.

Definition Performance_db (m : Performance) : list (string * Z) :=
  [
    ("retrans_tx", Performance_RetransTx m); ("retrans_rx", Performance_RetransRx m);
    ("zero_win_tx", Performance_ZeroWinTx m); ("zero_win_rx", Performance_ZeroWinRx m)
  ].

Record pb_Performance := mkpb_Performance {
  pb_Performance_RetransTx : Z;
  pb_Performance_RetransRx : Z;
  pb_Performance_ZeroWinTx : Z;
  pb_Performance_ZeroWinRx : Z
}.

Definition Performance_WriteToPB (a : Performance) : pb_Performance := {|
  pb_Performance_RetransTx := Performance_RetransTx a;
  pb_Performance_RetransRx := Performance_RetransRx a;
  pb_Performance_ZeroWinTx := Performance_ZeroWinTx a;
  pb_Performance_ZeroWinRx := Performance_ZeroWinRx a
|}.

Definition Performance_ReadFromPB (p : pb_Performance) : Performance := {|
  Performance_RetransTx := pb_Performance_RetransTx p;
  Performance_RetransRx := pb_Performance_RetransRx p;
  Performance_ZeroWinTx := pb_Performance_ZeroWinTx p;
  Performance_ZeroWinRx := pb_Performance_ZeroWinRx p
|}.

Definition Performance_Reverse (a : Performance) : Performance := a.

Definition Performance_ConcurrentMerge (a other : Performance) : Performance := {|
  Performance_RetransTx := Performance_RetransTx a +64 Performance_RetransTx other;
  Performance_RetransRx := Performance_RetransRx a +64 Performance_RetransRx other;
  Performance_ZeroWinTx := Performance_ZeroWinTx a +64 Performance_ZeroWinTx other;
  Performance_ZeroWinRx := Performance_ZeroWinRx a +64 Performance_ZeroWinRx other
|}.

Definition Performance_SequentialMerge (a other : Performance) : Performance := Performance_ConcurrentMerge a other.

Definition Performance_fields : list string :=
  [
    "retrans_tx="; "retrans_rx="; "retrans="; "zero_win_tx="; "zero_win_rx="; "zero_win="
  ].

Definition Performance_values (a : Performance) : list Z :=
  [
    Performance_RetransTx a; Performance_RetransRx a;
    Performance_RetransTx a +64 Performance_RetransRx a; Performance_ZeroWinTx a;
    Performance_ZeroWinRx a; Performance_ZeroWinTx a +64 Performance_ZeroWinRx a
  ].

Definition Performance_MarshalTo (a : Performance) : Marshal :=
  marshalKeyValues Performance_fields (Performance_values a).

Definition PerformanceColumns : list Column :=
  NewColumnsWithComment
    [
      ("retrans_tx", "客户端累计重传次数");
      ("retrans_rx", "服务端累计重传次数");
      ("retrans", "累计重传次数");
      ("zero_win_tx", "客户端累计零窗次数");
      ("zero_win_rx", "服务端累计零窗次数");
      ("zero_win", "累计零窗次数")
    ] UInt64.

Definition Performance_WriteBlock (a : Performance) : Write B :=
  write_each (WriteUInt64 Append) [
    Performance_RetransTx a; Performance_RetransRx a;
    Performance_RetransTx a +64 Performance_RetransRx a; Performance_ZeroWinTx a;
    Performance_ZeroWinRx a; Performance_ZeroWinTx a +64 Performance_ZeroWinRx a
  ].

(** ** Anomaly *)

Record Anomaly := mkAnomaly {
  Anomaly_ClientRstFlow : Z;
  Anomaly_ServerRstFlow : Z;
  Anomaly_ClientSynRepeat : Z;
  Anomaly_ServerSYNACKRepeat : Z;
  Anomaly_ClientHalfCloseFlow : Z;
  Anomaly_ServerHalfCloseFlow : Z;
  Anomaly_ClientSourcePortReuse : Z;
  Anomaly_ClientEstablishReset : Z;
  Anomaly_ServerReset : Z;
  Anomaly_ServerQueueLack : Z;
  Anomaly_ServerEstablishReset : Z;
  Anomaly_TCPTimeout : Z;
  Anomaly_L7ClientError : Z;
  Anomaly_L7ServerError : Z;
  Anomaly_L7Timeout : Z
}.

Definition Anomaly_db (m : Anomaly) : list (string * Z) :=
  [
    ("client_rst_flow", Anomaly_ClientRstFlow m); ("server_rst_flow", Anomaly_ServerRstFlow m);
    ("client_syn_repeat", Anomaly_ClientSynRepeat m);
    ("server_syn_ack_repeat", Anomaly_ServerSYNACKRepeat m);
    ("client_half_close_flow", Anomaly_ClientHalfCloseFlow m);
    ("server_half_close_flow", Anomaly_ServerHalfCloseFlow m);
    ("client_source_port_reuse", Anomaly_ClientSourcePortReuse m);
    ("client_establish_other_rst", Anomaly_ClientEstablishReset m);
    ("server_reset", Anomaly_ServerReset m); ("server_queue_lack", Anomaly_ServerQueueLack m);
    ("server_establish_other_rst", Anomaly_ServerEstablishReset m);
    ("tcp_timeout", Anomaly_TCPTimeout m); ("l7_client_error", Anomaly_L7ClientError m);
    ("l7_server_error", Anomaly_L7ServerError m); ("l7_timeout", Anomaly_L7Timeout m)
  ].

Record pb_Anomaly := mkpb_Anomaly {
  pb_Anomaly_ClientRstFlow : Z;
  pb_Anomaly_ServerRstFlow : Z;
  pb_Anomaly_ClientSynRepeat : Z;
  pb_Anomaly_ServerSynackRepeat : Z;
  pb_Anomaly_ClientHalfCloseFlow : Z;
  pb_Anomaly_ServerHalfCloseFlow : Z;
  pb_Anomaly_ClientSourcePortReuse : Z;
  pb_Anomaly_ClientEstablishReset : Z;
  pb_Anomaly_ServerReset : Z;
  pb_Anomaly_ServerQueueLack : Z;
  pb_Anomaly_ServerEstablishReset : Z;
  pb_Anomaly_TcpTimeout : Z;
  pb_Anomaly_L7ClientError : Z;
  pb_Anomaly_L7ServerError : Z;
  pb_Anomaly_L7Timeout : Z
}.

Definition Anomaly_WriteToPB (a : Anomaly) : pb_Anomaly := {|
  pb_Anomaly_ClientRstFlow := Anomaly_ClientRstFlow a;
  pb_Anomaly_ServerRstFlow := Anomaly_ServerRstFlow a;
  pb_Anomaly_ClientSynRepeat := Anomaly_ClientSynRepeat a;
  pb_Anomaly_ServerSynackRepeat := Anomaly_ServerSYNACKRepeat a;
  pb_Anomaly_ClientHalfCloseFlow := Anomaly_ClientHalfCloseFlow a;
  pb_Anomaly_ServerHalfCloseFlow := Anomaly_ServerHalfCloseFlow a;
  pb_Anomaly_ClientSourcePortReuse := Anomaly_ClientSourcePortReuse a;
  pb_Anomaly_ClientEstablishReset := Anomaly_ClientEstablishReset a;
  pb_Anomaly_ServerReset := Anomaly_ServerReset a;
  pb_Anomaly_ServerQueueLack := Anomaly_ServerQueueLack a;
  pb_Anomaly_ServerEstablishReset := Anomaly_ServerEstablishReset a;
  pb_Anomaly_TcpTimeout := Anomaly_TCPTimeout a;
  pb_Anomaly_L7ClientError := Anomaly_L7ClientError a;
  pb_Anomaly_L7ServerError := Anomaly_L7ServerError a;
  pb_Anomaly_L7Timeout := Anomaly_L7Timeout a
|}.

Definition Anomaly_ReadFromPB (p : pb_Anomaly) : Anomaly := {|
  Anomaly_ClientRstFlow := pb_Anomaly_ClientRstFlow p;
  Anomaly_ServerRstFlow := pb_Anomaly_ServerRstFlow p;
  Anomaly_ClientSynRepeat := pb_Anomaly_ClientSynRepeat p;
  Anomaly_ServerSYNACKRepeat := pb_Anomaly_ServerSynackRepeat p;
  Anomaly_ClientHalfCloseFlow := pb_Anomaly_ClientHalfCloseFlow p;
  Anomaly_ServerHalfCloseFlow := pb_Anomaly_ServerHalfCloseFlow p;
  Anomaly_ClientSourcePortReuse := pb_Anomaly_ClientSourcePortReuse p;
  Anomaly_ClientEstablishReset := pb_Anomaly_ClientEstablishReset p;
  Anomaly_ServerReset := pb_Anomaly_ServerReset p;
  Anomaly_ServerQueueLack := pb_Anomaly_ServerQueueLack p;
  Anomaly_ServerEstablishReset := pb_Anomaly_ServerEstablishReset p;
  Anomaly_TCPTimeout := pb_Anomaly_TcpTimeout p;
  Anomaly_L7ClientError := pb_Anomaly_L7ClientError p;
  Anomaly_L7ServerError := pb_Anomaly_L7ServerError p;
  Anomaly_L7Timeout := pb_Anomaly_L7Timeout p
|}.

Definition Anomaly_Reverse (m : Anomaly) : Anomaly := m.

Definition Anomaly_ConcurrentMerge (a other : Anomaly) : Anomaly := {|
  Anomaly_ClientRstFlow := Anomaly_ClientRstFlow a +64 Anomaly_ClientRstFlow other;
  Anomaly_ServerRstFlow := Anomaly_ServerRstFlow a +64 Anomaly_ServerRstFlow other;
  Anomaly_ClientSynRepeat := Anomaly_ClientSynRepeat a +64 Anomaly_ClientSynRepeat other;
  Anomaly_ServerSYNACKRepeat := Anomaly_ServerSYNACKRepeat a +64 Anomaly_ServerSYNACKRepeat other;
  Anomaly_ClientHalfCloseFlow := Anomaly_ClientHalfCloseFlow a +64 Anomaly_ClientHalfCloseFlow other;
  Anomaly_ServerHalfCloseFlow := Anomaly_ServerHalfCloseFlow a +64 Anomaly_ServerHalfCloseFlow other;
  Anomaly_ClientSourcePortReuse := Anomaly_ClientSourcePortReuse a +64 Anomaly_ClientSourcePortReuse other;
  Anomaly_ClientEstablishReset := Anomaly_ClientEstablishReset a +64 Anomaly_ClientEstablishReset other;
  Anomaly_ServerReset := Anomaly_ServerReset a +64 Anomaly_ServerReset other;
  Anomaly_ServerQueueLack := Anomaly_ServerQueueLack a +64 Anomaly_ServerQueueLack other;
  Anomaly_ServerEstablishReset := Anomaly_ServerEstablishReset a +64 Anomaly_ServerEstablishReset other;
  Anomaly_TCPTimeout := Anomaly_TCPTimeout a +64 Anomaly_TCPTimeout other;
  Anomaly_L7ClientError := Anomaly_L7ClientError a +32 Anomaly_L7ClientError other;
  Anomaly_L7ServerError := Anomaly_L7ServerError a +32 Anomaly_L7ServerError other;
  Anomaly_L7Timeout := Anomaly_L7Timeout a +32 Anomaly_L7Timeout other
|}.

Definition Anomaly_SequentialMerge (a other : Anomaly) : Anomaly := Anomaly_ConcurrentMerge a other.

Definition Anomaly_fields : list string :=
  [
    "client_rst_flow="; "server_rst_flow="; "client_syn_repeat="; "server_syn_ack_repeat=";
    "client_half_close_flow="; "server_half_close_flow="; "client_source_port_reuse=";
    "server_reset="; "server_queue_lack="; "client_establish_other_rst=";
    "server_establish_other_rst="; "tcp_timeout="; "client_establish_fail=";
    "server_establish_fail="; "tcp_establish_fail="; "l7_client_error="; "l7_server_error=";
    "l7_timeout="; "l7_error="
  ].

Definition Anomaly_values (a : Anomaly) : list Z :=
  let clientFail :=
    Anomaly_ClientSynRepeat a +64 Anomaly_ClientSourcePortReuse a +64
    Anomaly_ClientEstablishReset a in
  let serverFail :=
    Anomaly_ServerSYNACKRepeat a +64 Anomaly_ServerReset a +64 Anomaly_ServerQueueLack a +64
    Anomaly_ServerEstablishReset a in
  [
    Anomaly_ClientRstFlow a; Anomaly_ServerRstFlow a; Anomaly_ClientSynRepeat a;
    Anomaly_ServerSYNACKRepeat a; Anomaly_ClientHalfCloseFlow a; Anomaly_ServerHalfCloseFlow a;
    Anomaly_ClientSourcePortReuse a; Anomaly_ServerReset a; Anomaly_ServerQueueLack a;
    Anomaly_ClientEstablishReset a; Anomaly_ServerEstablishReset a; Anomaly_TCPTimeout a;
    clientFail; serverFail; clientFail +64 serverFail; Anomaly_L7ClientError a;
    Anomaly_L7ServerError a; Anomaly_L7Timeout a;
    Anomaly_L7ClientError a +32 Anomaly_L7ServerError a
  ].

Definition Anomaly_MarshalTo (a : Anomaly) : Marshal :=
  marshalKeyValues Anomaly_fields (Anomaly_values a).

Definition AnomalyColumns : list Column :=
  NewColumnsWithComment
    [
      ("client_rst_flow", "传输-客户端重置");
      ("server_rst_flow", "传输-服务端重置");
      ("client_syn_repeat", "建连-客户端SYN结束");
      ("server_syn_ack_repeat", "建连-服务端SYN结束");
      ("client_half_close_flow", "传输-客户端半关");
      ("server_half_close_flow", "传输-服务端半关");
      ("client_source_port_reuse", "建连-客户端端口复用");
      ("server_reset", "建连-服务端直接重置");
      ("server_queue_lack", "传输-服务端队列溢出");
      ("client_establish_other_rst", "建连-客户端其他重置");
      ("server_establish_other_rst", "建连-服务端其他重置");
      ("tcp_timeout", "传输-连接超时次数");
      ("client_establish_fail", "TCP客户端建连失败次数");
      ("server_establish_fail", "TCP服务端建连失败次数");
      ("tcp_establish_fail", "TCP建连失败次数");
      ("tcp_transfer_fail", "TCP传输失败次数");
      ("tcp_rst_fail", "TCP重置次数")
    ] UInt64
  ++ NewColumnsWithComment
    [
      ("l7_client_error", "应用客户端异常次数");
      ("l7_server_error", "应用服务端异常次数");
      ("l7_timeout", "应用请求超时次数");
      ("l7_error", "应用异常次数")
    ] UInt32.

Definition Anomaly_WriteBlock (a : Anomaly) : Write B :=
  let clientFail :=
    Anomaly_ClientSynRepeat a +64 Anomaly_ClientSourcePortReuse a +64
    Anomaly_ClientEstablishReset a in
  let serverFail :=
    Anomaly_ServerSYNACKRepeat a +64 Anomaly_ServerReset a +64 Anomaly_ServerQueueLack a +64
    Anomaly_ServerEstablishReset a in
  let transferFail :=
    Anomaly_ClientRstFlow a +64 Anomaly_ServerRstFlow a +64 Anomaly_ServerQueueLack a +64
    Anomaly_ClientHalfCloseFlow a +64 Anomaly_ServerHalfCloseFlow a +64 Anomaly_TCPTimeout a in
  let rstFail :=
    Anomaly_ClientEstablishReset a +64 Anomaly_ServerEstablishReset a +64
    Anomaly_ServerReset a +64 Anomaly_ClientRstFlow a +64 Anomaly_ServerRstFlow a in
  write_each (WriteUInt64 Append) [
    Anomaly_ClientRstFlow a; Anomaly_ServerRstFlow a; Anomaly_ClientSynRepeat a;
    Anomaly_ServerSYNACKRepeat a; Anomaly_ClientHalfCloseFlow a; Anomaly_ServerHalfCloseFlow a;
    Anomaly_ClientSourcePortReuse a; Anomaly_ServerReset a; Anomaly_ServerQueueLack a;
    Anomaly_ClientEstablishReset a; Anomaly_ServerEstablishReset a; Anomaly_TCPTimeout a;
    clientFail; serverFail; clientFail +64 serverFail; transferFail; rstFail
  ] ;>
  write_each (WriteUInt32 Append) [
    Anomaly_L7ClientError a; Anomaly_L7ServerError a; Anomaly_L7Timeout a;
    Anomaly_L7ClientError a +32 Anomaly_L7ServerError a
  ].

(** ** FlowLoad *)

Record FlowLoad := mkFlowLoad {
  FlowLoad_Load : Z
}.

Definition FlowLoad_db (m : FlowLoad) : list (string * Z) :=
  [
    ("flow_load", FlowLoad_Load m)
  ].

Record pb_FlowLoad := mkpb_FlowLoad {
  pb_FlowLoad_Load : Z
}.

Definition FlowLoad_WriteToPB (l : FlowLoad) : pb_FlowLoad := {|
  pb_FlowLoad_Load := FlowLoad_Load l
|}.

Definition FlowLoad_ReadFromPB (p : pb_FlowLoad) : FlowLoad := {|
  FlowLoad_Load := pb_FlowLoad_Load p
|}.

Definition FlowLoad_Reverse (l : FlowLoad) : FlowLoad := l.

Definition FlowLoad_ConcurrentMerge (l other : FlowLoad) : FlowLoad := {|
  FlowLoad_Load := FlowLoad_Load l +64 FlowLoad_Load other
|}.

Definition FlowLoad_SequentialMerge (l other : FlowLoad) : FlowLoad := FlowLoad_ConcurrentMerge l other.

Definition FlowLoad_fields : list string :=
  [
    "flow_load="
  ].

Definition FlowLoad_values (l : FlowLoad) : list Z :=
  [
    FlowLoad_Load l
  ].

Definition FlowLoad_MarshalTo (l : FlowLoad) : Marshal :=
  marshalKeyValues FlowLoad_fields (FlowLoad_values l).

Definition FlowLoadColumns : list Column :=
  NewColumnsWithComment
    [
      ("flow_load", "累计活跃连接数")
    ] UInt64.

Definition FlowLoad_WriteBlock (l : FlowLoad) : Write B :=
  write_each (WriteUInt64 Append) [
    FlowLoad_Load l
  ].

(** ** UsageMeter *)

Record UsageMeter := mkUsageMeter {
  UsageMeter_PacketTx : Z;
  UsageMeter_PacketRx : Z;
  UsageMeter_ByteTx : Z;
  UsageMeter_ByteRx : Z;
  UsageMeter_L3ByteTx : Z;
  UsageMeter_L3ByteRx : Z;
  UsageMeter_L4ByteTx : Z;
  UsageMeter_L4ByteRx : Z
}.

Definition UsageMeter_db (m : UsageMeter) : list (string * Z) :=
  [
    ("packet_tx", UsageMeter_PacketTx m); ("packet_rx", UsageMeter_PacketRx m);
    ("byte_tx", UsageMeter_ByteTx m); ("byte_rx", UsageMeter_ByteRx m);
    ("l3_byte_tx", UsageMeter_L3ByteTx m); ("l3_byte_rx", UsageMeter_L3ByteRx m);
    ("l4_byte_tx", UsageMeter_L4ByteTx m); ("l4_byte_rx", UsageMeter_L4ByteRx m)
  ].

Record pb_UsageMeter := mkpb_UsageMeter {
  pb_UsageMeter_PacketTx : Z;
  pb_UsageMeter_PacketRx : Z;
  pb_UsageMeter_ByteTx : Z;
  pb_UsageMeter_ByteRx : Z;
  pb_UsageMeter_L3ByteTx : Z;
  pb_UsageMeter_L3ByteRx : Z;
  pb_UsageMeter_L4ByteTx : Z;
  pb_UsageMeter_L4ByteRx : Z
}.

Definition UsageMeter_WriteToPB (m : UsageMeter) : pb_UsageMeter := {|
  pb_UsageMeter_PacketTx := UsageMeter_PacketTx m;
  pb_UsageMeter_PacketRx := UsageMeter_PacketRx m;
  pb_UsageMeter_ByteTx := UsageMeter_ByteTx m;
  pb_UsageMeter_ByteRx := UsageMeter_ByteRx m;
  pb_UsageMeter_L3ByteTx := UsageMeter_L3ByteTx m;
  pb_UsageMeter_L3ByteRx := UsageMeter_L3ByteRx m;
  pb_UsageMeter_L4ByteTx := UsageMeter_L4ByteTx m;
  pb_UsageMeter_L4ByteRx := UsageMeter_L4ByteRx m
|}.

Definition UsageMeter_ReadFromPB (p : pb_UsageMeter) : UsageMeter := {|
  UsageMeter_PacketTx := pb_UsageMeter_PacketTx p;
  UsageMeter_PacketRx := pb_UsageMeter_PacketRx p;
  UsageMeter_ByteTx := pb_UsageMeter_ByteTx p;
  UsageMeter_ByteRx := pb_UsageMeter_ByteRx p;
  UsageMeter_L3ByteTx := pb_UsageMeter_L3ByteTx p;
  UsageMeter_L3ByteRx := pb_UsageMeter_L3ByteRx p;
  UsageMeter_L4ByteTx := pb_UsageMeter_L4ByteTx p;
  UsageMeter_L4ByteRx := pb_UsageMeter_L4ByteRx p
|}.

Definition UsageMeter_Reverse (m : UsageMeter) : UsageMeter := {|
  UsageMeter_PacketTx := UsageMeter_PacketRx m;
  UsageMeter_PacketRx := UsageMeter_PacketTx m;
  UsageMeter_ByteTx := UsageMeter_ByteRx m;
  UsageMeter_ByteRx := UsageMeter_ByteTx m;
  UsageMeter_L3ByteTx := UsageMeter_L3ByteRx m;
  UsageMeter_L3ByteRx := UsageMeter_L3ByteTx m;
  UsageMeter_L4ByteTx := UsageMeter_L4ByteRx m;
  UsageMeter_L4ByteRx := UsageMeter_L4ByteTx m
|}.

Definition UsageMeter_Merge (m other : UsageMeter) : UsageMeter := {|
  UsageMeter_PacketTx := UsageMeter_PacketTx m +64 UsageMeter_PacketTx other;
  UsageMeter_PacketRx := UsageMeter_PacketRx m +64 UsageMeter_PacketRx other;
  UsageMeter_ByteTx := UsageMeter_ByteTx m +64 UsageMeter_ByteTx other;
  UsageMeter_ByteRx := UsageMeter_ByteRx m +64 UsageMeter_ByteRx other;
  UsageMeter_L3ByteTx := UsageMeter_L3ByteTx m +64 UsageMeter_L3ByteTx other;
  UsageMeter_L3ByteRx := UsageMeter_L3ByteRx m +64 UsageMeter_L3ByteRx other;
  UsageMeter_L4ByteTx := UsageMeter_L4ByteTx m +64 UsageMeter_L4ByteTx other;
  UsageMeter_L4ByteRx := UsageMeter_L4ByteRx m +64 UsageMeter_L4ByteRx other
|}.

Definition UsageMeterColumns : list Column :=
  NewColumnsWithComment
    [
      ("packet_tx", "累计发送总包数");
      ("packet_rx", "累计接收总包数");
      ("packet", "累计总包数");
      ("byte_tx", "累计发送总字节数");
      ("byte_rx", "累计接收总字节数");
      ("byte", "累计总字节数");
      ("l3_byte_tx", "累计发送网络层负载总字节数");
      ("l3_byte_rx", "累计接收网络层负载总字节数");
      ("l4_byte_tx", "累计发送应用层负载总字节数");
      ("l4_byte_rx", "累计接收应用层负载总字节数")
    ] UInt64.

Definition UsageMeter_WriteBlock (m : UsageMeter) : Write B :=
  write_each (WriteUInt64 Append) [
    UsageMeter_PacketTx m; UsageMeter_PacketRx m;
    UsageMeter_PacketTx m +64 UsageMeter_PacketRx m; UsageMeter_ByteTx m; UsageMeter_ByteRx m;
    UsageMeter_ByteTx m +64 UsageMeter_ByteRx m; UsageMeter_L3ByteTx m; UsageMeter_L3ByteRx m;
    UsageMeter_L4ByteTx m; UsageMeter_L4ByteRx m
  ].

(** ** AppTraffic *)

Record AppTraffic := mkAppTraffic {
  AppTraffic_Request : Z;
  AppTraffic_Response : Z
}.

Definition AppTraffic_db (m : AppTraffic) : list (string * Z) :=
  [
    ("request", AppTraffic_Request m); ("response", AppTraffic_Response m)
  ].

Record pb_AppTraffic := mkpb_AppTraffic {
  pb_AppTraffic_Request : Z;
  pb_AppTraffic_Response : Z
}.

Definition AppTraffic_WriteToPB (t : AppTraffic) : pb_AppTraffic := {|
  pb_AppTraffic_Request := AppTraffic_Request t;
  pb_AppTraffic_Response := AppTraffic_Response t
|}.

Definition AppTraffic_ReadFromPB (p : pb_AppTraffic) : AppTraffic := {|
  AppTraffic_Request := pb_AppTraffic_Request p;
  AppTraffic_Response := pb_AppTraffic_Response p
|}.

Definition AppTraffic_Reverse (m : AppTraffic) : AppTraffic := m.

Definition AppTraffic_ConcurrentMerge (t other : AppTraffic) : AppTraffic := {|
  AppTraffic_Request := AppTraffic_Request t +32 AppTraffic_Request other;
  AppTraffic_Response := AppTraffic_Response t +32 AppTraffic_Response other
|}.

Definition AppTraffic_SequentialMerge (t other : AppTraffic) : AppTraffic := AppTraffic_ConcurrentMerge t other.

Definition AppTraffic_fields : list string :=
  [
    "request="; "response="
  ].

Definition AppTraffic_values (t : AppTraffic) : list Z :=
  [
    AppTraffic_Request t; AppTraffic_Response t
  ].

Definition AppTraffic_MarshalTo (t : AppTraffic) : Marshal :=
  marshalKeyValues AppTraffic_fields (AppTraffic_values t).

Definition AppTrafficColumns : list Column :=
  [
    NewColumn "request" UInt32 |> SetComment "累计请求次数" |> SetIndex IndexNone;
    NewColumn "response" UInt32 |> SetComment "累计响应次数" |> SetIndex IndexNone
  ].

Definition AppTraffic_WriteBlock (t : AppTraffic) : Write B :=
  WriteUInt32 Append (AppTraffic_Request t) ;>
  WriteUInt32 Append (AppTraffic_Response t).

(** ** AppLatency *)

Record AppLatency := mkAppLatency {
  AppLatency_RRTMax : Z;
  AppLatency_RRTSum : Z;
  AppLatency_RRTCount : Z
}.

Definition AppLatency_db (m : AppLatency) : list (string * Z) :=
  [
    ("rrt_max", AppLatency_RRTMax m); ("rrt_sum", AppLatency_RRTSum m);
    ("rrt_count", AppLatency_RRTCount m)
  ].

Record pb_AppLatency := mkpb_AppLatency {
  pb_AppLatency_RrtMax : Z;
  pb_AppLatency_RrtSum : Z;
  pb_AppLatency_RrtCount : Z
}.

Definition AppLatency_WriteToPB (l : AppLatency) : pb_AppLatency := {|
  pb_AppLatency_RrtMax := AppLatency_RRTMax l;
  pb_AppLatency_RrtSum := AppLatency_RRTSum l;
  pb_AppLatency_RrtCount := AppLatency_RRTCount l
|}.

Definition AppLatency_ReadFromPB (p : pb_AppLatency) : AppLatency := {|
  AppLatency_RRTMax := pb_AppLatency_RrtMax p;
  AppLatency_RRTSum := pb_AppLatency_RrtSum p;
  AppLatency_RRTCount := pb_AppLatency_RrtCount p
|}.

Definition AppLatency_Reverse (m : AppLatency) : AppLatency := m.

Definition AppLatency_ConcurrentMerge (l other : AppLatency) : AppLatency := {|
  AppLatency_RRTMax := upd_max (AppLatency_RRTMax l) (AppLatency_RRTMax other);
  AppLatency_RRTSum := AppLatency_RRTSum l +64 AppLatency_RRTSum other;
  AppLatency_RRTCount := AppLatency_RRTCount l +32 AppLatency_RRTCount other
|}.

Definition AppLatency_SequentialMerge (l other : AppLatency) : AppLatency := AppLatency_ConcurrentMerge l other.

Definition AppLatency_fields : list string :=
  [
    "rrt_sum="; "rrt_count="; "rrt_max="
  ].

Definition AppLatency_values (l : AppLatency) : list Z :=
  [
    AppLatency_RRTSum l; AppLatency_RRTCount l; AppLatency_RRTMax l
  ].

Definition AppLatency_MarshalTo (l : AppLatency) : Marshal :=
  marshalKeyValues AppLatency_fields (AppLatency_values l).

Definition AppLatencyColumns : list Column :=
  [
    NewColumn "rrt_max" UInt32 |> SetComment "所有请求响应时延最大值(us)" |> SetIndex IndexNone;
    NewColumn "rrt_sum" Float64 |> SetComment "累计所有请求响应时延(us)";
    NewColumn "rrt_count" UInt64 |> SetComment "请求响应时延计算次数"
  ].

Definition AppLatency_WriteBlock (l : AppLatency) : Write B :=
  WriteUInt32 Append (AppLatency_RRTMax l) ;>
  WriteFloat64 Append (to_float64 (AppLatency_RRTSum l)) ;>
  WriteUInt64 Append (AppLatency_RRTCount l).

(** ** AppAnomaly *)

Record AppAnomaly := mkAppAnomaly {
  AppAnomaly_ClientError : Z;
  AppAnomaly_ServerError : Z;
  AppAnomaly_Timeout : Z
}.

Definition AppAnomaly_db (m : AppAnomaly) : list (string * Z) :=
  [
    ("client_error", AppAnomaly_ClientError m); ("server_error", AppAnomaly_ServerError m);
    ("timeout", AppAnomaly_Timeout m)
  ].

Record pb_AppAnomaly := mkpb_AppAnomaly {
  pb_AppAnomaly_ClientError : Z;
  pb_AppAnomaly_ServerError : Z;
  pb_AppAnomaly_Timeout : Z
}.

Definition AppAnomaly_WriteToPB (a : AppAnomaly) : pb_AppAnomaly := {|
  pb_AppAnomaly_ClientError := AppAnomaly_ClientError a;
  pb_AppAnomaly_ServerError := AppAnomaly_ServerError a;
  pb_AppAnomaly_Timeout := AppAnomaly_Timeout a
|}.

Definition AppAnomaly_ReadFromPB (p : pb_AppAnomaly) : AppAnomaly := {|
  AppAnomaly_ClientError := pb_AppAnomaly_ClientError p;
  AppAnomaly_ServerError := pb_AppAnomaly_ServerError p;
  AppAnomaly_Timeout := pb_AppAnomaly_Timeout p
|}.

Definition AppAnomaly_Reverse (m : AppAnomaly) : AppAnomaly := m.

Definition AppAnomaly_ConcurrentMerge (a other : AppAnomaly) : AppAnomaly := {|
  AppAnomaly_ClientError := AppAnomaly_ClientError a +32 AppAnomaly_ClientError other;
  AppAnomaly_ServerError := AppAnomaly_ServerError a +32 AppAnomaly_ServerError other;
  AppAnomaly_Timeout := AppAnomaly_Timeout a +32 AppAnomaly_Timeout other
|}.

Definition AppAnomaly_SequentialMerge (a other : AppAnomaly) : AppAnomaly := AppAnomaly_ConcurrentMerge a other.

Definition AppAnomaly_fields : list string :=
  [
    "client_error="; "server_error="; "timeout="; "error="
  ].

Definition AppAnomaly_values (a : AppAnomaly) : list Z :=
  [
    AppAnomaly_ClientError a; AppAnomaly_ServerError a; AppAnomaly_Timeout a;
    AppAnomaly_ClientError a +32 AppAnomaly_ServerError a
  ].

Definition AppAnomaly_MarshalTo (a : AppAnomaly) : Marshal :=
  marshalKeyValues AppAnomaly_fields (AppAnomaly_values a).

Definition AppAnomalyColumns : list Column :=
  SetIndex IndexNone <$> NewColumnsWithComment
    [
      ("client_error", "客户端异常次数");
      ("server_error", "服务端异常次数");
      ("timeout", "请求超时次数");
      ("error", "异常次数")
    ] UInt64.

Definition AppAnomaly_WriteBlock (a : AppAnomaly) : Write B :=
  write_each (WriteUInt64 Append) [
    AppAnomaly_ClientError a; AppAnomaly_ServerError a; AppAnomaly_Timeout a;
    AppAnomaly_ClientError a +32 AppAnomaly_ServerError a
  ].

(** * Constants *)

Definition MAX_STRING_LENGTH : Z := 2048.

Definition FLOW_ID : Z := 1.
Definition ACL_ID : Z := 4.
Definition APP_ID : Z := 5.
Definition MAX_APP_ID : Z := 6.

Definition MeterVTAPNames : list string :=
  ["vtap_flow"; "vtap_flow"; "vtap_wan"; "vtap_packet"; "vtap_acl"; "vtap_app"].

(** The map that [init] fills: a later name overwrites an earlier one. *)
Fixpoint MeterNamesToID_loop (names : list string) (id : Z) (m : gmap string Z) : gmap string Z :=
  match names with
  | [] => m
  | name :: names => MeterNamesToID_loop names (id + 1) (<[name := u8 id]> m)
  end.

Definition MeterNamesToID : gmap string Z := MeterNamesToID_loop MeterVTAPNames 0 ∅.

Definition GetMeterID (name : string) : Z := default MAX_APP_ID (MeterNamesToID !! name).

(** * Flow meter *)

Record FlowMeter := mkFlowMeter {
  FlowMeter_Traffic : Traffic;
  FlowMeter_Latency : Latency;
  FlowMeter_Performance : Performance;
  FlowMeter_Anomaly : Anomaly;
  FlowMeter_FlowLoad : FlowLoad
}.

Definition FlowMeter_Reverse (m : FlowMeter) : FlowMeter := {|
  FlowMeter_Traffic := Traffic_Reverse (FlowMeter_Traffic m);
  FlowMeter_Latency := Latency_Reverse (FlowMeter_Latency m);
  FlowMeter_Performance := Performance_Reverse (FlowMeter_Performance m);
  FlowMeter_Anomaly := Anomaly_Reverse (FlowMeter_Anomaly m);
  FlowMeter_FlowLoad := FlowLoad_Reverse (FlowMeter_FlowLoad m)
|}.

Definition FlowMeter_SortKey (m : FlowMeter) : Z :=
  Traffic_PacketTx (FlowMeter_Traffic m) +64 Traffic_PacketRx (FlowMeter_Traffic m).

(** Sub-messages are pointers, [None] being nil. *)
Record pb_FlowMeter := mkpb_FlowMeter {
  pb_FlowMeter_Traffic : option pb_Traffic;
  pb_FlowMeter_Latency : option pb_Latency;
  pb_FlowMeter_Performance : option pb_Performance;
  pb_FlowMeter_Anomaly : option pb_Anomaly;
  pb_FlowMeter_FlowLoad : option pb_FlowLoad
}.

(** Every sub-message is allocated if it is nil, and overwritten. *)
Definition FlowMeter_WriteToPB (m : FlowMeter) : pb_FlowMeter := {|
  pb_FlowMeter_Traffic := Some (Traffic_WriteToPB (FlowMeter_Traffic m));
  pb_FlowMeter_Latency := Some (Latency_WriteToPB (FlowMeter_Latency m));
  pb_FlowMeter_Performance := Some (Performance_WriteToPB (FlowMeter_Performance m));
  pb_FlowMeter_Anomaly := Some (Anomaly_WriteToPB (FlowMeter_Anomaly m));
  pb_FlowMeter_FlowLoad := Some (FlowLoad_WriteToPB (FlowMeter_FlowLoad m))
|}.

(** [None] is the panic of reading through a nil pointer. *)
Definition FlowMeter_ReadFromPB (p : pb_FlowMeter) : option FlowMeter :=
  t ← pb_FlowMeter_Traffic p;
  l ← pb_FlowMeter_Latency p;
  f ← pb_FlowMeter_Performance p;
  a ← pb_FlowMeter_Anomaly p;
  d ← pb_FlowMeter_FlowLoad p;
  Some (mkFlowMeter (Traffic_ReadFromPB t) (Latency_ReadFromPB l) (Performance_ReadFromPB f)
          (Anomaly_ReadFromPB a) (FlowLoad_ReadFromPB d)).

Definition FlowMeter_ConcurrentMerge (m pm : FlowMeter) : FlowMeter := {|
  FlowMeter_Traffic := Traffic_ConcurrentMerge (FlowMeter_Traffic m) (FlowMeter_Traffic pm);
  FlowMeter_Latency := Latency_ConcurrentMerge (FlowMeter_Latency m) (FlowMeter_Latency pm);
  FlowMeter_Performance :=
    Performance_ConcurrentMerge (FlowMeter_Performance m) (FlowMeter_Performance pm);
  FlowMeter_Anomaly := Anomaly_ConcurrentMerge (FlowMeter_Anomaly m) (FlowMeter_Anomaly pm);
  FlowMeter_FlowLoad := FlowLoad_ConcurrentMerge (FlowMeter_FlowLoad m) (FlowMeter_FlowLoad pm)
|}.

Definition FlowMeter_SequentialMerge (m pm : FlowMeter) : FlowMeter := {|
  FlowMeter_Traffic := Traffic_SequentialMerge (FlowMeter_Traffic m) (FlowMeter_Traffic pm);
  FlowMeter_Latency := Latency_SequentialMerge (FlowMeter_Latency m) (FlowMeter_Latency pm);
  FlowMeter_Performance :=
    Performance_SequentialMerge (FlowMeter_Performance m) (FlowMeter_Performance pm);
  FlowMeter_Anomaly := Anomaly_SequentialMerge (FlowMeter_Anomaly m) (FlowMeter_Anomaly pm);
  FlowMeter_FlowLoad := FlowLoad_SequentialMerge (FlowMeter_FlowLoad m) (FlowMeter_FlowLoad pm)
|}.

(** [if offset > 0 && b[offset-1] != ',' { b[offset] = ','; offset++ }] *)
Definition put_comma : Marshal := fun cap out =>
  bif ((0 <? slen out) && negb (bool_decide (last_char out = Some ","%char)))
    (bputc ","%char) cap out.

(** [if offset > 0 && b[offset-1] == ',' { offset-- }] *)
Definition strip_comma : Marshal := fun _ out =>
  Some (if bool_decide (last_char out = Some ","%char) then drop_last out else out).

Definition FlowMeter_MarshalTo (m : FlowMeter) : Marshal :=
  bsub (Traffic_MarshalTo (FlowMeter_Traffic m)) ;+ put_comma ;+
  bsub (Latency_MarshalTo (FlowMeter_Latency m)) ;+ put_comma ;+
  bsub (Performance_MarshalTo (FlowMeter_Performance m)) ;+ put_comma ;+
  bsub (Anomaly_MarshalTo (FlowMeter_Anomaly m)) ;+ put_comma ;+
  bsub (FlowLoad_MarshalTo (FlowMeter_FlowLoad m)) ;+ strip_comma.

Definition FlowMeter_ToKVString (m : FlowMeter) : option string :=
  FlowMeter_MarshalTo m MAX_STRING_LENGTH "".

Definition FlowMeterColumns : list Column :=
  TrafficColumns ++ LatencyColumns ++ PerformanceColumns ++ AnomalyColumns ++ FlowLoadColumns.

Definition FlowMeter_WriteBlock (m : FlowMeter) : Write B :=
  Traffic_WriteBlock (FlowMeter_Traffic m) ;>
  Latency_WriteBlock (FlowMeter_Latency m) ;>
  Performance_WriteBlock (FlowMeter_Performance m) ;>
  Anomaly_WriteBlock (FlowMeter_Anomaly m) ;>
  FlowLoad_WriteBlock (FlowMeter_FlowLoad m).

(** * Usage meter *)

Definition UsageMeter_SortKey (m : UsageMeter) : Z := UsageMeter_ByteTx m +64 UsageMeter_ByteRx m.

Definition UsageMeter_MarshalTo (m : UsageMeter) : Marshal :=
  bput "packet_tx=" ;+ bput (FormatUint (UsageMeter_PacketTx m) 10) ;+
  bput "i,packet_rx=" ;+ bput (FormatUint (UsageMeter_PacketRx m) 10) ;+
  bput "i,packet=" ;+ bput (FormatUint (UsageMeter_PacketTx m +64 UsageMeter_PacketRx m) 10) ;+
  bput "i,byte_tx=" ;+ bput (FormatUint (UsageMeter_ByteTx m) 10) ;+
  bput "i,byte_rx=" ;+ bput (FormatUint (UsageMeter_ByteRx m) 10) ;+
  bput "i,byte=" ;+ bput (FormatUint (UsageMeter_ByteTx m +64 UsageMeter_ByteRx m) 10) ;+
  bput "i,l3_byte_tx=" ;+ bput (FormatUint (UsageMeter_L3ByteTx m) 10) ;+
  bput "i,l3_byte_rx=" ;+ bput (FormatUint (UsageMeter_L3ByteRx m) 10) ;+
  bput "i,l4_byte_tx=" ;+ bput (FormatUint (UsageMeter_L4ByteTx m) 10) ;+
  bput "i,l4_byte_rx=" ;+ bput (FormatUint (UsageMeter_L4ByteRx m) 10) ;+
  bputc "i"%char.

Definition UsageMeter_ToKVString (m : UsageMeter) : option string :=
  UsageMeter_MarshalTo m MAX_STRING_LENGTH "".

(** * Application meter *)

Record AppMeter := mkAppMeter {
  AppMeter_AppTraffic : AppTraffic;
  AppMeter_AppLatency : AppLatency;
  AppMeter_AppAnomaly : AppAnomaly
}.

Definition AppMeter_Reverse (m : AppMeter) : AppMeter := {|
  AppMeter_AppTraffic := AppTraffic_Reverse (AppMeter_AppTraffic m);
  AppMeter_AppLatency := AppLatency_Reverse (AppMeter_AppLatency m);
  AppMeter_AppAnomaly := AppAnomaly_Reverse (AppMeter_AppAnomaly m)
|}.

Definition AppMeter_SortKey (m : AppMeter) : Z := AppLatency_RRTSum (AppMeter_AppLatency m).

Record pb_AppMeter := mkpb_AppMeter {
  pb_AppMeter_Traffic : option pb_AppTraffic;
  pb_AppMeter_Latency : option pb_AppLatency;
  pb_AppMeter_Anomaly : option pb_AppAnomaly
}.

Definition AppMeter_WriteToPB (m : AppMeter) : pb_AppMeter := {|
  pb_AppMeter_Traffic := Some (AppTraffic_WriteToPB (AppMeter_AppTraffic m));
  pb_AppMeter_Latency := Some (AppLatency_WriteToPB (AppMeter_AppLatency m));
  pb_AppMeter_Anomaly := Some (AppAnomaly_WriteToPB (AppMeter_AppAnomaly m))
|}.

Definition AppMeter_ReadFromPB (p : pb_AppMeter) : option AppMeter :=
  t ← pb_AppMeter_Traffic p;
  l ← pb_AppMeter_Latency p;
  a ← pb_AppMeter_Anomaly p;
  Some (mkAppMeter (AppTraffic_ReadFromPB t) (AppLatency_ReadFromPB l) (AppAnomaly_ReadFromPB a)).

Definition AppMeter_ConcurrentMerge (m pm : AppMeter) : AppMeter := {|
  AppMeter_AppTraffic := AppTraffic_ConcurrentMerge (AppMeter_AppTraffic m) (AppMeter_AppTraffic pm);
  AppMeter_AppLatency := AppLatency_ConcurrentMerge (AppMeter_AppLatency m) (AppMeter_AppLatency pm);
  AppMeter_AppAnomaly := AppAnomaly_ConcurrentMerge (AppMeter_AppAnomaly m) (AppMeter_AppAnomaly pm)
|}.

Definition AppMeter_SequentialMerge (m pm : AppMeter) : AppMeter := {|
  AppMeter_AppTraffic := AppTraffic_SequentialMerge (AppMeter_AppTraffic m) (AppMeter_AppTraffic pm);
  AppMeter_AppLatency := AppLatency_SequentialMerge (AppMeter_AppLatency m) (AppMeter_AppLatency pm);
  AppMeter_AppAnomaly := AppAnomaly_SequentialMerge (AppMeter_AppAnomaly m) (AppMeter_AppAnomaly pm)
|}.

Definition AppMeter_MarshalTo (m : AppMeter) : Marshal :=
  bsub (AppTraffic_MarshalTo (AppMeter_AppTraffic m)) ;+ put_comma ;+
  bsub (AppLatency_MarshalTo (AppMeter_AppLatency m)) ;+ put_comma ;+
  bsub (AppAnomaly_MarshalTo (AppMeter_AppAnomaly m)) ;+ put_comma.

Definition AppMeter_ToKVString (m : AppMeter) : option string :=
  AppMeter_MarshalTo m MAX_STRING_LENGTH "".

Definition AppMeterColumns : list Column :=
  AppTrafficColumns ++ AppLatencyColumns ++ AppAnomalyColumns.

Definition AppMeter_WriteBlock (m : AppMeter) : Write B :=
  AppTraffic_WriteBlock (AppMeter_AppTraffic m) ;>
  AppLatency_WriteBlock (AppMeter_AppLatency m) ;>
  AppAnomaly_WriteBlock (AppMeter_AppAnomaly m).

(** * The interface *)

(** A value of the [Meter] interface. *)
Inductive Meter :=
  | MFlow (m : FlowMeter)
  | MUsage (m : UsageMeter)
  | MApp (m : AppMeter).

Definition Meter_ID (m : Meter) : Z :=
  match m with MFlow _ => FLOW_ID | MUsage _ => ACL_ID | MApp _ => APP_ID end.

(** [None] is the panic of an index out of range. *)
Definition Meter_Name (m : Meter) : option string := MeterVTAPNames !! Z.to_nat (Meter_ID m).

(** A meter of another type is ignored. *)
Definition Meter_ConcurrentMerge (m other : Meter) : Meter :=
  match m, other with
  | MFlow m, MFlow pm => MFlow (FlowMeter_ConcurrentMerge m pm)
  | MUsage m, MUsage pm => MUsage (UsageMeter_Merge m pm)
  | MApp m, MApp pm => MApp (AppMeter_ConcurrentMerge m pm)
  | _, _ => m
  end.

Definition Meter_SequentialMerge (m other : Meter) : Meter :=
  match m, other with
  | MFlow m, MFlow pm => MFlow (FlowMeter_SequentialMerge m pm)
  | MUsage m, MUsage pm => MUsage (UsageMeter_Merge m pm)
  | MApp m, MApp pm => MApp (AppMeter_SequentialMerge m pm)
  | _, _ => m
  end.

Definition Meter_Reverse (m : Meter) : Meter :=
  match m with
  | MFlow m => MFlow (FlowMeter_Reverse m)
  | MUsage m => MUsage (UsageMeter_Reverse m)
  | MApp m => MApp (AppMeter_Reverse m)
  end.

Definition Meter_SortKey (m : Meter) : Z :=
  match m with
  | MFlow m => FlowMeter_SortKey m
  | MUsage m => UsageMeter_SortKey m
  | MApp m => AppMeter_SortKey m
  end.

Definition Meter_ToKVString (m : Meter) : option string :=
  match m with
  | MFlow m => FlowMeter_ToKVString m
  | MUsage m => UsageMeter_ToKVString m
  | MApp m => AppMeter_ToKVString m
  end.

Definition Meter_WriteBlock (m : Meter) : Write B :=
  match m with
  | MFlow m => FlowMeter_WriteBlock m
  | MUsage m => UsageMeter_WriteBlock m
  | MApp m => AppMeter_WriteBlock m
  end.
End Meters.
