(* ===== verification/MeterFacts.v ===== *)
(** Facts of the meters ([Meter.v]): merging is commutative and associative, so
    that the order in which meters are merged does not matter; the protobuf
    conversions are inverse to each other; every row matches its columns by
    name and by type; the text form of a meter is a well-formed list of its
    fields that fits the buffer it is written into. *)

From S2P Require Import Prelude Strconv LineProto Ckdb CkdbFacts Meter.

#[local] Open Scope string_scope.
#[local] Open Scope list_scope.
#[local] Open Scope Z_scope.

(** * Merging *)

(** What a merge operation promises to its callers: the other argument's
    contributions can be taken in any order and any grouping. *)
Class Merge {A : Type} (merge : A -> A -> A) : Prop := {
  merge_comm x y : merge x y = merge y x;
  merge_assoc x y z : merge (merge x y) z = merge x (merge y z)
}.

Lemma wadd_comm w x y : wrap w (x + y) = wrap w (y + x).
Proof. by rewrite Z.add_comm. Qed.

Lemma wadd_assoc w x y z : wrap w (wrap w (x + y) + z) = wrap w (x + wrap w (y + z)).
Proof. unfold wrap. by rewrite Zplus_mod_idemp_l, Zplus_mod_idemp_r, Z.add_assoc. Qed.

Lemma upd_max_max x y : upd_max x y = Z.max x y.
Proof. unfold upd_max. destruct (Z.ltb_spec x y); lia. Qed.

Ltac solve_merge m :=
  split; unfold m; intros; cbn; f_equal;
  rewrite ?upd_max_max; first [apply wadd_comm | apply wadd_assoc | lia].

#[global] Instance Traffic_merge : Merge Traffic_ConcurrentMerge.
Proof. solve_merge Traffic_ConcurrentMerge. Qed.
#[global] Instance Latency_merge : Merge Latency_ConcurrentMerge.
Proof. solve_merge Latency_ConcurrentMerge. Qed.
#[global] Instance Performance_merge : Merge Performance_ConcurrentMerge.
Proof. solve_merge Performance_ConcurrentMerge. Qed.
#[global] Instance Anomaly_merge : Merge Anomaly_ConcurrentMerge.
Proof. solve_merge Anomaly_ConcurrentMerge. Qed.
#[global] Instance FlowLoad_merge : Merge FlowLoad_ConcurrentMerge.
Proof. solve_merge FlowLoad_ConcurrentMerge. Qed.
#[global] Instance UsageMeter_merge : Merge UsageMeter_Merge.
Proof. solve_merge UsageMeter_Merge. Qed.
#[global] Instance AppTraffic_merge : Merge AppTraffic_ConcurrentMerge.
Proof. solve_merge AppTraffic_ConcurrentMerge. Qed.
#[global] Instance AppLatency_merge : Merge AppLatency_ConcurrentMerge.
Proof. solve_merge AppLatency_ConcurrentMerge. Qed.
#[global] Instance AppAnomaly_merge : Merge AppAnomaly_ConcurrentMerge.
Proof. solve_merge AppAnomaly_ConcurrentMerge. Qed.

#[global] Instance FlowMeter_merge : Merge FlowMeter_ConcurrentMerge.
Proof.
  split; unfold FlowMeter_ConcurrentMerge; intros; cbn; f_equal; apply merge_comm || apply merge_assoc.
Qed.

#[global] Instance AppMeter_merge : Merge AppMeter_ConcurrentMerge.
Proof.
  split; unfold AppMeter_ConcurrentMerge; intros; cbn; f_equal; apply merge_comm || apply merge_assoc.
Qed.

(** Two contributions can be swapped. *)
Lemma merge_swap {A} (merge : A -> A -> A) `{!Merge merge} x y z :
  merge (merge x y) z = merge (merge x z) y.
Proof. by rewrite !(merge_assoc (merge := merge)), (merge_comm (merge := merge) y z). Qed.

Lemma Meter_merge_swap x y z :
  Meter_ConcurrentMerge (Meter_ConcurrentMerge x y) z
  = Meter_ConcurrentMerge (Meter_ConcurrentMerge x z) y.
Proof. destruct x, y, z; cbn; try done; f_equal; apply merge_swap; apply _. Qed.

(** ** Reversing *)

Lemma FlowMeter_Reverse_merge x y :
  FlowMeter_Reverse (FlowMeter_ConcurrentMerge x y)
  = FlowMeter_ConcurrentMerge (FlowMeter_Reverse x) (FlowMeter_Reverse y).
Proof. done. Qed.

Lemma Meter_Reverse_merge x y :
  Meter_Reverse (Meter_ConcurrentMerge x y)
  = Meter_ConcurrentMerge (Meter_Reverse x) (Meter_Reverse y).
Proof. by destruct x, y. Qed.

Lemma Meter_Reverse_involutive x : Meter_Reverse (Meter_Reverse x) = x.
Proof. destruct x as [[[] ? ? ? ?]|[]|[]]; done. Qed.

Lemma Meter_Reverse_SortKey x : Meter_SortKey (Meter_Reverse x) = Meter_SortKey x.
Proof.
  destruct x as [m|m|m]; [|..|done]; unfold Meter_SortKey, Meter_Reverse; apply wadd_comm.
Qed.

(** ** Protobuf *)

Lemma FlowMeter_pb m : FlowMeter_ReadFromPB (FlowMeter_WriteToPB m) = Some m.
Proof. by destruct m as [[] [] [] [] []]. Qed.

Lemma UsageMeter_pb m : UsageMeter_ReadFromPB (UsageMeter_WriteToPB m) = m.
Proof. by destruct m. Qed.

Lemma AppMeter_pb m : AppMeter_ReadFromPB (AppMeter_WriteToPB m) = Some m.
Proof. by destruct m as [[] [] []]. Qed.

(** * Rows *)

(** The columns that hold no field: totals of other columns. *)
Definition Traffic_derived (t : Traffic) : list (string * Z) :=
  [("packet", Traffic_PacketTx t +64 Traffic_PacketRx t);
   ("byte", Traffic_ByteTx t +64 Traffic_ByteRx t)].

Definition Performance_derived (a : Performance) : list (string * Z) :=
  [("retrans", Performance_RetransTx a +64 Performance_RetransRx a);
   ("zero_win", Performance_ZeroWinTx a +64 Performance_ZeroWinRx a)].

Definition Anomaly_client_fail (a : Anomaly) : Z :=
  Anomaly_ClientSynRepeat a +64 Anomaly_ClientSourcePortReuse a +64 Anomaly_ClientEstablishReset a.

Definition Anomaly_server_fail (a : Anomaly) : Z :=
  Anomaly_ServerSYNACKRepeat a +64 Anomaly_ServerReset a +64 Anomaly_ServerQueueLack a +64
  Anomaly_ServerEstablishReset a.

Definition Anomaly_derived (a : Anomaly) : list (string * Z) :=
  [("client_establish_fail", Anomaly_client_fail a);
   ("server_establish_fail", Anomaly_server_fail a);
   ("tcp_establish_fail", Anomaly_client_fail a +64 Anomaly_server_fail a);
   ("tcp_transfer_fail",
     Anomaly_ClientRstFlow a +64 Anomaly_ServerRstFlow a +64 Anomaly_ServerQueueLack a +64
     Anomaly_ClientHalfCloseFlow a +64 Anomaly_ServerHalfCloseFlow a +64 Anomaly_TCPTimeout a);
   ("tcp_rst_fail",
     Anomaly_ClientEstablishReset a +64 Anomaly_ServerEstablishReset a +64 Anomaly_ServerReset a +64
     Anomaly_ClientRstFlow a +64 Anomaly_ServerRstFlow a);
   ("l7_error", Anomaly_L7ClientError a +32 Anomaly_L7ServerError a)].

Definition Meter_db (m : Meter) : list (string * Z) :=
  match m with
  | MFlow m =>
      Traffic_db (FlowMeter_Traffic m) ++ Traffic_derived (FlowMeter_Traffic m)
      ++ Latency_db (FlowMeter_Latency m)
      ++ Performance_db (FlowMeter_Performance m) ++ Performance_derived (FlowMeter_Performance m)
      ++ Anomaly_db (FlowMeter_Anomaly m) ++ Anomaly_derived (FlowMeter_Anomaly m)
      ++ FlowLoad_db (FlowMeter_FlowLoad m)
  | MUsage m =>
      UsageMeter_db m
      ++ [("packet", UsageMeter_PacketTx m +64 UsageMeter_PacketRx m);
          ("byte", UsageMeter_ByteTx m +64 UsageMeter_ByteRx m)]
  | MApp m =>
      AppTraffic_db (AppMeter_AppTraffic m) ++ AppLatency_db (AppMeter_AppLatency m)
      ++ AppAnomaly_db (AppMeter_AppAnomaly m)
      ++ [("error", AppAnomaly_ClientError (AppMeter_AppAnomaly m)
                    +32 AppAnomaly_ServerError (AppMeter_AppAnomaly m))]
  end.

Definition Meter_columns (m : Meter) : list Column :=
  match m with
  | MFlow _ => FlowMeterColumns
  | MUsage _ => UsageMeterColumns
  | MApp _ => AppMeterColumns
  end.

(** A cell that holds the number [v], as an integer or as the nearest float. *)
Definition holds (v : Z) (c : cell) : Prop :=
  match c with
  | CUInt64 x | CUInt32 x => x = v
  | CFloat64 x => x = to_float64 v
  | _ => False
  end.

(** The cell of a meter column: the number its name stands for. *)
Definition meter_cell (m : Meter) (n : string) (c : cell) : Prop :=
  exists v, assoc n (Meter_db m) = Some v /\ holds v c.

Ltac solve_cell := split; [reflexivity | eexists; split; reflexivity].

Ltac solve_cells := repeat first [apply Forall2_nil_2 | apply Forall2_cons_2; [solve_cell|]].

Section MeterRows.
Context {B : Type} (Append : B -> Z -> cell -> option B).

Lemma FlowMeter_row m :
  row Append (meter_cell (MFlow m)) (FlowMeter_WriteBlock Append m) FlowMeterColumns.
Proof.
  unfold FlowMeter_WriteBlock, FlowMeterColumns.
  apply row_seq; [|apply row_seq; [|apply row_seq; [|apply row_seq]]].
  - apply row_each. solve_cells.
  - unfold Latency_WriteBlock, LatencyColumns.
    apply row_seq; [|apply row_seq]; apply row_each; solve_cells.
  - apply row_each. solve_cells.
  - unfold Anomaly_WriteBlock, AnomalyColumns. apply row_seq; apply row_each; solve_cells.
  - apply row_each. solve_cells.
Qed.

Lemma UsageMeter_row m :
  row Append (meter_cell (MUsage m)) (UsageMeter_WriteBlock Append m) UsageMeterColumns.
Proof. apply row_each. solve_cells. Qed.

Lemma AppMeter_row m :
  row Append (meter_cell (MApp m)) (AppMeter_WriteBlock Append m) AppMeterColumns.
Proof.
  unfold AppMeter_WriteBlock, AppMeterColumns. apply row_seq; [|apply row_seq].
  - apply row_write_cons; [solve_cell|]. apply row_write. solve_cell.
  - apply row_write_cons; [solve_cell|]. apply row_write_cons; [solve_cell|].
    apply row_write. solve_cell.
  - apply row_each. solve_cells.
Qed.

Lemma Meter_row m : row Append (meter_cell m) (Meter_WriteBlock Append m) (Meter_columns m).
Proof. destruct m; [apply FlowMeter_row|apply UsageMeter_row|apply AppMeter_row]. Qed.
End MeterRows.

Lemma Meter_columns_NoDup m : NoDup (Name <$> Meter_columns m).
Proof. destruct m; refine (bool_decide_unpack _ _); vm_compute; exact I. Qed.

(** * Text form *)

(** ** Well-formed values *)

Definition Traffic_ok (m : Traffic) : Prop :=
  Forall (is_u 64) [
    Traffic_PacketTx m; Traffic_PacketRx m; Traffic_ByteTx m; Traffic_ByteRx m;
    Traffic_L3ByteTx m; Traffic_L3ByteRx m; Traffic_L4ByteTx m; Traffic_L4ByteRx m;
    Traffic_NewFlow m; Traffic_ClosedFlow m
  ] /\
  Forall (is_u 32) [
    Traffic_L7Request m; Traffic_L7Response m
  ].

Definition Latency_ok (m : Latency) : Prop :=
  Forall (is_u 64) [
    Latency_RTTSum m; Latency_RTTClientSum m; Latency_RTTServerSum m; Latency_SRTSum m;
    Latency_ARTSum m; Latency_RRTSum m
  ] /\
  Forall (is_u 32) [
    Latency_RTTMax m; Latency_RTTClientMax m; Latency_RTTServerMax m; Latency_SRTMax m;
    Latency_ARTMax m; Latency_RRTMax m; Latency_RTTCount m; Latency_RTTClientCount m;
    Latency_RTTServerCount m; Latency_SRTCount m; Latency_ARTCount m; Latency_RRTCount m
  ].

Definition Performance_ok (m : Performance) : Prop :=
  Forall (is_u 64) [
    Performance_RetransTx m; Performance_RetransRx m; Performance_ZeroWinTx m;
    Performance_ZeroWinRx m
  ].

Definition Anomaly_ok (m : Anomaly) : Prop :=
  Forall (is_u 64) [
    Anomaly_ClientRstFlow m; Anomaly_ServerRstFlow m; Anomaly_ClientSynRepeat m;
    Anomaly_ServerSYNACKRepeat m; Anomaly_ClientHalfCloseFlow m; Anomaly_ServerHalfCloseFlow m;
    Anomaly_ClientSourcePortReuse m; Anomaly_ClientEstablishReset m; Anomaly_ServerReset m;
    Anomaly_ServerQueueLack m; Anomaly_ServerEstablishReset m; Anomaly_TCPTimeout m
  ] /\
  Forall (is_u 32) [
    Anomaly_L7ClientError m; Anomaly_L7ServerError m; Anomaly_L7Timeout m
  ].

Definition FlowLoad_ok (m : FlowLoad) : Prop :=
  Forall (is_u 64) [
    FlowLoad_Load m
  ].

Definition UsageMeter_ok (m : UsageMeter) : Prop :=
  Forall (is_u 64) [
    UsageMeter_PacketTx m; UsageMeter_PacketRx m; UsageMeter_ByteTx m; UsageMeter_ByteRx m;
    UsageMeter_L3ByteTx m; UsageMeter_L3ByteRx m; UsageMeter_L4ByteTx m; UsageMeter_L4ByteRx m
  ].

Definition AppTraffic_ok (m : AppTraffic) : Prop :=
  Forall (is_u 32) [
    AppTraffic_Request m; AppTraffic_Response m
  ].

Definition AppLatency_ok (m : AppLatency) : Prop :=
  Forall (is_u 64) [
    AppLatency_RRTSum m
  ] /\
  Forall (is_u 32) [
    AppLatency_RRTMax m; AppLatency_RRTCount m
  ].

Definition AppAnomaly_ok (m : AppAnomaly) : Prop :=
  Forall (is_u 32) [
    AppAnomaly_ClientError m; AppAnomaly_ServerError m; AppAnomaly_Timeout m
  ].

Definition FlowMeter_ok (m : FlowMeter) : Prop :=
  Traffic_ok (FlowMeter_Traffic m) /\ Latency_ok (FlowMeter_Latency m) /\
  Performance_ok (FlowMeter_Performance m) /\ Anomaly_ok (FlowMeter_Anomaly m) /\
  FlowLoad_ok (FlowMeter_FlowLoad m).

Definition AppMeter_ok (m : AppMeter) : Prop :=
  AppTraffic_ok (AppMeter_AppTraffic m) /\ AppLatency_ok (AppMeter_AppLatency m) /\
  AppAnomaly_ok (AppMeter_AppAnomaly m).

(** ** Lengths *)

(** Values that print with at most so many digits. *)
Definition digits (v : Z) (d : nat) : Prop := is_u 64 v /\ (d = 20%nat \/ d = 10%nat /\ is_u 32 v).

Lemma digits_length v d : digits v d -> slen (FormatUint v 10) <= Z.of_nat d.
Proof.
  intros [H1 [->|[-> H2]]]; unfold slen;
    [pose proof (FormatUint_length v H1)|pose proof (FormatUint_length_32 v H2)]; lia.
Qed.

Definition texts_len (l : list string) : Z := foldr (fun s n => slen s + 1 + n) 0 l.

Lemma texts_len_cons x l : texts_len (x :: l) = slen x + 1 + texts_len l.
Proof. done. Qed.

Lemma texts_len_app l k : texts_len (l ++ k) = texts_len l + texts_len k.
Proof. induction l as [|x l IH]; [done|]. cbn [app]. rewrite !texts_len_cons. lia. Qed.

Lemma Join_len_ne l : l <> [] -> slen (Join l ",") + 1 = texts_len l.
Proof.
  induction l as [|x l IH]; [done|]. intros _. rewrite texts_len_cons. destruct l as [|y l].
  - cbn. lia.
  - change (Join (x :: y :: l) ",") with (x +:+ "," +:+ Join (y :: l) ",").
    rewrite !slen_app. change (slen ",") with 1. specialize (IH ltac:(done)). lia.
Qed.

Lemma Join_len l : slen (Join l ",") <= texts_len l.
Proof. destruct l as [|x l]; [done|]. pose proof (Join_len_ne (x :: l) ltac:(done)). lia. Qed.

(** The length of a key-value list whose values have these many digits. *)
Definition kv_bound (fields : list string) (ds : list nat) : Z :=
  foldr (fun fd n => slen fd.1 + Z.of_nat fd.2 + 2 + n) 0 (zip fields ds).

Lemma kv_texts_len fields values ds :
  Forall2 digits values ds -> texts_len (kv_texts fields values) <= kv_bound fields ds.
Proof.
  intros H. revert fields. induction H as [|v d values ds Hd Hf IH]; intros [|f fields]; [done..|].
  rewrite kv_texts_cons. unfold kv_bound in *. cbn [zip_with foldr fst snd].
  specialize (IH fields). pose proof (digits_length _ _ Hd). pose proof (slen_nonneg f).
  destruct (v =? 0); [lia|]. cbn [texts_len foldr]. rewrite !slen_app. change (slen "i") with 1.
  unfold texts_len in *. lia.
Qed.

(** ** Assembling the parts *)

Lemma Join_texts_nonempty l : l <> [] -> Forall (fun s => s <> "") l -> Join l "," <> "".
Proof.
  intros Hl H. destruct H as [|x l Hx H]; [done|]. destruct l; [done|]. by destruct x.
Qed.

Definition kv_list (l : list string) : Prop :=
  Forall (fun s => last_char s = Some "i"%char) l.

Lemma kv_list_nonempty l : kv_list l -> Forall (fun s => s <> "") l.
Proof. intros H. eapply Forall_impl; [done|]. cbn. by intros s Hs ->. Qed.

Lemma kv_part_sub fields values cap out :
  length fields = length values ->
  slen out + texts_len (kv_texts fields values) <= cap ->
  bsub (marshalKeyValues fields values) cap out = Some (out +:+ Join (kv_texts fields values) ",").
Proof.
  intros Hl Hc. pose proof (Join_len (kv_texts fields values)). unfold bsub.
  rewrite marshalKeyValues_spec by (rewrite ?add_texts_Join by apply kv_texts_nonempty; done || lia).
  by rewrite add_texts_Join by apply kv_texts_nonempty.
Qed.

(** A middle part: from a list that ends with a comma to a longer one. *)
Lemma kv_part fields values done_ cap :
  length fields = length values -> done_ <> [] -> kv_list done_ ->
  texts_len (done_ ++ kv_texts fields values) <= cap ->
  (bsub (marshalKeyValues fields values) ;+ put_comma) cap (Join done_ "," +:+ ",")
  = Some (Join (done_ ++ kv_texts fields values) "," +:+ ",").
Proof.
  intros Hl Hd Hk Hc. rewrite texts_len_app in Hc. unfold bseq.
  pose proof (Join_len_ne done_ Hd) as Hdl.
  assert (slen (Join done_ "," +:+ ",") = texts_len done_) as Hdl'
    by (rewrite slen_app; change (slen ",") with 1; lia).
  rewrite kv_part_sub by (done || lia). cbn [mbind option_bind].
  pose proof (kv_texts_last fields values) as Hi. pose proof (Join_len (kv_texts fields values)).
  unfold put_comma. destruct (kv_texts fields values) as [|x l] eqn:E.
  - rewrite !app_nil_r. cbn [Join]. rewrite sapp_nil_r.
    assert (last_char (Join done_ "," +:+ ",") = Some ","%char) as -> by apply last_char_snoc.
    rewrite bool_decide_eq_true_2 by done. by rewrite andb_false_r.
  - rewrite <- E in *.
    assert (Join (done_ ++ kv_texts fields values) ","
            = (Join done_ "," +:+ ",") +:+ Join (kv_texts fields values) ",") as Hj.
    { rewrite Join_app by (rewrite ?E; done). by rewrite sapp_assoc. }
    rewrite <- Hj. pose proof (Join_len_ne (done_ ++ kv_texts fields values)) as Hlen.
    rewrite texts_len_app in Hlen. specialize (Hlen ltac:(by destruct done_)).
    assert (last_char (Join (done_ ++ kv_texts fields values) ",") = Some "i"%char) as Hlast.
    { apply Join_last; [by destruct done_|]. by apply Forall_app. }
    rewrite Hlast. rewrite bool_decide_eq_false_2 by done. cbn [negb].
    rewrite (proj2 (Z.ltb_lt _ _)).
    + cbn [andb bif]. apply appends_bputc. change (slen (String "," "")) with 1. lia.
    + rewrite Hj, slen_app. pose proof (slen_nonneg (Join (kv_texts fields values) ",")).
      pose proof (slen_nonneg (Join done_ ",")). lia.
Qed.

(** The last part: the trailing comma, if there is one, is taken back. *)
Lemma kv_last fields values done_ cap :
  length fields = length values -> done_ <> [] -> kv_list done_ ->
  texts_len (done_ ++ kv_texts fields values) <= cap ->
  (bsub (marshalKeyValues fields values) ;+ strip_comma) cap (Join done_ "," +:+ ",")
  = Some (Join (done_ ++ kv_texts fields values) ",").
Proof.
  intros Hl Hd Hk Hc. rewrite texts_len_app in Hc. unfold bseq.
  pose proof (Join_len_ne done_ Hd) as Hdl.
  rewrite kv_part_sub by (done || (rewrite slen_app; change (slen ",") with 1; lia)).
  cbn [mbind option_bind]. unfold strip_comma.
  pose proof (kv_texts_last fields values) as Hi.
  destruct (kv_texts fields values) as [|x l] eqn:E.
  - rewrite app_nil_r. cbn [Join]. rewrite sapp_nil_r.
    change (Join done_ "," +:+ ",") with (Join done_ "," +:+ String "," "").
    by rewrite last_char_snoc, bool_decide_eq_true_2, drop_last_snoc by done.
  - rewrite <- E in *.
    assert (Join (done_ ++ kv_texts fields values) ","
            = (Join done_ "," +:+ ",") +:+ Join (kv_texts fields values) ",") as <-.
    { rewrite Join_app by (rewrite ?E; done). by rewrite sapp_assoc. }
    rewrite (Join_last "i"%char); [|by destruct done_|by apply Forall_app].
    by rewrite bool_decide_eq_false_2.
Qed.

(** ** The flow meter *)

Definition Traffic_digits : list nat := replicate 11 20%nat ++ replicate 2 10%nat.
Definition Latency_digits : list nat := replicate 6 20%nat ++ replicate 12 10%nat.
Definition Performance_digits : list nat := replicate 6 20%nat.
Definition Anomaly_digits : list nat := replicate 15 20%nat ++ replicate 4 10%nat.
Definition FlowLoad_digits : list nat := [20%nat].

Lemma digits_64 v : is_u 64 v -> digits v 20.
Proof. intros H. split; [done|by left]. Qed.

Lemma digits_32 v : is_u 32 v -> digits v 10.
Proof. intros H. split; [by apply (is_u_mono 32); [|lia]|by right]. Qed.

Ltac solve_digits :=
  repeat first
    [ apply Forall2_nil_2
    | apply Forall2_cons_2;
      [first [apply digits_64 | apply digits_32]; first [done | apply wrap_range; lia]|] ].

(** Names the components of a [Forall] over a literal list. *)
Ltac split_Forall :=
  repeat match goal with
  | H : _ /\ _ |- _ => destruct H
  | H : Forall _ (_ :: _) |- _ => apply Forall_cons in H
  end.

Lemma Traffic_values_digits t : Traffic_ok t -> Forall2 digits (Traffic_values t) Traffic_digits.
Proof. intros H. unfold Traffic_ok in H. split_Forall. cbv [Traffic_values Traffic_digits]. solve_digits. Qed.

Lemma Latency_values_digits l : Latency_ok l -> Forall2 digits (Latency_values l) Latency_digits.
Proof. intros H. unfold Latency_ok in H. split_Forall. cbv [Latency_values Latency_digits]. solve_digits. Qed.

Lemma Performance_values_digits a :
  Performance_ok a -> Forall2 digits (Performance_values a) Performance_digits.
Proof. intros H. unfold Performance_ok in H. split_Forall. cbv [Performance_values]. solve_digits. Qed.

Lemma Anomaly_values_digits a : Anomaly_ok a -> Forall2 digits (Anomaly_values a) Anomaly_digits.
Proof. intros H. unfold Anomaly_ok in H. split_Forall. cbv [Anomaly_values]. solve_digits. Qed.

Lemma FlowLoad_values_digits l : FlowLoad_ok l -> Forall2 digits (FlowLoad_values l) FlowLoad_digits.
Proof. intros H. unfold FlowLoad_ok in H. split_Forall. solve_digits. Qed.

Definition FlowMeter_fields : list string :=
  Traffic_fields ++ Latency_fields ++ Performance_fields ++ Anomaly_fields ++ FlowLoad_fields.

Definition FlowMeter_values (m : FlowMeter) : list Z :=
  Traffic_values (FlowMeter_Traffic m) ++ Latency_values (FlowMeter_Latency m)
  ++ Performance_values (FlowMeter_Performance m) ++ Anomaly_values (FlowMeter_Anomaly m)
  ++ FlowLoad_values (FlowMeter_FlowLoad m).

Definition FlowMeter_digits : list nat :=
  Traffic_digits ++ Latency_digits ++ Performance_digits ++ Anomaly_digits ++ FlowLoad_digits.

Lemma kv_texts_app f1 f2 v1 v2 :
  length f1 = length v1 -> kv_texts (f1 ++ f2) (v1 ++ v2) = kv_texts f1 v1 ++ kv_texts f2 v2.
Proof. intros H. unfold kv_texts. rewrite zip_with_app by done. apply omap_app. Qed.

(** The text of the number of packets, which is always written. *)
Definition packet_text (t : Traffic) : string :=
  "packet=" +:+ FormatUint (Traffic_PacketTx t +64 Traffic_PacketRx t) 10 +:+ "i".

Lemma packet_text_last t : last_char (packet_text t) = Some "i"%char.
Proof. unfold packet_text. rewrite sapp_assoc. apply last_char_snoc. Qed.

Lemma drop_last_comma a d : drop_last ((a +:+ d) +:+ "i,") = a +:+ d +:+ "i".
Proof.
  change "i," with ("i" +:+ String "," ""). rewrite (sapp_assoc (a +:+ d)), drop_last_snoc.
  by rewrite <- sapp_assoc.
Qed.

Lemma join_comma a d r : ((a +:+ d) +:+ "i,") +:+ r = (a +:+ d +:+ "i") +:+ "," +:+ r.
Proof.
  change "i," with ("i" +:+ ","). by rewrite !sapp_assoc.
Qed.

Lemma Traffic_MarshalTo_spec t cap :
  let l := packet_text t :: kv_texts Traffic_fields (Traffic_values t) in
  texts_len l <= cap -> Traffic_MarshalTo t cap "" = Some (Join l ",").
Proof.
  intros l Hc. pose proof (Join_len (kv_texts Traffic_fields (Traffic_values t))) as Hj.
  unfold l in *. rewrite texts_len_cons in Hc. clear l. unfold Traffic_MarshalTo, packet_text in *.
  set (d := FormatUint _ 10) in *. rewrite !slen_app in Hc. change (slen "i") with 1 in Hc.
  pose proof (slen_nonneg d). change (slen "packet=") with 7 in Hc.
  assert (0 <= texts_len (kv_texts Traffic_fields (Traffic_values t))) as H0
    by (pose proof (slen_nonneg (Join (kv_texts Traffic_fields (Traffic_values t)) ",")); lia).
  rewrite (appends_then _ "packet=") by (apply appends_bput || (change (slen "") with 0; change (slen "packet=") with 7; lia)).
  rewrite (appends_then _ d) by (apply appends_bput || (rewrite slen_app; change (slen "" + slen "packet=") with 7; lia)).
  rewrite (appends_then _ "i,") by (apply appends_bput || (rewrite !slen_app; change (slen "" + slen "packet=") with 7; change (slen "i,") with 2; lia)).
  rewrite sapp_nil_l. rewrite marshalKeyValues_spec.
  - cbn [mbind option_bind]. rewrite add_texts_Join by apply kv_texts_nonempty.
    destruct (kv_texts Traffic_fields (Traffic_values t)) as [|x l] eqn:E.
    + f_equal. apply drop_last_comma.
    + rewrite (proj2 (Z.eqb_neq _ _)).
      * f_equal. change (Join ((("packet=" +:+ d +:+ "i")) :: x :: l) ",")
          with (("packet=" +:+ d +:+ "i") +:+ "," +:+ Join (x :: l) ",").
        apply join_comma.
      * intros E0. apply (Join_texts_nonempty (x :: l)); [done| |].
        -- rewrite <- E. apply kv_texts_nonempty.
        -- destruct (Join (x :: l) ","); [done|]. rewrite slen_cons in E0. pose proof (slen_nonneg s). lia.
  - done.
  - rewrite add_texts_Join by apply kv_texts_nonempty. rewrite !slen_app.
    change (slen "packet=") with 7. change (slen "i,") with 2. lia.
Qed.

Lemma bseq_step m1 m2 cap out o : m1 cap out = Some o -> (m1 ;+ m2) cap out = m2 cap o.
Proof. intros H. unfold bseq. by rewrite H. Qed.

Lemma bseq_step2 m1 m2 m3 cap out o :
  (m1 ;+ m2) cap out = Some o -> (m1 ;+ m2 ;+ m3) cap out = m3 cap o.
Proof. unfold bseq. destruct (m1 cap out); [|done]. cbn. intros H. by rewrite H. Qed.

(** A comma after a list that does not end with one. *)
Lemma put_comma_kv l cap :
  l <> [] -> kv_list l -> texts_len l <= cap ->
  put_comma cap (Join l ",") = Some (Join l "," +:+ ",").
Proof.
  intros Hl Hk Hc. unfold put_comma. rewrite (Join_last "i"%char) by done.
  rewrite bool_decide_eq_false_2 by done. pose proof (Join_len_ne l Hl).
  pose proof (Join_texts_nonempty l Hl (kv_list_nonempty l Hk)) as Hne.
  assert (0 < slen (Join l ",")) by (destruct (Join l ","); [done|];
    rewrite slen_cons; pose proof (slen_nonneg s); lia).
  rewrite (proj2 (Z.ltb_lt _ _)) by done. cbn [andb negb bif]. apply appends_bputc.
  change (slen (String "," "")) with 1. lia.
Qed.

Definition FlowMeter_texts (m : FlowMeter) : list string :=
  packet_text (FlowMeter_Traffic m) :: kv_texts FlowMeter_fields (FlowMeter_values m).

Lemma texts_len_nonneg l : 0 <= texts_len l.
Proof. pose proof (Join_len l). pose proof (slen_nonneg (Join l ",")). lia. Qed.

Lemma FlowMeter_MarshalTo_spec m cap :
  texts_len (FlowMeter_texts m) <= cap ->
  FlowMeter_MarshalTo m cap "" = Some (Join (FlowMeter_texts m) ",").
Proof.
  unfold FlowMeter_texts, FlowMeter_fields, FlowMeter_values.
  rewrite !kv_texts_app by done.
  set (p := packet_text _). set (k1 := kv_texts Traffic_fields _).
  set (k2 := kv_texts Latency_fields _). set (k3 := kv_texts Performance_fields _).
  set (k4 := kv_texts Anomaly_fields _). set (k5 := kv_texts FlowLoad_fields _).
  rewrite texts_len_cons, !texts_len_app. intros Hc.
  pose proof (texts_len_nonneg k1). pose proof (texts_len_nonneg k2). pose proof (texts_len_nonneg k3).
  pose proof (texts_len_nonneg k4). pose proof (texts_len_nonneg k5). pose proof (slen_nonneg p).
  assert (kv_list (p :: k1)) as L1 by (constructor; [apply packet_text_last|apply kv_texts_last]).
  assert (kv_list ((p :: k1) ++ k2)) as L2 by (apply Forall_app; split; [done|apply kv_texts_last]).
  assert (kv_list (((p :: k1) ++ k2) ++ k3)) as L3 by (apply Forall_app; split; [done|apply kv_texts_last]).
  assert (kv_list ((((p :: k1) ++ k2) ++ k3) ++ k4)) as L4
    by (apply Forall_app; split; [done|apply kv_texts_last]).
  unfold FlowMeter_MarshalTo.
  rewrite (bseq_step _ _ _ _ (Join (p :: k1) ",")).
  2: { unfold bsub. rewrite Traffic_MarshalTo_spec; [done|]. rewrite texts_len_cons.
       fold p k1. change (slen "") with 0. lia. }
  rewrite (bseq_step _ _ _ _ _ (put_comma_kv (p :: k1) cap ltac:(done) L1
             ltac:(rewrite texts_len_cons; lia))).
  unfold Latency_MarshalTo, Performance_MarshalTo, Anomaly_MarshalTo, FlowLoad_MarshalTo.
  rewrite (bseq_step2 _ _ _ _ _ _ (kv_part Latency_fields (Latency_values (FlowMeter_Latency m)) (p :: k1) cap eq_refl
             ltac:(done) L1
             ltac:(rewrite texts_len_app, texts_len_cons; fold k2; lia))). fold k2.
  rewrite (bseq_step2 _ _ _ _ _ _ (kv_part Performance_fields (Performance_values (FlowMeter_Performance m)) ((p :: k1) ++ k2) cap eq_refl
             ltac:(done) L2
             ltac:(rewrite !texts_len_app, texts_len_cons; fold k3; lia))). fold k3.
  rewrite (bseq_step2 _ _ _ _ _ _ (kv_part Anomaly_fields (Anomaly_values (FlowMeter_Anomaly m)) (((p :: k1) ++ k2) ++ k3) cap eq_refl
             ltac:(done) L3
             ltac:(rewrite !texts_len_app, texts_len_cons; fold k4; lia))). fold k4.
  rewrite (kv_last FlowLoad_fields (FlowLoad_values (FlowMeter_FlowLoad m)) ((((p :: k1) ++ k2) ++ k3) ++ k4) cap eq_refl
             ltac:(done) L4
             ltac:(rewrite !texts_len_app, texts_len_cons; fold k5; lia)). fold k5.
  by rewrite <- !app_assoc.
Qed.

Lemma Forall2_digits_app v1 v2 d1 d2 :
  Forall2 digits v1 d1 -> Forall2 digits v2 d2 -> Forall2 digits (v1 ++ v2) (d1 ++ d2).
Proof. apply Forall2_app. Qed.

Lemma FlowMeter_values_digits m : FlowMeter_ok m -> Forall2 digits (FlowMeter_values m) FlowMeter_digits.
Proof.
  intros (H1 & H2 & H3 & H4 & H5). unfold FlowMeter_values, FlowMeter_digits.
  repeat apply Forall2_digits_app.
  - by apply Traffic_values_digits.
  - by apply Latency_values_digits.
  - by apply Performance_values_digits.
  - by apply Anomaly_values_digits.
  - by apply FlowLoad_values_digits.
Qed.

(** The longest text of a flow meter. *)
Definition FLOW_METER_MAX : Z := 1858.

Lemma FlowMeter_texts_len m : FlowMeter_ok m -> texts_len (FlowMeter_texts m) <= FLOW_METER_MAX.
Proof.
  intros H. unfold FlowMeter_texts. rewrite texts_len_cons.
  pose proof (kv_texts_len FlowMeter_fields _ _ (FlowMeter_values_digits m H)) as Hb.
  change (kv_bound FlowMeter_fields FlowMeter_digits) with 1829 in Hb.
  unfold packet_text. rewrite !slen_app. change (slen "packet=") with 7. change (slen "i") with 1.
  pose proof (digits_length _ _ (digits_64 _ (wrap_range 64 (Traffic_PacketTx (FlowMeter_Traffic m)
    + Traffic_PacketRx (FlowMeter_Traffic m)) ltac:(lia)))). unfold FLOW_METER_MAX. lia.
Qed.

Lemma digits_u64 values ds : Forall2 digits values ds -> Forall (is_u 64) values.
Proof. intros H. induction H as [|v d values ds [Hd _] _ IH]; by constructor. Qed.

(** ** The usage meter *)

Definition UsageMeter_fields : list string :=
  ["packet_tx="; "packet_rx="; "packet="; "byte_tx="; "byte_rx="; "byte=";
   "l3_byte_tx="; "l3_byte_rx="; "l4_byte_tx="; "l4_byte_rx="].

Definition UsageMeter_values (m : UsageMeter) : list Z :=
  [UsageMeter_PacketTx m; UsageMeter_PacketRx m; UsageMeter_PacketTx m +64 UsageMeter_PacketRx m;
   UsageMeter_ByteTx m; UsageMeter_ByteRx m; UsageMeter_ByteTx m +64 UsageMeter_ByteRx m;
   UsageMeter_L3ByteTx m; UsageMeter_L3ByteRx m; UsageMeter_L4ByteTx m; UsageMeter_L4ByteRx m].

Definition UsageMeter_texts (m : UsageMeter) : list string :=
  zip_with (fun f v => f +:+ FormatUint v 10 +:+ "i") UsageMeter_fields (UsageMeter_values m).

(** One more text after what is written so far, and the last one. *)
Lemma appends_text m f d r :
  appends m (String "i" (String "," r)) ->
  appends (bput f ;+ bput d ;+ m) ((f +:+ d +:+ "i") +:+ "," +:+ r).
Proof.
  intros H. assert ((f +:+ d +:+ "i") +:+ "," +:+ r = f +:+ d +:+ String "i" (String "," r)) as ->
    by (by rewrite <- !sapp_assoc).
  apply appends_bseq; [apply appends_bput|]. by apply appends_bseq; [apply appends_bput|].
Qed.

Lemma appends_next m f d r :
  appends m (String "i" (String "," r)) ->
  appends (bput (String "i" (String "," f)) ;+ bput d ;+ m)
    (String "i" (String "," ((f +:+ d +:+ "i") +:+ "," +:+ r))).
Proof. apply (appends_text m (String "i" (String "," f))). Qed.

Lemma appends_final f d :
  appends (bput (String "i" (String "," f)) ;+ bput d ;+ bputc "i"%char)
    (String "i" (String "," (f +:+ d +:+ "i"))).
Proof.
  apply (appends_bseq _ _ (String "i" (String "," f)) (d +:+ "i")); [apply appends_bput|].
  apply appends_bseq; [apply appends_bput|apply appends_bputc].
Qed.

Lemma UsageMeter_MarshalTo_spec m : appends (UsageMeter_MarshalTo m) (Join (UsageMeter_texts m) ",").
Proof.
  unfold UsageMeter_texts, UsageMeter_fields, UsageMeter_values. cbn [zip_with Join].
  unfold UsageMeter_MarshalTo. apply appends_text.
  do 8 apply appends_next. apply appends_final.
Qed.

Lemma UsageMeter_texts_len m : UsageMeter_ok m -> texts_len (UsageMeter_texts m) <= 2048.
Proof.
  intros H. unfold UsageMeter_ok in H. split_Forall.
  assert (Forall (is_u 64) (UsageMeter_values m)) as Hv
    by (repeat first [apply Forall_nil_2 | apply Forall_cons_2; [done || (apply wrap_range; lia)|]]).
  assert (forall fields values, Forall (is_u 64) values ->
    texts_len (zip_with (fun f v => f +:+ FormatUint v 10 +:+ "i") fields values)
    <= foldr (fun f n => slen f + 22 + n) 0 fields) as Hg.
  { clear. intros fields. induction fields as [|f fields IH]; intros values Hv; [done|].
    destruct Hv as [|v values Hv Hvs]; cbn [zip_with foldr].
    - cbn. pose proof (slen_nonneg f). specialize (IH [] ltac:(done)).
      pose proof (texts_len_nonneg (zip_with (fun f v => f +:+ FormatUint v 10 +:+ "i") fields [])). lia.
    - rewrite texts_len_cons, !slen_app. change (slen "i") with 1. specialize (IH values Hvs).
      pose proof (digits_length v 20 (digits_64 v Hv)). lia. }
  etrans; [apply Hg; done|]. vm_compute. done.
Qed.

Lemma UsageMeter_texts_kv m : kv_list (UsageMeter_texts m).
Proof.
  repeat first [apply Forall_nil_2 | apply Forall_cons_2; [rewrite sapp_assoc; apply last_char_snoc|]].
Qed.

(** ** The application meter *)

(** A list of texts with a comma after each of them. *)
Definition commas (l : list string) : string :=
  match l with [] => "" | _ => Join l "," +:+ "," end.

Lemma commas_ne l : l <> [] -> commas l = Join l "," +:+ ",".
Proof. by destruct l. Qed.

Lemma kv_part_any fields values done_ cap :
  length fields = length values -> kv_list done_ ->
  texts_len (done_ ++ kv_texts fields values) <= cap ->
  (bsub (marshalKeyValues fields values) ;+ put_comma) cap (commas done_)
  = Some (commas (done_ ++ kv_texts fields values)).
Proof.
  intros Hl Hk Hc. destruct done_ as [|x l].
  - cbn [app] in *. rewrite (bseq_step _ _ _ _ (Join (kv_texts fields values) ",")).
    2: { rewrite kv_part_sub; [done|done|]. cbn [commas]. change (slen "") with 0. lia. }
    pose proof (kv_texts_last fields values) as Hi. pose proof (kv_texts_nonempty fields values).
    destruct (kv_texts fields values) as [|x l] eqn:E; [done|].
    rewrite commas_ne by done. by apply put_comma_kv.
  - rewrite !commas_ne by done. by apply kv_part.
Qed.

Definition AppMeter_fields : list string := AppTraffic_fields ++ AppLatency_fields ++ AppAnomaly_fields.

Definition AppMeter_values (m : AppMeter) : list Z :=
  AppTraffic_values (AppMeter_AppTraffic m) ++ AppLatency_values (AppMeter_AppLatency m)
  ++ AppAnomaly_values (AppMeter_AppAnomaly m).

Definition AppMeter_digits : list nat :=
  [10; 10]%nat ++ [20; 10; 10]%nat ++ [10; 10; 10; 10]%nat.

Lemma AppMeter_values_digits m : AppMeter_ok m -> Forall2 digits (AppMeter_values m) AppMeter_digits.
Proof.
  intros (H1 & H2 & H3). unfold AppTraffic_ok, AppLatency_ok, AppAnomaly_ok in *. split_Forall.
  unfold AppMeter_values, AppMeter_digits. cbv [AppTraffic_values AppLatency_values AppAnomaly_values].
  repeat apply Forall2_digits_app; solve_digits.
Qed.

Lemma AppMeter_MarshalTo_spec m cap :
  texts_len (kv_texts AppMeter_fields (AppMeter_values m)) <= cap ->
  AppMeter_MarshalTo m cap "" = Some (commas (kv_texts AppMeter_fields (AppMeter_values m))).
Proof.
  unfold AppMeter_fields, AppMeter_values. rewrite !kv_texts_app by done.
  set (k1 := kv_texts AppTraffic_fields _). set (k2 := kv_texts AppLatency_fields _).
  set (k3 := kv_texts AppAnomaly_fields _). rewrite !texts_len_app. intros Hc.
  pose proof (texts_len_nonneg k1). pose proof (texts_len_nonneg k2). pose proof (texts_len_nonneg k3).
  assert (kv_list k1) as L1 by apply kv_texts_last.
  assert (kv_list (k1 ++ k2)) as L2 by (apply Forall_app; split; [done|apply kv_texts_last]).
  unfold AppMeter_MarshalTo, AppTraffic_MarshalTo, AppLatency_MarshalTo, AppAnomaly_MarshalTo.
  change "" with (commas []) at 1.
  rewrite (bseq_step2 _ _ _ _ _ _ (kv_part_any AppTraffic_fields
    (AppTraffic_values (AppMeter_AppTraffic m)) [] cap eq_refl ltac:(constructor)
    ltac:(cbn [app]; fold k1; lia))). fold k1.
  rewrite (bseq_step2 _ _ _ _ _ _ (kv_part_any AppLatency_fields
    (AppLatency_values (AppMeter_AppLatency m)) k1 cap eq_refl L1
    ltac:(rewrite texts_len_app; fold k2; lia))). fold k2.
  rewrite (kv_part_any AppAnomaly_fields (AppAnomaly_values (AppMeter_AppAnomaly m)) (k1 ++ k2) cap
    eq_refl L2 ltac:(rewrite !texts_len_app; fold k3; lia)). fold k3.
  by rewrite <- app_assoc.
Qed.

(** A comma at the end leaves an empty field, which is no field. *)
Lemma parse_line_commas l : l <> [] -> parse_line (commas l) = None.
Proof.
  intros Hl. rewrite commas_ne by done. unfold parse_line.
  assert (exists k, Split ","%char (Join l "," +:+ ",") = k ++ [""]) as [k Hk].
  { clear Hl. generalize (Join l ","). intros s. induction s as [|c s [k IH]]; [by exists [""]|].
    rewrite sapp_cons. cbn. rewrite IH. case_bool_decide; [by exists ("" :: k)|].
    destruct k as [|x k]; cbn; [|by exists (String c x :: k)].
    exfalso. assert (length (Split ","%char (s +:+ ",")) = 1%nat) as H1 by (by rewrite IH).
    clear -H1. induction s as [|d s IHs]; [done|]. rewrite sapp_cons in H1. cbn in H1.
    case_bool_decide.
    - cbn in H1. by destruct (Split ","%char (s +:+ ",")) eqn:E; [apply Split_ne in E|].
    - destruct (Split ","%char (s +:+ ",")) eqn:E; [by apply Split_ne in E|]. by apply IHs. }
  destruct (Join l "," +:+ ",") eqn:E; [by destruct (Join l ",")|]. rewrite Hk.
  clear. induction k as [|x k IH]; [done|]. cbn [app mapM]. destruct (parse_kv x); [|done].
  cbn. by rewrite IH.
Qed.

(** * Properties *)

(** A usage meter for the witnesses. *)
Definition usage_example (n : Z) : UsageMeter := mkUsageMeter n 2 300 4 5 6 7 8.

(** C13: Merging meters does not depend on their order: folding any permutation
    of meters into a meter, meters of other kinds included, gives the same
    meter; the sequential merge is the concurrent one; and reversing the
    result is merging the reversed meters. *)
Theorem meter_merge_order_independent (m : Meter) (l l' : list Meter) :
  l ≡ₚ l' ->
  foldl Meter_ConcurrentMerge m l = foldl Meter_ConcurrentMerge m l' /\
  foldl Meter_SequentialMerge m l = foldl Meter_ConcurrentMerge m l /\
  Meter_Reverse (foldl Meter_ConcurrentMerge m l)
    = foldl Meter_ConcurrentMerge (Meter_Reverse m) (Meter_Reverse <$> l).
Proof.
  intros Hp. split_and!.
  - revert m. induction Hp as [|x l l' _ IH|x y l|l1 l2 l3 _ IH1 _ IH2]; intros m; cbn.
    + done.
    + apply IH.
    + by rewrite Meter_merge_swap.
    + by rewrite IH1.
  - clear Hp. revert m. induction l as [|x l IH]; intros m; [done|]. cbn. rewrite IH.
    by destruct m, x.
  - clear Hp. revert m. induction l as [|x l IH]; intros m; [done|]. cbn.
    by rewrite IH, Meter_Reverse_merge.
Qed.

Example meter_merge_order_independent_witness :
  foldl Meter_ConcurrentMerge (MUsage (usage_example 1))
    [MUsage (usage_example (2 ^ 64 - 1)); MUsage (usage_example 40)]
  = MUsage (mkUsageMeter 40 6 900 12 15 18 21 24).
Proof.
  destruct (meter_merge_order_independent (MUsage (usage_example 1))
    [MUsage (usage_example (2 ^ 64 - 1)); MUsage (usage_example 40)]
    [MUsage (usage_example 40); MUsage (usage_example (2 ^ 64 - 1))]) as [-> _].
  - apply Permutation_swap.
  - vm_compute. reflexivity.
Defined.

(** C35: A meter written into a batch of its own table appends, without error,
    one value to each column: a value of the column's type that is the field
    whose [db] tag is the column's name, or the total the name stands for, with
    latency sums as the nearest float; the column names are distinct. *)
Theorem meter_row_matches {B} (Append : B -> Z -> cell -> option B) `{!ClickHouse Append}
    (m : Meter) (b : Block B) :
  opened Append (Batch b) (index b) (Meter_columns m) ->
  NoDup (Name <$> Meter_columns m) /\
  exists b', Meter_WriteBlock Append m b = WOk b' /\
    index b' = index b + zlen (Meter_columns m) /\
    appended Append (meter_cell m) (Batch b) (Batch b') (index b) (Meter_columns m).
Proof. intros H. split; [apply Meter_columns_NoDup|]. apply row_written; [apply Meter_row|done]. Qed.

Example meter_row_matches_witness :
  exists b', Meter_WriteBlock ListAppend (MUsage (usage_example 1))
    (mkBlock (empty_batch UsageMeterColumns) 0) = WOk b' /\ index b' = 10.
Proof.
  destruct (meter_row_matches ListAppend (MUsage (usage_example 1))
    (mkBlock (empty_batch UsageMeterColumns) 0) (empty_batch_opened UsageMeterColumns))
    as (_ & b' & Hw & Hi & _).
  exists b'. split; [exact Hw|exact Hi].
Defined.

(** The text of every well-formed flow meter fits its buffer of
    [MAX_STRING_LENGTH] bytes, and reads back as the number of packets followed
    by exactly its non-zero fields with their values. *)
Theorem flow_meter_text (m : FlowMeter) :
  FlowMeter_ok m ->
  exists s, FlowMeter_ToKVString m = Some s /\ slen s <= FLOW_METER_MAX /\
    parse_line s = Some (("packet", FlowMeter_SortKey m)
                         :: kv_pairs FlowMeter_fields (FlowMeter_values m)).
Proof.
  intros H. pose proof (FlowMeter_texts_len m H) as Hl. exists (Join (FlowMeter_texts m) ",").
  split_and!.
  - unfold FlowMeter_ToKVString. rewrite FlowMeter_MarshalTo_spec; [done|].
    unfold FLOW_METER_MAX, MAX_STRING_LENGTH in *. lia.
  - pose proof (Join_len (FlowMeter_texts m)). lia.
  - destruct (parse_kv_texts FlowMeter_fields (FlowMeter_values m) eq_refl
      (digits_u64 _ _ (FlowMeter_values_digits m H))) as [Hp Hw].
    destruct (parse_kv_text "packet=" (FlowMeter_SortKey m) eq_refl (wrap_range 64 _ ltac:(lia)))
      as [Hp0 Hw0].
    apply parse_line_Join.
    + constructor; [|apply kv_texts_nonempty]. by intros ?.
    + cbn [FlowMeter_texts mapM]. unfold packet_text. unfold FlowMeter_SortKey in *. by rewrite Hp0, Hp.
    + by constructor.
Qed.

(** A flow meter for the witness. *)
Definition flow_example : FlowMeter :=
  mkFlowMeter (mkTraffic 1 0 64 0 0 0 0 0 0 0 0 0) (mkLatency 0 0 0 0 0 0 0 0 0 0 0 0 0 0 0 0 0 0)
    (mkPerformance 0 0 0 0) (mkAnomaly 0 0 0 0 0 0 0 0 0 0 0 0 0 0 0) (mkFlowLoad 7).

Example flow_meter_text_witness :
  exists s, FlowMeter_ToKVString flow_example = Some s /\
    parse_line s = Some [("packet", 1); ("packet_tx", 1); ("byte_tx", 64); ("byte", 64); ("flow_load", 7)].
Proof.
  destruct (flow_meter_text flow_example) as (s & Hs & _ & Hp).
  - repeat split; repeat (apply Forall_nil_2 || apply Forall_cons_2); done.
  - exists s. split; [exact Hs|]. rewrite Hp. vm_compute. reflexivity.
Defined.

(** The text of every well-formed usage meter fits its buffer and reads back
    as all of its fields and totals, zeros included. *)
Theorem usage_meter_text (m : UsageMeter) :
  UsageMeter_ok m ->
  exists s, UsageMeter_ToKVString m = Some s /\
    parse_line s = Some (zip (field_name <$> UsageMeter_fields) (UsageMeter_values m)).
Proof.
  intros H. pose proof (UsageMeter_texts_len m H) as Hl. exists (Join (UsageMeter_texts m) ",").
  split.
  - unfold UsageMeter_ToKVString. rewrite UsageMeter_MarshalTo_spec; [done|]. pose proof (Join_len (UsageMeter_texts m)).
    change (slen "") with 0. unfold MAX_STRING_LENGTH. lia.
  - unfold UsageMeter_ok in H. split_Forall.
    assert (Forall (is_u 64) (UsageMeter_values m)) as Hv
      by (repeat first [apply Forall_nil_2 | apply Forall_cons_2; [done || (apply wrap_range; lia)|]]).
    apply parse_line_Join.
    + apply kv_list_nonempty, UsageMeter_texts_kv.
    + assert (forallb field_ok UsageMeter_fields = true) as Hf by done. revert Hv Hf.
      unfold UsageMeter_texts. generalize (UsageMeter_values m). generalize UsageMeter_fields. clear.
      intros fields. induction fields as [|f fields IH]; intros values Hv Hf; [done|].
      destruct Hv as [|v values Hv Hvs]; [done|]. cbn in Hf. apply andb_prop in Hf as [Hf Hfs].
      cbn [zip_with mapM fmap list_fmap]. rewrite (proj1 (parse_kv_text f v Hf Hv)).
      by rewrite (IH values Hvs Hfs).
    + assert (forallb field_ok UsageMeter_fields = true) as Hf by done. revert Hv Hf.
      unfold UsageMeter_texts. generalize (UsageMeter_values m). generalize UsageMeter_fields. clear.
      intros fields. induction fields as [|f fields IH]; intros values Hv Hf; [constructor|].
      destruct Hv as [|v values Hv Hvs]; [constructor|]. cbn in Hf. apply andb_prop in Hf as [Hf Hfs].
      cbn [zip_with]. constructor; [apply (parse_kv_text f v Hf Hv)|by apply IH].
Qed.

Example usage_meter_text_witness :
  exists s, UsageMeter_ToKVString (usage_example 1) = Some s /\
    parse_line s = Some [("packet_tx", 1); ("packet_rx", 2); ("packet", 3); ("byte_tx", 300);
      ("byte_rx", 4); ("byte", 304); ("l3_byte_tx", 5); ("l3_byte_rx", 6); ("l4_byte_tx", 7);
      ("l4_byte_rx", 8)].
Proof.
  destruct (usage_meter_text (usage_example 1)) as (s & Hs & Hp).
  - repeat (apply Forall_nil_2 || apply Forall_cons_2); done.
  - exists s. split; [exact Hs|]. rewrite Hp. vm_compute. reflexivity.
Defined.

(** The text of an application meter with a non-zero field ends with a
    comma, which [FlowMeter.MarshalTo] takes back and [AppMeter.MarshalTo] does
    not: it is not a well-formed list of fields.  The list without it is. *)
Theorem app_meter_text_trailing_comma (m : AppMeter) :
  AppMeter_ok m -> kv_texts AppMeter_fields (AppMeter_values m) <> [] ->
  exists s, AppMeter_ToKVString m = Some (s +:+ ",") /\ parse_line (s +:+ ",") = None /\
    parse_line s = Some (kv_pairs AppMeter_fields (AppMeter_values m)).
Proof.
  intros H Hn. pose proof (AppMeter_values_digits m H) as Hd.
  pose proof (kv_texts_len AppMeter_fields _ _ Hd) as Hl.
  assert (kv_bound AppMeter_fields AppMeter_digits <= MAX_STRING_LENGTH) by (vm_compute; done).
  exists (Join (kv_texts AppMeter_fields (AppMeter_values m)) ",").
  rewrite <- (commas_ne _ Hn). split_and!.
  - unfold AppMeter_ToKVString. rewrite AppMeter_MarshalTo_spec; [done|lia].
  - by apply parse_line_commas.
  - destruct (parse_kv_texts AppMeter_fields (AppMeter_values m) eq_refl (digits_u64 _ _ Hd)).
    apply parse_line_Join; [apply kv_texts_nonempty|done..].
Qed.

(** An application meter for the witness. *)
Definition app_example : AppMeter :=
  mkAppMeter (mkAppTraffic 3 2) (mkAppLatency 0 0 0) (mkAppAnomaly 0 0 0).

Example app_meter_text_trailing_comma_witness :
  AppMeter_ToKVString app_example = Some "request=3i,response=2i," /\
  exists s, parse_line (s +:+ ",") = None.
Proof.
  destruct (app_meter_text_trailing_comma app_example) as (s & Hs & Hn & _).
  - repeat split; repeat (apply Forall_nil_2 || apply Forall_cons_2); done.
  - done.
  - split; [vm_compute; reflexivity|]. exists s. exact Hn.
Defined.

(** [GetMeterID] finds the last index of a name: for every meter the
    name that [Name] gives maps back to its [ID], [FLOW_ID] included. *)
Theorem GetMeterID_Name (m : Meter) :
  exists name, Meter_Name m = Some name /\ GetMeterID name = Meter_ID m.
Proof. destruct m; (eexists; split; [reflexivity|vm_compute; reflexivity]). Qed.
