(* ===== verification/Tag.v ===== *)
(** The tags of [server/libs/zerodoc]: what a document is about ([tag.go],
    [tag_mini.go]), with the tap ports of [server/libs/datatype/tap_port.go].

    A [Code] is a set of tag fields as a 64-bit mask.  The long methods that go
    through every field in turn are cut at the same fields into four parts. *)

From S2P Require Import Prelude Strconv LineProto Ckdb Meter.

#[local] Open Scope string_scope.
#[local] Open Scope list_scope.
#[local] Open Scope Z_scope.

(** * Tap ports *)

Definition TAPPORT_FROM_LOCAL_MAC : Z := 0.
Definition TAPPORT_FROM_GATEWAY_MAC : Z := 1.
Definition TAPPORT_FROM_TUNNEL_IPV4 : Z := 2.
Definition TAPPORT_FROM_TUNNEL_IPV6 : Z := 3.
Definition TAPPORT_FROM_ID : Z := 4.
Definition TAPPORT_FROM_NETFLOW : Z := 5.
Definition TAPPORT_FROM_SFLOW : Z := 6.

Definition FROM_OFFSET : Z := 60.
Definition TUNNEL_TYPE_OFFSET : Z := 32.
Definition RESERVED_OFFSET : Z := 40.

Definition FromLocalMAC (tunnelType mac : Z) : Z :=
  Z.lor (Z.lor mac (shl 64 tunnelType TUNNEL_TYPE_OFFSET)) (TAPPORT_FROM_LOCAL_MAC ≪ FROM_OFFSET).

Definition FromNetFlow (mac : Z) : Z := Z.lor mac (TAPPORT_FROM_NETFLOW ≪ FROM_OFFSET).

Definition FromSFlow (mac : Z) : Z := Z.lor mac (TAPPORT_FROM_SFLOW ≪ FROM_OFFSET).

Definition FromGatewayMAC (tunnelType mac : Z) : Z :=
  Z.lor (Z.lor mac (shl 64 tunnelType TUNNEL_TYPE_OFFSET)) (TAPPORT_FROM_GATEWAY_MAC ≪ FROM_OFFSET).

Definition FromTunnelIP (ip : Z) (isIPv6 : bool) : Z :=
  if negb isIPv6 then Z.lor ip (TAPPORT_FROM_TUNNEL_IPV4 ≪ FROM_OFFSET)
  else Z.lor ip (TAPPORT_FROM_TUNNEL_IPV6 ≪ FROM_OFFSET).

(** [id] is a signed [int]. *)
Definition FromID (tunnelType id : Z) : Z :=
  Z.lor (Z.lor (u64 id) (shl 64 tunnelType TUNNEL_TYPE_OFFSET)) (TAPPORT_FROM_ID ≪ FROM_OFFSET).

Definition SplitToPortTypeTunnel (p : Z) : Z * Z * Z :=
  (u32 p, u8 (p ≫ FROM_OFFSET), u8 (p ≫ 32)).

Definition SetU16IntoReservedBytes (p v : Z) : Z := Z.lor p (shl 64 v RESERVED_OFFSET).

(** * Codes *)

Definition IP : Z := 1 ≪ 0.
Definition L3EpcID : Z := 1 ≪ 1.
Definition L3Device : Z := 1 ≪ 2.
Definition SubnetID : Z := 1 ≪ 3.
Definition RegionID : Z := 1 ≪ 4.
Definition PodNodeID : Z := 1 ≪ 5.
Definition HostID : Z := 1 ≪ 6.
Definition AZID : Z := 1 ≪ 7.
Definition PodGroupID : Z := 1 ≪ 8.
Definition PodNSID : Z := 1 ≪ 9.
Definition PodID : Z := 1 ≪ 10.
Definition MAC : Z := 1 ≪ 11.
Definition PodClusterID : Z := 1 ≪ 12.
Definition ServiceID : Z := 1 ≪ 13.
Definition Resource : Z := 1 ≪ 14.

Definition IPPath : Z := 1 ≪ 20.
Definition L3EpcIDPath : Z := 1 ≪ 21.
Definition L3DevicePath : Z := 1 ≪ 22.
Definition SubnetIDPath : Z := 1 ≪ 23.
Definition RegionIDPath : Z := 1 ≪ 24.
Definition PodNodeIDPath : Z := 1 ≪ 25.
Definition HostIDPath : Z := 1 ≪ 26.
Definition AZIDPath : Z := 1 ≪ 27.
Definition PodGroupIDPath : Z := 1 ≪ 28.
Definition PodNSIDPath : Z := 1 ≪ 29.
Definition PodIDPath : Z := 1 ≪ 30.
Definition MACPath : Z := 1 ≪ 31.
Definition PodClusterIDPath : Z := 1 ≪ 32.
Definition ServiceIDPath : Z := 1 ≪ 33.
Definition ResourcePath : Z := 1 ≪ 34.

Definition Direction : Z := 1 ≪ 40.
Definition ACLGID : Z := 1 ≪ 41.
Definition Protocol : Z := 1 ≪ 42.
Definition ServerPort : Z := 1 ≪ 43.
Definition TAPType : Z := 1 ≪ 45.
Definition VTAPID : Z := 1 ≪ 47.
Definition TAPSide : Z := 1 ≪ 48.
Definition TAPPort : Z := 1 ≪ 49.
Definition IsKeyService : Z := 1 ≪ 50.
Definition L7Protocol : Z := 1 ≪ 51.

Definition TagType : Z := 1 ≪ 62.
Definition TagValue : Z := 1 ≪ 63.

(** [code & c != 0] *)
Definition has (code c : Z) : bool := negb (Z.land code c =? 0).

(** [a &^ b] and [^b] on 64 bits. *)
Definition andnot (a b : Z) : Z := Z.land a (2 ^ 64 - 1 - b).

Definition HasEdgeTagField (c : Z) : bool := negb (Z.land c 0xfffff00000 =? 0).

(** * Directions and sides *)

Definition NodeSide : Z := 1 ≪ 3.
Definition HypervisorSide : Z := 2 ≪ 3.
Definition GatewayHypervisorSide : Z := 3 ≪ 3.
Definition GatewaySide : Z := 4 ≪ 3.
Definition ProcessSide : Z := 5 ≪ 3.

Definition CLIENT_SERVER_MASK : Z := 0x7.
Definition SIDE_TYPE_MASK : Z := 0xf8.

Definition ClientToServer : Z := 1.
Definition ServerToClient : Z := 2.
Definition LocalToLocal : Z := 4.

Definition IsClientToServer (d : Z) : bool := Z.land d CLIENT_SERVER_MASK =? ClientToServer.

Definition IsServerToClient (d : Z) : bool := Z.land d CLIENT_SERVER_MASK =? ServerToClient.

Definition IsGateway (d : Z) : bool :=
  negb (Z.land (Z.land d SIDE_TYPE_MASK) (Z.lor GatewaySide GatewayHypervisorSide) =? 0).

Definition Client : Z := 1.
Definition Server : Z := 2.
Definition Local : Z := 4.
Definition ClientNode : Z := Z.lor Client NodeSide.
Definition ServerNode : Z := Z.lor Server NodeSide.
Definition ClientHypervisor : Z := Z.lor Client HypervisorSide.
Definition ServerHypervisor : Z := Z.lor Server HypervisorSide.
Definition ClientGatewayHypervisor : Z := Z.lor Client GatewayHypervisorSide.
Definition ServerGatewayHypervisor : Z := Z.lor Server GatewayHypervisorSide.
Definition ClientGateway : Z := Z.lor Client GatewaySide.
Definition ServerGateway : Z := Z.lor Server GatewaySide.
Definition ClientProcess : Z := Z.lor Client ProcessSide.
Definition ServerProcess : Z := Z.lor Server ProcessSide.
Definition Rest : Z := 0.

(** The slice of names: an index without a name holds the empty string. *)
Definition TAPSideEnumsString : list string :=
  let names := [(Rest, "rest"); (Client, "c"); (Server, "s"); (Local, "local");
    (ClientNode, "c-nd"); (ServerNode, "s-nd"); (ClientHypervisor, "c-hv");
    (ServerHypervisor, "s-hv"); (ClientGatewayHypervisor, "c-gw-hv");
    (ServerGatewayHypervisor, "s-gw-hv"); (ClientGateway, "c-gw"); (ServerGateway, "s-gw");
    (ClientProcess, "c-p"); (ServerProcess, "s-p")] in
  foldl (fun l nv => <[Z.to_nat nv.1 := nv.2]> l) (replicate (Z.to_nat (ServerProcess + 1)) "") names.

(** [None] is the panic of an index out of range. *)
Definition TAPSideEnum_String (s : Z) : option string := TAPSideEnumsString !! Z.to_nat s.

Definition ToTAPSide (d : Z) : Z := d.

Definition TAG_TYPE_TUNNEL_IP_ID : Z := 4.

(** * Printing *)

Definition ID_OTHER : Z := -1.
Definition ID_INTERNET : Z := -2.

Definition marshalUint16WithSpecialID (v : Z) : string :=
  if (v =? ID_OTHER) || (v =? ID_INTERNET) then FormatInt v 10
  else FormatUint (Z.land (u64 v) 65535) 10.

Definition marshalInt32WithSpecialID (v : Z) : Z :=
  if (v =? ID_OTHER) || (v =? ID_INTERNET) then v
  else i32 (Z.land (u64 v) 65535).

Definition unmarshalInt32WithSpecialID (v : Z) : Z := i16 v.

(** [net.IP.String]: dotted decimal for 4 bytes and for IPv4-mapped addresses,
    hexadecimal groups otherwise, with [::] for the first longest run of at
    least two zero groups. *)
Definition IPv4_String (b : list Z) : string := Join ((fun x => FormatUint x 10) <$> b) ".".

Fixpoint groups (b : list Z) : list Z :=
  match b with
  | x :: y :: b => (x * 256 + y) :: groups b
  | _ => []
  end.

Fixpoint zero_run (g : list Z) : nat :=
  match g with
  | x :: g => if x =? 0 then S (zero_run g) else 0%nat
  | [] => 0%nat
  end.

(** The start and the length of the longest run of zero groups, from group [i]. *)
Fixpoint longest_run (g : list Z) (i : nat) (best : nat * nat) : nat * nat :=
  match g with
  | [] => best
  | _ :: g' =>
      let n := zero_run g in
      longest_run g' (S i) (if (best.2 <? n)%nat then (i, n) else best)
  end.

Definition IPv6_String (b : list Z) : string :=
  let g := groups b in
  let hex := fun l => Join ((fun x => FormatUint x 16) <$> l) ":" in
  let '(s, n) := longest_run g 0 (0%nat, 0%nat) in
  if (n <? 2)%nat then hex g else hex (take s g) +:+ "::" +:+ hex (drop (s + n) g).

Definition v4_in_v6_prefix : list Z := [0; 0; 0; 0; 0; 0; 0; 0; 0; 0; 255; 255].

Definition hex_byte (x : Z) : string := String (digit (x / 16)) (String (digit (x mod 16)) "").

Definition IP_String (b : list Z) : string :=
  if bool_decide (b = []) then "<nil>"
  else if zlen b =? 4 then IPv4_String b
  else if (zlen b =? 16) && bool_decide (take 12 b = v4_in_v6_prefix) then IPv4_String (drop 12 b)
  else if negb (zlen b =? 16) then "?" +:+ Join (hex_byte <$> b) ""
  else IPv6_String b.

(** [if len(t.IP6) == 0 { t.IP6 = net.IPv6zero }]: the address that is written. *)
Definition ip6_or_zero (ip : list Z) : list Z := if zlen ip =? 0 then replicate 16 0 else ip.

Definition TAP_PORT_STR_LEN : Z := 8.

(** Eight hexadecimal digits; [None] is the panic of slicing at a negative index,
    or of slicing past the end of the buffer, here or at the next field. *)
Definition putTAPPort (tapPort : Z) : Marshal := fun cap out =>
  let s := FormatUint tapPort 16 in
  if (TAP_PORT_STR_LEN <? slen s) || (cap <? slen out + TAP_PORT_STR_LEN) then None
  else Some (out +:+ String.substring 0 (Z.to_nat (TAP_PORT_STR_LEN - slen s)) "00000000" +:+ s).

(** * Tags *)

Record Field := mkField {
  Field_GlobalThreadID : Z;
  Field_IP6 : list Z;
  Field_MAC : Z;
  Field_IP : Z;
  Field_L3EpcID : Z;
  Field_L3DeviceID : Z;
  Field_L3DeviceType : Z;
  Field_RegionID : Z;
  Field_SubnetID : Z;
  Field_HostID : Z;
  Field_PodNodeID : Z;
  Field_AZID : Z;
  Field_PodGroupID : Z;
  Field_PodNSID : Z;
  Field_PodID : Z;
  Field_PodClusterID : Z;
  Field_ServiceID : Z;
  Field_ResourceGl0ID : Z;
  Field_ResourceGl0Type : Z;
  Field_ResourceGl1ID : Z;
  Field_ResourceGl1Type : Z;
  Field_ResourceGl2ID : Z;
  Field_ResourceGl2Type : Z;
  Field_MAC1 : Z;
  Field_IP61 : list Z;
  Field_IP1 : Z;
  Field_L3EpcID1 : Z;
  Field_L3DeviceID1 : Z;
  Field_L3DeviceType1 : Z;
  Field_RegionID1 : Z;
  Field_SubnetID1 : Z;
  Field_HostID1 : Z;
  Field_PodNodeID1 : Z;
  Field_AZID1 : Z;
  Field_PodGroupID1 : Z;
  Field_PodNSID1 : Z;
  Field_PodID1 : Z;
  Field_PodClusterID1 : Z;
  Field_ServiceID1 : Z;
  Field_ResourceGl0ID1 : Z;
  Field_ResourceGl0Type1 : Z;
  Field_ResourceGl1ID1 : Z;
  Field_ResourceGl1Type1 : Z;
  Field_ResourceGl2ID1 : Z;
  Field_ResourceGl2Type1 : Z;
  Field_ACLGID : Z;
  Field_Direction : Z;
  Field_Protocol : Z;
  Field_ServerPort : Z;
  Field_VTAPID : Z;
  Field_TAPPort : Z;
  Field_TAPSide : Z;
  Field_TAPType : Z;
  Field_IsIPv6 : Z;
  Field_IsKeyService : Z;
  Field_L7Protocol : Z;
  Field_TagType : Z;
  Field_TagValue : Z
}.

Record Tag := mkTag {
  Tag_Field : Field;
  Tag_Code : Z;
  Tag_id : string
}.

(** ** Columns *)

Definition GenTagColumns_1 (code : Z) : list Column :=
  [
    NewColumnWithGroupBy "time" DateTime;
    NewColumn "_tid" UInt8 |> SetComment "用于区分trident不同的pipeline" |> SetIndex IndexNone
  ]
  ++ (if has code ACLGID then [
    NewColumnWithGroupBy "acl_gid" UInt16 |> SetComment "ACL组ID"
  ] else [])
  ++ (if has code AZID then [
    NewColumnWithGroupBy "az_id" UInt16 |> SetComment "可用区ID"
  ] else [])
  ++ (if has code AZIDPath then [
    NewColumnWithGroupBy "az_id_0" UInt16 |> SetComment "ip4/6_0对应的可用区ID";
    NewColumnWithGroupBy "az_id_1" UInt16 |> SetComment "ip4/6_1对应的可用区ID"
  ] else [])
  ++ (if has code Direction then [
    NewColumnWithGroupBy "direction" LowCardinalityString |> SetComment "统计量对应的流方向. c2s: ip为客户端, s2c: ip为服务端"
  ] else [])
  ++ (if has code HostID then [
    NewColumnWithGroupBy "host_id" UInt16 |> SetComment "宿主机ID"
  ] else [])
  ++ (if has code HostIDPath then [
    NewColumnWithGroupBy "host_id_0" UInt16 |> SetComment "ip4/6_0对应的宿主机ID";
    NewColumnWithGroupBy "host_id_1" UInt16 |> SetComment "ip4/6_1对应的宿主机ID"
  ] else [])
  ++ (if has code IP then [
    NewColumnWithGroupBy "ip4" IPv4 |> SetComment "IPv4地址";
    NewColumnWithGroupBy "ip6" IPv6 |> SetComment "IPV6地址";
    NewColumnWithGroupBy "is_ipv4" UInt8 |> SetIndex IndexMinmax |> SetComment "是否IPV4地址. 0: 否, ip6字段有效, 1: 是, ip4字段有效"
  ] else [])
  ++ (if has code IPPath then [
    NewColumnWithGroupBy "ip4_0" IPv4;
    NewColumnWithGroupBy "ip4_1" IPv4;
    NewColumnWithGroupBy "ip6_0" IPv6;
    NewColumnWithGroupBy "ip6_1" IPv6;
    NewColumnWithGroupBy "is_ipv4" UInt8 |> SetIndex IndexMinmax
  ] else [])
  ++ (if has code IsKeyService then [
    NewColumnWithGroupBy "is_key_service" UInt8 |> SetComment "是否属于关键服务0: 否, 1: 是" |> SetIndex IndexMinmax
  ] else []).

Definition GenTagColumns_2 (code : Z) : list Column :=
  (if has code L3Device then [
    NewColumnWithGroupBy "l3_device_id" UInt32 |> SetComment "ip对应的资源ID";
    NewColumnWithGroupBy "l3_device_type" UInt8 |> SetComment "ip对应的资源类型"
  ] else [])
  ++ (if has code L3DevicePath then [
    NewColumnWithGroupBy "l3_device_id_0" UInt32 |> SetComment "ip4/6_0对应的资源ID";
    NewColumnWithGroupBy "l3_device_id_1" UInt32 |> SetComment "ip4/6_1对应的资源ID";
    NewColumnWithGroupBy "l3_device_type_0" UInt8 |> SetComment "ip4/6_0对应的资源类型";
    NewColumnWithGroupBy "l3_device_type_1" UInt8 |> SetComment "ip4/6_1对应的资源类型"
  ] else [])
  ++ (if has code L3EpcID then [
    NewColumnWithGroupBy "l3_epc_id" Int32 |> SetComment "ip对应的EPC ID"
  ] else [])
  ++ (if has code L3EpcIDPath then [
    NewColumnWithGroupBy "l3_epc_id_0" Int32 |> SetComment "ip4/6_0对应的EPC ID";
    NewColumnWithGroupBy "l3_epc_id_1" Int32 |> SetComment "ip4/6_1对应的EPC ID"
  ] else [])
  ++ (if has code L7Protocol then [
    NewColumnWithGroupBy "l7_protocol" UInt8 |> SetComment "应用协议0: unknown, 1: http, 2: dns, 3: mysql, 4: redis, 5: dubbo, 6: kafka"
  ] else [])
  ++ (if has code MAC then [

  ] else [])
  ++ (if has code MACPath then [

  ] else []).

Definition GenTagColumns_3 (code : Z) : list Column :=
  (if has code PodClusterID then [
    NewColumnWithGroupBy "pod_cluster_id" UInt16 |> SetComment "ip对应的容器集群ID"
  ] else [])
  ++ (if has code PodClusterIDPath then [
    NewColumnWithGroupBy "pod_cluster_id_0" UInt16 |> SetComment "ip4/6_0对应的容器集群ID";
    NewColumnWithGroupBy "pod_cluster_id_1" UInt16 |> SetComment "ip4/6_1对应的容器集群ID"
  ] else [])
  ++ (if has code PodGroupID then [
    NewColumnWithGroupBy "pod_group_id" UInt32 |> SetComment "ip对应的容器工作负载ID"
  ] else [])
  ++ (if has code PodGroupIDPath then [
    NewColumnWithGroupBy "pod_group_id_0" UInt32 |> SetComment "ip4/6_0对应的容器工作负载ID";
    NewColumnWithGroupBy "pod_group_id_1" UInt32 |> SetComment "ip4/6_1对应的容器工作负载ID"
  ] else [])
  ++ (if has code PodID then [
    NewColumnWithGroupBy "pod_id" UInt32 |> SetComment "ip对应的容器POD ID"
  ] else [])
  ++ (if has code PodIDPath then [
    NewColumnWithGroupBy "pod_id_0" UInt32 |> SetComment "ip4/6_0对应的容器POD ID";
    NewColumnWithGroupBy "pod_id_1" UInt32 |> SetComment "ip4/6_1对应的容器POD ID"
  ] else [])
  ++ (if has code PodNodeID then [
    NewColumnWithGroupBy "pod_node_id" UInt32 |> SetComment "ip对应的容器节点ID"
  ] else [])
  ++ (if has code PodNodeIDPath then [
    NewColumnWithGroupBy "pod_node_id_0" UInt32 |> SetComment "ip4/6_0对应的容器节点ID";
    NewColumnWithGroupBy "pod_node_id_1" UInt32 |> SetComment "ip4/6_1对应的容器节点ID"
  ] else [])
  ++ (if has code PodNSID then [
    NewColumnWithGroupBy "pod_ns_id" UInt16 |> SetComment "ip对应的容器命名空间ID"
  ] else [])
  ++ (if has code PodNSIDPath then [
    NewColumnWithGroupBy "pod_ns_id_0" UInt16 |> SetComment "ip4/6_0对应的容器命名空间ID";
    NewColumnWithGroupBy "pod_ns_id_1" UInt16 |> SetComment "ip4/6_1对应的容器命名空间ID"
  ] else [])
  ++ (if has code Protocol then [
    NewColumnWithGroupBy "protocol" UInt8 |> SetComment "0: 非IP包, 1-255: ip协议号(其中 1:icmp 6:tcp 17:udp)"
  ] else [])
  ++ (if has code RegionID then [
    NewColumnWithGroupBy "region_id" UInt16 |> SetComment "ip对应的云平台区域ID"
  ] else [])
  ++ (if has code RegionIDPath then [
    NewColumnWithGroupBy "region_id_0" UInt16 |> SetComment "ip4/6_0对应的云平台区域ID";
    NewColumnWithGroupBy "region_id_1" UInt16 |> SetComment "ip4/6_1对应的云平台区域ID"
  ] else []).

Definition GenTagColumns_4 (code : Z) : list Column :=
  (if has code Resource then [
    NewColumnWithGroupBy "resource_gl0_id" UInt32 |> SetComment "ip对应的容器pod优先的资源ID, 取值优先级为pod_id -> pod_node_id -> l3_device_id";
    NewColumnWithGroupBy "resource_gl0_type" UInt8 |> SetComment "资源类型, 0:IP地址(无法对应资源), 0-100:deviceType(其中10:pod, 14:podNode), 101-200:DeepFlow抽象出的资源(其中101:podGroup, 102:service), 201-255:其他";
    NewColumnWithGroupBy "resource_gl1_id" UInt32 |> SetComment "ip对应的工作负载优先的资源ID, 取值优先级为pod_group_id -> pod_node_id -> l3_device_id";
    NewColumnWithGroupBy "resource_gl1_type" UInt8 |> SetComment "资源类型, 0:IP地址(无法对应资源), 0-100:deviceType(其中10:pod, 14:podNode), 101-200:DeepFlow抽象出的资源(其中101:podGroup, 102:service), 201-255:其他";
    NewColumnWithGroupBy "resource_gl2_id" UInt32 |> SetComment "ip对应的服务优先的资源ID, 取值优先级为service_id  -> pod_node_id -> l3_device_id";
    NewColumnWithGroupBy "resource_gl2_type" UInt8 |> SetComment "资源类型, 0:IP地址(无法对应资源), 0-100:deviceType(其中10:pod, 14:podNode), 101-200:DeepFlow抽象出的资源(其中101:podGroup, 102:service), 201-255:其他"
  ] else [])
  ++ (if has code ResourcePath then [
    NewColumnWithGroupBy "resource_gl0_id_0" UInt32 |> SetComment "ip0对应的容器pod优先的资源ID, 取值优先级为pod_id -> pod_node_id -> l3_device_id";
    NewColumnWithGroupBy "resource_gl0_type_0" UInt8 |> SetComment "资源类型, 0:IP地址(无法对应资源), 0-100:deviceType(其中10:pod, 14:podNode), 101-200:DeepFlow抽象出的资源(其中101:podGroup, 102:service), 201-255:其他";
    NewColumnWithGroupBy "resource_gl1_id_0" UInt32 |> SetComment "ip0对应的工作负载优先的资源ID, 取值优先级为pod_group_id -> pod_node_id -> l3_device_id";
    NewColumnWithGroupBy "resource_gl1_type_0" UInt8 |> SetComment "资源类型, 0:IP地址(无法对应资源), 0-100:deviceType(其中10:pod, 14:podNode), 101-200:DeepFlow抽象出的资源(其中101:podGroup, 102:service), 201-255:其他";
    NewColumnWithGroupBy "resource_gl2_id_0" UInt32 |> SetComment "ip0对应的服务优先的资源ID, 取值优先级为service_id  -> pod_node_id -> l3_device_id";
    NewColumnWithGroupBy "resource_gl2_type_0" UInt8 |> SetComment "资源类型, 0:IP地址(无法对应资源), 0-100:deviceType(其中10:pod, 14:podNode), 101-200:DeepFlow抽象出的资源(其中101:podGroup, 102:service), 201-255:其他";
    NewColumnWithGroupBy "resource_gl0_id_1" UInt32 |> SetComment "ip1对应的容器pod优先的资源ID, 取值优先级为pod_id -> pod_node_id -> l3_device_id";
    NewColumnWithGroupBy "resource_gl0_type_1" UInt8 |> SetComment "资源类型, 0:IP地址(无法对应资源), 0-100:deviceType(其中10:pod, 14:podNode), 101-200:DeepFlow抽象出的资源(其中101:podGroup, 102:service), 201-255:其他";
    NewColumnWithGroupBy "resource_gl1_id_1" UInt32 |> SetComment "ip1对应的工作负载优先的资源ID, 取值优先级为pod_group_id -> pod_node_id -> l3_device_id";
    NewColumnWithGroupBy "resource_gl1_type_1" UInt8 |> SetComment "资源类型, 0:IP地址(无法对应资源), 0-100:deviceType(其中10:pod, 14:podNode), 101-200:DeepFlow抽象出的资源(其中101:podGroup, 102:service), 201-255:其他";
    NewColumnWithGroupBy "resource_gl2_id_1" UInt32 |> SetComment "ip1对应的服务优先的资源ID, 取值优先级为service_id  -> pod_node_id -> l3_device_id";
    NewColumnWithGroupBy "resource_gl2_type_1" UInt8 |> SetComment "资源类型, 0:IP地址(无法对应资源), 0-100:deviceType(其中10:pod, 14:podNode), 101-200:DeepFlow抽象出的资源(其中101:podGroup, 102:service), 201-255:其他"
  ] else [])
  ++ (if has code ServiceID then [
    NewColumnWithGroupBy "service_id" UInt32 |> SetComment "ip对应的服务ID"
  ] else [])
  ++ (if has code ServiceIDPath then [
    NewColumnWithGroupBy "service_id_0" UInt32 |> SetComment "ip4/6_0对应的服务ID";
    NewColumnWithGroupBy "service_id_1" UInt32 |> SetComment "ip4/6_1对应的服务ID"
  ] else [])
  ++ (if has code ServerPort then [
    NewColumnWithGroupBy "server_port" UInt16 |> SetIndex IndexSet |> SetComment "服务端端口"
  ] else [])
  ++ (if has code SubnetID then [
    NewColumnWithGroupBy "subnet_id" UInt16 |> SetComment "ip对应的子网ID(0: 未找到)"
  ] else [])
  ++ (if has code SubnetIDPath then [
    NewColumnWithGroupBy "subnet_id_0" UInt16 |> SetComment "ip4/6_0对应的子网ID(0: 未找到)";
    NewColumnWithGroupBy "subnet_id_1" UInt16 |> SetComment "ip4/6_1对应的子网ID(0: 未找到)"
  ] else [])
  ++ (if has code TagType && has code TagValue then [
    NewColumnWithGroupBy "tag_type" UInt8 |> SetComment "1: 省份(仅针对geo库), 2: TCP Flag(仅针对packet库), 3: 播送类型(仅针对packet库), 4: 隧道分发点ID(仅针对flow库), 5: TTL, 6: 包长范围";
    NewColumnWithGroupBy "tag_value" LowCardinalityString |> SetComment "tag_type对应的具体值. tag_type=1: 省份, tag_type=2: TCP包头的Flag字段, tag_type=3: 播送类性(broadcast: 广播, multicast: 组播, unicast: 未知单播), tag_type=4: 隧道分发点ID, tag_type=5: TTL的值, tag_type=6: 包长范围值"
  ] else [])
  ++ (if has code TAPPort then [
    NewColumnWithGroupBy "tap_port_type" UInt8 |> SetIndex IndexNone |> SetComment "采集位置标识类型 0: MAC，1: IPv4, 2: IPv6, 3: ID, 4: NetFlow, 5: SFlow";
    NewColumnWithGroupBy "tunnel_type" UInt8 |> SetIndex IndexNone |> SetComment "隧道封装类型 0：--，1：VXLAN，2：IPIP，3：GRE";
    NewColumnWithGroupBy "tap_port" UInt32 |> SetIndex IndexNone |> SetComment "采集位置标识 若tap_type为3: 虚拟网络流量源, 表示虚拟接口MAC地址低4字节 00000000~FFFFFFFF"
  ] else [])
  ++ (if has code TAPSide then [
    NewColumnWithGroupBy "tap_side" LowCardinalityString |> SetComment "流量采集位置(c: 客户端(0侧)采集, s: 服务端(1侧)采集)"
  ] else [])
  ++ (if has code TAPType then [
    NewColumnWithGroupBy "tap_type" UInt8 |> SetComment "流量采集点(1-2,4-255: 接入网络流量, 3: 虚拟网络流量)"
  ] else [])
  ++ (if has code VTAPID then [
    NewColumnWithGroupBy "vtap_id" UInt16 |> SetComment "采集器的ID"
  ] else []).

Definition GenTagColumns (code : Z) : list Column :=
  GenTagColumns_1 code ++ GenTagColumns_2 code ++ GenTagColumns_3 code ++ GenTagColumns_4 code.

Section Tags.
Context {B : Type} (Append : B -> Z -> cell -> option B).

(** ** Rows *)

Definition Tag_WriteBlock_1 (code : Z) (f : Field) (time : Z) : Write B :=
  WriteDateTime Append time ;>
  WriteUInt8 Append (Field_GlobalThreadID f) ;>
  wif (has code ACLGID)
    (WriteUInt16 Append (Field_ACLGID f)) ;>
  wif (has code AZID)
    (WriteUInt16 Append (Field_AZID f)) ;>
  wif (has code AZIDPath)
    (WriteUInt16 Append (Field_AZID f) ;>
     WriteUInt16 Append (Field_AZID1 f)) ;>
  wif (has code Direction)
    (if IsClientToServer (Field_Direction f) then WriteString Append "c2s"
     else WriteString Append "s2c") ;>
  wif (has code HostID)
    (WriteUInt16 Append (Field_HostID f)) ;>
  wif (has code HostIDPath)
    (WriteUInt16 Append (Field_HostID f) ;>
     WriteUInt16 Append (Field_HostID1 f)) ;>
  wif (has code IP)
    (WriteIPv4 Append (Field_IP f) ;>
     WriteIPv6 Append (ip6_or_zero (Field_IP6 f)) ;>
     WriteUInt8 Append (u8 (1 - Field_IsIPv6 f))) ;>
  wif (has code IPPath)
    (WriteIPv4 Append (Field_IP f) ;>
     WriteIPv4 Append (Field_IP1 f) ;>
     WriteIPv6 Append (ip6_or_zero (Field_IP6 f)) ;>
     WriteIPv6 Append (ip6_or_zero (Field_IP61 f)) ;>
     WriteUInt8 Append (u8 (1 - Field_IsIPv6 f))) ;>
  wif (has code IsKeyService)
    (WriteUInt8 Append (Field_IsKeyService f)).

Definition Tag_WriteBlock_2 (code : Z) (f : Field) : Write B :=
  wif (has code L3Device)
    (WriteUInt32 Append (Field_L3DeviceID f) ;>
     WriteUInt8 Append (Field_L3DeviceType f)) ;>
  wif (has code L3DevicePath)
    (WriteUInt32 Append (Field_L3DeviceID f) ;>
     WriteUInt32 Append (Field_L3DeviceID1 f) ;>
     WriteUInt8 Append (Field_L3DeviceType f) ;>
     WriteUInt8 Append (Field_L3DeviceType1 f)) ;>
  wif (has code L3EpcID)
    (WriteInt32 Append (marshalInt32WithSpecialID (Field_L3EpcID f))) ;>
  wif (has code L3EpcIDPath)
    (WriteInt32 Append (marshalInt32WithSpecialID (Field_L3EpcID f)) ;>
     WriteInt32 Append (marshalInt32WithSpecialID (Field_L3EpcID1 f))) ;>
  wif (has code L7Protocol)
    (WriteUInt8 Append (Field_L7Protocol f)).

Definition Tag_WriteBlock_3 (code : Z) (f : Field) : Write B :=
  wif (has code PodClusterID)
    (WriteUInt16 Append (Field_PodClusterID f)) ;>
  wif (has code PodClusterIDPath)
    (WriteUInt16 Append (Field_PodClusterID f) ;>
     WriteUInt16 Append (Field_PodClusterID1 f)) ;>
  wif (has code PodGroupID)
    (WriteUInt32 Append (Field_PodGroupID f)) ;>
  wif (has code PodGroupIDPath)
    (WriteUInt32 Append (Field_PodGroupID f) ;>
     WriteUInt32 Append (Field_PodGroupID1 f)) ;>
  wif (has code PodID)
    (WriteUInt32 Append (Field_PodID f)) ;>
  wif (has code PodIDPath)
    (WriteUInt32 Append (Field_PodID f) ;>
     WriteUInt32 Append (Field_PodID1 f)) ;>
  wif (has code PodNodeID)
    (WriteUInt32 Append (Field_PodNodeID f)) ;>
  wif (has code PodNodeIDPath)
    (WriteUInt32 Append (Field_PodNodeID f) ;>
     WriteUInt32 Append (Field_PodNodeID1 f)) ;>
  wif (has code PodNSID)
    (WriteUInt16 Append (Field_PodNSID f)) ;>
  wif (has code PodNSIDPath)
    (WriteUInt16 Append (Field_PodNSID f) ;>
     WriteUInt16 Append (Field_PodNSID1 f)) ;>
  wif (has code Protocol)
    (WriteUInt8 Append (Field_Protocol f)) ;>
  wif (has code RegionID)
    (WriteUInt16 Append (Field_RegionID f)) ;>
  wif (has code RegionIDPath)
    (WriteUInt16 Append (Field_RegionID f) ;>
     WriteUInt16 Append (Field_RegionID1 f)).

Definition Tag_WriteBlock_4 (code : Z) (f : Field) : Write B :=
  wif (has code Resource || has code ResourcePath)
    (WriteUInt32 Append (Field_ResourceGl0ID f) ;>
     WriteUInt8 Append (Field_ResourceGl0Type f) ;>
     WriteUInt32 Append (Field_ResourceGl1ID f) ;>
     WriteUInt8 Append (Field_ResourceGl1Type f) ;>
     WriteUInt32 Append (Field_ResourceGl2ID f) ;>
     WriteUInt8 Append (Field_ResourceGl2Type f)) ;>
  wif (has code ResourcePath)
    (WriteUInt32 Append (Field_ResourceGl0ID1 f) ;>
     WriteUInt8 Append (Field_ResourceGl0Type1 f) ;>
     WriteUInt32 Append (Field_ResourceGl1ID1 f) ;>
     WriteUInt8 Append (Field_ResourceGl1Type1 f) ;>
     WriteUInt32 Append (Field_ResourceGl2ID1 f) ;>
     WriteUInt8 Append (Field_ResourceGl2Type1 f)) ;>
  wif (has code ServiceID)
    (WriteUInt32 Append (Field_ServiceID f)) ;>
  wif (has code ServiceIDPath)
    (WriteUInt32 Append (Field_ServiceID f) ;>
     WriteUInt32 Append (Field_ServiceID1 f)) ;>
  wif (has code ServerPort)
    (WriteUInt16 Append (Field_ServerPort f)) ;>
  wif (has code SubnetID)
    (WriteUInt16 Append (Field_SubnetID f)) ;>
  wif (has code SubnetIDPath)
    (WriteUInt16 Append (Field_SubnetID f) ;>
     WriteUInt16 Append (Field_SubnetID1 f)) ;>
  wif (has code TagType && has code TagValue)
    (WriteUInt8 Append (Field_TagType f) ;>
     wif (Field_TagType f =? TAG_TYPE_TUNNEL_IP_ID)
       (WriteString Append (FormatUint (Field_TagValue f) 10))) ;>
  wif (has code TAPPort)
    (let '(tapPort, tapPortType, tunnelType) := SplitToPortTypeTunnel (Field_TAPPort f) in
     WriteUInt8 Append tapPortType ;>
     WriteUInt8 Append tunnelType ;>
     WriteUInt32 Append tapPort) ;>
  wif (has code TAPSide)
    (match TAPSideEnum_String (Field_TAPSide f) with
     | Some s => WriteString Append s
     | None => wpanic
     end) ;>
  wif (has code TAPType)
    (WriteUInt8 Append (Field_TAPType f)) ;>
  wif (has code VTAPID)
    (WriteUInt16 Append (Field_VTAPID f)).

Definition Tag_WriteBlock (t : Tag) (time : Z) : Write B :=
  let code := Tag_Code t in
  let f := Tag_Field t in
  Tag_WriteBlock_1 code f time ;> Tag_WriteBlock_2 code f ;> Tag_WriteBlock_3 code f ;>
  Tag_WriteBlock_4 code f.

(** ** Text form *)

Definition Tag_MarshalTo_1 (code : Z) (f : Field) : Marshal :=
  bif (negb (Field_GlobalThreadID f =? 0))
    (bput ",_tid=" ;+ bput (FormatUint (Field_GlobalThreadID f) 10)) ;+
  bif (has code ACLGID)
    (bput ",acl_gid=" ;+ bput (FormatUint (Field_ACLGID f) 10)) ;+
  bif (has code AZID)
    (bput ",az_id=" ;+ bput (FormatUint (Field_AZID f) 10)) ;+
  bif (has code AZIDPath)
    (bput ",az_id_0=" ;+ bput (FormatUint (Field_AZID f) 10) ;+
     bput ",az_id_1=" ;+ bput (FormatUint (Field_AZID1 f) 10)) ;+
  bif (has code Direction)
    ((if IsClientToServer (Field_Direction f) then bput ",direction=c2s"
     else bif (IsServerToClient (Field_Direction f)) (bput ",direction=s2c"))) ;+
  bif (has code HostID)
    (bput ",host_id=" ;+ bput (FormatUint (Field_HostID f) 10)) ;+
  bif (has code HostIDPath)
    (bput ",host_id_0=" ;+ bput (FormatUint (Field_HostID f) 10) ;+
     bput ",host_id_1=" ;+ bput (FormatUint (Field_HostID1 f) 10)) ;+
  bif (has code IP)
    ((if negb (Field_IsIPv6 f =? 0) then
       bput ",ip=" ;+ bput (IP_String (Field_IP6 f)) ;+
       bput ",ip_version=6"
     else
       bput ",ip=" ;+ bput (IP_String (IpFromUint32 (Field_IP f))) ;+
       bput ",ip_version=4")) ;+
  bif (has code IPPath)
    ((if negb (Field_IsIPv6 f =? 0) then
       bput ",ip_0=" ;+ bput (IP_String (Field_IP6 f)) ;+
       bput ",ip_1=" ;+ bput (IP_String (Field_IP61 f)) ;+
       bput ",is_version=6"
     else
       bput ",ip_0=" ;+ bput (IP_String (IpFromUint32 (Field_IP f))) ;+
       bput ",ip_1=" ;+ bput (IP_String (IpFromUint32 (Field_IP1 f))) ;+
       bput ",ip_version=4")) ;+
  bif (has code IsKeyService)
    ((if Field_IsKeyService f =? 1 then
       bput ",is_key_service=1"
     else
       bput ",is_key_service=0")).

Definition Tag_MarshalTo_2 (code : Z) (f : Field) : Marshal :=
  bif (has code L3Device)
    (bput ",l3_device_id=" ;+ bput (FormatUint (Field_L3DeviceID f) 10) ;+
     bput ",l3_device_type=" ;+ bput (FormatUint (Field_L3DeviceType f) 10)) ;+
  bif (has code L3DevicePath)
    (bput ",l3_device_id_0=" ;+ bput (FormatUint (Field_L3DeviceID f) 10) ;+
     bput ",l3_device_id_1=" ;+ bput (FormatUint (Field_L3DeviceID1 f) 10) ;+
     bput ",l3_device_type_0=" ;+ bput (FormatUint (Field_L3DeviceType f) 10) ;+
     bput ",l3_device_type_1=" ;+ bput (FormatUint (Field_L3DeviceType1 f) 10)) ;+
  bif (has code L3EpcID)
    (bput ",l3_epc_id=" ;+ bput (marshalUint16WithSpecialID (Field_L3EpcID f))) ;+
  bif (has code L3EpcIDPath)
    (bput ",l3_epc_id_0=" ;+ bput (marshalUint16WithSpecialID (Field_L3EpcID f)) ;+
     bput ",l3_epc_id_1=" ;+ bput (marshalUint16WithSpecialID (Field_L3EpcID1 f))) ;+
  bif (has code L7Protocol)
    (bput ",l7_protocol=" ;+ bput (FormatUint (Field_L7Protocol f) 10)).

Definition Tag_MarshalTo_3 (code : Z) (f : Field) : Marshal :=
  bif (has code PodClusterID)
    (bput ",pod_cluster_id=" ;+ bput (FormatUint (Field_PodClusterID f) 10)) ;+
  bif (has code PodClusterIDPath)
    (bput ",pod_cluster_id_0=" ;+ bput (FormatUint (Field_PodClusterID f) 10) ;+
     bput ",pod_cluster_id_1=" ;+ bput (FormatUint (Field_PodClusterID1 f) 10)) ;+
  bif (has code PodGroupID)
    (bput ",pod_group_id=" ;+ bput (FormatUint (Field_PodGroupID f) 10)) ;+
  bif (has code PodGroupIDPath)
    (bput ",pod_group_id_0=" ;+ bput (FormatUint (Field_PodGroupID f) 10) ;+
     bput ",pod_group_id_1=" ;+ bput (FormatUint (Field_PodGroupID1 f) 10)) ;+
  bif (has code PodID)
    (bput ",pod_id=" ;+ bput (FormatUint (Field_PodID f) 10)) ;+
  bif (has code PodIDPath)
    (bput ",pod_id_0=" ;+ bput (FormatUint (Field_PodID f) 10) ;+
     bput ",pod_id_1=" ;+ bput (FormatUint (Field_PodID1 f) 10)) ;+
  bif (has code PodNodeID)
    (bput ",pod_node_id=" ;+ bput (FormatUint (Field_PodNodeID f) 10)) ;+
  bif (has code PodNodeIDPath)
    (bput ",pod_node_id_0=" ;+ bput (FormatUint (Field_PodNodeID f) 10) ;+
     bput ",pod_node_id_1=" ;+ bput (FormatUint (Field_PodNodeID1 f) 10)) ;+
  bif (has code PodNSID)
    (bput ",pod_ns_id=" ;+ bput (FormatUint (Field_PodNSID f) 10)) ;+
  bif (has code PodNSIDPath)
    (bput ",pod_ns_id_0=" ;+ bput (FormatUint (Field_PodNSID f) 10) ;+
     bput ",pod_ns_id_1=" ;+ bput (FormatUint (Field_PodNSID1 f) 10)) ;+
  bif (has code Protocol)
    (bput ",protocol=" ;+ bput (FormatUint (Field_Protocol f) 10)) ;+
  bif (has code RegionID)
    (bput ",region_id=" ;+ bput (FormatUint (Field_RegionID f) 10)) ;+
  bif (has code RegionIDPath)
    (bput ",region_id_0=" ;+ bput (FormatUint (Field_RegionID f) 10) ;+
     bput ",region_id_1=" ;+ bput (FormatUint (Field_RegionID1 f) 10)).

Definition Tag_MarshalTo_4 (code : Z) (f : Field) : Marshal :=
  bif (has code Resource)
    (bput ",resource_gl0_id=" ;+ bput (FormatUint (Field_ResourceGl0ID f) 10) ;+
     bput ",resource_gl0_type=" ;+ bput (FormatUint (Field_ResourceGl0Type f) 10) ;+
     bput ",resource_gl1_id=" ;+ bput (FormatUint (Field_ResourceGl1ID f) 10) ;+
     bput ",resource_gl1_type=" ;+ bput (FormatUint (Field_ResourceGl1Type f) 10) ;+
     bput ",resource_gl2_id=" ;+ bput (FormatUint (Field_ResourceGl2ID f) 10) ;+
     bput ",resource_gl2_type=" ;+ bput (FormatUint (Field_ResourceGl2Type f) 10)) ;+
  bif (has code ResourcePath)
    (bput ",resource_gl0_id_0=" ;+ bput (FormatUint (Field_ResourceGl0ID f) 10) ;+
     bput ",resource_gl0_id_1=" ;+ bput (FormatUint (Field_ResourceGl0ID1 f) 10) ;+
     bput ",resource_gl0_type_0=" ;+ bput (FormatUint (Field_ResourceGl0Type f) 10) ;+
     bput ",resource_gl0_type_1=" ;+ bput (FormatUint (Field_ResourceGl0Type1 f) 10) ;+
     bput ",resource_gl1_id_0=" ;+ bput (FormatUint (Field_ResourceGl1ID f) 10) ;+
     bput ",resource_gl1_id_1=" ;+ bput (FormatUint (Field_ResourceGl1ID1 f) 10) ;+
     bput ",resource_gl1_type_0=" ;+ bput (FormatUint (Field_ResourceGl1Type f) 10) ;+
     bput ",resource_gl1_type_1=" ;+ bput (FormatUint (Field_ResourceGl1Type1 f) 10) ;+
     bput ",resource_gl2_id_0=" ;+ bput (FormatUint (Field_ResourceGl2ID f) 10) ;+
     bput ",resource_gl2_id_1=" ;+ bput (FormatUint (Field_ResourceGl2ID1 f) 10) ;+
     bput ",resource_gl2_type_0=" ;+ bput (FormatUint (Field_ResourceGl2Type f) 10) ;+
     bput ",resource_gl2_type_1=" ;+ bput (FormatUint (Field_ResourceGl2Type1 f) 10)) ;+
  bif (has code ServerPort)
    (bput ",server_port=" ;+ bput (FormatUint (Field_ServerPort f) 10)) ;+
  bif (has code ServiceID)
    (bput ",service_id=" ;+ bput (FormatUint (Field_ServiceID f) 10)) ;+
  bif (has code ServiceIDPath)
    (bput ",service_id_0=" ;+ bput (FormatUint (Field_ServiceID f) 10) ;+
     bput ",service_id_1=" ;+ bput (FormatUint (Field_ServiceID1 f) 10)) ;+
  bif (has code SubnetID)
    (bput ",subnet_id=" ;+ bput (FormatUint (Field_SubnetID f) 10)) ;+
  bif (has code SubnetIDPath)
    (bput ",subnet_id_0=" ;+ bput (FormatUint (Field_SubnetID f) 10) ;+
     bput ",subnet_id_1=" ;+ bput (FormatUint (Field_SubnetID1 f) 10)) ;+
  bif (has code TagType && has code TagValue)
    (bput ",tag_type=" ;+ bput (FormatUint (Field_TagType f) 10) ;+
     bif (Field_TagType f =? TAG_TYPE_TUNNEL_IP_ID)
       (bput ",tag_value=" ;+ bput (FormatUint (Field_TagValue f) 10))) ;+
  bif (has code TAPPort)
    (bput ",tap_port=" ;+ putTAPPort (Field_TAPPort f)) ;+
  bif (has code TAPSide)
    ((if Field_TAPSide f =? Rest then bput ",tap_side=rest"
     else if Field_TAPSide f =? Client then bput ",tap_side=c"
     else if Field_TAPSide f =? Server then bput ",tap_side=s"
     else if Field_TAPSide f =? ClientNode then bput ",tap_side=c-nd"
     else if Field_TAPSide f =? ServerNode then bput ",tap_side=s-nd"
     else if Field_TAPSide f =? ClientHypervisor then bput ",tap_side=c-hv"
     else if Field_TAPSide f =? ServerHypervisor then bput ",tap_side=s-hv"
     else if Field_TAPSide f =? ClientGatewayHypervisor then bput ",tap_side=c-gw-hv"
     else if Field_TAPSide f =? ServerGatewayHypervisor then bput ",tap_side=s-gw-hv"
     else if Field_TAPSide f =? ClientGateway then bput ",tap_side=c-gw"
     else if Field_TAPSide f =? ServerGateway then bput ",tap_side=s-gw"
     else bret)) ;+
  bif (has code TAPType)
    (bput ",tap_type=" ;+ bput (FormatUint (Field_TAPType f) 10)) ;+
  bif (has code VTAPID)
    (bput ",vtap_id=" ;+ bput (FormatUint (Field_VTAPID f) 10)).

Definition Tag_MarshalTo (t : Tag) : Marshal :=
  let code := Tag_Code t in
  let f := Tag_Field t in
  Tag_MarshalTo_1 code f ;+ Tag_MarshalTo_2 code f ;+ Tag_MarshalTo_3 code f ;+
  Tag_MarshalTo_4 code f.

Definition Tag_ToKVString (t : Tag) : option string := Tag_MarshalTo t MAX_STRING_LENGTH "".
End Tags.

(** * Tables *)

Definition VTAP_FLOW_PORT_1M : Z := 0.
Definition VTAP_FLOW_EDGE_PORT_1M : Z := 1.
Definition VTAP_APP_PORT_1M : Z := 2.
Definition VTAP_APP_EDGE_PORT_1M : Z := 3.
Definition VTAP_ACL_1M : Z := 4.
Definition VTAP_FLOW_PORT_1S : Z := 5.
Definition VTAP_FLOW_EDGE_PORT_1S : Z := 6.
Definition VTAP_APP_PORT_1S : Z := 7.
Definition VTAP_APP_EDGE_PORT_1S : Z := 8.
Definition VTAP_TABLE_ID_MAX : Z := 9.

Definition metricsTableNames : list string :=
  ["vtap_flow_port.1m"; "vtap_flow_edge_port.1m"; "vtap_app_port.1m"; "vtap_app_edge_port.1m";
   "vtap_acl.1m"; "vtap_flow_port.1s"; "vtap_flow_edge_port.1s"; "vtap_app_port.1s";
   "vtap_app_edge_port.1s"].

Definition ors (l : list Z) : Z := foldr Z.lor 0 l.

Definition BaseCode : Z :=
  ors [AZID; HostID; IP; L3Device; L3EpcID; PodClusterID; PodGroupID; PodID; PodNodeID; PodNSID;
       RegionID; SubnetID; TAPType; VTAPID; ServiceID; Resource].

Definition BasePathCode : Z :=
  ors [AZIDPath; HostIDPath; IPPath; L3DevicePath; L3EpcIDPath; PodClusterIDPath; PodGroupIDPath;
       PodIDPath; PodNodeIDPath; PodNSIDPath; RegionIDPath; SubnetIDPath; TAPSide; TAPType; VTAPID;
       ServiceIDPath; ResourcePath].

Definition BasePortCode : Z := ors [Protocol; ServerPort; IsKeyService].

Definition VTAP_FLOW_PORT : Z := ors [BaseCode; BasePortCode; Direction].
Definition VTAP_FLOW_EDGE_PORT : Z := ors [BasePathCode; BasePortCode; TAPPort].
Definition VTAP_APP_PORT : Z := ors [BaseCode; BasePortCode; Direction; L7Protocol].
Definition VTAP_APP_EDGE_PORT : Z := ors [BasePathCode; BasePortCode; TAPPort; L7Protocol].

Definition metricsTableCodes : list Z :=
  [VTAP_FLOW_PORT; VTAP_FLOW_EDGE_PORT; VTAP_APP_PORT; VTAP_APP_EDGE_PORT;
   ors [ACLGID; TagType; TagValue; VTAPID];
   VTAP_FLOW_PORT; VTAP_FLOW_EDGE_PORT; VTAP_APP_PORT; VTAP_APP_EDGE_PORT].

(** [None] is the panic of an index out of range. *)
Definition TableName (i : Z) : option string := metricsTableNames !! Z.to_nat i.

Definition TableCode (i : Z) : option Z := metricsTableCodes !! Z.to_nat i.

Fixpoint name_index (names : list string) (name : string) (i : Z) : Z :=
  match names with
  | [] => VTAP_TABLE_ID_MAX
  | n :: names => if String.eqb n name then u8 i else name_index names name (i + 1)
  end.

Definition MetricsTableNameToID (name : string) : Z := name_index metricsTableNames name 0.

(** The loop of [TableID]; [None] is the error of a code without a table. *)
Fixpoint TableID_loop (codes : list Z) (i : Z) (code : Z) (isSecond : bool) : option Z :=
  match codes with
  | [] => None
  | c :: codes =>
      if andnot (andnot code MAC) MACPath =? c then
        Some (if isSecond then u8 (u8 i + VTAP_FLOW_PORT_1S) else u8 i)
      else TableID_loop codes (i + 1) code isSecond
  end.

Definition Tag_TableID (t : Tag) (isSecond : bool) : option Z :=
  TableID_loop metricsTableCodes 0 (Tag_Code t) isSecond.

(** [None] is the panic of an index out of range. *)
Definition newMetricsMinuteTable (id : Z) (engine : EngineType) (version : string) : option Table :=
  code ← TableCode id;
  name ← TableName id;
  let cluster :=
    if bool_decide (engine = ReplicatedMergeTree) then DF_REPLICATED_CLUSTER else DF_CLUSTER in
  let orderKeys :=
    if has code L3EpcID then ["l3_epc_id"; "ip4"; "ip6"]
    else if has code L3EpcIDPath then
      ["l3_epc_id_1"; "ip4_1"; "ip6_1"; "l3_epc_id_0"; "ip4_0"; "ip6_0"]
    else if has code ACLGID then ["acl_gid"]
    else [] in
  let orderKeys := if has code ServerPort then orderKeys ++ ["server_port"] else orderKeys in
  let orderKeys := orderKeys ++ ["time"] in
  let meterColumns :=
    if (id =? VTAP_FLOW_PORT_1M) || (id =? VTAP_FLOW_EDGE_PORT_1M) then FlowMeterColumns
    else if id =? VTAP_ACL_1M then UsageMeterColumns
    else if (id =? VTAP_APP_PORT_1M) || (id =? VTAP_APP_EDGE_PORT_1M) then AppMeterColumns
    else [] in
  Some {| Version := version; ID := u8 id; Database := METRICS_DB;
          LocalName := name +:+ LOCAL_SUBFFIX; GlobalName := name;
          Columns := GenTagColumns code ++ meterColumns;
          TimeKey := "time"; TTL := 7; PartitionFunc := TimeFuncTwelveHour; Engine := engine;
          Cluster := cluster; OrderKeys := orderKeys; PrimaryKeyCount := zlen orderKeys |}.

Definition newMetricsSecondTable (t : Table) : option Table :=
  let id := u8 (ID t + VTAP_FLOW_PORT_1S) in
  name ← TableName id;
  Some {| Version := Version t; ID := id; Database := Database t;
          LocalName := name +:+ LOCAL_SUBFFIX; GlobalName := name; Columns := Columns t;
          TimeKey := TimeKey t; TTL := 1; PartitionFunc := TimeFuncFourHour; Engine := MergeTree;
          Cluster := DF_CLUSTER; OrderKeys := OrderKeys t; PrimaryKeyCount := PrimaryKeyCount t |}.

(** [metricsTables] is the package variable that keeps the tables of the first
    call, [None] when it is nil; the outer [None] is a panic. *)
Definition GetMetricsTables (metricsTables : option (list Table)) (engine : EngineType)
    (version : string) : option (list Table * option (list Table)) :=
  match metricsTables with
  | Some tables => Some (tables, metricsTables)
  | None =>
      minuteTables ← mapM (fun i => newMetricsMinuteTable i engine version)
        (seqZ VTAP_FLOW_PORT_1M (VTAP_ACL_1M - VTAP_FLOW_PORT_1M + 1));
      secondTables ← mapM
        (fun i => t ← minuteTables !! Z.to_nat (i - VTAP_FLOW_PORT_1S); newMetricsSecondTable t)
        (seqZ VTAP_FLOW_PORT_1S (VTAP_APP_EDGE_PORT_1S - VTAP_FLOW_PORT_1S + 1));
      let tables := minuteTables ++ secondTables in
      Some (tables, Some tables)
  end.

(** * Database names *)

Definition SUFFIX_ACL : Z := 1.
Definition SUFFIX_EDGE : Z := 2.
Definition SUFFIX_PORT : Z := 4.

Definition DatabaseSuffixes : list string :=
  [""; "_acl"; "_edge"; "_acl_edge"; "_port"; "_acl_port"; "_edge_port"; "_acl_edge_port"].

Definition DatabaseSuffixID (code : Z) : Z :=
  let c := 0 in
  let c := if has code ACLGID then Z.lor c SUFFIX_ACL else c in
  let c := if HasEdgeTagField code then Z.lor c SUFFIX_EDGE else c in
  if has code ServerPort then Z.lor c SUFFIX_PORT else c.

Definition DatabaseSuffix (code : Z) : option string := DatabaseSuffixes !! Z.to_nat (DatabaseSuffixID code).
