(* ===== verification/TagFacts.v ===== *)
(** Facts of the tags ([Tag.v]): the row a tag writes against the columns of its
    code, its text form, the tables and the tap ports. *)

From S2P Require Import Prelude Strconv LineProto Ckdb CkdbFacts Meter MeterFacts Tag.

#[local] Open Scope string_scope.
#[local] Open Scope list_scope.
#[local] Open Scope Z_scope.

(** * Rows *)

(** A column of the client side, or of the only side, and one of the server side. *)
Definition sides (n : string) (c0 c1 : cell) : list (string * cell) :=
  [(n, c0); (n +:+ "_0", c0); (n +:+ "_1", c1)].

(** What the column of each name is for. *)
Definition tag_db (t : Tag) (time : Z) : list (string * cell) :=
  let f := Tag_Field t in
  let '(port, port_type, tunnel) := SplitToPortTypeTunnel (Field_TAPPort f) in
  [("time", CTime time);
   ("_tid", CUInt8 (Field_GlobalThreadID f));
   ("acl_gid", CUInt16 (Field_ACLGID f));
   ("direction", CString (if IsClientToServer (Field_Direction f) then "c2s" else "s2c"));
   ("is_ipv4", CUInt8 (u8 (1 - Field_IsIPv6 f)));
   ("is_key_service", CUInt8 (Field_IsKeyService f));
   ("l7_protocol", CUInt8 (Field_L7Protocol f));
   ("protocol", CUInt8 (Field_Protocol f));
   ("server_port", CUInt16 (Field_ServerPort f));
   ("tag_type", CUInt8 (Field_TagType f));
   ("tag_value", CString (FormatUint (Field_TagValue f) 10));
   ("tap_port", CUInt32 port); ("tap_port_type", CUInt8 port_type); ("tunnel_type", CUInt8 tunnel);
   ("tap_side", CString (default "" (TAPSideEnum_String (Field_TAPSide f))));
   ("tap_type", CUInt8 (Field_TAPType f));
   ("vtap_id", CUInt16 (Field_VTAPID f))]
  ++ sides "ip4" (CIP (IpFromUint32 (Field_IP f))) (CIP (IpFromUint32 (Field_IP1 f)))
  ++ sides "ip6" (CIP (ip6_or_zero (Field_IP6 f))) (CIP (ip6_or_zero (Field_IP61 f)))
  ++ sides "az_id" (CUInt16 (Field_AZID f)) (CUInt16 (Field_AZID1 f))
  ++ sides "host_id" (CUInt16 (Field_HostID f)) (CUInt16 (Field_HostID1 f))
  ++ sides "l3_device_id" (CUInt32 (Field_L3DeviceID f)) (CUInt32 (Field_L3DeviceID1 f))
  ++ sides "l3_device_type" (CUInt8 (Field_L3DeviceType f)) (CUInt8 (Field_L3DeviceType1 f))
  ++ sides "l3_epc_id" (CInt32 (marshalInt32WithSpecialID (Field_L3EpcID f)))
       (CInt32 (marshalInt32WithSpecialID (Field_L3EpcID1 f)))
  ++ sides "pod_cluster_id" (CUInt16 (Field_PodClusterID f)) (CUInt16 (Field_PodClusterID1 f))
  ++ sides "pod_group_id" (CUInt32 (Field_PodGroupID f)) (CUInt32 (Field_PodGroupID1 f))
  ++ sides "pod_id" (CUInt32 (Field_PodID f)) (CUInt32 (Field_PodID1 f))
  ++ sides "pod_node_id" (CUInt32 (Field_PodNodeID f)) (CUInt32 (Field_PodNodeID1 f))
  ++ sides "pod_ns_id" (CUInt16 (Field_PodNSID f)) (CUInt16 (Field_PodNSID1 f))
  ++ sides "region_id" (CUInt16 (Field_RegionID f)) (CUInt16 (Field_RegionID1 f))
  ++ sides "resource_gl0_id" (CUInt32 (Field_ResourceGl0ID f)) (CUInt32 (Field_ResourceGl0ID1 f))
  ++ sides "resource_gl0_type" (CUInt8 (Field_ResourceGl0Type f)) (CUInt8 (Field_ResourceGl0Type1 f))
  ++ sides "resource_gl1_id" (CUInt32 (Field_ResourceGl1ID f)) (CUInt32 (Field_ResourceGl1ID1 f))
  ++ sides "resource_gl1_type" (CUInt8 (Field_ResourceGl1Type f)) (CUInt8 (Field_ResourceGl1Type1 f))
  ++ sides "resource_gl2_id" (CUInt32 (Field_ResourceGl2ID f)) (CUInt32 (Field_ResourceGl2ID1 f))
  ++ sides "resource_gl2_type" (CUInt8 (Field_ResourceGl2Type f)) (CUInt8 (Field_ResourceGl2Type1 f))
  ++ sides "service_id" (CUInt32 (Field_ServiceID f)) (CUInt32 (Field_ServiceID1 f))
  ++ sides "subnet_id" (CUInt16 (Field_SubnetID f)) (CUInt16 (Field_SubnetID1 f)).

Definition tag_cell (t : Tag) (time : Z) (n : string) (c : cell) : Prop :=
  assoc n (tag_db t time) = Some c.

(** The cells that the writer leaves out of the row of a tag: the resources of
    one side when those of two sides are asked for too, and the value of a tag of
    another type than a tunnel. *)
Definition both_resources (code : Z) : bool := has code Resource && has code ResourcePath.

Definition no_tag_value (code : Z) (f : Field) : bool :=
  has code TagType && has code TagValue && negb (Field_TagType f =? TAG_TYPE_TUNNEL_IP_ID).

Definition missing_cells (t : Tag) : Z :=
  (if both_resources (Tag_Code t) then 6 else 0) + (if no_tag_value (Tag_Code t) (Tag_Field t) then 1 else 0).

(** The capture position has no name: the index is out of the range of the names. *)
Definition unknown_side (t : Tag) : bool :=
  has (Tag_Code t) TAPSide && negb (bool_decide (is_Some (TAPSideEnum_String (Field_TAPSide (Tag_Field t))))).

(** Splits a row at its conditions and settles the cells. *)
Ltac tag_cell := first
  [ apply row_nil
  | apply row_write_cons; [split; reflexivity|tag_cell]
  | apply row_write; split; reflexivity ].

Ltac tag_rows := first
  [ apply row_seq; [apply row_if; intros ?; tag_cell|tag_rows]
  | apply row_if; intros ?; tag_cell ].

Section Rows.
Context {B : Type} (Append : B -> Z -> cell -> option B).

Lemma Tag_row_1 t time :
  row Append (tag_cell t time) (Tag_WriteBlock_1 Append (Tag_Code t) (Tag_Field t) time)
    (GenTagColumns_1 (Tag_Code t)).
Proof.
  unfold Tag_WriteBlock_1, GenTagColumns_1.
  apply row_write_cons; [split; reflexivity|]. apply row_write_cons; [split; reflexivity|].
  apply row_seq; [apply row_if; intros ?; tag_cell|].
  apply row_seq; [apply row_if; intros ?; tag_cell|].
  apply row_seq; [apply row_if; intros ?; tag_cell|].
  apply row_seq; [apply row_if; intros ?|].
  { unfold tag_cell, tag_db. destruct (IsClientToServer _); apply row_write; split; reflexivity. }
  tag_rows.
Qed.

Lemma Tag_row_2 t time :
  row Append (tag_cell t time) (Tag_WriteBlock_2 Append (Tag_Code t) (Tag_Field t))
    (GenTagColumns_2 (Tag_Code t)).
Proof.
  unfold Tag_WriteBlock_2, GenTagColumns_2.
  replace ((if has (Tag_Code t) MAC then [] else []) ++ (if has (Tag_Code t) MACPath then [] else []))
    with (@nil Column) by (by destruct (has _ MAC), (has _ MACPath)).
  rewrite app_nil_r. tag_rows.
Qed.

Lemma Tag_row_3 t time :
  row Append (tag_cell t time) (Tag_WriteBlock_3 Append (Tag_Code t) (Tag_Field t))
    (GenTagColumns_3 (Tag_Code t)).
Proof. unfold Tag_WriteBlock_3, GenTagColumns_3. tag_rows. Qed.

(** The resources of a tag. *)
Lemma resources_shape t time w1 w2 cols1 cols2 :
  let code := Tag_Code t in
  row Append (tag_cell t time) w1 cols1 -> row Append (tag_cell t time) (w1 ;> w2) cols2 ->
  zlen cols1 = 6 ->
  shape Append (tag_cell t time)
    (wif (has code Resource || has code ResourcePath) w1 ;> wif (has code ResourcePath) w2)
    ((if has code Resource then cols1 else []) ++ (if has code ResourcePath then cols2 else []))
    (if both_resources code then 6 else 0) false.
Proof.
  intros code H1 H2 Hlen. unfold both_resources.
  destruct (has code Resource), (has code ResourcePath); cbn [orb andb wif app].
  - split; [lia|lia|lia| |done]. intros _. rewrite zlen_app, Hlen.
    replace (6 + zlen cols2 - 6) with (zlen cols2) by lia. by eapply counts_row.
  - by apply shape_of_row, row_seq, row_nil.
  - by apply shape_of_row.
  - apply shape_of_row, (row_seq _ _ _ _ [] []); apply row_nil.
Qed.

(** The type of a tag and its value. *)
Lemma tag_value_shape t time w1 w2 col1 col2 :
  let code := Tag_Code t in
  row Append (tag_cell t time) w1 [col1] -> row Append (tag_cell t time) w2 [col2] ->
  shape Append (tag_cell t time)
    (wif (has code TagType && has code TagValue) (w1 ;> wif (Field_TagType (Tag_Field t) =? TAG_TYPE_TUNNEL_IP_ID) w2))
    (if has code TagType && has code TagValue then [col1; col2] else [])
    (if no_tag_value code (Tag_Field t) then 1 else 0) false.
Proof.
  intros code H1 H2. unfold no_tag_value. destruct (has code TagType && has code TagValue); cbn [andb wif].
  2: { apply shape_of_row, row_nil. }
  apply (shape_row_seq _ _ _ _ [col1]); [done|].
  destruct (Field_TagType (Tag_Field t) =? _); cbn [wif negb]; [by apply shape_of_row|].
  split; [lia|lia|lia|intros _ b; unfold zlen; cbn; lia|done].
Qed.

(** The name of the capture position. *)
Lemma tap_side_shape t time (w : Write B) col cols :
  let code := Tag_Code t in
  Name col = "tap_side" -> Type_ col = LowCardinalityString -> row Append (tag_cell t time) w cols ->
  shape Append (tag_cell t time)
    (wif (has code TAPSide)
       (match TAPSideEnum_String (Field_TAPSide (Tag_Field t)) with
        | Some s => WriteString Append s | None => wpanic end) ;> w)
    ((if has code TAPSide then [col] else []) ++ cols) 0 (unknown_side t).
Proof.
  intros code Hn Ht Hw. unfold unknown_side. fold code. destruct (has code TAPSide); cbn [andb wif app].
  2: { by apply (shape_row_seq _ _ _ _ []); [apply row_nil|apply shape_of_row]. }
  destruct (TAPSideEnum_String _) as [s|] eqn:E.
  - rewrite bool_decide_true by done. apply shape_of_row, row_write_cons; [|done].
    split; [by rewrite Ht|]. rewrite Hn. unfold tag_cell, tag_db. rewrite E. reflexivity.
  - rewrite bool_decide_false by (intros [? ?]; done).
    split; [lia|done|intros; apply row_panic_here|done|intros _; apply stops_l; intros b b' H; done].
Qed.

Lemma Tag_shape_4 t time :
  shape Append (tag_cell t time) (Tag_WriteBlock_4 Append (Tag_Code t) (Tag_Field t))
    (GenTagColumns_4 (Tag_Code t)) (missing_cells t) (unknown_side t).
Proof.
  unfold Tag_WriteBlock_4, GenTagColumns_4, missing_cells.
  rewrite app_assoc. apply (shape_assoc Append).
  apply (shape_seq _ _ _ _ _ _ _ _ false (unknown_side t)).
  { apply resources_shape; [tag_cell| |reflexivity].
    match goal with |- row _ _ _ ?cols => rewrite <- (take_drop 6 cols) end.
    apply row_seq; cbn [take drop]; tag_cell. }
  do 5 (apply shape_row_seq; [apply row_if; intros ?; tag_cell|]).
  rewrite <- (Z.add_0_r (if no_tag_value _ _ then 1 else 0)).
  apply (shape_seq _ _ _ _ _ _ _ _ false (unknown_side t)); [apply tag_value_shape; tag_cell|].
  apply shape_row_seq; [apply row_if; intros ?; unfold SplitToPortTypeTunnel; tag_cell|].
  apply tap_side_shape; [reflexivity..|tag_rows].
Qed.

Lemma Tag_shape t time :
  shape Append (tag_cell t time) (Tag_WriteBlock Append t time) (GenTagColumns (Tag_Code t))
    (missing_cells t) (unknown_side t).
Proof.
  unfold Tag_WriteBlock, GenTagColumns. cbv zeta.
  apply shape_row_seq; [apply Tag_row_1|]. apply shape_row_seq; [apply Tag_row_2|].
  apply shape_row_seq; [apply Tag_row_3|apply Tag_shape_4].
Qed.
End Rows.

(** * Column names *)

Lemma sublist_if {A} (b b' : bool) (l : list A) :
  (b = true -> b' = true) -> sublist (if b then l else []) (if b' then l else []).
Proof. destruct b, b'; intros H; [done|by discriminate H|apply sublist_nil_l|done]. Qed.

(** Compares two lists of conditional columns part by part. *)
Ltac sublist_part :=
  first [apply sublist_if; first [congruence | intros _; vm_compute; reflexivity] | reflexivity].

Ltac sublist_parts := first [apply sublist_app; [sublist_part|sublist_parts] | sublist_part].

(** A code selects a part of the columns of a larger code. *)
Lemma GenTagColumns_sublist code full :
  full = 2 ^ 64 - 1 - IP /\ has code IP = false \/ full = 2 ^ 64 - 1 - IPPath /\ has code IPPath = false ->
  sublist (GenTagColumns code) (GenTagColumns full).
Proof.
  intros H. unfold GenTagColumns. apply sublist_app; [|apply sublist_app; [|apply sublist_app]].
  - unfold GenTagColumns_1. destruct H as [[-> H]|[-> H]]; sublist_parts.
  - unfold GenTagColumns_2. destruct H as [[-> _]|[-> _]]; sublist_parts.
  - unfold GenTagColumns_3. destruct H as [[-> _]|[-> _]]; sublist_parts.
  - unfold GenTagColumns_4. destruct H as [[-> _]|[-> _]]; sublist_parts.
Qed.

Lemma names_NoDup cols : bool_decide (NoDup (Name <$> cols)) = true -> NoDup (Name <$> cols).
Proof. apply bool_decide_eq_true_1. Qed.

Lemma GenTagColumns_NoDup code :
  NoDup (Name <$> GenTagColumns code) <-> has code IP && has code IPPath = false.
Proof.
  split.
  - intros H. apply not_true_is_false. intros [E E']%andb_true_iff. revert H.
    unfold GenTagColumns, GenTagColumns_1. rewrite E, E', !fmap_app, !NoDup_app.
    intros H. decompose [and] H. clear H. match goal with
    | H : forall x, x ∈ Name <$> [_; _; _] -> _ |- _ => apply (H "is_ipv4"%string) end; [set_solver|].
    set_solver.
  - intros H. destruct (has code IP) eqn:E.
    + apply (sublist_NoDup _ (Name <$> GenTagColumns (2 ^ 64 - 1 - IPPath))).
      * apply names_NoDup. vm_compute. reflexivity.
      * apply fmap_sublist, GenTagColumns_sublist. by right.
    + apply (sublist_NoDup _ (Name <$> GenTagColumns (2 ^ 64 - 1 - IP))).
      * apply names_NoDup. vm_compute. reflexivity.
      * apply fmap_sublist, GenTagColumns_sublist. by left.
Qed.

(** * Properties *)

(** C11: Writing any tag into a batch whose next columns are those of the tag's
    code. The names of these columns are distinct exactly when the code does not
    ask for one address and for two. The write ends without an error only if the
    capture position has a name or is not asked for; then it has appended as many
    cells as there are columns, less six when the code asks for the resources of
    one and of two sides and less one when it asks for the tag value of a tag
    type other than a tunnel. Without such a missing cell every column has got
    one cell, of its type and with the value its name stands for. The write fails
    with an error only if cells are missing, and panics only if the capture
    position has no name. *)
Theorem tag_row_matches {B} (Append : B -> Z -> cell -> option B) `{!ClickHouse Append}
    (t : Tag) (time : Z) (b : Block B) :
  let cols := GenTagColumns (Tag_Code t) in
  opened Append (Batch b) (index b) cols ->
  (NoDup (Name <$> cols) <-> has (Tag_Code t) IP && has (Tag_Code t) IPPath = false) /\
  match Tag_WriteBlock Append t time b with
  | WOk b' => unknown_side t = false /\ index b' = index b + zlen cols - missing_cells t /\
      (missing_cells t = 0 -> appended Append (tag_cell t time) (Batch b) (Batch b') (index b) cols)
  | WErr _ => missing_cells t <> 0
  | WPanic => unknown_side t = true
  end.
Proof.
  intros cols Ho. split; [apply GenTagColumns_NoDup|].
  apply (shape_outcome Append (tag_cell t time)); [apply Tag_shape|done].
Qed.

Definition example_at (side : Z) : Tag :=
  mkTag (mkField 1 [] 0 (2 ^ 24 + 2) 0 0 0 0 0 0 0 0 0 0 0 0 0 7 1 8 1 9 1 0 [] 0 0 0 0 0 0 0 0 0 0 0 0 0
    0 0 0 0 0 0 0 5 0 17 53 3 (4 * 2 ^ 60 + 2 ^ 32 + 6) side 3 0 1 0 4 11)
    (ors [IP; TAPPort; TAPSide; TagType; TagValue; Resource]) "".

Definition row_example : Tag := example_at 42.

(** The same tag at a capture position without a name. *)
Definition panic_example : Tag := example_at 99.

Example tag_row_matches_witness :
  (exists b', Tag_WriteBlock ListAppend row_example 1000
      (mkBlock (empty_batch (GenTagColumns (Tag_Code row_example))) 0) = WOk b' /\
    index b' = 17 /\ exists c, tag_cell row_example 1000 "tap_side" c /\ c = CString "s-p") /\
  Tag_WriteBlock ListAppend panic_example 1000
    (mkBlock (empty_batch (GenTagColumns (Tag_Code panic_example))) 0) = WPanic.
Proof.
  split.
  - destruct (tag_row_matches ListAppend row_example 1000
      (mkBlock (empty_batch (GenTagColumns (Tag_Code row_example))) 0)) as (_ & H).
    { apply empty_batch_opened. }
    destruct (Tag_WriteBlock ListAppend row_example 1000 _) as [b'|b'|].
    + destruct H as (_ & Hi & _). exists b'. split; [reflexivity|]. split; [rewrite Hi; vm_compute; reflexivity|].
      eexists. split; vm_compute; reflexivity.
    + exfalso. apply H. reflexivity.
    + exfalso. vm_compute in H. discriminate H.
  - destruct (tag_row_matches ListAppend panic_example 1000
      (mkBlock (empty_batch (GenTagColumns (Tag_Code panic_example))) 0)) as (_ & H).
    { apply empty_batch_opened. }
    destruct (Tag_WriteBlock ListAppend panic_example 1000 _) as [b'|b'|]; [exfalso..|reflexivity].
    + destruct H as (H & _). vm_compute in H. discriminate H.
    + apply H. reflexivity.
Defined.

(** ** Tables *)

Lemma TableID_loop_spec codes i code isSecond :
  0 <= i -> i + zlen codes < 256 - VTAP_FLOW_PORT_1S ->
  let c := andnot (andnot code MAC) MACPath in
  match TableID_loop codes i code isSecond with
  | None => c ∉ codes
  | Some id =>
      exists k, i <= k /\ codes !! Z.to_nat (k - i) = Some c /\
        (forall k', i <= k' < k -> codes !! Z.to_nat (k' - i) <> Some c) /\
        id = if isSecond then k + VTAP_FLOW_PORT_1S else k
  end.
Proof.
  revert i. induction codes as [|c' codes IH]; intros i Hi Hl; cbn [TableID_loop]; cbv zeta.
  { apply not_elem_of_nil. }
  rewrite zlen_cons in Hl. pose proof (zlen_nonneg codes). unfold VTAP_FLOW_PORT_1S in *.
  destruct (Z.eqb_spec (andnot (andnot code MAC) MACPath) c') as [E|E].
  - exists i. rewrite Z.sub_diag. cbn. split_and!; [lia|by rewrite E|lia|].
    rewrite (wrap_small 8 i) by (unfold is_u; lia). destruct isSecond; [|done].
    by rewrite wrap_small by (unfold is_u; lia).
  - specialize (IH (i + 1) ltac:(lia) ltac:(lia)). cbv zeta in IH.
    destruct (TableID_loop codes (i + 1) code isSecond) as [id|].
    + destruct IH as (k & Hk & Hlk & Hfirst & Hid). exists k.
      replace (Z.to_nat (k - i)) with (S (Z.to_nat (k - (i + 1)))) by lia.
      split_and!; [lia|done| |done]. intros k' Hk'. destruct (Z.eq_dec k' i) as [->|Hne].
      * rewrite Z.sub_diag. intros [= H1]. by apply E.
      * replace (Z.to_nat (k' - i)) with (S (Z.to_nat (k' - (i + 1)))) by lia. apply Hfirst. lia.
    + rewrite elem_of_cons. intros [?|?]; [congruence|done].
Qed.

(** The first table with a code is a minute table. *)
Lemma first_code_minute c k :
  0 <= k -> metricsTableCodes !! Z.to_nat k = Some c ->
  (forall k', 0 <= k' < k -> metricsTableCodes !! Z.to_nat (k' - 0) <> Some c) -> k < 5.
Proof.
  intros Hk Hl Hfirst. destruct (Z_lt_le_dec k 5) as [|H5]; [done|exfalso].
  pose proof (lookup_lt_Some _ _ _ Hl) as Hlt. change (length metricsTableCodes) with 9%nat in Hlt.
  apply (Hfirst (k - 5)); [lia|]. rewrite Z.sub_0_r, <- Hl.
  assert (k = 5 \/ k = 6 \/ k = 7 \/ k = 8) as [->|[->|[->| ->]]] by lia; reflexivity.
Qed.

(** The code of the table of a tag, unless the identifier is past the last one. *)
Lemma TableID_code t isSecond id :
  Tag_TableID t isSecond = Some id ->
  TableCode id = Some (andnot (andnot (Tag_Code t) MAC) MACPath) /\ 0 <= id \/ id = VTAP_TABLE_ID_MAX.
Proof.
  intros H. unfold Tag_TableID in H.
  pose proof (TableID_loop_spec metricsTableCodes 0 (Tag_Code t) isSecond ltac:(lia) ltac:(by vm_compute)) as H'.
  rewrite H in H'. destruct H' as (k & Hk & Hl & Hfirst & ->). rewrite Z.sub_0_r in *.
  set (c := andnot (andnot (Tag_Code t) MAC) MACPath) in *.
  assert (k < 5) as Hk5 by (by apply (first_code_minute c)).
  assert (k = 0 \/ k = 1 \/ k = 2 \/ k = 3 \/ k = 4) as Hcases by lia.
  destruct isSecond; [|by left; split; [exact Hl|lia]].
  destruct Hcases as [->|[->|[->|[->| ->]]]]; [left; split; [exact Hl|done]..|by right].
Qed.

(** The table of a tag is the one with its code, up to the hardware
    addresses, and of the asked granularity; a code without a table is an error.
    The one exception is the code of the usage table asked for in seconds, for
    which the identifier is past the last table. *)
Theorem TableID_spec (t : Tag) (isSecond : bool) :
  let c := andnot (andnot (Tag_Code t) MAC) MACPath in
  match Tag_TableID t isSecond with
  | None => c ∉ metricsTableCodes
  | Some id =>
      TableCode id = Some c /\ (VTAP_FLOW_PORT_1S <= id <-> isSecond = true) /\
        MetricsTableNameToID (default "" (TableName id)) = id
      \/ isSecond = true /\ TableCode VTAP_ACL_1M = Some c /\ id = VTAP_TABLE_ID_MAX /\
         TableCode id = None /\ TableName id = None
  end.
Proof.
  cbv zeta. unfold Tag_TableID.
  pose proof (TableID_loop_spec metricsTableCodes 0 (Tag_Code t) isSecond ltac:(lia) ltac:(by vm_compute)) as H.
  destruct (TableID_loop _ _ _ _) as [id|]; [|exact H].
  destruct H as (k & Hk & Hl & Hfirst & ->). cbv zeta in *. rewrite Z.sub_0_r in *.
  set (c := andnot (andnot (Tag_Code t) MAC) MACPath) in *.
  assert (k < 5) as Hk5 by (by apply (first_code_minute c)).
  assert (k = 0 \/ k = 1 \/ k = 2 \/ k = 3 \/ k = 4) as Hcases by lia. clear Hk Hfirst.
  destruct isSecond; [|left; destruct Hcases as [->|[->|[->|[->| ->]]]]; (split; [exact Hl|split; [done|reflexivity]])].
  destruct Hcases as [->|[->|[->|[->| ->]]]]; [left..|right];
    (split; [exact Hl|split; [done|reflexivity]]) || (split_and!; [done|exact Hl|reflexivity..]).
Qed.

(** What a metrics table is made of. *)
Definition table_meters (id : Z) : list Column :=
  if bool_decide (id ∈ [VTAP_FLOW_PORT_1M; VTAP_FLOW_EDGE_PORT_1M; VTAP_FLOW_PORT_1S; VTAP_FLOW_EDGE_PORT_1S])
  then FlowMeterColumns
  else if id =? VTAP_ACL_1M then UsageMeterColumns else AppMeterColumns.

Record table_ok (id : Z) (t : Table) : Prop := {
  table_id : ID t = id;
  table_name : TableName id = Some (GlobalName t) /\ LocalName t = GlobalName t +:+ LOCAL_SUBFFIX;
  table_columns : exists code, TableCode id = Some code /\ Columns t = GenTagColumns code ++ table_meters id;
  table_names : NoDup (Name <$> Columns t);
  table_keys : Forall (fun k => k ∈ (Name <$> Columns t)) (TimeKey t :: OrderKeys t);
  table_sql : exists sql, MakeLocalTableCreateSQL t
    = Some (sql, mkTable (Version t) (ID t) (Database t) (LocalName t) (GlobalName t)
        ((fun c => if bool_decide (Name c = TimeKey t) then SetComment (Version t) c else c) <$> Columns t)
        (TimeKey t) (TTL t) (PartitionFunc t) (Cluster t) (Engine t) (OrderKeys t) (PrimaryKeyCount t))
}.

Lemma keys_in (cols : list Column) keys :
  forallb (fun k => bool_decide (k ∈ (Name <$> cols))) keys = true ->
  Forall (fun k => k ∈ (Name <$> cols)) keys.
Proof.
  intros H. apply Forall_forall. intros k Hk%list_elem_of_In. rewrite forallb_forall in H.
  by apply (bool_decide_eq_true_1 _), H.
Qed.

Lemma column_clauses_fst t c :
  (column_clauses t c).1 = if bool_decide (Name c = TimeKey t) then SetComment (Version t) c else c.
Proof. unfold column_clauses. by case_bool_decide. Qed.

Lemma CreateSQL_ok t :
  PrimaryKeyCount t = zlen (OrderKeys t) -> exists sql, MakeLocalTableCreateSQL t
    = Some (sql, mkTable (Version t) (ID t) (Database t) (LocalName t) (GlobalName t)
        ((fun c => if bool_decide (Name c = TimeKey t) then SetComment (Version t) c else c) <$> Columns t)
        (TimeKey t) (TTL t) (PartitionFunc t) (Cluster t) (Engine t) (OrderKeys t) (PrimaryKeyCount t)).
Proof.
  intros H. unfold MakeLocalTableCreateSQL. cbv zeta. rewrite H.
  rewrite (proj2 (Z.ltb_ge _ _)) by apply zlen_nonneg. rewrite Z.ltb_irrefl. cbn [orb].
  eexists. do 3 f_equal. rewrite <- list_fmap_compose. apply list_fmap_ext. intros _ c _.
  apply column_clauses_fst.
Qed.

Lemma metrics_tables_first engine version :
  exists tables, GetMetricsTables None engine version = Some (tables, Some tables) /\
    zlen tables = VTAP_TABLE_ID_MAX /\
    forall i t, tables !! Z.to_nat i = Some t -> 0 <= i -> table_ok i t.
Proof.
  eexists. split; [reflexivity|]. split; [reflexivity|]. intros i t Ht Hi. pose proof (lookup_lt_Some _ _ _ Ht) as Hlt. cbn [length app] in Hlt.
  assert (i = 0 \/ i = 1 \/ i = 2 \/ i = 3 \/ i = 4 \/ i = 5 \/ i = 6 \/ i = 7 \/ i = 8) as Hin by lia.
  repeat destruct Hin as [Hin|Hin]; subst i; injection Ht as <-;
    (split; [reflexivity|split; reflexivity|eexists; split; reflexivity
      |apply names_NoDup; vm_compute; reflexivity|apply keys_in; vm_compute; reflexivity
      |apply CreateSQL_ok; reflexivity]).
Qed.

Lemma metrics_tables_ok engine version :
  exists tables, GetMetricsTables None engine version = Some (tables, Some tables) /\
    forall i t, tables !! Z.to_nat i = Some t -> 0 <= i ->
      exists code, TableCode i = Some code /\ Columns t = GenTagColumns code ++ table_meters i.
Proof.
  destruct (metrics_tables_first engine version) as (tables & Ht & _ & Hok).
  exists tables. split; [done|]. intros i t Hi Hn. apply (Hok i t Hi Hn).
Qed.

(** C36: The nine metrics tables: the table at each position has that identifier
    and the name of that position; its columns are those of its code followed by
    those of its meters, under distinct names that include the keys it is ordered
    by; creating it does not fail; and every later call returns the same tables. *)
Theorem metrics_tables (engine : EngineType) (version : string) :
  exists tables, GetMetricsTables None engine version = Some (tables, Some tables) /\
    zlen tables = VTAP_TABLE_ID_MAX /\
    (forall i t, tables !! Z.to_nat i = Some t -> 0 <= i -> table_ok i t) /\
    forall engine' version', GetMetricsTables (Some tables) engine' version' = Some (tables, Some tables).
Proof.
  destruct (metrics_tables_first engine version) as (tables & Ht & Hl & Hok).
  exists tables. split_and!; done.
Qed.

(** ** Tap ports *)

(** A port from its parts. *)
Definition pack (mac tunnel reserved from : Z) : Z :=
  Z.lor (Z.lor (Z.lor mac (tunnel ≪ 32)) (reserved ≪ 40)) (from ≪ 60).

Lemma pack_sum mac tunnel reserved from :
  is_u 32 mac -> is_u 8 tunnel -> is_u 16 reserved -> 0 <= from < 16 ->
  pack mac tunnel reserved from = mac + tunnel * 2 ^ 32 + reserved * 2 ^ 40 + from * 2 ^ 60.
Proof.
  unfold is_u, pack. intros. rewrite (lor_shiftl_add mac) by (unfold is_u; lia).
  rewrite (lor_shiftl_add (_ + _)) by (unfold is_u; lia).
  by rewrite lor_shiftl_add by (unfold is_u; lia).
Qed.

Lemma pack_split mac tunnel reserved from :
  is_u 32 mac -> is_u 8 tunnel -> is_u 16 reserved -> 0 <= from < 16 ->
  SplitToPortTypeTunnel (pack mac tunnel reserved from) = (mac, from, tunnel).
Proof.
  intros Hm Ht Hr Hf. rewrite pack_sum by done. unfold SplitToPortTypeTunnel, FROM_OFFSET.
  rewrite !shiftr_div by lia. unfold wrap, is_u in *. f_equal; [f_equal|].
  - symmetry. apply (Z.mod_unique _ _ (tunnel + reserved * 2 ^ 8 + from * 2 ^ 28)); lia.
  - rewrite <- (Z.div_unique _ (2 ^ 60) from (mac + tunnel * 2 ^ 32 + reserved * 2 ^ 40)) by lia.
    apply Z.mod_small. lia.
  - rewrite <- (Z.div_unique _ (2 ^ 32) (tunnel + reserved * 2 ^ 8 + from * 2 ^ 28) mac) by lia.
    symmetry. apply (Z.mod_unique _ _ (reserved + from * 2 ^ 20)); lia.
Qed.

Lemma pack_reserved mac tunnel from v :
  is_u 16 v -> SetU16IntoReservedBytes (pack mac tunnel 0 from) v = pack mac tunnel v from.
Proof.
  intros Hv. unfold SetU16IntoReservedBytes, pack, shl, RESERVED_OFFSET. rewrite Z.shiftl_0_l, Z.lor_0_r.
  rewrite wrap_small by (rewrite shiftl_mul by lia; unfold is_u in *; lia).
  rewrite <- !Z.lor_assoc. do 2 f_equal. apply Z.lor_comm.
Qed.

(** How the sources build ports. *)
Inductive built : Z -> Z -> Z -> Z -> Prop :=
  | built_local tunnel mac : built (FromLocalMAC tunnel mac) mac TAPPORT_FROM_LOCAL_MAC tunnel
  | built_gateway tunnel mac : built (FromGatewayMAC tunnel mac) mac TAPPORT_FROM_GATEWAY_MAC tunnel
  | built_ipv4 ip : built (FromTunnelIP ip false) ip TAPPORT_FROM_TUNNEL_IPV4 0
  | built_ipv6 ip : built (FromTunnelIP ip true) ip TAPPORT_FROM_TUNNEL_IPV6 0
  | built_id tunnel id : built (FromID tunnel id) id TAPPORT_FROM_ID tunnel
  | built_netflow mac : built (FromNetFlow mac) mac TAPPORT_FROM_NETFLOW 0
  | built_sflow mac : built (FromSFlow mac) mac TAPPORT_FROM_SFLOW 0.

Lemma built_pack p port from tunnel :
  built p port from tunnel -> is_u 32 port -> is_u 8 tunnel ->
  p = pack port tunnel 0 from /\ 0 <= from < 16.
Proof.
  intros Hb Hp Ht. unfold pack. rewrite Z.shiftl_0_l, Z.lor_0_r.
  destruct Hb; (split; [|by vm_compute]);
    unfold FromLocalMAC, FromGatewayMAC, FromTunnelIP, FromID, FromNetFlow, FromSFlow,
      shl, TUNNEL_TYPE_OFFSET, FROM_OFFSET; cbn [negb]; rewrite ?Z.shiftl_0_l, ?Z.lor_0_r;
    rewrite ?(wrap_small 64) by (rewrite ?shiftl_mul by lia; unfold is_u in *; lia); done.
Qed.

(** A port built by any of the constructors from 32 bits of address and 8
    bits of tunnel type splits back into the address, the kind of the constructor
    and the tunnel type, also after 16 bits have been stored in its reserved
    part. *)
Theorem tap_port_split (p port from tunnel v : Z) :
  built p port from tunnel -> is_u 32 port -> is_u 8 tunnel -> is_u 16 v ->
  SplitToPortTypeTunnel p = (port, from, tunnel) /\
  SplitToPortTypeTunnel (SetU16IntoReservedBytes p v) = (port, from, tunnel).
Proof.
  intros Hb Hp Ht Hv. destruct (built_pack _ _ _ _ Hb Hp Ht) as [-> Hf].
  rewrite pack_reserved by done. split; by apply pack_split.
Qed.

Example tap_port_split_witness :
  SplitToPortTypeTunnel (FromID 3 70000) = (70000, TAPPORT_FROM_ID, 3) /\
  SplitToPortTypeTunnel (SetU16IntoReservedBytes (FromID 3 70000) 65535) = (70000, TAPPORT_FROM_ID, 3).
Proof.
  apply (tap_port_split (FromID 3 70000) 70000 TAPPORT_FROM_ID 3 65535 (built_id 3 70000));
    split; vm_compute; congruence.
Defined.
