(* ===== verification/TagMini.v ===== *)
(** The compact tags of [server/libs/zerodoc/tag_mini.go], which the agents send,
    their protobuf messages ([message/metric.proto]) and the tag a receiver builds
    from them ([ReadFromPB] of [tag.go]).

    A byte slice is its contents and the bytes beyond them up to its capacity;
    a pointer to a message is an option, [None] being nil. *)

From S2P Require Import Prelude Strconv LineProto Codec Ckdb Meter Tag.

#[local] Open Scope string_scope.
#[local] Open Scope list_scope.
#[local] Open Scope Z_scope.

(** * Messages *)

Record bytes := mkBytes { contents : list Z; beyond : list Z }.

Definition nil_bytes : bytes := mkBytes [] [].

(** [b[:n]]; [None] is the panic of slicing past the capacity. *)
Definition reslice (b : bytes) (n : Z) : option (list Z) :=
  let all := contents b ++ beyond b in
  if n <=? zlen all then Some (take (Z.to_nat n) all) else None.

(** [b[:0]] *)
Definition truncate (b : bytes) : bytes := mkBytes [] (contents b ++ beyond b).

Record pb_MiniField := mkpb_MiniField {
  pb_MiniField_Ip : bytes;
  pb_MiniField_Ip1 : bytes;
  pb_MiniField_GlobalThreadId : Z;
  pb_MiniField_IsIpv6 : Z;
  pb_MiniField_L3EpcId : Z;
  pb_MiniField_L3EpcId1 : Z;
  pb_MiniField_Mac : Z;
  pb_MiniField_Mac1 : Z;
  pb_MiniField_Direction : Z;
  pb_MiniField_TapSide : Z;
  pb_MiniField_Protocol : Z;
  pb_MiniField_AclGid : Z;
  pb_MiniField_ServerPort : Z;
  pb_MiniField_VtapId : Z;
  pb_MiniField_TapPort : Z;
  pb_MiniField_TapType : Z;
  pb_MiniField_L7Protocol : Z;
  pb_MiniField_TagType : Z;
  pb_MiniField_TagValue : Z
}.

Record pb_MiniTag := mkpb_MiniTag {
  pb_MiniTag_Field : option pb_MiniField;
  pb_MiniTag_Code : Z
}.

(** * Compact tags *)

Definition MINI_FIELD_FULL_CODES : Z :=
  ors [IP; IPPath; L3EpcID; L3EpcIDPath; VTAPID; Protocol; ServerPort; MAC; MACPath; Direction;
       TAPType; ACLGID; L7Protocol; TagType; TagValue].

Record MiniField := mkMiniField {
  rawIP : list Z;
  rawIP1 : list Z;
  MiniField_GlobalThreadID : Z;
  MiniField_IsIPv6 : Z;
  MiniField_L3EpcID : Z;
  MiniField_L3EpcID1 : Z;
  MiniField_MAC : Z;
  MiniField_MAC1 : Z;
  MiniField_Direction : Z;
  MiniField_Protocol : Z;
  MiniField_ACLGID : Z;
  MiniField_ServerPort : Z;
  MiniField_VTAPID : Z;
  MiniField_TAPPort : Z;
  MiniField_TAPType : Z;
  MiniField_L7Protocol : Z;
  MiniField_TagType : Z;
  MiniField_TagValue : Z
}.

Definition IPv4len : Z := 4.
Definition IPv6len : Z := 16.

Definition MiniField_IP (f : MiniField) : list Z :=
  if negb (MiniField_IsIPv6 f =? 0) then take (Z.to_nat IPv6len) (rawIP f)
  else take (Z.to_nat IPv4len) (rawIP f).

Definition MiniField_IP1 (f : MiniField) : list Z :=
  if negb (MiniField_IsIPv6 f =? 0) then take (Z.to_nat IPv6len) (rawIP1 f)
  else take (Z.to_nat IPv4len) (rawIP1 f).

Definition MiniField_SetIP (f : MiniField) (ip : list Z) : MiniField :=
  mkMiniField (copy_to (rawIP f) ip) (rawIP1 f) (MiniField_GlobalThreadID f) (MiniField_IsIPv6 f)
    (MiniField_L3EpcID f) (MiniField_L3EpcID1 f) (MiniField_MAC f) (MiniField_MAC1 f)
    (MiniField_Direction f) (MiniField_Protocol f) (MiniField_ACLGID f) (MiniField_ServerPort f)
    (MiniField_VTAPID f) (MiniField_TAPPort f) (MiniField_TAPType f) (MiniField_L7Protocol f)
    (MiniField_TagType f) (MiniField_TagValue f).

Definition MiniField_SetIP1 (f : MiniField) (ip : list Z) : MiniField :=
  mkMiniField (rawIP f) (copy_to (rawIP1 f) ip) (MiniField_GlobalThreadID f) (MiniField_IsIPv6 f)
    (MiniField_L3EpcID f) (MiniField_L3EpcID1 f) (MiniField_MAC f) (MiniField_MAC1 f)
    (MiniField_Direction f) (MiniField_Protocol f) (MiniField_ACLGID f) (MiniField_ServerPort f)
    (MiniField_VTAPID f) (MiniField_TAPPort f) (MiniField_TAPType f) (MiniField_L7Protocol f)
    (MiniField_TagType f) (MiniField_TagValue f).

Definition MiniField_WriteToPB (f : MiniField) : pb_MiniField := {|
  pb_MiniField_Ip := mkBytes (rawIP f) [];
  pb_MiniField_Ip1 := mkBytes (rawIP1 f) [];
  pb_MiniField_GlobalThreadId := u32 (MiniField_GlobalThreadID f);
  pb_MiniField_IsIpv6 := u32 (MiniField_IsIPv6 f);
  pb_MiniField_L3EpcId := i32 (MiniField_L3EpcID f);
  pb_MiniField_L3EpcId1 := i32 (MiniField_L3EpcID1 f);
  pb_MiniField_Mac := u64 (MiniField_MAC f);
  pb_MiniField_Mac1 := u64 (MiniField_MAC1 f);
  pb_MiniField_Direction := u32 (MiniField_Direction f);
  pb_MiniField_TapSide := u32 (ToTAPSide (MiniField_Direction f));
  pb_MiniField_Protocol := u32 (MiniField_Protocol f);
  pb_MiniField_AclGid := u32 (MiniField_ACLGID f);
  pb_MiniField_ServerPort := u32 (MiniField_ServerPort f);
  pb_MiniField_VtapId := u32 (MiniField_VTAPID f);
  pb_MiniField_TapPort := u64 (MiniField_TAPPort f);
  pb_MiniField_TapType := u32 (MiniField_TAPType f);
  pb_MiniField_L7Protocol := u32 (MiniField_L7Protocol f);
  pb_MiniField_TagType := u32 (MiniField_TagType f);
  pb_MiniField_TagValue := u32 (MiniField_TagValue f)
|}.

Record MiniTag := mkMiniTag {
  MiniTag_Field : MiniField;
  MiniTag_Code : Z;
  MiniTag_id : string
}.

Definition MiniTag_WriteToPB (t : MiniTag) : pb_MiniTag :=
  let code := MiniTag_Code t in
  let code :=
    if has code Direction && HasEdgeTagField code then andnot (Z.lor code TAPSide) Direction
    else code in
  mkpb_MiniTag (Some (MiniField_WriteToPB (MiniTag_Field t))) code.

Definition MiniTag_SetCode (t : MiniTag) (code : Z) : MiniTag :=
  mkMiniTag (MiniTag_Field t) (Z.land code MINI_FIELD_FULL_CODES) (MiniTag_id t).

(** ** Text form *)

Definition MiniTag_MarshalTo (t : MiniTag) : Marshal :=
  let code := MiniTag_Code t in
  let f := MiniTag_Field t in
  bif (negb (MiniField_GlobalThreadID f =? 0))
    (bput ",_tid=" ;+ bput (FormatUint (MiniField_GlobalThreadID f) 10)) ;+
  bif (has code ACLGID)
    (bput ",acl_gid=" ;+ bput (FormatUint (MiniField_ACLGID f) 10)) ;+
  bif (has code Direction)
    (if IsClientToServer (MiniField_Direction f) then bput ",direction=c2s"
     else bif (IsServerToClient (MiniField_Direction f)) (bput ",direction=s2c")) ;+
  bif (has code IP)
    (bput ",ip=" ;+ bput (IP_String (MiniField_IP f)) ;+
     (if negb (MiniField_IsIPv6 f =? 0) then bput ",ip_version=6" else bput ",ip_version=4")) ;+
  bif (has code IPPath)
    (bput ",ip_0=" ;+ bput (IP_String (MiniField_IP f)) ;+
     bput ",ip_1=" ;+ bput (IP_String (MiniField_IP1 f)) ;+
     (if negb (MiniField_IsIPv6 f =? 0) then bput ",ip_version=6" else bput ",ip_version=4")) ;+
  bif (has code L3EpcID)
    (bput ",l3_epc_id=" ;+ bput (marshalUint16WithSpecialID (MiniField_L3EpcID f))) ;+
  bif (has code L3EpcIDPath)
    (bput ",l3_epc_id_0=" ;+ bput (marshalUint16WithSpecialID (MiniField_L3EpcID f)) ;+
     bput ",l3_epc_id_1=" ;+ bput (marshalUint16WithSpecialID (MiniField_L3EpcID1 f))) ;+
  bif (has code Protocol)
    (bput ",protocol=" ;+ bput (FormatUint (MiniField_Protocol f) 10)) ;+
  bif (has code ServerPort)
    (bput ",server_port=" ;+ bput (FormatUint (MiniField_ServerPort f) 10)) ;+
  bif (has code TagType && has code TagValue)
    (bput ",tag_type=" ;+ bput (FormatUint (MiniField_TagType f) 10) ;+
     bif (MiniField_TagType f =? TAG_TYPE_TUNNEL_IP_ID)
       (bput ",tag_value=" ;+ bput (FormatUint (MiniField_TagValue f) 10))) ;+
  bif (has code TAPPort)
    (bput ",tap_port=" ;+ putTAPPort (MiniField_TAPPort f)) ;+
  bif (has code TAPType)
    (bput ",tap_type=" ;+ bput (FormatUint (MiniField_TAPType f) 10)) ;+
  bif (has code VTAPID)
    (bput ",vtap_id=" ;+ bput (FormatUint (MiniField_VTAPID f) 10)).

Definition MiniTag_ToKVString (t : MiniTag) : option string := MiniTag_MarshalTo t MAX_STRING_LENGTH "".

(** * Receiving *)

(** [if t.IP6 == nil { t.IP6 = make([]byte, 16) }; copy(t.IP6, ip[:16])] *)
Definition read_IPv6 (old : list Z) (ip : bytes) : option (list Z) :=
  copy_to (if zlen old =? 0 then replicate 16 0 else old) <$> reslice ip IPv6len.

Definition read_IPv4 (ip : bytes) : option Z := be_get <$> reslice ip IPv4len.

(** [None] is a panic: a nil field message, or an address that is too short. *)
Definition Tag_ReadFromPB (t : Tag) (p : pb_MiniTag) : option Tag :=
  let code := pb_MiniTag_Code p in
  f ← pb_MiniTag_Field p;
  let isIPv6 := u8 (pb_MiniField_IsIpv6 f) in
  let path := has code IPPath in
  '(ip6, ip61, ip, ip1) ←
    (if negb (isIPv6 =? 0) then
       ip6 ← read_IPv6 (Field_IP6 (Tag_Field t)) (pb_MiniField_Ip f);
       ip61 ← (if path then read_IPv6 (Field_IP61 (Tag_Field t)) (pb_MiniField_Ip1 f)
               else Some (Field_IP61 (Tag_Field t)));
       Some (ip6, ip61, Field_IP (Tag_Field t), Field_IP1 (Tag_Field t))
     else
       ip ← read_IPv4 (pb_MiniField_Ip f);
       ip1 ← (if path then read_IPv4 (pb_MiniField_Ip1 f) else Some (Field_IP1 (Tag_Field t)));
       Some (Field_IP6 (Tag_Field t), Field_IP61 (Tag_Field t), ip, ip1));
  Some (mkTag {|
    Field_GlobalThreadID := Field_GlobalThreadID (Tag_Field t);
    Field_IP6 := ip6;
    Field_MAC := pb_MiniField_Mac f;
    Field_IP := ip;
    Field_L3EpcID := i16 (pb_MiniField_L3EpcId f);
    Field_L3DeviceID := Field_L3DeviceID (Tag_Field t);
    Field_L3DeviceType := Field_L3DeviceType (Tag_Field t);
    Field_RegionID := Field_RegionID (Tag_Field t);
    Field_SubnetID := Field_SubnetID (Tag_Field t);
    Field_HostID := Field_HostID (Tag_Field t);
    Field_PodNodeID := Field_PodNodeID (Tag_Field t);
    Field_AZID := Field_AZID (Tag_Field t);
    Field_PodGroupID := Field_PodGroupID (Tag_Field t);
    Field_PodNSID := Field_PodNSID (Tag_Field t);
    Field_PodID := Field_PodID (Tag_Field t);
    Field_PodClusterID := Field_PodClusterID (Tag_Field t);
    Field_ServiceID := Field_ServiceID (Tag_Field t);
    Field_ResourceGl0ID := Field_ResourceGl0ID (Tag_Field t);
    Field_ResourceGl0Type := Field_ResourceGl0Type (Tag_Field t);
    Field_ResourceGl1ID := Field_ResourceGl1ID (Tag_Field t);
    Field_ResourceGl1Type := Field_ResourceGl1Type (Tag_Field t);
    Field_ResourceGl2ID := Field_ResourceGl2ID (Tag_Field t);
    Field_ResourceGl2Type := Field_ResourceGl2Type (Tag_Field t);
    Field_MAC1 := pb_MiniField_Mac1 f;
    Field_IP61 := ip61;
    Field_IP1 := ip1;
    Field_L3EpcID1 := i16 (pb_MiniField_L3EpcId1 f);
    Field_L3DeviceID1 := Field_L3DeviceID1 (Tag_Field t);
    Field_L3DeviceType1 := Field_L3DeviceType1 (Tag_Field t);
    Field_RegionID1 := Field_RegionID1 (Tag_Field t);
    Field_SubnetID1 := Field_SubnetID1 (Tag_Field t);
    Field_HostID1 := Field_HostID1 (Tag_Field t);
    Field_PodNodeID1 := Field_PodNodeID1 (Tag_Field t);
    Field_AZID1 := Field_AZID1 (Tag_Field t);
    Field_PodGroupID1 := Field_PodGroupID1 (Tag_Field t);
    Field_PodNSID1 := Field_PodNSID1 (Tag_Field t);
    Field_PodID1 := Field_PodID1 (Tag_Field t);
    Field_PodClusterID1 := Field_PodClusterID1 (Tag_Field t);
    Field_ServiceID1 := Field_ServiceID1 (Tag_Field t);
    Field_ResourceGl0ID1 := Field_ResourceGl0ID1 (Tag_Field t);
    Field_ResourceGl0Type1 := Field_ResourceGl0Type1 (Tag_Field t);
    Field_ResourceGl1ID1 := Field_ResourceGl1ID1 (Tag_Field t);
    Field_ResourceGl1Type1 := Field_ResourceGl1Type1 (Tag_Field t);
    Field_ResourceGl2ID1 := Field_ResourceGl2ID1 (Tag_Field t);
    Field_ResourceGl2Type1 := Field_ResourceGl2Type1 (Tag_Field t);
    Field_ACLGID := u16 (pb_MiniField_AclGid f);
    Field_Direction := u8 (pb_MiniField_Direction f);
    Field_Protocol := u8 (pb_MiniField_Protocol f);
    Field_ServerPort := u16 (pb_MiniField_ServerPort f);
    Field_VTAPID := u16 (pb_MiniField_VtapId f);
    Field_TAPPort := pb_MiniField_TapPort f;
    Field_TAPSide := u8 (pb_MiniField_TapSide f);
    Field_TAPType := u8 (pb_MiniField_TapType f);
    Field_IsIPv6 := isIPv6;
    Field_IsKeyService := Field_IsKeyService (Tag_Field t);
    Field_L7Protocol := u8 (pb_MiniField_L7Protocol f);
    Field_TagType := u8 (pb_MiniField_TagType f);
    Field_TagValue := u16 (pb_MiniField_TagValue f)
  |} code (Tag_id t)).

(** A field, and a tag with that field, from the pools: released ones were zeroed. *)
Definition AcquireField : Field :=
  mkField 0 [] 0 0 0 0 0 0 0 0 0 0 0 0 0 0 0 0 0 0 0 0 0 0 [] 0 0 0 0 0 0 0 0 0 0 0 0 0 0 0 0 0 0 0 0 0 0 0 0 0 0 0 0 0 0 0 0 0.

Definition AcquireTag : Tag := mkTag AcquireField 0 "".
