(* ===== verification/TagText.v ===== *)
(** The text form of tags ([Tag_MarshalTo] of [Tag.v], [MiniTag_MarshalTo] of
    [TagMini.v]): the key-value pairs they write, in the dictionary order of their
    keys, and the size they need. *)

From Stdlib Require Import Sorting.Sorted.
From S2P Require Import Prelude Strconv LineProto Ckdb Meter Tag TagMini.

#[local] Open Scope string_scope.
#[local] Open Scope list_scope.
#[local] Open Scope Z_scope.

(** * Key-value pairs *)

(** A pair, and whether it is written. *)
Definition entry : Type := bool * string * string.

Definition entry_key (e : entry) : string := e.1.2.

Definition entry_text (e : entry) : string :=
  if e.1.1 then "," +:+ e.1.2 +:+ "=" +:+ e.2 else "".

Fixpoint text (l : list entry) : string :=
  match l with
  | [] => ""
  | e :: l => entry_text e +:+ text l
  end.

Lemma text_app l k : text (l ++ k) = text l +:+ text k.
Proof. induction l as [|e l IH]; [done|]. cbn [text app]. by rewrite IH, sapp_assoc. Qed.

Definition guard (b : bool) (l : list (string * string)) : list entry :=
  (fun kv => (b, kv.1, kv.2)) <$> l.

Lemma text_guard_false l : text (guard false l) = "".
Proof. induction l as [|kv l IH]; [done|]. exact IH. Qed.

Lemma pair_ind {A} (P : list A -> Prop) :
  P [] -> (forall x, P [x]) -> (forall x y l, P l -> P (x :: y :: l)) -> forall l, P l.
Proof.
  intros H0 H1 H2 l. cut (P l /\ forall x, P (x :: l)); [by intros [? _]|].
  induction l as [|y l [IH1 IH2]]; auto.
Qed.

Lemma guard_app b l k : guard b (l ++ k) = guard b l ++ guard b k.
Proof. apply fmap_app. Qed.

Lemma appends_pair k v l m s :
  s = "," +:+ k +:+ "=" -> appends m (text (guard true l)) ->
  appends (bput s ;+ bput v ;+ m) (text (guard true ((k, v) :: l))).
Proof.
  intros -> H. cbn [guard fmap list_fmap text]. fold (guard true l).
  unfold entry_text. cbn [fst snd].
  replace (("," +:+ k +:+ "=" +:+ v) +:+ text (guard true l))
    with (("," +:+ k +:+ "=") +:+ v +:+ text (guard true l)) by (by rewrite !sapp_assoc).
  apply appends_bseq; [apply appends_bput|]. apply appends_bseq; [apply appends_bput|done].
Qed.

Lemma appends_last_pair k v s :
  s = "," +:+ k +:+ "=" -> appends (bput s ;+ bput v) (text (guard true [(k, v)])).
Proof.
  intros ->. cbn [guard fmap list_fmap text]. unfold entry_text. cbn [fst snd]. rewrite sapp_nil_r.
  replace ("," +:+ k +:+ "=" +:+ v) with (("," +:+ k +:+ "=") +:+ v) by (by rewrite !sapp_assoc).
  apply appends_bseq; apply appends_bput.
Qed.

(** A literal that holds a whole pair. *)
Lemma appends_literal k v s :
  s = "," +:+ k +:+ "=" +:+ v -> appends (bput s) (text (guard true [(k, v)])).
Proof.
  intros ->. cbn [guard fmap list_fmap text]. unfold entry_text. cbn [fst snd]. rewrite sapp_nil_r.
  apply appends_bput.
Qed.

Lemma appends_group b l m : appends m (text (guard true l)) -> appends (bif b m) (text (guard b l)).
Proof.
  intros H. destruct b; [exact H|]. rewrite text_guard_false. apply appends_bret.
Qed.

Lemma appends_group_seq b l m m' k :
  appends m (text (guard true l)) -> appends m' (text k) ->
  appends (bif b m ;+ m') (text (guard b l ++ k)).
Proof. intros H H'. rewrite text_app. apply appends_bseq; [by apply appends_group|done]. Qed.

(** Follows a marshaller pair by pair. *)
Ltac pairs := first
  [ apply appends_pair; [reflexivity|pairs]
  | apply appends_last_pair; reflexivity
  | apply appends_literal; reflexivity ].

Ltac groups := first
  [ apply appends_group_seq; [pairs|groups]
  | apply appends_group; pairs ].

(** * The pairs of a tag *)

Definition dec (v : Z) : string := FormatUint v 10.

(** A key of the only side, and the keys of the client and of the server side. *)
Definition entry3 (b b' : bool) (n : string) (v v1 : string) : list entry :=
  guard b [(n, v)] ++ guard b' [(n +:+ "_0", v); (n +:+ "_1", v1)].

(** Several keys of one field. *)
Definition entries3 (b b' : bool) (l : list (string * string * string)) : list entry :=
  concat ((fun e => entry3 b b' e.1.1 e.1.2 e.2) <$> l).

Definition ip_text (f : Field) : string :=
  IP_String (if negb (Field_IsIPv6 f =? 0) then Field_IP6 f else IpFromUint32 (Field_IP f)).

Definition ip1_text (f : Field) : string :=
  IP_String (if negb (Field_IsIPv6 f =? 0) then Field_IP61 f else IpFromUint32 (Field_IP1 f)).

(** The capture positions that have a text. *)
Definition text_sides : list Z :=
  [Rest; Client; Server; ClientNode; ServerNode; ClientHypervisor; ServerHypervisor;
   ClientGatewayHypervisor; ServerGatewayHypervisor; ClientGateway; ServerGateway].

Definition tap_port_text (p : Z) : string :=
  let s := FormatUint p 16 in
  String.substring 0 (Z.to_nat (TAP_PORT_STR_LEN - slen s)) "00000000" +:+ s.

Definition tag_entries_1 (code : Z) (f : Field) : list entry :=
  guard (negb (Field_GlobalThreadID f =? 0)) [("_tid", dec (Field_GlobalThreadID f))]
  ++ guard (has code ACLGID) [("acl_gid", dec (Field_ACLGID f))]
  ++ entry3 (has code AZID) (has code AZIDPath) "az_id" (dec (Field_AZID f)) (dec (Field_AZID1 f))
  ++ guard (has code Direction && (IsClientToServer (Field_Direction f) || IsServerToClient (Field_Direction f))) [("direction", if IsClientToServer (Field_Direction f) then "c2s" else "s2c")]
  ++ entry3 (has code HostID) (has code HostIDPath) "host_id" (dec (Field_HostID f)) (dec (Field_HostID1 f))
  ++ entry3 (has code IP) (has code IPPath) "ip" (ip_text f) (ip1_text f)
  ++ guard (has code IP || has code IPPath) [("ip_version", if negb (Field_IsIPv6 f =? 0) then "6" else "4")]
  ++ guard (has code IsKeyService) [("is_key_service", if Field_IsKeyService f =? 1 then "1" else "0")].

Definition tag_entries_2 (code : Z) (f : Field) : list entry :=
  entries3 (has code L3Device) (has code L3DevicePath)
    [("l3_device_id", dec (Field_L3DeviceID f), dec (Field_L3DeviceID1 f));
     ("l3_device_type", dec (Field_L3DeviceType f), dec (Field_L3DeviceType1 f))]
  ++ entry3 (has code L3EpcID) (has code L3EpcIDPath) "l3_epc_id"
       (marshalUint16WithSpecialID (Field_L3EpcID f)) (marshalUint16WithSpecialID (Field_L3EpcID1 f))
  ++ guard (has code L7Protocol) [("l7_protocol", dec (Field_L7Protocol f))].

Definition tag_entries_3 (code : Z) (f : Field) : list entry :=
  entry3 (has code PodClusterID) (has code PodClusterIDPath) "pod_cluster_id"
    (dec (Field_PodClusterID f)) (dec (Field_PodClusterID1 f))
  ++ entry3 (has code PodGroupID) (has code PodGroupIDPath) "pod_group_id"
       (dec (Field_PodGroupID f)) (dec (Field_PodGroupID1 f))
  ++ entry3 (has code PodID) (has code PodIDPath) "pod_id" (dec (Field_PodID f)) (dec (Field_PodID1 f))
  ++ entry3 (has code PodNodeID) (has code PodNodeIDPath) "pod_node_id"
       (dec (Field_PodNodeID f)) (dec (Field_PodNodeID1 f))
  ++ entry3 (has code PodNSID) (has code PodNSIDPath) "pod_ns_id"
       (dec (Field_PodNSID f)) (dec (Field_PodNSID1 f))
  ++ guard (has code Protocol) [("protocol", dec (Field_Protocol f))]
  ++ entry3 (has code RegionID) (has code RegionIDPath) "region_id"
       (dec (Field_RegionID f)) (dec (Field_RegionID1 f)).

Definition tag_entries_4 (code : Z) (f : Field) : list entry :=
  entries3 (has code Resource) (has code ResourcePath)
    [("resource_gl0_id", dec (Field_ResourceGl0ID f), dec (Field_ResourceGl0ID1 f));
     ("resource_gl0_type", dec (Field_ResourceGl0Type f), dec (Field_ResourceGl0Type1 f));
     ("resource_gl1_id", dec (Field_ResourceGl1ID f), dec (Field_ResourceGl1ID1 f));
     ("resource_gl1_type", dec (Field_ResourceGl1Type f), dec (Field_ResourceGl1Type1 f));
     ("resource_gl2_id", dec (Field_ResourceGl2ID f), dec (Field_ResourceGl2ID1 f));
     ("resource_gl2_type", dec (Field_ResourceGl2Type f), dec (Field_ResourceGl2Type1 f))]
  ++ guard (has code ServerPort) [("server_port", dec (Field_ServerPort f))]
  ++ entry3 (has code ServiceID) (has code ServiceIDPath) "service_id"
       (dec (Field_ServiceID f)) (dec (Field_ServiceID1 f))
  ++ entry3 (has code SubnetID) (has code SubnetIDPath) "subnet_id"
       (dec (Field_SubnetID f)) (dec (Field_SubnetID1 f))
  ++ guard (has code TagType && has code TagValue) [("tag_type", dec (Field_TagType f))]
  ++ guard (has code TagType && has code TagValue && (Field_TagType f =? TAG_TYPE_TUNNEL_IP_ID)) [("tag_value", dec (Field_TagValue f))]
  ++ guard (has code TAPPort) [("tap_port", tap_port_text (Field_TAPPort f))]
  ++ guard (has code TAPSide && bool_decide (Field_TAPSide f ∈ text_sides)) [("tap_side", default "" (TAPSideEnum_String (Field_TAPSide f)))]
  ++ guard (has code TAPType) [("tap_type", dec (Field_TAPType f))]
  ++ guard (has code VTAPID) [("vtap_id", dec (Field_VTAPID f))].

(** Every pair a tag can write, those it does not write marked so. *)
Definition tag_entries (t : Tag) : list entry :=
  let code := Tag_Code t in
  let f := Tag_Field t in
  tag_entries_1 code f ++ tag_entries_2 code f ++ tag_entries_3 code f ++ tag_entries_4 code f.

(** * What is written *)

Definition group0 (l : list (string * string * string)) : list (string * string) :=
  (fun e => (e.1.1, e.1.2)) <$> l.

Definition group1 (l : list (string * string * string)) : list (string * string) :=
  concat ((fun e => [(e.1.1 +:+ "_0", e.1.2); (e.1.1 +:+ "_1", e.2)]) <$> l).

(** Only one of the two sides is written, so its keys come together. *)
Lemma text_entries3 (b b' : bool) l :
  b && b' = false -> text (entries3 b b' l) = text (guard b (group0 l) ++ guard b' (group1 l)).
Proof.
  intros Hb. rewrite text_app. unfold entries3. induction l as [|e l IH]; [by destruct b, b'|].
  cbn [fmap list_fmap concat]. rewrite text_app. unfold entry3. rewrite text_app.
  etransitivity; [apply (f_equal (fun s => _ +:+ s)), IH|]. clear IH.
  change (group0 (e :: l)) with ([(e.1.1, e.1.2)] ++ group0 l).
  change (group1 (e :: l)) with ([(e.1.1 +:+ "_0", e.1.2); (e.1.1 +:+ "_1", e.2)] ++ group1 l).
  rewrite !guard_app, !text_app.
  destruct b, b'; [done|..]; rewrite ?text_guard_false, ?sapp_nil_r, ?sapp_nil_l; done.
Qed.

(** A code of one side: it has no field of a single address, or none of a pair. *)
Definition one_sided (code : Z) : Prop := Z.land code 0xfffff = 0 \/ HasEdgeTagField code = false.

Lemma has_bit code k : 0 <= k -> has code (1 ≪ k) = Z.testbit code k.
Proof.
  intros Hk. unfold has. destruct (Z.testbit code k) eqn:E.
  - apply negb_true_iff, Z.eqb_neq. intros H%(f_equal (fun x => Z.testbit x k)).
    rewrite Z.land_spec, E, Z.shiftl_spec, Z.sub_diag, Z.bits_0 in H by done. done.
  - apply negb_false_iff, Z.eqb_eq, Z.bits_inj'. intros i Hi.
    rewrite Z.land_spec, Z.bits_0, Z.shiftl_spec by done.
    destruct (Z.eq_dec i k) as [->|Hn]; [by rewrite E|].
    destruct (Z.ltb_spec i k); [rewrite (Z.testbit_neg_r 1) by lia; apply andb_false_r|].
    replace (i - k) with (Z.succ (i - k - 1)) by lia.
    change 1 with (2 * 0 + 1). rewrite Z.testbit_odd_succ, Z.bits_0 by lia. apply andb_false_r.
Qed.

Lemma land_bit_zero a m k : Z.land a m = 0 -> Z.testbit m k = true -> Z.testbit a k = false.
Proof.
  intros H%(f_equal (fun x => Z.testbit x k)) Hm. rewrite Z.land_spec, Hm, Z.bits_0 in H.
  by destruct (Z.testbit a k).
Qed.

Lemma one_sided_pair code k :
  one_sided code -> 0 <= k < 20 -> has code (1 ≪ k) && has code (1 ≪ (k + 20)) = false.
Proof.
  intros H Hk. rewrite !has_bit by lia.
  destruct H as [H|H%negb_false_iff%Z.eqb_eq].
  - rewrite (land_bit_zero _ _ k H); [done|].
    apply (forall_below 20 (fun k => Z.testbit 0xfffff k)); [by vm_compute|done].
  - rewrite (land_bit_zero _ _ (k + 20) H); [apply andb_false_r|].
    apply (forall_below 20 (fun k => Z.testbit 0xfffff00000 (k + 20))); [by vm_compute|done].
Qed.

Lemma zeros_length n : 0 <= n <= 8 -> slen (String.substring 0 (Z.to_nat n) "00000000") = n.
Proof.
  intros Hn. apply Z.eqb_eq.
  apply (forall_below 9 (fun n => slen (String.substring 0 (Z.to_nat n) "00000000") =? n));
    [by vm_compute|lia].
Qed.

Lemma appends_bseq_assoc m1 m2 m3 s : appends ((m1 ;+ m2) ;+ m3) s -> appends (m1 ;+ m2 ;+ m3) s.
Proof. intros H cap out Hc. rewrite <- (H cap out Hc). unfold bseq. by destruct (m1 cap out). Qed.

(** The chain of cases of the capture position. *)
Lemma text_side s :
  appends
    (if s =? Rest then bput ",tap_side=rest"
     else if s =? Client then bput ",tap_side=c"
     else if s =? Server then bput ",tap_side=s"
     else if s =? ClientNode then bput ",tap_side=c-nd"
     else if s =? ServerNode then bput ",tap_side=s-nd"
     else if s =? ClientHypervisor then bput ",tap_side=c-hv"
     else if s =? ServerHypervisor then bput ",tap_side=s-hv"
     else if s =? ClientGatewayHypervisor then bput ",tap_side=c-gw-hv"
     else if s =? ServerGatewayHypervisor then bput ",tap_side=s-gw-hv"
     else if s =? ClientGateway then bput ",tap_side=c-gw"
     else if s =? ServerGateway then bput ",tap_side=s-gw"
     else bret)
    (text (guard (bool_decide (s ∈ text_sides)) [("tap_side", default "" (TAPSideEnum_String s))])).
Proof.
  repeat match goal with |- context [s =? ?c] =>
    destruct (Z.eqb_spec s c) as [->|]; [apply appends_literal; reflexivity|] end.
  rewrite bool_decide_eq_false_2; [apply appends_bret|].
  unfold text_sides. rewrite !elem_of_cons, elem_of_nil.
  intros H. repeat (destruct H as [H|H]; [congruence|]). done.
Qed.

Lemma appends_putTAPPort p :
  is_u 32 p -> appends (putTAPPort p) (tap_port_text p).
Proof.
  intros Hp cap out Hc. unfold putTAPPort, tap_port_text in *. cbv zeta in *.
  assert (slen (FormatUint p 16) <= TAP_PORT_STR_LEN) as Hl.
  { unfold slen, FormatUint. pose proof (format_loop_length 64 16 p 7 ltac:(lia)) as H.
    unfold is_u in Hp. assert (2 ^ 32 = 16 ^ Z.of_nat 8) as E by done. rewrite <- E in H.
    specialize (H Hp). unfold TAP_PORT_STR_LEN. lia. }
  set (s := FormatUint p 16) in *. pose proof (slen_nonneg s). unfold TAP_PORT_STR_LEN in *.
  rewrite slen_app, zeros_length in Hc by lia.
  rewrite (proj2 (Z.ltb_ge _ _)), (proj2 (Z.ltb_ge _ _)) by lia. done.
Qed.

(** The parts that both kinds of tags have. *)
Lemma direction_text b d :
  appends (bif b (if IsClientToServer d then bput ",direction=c2s"
                  else bif (IsServerToClient d) (bput ",direction=s2c")))
    (text (guard (b && (IsClientToServer d || IsServerToClient d))
       [("direction", if IsClientToServer d then "c2s" else "s2c")])).
Proof.
  destruct b; [|apply appends_bret]. cbn [bif].
  destruct (IsClientToServer _); [apply (appends_literal "direction"); reflexivity|].
  cbn [orb andb]. apply (appends_group _ [("direction", "s2c")]). pairs.
Qed.

Lemma tag_value_text b ty v :
  appends (bif b (bput ",tag_type=" ;+ bput (FormatUint ty 10) ;+
                  bif (ty =? TAG_TYPE_TUNNEL_IP_ID) (bput ",tag_value=" ;+ bput (FormatUint v 10))))
    (text (guard b [("tag_type", dec ty)]
           ++ guard (b && (ty =? TAG_TYPE_TUNNEL_IP_ID)) [("tag_value", dec v)])).
Proof.
  destruct b; [|apply appends_bret]. cbn [bif andb].
  rewrite text_app. apply appends_bseq_assoc, appends_bseq; [pairs|]. apply appends_group. pairs.
Qed.

Lemma tap_port_part b p :
  is_u 32 p ->
  appends (bif b (bput ",tap_port=" ;+ putTAPPort p)) (text (guard b [("tap_port", tap_port_text p)])).
Proof.
  intros Hp. destruct b; [|apply appends_bret]. cbn [bif].
  apply (appends_bseq _ _ ",tap_port=" (tap_port_text p +:+ ""));
    [apply appends_bput|rewrite sapp_nil_r; by apply appends_putTAPPort].
Qed.

Section Parts.
Context (code : Z) (f : Field).

Lemma Tag_text_3 : appends (Tag_MarshalTo_3 code f) (text (tag_entries_3 code f)).
Proof. unfold Tag_MarshalTo_3, tag_entries_3, entry3. rewrite <- ?app_assoc. groups. Qed.

Lemma Tag_text_2 :
  one_sided code -> appends (Tag_MarshalTo_2 code f) (text (tag_entries_2 code f)).
Proof.
  intros H. unfold Tag_MarshalTo_2, tag_entries_2.
  rewrite text_app, text_entries3, <- text_app by apply (one_sided_pair code 2 H ltac:(lia)).
  unfold entry3. rewrite <- ?app_assoc. groups.
Qed.

Lemma text_ip a b v v1 x :
  a && b = false ->
  text (entry3 a b "ip" v v1 ++ guard (a || b) [("ip_version", x)])
  = text (guard a [("ip", v); ("ip_version", x)]
          ++ guard b [("ip_0", v); ("ip_1", v1); ("ip_version", x)]).
Proof. intros H. by destruct a, b. Qed.

(** An IPv6 pair of addresses has its version under another key. *)
Lemma Tag_text_1 :
  one_sided code -> has code IPPath && negb (Field_IsIPv6 f =? 0) = false ->
  appends (Tag_MarshalTo_1 code f) (text (tag_entries_1 code f)).
Proof.
  intros H H6. unfold Tag_MarshalTo_1, tag_entries_1.
  unfold entry3 at 1 2. rewrite <- ?app_assoc.
  do 4 (apply appends_group_seq; [pairs|]).
  rewrite text_app. apply appends_bseq; [apply direction_text|].
  do 2 (apply appends_group_seq; [pairs|]).
  rewrite app_assoc, text_app, text_ip, <- text_app, <- app_assoc
    by apply (one_sided_pair code 0 H ltac:(lia)).
  unfold ip_text, ip1_text. destruct (negb (Field_IsIPv6 f =? 0)).
  - rewrite andb_true_r in H6. rewrite H6. cbn [bif].
    apply appends_group_seq; [pairs|].
    rewrite text_app, text_guard_false. apply appends_bseq; [apply appends_bret|].
    apply appends_group. destruct (_ =? 1); pairs.
  - apply appends_group_seq; [pairs|]. apply appends_group_seq; [pairs|].
    apply appends_group. destruct (_ =? 1); pairs.
Qed.

Lemma Tag_text_4 :
  one_sided code -> is_u 32 (Field_TAPPort f) ->
  appends (Tag_MarshalTo_4 code f) (text (tag_entries_4 code f)).
Proof.
  intros H Hp. unfold Tag_MarshalTo_4, tag_entries_4.
  rewrite text_app, text_entries3, <- text_app by apply (one_sided_pair code 14 H ltac:(lia)).
  unfold entry3. rewrite <- ?app_assoc.
  do 7 (apply appends_group_seq; [pairs|]).
  rewrite app_assoc, text_app. apply appends_bseq; [apply tag_value_text|].
  rewrite text_app. apply appends_bseq; [by apply tap_port_part|].
  rewrite text_app. apply appends_bseq.
  { destruct (has code TAPSide); [|apply appends_bret]. cbn [bif andb]. apply text_side. }
  groups.
Qed.
End Parts.

(** * Sizes *)

(** What is assumed of the fields: numbers of at most 32 bits, and addresses that
    are absent or have sixteen bytes. *)
Definition numbers (f : Field) : list Z :=
  [
    Field_GlobalThreadID f; Field_L3DeviceID f; Field_L3DeviceType f; Field_RegionID f;
    Field_SubnetID f; Field_HostID f; Field_PodNodeID f; Field_AZID f; Field_PodGroupID f;
    Field_PodNSID f; Field_PodID f; Field_PodClusterID f; Field_ServiceID f;
    Field_ResourceGl0ID f; Field_ResourceGl0Type f; Field_ResourceGl1ID f;
    Field_ResourceGl1Type f; Field_ResourceGl2ID f; Field_ResourceGl2Type f; Field_L3DeviceID1 f;
    Field_L3DeviceType1 f; Field_RegionID1 f; Field_SubnetID1 f; Field_HostID1 f;
    Field_PodNodeID1 f; Field_AZID1 f; Field_PodGroupID1 f; Field_PodNSID1 f; Field_PodID1 f;
    Field_PodClusterID1 f; Field_ServiceID1 f; Field_ResourceGl0ID1 f; Field_ResourceGl0Type1 f;
    Field_ResourceGl1ID1 f; Field_ResourceGl1Type1 f; Field_ResourceGl2ID1 f;
    Field_ResourceGl2Type1 f; Field_ACLGID f; Field_Protocol f; Field_ServerPort f;
    Field_VTAPID f; Field_TAPType f; Field_L7Protocol f; Field_TagType f; Field_TagValue f
  ].

Definition address_ok (ip : list Z) : Prop := (ip = [] \/ length ip = 16%nat) /\ bytes_ok ip.

Record field_text_ok (f : Field) : Prop := {
  ok_numbers : Forall (is_u 32) (numbers f);
  ok_port : is_u 32 (Field_TAPPort f);
  ok_ip6 : address_ok (Field_IP6 f);
  ok_ip61 : address_ok (Field_IP61 f)
}.

(** A value of at most [n] bytes without separators. *)
Definition word_char (c : Ascii.ascii) : bool :=
  negb (bool_decide (c = ","%char)) && negb (bool_decide (c = "="%char)).

Definition word (n : Z) (s : string) : Prop := slen s <= n /\ sforall word_char s = true.

Lemma word_mono n n' s : word n s -> n <= n' -> word n' s.
Proof. intros [? ?] ?. split; [lia|done]. Qed.

Lemma word_app n n' s s' : word n s -> word n' s' -> word (n + n') (s +:+ s').
Proof. intros [? H] [? H']. split; [rewrite slen_app; lia|by rewrite sforall_app, H, H']. Qed.

Lemma FormatUint_word_chars v base : 2 <= base <= 16 -> sforall word_char (FormatUint v base) = true.
Proof.
  intros Hb. apply format_loop_digits; [lia|]. intros d Hd.
  apply (forall_below 16 (fun d => word_char (digit d))); [by vm_compute|lia].
Qed.

Lemma dec_word v : is_u 32 v -> word 10 (dec v).
Proof.
  intros H%FormatUint_length_32. split; [unfold slen, dec; lia|]. by apply FormatUint_word_chars.
Qed.

Lemma byte_word v : is_u 8 v -> word 3 (FormatUint v 10).
Proof.
  intros H. split; [|by apply FormatUint_word_chars]. unfold slen, FormatUint.
  pose proof (format_loop_length 64 10 v 2 ltac:(lia)) as H'. unfold is_u in H.
  assert (2 ^ 8 < 10 ^ Z.of_nat 3) by done. lia.
Qed.

Lemma hex_word x : 0 <= x < 2 ^ 16 -> word 4 (FormatUint x 16).
Proof.
  intros Hx. split; [|by apply FormatUint_word_chars]. unfold slen, FormatUint.
  pose proof (format_loop_length 64 16 x 3 ltac:(lia) Hx). lia.
Qed.

Lemma special_word v : word 10 (marshalUint16WithSpecialID v).
Proof.
  unfold marshalUint16WithSpecialID.
  destruct (Z.eqb_spec v ID_OTHER) as [->|]; [by split; vm_compute|].
  destruct (Z.eqb_spec v ID_INTERNET) as [->|]; [by split; vm_compute|].
  cbn [orb]. apply dec_word.
  replace 65535 with (2 ^ 16 - 1) by done. rewrite land_mask by done.
  apply (is_u_mono 16); [|done]. by apply wrap_range.
Qed.

Lemma Join_word n m l sep :
  Forall (word n) l -> 0 <= n -> word m sep -> word (zlen l * (n + m)) (Join l sep).
Proof.
  intros H Hn [Hm Hs]. pose proof (slen_nonneg sep). induction H as [|x l Hx Hl IH]; [by split|].
  destruct Hx as [Hx Hc]. rewrite zlen_cons. destruct l as [|y l].
  - cbn [Join]. change (zlen (@nil string)) with 0. split; [lia|done].
  - change (Join (x :: y :: l) sep) with (x +:+ sep +:+ Join (y :: l) sep).
    destruct IH as [IH1 IH2]. split; [rewrite !slen_app; lia|by rewrite !sforall_app, Hc, Hs, IH2].
Qed.

Lemma groups_ok b : bytes_ok b -> Forall (fun x => 0 <= x < 2 ^ 16) (groups b) /\
  2 * zlen (groups b) <= zlen b.
Proof.
  induction b as [|x|x y b IH] using pair_ind; intros H; [by split|by split; [constructor|]|].
  inversion H as [|? ? Hx H']; subst. inversion H' as [|? ? Hy Hb]; subst.
  destruct (IH Hb) as [IH1 IH2]. cbn [groups]. rewrite !zlen_cons. split; [|lia].
  constructor; [|done]. unfold is_u in *. lia.
Qed.

Lemma Join_map_word {A} (P : A -> Prop) n (g : A -> string) l sep :
  (forall x, P x -> word n (g x)) -> 0 <= n -> word 1 sep -> Forall P l ->
  word (zlen l * (n + 1)) (Join (g <$> l) sep).
Proof.
  intros H Hn Hs Hl. replace (zlen l) with (zlen (g <$> l)) by (unfold zlen; by rewrite length_fmap).
  apply Join_word; [|done|done]. apply Forall_fmap, (Forall_impl _ _ _ Hl), H.
Qed.

Lemma IPv4_word b : bytes_ok b -> length b = 4%nat -> word 16 (IPv4_String b).
Proof.
  intros Hb Hl. replace 16 with (zlen b * (3 + 1)) by (unfold zlen; lia).
  apply (Join_map_word (is_u 8)); [apply byte_word|done|by split|done].
Qed.

Lemma IPv6_word b : bytes_ok b -> length b = 16%nat -> word 82 (IPv6_String b).
Proof.
  intros Hb Hl. destruct (groups_ok b Hb) as [Hg Hn]. unfold IPv6_String.
  assert (zlen (groups b) <= 8) as Hn' by (unfold zlen in *; lia).
  assert (forall l, Forall (fun x => 0 <= x < 2 ^ 16) l -> zlen l <= 8 ->
    word 40 (Join ((fun x => FormatUint x 16) <$> l) ":")) as Hj.
  { intros l H Hz. apply (word_mono (zlen l * (4 + 1))); [|lia].
    eapply Join_map_word; [apply hex_word|done|by split|done]. }
  destruct (longest_run _ _ _) as [s n]. destruct (_ <? 2)%nat.
  - apply (word_mono 40); [by apply Hj|done].
  - apply (word_app 40 (2 + 40)); [|apply word_app; [by split|]].
    + apply Hj; [by apply Forall_take|]. unfold zlen in *. rewrite length_take. lia.
    + apply Hj; [by apply Forall_drop|]. unfold zlen in *. rewrite length_drop. lia.
Qed.

Lemma IP_word b : bytes_ok b -> b = [] \/ length b = 4%nat \/ length b = 16%nat -> word 82 (IP_String b).
Proof.
  intros Hb Hl. unfold IP_String. case_bool_decide as E; [by split|].
  destruct (Z.eqb_spec (zlen b) 4) as [E4|E4].
  { apply (word_mono 16); [|done]. apply IPv4_word; [done|unfold zlen in E4; lia]. }
  assert (length b = 16)%nat as E16 by (unfold zlen in E4; destruct Hl as [|[|]]; [done|lia|done]).
  rewrite (proj2 (Z.eqb_eq (zlen b) 16)) by (unfold zlen; lia). cbn [andb negb].
  case_bool_decide; [|by apply IPv6_word].
  apply (word_mono 16); [|done]. apply IPv4_word; [by apply Forall_drop|].
  rewrite length_drop. lia.
Qed.

Lemma tap_port_word p : is_u 32 p -> word 10 (tap_port_text p).
Proof.
  intros Hp. pose proof (appends_putTAPPort p Hp 8 "") as H.
  apply (word_mono 8); [|done]. unfold tap_port_text.
  assert (slen (FormatUint p 16) <= 8) as Hl.
  { unfold slen, FormatUint. pose proof (format_loop_length 64 16 p 7 ltac:(lia) Hp). lia. }
  pose proof (slen_nonneg (FormatUint p 16)). split.
  - rewrite slen_app, zeros_length; unfold TAP_PORT_STR_LEN; lia.
  - rewrite sforall_app, FormatUint_word_chars by lia. rewrite andb_true_r.
    apply (forall_below 9 (fun n => sforall word_char (String.substring 0 (Z.to_nat n) "00000000")));
      [by vm_compute|unfold TAP_PORT_STR_LEN; lia].
Qed.

Lemma side_word s : word 10 (default "" (TAPSideEnum_String s)).
Proof.
  destruct (TAPSideEnum_String s) as [n|] eqn:E; [|by split]. cbn.
  assert (forallb (fun n => (slen n <=? 10) && sforall word_char n) TAPSideEnumsString = true) as H
    by (by vm_compute).
  apply list_elem_of_lookup_2, list_elem_of_In in E. rewrite forallb_forall in H.
  specialize (H n E). apply andb_prop in H as [H1 H2]. split; [by apply Z.leb_le|done].
Qed.

Lemma address_word ip n : address_ok ip -> bytes_ok n -> length n = 4%nat -> forall c : bool,
  word 82 (IP_String (if c then ip else n)).
Proof. intros [H Hb] Hn Hl c. apply IP_word; destruct c; intuition. Qed.

Lemma IpFromUint32_ok ip : bytes_ok (IpFromUint32 ip) /\ length (IpFromUint32 ip) = 4%nat.
Proof.
  pose proof (be_put_zlen 4 ip ltac:(lia)) as H. unfold zlen, IpFromUint32 in *. split; [|lia].
  unfold be_put. apply Forall_reverse. by apply le_put_ok.
Qed.

(** The width of the value of each key. *)
Definition width (k : string) : Z := if bool_decide (k ∈ ["ip"; "ip_0"; "ip_1"]) then 82 else 10.

Ltac settle_word := first
  [ apply dec_word; assumption
  | apply special_word
  | apply side_word
  | apply tap_port_word; assumption
  | apply address_word; [assumption|apply IpFromUint32_ok..]
  | case_match; by split ].

Lemma tag_entries_words t :
  field_text_ok (Tag_Field t) -> Forall (fun e => word (width (entry_key e)) e.2) (tag_entries t).
Proof.
  intros [Hn Hp H6 H61]. unfold numbers in Hn.
  repeat match type of Hn with Forall _ (_ :: _) => apply Forall_cons in Hn as [? Hn] end.
  unfold tag_entries, tag_entries_1, tag_entries_2, tag_entries_3, tag_entries_4.
  rewrite !Forall_app. unfold entries3, entry3, guard, ip_text, ip1_text. cbn [fmap list_fmap concat app].
  split_and!; repeat first [apply Forall_nil_2 | apply Forall_cons_2].
  all: unfold entry_key; cbn [fst snd].
  all: match goal with |- word (width ?k) _ =>
    let w := eval vm_compute in (width k) in change (width k) with w end.
  all: settle_word.
Qed.

Definition text_room (keys : list string) : Z :=
  foldr (fun k n => slen k + 2 + width k + n) 0 keys.

Lemma width_nonneg k : 0 <= width k.
Proof. unfold width. case_bool_decide; lia. Qed.

Lemma text_length l :
  Forall (fun e => word (width (entry_key e)) e.2) l -> slen (text l) <= text_room (entry_key <$> l).
Proof.
  induction 1 as [|[[b k] v] l [Hw _] Hl IH]; [done|]. cbn [text fmap list_fmap text_room foldr].
  rewrite slen_app. unfold entry_text, entry_key in *. cbn [fst snd] in *.
  pose proof (width_nonneg k). pose proof (slen_nonneg k). unfold text_room in IH. destruct b.
  - rewrite !slen_app. change (slen ",") with 1. change (slen "=") with 1. cbn [list_fmap] in IH.
    fold text_room in *. unfold fmap in *. lia.
  - change (slen "") with 0. unfold fmap in *. lia.
Qed.

(** Every key in dictionary order. *)
Definition tag_keys : list string := Eval vm_compute in
  entry_key <$> tag_entries (mkTag (mkField 0 [] 0 0 0 0 0 0 0 0 0 0 0 0 0 0 0 0 0 0 0 0 0 0 []
    0 0 0 0 0 0 0 0 0 0 0 0 0 0 0 0 0 0 0 0 0 0 0 0 0 0 0 0 0 0 0 0 0) 0 "").

Lemma tag_entries_keys t : entry_key <$> tag_entries t = tag_keys.
Proof. reflexivity. Qed.

Definition key_lt (a b : string) : Prop := String.compare a b = Lt.

#[global] Instance key_lt_dec : RelDecision key_lt.
Proof. intros a b. unfold key_lt. solve_decision. Defined.

Fixpoint sortedb (l : list string) : bool :=
  match l with
  | [] => true
  | k :: l => forallb (fun k' => bool_decide (key_lt k k')) l && sortedb l
  end.

Lemma sortedb_sorted l : sortedb l = true -> StronglySorted key_lt l.
Proof.
  induction l as [|k l IH]; [constructor|]. intros [H1 H2]%andb_prop. constructor; [by apply IH|].
  apply Forall_forall. intros k' Hk%list_elem_of_In. rewrite forallb_forall in H1.
  by apply (bool_decide_eq_true_1 _), H1.
Qed.

Lemma tag_keys_sorted : StronglySorted key_lt tag_keys.
Proof. apply sortedb_sorted. vm_compute. reflexivity. Qed.

(** ** Reading the text back *)

Definition parse_pair (s : string) : option (string * string) :=
  match Split "="%char s with [k; v] => Some (k, v) | _ => None end.

Definition parse_tags (s : string) : option (list (string * string)) :=
  match Split ","%char s with
  | "" :: kvs => mapM parse_pair kvs
  | _ => None
  end.

(** The pairs that are written. *)
Definition kept (l : list entry) : list (string * string) :=
  omap (fun e : entry => if e.1.1 then Some (e.1.2, e.2) else None) l.

Definition pair_text (kv : string * string) : string := kv.1 +:+ "=" +:+ kv.2.

Definition plain (s : string) : Prop := sforall word_char s = true.

Lemma plain_without s :
  plain s -> without ","%char s = true /\ without "="%char s = true.
Proof.
  intros H. split; apply (sforall_impl word_char); try done; intros c [? ?]%andb_prop.
  all: unfold word_char in *; repeat case_bool_decide; congruence.
Qed.

Lemma Split_text l s :
  Forall (fun e => plain (entry_key e) /\ plain e.2) l -> without ","%char s = true ->
  Split ","%char (s +:+ text l) = s :: (pair_text <$> kept l).
Proof.
  intros H. revert s. induction H as [|[[b k] v] l [Hk Hv] Hl IH]; intros s Hs.
  { cbn [text]. rewrite sapp_nil_r. by apply Split_without. }
  cbn [text]. unfold entry_text. cbn [fst snd entry_key] in *. destruct b.
  - replace (s +:+ ("," +:+ k +:+ "=" +:+ v) +:+ text l)
      with (s +:+ String ","%char ((k +:+ "=" +:+ v) +:+ text l))
      by (by rewrite <- !sapp_assoc).
    rewrite Split_app by done. rewrite IH; [done|].
    rewrite !without_app. destruct (plain_without _ Hk) as [-> _], (plain_without _ Hv) as [-> _]. done.
  - rewrite sapp_nil_l. by apply IH.
Qed.

Lemma parse_pair_text k v : plain k -> plain v -> parse_pair (pair_text (k, v)) = Some (k, v).
Proof.
  intros Hk Hv. unfold parse_pair, pair_text. cbn [fst snd].
  change (k +:+ "=" +:+ v) with (k +:+ String "="%char v).
  rewrite Split_app, Split_without by (by apply plain_without). done.
Qed.

Lemma parse_pairs l :
  Forall (fun e => plain (entry_key e) /\ plain e.2) l ->
  mapM parse_pair (pair_text <$> kept l) = Some (kept l).
Proof.
  induction 1 as [|[[b k] v] l [Hk Hv] Hl IH]; [done|].
  destruct b; [|exact IH]. change (kept ((true, k, v) :: l)) with ((k, v) :: kept l).
  cbn [fmap list_fmap mapM]. rewrite parse_pair_text by done. cbn [mbind option_bind].
  cbn [fmap] in IH. by rewrite IH.
Qed.

Lemma parse_text l :
  Forall (fun e => plain (entry_key e) /\ plain e.2) l -> parse_tags (text l) = Some (kept l).
Proof.
  intros H. unfold parse_tags. rewrite <- (sapp_nil_l (text l)), Split_text by done.
  by apply parse_pairs.
Qed.

Lemma tag_entries_plain t :
  field_text_ok (Tag_Field t) -> Forall (fun e => plain (entry_key e) /\ plain e.2) (tag_entries t).
Proof.
  intros H%tag_entries_words. apply Forall_and. split.
  - apply (proj1 (Forall_fmap entry_key plain (tag_entries t))). rewrite tag_entries_keys.
    repeat first [apply Forall_nil_2 | apply Forall_cons_2]; reflexivity.
  - apply (Forall_impl _ _ _ H). by intros e [_ ?].
Qed.

Lemma Tag_text t :
  one_sided (Tag_Code t) ->
  has (Tag_Code t) IPPath && negb (Field_IsIPv6 (Tag_Field t) =? 0) = false ->
  is_u 32 (Field_TAPPort (Tag_Field t)) ->
  appends (Tag_MarshalTo t) (text (tag_entries t)).
Proof.
  intros H1 H6 Hp. unfold Tag_MarshalTo, tag_entries. cbv zeta. rewrite !text_app.
  apply appends_bseq; [by apply Tag_text_1|]. apply appends_bseq; [by apply Tag_text_2|].
  apply appends_bseq; [apply Tag_text_3|by apply Tag_text_4].
Qed.

(** * Compact tags *)

(** A compact tag as a tag with the same fields. *)
Definition mini_as_tag (t : MiniTag) : Tag :=
  let f := MiniTag_Field t in
  mkTag {|
    Field_GlobalThreadID := MiniField_GlobalThreadID f;
    Field_IP6 := rawIP f;
    Field_MAC := MiniField_MAC f;
    Field_IP := be_get (take 4 (rawIP f));
    Field_L3EpcID := MiniField_L3EpcID f;
    Field_L3DeviceID := 0;
    Field_L3DeviceType := 0;
    Field_RegionID := 0;
    Field_SubnetID := 0;
    Field_HostID := 0;
    Field_PodNodeID := 0;
    Field_AZID := 0;
    Field_PodGroupID := 0;
    Field_PodNSID := 0;
    Field_PodID := 0;
    Field_PodClusterID := 0;
    Field_ServiceID := 0;
    Field_ResourceGl0ID := 0;
    Field_ResourceGl0Type := 0;
    Field_ResourceGl1ID := 0;
    Field_ResourceGl1Type := 0;
    Field_ResourceGl2ID := 0;
    Field_ResourceGl2Type := 0;
    Field_MAC1 := MiniField_MAC1 f;
    Field_IP61 := rawIP1 f;
    Field_IP1 := be_get (take 4 (rawIP1 f));
    Field_L3EpcID1 := MiniField_L3EpcID1 f;
    Field_L3DeviceID1 := 0;
    Field_L3DeviceType1 := 0;
    Field_RegionID1 := 0;
    Field_SubnetID1 := 0;
    Field_HostID1 := 0;
    Field_PodNodeID1 := 0;
    Field_AZID1 := 0;
    Field_PodGroupID1 := 0;
    Field_PodNSID1 := 0;
    Field_PodID1 := 0;
    Field_PodClusterID1 := 0;
    Field_ServiceID1 := 0;
    Field_ResourceGl0ID1 := 0;
    Field_ResourceGl0Type1 := 0;
    Field_ResourceGl1ID1 := 0;
    Field_ResourceGl1Type1 := 0;
    Field_ResourceGl2ID1 := 0;
    Field_ResourceGl2Type1 := 0;
    Field_ACLGID := MiniField_ACLGID f;
    Field_Direction := MiniField_Direction f;
    Field_Protocol := MiniField_Protocol f;
    Field_ServerPort := MiniField_ServerPort f;
    Field_VTAPID := MiniField_VTAPID f;
    Field_TAPPort := MiniField_TAPPort f;
    Field_TAPSide := 0;
    Field_TAPType := MiniField_TAPType f;
    Field_IsIPv6 := MiniField_IsIPv6 f;
    Field_IsKeyService := 0;
    Field_L7Protocol := MiniField_L7Protocol f;
    Field_TagType := MiniField_TagType f;
    Field_TagValue := MiniField_TagValue f
  |} (MiniTag_Code t) (MiniTag_id t).

(** The fields that a compact tag has in its text. *)
Definition mini_text_codes : Z :=
  ors [IP; IPPath; L3EpcID; L3EpcIDPath; VTAPID; Protocol; ServerPort; MAC; MACPath; Direction;
       TAPType; ACLGID; TagType; TagValue; TAPPort].

Lemma has_outside code m x : Z.land code m = code -> Z.land m x = 0 -> has code x = false.
Proof. intros H Hx. unfold has. rewrite <- H, <- Z.land_assoc, Hx, Z.land_0_r. done. Qed.

Lemma be_put_get b : bytes_ok b -> length b = 4%nat -> IpFromUint32 (be_get b) = b.
Proof.
  intros Hb Hl. unfold IpFromUint32, be_put, be_get.
  pose proof (le_put_get (reverse b) ltac:(by apply Forall_reverse)) as H.
  replace (zlen (reverse b)) with 4 in H by (unfold zlen; rewrite length_reverse; lia).
  by rewrite H, reverse_involutive.
Qed.

Lemma mini_ip_text t :
  length (rawIP (MiniTag_Field t)) = 16%nat /\ bytes_ok (rawIP (MiniTag_Field t)) ->
  ip_text (Tag_Field (mini_as_tag t)) = IP_String (MiniField_IP (MiniTag_Field t)).
Proof.
  intros [Hl Hb]. unfold ip_text, MiniField_IP.
  cbn [Tag_Field mini_as_tag Field_IsIPv6 Field_IP6 Field_IP]. destruct (negb _).
  - by rewrite take_ge by (unfold IPv6len; lia).
  - rewrite be_put_get; [done|by apply Forall_take|]. rewrite length_take. lia.
Qed.

Lemma mini_ip1_text t :
  length (rawIP1 (MiniTag_Field t)) = 16%nat /\ bytes_ok (rawIP1 (MiniTag_Field t)) ->
  ip1_text (Tag_Field (mini_as_tag t)) = IP_String (MiniField_IP1 (MiniTag_Field t)).
Proof.
  intros [Hl Hb]. unfold ip1_text, MiniField_IP1.
  cbn [Tag_Field mini_as_tag Field_IsIPv6 Field_IP61 Field_IP1]. destruct (negb _).
  - by rewrite take_ge by (unfold IPv6len; lia).
  - rewrite be_put_get; [done|by apply Forall_take|]. rewrite length_take. lia.
Qed.

Definition mini_entries (t : MiniTag) : list entry :=
  let code := MiniTag_Code t in
  let f := MiniTag_Field t in
  let version := if negb (MiniField_IsIPv6 f =? 0) then "6" else "4" in
  guard (negb (MiniField_GlobalThreadID f =? 0)) [("_tid", dec (MiniField_GlobalThreadID f))]
  ++ guard (has code ACLGID) [("acl_gid", dec (MiniField_ACLGID f))]
  ++ guard (has code Direction && (IsClientToServer (MiniField_Direction f)
       || IsServerToClient (MiniField_Direction f)))
       [("direction", if IsClientToServer (MiniField_Direction f) then "c2s" else "s2c")]
  ++ guard (has code IP) [("ip", IP_String (MiniField_IP f)); ("ip_version", version)]
  ++ guard (has code IPPath) [("ip_0", IP_String (MiniField_IP f)); ("ip_1", IP_String (MiniField_IP1 f));
       ("ip_version", version)]
  ++ guard (has code L3EpcID) [("l3_epc_id", marshalUint16WithSpecialID (MiniField_L3EpcID f))]
  ++ guard (has code L3EpcIDPath) [("l3_epc_id_0", marshalUint16WithSpecialID (MiniField_L3EpcID f));
       ("l3_epc_id_1", marshalUint16WithSpecialID (MiniField_L3EpcID1 f))]
  ++ guard (has code Protocol) [("protocol", dec (MiniField_Protocol f))]
  ++ guard (has code ServerPort) [("server_port", dec (MiniField_ServerPort f))]
  ++ guard (has code TagType && has code TagValue) [("tag_type", dec (MiniField_TagType f))]
  ++ guard (has code TagType && has code TagValue && (MiniField_TagType f =? TAG_TYPE_TUNNEL_IP_ID))
       [("tag_value", dec (MiniField_TagValue f))]
  ++ guard (has code TAPPort) [("tap_port", tap_port_text (MiniField_TAPPort f))]
  ++ guard (has code TAPType) [("tap_type", dec (MiniField_TAPType f))]
  ++ guard (has code VTAPID) [("vtap_id", dec (MiniField_VTAPID f))].

Lemma MiniTag_text t :
  is_u 32 (MiniField_TAPPort (MiniTag_Field t)) ->
  appends (MiniTag_MarshalTo t) (text (mini_entries t)).
Proof.
  intros Hp. unfold MiniTag_MarshalTo, mini_entries. cbv zeta.
  set (code := MiniTag_Code t). set (f := MiniTag_Field t) in *.
  do 2 (apply appends_group_seq; [pairs|]).
  rewrite text_app. apply appends_bseq; [apply direction_text|].
  apply appends_group_seq; [destruct (negb _); pairs|].
  apply appends_group_seq; [destruct (negb _); pairs|].
  do 4 (apply appends_group_seq; [pairs|]).
  rewrite app_assoc, text_app. apply appends_bseq; [apply tag_value_text|].
  rewrite text_app. apply appends_bseq; [by apply tap_port_part|].
  groups.
Qed.

(** Pairs that are not written. *)
Lemma text_entry3_false n v v1 : text (entry3 false false n v v1) = "".
Proof. done. Qed.

Lemma text_entries3_false l : text (entries3 false false l) = "".
Proof. by rewrite text_entries3, text_app, !text_guard_false. Qed.

(** Drops the fields that are not in the code. *)
Ltac drop_outside H :=
  repeat match goal with |- context [has ?code ?x] =>
    rewrite (H x) by (vm_compute; reflexivity) end;
  rewrite ?text_entry3_false, ?text_entries3_false, ?text_guard_false, ?sapp_nil_l, ?sapp_nil_r.

Lemma mini_entries_text t :
  Z.land (MiniTag_Code t) mini_text_codes = MiniTag_Code t -> one_sided (MiniTag_Code t) ->
  length (rawIP (MiniTag_Field t)) = 16%nat /\ bytes_ok (rawIP (MiniTag_Field t)) ->
  length (rawIP1 (MiniTag_Field t)) = 16%nat /\ bytes_ok (rawIP1 (MiniTag_Field t)) ->
  text (tag_entries (mini_as_tag t)) = text (mini_entries t).
Proof.
  intros Hc H1 Hip Hip1. unfold tag_entries. cbv zeta. set (f := Tag_Field (mini_as_tag t)).
  change (Tag_Code (mini_as_tag t)) with (MiniTag_Code t). set (code := MiniTag_Code t) in *.
  assert (forall x, Z.land mini_text_codes x = 0 -> has code x = false) as Hout.
  { intros x. by apply has_outside. }
  assert (text (tag_entries_3 code f) = text (guard (has code Protocol) [("protocol", dec (Field_Protocol f))]))
    as H3.
  { unfold tag_entries_3. rewrite !text_app. by drop_outside Hout. }
  assert (text (tag_entries_2 code f) = text (entry3 (has code L3EpcID) (has code L3EpcIDPath) "l3_epc_id"
       (marshalUint16WithSpecialID (Field_L3EpcID f)) (marshalUint16WithSpecialID (Field_L3EpcID1 f)))) as H2.
  { unfold tag_entries_2. rewrite !text_app. by drop_outside Hout. }
  rewrite !text_app, H3, H2. clear H3 H2. unfold tag_entries_1, tag_entries_4, mini_entries. cbv zeta.
  fold code. rewrite !text_app. drop_outside Hout.
  rewrite (mini_ip_text t Hip : ip_text f = _), (mini_ip1_text t Hip1 : ip1_text f = _).
  rewrite <- (text_app (entry3 (has code IP) _ _ _ _)), text_ip, text_app
    by apply (one_sided_pair code 0 H1 ltac:(lia)).
  unfold entry3. rewrite text_app. rewrite <- !sapp_assoc. reflexivity.
Qed.

Lemma numbers_ok f : forallb (fun x => (0 <=? x) && (x <? 2 ^ 32)) (numbers f) = true ->
  Forall (is_u 32) (numbers f).
Proof.
  intros H. apply Forall_forall. intros x Hx%list_elem_of_In.
  rewrite forallb_forall in H. apply H in Hx. unfold is_u. lia.
Qed.

Lemma address16_ok ip : (zlen ip =? 16) && forallb (fun x => (0 <=? x) && (x <? 2 ^ 8)) ip = true ->
  address_ok ip.
Proof.
  intros [Hl H]%andb_prop. split; [right; unfold zlen in Hl; lia|].
  apply Forall_forall. intros x Hx%list_elem_of_In.
  rewrite forallb_forall in H. apply H in Hx. unfold is_u. lia.
Qed.

Definition example_field : Field :=
  mkField 2 [] 0 (10 * 2 ^ 24 + 1) (-2) 5 1 3 4 5 6 7 8 9 10 11 12 13 14 15 16 17 18 0 [] (2 ^ 32 - 1)
    (-6) 20 21 22 23 24 25 26 27 28 29 30 31 32 33 34 35 36 37 38 1 6 443 9 0x5254 33 3 0 1 20 4 77.

(** The text of a tag of one side (of IPv4 addresses if it is a pair of them)
    fits its buffer; it reads back as exactly the pairs that the code selects,
    each with the value of its field, and the keys are in dictionary order, as
    the store requires. *)
Theorem tag_text (t : Tag) :
  one_sided (Tag_Code t) ->
  has (Tag_Code t) IPPath && negb (Field_IsIPv6 (Tag_Field t) =? 0) = false ->
  field_text_ok (Tag_Field t) ->
  exists s, Tag_ToKVString t = Some s /\ slen s <= 1981 /\
    parse_tags s = Some (kept (tag_entries t)) /\
    StronglySorted key_lt (entry_key <$> tag_entries t).
Proof.
  intros H1 H6 Hok. exists (text (tag_entries t)).
  assert (slen (text (tag_entries t)) <= 1981) as Hl.
  { apply (text_length (tag_entries t)), tag_entries_words, Hok. }
  split_and!; [|done|by apply parse_text, tag_entries_plain|apply tag_keys_sorted].
  unfold Tag_ToKVString. rewrite Tag_text; [by rewrite sapp_nil_l|done|done|apply Hok|].
  unfold MAX_STRING_LENGTH. change (slen "") with 0. lia.
Qed.

Example tag_text_witness :
  exists s, Tag_ToKVString (mkTag example_field (ors [IPPath; TAPSide; L3EpcIDPath; TAPPort]) "") = Some s /\
    parse_tags s = Some [("_tid", "2"); ("ip_0", "10.0.0.1"); ("ip_1", "255.255.255.255");
      ("ip_version", "4"); ("l3_epc_id_0", "-2"); ("l3_epc_id_1", "65530");
      ("tap_port", "00005254"); ("tap_side", "c-gw")].
Proof.
  destruct (tag_text (mkTag example_field (ors [IPPath; TAPSide; L3EpcIDPath; TAPPort]) ""))
    as (s & Hs & _ & Hp & _).
  - left. vm_compute. reflexivity.
  - vm_compute. reflexivity.
  - split; [|vm_compute; split; congruence|split; [left; reflexivity|exact (Forall_nil_2 _)]..].
    apply numbers_ok. vm_compute. reflexivity.
  - exists s. split; [exact Hs|]. rewrite Hp. vm_compute. reflexivity.
Defined.

Lemma appends_skip m s : appends m s -> appends (bret ;+ m) s.
Proof. intros H cap out Hc. by apply H. Qed.

Lemma text_length_words n l :
  Forall (fun e => word n (entry_key e) /\ word n e.2) l -> slen (text l) <= (2 * n + 2) * zlen l.
Proof.
  induction 1 as [|[[b k] v] l [[Hk _] [Hw _]] Hl IH];
    [unfold slen, zlen; cbn; lia|]. cbn [text].
  rewrite slen_app, zlen_cons. unfold entry_text, entry_key in *. cbn [fst snd] in *.
  pose proof (slen_nonneg k). destruct b.
  - rewrite !slen_app. change (slen ",") with 1. change (slen "=") with 1. lia.
  - change (slen "") with 0. lia.
Qed.

Lemma ipv6_pair_text f :
  Field_IsIPv6 f <> 0 -> Field_GlobalThreadID f = 0 ->
  appends (Tag_MarshalTo (mkTag f (ors [IPPath; IsKeyService]) ""))
    (text (guard true [("ip_0", IP_String (Field_IP6 f)); ("ip_1", IP_String (Field_IP61 f));
       ("is_version", "6"); ("is_key_service", if Field_IsKeyService f =? 1 then "1" else "0")])).
Proof.
  intros H6 H0.
  unfold Tag_MarshalTo, Tag_MarshalTo_1, Tag_MarshalTo_2, Tag_MarshalTo_3, Tag_MarshalTo_4.
  cbn [Tag_Code Tag_Field].
  repeat match goal with |- context [has ?c ?x] =>
    let b := eval vm_compute in (has c x) in change (has c x) with b end.
  rewrite H0. cbn [Z.eqb negb andb bif]. rewrite (proj2 (Z.eqb_neq _ _) H6). cbn [negb].
  match goal with |- appends (?m1 ;+ ?m2) ?s => rewrite <- (sapp_nil_r s); apply appends_bseq end;
    [|exact appends_bret].
  do 8 apply appends_skip.
  match goal with |- context [guard true [?a; ?b; ?c; ?d]] =>
    change [a; b; c; d] with ([a; b; c] ++ [d]) end.
  rewrite guard_app, text_app. apply appends_bseq; [pairs|destruct (_ =? 1); pairs].
Qed.

(** A pair of IPv6 addresses is written with the key [is_version], before
    [is_key_service]: not the key [ip_version] of the other cases, and not in
    dictionary order. *)
Theorem tag_text_ipv6_pair (f : Field) :
  field_text_ok f -> Field_IsIPv6 f <> 0 -> Field_GlobalThreadID f = 0 ->
  exists s v, Tag_ToKVString (mkTag f (ors [IPPath; IsKeyService]) "") = Some s /\
    parse_tags s = Some [("ip_0", IP_String (Field_IP6 f)); ("ip_1", IP_String (Field_IP61 f));
                         ("is_version", "6"); ("is_key_service", v)] /\
    ~ key_lt "is_version" "is_key_service".
Proof.
  intros [Hn Hp H6 H61] Hv H0. pose proof (ipv6_pair_text f Hv H0) as Ht.
  set (v := if Field_IsKeyService f =? 1 then "1" else "0") in *. revert Ht.
  set (l := guard true _). intros Ht. exists (text l), v.
  assert (forall ip, address_ok ip -> word 82 (IP_String ip)) as Hw.
  { intros ip [? ?]. apply IP_word; intuition. }
  assert (Forall (fun e => word 82 (entry_key e) /\ word 82 e.2) l) as Hl.
  { repeat first [apply Forall_nil_2 | apply Forall_cons_2]; (split; [by split|]).
    1,2: by apply Hw. by split. unfold v. by destruct (_ =? 1). }
  split_and!; [|apply (parse_text l)|by vm_compute].
  - unfold Tag_ToKVString. rewrite Ht; [done|].
    pose proof (text_length_words 82 l Hl) as Hs. change (zlen l) with 4 in Hs.
    unfold MAX_STRING_LENGTH. change (slen "") with 0. lia.
  - apply (Forall_impl _ _ _ Hl). by intros e [[_ ?] [_ ?]].
Qed.

Definition ipv6_field : Field :=
  mkField 0 (replicate 15 0 ++ [1]) 0 0 0 0 0 0 0 0 0 0 0 0 0 0 0 0 0 0 0 0 0 0 (replicate 15 0 ++ [2])
    0 0 0 0 0 0 0 0 0 0 0 0 0 0 0 0 0 0 0 0 0 0 0 0 0 0 0 0 1 0 0 0 0.

Example tag_text_ipv6_pair_witness :
  exists s v, Tag_ToKVString (mkTag ipv6_field (ors [IPPath; IsKeyService]) "") = Some s /\
    parse_tags s = Some [("ip_0", "::1"); ("ip_1", "::2"); ("is_version", "6"); ("is_key_service", v)].
Proof.
  destruct (tag_text_ipv6_pair ipv6_field) as (s & v & Hs & Hp & _).
  - split; [apply numbers_ok|split|apply address16_ok|apply address16_ok]; vm_compute; congruence.
  - vm_compute. congruence.
  - vm_compute. reflexivity.
  - exists s, v. split; [exact Hs|]. rewrite Hp. vm_compute. reflexivity.
Defined.

Record mini_text_ok (t : MiniTag) : Prop := {
  mini_code : Z.land (MiniTag_Code t) mini_text_codes = MiniTag_Code t;
  mini_side : one_sided (MiniTag_Code t);
  mini_field : field_text_ok (Tag_Field (mini_as_tag t));
  mini_ip : length (rawIP (MiniTag_Field t)) = 16%nat;
  mini_ip1 : length (rawIP1 (MiniTag_Field t)) = 16%nat
}.

(** The text of a compact tag of one side, without an application protocol,
    reads back as the pairs of the tag with the same fields, also for a pair of
    IPv6 addresses. *)
Theorem mini_tag_text (t : MiniTag) :
  mini_text_ok t ->
  exists s, MiniTag_ToKVString t = Some s /\ slen s <= 1981 /\
    parse_tags s = Some (kept (tag_entries (mini_as_tag t))).
Proof.
  intros [Hc H1 Hf Hip Hip1]. exists (text (mini_entries t)).
  rewrite <- mini_entries_text; [|done|done|split; [done|apply (ok_ip6 _ Hf)]|split; [done|apply (ok_ip61 _ Hf)]].
  assert (slen (text (tag_entries (mini_as_tag t))) <= 1981) as Hl.
  { apply (text_length (tag_entries (mini_as_tag t))), tag_entries_words, Hf. }
  split_and!; [|done|by apply parse_text, tag_entries_plain].
  unfold MiniTag_ToKVString. rewrite MiniTag_text; [|apply (ok_port _ Hf)|].
  - rewrite <- mini_entries_text; [done|done|done|split; [done|apply (ok_ip6 _ Hf)]|split; [done|apply (ok_ip61 _ Hf)]].
  - rewrite <- mini_entries_text; [|done|done|split; [done|apply (ok_ip6 _ Hf)]|split; [done|apply (ok_ip61 _ Hf)]].
    unfold MAX_STRING_LENGTH. change (slen "") with 0. lia.
Qed.

Definition mini_example : MiniTag :=
  mkMiniTag (mkMiniField (replicate 15 0 ++ [1]) (replicate 15 0 ++ [2]) 3 1 (-2) 7 0 0 1 6 0 443 12 5 3 0 0 0)
    (ors [IPPath; Direction; Protocol]) "".

Example mini_tag_text_witness :
  exists s, MiniTag_ToKVString mini_example = Some s /\
    parse_tags s = Some [("_tid", "3"); ("direction", "c2s"); ("ip_0", "::1"); ("ip_1", "::2");
      ("ip_version", "6"); ("protocol", "6")].
Proof.
  destruct (mini_tag_text mini_example) as (s & Hs & _ & Hp).
  - split; [vm_compute; reflexivity|left; vm_compute; reflexivity| |reflexivity|reflexivity].
    split; [apply numbers_ok|split|apply address16_ok|apply address16_ok]; vm_compute; congruence.
  - exists s. split; [exact Hs|]. rewrite Hp. vm_compute. reflexivity.
Defined.
