(* ===== verification/Document.v ===== *)
(** The documents of [server/libs/app]: a tag, a meter and a time stamp, their
    protobuf form ([document.go], [codec.go], [zerodoc/pb/doc.go]) and the row
    they write.  A document that is sent has a compact tag, one that is received
    has a full tag. *)

From S2P Require Import Prelude Strconv LineProto Codec Ckdb Meter Tag TagMini.

#[local] Open Scope string_scope.
#[local] Open Scope list_scope.
#[local] Open Scope Z_scope.

(** * Messages *)

Record pb_Meter := mkpb_Meter {
  pb_Meter_MeterId : Z;
  pb_Meter_Flow : option pb_FlowMeter;
  pb_Meter_Usage : option pb_UsageMeter;
  pb_Meter_App : option pb_AppMeter
}.

Record pb_Document := mkpb_Document {
  pb_Document_Timestamp : Z;
  pb_Document_Tag : option pb_MiniTag;
  pb_Document_Meter : option pb_Meter;
  pb_Document_Flags : Z
}.

(** Messages without content. *)
Definition zero_Traffic : pb_Traffic := mkpb_Traffic 0 0 0 0 0 0 0 0 0 0 0 0.
Definition zero_Latency : pb_Latency := mkpb_Latency 0 0 0 0 0 0 0 0 0 0 0 0 0 0 0 0 0 0.
Definition zero_Performance : pb_Performance := mkpb_Performance 0 0 0 0.
Definition zero_Anomaly : pb_Anomaly := mkpb_Anomaly 0 0 0 0 0 0 0 0 0 0 0 0 0 0 0.
Definition zero_FlowLoad : pb_FlowLoad := mkpb_FlowLoad 0.
Definition zero_Usage : pb_UsageMeter := mkpb_UsageMeter 0 0 0 0 0 0 0 0.
Definition zero_AppTraffic : pb_AppTraffic := mkpb_AppTraffic 0 0.
Definition zero_AppLatency : pb_AppLatency := mkpb_AppLatency 0 0 0.
Definition zero_AppAnomaly : pb_AppAnomaly := mkpb_AppAnomaly 0 0 0.

Definition zero_MiniField (ip ip1 : bytes) : pb_MiniField :=
  mkpb_MiniField ip ip1 0 0 0 0 0 0 0 0 0 0 0 0 0 0 0 0 0.

Definition NewDocument : pb_Document := {|
  pb_Document_Timestamp := 0;
  pb_Document_Tag := Some (mkpb_MiniTag (Some (zero_MiniField nil_bytes nil_bytes)) 0);
  pb_Document_Meter := Some {|
    pb_Meter_MeterId := 0;
    pb_Meter_Flow := Some (mkpb_FlowMeter (Some zero_Traffic) (Some zero_Latency)
                             (Some zero_Performance) (Some zero_Anomaly) (Some zero_FlowLoad));
    pb_Meter_Usage := Some zero_Usage;
    pb_Meter_App := Some (mkpb_AppMeter (Some zero_AppTraffic) (Some zero_AppLatency) (Some zero_AppAnomaly))
  |};
  pb_Document_Flags := 0
|}.

(** Every message is cleared and kept, the addresses keep their memory; [None] is
    the panic of a nil message. *)
Definition ResetAll (d : pb_Document) : option pb_Document :=
  miniTag ← pb_Document_Tag d;
  field ← pb_MiniTag_Field miniTag;
  let ip0 := truncate (pb_MiniField_Ip field) in
  let ip1 := truncate (pb_MiniField_Ip1 field) in
  meter ← pb_Document_Meter d;
  flow ← pb_Meter_Flow meter;
  traffic ← pb_FlowMeter_Traffic flow;
  latency ← pb_FlowMeter_Latency flow;
  performance ← pb_FlowMeter_Performance flow;
  anomaly ← pb_FlowMeter_Anomaly flow;
  flowload ← pb_FlowMeter_FlowLoad flow;
  usage ← pb_Meter_Usage meter;
  app ← pb_Meter_App meter;
  appTraffic ← pb_AppMeter_Traffic app;
  appLatency ← pb_AppMeter_Latency app;
  appAnomaly ← pb_AppMeter_Anomaly app;
  Some {|
    pb_Document_Timestamp := 0;
    pb_Document_Tag := Some (mkpb_MiniTag (Some (zero_MiniField ip0 ip1)) 0);
    pb_Document_Meter := Some {|
      pb_Meter_MeterId := 0;
      pb_Meter_Flow := Some (mkpb_FlowMeter (Some zero_Traffic) (Some zero_Latency)
                               (Some zero_Performance) (Some zero_Anomaly) (Some zero_FlowLoad));
      pb_Meter_Usage := Some zero_Usage;
      pb_Meter_App := Some (mkpb_AppMeter (Some zero_AppTraffic) (Some zero_AppLatency) (Some zero_AppAnomaly))
    |};
    pb_Document_Flags := 0
  |}.

(** * Documents *)

Inductive Tagger :=
  | TTag (t : Tag)
  | TMiniTag (t : MiniTag).

Record Document := mkDocument {
  Doc_ReferenceCount : Z;
  Timestamp : Z;
  Doc_Tagger : Tagger;
  Doc_Meter : Meter;
  Flags : Z
}.

Definition FLAG_PER_SECOND_METRICS : Z := 1.

(** What a call ends with. *)
Inductive outcome (A : Type) :=
  | Done (a : A)
  | Error
  | Panic.
Arguments Done {A}.
Arguments Error {A}.
Arguments Panic {A}.

(** A nil meter message is allocated; the two other meters become nil. *)
Definition Document_WriteToPB (d : Document) (p : pb_Document) : outcome pb_Document :=
  match Doc_Tagger d with
  | TTag _ => Panic
  | TMiniTag tag =>
      let meter := Doc_Meter d in
      let id := u32 (Meter_ID meter) in
      let m :=
        match meter with
        | MFlow m => mkpb_Meter id (Some (FlowMeter_WriteToPB m)) None None
        | MUsage m => mkpb_Meter id None (Some (UsageMeter_WriteToPB m)) None
        | MApp m => mkpb_Meter id None None (Some (AppMeter_WriteToPB m))
        end in
      Done (mkpb_Document (Timestamp d) (Some (MiniTag_WriteToPB tag)) (Some m) (u32 (Flags d)))
  end.

(** [if x == nil { x = y }] *)
Definition restore {A} (x y : option A) : option A := match x with Some _ => x | None => y end.

(** The encoder after the call and the message that is kept for the next one. *)
Definition Document_EncodePB `{PBCodec pb_Document} (d : Document) (encoder : SimpleEncoder)
    (p : pb_Document) : outcome (SimpleEncoder * pb_Document) :=
  let old := pb_Document_Meter p in
  match Document_WriteToPB d p with
  | Panic => Panic
  | Error => Error
  | Done p =>
      match WritePB encoder p with
      | None => Panic
      | Some encoder =>
          let meter :=
            (fun m => mkpb_Meter (pb_Meter_MeterId m)
               (restore (pb_Meter_Flow m) (old ≫= pb_Meter_Flow))
               (restore (pb_Meter_Usage m) (old ≫= pb_Meter_Usage))
               (restore (pb_Meter_App m) (old ≫= pb_Meter_App))) <$> pb_Document_Meter p in
          Done (encoder, mkpb_Document (pb_Document_Timestamp p) (pb_Document_Tag p) meter
                           (pb_Document_Flags p))
      end
  end.

(** The meter of a message, by its identifier. *)
Definition read_meter (m : pb_Meter) : outcome Meter :=
  let meterID := u8 (pb_Meter_MeterId m) in
  let meter {A} (f : A -> Meter) (o : option A) := match o with Some a => Done (f a) | None => Panic end in
  if meterID =? FLOW_ID then meter MFlow (pb_Meter_Flow m ≫= FlowMeter_ReadFromPB)
  else if meterID =? ACL_ID then meter MUsage (UsageMeter_ReadFromPB <$> pb_Meter_Usage m)
  else if meterID =? APP_ID then meter MApp (pb_Meter_App m ≫= AppMeter_ReadFromPB)
  else Error.

(** The decoder and the message after the call, and the document. *)
Definition DecodePB `{PBCodec pb_Document} (decoder : SimpleDecoder) (pbDoc : pb_Document)
    : SimpleDecoder * pb_Document * outcome Document :=
  let '(pbDoc, ok, decoder) := ReadPB decoder pbDoc in
  (decoder, pbDoc,
   if Failed decoder || negb ok then Error
   else
     match pb_Document_Tag pbDoc ≫= Tag_ReadFromPB AcquireTag with
     | None => Panic
     | Some tag =>
         match pb_Document_Meter pbDoc with
         | None => Panic
         | Some m =>
             match read_meter m with
             | Panic => Panic
             | Error => Error
             | Done meter =>
                 Done (mkDocument 1 (pb_Document_Timestamp pbDoc) (TTag tag) meter
                         (pb_Document_Flags pbDoc))
             end
         end
     end).

Definition Document_WriteBlock {B} (Append : B -> Z -> cell -> option B) (d : Document) : Write B :=
  match Doc_Tagger d with
  | TMiniTag _ => wpanic
  | TTag t => Tag_WriteBlock Append t (Timestamp d) ;> Meter_WriteBlock Append (Doc_Meter d)
  end.

(** A code without a table is an error; a compact tag is a nil [Tag] here, whose
    code cannot be read. *)
Definition Document_TableID (d : Document) : outcome Z :=
  match Doc_Tagger d with
  | TMiniTag _ => Panic
  | TTag t =>
      match Tag_TableID t (Z.land (Flags d) FLAG_PER_SECOND_METRICS =? 1) with
      | Some id => Done id
      | None => Error
      end
  end.

(** * Reference counts *)

Definition AddReferenceCount (r : Z) : Z := i32 (r + 1).

(** The new count, and whether the object is still in use. *)
Definition SubReferenceCount (r : Z) : Z * bool :=
  let r := i32 (r - 1) in (r, 0 <? r).

Definition PseudoCloneDocument (d : Document) : Document :=
  mkDocument (AddReferenceCount (Doc_ReferenceCount d)) (Timestamp d) (Doc_Tagger d) (Doc_Meter d) (Flags d).

(** The document that is still in use, or [None] when it went back to the pool. *)
Definition ReleaseDocument (d : Document) : option Document :=
  let '(r, used) := SubReferenceCount (Doc_ReferenceCount d) in
  if used then Some (mkDocument r (Timestamp d) (Doc_Tagger d) (Doc_Meter d) (Flags d)) else None.

Definition CloneDocument (d : Document) : Document :=
  mkDocument 1 (Timestamp d) (Doc_Tagger d) (Doc_Meter d) (Flags d).
