(* ===== verification/DocumentWire.v ===== *)
(** A wire format for the document message ([Document.v]).  The generated
    protobuf code is not part of the sources; its laws ([PBLaws]) are hypotheses of
    the theorems about documents, and this format, a concatenation of
    self-delimiting fields, is a codec that satisfies them. *)

From S2P Require Import Prelude Codec CodecFacts Meter TagMini Document.

#[local] Open Scope list_scope.
#[local] Open Scope Z_scope.

(** * Self-delimiting fields *)

Class Flat (A : Type) := {
  flat : A -> list Z;
  unflat : list Z -> option (A * list Z);
  flat_ok x : bytes_ok (flat x);
  unflat_flat x s : unflat (flat x ++ s) = Some (x, s)
}.

(** The bits of a positive, from the lowest one, and a final 2. *)
Fixpoint pos_flat (p : positive) : list Z :=
  match p with
  | xH => [2]
  | xO p => 0 :: pos_flat p
  | xI p => 1 :: pos_flat p
  end.

Fixpoint pos_unflat (l : list Z) : option (positive * list Z) :=
  match l with
  | 2 :: l => Some (xH, l)
  | 0 :: l => '(p, s) ← pos_unflat l; Some (xO p, s)
  | 1 :: l => '(p, s) ← pos_unflat l; Some (xI p, s)
  | _ => None
  end.

Lemma pos_unflat_flat p s : pos_unflat (pos_flat p ++ s) = Some (p, s).
Proof. induction p as [p IH|p IH|]; cbn; [by rewrite IH..|done]. Qed.

Lemma pos_flat_ok p : bytes_ok (pos_flat p).
Proof. induction p; repeat constructor; done. Qed.

Definition Z_flat (z : Z) : list Z :=
  match z with Z0 => [0] | Zpos p => 1 :: pos_flat p | Zneg p => 2 :: pos_flat p end.

Definition Z_unflat (l : list Z) : option (Z * list Z) :=
  match l with
  | 0 :: s => Some (0, s)
  | 1 :: l => '(p, s) ← pos_unflat l; Some (Zpos p, s)
  | 2 :: l => '(p, s) ← pos_unflat l; Some (Zneg p, s)
  | _ => None
  end.

#[export] Program Instance Flat_Z : Flat Z := {| flat := Z_flat; unflat := Z_unflat |}.
Next Obligation. intros [|p|p]; repeat constructor; try done; apply pos_flat_ok. Qed.
Next Obligation. intros [|p|p] s; cbn; [done|by rewrite pos_unflat_flat..]. Qed.

Definition prod_unflat `{!Flat A, !Flat B} (l : list Z) : option (A * B * list Z) :=
  '(a, l) ← unflat l; '(b, s) ← unflat l; Some ((a, b), s).

#[export] Program Instance Flat_prod {A B} `{!Flat A, !Flat B} : Flat (A * B) := {|
  flat x := flat x.1 ++ flat x.2; unflat := prod_unflat
|}.
Next Obligation. intros A B ? ? [a b]. apply bytes_ok_app; apply flat_ok. Qed.
Next Obligation.
  intros A B ? ? [a b] s. unfold prod_unflat. cbn [fst snd]. rewrite <- app_assoc, unflat_flat. cbn. by rewrite unflat_flat.
Qed.

Definition option_flat `{!Flat A} (x : option A) : list Z :=
  match x with None => [0] | Some a => 1 :: flat a end.

Definition option_unflat `{!Flat A} (l : list Z) : option (option A * list Z) :=
  match l with
  | 0 :: s => Some (None, s)
  | 1 :: l => '(a, s) ← unflat l; Some (Some a, s)
  | _ => None
  end.

#[export] Program Instance Flat_option {A} `{!Flat A} : Flat (option A) := {|
  flat := option_flat; unflat := option_unflat
|}.
Next Obligation. intros A ? [a|]; constructor; try done; apply flat_ok. Qed.
Next Obligation. intros A ? [a|] s; cbn; [by rewrite unflat_flat|done]. Qed.

(** An element follows every 1; a 0 ends the list. *)
Fixpoint list_flat (l : list Z) : list Z :=
  match l with
  | [] => [0]
  | x :: l => 1 :: flat x ++ list_flat l
  end.

Fixpoint list_unflat (fuel : nat) (l : list Z) : option (list Z * list Z) :=
  match fuel, l with
  | S _, 0 :: s => Some ([], s)
  | S fuel, 1 :: l => '(x, l) ← unflat l; '(r, s) ← list_unflat fuel l; Some (x :: r, s)
  | _, _ => None
  end.

Lemma list_unflat_flat l s fuel :
  (length l < fuel)%nat -> list_unflat fuel (list_flat l ++ s) = Some (l, s).
Proof.
  revert fuel. induction l as [|x l IH]; intros [|fuel] Hf; cbn [length] in Hf; try lia; [done|].
  cbn [list_flat app list_unflat]. rewrite <- app_assoc, unflat_flat. cbn [mbind option_bind].
  by rewrite IH by lia.
Qed.

Lemma list_flat_length l : (length l < length (list_flat l))%nat.
Proof. induction l as [|x l IH]; cbn; [lia|]. rewrite length_app. lia. Qed.

#[export] Program Instance Flat_list : Flat (list Z) := {|
  flat := list_flat;
  unflat l := list_unflat (length l) l
|}.
Next Obligation.
  intros l. induction l as [|x l IH]; repeat constructor; try done. apply bytes_ok_app; [apply flat_ok|done].
Qed.
Next Obligation.
  intros l s. cbn beta. apply list_unflat_flat. rewrite length_app. pose proof (list_flat_length l). lia.
Qed.

(** A type that is a product in disguise. *)
Definition iso_unflat `{!Flat B} {A} (g : B -> A) (l : list Z) : option (A * list Z) :=
  '(b, s) ← unflat l; Some (g b, s).

Program Definition Flat_iso {A B} `{!Flat B} (f : A -> B) (g : B -> A) (H : forall x, g (f x) = x)
    : Flat A :=
  {| flat x := flat (f x); unflat := iso_unflat g |}.
Next Obligation. intros A B ? f g H x. apply flat_ok. Qed.
Next Obligation. intros A B ? f g H x s. unfold iso_unflat. rewrite unflat_flat. cbn. by rewrite H. Qed.

(** * The messages *)

#[export] Instance Flat_pb_Traffic : Flat pb_Traffic := Flat_iso
  (fun m => (pb_Traffic_PacketTx m, pb_Traffic_PacketRx m, pb_Traffic_ByteTx m, pb_Traffic_ByteRx m,
    pb_Traffic_L3ByteTx m, pb_Traffic_L3ByteRx m, pb_Traffic_L4ByteTx m, pb_Traffic_L4ByteRx m,
    pb_Traffic_NewFlow m, pb_Traffic_ClosedFlow m, pb_Traffic_L7Request m,
    pb_Traffic_L7Response m))
  (fun '(x0, x1, x2, x3, x4, x5, x6, x7, x8, x9, x10, x11) =>
    mkpb_Traffic x0 x1 x2 x3 x4 x5 x6 x7 x8 x9 x10 x11)
  ltac:(by intros []).

#[export] Instance Flat_pb_Latency : Flat pb_Latency := Flat_iso
  (fun m => (pb_Latency_RttMax m, pb_Latency_RttClientMax m, pb_Latency_RttServerMax m,
    pb_Latency_SrtMax m, pb_Latency_ArtMax m, pb_Latency_RrtMax m, pb_Latency_RttSum m,
    pb_Latency_RttClientSum m, pb_Latency_RttServerSum m, pb_Latency_SrtSum m,
    pb_Latency_ArtSum m, pb_Latency_RrtSum m, pb_Latency_RttCount m,
    pb_Latency_RttClientCount m, pb_Latency_RttServerCount m, pb_Latency_SrtCount m,
    pb_Latency_ArtCount m, pb_Latency_RrtCount m))
  (fun '(x0, x1, x2, x3, x4, x5, x6, x7, x8, x9, x10, x11, x12, x13, x14, x15, x16, x17) =>
    mkpb_Latency x0 x1 x2 x3 x4 x5 x6 x7 x8 x9 x10 x11 x12 x13 x14 x15 x16 x17)
  ltac:(by intros []).

#[export] Instance Flat_pb_Performance : Flat pb_Performance := Flat_iso
  (fun m => (pb_Performance_RetransTx m, pb_Performance_RetransRx m, pb_Performance_ZeroWinTx m,
    pb_Performance_ZeroWinRx m))
  (fun '(x0, x1, x2, x3) =>
    mkpb_Performance x0 x1 x2 x3)
  ltac:(by intros []).

#[export] Instance Flat_pb_Anomaly : Flat pb_Anomaly := Flat_iso
  (fun m => (pb_Anomaly_ClientRstFlow m, pb_Anomaly_ServerRstFlow m, pb_Anomaly_ClientSynRepeat m,
    pb_Anomaly_ServerSynackRepeat m, pb_Anomaly_ClientHalfCloseFlow m,
    pb_Anomaly_ServerHalfCloseFlow m, pb_Anomaly_ClientSourcePortReuse m,
    pb_Anomaly_ClientEstablishReset m, pb_Anomaly_ServerReset m, pb_Anomaly_ServerQueueLack m,
    pb_Anomaly_ServerEstablishReset m, pb_Anomaly_TcpTimeout m, pb_Anomaly_L7ClientError m,
    pb_Anomaly_L7ServerError m, pb_Anomaly_L7Timeout m))
  (fun '(x0, x1, x2, x3, x4, x5, x6, x7, x8, x9, x10, x11, x12, x13, x14) =>
    mkpb_Anomaly x0 x1 x2 x3 x4 x5 x6 x7 x8 x9 x10 x11 x12 x13 x14)
  ltac:(by intros []).

#[export] Instance Flat_pb_FlowLoad : Flat pb_FlowLoad := Flat_iso pb_FlowLoad_Load mkpb_FlowLoad ltac:(by intros []).

#[export] Instance Flat_pb_UsageMeter : Flat pb_UsageMeter := Flat_iso
  (fun m => (pb_UsageMeter_PacketTx m, pb_UsageMeter_PacketRx m, pb_UsageMeter_ByteTx m,
    pb_UsageMeter_ByteRx m, pb_UsageMeter_L3ByteTx m, pb_UsageMeter_L3ByteRx m,
    pb_UsageMeter_L4ByteTx m, pb_UsageMeter_L4ByteRx m))
  (fun '(x0, x1, x2, x3, x4, x5, x6, x7) =>
    mkpb_UsageMeter x0 x1 x2 x3 x4 x5 x6 x7)
  ltac:(by intros []).

#[export] Instance Flat_pb_AppTraffic : Flat pb_AppTraffic := Flat_iso
  (fun m => (pb_AppTraffic_Request m, pb_AppTraffic_Response m))
  (fun '(x0, x1) =>
    mkpb_AppTraffic x0 x1)
  ltac:(by intros []).

#[export] Instance Flat_pb_AppLatency : Flat pb_AppLatency := Flat_iso
  (fun m => (pb_AppLatency_RrtMax m, pb_AppLatency_RrtSum m, pb_AppLatency_RrtCount m))
  (fun '(x0, x1, x2) =>
    mkpb_AppLatency x0 x1 x2)
  ltac:(by intros []).

#[export] Instance Flat_pb_AppAnomaly : Flat pb_AppAnomaly := Flat_iso
  (fun m => (pb_AppAnomaly_ClientError m, pb_AppAnomaly_ServerError m, pb_AppAnomaly_Timeout m))
  (fun '(x0, x1, x2) =>
    mkpb_AppAnomaly x0 x1 x2)
  ltac:(by intros []).

#[export] Instance Flat_pb_FlowMeter : Flat pb_FlowMeter := Flat_iso
  (fun m => (pb_FlowMeter_Traffic m, pb_FlowMeter_Latency m, pb_FlowMeter_Performance m,
    pb_FlowMeter_Anomaly m, pb_FlowMeter_FlowLoad m))
  (fun '(x0, x1, x2, x3, x4) =>
    mkpb_FlowMeter x0 x1 x2 x3 x4)
  ltac:(by intros []).

#[export] Instance Flat_pb_AppMeter : Flat pb_AppMeter := Flat_iso
  (fun m => (pb_AppMeter_Traffic m, pb_AppMeter_Latency m, pb_AppMeter_Anomaly m))
  (fun '(x0, x1, x2) =>
    mkpb_AppMeter x0 x1 x2)
  ltac:(by intros []).

#[export] Instance Flat_bytes : Flat bytes := Flat_iso
  (fun m => (contents m, beyond m))
  (fun '(x0, x1) =>
    mkBytes x0 x1)
  ltac:(by intros []).

#[export] Instance Flat_pb_MiniField : Flat pb_MiniField := Flat_iso
  (fun m => (pb_MiniField_Ip m, pb_MiniField_Ip1 m, pb_MiniField_GlobalThreadId m,
    pb_MiniField_IsIpv6 m, pb_MiniField_L3EpcId m, pb_MiniField_L3EpcId1 m, pb_MiniField_Mac m,
    pb_MiniField_Mac1 m, pb_MiniField_Direction m, pb_MiniField_TapSide m,
    pb_MiniField_Protocol m, pb_MiniField_AclGid m, pb_MiniField_ServerPort m,
    pb_MiniField_VtapId m, pb_MiniField_TapPort m, pb_MiniField_TapType m,
    pb_MiniField_L7Protocol m, pb_MiniField_TagType m, pb_MiniField_TagValue m))
  (fun '(x0, x1, x2, x3, x4, x5, x6, x7, x8, x9, x10, x11, x12, x13, x14, x15, x16, x17, x18) =>
    mkpb_MiniField x0 x1 x2 x3 x4 x5 x6 x7 x8 x9 x10 x11 x12 x13 x14 x15 x16 x17 x18)
  ltac:(by intros []).

#[export] Instance Flat_pb_MiniTag : Flat pb_MiniTag := Flat_iso
  (fun m => (pb_MiniTag_Field m, pb_MiniTag_Code m))
  (fun '(x0, x1) =>
    mkpb_MiniTag x0 x1)
  ltac:(by intros []).

#[export] Instance Flat_pb_Meter : Flat pb_Meter := Flat_iso
  (fun m => (pb_Meter_MeterId m, pb_Meter_Flow m, pb_Meter_Usage m, pb_Meter_App m))
  (fun '(x0, x1, x2, x3) =>
    mkpb_Meter x0 x1 x2 x3)
  ltac:(by intros []).

#[export] Instance Flat_pb_Document : Flat pb_Document := Flat_iso
  (fun m => (pb_Document_Timestamp m, pb_Document_Tag m, pb_Document_Meter m, pb_Document_Flags m))
  (fun '(x0, x1, x2, x3) =>
    mkpb_Document x0 x1 x2 x3)
  ltac:(by intros []).

(** * The codec *)

(** Messages are merged into the receiver: a sub-message that is absent in the
    input leaves that of the receiver. *)
Definition merge_with {A} (merge : A -> A -> A) (r o : option A) : option A :=
  match o, r with
  | Some a, Some r => Some (merge r a)
  | Some a, None => Some a
  | None, _ => r
  end.

Definition merge_FlowMeter (r m : pb_FlowMeter) : pb_FlowMeter :=
  mkpb_FlowMeter (restore (pb_FlowMeter_Traffic m) (pb_FlowMeter_Traffic r))
    (restore (pb_FlowMeter_Latency m) (pb_FlowMeter_Latency r))
    (restore (pb_FlowMeter_Performance m) (pb_FlowMeter_Performance r))
    (restore (pb_FlowMeter_Anomaly m) (pb_FlowMeter_Anomaly r))
    (restore (pb_FlowMeter_FlowLoad m) (pb_FlowMeter_FlowLoad r)).

Definition merge_AppMeter (r m : pb_AppMeter) : pb_AppMeter :=
  mkpb_AppMeter (restore (pb_AppMeter_Traffic m) (pb_AppMeter_Traffic r))
    (restore (pb_AppMeter_Latency m) (pb_AppMeter_Latency r))
    (restore (pb_AppMeter_Anomaly m) (pb_AppMeter_Anomaly r)).

Definition merge_Meter (r m : pb_Meter) : pb_Meter :=
  mkpb_Meter (pb_Meter_MeterId m) (merge_with merge_FlowMeter (pb_Meter_Flow r) (pb_Meter_Flow m))
    (restore (pb_Meter_Usage m) (pb_Meter_Usage r))
    (merge_with merge_AppMeter (pb_Meter_App r) (pb_Meter_App m)).

Definition merge_MiniTag (r t : pb_MiniTag) : pb_MiniTag :=
  mkpb_MiniTag (restore (pb_MiniTag_Field t) (pb_MiniTag_Field r)) (pb_MiniTag_Code t).

Definition merge_Document (r d : pb_Document) : pb_Document :=
  mkpb_Document (pb_Document_Timestamp d) (merge_with merge_MiniTag (pb_Document_Tag r) (pb_Document_Tag d))
    (merge_with merge_Meter (pb_Document_Meter r) (pb_Document_Meter d)) (pb_Document_Flags d).

#[export] Instance wire_PBCodec : PBCodec pb_Document := {|
  pb_Size v := zlen (flat v);
  pb_MarshalTo v b := if zlen b <? zlen (flat v) then None else Some (copy_to b (flat v), zlen (flat v));
  pb_Unmarshal r bs :=
    match unflat bs with
    | Some (v, []) => (merge_Document r v, true)
    | _ => (r, false)
    end
|}.

#[export] Program Instance wire_PBLaws : PBLaws pb_Document := {|
  pb_valid _ := True; pb_ready _ := True; pb_bytes v := flat v;
  pb_reads v v' := exists r, v' = merge_Document r v
|}.
Next Obligation. intros v _. apply flat_ok. Qed.
Next Obligation. done. Qed.
Next Obligation. intros v b _ Hb. cbn [pb_MarshalTo wire_PBCodec]. by rewrite (proj2 (Z.ltb_ge _ _)). Qed.
Next Obligation.
  intros r v _ _. exists (merge_Document r v). split; [|by eexists]. cbn [pb_Unmarshal wire_PBCodec].
  rewrite <- (app_nil_r (flat v)), unflat_flat. done.
Qed.
