(* ===== verification/DocumentFacts.v ===== *)
(** Facts of compact tags and documents ([TagMini.v], [Document.v]): what a
    receiver gets of a document that was sent, and the row it writes. *)

From S2P Require Import Prelude Strconv LineProto Codec CodecFacts Ckdb CkdbFacts Meter MeterFacts.
From S2P Require Import Tag TagFacts TagMini Document DocumentWire.

#[local] Open Scope string_scope.
#[local] Open Scope list_scope.
#[local] Open Scope Z_scope.

(** * Sent and received tags *)

(** The ranges of the fields of a compact tag. *)
Record MiniField_ok (f : MiniField) : Prop := {
  ok_rawIP : length (rawIP f) = 16%nat /\ bytes_ok (rawIP f);
  ok_rawIP1 : length (rawIP1 f) = 16%nat /\ bytes_ok (rawIP1 f);
  ok_u8 : Forall (is_u 8) [MiniField_GlobalThreadID f; MiniField_IsIPv6 f; MiniField_Direction f;
    MiniField_Protocol f; MiniField_TAPType f; MiniField_L7Protocol f; MiniField_TagType f];
  ok_u16 : Forall (is_u 16) [MiniField_ACLGID f; MiniField_ServerPort f; MiniField_VTAPID f;
    MiniField_TagValue f];
  ok_i16 : Forall (is_i 16) [MiniField_L3EpcID f; MiniField_L3EpcID1 f];
  ok_u64 : Forall (is_u 64) [MiniField_MAC f; MiniField_MAC1 f; MiniField_TAPPort f]
}.

(** The code of a received tag: the direction of a pair of addresses is the
    position it was captured at. *)
Definition received_code (code : Z) : Z :=
  if has code Direction && HasEdgeTagField code then andnot (Z.lor code TAPSide) Direction else code.

(** The tag that a receiver builds from a compact tag. *)
Definition received (t : MiniTag) : Tag :=
  let f := MiniTag_Field t in
  let code := received_code (MiniTag_Code t) in
  let v6 := negb (MiniField_IsIPv6 f =? 0) in
  let path := has code IPPath in
  mkTag {|
    Field_GlobalThreadID := 0;
    Field_IP6 := if v6 then rawIP f else [];
    Field_MAC := MiniField_MAC f;
    Field_IP := if v6 then 0 else be_get (MiniField_IP f);
    Field_L3EpcID := MiniField_L3EpcID f;
    Field_L3DeviceID := 0;
    Field_L3DeviceType := 0;
    Field_RegionID := 0;
    Field_SubnetID := 0;
    Field_HostID := 0;
    Field_PodNodeID := 0;
    Field_AZID := 0;
    Field_PodGroupID := 0;
    Field_PodNSID := 0;
    Field_PodID := 0;
    Field_PodClusterID := 0;
    Field_ServiceID := 0;
    Field_ResourceGl0ID := 0;
    Field_ResourceGl0Type := 0;
    Field_ResourceGl1ID := 0;
    Field_ResourceGl1Type := 0;
    Field_ResourceGl2ID := 0;
    Field_ResourceGl2Type := 0;
    Field_MAC1 := MiniField_MAC1 f;
    Field_IP61 := if v6 && path then rawIP1 f else [];
    Field_IP1 := if negb v6 && path then be_get (MiniField_IP1 f) else 0;
    Field_L3EpcID1 := MiniField_L3EpcID1 f;
    Field_L3DeviceID1 := 0;
    Field_L3DeviceType1 := 0;
    Field_RegionID1 := 0;
    Field_SubnetID1 := 0;
    Field_HostID1 := 0;
    Field_PodNodeID1 := 0;
    Field_AZID1 := 0;
    Field_PodGroupID1 := 0;
    Field_PodNSID1 := 0;
    Field_PodID1 := 0;
    Field_PodClusterID1 := 0;
    Field_ServiceID1 := 0;
    Field_ResourceGl0ID1 := 0;
    Field_ResourceGl0Type1 := 0;
    Field_ResourceGl1ID1 := 0;
    Field_ResourceGl1Type1 := 0;
    Field_ResourceGl2ID1 := 0;
    Field_ResourceGl2Type1 := 0;
    Field_ACLGID := MiniField_ACLGID f;
    Field_Direction := MiniField_Direction f;
    Field_Protocol := MiniField_Protocol f;
    Field_ServerPort := MiniField_ServerPort f;
    Field_VTAPID := MiniField_VTAPID f;
    Field_TAPPort := MiniField_TAPPort f;
    Field_TAPSide := MiniField_Direction f;
    Field_TAPType := MiniField_TAPType f;
    Field_IsIPv6 := MiniField_IsIPv6 f;
    Field_IsKeyService := 0;
    Field_L7Protocol := MiniField_L7Protocol f;
    Field_TagType := MiniField_TagType f;
    Field_TagValue := MiniField_TagValue f
  |} code "".

(** A field message that reads as another: the same numbers and the same bytes,
    whatever memory lies beyond them. *)
Record MiniField_reads (p p' : pb_MiniField) : Prop := {
  reads_ip : contents (pb_MiniField_Ip p') = contents (pb_MiniField_Ip p);
  reads_ip1 : contents (pb_MiniField_Ip1 p') = contents (pb_MiniField_Ip1 p);
  reads_rest : exists ip ip1, p = mkpb_MiniField ip ip1
    (pb_MiniField_GlobalThreadId p') (pb_MiniField_IsIpv6 p') (pb_MiniField_L3EpcId p')
    (pb_MiniField_L3EpcId1 p') (pb_MiniField_Mac p') (pb_MiniField_Mac1 p')
    (pb_MiniField_Direction p') (pb_MiniField_TapSide p') (pb_MiniField_Protocol p')
    (pb_MiniField_AclGid p') (pb_MiniField_ServerPort p') (pb_MiniField_VtapId p')
    (pb_MiniField_TapPort p') (pb_MiniField_TapType p') (pb_MiniField_L7Protocol p')
    (pb_MiniField_TagType p') (pb_MiniField_TagValue p')
}.

(** A message that was set reads as one that is set. *)
Definition option_reads {A} (R : A -> A -> Prop) (o o' : option A) : Prop :=
  forall a, o = Some a -> exists a', o' = Some a' /\ R a a'.

Definition MiniTag_reads (p p' : pb_MiniTag) : Prop :=
  pb_MiniTag_Code p' = pb_MiniTag_Code p /\
  option_reads MiniField_reads (pb_MiniTag_Field p) (pb_MiniTag_Field p').

Lemma wrap_twice w w' x : 0 <= w <= w' -> is_u w x -> wrap w (wrap w' x) = x.
Proof.
  intros Hw Hx. rewrite (wrap_small w') by (apply (is_u_mono w); [done|lia]). by apply wrap_small.
Qed.

Lemma swrap_twice x : is_i 16 x -> i16 (i32 x) = x.
Proof.
  intros Hx. rewrite (swrap_small 32); [by apply swrap_small|lia|].
  unfold is_i in *. cbn in *. lia.
Qed.

Lemma reslice_contents b n : 0 <= n <= zlen (contents b) -> reslice b n = Some (take (Z.to_nat n) (contents b)).
Proof.
  intros Hn. unfold reslice. cbv zeta. rewrite (proj2 (Z.leb_le _ _)).
  - rewrite take_app_le by (unfold zlen in *; lia). done.
  - rewrite zlen_app. pose proof (zlen_nonneg (beyond b)). lia.
Qed.

Lemma copy_to_full {A} (dst src : list A) : length dst = length src -> copy_to dst src = src.
Proof. intros H. unfold copy_to. rewrite H, take_ge, drop_ge by lia. apply app_nil_r. Qed.

Lemma read_IPv6_raw raw b : contents b = raw -> length raw = 16%nat -> read_IPv6 [] b = Some raw.
Proof.
  intros <- Hl. unfold read_IPv6. rewrite reslice_contents by (unfold IPv6len, zlen; lia).
  rewrite take_ge by (unfold IPv6len; lia). cbn [fmap option_fmap option_map].
  change (zlen (@nil Z) =? 0) with true. cbn iota. rewrite copy_to_full; [done|]. by rewrite length_replicate.
Qed.

Lemma read_IPv4_raw raw b :
  contents b = raw -> length raw = 16%nat -> read_IPv4 b = Some (be_get (take (Z.to_nat IPv4len) raw)).
Proof. intros <- Hl. unfold read_IPv4. by rewrite reslice_contents by (unfold IPv4len, zlen; lia). Qed.

(** What is received of a compact tag, whatever message carried it. *)
Lemma MiniTag_received t p' :
  MiniField_ok (MiniTag_Field t) -> MiniTag_reads (MiniTag_WriteToPB t) p' ->
  Tag_ReadFromPB AcquireTag p' = Some (received t).
Proof.
  intros Hok [Hc Hf]. destruct (Hf _ eq_refl) as (f' & Hf' & [Hip Hip1 (b & b1 & Hrest)]).
  unfold Tag_ReadFromPB. rewrite Hf', Hc.
  change (pb_MiniTag_Code (MiniTag_WriteToPB t)) with (received_code (MiniTag_Code t)).
  unfold received. set (code := received_code (MiniTag_Code t)). destruct Hok as [[Hl Hb] [Hl1 Hb1] H8 H16 Hi16 H64].
  repeat match goal with H : Forall _ (_ :: _) |- _ => apply Forall_cons in H as [? H] end.
  set (f := MiniTag_Field t) in *. unfold MiniField_WriteToPB in *.
  cbn [pb_MiniField_Ip pb_MiniField_Ip1 contents] in Hip, Hip1.
  injection Hrest as _ _ E1 E2 E3 E4 E5 E6 E7 E8 E9 E10 E11 E12 E13 E14 E15 E16 E17.
  cbn [mbind option_bind]. rewrite <- E2, <- E3, <- E4, <- E5, <- E6, <- E7, <- E8, <- E9, <- E10, <- E11,
    <- E12, <- E13, <- E14, <- E15, <- E16, <- E17. unfold ToTAPSide.
  rewrite !wrap_twice, !swrap_twice, !(wrap_small 64) by (done || lia).
  cbn [AcquireTag Tag_Field AcquireField Field_IP6 Field_IP61 Field_IP Field_IP1].
  destruct (negb (MiniField_IsIPv6 f =? 0)) eqn:Hv6.
  - rewrite (read_IPv6_raw (rawIP f) (pb_MiniField_Ip f')) by done. cbn [mbind option_bind].
    destruct (has code IPPath); [rewrite (read_IPv6_raw (rawIP1 f) (pb_MiniField_Ip1 f')) by done|]; done.
  - rewrite (read_IPv4_raw (rawIP f) (pb_MiniField_Ip f')) by done. cbn [mbind option_bind]. unfold MiniField_IP, MiniField_IP1.
    rewrite Hv6. destruct (has code IPPath); [rewrite (read_IPv4_raw (rawIP1 f) (pb_MiniField_Ip1 f')) by done|]; done.
Qed.

(** * Sent and received documents *)

Definition FlowMeter_reads (m m' : pb_FlowMeter) : Prop :=
  option_reads eq (pb_FlowMeter_Traffic m) (pb_FlowMeter_Traffic m') /\
  option_reads eq (pb_FlowMeter_Latency m) (pb_FlowMeter_Latency m') /\
  option_reads eq (pb_FlowMeter_Performance m) (pb_FlowMeter_Performance m') /\
  option_reads eq (pb_FlowMeter_Anomaly m) (pb_FlowMeter_Anomaly m') /\
  option_reads eq (pb_FlowMeter_FlowLoad m) (pb_FlowMeter_FlowLoad m').

Definition AppMeter_reads (m m' : pb_AppMeter) : Prop :=
  option_reads eq (pb_AppMeter_Traffic m) (pb_AppMeter_Traffic m') /\
  option_reads eq (pb_AppMeter_Latency m) (pb_AppMeter_Latency m') /\
  option_reads eq (pb_AppMeter_Anomaly m) (pb_AppMeter_Anomaly m').

Definition Meter_reads (m m' : pb_Meter) : Prop :=
  pb_Meter_MeterId m' = pb_Meter_MeterId m /\
  option_reads FlowMeter_reads (pb_Meter_Flow m) (pb_Meter_Flow m') /\
  option_reads eq (pb_Meter_Usage m) (pb_Meter_Usage m') /\
  option_reads AppMeter_reads (pb_Meter_App m) (pb_Meter_App m').

Definition Document_reads (p p' : pb_Document) : Prop :=
  pb_Document_Timestamp p' = pb_Document_Timestamp p /\
  option_reads MiniTag_reads (pb_Document_Tag p) (pb_Document_Tag p') /\
  option_reads Meter_reads (pb_Document_Meter p) (pb_Document_Meter p') /\
  pb_Document_Flags p' = pb_Document_Flags p.

(** What the generated code of the document message does: a new message and a
    cleared one can receive; unmarshalling, also when it fails, takes no sub-message
    away; and a received message has the fields and the sub-messages that were
    sent. *)
Class DocumentLaws `{PBLaws pb_Document} : Prop := {
  ready_new : pb_ready NewDocument;
  ready_reset d d' : ResetAll d = Some d' -> pb_ready d';
  unmarshal_keeps d bs : is_Some (ResetAll d) -> is_Some (ResetAll (pb_Unmarshal d bs).1);
  reads_document v v' : pb_reads v v' -> Document_reads v v'
}.

Lemma option_reads_eq {A} (o o' : option A) a : option_reads eq o o' -> o = Some a -> o' = Some a.
Proof. intros H Ho. by destruct (H a Ho) as (? & ? & <-). Qed.

(** The meter message that a document is sent with. *)
Definition sent_meter (m : Meter) : pb_Meter :=
  let id := u32 (Meter_ID m) in
  match m with
  | MFlow m => mkpb_Meter id (Some (FlowMeter_WriteToPB m)) None None
  | MUsage m => mkpb_Meter id None (Some (UsageMeter_WriteToPB m)) None
  | MApp m => mkpb_Meter id None None (Some (AppMeter_WriteToPB m))
  end.

Lemma read_meter_sent m m' : Meter_reads (sent_meter m) m' -> read_meter m' = Done m.
Proof.
  intros (Hid & Hf & Hu & Ha). unfold read_meter. cbv zeta. rewrite Hid. destruct m as [m|m|m]; cbn.
  - destruct (Hf _ eq_refl) as (f' & -> & H1 & H2 & H3 & H4 & H5). cbn [mbind option_bind].
    unfold FlowMeter_ReadFromPB.
    rewrite (option_reads_eq _ _ _ H1 eq_refl), (option_reads_eq _ _ _ H2 eq_refl),
      (option_reads_eq _ _ _ H3 eq_refl), (option_reads_eq _ _ _ H4 eq_refl),
      (option_reads_eq _ _ _ H5 eq_refl).
    pose proof (FlowMeter_pb m) as E. unfold FlowMeter_ReadFromPB in E. cbn in E |- *.
    by injection E as ->.
  - rewrite (option_reads_eq _ _ _ Hu eq_refl). cbn [fmap option_fmap option_map].
    by rewrite UsageMeter_pb.
  - destruct (Ha _ eq_refl) as (a' & -> & H1 & H2 & H3). cbn [mbind option_bind].
    unfold AppMeter_ReadFromPB.
    rewrite (option_reads_eq _ _ _ H1 eq_refl), (option_reads_eq _ _ _ H2 eq_refl),
      (option_reads_eq _ _ _ H3 eq_refl).
    pose proof (AppMeter_pb m) as E. unfold AppMeter_ReadFromPB in E. cbn in E |- *.
    by injection E as ->.
Qed.

(** The message that a document is sent as. *)
Definition sent (ts : Z) (t : MiniTag) (m : Meter) (flags : Z) : pb_Document :=
  mkpb_Document ts (Some (MiniTag_WriteToPB t)) (Some (sent_meter m)) (u32 flags).

Lemma WriteToPB_sent n ts t m flags p :
  Document_WriteToPB (mkDocument n ts (TMiniTag t) m flags) p = Done (sent ts t m flags).
Proof. unfold Document_WriteToPB, sent, sent_meter. by destruct m. Qed.

Lemma document_sent_received `{DocumentLaws} n ts t m flags e p r s :
  MiniField_ok (MiniTag_Field t) -> is_u 32 flags ->
  pb_valid (sent ts t m flags) -> zlen (pb_bytes (sent ts t m flags)) < 2 ^ 32 -> pb_ready r ->
  exists e' p' r', Document_EncodePB (mkDocument n ts (TMiniTag t) m flags) e p = Done (e', p') /\
    DecodePB (mkDecoder (e_buf e' ++ s) (zlen (e_buf e)) 0) r
    = (mkDecoder (e_buf e' ++ s) (zlen (e_buf e')) 0, r', Done (mkDocument 1 ts (TTag (received t)) m flags)).
Proof.
  intros Hok Hflags Hv Hl Hr. unfold Document_EncodePB. cbv zeta. rewrite WriteToPB_sent.
  destruct (PB_written_read e r (sent ts t m flags) s 0 Hv Hr Hl) as (e' & v' & -> & _ & Hread & Hreads).
  eexists e', _, v'. split; [done|]. unfold DecodePB. rewrite Hread. cbn [Failed d_err negb orb Z.eqb].
  destruct (reads_document _ _ Hreads) as (Hts & Ht & Hm & Hfl).
  destruct (Ht _ eq_refl) as (t' & -> & Ht'). cbn [mbind option_bind].
  rewrite (MiniTag_received t t' Hok Ht').
  destruct (Hm _ eq_refl) as (m' & -> & Hm'). rewrite (read_meter_sent m m' Hm'), Hts, Hfl. cbn [sent
    pb_Document_Timestamp pb_Document_Flags]. by rewrite wrap_small.
Qed.

(** * The row of a document *)

Lemma has_andnot code b x :
  Z.land (2 ^ 64 - 1 - b) x = x -> has (andnot code b) x = has code x.
Proof. intros H. unfold has, andnot. by rewrite <- Z.land_assoc, H. Qed.

Ltac drop_andnot :=
  repeat match goal with |- context [has (andnot ?a ?b) ?x] =>
    rewrite (has_andnot a b x) by (vm_compute; reflexivity) end.

(** Hardware addresses have no columns. *)
Lemma GenTagColumns_andnot code :
  GenTagColumns (andnot (andnot code MAC) MACPath) = GenTagColumns code.
Proof.
  unfold GenTagColumns. f_equal; [|f_equal; [|f_equal]].
  - unfold GenTagColumns_1. by drop_andnot.
  - unfold GenTagColumns_2. drop_andnot.
    by destruct (has (andnot code MAC) MAC), (has (andnot _ MACPath) MACPath), (has code MAC),
      (has code MACPath).
  - unfold GenTagColumns_3. by drop_andnot.
  - unfold GenTagColumns_4. by drop_andnot.
Qed.

Definition document_cell (d : Document) (t : Tag) (n : string) (c : cell) : Prop :=
  tag_cell t (Timestamp d) n c \/ meter_cell (Doc_Meter d) n c.

Lemma document_shape {B} (Append : B -> Z -> cell -> option B) d t :
  Doc_Tagger d = TTag t ->
  shape Append (document_cell d t) (Document_WriteBlock Append d)
    (GenTagColumns (Tag_Code t) ++ Meter_columns (Doc_Meter d)) (missing_cells t) (unknown_side t).
Proof.
  intros Ht. unfold Document_WriteBlock. rewrite Ht, <- (Z.add_0_r (missing_cells t)), <- (orb_false_r (unknown_side t)).
  apply shape_seq.
  - apply (shape_impl _ (tag_cell t (Timestamp d))); [by left|apply Tag_shape].
  - apply shape_of_row, (row_impl _ (meter_cell (Doc_Meter d))); [by right|apply Meter_row].
Qed.

(** The kind of meter that a table is for. *)
Definition table_meter_id (id : Z) : Z :=
  if bool_decide (id ∈ [VTAP_FLOW_PORT_1M; VTAP_FLOW_EDGE_PORT_1M; VTAP_FLOW_PORT_1S; VTAP_FLOW_EDGE_PORT_1S])
  then FLOW_ID
  else if id =? VTAP_ACL_1M then ACL_ID else APP_ID.

Lemma table_meter_columns m id : Meter_ID m = table_meter_id id -> Meter_columns m = table_meters id.
Proof.
  unfold table_meter_id, table_meters.
  destruct (bool_decide _), (id =? VTAP_ACL_1M), m; intros H; first [reflexivity|discriminate H].
Qed.

(** The table that a document goes to. *)
Lemma document_table engine version tables d t id table :
  GetMetricsTables None engine version = Some (tables, Some tables) ->
  Doc_Tagger d = TTag t -> Document_TableID d = Done id -> tables !! Z.to_nat id = Some table ->
  TableCode id = Some (andnot (andnot (Tag_Code t) MAC) MACPath) /\
  Columns table = GenTagColumns (Tag_Code t) ++ table_meters id.
Proof.
  intros Htables Ht Hid Htable.
  destruct (metrics_tables_ok engine version) as (tables' & Ht' & Hall). rewrite Htables in Ht'.
  injection Ht' as <-. unfold Document_TableID in Hid. rewrite Ht in Hid.
  destruct (Tag_TableID t _) as [id'|] eqn:E; [|done]. injection Hid as ->.
  destruct (TableID_code t _ id E) as [[Hc Hn]|Hmax].
  - split; [done|]. destruct (Hall id table Htable Hn) as (code & Hcode & ->).
    rewrite Hc in Hcode. injection Hcode as <-. by rewrite GenTagColumns_andnot.
  - subst id. destruct (Hall VTAP_TABLE_ID_MAX table Htable ltac:(done)) as (code & Hcode & _). done.
Qed.

(** No table asks for the resources of one and of two sides. *)
Lemma table_resources id code :
  TableCode id = Some (andnot (andnot code MAC) MACPath) -> both_resources code = false.
Proof.
  intros H. assert (Forall (fun c => both_resources c = false) metricsTableCodes) as Hall
    by (repeat constructor; vm_compute; reflexivity).
  eapply Forall_lookup_1 in Hall; [|exact H]. unfold both_resources in *.
  by rewrite !has_andnot in Hall by (vm_compute; reflexivity).
Qed.

(** * Properties *)

(** C5: A document that an agent encodes is what the server decodes: for every
    message code that satisfies the laws of protobuf, a document of a compact tag with
    fields of their widths, whose message is shorter than 2^32 bytes, written after any
    bytes and followed by any others, is read back from a new or cleared message with
    its time stamp, its flags and its meter and with the tag [received]: the fields of the
    compact tag, apart from the global thread identifier, which the server does not
    read and leaves at zero, and from the second address, which it reads only when the code
    asks for two; the direction is the capture position as well, and takes its place in the
    code of a pair.  The decoder stops right after the document. *)
Theorem document_roundtrip `{DocumentLaws} n ts t m flags e p r s :
  MiniField_ok (MiniTag_Field t) -> is_u 32 flags ->
  pb_valid (sent ts t m flags) -> zlen (pb_bytes (sent ts t m flags)) < 2 ^ 32 ->
  (r = NewDocument \/ exists r0, ResetAll r0 = Some r) ->
  exists e' p' r', Document_EncodePB (mkDocument n ts (TMiniTag t) m flags) e p = Done (e', p') /\
    DecodePB (mkDecoder (e_buf e' ++ s) (zlen (e_buf e)) 0) r
    = (mkDecoder (e_buf e' ++ s) (zlen (e_buf e')) 0, r', Done (mkDocument 1 ts (TTag (received t)) m flags)).
Proof.
  intros Hok Hf Hv Hl Hr. apply document_sent_received; try done.
  destruct Hr as [->|[r0 Hr]]; [apply ready_new|by eapply ready_reset].
Qed.

Lemma MiniField_reads_refl p : MiniField_reads p p.
Proof. split; [done|done|]. exists (pb_MiniField_Ip p), (pb_MiniField_Ip1 p). by destruct p. Qed.

Lemma option_reads_refl {A} (R : A -> A -> Prop) o : (forall a, R a a) -> option_reads R o o.
Proof. intros H a Ha. eauto. Qed.

Lemma option_reads_restore {A} (o r : option A) : option_reads eq o (restore o r).
Proof. intros a ->. by exists a. Qed.

Lemma option_reads_merge {A} (R : A -> A -> Prop) merge (r o : option A) :
  (forall a, R a a) -> (forall r a, R a (merge r a)) -> option_reads R o (merge_with merge r o).
Proof. intros Hr Hm a ->. destruct r; cbn; eauto. Qed.

Lemma Document_reads_merge v r : Document_reads v (merge_Document r v).
Proof.
  split_and!; [done| | |done].
  - apply option_reads_merge.
    + intros p. split; [done|]. apply option_reads_refl, MiniField_reads_refl.
    + intros r' p. split; [done|]. intros f Hf. cbn. rewrite Hf. cbn. eauto using MiniField_reads_refl.
  - apply option_reads_merge.
    + intros m. split_and!; [done|..]; apply option_reads_refl; intros; repeat split; by apply option_reads_refl.
    + intros r' m. split_and!; [done| |apply option_reads_restore|]; apply option_reads_merge.
      * intros f. repeat split; by apply option_reads_refl.
      * intros f f'. repeat split; apply option_reads_restore.
      * intros f. repeat split; by apply option_reads_refl.
      * intros f f'. repeat split; apply option_reads_restore.
Qed.

Ltac incomplete := split; [intros H; by destruct H|intros H; exfalso; intuition congruence].

(** A message can be cleared when it has all its sub-messages. *)
Lemma ResetAll_complete d :
  is_Some (ResetAll d) <->
  is_Some (pb_Document_Tag d ≫= pb_MiniTag_Field) /\
  (let flow := pb_Document_Meter d ≫= pb_Meter_Flow in
   is_Some (flow ≫= pb_FlowMeter_Traffic) /\ is_Some (flow ≫= pb_FlowMeter_Latency) /\
   is_Some (flow ≫= pb_FlowMeter_Performance) /\ is_Some (flow ≫= pb_FlowMeter_Anomaly) /\
   is_Some (flow ≫= pb_FlowMeter_FlowLoad)) /\
  is_Some (pb_Document_Meter d ≫= pb_Meter_Usage) /\
  (let app := pb_Document_Meter d ≫= pb_Meter_App in
   is_Some (app ≫= pb_AppMeter_Traffic) /\ is_Some (app ≫= pb_AppMeter_Latency) /\
   is_Some (app ≫= pb_AppMeter_Anomaly)).
Proof.
  assert (forall A (o : option A), is_Some o <-> o <> None) as Hs by (intros; by rewrite not_eq_None_Some).
  cbv zeta. rewrite !Hs. unfold ResetAll. cbv zeta. destruct (pb_Document_Tag d) as [tag|]; cbn; [|by incomplete].
  destruct (pb_MiniTag_Field tag); cbn; [|by incomplete]. destruct (pb_Document_Meter d) as [m|]; cbn; [|by incomplete].
  destruct (pb_Meter_Flow m) as [f|]; cbn; [|by incomplete].
  destruct (pb_FlowMeter_Traffic f); cbn; [|by incomplete]. destruct (pb_FlowMeter_Latency f); cbn; [|by incomplete].
  destruct (pb_FlowMeter_Performance f); cbn; [|by incomplete]. destruct (pb_FlowMeter_Anomaly f); cbn; [|by incomplete].
  destruct (pb_FlowMeter_FlowLoad f); cbn; [|by incomplete]. destruct (pb_Meter_Usage m); cbn; [|by incomplete].
  destruct (pb_Meter_App m) as [a|]; cbn; [|by incomplete]. destruct (pb_AppMeter_Traffic a); cbn; [|by incomplete].
  destruct (pb_AppMeter_Latency a); cbn; [|by incomplete]. destruct (pb_AppMeter_Anomaly a); cbn; [|by incomplete].
  repeat split; done.
Qed.

(** A sub-message of a merged message. *)
Lemma merge_sub {A B} (merge : A -> A -> A) (sub : A -> option B) (r o : option A) :
  (forall r a, is_Some (sub r) -> is_Some (sub (merge r a))) ->
  is_Some (r ≫= sub) -> is_Some (merge_with merge r o ≫= sub).
Proof. intros Hm Hr. destruct o as [a|], r as [r|]; cbn in *; [by apply Hm|by destruct Hr|done..]. Qed.

Lemma restore_is_Some {A} (o r : option A) : is_Some r -> is_Some (restore o r).
Proof. intros [x ->]. destruct o; cbn; eauto. Qed.

(** The same one level deeper. *)
Lemma merge_sub2 {A B C} (merge : A -> A -> A) (sub : A -> option B) (sub2 : B -> option C) (r o : option A) :
  (forall r a, is_Some (sub r ≫= sub2) -> is_Some (sub (merge r a) ≫= sub2)) ->
  is_Some ((r ≫= sub) ≫= sub2) -> is_Some ((merge_with merge r o ≫= sub) ≫= sub2).
Proof. intros Hm Hr. destruct o as [a|], r as [r|]; cbn in *; [by apply Hm|by destruct Hr|done..]. Qed.

Lemma ResetAll_merge d v : is_Some (ResetAll d) -> is_Some (ResetAll (merge_Document d v)).
Proof.
  rewrite !ResetAll_complete. intros (H1 & (F1 & F2 & F3 & F4 & F5) & H2 & A1 & A2 & A3).
  cbv zeta. cbn [merge_Document pb_Document_Tag pb_Document_Meter]. split_and!.
  - apply merge_sub; [|done]. intros r a Hr. by apply restore_is_Some.
  - by apply merge_sub2; [intros r a Hr; apply merge_sub; [intros; by apply restore_is_Some|]|].
  - by apply merge_sub2; [intros r a Hr; apply merge_sub; [intros; by apply restore_is_Some|]|].
  - by apply merge_sub2; [intros r a Hr; apply merge_sub; [intros; by apply restore_is_Some|]|].
  - by apply merge_sub2; [intros r a Hr; apply merge_sub; [intros; by apply restore_is_Some|]|].
  - by apply merge_sub2; [intros r a Hr; apply merge_sub; [intros; by apply restore_is_Some|]|].
  - apply merge_sub; [|done]. intros r a Hr. by apply restore_is_Some.
  - by apply merge_sub2; [intros r a Hr; apply merge_sub; [intros; by apply restore_is_Some|]|].
  - by apply merge_sub2; [intros r a Hr; apply merge_sub; [intros; by apply restore_is_Some|]|].
  - by apply merge_sub2; [intros r a Hr; apply merge_sub; [intros; by apply restore_is_Some|]|].
Qed.

#[export] Instance wire_DocumentLaws : DocumentLaws.
Proof.
  split; [done|done| |].
  - intros d bs H. cbn [pb_Unmarshal wire_PBCodec]. destruct (unflat bs) as [[v [|]]|]; [|done..]. cbn [fst].
    by apply ResetAll_merge.
  - intros v v' (r & ->). apply Document_reads_merge.
Qed.

Definition example_mini : MiniTag :=
  mkMiniTag (mkMiniField ([10; 0; 0; 1] ++ replicate 12 0) ([10; 0; 0; 2] ++ replicate 12 0)
    3 0 (-2) 7 0 (2 ^ 48 - 1) (Z.lor ClientToServer NodeSide) 6 0 443 12 (4 * 2 ^ 60 + 5) 3 20 0 0)
    (ors [IPPath; L3EpcIDPath; Direction; TAPPort; Protocol; ServerPort]) "".

Example document_roundtrip_witness :
  exists e' p', Document_EncodePB
      (mkDocument 1 1000 (TMiniTag example_mini) (MUsage (usage_example 9)) 1) (mkEncoder [1] 1) NewDocument
    = Done (e', p') /\
  exists r' t', DecodePB (mkDecoder (e_buf e' ++ [5]) 1 0) NewDocument
    = (mkDecoder (e_buf e' ++ [5]) (zlen (e_buf e')) 0, r',
       Done (mkDocument 1 1000 (TTag t') (MUsage (usage_example 9)) 1)) /\
    Tag_Code t' = ors [IPPath; L3EpcIDPath; TAPSide; TAPPort; Protocol; ServerPort] /\
    Field_TAPSide (Tag_Field t') = ClientNode /\ Field_IP1 (Tag_Field t') = 10 * 2 ^ 24 + 2.
Proof.
  destruct (document_roundtrip 1 1000 example_mini (MUsage (usage_example 9)) 1 (mkEncoder [1] 1)
    NewDocument NewDocument [5]) as (e' & p' & r' & He & Hd).
  - split; repeat first [apply Forall_nil_2 | apply Forall_cons_2 | split]; vm_compute; congruence.
  - split; vm_compute; congruence.
  - exact I.
  - vm_compute. reflexivity.
  - left. reflexivity.
  - exists e', p'. split; [exact He|]. exists r', (received example_mini). split; [exact Hd|].
    vm_compute. repeat split.
Defined.

(** The bytes an address needs. *)
Definition address_len (f : pb_MiniField) : Z :=
  if u8 (pb_MiniField_IsIpv6 f) =? 0 then IPv4len else IPv6len.

Definition capacity (b : bytes) : Z := zlen (contents b ++ beyond b).

Lemma reslice_None b n : reslice b n = None <-> capacity b < n.
Proof.
  unfold reslice, capacity. cbv zeta. destruct (Z.leb_spec n (zlen (contents b ++ beyond b))); split;
    intros; done || lia.
Qed.

(** Building a tag from a message panics exactly when its field message is
    missing or when an address that the code asks for has less memory than the
    four or sixteen bytes that are taken from it: the length of an address is
    not checked. *)
Theorem ReadFromPB_panics_iff (t : Tag) (p : pb_MiniTag) :
  Tag_ReadFromPB t p = None <->
  match pb_MiniTag_Field p with
  | None => True
  | Some f => capacity (pb_MiniField_Ip f) < address_len f \/
      has (pb_MiniTag_Code p) IPPath = true /\ capacity (pb_MiniField_Ip1 f) < address_len f
  end.
Proof.
  unfold Tag_ReadFromPB. destruct (pb_MiniTag_Field p) as [f|]; [|done]. cbn [mbind option_bind].
  unfold address_len, read_IPv6, read_IPv4. destruct (u8 (pb_MiniField_IsIpv6 f) =? 0); cbn [negb];
    rewrite <- !reslice_None; destruct (reslice (pb_MiniField_Ip f) _); cbn; [|intuition| |intuition];
    destruct (has _ IPPath); cbn; try (split; [done|intuition done]);
    destruct (reslice (pb_MiniField_Ip1 f) _); cbn; intuition done.
Qed.

(** C10: Writing a document into the table at the position [TableID] among the
    metrics tables, when the meter is of the kind that this table is for: the
    table has the columns of the document's tag followed by those of its meter. The
    write ends without an error only if the capture position has a name or is not
    asked for; then it has appended as many cells as the table has columns, less
    those the tag leaves out: the value of a tag type other than a tunnel (no
    table asks for the resources of one and of two sides). Without such a missing cell every
    column has got one cell, of its type and with the value its name stands for in
    the tag or in the meter. The write fails with an error only if cells are
    missing, and panics only if the capture position has no name. *)
Theorem document_row_matches {B} (Append : B -> Z -> cell -> option B) `{!ClickHouse Append}
    engine version tables (d : Document) (t : Tag) (id : Z) (table : Table) (b : Block B) :
  GetMetricsTables None engine version = Some (tables, Some tables) ->
  Doc_Tagger d = TTag t -> Document_TableID d = Done id -> tables !! Z.to_nat id = Some table ->
  Meter_ID (Doc_Meter d) = table_meter_id id ->
  opened Append (Batch b) (index b) (Columns table) ->
  Columns table = GenTagColumns (Tag_Code t) ++ Meter_columns (Doc_Meter d) /\
  missing_cells t = (if no_tag_value (Tag_Code t) (Tag_Field t) then 1 else 0) /\
  match Document_WriteBlock Append d b with
  | WOk b' => unknown_side t = false /\ index b' = index b + zlen (Columns table) - missing_cells t /\
      (missing_cells t = 0 -> appended Append (document_cell d t) (Batch b) (Batch b') (index b) (Columns table))
  | WErr _ => missing_cells t <> 0
  | WPanic => unknown_side t = true
  end.
Proof.
  intros Htables Ht Hid Htable Hm Ho.
  destruct (document_table _ _ _ _ _ _ _ Htables Ht Hid Htable) as [Hcode Hcols].
  rewrite <- (table_meter_columns _ id Hm) in Hcols. rewrite Hcols in *. split; [done|].
  split; [by unfold missing_cells; rewrite (table_resources id)|].
  apply (shape_outcome Append (document_cell d t)); [by apply document_shape|done].
Qed.

Definition acl_document : Document :=
  mkDocument 1 1000 (TTag (mkTag (Tag_Field row_example) (ors [ACLGID; TagType; TagValue; VTAPID]) ""))
    (MUsage (usage_example 3)) 0.

Example document_row_matches_witness :
  exists table b', Document_TableID acl_document = Done VTAP_ACL_1M /\
    Document_WriteBlock ListAppend acl_document (mkBlock (empty_batch (Columns table)) 0) = WOk b' /\
    index b' = zlen (Columns table).
Proof.
  destruct (metrics_tables_first MergeTree "v6.1.1.5") as (tables & Htables & Hlen & _).
  assert (is_Some (tables !! Z.to_nat VTAP_ACL_1M)) as [table Htable].
  { apply lookup_lt_is_Some. unfold zlen, VTAP_TABLE_ID_MAX in Hlen. unfold VTAP_ACL_1M. lia. }
  destruct (document_row_matches ListAppend MergeTree "v6.1.1.5" tables acl_document
    (mkTag (Tag_Field row_example) (ors [ACLGID; TagType; TagValue; VTAPID]) "") VTAP_ACL_1M table
    (mkBlock (empty_batch (Columns table)) 0)) as (_ & _ & H).
  - exact Htables.
  - reflexivity.
  - vm_compute. reflexivity.
  - exact Htable.
  - reflexivity.
  - apply empty_batch_opened.
  - exists table. destruct (Document_WriteBlock ListAppend acl_document _) as [b'|b'|].
    + exists b'. split; [vm_compute; reflexivity|]. split; [reflexivity|].
      destruct H as (_ & Hi & _). rewrite Hi. cbn [index]. change (missing_cells _) with 0. lia.
    + exfalso. apply H. reflexivity.
    + exfalso. vm_compute in H. discriminate H.
Defined.

(** Releasing and cloning documents by their reference count. *)
Inductive handle := Clone | Release.

Fixpoint handles (d : Document) (l : list handle) : option Document * list handle :=
  match l with
  | [] => (Some d, [])
  | Clone :: l => handles (PseudoCloneDocument d) l
  | Release :: l =>
      match ReleaseDocument d with
      | Some d => handles d l
      | None => (None, l)
      end
  end.

(** References left after some steps. *)
Definition balance (l : list handle) : Z :=
  foldr (fun h n => n + match h with Clone => 1 | Release => -1 end) 0 l.

(** The same document with another count. *)
Definition recount (d : Document) (r : Z) : Document :=
  mkDocument r (Timestamp d) (Doc_Tagger d) (Doc_Meter d) (Flags d).

Lemma ReleaseDocument_recount d r :
  ReleaseDocument (recount d r)
  = let '(r, used) := SubReferenceCount r in if used then Some (recount d r) else None.
Proof. done. Qed.

Lemma handles_steps d r l k :
  r + zlen l < 2 ^ 31 -> (forall n, (n <= length l)%nat -> 1 <= r + balance (take n l)) ->
  handles (recount d r) (l ++ k) = handles (recount d (r + balance l)) k.
Proof.
  revert r. induction l as [|h l IH]; intros r Hl Hb; cbn [app]; [by rewrite Z.add_0_r|].
  rewrite zlen_cons in Hl. pose proof (zlen_nonneg l).
  assert (forall r', (forall n, (n <= length l)%nat -> 1 <= r' + balance (take n l)) -> r' <= r + 1 ->
    handles (recount d r') (l ++ k) = handles (recount d (r' + balance l)) k) as IH'.
  { intros r' H1 H2. apply IH; [lia|done]. }
  pose proof (Hb 0%nat ltac:(lia)) as H0. change (balance (take 0 (h :: l))) with 0 in H0.
  destruct h; cbn [handles balance foldr]; fold (balance l).
  - change (PseudoCloneDocument (recount d r)) with (recount d (AddReferenceCount r)).
    unfold AddReferenceCount. rewrite swrap_small by (unfold is_i; lia).
    rewrite (IH' (r + 1)); [f_equal; f_equal; lia| |lia].
    intros n Hn. specialize (Hb (S n) ltac:(cbn; lia)). cbn [take balance foldr] in Hb.
    fold (balance (take n l)) in Hb. lia.
  - rewrite ReleaseDocument_recount. unfold SubReferenceCount.
    rewrite swrap_small by (unfold is_i; lia).
    pose proof (Hb 1%nat ltac:(cbn; lia)) as H1. change (balance (take 1 (Release :: l))) with (-1) in H1.
    rewrite (proj2 (Z.ltb_lt _ _)) by lia.
    rewrite (IH' (r - 1)); [f_equal; f_equal; lia| |lia].
    intros n Hn. specialize (Hb (S n) ltac:(cbn; lia)). cbn [take balance foldr] in Hb.
    fold (balance (take n l)) in Hb. lia.
Qed.

Lemma handles_last d n :
  Z.of_nat n < 2 ^ 31 - 1 -> handles (recount d (Z.of_nat (S n))) (replicate (S n) Release) = (None, []).
Proof.
  induction n as [|n IH]; intros Hn; [done|]. set (m := S n) in *.
  cbn [replicate handles]. rewrite ReleaseDocument_recount. unfold SubReferenceCount.
  rewrite swrap_small by (unfold is_i; lia). rewrite (proj2 (Z.ltb_lt _ _)) by lia.
  replace (Z.of_nat (S m) - 1) with (Z.of_nat m) by lia. apply IH. lia.
Qed.

(** A document stays in use, unchanged but for its count, as long as there were
    fewer releases than references, and goes back to the pool at the release
    of its last reference, not before. *)
Theorem document_references (d : Document) (l : list handle) :
  Doc_ReferenceCount d = 1 -> zlen l < 2 ^ 30 ->
  (forall k, (k <= length l)%nat -> 0 <= balance (take k l)) ->
  handles d l = (Some (mkDocument (1 + balance l) (Timestamp d) (Doc_Tagger d) (Doc_Meter d) (Flags d)), []) /\
  handles d (l ++ replicate (Z.to_nat (1 + balance l)) Release) = (None, []).
Proof.
  intros Hr Hl Hb. pose proof (zlen_nonneg l).
  assert (d = recount d 1) as Hd by (unfold recount; rewrite <- Hr; by destruct d).
  assert (forall n, (n <= length l)%nat -> 1 <= 1 + balance (take n l)) as Hb'.
  { intros n Hn. specialize (Hb n Hn). lia. }
  pose proof (Hb (length l) ltac:(lia)) as Hbl. rewrite take_ge in Hbl by lia.
  assert (balance l <= zlen l) as Hle.
  { clear. induction l as [|[] l IH]; [done|..]; cbn [balance foldr]; fold (balance l);
      rewrite zlen_cons; lia. }
  split.
  - rewrite Hd at 1. rewrite <- (app_nil_r l) at 1. rewrite handles_steps by (done || lia). done.
  - rewrite Hd at 1. rewrite handles_steps by (done || lia).
    replace (Z.to_nat (1 + balance l)) with (S (Z.to_nat (balance l))) by lia.
    rewrite <- (handles_last d (Z.to_nat (balance l))) by lia. do 2 f_equal. lia.
Qed.

Example document_references_witness :
  handles acl_document [Clone; Release; Clone; Clone] = (Some (recount acl_document 3), []) /\
  handles acl_document ([Clone; Release; Clone; Clone] ++ replicate 3 Release) = (None, []).
Proof.
  apply (document_references acl_document [Clone; Release; Clone; Clone]); [reflexivity|reflexivity|].
  intros [|[|[|[|[|k]]]]] Hk; cbn in Hk; try lia; vm_compute; congruence.
Defined.
