(* ===== verification/CKWriter.v ===== *)
(** The ClickHouse writer of [server/ingester/pkg/ckwriter]: one thread per queue
    collects items into batches, writes a batch with one insert statement, retries
    it once on a new connection, counts it and releases its items.

    The ClickHouse driver and the clock are an interface, [Driver], over a state
    of the world: the driver is third-party code.  The queues are those of
    [Queue.v]; they hold items only, so the warning for a value of another type
    has no counterpart. *)

From S2P Require Import Prelude Strconv LineProto Queue Ckdb.

#[local] Open Scope string_scope.
#[local] Open Scope list_scope.
#[local] Open Scope Z_scope.

(** What the writer calls: an error is [None] or [false]. *)
Class Driver (World Conn B : Type) := {
  Open (addr user password : string) : World -> option Conn * World;
  Exec (conn : Conn) (query : string) : World -> bool * World;
  Close (conn : Conn) : World -> World;
  PrepareBatch (conn : Conn) (query : string) : World -> option B * World;
  Append : B -> Z -> cell -> option B;
  Send (batch : B) : World -> bool * World;
  Now : World -> Z * World;
  Sleep (duration : Z) : World -> World
}.

(** [CKItem.Release] has no definition here: the calls are recorded, in order, in
    the state of the writer. *)
Class CKItem (I B : Type) := item_WriteBlock : I -> Write B.

Record Counter := mkCounter {
  WriteSuccessCount : Z;
  WriteFailedCount : Z
}.

Definition zero_Counter : Counter := mkCounter 0 0.

Definition GetCounter (i : Counter) : Counter * Counter := (i, zero_Counter).

(** A connection that is nil is [None]. *)
Record CKWriter (Conn I : Type) := mkCKWriter {
  primaryAddr : string;
  secondaryAddr : string;
  user : string;
  password : string;
  table : Table;
  queueCount : Z;
  queueSize : Z;
  batchSize : Z;
  flushTimeout : Z;
  counterName : string;
  name : string;
  prepare : string;
  conns : list (option Conn);
  dataQueues : MultiQueue I;
  counters : list Counter;
  putCounter : Z;
  exit : bool
}.
Arguments mkCKWriter {Conn I}.
Arguments primaryAddr {Conn I}.
Arguments secondaryAddr {Conn I}.
Arguments user {Conn I}.
Arguments password {Conn I}.
Arguments table {Conn I}.
Arguments queueCount {Conn I}.
Arguments queueSize {Conn I}.
Arguments batchSize {Conn I}.
Arguments flushTimeout {Conn I}.
Arguments counterName {Conn I}.
Arguments name {Conn I}.
Arguments prepare {Conn I}.
Arguments conns {Conn I}.
Arguments dataQueues {Conn I}.
Arguments counters {Conn I}.
Arguments putCounter {Conn I}.
Arguments exit {Conn I}.

Definition set_conns {Conn I} (w : CKWriter Conn I) (c : list (option Conn)) : CKWriter Conn I :=
  mkCKWriter (primaryAddr w) (secondaryAddr w) (user w) (password w) (table w) (queueCount w)
    (queueSize w) (batchSize w) (flushTimeout w) (counterName w) (name w) (prepare w) c
    (dataQueues w) (counters w) (putCounter w) (exit w).

Definition set_dataQueues {Conn I} (w : CKWriter Conn I) (q : MultiQueue I) (n : Z) : CKWriter Conn I :=
  mkCKWriter (primaryAddr w) (secondaryAddr w) (user w) (password w) (table w) (queueCount w)
    (queueSize w) (batchSize w) (flushTimeout w) (counterName w) (name w) (prepare w) (conns w)
    q (counters w) n (exit w).

Definition set_counters {Conn I} (w : CKWriter Conn I) (c : list Counter) : CKWriter Conn I :=
  mkCKWriter (primaryAddr w) (secondaryAddr w) (user w) (password w) (table w) (queueCount w)
    (queueSize w) (batchSize w) (flushTimeout w) (counterName w) (name w) (prepare w) (conns w)
    (dataQueues w) c (putCounter w) (exit w).

Definition set_exit {Conn I} (w : CKWriter Conn I) : CKWriter Conn I :=
  mkCKWriter (primaryAddr w) (secondaryAddr w) (user w) (password w) (table w) (queueCount w)
    (queueSize w) (batchSize w) (flushTimeout w) (counterName w) (name w) (prepare w) (conns w)
    (dataQueues w) (counters w) (putCounter w) true.

(** The writer, the world around it, and the items it has released. *)
Record env (World Conn I : Type) := mkEnv {
  writer : CKWriter Conn I;
  world : World;
  released : list I
}.
Arguments mkEnv {World Conn I}.
Arguments writer {World Conn I}.
Arguments world {World Conn I}.
Arguments released {World Conn I}.

Definition time_Second : Z := 10 ^ 9.
Definition time_Minute : Z := 60 * time_Second.
Definition maxDuration : Z := 2 ^ 63 - 1.

(** [time.Since] of a time that may be the zero [Time]; the difference to that one
    is more than a [Duration] holds, and saturates. *)
Definition Since (now : Z) (t : option Z) : Z :=
  match t with
  | Some t => Z.max (- 2 ^ 63) (Z.min maxDuration (now - t))
  | None => maxDuration
  end.

Section Writer.
Context {World Conn B I : Type} `{!Driver World Conn B} `{!CKItem I B}.
Implicit Types (queueID : Z) (items : list I).

(** * Tables *)

(** Runs a call of the interface. *)
Definition call {A} (f : World -> A * World) : ST World A := fun s => Some (f s).

(** [true] when there is no error; the statement for the local table also sets the
    codecs of the columns. *)
Definition InitTable (addr user password : string) (t : Table) : ST World (bool * Table) :=
  conn ← call (Open addr user password);
  match conn with
  | None => mret (false, t)
  | Some conn =>
      ok ← call (Exec conn ("CREATE DATABASE IF NOT EXISTS " +:+ Database t));
      if negb ok then mret (false, t) else
      lt ← of_option (MakeLocalTableCreateSQL t);
      let '(sql, t) := (lt : string * Table) in
      ok ← call (Exec conn sql);
      if negb ok then mret (false, t) else
      ok ← call (Exec conn (MakeGlobalTableCreateSQL t));
      if negb ok then mret (false, t) else
      modify (Close conn) ;;
      mret (true, t)
  end.

(** The goroutine that creates the table of the replica, for this many attempts:
    [true] when it has ended. *)
Fixpoint initReplicaTable (attempts : nat) (addr user password : string) (t : Table) : ST World bool :=
  match attempts with
  | O => mret false
  | S attempts =>
      r ← InitTable addr user password t;
      let '(ok, t) := (r : bool * Table) in
      if ok : bool then mret true
      else modify (Sleep time_Minute) ;; initReplicaTable attempts addr user password t
  end.

(** The loop that opens one connection for each queue. *)
Fixpoint open_conns (n : nat) (addr user password : string) : ST World (option (list (option Conn))) :=
  match n with
  | O => mret (Some [])
  | S n =>
      conn ← call (Open addr user password);
      match conn with
      | None => mret None
      | Some _ =>
          rest ← open_conns n addr user password;
          mret (cons conn <$> (rest : option (list (option Conn))))
      end
  end.

(** The writer, and whether [initReplicaTable] has been started; [None] is an
    error.  [user] and [password] of the writer keep their zero value. *)
Definition NewCKWriter (primaryAddr secondaryAddr user password counterName : string) (table : Table)
    (replicaEnabled : bool) (queueCount queueSize batchSize flushTimeout : Z)
    : ST World (option (CKWriter Conn I * bool)) :=
  r ← InitTable primaryAddr user password table;
  let '(ok, table) := (r : bool * Table) in
  if negb ok then mret None else
  r ← (if replicaEnabled then
         r ← InitTable secondaryAddr user password table;
         let '(ok, table) := (r : bool * Table) in mret (true, negb ok, table)
       else if 0 <? slen secondaryAddr then
         r ← InitTable secondaryAddr user password table;
         let '(ok, table) := (r : bool * Table) in mret (ok, false, table)
       else mret (true, false, table) : ST World (bool * bool * Table));
  let '(ok, replica, table) := (r : bool * bool * Table) in
  if negb ok then mret None else
  conns ← open_conns (Z.to_nat queueCount) primaryAddr user password;
  match (conns : option (list (option Conn))) with
  | None => mret None
  | Some conns =>
      dataQueues ← of_option (NewOverwriteQueues (u8 queueCount) queueSize true);
      mret (Some ({|
        CKWriter.primaryAddr := primaryAddr;
        CKWriter.secondaryAddr := secondaryAddr;
        CKWriter.user := "";
        CKWriter.password := "";
        CKWriter.table := table;
        CKWriter.queueCount := queueCount;
        CKWriter.queueSize := queueSize;
        CKWriter.batchSize := batchSize;
        CKWriter.flushTimeout := flushTimeout;
        CKWriter.counterName := counterName;
        CKWriter.name := Database table +:+ "-" +:+ LocalName table;
        CKWriter.prepare := MakePrepareTableInsertSQL table;
        CKWriter.conns := conns;
        CKWriter.dataQueues := dataQueues;
        CKWriter.counters := replicate (Z.to_nat queueCount) zero_Counter;
        CKWriter.putCounter := 0;
        CKWriter.exit := false
      |}, replica))
  end.

(** * Put *)

(** The error of the queue is not looked at.  [%] is Go's remainder, which panics
    for a divisor of zero. *)
Definition Put (w : CKWriter Conn I) items : option (CKWriter Conn I) :=
  let n := i64 (putCounter w + 1) in
  if queueCount w =? 0 then None
  else
    r ← Multi_Put (dataQueues w) (u8 (Z.rem n (queueCount w))) (Some <$> items);
    let '(_, q) := (r : bool * MultiQueue I) in
    Some (set_dataQueues w q n).

(** * Writing a batch *)

Definition M : Type -> Type := ST (env World Conn I).

Definition effect {A} (f : World -> A * World) : M A := fun e =>
  let '(a, s) := f (world e) in Some (a, mkEnv (writer e) s (released e)).

Definition sleep (duration : Z) : M unit := effect (fun s => (tt, Sleep duration s)).

Definition self : M (CKWriter Conn I) := fun e => Some (writer e, e).

Definition update (f : CKWriter Conn I -> CKWriter Conn I) : M unit :=
  modify (fun e => mkEnv (f (writer e)) (world e) (released e)).

(** [w.conns[queueID]] *)
Definition get_conn queueID : M (option Conn) :=
  w ← self; of_option (conns w !! Z.to_nat queueID).

Definition put_conn queueID (c : option Conn) : M unit :=
  update (fun w => set_conns w (<[Z.to_nat queueID := c]> (conns w))).

(** [w.counters[queueID]] *)
Definition get_counter queueID : M Counter :=
  w ← self; of_option (counters w !! Z.to_nat queueID).

Definition put_counter queueID (c : Counter) : M unit :=
  update (fun w => set_counters w (<[Z.to_nat queueID := c]> (counters w))).

Definition Release (item : I) : M unit :=
  modify (fun e => mkEnv (writer e) (world e) (released e ++ [item])).

(** [true] when the connection is open again. *)
Definition ResetConnection queueID : M bool :=
  c ← get_conn queueID;
  match (c : option Conn) with
  | Some c => effect (fun s => (tt, Close c s)) ;; put_conn queueID None
  | None => mret tt
  end ;;
  w ← self;
  c ← effect (Open (primaryAddr w) (user w) (password w));
  put_conn queueID c ;;
  mret (bool_decide (is_Some (c : option Conn))).

(** The loop that writes the items into the block. *)
Fixpoint write_items items : Write B :=
  match items with
  | [] => wret
  | item :: items => fun b =>
      match item_WriteBlock item b with
      | WOk b => write_items items (ResetIndex b)
      | r => r
      end
  end.

(** What follows once there is a connection; calling a method of a nil connection
    panics. *)
Definition write_batch (ck : option Conn) items : M bool :=
  match ck with
  | None => panic
  | Some ck =>
      w ← self;
      batch ← effect (PrepareBatch ck (prepare w));
      match (batch : option B) with
      | None => mret false
      | Some batch =>
          match write_items items (mkBlock batch 0) with
          | WPanic => panic
          | WErr _ => mret false
          | WOk block => effect (Send (Batch block))
          end
      end
  end.

(** [true] when there is no error. *)
Definition writeItems queueID items : M bool :=
  if zlen items =? 0 then mret true
  else
    ck ← get_conn queueID;
    match (ck : option Conn) with
    | Some _ => write_batch ck items
    | None =>
        ok ← ResetConnection queueID;
        if negb ok then sleep time_Minute ;; mret false
        else ck ← get_conn queueID; write_batch ck items
    end.

Definition count_failed queueID (n : Z) : M unit :=
  c ← get_counter queueID;
  put_counter queueID (mkCounter (WriteSuccessCount c) (i64 (WriteFailedCount c + n))).

Definition count_success queueID (n : Z) : M unit :=
  c ← get_counter queueID;
  put_counter queueID (mkCounter (i64 (WriteSuccessCount c + n)) (WriteFailedCount c)).

(** The second attempt, made only when no write has failed since the counter was
    last read. *)
Definition Write_retry queueID items : M bool :=
  c ← get_counter queueID;
  if WriteFailedCount c =? 0 then
    ok ← ResetConnection queueID;
    (if negb ok then sleep time_Minute else mret tt) ;;
    writeItems queueID items
  else mret false.

Definition Write queueID items : M unit :=
  ok ← writeItems queueID items;
  (if negb ok then
     ok ← Write_retry queueID items;
     if negb ok then count_failed queueID (zlen items) else count_success queueID (zlen items)
   else count_success queueID (zlen items)) ;;
  for_each Release items.

(** * The thread of a queue *)

Record loop := mkLoop { caches : list I; lastWriteTime : option Z }.

Definition flush queueID items : M loop :=
  Write queueID items ;;
  now ← effect Now;
  mret (mkLoop [] (Some now)).

(** One item of the queue; nil is the flush ticker. *)
Definition queueProcess_item queueID (item : option I) (l : loop) : M loop :=
  w ← self;
  match item with
  | Some ck =>
      let cached := caches l ++ [ck] in
      if zlen cached >=? batchSize w then flush queueID cached
      else mret (mkLoop cached (lastWriteTime l))
  | None =>
      now ← effect Now;
      if Since now (lastWriteTime l) >? i64 (flushTimeout w * time_Second)
      then flush queueID (caches l)
      else mret l
  end.

Fixpoint queueProcess_items queueID (its : list (option I)) (l : loop) : M loop :=
  match its with
  | [] => mret l
  | item :: its => l ← queueProcess_item queueID item l; queueProcess_items queueID its l
  end.

Definition GET_SIZE : Z := 1024.

(** One round of the loop; [None] when the read blocks. *)
Definition queueProcess_round queueID (l : loop) : M (option loop) :=
  w ← self;
  r ← of_option (Multi_Gets (dataQueues w) (u8 queueID) GET_SIZE);
  let '(its, q) := (r : option (list (option I)) * MultiQueue I) in
  match its with
  | None => mret None
  | Some its =>
      update (fun w => set_dataQueues w q (putCounter w)) ;;
      l ← queueProcess_items queueID its l;
      mret (Some l)
  end.

(** The thread until it blocks, is told to exit, or has made [rounds] rounds. *)
Fixpoint queueProcess (rounds : nat) queueID (l : loop) : M loop :=
  match rounds with
  | O => mret l
  | S rounds =>
      w ← self;
      if exit w then mret l
      else
        r ← queueProcess_round queueID l;
        match (r : option loop) with
        | None => mret l
        | Some l => queueProcess rounds queueID l
        end
  end.

Definition new_loop : loop := mkLoop [] None.

(** Closing, once the threads have ended. *)
Definition close_conns : list (option Conn) -> World -> World :=
  fun cs s => foldl (fun s c => match c with Some c => Close c s | None => s end) s cs.

Definition CKWriter_Close : M unit :=
  update set_exit ;;
  w ← self;
  effect (fun s => (tt, close_conns (conns w) s)) ;;
  update (fun w => set_conns w ((fun _ => None) <$> conns w)).

End Writer.
