(* ===== verification/CKWriterFacts.v ===== *)
(** Facts of the ClickHouse writer ([CKWriter.v]): what a thread does with the
    items of its queue, whatever the database answers. *)

From S2P Require Import Prelude Strconv LineProto Queue QueueFacts Ckdb CkdbFacts CKWriter.

#[local] Open Scope string_scope.
#[local] Open Scope list_scope.
#[local] Open Scope Z_scope.

(** What is known of the driver: the batches the database has acknowledged are
    those whose [Send] returned no error, and a prepared batch is the empty batch
    of its statement. *)
Class DriverLaws (World Conn B : Type) `{!Driver World Conn B} := {
  delivered : World -> list B;
  fresh : string -> B;
  Open_delivered addr user password s : delivered (Open addr user password s).2 = delivered s;
  Close_delivered c s : delivered (Close c s) = delivered s;
  PrepareBatch_delivered c q s : delivered (PrepareBatch c q s).2 = delivered s;
  PrepareBatch_fresh c q s b : (PrepareBatch c q s).1 = Some b -> b = fresh q;
  Send_delivered b s : delivered (Send b s).2 = delivered s ++ (if (Send b s).1 then [b] else []);
  Now_delivered s : delivered (Now s).2 = delivered s;
  Sleep_delivered d s : delivered (Sleep d s) = delivered s
}.

Section Facts.
Context {World Conn B I : Type} `{!Driver World Conn B} `{!CKItem I B}.
Abbreviation env := (env World Conn I).
Implicit Types (e : env) (items : list I).

(** The parts of a writer that its threads never change. *)
Definition config (w : CKWriter Conn I) :=
  (primaryAddr w, secondaryAddr w, user w, password w, table w, queueCount w, queueSize w,
   batchSize w, flushTimeout w, prepare w, exit w, putCounter w).

(** A step that leaves alone all but the connection and the counter of one queue. *)
Record keeps (q : nat) e e' : Prop := {
  keeps_config : config (writer e') = config (writer e);
  keeps_queues : dataQueues (writer e') = dataQueues (writer e);
  keeps_conns : length (conns (writer e')) = length (conns (writer e));
  keeps_counters : length (counters (writer e')) = length (counters (writer e));
  keeps_other j : j <> q -> conns (writer e') !! j = conns (writer e) !! j /\
    counters (writer e') !! j = counters (writer e) !! j
}.

#[export] Instance keeps_preorder q : PreOrder (keeps q).
Proof.
  split; [by intros e; split|]. intros e1 e2 e3 [H1 H2 H3 H4 H5] [K1 K2 K3 K4 K5].
  split; [congruence|congruence|congruence|congruence|].
  intros j Hj. destruct (H5 j Hj), (K5 j Hj). split; congruence.
Qed.

(** The index of the thread is one of the connections and of the counters. *)
Definition ready (q : Z) e : Prop :=
  (Z.to_nat q < length (conns (writer e)))%nat /\ (Z.to_nat q < length (counters (writer e)))%nat.

Lemma ready_keeps q j e e' : ready q e -> keeps j e e' -> ready q e'.
Proof. intros [H1 H2] [_ _ Hc Hn _]. unfold ready. by rewrite Hc, Hn. Qed.

Lemma ready_counter q e : ready q e -> exists c, counters (writer e) !! Z.to_nat q = Some c.
Proof. intros [_ H]. by apply lookup_lt_is_Some in H. Qed.

Lemma ready_conn q e : ready q e -> exists c, conns (writer e) !! Z.to_nat q = Some c.
Proof. intros [H _]. by apply lookup_lt_is_Some in H. Qed.

(** Rules for the primitive steps. *)
Lemma runs_self e (Q : CKWriter Conn I -> env -> Prop) : Q (writer e) e -> runs self e Q.
Proof. done. Qed.

Lemma runs_effect {A} (f : World -> A * World) e (Q : A -> env -> Prop) :
  Q (f (world e)).1 (mkEnv (writer e) (f (world e)).2 (released e)) -> runs (effect f) e Q.
Proof. unfold runs, effect. by destruct (f (world e)). Qed.

Lemma runs_get_conn q c e (Q : option Conn -> env -> Prop) :
  conns (writer e) !! Z.to_nat q = Some c -> Q c e -> runs (get_conn q) e Q.
Proof. intros Hc HQ. apply runs_bind, runs_self. by apply (runs_of_option _ c). Qed.

Lemma runs_get_counter q c e (Q : Counter -> env -> Prop) :
  counters (writer e) !! Z.to_nat q = Some c -> Q c e -> runs (get_counter q) e Q.
Proof. intros Hc HQ. apply runs_bind, runs_self. by apply (runs_of_option _ c). Qed.

Lemma keeps_world q e s r : keeps q e (mkEnv (writer e) s r).
Proof. by split. Qed.

Lemma keeps_put_conn q e s r c :
  keeps q e (mkEnv (set_conns (writer e) (<[q := c]> (conns (writer e)))) s r).
Proof.
  split; cbn; [done|done|by rewrite length_insert|done|].
  intros j Hj. by rewrite list_lookup_insert_ne.
Qed.

Lemma keeps_put_counter q e s r c :
  keeps q e (mkEnv (set_counters (writer e) (<[q := c]> (counters (writer e)))) s r).
Proof.
  split; cbn; [done|done|done|by rewrite length_insert|].
  intros j Hj. by rewrite list_lookup_insert_ne.
Qed.

(** ** Put *)

(** Successive calls of [Put]. *)
Fixpoint Puts (puts : list (list I)) (w : CKWriter Conn I) : option (CKWriter Conn I) :=
  match puts with [] => Some w | items :: puts => w ← Put w items; Puts puts w end.

(** What the calls that follow the [n]-th put into queue [j] of [count]. *)
Fixpoint routed (n count j : Z) (puts : list (list I)) : list I :=
  match puts with
  | [] => []
  | items :: puts => (if (n + 1) mod count =? j then items else []) ++ routed (n + 1) count j puts
  end.

(** The queues of a writer after its [n]-th [Put]. *)
Record queues_ok (w : CKWriter Conn I) (count n cap : Z) (C : Z -> list I) : Prop := {
  qs_count : queueCount w = count;
  qs_counter : putCounter w = n;
  qs_table : NewOverwriteQueues_table count = Some (entries (dataQueues w));
  qs_queue j : 0 <= j < count -> exists queue, queues (dataQueues w) !! Z.to_nat j = Some queue /\
    rep queue (Some <$> C j) /\ cap <= size queue
}.

Lemma Put_queues w count n cap C items :
  1 <= count <= MAX_QUEUE_COUNT -> 0 <= n < 2 ^ 63 - 1 -> queues_ok w count n cap C ->
  zlen (C ((n + 1) mod count) ++ items) <= cap ->
  exists w', Put w items = Some w' /\
    queues_ok w' count (n + 1) cap (fun j => C j ++ (if (n + 1) mod count =? j then items else [])).
Proof.
  intros Hc Hn [H1 H2 H3 H4] Hcap. unfold Put. rewrite H1, H2. change MAX_QUEUE_COUNT with 16 in Hc.
  destruct (Z.eqb_spec count 0) as [|_]; [lia|].
  rewrite swrap_small, Z.rem_mod_nonneg by (ranges; lia). set (j := (n + 1) mod count) in *.
  assert (0 <= j < count) as Hj by (apply Z.mod_pos_bound; lia).
  rewrite wrap_small by (ranges; lia).
  destruct (table_entry count ltac:(done)) as (table & Ht & Hkey). rewrite H3 in Ht. injection Ht as <-.
  destruct (Hkey j ltac:(ranges; lia)) as (i & He & _ & Hij & _). rewrite (Hij ltac:(lia)) in He. clear Hij i Hkey.
  destruct (H4 j Hj) as (queue & Hq & Hrep & Hsize).
  rewrite zlen_app in Hcap. pose proof (zlen_nonneg (C j)). assert (zlen (Some <$> items) = zlen items) as Hl
    by (unfold zlen; by rewrite length_fmap).
  assert (zlen (Some <$> items) <= size queue) as Hfit by lia.
  destruct (Put_rep queue _ _ Hrep Hfit) as [_ Hrep'].
  rewrite last_n_fits, <- fmap_app in Hrep' by (rewrite zlen_app, Hl; unfold zlen in *; rewrite length_fmap; lia).
  unfold Multi_Put, on_entry. rewrite He. cbn [mbind option_bind]. rewrite Hq. cbn [mbind option_bind].
  pose proof (Put_size queue (Some <$> items)) as Hps.
  destruct (Queue.Put queue (Some <$> items)) as [err queue'] eqn:Ep. cbn [snd] in *.
  eexists. split; [done|]. split; [done|done|done|].
  cbn [dataQueues set_dataQueues queues]. intros k Hk. destruct (Z.eqb_spec j k) as [<-|Hne].
  - exists queue'. rewrite Hps. split_and!; [|done|done]. apply list_lookup_insert_eq. by eapply lookup_lt_Some.
  - rewrite list_lookup_insert_ne, app_nil_r by lia. by apply H4.
Qed.

Lemma Puts_queues puts w count n cap C :
  1 <= count <= MAX_QUEUE_COUNT -> 0 <= n -> n + zlen puts < 2 ^ 63 -> queues_ok w count n cap C ->
  (forall j, zlen (C j ++ routed n count j puts) <= cap) ->
  exists w', Puts puts w = Some w' /\
    queues_ok w' count (n + zlen puts) cap (fun j => C j ++ routed n count j puts).
Proof.
  revert w n C. induction puts as [|items puts IH]; intros w n C Hc Hn Hlen Hw Hcap.
  - exists w. split; [done|]. rewrite zlen_nil, Z.add_0_r. cbn [routed].
    destruct Hw as [H1 H2 H3 H4]. split; [done..|]. intros j Hj. rewrite app_nil_r. by apply H4.
  - rewrite zlen_cons in *. pose proof (zlen_nonneg puts). cbn [routed] in Hcap.
    destruct (Put_queues w count n cap C items) as (w1 & Hp & Hw1); [done|lia|done| |].
    { specialize (Hcap ((n + 1) mod count)). rewrite Z.eqb_refl, !zlen_app in Hcap. rewrite zlen_app.
      pose proof (zlen_nonneg (routed (n + 1) count ((n + 1) mod count) puts)). lia. }
    destruct (IH w1 (n + 1) _ Hc ltac:(lia) ltac:(lia) Hw1) as (w' & Hps & Hw').
    { intros j. rewrite <- app_assoc. apply Hcap. }
    exists w'. cbn [Puts]. rewrite Hp. split; [done|]. rewrite Z.add_assoc.
    destruct Hw' as [H1 H2 H3 H4]. split; [done..|]. cbn [routed]. intros j Hj. rewrite app_assoc. by apply H4.
Qed.

(** ** A new writer *)

Lemma open_conns_length n addr user password (s s' : World) (cs : list (option Conn)) :
  open_conns n addr user password s = Some (Some cs, s') -> length cs = n.
Proof.
  revert s s' cs. induction n as [|n IH]; intros s s' cs; cbn; [by intros [= <- _]|].
  unfold mbind, ST_bind at 1, call. destruct (Open addr user password s) as [[c|] s1]; [|done].
  unfold mbind, ST_bind. destruct (open_conns n addr user password s1) as [[[cs'|] s2]|] eqn:E; [|done..].
  intros [= <- _]. cbn. by rewrite (IH s1 s2 cs').
Qed.

(** The zero values of the fields that are not set include those of the account. *)
Record new_writer (w : CKWriter Conn I) (addr : string) (count size batch : Z) : Prop := {
  nw_addr : primaryAddr w = addr;
  nw_user : user w = "";
  nw_password : password w = "";
  nw_exit : exit w = false;
  nw_batch : batchSize w = batch;
  nw_length : length (queues (dataQueues w)) = Z.to_nat (u8 count);
  nw_conns : length (conns w) = Z.to_nat count;
  nw_counters : counters w = replicate (Z.to_nat count) zero_Counter;
  nw_queues : 1 <= count <= MAX_QUEUE_COUNT -> 0 <= size <= 2 ^ 31 -> queues_ok w count 0 size (fun _ => [])
}.

Lemma NewOverwriteQueues_ok count size (mq : MultiQueue I) j :
  NewOverwriteQueues count size true = Some mq -> 0 <= size <= 2 ^ 31 -> 0 <= j < count ->
  NewOverwriteQueues_table count = Some (entries mq) /\
  exists queue, queues mq !! Z.to_nat j = Some queue /\ rep queue [] /\ size <= Queue.size queue.
Proof.
  unfold NewOverwriteQueues. intros H Hs Hj. destruct (NewOverwriteQueues_table count) as [table|]; [|done].
  injection H as <-. split; [done|]. exists (Init size true). cbn [queues]. split_and!.
  - apply lookup_replicate. split; [done|lia].
  - by apply Init_rep.
  - destruct (Init_size (A := I) size true Hs) as (k & _ & -> & ? & _). done.
Qed.

Lemma NewCKWriter_new pa sa u p cn t replica count size batch timeout (s s' : World) w bg :
  NewCKWriter pa sa u p cn t replica count size batch timeout s = Some (Some (w, bg), s') ->
  new_writer w pa count size batch.
Proof.
  unfold NewCKWriter. unfold mbind at 1, ST_bind at 1.
  destruct (InitTable pa u p t s) as [[[ok t1] s1]|]; [|done]. destruct ok; [|done]. cbn [negb].
  unfold mbind at 1, ST_bind at 1. match goal with |- context [match ?m s1 with _ => _ end] => set (second := m) end.
  destruct (second s1) as [[[[ok bg'] t2] s2]|]; [|done]. destruct ok; [|done]. cbn [negb].
  unfold mbind at 1, ST_bind at 1. destruct (open_conns _ _ _ _ s2) as [[[cs|] s3]|] eqn:Ec; [|done..].
  unfold mbind, ST_bind, of_option. destruct (NewOverwriteQueues (u8 count) size true) as [mq|] eqn:Eq; [|done].
  intros [= <- _ _]. split; try done; [|by apply open_conns_length in Ec|].
  { unfold NewOverwriteQueues in Eq. destruct (NewOverwriteQueues_table (u8 count)); [|done].
    injection Eq as <-. apply length_replicate. }
  intros Hc Hs. change MAX_QUEUE_COUNT with 16 in Hc. rewrite wrap_small in Eq by (ranges; lia).
  split; [done|done| |].
  - by apply (NewOverwriteQueues_ok count size mq 0 Eq Hs ltac:(lia)).
  - intros j Hj. by apply (NewOverwriteQueues_ok count size mq j Eq Hs Hj).
Qed.

Section Laws.
Context `{!DriverLaws World Conn B}.

(** A step that keeps the counters, the released items and the delivered batches. *)
Record quiet (q : nat) e e' : Prop := {
  quiet_keeps : keeps q e e';
  quiet_counters : counters (writer e') = counters (writer e);
  quiet_released : released e' = released e;
  quiet_delivered : delivered (world e') = delivered (world e)
}.

#[export] Instance quiet_preorder q : PreOrder (quiet q).
Proof.
  split; [by intros e; split|]. intros e1 e2 e3 [H1 H2 H3 H4] [H1' H2' H3' H4'].
  split; [by transitivity e2|congruence..].
Qed.

Lemma quiet_world q e s :
  delivered s = delivered (world e) -> quiet q e (mkEnv (writer e) s (released e)).
Proof. intros H. split; [apply keeps_world|done..]. Qed.

Lemma quiet_put_conn q e s c :
  delivered s = delivered (world e) ->
  quiet q e (mkEnv (set_conns (writer e) (<[q := c]> (conns (writer e)))) s (released e)).
Proof. intros H. split; [apply keeps_put_conn|done..]. Qed.

Lemma ResetConnection_runs q e (Q : bool -> env -> Prop) :
  ready q e ->
  (forall ok e', quiet (Z.to_nat q) e e' ->
     (ok = true -> exists c, conns (writer e') !! Z.to_nat q = Some (Some c)) -> Q ok e') ->
  runs (ResetConnection q) e Q.
Proof.
  intros Hr HQ. destruct (ready_conn q e Hr) as (c & Hc).
  apply runs_bind, (runs_get_conn q c); [done|]. apply runs_bind.
  apply (runs_mono _ _ (fun _ e' => quiet (Z.to_nat q) e e')).
  - destruct c as [c|]; [|by apply runs_ret].
    apply runs_bind, runs_effect, runs_modify. cbn [writer world released fst snd].
    apply quiet_put_conn, Close_delivered.
  - intros [] e1 H1. apply runs_bind, runs_self, runs_bind, runs_effect, runs_bind, runs_modify, runs_ret.
    cbn [writer world released]. apply HQ.
    + etransitivity; [exact H1|]. apply quiet_put_conn, Open_delivered.
    + cbn [writer]. intros Hok. apply bool_decide_eq_true in Hok as [c' Hc']. exists c'.
      unfold set_conns. cbn [conns]. rewrite Hc'. apply list_lookup_insert_eq.
      apply (ready_keeps q (Z.to_nat q) e e1); [done|apply H1].
Qed.

(** ** Batches *)

(** The batch of an insert statement with these items. *)
Definition batch_of (sql : string) items : option B :=
  match write_items items (mkBlock (fresh sql) 0) with WOk b => Some (Batch b) | _ => None end.

(** What a successful write delivers: nothing for no items. *)
Definition sent (sql : string) items : list B :=
  match items with [] => [] | _ => option_list (batch_of sql items) end.

Context (no_panic : forall (i : I) (b : Block B), item_WriteBlock i b <> WPanic).

Lemma write_items_no_panic items b : write_items items b <> WPanic.
Proof using no_panic.
  revert b. induction items as [|i items IH]; intros b; [done|]. cbn.
  pose proof (no_panic i b). destruct (item_WriteBlock i b); [apply IH|done..].
Qed.

(** A step that has written these items, or failed to. *)
Record wrote (q : nat) items (ok : bool) e e' : Prop := {
  wrote_keeps : keeps q e e';
  wrote_counters : counters (writer e') = counters (writer e);
  wrote_released : released e' = released e;
  wrote_delivered : delivered (world e') =
    delivered (world e) ++ (if ok then sent (prepare (writer e)) items else []);
  wrote_batch : ok = true -> items <> [] -> is_Some (batch_of (prepare (writer e)) items)
}.

Lemma keeps_prepare q e e' : keeps q e e' -> prepare (writer e') = prepare (writer e).
Proof. intros [H _ _ _ _]. unfold config in H. congruence. Qed.

Lemma wrote_false q items e e' : quiet q e e' -> wrote q items false e e'.
Proof. intros []. split; [done..| |done]. by rewrite app_nil_r. Qed.

Lemma wrote_quiet q items ok e e1 e2 : quiet q e e1 -> wrote q items ok e1 e2 -> wrote q items ok e e2.
Proof.
  intros [H1 H2 H3 H4] [K1 K2 K3 K4 K5]. rewrite (keeps_prepare q e e1 H1) in *.
  split; [by transitivity e1|congruence|congruence|congruence|done].
Qed.

Lemma write_batch_runs q c items e (Q : bool -> env -> Prop) :
  items <> [] -> (forall ok e', wrote q items ok e e' -> Q ok e') ->
  runs (write_batch (Some c) items) e Q.
Proof using no_panic.
  intros Hne HQ. apply runs_bind, runs_self, runs_bind, runs_effect.
  pose proof (PrepareBatch_delivered c (prepare (writer e)) (world e)) as Hd.
  pose proof (PrepareBatch_fresh c (prepare (writer e)) (world e)) as Hf.
  set (r := PrepareBatch _ _ _) in *. destruct r as [[b|] s]; cbn [fst snd] in *.
  - specialize (Hf b eq_refl) as ->.
    pose proof (write_items_no_panic items (mkBlock (fresh (prepare (writer e))) 0)) as Hp.
    assert (forall b, batch_of (prepare (writer e)) items = Some b ->
      sent (prepare (writer e)) items = [b]) as Hsent.
    { intros b Hb. unfold sent. rewrite Hb. by destruct items. }
    unfold batch_of in Hsent. destruct (write_items _ _) as [b|b|] eqn:E; [| |done].
    + apply runs_effect. cbn [writer world released]. apply HQ. split; [apply keeps_world|done|done| |].
      * cbn [world]. rewrite Send_delivered, Hd, (Hsent (Batch b) eq_refl). done.
      * intros _ _. unfold batch_of. rewrite E. by eexists.
    + apply runs_ret, HQ, wrote_false. by apply quiet_world.
  - apply runs_ret, HQ, wrote_false. by apply quiet_world.
Qed.

Lemma sleep_runs q d e (Q : unit -> env -> Prop) :
  (forall e', quiet q e e' -> Q tt e') -> runs (sleep d) e Q.
Proof. intros HQ. apply runs_effect, HQ, quiet_world, Sleep_delivered. Qed.

Lemma writeItems_runs q items e (Q : bool -> env -> Prop) :
  ready q e -> (forall ok e', wrote (Z.to_nat q) items ok e e' -> Q ok e') ->
  runs (writeItems q items) e Q.
Proof using no_panic.
  intros Hr HQ. unfold writeItems. destruct items as [|i items].
  { apply runs_ret, HQ. split; [done..| |done]. cbn. by rewrite app_nil_r. }
  rewrite zlen_cons. pose proof (zlen_nonneg items).
  destruct (Z.eqb_spec (1 + zlen items) 0) as [|_]; [lia|].
  destruct (ready_conn q e Hr) as ([c|] & Hc); (apply runs_bind, (runs_get_conn q _ _ _ Hc)).
  { by apply (write_batch_runs (Z.to_nat q)). }
  apply runs_bind, ResetConnection_runs; [done|]. intros [] e1 H1 Hc1; cbn [negb].
  - destruct (Hc1 eq_refl) as (c & Hc'). apply runs_bind, (runs_get_conn q _ _ _ Hc').
    apply (write_batch_runs (Z.to_nat q)); [done|]. intros ok e2 H2.
    apply HQ. by apply (wrote_quiet _ _ _ _ e1).
  - apply runs_bind, (sleep_runs (Z.to_nat q)). intros e2 H2. apply runs_ret, HQ, wrote_false.
    by transitivity e1.
Qed.

(** ** Write *)

Definition counted (ok : bool) (n : Z) (c : Counter) : Counter :=
  if ok then mkCounter (i64 (WriteSuccessCount c + n)) (WriteFailedCount c)
  else mkCounter (WriteSuccessCount c) (i64 (WriteFailedCount c + n)).

(** A batch has been written or given up: it is counted and released. *)
Record finished (q : nat) items (ok : bool) e e' : Prop := {
  fin_keeps : keeps q e e';
  fin_counters : counters (writer e') !! q = counted ok (zlen items) <$> counters (writer e) !! q;
  fin_released : released e' = released e ++ items;
  fin_delivered : delivered (world e') =
    delivered (world e) ++ (if ok then sent (prepare (writer e)) items else []);
  fin_batch : ok = true -> items <> [] -> is_Some (batch_of (prepare (writer e)) items)
}.

Lemma release_runs items e (Q : unit -> env -> Prop) :
  Q tt (mkEnv (writer e) (world e) (released e ++ items)) -> runs (for_each Release items) e Q.
Proof.
  intros HQ. eapply runs_mono.
  - apply (runs_for_each Release (fun seen e' => e' = mkEnv (writer e) (world e) (released e ++ seen)))
      with (seen := []).
    + intros seen x e' ->. apply runs_modify. cbn. by rewrite <- app_assoc.
    + rewrite app_nil_r. by destruct e.
  - by intros [] e' ->.
Qed.

(** Counting and releasing the items of a write that has ended. *)
Lemma count_runs q items ok e e1 (Q : unit -> env -> Prop) :
  ready q e -> wrote (Z.to_nat q) items ok e e1 ->
  (forall e', finished (Z.to_nat q) items ok e e' -> conns (writer e') = conns (writer e1) -> Q tt e') ->
  runs (if ok then count_success q (zlen items) else count_failed q (zlen items)) e1
    (fun _ e2 => runs (for_each Release items) e2 Q).
Proof.
  intros Hr [H1 H2 H3 H4 H5] HQ. pose proof (ready_keeps q _ e e1 Hr H1) as Hr1.
  destruct (ready_counter q e1 Hr1) as (c & Hc).
  apply (runs_mono _ _ (fun _ e' => e' = mkEnv (set_counters (writer e1)
    (<[Z.to_nat q := counted ok (zlen items) c]> (counters (writer e1)))) (world e1) (released e1))).
  - destruct ok; (apply runs_bind, (runs_get_counter q _ _ _ Hc); by apply runs_modify).
  - intros [] e2 ->. apply release_runs. cbn [writer world released]. apply HQ; [|done]. split; [| |by rewrite <- H3|done..].
    + etransitivity; [exact H1|]. apply keeps_put_counter.
    + cbn [writer counters set_counters]. rewrite <- H2, Hc. apply list_lookup_insert_eq, Hr1.
Qed.

Lemma Write_runs q items e (Q : unit -> env -> Prop) :
  ready q e -> (forall ok e', finished (Z.to_nat q) items ok e e' -> Q tt e') ->
  runs (Write q items) e Q.
Proof using no_panic.
  intros Hr HQ. apply runs_bind, writeItems_runs; [done|]. intros ok e1 H1.
  assert (ready q e1) as Hr1 by (exact (ready_keeps q _ e e1 Hr (wrote_keeps _ _ _ _ _ H1))).
  destruct ok; cbn [negb].
  { apply runs_bind, (count_runs q items true e); [done..|]. eauto. }
  assert (quiet (Z.to_nat q) e e1) as Hq1.
  { destruct H1 as [? ? ? Hd _]. rewrite app_nil_r in Hd. by split. }
  assert (runs (Write_retry q items) e1 (fun ok e2 => wrote (Z.to_nat q) items ok e e2)) as Hretry.
  { destruct (ready_counter q e1 Hr1) as (c & Hc). apply runs_bind, (runs_get_counter q _ _ _ Hc).
    destruct (WriteFailedCount c =? 0); [|by apply runs_ret, wrote_false].
    apply runs_bind, ResetConnection_runs; [done|]. intros ok e2 H2 _.
    apply runs_bind. apply (runs_mono _ _ (fun _ e3 => quiet (Z.to_nat q) e2 e3)).
    { destruct ok; cbn [negb]; [by apply runs_ret|]. by apply (sleep_runs (Z.to_nat q)). }
    intros [] e3 H3. assert (quiet (Z.to_nat q) e e3) as Hq3 by (transitivity e1; [done|by transitivity e2]).
    apply writeItems_runs; [exact (ready_keeps q _ e e3 Hr (quiet_keeps _ _ _ Hq3))|].
    intros ok' e4 H4. by apply (wrote_quiet _ _ _ _ e3). }
  apply runs_bind, runs_bind. eapply runs_mono; [exact Hretry|]. intros ok e2 H2.
  pose proof (count_runs q items ok e e2 Q Hr H2 (fun e' H _ => HQ ok e' H)) as Hcount.
  by destruct ok.
Qed.

(** * A sequence of batches *)

(** The batches a thread has ended with, and whether each was written. *)
Implicit Types (groups : list (list I * bool)).

Definition batch_items groups : list I := concat groups.*1.

Definition outcome_items (ok : bool) groups : list I :=
  concat ((fun g => if Bool.eqb g.2 ok then g.1 else []) <$> groups).

Definition batches (sql : string) groups : list B :=
  concat ((fun g => if (g.2 : bool) then sent sql g.1 else []) <$> groups).

Definition group_ok (size : Z) (sql : string) (g : list I * bool) : Prop :=
  zlen g.1 <= size /\ (g.2 = true -> g.1 <> [] -> is_Some (batch_of sql g.1)).

Definition tally groups (c : Counter) : Counter :=
  foldl (fun c g => counted g.2 (zlen g.1) c) c groups.

Record processed (q : nat) groups e e' : Prop := {
  pr_config : config (writer e') = config (writer e);
  pr_counters : counters (writer e') !! q = tally groups <$> counters (writer e) !! q;
  pr_released : released e' = released e ++ batch_items groups;
  pr_delivered : delivered (world e') = delivered (world e) ++ batches (prepare (writer e)) groups;
  pr_groups : Forall (group_ok (batchSize (writer e)) (prepare (writer e))) groups
}.

Lemma config_prepare (w w' : CKWriter Conn I) : config w' = config w -> prepare w' = prepare w.
Proof. unfold config. congruence. Qed.

Lemma config_batchSize (w w' : CKWriter Conn I) : config w' = config w -> batchSize w' = batchSize w.
Proof. unfold config. congruence. Qed.

Lemma processed_nil q e e' : quiet q e e' -> processed q [] e e'.
Proof.
  intros [[H1 _ _ _ _] H2 H3 H4]. split; [done| |by rewrite app_nil_r|by rewrite app_nil_r|constructor].
  rewrite H2. by destruct (_ !! q).
Qed.

Lemma processed_app q g1 g2 e e1 e2 :
  processed q g1 e e1 -> processed q g2 e1 e2 -> processed q (g1 ++ g2) e e2.
Proof.
  intros [H1 H2 H3 H4 H5] [K1 K2 K3 K4 K5].
  rewrite (config_prepare _ _ H1), (config_batchSize _ _ H1) in *.
  split; [congruence| | | |by apply Forall_app].
  - rewrite K2, H2, <- option_fmap_compose. apply option_fmap_ext. intros c. unfold tally. cbn.
    by rewrite foldl_app.
  - rewrite K3, H3, <- app_assoc. unfold batch_items. by rewrite fmap_app, concat_app.
  - rewrite K4, H4, <- app_assoc. unfold batches. by rewrite fmap_app, concat_app.
Qed.

Lemma processed_finished q items ok e e' :
  zlen items <= batchSize (writer e) -> finished q items ok e e' -> processed q [(items, ok)] e e'.
Proof.
  intros Hz [[H1 _ _ _ _] H2 H3 H4 H5]. split; [done|exact H2| | |].
  - rewrite H3. unfold batch_items. cbn. by rewrite app_nil_r.
  - rewrite H4. unfold batches. cbn. by rewrite app_nil_r.
  - repeat constructor; done.
Qed.

(** ** The thread *)

(** A step of the thread from the cache [l] with the items [its] to the cache [l']. *)
Definition step_ok (q : Z) (its : list (option I)) (l l' : loop) e e' : Prop :=
  keeps (Z.to_nat q) e e' /\ zlen (caches l') < batchSize (writer e) /\
  exists groups, processed (Z.to_nat q) groups e e' /\
    batch_items groups ++ caches l' = caches l ++ omap id its.

Lemma step_cached q its l l' e e' :
  quiet (Z.to_nat q) e e' -> zlen (caches l') < batchSize (writer e) ->
  caches l' = caches l ++ omap id its -> step_ok q its l l' e e'.
Proof. intros H1 Hz H2. split_and!; [apply H1|done|]. exists []. split; [by apply processed_nil|done]. Qed.

Lemma flush_runs q items its l e e1 :
  ready q e1 -> quiet (Z.to_nat q) e e1 -> 0 < batchSize (writer e) ->
  zlen items <= batchSize (writer e) -> items = caches l ++ omap id its ->
  runs (flush q items) e1 (fun l' => step_ok q its l l' e).
Proof using no_panic.
  intros Hr H1 Hb Hz ->. apply runs_bind, Write_runs; [done|]. intros ok e2 H2.
  apply runs_bind, runs_effect, runs_ret. cbn [writer world released].
  rewrite <- (config_batchSize _ _ (keeps_config _ _ _ (quiet_keeps _ _ _ H1))) in Hz.
  pose proof (processed_finished _ _ _ _ _ Hz H2) as H2'.
  pose proof (processed_app _ [] _ _ _ _ (processed_nil _ _ _ H1) H2') as H12. cbn [app] in H12.
  set (e3 := mkEnv _ _ _). assert (quiet (Z.to_nat q) e2 e3) as H3 by apply quiet_world, Now_delivered.
  pose proof (processed_app _ _ [] _ _ e3 H12 (processed_nil _ _ _ H3)) as H13.
  split_and!; [|done|].
  - transitivity e1; [apply H1|]. transitivity e2; [apply H2|apply H3].
  - eexists. split; [exact H13|]. unfold batch_items. cbn. by rewrite !app_nil_r.
Qed.

Lemma queueProcess_item_runs q item l e :
  ready q e -> zlen (caches l) < batchSize (writer e) ->
  runs (queueProcess_item q item l) e (fun l' => step_ok q [item] l l' e).
Proof using no_panic.
  intros Hr Hz. pose proof (zlen_nonneg (caches l)). apply runs_bind, runs_self. destruct item as [ck|].
  - assert (zlen (caches l ++ [ck]) = zlen (caches l) + 1) as Hlen by (rewrite zlen_app; done).
    cbv zeta. zcase.
    + apply flush_runs; [done|done|lia|lia|done].
    + by apply runs_ret, step_cached.
  - apply runs_bind, runs_effect. cbn [writer world released].
    set (e1 := mkEnv _ _ _). assert (quiet (Z.to_nat q) e e1) as H1 by apply quiet_world, Now_delivered.
    zcase.
    + apply flush_runs; [done|done|lia|lia|]. cbn. by rewrite app_nil_r.
    + apply runs_ret, step_cached; [done..|]. cbn. by rewrite app_nil_r.
Qed.

Lemma queueProcess_items_runs q its l e :
  ready q e -> zlen (caches l) < batchSize (writer e) ->
  runs (queueProcess_items q its l) e (fun l' => step_ok q its l l' e).
Proof using no_panic.
  revert l e. induction its as [|item its IH]; intros l e Hr Hz; cbn [queueProcess_items].
  - apply runs_ret, step_cached; [done..|]. cbn. by rewrite app_nil_r.
  - apply runs_bind. eapply runs_mono; [by apply queueProcess_item_runs|].
    intros l1 e1 (K1 & Hz1 & g1 & H1 & E1). pose proof (config_batchSize _ _ (keeps_config _ _ _ K1)) as Hb.
    eapply runs_mono; [apply IH; [exact (ready_keeps _ _ _ _ Hr K1)|by rewrite Hb]|].
    intros l2 e2 (K2 & Hz2 & g2 & H2 & E2). rewrite Hb in Hz2.
    split_and!; [by transitivity e1|done|]. exists (g1 ++ g2). split; [by apply (processed_app _ _ _ _ e1)|].
    unfold batch_items in *. rewrite fmap_app, concat_app, <- app_assoc, E2, app_assoc, E1, <- app_assoc.
    f_equal. by destruct item.
Qed.

(** The queue of the thread holds these items. *)
Definition queued (q : Z) e (C : list (option I)) : Prop :=
  exists i queue, entry (entries (dataQueues (writer e))) (u8 q) = Some i /\
    queues (dataQueues (writer e)) !! Z.to_nat i = Some queue /\ rep queue C.

Lemma Multi_Gets_queued q e C :
  queued q e C ->
  match C with
  | [] => Multi_Gets (dataQueues (writer e)) (u8 q) GET_SIZE = Some (None, dataQueues (writer e))
  | _ => exists mq, Multi_Gets (dataQueues (writer e)) (u8 q) GET_SIZE = Some (Some (take 1024 C), mq) /\
      forall e', dataQueues (writer e') = mq -> queued q e' (drop 1024 C)
  end.
Proof.
  intros (i & queue & Hi & Hq & Hrep). unfold Multi_Gets. rewrite Hi. cbn [mbind option_bind]. rewrite Hq.
  cbn [mbind option_bind]. unfold Gets. rewrite (rep_pending _ _ _ Hrep).
  change (GET_SIZE >? MAX_BATCH_GET_SIZE) with false. cbv iota.
  destruct C as [|x C]; [done|]. set (C' := x :: C) in *.
  assert (0 < zlen C') by (unfold C'; rewrite zlen_cons; pose proof (zlen_nonneg C); lia).
  destruct (Z.eqb_spec (zlen C') 0) as [|_]; [lia|].
  destruct (gets_rep queue [] C' GET_SIZE Hrep ltac:(done)) as (queue' & Hg & Hrep' & _). rewrite Hg.
  assert (forall l : list (option I), take (Z.to_nat (Z.min GET_SIZE (zlen l))) l = take 1024 l /\
    drop (Z.to_nat (Z.min GET_SIZE (zlen l))) l = drop 1024 l) as Hmin.
  { intros l. unfold GET_SIZE, zlen. destruct (decide (length l <= 1024)%nat).
    - rewrite !take_ge, !drop_ge by lia. done.
    - by replace (Z.to_nat (Z.min 1024 (Z.of_nat (length l)))) with 1024%nat by lia. }
  destruct (Hmin C') as [-> Hd]. rewrite Hd in Hrep'. eexists. split; [done|].
  intros e' He'. exists i, queue'. rewrite He'. split_and!; [done| |done].
  apply list_lookup_insert_eq. by eapply lookup_lt_Some.
Qed.

(** The thread with a queue that nothing else uses: what it took from the queue is
    in its batches and in its cache. *)
Definition thread_ok (q : Z) (C : list (option I)) (rounds : nat) (l l' : loop) e e' : Prop :=
  zlen (caches l') < batchSize (writer e) /\
  exists groups, processed (Z.to_nat q) groups e e' /\
  exists C', queued q e' C' /\ (zlen C <= GET_SIZE * Z.of_nat rounds -> C' = []) /\
    batch_items groups ++ caches l' ++ omap id C' = caches l ++ omap id C.

Lemma omap_take_drop n (C : list (option I)) :
  omap id (take n C) ++ omap id (drop n C) = omap id C.
Proof. by rewrite <- omap_app, take_drop. Qed.

Lemma thread_idle q C rounds l e :
  zlen (caches l) < batchSize (writer e) -> queued q e C ->
  (zlen C <= GET_SIZE * Z.of_nat rounds -> C = []) -> thread_ok q C rounds l l e e.
Proof.
  intros Hz Hq HC. split; [done|]. exists []. split; [by apply processed_nil|]. by exists C.
Qed.

Lemma queueProcess_runs q rounds C l e :
  ready q e -> zlen (caches l) < batchSize (writer e) -> exit (writer e) = false -> queued q e C ->
  runs (queueProcess rounds q l) e (fun l' => thread_ok q C rounds l l' e).
Proof using no_panic.
  revert C l e. induction rounds as [|rounds IH]; intros C l e Hr Hz Hx Hq; cbn [queueProcess].
  { apply runs_ret, thread_idle; [done..|]. intros H. apply nil_length_inv. unfold zlen in H. lia. }
  apply runs_bind, runs_self. rewrite Hx. pose proof (Multi_Gets_queued q e C Hq) as Hg.
  apply runs_bind, runs_bind, runs_self, runs_bind.
  destruct C as [|x C].
  { apply (runs_of_option _ _ _ _ Hg), runs_ret, runs_ret, thread_idle; done. }
  set (C1 := x :: C) in *. destruct Hg as (mq & Hg & Hq1). apply (runs_of_option _ _ _ _ Hg).
  apply runs_bind, runs_modify, runs_bind. set (e1 := mkEnv _ _ _).
  assert (processed (Z.to_nat q) [] e e1) as H1.
  { split; [done| |by rewrite app_nil_r|by rewrite app_nil_r|constructor]. by destruct (counters _ !! _). }
  eapply runs_mono; [by apply (queueProcess_items_runs q (take 1024 C1) l e1)|].
  intros l2 e2 (K2 & Hz2 & g2 & H2 & E2). apply runs_ret.
  assert (exit (writer e2) = false) as Hx2.
  { pose proof (keeps_config _ _ _ K2) as K. unfold config in K. cbn in K. congruence. }
  assert (batchSize (writer e2) = batchSize (writer e)) as Hb by apply (config_batchSize _ _ (keeps_config _ _ _ K2)).
  eapply runs_mono.
  { apply (IH (drop 1024 C1) l2 e2); [exact (ready_keeps q _ e1 e2 Hr K2)|by rewrite Hb|done|].
    apply Hq1. by rewrite (keeps_queues _ _ _ K2). }
  intros l3 e3 (Hz3 & g3 & H3 & C' & Hq3 & Hdone & E3). rewrite Hb in Hz3. split; [done|].
  exists (g2 ++ g3). split.
  { pose proof (processed_app _ [] _ _ _ _ H1 H2) as H12. by apply (processed_app _ _ _ _ e2). }
  exists C'. split_and!; [done| |].
  - intros HC. apply Hdone. unfold zlen in *. rewrite length_drop. unfold GET_SIZE in *. lia.
  - rewrite <- (omap_take_drop 1024 C1). unfold batch_items in *.
    rewrite fmap_app, concat_app, <- app_assoc, E3, !app_assoc, E2. done.
Qed.

(** ** A lost connection *)

(** The thread has no connection, and the account it would open one with is empty. *)
Definition dead (q : Z) (addr : string) e : Prop :=
  ready q e /\ conns (writer e) !! Z.to_nat q = Some None /\
  primaryAddr (writer e) = addr /\ user (writer e) = "" /\ password (writer e) = "".

Section Dead.
Context (addr : string) (refused : forall s : World, (Open addr "" "" s).1 = @None Conn).

Lemma reset_refused q e :
  ready q e -> primaryAddr (writer e) = addr -> user (writer e) = "" -> password (writer e) = "" ->
  runs (ResetConnection q) e (fun ok e' => ok = false /\ dead q addr e' /\ quiet (Z.to_nat q) e e').
Proof using refused.
  intros Hr Ha Hu Hp. destruct (ready_conn q e Hr) as (c & Hc).
  apply runs_bind, (runs_get_conn q c); [done|]. apply runs_bind.
  apply (runs_mono _ _ (fun _ e1 => quiet (Z.to_nat q) e e1)).
  - destruct c as [c|]; [|by apply runs_ret].
    apply runs_bind, runs_effect, runs_modify. cbn [writer world released fst snd].
    apply quiet_put_conn, Close_delivered.
  - intros [] e1 H1. pose proof (keeps_config _ _ _ (quiet_keeps _ _ _ H1)) as Hcfg. unfold config in Hcfg.
    assert (primaryAddr (writer e1) = addr /\ user (writer e1) = "" /\ password (writer e1) = "")
      as (Ha1 & Hu1 & Hp1) by (split_and!; congruence).
    pose proof (ready_keeps q _ e e1 Hr (quiet_keeps _ _ _ H1)) as Hr1.
    apply runs_bind, runs_self, runs_bind, runs_effect, runs_bind, runs_modify, runs_ret.
    cbn [writer world released]. rewrite Ha1, Hu1, Hp1, refused. split; [by apply bool_decide_eq_false; intros []|].
    split; [|transitivity e1; [done|]; apply quiet_put_conn, Open_delivered].
    split; [|split_and!; [|done..]].
    + apply (ready_keeps q (Z.to_nat q) e1); [done|]. apply keeps_put_conn.
    + apply list_lookup_insert_eq, Hr1.
Qed.

Lemma dead_sleep q d e :
  dead q addr e -> runs (sleep d) e (fun _ e' => dead q addr e' /\ quiet (Z.to_nat q) e e').
Proof. intros H. apply runs_effect. split; [exact H|]. apply quiet_world, Sleep_delivered. Qed.

Lemma dead_writeItems q items e :
  dead q addr e -> items <> [] ->
  runs (writeItems q items) e (fun ok e' => ok = false /\ dead q addr e' /\ quiet (Z.to_nat q) e e').
Proof using refused.
  intros (Hr & Hc & Ha & Hu & Hp) Hne. unfold writeItems.
  destruct items as [|i items]; [done|]. rewrite zlen_cons. pose proof (zlen_nonneg items).
  destruct (Z.eqb_spec (1 + zlen items) 0) as [|_]; [lia|].
  apply runs_bind, (runs_get_conn q _ _ _ Hc), runs_bind. eapply runs_mono; [by apply reset_refused|].
  intros ok e1 (-> & Hd1 & H1). apply runs_bind. eapply runs_mono; [by apply dead_sleep|].
  intros [] e2 (Hd2 & H2). apply runs_ret. split_and!; [done|done|by transitivity e1].
Qed.

Lemma dead_retry q items e :
  dead q addr e -> items <> [] ->
  runs (Write_retry q items) e (fun ok e' => ok = false /\ dead q addr e' /\ quiet (Z.to_nat q) e e').
Proof using refused.
  intros Hd Hne. pose proof Hd as (Hr & Hc & Ha & Hu & Hp). destruct (ready_counter q e Hr) as (c & Hcnt).
  apply runs_bind, (runs_get_counter q _ _ _ Hcnt). destruct (WriteFailedCount c =? 0); [|by apply runs_ret].
  apply runs_bind. eapply runs_mono; [by apply reset_refused|]. intros ok e1 (-> & Hd1 & H1).
  apply runs_bind. eapply runs_mono; [by apply dead_sleep|]. intros [] e2 (Hd2 & H2).
  eapply runs_mono; [by apply dead_writeItems|]. intros ok e3 (-> & Hd3 & H3).
  split_and!; [done|done|]. transitivity e1; [done|]. by transitivity e2.
Qed.

Lemma dead_Write q items e :
  dead q addr e -> items <> [] ->
  runs (Write q items) e (fun _ e' => dead q addr e' /\ finished (Z.to_nat q) items false e e').
Proof using refused.
  intros Hd Hne. apply runs_bind. eapply runs_mono; [by apply dead_writeItems|].
  intros ok e1 (-> & Hd1 & H1). cbn [negb]. apply runs_bind, runs_bind.
  eapply runs_mono; [by apply dead_retry|]. intros ok e2 (-> & Hd2 & H2). cbn [negb].
  assert (wrote (Z.to_nat q) items false e e2) as Hw by (apply wrote_false; by transitivity e1).
  assert (ready q e) as Hr by apply Hd.
  apply (count_runs q items false e e2); [done..|]. intros e3 H3 Hc3. split; [|done].
  destruct Hd2 as (_ & Hc2 & _). rewrite <- Hc3 in Hc2. destruct Hd as (_ & _ & Ha & Hu & Hp).
  pose proof (keeps_config _ _ _ (fin_keeps _ _ _ _ _ H3)) as Hcfg. unfold config in Hcfg.
  split; [exact (ready_keeps q _ e e3 Hr (fin_keeps _ _ _ _ _ H3))|]. split_and!; congruence.
Qed.
End Dead.

(** ** Counters *)

Definition counter_ok (c : Counter) : Prop := is_i 64 (WriteSuccessCount c) /\ is_i 64 (WriteFailedCount c).

Lemma tally_eq groups c :
  counter_ok c ->
  tally groups c = mkCounter (i64 (WriteSuccessCount c + zlen (outcome_items true groups)))
                             (i64 (WriteFailedCount c + zlen (outcome_items false groups))).
Proof.
  revert c. induction groups as [|[g ok] groups IH]; intros c Hc.
  - destruct Hc. destruct c. cbn in *. rewrite zlen_nil, !Z.add_0_r, !swrap_small by done. done.
  - assert (counter_ok (counted ok (zlen g) c)) as Hc'.
    { destruct Hc. destruct ok; split; cbn; try done; by apply swrap_range. }
    change (tally ((g, ok) :: groups) c) with (tally groups (counted ok (zlen g) c)).
    rewrite (IH _ Hc'). unfold outcome_items. cbn [fmap list_fmap concat].
    destruct ok; cbn; rewrite !zlen_app, ?zlen_nil, ?swrap_add_l; f_equal; f_equal; lia.
Qed.
End Laws.
End Facts.

(** C3: A thread with enough rounds empties its queue. Every item it took, in the
    order of the queue, is in a batch that has ended or still in the cache, which
    is shorter than a batch.  Each ended batch is released once and counted once,
    as written or as failed; the batches the database has acknowledged are those
    counted as written, in order, each holding the rows of its items and no more
    than [batchSize] of them. *)
Theorem ckwriter_thread {World Conn B I : Type} `{!Driver World Conn B} `{!CKItem I B}
    `{!DriverLaws World Conn B} (q : Z) (rounds : nat) (C : list (option I)) (l : loop)
    (e : env World Conn I) (c : Counter) :
  (forall (i : I) (b : Block B), item_WriteBlock i b <> WPanic) ->
  (Z.to_nat q < length (conns (writer e)))%nat -> counters (writer e) !! Z.to_nat q = Some c -> counter_ok c ->
  zlen (caches l) < batchSize (writer e) -> exit (writer e) = false -> queued q e C ->
  exists l' e' groups C',
    queueProcess rounds q l e = Some (l', e') /\
    queued q e' C' /\ (zlen C <= GET_SIZE * Z.of_nat rounds -> C' = []) /\
    batch_items groups ++ caches l' ++ omap id C' = caches l ++ omap id C /\
    zlen (caches l') < batchSize (writer e) /\
    released e' = released e ++ batch_items groups /\
    counters (writer e') !! Z.to_nat q =
      Some (mkCounter (i64 (WriteSuccessCount c + zlen (outcome_items true groups)))
                      (i64 (WriteFailedCount c + zlen (outcome_items false groups)))) /\
    delivered (world e') = delivered (world e) ++ batches (prepare (writer e)) groups /\
    Forall (group_ok (batchSize (writer e)) (prepare (writer e))) groups.
Proof.
  intros Hp Hconn Hcnt Hc Hz Hx Hq.
  assert (ready q e) as Hr by (split; [done|by eapply lookup_lt_Some]).
  pose proof (queueProcess_runs Hp q rounds C l e Hr Hz Hx Hq) as H. apply runs_exists in H.
  destruct H as (l' & e' & Hrun & Hz' & groups & [H1 H2 H3 H4 H5] & C' & Hq' & Hdone & E).
  exists l', e', groups, C'. rewrite H2, Hcnt. cbn. rewrite <- tally_eq by done. by split_and!.
Qed.

(** A writer that was given an account reconnects without it.  On a server that
    refuses an empty account, a thread that has to reconnect never gets a connection
    again: from then on every batch is dropped, counted as failed and released. *)
Theorem ckwriter_reconnects_without_account {World Conn B I : Type} `{!Driver World Conn B} `{!CKItem I B}
    `{!DriverLaws World Conn B} (pa sa u p cn : string) (t : Table) (replica : bool)
    (count size batch timeout : Z) (s s' : World) (w : CKWriter Conn I) (bg : bool) (q : Z)
    (e : env World Conn I) :
  NewCKWriter pa sa u p cn t replica count size batch timeout s = Some (Some (w, bg), s') ->
  (forall s : World, (Open pa "" "" s).1 = @None Conn) ->
  ready q e -> config (writer e) = config w ->
  exists e1, ResetConnection q e = Some (false, e1) /\
  forall writes : list (list I), Forall (fun items => items <> []) writes ->
  exists e2, for_each (Write q) writes e1 = Some (tt, e2) /\
    released e2 = released e ++ concat writes /\
    delivered (world e2) = delivered (world e) /\
    counters (writer e2) !! Z.to_nat q =
      (fun c => foldl (fun c items => counted false (zlen items) c) c writes) <$> counters (writer e) !! Z.to_nat q.
Proof.
  intros Hnew Href Hr Hcfg. apply NewCKWriter_new in Hnew as [Ha Hu Hp _ _ _ _ _ _].
  unfold config in Hcfg.
  pose proof (reset_refused pa Href q e Hr ltac:(congruence) ltac:(congruence) ltac:(congruence)) as H.
  apply runs_exists in H as (ok & e1 & Hrun & -> & Hd & [H1 H2 H3 H4]). exists e1. split; [done|].
  intros writes Hw. rewrite <- H3, <- H4, <- H2. clear H1 H2 H3 H4 Hrun Hr. revert e1 Hd.
  induction Hw as [|items writes Hne Hw IH]; intros e1 Hd.
  - exists e1. cbn. rewrite app_nil_r. split_and!; [done..|]. by destruct (_ !! _).
  - pose proof (dead_Write pa Href q items e1 Hd Hne) as H. apply runs_exists in H.
    destruct H as ([] & e2 & Hrun & Hd2 & [F1 F2 F3 F4 F5]).
    destruct (IH e2 Hd2) as (e3 & Hrest & R1 & R2 & R3). exists e3. cbn [for_each concat].
    unfold mbind, ST_bind. rewrite Hrun. split_and!; [done| | |].
    + by rewrite R1, F3, app_assoc.
    + by rewrite R2, F4, app_nil_r.
    + rewrite R3, F2, <- option_fmap_compose. done.
Qed.

(** The calls of [Put] on a new writer go round its queues: with at most as
    many items as a queue holds, queue [j] has, in order, exactly the items of the
    calls whose number is [j] modulo the number of queues. *)
Theorem ckwriter_round_robin {World Conn B I : Type} `{!Driver World Conn B} `{!CKItem I B}
    (pa sa u p cn : string) (t : Table) (replica : bool) (count size batch timeout : Z)
    (s s' : World) (w : CKWriter Conn I) (bg : bool) (puts : list (list I)) :
  NewCKWriter pa sa u p cn t replica count size batch timeout s = Some (Some (w, bg), s') ->
  1 <= count <= MAX_QUEUE_COUNT -> 0 <= size <= 2 ^ 31 -> zlen puts < 2 ^ 63 ->
  (forall j, zlen (routed 0 count j puts) <= size) ->
  exists w', Puts puts w = Some w' /\
    forall j, 0 <= j < count ->
      exists queue, entry (entries (dataQueues w')) j = Some j /\
        queues (dataQueues w') !! Z.to_nat j = Some queue /\
        rep queue (Some <$> routed 0 count j puts).
Proof.
  intros Hnew Hc Hs Hn Hcap. apply NewCKWriter_new in Hnew as [_ _ _ _ _ _ _ _ Hq].
  destruct (Puts_queues puts w count 0 size (fun _ => []) Hc ltac:(done) ltac:(lia) (Hq Hc Hs) Hcap)
    as (w' & Hp & [K1 K2 K3 K4]).
  exists w'. split; [done|]. intros j Hj. destruct (K4 j Hj) as (queue & Hl & Hrep & _).
  destruct (table_entry count Hc) as (table & Ht & Hkey). rewrite K3 in Ht. injection Ht as <-.
  change MAX_QUEUE_COUNT with 16 in Hc.
  destruct (Hkey j ltac:(ranges; lia)) as (i & He & _ & Hij & _). rewrite (Hij ltac:(lia)) in He. by exists queue.
Qed.

(** * A database in memory

    It answers each [Send] with the next of [answers], keeps the batches of those
    that succeed, and refuses an account without a name.  Its only table has one
    column. *)

Record memory := mkMemory { answers : list bool; stored : list ListBatch; clock : Z }.

Definition memory_Open (addr user password : string) (s : memory) : option unit * memory :=
  (if String.eqb user "" then None else Some tt, s).

Definition memory_Send (b : ListBatch) (s : memory) : bool * memory :=
  match answers s with
  | true :: rest => (true, mkMemory rest (stored s ++ [b]) (clock s))
  | false :: rest => (false, mkMemory rest (stored s) (clock s))
  | [] => (false, s)
  end.

Definition memory_tick (d : Z) (s : memory) : memory := mkMemory (answers s) (stored s) (clock s + d).

#[export] Instance memory_Driver : Driver memory unit ListBatch := {|
  Open := memory_Open;
  Exec _ _ s := (true, s);
  Close _ s := s;
  PrepareBatch _ _ s := (Some [(UInt32, [])], s);
  Append := ListAppend;
  Send := memory_Send;
  Now s := (clock s, memory_tick 1 s);
  Sleep := memory_tick
|}.

#[export] Program Instance memory_Laws : DriverLaws memory unit ListBatch := {|
  delivered := stored;
  fresh _ := [(UInt32, [])]
|}.
Next Obligation. done. Qed.
Next Obligation. done. Qed.
Next Obligation. done. Qed.
Next Obligation. by intros _ _ s b [= <-]. Qed.
Next Obligation.
  intros b s. cbn. unfold memory_Send. destruct (answers s) as [|[] r]; cbn; by rewrite ?app_nil_r.
Qed.
Next Obligation. done. Qed.
Next Obligation. done. Qed.

#[export] Instance number_CKItem : CKItem Z ListBatch := fun n => write ListAppend (CUInt32 n).

Definition test_queue : OverwriteQueue Z :=
  (Queue.Put (Init 8 true) [Some 1; Some 2; None; Some 3; Some 4; Some 5]).2.

Definition test_table : Table :=
  mkTable "v1" 0 "db" "t_local" "t" [] "" 7 TimeFuncHour DF_CLUSTER MergeTree [] 0.

Definition test_env : env memory unit Z := {|
  writer := mkCKWriter "host" "" "" "" test_table 1 8 2 10 "" "" "" [Some tt]
              (mkMulti [0] [test_queue]) [zero_Counter] 0 false;
  world := mkMemory [true; false; false] [] 0;
  released := []
|}.

Lemma test_queue_rep : rep test_queue [Some 1; Some 2; None; Some 3; Some 4; Some 5].
Proof. by apply (Put_rep (Init 8 true) [] [Some 1; Some 2; None; Some 3; Some 4; Some 5]); [apply Init_rep|]. Qed.

Lemma number_no_panic (i : Z) (b : Block ListBatch) : item_WriteBlock i b <> WPanic.
Proof. unfold item_WriteBlock, number_CKItem, write. by destruct (ListAppend _ _ _). Qed.

Example ckwriter_thread_witness :
  exists l' e' groups, queueProcess 1 0 new_loop test_env = Some (l', e') /\
    batch_items groups ++ caches l' = [1; 2; 3; 4; 5] /\
    released e' = batch_items groups /\ zlen (caches l') < 2 /\
    stored (world e') = batches "" groups.
Proof.
  destruct (ckwriter_thread 0 1 [Some 1; Some 2; None; Some 3; Some 4; Some 5] new_loop test_env zero_Counter)
    as (l' & e' & groups & C' & Hrun & _ & HC & Hitems & Hz & Hrel & _ & Hd & _).
  - exact number_no_panic.
  - cbn. lia.
  - reflexivity.
  - split; vm_compute; split; congruence.
  - reflexivity.
  - reflexivity.
  - exists 0, test_queue. split_and!; [reflexivity|reflexivity|apply test_queue_rep].
  - exists l', e', groups. rewrite (HC ltac:(vm_compute; congruence)) in Hitems.
    cbn in Hitems. rewrite app_nil_r in Hitems. split_and!; [exact Hrun|exact Hitems|exact Hrel|exact Hz|exact Hd].
Defined.

(** The two batches of that run: the first is written, the second fails twice. *)
Example ckwriter_thread_run :
  (fun r => (stored (world (r.2 : env memory unit Z)), released r.2, counters (writer r.2), caches r.1))
  <$> queueProcess 2 0 new_loop test_env
  = Some ([[(UInt32, [CUInt32 1; CUInt32 2])]], [1; 2; 3; 4], [mkCounter 2 2], [5]).
Proof. vm_compute. reflexivity. Qed.

Definition new_env (w : CKWriter unit Z) : env memory unit Z := mkEnv w (mkMemory [true] [] 0) [].

Definition new_test (count : Z) : option (option (CKWriter unit Z * bool) * memory) :=
  NewCKWriter "host" "" "account" "secret" "" test_table false count 8 2 10 (mkMemory [true] [] 0).

Example ckwriter_reconnects_without_account_witness :
  exists w s' e1 e2, new_test 1 = Some (Some (w, false), s') /\
    ResetConnection 0 (new_env w) = Some (false, e1) /\
    for_each (Write 0) [[1; 2]; [3]] e1 = Some (tt, e2) /\
    released e2 = [1; 2; 3] /\ stored (world e2) = [] /\
    counters (writer e2) !! 0%nat = Some (mkCounter 0 3).
Proof.
  destruct (new_test 1) as [[[[w bg]|] s']|] eqn:E; [|vm_compute in E; discriminate E..].
  destruct (ckwriter_reconnects_without_account "host" "" "account" "secret" "" test_table false 1 8 2 10
    (mkMemory [true] [] 0) s' w bg 0 (new_env w)) as (e1 & Hreset & Hw).
  - exact E.
  - reflexivity.
  - vm_compute in E. injection E as <- _ _. split; cbn; lia.
  - reflexivity.
  - destruct (Hw [[1; 2]; [3]]) as (e2 & H1 & H2 & H3 & H4); [repeat constructor; discriminate|].
    exists w, s', e1, e2. assert (bg = false) as -> by (vm_compute in E; congruence).
    split_and!; [reflexivity|exact Hreset|exact H1|exact H2|exact H3|].
    change 0%nat with (Z.to_nat 0). rewrite H4. vm_compute in E. injection E as <- _. vm_compute. reflexivity.
Defined.

Example ckwriter_round_robin_witness :
  exists w s' w' queue, new_test 3 = Some (Some (w, false), s') /\
    Puts [[1; 2]; [3]; [4]; [5; 6]] w = Some w' /\
    queues (dataQueues w') !! 1%nat = Some queue /\ rep queue [Some 1; Some 2; Some 5; Some 6].
Proof.
  destruct (new_test 3) as [[[[w bg]|] s']|] eqn:E; [|vm_compute in E; discriminate E..].
  destruct (ckwriter_round_robin "host" "" "account" "secret" "" test_table false 3 8 2 10
    (mkMemory [true] [] 0) s' w bg [[1; 2]; [3]; [4]; [5; 6]]) as (w' & Hp & Hq).
  - exact E.
  - vm_compute; split; congruence.
  - vm_compute; split; congruence.
  - vm_compute; congruence.
  - intros j. cbn. repeat case_match; vm_compute; congruence.
  - destruct (Hq 1 ltac:(lia)) as (queue & _ & Hl & Hr). exists w, s', w', queue.
    assert (bg = false) as -> by (vm_compute in E; congruence).
    split_and!; [reflexivity|exact Hp|exact Hl|exact Hr].
Defined.
