(* ===== verification/Expand.v ===== *)
(** The expansion of received documents ([server/ingester/roze/unmarshaller/
    handle_document.go]): the resources of both sides of a tag are looked up in the
    platform data and written into the tag, and documents of other regions are
    refused.

    The platform data is an interface, [PlatformInfoTable]: its queries change
    caches and statistics of a state [P], and may panic. *)

From S2P Require Import Prelude Strconv LineProto Ckdb Meter Tag TagMini Document.

#[local] Open Scope string_scope.
#[local] Open Scope list_scope.
#[local] Open Scope Z_scope.

(** * Platform data *)

(** [grpc.Info]; [HitCount] is a pointer to a counter that queries share. *)
Record Info := mkInfo {
  Info_EpcID : Z;
  Info_L2EpcID : Z;
  Info_Host : Z;
  Info_HostStr : string;
  Info_HostID : Z;
  Info_Mac : Z;
  Info_RegionID : Z;
  Info_DeviceType : Z;
  Info_DeviceID : Z;
  Info_SubnetID : Z;
  Info_PodNodeID : Z;
  Info_PodNSID : Z;
  Info_PodGroupID : Z;
  Info_PodID : Z;
  Info_PodClusterID : Z;
  Info_AZID : Z;
  Info_IsVip : bool;
  Info_IsWan : bool;
  Info_HitCount : option Z
}.

(** The queries of [grpc.PlatformInfoTable] that the server uses. *)
Class PlatformInfoTable (P : Type) := {
  QueryRegionID : P -> Z;
  AddOtherRegion : P -> P;
  QueryMacInfo (mac : Z) : ST P (option Info);
  QueryMacInfosPair (mac0 mac1 : Z) : ST P (option Info * option Info);
  QueryIPV4Infos (epcID ipv4 : Z) : ST P (option Info);
  QueryIPV6Infos (epcID : Z) (ipv6 : list Z) : ST P (option Info);
  QueryIPV4InfosPair (epcID0 ipv40 epcID1 ipv41 : Z) : ST P (option Info * option Info);
  QueryIPV6InfosPair (epcID0 : Z) (ipv60 : list Z) (epcID1 : Z) (ipv61 : list Z)
    : ST P (option Info * option Info);
  QueryIsKeyServiceAndID (l3EpcID ipv4 protocol serverPort : Z) : ST P (bool * Z);
  QueryIPv6IsKeyServiceAndID (l3EpcID : Z) (ipv6 : list Z) (protocol serverPort : Z) : ST P (bool * Z)
}.

Definition EPC_FROM_DEEPFLOW : Z := -1.
Definition EPC_FROM_INTERNET : Z := -2.

(** [trident.DeviceType_DEVICE_TYPE_POD_SERVICE] *)
Definition DEVICE_TYPE_POD_SERVICE : Z := 11.

(** * Resource groups ([server/ingester/common/common.go]) *)

Definition IpType : Z := 255.
Definition InternatIpType : Z := 0.
Definition PodType : Z := 10.
Definition PodNodeType : Z := 14.
Definition PodGroupType : Z := 101.
Definition ServiceType : Z := 102.

Definition GetResourceGl0 (podID podNodeID l3DeviceID l3DeviceType l3EpcID : Z) : Z * Z :=
  if 0 <? podID then (podID, PodType)
  else if 0 <? podNodeID then (podNodeID, PodNodeType)
  else if 0 <? l3DeviceID then (l3DeviceID, l3DeviceType)
  else if l3EpcID =? EPC_FROM_INTERNET then (0, InternatIpType)
  else (0, IpType).

Definition GetResourceGl1 (podGroupID podNodeID l3DeviceID l3DeviceType l3EpcID : Z) : Z * Z :=
  if 0 <? podGroupID then (podGroupID, PodGroupType)
  else if 0 <? podNodeID then (podNodeID, PodNodeType)
  else if 0 <? l3DeviceID then (l3DeviceID, l3DeviceType)
  else if l3EpcID =? EPC_FROM_INTERNET then (0, InternatIpType)
  else (0, IpType).

Definition GetResourceGl2 (serviceID podGroupID podNodeID l3DeviceID l3DeviceType l3EpcID : Z) : Z * Z :=
  if 0 <? serviceID then (serviceID, ServiceType)
  else GetResourceGl1 podGroupID podNodeID l3DeviceID l3DeviceType l3EpcID.

(** * Addresses of the standard library *)

(** [net.IP.To4]: an IPv4 address in four bytes, also one that is mapped into
    IPv6. *)
Definition To4 (ip : list Z) : option (list Z) :=
  if zlen ip =? IPv4len then Some ip
  else if (zlen ip =? IPv6len) && forallb (fun x => x =? 0) (take 10 ip)
          && (byte_at ip 10 =? 255) && (byte_at ip 11 =? 255)
  then Some (drop 12 ip)
  else None.

Definition IsMulticast (ip : list Z) : bool :=
  match To4 ip with
  | Some ip4 => Z.land (byte_at ip4 0) 0xf0 =? 0xe0
  | None => (zlen ip =? IPv6len) && (byte_at ip 0 =? 0xff)
  end.

(** * Fields that are filled in *)

(** The resource of one side, from platform data. *)
Definition set_info (f : Field) (info : Info) : Field :=
  mkField (Field_GlobalThreadID f) (Field_IP6 f) (Field_MAC f) (Field_IP f) (Field_L3EpcID f)
    (Info_DeviceID info) (u8 (Info_DeviceType info)) (u16 (Info_RegionID info)) (u16 (Info_SubnetID info))
    (u16 (Info_HostID info)) (Info_PodNodeID info) (u16 (Info_AZID info)) (Info_PodGroupID info) (u16 (Info_PodNSID info))
    (Info_PodID info) (u16 (Info_PodClusterID info)) (Field_ServiceID f) (Field_ResourceGl0ID f)
    (Field_ResourceGl0Type f) (Field_ResourceGl1ID f) (Field_ResourceGl1Type f)
    (Field_ResourceGl2ID f) (Field_ResourceGl2Type f) (Field_MAC1 f) (Field_IP61 f) (Field_IP1 f)
    (Field_L3EpcID1 f) (Field_L3DeviceID1 f) (Field_L3DeviceType1 f) (Field_RegionID1 f)
    (Field_SubnetID1 f) (Field_HostID1 f) (Field_PodNodeID1 f) (Field_AZID1 f)
    (Field_PodGroupID1 f) (Field_PodNSID1 f) (Field_PodID1 f) (Field_PodClusterID1 f)
    (Field_ServiceID1 f) (Field_ResourceGl0ID1 f) (Field_ResourceGl0Type1 f)
    (Field_ResourceGl1ID1 f) (Field_ResourceGl1Type1 f) (Field_ResourceGl2ID1 f)
    (Field_ResourceGl2Type1 f) (Field_ACLGID f) (Field_Direction f) (Field_Protocol f)
    (Field_ServerPort f) (Field_VTAPID f) (Field_TAPPort f) (Field_TAPSide f) (Field_TAPType f)
    (Field_IsIPv6 f) (Field_IsKeyService f) (Field_L7Protocol f) (Field_TagType f)
    (Field_TagValue f).

Definition set_info1 (f : Field) (info : Info) : Field :=
  mkField (Field_GlobalThreadID f) (Field_IP6 f) (Field_MAC f) (Field_IP f) (Field_L3EpcID f)
    (Field_L3DeviceID f) (Field_L3DeviceType f) (Field_RegionID f) (Field_SubnetID f)
    (Field_HostID f) (Field_PodNodeID f) (Field_AZID f) (Field_PodGroupID f) (Field_PodNSID f)
    (Field_PodID f) (Field_PodClusterID f) (Field_ServiceID f) (Field_ResourceGl0ID f)
    (Field_ResourceGl0Type f) (Field_ResourceGl1ID f) (Field_ResourceGl1Type f)
    (Field_ResourceGl2ID f) (Field_ResourceGl2Type f) (Field_MAC1 f) (Field_IP61 f) (Field_IP1 f)
    (Field_L3EpcID1 f) (Info_DeviceID info) (u8 (Info_DeviceType info)) (u16 (Info_RegionID info))
    (u16 (Info_SubnetID info)) (u16 (Info_HostID info)) (Info_PodNodeID info) (u16 (Info_AZID info)) (Info_PodGroupID info)
    (u16 (Info_PodNSID info)) (Info_PodID info) (u16 (Info_PodClusterID info)) (Field_ServiceID1 f)
    (Field_ResourceGl0ID1 f) (Field_ResourceGl0Type1 f) (Field_ResourceGl1ID1 f)
    (Field_ResourceGl1Type1 f) (Field_ResourceGl2ID1 f) (Field_ResourceGl2Type1 f)
    (Field_ACLGID f) (Field_Direction f) (Field_Protocol f) (Field_ServerPort f) (Field_VTAPID f)
    (Field_TAPPort f) (Field_TAPSide f) (Field_TAPType f) (Field_IsIPv6 f) (Field_IsKeyService f)
    (Field_L7Protocol f) (Field_TagType f) (Field_TagValue f).

Definition set_area (f : Field) (region subnet az : Z) : Field :=
  mkField (Field_GlobalThreadID f) (Field_IP6 f) (Field_MAC f) (Field_IP f) (Field_L3EpcID f)
    (Field_L3DeviceID f) (Field_L3DeviceType f) region subnet (Field_HostID f) (Field_PodNodeID f)
    az (Field_PodGroupID f) (Field_PodNSID f) (Field_PodID f) (Field_PodClusterID f)
    (Field_ServiceID f) (Field_ResourceGl0ID f) (Field_ResourceGl0Type f) (Field_ResourceGl1ID f)
    (Field_ResourceGl1Type f) (Field_ResourceGl2ID f) (Field_ResourceGl2Type f) (Field_MAC1 f)
    (Field_IP61 f) (Field_IP1 f) (Field_L3EpcID1 f) (Field_L3DeviceID1 f) (Field_L3DeviceType1 f)
    (Field_RegionID1 f) (Field_SubnetID1 f) (Field_HostID1 f) (Field_PodNodeID1 f) (Field_AZID1 f)
    (Field_PodGroupID1 f) (Field_PodNSID1 f) (Field_PodID1 f) (Field_PodClusterID1 f)
    (Field_ServiceID1 f) (Field_ResourceGl0ID1 f) (Field_ResourceGl0Type1 f)
    (Field_ResourceGl1ID1 f) (Field_ResourceGl1Type1 f) (Field_ResourceGl2ID1 f)
    (Field_ResourceGl2Type1 f) (Field_ACLGID f) (Field_Direction f) (Field_Protocol f)
    (Field_ServerPort f) (Field_VTAPID f) (Field_TAPPort f) (Field_TAPSide f) (Field_TAPType f)
    (Field_IsIPv6 f) (Field_IsKeyService f) (Field_L7Protocol f) (Field_TagType f)
    (Field_TagValue f).

Definition set_area1 (f : Field) (region subnet az : Z) : Field :=
  mkField (Field_GlobalThreadID f) (Field_IP6 f) (Field_MAC f) (Field_IP f) (Field_L3EpcID f)
    (Field_L3DeviceID f) (Field_L3DeviceType f) (Field_RegionID f) (Field_SubnetID f)
    (Field_HostID f) (Field_PodNodeID f) (Field_AZID f) (Field_PodGroupID f) (Field_PodNSID f)
    (Field_PodID f) (Field_PodClusterID f) (Field_ServiceID f) (Field_ResourceGl0ID f)
    (Field_ResourceGl0Type f) (Field_ResourceGl1ID f) (Field_ResourceGl1Type f)
    (Field_ResourceGl2ID f) (Field_ResourceGl2Type f) (Field_MAC1 f) (Field_IP61 f) (Field_IP1 f)
    (Field_L3EpcID1 f) (Field_L3DeviceID1 f) (Field_L3DeviceType1 f) region subnet
    (Field_HostID1 f) (Field_PodNodeID1 f) az (Field_PodGroupID1 f) (Field_PodNSID1 f)
    (Field_PodID1 f) (Field_PodClusterID1 f) (Field_ServiceID1 f) (Field_ResourceGl0ID1 f)
    (Field_ResourceGl0Type1 f) (Field_ResourceGl1ID1 f) (Field_ResourceGl1Type1 f)
    (Field_ResourceGl2ID1 f) (Field_ResourceGl2Type1 f) (Field_ACLGID f) (Field_Direction f)
    (Field_Protocol f) (Field_ServerPort f) (Field_VTAPID f) (Field_TAPPort f) (Field_TAPSide f)
    (Field_TAPType f) (Field_IsIPv6 f) (Field_IsKeyService f) (Field_L7Protocol f)
    (Field_TagType f) (Field_TagValue f).

Definition set_ServiceID (f : Field) (v : Z) : Field :=
  mkField (Field_GlobalThreadID f) (Field_IP6 f) (Field_MAC f) (Field_IP f) (Field_L3EpcID f)
    (Field_L3DeviceID f) (Field_L3DeviceType f) (Field_RegionID f) (Field_SubnetID f)
    (Field_HostID f) (Field_PodNodeID f) (Field_AZID f) (Field_PodGroupID f) (Field_PodNSID f)
    (Field_PodID f) (Field_PodClusterID f) v (Field_ResourceGl0ID f) (Field_ResourceGl0Type f)
    (Field_ResourceGl1ID f) (Field_ResourceGl1Type f) (Field_ResourceGl2ID f)
    (Field_ResourceGl2Type f) (Field_MAC1 f) (Field_IP61 f) (Field_IP1 f) (Field_L3EpcID1 f)
    (Field_L3DeviceID1 f) (Field_L3DeviceType1 f) (Field_RegionID1 f) (Field_SubnetID1 f)
    (Field_HostID1 f) (Field_PodNodeID1 f) (Field_AZID1 f) (Field_PodGroupID1 f)
    (Field_PodNSID1 f) (Field_PodID1 f) (Field_PodClusterID1 f) (Field_ServiceID1 f)
    (Field_ResourceGl0ID1 f) (Field_ResourceGl0Type1 f) (Field_ResourceGl1ID1 f)
    (Field_ResourceGl1Type1 f) (Field_ResourceGl2ID1 f) (Field_ResourceGl2Type1 f)
    (Field_ACLGID f) (Field_Direction f) (Field_Protocol f) (Field_ServerPort f) (Field_VTAPID f)
    (Field_TAPPort f) (Field_TAPSide f) (Field_TAPType f) (Field_IsIPv6 f) (Field_IsKeyService f)
    (Field_L7Protocol f) (Field_TagType f) (Field_TagValue f).

Definition set_ServiceID1 (f : Field) (v : Z) : Field :=
  mkField (Field_GlobalThreadID f) (Field_IP6 f) (Field_MAC f) (Field_IP f) (Field_L3EpcID f)
    (Field_L3DeviceID f) (Field_L3DeviceType f) (Field_RegionID f) (Field_SubnetID f)
    (Field_HostID f) (Field_PodNodeID f) (Field_AZID f) (Field_PodGroupID f) (Field_PodNSID f)
    (Field_PodID f) (Field_PodClusterID f) (Field_ServiceID f) (Field_ResourceGl0ID f)
    (Field_ResourceGl0Type f) (Field_ResourceGl1ID f) (Field_ResourceGl1Type f)
    (Field_ResourceGl2ID f) (Field_ResourceGl2Type f) (Field_MAC1 f) (Field_IP61 f) (Field_IP1 f)
    (Field_L3EpcID1 f) (Field_L3DeviceID1 f) (Field_L3DeviceType1 f) (Field_RegionID1 f)
    (Field_SubnetID1 f) (Field_HostID1 f) (Field_PodNodeID1 f) (Field_AZID1 f)
    (Field_PodGroupID1 f) (Field_PodNSID1 f) (Field_PodID1 f) (Field_PodClusterID1 f) v
    (Field_ResourceGl0ID1 f) (Field_ResourceGl0Type1 f) (Field_ResourceGl1ID1 f)
    (Field_ResourceGl1Type1 f) (Field_ResourceGl2ID1 f) (Field_ResourceGl2Type1 f)
    (Field_ACLGID f) (Field_Direction f) (Field_Protocol f) (Field_ServerPort f) (Field_VTAPID f)
    (Field_TAPPort f) (Field_TAPSide f) (Field_TAPType f) (Field_IsIPv6 f) (Field_IsKeyService f)
    (Field_L7Protocol f) (Field_TagType f) (Field_TagValue f).

Definition set_IsKeyService (f : Field) (v : Z) : Field :=
  mkField (Field_GlobalThreadID f) (Field_IP6 f) (Field_MAC f) (Field_IP f) (Field_L3EpcID f)
    (Field_L3DeviceID f) (Field_L3DeviceType f) (Field_RegionID f) (Field_SubnetID f)
    (Field_HostID f) (Field_PodNodeID f) (Field_AZID f) (Field_PodGroupID f) (Field_PodNSID f)
    (Field_PodID f) (Field_PodClusterID f) (Field_ServiceID f) (Field_ResourceGl0ID f)
    (Field_ResourceGl0Type f) (Field_ResourceGl1ID f) (Field_ResourceGl1Type f)
    (Field_ResourceGl2ID f) (Field_ResourceGl2Type f) (Field_MAC1 f) (Field_IP61 f) (Field_IP1 f)
    (Field_L3EpcID1 f) (Field_L3DeviceID1 f) (Field_L3DeviceType1 f) (Field_RegionID1 f)
    (Field_SubnetID1 f) (Field_HostID1 f) (Field_PodNodeID1 f) (Field_AZID1 f)
    (Field_PodGroupID1 f) (Field_PodNSID1 f) (Field_PodID1 f) (Field_PodClusterID1 f)
    (Field_ServiceID1 f) (Field_ResourceGl0ID1 f) (Field_ResourceGl0Type1 f)
    (Field_ResourceGl1ID1 f) (Field_ResourceGl1Type1 f) (Field_ResourceGl2ID1 f)
    (Field_ResourceGl2Type1 f) (Field_ACLGID f) (Field_Direction f) (Field_Protocol f)
    (Field_ServerPort f) (Field_VTAPID f) (Field_TAPPort f) (Field_TAPSide f) (Field_TAPType f)
    (Field_IsIPv6 f) v (Field_L7Protocol f) (Field_TagType f) (Field_TagValue f).

(** The resource groups of one side: the identifier and the type of each. *)
Definition set_resources (f : Field) (r0 r1 r2 : Z * Z) : Field :=
  mkField (Field_GlobalThreadID f) (Field_IP6 f) (Field_MAC f) (Field_IP f) (Field_L3EpcID f)
    (Field_L3DeviceID f) (Field_L3DeviceType f) (Field_RegionID f) (Field_SubnetID f)
    (Field_HostID f) (Field_PodNodeID f) (Field_AZID f) (Field_PodGroupID f) (Field_PodNSID f)
    (Field_PodID f) (Field_PodClusterID f) (Field_ServiceID f) r0.1 r0.2 r1.1 r1.2 r2.1 r2.2
    (Field_MAC1 f) (Field_IP61 f) (Field_IP1 f) (Field_L3EpcID1 f) (Field_L3DeviceID1 f)
    (Field_L3DeviceType1 f) (Field_RegionID1 f) (Field_SubnetID1 f) (Field_HostID1 f)
    (Field_PodNodeID1 f) (Field_AZID1 f) (Field_PodGroupID1 f) (Field_PodNSID1 f) (Field_PodID1 f)
    (Field_PodClusterID1 f) (Field_ServiceID1 f) (Field_ResourceGl0ID1 f)
    (Field_ResourceGl0Type1 f) (Field_ResourceGl1ID1 f) (Field_ResourceGl1Type1 f)
    (Field_ResourceGl2ID1 f) (Field_ResourceGl2Type1 f) (Field_ACLGID f) (Field_Direction f)
    (Field_Protocol f) (Field_ServerPort f) (Field_VTAPID f) (Field_TAPPort f) (Field_TAPSide f)
    (Field_TAPType f) (Field_IsIPv6 f) (Field_IsKeyService f) (Field_L7Protocol f)
    (Field_TagType f) (Field_TagValue f).

Definition set_resources1 (f : Field) (r0 r1 r2 : Z * Z) : Field :=
  mkField (Field_GlobalThreadID f) (Field_IP6 f) (Field_MAC f) (Field_IP f) (Field_L3EpcID f)
    (Field_L3DeviceID f) (Field_L3DeviceType f) (Field_RegionID f) (Field_SubnetID f)
    (Field_HostID f) (Field_PodNodeID f) (Field_AZID f) (Field_PodGroupID f) (Field_PodNSID f)
    (Field_PodID f) (Field_PodClusterID f) (Field_ServiceID f) (Field_ResourceGl0ID f)
    (Field_ResourceGl0Type f) (Field_ResourceGl1ID f) (Field_ResourceGl1Type f)
    (Field_ResourceGl2ID f) (Field_ResourceGl2Type f) (Field_MAC1 f) (Field_IP61 f) (Field_IP1 f)
    (Field_L3EpcID1 f) (Field_L3DeviceID1 f) (Field_L3DeviceType1 f) (Field_RegionID1 f)
    (Field_SubnetID1 f) (Field_HostID1 f) (Field_PodNodeID1 f) (Field_AZID1 f)
    (Field_PodGroupID1 f) (Field_PodNSID1 f) (Field_PodID1 f) (Field_PodClusterID1 f)
    (Field_ServiceID1 f) r0.1 r0.2 r1.1 r1.2 r2.1 r2.2 (Field_ACLGID f) (Field_Direction f)
    (Field_Protocol f) (Field_ServerPort f) (Field_VTAPID f) (Field_TAPPort f) (Field_TAPSide f)
    (Field_TAPType f) (Field_IsIPv6 f) (Field_IsKeyService f) (Field_L7Protocol f)
    (Field_TagType f) (Field_TagValue f).

Definition set_Field (t : Tag) (f : Field) : Tag := mkTag f (Tag_Code t) (Tag_id t).

Definition EdgeCode : Z := ors [IPPath; L3EpcIDPath].
Definition MainAddCode : Z :=
  ors [RegionID; HostID; L3Device; SubnetID; PodNodeID; AZID; PodGroupID; PodNSID; PodID;
       PodClusterID; ServiceID; Resource].
Definition EdgeAddCode : Z :=
  ors [RegionIDPath; HostIDPath; L3DevicePath; SubnetIDPath; PodNodeIDPath; AZIDPath;
       PodGroupIDPath; PodNSIDPath; PodIDPath; PodClusterIDPath; ServiceIDPath; ResourcePath].
Definition PortAddCode : Z := IsKeyService.

(** [t.Code&EdgeCode == EdgeCode] *)
Definition is_edge (code : Z) : bool := Z.land code EdgeCode =? EdgeCode.

(** [mac | uint64(epc)<<48] *)
Definition mac_key (mac epc : Z) : Z := Z.lor mac (shl 64 (u64 epc) 48).

Section Expand.
Context {P : Type} `{!PlatformInfoTable P}.

(** ** Looking up the two sides *)

Definition RegetInfoFromIP (isIPv6 : bool) (ip6 : list Z) (ip4 epcID : Z) : ST P (option Info) :=
  if isIPv6 then QueryIPV6Infos epcID ip6 else QueryIPV4Infos epcID ip4.

Definition query_ip (f : Field) : ST P (option Info) :=
  if negb (Field_IsIPv6 f =? 0) then QueryIPV6Infos (Field_L3EpcID f) (Field_IP6 f)
  else QueryIPV4Infos (Field_L3EpcID f) (Field_IP f).

Definition query_ip1 (f : Field) : ST P (option Info) :=
  if negb (Field_IsIPv6 f =? 0) then QueryIPV6Infos (Field_L3EpcID1 f) (Field_IP61 f)
  else QueryIPV4Infos (Field_L3EpcID1 f) (Field_IP1 f).

(** [if info == nil { info = common.RegetInfoFromIP(...) }] *)
Definition reget (f : Field) (info : option Info) : ST P (option Info) :=
  match info with
  | Some _ => mret info
  | None => RegetInfoFromIP (Field_IsIPv6 f =? 1) (Field_IP6 f) (Field_IP f) (Field_L3EpcID f)
  end.

Definition reget1 (f : Field) (info : option Info) : ST P (option Info) :=
  match info with
  | Some _ => mret info
  | None => RegetInfoFromIP (Field_IsIPv6 f =? 1) (Field_IP61 f) (Field_IP1 f) (Field_L3EpcID1 f)
  end.

Definition query_edge (f : Field) : ST P (option Info * option Info) :=
  let mac := mac_key (Field_MAC f) (Field_L3EpcID f) in
  let mac1 := mac_key (Field_MAC1 f) (Field_L3EpcID1 f) in
  if negb (Field_MAC f =? 0) && negb (Field_MAC1 f =? 0) then
    r ← QueryMacInfosPair mac mac1;
    info ← reget f r.1;
    info1 ← reget1 f r.2;
    mret (info, info1)
  else if negb (Field_MAC f =? 0) then
    info ← QueryMacInfo mac;
    info ← reget f info;
    info1 ← query_ip1 f;
    mret (info, info1)
  else if negb (Field_MAC1 f =? 0) then
    info ← query_ip f;
    info1 ← QueryMacInfo mac1;
    info1 ← reget1 f info1;
    mret (info, info1)
  else if negb (Field_IsIPv6 f =? 0) then
    QueryIPV6InfosPair (Field_L3EpcID f) (Field_IP6 f) (Field_L3EpcID1 f) (Field_IP61 f)
  else QueryIPV4InfosPair (Field_L3EpcID f) (Field_IP f) (Field_L3EpcID1 f) (Field_IP1 f).

Definition query_main (f : Field) : ST P (option Info) :=
  if negb (Field_MAC f =? 0) then
    info ← QueryMacInfo (mac_key (Field_MAC f) (Field_L3EpcID f));
    reget f info
  else query_ip f.

(** ** Services *)

Definition query_service (f : Field) (port : Z) : ST P (bool * Z) :=
  if negb (Field_IsIPv6 f =? 0)
  then QueryIPv6IsKeyServiceAndID (Field_L3EpcID f) (Field_IP6 f) (Field_Protocol f) port
  else QueryIsKeyServiceAndID (Field_L3EpcID f) (Field_IP f) (Field_Protocol f) port.

Definition query_service1 (f : Field) (port : Z) : ST P (bool * Z) :=
  if negb (Field_IsIPv6 f =? 0)
  then QueryIPv6IsKeyServiceAndID (Field_L3EpcID1 f) (Field_IP61 f) (Field_Protocol f) port
  else QueryIsKeyServiceAndID (Field_L3EpcID1 f) (Field_IP1 f) (Field_Protocol f) port.

(** The server side: the key service and the service of a pod. *)
Definition service_side1 (code : Z) (f : Field) : ST P Field :=
  let pod_service := Field_L3DeviceType1 f =? DEVICE_TYPE_POD_SERVICE in
  r ← (if has code PortAddCode then
         r ← query_service1 f (Field_ServerPort f);
         mret (if (r.1 : bool) then set_IsKeyService f 1 else f, r.2)
       else if pod_service || negb (Field_PodID1 f =? 0) then
         r ← query_service1 f 0;
         mret (f, r.2)
       else mret (f, 0) : ST P (Field * Z));
  let '(f, serviceID) := (r : Field * Z) in
  mret (if pod_service || negb (Field_PodID1 f =? 0) || negb (Field_PodNodeID1 f =? 0)
        then set_ServiceID1 f serviceID else f).

(** The other side, where the port is that of this side only without a second one. *)
Definition service_side0 (code : Z) (f : Field) : ST P Field :=
  let pod_service := Field_L3DeviceType f =? DEVICE_TYPE_POD_SERVICE in
  r ← (if has code PortAddCode && (Z.land code EdgeCode =? 0) then
         r ← query_service f (Field_ServerPort f);
         mret (if (r.1 : bool) then set_IsKeyService f 1 else f, r.2)
       else if pod_service || negb (Field_PodID f =? 0) then
         r ← query_service f 0;
         mret (f, r.2)
       else mret (f, 0) : ST P (Field * Z));
  let '(f, serviceID) := (r : Field * Z) in
  mret (if pod_service || negb (Field_PodID f =? 0) || negb (Field_PodNodeID f =? 0)
        then set_ServiceID f serviceID else f).

(** ** The two sides *)

Definition address (f : Field) : list Z :=
  if negb (Field_IsIPv6 f =? 0) then Field_IP6 f else IpFromUint32 (Field_IP f).

Definition address1 (f : Field) : list Z :=
  if negb (Field_IsIPv6 f =? 0) then Field_IP61 f else IpFromUint32 (Field_IP1 f).

Definition groups_side1 (f : Field) : Field :=
  set_resources1 f
    (GetResourceGl0 (Field_PodID1 f) (Field_PodNodeID1 f) (Field_L3DeviceID1 f) (Field_L3DeviceType1 f)
       (Field_L3EpcID1 f))
    (GetResourceGl1 (Field_PodGroupID1 f) (Field_PodNodeID1 f) (Field_L3DeviceID1 f)
       (Field_L3DeviceType1 f) (Field_L3EpcID1 f))
    (GetResourceGl2 (Field_ServiceID1 f) (Field_PodGroupID1 f) (Field_PodNodeID1 f)
       (Field_L3DeviceID1 f) (Field_L3DeviceType1 f) (Field_L3EpcID1 f)).

Definition groups_side0 (f : Field) : Field :=
  set_resources f
    (GetResourceGl0 (Field_PodID f) (Field_PodNodeID f) (Field_L3DeviceID f) (Field_L3DeviceType f)
       (Field_L3EpcID f))
    (GetResourceGl1 (Field_PodGroupID f) (Field_PodNodeID f) (Field_L3DeviceID f)
       (Field_L3DeviceType f) (Field_L3EpcID f))
    (GetResourceGl2 (Field_ServiceID f) (Field_PodGroupID f) (Field_PodNodeID f)
       (Field_L3DeviceID f) (Field_L3DeviceType f) (Field_L3EpcID f)).

(** A refused document: it is counted, and the error is returned. *)
Definition refuse (f : Field) : ST P (bool * Field) :=
  modify AddOtherRegion ;; mret (false, f).

(** The server side of an edge; [false] when the document is refused. *)
Definition expand_side1 (myRegionID code : Z) (info info1 : option Info) (f : Field)
    : ST P (bool * Field) :=
  match info1 with
  | None => mret (true, groups_side1 f)
  | Some i1 =>
      f ← service_side1 code (set_info1 f i1);
      let f :=
        match info with
        | None =>
            if IsMulticast (address f)
            then set_area f (Field_RegionID1 f) (Field_SubnetID1 f) (Field_AZID1 f) else f
        | Some _ => f
        end in
      if negb (myRegionID =? 0) && negb (Field_RegionID1 f =? 0)
         && (Field_TAPSide f =? Server) && negb (Field_RegionID1 f =? myRegionID)
      then refuse f
      else mret (true, groups_side1 f)
  end.

Definition expand_side0 (myRegionID code : Z) (info info1 : option Info) (f : Field)
    : ST P (bool * Field) :=
  match info with
  | None => mret (true, f)
  | Some i =>
      f ← service_side0 code (set_info f i);
      let f :=
        match info1 with
        | None =>
            if is_edge code && IsMulticast (address1 f)
            then set_area1 f (Field_RegionID f) (Field_SubnetID f) (Field_AZID f) else f
        | Some _ => f
        end in
      if negb (myRegionID =? 0) && negb (Field_RegionID f =? 0)
         && (if is_edge code then (Field_TAPSide f =? Client) && negb (Field_RegionID f =? myRegionID)
             else negb (Field_RegionID f =? myRegionID))
      then refuse f
      else mret (true, groups_side0 f)
  end.

(** ** Documents *)

Definition expand_code (code : Z) : Z :=
  let code := if Z.land code ServerPort =? ServerPort then Z.lor code PortAddCode else code in
  if is_edge code then Z.lor code EdgeAddCode else Z.lor code MainAddCode.

(** The tag after the call; [false] when an error is returned. *)
Definition expand_tag (t : Tag) : ST P (bool * Tag) :=
  p ← get_state;
  let myRegionID := u16 (QueryRegionID p) in
  let code := expand_code (Tag_Code t) in
  let f := Tag_Field t in
  let edge := is_edge (Tag_Code t) in
  if (if edge then (Field_L3EpcID f =? EPC_FROM_INTERNET) && (Field_L3EpcID1 f =? EPC_FROM_INTERNET)
      else Field_L3EpcID f =? EPC_FROM_INTERNET)
  then mret (true, mkTag f code (Tag_id t))
  else if edge then
    r ← query_edge f;
    let '(info, info1) := (r : option Info * option Info) in
    r ← expand_side1 myRegionID code info info1 f;
    let '(ok, f) := (r : bool * Field) in
    if negb ok then mret (false, mkTag f code (Tag_id t))
    else
      r ← expand_side0 myRegionID code info info1 f;
      mret (r.1, mkTag r.2 code (Tag_id t))
  else
    info ← query_main f;
    r ← expand_side0 myRegionID code info None f;
    mret (r.1, mkTag r.2 code (Tag_id t)).

Definition set_Tagger (d : Document) (t : Tag) : Document :=
  mkDocument (Doc_ReferenceCount d) (Timestamp d) (TTag t) (Doc_Meter d) (Flags d).

Definition DocumentExpand (doc : Document) : ST P (bool * Document) :=
  match Doc_Tagger doc with
  | TMiniTag _ => panic
  | TTag t =>
      let t := mkTag (Tag_Field t) (Tag_Code t) "" in
      if (Meter_ID (Doc_Meter doc) =? ACL_ID) && (DatabaseSuffixID (Tag_Code t) =? 1)
      then mret (true, set_Tagger doc t)
      else
        r ← expand_tag t;
        mret (r.1, set_Tagger doc r.2)
  end.
End Expand.
