(* ===== verification/ExpandFacts.v ===== *)
(** Facts of the expansion of documents ([Expand.v]): what it may change, the table
    it leads to, and which documents it refuses. *)

From S2P Require Import Prelude Strconv LineProto Ckdb Meter Tag TagFacts TagMini Document Expand.

#[local] Open Scope string_scope.
#[local] Open Scope list_scope.
#[local] Open Scope Z_scope.

(** What the expansion relies on: from a good state, a query returns and leaves the
    region and the count of foreign documents alone; [AddOtherRegion] adds one to
    that count. *)
Section Laws.
Context {P : Type} `{!PlatformInfoTable P} (ok : P -> Prop) (others : P -> Z).

Definition query_ok {A} (m : ST P A) : Prop := forall p, ok p ->
  runs m p (fun _ p' => ok p' /\ QueryRegionID p' = QueryRegionID p /\ others p' = others p).

Lemma query_ret {A} (a : A) : query_ok (mret a).
Proof. intros p Hp. by apply runs_ret. Qed.

Lemma query_bind {A B} (m : ST P A) (f : A -> ST P B) :
  query_ok m -> (forall a, query_ok (f a)) -> query_ok (m ≫= f).
Proof.
  intros Hm Hf p Hp. apply runs_bind. eapply runs_mono; [by apply Hm|].
  intros a p1 (H1 & R1 & O1). eapply runs_mono; [by apply Hf|].
  intros b p2 (H2 & R2 & O2). split_and!; [done|congruence..].
Qed.

Lemma query_if {A} (b : bool) (m m' : ST P A) : query_ok m -> query_ok m' -> query_ok (if b then m else m').
Proof. by destruct b. Qed.
End Laws.

Class PlatformLaws (P : Type) `{!PlatformInfoTable P} := {
  platform_ok : P -> Prop;
  others : P -> Z;
  ok_QueryMacInfo mac : query_ok platform_ok others (QueryMacInfo mac);
  ok_QueryMacInfosPair mac mac1 : query_ok platform_ok others (QueryMacInfosPair mac mac1);
  ok_QueryIPV4Infos epc ip : query_ok platform_ok others (QueryIPV4Infos epc ip);
  ok_QueryIPV6Infos epc ip : query_ok platform_ok others (QueryIPV6Infos epc ip);
  ok_QueryIPV4InfosPair epc ip epc1 ip1 :
    query_ok platform_ok others (QueryIPV4InfosPair epc ip epc1 ip1);
  ok_QueryIPV6InfosPair epc ip epc1 ip1 :
    query_ok platform_ok others (QueryIPV6InfosPair epc ip epc1 ip1);
  ok_QueryIsKeyServiceAndID epc ip proto port :
    query_ok platform_ok others (QueryIsKeyServiceAndID epc ip proto port);
  ok_QueryIPv6IsKeyServiceAndID epc ip proto port :
    query_ok platform_ok others (QueryIPv6IsKeyServiceAndID epc ip proto port);
  ok_AddOtherRegion p : platform_ok p ->
    platform_ok (AddOtherRegion p) /\ QueryRegionID (AddOtherRegion p) = QueryRegionID p /\
    others (AddOtherRegion p) = i64 (others p + 1)
}.

Create HintDb platform.
#[export] Hint Resolve ok_QueryMacInfo ok_QueryMacInfosPair ok_QueryIPV4Infos ok_QueryIPV6Infos
  ok_QueryIPV4InfosPair ok_QueryIPV6InfosPair ok_QueryIsKeyServiceAndID
  ok_QueryIPv6IsKeyServiceAndID query_ret : platform.

Section Expand.
Context {P : Type} `{!PlatformInfoTable P} `{!PlatformLaws P}.
Abbreviation query_ok := (query_ok platform_ok others).

Ltac queries := repeat first
  [ progress auto with platform
  | apply query_bind; [|intros ?]
  | apply query_if
  | case_match ].

Lemma query_ip_ok f : query_ok (query_ip f).
Proof. unfold query_ip. queries. Qed.

Lemma query_ip1_ok f : query_ok (query_ip1 f).
Proof. unfold query_ip1. queries. Qed.

Lemma reget_ok f info : query_ok (reget f info).
Proof. unfold reget, RegetInfoFromIP. queries. Qed.

Lemma reget1_ok f info : query_ok (reget1 f info).
Proof. unfold reget1, RegetInfoFromIP. queries. Qed.

#[local] Hint Resolve query_ip_ok query_ip1_ok reget_ok reget1_ok : platform.

Lemma query_edge_ok f : query_ok (query_edge f).
Proof. unfold query_edge. cbv zeta. queries. Qed.

Lemma query_main_ok f : query_ok (query_main f).
Proof. unfold query_main. queries. Qed.

Lemma query_service_ok f port : query_ok (query_service f port).
Proof. unfold query_service. queries. Qed.

Lemma query_service1_ok f port : query_ok (query_service1 f port).
Proof. unfold query_service1. queries. Qed.

(** The fields that name the document: the expansion may not touch them. *)
Definition identity (f : Field) :=
  (Field_GlobalThreadID f, Field_IP6 f, Field_MAC f, Field_IP f, Field_L3EpcID f, Field_MAC1 f,
   Field_IP61 f, Field_IP1 f, Field_L3EpcID1 f, Field_ACLGID f, Field_Direction f, Field_Protocol f,
   Field_ServerPort f, Field_VTAPID f, Field_TAPPort f, Field_TAPSide f, Field_TAPType f,
   Field_IsIPv6 f, Field_L7Protocol f, Field_TagType f, Field_TagValue f).

Definition regions (f : Field) : Z * Z := (Field_RegionID f, Field_RegionID1 f).

Lemma identity_address f f' : identity f' = identity f -> address f' = address f /\ address1 f' = address1 f.
Proof.
  unfold identity, address, address1. intros H. injection H. intros.
  repeat match goal with E : _ = _ |- _ => try rewrite E; clear E end. done.
Qed.

Lemma identity_TAPSide f f' : identity f' = identity f -> Field_TAPSide f' = Field_TAPSide f.
Proof. unfold identity. congruence. Qed.

(** The state of the platform data after a call that refuses the document or not. *)
Definition after (ok : bool) (p p' : P) : Prop :=
  platform_ok p' /\ QueryRegionID p' = QueryRegionID p /\
  others p' = if ok then others p else i64 (others p + 1).

Lemma after_trans ok p p1 p2 : after true p p1 -> after ok p1 p2 -> after ok p p2.
Proof. intros (H1 & R1 & O1) (H2 & R2 & O2). split_and!; [done|congruence|]. destruct ok; congruence. Qed.

Lemma service_side1_runs code f p :
  platform_ok p ->
  runs (service_side1 code f) p (fun f' p' => after true p p' /\ identity f' = identity f /\ regions f' = regions f).
Proof.
  intros Hp. unfold service_side1. cbv zeta. apply runs_bind.
  apply (runs_mono _ _ (fun r p' => after true p p' /\ identity r.1 = identity f /\ regions r.1 = regions f)).
  - destruct (has code PortAddCode).
    { apply runs_bind. eapply runs_mono; [by apply query_service1_ok|]. intros r p1 H1. apply runs_ret. by destruct r.1. }
    destruct (_ || _); [|by apply runs_ret].
    apply runs_bind. eapply runs_mono; [by apply query_service1_ok|]. intros r p1 H1. by apply runs_ret.
  - intros [f1 sid] p1 (H1 & Hi & Hr). cbn [fst] in *. apply runs_ret. by destruct (_ || _).
Qed.

Lemma service_side0_runs code f p :
  platform_ok p ->
  runs (service_side0 code f) p (fun f' p' => after true p p' /\ identity f' = identity f /\ regions f' = regions f).
Proof.
  intros Hp. unfold service_side0. cbv zeta. apply runs_bind.
  apply (runs_mono _ _ (fun r p' => after true p p' /\ identity r.1 = identity f /\ regions r.1 = regions f)).
  - destruct (has code PortAddCode && _).
    { apply runs_bind. eapply runs_mono; [by apply query_service_ok|]. intros r p1 H1. apply runs_ret. by destruct r.1. }
    destruct (_ || _); [|by apply runs_ret].
    apply runs_bind. eapply runs_mono; [by apply query_service_ok|]. intros r p1 H1. by apply runs_ret.
  - intros [f1 sid] p1 (H1 & Hi & Hr). cbn [fst] in *. apply runs_ret. by destruct (_ || _).
Qed.

(** A region that is not ours, of a side that counts. *)
Definition foreign (my r : Z) (counts : bool) : bool :=
  negb (my =? 0) && negb (r =? 0) && counts && negb (r =? my).

Lemma refuse_runs f p : platform_ok p -> runs (refuse f) p (fun r p' => r = (false, f) /\ after false p p').
Proof. intros Hp. apply runs_bind, runs_modify, runs_ret. split; [done|]. by apply ok_AddOtherRegion. Qed.

(** The regions after one side, given the resource found for it and for the other. *)
Definition side1_regions (info info1 : option Info) (f : Field) : Z * Z :=
  match info1 with
  | None => regions f
  | Some i1 =>
      let r1 := u16 (Info_RegionID i1) in
      (match info with None => if IsMulticast (address f) then r1 else Field_RegionID f | Some _ => Field_RegionID f end,
       r1)
  end.

Definition side0_regions (edge : bool) (info info1 : option Info) (f : Field) : Z * Z :=
  match info with
  | None => regions f
  | Some i =>
      let r := u16 (Info_RegionID i) in
      (r, match info1 with
          | None => if edge && IsMulticast (address1 f) then r else Field_RegionID1 f
          | Some _ => Field_RegionID1 f
          end)
  end.

Definition found (info : option Info) : bool := match info with Some _ => true | None => false end.

Lemma expand_side1_runs my code info info1 f p :
  platform_ok p ->
  runs (expand_side1 my code info info1 f) p (fun r p' =>
    after r.1 p p' /\ identity r.2 = identity f /\ regions r.2 = side1_regions info info1 f /\
    r.1 = negb (found info1 && foreign my (Field_RegionID1 r.2) (Field_TAPSide f =? Server))).
Proof.
  intros Hp. unfold expand_side1. destruct info1 as [i1|]; [|by apply runs_ret].
  apply runs_bind. eapply runs_mono; [by apply service_side1_runs|]. intros f1 p1 (H1 & Hi & Hr).
  change (identity (set_info1 f i1)) with (identity f) in Hi.
  destruct (identity_address _ _ Hi) as [Ha _]. cbv zeta.
  set (f2 := match info with None => _ | Some _ => _ end).
  assert (identity f2 = identity f) as Hi2 by (subst f2; destruct info; [|destruct (IsMulticast _)]; done).
  assert (regions f2 = side1_regions info (Some i1) f) as Hr2.
  { change (regions (set_info1 f i1)) with (Field_RegionID f, u16 (Info_RegionID i1)) in Hr.
    injection Hr as Hr Hr1. subst f2. unfold side1_regions, regions. rewrite Ha.
    destruct info; [by rewrite Hr, Hr1|]. destruct (IsMulticast (address f)); cbn [set_area Field_RegionID Field_RegionID1];
      by rewrite ?Hr, Hr1. }
  rewrite <- (identity_TAPSide _ _ Hi2).
  fold (foreign my (Field_RegionID1 f2) (Field_TAPSide f2 =? Server)).
  destruct (foreign my _ _) eqn:Ef.
  - eapply runs_mono; [apply refuse_runs, H1|]. intros r p2 (-> & H2). cbn [fst snd found andb].
    rewrite Ef. split_and!; [by apply (after_trans _ _ p1)|done..].
  - apply runs_ret. cbn [fst snd found andb]. unfold groups_side1.
    change (Field_RegionID1 (set_resources1 f2 _ _ _)) with (Field_RegionID1 f2). rewrite Ef. by split_and!.
Qed.

Lemma expand_side0_runs my code info info1 f p :
  platform_ok p ->
  runs (expand_side0 my code info info1 f) p (fun r p' =>
    after r.1 p p' /\ identity r.2 = identity f /\ regions r.2 = side0_regions (is_edge code) info info1 f /\
    r.1 = negb (found info && foreign my (Field_RegionID r.2) (if is_edge code then Field_TAPSide f =? Client else true))).
Proof.
  intros Hp. unfold expand_side0. destruct info as [i|]; [|by apply runs_ret].
  apply runs_bind. eapply runs_mono; [by apply service_side0_runs|]. intros f1 p1 (H1 & Hi & Hr).
  change (identity (set_info f i)) with (identity f) in Hi.
  destruct (identity_address _ _ Hi) as [_ Ha]. cbv zeta.
  set (f2 := match info1 with None => _ | Some _ => _ end).
  assert (identity f2 = identity f) as Hi2 by (subst f2; destruct info1; [|destruct (_ && _)]; done).
  assert (regions f2 = side0_regions (is_edge code) (Some i) info1 f) as Hr2.
  { change (regions (set_info f i)) with (u16 (Info_RegionID i), Field_RegionID1 f) in Hr.
    injection Hr as Hr Hr1. subst f2. unfold side0_regions, regions. rewrite Ha.
    destruct info1; [by rewrite Hr, Hr1|]. destruct (is_edge code && IsMulticast (address1 f)); cbn [set_area1 Field_RegionID Field_RegionID1];
      by rewrite ?Hr, ?Hr1. }
  rewrite <- (identity_TAPSide _ _ Hi2).
  replace (negb (my =? 0) && negb (Field_RegionID f2 =? 0) && _)
    with (foreign my (Field_RegionID f2) (if is_edge code then Field_TAPSide f2 =? Client else true))
    by (unfold foreign; destruct (is_edge code); by rewrite ?andb_assoc, ?andb_true_r).
  destruct (foreign my _ _) eqn:Ef.
  - eapply runs_mono; [apply refuse_runs, H1|]. intros r p2 (-> & H2). cbn [fst snd found andb].
    rewrite Ef. split_and!; [by apply (after_trans _ _ p1)|done..].
  - apply runs_ret. cbn [fst snd found andb]. unfold groups_side0.
    change (Field_RegionID (set_resources f2 _ _ _)) with (Field_RegionID f2). rewrite Ef. by split_and!.
Qed.

(** ** Codes *)

Lemma land_lor_disjoint a b c : Z.land b c = 0 -> Z.land (Z.lor a b) c = Z.land a c.
Proof. intros H. by rewrite Z.land_lor_distr_l, H, Z.lor_0_r. Qed.

Lemma expand_code_edge code : is_edge (expand_code code) = is_edge code.
Proof.
  unfold expand_code, is_edge. cbv zeta. assert (forall c, Z.land (Z.lor c PortAddCode) EdgeCode = Z.land c EdgeCode) as Hp
    by (intros c; by apply land_lor_disjoint).
  repeat case_match; rewrite !land_lor_disjoint, ?Hp by done; done.
Qed.

(** ** Refused documents *)

(** Where a document of this region may come from: on the captured side, the region
    is ours or unknown, or the address is a multicast address of which only the
    other side is known. *)
Definition home (my : Z) (edge : bool) (f : Field) : Prop :=
  if edge then
    (Field_TAPSide f = Server ->
       Field_RegionID1 f = 0 \/ Field_RegionID1 f = my \/ IsMulticast (address1 f) = true) /\
    (Field_TAPSide f = Client ->
       Field_RegionID f = 0 \/ Field_RegionID f = my \/ IsMulticast (address f) = true)
  else Field_RegionID f = 0 \/ Field_RegionID f = my.

(** A region that is known and not ours, on the captured side. *)
Definition abroad (my : Z) (edge : bool) (f : Field) : Prop :=
  my <> 0 /\
  if edge then
    (Field_TAPSide f = Server /\ Field_RegionID1 f <> 0 /\ Field_RegionID1 f <> my) \/
    (Field_TAPSide f = Client /\ Field_RegionID f <> 0 /\ Field_RegionID f <> my)
  else Field_RegionID f <> 0 /\ Field_RegionID f <> my.

Definition judged (my : Z) (edge ok : bool) (f : Field) : Prop :=
  if ok then my = 0 \/ home my edge f else abroad my edge f.

Lemma foreign_true my r b : foreign my r b = true -> my <> 0 /\ r <> 0 /\ b = true /\ r <> my.
Proof. unfold foreign. rewrite !andb_true_iff, !negb_true_iff, !Z.eqb_neq. tauto. Qed.

Lemma foreign_false my r b : foreign my r b = false -> my = 0 \/ r = 0 \/ b = false \/ r = my.
Proof. unfold foreign. rewrite !andb_false_iff, !negb_false_iff, !Z.eqb_eq. tauto. Qed.

Lemma judged_edge my info info1 f f1 f2 (ok : bool) :
  regions f = (0, 0) -> identity f1 = identity f -> regions f1 = side1_regions info info1 f ->
  found info1 && foreign my (Field_RegionID1 f1) (Field_TAPSide f =? Server) = false ->
  identity f2 = identity f1 -> regions f2 = side0_regions true info info1 f1 ->
  ok = negb (found info && foreign my (Field_RegionID f2) (Field_TAPSide f1 =? Client)) ->
  judged my true ok f2.
Proof.
  intros Hf I1 R1 Hok1 I2 R2 ->. destruct (identity_address _ _ I1) as [A1 A1'], (identity_address _ _ I2) as [A2 A2'].
  pose proof (identity_TAPSide _ _ I1) as T1. pose proof (identity_TAPSide _ _ I2) as T2.
  unfold regions in Hf. injection Hf as Hf Hf1. unfold side1_regions, side0_regions, regions in *.
  rewrite ?Hf, ?Hf1 in *. rewrite A1' in *. unfold judged, home, abroad. rewrite T2, T1, A2', A2, A1.
  destruct info1 as [i1|]; cbn [found andb] in *.
  - apply foreign_false in Hok1. rewrite Z.eqb_neq in Hok1. injection R1 as R1 R11.
    destruct info as [i|]; cbn [found andb] in *; injection R2 as R2 R21; rewrite R21.
    + destruct (foreign my (Field_RegionID f2) _) eqn:E; cbn [negb].
      * apply foreign_true in E as (? & ? & Hc & ?). apply Z.eqb_eq in Hc. tauto.
      * apply foreign_false in E. rewrite Z.eqb_neq in E. tauto.
    + rewrite R2, R1. cbn [negb]. destruct (IsMulticast (address f)); intuition done.
  - injection R1 as R1 R11. destruct info as [i|]; cbn [found andb] in *; injection R2 as R2 R21; rewrite R21.
    + destruct (foreign my (Field_RegionID f2) _) eqn:E; cbn [negb].
      * apply foreign_true in E as (? & ? & Hc & ?). apply Z.eqb_eq in Hc. tauto.
      * apply foreign_false in E. rewrite Z.eqb_neq in E. rewrite R11. destruct (IsMulticast (address1 f)); intuition done.
    + rewrite R2, R1, R11. cbn [negb]. intuition done.
Qed.

Lemma judged_main my info f f1 (ok : bool) :
  regions f = (0, 0) -> regions f1 = side0_regions false info None f ->
  ok = negb (found info && foreign my (Field_RegionID f1) true) -> judged my false ok f1.
Proof.
  intros Hf R1 ->. unfold regions in Hf. injection Hf as Hf Hf1. unfold side0_regions, regions in *.
  unfold judged, home, abroad. destruct info as [i|]; cbn [found andb] in *; injection R1 as R1 R11.
  - destruct (foreign my (Field_RegionID f1) true) eqn:E; cbn [negb].
    + apply foreign_true in E. tauto.
    + apply foreign_false in E. intuition congruence.
  - rewrite R1, Hf. cbn [negb]. tauto.
Qed.

(** ** The decision *)

(** A document of the Internet alone, which is not looked up. *)
Definition of_internet (t : Tag) : bool :=
  if is_edge (Tag_Code t)
  then (Field_L3EpcID (Tag_Field t) =? EPC_FROM_INTERNET) && (Field_L3EpcID1 (Tag_Field t) =? EPC_FROM_INTERNET)
  else Field_L3EpcID (Tag_Field t) =? EPC_FROM_INTERNET.

(** What the platform data knows about the two sides of a document, or about its only one. *)
Definition lookups (t : Tag) : ST P (option Info * option Info) :=
  if of_internet t then mret (None, None)
  else if is_edge (Tag_Code t) then query_edge (Tag_Field t)
  else info ← query_main (Tag_Field t); mret (info, None).

(** A side that the platform data puts in another region. *)
Definition elsewhere (my : Z) (info : option Info) : bool :=
  match info with Some i => foreign my (u16 (Info_RegionID i)) true | None => false end.

(** The side that counts: the one a document of two sides was captured on, if it was
    captured on one of them. *)
Definition refused (my : Z) (t : Tag) (info info1 : option Info) : bool :=
  if is_edge (Tag_Code t) then
    (Field_TAPSide (Tag_Field t) =? Client) && elsewhere my info || (Field_TAPSide (Tag_Field t) =? Server) && elsewhere my info1
  else elsewhere my info.

(** The region of a side: its own, or for an unknown multicast address that of the other. *)
Definition side_region (info other : option Info) (ip : list Z) : Z :=
  match info, other with
  | Some i, _ => u16 (Info_RegionID i)
  | None, Some i => if IsMulticast ip then u16 (Info_RegionID i) else 0
  | None, None => 0
  end.

Definition known_regions (t : Tag) (info info1 : option Info) : Z * Z :=
  let f := Tag_Field t in
  (side_region info info1 (address f), if is_edge (Tag_Code t) then side_region info1 info (address1 f) else 0).

Lemma foreign_counts my r c : foreign my r c = c && foreign my r true.
Proof. unfold foreign. destruct c; [done|]. by rewrite andb_false_r. Qed.

Lemma edge_regions info info1 f f1 :
  regions f = (0, 0) -> identity f1 = identity f -> regions f1 = side1_regions info info1 f ->
  side0_regions true info info1 f1 = (side_region info info1 (address f), side_region info1 info (address1 f)).
Proof.
  intros Hf I1 R1. destruct (identity_address _ _ I1) as [_ A1]. unfold regions in Hf. injection Hf as Hf Hf1.
  unfold side1_regions, side0_regions, regions, side_region in *. rewrite A1.
  destruct info1 as [i1|], info as [i|]; cbn [andb]; injection R1 as R1 R11; rewrite ?R1, ?R11, ?Hf, ?Hf1; done.
Qed.

Lemma expand_tag_runs t p :
  platform_ok p -> regions (Tag_Field t) = (0, 0) ->
  let my := u16 (QueryRegionID p) in
  exists info info1 p1, lookups t p = Some ((info, info1), p1) /\
  runs (expand_tag t) p (fun r p' => after r.1 p p' /\
    identity (Tag_Field r.2) = identity (Tag_Field t) /\ Tag_Code r.2 = expand_code (Tag_Code t) /\
    Tag_id r.2 = Tag_id t /\ judged my (is_edge (Tag_Code t)) r.1 (Tag_Field r.2) /\
    r.1 = negb (refused my t info info1) /\ (r.1 = true -> regions (Tag_Field r.2) = known_regions t info info1)).
Proof.
  intros Hp Hf. cbv zeta. unfold expand_tag, lookups, known_regions. set (my := u16 (QueryRegionID p)).
  destruct (of_internet t) eqn:Ei.
  { exists None, None, p. split; [done|]. apply runs_bind. unfold get_state, runs at 1. cbv zeta. unfold of_internet in Ei. rewrite Ei.
    apply runs_ret. split_and!; try done.
    - right. injection Hf as Hr Hr1. unfold home. destruct (is_edge _); [|by left]. split; intros _; by left.
    - unfold refused. cbn. rewrite !andb_false_r. by destruct (is_edge _).
    - intros _. cbn [fst snd Tag_Field]. rewrite Hf. cbn. by destruct (is_edge _). }
  destruct (is_edge (Tag_Code t)) eqn:Eedge.
  - pose proof (query_edge_ok (Tag_Field t) p Hp) as Hq. apply runs_exists in Hq as ([info info1] & p1 & Eq & Hp1 & Hr1 & Ho1).
    exists info, info1, p1. split; [done|]. apply runs_bind. unfold get_state, runs at 1. cbv zeta. unfold of_internet in Ei. rewrite Eedge in Ei. rewrite Ei.
    apply runs_bind. unfold runs at 1. rewrite Eq. assert (after true p p1) as H1 by done.
    apply runs_bind. eapply runs_mono; [by apply expand_side1_runs|].
    intros [ok f1] p2 (H2 & I1 & R1 & Eok). cbn [fst snd] in *. rewrite foreign_counts in Eok.
    assert (found info1 && foreign my (Field_RegionID1 f1) true = elsewhere my info1) as E1.
    { destruct info1; [|done]. unfold side1_regions, regions in R1. injection R1 as _ R11. cbn. by rewrite R11. }
    assert (ok = negb ((Field_TAPSide (Tag_Field t) =? Server) && elsewhere my info1)) as Eok'.
    { rewrite Eok, <- E1. fold my. by destruct (found info1), (_ =? Server). }
    pose proof (after_trans _ _ _ _ H1 H2) as H12. unfold refused. rewrite Eedge. destruct ok; cbn [negb].
    + apply runs_bind. eapply runs_mono; [apply expand_side0_runs, H2|].
      intros [ok f2] p3 (H3 & I2 & R2 & Eok2). apply runs_ret. cbn [fst snd Tag_Field Tag_Code Tag_id] in *.
      rewrite expand_code_edge, Eedge in *. rewrite (identity_TAPSide _ _ I1) in Eok2.
      assert (found info && foreign my (Field_RegionID f2) true = elsewhere my info) as E0.
      { destruct info; [|done]. unfold side0_regions, regions in R2. injection R2 as R2 _. cbn. by rewrite R2. }
      assert (ok = negb ((Field_TAPSide (Tag_Field t) =? Client) && elsewhere my info)) as Eok2'.
      { rewrite Eok2, <- E0, foreign_counts. fold my. by destruct (found info), (_ =? Client). }
      symmetry in Eok'. apply negb_true_iff in Eok'. rewrite Eok', orb_false_r.
      split_and!; [by apply (after_trans _ _ p2)|congruence|done|done| |done|].
      * apply (judged_edge my info info1 (Tag_Field t) f1); try done.
        -- rewrite foreign_counts. fold my in E1. rewrite <- Eok', <- E1. by destruct (found info1), (_ =? Server).
        -- by rewrite Eok2, (identity_TAPSide _ _ I1).
      * intros _. rewrite R2. by apply edge_regions.
    + apply runs_ret. cbn [fst snd Tag_Field Tag_Code Tag_id]. symmetry in Eok'. apply negb_false_iff in Eok'.
      rewrite Eok', orb_true_r. split_and!; [done|done|done|done| |done|done].
      symmetry in Eok. apply negb_false_iff, andb_prop in Eok as [_ E]. rewrite <- foreign_counts in E.
      apply foreign_true in E as (? & ? & Hs & ?). apply Z.eqb_eq in Hs.
      rewrite <- (identity_TAPSide _ _ I1) in Hs. split; [done|]. left. done.
  - pose proof (query_main_ok (Tag_Field t) p Hp) as Hq. apply runs_exists in Hq as (info & p1 & Eq & Hp1 & Hr1 & Ho1).
    exists info, None, p1. split; [unfold mbind, ST_bind; by rewrite Eq|].
    apply runs_bind. unfold get_state, runs at 1. cbv zeta. unfold of_internet in Ei. rewrite Eedge in Ei. rewrite Ei.
    apply runs_bind. unfold runs at 1. rewrite Eq. assert (after true p p1) as H1 by done.
    apply runs_bind. eapply runs_mono; [by apply expand_side0_runs|].
    intros [ok f2] p3 (H3 & I2 & R2 & Eok2). apply runs_ret. cbn [fst snd Tag_Field Tag_Code Tag_id] in *.
    rewrite expand_code_edge, Eedge in *. unfold refused. rewrite Eedge.
    split_and!; [by apply (after_trans _ _ p1)|done|done|done|by apply (judged_main my info (Tag_Field t))| |].
    + rewrite Eok2. f_equal. destruct info; [|done]. unfold side0_regions, regions in R2. injection R2 as R2 _. cbn. by rewrite R2.
    + intros _. rewrite R2. unfold regions in Hf. injection Hf as Hf Hf1.
      destruct info; unfold side0_regions, regions; cbn; by rewrite ?Hf, ?Hf1.
Qed.
End Expand.

(** * Tables *)

(** The fields that agents send for each table: those that the expansion adds are
    missing. *)
Definition added : Z := ors [MainAddCode; EdgeAddCode; PortAddCode].

Definition agent_codes : list (Z * Z) :=
  [(andnot VTAP_FLOW_PORT added, VTAP_FLOW_PORT_1M);
   (andnot VTAP_FLOW_EDGE_PORT added, VTAP_FLOW_EDGE_PORT_1M);
   (andnot VTAP_APP_PORT added, VTAP_APP_PORT_1M);
   (andnot VTAP_APP_EDGE_PORT added, VTAP_APP_EDGE_PORT_1M)].

(** Without the hardware addresses, which may come along. *)
Definition strip (code : Z) : Z := andnot (andnot code MAC) MACPath.

Lemma strip_lor a b : strip (Z.lor a b) = Z.lor (strip a) (strip b).
Proof. unfold strip, andnot. by rewrite !Z.land_lor_distr_l. Qed.

Lemma strip_land code x : strip x = x -> Z.land (strip code) x = Z.land code x.
Proof.
  unfold strip, andnot. intros H. rewrite <- H at 2. rewrite !Z.land_assoc.
  set (k1 := _ - MAC). set (k2 := _ - MACPath).
  rewrite <- (Z.land_assoc (Z.land code k1)), (Z.land_comm k2 x), (Z.land_assoc _ x k2).
  rewrite <- (Z.land_assoc code k1 x), (Z.land_comm k1 x), Z.land_assoc. done.
Qed.

Lemma strip_expand code : strip (expand_code code) = expand_code (strip code).
Proof.
  unfold expand_code, is_edge. cbv zeta. rewrite (strip_land code ServerPort) by done.
  destruct (Z.land code ServerPort =? ServerPort);
    rewrite ?(land_lor_disjoint _ PortAddCode EdgeCode), (strip_land code EdgeCode) by done;
    destruct (_ =? EdgeCode); rewrite !strip_lor; done.
Qed.

Lemma agent_code_table code c id second f i :
  (c, id) ∈ agent_codes -> strip code = c ->
  Tag_TableID (mkTag f (expand_code code) i) second = Some (if second : bool then id + VTAP_FLOW_PORT_1S else id).
Proof.
  intros Hin Hc. assert (strip (expand_code code) = expand_code c) as He by (by rewrite strip_expand, Hc).
  unfold Tag_TableID, metricsTableCodes. cbn [Tag_Code TableID_loop].
  change (andnot (andnot (expand_code code) MAC) MACPath) with (strip (expand_code code)). rewrite He.
  unfold agent_codes in Hin. rewrite !elem_of_cons, elem_of_nil in Hin.
  destruct Hin as [[= -> ->]|[[= -> ->]|[[= -> ->]|[[= -> ->]|[]]]]]; destruct second; vm_compute; reflexivity.
Qed.

(** The code of a document once it has been expanded. *)
Definition stored_code (m : Meter) (code : Z) : Z :=
  if (Meter_ID m =? ACL_ID) && (DatabaseSuffixID code =? 1) then code else expand_code code.

Lemma stored_code_edge m code : is_edge (stored_code m code) = is_edge code.
Proof. unfold stored_code. case_match; [done|apply expand_code_edge]. Qed.

Lemma stored_code_agent m code c id :
  (c, id) ∈ agent_codes -> strip code = c -> stored_code m code = expand_code code.
Proof.
  intros Hin Hc. unfold stored_code. assert ((DatabaseSuffixID code =? 1) = false) as ->; [|by rewrite andb_false_r].
  unfold DatabaseSuffixID. assert (has code ACLGID = false) as ->.
  { unfold has. rewrite <- (strip_land _ ACLGID), Hc by done. unfold agent_codes in Hin.
    rewrite !elem_of_cons, elem_of_nil in Hin.
    destruct Hin as [[= -> ->]|[[= -> ->]|[[= -> ->]|[[= -> ->]|[]]]]]; reflexivity. }
  by destruct (HasEdgeTagField _), (has _ ServerPort).
Qed.

(** What is known about a document: the minute documents of access control are not looked
    up. *)
Definition doc_lookups {P} `{!PlatformInfoTable P} (m : Meter) (t : Tag) : ST P (option Info * option Info) :=
  if (Meter_ID m =? ACL_ID) && (DatabaseSuffixID (Tag_Code t) =? 1) then mret (None, None) else lookups t.

Lemma DocumentExpand_decides {P} `{!PlatformInfoTable P} `{!PlatformLaws P} doc t (p : P) :
  platform_ok p -> Doc_Tagger doc = TTag t -> regions (Tag_Field t) = (0, 0) ->
  let my := u16 (QueryRegionID p) in
  exists info info1 p1, doc_lookups (Doc_Meter doc) t p = Some ((info, info1), p1) /\
  runs (DocumentExpand doc) p (fun r p' => exists f',
    r.2 = set_Tagger doc (mkTag f' (stored_code (Doc_Meter doc) (Tag_Code t)) "") /\
    after r.1 p p' /\ identity f' = identity (Tag_Field t) /\ judged my (is_edge (Tag_Code t)) r.1 f' /\
    r.1 = negb (refused my t info info1) /\ (r.1 = true -> regions f' = known_regions t info info1)).
Proof.
  intros Hp Ht Hf. cbv zeta. unfold DocumentExpand, stored_code, doc_lookups. rewrite Ht. cbv zeta. cbn [Tag_Field Tag_Code].
  destruct (_ && _).
  - exists None, None, p. split; [done|]. apply runs_ret. exists (Tag_Field t). split_and!; try done.
    + right. injection Hf as Hr Hr1. unfold home. destruct (is_edge _); [|by left]. split; intros _; by left.
    + unfold refused. cbn. rewrite !andb_false_r. by destruct (is_edge _).
    + intros _. rewrite Hf. unfold known_regions. cbn. by destruct (is_edge _).
  - destruct (expand_tag_runs (mkTag (Tag_Field t) (Tag_Code t) "") p Hp Hf) as (info & info1 & p1 & El & Hrun).
    exists info, info1, p1. split; [exact El|]. apply runs_bind. eapply runs_mono; [exact Hrun|].
    intros [ok t'] p' (H1 & H2 & H3 & H4 & H5 & H6 & H7). apply runs_ret. cbn [fst snd Tag_Field Tag_Code Tag_id] in *.
    exists (Tag_Field t'). rewrite <- H3. rewrite <- H4 at 1. split_and!; try done. by destruct t'.
Qed.

Lemma DocumentExpand_runs {P} `{!PlatformInfoTable P} `{!PlatformLaws P} doc t (p : P) :
  platform_ok p -> Doc_Tagger doc = TTag t -> regions (Tag_Field t) = (0, 0) ->
  runs (DocumentExpand doc) p (fun r p' => exists f',
    r.2 = set_Tagger doc (mkTag f' (stored_code (Doc_Meter doc) (Tag_Code t)) "") /\
    after r.1 p p' /\ identity f' = identity (Tag_Field t) /\
    judged (u16 (QueryRegionID p)) (is_edge (Tag_Code t)) r.1 f').
Proof.
  intros Hp Ht Hf. destruct (DocumentExpand_decides doc t p Hp Ht Hf) as (info & info1 & p1 & _ & Hrun).
  eapply runs_mono; [exact Hrun|]. intros r p' (f' & ? & ? & ? & ? & _). by exists f'.
Qed.

(** * Properties *)

(** Expanding a received document returns, whatever the platform data answers.
    It keeps the time, the meter, the flags and every field that names the document,
    and the code it gives the document is that of a table when the agent sent the
    fields of one: of its minute table, or of its second table for a per-second
    document. *)
Theorem expand_tables {P} `{!PlatformInfoTable P} `{!PlatformLaws P} (doc : Document) (t : Tag) (p : P) :
  platform_ok p -> Doc_Tagger doc = TTag t -> regions (Tag_Field t) = (0, 0) ->
  exists ok f' p', let doc' := set_Tagger doc (mkTag f' (stored_code (Doc_Meter doc) (Tag_Code t)) "") in
    DocumentExpand doc p = Some ((ok, doc'), p') /\ platform_ok p' /\
    identity f' = identity (Tag_Field t) /\
    forall c id, (c, id) ∈ agent_codes -> strip (Tag_Code t) = c ->
      Document_TableID doc'
      = Done (if Z.land (Flags doc) FLAG_PER_SECOND_METRICS =? 1 then id + VTAP_FLOW_PORT_1S else id).
Proof.
  intros Hp Ht Hf. pose proof (DocumentExpand_runs doc t p Hp Ht Hf) as H. apply runs_exists in H.
  destruct H as ([ok doc'] & p' & Hrun & f' & Hd & (Hp' & _) & Hi & _). cbn [fst snd] in *. subst doc'.
  exists ok, f', p'. cbv zeta. split_and!; [done..|]. intros c id Hin Hc.
  unfold Document_TableID. cbn [set_Tagger Doc_Tagger Flags].
  rewrite (stored_code_agent _ _ c id Hin Hc).
  rewrite (agent_code_table _ c id _ _ _ Hin Hc). done.
Qed.

(** C12: The expansion refuses a received document, which has no regions yet, exactly when
    this server has a region and the platform data puts the side that counts in another,
    known region; it counts each document it refuses.  The only side of a document counts; of two sides, the one that
    the document was captured on, so that a document captured elsewhere than at the
    client or the server is never refused, nor is one of the Internet alone or a minute
    document of access control, which are not looked up.  A document that passes
    has the regions of its sides; a multicast address that is not known takes that of the
    other side, and does not count. *)
Theorem expand_region {P} `{!PlatformInfoTable P} `{!PlatformLaws P} (doc : Document) (t : Tag) (p : P) :
  platform_ok p -> Doc_Tagger doc = TTag t -> regions (Tag_Field t) = (0, 0) ->
  exists info info1 p1 f' p' code, doc_lookups (Doc_Meter doc) t p = Some ((info, info1), p1) /\
    let ok := negb (refused (u16 (QueryRegionID p)) t info info1) in
    DocumentExpand doc p = Some ((ok, set_Tagger doc (mkTag f' code "")), p') /\
    QueryRegionID p' = QueryRegionID p /\
    others p' = (if ok then others p else i64 (others p + 1)) /\
    (ok = true -> regions f' = known_regions t info info1).
Proof.
  intros Hp Ht Hf. destruct (DocumentExpand_decides doc t p Hp Ht Hf) as (info & info1 & p1 & El & H). apply runs_exists in H.
  destruct H as ([ok doc'] & p' & Hrun & f' & Hd & (_ & Hr & Ho) & _ & _ & Eok & Hreg). cbn [fst snd] in *. subst doc'.
  exists info, info1, p1, f', p', (stored_code (Doc_Meter doc) (Tag_Code t)). cbv zeta. rewrite <- Eok. by split_and!.
Qed.

(** * Platform data of two regions

    An address belongs to the region of its last byte, unless that is zero. *)

Record two_regions := mkRegions { my_region : Z; foreign_count : Z }.

Definition region_info (n : Z) : option Info :=
  if n mod 256 =? 0 then None
  else Some (mkInfo 0 0 0 "" 3 0 (n mod 256) 1 7 4 0 0 0 0 0 5 false false None).

#[export] Instance two_regions_table : PlatformInfoTable two_regions := {|
  QueryRegionID := my_region;
  AddOtherRegion p := mkRegions (my_region p) (i64 (foreign_count p + 1));
  QueryMacInfo mac := mret (region_info mac);
  QueryMacInfosPair mac0 mac1 := mret (region_info mac0, region_info mac1);
  QueryIPV4Infos _ ip := mret (region_info ip);
  QueryIPV6Infos _ ip := mret (region_info (byte_at ip 15));
  QueryIPV4InfosPair _ ip0 _ ip1 := mret (region_info ip0, region_info ip1);
  QueryIPV6InfosPair _ ip0 _ ip1 := mret (region_info (byte_at ip0 15), region_info (byte_at ip1 15));
  QueryIsKeyServiceAndID _ _ _ port := mret (port =? 443, 9);
  QueryIPv6IsKeyServiceAndID _ _ _ port := mret (port =? 443, 9)
|}.

#[export] Instance two_regions_laws : PlatformLaws two_regions.
Proof. by refine {| platform_ok := fun _ => True; others := foreign_count |}. Defined.

(** A captured pair of addresses: the client of region 2, the server of region 1. *)
Definition edge_field (side : Z) : Field :=
  mkField 0 [] 0 258 5 0 0 0 0 0 0 0 0 0 0 0 0 0 0 0 0 0 0 0 [] 257 6 0 0 0 0 0 0 0 0 0 0 0 0 0 0 0 0 0 0
    0 0 6 443 12 5 side 3 0 0 20 0 0.

Definition edge_document (side flags : Z) : Document :=
  mkDocument 1 1000 (TTag (mkTag (edge_field side) (andnot VTAP_FLOW_EDGE_PORT added) ""))
    (MFlow (mkFlowMeter (mkTraffic 1 2 3 4 5 6 7 8 9 10 11 12)
       (mkLatency 0 0 0 0 0 0 0 0 0 0 0 0 0 0 0 0 0 0) (mkPerformance 0 0 0 0)
       (mkAnomaly 0 0 0 0 0 0 0 0 0 0 0 0 0 0 0) (mkFlowLoad 0))) flags.

Example expand_tables_witness :
  exists ok doc' p', DocumentExpand (edge_document Server 1) (mkRegions 1 0) = Some ((ok, doc'), p') /\
    Document_TableID doc' = Done VTAP_FLOW_EDGE_PORT_1S.
Proof.
  destruct (expand_tables (edge_document Server 1)
    (mkTag (edge_field Server) (andnot VTAP_FLOW_EDGE_PORT added) "") (mkRegions 1 0))
    as (ok & f' & p' & Hrun & _ & _ & Ht); [exact I|reflexivity|reflexivity|].
  eexists ok, _, p'. split; [exact Hrun|].
  rewrite (Ht (andnot VTAP_FLOW_EDGE_PORT added) VTAP_FLOW_EDGE_PORT_1M).
  - reflexivity.
  - unfold agent_codes. right. left.
  - reflexivity.
Defined.

Example expand_region_witness :
  exists f' p' code,
    DocumentExpand (edge_document Client 0) (mkRegions 1 0)
    = Some ((false, set_Tagger (edge_document Client 0) (mkTag f' code "")), p') /\
    foreign_count p' = 1 /\ Field_RegionID f' = 2.
Proof.
  destruct (expand_region (edge_document Client 0)
    (mkTag (edge_field Client) (andnot VTAP_FLOW_EDGE_PORT added) "") (mkRegions 1 0))
    as (info & info1 & p1 & f' & p' & code & El & Hrun & _ & Ho & Hj); [exact I|reflexivity|reflexivity|].
  vm_compute in El. injection El as <- <- <-. cbv zeta in Hrun, Ho. change (negb _) with false in Hrun, Ho.
  exists f', p', code. split; [exact Hrun|]. split; [exact Ho|]. vm_compute in Hrun. by injection Hrun as <- _ _.
Defined.
