(* ===== verification/Roze.v ===== *)
(** The metrics pipeline of [server/ingester/roze]: a thread decodes the documents
    of received buffers, expands them, counts them and hands them in batches to
    the writer of the database ([unmarshaller/unmarshaller.go]), which gives each
    document to the ClickHouse writer of its table ([dbwriter/dbwriter.go]).

    The thread runs over a state that also holds the platform data, the database
    writer and a clock; released documents and buffers are recorded in it. *)

From S2P Require Import Prelude Strconv LineProto Codec Queue Ckdb Meter Tag TagMini Document.
From S2P Require Import Expand CKWriter.

#[local] Open Scope string_scope.
#[local] Open Scope list_scope.
#[local] Open Scope Z_scope.

(** * The database writer *)

Section DbWriter.
Context {Conn : Type}.

Record DbWriter := mkDbWriter { ckwriters : list (CKWriter Conn Document) }.

(** The loop that sorts the documents by table; a document without a table is
    skipped.  [None] is a panic: of [TableID], or of an index beyond the array. *)
Fixpoint sort_documents (items : list Document) (cached : list (list Document))
    : option (list (list Document)) :=
  match items with
  | [] => Some cached
  | doc :: items =>
      match Document_TableID doc with
      | Panic => None
      | Error => sort_documents items cached
      | Done id =>
          cache ← cached !! Z.to_nat id;
          sort_documents items (<[Z.to_nat id := cache ++ [doc]]> cached)
      end
  end.

(** [for i, cache := range caches]: the caches that are not empty go to the writers
    of the same index. *)
Fixpoint put_caches (i : nat) (cached : list (list Document)) (w : list (CKWriter Conn Document))
    : option (list (CKWriter Conn Document)) :=
  match cached with
  | [] => Some w
  | cache :: cached =>
      if 0 <? zlen cache then
        writer ← w !! i;
        writer ← CKWriter.Put writer cache;
        put_caches (S i) cached (<[i := writer]> w)
      else put_caches (S i) cached w
  end.

Definition DbWriter_Put (w : DbWriter) (items : list Document) : option DbWriter :=
  cached ← sort_documents items (replicate (Z.to_nat VTAP_TABLE_ID_MAX) []);
  writers ← put_caches 0 cached (ckwriters w);
  Some (mkDbWriter writers).
End DbWriter.

Arguments DbWriter : clear implicits.

Record CKWriterConfig := mkConfig {
  QueueCount : Z;
  QueueSize : Z;
  BatchSize : Z;
  FlushTimeout : Z
}.

Definition CK_VERSION : string := "v6.1.1.5".

Definition table_counterName (id : Z) : string :=
  if (VTAP_FLOW_PORT_1S <=? id) && (id <=? VTAP_FLOW_EDGE_PORT_1S) then "metrics_1s"
  else if (VTAP_APP_PORT_1S <=? id) && (id <=? VTAP_APP_EDGE_PORT_1S) then "app_1s"
  else if (VTAP_APP_PORT_1M <=? id) && (id <=? VTAP_APP_EDGE_PORT_1M) then "app_1m"
  else "metrics_1m".

Section NewDbWriter.
Context {World Conn B : Type} `{!Driver World Conn B}.

(** One writer for each table; [None] is an error. *)
Fixpoint new_writers (primaryAddr secondaryAddr user password : string) (replicaEnabled : bool)
    (cfg : CKWriterConfig) (tables : list Table) : ST World (option (list (CKWriter Conn Document))) :=
  match tables with
  | [] => mret (Some [])
  | table :: tables =>
      r ← NewCKWriter primaryAddr secondaryAddr user password (table_counterName (ID table)) table
            replicaEnabled (QueueCount cfg) (QueueSize cfg) (BatchSize cfg) (FlushTimeout cfg);
      match (r : option (CKWriter Conn Document * bool)) with
      | None => mret None
      | Some (w, _) =>
          ws ← new_writers primaryAddr secondaryAddr user password replicaEnabled cfg tables;
          mret (cons w <$> (ws : option (list (CKWriter Conn Document))))
      end
  end.

(** [metricsTables] is the table list that [GetMetricsTables] has built before. *)
Definition NewDbWriter (metricsTables : option (list Table))
    (primaryAddr secondaryAddr user password : string) (replicaEnabled : bool) (cfg : CKWriterConfig)
    : ST World (option (DbWriter Conn)) :=
  let engine := if replicaEnabled then ReplicatedMergeTree else MergeTree in
  r ← of_option (GetMetricsTables metricsTables engine CK_VERSION);
  ws ← new_writers primaryAddr secondaryAddr user password replicaEnabled cfg (fst r);
  mret (mkDbWriter <$> (ws : option (list (CKWriter Conn Document)))).
End NewDbWriter.

(** * The unmarshaller *)

Definition QUEUE_BATCH_SIZE : Z := 1024.
Definition GET_MAX_SIZE : Z := 1024.
Definition DOC_TIME_EXCEED : Z := 300.

Record Counter := mkCounter {
  DocCount : Z;
  ErrDocCount : Z;
  AverageDelay : Z;
  MaxDelay : Z;
  MinDelay : Z;
  ExpiredDocCount : Z;
  FutureDocCount : Z;
  DropDocCount : Z;
  FlowPortCount : Z;
  FlowPort1sCount : Z;
  FlowEdgePortCount : Z;
  FlowEdgePort1sCount : Z;
  AclCount : Z;
  OtherCount : Z
}.

Definition new_Counter : Counter := mkCounter 0 0 0 (-3600) 3600 0 0 0 0 0 0 0 0 0.

(** A buffer of the receiver: the message is [Buffer[Begin:End]]. *)
Record RecvBuffer := mkRecvBuffer {
  Recv_Begin : Z;
  Recv_End : Z;
  Recv_Buffer : list Z;
  Recv_IP : list Z;
  Recv_VtapID : Z
}.

Record Unmarshaller := mkUnmarshaller {
  disableSecondWrite : bool;
  unmarshallQueue : OverwriteQueue RecvBuffer;
  queueBatchCache : list Document;
  counter : Counter;
  tableCounter : list Z
}.

Definition NewUnmarshaller (disableSecondWrite : bool) (queue : OverwriteQueue RecvBuffer) : Unmarshaller :=
  mkUnmarshaller disableSecondWrite queue [] new_Counter
    (replicate (Z.to_nat (VTAP_TABLE_ID_MAX + 1)) 0).

Definition max (a b : Z) : Z := if a >? b then a else b.
Definition min (a b : Z) : Z := if a <? b then a else b.

Definition set_counter (u : Unmarshaller) (c : Counter) : Unmarshaller :=
  mkUnmarshaller (disableSecondWrite u) (unmarshallQueue u) (queueBatchCache u) c (tableCounter u).

Definition set_tableCounter (u : Unmarshaller) (l : list Z) : Unmarshaller :=
  mkUnmarshaller (disableSecondWrite u) (unmarshallQueue u) (queueBatchCache u) (counter u) l.

Definition set_values (u : Unmarshaller) (l : list Document) : Unmarshaller :=
  mkUnmarshaller (disableSecondWrite u) (unmarshallQueue u) l (counter u) (tableCounter u).

Definition set_queue (u : Unmarshaller) (q : OverwriteQueue RecvBuffer) : Unmarshaller :=
  mkUnmarshaller (disableSecondWrite u) q (queueBatchCache u) (counter u) (tableCounter u).

(** The counter for a document of this delay, and whether it is within the limits. *)
Definition count_delay (c : Counter) (delay : Z) : bool * Counter :=
  let expired := delay >? DOC_TIME_EXCEED in
  let future := negb expired && (delay <? - DOC_TIME_EXCEED) in
  (negb expired && negb future,
   mkCounter (i64 (DocCount c + 1)) (ErrDocCount c) (i64 (AverageDelay c + delay))
     (max (MaxDelay c) delay) (min (MinDelay c) delay)
     (if expired then i64 (ExpiredDocCount c + 1) else ExpiredDocCount c)
     (if future then i64 (FutureDocCount c + 1) else FutureDocCount c)
     (DropDocCount c) (FlowPortCount c) (FlowPort1sCount c) (FlowEdgePortCount c)
     (FlowEdgePort1sCount c) (AclCount c) (OtherCount c)).

Definition count_error (c : Counter) : Counter :=
  mkCounter (DocCount c) (i64 (ErrDocCount c + 1)) (AverageDelay c) (MaxDelay c) (MinDelay c)
    (ExpiredDocCount c) (FutureDocCount c) (DropDocCount c) (FlowPortCount c) (FlowPort1sCount c)
    (FlowEdgePortCount c) (FlowEdgePort1sCount c) (AclCount c) (OtherCount c).

Definition count_drop (c : Counter) : Counter :=
  mkCounter (DocCount c) (ErrDocCount c) (AverageDelay c) (MaxDelay c) (MinDelay c)
    (ExpiredDocCount c) (FutureDocCount c) (i64 (DropDocCount c + 1)) (FlowPortCount c)
    (FlowPort1sCount c) (FlowEdgePortCount c) (FlowEdgePort1sCount c) (AclCount c) (OtherCount c).

(** [u.tableCounter[id]] *)
Definition table_count (l : list Z) (id : Z) : Z := default 0 (l !! Z.to_nat id).

(** The counter that is reported, and the unmarshaller with the counts that were
    taken set to zero.  Division rounds toward zero. *)
Definition GetCounter (u : Unmarshaller) : Counter * Unmarshaller :=
  let c := counter u in
  let t := tableCounter u in
  let some := negb (DocCount c =? 0) in
  (mkCounter (DocCount c) (ErrDocCount c)
     (if some then i64 (Z.quot (AverageDelay c) (DocCount c)) else AverageDelay c)
     (if some then MaxDelay c else 0) (if some then MinDelay c else 0)
     (ExpiredDocCount c) (FutureDocCount c) (DropDocCount c)
     (table_count t VTAP_FLOW_PORT_1M) (table_count t VTAP_FLOW_PORT_1S)
     (table_count t VTAP_FLOW_EDGE_PORT_1M) (table_count t VTAP_FLOW_EDGE_PORT_1S)
     (table_count t VTAP_ACL_1M) (table_count t VTAP_TABLE_ID_MAX),
   set_tableCounter (set_counter u new_Counter)
     (foldl (fun t id => <[Z.to_nat id := 0]> t) t
        [VTAP_FLOW_PORT_1M; VTAP_FLOW_PORT_1S; VTAP_FLOW_EDGE_PORT_1M; VTAP_FLOW_EDGE_PORT_1S;
         VTAP_ACL_1M; VTAP_TABLE_ID_MAX])).

(** [time.Now().Unix()] *)
Class Clock (W : Type) := Unix : W -> Z * W.

Record state (P W Conn : Type) := mkState {
  self : Unmarshaller;
  platformData : P;
  dbwriter : DbWriter Conn;
  decoder : SimpleDecoder;
  pbDoc : pb_Document;
  clock : W;
  released : list Document;
  released_buffers : list RecvBuffer
}.
Arguments mkState {P W Conn}.
Arguments self {P W Conn}.
Arguments platformData {P W Conn}.
Arguments dbwriter {P W Conn}.
Arguments decoder {P W Conn}.
Arguments pbDoc {P W Conn}.
Arguments clock {P W Conn}.
Arguments released {P W Conn}.
Arguments released_buffers {P W Conn}.

Section Unmarshaller.
Context {P W Conn : Type} `{!PlatformInfoTable P} `{!Clock W} `{!PBCodec pb_Document}.

Definition M : Type -> Type := ST (state P W Conn).

Definition update (f : Unmarshaller -> Unmarshaller) : M unit :=
  modify (fun s => mkState (f (self s)) (platformData s) (dbwriter s) (decoder s) (pbDoc s) (clock s)
                     (released s) (released_buffers s)).

Definition set_decoder (d : SimpleDecoder) (p : pb_Document) : M unit :=
  modify (fun s => mkState (self s) (platformData s) (dbwriter s) d p (clock s) (released s)
                     (released_buffers s)).

Definition ReleaseDoc (d : Document) : M unit :=
  modify (fun s => mkState (self s) (platformData s) (dbwriter s) (decoder s) (pbDoc s) (clock s)
                     (released s ++ [d]) (released_buffers s)).

Definition ReleaseRecvBuffer (b : RecvBuffer) : M unit :=
  modify (fun s => mkState (self s) (platformData s) (dbwriter s) (decoder s) (pbDoc s) (clock s)
                     (released s) (released_buffers s ++ [b])).

(** Runs a query of the platform data. *)
Definition on_platform {A} (m : ST P A) : M A := fun s =>
  match m (platformData s) with
  | None => None
  | Some (a, p) =>
      Some (a, mkState (self s) p (dbwriter s) (decoder s) (pbDoc s) (clock s) (released s)
                 (released_buffers s))
  end.

Definition db_put (items : list Document) : M unit := fun s =>
  match DbWriter_Put (dbwriter s) items with
  | None => None
  | Some w =>
      Some (tt, mkState (self s) (platformData s) w (decoder s) (pbDoc s) (clock s) (released s)
                  (released_buffers s))
  end.

Definition isGoodDocument (docTime : Z) : M bool := fun s =>
  let '(now, c) := Unix (clock s) in
  let '(good, cnt) := count_delay (counter (self s)) (i64 (now - docTime)) in
  Some (good, mkState (set_counter (self s) cnt) (platformData s) (dbwriter s) (decoder s) (pbDoc s)
                c (released s) (released_buffers s)).

Definition putStoreQueue (doc : Document) : M unit :=
  s ← get_state;
  let values := queueBatchCache (self s) ++ [doc] in
  if zlen values >=? QUEUE_BATCH_SIZE
  then db_put values ;; update (fun u => set_values u [])
  else update (fun u => set_values u values).

Definition flushStoreQueue : M unit :=
  s ← get_state;
  if 0 <? zlen (queueBatchCache (self s))
  then db_put (queueBatchCache (self s)) ;; update (fun u => set_values u [])
  else mret tt.

(** A document that is not stored. *)
Definition drop_document (doc : Document) : M unit :=
  update (fun u => set_counter u (count_drop (counter u))) ;; ReleaseDoc doc.

(** What is done with a decoded document. *)
Definition handle_document (doc : Document) : M unit :=
  isGoodDocument (Timestamp doc) ;;
  s ← get_state;
  if disableSecondWrite (self s) && negb (Z.land (Flags doc) FLAG_PER_SECOND_METRICS =? 0)
  then ReleaseDoc doc
  else
    r ← on_platform (DocumentExpand doc);
    let '(ok, doc) := (r : bool * Document) in
    if negb ok then drop_document doc
    else
      match Document_TableID doc with
      | Panic => panic
      | Error => drop_document doc
      | Done id =>
          s ← get_state;
          n ← of_option (tableCounter (self s) !! Z.to_nat id);
          update (fun u => set_tableCounter u (<[Z.to_nat id := i64 (n + 1)]> (tableCounter u))) ;;
          putStoreQueue doc
      end.

(** One round of the loop over a buffer: [false] when the loop is left. *)
Definition decode_document : M bool :=
  s ← get_state;
  p ← of_option (ResetAll (pbDoc s));
  let '(d, p, r) := DecodePB (decoder s) p in
  set_decoder d p ;;
  match r with
  | Panic => panic
  | Error => update (fun u => set_counter u (count_error (counter u))) ;; mret false
  | Done doc => handle_document doc ;; mret true
  end.

(** The loop over a buffer; [true] when it has ended, [false] when the rounds were
    not enough. *)
Fixpoint decode_loop (rounds : nat) : M bool :=
  match rounds with
  | O => mret false
  | S rounds =>
      s ← get_state;
      if Failed (decoder s) || IsEnd (decoder s) then mret true
      else
        go ← decode_document;
        if negb go then mret true else decode_loop rounds
  end.

(** Every round takes four bytes at least. *)
Definition handle_buffer (b : RecvBuffer) : M unit :=
  if (0 <=? Recv_Begin b) && (Recv_Begin b <=? Recv_End b) && (Recv_End b <=? zlen (Recv_Buffer b)) then
    let bytes := slice (Recv_Buffer b) (Recv_Begin b) (Recv_End b - Recv_Begin b) in
    s ← get_state;
    set_decoder (Decoder_Init bytes) (pbDoc s) ;;
    decode_loop (S (length bytes)) ;;
    ReleaseRecvBuffer b
  else panic.

(** An item of the queue; nil is the flush ticker. *)
Definition handle_value (value : option RecvBuffer) : M unit :=
  match value with
  | Some b => handle_buffer b
  | None => flushStoreQueue
  end.

(** One round of [QueueProcess]; [false] when the read blocks. *)
Definition QueueProcess_round : M bool :=
  s ← get_state;
  match Gets (unmarshallQueue (self s)) GET_MAX_SIZE with
  | Panicked => panic
  | Blocked => mret false
  | Returned values q =>
      update (fun u => set_queue u q) ;;
      for_each handle_value values ;;
      mret true
  end.
End Unmarshaller.
