(* ===== verification/RozeFacts.v ===== *)
(** Facts of the metrics pipeline ([Roze.v]): what becomes of the documents of a
    received buffer. *)

From S2P Require Import Prelude Strconv LineProto Codec CodecFacts Queue QueueFacts Ckdb CkdbFacts.
From S2P Require Import Meter MeterFacts Tag TagFacts TagMini Document DocumentWire DocumentFacts.
From S2P Require Import Expand ExpandFacts CKWriter CKWriterFacts Roze.

#[local] Open Scope string_scope.
#[local] Open Scope list_scope.
#[local] Open Scope Z_scope.

(** * The database writer *)

Section DbWriter.
Context {Conn : Type}.
Implicit Types (docs : list Document) (w : CKWriter Conn Document).

(** A writer that can take items. *)
Definition writer_ok w : Prop :=
  1 <= queueCount w <= MAX_QUEUE_COUNT /\
  NewOverwriteQueues_table (queueCount w) = Some (entries (dataQueues w)) /\
  length (queues (dataQueues w)) = Z.to_nat (queueCount w).

Lemma Put_total w docs : writer_ok w -> exists w', CKWriter.Put w docs = Some w' /\ writer_ok w'.
Proof.
  intros (Hc & Ht & Hq). unfold CKWriter.Put. cbv zeta. pose proof Hc as Hc'. change MAX_QUEUE_COUNT with 16 in Hc'.
  destruct (Z.eqb_spec (queueCount w) 0) as [|_]; [lia|].
  set (key := u8 _). destruct (table_entry (queueCount w) Hc) as (table & Ht' & Hkey).
  rewrite Ht in Ht'. injection Ht' as <-.
  destruct (Hkey key (wrap_range 8 _ ltac:(lia))) as (i & Hi & Hr & _).
  destruct (lookup_lt_is_Some_2 (queues (dataQueues w)) (Z.to_nat i)) as [queue Hqueue]; [lia|].
  unfold Multi_Put, on_entry. rewrite Hi. cbn [mbind option_bind]. rewrite Hqueue. cbn [mbind option_bind].
  destruct (Queue.Put queue (Some <$> docs)) as [err queue'].
  eexists. split; [done|]. unfold writer_ok. cbn [set_dataQueues queueCount dataQueues entries queues].
  rewrite length_insert. done.
Qed.

(** The documents of a table, in order. *)
Definition in_table (i : nat) (d : Document) : bool :=
  match Document_TableID d with Done id => id =? Z.of_nat i | _ => false end.

Definition of_table (i : nat) docs : list Document := List.filter (in_table i) docs.

(** A document with a table. *)
Definition storable (d : Document) : Prop :=
  exists id, Document_TableID d = Done id /\ 0 <= id < VTAP_TABLE_ID_MAX.

Lemma sort_documents_spec docs (cached : list (list Document)) :
  Forall storable docs -> length cached = Z.to_nat VTAP_TABLE_ID_MAX ->
  exists cached', sort_documents docs cached = Some cached' /\ length cached' = length cached /\
    forall i c, cached !! i = Some c -> cached' !! i = Some (c ++ of_table i docs).
Proof.
  intros Hd. revert cached. induction Hd as [|d docs (id & Hid & Hr) Hd IH]; intros cached Hl.
  - exists cached. split_and!; [done..|]. intros i c Hc. cbn. by rewrite app_nil_r.
  - cbn [sort_documents]. rewrite Hid. unfold VTAP_TABLE_ID_MAX in *.
    destruct (lookup_lt_is_Some_2 cached (Z.to_nat id)) as [c0 Hc0]; [lia|]. rewrite Hc0. cbn [mbind option_bind].
    destruct (IH (<[Z.to_nat id := c0 ++ [d]]> cached)) as (cached' & Hs & Hlen & Hi);
      [by rewrite length_insert|]. rewrite length_insert in Hlen.
    exists cached'. split_and!; [done|done|]. intros i c Hc. unfold of_table. cbn [List.filter].
    unfold in_table at 1. rewrite Hid. destruct (Z.eqb_spec id (Z.of_nat i)) as [->|Hne].
    + rewrite Nat2Z.id in *. rewrite Hc0 in Hc. injection Hc as <-.
      rewrite (Hi i (c0 ++ [d])) by (apply list_lookup_insert_eq; by eapply lookup_lt_Some).
      by rewrite <- app_assoc.
    + apply Hi. rewrite list_lookup_insert_ne by lia. done.
Qed.

(** A document beyond the tables. *)
Lemma sort_documents_panics docs (cached : list (list Document)) d id :
  d ∈ docs -> Document_TableID d = Done id -> VTAP_TABLE_ID_MAX <= id ->
  length cached = Z.to_nat VTAP_TABLE_ID_MAX -> sort_documents docs cached = None.
Proof.
  intros Hin Hid Hr. revert cached. induction docs as [|d' docs IH]; intros cached Hl; [by apply elem_of_nil in Hin|].
  cbn [sort_documents]. apply elem_of_cons in Hin as [<-|Hin].
  - rewrite Hid, lookup_ge_None_2 by (unfold VTAP_TABLE_ID_MAX in *; lia). done.
  - destruct (Document_TableID d') as [id'| |]; [|by apply IH|done].
    destruct (cached !! Z.to_nat id') as [c|]; [|done]. cbn [mbind option_bind]. apply IH; [done|].
    by rewrite length_insert.
Qed.

Lemma put_caches_total i cached (ws : list (CKWriter Conn Document)) :
  (i + length cached <= length ws)%nat -> Forall writer_ok ws ->
  exists ws', put_caches i cached ws = Some ws' /\ length ws' = length ws /\ Forall writer_ok ws'.
Proof.
  revert i ws. induction cached as [|c cached IH]; intros i ws Hl Hw; cbn [put_caches].
  - by exists ws.
  - cbn in Hl. destruct (0 <? zlen c); [|by apply IH; [lia|]].
    destruct (lookup_lt_is_Some_2 ws i) as [w Hwi]; [lia|]. rewrite Hwi. cbn [mbind option_bind].
    destruct (Put_total w c) as (w' & Hp & Hw'); [by eapply Forall_lookup_1|]. rewrite Hp. cbn [mbind option_bind].
    destruct (IH (S i) (<[i := w']> ws)) as (ws' & Hs & Hlen & Hok).
    + rewrite length_insert. lia.
    + by apply Forall_insert.
    + exists ws'. by rewrite length_insert in Hlen.
Qed.

Definition db_ok (w : DbWriter Conn) : Prop :=
  length (ckwriters w) = Z.to_nat VTAP_TABLE_ID_MAX /\ Forall writer_ok (ckwriters w).

Lemma DbWriter_Put_total (w : DbWriter Conn) docs :
  db_ok w -> Forall storable docs -> exists db', DbWriter_Put w docs = Some db' /\ db_ok db'.
Proof.
  intros [Hl Hw] Hd. unfold DbWriter_Put.
  destruct (sort_documents_spec docs (replicate (Z.to_nat VTAP_TABLE_ID_MAX) [])) as (cached & Hs & Hlen & _);
    [done|by rewrite length_replicate|]. rewrite Hs. cbn [mbind option_bind]. rewrite length_replicate in Hlen.
  destruct (put_caches_total 0 cached (ckwriters w)) as (ws & Hp & Hl' & Hw'); [lia|done|]. rewrite Hp.
  exists (mkDbWriter ws). split; [done|]. split; [|done]. cbn. lia.
Qed.

(** What the writer [k] is given of the caches from [i] on, and what it does with it. *)
Definition given (i k : nat) (cached : list (list Document)) : list Document :=
  if (k <? i)%nat then [] else default [] (cached !! (k - i)%nat).

Definition takes w docs (w' : CKWriter Conn Document) : Prop :=
  match docs with [] => w' = w | _ => CKWriter.Put w docs = Some w' end.

Lemma given_cons i k c cached :
  given i k (c :: cached) = if decide (k = i) then c else given (S i) k cached.
Proof.
  unfold given. case_decide as Hk.
  - subst k. by rewrite Nat.ltb_irrefl, Nat.sub_diag.
  - destruct (Nat.ltb_spec k i); destruct (Nat.ltb_spec k (S i)); [done|lia|lia|].
    by replace (k - i)%nat with (S (k - S i)) by lia.
Qed.

Lemma given_before i cached : given (S i) i cached = [].
Proof. unfold given. by rewrite (proj2 (Nat.ltb_lt i (S i))) by lia. Qed.

Lemma put_caches_spec i cached (ws ws' : list (CKWriter Conn Document)) :
  put_caches i cached ws = Some ws' ->
  forall k w, ws !! k = Some w -> exists w', ws' !! k = Some w' /\ takes w (given i k cached) w'.
Proof.
  revert i ws. induction cached as [|c cached IH]; intros i ws; cbn [put_caches].
  - intros [= ->] k w Hw. exists w. split; [done|]. unfold given. by destruct (k <? i)%nat.
  - intros H k w Hw. rewrite given_cons. destruct (Z.ltb_spec 0 (zlen c)) as [Hc|Hc].
    + destruct (ws !! i) as [wi|] eqn:Hi; [|done]. cbn [mbind option_bind] in H.
      destruct (CKWriter.Put wi c) as [wi'|] eqn:Hput; [|done]. cbn [mbind option_bind] in H. case_decide as Hk.
      * subst k. rewrite Hi in Hw. injection Hw as <-.
        destruct (IH _ _ H i wi') as (w' & Hw' & Ht); [by apply list_lookup_insert_eq, (lookup_lt_Some _ _ wi)|].
        rewrite given_before in Ht. cbn in Ht. subst w'. exists wi'. split; [done|]. by destruct c.
      * apply (IH _ _ H). by rewrite list_lookup_insert_ne by lia.
    + destruct c as [|d c]; [|rewrite zlen_cons in Hc; pose proof (zlen_nonneg c); lia].
      case_decide as Hk; [|by apply (IH _ _ H)].
      subst k. destruct (IH _ _ H i w Hw) as (w' & Hw' & Ht). rewrite given_before in Ht. eauto.
Qed.
End DbWriter.

(** A new database writer can take every batch. *)
Section NewDbWriter.
Context {World Conn B : Type} `{!Driver World Conn B}.

Lemma new_writers_ok pa sa u p replica cfg tables (s s' : World) (ws : list (CKWriter Conn Document)) :
  1 <= QueueCount cfg <= MAX_QUEUE_COUNT -> 0 <= QueueSize cfg <= 2 ^ 31 ->
  new_writers pa sa u p replica cfg tables s = Some (Some ws, s') ->
  length ws = length tables /\ Forall writer_ok ws.
Proof.
  intros Hc Hs. revert s s' ws. induction tables as [|t tables IH]; intros s s' ws; cbn [new_writers].
  - intros [= <- _]. done.
  - unfold mbind at 1, ST_bind at 1.
    destruct (NewCKWriter _ _ _ _ _ _ _ _ _ _ _ s) as [[[[w bg]|] s1]|] eqn:E; [|done..].
    unfold mbind, ST_bind. destruct (new_writers _ _ _ _ _ _ _ s1) as [[[ws'|] s2]|] eqn:E'; [|done..].
    intros [= <- _]. destruct (IH _ _ _ E') as [Hl Hok]. split; [cbn; lia|]. constructor; [|done].
    pose proof (NewCKWriter_new _ _ _ _ _ _ _ _ _ _ _ _ _ _ _ E) as Hnew.
    destruct Hnew as [_ _ _ _ _ Hlen _ _ Hq]. destruct (Hq Hc Hs) as [Q1 Q2 Q3 Q4].
    unfold writer_ok. rewrite Q1, Hlen, wrap_small; [done|]. change MAX_QUEUE_COUNT with 16 in Hc. ranges; lia.
Qed.

Lemma NewDbWriter_ok pa sa u p replica cfg (s s' : World) (db : DbWriter Conn) :
  1 <= QueueCount cfg <= MAX_QUEUE_COUNT -> 0 <= QueueSize cfg <= 2 ^ 31 ->
  NewDbWriter None pa sa u p replica cfg s = Some (Some db, s') -> db_ok db.
Proof.
  intros Hc Hs. unfold NewDbWriter. cbv zeta. set (engine := if replica then _ else _).
  destruct (metrics_tables_first engine CK_VERSION) as (tables & Ht & Hlen & _).
  unfold mbind, ST_bind, of_option. rewrite Ht. cbn [fmap option_fmap option_map fst].
  destruct (new_writers _ _ _ _ _ _ tables s) as [[[ws|] s1]|] eqn:E; [|done..]. intros [= <- _].
  destruct (new_writers_ok _ _ _ _ _ _ _ _ _ _ Hc Hs E) as [Hl Hok]. split; [|done].
  cbn [ckwriters]. unfold zlen in Hlen. lia.
Qed.
End NewDbWriter.

(** * The unmarshaller *)

(** Successive batches for the database. *)
Fixpoint put_all {Conn} (batches : list (list Document)) (db : DbWriter Conn) : option (DbWriter Conn) :=
  match batches with [] => Some db | b :: batches => db ← DbWriter_Put db b; put_all batches db end.

Lemma put_all_app {Conn} b1 b2 (db : DbWriter Conn) :
  put_all (b1 ++ b2) db = (put_all b1 db ≫= put_all b2).
Proof.
  revert db. induction b1 as [|b b1 IH]; intros db; [done|]. cbn.
  destruct (DbWriter_Put db b); cbn; [apply IH|done].
Qed.

Section Unmarshaller.
Context {P W Conn : Type} `{!PlatformInfoTable P} `{!PlatformLaws P} `{!Clock W}.
Implicit Types (s : state P W Conn) (kept dropped : list Document).

Abbreviation cache s := (queueBatchCache (self s)).

Record roze_ok s : Prop := {
  rz_platform : platform_ok (platformData s);
  rz_db : db_ok (dbwriter s);
  rz_pb : is_Some (ResetAll (pbDoc s));
  rz_tables : length (tableCounter (self s)) = Z.to_nat (VTAP_TABLE_ID_MAX + 1);
  rz_cache : zlen (cache s) < QUEUE_BATCH_SIZE;
  rz_storable : Forall storable (cache s);
  rz_count : is_i 64 (DocCount (counter (self s)))
}.

(** What stays the same while documents are handled. *)
Definition setting s := (disableSecondWrite (self s), unmarshallQueue (self s),
  QueryRegionID (platformData s), released_buffers s).

(** The documents [kept] have been put into the cache and whole batches of it into
    the database writer; the documents [dropped] have been released. *)
Record progress kept dropped s s' : Prop := {
  pg_ok : roze_ok s';
  pg_setting : setting s' = setting s;
  pg_batches : exists batches, cache s ++ kept = concat batches ++ cache s' /\
    put_all batches (dbwriter s) = Some (dbwriter s') /\
    Forall (fun b => 0 < zlen b <= QUEUE_BATCH_SIZE) batches;
  pg_released : released s' = released s ++ dropped;
  pg_count : DocCount (counter (self s')) =
    i64 (DocCount (counter (self s)) + zlen kept + zlen dropped)
}.

Lemma progress_none s : roze_ok s -> progress [] [] s s.
Proof.
  intros Hs. split; [done|done| |by rewrite app_nil_r|].
  - exists []. split_and!; [by rewrite app_nil_r|done|constructor].
  - rewrite zlen_nil, !Z.add_0_r, swrap_small; [done|lia|apply Hs].
Qed.

Lemma progress_trans k1 d1 k2 d2 s s1 s2 :
  progress k1 d1 s s1 -> progress k2 d2 s1 s2 -> progress (k1 ++ k2) (d1 ++ d2) s s2.
Proof.
  intros [H1 H2 (b1 & H3 & H4 & H5) H6 H7] [K1 K2 (b2 & K3 & K4 & K5) K6 K7]. split.
  - done.
  - congruence.
  - exists (b1 ++ b2). split_and!.
    + by rewrite app_assoc, H3, <- app_assoc, K3, concat_app, app_assoc.
    + rewrite put_all_app, H4. done.
    + by apply Forall_app.
  - by rewrite K6, H6, app_assoc.
  - rewrite K7, H7, !zlen_app, <- Z.add_assoc, swrap_add_l. f_equal. lia.
Qed.

(** Steps that only touch the rest of the state. *)
Record idle s s' : Prop := {
  id_ok : roze_ok s';
  id_setting : setting s' = setting s;
  id_db : dbwriter s' = dbwriter s;
  id_cache : cache s' = cache s;
  id_released : released s' = released s
}.

Definition same_input s s' : Prop := decoder s' = decoder s /\ pbDoc s' = pbDoc s.

(** Nor do they touch the platform data. *)
Definition same_rest s s' : Prop := same_input s s' /\ platformData s' = platformData s.

Lemma same_input_trans s s1 s2 : same_input s s1 -> same_input s1 s2 -> same_input s s2.
Proof. unfold same_input. intros [] []. split; congruence. Qed.

(** ** Storing *)

Lemma db_put_runs docs s :
  db_ok (dbwriter s) -> Forall storable docs ->
  runs (db_put docs) s (fun _ s' => exists db', DbWriter_Put (dbwriter s) docs = Some db' /\ db_ok db' /\
    s' = mkState (self s) (platformData s) db' (decoder s) (pbDoc s) (clock s) (released s) (released_buffers s)).
Proof.
  intros Hdb Hd. destruct (DbWriter_Put_total _ _ Hdb Hd) as (db' & Hp & Hdb').
  unfold runs, db_put. rewrite Hp. by exists db'.
Qed.

(** A document goes into the cache, or with the whole cache into the database. *)
Lemma putStoreQueue_runs doc s0 s :
  idle s0 s -> storable doc -> DocCount (counter (self s)) = i64 (DocCount (counter (self s0)) + 1) ->
  runs (putStoreQueue doc) s (fun _ s' => same_rest s s' /\ progress [doc] [] s0 s').
Proof.
  intros [[H1 H2 H3 H4 H5 H6 H7] I2 I3 I4 I5] Hd Hcount. apply runs_bind, runs_get. cbv zeta.
  assert (Forall storable (cache s ++ [doc])) as Hall by (apply Forall_app; split; [done|by constructor]).
  pose proof (zlen_nonneg (cache s)) as Hn. rewrite zlen_app. change (zlen [doc]) with 1.
  zcase.
  - apply runs_bind. eapply runs_mono; [by apply db_put_runs|]. intros [] s1 (db' & Hp & Hdb' & ->).
    apply runs_modify. split; [done|]. split; cbn [self]; [|done| |by rewrite app_nil_r, <- I5|by rewrite Z.add_0_r].
    + split; cbn; done.
    + exists [cache s ++ [doc]]. cbn. rewrite !app_nil_r, <- I3, Hp, I4. split_and!; [done|done|].
      repeat constructor; rewrite <- I4, zlen_app; change (zlen [doc]) with 1; unfold QUEUE_BATCH_SIZE in *; lia.
  - apply runs_modify. split; [done|]. split; cbn [self]; [|done| |by rewrite app_nil_r, <- I5|by rewrite Z.add_0_r].
    + split; cbn; try done. rewrite zlen_app. change (zlen [doc]) with 1. lia.
    + exists []. cbn. rewrite <- I4, I3. split_and!; [done|done|constructor].
Qed.

(** ** Handling *)

Definition acl_code : Z := ors [ACLGID; TagType; TagValue; VTAPID].

(** A per-second document of access control: the one kind whose table identifier is
    beyond the tables. *)
Definition acl_second (m : Meter) (code flags : Z) : bool :=
  (strip (stored_code m code) =? acl_code) && (Z.land flags FLAG_PER_SECOND_METRICS =? 1).

Definition has_table (d : Document) : bool :=
  match Document_TableID d with Done _ => true | _ => false end.

Lemma table_storable d t id :
  Doc_Tagger d = TTag t -> (strip (Tag_Code t) =? acl_code) && (Z.land (Flags d) FLAG_PER_SECOND_METRICS =? 1) = false ->
  Document_TableID d = Done id -> 0 <= id < VTAP_TABLE_ID_MAX.
Proof.
  intros Ht Hacl. unfold Document_TableID. rewrite Ht.
  pose proof (TableID_loop_spec metricsTableCodes 0 (Tag_Code t) (Z.land (Flags d) FLAG_PER_SECOND_METRICS =? 1)
    ltac:(lia) ltac:(by vm_compute)) as H. unfold Tag_TableID. destruct (TableID_loop _ _ _ _) as [id'|]; [|done].
  intros [= ->]. destruct H as (k & Hk & Hl & Hfirst & ->). rewrite Z.sub_0_r in *. cbv zeta in *.
  change (andnot (andnot (Tag_Code t) MAC) MACPath) with (strip (Tag_Code t)) in *.
  pose proof (first_code_minute _ _ Hk Hl Hfirst) as Hk5. unfold VTAP_TABLE_ID_MAX, VTAP_FLOW_PORT_1S.
  destruct (Z.land (Flags d) FLAG_PER_SECOND_METRICS =? 1); [|lia]. destruct (Z.eq_dec k 4) as [->|]; [|lia].
  injection Hl as Hl. rewrite andb_true_r in Hacl. apply Z.eqb_neq in Hacl. by destruct Hacl.
Qed.

(** What becomes of a received document, with the platform data before and after: it is
    stored, or released.  It is released when it is a per-second one and those are
    disabled, when the region check refuses it, and when its code is that of no table. *)
Definition fate (disabled : bool) (p : P) (doc : Document) (r : bool * Document) (p' : P) : Prop :=
  if disabled && negb (Z.land (Flags doc) FLAG_PER_SECOND_METRICS =? 0) then r = (false, doc) /\ p' = p
  else exists t info info1 p1 f', Doc_Tagger doc = TTag t /\
    doc_lookups (Doc_Meter doc) t p = Some ((info, info1), p1) /\
    let passes := negb (refused (u16 (QueryRegionID p)) t info info1) in
    DocumentExpand doc p = Some ((passes, r.2), p') /\ r.1 = passes && has_table r.2 /\
    r.2 = set_Tagger doc (mkTag f' (stored_code (Doc_Meter doc) (Tag_Code t)) "") /\
    identity f' = identity (Tag_Field t) /\ (passes = true -> regions f' = known_regions t info info1) /\
    QueryRegionID p' = QueryRegionID p /\ others p' = (if passes then others p else i64 (others p + 1)).

Definition kept_docs (rs : list (bool * Document)) : list Document :=
  snd <$> List.filter fst rs.

Definition dropped_docs (rs : list (bool * Document)) : list Document :=
  snd <$> List.filter (fun r => negb r.1) rs.

Lemma isGoodDocument_runs ts s :
  roze_ok s ->
  runs (isGoodDocument ts) s (fun _ s' => same_rest s s' /\ idle s s' /\
    DocCount (counter (self s')) = i64 (DocCount (counter (self s)) + 1)).
Proof.
  intros [H1 H2 H3 H4 H5 H6 H7]. unfold runs, isGoodDocument. destruct (Unix (clock s)) as [now c].
  unfold count_delay. cbv zeta. split; [done|]. split; [|done].
  split; try done. split; cbn [self platformData dbwriter pbDoc tableCounter set_counter queueBatchCache counter DocCount];
    try done. by apply swrap_range.
Qed.

(** Releasing a document that was counted. *)
Lemma release_progress doc s0 s :
  idle s0 s -> DocCount (counter (self s)) = i64 (DocCount (counter (self s0)) + 1) ->
  runs (ReleaseDoc doc) s (fun _ s' => same_rest s s' /\ progress [] [doc] s0 s').
Proof.
  intros [[H1 H2 H3 H4 H5 H6 H7] I2 I3 I4 I5] Hc. apply runs_modify. split; [done|].
  split; cbn [self released]; [by split|done| |by rewrite I5|by rewrite Hc, Z.add_0_r].
  exists []. cbn. rewrite app_nil_r, I3, I4. split_and!; [done|done|constructor].
Qed.

Lemma drop_progress doc s0 s :
  idle s0 s -> DocCount (counter (self s)) = i64 (DocCount (counter (self s0)) + 1) ->
  runs (drop_document doc) s (fun _ s' => same_rest s s' /\ progress [] [doc] s0 s').
Proof.
  intros [[H1 H2 H3 H4 H5 H6 H7] I2 I3 I4 I5] Hc. apply runs_bind, runs_modify.
  set (s1 := mkState _ _ _ _ _ _ _ _). apply (release_progress doc s0 s1); [|done]. by split.
Qed.

Lemma on_platform_runs {A} (m : ST P A) s a p Q :
  m (platformData s) = Some (a, p) ->
  Q a (mkState (self s) p (dbwriter s) (decoder s) (pbDoc s) (clock s) (released s) (released_buffers s)) ->
  runs (on_platform m) s Q.
Proof. intros E H. unfold runs, on_platform. by rewrite E. Qed.

(** The steps after the expansion. *)
Lemma route_runs doc t s0 s :
  idle s0 s -> DocCount (counter (self s)) = i64 (DocCount (counter (self s0)) + 1) ->
  Doc_Tagger doc = TTag t -> (strip (Tag_Code t) =? acl_code) && (Z.land (Flags doc) FLAG_PER_SECOND_METRICS =? 1) = false ->
  runs (match Document_TableID doc with
        | Panic => panic
        | Error => drop_document doc
        | Done id =>
            s ← get_state;
            n ← of_option (tableCounter (self s) !! Z.to_nat id);
            update (fun u => set_tableCounter u (<[Z.to_nat id := i64 (n + 1)]> (tableCounter u))) ;;
            putStoreQueue doc
        end) s
    (fun _ s' => same_rest s s' /\
       progress (kept_docs [(has_table doc, doc)]) (dropped_docs [(has_table doc, doc)]) s0 s').
Proof.
  intros Hs Hc Ht Hacl. unfold has_table. destruct (Document_TableID doc) as [id| |] eqn:Hid.
  - pose proof (table_storable doc t id Ht Hacl Hid) as Hr. apply runs_bind, runs_get, runs_bind.
    pose proof (rz_tables _ (id_ok _ _ Hs)) as Hlen. unfold VTAP_TABLE_ID_MAX in *.
    destruct (lookup_lt_is_Some_2 (tableCounter (self s)) (Z.to_nat id)) as [n Hn]; [lia|].
    apply (runs_of_option _ n); [done|]. apply runs_bind, runs_modify. set (s1 := mkState _ _ _ _ _ _ _ _).
    eapply runs_mono; [apply (putStoreQueue_runs doc s0 s1); [|by exists id|done]|done].
    destruct Hs as [[] I2 I3 I4 I5]. split; try done. split; try done. cbn. by rewrite length_insert.
  - by apply (drop_progress doc s0).
  - unfold Document_TableID in Hid. rewrite Ht in Hid. by destruct (Tag_TableID _ _).
Qed.

Lemma handle_document_runs doc t s :
  roze_ok s -> Doc_Tagger doc = TTag t -> regions (Tag_Field t) = (0, 0) ->
  acl_second (Doc_Meter doc) (Tag_Code t) (Flags doc) = false ->
  runs (handle_document doc) s (fun _ s' => same_input s s' /\
    exists r, fate (disableSecondWrite (self s)) (platformData s) doc r (platformData s') /\
      progress (kept_docs [r]) (dropped_docs [r]) s s').
Proof.
  intros Hs Ht Hf Hacl. apply runs_bind. eapply runs_mono; [by apply isGoodDocument_runs|].
  intros good s1 ((Hin1 & Hp1) & H1 & Hc1). apply runs_bind, runs_get.
  assert (disableSecondWrite (self s1) = disableSecondWrite (self s)) as Hdis
    by (pose proof (id_setting _ _ H1) as E; unfold setting in E; congruence).
  unfold fate. rewrite <- Hdis. destruct (disableSecondWrite (self s1) && _).
  { eapply runs_mono; [by apply (release_progress doc s)|]. intros [] s2 ((Hin & Hp2) & Hpg).
    split; [by apply (same_input_trans _ s1)|]. exists (false, doc). split; [|done]. split; congruence. }
  destruct (DocumentExpand_decides doc t (platformData s1)) as (info & info1 & p1 & El & Hexp); [apply H1|done|done|].
  apply runs_exists in Hexp as ([ok doc''] & p' & Ee & f' & Hd' & (Hok & Hr' & Ho') & Hi & _ & Eok & Hreg).
  cbn [fst snd] in *. subst doc''. apply runs_bind. eapply on_platform_runs; [exact Ee|].
  set (doc' := set_Tagger doc _) in *. set (s2 := mkState _ p' _ _ _ _ _ _). rewrite Hp1 in *.
  assert (idle s s2) as H2.
  { destruct H1 as [[] I2 I3 I4 I5]. split; [by split| |done..]. rewrite <- I2. unfold setting. cbn. by rewrite Hr', Hp1. }
  assert (same_input s s2) as Hin2 by exact Hin1.
  destruct ok; cbn [negb].
  - eapply runs_mono; [by apply (route_runs doc' (mkTag f' (stored_code (Doc_Meter doc) (Tag_Code t)) "") s s2)|].
    intros [] s3 ((Hin3 & Hp3) & Hpg). split; [by apply (same_input_trans _ s2)|]. rewrite Hp3.
    exists (has_table doc', doc'). split; [|exact Hpg]. exists t, info, info1, p1, f'. cbv zeta. rewrite <- Eok. by split_and!.
  - eapply runs_mono; [by apply (drop_progress doc' s s2)|]. intros [] s3 ((Hin3 & Hp3) & Hpg).
    split; [by apply (same_input_trans _ s2)|]. rewrite Hp3.
    exists (false, doc'). split; [|exact Hpg]. exists t, info, info1, p1, f'. cbv zeta. rewrite <- Eok. by split_and!.
Qed.

(** ** Decoding *)

Context `{HL : DocumentLaws}.

(** A document as an agent sends it, and the bytes it is sent as. *)
Record agent_doc := mkAgentDoc { ad_time : Z; ad_tag : MiniTag; ad_meter : Meter; ad_flags : Z }.

Definition ad_message (a : agent_doc) : pb_Document := DocumentFacts.sent (ad_time a) (ad_tag a) (ad_meter a) (ad_flags a).

Definition wire (a : agent_doc) : list Z :=
  le_put 4 (zlen (pb_bytes (ad_message a))) ++ pb_bytes (ad_message a).

Definition received_doc (a : agent_doc) : Document :=
  mkDocument 1 (ad_time a) (TTag (received (ad_tag a))) (ad_meter a) (ad_flags a).

Record agent_ok (a : agent_doc) : Prop := {
  ag_field : MiniField_ok (MiniTag_Field (ad_tag a));
  ag_flags : is_u 32 (ad_flags a);
  ag_valid : pb_valid (ad_message a);
  ag_size : zlen (pb_bytes (ad_message a)) < 2 ^ 32;
  ag_acl : acl_second (ad_meter a) (received_code (MiniTag_Code (ad_tag a))) (ad_flags a) = false
}.

Lemma wire_length a : (4 <= length (wire a))%nat.
Proof.
  unfold wire. rewrite length_app. pose proof (le_put_zlen 4 (zlen (pb_bytes (ad_message a))) ltac:(lia)) as Hl.
  unfold zlen in Hl at 1. lia.
Qed.

Lemma ResetAll_again d d' : ResetAll d = Some d' -> is_Some (ResetAll d').
Proof.
  intros Hr. apply ResetAll_complete. unfold ResetAll in Hr.
  repeat (apply bind_Some in Hr as (? & ? & Hr)). injection Hr as <-. cbn. split_and!; eauto.
Qed.

Lemma DecodePB_sent a pre (rest : list Z) r :
  agent_ok a -> pb_ready r -> is_Some (ResetAll r) ->
  exists r', DecodePB (mkDecoder (pre ++ wire a ++ rest) (zlen pre) 0) r
    = (mkDecoder (pre ++ wire a ++ rest) (zlen (pre ++ wire a)) 0, r', Done (received_doc a)) /\
    is_Some (ResetAll r').
Proof using HL.
  intros [H1 H2 H3 H4 _] Hr Hreset.
  destruct (document_sent_received 1 (ad_time a) (ad_tag a) (ad_meter a) (ad_flags a) (mkEncoder pre 0)
    NewDocument r rest) as (e' & p' & r' & He & Hd); [done..|].
  assert (e_buf e' = pre ++ wire a) as Hbuf.
  { unfold Document_EncodePB in He. cbv zeta in He. rewrite WriteToPB_sent in He.
    destruct (PB_written_read (mkEncoder pre 0) r (ad_message a) rest 0 H3 Hr H4) as (e1 & v' & Hw & Hb & _).
    unfold ad_message in Hw. rewrite Hw in He. injection He as -> _. exact Hb. }
  rewrite Hbuf, <- app_assoc in Hd. exists r'. split; [exact Hd|].
  unfold DecodePB in Hd. destruct (ReadPB _ r) as [[r1 ok] d1] eqn:Er. injection Hd as _ <- _.
  unfold ReadPB in Er. repeat case_match; injection Er as <- _ _; try done.
  all: match goal with E : pb_Unmarshal _ ?bs = _ |- _ =>
    pose proof (unmarshal_keeps r bs Hreset) as K; by rewrite E in K end.
Qed.

Lemma decode_document_runs a pre rest s :
  roze_ok s -> agent_ok a -> decoder s = mkDecoder (pre ++ wire a ++ rest) (zlen pre) 0 ->
  runs decode_document s (fun go s' => go = true /\
    decoder s' = mkDecoder (pre ++ wire a ++ rest) (zlen (pre ++ wire a)) 0 /\
    exists r, fate (disableSecondWrite (self s)) (platformData s) (received_doc a) r (platformData s') /\
      progress (kept_docs [r]) (dropped_docs [r]) s s').
Proof using HL.
  intros Hs Ha Hd. apply runs_bind, runs_get, runs_bind.
  destruct (rz_pb _ Hs) as [p Hp]. apply (runs_of_option _ p); [done|].
  destruct (DecodePB_sent a pre rest p Ha) as (r' & Hdec & Hr').
  { by eapply ready_reset. }
  { by eapply ResetAll_again. }
  rewrite Hd, Hdec. apply runs_bind, runs_modify, runs_bind. set (s1 := mkState _ _ _ _ _ _ _ _).
  assert (roze_ok s1) as Hs1 by (destruct Hs; by split).
  eapply runs_mono; [apply (handle_document_runs (received_doc a) (received (ad_tag a)) s1);
    [done|done|reflexivity|apply Ha]|].
  intros [] s2 ((Hd2 & _) & r & Hfate & [H1 H2 H3 H4 H5]). apply runs_ret.
  split_and!; [done|exact Hd2|]. exists r. split; [exact Hfate|]. by split.
Qed.

Lemma kept_docs_app l1 l2 : kept_docs (l1 ++ l2) = kept_docs l1 ++ kept_docs l2.
Proof. unfold kept_docs. by rewrite List.filter_app, fmap_app. Qed.

Lemma dropped_docs_app l1 l2 : dropped_docs (l1 ++ l2) = dropped_docs l1 ++ dropped_docs l2.
Proof. unfold dropped_docs. by rewrite List.filter_app, fmap_app. Qed.

(** The fates of documents one after the other. *)
Inductive fates (disabled : bool) : P -> list agent_doc -> list (bool * Document) -> P -> Prop :=
  | fates_none p : fates disabled p [] [] p
  | fates_one p a docs r rs p1 p' :
      fate disabled p (received_doc a) r p1 -> fates disabled p1 docs rs p' ->
      fates disabled p (a :: docs) (r :: rs) p'.

Lemma fates_app disabled p docs rs p1 docs' rs' p' :
  fates disabled p docs rs p1 -> fates disabled p1 docs' rs' p' -> fates disabled p (docs ++ docs') (rs ++ rs') p'.
Proof. induction 1; intros H'; cbn [app]; [done|]. econstructor; eauto. Qed.

Lemma fates_length disabled p docs rs p' : fates disabled p docs rs p' -> length rs = length docs.
Proof. induction 1; cbn; congruence. Qed.

Lemma decode_loop_runs docs pre rounds s :
  roze_ok s -> Forall agent_ok docs -> (length docs < rounds)%nat ->
  decoder s = mkDecoder (pre ++ concat (wire <$> docs)) (zlen pre) 0 ->
  runs (decode_loop rounds) s (fun ended s' => ended = true /\
    exists rs, fates (disableSecondWrite (self s)) (platformData s) docs rs (platformData s') /\
      progress (kept_docs rs) (dropped_docs rs) s s').
Proof using HL.
  intros Hs Hdocs. revert pre rounds s Hs. induction Hdocs as [|a docs Ha Hdocs IH]; intros pre [|rounds] s Hs Hr Hd;
    cbn [length] in Hr; try lia; cbn [decode_loop]; apply runs_bind, runs_get; rewrite Hd; cbn [Failed d_err].
  - replace (IsEnd _) with true; [|cbn; rewrite app_nil_r; unfold IsEnd; cbn; by rewrite Z.geb_leb, Z.leb_refl].
    apply runs_ret. split; [done|]. exists []. split; [constructor|by apply progress_none].
  - replace (IsEnd _) with false.
    2:{ unfold IsEnd. cbn. pose proof (wire_length a). rewrite Z.geb_leb. symmetry. apply Z.leb_gt.
        rewrite !zlen_app. unfold zlen in *. lia. }
    apply runs_bind. eapply runs_mono; [by apply (decode_document_runs a pre (concat (wire <$> docs)))|].
    intros go s1 (-> & Hd1 & r & Hfate & Hpg). cbn [negb].
    eapply runs_mono; [apply (IH (pre ++ wire a) rounds s1 (pg_ok _ _ _ _ Hpg)); [lia|by rewrite Hd1, app_assoc]|].
    intros ended s2 (-> & rs & Hfates & Hpg2). split; [done|]. exists (r :: rs).
    pose proof (pg_setting _ _ _ _ Hpg) as E. unfold setting in E. injection E as E1 E2 E3 E4.
    split.
    + rewrite E1 in Hfates. by econstructor.
    + change (r :: rs) with ([r] ++ rs). rewrite kept_docs_app, dropped_docs_app.
      by apply (progress_trans _ _ _ _ _ s1).
Qed.

(** What the agent sends: every document encoded after the one before. *)
Fixpoint encode_all (docs : list agent_doc) (e : SimpleEncoder) (p : pb_Document)
    : outcome (SimpleEncoder * pb_Document) :=
  match docs with
  | [] => Done (e, p)
  | a :: docs =>
      match Document_EncodePB (mkDocument 1 (ad_time a) (TMiniTag (ad_tag a)) (ad_meter a) (ad_flags a)) e p with
      | Done (e, p) => encode_all docs e p
      | Error => Error
      | Panic => Panic
      end
  end.

Lemma encode_all_bytes docs e p :
  Forall agent_ok docs ->
  exists e' p', encode_all docs e p = Done (e', p') /\ e_buf e' = e_buf e ++ concat (wire <$> docs).
Proof using HL.
  intros Hdocs. revert e p. induction Hdocs as [|a docs Ha Hdocs IH]; intros e p; cbn [encode_all].
  - exists e, p. split; [done|]. cbn. by rewrite app_nil_r.
  - destruct Ha as [H1 H2 H3 H4 _].
    destruct (PB_written_read e NewDocument (ad_message a) [] 0 H3 ready_new H4) as (e1 & v' & Hw & Hb & _).
    unfold Document_EncodePB. cbv zeta. rewrite WriteToPB_sent. unfold ad_message in Hw. rewrite Hw.
    match goal with |- context [encode_all docs e1 ?p1] => destruct (IH e1 p1) as (e2 & p2 & He & Hb2) end.
    exists e2, p2. split; [done|]. rewrite Hb2, Hb. cbn [fmap list_fmap concat]. by rewrite <- app_assoc.
Qed.

Lemma concat_wire_length docs : (length docs <= length (concat (wire <$> docs)))%nat.
Proof.
  induction docs as [|a docs IH]; [done|]. rewrite fmap_cons. cbn [concat length]. rewrite length_app.
  pose proof (wire_length a). lia.
Qed.

Lemma handle_buffer_runs docs b s :
  roze_ok s -> Forall agent_ok docs ->
  0 <= Recv_Begin b <= Recv_End b -> Recv_End b <= zlen (Recv_Buffer b) ->
  slice (Recv_Buffer b) (Recv_Begin b) (Recv_End b - Recv_Begin b) = concat (wire <$> docs) ->
  runs (handle_buffer b) s (fun _ s' => exists rs,
    fates (disableSecondWrite (self s)) (platformData s) docs rs (platformData s') /\ roze_ok s' /\
    (exists batches, cache s ++ kept_docs rs = concat batches ++ cache s' /\
      put_all batches (dbwriter s) = Some (dbwriter s') /\
      Forall (fun c => 0 < zlen c <= QUEUE_BATCH_SIZE) batches) /\
    released s' = released s ++ dropped_docs rs /\
    released_buffers s' = released_buffers s ++ [b] /\
    DocCount (counter (self s')) = i64 (DocCount (counter (self s)) + zlen docs) /\
    disableSecondWrite (self s') = disableSecondWrite (self s)).
Proof using HL.
  intros Hs Hdocs Hb He Hslice. unfold handle_buffer. ztests. cbn [andb]. cbv zeta. rewrite Hslice.
  apply runs_bind, runs_get, runs_bind, runs_modify, runs_bind. set (s1 := mkState _ _ _ _ _ _ _ _).
  assert (roze_ok s1) as Hs1 by (destruct Hs; by split).
  eapply runs_mono; [apply (decode_loop_runs docs [] _ s1 Hs1 Hdocs); [|done]|].
  { pose proof (concat_wire_length docs). lia. }
  intros ended s2 (_ & rs & Hf & [K1 K2 K3 K4 K5]). apply runs_modify. exists rs.
  assert (released_buffers s2 = released_buffers s) as Hbuf by (unfold setting in K2; cbn in K2; congruence).
  split_and!; [exact Hf|destruct K1; by split|exact K3|exact K4|cbn; by rewrite Hbuf| |unfold setting in K2; cbn in *; congruence].
  cbn [self]. rewrite K5. rewrite <- Z.add_assoc. f_equal. f_equal.
  unfold zlen, kept_docs, dropped_docs. rewrite !length_fmap, <- (fates_length _ _ _ _ _ Hf).
  clear. induction rs as [|[[] d] rs IH]; cbn [List.filter length fst negb]; lia.
Qed.
End Unmarshaller.

(** ** Rounds *)

Section Rounds.
Context {P W Conn : Type} `{!PlatformInfoTable P} `{!Clock W} `{!PBCodec pb_Document}.
Implicit Types (s : state P W Conn).

(** Code that leaves the decoder alone. *)
Definition steady {A} (m : M (P := P) (W := W) (Conn := Conn) A) : Prop :=
  forall s a s', m s = Some (a, s') -> decoder s' = decoder s.

Lemma steady_bind {A B} (m : M A) (f : A -> M B) :
  steady m -> (forall a, steady (f a)) -> steady (m ≫= f).
Proof.
  intros Hm Hf s b s'. unfold mbind, ST_bind. destruct (m s) as [[a s1]|] eqn:E; [|done].
  intros E'. rewrite (Hf _ _ _ _ E'). by apply (Hm _ _ _ E).
Qed.

Lemma steady_if {A} (b : bool) (m m' : M A) : steady m -> steady m' -> steady (if b then m else m').
Proof. by destruct b. Qed.

Lemma steady_update f : steady (update f).
Proof. by intros s a s' [= _ <-]. Qed.

Lemma steady_release d : steady (ReleaseDoc d).
Proof. by intros s a s' [= _ <-]. Qed.

Lemma steady_ret {A} (a : A) : steady (mret a).
Proof. by intros s a' s' [= _ <-]. Qed.

Lemma steady_get : steady get_state.
Proof. by intros s a s' [= _ <-]. Qed.

Lemma steady_panic {A} : steady (@panic _ A).
Proof. done. Qed.

Lemma steady_option {A} (o : option A) : steady (of_option o).
Proof. intros s a s' Hm. unfold of_option in Hm. destruct o; [|done]. by injection Hm as _ <-. Qed.

Lemma steady_platform {A} (m : ST P A) : steady (on_platform m).
Proof.
  intros s a s'. unfold on_platform. destruct (m (platformData s)) as [[a' p]|]; [|done]. by intros [= _ <-].
Qed.

Lemma steady_db docs : steady (db_put docs).
Proof. intros s a s'. unfold db_put. destruct (DbWriter_Put _ _); [|done]. by intros [= _ <-]. Qed.

Lemma steady_good ts : steady (isGoodDocument ts).
Proof.
  intros s a s'. unfold isGoodDocument. destruct (Unix (clock s)), (count_delay _ _). by intros [= _ <-].
Qed.

Lemma handle_document_steady doc : steady (handle_document doc).
Proof.
  unfold handle_document, drop_document, putStoreQueue. cbv zeta.
  repeat first
    [ apply steady_good | apply steady_release | apply steady_update | apply steady_db
    | apply steady_platform | apply steady_panic | apply steady_option | apply steady_get
    | apply steady_ret | apply steady_if | apply steady_bind; [|intros ?] | case_match ].
Qed.

(** A message that has been decoded took its length prefix at least. *)
Lemma DecodePB_advances d p d' p' doc :
  bytes_ok (d_buf d) -> 0 <= d_offset d -> DecodePB d p = (d', p', Done doc) ->
  d_buf d' = d_buf d /\ d_offset d + 4 <= d_offset d'.
Proof.
  intros Hb Ho. unfold DecodePB, ReadPB.
  destruct (past_end (advance d 4)) eqn:E1.
  { intros [= _ _ H']. by rewrite orb_true_r in H'. }
  assert (0 <= le_get (slice (d_buf (advance d 4)) (d_offset (advance d 4) - 4) 4)) as Hn.
  { apply (le_get_range _ (bytes_ok_slice _ _ _ Hb)). }
  set (n := le_get _) in *. destruct (past_end (advance (advance d 4) n)).
  { intros [= _ _ H']. by rewrite orb_true_r in H'. }
  destruct (pb_Unmarshal p _) as [p1 ok]. destruct ok.
  - intros [= <- _ _]. cbn. split; [done|lia].
  - intros [= _ _ H']. by rewrite orb_true_r in H'.
Qed.

Lemma decode_loop_ends rounds s ended s' :
  bytes_ok (d_buf (decoder s)) -> 0 <= d_offset (decoder s) ->
  zlen (d_buf (decoder s)) - d_offset (decoder s) < Z.of_nat rounds -> 0 < Z.of_nat rounds ->
  decode_loop rounds s = Some (ended, s') -> ended = true.
Proof.
  revert s. induction rounds as [|rounds IH]; intros s Hb Ho Hlen Hr; [lia|]. cbn [decode_loop].
  unfold mbind at 1, ST_bind at 1, get_state. destruct (Failed (decoder s) || IsEnd (decoder s)) eqn:Eend.
  { by intros [= <- _]. }
  apply orb_false_iff in Eend as [_ Hend]. unfold IsEnd in Hend. rewrite Z.geb_leb, Z.leb_gt in Hend.
  unfold mbind at 1, ST_bind at 1. destruct (decode_document s) as [[go s1]|] eqn:Ed; [|done].
  destruct go; cbn [negb]; [|by intros [= <- _]].
  unfold decode_document, mbind, ST_bind, get_state, of_option in Ed.
  destruct (ResetAll (pbDoc s)) as [p|]; [|done]. cbn [fmap option_fmap option_map] in Ed.
  destruct (DecodePB (decoder s) p) as [[d p1] [doc| |]] eqn:Edec; cbn in Ed; [|done..].
  destruct (handle_document doc _) as [[[] s2]|] eqn:Eh; [|done]. injection Ed as <-.
  apply handle_document_steady in Eh. cbn in Eh.
  destruct (DecodePB_advances _ _ _ _ _ Hb Ho Edec) as [Hbuf Hoff].
  intros Hloop. apply (IH s2); rewrite ?Eh, ?Hbuf; [done|lia|lia|lia|done].
Qed.
End Rounds.

(** * Properties *)

(** C1: From the agent to the database.  A buffer with documents that an agent encoded
    one after the other, of any codes but without per-second ones of access control
    (whose storing panics), with fields of their widths and messages shorter than 2^32
    bytes, is handled to its end and released, in any good state of the
    unmarshaller and whatever the platform data answers.  Every document has one of two
    fates.  It is released if it is a per-second one and those are disabled, if the
    platform data puts the side that counts in another region, or if its code is that of
    no table.  Otherwise it is stored, with its time, flags and meter and a tag that has the
    sent fields, apart from the global thread identifier, which is not read, and from the
    second address when the code does not ask for two; and with the regions the platform
    data gives.  The stored documents are, in order, in the batches given to
    the database writer and in the cache, which is shorter than a batch. *)
Theorem roze_stores {P W Conn : Type} `{!PlatformInfoTable P} `{!PlatformLaws P} `{!Clock W}
    `{HL : DocumentLaws} (docs : list agent_doc) (b : RecvBuffer) (e : SimpleEncoder) (p : pb_Document)
    (s : state P W Conn) :
  Forall agent_ok docs -> encode_all docs (mkEncoder [] 1) NewDocument = Done (e, p) ->
  0 <= Recv_Begin b <= Recv_End b -> Recv_End b <= zlen (Recv_Buffer b) ->
  slice (Recv_Buffer b) (Recv_Begin b) (Recv_End b - Recv_Begin b) = e_buf e ->
  roze_ok s ->
  exists s' rs batches,
    handle_buffer b s = Some (tt, s') /\ roze_ok s' /\
    fates (disableSecondWrite (self s)) (platformData s) docs rs (platformData s') /\
    queueBatchCache (self s) ++ kept_docs rs = concat batches ++ queueBatchCache (self s') /\
    put_all batches (dbwriter s) = Some (dbwriter s') /\
    Forall (fun c => 0 < zlen c <= QUEUE_BATCH_SIZE) batches /\
    released s' = released s ++ dropped_docs rs /\ released_buffers s' = released_buffers s ++ [b] /\
    DocCount (counter (self s')) = i64 (DocCount (counter (self s)) + zlen docs).
Proof.
  intros Hdocs Henc Hb He Hslice Hs.
  destruct (encode_all_bytes docs (mkEncoder [] 1) NewDocument Hdocs) as (e' & p' & Henc' & Hbytes).
  rewrite Henc in Henc'. injection Henc' as <- <-. rewrite Hbytes in Hslice. cbn [e_buf app] in Hslice.
  pose proof (handle_buffer_runs docs b s Hs Hdocs Hb He Hslice) as Hrun. apply runs_exists in Hrun.
  destruct Hrun as ([] & s' & Hrun & rs & Hf & Hok & (batches & H1 & H2 & H3) & H4 & H5 & H6 & _).
  exists s', rs, batches. by split_and!.
Qed.

(** C37: Whatever bytes a buffer holds, the loop over it is left by its own condition:
    one round for each byte and one more is enough. *)
Theorem decode_rounds_suffice {P W Conn : Type} `{!PlatformInfoTable P} `{!Clock W} `{!PBCodec pb_Document}
    (bytes : list Z) (s s' : state P W Conn) (ended : bool) :
  bytes_ok bytes -> decoder s = Decoder_Init bytes ->
  decode_loop (S (length bytes)) s = Some (ended, s') -> ended = true.
Proof.
  intros Hb Hd Hl. apply (decode_loop_ends (S (length bytes)) s ended s'); rewrite ?Hd; try done.
  cbn. unfold zlen. lia.
Qed.

(** A batch of documents with tables is given to the writers: the writer of
    each table gets the documents of that table, in order, with one call of [Put],
    and is left alone when there are none. *)
Theorem dbwriter_routes {Conn : Type} (db : DbWriter Conn) (docs : list Document) :
  db_ok db -> Forall storable docs ->
  exists db', DbWriter_Put db docs = Some db' /\ db_ok db' /\
    forall i w, ckwriters db !! i = Some w ->
      exists w', ckwriters db' !! i = Some w' /\
        match of_table i docs with
        | [] => w' = w
        | _ => CKWriter.Put w (of_table i docs) = Some w'
        end.
Proof.
  intros Hdb Hd. destruct (DbWriter_Put_total db docs Hdb Hd) as (db' & Hp & Hdb'). exists db'.
  split_and!; [done|done|]. intros i w Hw. unfold DbWriter_Put in Hp.
  destruct (sort_documents_spec docs (replicate (Z.to_nat VTAP_TABLE_ID_MAX) [])) as (cached & Hs & Hlen & Hi);
    [done|by rewrite length_replicate|]. rewrite Hs in Hp. cbn [mbind option_bind] in Hp.
  destruct (put_caches 0 cached (ckwriters db)) as [ws|] eqn:E; [|done]. injection Hp as <-.
  destruct (put_caches_spec 0 cached _ _ E i w Hw) as (w' & Hw' & Ht). exists w'. split; [done|].
  unfold given in Ht. rewrite Nat.sub_0_r in Ht. cbn [Nat.ltb Nat.leb] in Ht.
  rewrite (Hi i []) in Ht; [exact Ht|]. apply lookup_replicate. split; [done|].
  destruct Hdb as [Hl _]. apply lookup_lt_Some in Hw. lia.
Qed.

(** A per-second document of the access-control table stops the server: the
    expansion lets it through, its table identifier is one beyond the last table, and
    the next flush of a cache that holds it panics. *)
Theorem acl_second_document_panics {P W Conn : Type} `{!PlatformInfoTable P} `{!Clock W}
    `{!PBCodec pb_Document} (doc : Document) (t : Tag) (p : P) :
  Doc_Tagger doc = TTag t -> Tag_Code t = acl_code -> Meter_ID (Doc_Meter doc) = ACL_ID ->
  Z.land (Flags doc) FLAG_PER_SECOND_METRICS = 1 ->
  exists doc', DocumentExpand doc p = Some ((true, doc'), p) /\
    Document_TableID doc' = Done VTAP_TABLE_ID_MAX /\
    forall s : state P W Conn, doc' ∈ queueBatchCache (self s) -> flushStoreQueue s = None.
Proof.
  intros Ht Hc Hm Hsec. exists (set_Tagger doc (mkTag (Tag_Field t) acl_code "")).
  assert (Document_TableID (set_Tagger doc (mkTag (Tag_Field t) acl_code "")) = Done VTAP_TABLE_ID_MAX) as Hid.
  { unfold Document_TableID. cbn [set_Tagger Doc_Tagger Flags]. rewrite Hsec. vm_compute. reflexivity. }
  split_and!; [|exact Hid|].
  - unfold DocumentExpand. rewrite Ht, Hm. cbv zeta. cbn [Tag_Code]. rewrite Hc. reflexivity.
  - intros s Hin. unfold flushStoreQueue, mbind, ST_bind, get_state.
    rewrite (proj2 (Z.ltb_lt _ _)).
    2:{ destruct (queueBatchCache (self s)); [by apply elem_of_nil in Hin|].
        rewrite zlen_cons. pose proof (zlen_nonneg l). lia. }
    unfold db_put, DbWriter_Put.
    rewrite (sort_documents_panics _ _ _ VTAP_TABLE_ID_MAX Hin Hid); [done|done|by rewrite length_replicate].
Qed.

(** * An example *)

#[local] Instance unit_Clock : Clock unit := fun w => (1010, w).

Definition test_writer : CKWriter unit Document :=
  mkCKWriter "host" "" "" "" test_table 2 8 2 10 "" "" "" [Some tt; Some tt]
    (mkMulti [0; 1] [Init 8 true; Init 8 true]) [CKWriter.zero_Counter; CKWriter.zero_Counter] 0 false.

Definition test_db : DbWriter unit := mkDbWriter (replicate 9 test_writer).

Lemma test_db_ok : db_ok test_db.
Proof.
  split; [reflexivity|]. apply Forall_replicate. split_and!; [vm_compute; congruence|vm_compute; congruence|reflexivity..].
Qed.

Definition test_state : state two_regions unit unit :=
  mkState (NewUnmarshaller false (Init 8 true)) (mkRegions 1 0) test_db (Decoder_Init []) NewDocument tt [] [].

Lemma test_state_ok : roze_ok test_state.
Proof.
  split; [exact I|exact test_db_ok|by eexists|reflexivity|reflexivity|constructor|].
  split; vm_compute; congruence.
Qed.

(** A document of a client in region 1 and one of a client in region 2, both
    captured at the client. *)
Definition test_doc (region : Z) : agent_doc :=
  mkAgentDoc 1000
    (mkMiniTag (mkMiniField ([10; 0; 0; region] ++ replicate 12 0) ([10; 0; 0; 2] ++ replicate 12 0)
       3 0 5 7 0 0 1 6 0 443 12 5 3 20 0 0)
       (Z.lor (andnot (andnot VTAP_FLOW_EDGE_PORT added) TAPSide) Direction) "")
    (Doc_Meter (edge_document Client 0)) 0.

Lemma test_doc_ok region : region = 1 \/ region = 2 -> agent_ok (test_doc region).
Proof.
  intros [-> | ->]; (split; [|split; vm_compute; congruence|exact I|vm_compute; reflexivity|]).
  1, 3: split;
    repeat first [apply Forall_nil_2 | apply Forall_cons_2 | split]; vm_compute; congruence.
  all: vm_compute; reflexivity.
Qed.

Definition test_encoded : SimpleEncoder * pb_Document :=
  match encode_all [test_doc 1; test_doc 2] (mkEncoder [] 1) NewDocument with
  | Done r => r
  | _ => (mkEncoder [] 1, NewDocument)
  end.

Definition test_buffer : RecvBuffer :=
  mkRecvBuffer 2 (2 + zlen (e_buf test_encoded.1)) ([7; 7] ++ e_buf test_encoded.1 ++ [7]) [] 12.

Example roze_stores_witness :
  exists s' stored dropped, handle_buffer test_buffer test_state = Some (tt, s') /\
    queueBatchCache (self s') = [stored] /\ released s' = [dropped] /\
    Document_TableID stored = Done VTAP_FLOW_EDGE_PORT_1M /\ released_buffers s' = [test_buffer].
Proof.
  destruct (roze_stores [test_doc 1; test_doc 2] test_buffer test_encoded.1 test_encoded.2 test_state)
    as (s' & rs & batches & Hrun & _ & _ & _ & _ & _ & _ & Hbuf & _).
  - apply Forall_cons_2; [apply test_doc_ok; by left|].
    apply Forall_cons_2; [apply test_doc_ok; by right|apply Forall_nil_2].
  - vm_compute. reflexivity.
  - vm_compute. split; congruence.
  - vm_compute. congruence.
  - vm_compute. reflexivity.
  - exact test_state_ok.
  - destruct (handle_buffer test_buffer test_state) as [[[] s1]|] eqn:E; [|discriminate Hrun].
    injection Hrun as <-. vm_compute in E. injection E as E. subst s1.
    eexists _, _, _. split_and!; [reflexivity|reflexivity|reflexivity|vm_compute; reflexivity|exact Hbuf].
Defined.

Example decode_rounds_suffice_witness :
  exists ended s', decode_loop (S (length [1; 2; 3]))
      (mkState (NewUnmarshaller false (Init 8 true)) (mkRegions 1 0) test_db (Decoder_Init [1; 2; 3])
         NewDocument tt [] []) = Some (ended, s') /\ ended = true /\ ErrDocCount (counter (self s')) = 1.
Proof.
  set (s := mkState _ _ _ _ _ _ _ _). destruct (decode_loop _ s) as [[ended s']|] eqn:E.
  - exists ended, s'. split_and!; [reflexivity| |].
    + apply (decode_rounds_suffice [1; 2; 3] s s' ended); [|reflexivity|exact E].
      repeat apply Forall_cons_2; try apply Forall_nil_2; vm_compute; split; congruence.
    + vm_compute in E. injection E as _ <-. reflexivity.
  - vm_compute in E. discriminate E.
Defined.

Definition flow_document : Document :=
  mkDocument 1 1000 (TTag (mkTag (edge_field Client) VTAP_FLOW_EDGE_PORT "")) (Doc_Meter (edge_document Client 0)) 0.

Example dbwriter_routes_witness :
  exists db' w', DbWriter_Put test_db [flow_document; acl_document] = Some db' /\
    ckwriters db' !! 4%nat = Some w' /\ CKWriter.Put test_writer [acl_document] = Some w' /\
    ckwriters db' !! 0%nat = Some test_writer.
Proof.
  destruct (dbwriter_routes test_db [flow_document; acl_document]) as (db' & Hput & _ & Hw).
  - exact test_db_ok.
  - apply Forall_cons_2; [|apply Forall_cons_2; [|apply Forall_nil_2]];
      (eexists; split; [vm_compute; reflexivity|vm_compute; split; congruence]).
  - destruct (Hw 4%nat test_writer) as (w' & H4 & Hp); [reflexivity|].
    destruct (Hw 0%nat test_writer) as (w0 & H0 & ->); [reflexivity|].
    exists db', w'. split_and!; [exact Hput|exact H4|exact Hp|exact H0].
Defined.

Example acl_second_document_panics_witness :
  exists doc', DocumentExpand (mkDocument 1 1000 (Doc_Tagger acl_document) (Doc_Meter acl_document) 1) (mkRegions 1 0)
      = Some ((true, doc'), mkRegions 1 0) /\
    flushStoreQueue (mkState (set_values (NewUnmarshaller false (Init 8 true)) [doc']) (mkRegions 1 0) test_db
      (Decoder_Init []) NewDocument tt [] []) = None.
Proof.
  destruct (acl_second_document_panics (W := unit) (Conn := unit)
    (mkDocument 1 1000 (Doc_Tagger acl_document) (Doc_Meter acl_document) 1)
    (mkTag (Tag_Field row_example) acl_code "") (mkRegions 1 0)) as (doc' & Hexp & _ & Hflush).
  - reflexivity.
  - reflexivity.
  - reflexivity.
  - reflexivity.
  - exists doc'. split; [exact Hexp|]. apply Hflush. left.
Defined.
