(* ===== verification/Lru.v ===== *)
(** The cache with least-recently-used replacement of [server/libs/hmap/lru]
    ([u64_lru.go], [common.go]) and the hash of its keys ([hmap/keyhash]).

    Nodes live in the blocks of a ring buffer and are linked by index, once in the
    collision chain of their hash slot and once in a list by time of use.  A
    pointer to a node is the index of its cell; reading a cell of a block that is
    not allocated panics.  [sync.Pool] may hand out any block, so the block that it
    returns is an argument of the operations that allocate. *)

From S2P Require Import Prelude.

(** * Hash of keys *)

Definition Jenkins (hash : Z) : Z :=
  let hash := u64 (u64 (shl 64 hash 21 - hash) - 1) in
  let hash := Z.lxor hash (hash ≫ 24) in
  let hash := u64 (u64 (hash + shl 64 hash 3) + shl 64 hash 8) in
  let hash := Z.lxor hash (hash ≫ 14) in
  let hash := u64 (u64 (hash + shl 64 hash 2) + shl 64 hash 4) in
  let hash := Z.lxor hash (hash ≫ 28) in
  let hash := u64 (hash + shl 64 hash 31) in
  i32 hash.

(** * Data *)

Definition BLOCK_SIZE_BITS : Z := 8.
Definition BLOCK_SIZE : Z := 1 ≪ BLOCK_SIZE_BITS.
Definition BLOCK_SIZE_MASK : Z := BLOCK_SIZE - 1.

(** The loop tries thirty powers. *)
Fixpoint minPowerOfTwo_loop (rounds : nat) (i v : Z) : Z * Z :=
  match rounds with
  | O => (1, 0)
  | S rounds => if v <=? 1 ≪ i then (1 ≪ i, i) else minPowerOfTwo_loop rounds (i + 1) v
  end.

Definition minPowerOfTwo (v : Z) : Z * Z := minPowerOfTwo_loop 30 0 v.

Record Counter := mkCounter {
  Max : Z;
  Size : Z;
  AvgScan : Z;
  totalScan : Z;
  scanTimes : Z
}.

Section U64LRU.
Context {V : Type}.

(** An [interface{}] value is an [option]: [None] is nil. *)
Record u64LRUNode := mkNode {
  key : Z;
  value : option V;
  hashListNext : Z;
  hashListPrev : Z;
  timeListNext : Z;
  timeListPrev : Z
}.

Definition blankU64LRUNodeForInit : u64LRUNode := mkNode 0 None 0 0 0 0.

Record U64LRU := mkU64LRU {
  ringBuffer : list (option (list u64LRUNode));
  bufferStartIndex : Z;
  bufferEndIndex : Z;
  hashSlots : Z;
  hashSlotBits : Z;
  hashSlotHead : list Z;
  timeListHead : Z;
  timeListTail : Z;
  capacity : Z;
  size : Z;
  counter : Counter;
  collisionChainDebugThreshold : Z;
  debugChain : option (list Z);
  debugChainRead : Z
}.

Definition set_ring (m : U64LRU) (r : list (option (list u64LRUNode))) : U64LRU :=
  mkU64LRU r (bufferStartIndex m) (bufferEndIndex m) (hashSlots m) (hashSlotBits m) (hashSlotHead m)
    (timeListHead m) (timeListTail m) (capacity m) (size m) (counter m)
    (collisionChainDebugThreshold m) (debugChain m) (debugChainRead m).

Definition set_buffer (m : U64LRU) (first last size : Z) : U64LRU :=
  mkU64LRU (ringBuffer m) first last (hashSlots m) (hashSlotBits m) (hashSlotHead m)
    (timeListHead m) (timeListTail m) (capacity m) size (counter m)
    (collisionChainDebugThreshold m) (debugChain m) (debugChainRead m).

Definition set_hashSlotHead (m : U64LRU) (l : list Z) : U64LRU :=
  mkU64LRU (ringBuffer m) (bufferStartIndex m) (bufferEndIndex m) (hashSlots m) (hashSlotBits m) l
    (timeListHead m) (timeListTail m) (capacity m) (size m) (counter m)
    (collisionChainDebugThreshold m) (debugChain m) (debugChainRead m).

Definition set_time (m : U64LRU) (head tail : Z) : U64LRU :=
  mkU64LRU (ringBuffer m) (bufferStartIndex m) (bufferEndIndex m) (hashSlots m) (hashSlotBits m)
    (hashSlotHead m) head tail (capacity m) (size m) (counter m)
    (collisionChainDebugThreshold m) (debugChain m) (debugChainRead m).

Definition set_counter (m : U64LRU) (c : Counter) : U64LRU :=
  mkU64LRU (ringBuffer m) (bufferStartIndex m) (bufferEndIndex m) (hashSlots m) (hashSlotBits m)
    (hashSlotHead m) (timeListHead m) (timeListTail m) (capacity m) (size m) c
    (collisionChainDebugThreshold m) (debugChain m) (debugChainRead m).

Definition set_debug (m : U64LRU) (threshold : Z) (chain : option (list Z)) (read : Z) : U64LRU :=
  mkU64LRU (ringBuffer m) (bufferStartIndex m) (bufferEndIndex m) (hashSlots m) (hashSlotBits m)
    (hashSlotHead m) (timeListHead m) (timeListTail m) (capacity m) (size m) (counter m)
    threshold chain read.

Definition set_hash_links (n : u64LRUNode) (next prev : Z) : u64LRUNode :=
  mkNode (key n) (value n) next prev (timeListNext n) (timeListPrev n).

Definition set_time_links (n : u64LRUNode) (next prev : Z) : u64LRUNode :=
  mkNode (key n) (value n) (hashListNext n) (hashListPrev n) next prev.

Definition set_entry (n : u64LRUNode) (k : Z) (v : option V) : u64LRUNode :=
  mkNode k v (hashListNext n) (hashListPrev n) (timeListNext n) (timeListPrev n).

(** Indexing panics outside of the slice. *)
Definition at_index {A} (l : list A) (i : Z) : option A :=
  if i <? 0 then None else l !! Z.to_nat i.

(** * The ring buffer *)

Definition incIndex (m : U64LRU) (index : Z) : Z :=
  let index := i32 (index + 1) in
  if index ≫ BLOCK_SIZE_BITS >=? i32 (zlen (ringBuffer m)) then 0 else index.

Definition decIndex (m : U64LRU) (index : Z) : Z :=
  if index <=? 0 then i32 (i32 (shl 64 (zlen (ringBuffer m)) BLOCK_SIZE_BITS) - 1) else i32 (index - 1).

Definition cell (m : U64LRU) (index : Z) : option u64LRUNode :=
  b ← at_index (ringBuffer m) (index ≫ BLOCK_SIZE_BITS);
  block ← b;
  at_index block (Z.land index BLOCK_SIZE_MASK).

Definition M : Type -> Type := ST U64LRU.

Definition getNode (index : Z) : M u64LRUNode := m ← get_state; of_option (cell m index).

(** The ring buffer with a node stored in the cell of an allocated block. *)
Definition store (m : U64LRU) (index : Z) (n : u64LRUNode) : U64LRU :=
  set_ring m
    (alter (fmap (fun block => <[Z.to_nat (Z.land index BLOCK_SIZE_MASK) := n]> block))
       (Z.to_nat (index ≫ BLOCK_SIZE_BITS)) (ringBuffer m)).

(** Writes through a pointer to a node. *)
Definition setNode (index : Z) (f : u64LRUNode -> u64LRUNode) : M unit :=
  n ← getNode index; modify (fun m => store m index (f n)).

Definition compressHash (m : U64LRU) (hash : Z) : Z := Z.land (Jenkins hash) (i32 (hashSlots m - 1)).

Definition slot_head (slot : Z) : M Z := m ← get_state; of_option (at_index (hashSlotHead m) slot).

Definition set_slot_head (slot index : Z) : M unit :=
  slot_head slot ;;
  modify (fun m => set_hashSlotHead m (<[Z.to_nat slot := index]> (hashSlotHead m))).

(** * The two lists *)

Definition pushNodeToHashList (nodeIndex hash : Z) : M unit :=
  head ← slot_head hash;
  setNode nodeIndex (fun n => set_hash_links n head (-1)) ;;
  (if negb (head =? -1) then setNode head (fun n => set_hash_links n (hashListNext n) nodeIndex)
   else mret tt) ;;
  set_slot_head hash nodeIndex.

Definition pushNodeToTimeList (nodeIndex : Z) : M unit :=
  m ← get_state;
  let head := timeListHead m in
  setNode nodeIndex (fun n => set_time_links n head (-1)) ;;
  (if negb (head =? -1) then setNode head (fun n => set_time_links n (timeListNext n) nodeIndex)
   else mret tt) ;;
  modify (fun m =>
    set_time m nodeIndex (if timeListTail m =? -1 then nodeIndex else timeListTail m)).

Definition removeNodeFromHashList (nodeIndex newNext newPrev : Z) : M unit :=
  node ← getNode nodeIndex;
  (if negb (hashListPrev node =? -1)
   then setNode (hashListPrev node) (fun n => set_hash_links n newNext (hashListPrev n))
   else m ← get_state; set_slot_head (compressHash m (key node)) newNext) ;;
  node ← getNode nodeIndex;
  (if negb (hashListNext node =? -1)
   then setNode (hashListNext node) (fun n => set_hash_links n (hashListNext n) newPrev)
   else mret tt).

Definition removeNodeFromTimeList (nodeIndex newNext newPrev : Z) : M unit :=
  node ← getNode nodeIndex;
  (if negb (timeListPrev node =? -1)
   then setNode (timeListPrev node) (fun n => set_time_links n newNext (timeListPrev n))
   else modify (fun m => set_time m newNext (timeListTail m))) ;;
  node ← getNode nodeIndex;
  (if negb (timeListNext node =? -1)
   then setNode (timeListNext node) (fun n => set_time_links n (timeListNext n) newPrev)
   else modify (fun m => set_time m (timeListHead m) newPrev)).

(** * Nodes *)

(** Gives the block of the first cell back to the pool when this was its last
    cell, and moves the start. *)
Definition free_first : M unit :=
  m ← get_state;
  let first := bufferStartIndex m in
  (if Z.land first BLOCK_SIZE_MASK =? BLOCK_SIZE_MASK
   then modify (fun m =>
          set_ring m (<[Z.to_nat (first ≫ BLOCK_SIZE_BITS) := None]> (ringBuffer m)))
   else mret tt) ;;
  modify (fun m => set_buffer m (incIndex m first) (bufferEndIndex m) (i64 (size m - 1))).

Definition removeNode (nodeIndex : Z) : M unit :=
  node ← getNode nodeIndex;
  removeNodeFromHashList nodeIndex (hashListNext node) (hashListPrev node) ;;
  node ← getNode nodeIndex;
  removeNodeFromTimeList nodeIndex (timeListNext node) (timeListPrev node) ;;
  m ← get_state;
  (if negb (nodeIndex =? bufferStartIndex m) then
     firstNode ← getNode (bufferStartIndex m);
     setNode nodeIndex (fun _ => firstNode) ;;
     removeNodeFromHashList (bufferStartIndex m) nodeIndex nodeIndex ;;
     removeNodeFromTimeList (bufferStartIndex m) nodeIndex nodeIndex ;;
     setNode (bufferStartIndex m) (fun _ => blankU64LRUNodeForInit)
   else setNode nodeIndex (fun _ => blankU64LRUNodeForInit)) ;;
  free_first.

Definition updateNode (nodeIndex : Z) (v : option V) : M unit :=
  m ← get_state;
  (if negb (nodeIndex =? timeListHead m) then
     node ← getNode nodeIndex;
     removeNodeFromTimeList nodeIndex (timeListNext node) (timeListPrev node) ;;
     pushNodeToTimeList nodeIndex
   else mret tt) ;;
  setNode nodeIndex (fun n => set_entry n (key n) v).

(** The block of the end of the buffer is taken from the pool when it is nil. *)
Definition alloc_last (pooled : list u64LRUNode) : M unit :=
  m ← get_state;
  let row := bufferEndIndex m ≫ BLOCK_SIZE_BITS in
  b ← of_option (at_index (ringBuffer m) row);
  match (b : option (list u64LRUNode)) with
  | None => modify (fun m => set_ring m (<[Z.to_nat row := Some pooled]> (ringBuffer m)))
  | Some _ => mret tt
  end.

Definition newNode (pooled : list u64LRUNode) (k : Z) (v : option V) : M unit :=
  m ← get_state;
  (if size m >=? capacity m then removeNode (timeListTail m) else mret tt) ;;
  alloc_last pooled ;;
  m ← get_state;
  let last := bufferEndIndex m in
  getNode last ;;
  modify (fun m => set_buffer m (bufferStartIndex m) (bufferEndIndex m) (i64 (size m + 1))) ;;
  pushNodeToHashList last (compressHash m k) ;;
  pushNodeToTimeList last ;;
  setNode last (fun n => set_entry n k v) ;;
  modify (fun m => set_buffer m (bufferStartIndex m) (incIndex m last) (size m)).

(** * Searching *)

(** The loop over a collision chain: the index of the node, and the number of
    nodes looked at.  No chain is longer than the number of nodes, which bounds the
    rounds; [None] when they were not enough. *)
Fixpoint find_loop (rounds : nat) (k next width : Z) : M (option Z * Z) :=
  match rounds with
  | O => panic
  | S rounds =>
      if next =? -1 then mret (None, width)
      else
        node ← getNode next;
        if key node =? k then mret (Some next, width + 1)
        else find_loop rounds k (hashListNext node) (width + 1)
  end.

(** The keys of a chain in [n] times eight bytes. *)
Fixpoint generateCollisionChainIn (n : nat) (next : Z) : M (list Z) :=
  match n with
  | O => mret []
  | S n' =>
      if next =? -1 then mret (replicate (n * 8) 0)
      else
        node ← getNode next;
        rest ← generateCollisionChainIn n' (hashListNext node);
        mret (be_put 8 (key node) ++ (rest : list Z))
  end.

Definition count_scan (width scanned : Z) : M unit :=
  modify (fun m =>
    let c := counter m in
    set_counter m
      (mkCounter (if width >? Max c then width else Max c) (Size c) (AvgScan c)
         (i64 (totalScan c + scanned)) (scanTimes c))).

(** Keeps the chain for the debugger when it is wide and the last one was read. *)
Definition keep_chain (k slot width : Z) (isAdd : bool) : M unit :=
  m ← get_state;
  if (debugChainRead m =? 1) && (0 <? collisionChainDebugThreshold m)
     && (collisionChainDebugThreshold m <=? width)
  then
    head ← slot_head slot;
    chain ← (if isAdd then
               rest ← generateCollisionChainIn (Z.to_nat (width - 1)) head;
               mret (be_put 8 k ++ (rest : list Z))
             else generateCollisionChainIn (Z.to_nat width) head);
    modify (fun m => set_debug m (collisionChainDebugThreshold m) (Some chain) 0)
  else mret tt.

Definition find (k : Z) (isAdd : bool) : M (option Z) :=
  modify (fun m =>
    let c := counter m in
    set_counter m (mkCounter (Max c) (Size c) (AvgScan c) (totalScan c) (i64 (scanTimes c + 1)))) ;;
  m ← get_state;
  let slot := compressHash m k in
  head ← slot_head slot;
  r ← find_loop (S (Z.to_nat (size m))) k head 0;
  match r with
  | (Some index, width) =>
      count_scan width width ;; keep_chain k slot width false ;; mret (Some index)
  | (None, scanned) =>
      let width := if isAdd then scanned + 1 else scanned in
      count_scan width scanned ;; keep_chain k slot width isAdd ;; mret None
  end.

(** * Operations *)

Definition Add (pooled : list u64LRUNode) (k : Z) (v : option V) : M unit :=
  r ← find k true;
  match r with
  | Some index => updateNode index v
  | None => newNode pooled k v
  end.

(** The value and [true], or nil and [false], which is [None]. *)
Definition Get (k : Z) (peek : bool) : M (option (option V)) :=
  r ← find k false;
  match r with
  | Some index =>
      node ← getNode index;
      (if negb peek then updateNode index (value node) else mret tt) ;;
      node ← getNode index;
      mret (Some (value node))
  | None => mret None
  end.

Definition Remove (k : Z) : M unit :=
  m ← get_state;
  head ← slot_head (compressHash m k);
  r ← find_loop (S (Z.to_nat (size m))) k head 0;
  match r with
  | (Some index, _) => removeNode index
  | (None, _) => mret tt
  end.

(** What the callback gets, in the order of its calls. *)
Fixpoint Walk_loop (rounds : nat) (i : Z) : M (list (Z * option V)) :=
  match rounds with
  | O => panic
  | S rounds =>
      if i =? -1 then mret []
      else
        node ← getNode i;
        rest ← Walk_loop rounds (timeListNext node);
        mret ((key node, value node) :: rest)
  end.

Definition Walk : M (list (Z * option V)) :=
  m ← get_state; Walk_loop (S (Z.to_nat (size m))) (timeListHead m).

Definition Clear (m : U64LRU) : U64LRU :=
  mkU64LRU ((fun _ => None) <$> ringBuffer m) 0 0 (hashSlots m) (hashSlotBits m)
    ((fun _ => -1) <$> hashSlotHead m) (-1) (-1) (capacity m) 0 (counter m)
    (collisionChainDebugThreshold m) (debugChain m) 1.

Definition GetCounter (m : U64LRU) : Counter * U64LRU :=
  let c := counter m in
  (mkCounter (Max c) (size m)
     (if negb (scanTimes c =? 0) then i64 (Z.quot (totalScan c) (scanTimes c)) else AvgScan c)
     (totalScan c) (scanTimes c),
   set_counter m (mkCounter 0 0 0 0 0)).

Definition GetCollisionChain (m : U64LRU) : option (list Z) * U64LRU :=
  if debugChainRead m =? 1 then (None, m)
  else (debugChain m, set_debug m (collisionChainDebugThreshold m) (debugChain m) 1).

Definition SetCollisionChainDebugThreshold (m : U64LRU) (t : Z) : U64LRU :=
  set_debug m (u32 t) (debugChain m) (if 0 <? t then 1 else debugChainRead m).

(** [None] is the panic of a negative length. *)
Definition NewU64LRUNoStats (slots cap : Z) : option U64LRU :=
  let '(slots, bits) := minPowerOfTwo slots in
  let blocks := i64 (Z.quot (i64 (cap + BLOCK_SIZE)) BLOCK_SIZE + 1) in
  if blocks <? 0 then None
  else Some (mkU64LRU (replicate (Z.to_nat blocks) None) 0 0 (i32 slots) (u32 bits)
               (replicate (Z.to_nat slots) (-1)) (-1) (-1) cap 0 (mkCounter 0 0 0 0 0) 0 None 0).
End U64LRU.

Arguments u64LRUNode : clear implicits.
Arguments U64LRU : clear implicits.
