(* ===== verification/LruFacts.v ===== *)
(** The cache refines a list of entries by time of use: the proofs about index
    linked lists, the ring buffer that holds their nodes, and the operations. *)

From S2P Require Import Prelude Lru.

(** * Lists linked by index

    [L i] is what the cell [i] links to, the next index and the one before;
    [seg L p l e] says that the cells of [l] are linked in this order, from [p]
    before the first to [e] after the last.  No index is [-1], which stands for
    none. *)

Section Links.
Implicit Types (L : Z -> option (Z * Z)) (l : list Z).

Definition hd_or (e : Z) l : Z := match l with [] => e | i :: _ => i end.

Definition last_or (p : Z) l : Z := default p (last l).

Fixpoint seg L (p : Z) l (e : Z) : Prop :=
  match l with
  | [] => True
  | i :: l => L i = Some (hd_or e l, p) /\ seg L i l e
  end.

Definition set_next L (k a : Z) : Z -> option (Z * Z) := fun i =>
  if decide (i = k /\ k <> -1) then (fun x => (a, x.2)) <$> L i else L i.

Definition set_prev L (k b : Z) : Z -> option (Z * Z) := fun i =>
  if decide (i = k /\ k <> -1) then (fun x => (x.1, b)) <$> L i else L i.

Lemma last_or_cons p i l : last_or p (i :: l) = last_or i l.
Proof. unfold last_or. by destruct l as [|x l] using rev_ind; [|rewrite app_comm_cons, !last_snoc]. Qed.

Lemma last_or_snoc p l i : last_or p (l ++ [i]) = i.
Proof. unfold last_or. by rewrite last_snoc. Qed.

Lemma last_or_in p l : last_or p l = p \/ last_or p l ∈ l.
Proof. induction l as [|i l _] using rev_ind; [by left|]. rewrite last_or_snoc. right. set_solver. Qed.

Lemma hd_or_in e l : hd_or e l = e \/ hd_or e l ∈ l.
Proof. destruct l; [by left|right; cbn; set_solver]. Qed.

Lemma hd_or_app e l1 l2 : hd_or e (l1 ++ l2) = hd_or (hd_or e l2) l1.
Proof. by destruct l1. Qed.

Lemma seg_app L p l1 i l2 e :
  seg L p (l1 ++ i :: l2) e <->
  seg L p l1 i /\ L i = Some (hd_or e l2, last_or p l1) /\ seg L i l2 e.
Proof.
  revert p. induction l1 as [|j l1 IH]; intros p; cbn [app seg].
  - unfold last_or. cbn. tauto.
  - rewrite IH, last_or_cons, hd_or_app. cbn [hd_or]. tauto.
Qed.

Lemma seg_cat L p l1 l2 e :
  seg L p l1 (hd_or e l2) -> seg L (last_or p l1) l2 e -> seg L p (l1 ++ l2) e.
Proof.
  revert p. induction l1 as [|j l1 IH]; intros p; cbn [app seg]; [done|].
  rewrite last_or_cons, hd_or_app. intros [E H1] H2. split; [done|]. by apply IH.
Qed.

Lemma seg_frame L L' p l e : (forall i, i ∈ l -> L' i = L i) -> seg L p l e -> seg L' p l e.
Proof.
  revert p. induction l as [|j l IH]; intros p H; cbn; [done|]. intros [E Hs]. split.
  - rewrite H; [done|set_solver].
  - apply IH; [|done]. intros i Hi. apply H. set_solver.
Qed.

Lemma seg_linked L p l e i : seg L p l e -> i ∈ l -> is_Some (L i).
Proof.
  intros Hs Hi. apply list_elem_of_split in Hi as (l1 & l2 & ->).
  apply seg_app in Hs as (_ & -> & _). by eexists.
Qed.

Lemma set_next_ne L k a i : i <> k -> set_next L k a i = L i.
Proof. unfold set_next. intros. by rewrite decide_False by (by intros [? _]). Qed.

Lemma set_prev_ne L k b i : i <> k -> set_prev L k b i = L i.
Proof. unfold set_prev. intros. by rewrite decide_False by (by intros [? _]). Qed.

(** Redirecting the end, or the beginning, of a list. *)
Lemma seg_end L p l e a :
  NoDup l -> (-1) ∉ l -> seg L p l e -> seg (set_next L (last_or (-1) l) a) p l a.
Proof.
  destruct l as [|k l _] using rev_ind; [done|].
  intros [_ [Hk _]]%NoDup_app Hm (H1 & H2 & _)%seg_app. rewrite last_or_snoc.
  apply seg_app. split; [|split; [|done]].
  - eapply seg_frame; [|done]. intros i Hi. apply set_next_ne. intros ->. set_solver.
  - unfold set_next. rewrite decide_True by (split; [done|intros ->; set_solver]). by rewrite H2.
Qed.

Lemma seg_begin L p l e b :
  NoDup l -> (-1) ∉ l -> seg L p l e -> seg (set_prev L (hd_or (-1) l) b) b l e.
Proof.
  destruct l as [|k l]; [done|]. intros [Hk _]%NoDup_cons Hm [E H]. cbn [hd_or seg]. split.
  - unfold set_prev. rewrite decide_True by (split; [done|intros ->; set_solver]). by rewrite E.
  - eapply seg_frame; [|done]. intros i Hi. apply set_prev_ne. by intros ->.
Qed.

(** The links after the neighbours of [i] have been redirected to [a] and [b]. *)
Definition relink L (next prev a b : Z) : Z -> option (Z * Z) := set_prev (set_next L prev a) next b.

Lemma seg_relink L l1 i l2 a b :
  NoDup (l1 ++ i :: l2) -> (-1) ∉ l1 ++ i :: l2 -> seg L (-1) (l1 ++ i :: l2) (-1) ->
  seg (relink L (hd_or (-1) l2) (last_or (-1) l1) a b) (-1) l1 a /\
  seg (relink L (hd_or (-1) l2) (last_or (-1) l1) a b) b l2 (-1).
Proof.
  intros (N1 & Hd & [Ni N2]%NoDup_cons)%NoDup_app Hm (H1 & _ & H2)%seg_app. split.
  - eapply seg_frame; [|apply (seg_end L (-1) l1 i a N1); [set_solver|exact H1]].
    intros j Hj. apply set_prev_ne. intros ->.
    destruct (hd_or_in (-1) l2) as [E|E]; [rewrite E in Hj; set_solver|]. specialize (Hd _ Hj). set_solver.
  - apply (seg_begin _ i l2 _ b N2); [set_solver|]. eapply seg_frame; [|exact H2].
    intros j Hj. apply set_next_ne. intros ->.
    destruct (last_or_in (-1) l1) as [E|E]; [rewrite E in Hj; set_solver|]. specialize (Hd _ E). set_solver.
Qed.

(** Taking a node out. *)
Lemma seg_unlink L l1 i l2 :
  NoDup (l1 ++ i :: l2) -> (-1) ∉ l1 ++ i :: l2 -> seg L (-1) (l1 ++ i :: l2) (-1) ->
  seg (relink L (hd_or (-1) l2) (last_or (-1) l1) (hd_or (-1) l2) (last_or (-1) l1)) (-1) (l1 ++ l2) (-1).
Proof. intros N Hm H. apply seg_cat; by apply (seg_relink L l1 i l2). Qed.

(** Putting a node in the place of another. *)
Lemma seg_rename L l1 i l2 j :
  NoDup (l1 ++ i :: l2) -> (-1) ∉ l1 ++ i :: l2 -> seg L (-1) (l1 ++ i :: l2) (-1) ->
  j ∉ l1 ++ i :: l2 -> j <> -1 -> L j = L i ->
  seg (relink L (hd_or (-1) l2) (last_or (-1) l1) j j) (-1) (l1 ++ j :: l2) (-1).
Proof.
  intros N Hm H Hj Hj1 E. pose proof (seg_relink L l1 i l2 j j N Hm H) as [H1 H2].
  apply seg_app. split; [done|split; [|done]].
  apply seg_app in H as (_ & Ei & _). unfold relink. rewrite set_prev_ne, set_next_ne.
  - by rewrite E, Ei.
  - intros ->. destruct (last_or_in (-1) l1) as [?|?]; [done|set_solver].
  - intros ->. destruct (hd_or_in (-1) l2) as [?|?]; [done|set_solver].
Qed.

(** Putting a node in front. *)
Lemma seg_push L l i :
  NoDup l -> (-1) ∉ l -> i ∉ l -> seg L (-1) l (-1) -> L i = Some (hd_or (-1) l, -1) ->
  i <> -1 -> seg (set_prev L (hd_or (-1) l) i) (-1) (i :: l) (-1).
Proof.
  intros N Hm Hi H E Hi1. cbn [seg]. split; [|by apply (seg_begin _ (-1))].
  rewrite set_prev_ne; [done|]. intros ->. destruct (hd_or_in (-1) l) as [?|?]; [done|set_solver].
Qed.
End Links.

(** * Cells of the ring buffer *)

Section Cells.
Context {V : Type}.
Implicit Types (m : U64LRU V) (n : u64LRUNode V).

Lemma index_parts i : Z.land i BLOCK_SIZE_MASK = i mod 256 /\ i ≫ BLOCK_SIZE_BITS = i / 256.
Proof.
  split.
  - change BLOCK_SIZE_MASK with (2 ^ 8 - 1). by apply land_mask.
  - by apply (shiftr_div i 8).
Qed.

Lemma at_index_Some {A} (l : list A) i x :
  at_index l i = Some x <-> 0 <= i /\ l !! Z.to_nat i = Some x.
Proof. unfold at_index. zcase; [|tauto]. split; [done|lia]. Qed.

Lemma cell_Some m i n :
  cell m i = Some n <->
  0 <= i /\ exists b, ringBuffer m !! Z.to_nat (i / 256) = Some (Some b) /\ b !! Z.to_nat (i mod 256) = Some n.
Proof.
  unfold cell. destruct (index_parts i) as [-> ->]. pose proof (Z.mod_pos_bound i 256).
  split.
  - intros (b & (Hr & Hb)%at_index_Some & Hc)%bind_Some.
    apply bind_Some in Hc as (blk & -> & (_ & Hc)%at_index_Some). split; [|by exists blk].
    pose proof (Z.div_mod i 256). lia.
  - intros (Hi & b & Hr & Hb). assert (0 <= i / 256) as Hrow by (apply Z.div_pos; lia).
    rewrite (proj2 (at_index_Some _ _ _) (conj Hrow Hr)). cbn.
    apply at_index_Some. split; [lia|done].
Qed.

Lemma cell_index m i : is_Some (cell m i) -> 0 <= i < 256 * zlen (ringBuffer m).
Proof.
  intros [n (Hi & b & Hr%lookup_lt_Some & _)%cell_Some]. split; [done|].
  assert (i / 256 < zlen (ringBuffer m)) by (unfold zlen; lia).
  pose proof (Z.mul_succ_div_gt i 256). lia.
Qed.

Lemma and_iff_compat_l' (A B C : Prop) : (A -> (B <-> C)) -> (A /\ B <-> A /\ C).
Proof. tauto. Qed.

Lemma cell_store m i n j :
  is_Some (cell m i) -> cell (store m i n) j = if decide (j = i) then Some n else cell m j.
Proof.
  intros [n0 (Hi & b & Hr & Hb)%cell_Some]. apply option_eq. intros n'.
  rewrite cell_Some. unfold store. cbn [ringBuffer set_ring]. destruct (index_parts i) as [-> ->].
  destruct (decide (j = i)) as [->|Hne].
  - rewrite list_lookup_alter_eq, Hr. cbn. split.
    + intros (_ & b' & E & H'). injection E as <-.
      rewrite list_lookup_insert_eq in H' by eauto using lookup_lt_Some. by injection H' as ->.
    + intros [= ->]. split; [done|]. eexists. split; [done|].
      apply list_lookup_insert_eq. eauto using lookup_lt_Some.
  - rewrite cell_Some. apply and_iff_compat_l'. intros Hj.
    destruct (decide (j / 256 = i / 256)) as [E|E].
    + rewrite E, list_lookup_alter_eq, Hr. cbn.
      assert (j mod 256 <> i mod 256).
      { intros E'. apply Hne. rewrite (Z.div_mod j 256), (Z.div_mod i 256) by lia. congruence. }
      pose proof (Z.mod_pos_bound i 256). pose proof (Z.mod_pos_bound j 256).
      split; intros (b' & [= <-] & H'); eexists; (split; [done|]); [|];
        rewrite list_lookup_insert_ne in * by lia; done.
    + rewrite list_lookup_alter_ne; [done|].
      assert (0 <= i / 256) by (apply Z.div_pos; lia). assert (0 <= j / 256) by (apply Z.div_pos; lia). lia.
Qed.

(** The links and the entries of the cells. *)
Definition hl m (i : Z) : option (Z * Z) := (fun n => (hashListNext n, hashListPrev n)) <$> cell m i.
Definition tl m (i : Z) : option (Z * Z) := (fun n => (timeListNext n, timeListPrev n)) <$> cell m i.
Definition en m (i : Z) : option (Z * option V) := (fun n => (key n, value n)) <$> cell m i.

Definition blocks_ok m : Prop := forall b, Some b ∈ ringBuffer m -> zlen b = 256.

(** What changing links and entries leaves alone. *)
Record keeps m m' : Prop := {
  k_start : bufferStartIndex m' = bufferStartIndex m;
  k_end : bufferEndIndex m' = bufferEndIndex m;
  k_slots : hashSlots m' = hashSlots m;
  k_capacity : capacity m' = capacity m;
  k_size : size m' = size m;
  k_ring : zlen (ringBuffer m') = zlen (ringBuffer m);
  k_blocks : blocks_ok m -> blocks_ok m';
  k_cells : forall i, is_Some (cell m i) -> is_Some (cell m' i)
}.

Definition same_hash m m' : Prop :=
  (forall i, hl m' i = hl m i) /\ hashSlotHead m' = hashSlotHead m.

Definition same_time m m' : Prop :=
  (forall i, tl m' i = tl m i) /\ timeListHead m' = timeListHead m /\ timeListTail m' = timeListTail m.

Definition same_entries m m' : Prop := forall i, en m' i = en m i.

#[export] Instance keeps_PreOrder : PreOrder keeps.
Proof.
  split; [by constructor|]. intros m1 m2 m3 [] []. constructor; first [congruence|auto].
Qed.

Lemma keeps_store m i n : is_Some (cell m i) -> keeps m (store m i n).
Proof.
  intros Hi. constructor; try done.
  - unfold store, zlen. cbn. by rewrite length_alter.
  - intros Hb b Hin. unfold store in Hin. cbn in Hin.
    apply list_elem_of_lookup in Hin as [r Hr].
    rewrite list_lookup_alter in Hr. case_decide; [|by apply Hb; eapply list_elem_of_lookup_2].
    subst r. destruct (ringBuffer m !! _) as [[b0|]|] eqn:E; cbn in Hr; try congruence.
    injection Hr as <-. unfold zlen. rewrite length_insert. apply Hb. by eapply list_elem_of_lookup_2.
  - intros j Hj. rewrite cell_store by done. case_decide; [by eexists|done].
Qed.

Lemma keeps_set_time m a b : keeps m (set_time m a b).
Proof. by constructor. Qed.

Lemma runs_getNode m i n (Q : _ -> _ -> Prop) : cell m i = Some n -> Q n m -> runs (getNode i) m Q.
Proof. intros E HQ. apply runs_bind, runs_get, (runs_of_option _ n); done. Qed.

Lemma runs_setNode m i n f (Q : unit -> _ -> Prop) :
  cell m i = Some n -> Q tt (store m i (f n)) -> runs (setNode i f) m Q.
Proof. intros E HQ. apply runs_bind, (runs_getNode _ _ n); [done|]. by apply runs_modify. Qed.

Lemma runs_set_slot_head m s i (Q : unit -> _ -> Prop) :
  is_Some (at_index (hashSlotHead m) s) ->
  Q tt (set_hashSlotHead m (<[Z.to_nat s := i]> (hashSlotHead m))) -> runs (set_slot_head s i) m Q.
Proof.
  intros [x Hx] HQ. apply runs_bind. apply runs_bind, runs_get, (runs_of_option _ x); [done|].
  by apply runs_modify.
Qed.

(** ** The links after the list operations *)

Lemma cell_store_hash m p n x i :
  cell m p = Some n ->
  hl (store m p (set_hash_links n x (hashListPrev n))) i = set_next (hl m) p x i /\
  hl (store m p (set_hash_links n (hashListNext n) x)) i = set_prev (hl m) p x i /\
  (forall a b, tl (store m p (set_hash_links n a b)) i = tl m i /\
               en (store m p (set_hash_links n a b)) i = en m i).
Proof.
  intros Hp. assert (0 <= p) by (apply (cell_index m); by eexists).
  unfold hl, tl, en, set_next, set_prev. destruct (decide (i = p)) as [->|Hne].
  - rewrite !decide_True by (split; [done|lia]).
    split_and!; intros; rewrite ?cell_store, ?decide_True, ?Hp by (done || by eexists); done.
  - rewrite !decide_False by (by intros [? _]).
    split_and!; intros; rewrite ?cell_store, ?decide_False by (done || by eexists); done.
Qed.

Lemma cell_store_time m p n x i :
  cell m p = Some n ->
  tl (store m p (set_time_links n x (timeListPrev n))) i = set_next (tl m) p x i /\
  tl (store m p (set_time_links n (timeListNext n) x)) i = set_prev (tl m) p x i /\
  (forall a b, hl (store m p (set_time_links n a b)) i = hl m i /\
               en (store m p (set_time_links n a b)) i = en m i).
Proof.
  intros Hp. assert (0 <= p) by (apply (cell_index m); by eexists).
  unfold hl, tl, en, set_next, set_prev. destruct (decide (i = p)) as [->|Hne].
  - rewrite !decide_True by (split; [done|lia]).
    split_and!; intros; rewrite ?cell_store, ?decide_True, ?Hp by (done || by eexists); done.
  - rewrite !decide_False by (by intros [? _]).
    split_and!; intros; rewrite ?cell_store, ?decide_False by (done || by eexists); done.
Qed.

Lemma set_next_none L a i : set_next L (-1) a i = L i.
Proof. unfold set_next. by rewrite decide_False by (by intros [_ ?]). Qed.

Lemma set_prev_none L a i : set_prev L (-1) a i = L i.
Proof. unfold set_prev. by rewrite decide_False by (by intros [_ ?]). Qed.

Lemma set_prev_ext L L' k b i : L i = L' i -> set_prev L k b i = set_prev L' k b i.
Proof. unfold set_prev. by intros ->. Qed.

(** A neighbour is none, or another node. *)
Definition near m (j k : Z) : Prop := k <> -1 -> k <> j /\ is_Some (cell m k).

Lemma removeNodeFromHashList_runs m j n a b :
  cell m j = Some n -> near m j (hashListPrev n) -> near m j (hashListNext n) ->
  (hashListPrev n = -1 -> is_Some (at_index (hashSlotHead m) (compressHash m (key n)))) ->
  runs (removeNodeFromHashList j a b) m (fun _ m' =>
    keeps m m' /\ same_time m m' /\ same_entries m m' /\
    (forall i, hl m' i = relink (hl m) (hashListNext n) (hashListPrev n) a b i) /\
    hashSlotHead m' = if decide (hashListPrev n = -1)
                      then <[Z.to_nat (compressHash m (key n)) := a]> (hashSlotHead m) else hashSlotHead m).
Proof.
  intros Hj Hp Hn Hs. apply runs_bind, (runs_getNode _ _ n); [done|]. apply runs_bind.
  apply (runs_mono _ _ (fun _ m1 => cell m1 j = Some n /\ keeps m m1 /\ same_time m m1 /\
    same_entries m m1 /\ (forall i, hl m1 i = set_next (hl m) (hashListPrev n) a i) /\
    hashSlotHead m1 = if decide (hashListPrev n = -1)
      then <[Z.to_nat (compressHash m (key n)) := a]> (hashSlotHead m) else hashSlotHead m)).
  - destruct (Z.eqb_spec (hashListPrev n) (-1)) as [E|E]; cbn [negb].
    + apply runs_bind, runs_get. apply runs_set_slot_head; [by apply Hs|].
      rewrite E, decide_True by done. split_and!; try done. intros i. by rewrite set_next_none.
    + destruct (Hp E) as [Hne [np Hnp]]. apply (runs_setNode _ _ np); [done|].
      rewrite decide_False by done. split_and!; try done.
      * rewrite cell_store by (by eexists). by rewrite decide_False by congruence.
      * apply keeps_store. by eexists.
      * split; [|done]. intros i. by apply cell_store_hash.
      * intros i. by apply cell_store_hash.
      * intros i. by apply cell_store_hash.
  - intros [] m1 (Hj1 & K1 & T1 & E1 & L1 & S1). apply runs_bind, (runs_getNode _ _ n); [done|].
    destruct (Z.eqb_spec (hashListNext n) (-1)) as [E|E]; cbn [negb].
    + apply runs_ret. split_and!; try done. intros i. unfold relink. by rewrite E, set_prev_none.
    + destruct (Hn E) as [_ Hc]. apply (k_cells _ _ K1) in Hc as [nn Hnn].
      apply (runs_setNode _ _ nn); [done|]. split_and!; try done.
      * etrans; [done|]. apply keeps_store. by eexists.
      * destruct T1 as [T1 ?]. split; [|done]. intros i. rewrite <- T1. by apply cell_store_hash.
      * intros i. rewrite <- E1. by apply cell_store_hash.
      * intros i. rewrite (proj1 (proj2 (cell_store_hash _ _ _ b i Hnn))). by apply set_prev_ext.
Qed.

Lemma removeNodeFromTimeList_runs m j n a b :
  cell m j = Some n -> near m j (timeListPrev n) -> near m j (timeListNext n) ->
  runs (removeNodeFromTimeList j a b) m (fun _ m' =>
    keeps m m' /\ same_hash m m' /\ same_entries m m' /\
    (forall i, tl m' i = relink (tl m) (timeListNext n) (timeListPrev n) a b i) /\
    timeListHead m' = (if decide (timeListPrev n = -1) then a else timeListHead m) /\
    timeListTail m' = (if decide (timeListNext n = -1) then b else timeListTail m)).
Proof.
  intros Hj Hp Hn. apply runs_bind, (runs_getNode _ _ n); [done|]. apply runs_bind.
  apply (runs_mono _ _ (fun _ m1 => cell m1 j = Some n /\ keeps m m1 /\ same_hash m m1 /\
    same_entries m m1 /\ (forall i, tl m1 i = set_next (tl m) (timeListPrev n) a i) /\
    timeListHead m1 = (if decide (timeListPrev n = -1) then a else timeListHead m) /\
    timeListTail m1 = timeListTail m)).
  - destruct (Z.eqb_spec (timeListPrev n) (-1)) as [E|E]; cbn [negb].
    + apply runs_modify. rewrite E, decide_True by done. split_and!; try done.
      intros i. by rewrite set_next_none.
    + destruct (Hp E) as [Hne [np Hnp]]. apply (runs_setNode _ _ np); [done|].
      rewrite decide_False by done. split_and!; try done.
      * rewrite cell_store by (by eexists). by rewrite decide_False by congruence.
      * apply keeps_store. by eexists.
      * split; [|done]. intros i. by apply cell_store_time.
      * intros i. by apply cell_store_time.
      * intros i. by apply cell_store_time.
  - intros [] m1 (Hj1 & K1 & T1 & E1 & L1 & S1 & S2). apply runs_bind, (runs_getNode _ _ n); [done|].
    destruct (Z.eqb_spec (timeListNext n) (-1)) as [E|E]; cbn [negb].
    + apply runs_modify. rewrite E, (decide_True (P:=(-1 = -1))) by done.
      split_and!; try done.
      * etrans; [done|]. apply keeps_set_time.
      * intros i. unfold relink. by rewrite set_prev_none, <- L1.
    + destruct (Hn E) as [_ Hc]. apply (k_cells _ _ K1) in Hc as [nn Hnn].
      apply (runs_setNode _ _ nn); [done|]. rewrite (decide_False (P:=timeListNext n = -1)) by done.
      split_and!; try done.
      * etrans; [done|]. apply keeps_store. by eexists.
      * destruct T1 as [T1 ?]. split; [|done]. intros i. rewrite <- T1. by apply cell_store_time.
      * intros i. rewrite <- E1. by apply cell_store_time.
      * intros i. rewrite (proj1 (proj2 (cell_store_time _ _ _ b i Hnn))). by apply set_prev_ext.
Qed.

Definition link (L : Z -> option (Z * Z)) (j : Z) (x : Z * Z) : Z -> option (Z * Z) := fun i =>
  if decide (i = j) then Some x else L i.

Lemma pushNodeToHashList_runs m j n s head :
  cell m j = Some n -> at_index (hashSlotHead m) s = Some head -> near m j head ->
  runs (pushNodeToHashList j s) m (fun _ m' =>
    keeps m m' /\ same_time m m' /\ same_entries m m' /\
    (forall i, hl m' i = set_prev (link (hl m) j (head, -1)) head j i) /\
    hashSlotHead m' = <[Z.to_nat s := j]> (hashSlotHead m)).
Proof.
  intros Hj Hs Hh. assert (is_Some (cell m j)) as Sj by (by eexists).
  apply runs_bind, runs_bind, runs_get, (runs_of_option _ head); [done|].
  apply runs_bind, (runs_setNode _ _ n); [done|]. apply runs_bind.
  set (m1 := store m j (set_hash_links n head (-1))).
  assert (same_time m m1 /\ same_entries m m1) as [T1 E1].
  { split; [split; [|done]|]; intros i; by apply (cell_store_hash _ _ _ 0 i Hj). }
  assert (forall i, hl m1 i = link (hl m) j (head, -1) i) as L1.
  { intros i. unfold hl, m1, link. rewrite cell_store by done. by case_decide. }
  assert (keeps m m1) as K1 by (by apply keeps_store).
  apply (runs_mono _ _ (fun _ m2 => keeps m m2 /\ same_time m m2 /\ same_entries m m2 /\
    (forall i, hl m2 i = set_prev (link (hl m) j (head, -1)) head j i) /\
    hashSlotHead m2 = hashSlotHead m)).
  - destruct (Z.eqb_spec head (-1)) as [E|E]; cbn [negb].
    + apply runs_ret. split_and!; try done. intros i. rewrite L1. unfold set_prev. by rewrite decide_False by (by intros [_ ?]).
    + destruct (Hh E) as [_ Hc]. apply (k_cells _ _ K1) in Hc as [nn Hnn].
      apply (runs_setNode _ _ nn); [done|]. split_and!; try done.
      * etrans; [done|]. apply keeps_store. by eexists.
      * destruct T1 as [T1 ?]. split; [|done]. intros i. rewrite <- T1. by apply cell_store_hash.
      * intros i. rewrite <- E1. by apply cell_store_hash.
      * intros i. rewrite (proj1 (proj2 (cell_store_hash _ _ _ j i Hnn))). by apply set_prev_ext.
  - intros [] m2 (K2 & T2 & E2 & L2 & S2). apply runs_set_slot_head; [rewrite S2; by eexists|].
    rewrite S2. split_and!; try done. destruct K2. by constructor.
Qed.

Lemma pushNodeToTimeList_runs m j n :
  cell m j = Some n -> near m j (timeListHead m) ->
  runs (pushNodeToTimeList j) m (fun _ m' =>
    keeps m m' /\ same_hash m m' /\ same_entries m m' /\
    (forall i, tl m' i = set_prev (link (tl m) j (timeListHead m, -1)) (timeListHead m) j i) /\
    timeListHead m' = j /\
    timeListTail m' = if decide (timeListTail m = -1) then j else timeListTail m).
Proof.
  intros Hj Hh. assert (is_Some (cell m j)) as Sj by (by eexists). apply runs_bind, runs_get.
  set (head := timeListHead m) in *. apply runs_bind, (runs_setNode _ _ n); [done|]. apply runs_bind.
  set (m1 := store m j (set_time_links n head (-1))).
  assert (same_hash m m1 /\ same_entries m m1) as [T1 E1].
  { split; [split; [|done]|]; intros i; by apply (cell_store_time _ _ _ 0 i Hj). }
  assert (forall i, tl m1 i = link (tl m) j (head, -1) i) as L1.
  { intros i. unfold tl, m1, link. rewrite cell_store by done. by case_decide. }
  assert (keeps m m1) as K1 by (by apply keeps_store).
  apply (runs_mono _ _ (fun _ m2 => keeps m m2 /\ same_hash m m2 /\ same_entries m m2 /\
    (forall i, tl m2 i = set_prev (link (tl m) j (head, -1)) head j i) /\
    timeListTail m2 = timeListTail m)).
  - destruct (Z.eqb_spec head (-1)) as [E|E]; cbn [negb].
    + apply runs_ret. split_and!; try done. intros i. rewrite L1. unfold set_prev. by rewrite decide_False by (by intros [_ ?]).
    + destruct (Hh E) as [_ Hc]. apply (k_cells _ _ K1) in Hc as [nn Hnn].
      apply (runs_setNode _ _ nn); [done|]. split_and!; try done.
      * etrans; [done|]. apply keeps_store. by eexists.
      * destruct T1 as [T1 ?]. split; [|done]. intros i. rewrite <- T1. by apply cell_store_time.
      * intros i. rewrite <- E1. by apply cell_store_time.
      * intros i. rewrite (proj1 (proj2 (cell_store_time _ _ _ j i Hnn))). by apply set_prev_ext.
  - intros [] m2 (K2 & T2 & E2 & L2 & S2). apply runs_modify. cbn [timeListHead timeListTail set_time].
    rewrite S2. split_and!; try done.
    + etrans; [done|]. apply keeps_set_time.
    + case_decide; zcase; done.
Qed.

(** ** The list by time of use *)

Record timed m (T : list Z) : Prop := {
  t_seg : seg (tl m) (-1) T (-1);
  t_nodup : NoDup T;
  t_head : timeListHead m = hd_or (-1) T;
  t_tail : timeListTail m = last_or (-1) T
}.

Lemma linked_cell (f : u64LRUNode V -> Z * Z) m p l e i :
  seg (fun i => f <$> cell m i) p l e -> i ∈ l -> is_Some (cell m i).
Proof. intros H Hi. by apply (seg_linked _ _ _ _ _ H), fmap_is_Some in Hi. Qed.

Lemma linked_none (f : u64LRUNode V -> Z * Z) m p l e :
  seg (fun i => f <$> cell m i) p l e -> (-1) ∉ l.
Proof. intros H Hi. apply (linked_cell _ _ _ _ _ _ H), cell_index in Hi. lia. Qed.

Lemma linked_near (f : u64LRUNode V -> Z * Z) m l1 j l2 :
  seg (fun i => f <$> cell m i) (-1) (l1 ++ j :: l2) (-1) -> NoDup (l1 ++ j :: l2) ->
  near m j (hd_or (-1) l2) /\ near m j (last_or (-1) l1).
Proof.
  intros H N. apply NoDup_app in N as (_ & Hd & [N _]%NoDup_cons). split; intros Hk.
  - destruct (hd_or_in (-1) l2) as [?|Hi]; [done|]. split; [by intros E; rewrite E in Hi|].
    apply (linked_cell _ _ _ _ _ _ H). set_solver.
  - destruct (last_or_in (-1) l1) as [?|Hi]; [done|]. split.
    + intros E. rewrite E in Hi. apply Hd in Hi. set_solver.
    + apply (linked_cell _ _ _ _ _ _ H). set_solver.
Qed.

Lemma timed_frame m m' T : same_time m m' -> timed m T -> timed m' T.
Proof.
  intros (Ht & Hh & Hl) [S N ? ?]. constructor; [|done|congruence|congruence].
  eapply seg_frame; [|done]. intros i _. apply Ht.
Qed.

Lemma last_or_none l : (-1) ∉ l -> last_or (-1) l = -1 -> l = [].
Proof. intros H E. destruct l as [|i l _] using rev_ind; [done|]. rewrite last_or_snoc in E. set_solver. Qed.

Lemma hd_or_none l : (-1) ∉ l -> hd_or (-1) l = -1 -> l = [].
Proof. intros H E. destruct l as [|i l]; [done|]. cbn in E. set_solver. Qed.

Lemma hd_or_mid l1 j l2 a :
  (-1) ∉ l1 -> (if decide (last_or (-1) l1 = -1) then a else hd_or (-1) (l1 ++ j :: l2)) = hd_or a l1.
Proof.
  intros H. case_decide as E; [by rewrite (last_or_none l1)|]. by destruct l1.
Qed.

Lemma last_or_app p l1 l2 : last_or p (l1 ++ l2) = last_or (last_or p l1) l2.
Proof.
  revert p. induction l1 as [|i l1 IH]; intros p; [done|]. cbn [app]. by rewrite !last_or_cons, IH.
Qed.

Lemma last_or_mid l1 j l2 b :
  (-1) ∉ l2 -> (if decide (hd_or (-1) l2 = -1) then b else last_or (-1) (l1 ++ j :: l2)) = last_or b l2.
Proof.
  intros H. case_decide as E; [by rewrite (hd_or_none l2)|].
  rewrite last_or_app, last_or_cons. destruct l2; [done|]. by rewrite !last_or_cons.
Qed.

Lemma timed_node m t1 j t2 n :
  timed m (t1 ++ j :: t2) -> cell m j = Some n ->
  timeListNext n = hd_or (-1) t2 /\ timeListPrev n = last_or (-1) t1 /\
  ((-1) ∉ t1) /\ ((-1) ∉ t2) /\ near m j (hd_or (-1) t2) /\ near m j (last_or (-1) t1).
Proof.
  intros [S N _ _] Hj. pose proof (linked_none _ _ _ _ _ S). pose proof (linked_near _ _ _ _ _ S N).
  apply seg_app in S as (_ & E & _). unfold tl in E. rewrite Hj in E. injection E as E1 E2.
  rewrite not_elem_of_app, not_elem_of_cons in H. tauto.
Qed.

Lemma timed_remove m t1 j t2 n :
  timed m (t1 ++ j :: t2) -> cell m j = Some n ->
  runs (removeNodeFromTimeList j (timeListNext n) (timeListPrev n)) m (fun _ m' =>
    keeps m m' /\ same_hash m m' /\ same_entries m m' /\ timed m' (t1 ++ t2)).
Proof.
  intros Ht Hj. pose proof (timed_node _ _ _ _ _ Ht Hj) as (E1 & E2 & M1 & M2 & N1 & N2).
  destruct Ht as [S N Hh Hl]. eapply runs_mono; [apply (removeNodeFromTimeList_runs _ _ n); [done|by rewrite E2|by rewrite E1]|].
  intros [] m' (K & H & E & L & Hh' & Hl'). split_and!; try done.
  rewrite E1, E2, Hh in Hh'. rewrite E1, E2, Hl in Hl'. rewrite E1, E2 in L. constructor.
  - eapply seg_frame; [|by apply (seg_unlink (tl m) t1 j t2); [|set_solver|]]. done.
  - apply NoDup_app in N as (? & Hd & [? ?]%NoDup_cons). apply NoDup_app. split_and!; set_solver.
  - rewrite Hh', hd_or_mid by done. by destruct t1.
  - rewrite Hl', last_or_mid by done. by rewrite last_or_app.
Qed.

Lemma timed_rename m t1 a t2 j n :
  timed m (t1 ++ a :: t2) -> cell m a = Some n -> j ∉ t1 ++ a :: t2 -> is_Some (cell m j) ->
  tl m j = tl m a ->
  runs (removeNodeFromTimeList a j j) m (fun _ m' =>
    keeps m m' /\ same_hash m m' /\ same_entries m m' /\ timed m' (t1 ++ j :: t2)).
Proof.
  intros Ht Ha Hj Hc Hl0. pose proof (timed_node _ _ _ _ _ Ht Ha) as (E1 & E2 & M1 & M2 & N1 & N2).
  destruct Ht as [S N Hh Hl]. eapply runs_mono; [apply (removeNodeFromTimeList_runs _ _ n); [done|by rewrite E2|by rewrite E1]|].
  intros [] m' (K & H & E & L & Hh' & Hl'). split_and!; try done.
  rewrite E2, Hh in Hh'. rewrite E1, Hl in Hl'. rewrite E1, E2 in L.
  apply cell_index in Hc. constructor.
  - eapply seg_frame; [|apply (seg_rename (tl m) t1 a t2 j); try done; [set_solver|lia]]. done.
  - apply NoDup_app in N as (? & Hd & [? ?]%NoDup_cons). apply NoDup_app.
    split_and!; [done|set_solver|]. apply NoDup_cons. set_solver.
  - rewrite Hh', hd_or_mid by done. by destruct t1.
  - rewrite Hl', last_or_mid by done. by rewrite last_or_app, last_or_cons.
Qed.

Lemma timed_push m T j :
  timed m T -> is_Some (cell m j) -> j ∉ T ->
  runs (pushNodeToTimeList j) m (fun _ m' =>
    keeps m m' /\ same_hash m m' /\ same_entries m m' /\ timed m' (j :: T)).
Proof.
  intros [S N Hh Hl] [n Hc] Hj. pose proof (linked_none _ _ _ _ _ S) as Hm.
  assert (0 <= j) by (apply (cell_index m); by eexists).
  eapply runs_mono; [apply (pushNodeToTimeList_runs _ _ n Hc)|].
  { rewrite Hh. intros Hk. destruct (hd_or_in (-1) T) as [?|Hi]; [done|].
    split; [by intros E; rewrite E in Hi|]. by apply (linked_cell _ _ _ _ _ _ S). }
  intros [] m' (K & H0 & E & L & Hh' & Hl'). split_and!; try done. rewrite Hh in L. constructor.
  - eapply seg_frame; [intros i _; apply L|]. apply seg_push; try done; [| |lia].
    + eapply seg_frame; [|done]. intros i Hi. unfold link. rewrite decide_False; [done|]. by intros ->.
    + unfold link. by rewrite decide_True.
  - by constructor.
  - done.
  - rewrite Hl', last_or_cons. case_decide as E0; rewrite Hl in *.
    + by apply last_or_none in E0 as ->.
    + destruct T; [done|]. by rewrite !last_or_cons.
Qed.

(** ** The collision chains *)

(** [H] are the chains of the slots; together they hold the nodes [D], each in the
    chain of its slot [σ]. *)
Record chained m (H : list (list Z)) (D : list Z) (σ : Z -> Z) : Prop := {
  c_heads : hashSlotHead m = hd_or (-1) <$> H;
  c_seg : forall s l, H !! s = Some l -> seg (hl m) (-1) l (-1);
  c_nodup : forall s l, H !! s = Some l -> NoDup l;
  c_in : forall s l i, H !! s = Some l -> (i ∈ l <-> i ∈ D /\ σ i = Z.of_nat s);
  c_range : forall i, i ∈ D -> 0 <= σ i < zlen H
}.

Lemma chained_chain m H D σ j :
  chained m H D σ -> j ∈ D -> exists l, H !! Z.to_nat (σ j) = Some l /\ j ∈ l.
Proof.
  intros C Hj. pose proof (c_range _ _ _ _ C j Hj) as R. unfold zlen in R.
  destruct (lookup_lt_is_Some_2 H (Z.to_nat (σ j))) as [l Hl]; [lia|].
  exists l. split; [done|]. apply (c_in _ _ _ _ C _ _ _ Hl). split; [done|lia].
Qed.

Lemma chained_cell m H D σ j : chained m H D σ -> j ∈ D -> is_Some (cell m j).
Proof.
  intros C Hj. destruct (chained_chain _ _ _ _ _ C Hj) as (l & Hl & Hi).
  exact (linked_cell _ _ _ _ _ _ (c_seg _ _ _ _ C _ _ Hl) Hi).
Qed.

Lemma chained_frame m m' H D D' σ σ' :
  same_hash m m' -> (forall i, i ∈ D' <-> i ∈ D) -> (forall i, i ∈ D -> σ' i = σ i) ->
  chained m H D σ -> chained m' H D' σ'.
Proof.
  intros [Hh Hs] HD Hσ [C1 C2 C3 C4 C5]. constructor.
  - congruence.
  - intros s l Hl. eapply seg_frame; [|by apply (C2 s)]. intros i _. apply Hh.
  - done.
  - intros s l i Hl. rewrite (C4 s l i Hl), HD. split; intros [Hi E]; (split; [done|]); rewrite Hσ in *; done.
  - intros i Hi%HD. rewrite Hσ by done. by apply C5.
Qed.

(** One chain has changed. *)
Lemma chained_update m m' H D D' σ σ' s l l' :
  chained m H D σ -> H !! s = Some l ->
  hashSlotHead m' = <[s := hd_or (-1) l']> (hashSlotHead m) ->
  seg (hl m') (-1) l' (-1) -> NoDup l' ->
  (forall i, i ∈ D -> i ∉ l -> hl m' i = hl m i) ->
  (forall i, i ∈ l' <-> i ∈ D' /\ σ' i = Z.of_nat s) ->
  (forall i s', s' <> s -> i ∈ D' /\ σ' i = Z.of_nat s' <-> i ∈ D /\ σ i = Z.of_nat s') ->
  (forall i, i ∈ D' -> 0 <= σ' i < zlen H) ->
  chained m' (<[s := l']> H) D' σ'.
Proof.
  intros C Hl Hh Hs N Hf Hin Hout Hr. constructor.
  - by rewrite Hh, (c_heads _ _ _ _ C), list_fmap_insert.
  - intros s' k Hk. destruct (decide (s' = s)) as [->|Hne].
    + rewrite list_lookup_insert_eq in Hk by eauto using lookup_lt_Some. by injection Hk as <-.
    + rewrite list_lookup_insert_ne in Hk by done.
      eapply seg_frame; [|by apply (c_seg _ _ _ _ C s')]. intros i Hi.
      apply (c_in _ _ _ _ C _ _ _ Hk) in Hi as [Hi E]. apply Hf; [done|].
      rewrite (c_in _ _ _ _ C _ _ _ Hl). intros [_ E']. lia.
  - intros s' k Hk. destruct (decide (s' = s)) as [->|Hne].
    + rewrite list_lookup_insert_eq in Hk by eauto using lookup_lt_Some. by injection Hk as <-.
    + rewrite list_lookup_insert_ne in Hk by done. by apply (c_nodup _ _ _ _ C s').
  - intros s' k i Hk. destruct (decide (s' = s)) as [->|Hne].
    + rewrite list_lookup_insert_eq in Hk by eauto using lookup_lt_Some. by injection Hk as <-.
    + rewrite list_lookup_insert_ne in Hk by done. by rewrite Hout, (c_in _ _ _ _ C _ _ _ Hk).
  - intros i Hi. unfold zlen. rewrite length_insert. by apply Hr.
Qed.

Lemma relink_other L l1 l2 a b i :
  i ∉ l1 -> i ∉ l2 -> relink L (hd_or (-1) l2) (last_or (-1) l1) a b i = L i.
Proof.
  intros H1 H2. unfold relink, set_prev, set_next. rewrite !decide_False; [done| |].
  - intros [-> Hne]. by destruct (last_or_in (-1) l1).
  - intros [-> Hne]. by destruct (hd_or_in (-1) l2).
Qed.

(** The heads of the slots after a redirection of the neighbours of [j]. *)
Lemma heads_mid m H D σ s l1 j l2 a l' :
  chained m H D σ -> H !! s = Some (l1 ++ j :: l2) -> (-1) ∉ l1 -> hd_or (-1) l' = hd_or a l1 ->
  (if decide (last_or (-1) l1 = -1) then <[s := a]> (hashSlotHead m) else hashSlotHead m)
  = <[s := hd_or (-1) l']> (hashSlotHead m).
Proof.
  intros C Hl Hm E. rewrite E. case_decide as E1; [by rewrite (last_or_none l1)|].
  symmetry. apply list_insert_id. rewrite (c_heads _ _ _ _ C), list_lookup_fmap, Hl. cbn.
  by destruct l1.
Qed.

Lemma chained_node m H D σ j n :
  chained m H D σ -> j ∈ D -> cell m j = Some n -> σ j = compressHash m (key n) ->
  exists l1 l2, H !! Z.to_nat (σ j) = Some (l1 ++ j :: l2) /\
    hashListNext n = hd_or (-1) l2 /\ hashListPrev n = last_or (-1) l1 /\
    near m j (hashListPrev n) /\ near m j (hashListNext n) /\
    is_Some (at_index (hashSlotHead m) (compressHash m (key n))) /\
    ((-1) ∉ l1 ++ j :: l2) /\ NoDup (l1 ++ j :: l2).
Proof.
  intros C Hj Hc Hσ. destruct (chained_chain _ _ _ _ _ C Hj) as (l & Hl & Hi).
  apply list_elem_of_split in Hi as (l1 & l2 & ->). exists l1, l2.
  pose proof (c_seg _ _ _ _ C _ _ Hl) as S. pose proof (c_nodup _ _ _ _ C _ _ Hl) as N.
  pose proof (linked_none _ _ _ _ _ S). pose proof (linked_near _ _ _ _ _ S N) as [N1 N2].
  pose proof (c_range _ _ _ _ C j Hj) as R.
  apply seg_app in S as (_ & E & _). unfold hl in E. rewrite Hc in E. injection E as E1 E2.
  split_and!; try congruence.
  - by rewrite E2.
  - by rewrite E1.
  - rewrite <- Hσ, (c_heads _ _ _ _ C). unfold at_index. ztests.
    rewrite list_lookup_fmap, Hl. by eexists.
Qed.

Lemma chained_remove m H D D' σ j n :
  chained m H D σ -> j ∈ D -> cell m j = Some n -> σ j = compressHash m (key n) ->
  (forall i, i ∈ D' <-> i ∈ D /\ i <> j) ->
  runs (removeNodeFromHashList j (hashListNext n) (hashListPrev n)) m (fun _ m' =>
    keeps m m' /\ same_time m m' /\ same_entries m m' /\
    exists H', zlen H' = zlen H /\ chained m' H' D' σ).
Proof.
  intros C Hj Hc Hσ HD.
  destruct (chained_node _ _ _ _ _ _ C Hj Hc Hσ) as (l1 & l2 & Hl & E1 & E2 & N1 & N2 & Hs & Hm & N).
  eapply runs_mono; [by apply (removeNodeFromHashList_runs _ _ n)|].
  intros [] m' (K & Ht & He & L & Hh). split_and!; try done.
  rewrite E1, E2 in L. rewrite E1, E2, <- Hσ in Hh.
  exists (<[Z.to_nat (σ j) := l1 ++ l2]> H). split; [unfold zlen; by rewrite length_insert|].
  assert ((-1) ∉ l1) by (intros ?; apply Hm, elem_of_app; by left).
  pose proof (c_range _ _ _ _ C j Hj) as R.
  rewrite (heads_mid m H D σ _ l1 j l2 _ (l1 ++ l2) C Hl) in Hh by (done || by destruct l1).
  assert (forall i, i ∈ l1 ++ l2 <-> i ∈ l1 ++ j :: l2 /\ i <> j) as Hi.
  { apply NoDup_app in N as (? & Hd & [? ?]%NoDup_cons). intros i. specialize (Hd i). set_solver. }
  eapply (chained_update _ _ _ _ _ _ _ _ _ _ C Hl Hh).
  - eapply seg_frame; [intros i _; apply L|]. apply (seg_unlink _ _ j); [done..|]. by apply (c_seg _ _ _ _ C _ _ Hl).
  - apply NoDup_app in N as (? & Hd & [? ?]%NoDup_cons). apply NoDup_app. split_and!; set_solver.
  - intros i _ Hn. rewrite L. apply relink_other; set_solver.
  - intros i. rewrite Hi, (c_in _ _ _ _ C _ _ i Hl), HD. tauto.
  - intros i s' Hs'. rewrite HD. split; [tauto|]. intros [? E]. split; [|done]. split; [done|].
    intros ->. lia.
  - intros i [? _]%HD. by apply (c_range _ _ _ _ C).
Qed.

Lemma chained_rename m H D D' σ σ' a n j :
  chained m H D σ -> a ∈ D -> cell m a = Some n -> σ a = compressHash m (key n) ->
  j ∉ D -> is_Some (cell m j) -> hl m j = hl m a ->
  (forall i, i ∈ D' <-> (i ∈ D /\ i <> a) \/ i = j) -> σ' j = σ a -> (forall i, i ∈ D -> σ' i = σ i) ->
  runs (removeNodeFromHashList a j j) m (fun _ m' =>
    keeps m m' /\ same_time m m' /\ same_entries m m' /\
    exists H', zlen H' = zlen H /\ chained m' H' D' σ').
Proof.
  intros C Ha Hc Hσ Hj Hcj Hlj HD Hσj Hσi.
  destruct (chained_node _ _ _ _ _ _ C Ha Hc Hσ) as (l1 & l2 & Hl & E1 & E2 & N1 & N2 & Hs & Hm & N).
  eapply runs_mono; [by apply (removeNodeFromHashList_runs _ _ n)|].
  intros [] m' (K & Ht & He & L & Hh). split_and!; try done.
  rewrite E1, E2 in L. rewrite E2, <- Hσ in Hh. apply cell_index in Hcj.
  exists (<[Z.to_nat (σ a) := l1 ++ j :: l2]> H). split; [unfold zlen; by rewrite length_insert|].
  assert ((-1) ∉ l1) by (intros ?; apply Hm, elem_of_app; by left).
  pose proof (c_range _ _ _ _ C a Ha) as R.
  rewrite (heads_mid m H D σ _ l1 a l2 _ (l1 ++ j :: l2) C Hl) in Hh by (done || by destruct l1).
  assert (forall i, i ∈ l1 ++ a :: l2 <-> i ∈ D /\ σ i = σ a) as Hin.
  { intros i. rewrite (c_in _ _ _ _ C _ _ i Hl). by rewrite Z2Nat.id by lia. }
  assert (j ∉ l1 ++ a :: l2) as Hjl by (by intros [? _]%Hin).
  assert (forall i, i ∈ l1 ++ j :: l2 <-> (i ∈ l1 ++ a :: l2 /\ i <> a) \/ i = j) as Hi.
  { apply NoDup_app in N as (? & Hd & [? ?]%NoDup_cons). intros i. specialize (Hd i). set_solver. }
  eapply (chained_update _ _ _ _ _ _ _ _ _ _ C Hl Hh).
  - eapply seg_frame; [intros i _; apply L|]. apply (seg_rename _ _ a); try done; [|lia].
    by apply (c_seg _ _ _ _ C _ _ Hl).
  - apply NoDup_app in N as (? & Hd & [? ?]%NoDup_cons). apply NoDup_app.
    split_and!; [done|set_solver|]. apply NoDup_cons. set_solver.
  - intros i _ Hn. rewrite L. apply relink_other; set_solver.
  - intros i. rewrite Hi, Hin, HD, Z2Nat.id by lia. split.
    + intros [[[? ?] ?]| ->]; [rewrite Hσi by done; tauto|]. rewrite Hσj. tauto.
    + intros [[[? ?]| ->] E]; [|tauto]. rewrite Hσi in E by done. tauto.
  - intros i s' Hs'. rewrite HD. split.
    + intros [[[? ?]| ->] E]; [by rewrite Hσi in E|]. rewrite Hσj in E. lia.
    + intros [? E]. rewrite Hσi by done. split; [|done]. left. split; [done|]. intros ->. lia.
  - intros i [[? _]| ->]%HD; [rewrite Hσi by done|rewrite Hσj]; by apply (c_range _ _ _ _ C).
Qed.

Lemma chained_push m H D D' σ σ' j s :
  chained m H D σ -> is_Some (cell m j) -> j ∉ D -> 0 <= s < zlen H ->
  (forall i, i ∈ D' <-> i ∈ D \/ i = j) -> σ' j = s -> (forall i, i ∈ D -> σ' i = σ i) ->
  runs (pushNodeToHashList j s) m (fun _ m' =>
    keeps m m' /\ same_time m m' /\ same_entries m m' /\
    exists H', zlen H' = zlen H /\ chained m' H' D' σ').
Proof.
  intros C [n Hc] Hj Hs HD Hσj Hσi. unfold zlen in Hs.
  destruct (lookup_lt_is_Some_2 H (Z.to_nat s)) as [l Hl]; [lia|].
  pose proof (c_seg _ _ _ _ C _ _ Hl) as S. pose proof (linked_none _ _ _ _ _ S) as Hm.
  assert (j ∉ l) as Hjl by (by intros [? _]%(c_in _ _ _ _ C _ _ j Hl)).
  assert (0 <= j) by (apply (cell_index m); by eexists).
  eapply runs_mono; [apply (pushNodeToHashList_runs _ _ n s (hd_or (-1) l) Hc)|].
  { rewrite (c_heads _ _ _ _ C). unfold at_index. ztests. by rewrite list_lookup_fmap, Hl. }
  { intros Hk. destruct (hd_or_in (-1) l) as [?|Hi]; [done|].
    split; [by intros E; rewrite E in Hi|]. by apply (linked_cell _ _ _ _ _ _ S). }
  intros [] m' (K & Ht & He & L & Hh). split_and!; try done.
  exists (<[Z.to_nat s := j :: l]> H). split; [unfold zlen; by rewrite length_insert|].
  apply (chained_update _ _ _ _ _ _ _ _ _ (j :: l) C Hl Hh).
  - eapply seg_frame; [intros i _; apply L|]. apply seg_push; try done; [by apply (c_nodup _ _ _ _ C _ _ Hl)| | |lia].
    + eapply seg_frame; [|done]. intros i Hi. unfold link. rewrite decide_False; [done|]. by intros ->.
    + unfold link. by rewrite decide_True.
  - apply NoDup_cons. split; [done|]. by apply (c_nodup _ _ _ _ C _ _ Hl).
  - intros i Hi Hn. rewrite L. unfold set_prev, link. rewrite !decide_False; [done| |].
    + by intros ->.
    + intros [-> ?]. by destruct (hd_or_in (-1) l).
  - intros i. rewrite elem_of_cons, (c_in _ _ _ _ C _ _ i Hl), HD. split.
    + intros [->|[? ?]]; [split; [tauto|lia]|]. rewrite Hσi by done. tauto.
    + intros [[?| ->] E]; [|tauto]. rewrite Hσi in E by done. tauto.
  - intros i s' Hs'. rewrite HD. split.
    + intros [[?| ->] E]; [by rewrite Hσi in E|lia].
    + intros [? E]. rewrite Hσi by done. tauto.
  - intros i [?| ->]%HD; [rewrite Hσi by done; by apply (c_range _ _ _ _ C)|unfold zlen; lia].
Qed.

(** ** Invariant *)

Definition slot m (i : Z) : Z := default 0 ((fun x => compressHash m x.1) <$> en m i).

Definition cells m : Z := 256 * zlen (ringBuffer m).

(** What never changes. *)
Record base m : Prop := {
  b_capacity : 1 <= capacity m <= 2 ^ 30;
  b_ring : zlen (ringBuffer m) = capacity m / 256 + 2;
  b_blocks : blocks_ok m;
  b_slots : exists bits, 0 <= bits < 31 /\ hashSlots m = 2 ^ bits
}.

(** The nodes are the cells from the start of the buffer, around the ring, to its
    end. *)
Record window m (T : list Z) : Prop := {
  w_size : size m = zlen T;
  w_fits : size m <= capacity m;
  w_start : 0 <= bufferStartIndex m < cells m;
  w_end : bufferEndIndex m = (bufferStartIndex m + size m) mod cells m;
  w_in : forall i, i ∈ T <-> 0 <= i < cells m /\ (i - bufferStartIndex m) mod cells m < size m
}.

(** The entries of the nodes, and a cache that holds entries. *)
Definition holds m (T : list Z) (l : list (Z * option V)) : Prop :=
  Forall2 (fun i x => en m i = Some x) T l.

Definition linked m (H : list (list Z)) (T : list Z) (l : list (Z * option V)) : Prop :=
  zlen H = hashSlots m /\ chained m H T (slot m) /\ timed m T /\ holds m T l.

Definition ok m (l : list (Z * option V)) : Prop :=
  base m /\ NoDup l.*1 /\ exists H T, linked m H T l /\ window m T.

Lemma chained_frame_in m m' H D σ σ' :
  (forall i, i ∈ D -> hl m' i = hl m i) -> hashSlotHead m' = hashSlotHead m ->
  (forall i, i ∈ D -> σ' i = σ i) -> chained m H D σ -> chained m' H D σ'.
Proof.
  intros Hh Hs Hσ [C1 C2 C3 C4 C5]. constructor.
  - congruence.
  - intros s l Hl. eapply seg_frame; [|by apply (C2 s)]. intros i Hi%(C4 s l i Hl). apply Hh, Hi.
  - done.
  - intros s l i Hl. rewrite (C4 s l i Hl). split; intros [Hi E]; (split; [done|]); rewrite Hσ in *; done.
  - intros i Hi. rewrite Hσ by done. by apply C5.
Qed.

Lemma timed_frame_in m m' T :
  (forall i, i ∈ T -> tl m' i = tl m i) -> timeListHead m' = timeListHead m ->
  timeListTail m' = timeListTail m -> timed m T -> timed m' T.
Proof.
  intros Ht Hh Hl [S N ? ?]. constructor; [|done|congruence|congruence]. by eapply seg_frame.
Qed.

Lemma holds_frame_in m m' T l :
  (forall i, i ∈ T -> en m' i = en m i) -> holds m T l -> holds m' T l.
Proof.
  intros H Hl. unfold holds in *. rewrite Forall2_lookup in *. intros k. specialize (Hl k).
  destruct (T !! k) as [i|] eqn:E; inversion Hl; constructor. rewrite H; [done|].
  by eapply list_elem_of_lookup_2.
Qed.

Lemma slot_same m m' i : hashSlots m' = hashSlots m -> en m' i = en m i -> slot m' i = slot m i.
Proof. unfold slot, compressHash. by intros -> ->. Qed.

Lemma compressHash_same m m' k : hashSlots m' = hashSlots m -> compressHash m' k = compressHash m k.
Proof. unfold compressHash. by intros ->. Qed.

(** A change outside of the nodes. *)
Lemma linked_frame_in m m' H T l :
  (forall i, i ∈ T -> cell m' i = cell m i) -> hashSlots m' = hashSlots m ->
  hashSlotHead m' = hashSlotHead m -> timeListHead m' = timeListHead m ->
  timeListTail m' = timeListTail m -> linked m H T l -> linked m' H T l.
Proof.
  intros Hc Hs Hh Ht1 Ht2 (E & C & T0 & Hl). split_and!; [congruence| | |].
  - eapply (chained_frame_in m); [..|done]; [|done|]; intros i Hi.
    + unfold hl. by rewrite Hc.
    + apply slot_same; [done|]. unfold en. by rewrite Hc.
  - eapply (timed_frame_in m); try done. intros i Hi. unfold tl. by rewrite Hc.
  - eapply holds_frame_in; [|done]. intros i Hi. unfold en. by rewrite Hc.
Qed.

Lemma base_keeps m m' : keeps m m' -> base m -> base m'.
Proof.
  intros [? ? Ks Kc ? Kr Kb ?] [Bc Br Bb Bs].
  constructor; [by rewrite Kc|by rewrite Kr, Kc|auto|by rewrite Ks].
Qed.

Lemma compressHash_range m k : base m -> 0 <= compressHash m k < hashSlots m.
Proof.
  intros B. destruct (b_slots _ B) as (bits & Hb & E). unfold compressHash. rewrite E.
  pose proof (pow2_pos bits ltac:(lia)). assert (2 ^ bits <= 2 ^ 30) by (apply Z.pow_le_mono_r; lia).
  rewrite swrap_small by (unfold is_i; pow2; lia). rewrite land_mask by lia.
  by apply Z.mod_pos_bound.
Qed.

(** ** Removing a node *)

Lemma linked_cell_entry m H T l i n :
  linked m H T l -> i ∈ T -> cell m i = Some n -> slot m i = compressHash m (key n).
Proof. intros _ _ Hc. unfold slot, en. by rewrite Hc. Qed.

Lemma linked_nodup m H T l : linked m H T l -> NoDup T.
Proof. intros (_ & _ & Ht & _). apply (t_nodup _ _ Ht). Qed.

Lemma NoDup_mid (t1 : list Z) j t2 :
  NoDup (t1 ++ j :: t2) -> (j ∉ t1) /\ (j ∉ t2) /\ forall i, i ∈ t1 ++ t2 <-> i ∈ t1 ++ j :: t2 /\ i <> j.
Proof.
  intros (? & Hd & [? ?]%NoDup_cons)%NoDup_app. split_and!; [set_solver|done|].
  intros i. specialize (Hd i). set_solver.
Qed.

Lemma holds_mid m t1 j t2 l :
  holds m (t1 ++ j :: t2) l ->
  exists l1 x l2, l = l1 ++ x :: l2 /\ holds m t1 l1 /\ en m j = Some x /\ holds m t2 l2.
Proof.
  intros (l1 & l2' & H1 & H2 & ->)%Forall2_app_inv_l.
  apply Forall2_cons_inv_l in H2 as (x & l2 & Hx & H2 & ->). by exists l1, x, l2.
Qed.

Lemma unlink_runs m H t1 j t2 l1 x l2 (rest : M unit) Q :
  linked m H (t1 ++ j :: t2) (l1 ++ x :: l2) -> holds m t1 l1 -> holds m t2 l2 ->
  (forall m' H', keeps m m' -> linked m' H' (t1 ++ t2) (l1 ++ l2) -> runs rest m' Q) ->
  runs (node ← getNode j;
        removeNodeFromHashList j (hashListNext node) (hashListPrev node) ;;
        node ← getNode j;
        removeNodeFromTimeList j (timeListNext node) (timeListPrev node) ;; rest) m Q.
Proof.
  intros Hl Hl1 Hl2 Hrest. pose proof (NoDup_mid _ _ _ (linked_nodup _ _ _ _ Hl)) as (_ & _ & Hi).
  assert (j ∈ t1 ++ j :: t2) as Hj by set_solver.
  pose proof Hl as (EH & C & Ht & _). destruct (chained_cell _ _ _ _ _ C Hj) as [n Hn].
  apply runs_bind, (runs_getNode _ _ n); [done|]. apply runs_bind.
  eapply runs_mono; [apply (chained_remove m H _ (t1 ++ t2) (slot m) j n C Hj Hn)|].
  { by apply (linked_cell_entry _ _ _ _ _ _ Hl). }
  { done. }
  intros [] m1 (K1 & T1 & E1 & H1 & EH1 & C1). apply (timed_frame _ _ _ T1) in Ht.
  destruct (k_cells _ _ K1 j ltac:(by eexists)) as [n1 Hn1].
  apply runs_bind, (runs_getNode _ _ n1); [done|]. apply runs_bind.
  eapply runs_mono; [by apply (timed_remove m1 t1 j t2 n1)|].
  intros [] m2 (K2 & S2 & E2 & Ht2). apply (Hrest m2 H1); [by etrans|].
  assert (forall i, en m2 i = en m i) as E by (intros i; by rewrite E2, E1).
  split_and!.
  - rewrite EH1, EH, (k_slots _ _ K2), (k_slots _ _ K1). done.
  - apply (chained_frame m1 _ _ (t1 ++ t2) _ (slot m)); [done|done| |done].
    intros i _. apply slot_same; [|done]. by rewrite (k_slots _ _ K2), (k_slots _ _ K1).
  - done.
  - apply Forall2_app; (eapply holds_frame_in; [|done]); intros; apply E.
Qed.

Lemma store_frame m i n H T l :
  is_Some (cell m i) -> i ∉ T -> linked m H T l -> linked (store m i n) H T l.
Proof.
  intros Hi Hn. apply linked_frame_in; try done. intros j Hj. rewrite cell_store by done.
  rewrite decide_False; [done|]. by intros ->.
Qed.

(** The node of the first cell is moved to the free cell [j]. *)
Lemma move_runs m H t1 a t2 j l :
  linked m H (t1 ++ a :: t2) l -> j ∉ t1 ++ a :: t2 -> is_Some (cell m j) ->
  runs (firstNode ← getNode a;
        setNode j (fun _ => firstNode) ;;
        removeNodeFromHashList a j j ;;
        removeNodeFromTimeList a j j ;;
        setNode a (fun _ => blankU64LRUNodeForInit)) m (fun _ m' =>
    keeps m m' /\ exists H', linked m' H' (t1 ++ j :: t2) l).
Proof.
  intros Hl Hj Sj. pose proof (NoDup_mid _ _ _ (linked_nodup _ _ _ _ Hl)) as (N1 & N2 & Hi).
  assert (a ∈ t1 ++ a :: t2) as Ha by set_solver. assert (a <> j) as Haj by set_solver.
  destruct (chained_cell _ _ _ _ _ (proj1 (proj2 Hl)) Ha) as [n Hn].
  apply runs_bind, (runs_getNode _ _ n); [done|]. destruct Sj as [n0 Hn0].
  apply runs_bind, (runs_setNode _ _ n0); [done|].
  set (m1 := store m j n). assert (keeps m m1) as K1 by (apply keeps_store; by eexists).
  assert (cell m1 a = Some n /\ cell m1 j = Some n) as [Ca Cj].
  { unfold m1. rewrite !cell_store, (decide_True (P:=j = j)), decide_False by (done || by eexists). done. }
  assert (linked m1 H (t1 ++ a :: t2) l) as Hl1 by (apply store_frame; [by eexists|done|done]).
  pose proof Hl1 as (EH & C & Ht & Hh). apply runs_bind.
  eapply runs_mono; [apply (chained_rename m1 H _ (t1 ++ j :: t2) (slot m1) (slot m1) a n j C Ha Ca)|].
  { by apply (linked_cell_entry _ _ _ _ _ _ Hl1). } { done. } { by eexists. }
  { unfold hl. by rewrite Ca, Cj. } { set_solver. } { unfold slot, en. by rewrite Ca, Cj. } { done. }
  intros [] m2 (K2 & T2 & E2 & H2 & EH2 & C2). apply (timed_frame _ _ _ T2) in Ht.
  destruct (k_cells _ _ K2 a ltac:(by eexists)) as [n2 Hn2]. apply runs_bind.
  eapply runs_mono; [apply (timed_rename m2 t1 a t2 j n2 Ht Hn2 Hj)|].
  { apply (k_cells _ _ K2). by eexists. } { rewrite !(proj1 T2). unfold tl. by rewrite Ca, Cj. }
  intros [] m3 (K3 & S3 & E3 & Ht3).
  assert (is_Some (cell m3 a)) as [n3 Hn3] by (apply (k_cells _ _ K3); by eexists).
  apply (runs_setNode _ _ n3); [done|].
  assert (forall i, en m3 i = en m1 i) as E by (intros i; by rewrite E3, E2).
  split; [etrans; [exact K1|]; etrans; [exact K2|]; etrans; [exact K3|]; apply keeps_store; by eexists|].
  exists H2. apply store_frame; [by eexists|set_solver|]. split_and!; [| |done|].
  - rewrite EH2, EH, (k_slots _ _ K3), (k_slots _ _ K2). done.
  - apply (chained_frame m2 _ _ (t1 ++ j :: t2) _ (slot m1)); [done|done| |done].
    intros i _. apply slot_same; [|done]. by rewrite (k_slots _ _ K3), (k_slots _ _ K2).
  - apply holds_mid in Hh as (l1 & x & l2 & -> & Hh1 & Hx & Hh2).
    apply Forall2_app; [|constructor]; try (eapply holds_frame_in; [|done]; intros; apply E).
    rewrite E. unfold en in *. by rewrite Cj, <- Hx, Ca.
Qed.

(** ** The ends of the buffer *)

Lemma base_cells m : base m -> cells m = 256 * (capacity m / 256) + 512 /\
  capacity m + 256 < cells m <= 2 ^ 30 + 512.
Proof.
  intros B. pose proof (b_capacity _ B). unfold cells. rewrite (b_ring _ B).
  pose proof (Z.div_mod (capacity m) 256). pose proof (Z.mod_pos_bound (capacity m) 256). lia.
Qed.

Lemma incIndex_next m i : base m -> 0 <= i < cells m -> incIndex m i = (i + 1) mod cells m.
Proof.
  intros B Hi. pose proof (base_cells m B) as [_ Hc]. unfold incIndex.
  rewrite swrap_small by (unfold is_i; pow2; lia).
  destruct (index_parts (i + 1)) as [_ ->]. unfold cells in *.
  rewrite swrap_small by (unfold is_i; pow2; lia). zcase.
  - assert (i + 1 = 256 * zlen (ringBuffer m)) as ->; [|by rewrite Z.mod_same by lia].
    pose proof (Z.mul_div_le (i + 1) 256). lia.
  - rewrite Z.mod_small; [done|]. split; [lia|].
    pose proof (Z.mul_succ_div_gt (i + 1) 256). lia.
Qed.

(** A cell of the window other than its first one is one nearer to the next. *)
Lemma window_next (n i s size : Z) :
  0 <= s < n -> 0 <= i < n -> size < n ->
  ((i - (s + 1) mod n) mod n < size - 1 <-> (i - s) mod n < size /\ i <> s).
Proof.
  intros Hs Hi Hz. rewrite Zminus_mod_idemp_r.
  assert (forall x, - n < x < n -> x mod n = if decide (0 <= x) then x else x + n) as Hmod.
  { intros x Hx. case_decide; [apply Z.mod_small; lia|].
    symmetry. apply (Z.mod_unique _ _ (-1)); lia. }
  rewrite (Hmod (i - s)) by lia. destruct (decide (i - (s + 1) = - n)) as [E|].
  - rewrite E, Z.mod_opp_l_z by (try lia; apply Z.mod_same; lia). case_decide; lia.
  - rewrite (Hmod (i - (s + 1))) by lia. repeat case_decide; lia.
Qed.

(** The cells of a freed block hold no node. *)
Lemma freed_block m T i :
  base m -> window m T -> i ∈ T -> i <> bufferStartIndex m ->
  bufferStartIndex m mod 256 = 255 -> i / 256 <> bufferStartIndex m / 256.
Proof.
  intros B W Hi Hne Hs E. apply (w_in _ _ W) in Hi as [Hi Hw]. pose proof (w_start _ _ W).
  pose proof (base_cells m B) as [_ Hc]. pose proof (w_fits _ _ W).
  pose proof (Z.div_mod i 256). pose proof (Z.div_mod (bufferStartIndex m) 256).
  pose proof (Z.mod_pos_bound i 256). set (d := bufferStartIndex m - i).
  assert (0 < d < 256) by (unfold d; lia).
  replace (i - bufferStartIndex m) with (- d) in Hw by (unfold d; lia).
  rewrite Z.mod_opp_l_nz in Hw by (try lia; rewrite Z.mod_small; lia).
  rewrite Z.mod_small in Hw by lia. lia.
Qed.

Lemma free_first_runs m H T T' l :
  base m -> window m T -> linked m H T' l -> 0 < size m ->
  (forall i, i ∈ T' <-> i ∈ T /\ i <> bufferStartIndex m) -> zlen T' = zlen T - 1 ->
  runs free_first m (fun _ m' =>
    base m' /\ linked m' H T' l /\ window m' T' /\ capacity m' = capacity m).
Proof.
  intros B W Hl Hs Hi Hz. apply runs_bind, runs_get. apply runs_bind.
  pose proof (base_cells m B) as [_ Hc]. pose proof (w_start _ _ W) as W0. pose proof (w_fits _ _ W) as Wf. pose proof (b_capacity _ B) as Bcap.
  assert (i64 (size m - 1) = size m - 1) as Ei by (apply swrap_small; [lia|]; unfold is_i; pow2; lia).
  apply (runs_mono _ _ (fun _ m1 => exists r, m1 = set_ring m r /\ zlen r = zlen (ringBuffer m) /\
    base m1 /\ linked m1 H T' l)).
  - destruct (index_parts (bufferStartIndex m)) as [-> ->]. change BLOCK_SIZE_MASK with 255. zcase.
    + apply runs_modify. eexists. split; [done|]. split; [unfold zlen; by rewrite length_insert|]. split.
      * destruct B as [Bc Br Bb Bs]. constructor; [done| |  |done].
        -- cbn [ringBuffer set_ring capacity]. unfold zlen. by rewrite length_insert.
        -- intros b Hb. cbn [ringBuffer set_ring] in Hb.
           apply list_elem_of_lookup in Hb as [r Hr]. apply list_lookup_insert_Some in Hr as [(_ & ? & _)|[_ Hr]]; [done|].
           apply Bb. by eapply list_elem_of_lookup_2.
      * apply (linked_frame_in m); [|done..]. intros i [HiT Hne]%Hi. apply option_eq. intros n.
        pose proof (freed_block m T i B W HiT Hne ltac:(done)) as Hrow.
        apply (w_in _ _ W) in HiT as [HiT _].
        assert (0 <= i / 256) by (apply Z.div_pos; lia).
        assert (0 <= bufferStartIndex m / 256) by (apply Z.div_pos; lia).
        rewrite !cell_Some. cbn [ringBuffer set_ring]. rewrite list_lookup_insert_ne by lia. done.
    + apply runs_ret. exists (ringBuffer m). split_and!; try done. by destruct m.
  - intros [] m1 (r & -> & Er & B1 & Hl1). apply runs_modify. set (m1 := set_ring m r) in *.
    assert (cells m1 = cells m) as Ec by (unfold cells; cbn; by rewrite Er).
    pose proof (incIndex_next m1 (bufferStartIndex m) B1 ltac:(by rewrite Ec)) as En. rewrite Ec in En.
    split_and!; [by destruct B1 | by apply (linked_frame_in m1) | | done].
    constructor; cbn [size set_buffer capacity bufferStartIndex bufferEndIndex];
      change (size m1) with (size m); change (cells (set_buffer m1 _ _ _)) with (cells m1); rewrite ?Ei, ?Ec, ?En.
    + by rewrite Hz, <- (w_size _ _ W).
    + cbn. lia.
    + apply Z.mod_pos_bound. lia.
    + rewrite Zplus_mod_idemp_l. cbn. rewrite (w_end _ _ W). f_equal. lia.
    + intros i. rewrite Hi, (w_in _ _ W).
      pose proof (window_next (cells m) i (bufferStartIndex m) (size m) W0) as Hn. split.
      * intros [[? ?] ?]. split; [done|]. apply Hn; [done|lia|done].
      * intros [? Hw]. apply Hn in Hw as [? ?]; [|done|lia]. done.
Qed.

Lemma window_keeps m m' T : keeps m m' -> window m T -> window m' T.
Proof.
  intros [K1 K2 K3 K4 K5 K6 K7 K8] [W1 W2 W3 W4 W5].
  assert (cells m' = cells m) as Ec by (unfold cells; by rewrite K6).
  constructor; rewrite ?Ec, ?K1, ?K2, ?K4, ?K5; done.
Qed.

Lemma zlen_mid {A} (l1 : list A) x l2 : zlen (l1 ++ x :: l2) = zlen (l1 ++ l2) + 1.
Proof. autorewrite with gow. lia. Qed.

Lemma elem_of_mid {A} (l1 : list A) x l2 y : y ∈ l1 ++ x :: l2 <-> y ∈ l1 ++ l2 \/ y = x.
Proof. rewrite !elem_of_app, elem_of_cons. tauto. Qed.

Lemma keys_mid (l1 : list (Z * option V)) x l2 :
  NoDup (l1 ++ x :: l2).*1 -> NoDup (l1 ++ l2).*1 /\ (x.1 ∉ (l1 ++ l2).*1).
Proof. rewrite <- Permutation_middle, fmap_cons, NoDup_cons. tauto. Qed.

Lemma removeNode_runs m H t1 j t2 l1 x l2 :
  base m -> NoDup (l1 ++ x :: l2).*1 -> linked m H (t1 ++ j :: t2) (l1 ++ x :: l2) ->
  holds m t1 l1 -> holds m t2 l2 -> window m (t1 ++ j :: t2) ->
  runs (removeNode j) m (fun _ m' => ok m' (l1 ++ l2) /\ capacity m' = capacity m).
Proof.
  intros B N Hl Hl1 Hl2 W. pose proof (NoDup_mid _ _ _ (linked_nodup _ _ _ _ Hl)) as (_ & _ & Hi).
  assert (0 < size m) as Hz0 by (rewrite (w_size _ _ W), zlen_mid; pose proof (zlen_nonneg (t1 ++ t2)); lia).
  pose proof (base_cells m B) as [_ Hc]. pose proof (b_capacity _ B) as Hcap.
  assert (bufferStartIndex m ∈ t1 ++ j :: t2) as Hs.
  { apply (w_in _ _ W). split; [apply (w_start _ _ W)|]. by rewrite Z.sub_diag, Z.mod_0_l by lia. }
  assert (is_Some (cell m j)) as Sj.
  { apply (chained_cell _ _ _ _ _ (proj1 (proj2 Hl))). set_solver. }
  apply keys_mid in N as [N' _].
  apply unlink_runs with (1 := Hl); [done..|]. intros m1 H1 K1 Hl'. apply runs_bind, runs_get. apply runs_bind.
  rewrite (k_start _ _ K1). apply (base_keeps _ _ K1) in B. apply (window_keeps _ _ _ K1) in W.
  apply (runs_mono _ _ (fun _ m2 => keeps m1 m2 /\ exists H2 T2, linked m2 H2 T2 (l1 ++ l2) /\
    zlen T2 = zlen (t1 ++ t2) /\ forall i, i ∈ T2 <-> i ∈ t1 ++ j :: t2 /\ i <> bufferStartIndex m)).
  - destruct (Z.eqb_spec j (bufferStartIndex m)) as [E|E]; cbn [negb].
    + destruct (k_cells _ _ K1 j Sj) as [n1 Hn1]. apply (runs_setNode _ _ n1); [done|].
      split; [apply keeps_store; by eexists|]. exists H1, (t1 ++ t2). rewrite <- E. split_and!; [|done|done].
      apply store_frame; [by eexists| |done]. intros [_ ?]%Hi. done.
    + assert (bufferStartIndex m ∈ t1 ++ t2) as Ha by (by apply Hi).
      assert (j ∉ t1 ++ t2) as Hj by (by intros [_ ?]%Hi).
      apply list_elem_of_split in Ha as (u1 & u2 & Eu). rewrite Eu in Hl', Hj.
      pose proof (NoDup_mid _ _ _ (linked_nodup _ _ _ _ Hl')) as (_ & _ & Hu).
      eapply runs_mono; [apply (move_runs m1 H1 u1 _ u2 j _ Hl' Hj); by apply (k_cells _ _ K1)|].
      intros [] m2 (K2 & H2 & Hl2'). split; [done|]. exists H2, (u1 ++ j :: u2). split_and!; [done| |].
      * rewrite Eu. by rewrite !zlen_mid.
      * intros i. rewrite !elem_of_mid, Hu, Eu. split; [|tauto].
        intros [[? ?]| ->]; tauto.
  - intros [] m2 (K2 & H2 & T2 & Hl2' & Hz & Hi2).
    apply (base_keeps _ _ K2) in B. apply (window_keeps _ _ _ K2) in W.
    eapply runs_mono; [apply (free_first_runs m2 H2 (t1 ++ j :: t2) T2 (l1 ++ l2)); try done|].
    + by rewrite (k_size _ _ K2), (k_size _ _ K1).
    + by rewrite (k_start _ _ K2), (k_start _ _ K1).
    + rewrite Hz, zlen_mid. lia.
    + intros [] m' (B' & L' & W' & C'). split; [split_and!; [done|done|by exists H2, T2]|].
      by rewrite C', (k_capacity _ _ K2), (k_capacity _ _ K1).
Qed.

(** ** Using a node, and a new node *)

Lemma updateNode_runs m H t1 j t2 l1 k v0 l2 v :
  base m -> NoDup (l1 ++ (k, v0) :: l2).*1 -> linked m H (t1 ++ j :: t2) (l1 ++ (k, v0) :: l2) ->
  holds m t1 l1 -> en m j = Some (k, v0) -> holds m t2 l2 -> window m (t1 ++ j :: t2) ->
  runs (updateNode j v) m (fun _ m' =>
    ok m' ((k, v) :: l1 ++ l2) /\ capacity m' = capacity m /\ en m' j = Some (k, v)).
Proof.
  intros B N Hl Hl1 Hx Hl2 W. pose proof (NoDup_mid _ _ _ (linked_nodup _ _ _ _ Hl)) as (N1 & N2 & Hi).
  apply runs_bind, runs_get. apply runs_bind.
  assert (j ∈ t1 ++ j :: t2) as Hj by set_solver.
  assert (j ∉ t1 ++ t2) as Hj' by (by intros [_ ?]%Hi).
  destruct (chained_cell _ _ _ _ _ (proj1 (proj2 Hl)) Hj) as [n Hn].
  pose proof Hl as (EH & C & Ht & Hh).
  apply (runs_mono _ _ (fun _ m1 => keeps m m1 /\ same_hash m m1 /\ same_entries m m1 /\
    timed m1 (j :: t1 ++ t2))).
  - destruct (Z.eqb_spec j (timeListHead m)) as [E|E]; cbn [negb].
    + apply runs_ret. split_and!; try done. rewrite (t_head _ _ Ht) in E.
      destruct t1 as [|i t1]; [done|]. cbn in E. set_solver.
    + apply runs_bind, (runs_getNode _ _ n); [done|]. apply runs_bind.
      eapply runs_mono; [by apply (timed_remove m t1 j t2)|].
      intros [] m1 (K1 & S1 & E1 & T1).
      eapply runs_mono; [apply (timed_push m1 (t1 ++ t2) j T1); [apply (k_cells _ _ K1); by eexists|done]|].
      intros [] m2 (K2 & [S2 S2'] & E2 & T2). split_and!; [by etrans| | |done].
      * destruct S1 as [S1 S1']. split; [intros i; by rewrite S2|congruence].
      * intros i. by rewrite E2.
  - intros [] m1 (K1 & S1 & E1 & T1).
    destruct (k_cells _ _ K1 j ltac:(by eexists)) as [n1 Hn1]. apply (runs_setNode _ _ n1); [done|].
    assert (keeps m1 (store m1 j (set_entry n1 (key n1) v))) as K2 by (apply keeps_store; by eexists).
    assert (keeps m (store m1 j (set_entry n1 (key n1) v))) as K3 by (by etrans).
    set (m2 := store m1 j (set_entry n1 (key n1) v)) in *.
    assert (en m2 j = Some (k, v)) as Ej.
    { specialize (E1 j). unfold en in *. unfold m2. rewrite cell_store, decide_True by (done || by eexists).
      rewrite Hx, Hn1 in E1. injection E1 as <- _. done. }
    assert (forall i, i ∈ t1 ++ t2 -> en m2 i = en m i) as Ei.
    { intros i Hi'. rewrite <- E1. unfold en, m2. rewrite cell_store, decide_False; [done| |by eexists].
      by intros ->. }
    assert (forall i, hl m2 i = hl m1 i /\ tl m2 i = tl m1 i) as Li.
    { intros i. unfold hl, tl, m2. rewrite cell_store by (by eexists). case_decide; [subst|done]. by rewrite Hn1. }
    split; [|split; [apply (k_capacity _ _ K3)|done]]. split; [by apply (base_keeps m)|split].
    + apply keys_mid in N as [? ?]. rewrite fmap_cons. by apply NoDup_cons.
    + exists H, (j :: t1 ++ t2). split.
      * split_and!.
        -- by rewrite (k_slots _ _ K3).
        -- apply (chained_frame m _ _ (t1 ++ j :: t2) _ (slot m)); [|set_solver| |done].
           ++ destruct S1 as [S1 S1']. split; [intros i; by rewrite (proj1 (Li i))|done].
           ++ intros i Hi'. destruct (decide (i = j)) as [->|Hne].
              ** unfold slot, compressHash. by rewrite Ej, Hx, (k_slots _ _ K3).
              ** apply slot_same; [apply (k_slots _ _ K3)|]. apply Ei. by apply Hi.
        -- apply (timed_frame m1); [|done]. split; [intros i; apply Li|done].
        -- constructor; [done|]. apply Forall2_app; (eapply holds_frame_in; [|done]); intros; apply Ei; set_solver.
      * apply (window_keeps _ _ _ K3) in W. destruct W as [W1 W2 W3 W4 W5]. constructor; try done.
        -- rewrite W1, zlen_mid, zlen_cons. lia.
        -- intros i. rewrite <- W5. set_solver.
Qed.

(** The end of the buffer is a free cell, of an allocated block afterwards. *)
Lemma alloc_last_runs m H T l pooled :
  base m -> window m T -> linked m H T l -> zlen pooled = 256 ->
  runs (alloc_last pooled) m (fun _ m' =>
    keeps m m' /\ linked m' H T l /\ is_Some (cell m' (bufferEndIndex m))).
Proof.
  intros B W Hl Hp. pose proof (base_cells m B) as [_ Hc]. pose proof (b_capacity _ B) as Hcap.
  pose proof (Z.mod_pos_bound (bufferStartIndex m + size m) (cells m) ltac:(lia)) as He.
  rewrite <- (w_end _ _ W) in He. unfold cells in He.
  assert (0 <= bufferEndIndex m / 256 < zlen (ringBuffer m)) as Hr
    by (split; [apply Z.div_pos; lia|apply Z.div_lt_upper_bound; lia]).
  pose proof (Z.mod_pos_bound (bufferEndIndex m) 256 ltac:(lia)) as Hcol.
  unfold zlen in Hr, Hp. apply runs_bind, runs_get. cbv zeta. destruct (index_parts (bufferEndIndex m)) as [_ ->].
  destruct (lookup_lt_is_Some_2 (ringBuffer m) (Z.to_nat (bufferEndIndex m / 256))) as [b Hb]; [lia|].
  apply runs_bind, (runs_of_option _ b); [apply at_index_Some; split; [lia|done]|]. destruct b as [b|].
  - apply runs_ret. split_and!; [done|done|].
    assert (zlen b = 256) as Ez by (apply (b_blocks _ B); by eapply list_elem_of_lookup_2). unfold zlen in Ez.
    destruct (lookup_lt_is_Some_2 b (Z.to_nat (bufferEndIndex m mod 256))) as [n Hn]; [lia|].
    exists n. apply cell_Some. split; [lia|]. by exists b.
  - apply runs_modify.
    assert (forall i n, cell m i = Some n ->
      cell (set_ring m (<[Z.to_nat (bufferEndIndex m / 256) := Some pooled]> (ringBuffer m))) i = Some n) as Hcell.
    { intros i n. rewrite !cell_Some. cbn [ringBuffer set_ring]. intros (Hi & b & Hbi & Hn).
      split; [done|]. exists b. split; [|done]. rewrite list_lookup_insert_ne; [done|]. intros E.
      rewrite <- E, Hb in Hbi. done. }
    split_and!.
    + constructor; try done.
      * cbn. unfold zlen. by rewrite length_insert.
      * intros Hbl b Hin. cbn in Hin. apply list_elem_of_lookup in Hin as [r Hr'].
        apply list_lookup_insert_Some in Hr' as [(_ & [= <-] & _)|[_ Hr']]; [done|].
        apply Hbl. by eapply list_elem_of_lookup_2.
      * intros i [n Hn]. exists n. by apply Hcell.
    + apply (linked_frame_in m); try done. intros i Hi.
      destruct (chained_cell _ _ _ _ _ (proj1 (proj2 Hl)) Hi) as [n Hn]. rewrite Hn. by apply Hcell.
    + destruct (lookup_lt_is_Some_2 pooled (Z.to_nat (bufferEndIndex m mod 256))) as [n Hn]; [lia|].
      exists n. apply cell_Some. split; [lia|]. exists pooled. split; [|done].
      cbn. apply list_lookup_insert_eq. lia.
Qed.

(** The window with the cell after its last one. *)
Lemma window_grow (n i s size : Z) :
  0 <= s < n -> 0 <= i < n -> 0 <= size < n ->
  ((i - s) mod n < size + 1 <-> (i - s) mod n < size \/ i = (s + size) mod n).
Proof.
  intros Hs Hi Hz. assert (i = (s + size) mod n <-> (i - s) mod n = size); [|lia].
  split.
  - intros ->. rewrite Zminus_mod_idemp_l. replace (s + size - s) with size by lia. by apply Z.mod_small.
  - intros <-. rewrite Zplus_mod_idemp_r. replace (s + (i - s)) with i by lia. by rewrite Z.mod_small.
Qed.

(** Linking the cell [j] in and storing the entry. *)
Lemma link_runs m H T l j k v (rest : M unit) Q :
  base m -> linked m H T l -> is_Some (cell m j) -> j ∉ T -> k ∉ l.*1 ->
  (forall m' H', keeps m m' -> linked m' H' (j :: T) ((k, v) :: l) -> runs rest m' Q) ->
  runs (pushNodeToHashList j (compressHash m k) ;;
        pushNodeToTimeList j ;;
        setNode j (fun n => set_entry n k v) ;; rest) m Q.
Proof.
  intros B (EH & C & Ht & Hh) Sj Hj Hk Hrest. pose proof (compressHash_range m k B) as Hr.
  set (σ := fun i => if decide (i = j) then compressHash m k else slot m i). apply runs_bind.
  eapply runs_mono; [apply (chained_push m H T (j :: T) (slot m) σ j (compressHash m k) C Sj Hj)|].
  { by rewrite EH. } { intros i. rewrite elem_of_cons. tauto. }
  { unfold σ. by rewrite decide_True. } { intros i Hi. unfold σ. rewrite decide_False; [done|by intros ->]. }
  intros [] m1 (K1 & T1 & E1 & H1 & EH1 & C1). apply (timed_frame _ _ _ T1) in Ht. apply runs_bind.
  eapply runs_mono; [apply (timed_push m1 T j Ht); [by apply (k_cells _ _ K1)|done]|].
  intros [] m2 (K2 & S2 & E2 & T2).
  destruct (k_cells _ _ K2 j (k_cells _ _ K1 j Sj)) as [n2 Hn2].
  apply runs_bind, (runs_setNode _ _ n2); [done|]. set (m3 := store m2 j (set_entry n2 k v)).
  assert (keeps m m3) as K3.
  { etrans; [exact K1|]. etrans; [exact K2|]. apply keeps_store. by eexists. }
  assert (en m3 j = Some (k, v)) as Ej.
  { unfold en, m3. by rewrite cell_store, decide_True by (done || by eexists). }
  assert (forall i, i ∈ T -> en m3 i = en m i) as Ei.
  { intros i Hi. rewrite <- E1, <- E2. unfold en, m3. rewrite cell_store, decide_False; [done| |by eexists].
    by intros ->. }
  assert (forall i, hl m3 i = hl m2 i /\ tl m3 i = tl m2 i) as Li.
  { intros i. unfold hl, tl, m3. rewrite cell_store by (by eexists). case_decide; [subst|done]. by rewrite Hn2. }
  apply (Hrest m3 H1 K3). split_and!.
  - by rewrite EH1, EH, (k_slots _ _ K3).
  - apply (chained_frame m1 _ _ (j :: T) _ σ); [|done| |done].
    + destruct S2 as [S2 S2']. split; [intros i; by rewrite (proj1 (Li i))|done].
    + intros i Hi. unfold σ. case_decide as E.
      * subst. unfold slot, compressHash. by rewrite Ej, (k_slots _ _ K3).
      * apply slot_same; [apply (k_slots _ _ K3)|]. apply Ei. by apply elem_of_cons in Hi as [?|?].
  - apply (timed_frame m2); [|done]. split; [intros i; apply Li|done].
  - constructor; [done|]. eapply holds_frame_in; [|done]. done.
Qed.

Lemma insert_runs m l pooled k v :
  ok m l -> size m < capacity m -> k ∉ l.*1 -> zlen pooled = 256 ->
  runs (alloc_last pooled ;;
        m ← get_state;
        let last := bufferEndIndex m in
        getNode last ;;
        modify (fun m => set_buffer m (bufferStartIndex m) (bufferEndIndex m) (i64 (size m + 1))) ;;
        pushNodeToHashList last (compressHash m k) ;;
        pushNodeToTimeList last ;;
        setNode last (fun n => set_entry n k v) ;;
        modify (fun m => set_buffer m (bufferStartIndex m) (incIndex m last) (size m))) m
    (fun _ m' => ok m' ((k, v) :: l) /\ capacity m' = capacity m).
Proof.
  intros (B & N & H & T & Hl & W) Hlt Hk Hp. apply runs_bind.
  eapply runs_mono; [by apply (alloc_last_runs m H T l)|]. intros [] m1 (K1 & Hl1 & [n1 Hn1]).
  rewrite <- (k_end _ _ K1) in Hn1. rewrite <- (k_size _ _ K1), <- (k_capacity _ _ K1) in Hlt.
  rewrite <- (k_capacity _ _ K1). apply (base_keeps _ _ K1) in B. apply (window_keeps _ _ _ K1) in W.
  clear K1 Hl m. rename m1 into m.
  apply runs_bind, runs_get. cbv zeta. apply runs_bind, (runs_getNode _ _ n1); [done|].
  apply runs_bind, runs_modify. pose proof (base_cells m B) as [_ Hc]. pose proof (b_capacity _ B) as Hcap.
  assert (0 <= size m) by (rewrite (w_size _ _ W); apply zlen_nonneg).
  rewrite (swrap_small 64 (size m + 1)) by (try lia; unfold is_i; pow2; lia).
  set (m1 := set_buffer m (bufferStartIndex m) (bufferEndIndex m) (size m + 1)). set (j := bufferEndIndex m) in *.
  assert (0 <= j < cells m) as Hj by (unfold j; rewrite (w_end _ _ W); apply Z.mod_pos_bound; lia).
  assert (base m1) as B1 by (by destruct B).
  rewrite <- (compressHash_same m m1 k) by done.
  apply (link_runs m1 H T l); [done|by apply (linked_frame_in m)|by eexists| |done|].
  { intros [_ Hi]%(w_in _ _ W). unfold j in Hi. rewrite (w_end _ _ W), Zminus_mod_idemp_l in Hi.
    replace (_ + _ - _) with (size m) in Hi by lia. rewrite Z.mod_small in Hi; lia. }
  intros m2 H2 K2 Hl2. apply runs_modify. split; [|apply (k_capacity _ _ K2)].
  pose proof (base_keeps _ _ K2 B1) as B2.
  assert (cells m2 = cells m) as Ec by (unfold cells; by rewrite (k_ring _ _ K2)).
  split; [by destruct B2|]. split; [rewrite fmap_cons; by apply NoDup_cons|].
  exists H2, (j :: T). split; [by apply (linked_frame_in m2)|].
  assert (size m2 = size m + 1) as Es by apply (k_size _ _ K2).
  assert (bufferStartIndex m2 = bufferStartIndex m) as Eb by apply (k_start _ _ K2).
  constructor; cbn [size set_buffer capacity bufferStartIndex bufferEndIndex];
    change (cells (set_buffer m2 _ _ _)) with (cells m2);
    rewrite ?incIndex_next by (done || by rewrite Ec); rewrite ?Ec, ?Es, ?Eb.
  - rewrite zlen_cons, (w_size _ _ W). lia.
  - rewrite (k_capacity _ _ K2). cbn. lia.
  - apply (w_start _ _ W).
  - unfold j. rewrite (w_end _ _ W), Zplus_mod_idemp_l. f_equal. lia.
  - intros i. rewrite elem_of_cons, (w_in _ _ W). unfold j in *. rewrite (w_end _ _ W) in *.
    pose proof (window_grow (cells m) i (bufferStartIndex m) (size m) (w_start _ _ W)) as Hg. split.
    + intros [->|[? ?]]; (split; [done|]); apply Hg; (done || lia || tauto).
    + intros [? Hw]. apply Hg in Hw; [|done|lia]. tauto.
Qed.

Definition evict (cap : Z) (l : list (Z * option V)) : list (Z * option V) :=
  if cap <=? zlen l then removelast l else l.

Lemma ok_size m l : ok m l -> size m = zlen l.
Proof.
  intros (_ & _ & H & T & (_ & _ & _ & Hh) & W). rewrite (w_size _ _ W). unfold zlen.
  by rewrite (Forall2_length _ _ _ Hh).
Qed.

Lemma removelast_in {A} (x : A) l : x ∈ removelast l -> x ∈ l.
Proof.
  destruct l as [|y l _] using rev_ind; [done|]. rewrite removelast_last, elem_of_app. tauto.
Qed.

Lemma newNode_runs m l pooled k v :
  ok m l -> k ∉ l.*1 -> zlen pooled = 256 ->
  runs (newNode pooled k v) m (fun _ m' =>
    ok m' ((k, v) :: evict (capacity m) l) /\ capacity m' = capacity m).
Proof.
  intros Hok Hk Hp. apply runs_bind, runs_get. apply runs_bind. pose proof (ok_size m l Hok) as Es.
  apply (runs_mono _ _ (fun _ m1 => ok m1 (evict (capacity m) l) /\ capacity m1 = capacity m /\
    zlen (evict (capacity m) l) < capacity m)).
  - rewrite Es. unfold evict. pose proof Hok as (B & N & H & T & Hl & W). pose proof (b_capacity _ B).
    rewrite Z.geb_leb. zcase; [|apply runs_ret; split_and!; (done || lia)].
    destruct T as [|j t1 _] using rev_ind.
    { destruct Hl as (_ & _ & _ & Hh). apply Forall2_nil_inv_l in Hh as ->. change (zlen []) with 0 in *. lia. }
    pose proof (holds_mid _ _ _ _ _ (proj2 (proj2 (proj2 Hl)))) as (l1 & x & l2 & El & Hh1 & Hx & Hh2).
    pose proof Hh2 as E2. apply Forall2_nil_inv_l in E2. subst l2. subst l.
    assert (timeListTail m = j) as ->.
    { destruct Hl as (_ & _ & Ht & _). by rewrite (t_tail _ _ Ht), last_or_snoc. }
    eapply runs_mono; [by apply (removeNode_runs m H t1 j [] l1 x [])|].
    intros [] m1 [Hok1 Ec1]. rewrite removelast_last. rewrite app_nil_r in Hok1.
    split_and!; [done|done|]. pose proof (w_fits _ _ W).
    rewrite zlen_app in Es. change (zlen [x]) with 1 in Es. lia.
  - intros [] m1 (Hok1 & Ec1 & Hlt). rewrite <- Ec1 in *.
    apply (insert_runs m1 (evict (capacity m1) l) pooled k v Hok1).
    + by rewrite (ok_size _ _ Hok1).
    + intros Hin. apply Hk. apply list_elem_of_fmap in Hin as (x & Ex & Hin).
      apply list_elem_of_fmap. exists x. split; [done|]. unfold evict in Hin.
      destruct (_ <=? _); [by apply removelast_in|done].
    + done.
Qed.

(** ** Searching *)

(** Nothing has changed but counters and the chain kept for the debugger. *)
Definition quiet m m' : Prop := exists c th ch rd, m' = set_debug (set_counter m c) th ch rd.

Lemma quiet_refl m : quiet m m.
Proof. exists (counter m), (collisionChainDebugThreshold m), (debugChain m), (debugChainRead m). by destruct m. Qed.

Lemma quiet_counter m c : quiet m (set_counter m c).
Proof. exists c, (collisionChainDebugThreshold m), (debugChain m), (debugChainRead m). by destruct m. Qed.

Lemma quiet_trans m1 m2 m3 : quiet m1 m2 -> quiet m2 m3 -> quiet m1 m3.
Proof. intros (? & ? & ? & ? & ->) (c & th & ch & rd & ->). by exists c, th, ch, rd. Qed.

Lemma quiet_parts m m' H T l :
  quiet m m' -> (base m -> base m') /\ (linked m H T l -> linked m' H T l) /\ (window m T -> window m' T) /\
  (forall i, cell m' i = cell m i) /\ capacity m' = capacity m /\ size m' = size m.
Proof.
  intros (c & th & ch & rd & ->). split_and!; try done.
  - intros []. by constructor.
  - by apply (linked_frame_in m).
  - intros []. by constructor.
Qed.

Lemma find_loop_runs m k p l rounds w :
  seg (hl m) p l (-1) -> (length l < rounds)%nat ->
  runs (find_loop rounds k (hd_or (-1) l) w) m (fun r m' => m' = m /\
    match r.1 with
    | Some j => j ∈ l /\ exists v, en m j = Some (k, v)
    | None => forall j v, j ∈ l -> en m j <> Some (k, v)
    end).
Proof.
  revert p l w. induction rounds as [|rounds IH]; intros p l w Hs Hr; [lia|]. cbn [find_loop].
  destruct l as [|i l]; cbn [hd_or].
  - apply runs_ret. split; [done|]. cbn. by intros j v ?%not_elem_of_nil.
  - pose proof (linked_none _ _ _ _ _ Hs) as Hm. replace (i =? -1) with false by (symmetry; apply Z.eqb_neq; set_solver).
    destruct Hs as [Hi Hs]. unfold hl in Hi. destruct (cell m i) as [n|] eqn:Hn; [|done].
    injection Hi as En Ep. apply runs_bind, (runs_getNode _ _ n); [done|].
    destruct (Z.eqb_spec (key n) k) as [E|E].
    + apply runs_ret. split; [done|]. cbn. split; [set_solver|]. exists (value n). unfold en. by rewrite Hn, <- E.
    + rewrite En. eapply runs_mono; [apply (IH i l); [done|cbn in Hr; lia]|].
      intros [[j|] w'] m' [-> Hj]; (split; [done|]); cbn in *.
      * destruct Hj as [Hj He]. split; [set_solver|done].
      * intros j v [->|Hj']%elem_of_cons; [|by apply Hj]. unfold en. rewrite Hn. cbn. congruence.
Qed.

Lemma generateCollisionChainIn_runs m p l (n : nat) :
  seg (hl m) p l (-1) -> runs (generateCollisionChainIn n (hd_or (-1) l)) m (fun _ m' => m' = m).
Proof.
  revert p l. induction n as [|n IH]; intros p l Hs; [by apply runs_ret|]. cbn [generateCollisionChainIn].
  destruct l as [|i l]; cbn [hd_or]; [by apply runs_ret|].
  pose proof (linked_none _ _ _ _ _ Hs) as Hm. replace (i =? -1) with false by (symmetry; apply Z.eqb_neq; set_solver).
  destruct Hs as [Hi Hs]. unfold hl in Hi. destruct (cell m i) as [nd|] eqn:Hn; [|done].
  injection Hi as En Ep. apply runs_bind, (runs_getNode _ _ nd); [done|]. rewrite En. apply runs_bind.
  eapply runs_mono; [by apply (IH i l)|]. by intros rest ? ->.
Qed.

Lemma keep_chain_runs m k s width isAdd p l :
  at_index (hashSlotHead m) s = Some (hd_or (-1) l) -> seg (hl m) p l (-1) ->
  runs (keep_chain k s width isAdd) m (fun _ m' => quiet m m').
Proof.
  intros Hh Hs. apply runs_bind, runs_get. case_match; [|apply runs_ret, quiet_refl].
  apply runs_bind, runs_bind, runs_get, (runs_of_option _ (hd_or (-1) l)); [done|]. apply runs_bind.
  apply (runs_mono _ _ (fun _ m' => m' = m)).
  - destruct isAdd; [apply runs_bind|]; (eapply runs_mono; [by apply (generateCollisionChainIn_runs m p l)|]);
      by intros ? ? ->.
  - intros chain m' ->. apply runs_modify. exists (counter m), (collisionChainDebugThreshold m), (Some chain), 0. by destruct m.
Qed.

Lemma holds_in m T l x : holds m T l -> x ∈ l -> exists i, i ∈ T /\ en m i = Some x.
Proof.
  intros Hh Hx. apply list_elem_of_lookup in Hx as [n Hn].
  destruct (Forall2_lookup_r _ _ _ _ _ Hh Hn) as (i & Hi & He). exists i.
  split; [by eapply list_elem_of_lookup_2|done].
Qed.

(** The search of the chain of a key. *)
Lemma chain_runs m H T l k :
  base m -> linked m H T l -> window m T ->
  exists c, at_index (hashSlotHead m) (compressHash m k) = Some (hd_or (-1) c) /\ seg (hl m) (-1) c (-1) /\
    runs (find_loop (S (Z.to_nat (size m))) k (hd_or (-1) c) 0) m (fun r m' => m' = m /\
      match r.1 with
      | Some j => j ∈ T /\ exists v, en m j = Some (k, v)
      | None => k ∉ l.*1
      end).
Proof.
  intros B (EH & C & Ht & Hh) W.
  pose proof (compressHash_range m k B) as Hr. rewrite <- EH in Hr. unfold zlen in Hr.
  destruct (lookup_lt_is_Some_2 H (Z.to_nat (compressHash m k))) as [c Hc]; [lia|].
  pose proof (c_seg _ _ _ _ C _ _ Hc) as Hs. exists c.
  assert (forall i, i ∈ c <-> i ∈ T /\ slot m i = compressHash m k) as Hin.
  { intros i. rewrite (c_in _ _ _ _ C _ _ i Hc). by rewrite Z2Nat.id by lia. }
  split_and!; [|done|].
  - apply at_index_Some. split; [lia|]. by rewrite (c_heads _ _ _ _ C), list_lookup_fmap, Hc.
  - eapply runs_mono; [apply (find_loop_runs m k (-1) c); [done|]|].
    { rewrite (w_size _ _ W). unfold zlen. rewrite Nat2Z.id.
      assert (length c <= length T)%nat; [|lia]. apply submseteq_length, NoDup_submseteq.
      - by apply (c_nodup _ _ _ _ C _ _ Hc).
      - by intros i [? _]%Hin. }
    intros [[j|] w] m' [-> Hj]; (split; [done|]); cbn in *.
    + destruct Hj as [Hj He]. split; [by apply Hin|done].
    + intros ((k' & v) & -> & Hx)%list_elem_of_fmap. cbn in *.
      destruct (holds_in _ _ _ _ Hh Hx) as (i & Hi & He). apply (Hj i v); [|done].
      apply Hin. split; [done|]. unfold slot. by rewrite He.
Qed.

Lemma find_runs m H T l k isAdd :
  base m -> linked m H T l -> window m T ->
  runs (find k isAdd) m (fun r m' => quiet m m' /\
    match r with
    | Some j => j ∈ T /\ exists v, en m j = Some (k, v)
    | None => k ∉ l.*1
    end).
Proof.
  intros B Hl W. apply runs_bind, runs_modify. cbv zeta. set (m1 := set_counter m _).
  pose proof (quiet_counter m _ : quiet m m1) as Q1.
  destruct (quiet_parts m m1 H T l Q1) as (Qb & Ql & Qw & _).
  destruct (chain_runs m1 H T l k (Qb B) (Ql Hl) (Qw W)) as (c & Hhd & Hs & Hf).
  apply runs_bind, runs_get. cbv zeta.
  apply runs_bind, runs_bind, runs_get, (runs_of_option _ (hd_or (-1) c)); [done|]. apply runs_bind.
  eapply runs_mono; [exact Hf|].
  assert (forall s, quiet m1 s -> at_index (hashSlotHead s) (compressHash m1 k) = Some (hd_or (-1) c) /\
                    seg (hl s) (-1) c (-1)) as Hk by (by intros s (? & ? & ? & ? & ->)).
  intros [[j|] w] m' [-> Hj]; cbn in Hj; apply runs_bind, runs_modify; cbv zeta; apply runs_bind;
    (eapply runs_mono; [eapply keep_chain_runs; apply Hk, quiet_counter|]);
    intros [] m' Q; apply runs_ret;
    (split; [exact (quiet_trans _ _ _ Q1 (quiet_trans _ _ _ (quiet_counter _ _) Q))|done]).
Qed.

(** * The cache as a list

    The entries by time of use, the last one used first. *)

Definition lru_get (k : Z) (l : list (Z * option V)) : option (option V) :=
  snd <$> List.find (fun x => x.1 =? k) l.

Definition lru_drop (k : Z) (l : list (Z * option V)) : list (Z * option V) :=
  List.filter (fun x => negb (x.1 =? k)) l.

Definition lru_add (cap k : Z) (v : option V) (l : list (Z * option V)) : list (Z * option V) :=
  match lru_get k l with
  | Some _ => (k, v) :: lru_drop k l
  | None => (k, v) :: evict cap l
  end.

Definition lru_use (k : Z) (l : list (Z * option V)) : list (Z * option V) :=
  match lru_get k l with
  | Some v => (k, v) :: lru_drop k l
  | None => l
  end.

Lemma lru_absent k l : k ∉ l.*1 -> lru_get k l = None /\ lru_drop k l = l.
Proof.
  induction l as [|[k' v] l IH]; [done|]. rewrite fmap_cons, not_elem_of_cons. intros [Hk Hl].
  apply IH in Hl as [E1 E2]. unfold lru_get, lru_drop in *. cbn in *.
  replace (k' =? k) with false by (symmetry; apply Z.eqb_neq; congruence). cbn. by rewrite E1, E2.
Qed.

Lemma lru_present k v l1 l2 :
  NoDup (l1 ++ (k, v) :: l2).*1 ->
  lru_get k (l1 ++ (k, v) :: l2) = Some v /\ lru_drop k (l1 ++ (k, v) :: l2) = l1 ++ l2.
Proof.
  intros [_ Hk]%keys_mid. cbn [fst] in Hk. rewrite fmap_app, not_elem_of_app in Hk. destruct Hk as [H1 H2].
  apply lru_absent in H1 as [E1 D1]. apply lru_absent in H2 as [E2 D2].
  unfold lru_get, lru_drop in *. rewrite List.filter_app, D1. cbn. rewrite Z.eqb_refl. cbn. rewrite D2.
  split; [|done]. induction l1 as [|[k' v'] l1 IH]; cbn in *; [by rewrite Z.eqb_refl|].
  destruct (k' =? k); [done|]. apply IH; [done|]. by injection D1.
Qed.

Lemma ok_at m H T l j k v :
  linked m H T l -> j ∈ T -> en m j = Some (k, v) ->
  exists t1 t2 l1 l2, T = t1 ++ j :: t2 /\ l = l1 ++ (k, v) :: l2 /\ holds m t1 l1 /\ holds m t2 l2.
Proof.
  intros (_ & _ & _ & Hh) Hj He. apply list_elem_of_split in Hj as (t1 & t2 & ->).
  apply holds_mid in Hh as (l1 & x & l2 & -> & H1 & Hx & H2). rewrite He in Hx. injection Hx as <-.
  by exists t1, t2, l1, l2.
Qed.

Lemma Add_runs m l pooled k v :
  ok m l -> zlen pooled = 256 ->
  runs (Add pooled k v) m (fun _ m' => ok m' (lru_add (capacity m) k v l) /\ capacity m' = capacity m).
Proof.
  intros (B & N & H & T & Hl & W) Hp. apply runs_bind.
  eapply runs_mono; [by apply (find_runs m H T l)|]. intros r m1 [Q Hr].
  destruct (quiet_parts m m1 H T l Q) as (Qb & Ql & Qw & Qc & Ec & _).
  rewrite <- Ec. unfold lru_add. destruct r as [j|].
  - destruct Hr as (Hj & v0 & He).
    assert (en m1 j = Some (k, v0)) as He1 by (unfold en; by rewrite Qc).
    destruct (ok_at _ _ _ _ _ _ _ (Ql Hl) Hj He1) as (t1 & t2 & l1 & l2 & -> & -> & H1 & H2).
    destruct (lru_present k v0 l1 l2 N) as [-> ->].
    eapply runs_mono; [by apply (updateNode_runs m1 H t1 j t2 l1 k v0 l2 v); auto|]. by intros [] m' (? & ? & _).
  - destruct (lru_absent k l Hr) as [-> _]. apply newNode_runs; [|done|done].
    split_and!; [auto|done|]. exists H, T. auto.
Qed.

Lemma Get_runs m l k peek :
  ok m l ->
  runs (Get k peek) m (fun r m' =>
    r = lru_get k l /\ ok m' (if peek then l else lru_use k l) /\ capacity m' = capacity m).
Proof.
  intros (B & N & H & T & Hl & W). apply runs_bind.
  eapply runs_mono; [by apply (find_runs m H T l)|]. intros r m1 [Q Hr].
  destruct (quiet_parts m m1 H T l Q) as (Qb & Ql & Qw & Qc & Ec & _).
  specialize (Qb B). specialize (Ql Hl). specialize (Qw W).
  assert (ok m1 l) as Hok by (split_and!; [done|done|by exists H, T]). unfold lru_use. destruct r as [j|].
  - destruct Hr as (Hj & v0 & He).
    assert (en m1 j = Some (k, v0)) as He1 by (unfold en; by rewrite Qc).
    destruct (cell m1 j) as [n|] eqn:Hn; [|by unfold en in He1; rewrite Hn in He1].
    pose proof He1 as Hv. unfold en in Hv. rewrite Hn in Hv. injection Hv as Hk Hv.
    destruct (ok_at _ _ _ _ _ _ _ Ql Hj He1) as (t1 & t2 & l1 & l2 & -> & -> & H1 & H2).
    destruct (lru_present k v0 l1 l2 N) as [-> ->].
    apply runs_bind, (runs_getNode _ _ n); [done|]. rewrite Hv. apply runs_bind.
    apply (runs_mono _ _ (fun _ m2 => ok m2 (if peek then l1 ++ (k, v0) :: l2 else (k, v0) :: l1 ++ l2) /\
      capacity m2 = capacity m1 /\ en m2 j = Some (k, v0))).
    + destruct peek; cbn [negb]; [by apply runs_ret|]. by apply (updateNode_runs m1 H t1 j t2 l1 k v0 l2 v0).
    + intros [] m2 (Hok2 & Ec2 & He2). unfold en in He2. destruct (cell m2 j) as [n2|] eqn:Hn2; [|done].
      injection He2 as _ Hv2. apply runs_bind, (runs_getNode _ _ n2); [done|]. apply runs_ret.
      split_and!; [by rewrite Hv2|done|congruence].
  - destruct (lru_absent k l Hr) as [-> _]. apply runs_ret. split_and!; [done|by destruct peek|done].
Qed.

Lemma Remove_runs m l k :
  ok m l -> runs (Remove k) m (fun _ m' => ok m' (lru_drop k l) /\ capacity m' = capacity m).
Proof.
  intros (B & N & H & T & Hl & W). destruct (chain_runs m H T l k B Hl W) as (c & Hhd & _ & Hf).
  apply runs_bind, runs_get. apply runs_bind, runs_bind, runs_get, (runs_of_option _ (hd_or (-1) c)); [done|].
  apply runs_bind. eapply runs_mono; [exact Hf|]. intros [[j|] w] m' [-> Hj]; cbn in Hj.
  - destruct Hj as (Hj & v & He).
    destruct (ok_at _ _ _ _ _ _ _ Hl Hj He) as (t1 & t2 & l1 & l2 & -> & -> & H1 & H2).
    destruct (lru_present k v l1 l2 N) as [_ ->]. by apply (removeNode_runs m H t1 j t2 l1 (k, v) l2).
  - apply runs_ret. split; [|done]. destruct (lru_absent k l Hj) as [_ ->].
    split_and!; [done|done|by exists H, T].
Qed.

Lemma Walk_loop_runs m p T l rounds :
  seg (tl m) p T (-1) -> holds m T l -> (length T < rounds)%nat ->
  runs (Walk_loop rounds (hd_or (-1) T)) m (fun r m' => r = l /\ m' = m).
Proof.
  revert p l rounds. induction T as [|i T IH]; intros p l [|rounds] Hs Hh Hr; [cbn in Hr; lia..| |cbn in Hr; lia|];
    cbn [Walk_loop hd_or].
  - apply Forall2_nil_inv_l in Hh as ->. by apply runs_ret.
  - pose proof (linked_none _ _ _ _ _ Hs) as Hm. apply Forall2_cons_inv_l in Hh as ([k v] & l' & He & Hh & ->).
    replace (i =? -1) with false by (symmetry; apply Z.eqb_neq; intros ->; apply Hm; by left).
    destruct Hs as [Hi Hs]. unfold tl, en in *. destruct (cell m i) as [n|] eqn:Hn; [|done].
    injection Hi as En Ep. injection He as <- <-. apply runs_bind, (runs_getNode _ _ n); [done|].
    rewrite En. apply runs_bind. eapply runs_mono; [apply (IH i l'); [done|done|cbn in Hr; lia]|].
    intros ? ? [-> ->]. by apply runs_ret.
Qed.

Lemma Walk_runs m l : ok m l -> runs Walk m (fun r m' => r = l /\ m' = m).
Proof.
  intros (B & N & H & T & (_ & _ & Ht & Hh) & W). apply runs_bind, runs_get.
  rewrite (t_head _ _ Ht). apply (Walk_loop_runs m (-1)); [by apply t_seg|done|].
  rewrite (w_size _ _ W). unfold zlen. lia.
Qed.

(** ** Empty caches *)

Lemma ok_empty m :
  base m -> zlen (hashSlotHead m) = hashSlots m -> (forall h, h ∈ hashSlotHead m -> h = -1) ->
  timeListHead m = -1 -> timeListTail m = -1 -> bufferStartIndex m = 0 -> bufferEndIndex m = 0 ->
  size m = 0 -> ok m [].
Proof.
  intros B Hz Hh E1 E2 E3 E4 E5. pose proof (base_cells m B) as [_ Hc]. pose proof (b_capacity _ B).
  split_and!; [done|constructor|]. exists ((fun _ => []) <$> hashSlotHead m), []. split.
  - split_and!; [unfold zlen; by rewrite length_fmap| |by constructor; [|constructor| |]|constructor].
    constructor; [| | | |by intros i ?%not_elem_of_nil].
    + rewrite <- list_fmap_compose. apply list_eq. intros i. rewrite list_lookup_fmap.
      destruct (hashSlotHead m !! i) as [h|] eqn:E; [|done]. cbn. f_equal. apply Hh. by eapply list_elem_of_lookup_2.
    + intros s l [h [-> _]]%list_lookup_fmap_Some. done.
    + intros s l [h [-> _]]%list_lookup_fmap_Some. constructor.
    + intros s l i [h [-> _]]%list_lookup_fmap_Some. rewrite !elem_of_nil. tauto.
  - constructor; rewrite ?E3, ?E4, ?E5; try done; try (rewrite Z.mod_small by lia; lia); try lia.
    + intros i. rewrite elem_of_nil. split; [done|]. intros [Hi Hm]. rewrite Z.sub_0_r, Z.mod_small in Hm; lia.
Qed.

Lemma Clear_ok m l : ok m l -> ok (Clear m) [] /\ capacity (Clear m) = capacity m.
Proof.
  intros (B & N & H & T & (EH & C & _) & W). split; [|done]. apply ok_empty; try done.
  - destruct B as [Bc Br Bb Bs]. constructor; [done| | |done].
    + cbn. unfold zlen. by rewrite length_fmap.
    + intros b Hb. cbn in Hb. by apply list_elem_of_fmap in Hb as (? & ? & _).
  - cbn. unfold zlen in *. by rewrite length_fmap, (c_heads _ _ _ _ C), length_fmap.
  - cbn. by intros h (? & -> & _)%list_elem_of_fmap.
Qed.

Lemma minPowerOfTwo_power v : exists bits, 0 <= bits < 30 /\ (minPowerOfTwo v).1 = 2 ^ bits.
Proof.
  unfold minPowerOfTwo. assert (forall rounds i, 0 <= i -> i + Z.of_nat rounds <= 30 ->
    exists bits, 0 <= bits < 30 /\ (minPowerOfTwo_loop rounds i v).1 = 2 ^ bits) as Hl; [|by apply Hl].
  induction rounds as [|rounds IH]; intros i Hi Hr; cbn [minPowerOfTwo_loop]; [by exists 0|].
  zcase; [|apply IH; lia]. exists i. split; [lia|]. cbn [fst]. by rewrite shiftl_mul, Z.mul_1_l by lia.
Qed.

Lemma New_ok slots cap :
  1 <= cap <= 2 ^ 30 ->
  exists m, NewU64LRUNoStats slots cap = Some m /\ ok m [] /\ capacity m = cap.
Proof.
  intros Hc. unfold NewU64LRUNoStats. destruct (minPowerOfTwo_power slots) as (bits & Hb & E).
  destruct (minPowerOfTwo slots) as [s sb]. cbn [fst] in E. subst s.
  assert (i64 (Z.quot (i64 (cap + BLOCK_SIZE)) BLOCK_SIZE + 1) = cap / 256 + 2) as ->.
  { change BLOCK_SIZE with 256. pow2. rewrite (swrap_small 64 (cap + 256)) by (try lia; unfold is_i; pow2; lia).
    rewrite Z.quot_div_nonneg by lia. replace (cap + 256) with (cap + 1 * 256) by lia. rewrite Z.div_add by lia.
    assert (cap / 256 <= cap) by (apply Z.div_le_upper_bound; lia). assert (0 <= cap / 256) by (apply Z.div_pos; lia).
    rewrite swrap_small by (try lia; unfold is_i; pow2; lia). lia. }
  assert (0 <= cap / 256) by (apply Z.div_pos; lia). ztests. eexists. split; [done|]. split; [|done].
  pose proof (pow2_pos bits ltac:(lia)). assert (2 ^ bits <= 2 ^ 29) by (apply Z.pow_le_mono_r; lia).
  assert (i32 (2 ^ bits) = 2 ^ bits) as Eb by (apply swrap_small; [lia|]; unfold is_i; pow2; lia).
  apply ok_empty; try done; cbn [hashSlotHead hashSlots ringBuffer].
  - constructor; cbn [capacity ringBuffer hashSlots].
    + done.
    + unfold zlen. rewrite length_replicate. lia.
    + by intros b [? _]%elem_of_replicate.
    + exists bits. split; [lia|done].
  - rewrite Eb. unfold zlen. rewrite length_replicate. lia.
  - by intros h [-> _]%elem_of_replicate.
Qed.
End Cells.

(** * Refinement *)

Section Refinement.
Context {V : Type}.

Inductive op : Type :=
  | OpAdd (pooled : list (u64LRUNode V)) (k : Z) (v : option V)
  | OpGet (k : Z) (peek : bool)
  | OpRemove (k : Z)
  | OpWalk
  | OpClear.

Inductive answer : Type :=
  | ADone
  | AValue (v : option (option V))
  | AEntries (l : list (Z * option V)).

(** [sync.Pool] hands out blocks of the right size. *)
Definition op_ok (o : op) : Prop :=
  match o with OpAdd pooled _ _ => zlen pooled = BLOCK_SIZE | _ => True end.

Definition run_op (o : op) : ST (U64LRU V) answer :=
  match o with
  | OpAdd pooled k v => Add pooled k v ;; mret ADone
  | OpGet k peek => r ← Get k peek; mret (AValue r)
  | OpRemove k => Remove k ;; mret ADone
  | OpWalk => r ← Walk; mret (AEntries r)
  | OpClear => modify Clear ;; mret ADone
  end.

Fixpoint run_ops (os : list op) : ST (U64LRU V) (list answer) :=
  match os with
  | [] => mret []
  | o :: os => a ← run_op o; rest ← run_ops os; mret (a :: (rest : list answer))
  end.

(** The same calls on the list of entries. *)
Definition spec_op (cap : Z) (o : op) (l : list (Z * option V)) : answer * list (Z * option V) :=
  match o with
  | OpAdd _ k v => (ADone, lru_add cap k v l)
  | OpGet k peek => (AValue (lru_get k l), if peek then l else lru_use k l)
  | OpRemove k => (ADone, lru_drop k l)
  | OpWalk => (AEntries l, l)
  | OpClear => (ADone, [])
  end.

Fixpoint spec_ops (cap : Z) (os : list op) (l : list (Z * option V)) : list answer * list (Z * option V) :=
  match os with
  | [] => ([], l)
  | o :: os =>
      let '(a, l) := spec_op cap o l in
      let '(rest, l) := spec_ops cap os l in
      (a :: rest, l)
  end.

Lemma run_op_runs m l o :
  ok m l -> op_ok o ->
  runs (run_op o) m (fun a m' =>
    a = (spec_op (capacity m) o l).1 /\ ok m' (spec_op (capacity m) o l).2 /\ capacity m' = capacity m).
Proof.
  intros Hok Ho. destruct o as [pooled k v|k peek|k| |]; cbn [run_op spec_op fst snd]; apply runs_bind.
  - eapply runs_mono; [by apply (Add_runs m l)|]. by intros [] m' [? ?].
  - eapply runs_mono; [by apply (Get_runs m l)|]. by intros r m' (-> & ? & ?).
  - eapply runs_mono; [by apply (Remove_runs m l)|]. by intros [] m' [? ?].
  - eapply runs_mono; [by apply (Walk_runs m l)|]. by intros r m' [-> ->].
  - apply runs_modify, runs_ret. split; [done|]. by apply (Clear_ok m l).
Qed.

Lemma run_ops_runs m l os :
  ok m l -> Forall op_ok os ->
  runs (run_ops os) m (fun a m' =>
    a = (spec_ops (capacity m) os l).1 /\ ok m' (spec_ops (capacity m) os l).2 /\
    capacity m' = capacity m).
Proof.
  intros Hok Ho. revert m l Hok. induction Ho as [|o os Ho _ IH]; intros m l Hok; cbn [run_ops spec_ops].
  - by apply runs_ret.
  - apply runs_bind. eapply runs_mono; [by apply (run_op_runs m l)|]. intros a m1 (-> & Hok1 & Ec).
    apply runs_bind. eapply runs_mono; [by apply (IH m1)|]. intros rest m2 (-> & Hok2 & Ec2). apply runs_ret.
    rewrite Ec in *. destruct (spec_op (capacity m) o l) as [a l1]. cbn [fst snd] in *.
    by destruct (spec_ops (capacity m) os l1) as [rest l2].
Qed.
End Refinement.
Arguments op : clear implicits.
Arguments answer : clear implicits.

(** C19: The cache is a list of entries by time of use: whatever calls are made of a
    new cache of some capacity, with any blocks from the pool, no call panics or
    loops, each gives the answer of the list, and in the end the size is the
    number of entries, which are within the capacity and have different keys.
    The chains of the hash slots, the list by time and the ring buffer, whose nodes
    move, do not show. *)
Theorem lru_refines {V} (slots cap : Z) (os : list (op V)) :
  1 <= cap <= 2 ^ 30 -> Forall op_ok os ->
  exists m answers m' l,
    NewU64LRUNoStats slots cap = Some m /\ run_ops os m = Some (answers, m') /\
    spec_ops cap os [] = (answers, l) /\ size m' = zlen l /\ zlen l <= cap /\ NoDup l.*1.
Proof.
  intros Hc Ho. destruct (New_ok (V:=V) slots cap Hc) as (m & Em & Hok & Ec).
  pose proof (run_ops_runs m [] os Hok Ho) as Hr. rewrite Ec in Hr.
  apply runs_exists in Hr as (answers & m' & E & Ea & Hok' & Ec').
  destruct (spec_ops cap os []) as [a l] eqn:Es. cbn [fst snd] in *. subst a.
  exists m, answers, m', l. split_and!; try done.
  - by apply ok_size.
  - rewrite <- (ok_size _ _ Hok'). destruct Hok' as (_ & _ & H & T & _ & W).
    rewrite <- Ec'. apply (w_fits _ _ W).
  - apply Hok'.
Qed.

(** Four entries in a cache for three, with one slot: a chain of collisions, a
    replacement of the entry used least recently, a node that moves. *)
Definition lru_calls : list (op Z) :=
  let pooled := replicate 256 blankU64LRUNodeForInit in
  [OpAdd pooled 1 (Some 10); OpAdd pooled 2 (Some 20); OpAdd pooled 3 (Some 30); OpGet 1 false;
   OpAdd pooled 4 (Some 40); OpGet 2 true; OpWalk; OpRemove 1; OpAdd pooled 3 (Some 31); OpWalk; OpClear; OpWalk].

Lemma lru_refines_witness :
  spec_ops 3 lru_calls [] =
    ([ADone; ADone; ADone; AValue (Some (Some 10)); ADone; AValue None;
      AEntries [(4, Some 40); (1, Some 10); (3, Some 30)]; ADone; ADone;
      AEntries [(3, Some 31); (4, Some 40)]; ADone; AEntries []], []) /\
  exists m answers m' l,
    NewU64LRUNoStats 1 3 = Some m /\ run_ops lru_calls m = Some (answers, m') /\
    spec_ops 3 lru_calls [] = (answers, l) /\ size m' = zlen l /\ zlen l <= 3 /\ NoDup l.*1.
Proof.
  split; [reflexivity|]. apply (lru_refines 1 3 lru_calls); [lia|].
  repeat (apply Forall_cons_2; [done|]). apply Forall_nil_2.
Defined.
