(* ===== verification/Platform.v ===== *)
(** The platform data of the server ([server/libs/grpc/grpc_platformdata.go]): tables
    of interfaces, networks and agents that the controller sends, the caches of
    looked up addresses in front of them, and the statistics of hits and misses.

    Counters are allocated in [counts]; a pointer to one is its index.  The two
    caches, the labeler of services and the parsers of addresses are interfaces.
    Slices of networks keep their backing arrays, because [updateCidrInfos] appends
    to one slice and stores the result for another. *)

From stdpp Require Import strings.
From S2P Require Import Prelude Strconv LineProto Ckdb Meter Tag TagMini Document Expand.

#[local] Open Scope string_scope.
#[local] Open Scope list_scope.
#[local] Open Scope Z_scope.

(** * What the tables rely on *)

(** A cache with least-recently-used replacement ([server/libs/hmap/lru]). *)
Class Cache (K V C : Type) := {
  lru_New : option C;
  lru_Get (k : K) : ST C (option V);
  lru_Add (k : K) (v : V) : ST C unit
}.

(** [net.IPNet] *)
Record IPNet := mkIPNet { net_IP : list Z; net_Mask : list Z }.

(** The text parsers of package [net]; nil is [None]. *)
Class NetText := {
  ParseIP : string -> option (list Z);
  ParseCIDR : string -> option IPNet
}.

(** [api.GroupIDMap] *)
Record GroupIDMap := mkGroup {
  g_L3EpcID : Z;
  g_GroupID : Z;
  g_CIDRs : list string;
  g_IPRanges : list string;
  g_PodGroupID : Z;
  g_Protocol : Z;
  g_ServerPorts : string;
  g_Role : string;
  g_ServiceID : Z
}.

(** [GroupLabeler] *)
Class ServiceLabeler (L : Type) := {
  NewGroupLabeler : list GroupIDMap -> L;
  QueryServer (l3EpcID ip podGroupID protocol serverPort : Z) : ST L (list Z);
  QueryServerIPv6 (l3EpcID : Z) (ip : list Z) (podGroupID protocol serverPort : Z) : ST L (list Z)
}.

(** What the language leaves open: the capacity of a slice that [append] grows, the
    order of [sort.Slice] among equal elements, and the order of a [range] over a
    map. *)
Class Runtime (A : Type) := {
  grow : nat -> nat;
  sort_Slice : (A -> A -> bool) -> list A -> list A;
  range_keys : list Z -> list Z
}.

(** * Data *)

Record BaseInfo := mkBaseInfo { Base_RegionID : Z; Base_HitCount : Z }.

Record CidrInfo := mkCidrInfo {
  Cidr_Cidr : IPNet;
  Cidr_EpcID : Z;
  Cidr_RegionID : Z;
  Cidr_SubnetID : Z;
  Cidr_AZID : Z;
  Cidr_IsWan : bool;
  Cidr_HitCount : Z
}.

Record PodInfo := mkPodInfo {
  Pod_PodId : Z;
  Pod_PodName : string;
  Pod_Ip : string;
  Pod_EpcId : Z;
  Pod_PodClusterId : Z
}.

Record VtapInfo := mkVtapInfo {
  Vtap_VtapId : Z;
  Vtap_EpcId : Z;
  Vtap_Ip : string;
  Vtap_PodClusterId : Z
}.

(** What a cache holds: information, or a pointer to the count of misses. *)
Inductive lru_value := LInfo (info : Info) | LMiss (count : Z).

Definition EpcIDIPV6_LEN : Z := 20.

(** [grpc.PlatformInfoTable] without its session and the names it reports. *)
Record Platform (C4 C6 L : Type) := mkPlatform {
  regionID : Z;
  otherRegionCount : Z;
  epcIDIPV4Lru : C4;
  epcIDIPV6Lru : C6;
  epcIDIPV4Infos : gmap Z Info;
  epcIDIPV6Infos : gmap (list Z) Info;
  epcIDIPV4CidrInfos : gmap Z (list CidrInfo);
  epcIDIPV6CidrInfos : gmap Z (list CidrInfo);
  macInfos : gmap Z Info;
  macMissCount : gmap Z Z;
  epcIDBaseInfos : gmap Z BaseInfo;
  epcIDBaseMissCount : gmap Z Z;
  versionPlatformData : Z;
  versionGroups : Z;
  serviceLabeler : option L;
  services : list GroupIDMap;
  podNameInfos : gmap string (list PodInfo);
  vtapIdInfos : gmap Z VtapInfo;
  peerConnections : gmap Z (list Z);
  counts : list Z
}.
Arguments mkPlatform {C4 C6 L}.
Arguments regionID {C4 C6 L}.
Arguments otherRegionCount {C4 C6 L}.
Arguments epcIDIPV4Lru {C4 C6 L}.
Arguments epcIDIPV6Lru {C4 C6 L}.
Arguments epcIDIPV4Infos {C4 C6 L}.
Arguments epcIDIPV6Infos {C4 C6 L}.
Arguments epcIDIPV4CidrInfos {C4 C6 L}.
Arguments epcIDIPV6CidrInfos {C4 C6 L}.
Arguments macInfos {C4 C6 L}.
Arguments macMissCount {C4 C6 L}.
Arguments epcIDBaseInfos {C4 C6 L}.
Arguments epcIDBaseMissCount {C4 C6 L}.
Arguments versionPlatformData {C4 C6 L}.
Arguments versionGroups {C4 C6 L}.
Arguments serviceLabeler {C4 C6 L}.
Arguments services {C4 C6 L}.
Arguments podNameInfos {C4 C6 L}.
Arguments vtapIdInfos {C4 C6 L}.
Arguments peerConnections {C4 C6 L}.
Arguments counts {C4 C6 L}.

(** * Networks *)

(** [IPNet.Contains]: a network whose mask does not fit has no address. *)
Definition networkNumberAndMask (n : IPNet) : option (list Z * list Z) :=
  ip ← match To4 (net_IP n) with
       | Some ip => Some ip
       | None => if zlen (net_IP n) =? IPv6len then Some (net_IP n) else None
       end;
  if zlen (net_Mask n) =? zlen ip then Some (ip, net_Mask n)
  else if (zlen (net_Mask n) =? IPv6len) && (zlen ip =? IPv4len) then Some (ip, drop 12 (net_Mask n))
  else None.

Definition Contains (n : IPNet) (ip : list Z) : bool :=
  let ip := match To4 ip with Some ip => ip | None => ip end in
  match networkNumberAndMask n with
  | None => zlen ip =? 0
  | Some (nn, m) =>
      (zlen ip =? zlen nn)
      && forallb (fun '((x, y), z) => Z.land x z =? Z.land y z) (zip (zip nn ip) m)
  end.

(** The number of leading ones of a byte whose ones are all leading. *)
Definition byte_ones (b : Z) : option Z :=
  match b with
  | 0 => Some 0 | 0x80 => Some 1 | 0xc0 => Some 2 | 0xe0 => Some 3 | 0xf0 => Some 4
  | 0xf8 => Some 5 | 0xfc => Some 6 | 0xfe => Some 7 | 0xff => Some 8
  | _ => None
  end.

(** [IPMask.Size]: the number of ones, or zero for a mask that is not of the form
    ones and zeros. *)
Fixpoint simpleMaskLength (m : list Z) : option Z :=
  match m with
  | [] => Some 0
  | b :: m =>
      if b =? 0xff then Z.add 8 <$> simpleMaskLength m
      else n ← byte_ones b; if forallb (fun x => x =? 0) m then Some n else None
  end.

Definition mask_ones (m : list Z) : Z := default 0 (simpleMaskLength m).

(** * Queries *)

(** [uint64(epcID)<<32 | uint64(ipv4)] *)
Definition key4 (epcID ipv4 : Z) : Z := Z.lor (shl 64 (u64 epcID) 32) ipv4.

(** [PutUint32(key[:], uint32(epcID))] and [copy(key[4:], ipv6)] *)
Definition key6 (epcID : Z) (ipv6 : list Z) : list Z :=
  le_put 4 (u32 epcID) ++ take 16 ipv6 ++ replicate (16 - length ipv6) 0.

Definition region_only (region : Z) : Info :=
  mkInfo 0 0 0 "" 0 0 region 0 0 0 0 0 0 0 0 0 false false None.

Definition cidr_info (c : CidrInfo) : Info :=
  mkInfo 0 0 0 "" 0 0 (Cidr_RegionID c) 0 0 (Cidr_SubnetID c) 0 0 0 0 0 (Cidr_AZID c) false false
    (Some (Cidr_HitCount c)).

Section Queries.
Context {C4 C6 L : Type} `{!Cache Z lru_value C4} `{!Cache (list Z) lru_value C6} `{!ServiceLabeler L}.
Abbreviation P := (Platform C4 C6 L).

Definition M : Type -> Type := ST P.

Definition set_counts (t : P) (l : list Z) : P :=
  mkPlatform (regionID t) (otherRegionCount t) (epcIDIPV4Lru t) (epcIDIPV6Lru t) (epcIDIPV4Infos t)
    (epcIDIPV6Infos t) (epcIDIPV4CidrInfos t) (epcIDIPV6CidrInfos t) (macInfos t) (macMissCount t)
    (epcIDBaseInfos t) (epcIDBaseMissCount t) (versionPlatformData t) (versionGroups t)
    (serviceLabeler t) (services t) (podNameInfos t) (vtapIdInfos t) (peerConnections t) l.

Definition set_lru4 (t : P) (c : C4) : P :=
  mkPlatform (regionID t) (otherRegionCount t) c (epcIDIPV6Lru t) (epcIDIPV4Infos t)
    (epcIDIPV6Infos t) (epcIDIPV4CidrInfos t) (epcIDIPV6CidrInfos t) (macInfos t) (macMissCount t)
    (epcIDBaseInfos t) (epcIDBaseMissCount t) (versionPlatformData t) (versionGroups t)
    (serviceLabeler t) (services t) (podNameInfos t) (vtapIdInfos t) (peerConnections t) (counts t).

Definition set_lru6 (t : P) (c : C6) : P :=
  mkPlatform (regionID t) (otherRegionCount t) (epcIDIPV4Lru t) c (epcIDIPV4Infos t)
    (epcIDIPV6Infos t) (epcIDIPV4CidrInfos t) (epcIDIPV6CidrInfos t) (macInfos t) (macMissCount t)
    (epcIDBaseInfos t) (epcIDBaseMissCount t) (versionPlatformData t) (versionGroups t)
    (serviceLabeler t) (services t) (podNameInfos t) (vtapIdInfos t) (peerConnections t) (counts t).

(** Sets the statistics: the misses of hardware addresses, and the hits and misses
    of base information. *)
Definition set_stats (t : P) (macs : gmap Z Z) (bases : gmap Z BaseInfo) (misses : gmap Z Z) : P :=
  mkPlatform (regionID t) (otherRegionCount t) (epcIDIPV4Lru t) (epcIDIPV6Lru t) (epcIDIPV4Infos t)
    (epcIDIPV6Infos t) (epcIDIPV4CidrInfos t) (epcIDIPV6CidrInfos t) (macInfos t) macs bases misses
    (versionPlatformData t) (versionGroups t) (serviceLabeler t) (services t) (podNameInfos t)
    (vtapIdInfos t) (peerConnections t) (counts t).

Definition set_services (t : P) (l : option L) (s : list GroupIDMap) : P :=
  mkPlatform (regionID t) (otherRegionCount t) (epcIDIPV4Lru t) (epcIDIPV6Lru t) (epcIDIPV4Infos t)
    (epcIDIPV6Infos t) (epcIDIPV4CidrInfos t) (epcIDIPV6CidrInfos t) (macInfos t) (macMissCount t)
    (epcIDBaseInfos t) (epcIDBaseMissCount t) (versionPlatformData t) (versionGroups t) l s
    (podNameInfos t) (vtapIdInfos t) (peerConnections t) (counts t).

Definition AddOtherRegion (t : P) : P :=
  mkPlatform (regionID t) (i64 (otherRegionCount t + 1)) (epcIDIPV4Lru t) (epcIDIPV6Lru t)
    (epcIDIPV4Infos t) (epcIDIPV6Infos t) (epcIDIPV4CidrInfos t) (epcIDIPV6CidrInfos t) (macInfos t)
    (macMissCount t) (epcIDBaseInfos t) (epcIDBaseMissCount t) (versionPlatformData t)
    (versionGroups t) (serviceLabeler t) (services t) (podNameInfos t) (vtapIdInfos t)
    (peerConnections t) (counts t).

(** ** Counters *)

(** [atomic.AddUint64(p, 1)], which panics for nil. *)
Definition add_count (p : option Z) : M unit :=
  t ← get_state;
  i ← of_option p;
  n ← of_option (counts t !! Z.to_nat i);
  modify (fun t => set_counts t (<[Z.to_nat i := u64 (n + 1)]> (counts t))).

(** A new counter that holds one. *)
Definition new_count : M Z :=
  t ← get_state;
  modify (fun t => set_counts t (counts t ++ [1])) ;;
  mret (zlen (counts t)).

Definition on_lru4 {A} (m : ST C4 A) : M A := fun t =>
  match m (epcIDIPV4Lru t) with Some (a, c) => Some (a, set_lru4 t c) | None => None end.

Definition on_lru6 {A} (m : ST C6 A) : M A := fun t =>
  match m (epcIDIPV6Lru t) with Some (a, c) => Some (a, set_lru6 t c) | None => None end.

Definition info_of (v : lru_value) : option Info :=
  match v with LInfo info => Some info | LMiss _ => None end.

(** [IPV4InfoStat] and [IPV6InfoStat] *)
Definition InfoStat (v : lru_value) : M unit :=
  match v with LInfo info => add_count (Info_HitCount info) | LMiss c => add_count (Some c) end.

(** ** Addresses *)

Definition queryIPV4Cidr (t : P) (epcID ipv4 : Z) : option Info :=
  match epcIDIPV4CidrInfos t !! epcID with
  | Some cidrs => cidr_info <$> List.find (fun c => Contains (Cidr_Cidr c) (IpFromUint32 ipv4)) cidrs
  | None => None
  end.

Definition queryIPV6Cidr (t : P) (epcID : Z) (ipv6 : list Z) : option Info :=
  match epcIDIPV6CidrInfos t !! epcID with
  | Some cidrs => cidr_info <$> List.find (fun c => Contains (Cidr_Cidr c) ipv6) cidrs
  | None => None
  end.

Definition IPV4InfoAddLru (info : option Info) (key : Z) : M unit :=
  match info with
  | Some info => on_lru4 (lru_Add key (LInfo info)) ;; add_count (Info_HitCount info)
  | None => c ← new_count; on_lru4 (lru_Add key (LMiss c))
  end.

Definition IPV6InfoAddLru (info : option Info) (key : list Z) : M unit :=
  match info with
  | Some info => on_lru6 (lru_Add key (LInfo info)) ;; add_count (Info_HitCount info)
  | None => c ← new_count; on_lru6 (lru_Add key (LMiss c))
  end.

Definition queryIPV4Infos (epcID ipv4 : Z) : M (option Info) :=
  let key := key4 epcID ipv4 in
  v ← on_lru4 (lru_Get key);
  match (v : option lru_value) with
  | None =>
      t ← get_state;
      let info := match epcIDIPV4Infos t !! key with
                  | Some info => Some info
                  | None => queryIPV4Cidr t epcID ipv4
                  end in
      IPV4InfoAddLru info key ;; mret info
  | Some v => InfoStat v ;; mret (info_of v)
  end.

Definition queryIPV6Infos (epcID : Z) (ipv6 : list Z) : M (option Info) :=
  let key := key6 epcID ipv6 in
  v ← on_lru6 (lru_Get key);
  match (v : option lru_value) with
  | None =>
      t ← get_state;
      let info := match epcIDIPV6Infos t !! key with
                  | Some info => Some info
                  | None => queryIPV6Cidr t epcID ipv6
                  end in
      IPV6InfoAddLru info key ;; mret info
  | Some v => InfoStat v ;; mret (info_of v)
  end.

(** One side of a pair: the information, and whether [ok] is set after the lookups,
    which it is not only when neither the cache nor the table has the key. *)
Definition pair_lookup4 (epcID ipv4 : Z) : M (option Info * bool) :=
  let key := key4 epcID ipv4 in
  v ← on_lru4 (lru_Get key);
  match (v : option lru_value) with
  | None =>
      t ← get_state;
      match epcIDIPV4Infos t !! key with
      | Some info => mret (Some info, true)
      | None => mret (queryIPV4Cidr t epcID ipv4, false)
      end
  | Some v => InfoStat v ;; mret (info_of v, true)
  end.

Definition pair_lookup6 (epcID : Z) (ipv6 : list Z) : M (option Info * bool) :=
  let key := key6 epcID ipv6 in
  v ← on_lru6 (lru_Get key);
  match (v : option lru_value) with
  | None =>
      t ← get_state;
      match epcIDIPV6Infos t !! key with
      | Some info => mret (Some info, true)
      | None => mret (queryIPV6Cidr t epcID ipv6, false)
      end
  | Some v => InfoStat v ;; mret (info_of v, true)
  end.

Definition queryIPV4InfosPair (epcID0 ipv40 epcID1 ipv41 : Z) : M (option Info * option Info) :=
  r0 ← pair_lookup4 epcID0 ipv40;
  r1 ← pair_lookup4 epcID1 ipv41;
  (if negb r0.2 then IPV4InfoAddLru r0.1 (key4 epcID0 ipv40) else mret tt) ;;
  (if negb r1.2 then IPV4InfoAddLru r1.1 (key4 epcID1 ipv41) else mret tt) ;;
  mret (r0.1, r1.1).

Definition queryIPV6InfosPair (epcID0 : Z) (ipv60 : list Z) (epcID1 : Z) (ipv61 : list Z)
    : M (option Info * option Info) :=
  r0 ← pair_lookup6 epcID0 ipv60;
  r1 ← pair_lookup6 epcID1 ipv61;
  (if negb r0.2 then IPV6InfoAddLru r0.1 (key6 epcID0 ipv60) else mret tt) ;;
  (if negb r1.2 then IPV6InfoAddLru r1.1 (key6 epcID1 ipv61) else mret tt) ;;
  mret (r0.1, r1.1).

(** ** Hardware addresses and base information *)

Definition InfoMissStat (mac : Z) : M unit :=
  modify (fun t =>
    let n := match macMissCount t !! mac with Some n => u64 (n + 1) | None => 1 end in
    set_stats t (<[mac := n]> (macMissCount t)) (epcIDBaseInfos t) (epcIDBaseMissCount t)).

Definition queryMacInfo (mac : Z) : M (option Info) :=
  t ← get_state;
  match macInfos t !! mac with
  | None => InfoMissStat mac ;; mret None
  | Some info => add_count (Info_HitCount info) ;; mret (Some info)
  end.

Definition queryMacInfosPair (mac0 mac1 : Z) : M (option Info * option Info) :=
  t ← get_state;
  let info0 := macInfos t !! mac0 in
  let info1 := macInfos t !! mac1 in
  match info0 with Some info => add_count (Info_HitCount info) | None => mret tt end ;;
  match info1 with Some info => add_count (Info_HitCount info) | None => mret tt end ;;
  match info0 with Some _ => mret tt | None => InfoMissStat mac0 end ;;
  match info1 with Some _ => mret tt | None => InfoMissStat mac1 end ;;
  mret (info0, info1).

Definition baseInfoMissStat (epcID : Z) : M unit :=
  modify (fun t =>
    let n := match epcIDBaseMissCount t !! epcID with Some n => u64 (n + 1) | None => 1 end in
    set_stats t (macMissCount t) (epcIDBaseInfos t) (<[epcID := n]> (epcIDBaseMissCount t))).

Definition base_hit (epcID : Z) (b : BaseInfo) : M unit :=
  modify (fun t =>
    set_stats t (macMissCount t)
      (<[epcID := mkBaseInfo (Base_RegionID b) (u64 (Base_HitCount b + 1))]> (epcIDBaseInfos t))
      (epcIDBaseMissCount t)).

Definition queryEpcIDBaseInfo (epcID : Z) : M (option BaseInfo) :=
  t ← get_state;
  match epcIDBaseInfos t !! epcID with
  | None => baseInfoMissStat epcID ;; mret None
  | Some b => base_hit epcID b ;; mret (Some b)
  end.

(** ** The exported queries *)

Definition base_region (epcID : Z) : M (option Info) :=
  b ← queryEpcIDBaseInfo epcID;
  mret ((fun b => region_only (Base_RegionID b)) <$> (b : option BaseInfo)).

Definition or_base (epcID : Z) (info : option Info) : M (option Info) :=
  match info with Some _ => mret info | None => base_region epcID end.

Definition QueryIPV4Infos (epcID ipv4 : Z) : M (option Info) :=
  if epcID =? EPC_FROM_INTERNET then mret None
  else info ← queryIPV4Infos epcID ipv4; or_base epcID info.

Definition QueryIPV6Infos (epcID : Z) (ipv6 : list Z) : M (option Info) :=
  if epcID =? EPC_FROM_INTERNET then mret None
  else info ← queryIPV6Infos epcID ipv6; or_base epcID info.

Definition QueryIPV4InfosPair (epcID0 ipv40 epcID1 ipv41 : Z) : M (option Info * option Info) :=
  if epcID0 =? EPC_FROM_INTERNET then info1 ← QueryIPV4Infos epcID1 ipv41; mret (None, info1)
  else if epcID1 =? EPC_FROM_INTERNET then info0 ← QueryIPV4Infos epcID0 ipv40; mret (info0, None)
  else
    r ← queryIPV4InfosPair epcID0 ipv40 epcID1 ipv41;
    info0 ← or_base epcID0 r.1;
    info1 ← or_base epcID1 r.2;
    mret (info0, info1).

Definition QueryIPV6InfosPair (epcID0 : Z) (ipv60 : list Z) (epcID1 : Z) (ipv61 : list Z)
    : M (option Info * option Info) :=
  if epcID0 =? EPC_FROM_INTERNET then info1 ← QueryIPV6Infos epcID1 ipv61; mret (None, info1)
  else if epcID1 =? EPC_FROM_INTERNET then info0 ← QueryIPV6Infos epcID0 ipv60; mret (info0, None)
  else
    r ← queryIPV6InfosPair epcID0 ipv60 epcID1 ipv61;
    info0 ← or_base epcID0 r.1;
    info1 ← or_base epcID1 r.2;
    mret (info0, info1).

Definition QueryEpcIDBaseInfosPair (epcID0 epcID1 : Z) : M (option BaseInfo * option BaseInfo) :=
  let hit epcID : M (option BaseInfo) :=
    t ← get_state;
    match epcIDBaseInfos t !! epcID with
    | Some b => base_hit epcID b ;; mret (Some b)
    | None => mret None
    end in
  b0 ← hit epcID0;
  b1 ← hit epcID1;
  match (b0 : option BaseInfo) with Some _ => mret tt | None => baseInfoMissStat epcID0 end ;;
  match (b1 : option BaseInfo) with Some _ => mret tt | None => baseInfoMissStat epcID1 end ;;
  mret (b0, b1).

(** ** Services *)

Definition on_labeler {A} (m : ST L A) (l : L) : M A := fun t =>
  match m l with Some (a, l) => Some (a, set_services t (Some l) (services t)) | None => None end.

(** The loop over the found services; [None] is an index out of range. *)
Fixpoint first_service (s : list GroupIDMap) (idxs : list Z) : option (option Z) :=
  match idxs with
  | [] => Some None
  | i :: idxs =>
      g ← s !! Z.to_nat i;
      if 0 <? g_ServiceID g then Some (Some (g_ServiceID g)) else first_service s idxs
  end.

Definition service_result (serviceIdxs : list Z) : M (bool * Z) :=
  t ← get_state;
  r ← of_option (first_service (services t) serviceIdxs);
  mret match (r : option Z) with
       | Some id => (true, id)
       | None => (0 <? zlen serviceIdxs, 0)
       end.

Definition QueryIsKeyServiceAndID (l3EpcID ipv4 protocol serverPort : Z) : M (bool * Z) :=
  t ← get_state;
  match serviceLabeler t with
  | None => mret (false, 0)
  | Some l =>
      let protocol := if serverPort =? 0 then 0 else protocol in
      idxs ← on_labeler (QueryServer l3EpcID ipv4 0 protocol serverPort) l;
      service_result idxs
  end.

Definition QueryIPv6IsKeyServiceAndID (l3EpcID : Z) (ipv6 : list Z) (protocol serverPort : Z)
    : M (bool * Z) :=
  t ← get_state;
  match serviceLabeler t with
  | None => mret (false, 0)
  | Some l =>
      let protocol := if serverPort =? 0 then 0 else protocol in
      idxs ← on_labeler (QueryServerIPv6 l3EpcID ipv6 0 protocol serverPort) l;
      service_result idxs
  end.

(** ** Agents, pods and peers *)

Definition QueryVtapEpc0 (t : P) (vtapId : Z) : Z :=
  match vtapIdInfos t !! vtapId with
  | Some v => i32 (Vtap_EpcId v)
  | None => EPC_FROM_INTERNET
  end.

Definition inPlatformData (epcID : Z) (isIPv4 : bool) (ip4 : Z) (ip6 : list Z) : M bool :=
  info ← (if isIPv4 then queryIPV4Infos (i16 epcID) ip4 else queryIPV6Infos (i16 epcID) ip6);
  mret (bool_decide (is_Some (info : option Info))).

Definition findEpcInWan (isIPv4 : bool) (ip4 : Z) (ip6 : list Z) : M Z :=
  info ← (if isIPv4 then queryIPV4Infos 0 ip4 else queryIPV6Infos 0 ip6);
  mret match (info : option Info) with
       | Some info => Info_EpcID info
       | None => EPC_FROM_INTERNET
       end.

Definition queryPeerConnections (t : P) (epcId : Z) : list Z := default [] (peerConnections t !! epcId).

Fixpoint find_peer (peers : list Z) (isIPv4 : bool) (ip4 : Z) (ip6 : list Z) : M (option Z) :=
  match peers with
  | [] => mret None
  | epc1 :: peers =>
      found ← inPlatformData epc1 isIPv4 ip4 ip6;
      if found : bool then mret (Some epc1) else find_peer peers isIPv4 ip4 ip6
  end.

Definition QueryVtapEpc1 (vtapId : Z) (isIPv4 : bool) (ip41 : Z) (ip61 : list Z) : M Z :=
  t ← get_state;
  let epc0 := QueryVtapEpc0 t vtapId in
  found ← inPlatformData epc0 isIPv4 ip41 ip61;
  if found : bool then mret epc0
  else
    t ← get_state;
    r ← find_peer (queryPeerConnections t epc0) isIPv4 ip41 ip61;
    match (r : option Z) with
    | Some epc1 => mret epc1
    | None => findEpcInWan isIPv4 ip41 ip61
    end.

Definition QueryPodInfo (t : P) (vtapId : Z) (podName : string) : option PodInfo :=
  v ← vtapIdInfos t !! vtapId;
  List.find (fun p => Pod_PodClusterId p =? Vtap_PodClusterId v) (default [] (podNameInfos t !! podName)).
End Queries.

Arguments M : clear implicits.

(** The queries that the document expansion uses. *)
#[export] Instance Platform_table {C4 C6 L} `{!Cache Z lru_value C4} `{!Cache (list Z) lru_value C6}
    `{!ServiceLabeler L} : PlatformInfoTable (Platform C4 C6 L) := {|
  Expand.QueryRegionID := regionID;
  Expand.AddOtherRegion := AddOtherRegion;
  Expand.QueryMacInfo := queryMacInfo;
  Expand.QueryMacInfosPair := queryMacInfosPair;
  Expand.QueryIPV4Infos := QueryIPV4Infos;
  Expand.QueryIPV6Infos := QueryIPV6Infos;
  Expand.QueryIPV4InfosPair := QueryIPV4InfosPair;
  Expand.QueryIPV6InfosPair := QueryIPV6InfosPair;
  Expand.QueryIsKeyServiceAndID := QueryIsKeyServiceAndID;
  Expand.QueryIPv6IsKeyServiceAndID := QueryIPv6IsKeyServiceAndID
|}.

(** * Messages of the controller

    The parts of [trident.SyncResponse] that are read; a field that is not set has
    its default value. *)

Record pb_IpResource := mkpb_IpResource { res_Ip : string; res_SubnetId : Z }.

Record pb_Interface := mkpb_Interface {
  intf_DeviceType : Z;
  intf_DeviceId : Z;
  intf_IfType : Z;
  intf_EpcId : Z;
  intf_LaunchServer : string;
  intf_IpResources : list pb_IpResource;
  intf_LaunchServerId : Z;
  intf_RegionId : Z;
  intf_Mac : Z;
  intf_PodNodeId : Z;
  intf_AzId : Z;
  intf_PodGroupId : Z;
  intf_PodNsId : Z;
  intf_PodId : Z;
  intf_PodClusterId : Z
}.

Record pb_Cidr := mkpb_Cidr {
  cidr_Prefix : string;
  cidr_Type : Z;
  cidr_EpcId : Z;
  cidr_SubnetId : Z;
  cidr_RegionId : Z;
  cidr_AzId : Z
}.

Record pb_PeerConnection := mkpb_Peer { peer_LocalEpcId : Z; peer_RemoteEpcId : Z }.

Record pb_PlatformData := mkpb_PlatformData {
  pd_Interfaces : list pb_Interface;
  pd_PeerConnections : list pb_PeerConnection;
  pd_Cidrs : list pb_Cidr
}.

Record pb_Service := mkpb_Service {
  svc_Type : Z;
  svc_Id : Z;
  svc_EpcId : Z;
  svc_Ips : list string;
  svc_IpRanges : list string;
  svc_Protocol : Z;
  svc_ServerPorts : string
}.

(** The compressed parts are absent, or their decoding fails, or they are there. *)
Inductive compressed (A : Type) := CAbsent | CBroken | CData (a : A).
Arguments CAbsent {A}.
Arguments CBroken {A}.
Arguments CData {A}.

Record pb_SyncResponse := mkpb_SyncResponse {
  resp_Success : bool;
  resp_RegionId : option Z;
  resp_VersionPlatformData : Z;
  resp_VersionGroups : Z;
  resp_PlatformData : compressed pb_PlatformData;
  resp_Groups : compressed (list pb_Service);
  resp_PodIps : list PodInfo;
  resp_VtapIps : list VtapInfo
}.

(** * New tables *)

(** A slice of networks: its backing array, from the start, and its length. *)
Record slice := mkSlice { s_array : nat; s_len : nat }.

(** The tables that [Reload] fills. *)
Record building := mkBuilding {
  b_infos4 : gmap Z Info;
  b_infos6 : gmap (list Z) Info;
  b_macs : gmap Z Info;
  b_bases : gmap Z BaseInfo;
  b_arrays : list (list (option CidrInfo));
  b_cidrs4 : gmap Z slice;
  b_cidrs6 : gmap Z slice;
  b_counts : list Z
}.

Definition B : Type -> Type := ST building.

Definition set_b_infos4 (b : building) (m : gmap Z Info) : building :=
  mkBuilding m (b_infos6 b) (b_macs b) (b_bases b) (b_arrays b) (b_cidrs4 b) (b_cidrs6 b) (b_counts b).
Definition set_b_infos6 (b : building) (m : gmap (list Z) Info) : building :=
  mkBuilding (b_infos4 b) m (b_macs b) (b_bases b) (b_arrays b) (b_cidrs4 b) (b_cidrs6 b) (b_counts b).
Definition set_b_macs (b : building) (m : gmap Z Info) : building :=
  mkBuilding (b_infos4 b) (b_infos6 b) m (b_bases b) (b_arrays b) (b_cidrs4 b) (b_cidrs6 b) (b_counts b).
Definition set_b_bases (b : building) (m : gmap Z BaseInfo) : building :=
  mkBuilding (b_infos4 b) (b_infos6 b) (b_macs b) m (b_arrays b) (b_cidrs4 b) (b_cidrs6 b) (b_counts b).
Definition set_b_arrays (b : building) (l : list (list (option CidrInfo))) : building :=
  mkBuilding (b_infos4 b) (b_infos6 b) (b_macs b) (b_bases b) l (b_cidrs4 b) (b_cidrs6 b) (b_counts b).
Definition set_b_cidrs (b : building) (m4 m6 : gmap Z slice) : building :=
  mkBuilding (b_infos4 b) (b_infos6 b) (b_macs b) (b_bases b) (b_arrays b) m4 m6 (b_counts b).
Definition set_b_counts (b : building) (l : list Z) : building :=
  mkBuilding (b_infos4 b) (b_infos6 b) (b_macs b) (b_bases b) (b_arrays b) (b_cidrs4 b) (b_cidrs6 b) l.

(** [new(uint64)] *)
Definition new_uint64 : B Z :=
  b ← get_state;
  modify (fun b => set_b_counts b (b_counts b ++ [0])) ;;
  mret (zlen (b_counts b)).

(** A base entry is made for an [epcID] that has none. *)
Definition add_base (epcID region : Z) : B unit :=
  modify (fun b =>
    match b_bases b !! epcID with
    | Some _ => b
    | None => set_b_bases b (<[epcID := mkBaseInfo region 0]> (b_bases b))
    end).

(** The first separator decides. *)
Fixpoint isIPV4 (s : string) : bool :=
  match s with
  | EmptyString => false
  | String c s =>
      if Ascii.eqb c "."%char then true
      else if Ascii.eqb c ":"%char then false
      else isIPV4 s
  end.

Definition IF_TYPE_WAN : Z := 3.
Definition CidrType_WAN : Z := 1.
Definition ServiceType_POD_SERVICE : Z := 0.

(** [utils.IpToUint32] *)
Definition IpToUint32 (ip : list Z) : Z := if zlen ip =? IPv4len then be_get ip else 0.

(** ** Interfaces *)

Section Update.
Context `{!NetText} `{!Runtime CidrInfo}.

(** [utils.ParserStringIpV4]; nil has no bytes. *)
Definition ParserStringIpV4 (ipStr : string) : list Z :=
  default [] (ip ← ParseIP ipStr; To4 ip).

(** What the entries of an interface share. *)
Definition intf_info (intf : pb_Interface) (epcID subnetID : Z) (c : Z) : Info :=
  let hostStr := intf_LaunchServer intf in
  mkInfo (i32 epcID) 0 (if (hostStr =? "")%string then 0 else IpToUint32 (ParserStringIpV4 hostStr)) hostStr
    (intf_LaunchServerId intf) (intf_Mac intf) (intf_RegionId intf) (intf_DeviceType intf)
    (intf_DeviceId intf) subnetID (intf_PodNodeId intf) (intf_PodNsId intf) (intf_PodGroupId intf)
    (intf_PodId intf) (intf_PodClusterId intf) (intf_AzId intf) false
    (intf_IfType intf =? IF_TYPE_WAN) (Some c).

(** The entry that finds the network of a WAN address. *)
Definition wan_info (epcID c : Z) : Info :=
  mkInfo (i32 epcID) 0 0 "" 0 0 0 0 0 0 0 0 0 0 0 0 false false (Some c).

(** The entry of the hardware address. *)
Definition mac_info (intf : pb_Interface) (epcID subnetID c : Z) : Info :=
  mkInfo (i32 epcID) epcID 0 "" (intf_LaunchServerId intf) (intf_Mac intf) (intf_RegionId intf)
    (intf_DeviceType intf) (intf_DeviceId intf) subnetID (intf_PodNodeId intf) 0 (intf_PodGroupId intf)
    (intf_PodId intf) (intf_PodClusterId intf) (intf_AzId intf) false false (Some c).

(** One address of an interface. *)
Definition add_address (intf : pb_Interface) (epcID : Z) (r : pb_IpResource) : B unit :=
  let isWan := intf_IfType intf =? IF_TYPE_WAN in
  if isIPV4 (res_Ip r) then
    let ipU32 := IpToUint32 (ParserStringIpV4 (res_Ip r)) in
    c ← new_uint64;
    modify (fun b => set_b_infos4 b
      (<[Z.lor (shl 64 epcID 32) ipU32 := intf_info intf epcID (res_SubnetId r) c]> (b_infos4 b))) ;;
    if isWan then
      c ← new_uint64;
      modify (fun b => set_b_infos4 b (<[ipU32 := wan_info epcID c]> (b_infos4 b)))
    else mret tt
  else
    match ParseIP (res_Ip r) with
    | None => mret tt
    | Some netIP =>
        c ← new_uint64;
        modify (fun b => set_b_infos6 b
          (<[key6 epcID netIP := intf_info intf epcID (res_SubnetId r) c]> (b_infos6 b))) ;;
        if isWan then
          c ← new_uint64;
          modify (fun b => set_b_infos6 b (<[key6 0 netIP := wan_info epcID c]> (b_infos6 b)))
        else mret tt
    end.

(** The first subnet that is not zero. *)
Definition firstSubnetID (rs : list pb_IpResource) : Z :=
  foldl (fun first r => if first =? 0 then res_SubnetId r else first) 0 rs.

Definition updateInterfaceInfos (intf : pb_Interface) : B unit :=
  let epcID := if intf_EpcId intf =? 0 then u32 EPC_FROM_DEEPFLOW else intf_EpcId intf in
  add_base (i32 epcID) (intf_RegionId intf) ;;
  for_each (add_address intf epcID) (intf_IpResources intf) ;;
  c ← new_uint64;
  modify (fun b => set_b_macs b
    (<[Z.lor (intf_Mac intf) (shl 64 epcID 48) :=
         mac_info intf epcID (firstSubnetID (intf_IpResources intf)) c]> (b_macs b))).

(** ** Networks *)

(** [make([]*CidrInfo, 0, n)] *)
Definition make_slice (n : nat) : B slice :=
  b ← get_state;
  modify (fun b => set_b_arrays b (b_arrays b ++ [replicate n None])) ;;
  mret (mkSlice (length (b_arrays b)) 0).

(** [append(s, x)]: in place while there is room, and else in a new array. *)
Definition append_slice (s : slice) (x : CidrInfo) : B slice :=
  b ← get_state;
  a ← of_option (b_arrays b !! s_array s);
  if (s_len s <? length a)%nat then
    modify (fun b => set_b_arrays b (<[s_array s := <[s_len s := Some x]> a]> (b_arrays b))) ;;
    mret (mkSlice (s_array s) (S (s_len s)))
  else
    modify (fun b => set_b_arrays b
      (b_arrays b ++ [take (s_len s) a ++ Some x :: replicate (grow (length a) - S (s_len s)) None])) ;;
    mret (mkSlice (length (b_arrays b)) (S (s_len s))).

(** The elements of a slice. *)
Definition elements (arrays : list (list (option CidrInfo))) (s : slice) : list CidrInfo :=
  omap id (take (s_len s) (default [] (arrays !! s_array s))).

(** The longer mask first. *)
Definition longer (c d : CidrInfo) : bool :=
  mask_ones (net_Mask (Cidr_Cidr c)) >? mask_ones (net_Mask (Cidr_Cidr d)).

(** [sort.Slice(cidrs, ...)], in the backing array. *)
Definition sort_cidrs (s : slice) : B unit :=
  modify (fun b => set_b_arrays b
    (alter (fun a => (Some <$> sort_Slice longer (elements (b_arrays b) s)) ++ drop (s_len s) a)
       (s_array s) (b_arrays b))).

Definition sort_all (m : gmap Z slice) : B unit :=
  for_each (fun k => match m !! k with Some s => sort_cidrs s | None => mret tt end)
    (range_keys (map_to_list m).*1).

(** The slice of a key, made when there is none. *)
Definition slice_of (m : gmap Z slice) (k : Z) (n : nat) : B slice :=
  match m !! k with Some s => mret s | None => make_slice n end.

(** The IPv4 table: a WAN network is appended to the slice of its [epcID] once more,
    and the result becomes the slice of the key zero. *)
Definition add_cidr4 (epcID : Z) (isWan : bool) (c : CidrInfo) : B unit :=
  b ← get_state;
  s ← slice_of (b_cidrs4 b) epcID 1;
  s ← append_slice s c;
  modify (fun b => set_b_cidrs b (<[epcID := s]> (b_cidrs4 b)) (b_cidrs6 b)) ;;
  if isWan : bool then
    b ← get_state;
    slice_of (b_cidrs4 b) 0 128 ;;
    s ← append_slice s c;
    modify (fun b => set_b_cidrs b (<[0 := s]> (b_cidrs4 b)) (b_cidrs6 b))
  else mret tt.

(** The IPv6 table: a WAN network is appended to the slice of the key zero. *)
Definition add_cidr6 (epcID : Z) (isWan : bool) (c : CidrInfo) : B unit :=
  b ← get_state;
  s ← slice_of (b_cidrs6 b) epcID 1;
  s ← append_slice s c;
  modify (fun b => set_b_cidrs b (b_cidrs4 b) (<[epcID := s]> (b_cidrs6 b))) ;;
  if isWan : bool then
    b ← get_state;
    s0 ← slice_of (b_cidrs6 b) 0 128;
    s0 ← append_slice s0 c;
    modify (fun b => set_b_cidrs b (b_cidrs4 b) (<[0 := s0]> (b_cidrs6 b)))
  else mret tt.

Definition updateCidrInfos (cidr : pb_Cidr) : B unit :=
  match ParseCIDR (cidr_Prefix cidr) with
  | None => mret tt
  | Some n =>
      let epcID := if cidr_EpcId cidr =? 0 then EPC_FROM_DEEPFLOW else cidr_EpcId cidr in
      let isWan := cidr_Type cidr =? CidrType_WAN in
      hit ← new_uint64;
      let c := mkCidrInfo n epcID (cidr_RegionId cidr) (cidr_SubnetId cidr) (cidr_AzId cidr) isWan hit in
      add_base epcID (cidr_RegionId cidr) ;;
      (if isIPV4 (cidr_Prefix cidr) then add_cidr4 epcID isWan c else add_cidr6 epcID isWan c) ;;
      b ← get_state;
      sort_all (b_cidrs4 b) ;;
      sort_all (b_cidrs6 b)
  end.
End Update.

(** ** Services *)

Definition set_protocol (g : GroupIDMap) (id protocol : Z) : GroupIDMap :=
  mkGroup (g_L3EpcID g) id (g_CIDRs g) (g_IPRanges g) (g_PodGroupID g) protocol (g_ServerPorts g)
    (g_Role g) (g_ServiceID g).

Fixpoint stringsEqual (s1 s2 : list string) : bool :=
  match s1, s2 with
  | [], [] => true
  | x :: s1, y :: s2 => (x =? y)%string && stringsEqual s1 s2
  | _, _ => false
  end.

Definition servicesHasGroupIDMap (s : list GroupIDMap) (g : GroupIDMap) : bool :=
  existsb (fun x =>
    (g_L3EpcID x =? g_L3EpcID g) && stringsEqual (g_CIDRs x) (g_CIDRs g)
    && stringsEqual (g_IPRanges x) (g_IPRanges g) && (g_Protocol x =? g_Protocol g)
    && (g_ServerPorts x =? g_ServerPorts g)%string && (g_ServiceID x =? g_ServiceID g)) s.

Definition service_group (svc : pb_Service) (index : Z) : GroupIDMap :=
  let pod := svc_Type svc =? ServiceType_POD_SERVICE in
  let ports := svc_ServerPorts svc in
  mkGroup (i32 (svc_EpcId svc)) (u16 index) (svc_Ips svc) (svc_IpRanges svc) 0 (u16 (svc_Protocol svc))
    (if pod then if (ports =? "")%string then "0" else ports +:+ ",0" else ports) ""
    (if pod then svc_Id svc else 0).

(** The loop over the services: every one, and once more for any protocol unless
    that is there already. *)
Fixpoint service_groups (svcs : list pb_Service) (s : list GroupIDMap) : list GroupIDMap :=
  match svcs with
  | [] => s
  | svc :: svcs =>
      let g := service_group svc (zlen s) in
      let s := s ++ [g] in
      let any := set_protocol g (u16 (zlen s)) 0 in
      service_groups svcs (if servicesHasGroupIDMap s any then s else s ++ [any])
  end.

Section Reload.
Context {C4 C6 L : Type} `{!Cache Z lru_value C4} `{!Cache (list Z) lru_value C6} `{!ServiceLabeler L}.
Context `{!NetText} `{!Runtime CidrInfo}.
Abbreviation P := (Platform C4 C6 L).

(** [true] when the groups could be decoded; nil groups have no services. *)
Definition updateServices (t : P) (groups : compressed (list pb_Service)) : bool * P :=
  let update svcs :=
    let s := service_groups svcs [] in (true, set_services t (Some (NewGroupLabeler s)) s) in
  match groups with
  | CBroken => (false, t)
  | CAbsent => update []
  | CData svcs => update svcs
  end.

(** ** Agents, pods and peers *)

Definition updateVtapIps (vtapIps : list VtapInfo) : gmap Z VtapInfo :=
  foldl (fun m v => <[Vtap_VtapId v := v]> m) ∅ vtapIps.

Definition updatePodIps (podIps : list PodInfo) : gmap string (list PodInfo) :=
  foldl (fun m p =>
    match m !! Pod_PodName p with
    | Some ps => <[Pod_PodName p := ps ++ [p]]> m
    | None => <[Pod_PodName p := [p]]> m
    end) ∅ podIps.

Definition inSlice (s : list Z) (item : Z) : bool := existsb (fun e => e =? item) s.

Definition add_peer (m : gmap Z (list Z)) (from to : Z) : gmap Z (list Z) :=
  match m !! from with
  | Some peers => if negb (inSlice peers to) then <[from := peers ++ [to]]> m else m
  | None => <[from := [to]]> m
  end.

Definition updatePeerConnections (connections : list pb_PeerConnection) : gmap Z (list Z) :=
  foldl (fun m c =>
    let localEpcId := i32 (peer_LocalEpcId c) in
    let remoteEpcId := i32 (peer_RemoteEpcId c) in
    add_peer (add_peer m localEpcId remoteEpcId) remoteEpcId localEpcId) ∅ connections.

(** ** The refresh *)

Definition build (d : pb_PlatformData) : B unit :=
  for_each updateInterfaceInfos (pd_Interfaces d) ;;
  for_each updateCidrInfos (pd_Cidrs d).

Definition new_building (counts : list Z) : building := mkBuilding ∅ ∅ ∅ ∅ [] ∅ ∅ counts.

Definition set_names (t : P) (pods : gmap string (list PodInfo)) (vtaps : gmap Z VtapInfo) (groups : Z) : P :=
  mkPlatform (regionID t) (otherRegionCount t) (epcIDIPV4Lru t) (epcIDIPV6Lru t) (epcIDIPV4Infos t)
    (epcIDIPV6Infos t) (epcIDIPV4CidrInfos t) (epcIDIPV6CidrInfos t) (macInfos t) (macMissCount t)
    (epcIDBaseInfos t) (epcIDBaseMissCount t) (versionPlatformData t) groups (serviceLabeler t)
    (services t) pods vtaps (peerConnections t) (counts t).

(** The tables with new contents, empty caches and no misses. *)
Definition install (t : P) (region version : Z) (peers : gmap Z (list Z)) (b : building) (c4 : C4) (c6 : C6) : P :=
  mkPlatform region 0 c4 c6 (b_infos4 b) (b_infos6 b)
    (elements (b_arrays b) <$> b_cidrs4 b) (elements (b_arrays b) <$> b_cidrs6 b)
    (b_macs b) ∅ (b_bases b) ∅ version (versionGroups t) (serviceLabeler t) (services t)
    (podNameInfos t) (vtapIdInfos t) peers (b_counts b).

(** The names and groups of a response. *)
Definition reload_names (r : pb_SyncResponse) (t : P) : P :=
  let t :=
    if negb (resp_VersionGroups r =? versionGroups t) then
      let '(ok, t) := updateServices t (resp_Groups r) in
      if ok : bool then set_names t (podNameInfos t) (vtapIdInfos t) (resp_VersionGroups r) else t
    else t in
  let t := match resp_VtapIps r with
           | [] => t
           | vs => set_names t (podNameInfos t) (updateVtapIps vs) (versionGroups t)
           end in
  match resp_PodIps r with
  | [] => t
  | ps => set_names t (updatePodIps ps) (vtapIdInfos t) (versionGroups t)
  end.

(** [false] is an error: of the request, of the response or of its decoding. *)
Definition Reload (response : option pb_SyncResponse) : M C4 C6 L bool :=
  match response with
  | None => mret false
  | Some r =>
      if negb (resp_Success r) then mret false
      else
        modify (reload_names r) ;;
        t ← get_state;
        if resp_VersionPlatformData r =? versionPlatformData t then mret true
        else
          match resp_PlatformData r with
          | CBroken => mret false
          | d =>
              let d := match d with CData d => d | _ => mkpb_PlatformData [] [] [] end in
              let region := default (regionID t) (resp_RegionId r) in
              b ← of_option (build d (new_building (counts t)));
              c4 ← of_option lru_New;
              c6 ← of_option lru_New;
              modify (fun t =>
                install t region (resp_VersionPlatformData r)
                  (updatePeerConnections (pd_PeerConnections d)) b.2 c4 c6) ;;
              mret true
          end
  end.

Definition NewPlatformInfoTable : option P :=
  c4 ← lru_New;
  c6 ← lru_New;
  Some (mkPlatform 0 0 c4 c6 ∅ ∅ ∅ ∅ ∅ ∅ ∅ ∅ 0 0 None [] ∅ ∅ ∅ []).
End Reload.
