(* ===== verification/PlatformFacts.v ===== *)
(** Correctness of the platform data: the caches do not show in the answers of
    queries, no query or refresh panics, and what the tables of networks find. *)

From S2P Require Import Prelude Strconv LineProto Ckdb Meter Tag TagMini Document Expand ExpandFacts Lru LruFacts.
From stdpp Require Import strings sorting.
From S2P Require Import Platform.

#[local] Open Scope string_scope.
#[local] Open Scope list_scope.
#[local] Open Scope Z_scope.

(** Sorted lists by indices. *)
Lemma StronglySorted_lookup {A} (R : relation A) l :
  StronglySorted R l <-> forall i j x y, l !! i = Some x -> l !! j = Some y -> (i < j)%nat -> R x y.
Proof.
  split.
  - induction 1 as [|z l Hl IH Hz]; [done|]. intros [|i] [|j] x y Hx Hy Hij; cbn in Hx, Hy; try lia.
    + simplify_eq. rewrite Forall_forall in Hz. by eapply Hz, list_elem_of_lookup_2.
    + eapply IH; [done|done|lia].
  - induction l as [|z l IH]; intros H; constructor.
    + apply IH. intros i j x y Hx Hy Hij. apply (H (S i) (S j)); [done|done|lia].
    + apply Forall_lookup. intros i y Hy. apply (H 0%nat (S i)); [done|done|lia].
Qed.

(** * Laws of the interfaces *)

(** [cached c k v]: the cache holds [v] for [k].  What a lookup gives is held, and
    nothing is held that was not added. *)
Class CacheLaws (K V C : Type) `{!Cache K V C} := {
  cache_ok : C -> Prop;
  cached : C -> K -> V -> Prop;
  cache_New : exists c, lru_New = Some c /\ cache_ok c /\ forall k v, ~ cached c k v;
  cache_Get k c : cache_ok c -> runs (lru_Get k) c (fun r c' =>
    cache_ok c' /\ (forall k v, cached c' k v -> cached c k v) /\ (forall v, r = Some v -> cached c k v));
  cache_Add k v c : cache_ok c -> runs (lru_Add k v) c (fun _ c' =>
    cache_ok c' /\
    forall k' v', cached c' k' v' -> (k' = k /\ v' = v) \/ (k' <> k /\ cached c k' v'))
}.

(** The labeler finds indices of the services it was made for. *)
Class LabelerLaws (L : Type) `{!ServiceLabeler L} := {
  labeler_ok : L -> Z -> Prop;
  labeler_New s : labeler_ok (NewGroupLabeler s) (zlen s);
  labeler_QueryServer epc ip pod proto port l n : labeler_ok l n ->
    runs (QueryServer epc ip pod proto port) l (fun idxs l' =>
      labeler_ok l' n /\ Forall (fun i => 0 <= i < n) idxs);
  labeler_QueryServerIPv6 epc ip pod proto port l n : labeler_ok l n ->
    runs (QueryServerIPv6 epc ip pod proto port) l (fun idxs l' =>
      labeler_ok l' n /\ Forall (fun i => 0 <= i < n) idxs)
}.

(** Sorting rearranges and respects the comparison, a grown slice has room, and a
    range visits every key. *)
Class RuntimeLaws (A : Type) `{!Runtime A} := {
  grow_more n : (n < grow n)%nat;
  sort_perm less (l : list A) : sort_Slice less l ≡ₚ l;
  sort_sorted (less : A -> A -> bool) l i j x y :
    (forall a, less a a = false) -> (forall a b c, less a b = true -> less b c = true -> less a c = true) ->
    (forall a b c, less a b = false -> less b c = false -> less a c = false) ->
    sort_Slice less l !! i = Some x -> sort_Slice less l !! j = Some y -> (i < j)%nat -> less y x = false;
  range_perm l : range_keys l ≡ₚ l
}.

(** A runtime that doubles capacities, sorts by merging and visits keys as they come. *)
Definition not_less {A} (less : A -> A -> bool) (x y : A) : Prop := less y x = false.

#[export] Instance not_less_dec {A} (less : A -> A -> bool) x y : Decision (not_less less x y).
Proof. unfold not_less. apply _. Defined.

Definition doubling {A} : Runtime A := {|
  grow n := match n with O => 1%nat | _ => (2 * n)%nat end;
  sort_Slice less l := merge_sort (not_less less) l;
  range_keys l := l
|}.

Lemma doubling_laws {A} : @RuntimeLaws A doubling.
Proof.
  constructor.
  - intros [|n]; cbn; lia.
  - intros less l. apply merge_sort_Permutation.
  - intros less l i j x y Hirr Htr Hntr Hx Hy Hij.
    assert (StronglySorted (not_less less) (merge_sort (not_less less) l)) as Hs.
    { apply StronglySorted_merge_sort.
      - intros a b c Hab Hbc. unfold not_less in *. eauto.
      - intros a b. unfold not_less. destruct (less b a) eqn:E1; [|by left]. destruct (less a b) eqn:E2; [|by right].
        pose proof (Htr a b a E2 E1) as E. by rewrite Hirr in E. }
    by apply (proj1 (StronglySorted_lookup _ _) Hs i j x y).
  - done.
Qed.

(** ** The cache of [hmap/lru] *)

Section U64LRU.
Context {V : Type}.

(** The block that the pool hands out may depend on anything; here, on the cache. *)
Variable pooled : U64LRU V -> list (u64LRUNode V).

Definition U64LRU_Cache : Cache Z V (U64LRU V) := {|
  lru_New := NewU64LRUNoStats (1 ≪ 14) (1 ≪ 17);
  lru_Get k := r ← Lru.Get k false; mret (mjoin (r : option (option V)));
  lru_Add k v := m ← get_state; Lru.Add (pooled m) k (Some v)
|}.

Definition no_nil (l : list (Z * option V)) : Prop := Forall (fun x => is_Some x.2) l.

Lemma ok_unique (m : U64LRU V) l l' : ok m l -> ok m l' -> l = l'.
Proof.
  intros H1%Walk_runs H2%Walk_runs. unfold runs in *. destruct (Walk m) as [[r m']|]; [|done].
  by destruct H1 as [<- _], H2 as [<- _].
Qed.

Lemma lru_get_in k v (l : list (Z * option V)) : lru_get k l = Some v -> (k, v) ∈ l.
Proof.
  unfold lru_get. intros ([k' v'] & E & ->)%fmap_Some.
  apply List.find_some in E as [Hin E%Z.eqb_eq]. cbn in *. subst. by apply list_elem_of_In.
Qed.

Lemma lru_drop_in k x (l : list (Z * option V)) : x ∈ lru_drop k l -> x ∈ l /\ x.1 <> k.
Proof.
  unfold lru_drop. rewrite !list_elem_of_In, List.filter_In. intros [? E]. split; [done|].
  intros E'. by rewrite E', Z.eqb_refl in E.
Qed.

Lemma evict_in cap x (l : list (Z * option V)) : x ∈ evict cap l -> x ∈ l.
Proof. unfold evict. destruct (_ <=? _); [apply removelast_in|done]. Qed.

#[refine] Definition U64LRU_laws (Hp : forall m, zlen (pooled m) = BLOCK_SIZE)
    : @CacheLaws Z V (U64LRU V) U64LRU_Cache :=
  @Build_CacheLaws Z V (U64LRU V) U64LRU_Cache
    (fun m => exists l, ok m l /\ no_nil l)
    (fun m k v => exists l, ok m l /\ (k, Some v) ∈ l) _ _ _.
Proof.
  - destruct (New_ok (V:=V) (1 ≪ 14) (1 ≪ 17)) as (m & Em & Hok & _); [split; by vm_compute|].
    exists m. split_and!; [done| |].
    + exists []. split; [done|]. constructor.
    + intros k v (l & Hl & Hin). rewrite (ok_unique _ _ _ Hl Hok) in Hin. by apply elem_of_nil in Hin.
  - intros k m (l & Hok & Hn). apply runs_bind. eapply runs_mono; [by apply (Get_runs m l)|].
    intros r m' (-> & Hok' & _). apply runs_ret. unfold lru_use in Hok'.
    assert (forall x, x ∈ (match lru_get k l with Some v => (k, v) :: lru_drop k l | None => l end) -> x ∈ l) as Hsub.
    { destruct (lru_get k l) as [v|] eqn:E; [|done]. intros x [->|[Hx _]%lru_drop_in]%elem_of_cons; [|done].
      by apply lru_get_in. }
    split_and!.
    + eexists. split; [done|]. unfold no_nil in *. rewrite Forall_forall in *. intros x Hx. by apply Hn, Hsub.
    + intros k' v' (l' & Hl' & Hin). exists l. split; [done|]. apply Hsub. by rewrite (ok_unique _ _ _ Hok' Hl').
    + intros v Ev. exists l. split; [done|]. apply lru_get_in. destruct (lru_get k l) as [[v'|]|]; cbn in Ev; congruence.
  - intros k v m (l & Hok & Hn). apply runs_bind, runs_get.
    eapply runs_mono; [by apply (Add_runs m l); [|apply Hp]|]. intros [] m' [Hok' _].
    assert (forall x, x ∈ lru_add (capacity m) k (Some v) l -> x = (k, Some v) \/ (x ∈ l /\ x.1 <> k)) as Hsub.
    { unfold lru_add. intros x Hx. destruct (lru_get k l) as [v0|] eqn:E; apply elem_of_cons in Hx as [->|Hx]; auto.
      - right. by apply lru_drop_in in Hx.
      - right. apply evict_in in Hx. split; [done|]. intros <-. unfold lru_get in E.
        apply fmap_None in E. eapply List.find_none in E; [|by apply list_elem_of_In].
        by rewrite Z.eqb_refl in E. }
    split.
    + eexists. split; [done|]. unfold no_nil in *. rewrite Forall_forall in *. intros x Hx.
      apply Hsub in Hx as [->|[Hx _]]; [by eexists|]. by apply Hn.
    + intros k' v' (l' & Hl' & Hin). rewrite (ok_unique _ _ _ Hl' Hok') in Hin.
      apply Hsub in Hin as [[= -> ->]|[Hin Hne]]; [by left|]. right. split; [done|]. by exists l.
Defined.
End U64LRU.

(** * Queries *)

Section Queries.
Context {C4 C6 L : Type} `{!Cache Z lru_value C4} `{!Cache (list Z) lru_value C6} `{!ServiceLabeler L}.
Context `{!CacheLaws Z lru_value C4} `{!CacheLaws (list Z) lru_value C6} `{!LabelerLaws L}.
Abbreviation P := (Platform C4 C6 L).
Implicit Types (t : P).

(** ** Answers without caches *)

Definition lookup4 t (epc ip : Z) : option Info :=
  match epcIDIPV4Infos t !! key4 epc ip with Some i => Some i | None => queryIPV4Cidr t epc ip end.

Definition lookup6 t (epc : Z) (ip : list Z) : option Info :=
  match epcIDIPV6Infos t !! key6 epc ip with Some i => Some i | None => queryIPV6Cidr t epc ip end.

Definition base_info t (epc : Z) : option Info :=
  (fun b => region_only (Base_RegionID b)) <$> epcIDBaseInfos t !! epc.

Definition or_region t (epc : Z) (i : option Info) : option Info :=
  match i with Some _ => i | None => base_info t epc end.

Definition answer4 t (epc ip : Z) : option Info :=
  if epc =? EPC_FROM_INTERNET then None else or_region t epc (lookup4 t epc ip).

Definition answer6 t (epc : Z) (ip : list Z) : option Info :=
  if epc =? EPC_FROM_INTERNET then None else or_region t epc (lookup6 t epc ip).

(** ** Invariants *)

Definition count_ok t (p : option Z) : Prop := exists c, p = Some c /\ 0 <= c < zlen (counts t).

Definition value_ok t (v : lru_value) : Prop :=
  match v with LInfo i => count_ok t (Info_HitCount i) | LMiss c => count_ok t (Some c) end.

(** Every pointer to a counter is one. *)
Record sound t : Prop := {
  s_lru4 : cache_ok (epcIDIPV4Lru t);
  s_lru6 : cache_ok (epcIDIPV6Lru t);
  s_cached4 k v : cached (epcIDIPV4Lru t) k v -> value_ok t v;
  s_cached6 k v : cached (epcIDIPV6Lru t) k v -> value_ok t v;
  s_infos4 k i : epcIDIPV4Infos t !! k = Some i -> count_ok t (Info_HitCount i);
  s_infos6 k i : epcIDIPV6Infos t !! k = Some i -> count_ok t (Info_HitCount i);
  s_macs k i : macInfos t !! k = Some i -> count_ok t (Info_HitCount i);
  s_cidrs4 e l c : epcIDIPV4CidrInfos t !! e = Some l -> c ∈ l -> count_ok t (Some (Cidr_HitCount c));
  s_cidrs6 e l c : epcIDIPV6CidrInfos t !! e = Some l -> c ∈ l -> count_ok t (Some (Cidr_HitCount c));
  s_labeler l : serviceLabeler t = Some l -> labeler_ok l (zlen (services t))
}.

Definition ip6_ok (ip : list Z) : Prop := zlen ip = IPv6len.

(** What is cached is what the tables say. *)
Record exact t : Prop := {
  e_cached4 epc ip v : is_i 16 epc -> is_u 32 ip ->
    cached (epcIDIPV4Lru t) (key4 epc ip) v -> info_of v = lookup4 t epc ip;
  e_cached6 epc ip v : is_i 16 epc -> ip6_ok ip ->
    cached (epcIDIPV6Lru t) (key6 epc ip) v -> info_of v = lookup6 t epc ip
}.

(** What queries leave alone. *)
Record same t t' : Prop := {
  same_infos4 : epcIDIPV4Infos t' = epcIDIPV4Infos t;
  same_infos6 : epcIDIPV6Infos t' = epcIDIPV6Infos t;
  same_cidrs4 : epcIDIPV4CidrInfos t' = epcIDIPV4CidrInfos t;
  same_cidrs6 : epcIDIPV6CidrInfos t' = epcIDIPV6CidrInfos t;
  same_macs : macInfos t' = macInfos t;
  same_bases e : Base_RegionID <$> epcIDBaseInfos t' !! e = Base_RegionID <$> epcIDBaseInfos t !! e;
  same_region : regionID t' = regionID t;
  same_others : otherRegionCount t' = otherRegionCount t;
  same_services : services t' = services t;
  same_counts : zlen (counts t) <= zlen (counts t');
  same_vtaps : vtapIdInfos t' = vtapIdInfos t;
  same_peers : peerConnections t' = peerConnections t
}.

#[local] Instance same_PreOrder : PreOrder same.
Proof.
  split.
  - by constructor.
  - intros t1 t2 t3 [] []. constructor; first [congruence|lia|intros e; congruence].
Qed.

Lemma same_answers t t' :
  same t t' -> (forall epc ip, answer4 t' epc ip = answer4 t epc ip) /\
    (forall epc ip, answer6 t' epc ip = answer6 t epc ip) /\
    (forall epc ip, lookup4 t' epc ip = lookup4 t epc ip) /\
    (forall epc ip, lookup6 t' epc ip = lookup6 t epc ip) /\
    (forall epc i, or_region t' epc i = or_region t epc i).
Proof.
  intros [E1 E2 E3 E4 _ Eb _ _ _ _ _ _].
  assert (forall epc ip, lookup4 t' epc ip = lookup4 t epc ip) as H4
    by (intros; unfold lookup4, queryIPV4Cidr; by rewrite E1, E3).
  assert (forall epc ip, lookup6 t' epc ip = lookup6 t epc ip) as H6
    by (intros; unfold lookup6, queryIPV6Cidr; by rewrite E2, E4).
  assert (forall epc i, or_region t' epc i = or_region t epc i) as Hr.
  { intros epc [i|]; [done|]. unfold or_region, base_info. specialize (Eb epc).
    destruct (epcIDBaseInfos t' !! epc), (epcIDBaseInfos t !! epc); cbn in *; congruence. }
  split_and!; [..|done|done|done]; intros; unfold answer4, answer6; case_match; [done| |done|]; by rewrite Hr, ?H4, ?H6.
Qed.

Lemma count_ok_mono t t' p : zlen (counts t) <= zlen (counts t') -> count_ok t p -> count_ok t' p.
Proof. intros ? (c & -> & ?). exists c. split; [done|lia]. Qed.

Lemma value_ok_mono t t' v : zlen (counts t) <= zlen (counts t') -> value_ok t v -> value_ok t' v.
Proof. destruct v; apply count_ok_mono. Qed.

(** A state that differs in counters, statistics and what the caches hold. *)
Lemma sound_step t t' :
  same t t' -> cache_ok (epcIDIPV4Lru t') -> cache_ok (epcIDIPV6Lru t') ->
  (forall k v, cached (epcIDIPV4Lru t') k v -> value_ok t' v) ->
  (forall k v, cached (epcIDIPV6Lru t') k v -> value_ok t' v) ->
  (forall l, serviceLabeler t' = Some l -> labeler_ok l (zlen (services t))) -> sound t -> sound t'.
Proof.
  intros [E1 E2 E3 E4 E5 _ _ _ E6 Hc _ _] H4 H6 V4 V6 Hl [].
  constructor; rewrite ?E1, ?E2, ?E3, ?E4, ?E5, ?E6; try done; intros; eapply count_ok_mono; eauto.
Qed.

(** [good R m Q]: run in a sound state, [m] does not panic and gives a sound state
    with the same tables; when the arguments are in their ranges, [R], and the
    caches are exact, they stay so, and the result satisfies [Q]. *)
Definition good {A} (R : Prop) (m : M C4 C6 L A) (Q : P -> A -> Prop) : Prop := forall t, sound t ->
  runs m t (fun a t' => sound t' /\ same t t' /\ (R -> exact t -> exact t' /\ Q t a)).

Lemma good_ret {A} R (a : A) (Q : P -> A -> Prop) :
  (forall t, R -> exact t -> Q t a) -> good R (mret a) Q.
Proof. intros H t Ht. apply runs_ret. split_and!; [done|done|auto]. Qed.

Lemma good_bind {A A'} R (m : M C4 C6 L A) (f : A -> M C4 C6 L A') (Q0 : P -> A -> Prop) (Q : P -> A' -> Prop) :
  good R m Q0 ->
  (forall a, good R (f a) (fun t a' => forall t0, same t0 t -> Q0 t0 a -> Q t0 a')) -> good R (m ≫= f) Q.
Proof.
  intros Hm Hf t Ht. apply runs_bind. eapply runs_mono; [by apply Hm|]. intros a t1 (S1 & E1 & X1).
  eapply runs_mono; [by apply Hf|]. intros a' t2 (S2 & E2 & X2). split_and!; [done|by etrans|].
  intros HR X. destruct (X1 HR X) as [X1' HR']. destruct (X2 HR X1') as [X2' HQ]. split; [done|]. by apply HQ.
Qed.

Lemma good_weaken {A} (R R' : Prop) (m : M C4 C6 L A) (Q0 Q : P -> A -> Prop) :
  good R' m Q0 -> (R -> R') -> (forall t a, R -> exact t -> Q0 t a -> Q t a) -> good R m Q.
Proof.
  intros Hm HR H t Ht. eapply runs_mono; [by apply Hm|]. intros a t' (S & E & X). split_and!; [done|done|].
  intros HR' Hx. destruct (X (HR HR') Hx). auto.
Qed.

Lemma same_set_counts t l : zlen (counts t) <= zlen l -> same t (set_counts t l).
Proof. by constructor. Qed.

Lemma step_counts t l :
  sound t -> zlen (counts t) <= zlen l ->
  sound (set_counts t l) /\ same t (set_counts t l) /\ (exact t -> exact (set_counts t l)).
Proof.
  intros S Hl. split_and!.
  - apply (sound_step t); try apply S; [by apply same_set_counts| |].
    + intros k v Hk. eapply (value_ok_mono t); [done|]. by eapply s_cached4.
    + intros k v Hk. eapply (value_ok_mono t); [done|]. by eapply s_cached6.
  - by apply same_set_counts.
  - by intros [].
Qed.

Lemma add_count_runs t p :
  sound t -> count_ok t p ->
  runs (add_count p) t (fun _ t' => sound t' /\ same t t' /\ (exact t -> exact t')).
Proof.
  intros S (c & -> & Hc). apply runs_bind, runs_get. apply runs_bind, (runs_of_option _ c); [done|].
  unfold zlen in Hc. destruct (lookup_lt_is_Some_2 (counts t) (Z.to_nat c)) as [n Hn]; [lia|].
  apply runs_bind, (runs_of_option _ n); [done|]. apply runs_modify.
  destruct (step_counts t (<[Z.to_nat c := u64 (n + 1)]> (counts t)) S) as (S' & E' & X').
  { unfold zlen. rewrite length_insert. lia. }
  done.
Qed.

Lemma new_count_runs t :
  sound t ->
  runs new_count t (fun c t' => sound t' /\ same t t' /\ (exact t -> exact t') /\ count_ok t' (Some c)).
Proof.
  intros S. apply runs_bind, runs_get. apply runs_bind, runs_modify, runs_ret.
  destruct (step_counts t (counts t ++ [1]) S) as (S' & E' & X'); [rewrite zlen_app; pose proof (zlen_nonneg [1]); lia|].
  split_and!; try done. exists (zlen (counts t)). split; [done|]. cbn. rewrite zlen_app.
  pose proof (zlen_nonneg (counts t)). change (zlen [1]) with 1. lia.
Qed.

(** ** The caches *)

Lemma key4_sum epc ip : is_u 32 ip -> key4 epc ip = wrap 32 epc * 2 ^ 32 + ip.
Proof.
  intros Hip. unfold key4, shl. rewrite Z.lor_comm.
  assert (wrap 64 (wrap 64 epc ≪ 32) = wrap 32 epc ≪ 32) as ->; [|rewrite lor_shiftl_add by (done || lia); lia].
  rewrite !shiftl_mul by lia. unfold wrap. change (2 ^ 64) with (2 ^ 32 * 2 ^ 32) at 2.
  rewrite Z.mul_mod_distr_r by lia. f_equal.
  apply Z.mod_mod_divide. exists (2 ^ 32). lia.
Qed.

Lemma wrap_i16_inj epc epc' : is_i 16 epc -> is_i 16 epc' -> wrap 32 epc = wrap 32 epc' -> epc = epc'.
Proof. unfold wrap. ranges. intros. Z.to_euclidean_division_equations. lia. Qed.

Lemma key4_inj epc ip epc' ip' :
  is_i 16 epc -> is_u 32 ip -> is_i 16 epc' -> is_u 32 ip' ->
  key4 epc ip = key4 epc' ip' -> epc = epc' /\ ip = ip'.
Proof.
  intros He Hi He' Hi' E. rewrite !key4_sum in E by done.
  assert (wrap 32 epc = wrap 32 epc' /\ ip = ip') as [Ew ->]; [|split; [by apply wrap_i16_inj|done]].
  unfold is_u in *. lia.
Qed.

Lemma key6_inj epc ip epc' ip' :
  is_i 16 epc -> ip6_ok ip -> is_i 16 epc' -> ip6_ok ip' ->
  key6 epc ip = key6 epc' ip' -> epc = epc' /\ ip = ip'.
Proof.
  unfold ip6_ok, zlen, key6. intros He Hi He' Hi' E.
  change IPv6len with 16 in *.
  replace (16 - length ip)%nat with 0%nat in E by lia. replace (16 - length ip')%nat with 0%nat in E by lia.
  rewrite !take_ge, !app_nil_r in E by lia.
  apply app_inj_1 in E as [E ->].
  - split; [|done]. apply (f_equal le_get) in E. rewrite !le_get_put in E by (lia || by apply wrap_range).
    by apply wrap_i16_inj.
  - pose proof (le_put_zlen 4 (u32 epc) ltac:(lia)). pose proof (le_put_zlen 4 (u32 epc') ltac:(lia)).
    unfold zlen in *. lia.
Qed.

Lemma Get4_runs t k :
  sound t ->
  runs (on_lru4 (lru_Get k)) t (fun r t' => sound t' /\ same t t' /\ (exact t -> exact t') /\
    forall v, r = Some v -> cached (epcIDIPV4Lru t) k v /\ value_ok t' v).
Proof.
  intros S. pose proof (cache_Get k _ (s_lru4 _ S)) as Hg. unfold runs, on_lru4 in *.
  destruct (lru_Get k (epcIDIPV4Lru t)) as [[r c]|]; [|done]. destruct Hg as (Hok & Hsub & Hr).
  assert (same t (set_lru4 t c)) as Hs by (by constructor). split_and!; [|done| |].
  - apply (sound_step t); try apply S; [done|done|]. intros k' v Hk. by eapply (s_cached4 t), Hsub.
  - intros [E4 E6]. constructor; [|done]. intros epc ip v He Hi Hc. apply (E4 epc ip v); auto.
  - intros v ->. split; [by apply Hr|]. by eapply (s_cached4 t), Hr.
Qed.

Lemma Add4_runs t epc ip v :
  sound t -> value_ok t v ->
  runs (on_lru4 (lru_Add (key4 epc ip) v)) t (fun _ t' => sound t' /\ same t t' /\
    (is_i 16 epc -> is_u 32 ip -> info_of v = lookup4 t epc ip -> exact t -> exact t')).
Proof.
  intros S Hv. pose proof (cache_Add (key4 epc ip) v _ (s_lru4 _ S)) as Hg. unfold runs, on_lru4 in *.
  destruct (lru_Add (key4 epc ip) v (epcIDIPV4Lru t)) as [[r c]|]; [|done]. destruct Hg as [Hok Hsub].
  assert (same t (set_lru4 t c)) as Hs by (by constructor). split_and!; [|done|].
  - apply (sound_step t); try apply S; [done|done|].
    intros k' v' [[-> ->]|[_ Hk]]%Hsub; [done|]. by eapply (s_cached4 t).
  - intros He Hi El [E4 E6]. constructor; [|done]. intros epc' ip' v' He' Hi' [[E ->]|[_ Hk]]%Hsub.
    + apply key4_inj in E as [-> ->]; done.
    + by apply (E4 epc' ip' v').
Qed.

Lemma lookup4_count t epc ip i : sound t -> lookup4 t epc ip = Some i -> count_ok t (Info_HitCount i).
Proof.
  intros S. unfold lookup4, queryIPV4Cidr.
  destruct (epcIDIPV4Infos t !! _) eqn:E; [intros [= <-]; by eapply s_infos4|].
  destruct (epcIDIPV4CidrInfos t !! _) as [l|] eqn:Ec; [|done]. intros (c & Hc & ->)%fmap_Some.
  apply List.find_some in Hc as [Hin _]. eapply s_cidrs4; [done|done|]. by apply list_elem_of_In.
Qed.

Lemma IPV4InfoAddLru_runs t epc ip info :
  sound t -> (forall i, info = Some i -> count_ok t (Info_HitCount i)) ->
  runs (IPV4InfoAddLru info (key4 epc ip)) t (fun _ t' => sound t' /\ same t t' /\
    (is_i 16 epc -> is_u 32 ip -> info = lookup4 t epc ip -> exact t -> exact t')).
Proof.
  intros S Hi. destruct info as [i|]; cbn [IPV4InfoAddLru].
  - apply runs_bind. eapply runs_mono; [apply (Add4_runs t epc ip (LInfo i) S); by apply Hi|].
    intros [] t1 (S1 & E1 & X1). eapply runs_mono; [apply add_count_runs; [done|]|].
    + eapply count_ok_mono; [apply (same_counts _ _ E1)|]. by apply Hi.
    + intros [] t2 (S2 & E2 & X2). split_and!; [done|by etrans|]. auto.
  - apply runs_bind. eapply runs_mono; [by apply new_count_runs|]. intros c t1 (S1 & E1 & X1 & Hc).
    eapply runs_mono; [apply (Add4_runs t1 epc ip (LMiss c) S1 Hc)|].
    intros [] t2 (S2 & E2 & X2). split_and!; [done|by etrans|]. intros He Hp El X.
    apply X2; auto. by rewrite (proj1 (proj2 (proj2 (same_answers _ _ E1)))).
Qed.

Lemma InfoStat_good t v :
  sound t -> value_ok t v -> runs (InfoStat v) t (fun _ t' => sound t' /\ same t t' /\ (exact t -> exact t')).
Proof. intros S Hv. destruct v; by apply add_count_runs. Qed.

Lemma queryIPV4Infos_good epc ip :
  good (is_i 16 epc /\ is_u 32 ip) (queryIPV4Infos epc ip) (fun t r => r = lookup4 t epc ip).
Proof.
  intros t S. apply runs_bind. eapply runs_mono; [by apply Get4_runs|]. intros [v|] t1 (S1 & E1 & X1 & Hv).
  - destruct (Hv v eq_refl) as [Hc Hok]. apply runs_bind.
    eapply runs_mono; [by apply InfoStat_good|]. intros [] t2 (S2 & E2 & X2). apply runs_ret.
    split_and!; [done|by etrans|]. intros [He Hi] X. split; [auto|]. by apply (e_cached4 _ X).
  - apply runs_bind, runs_get. cbv zeta. apply runs_bind. change (match _ with Some _ => _ | None => _ end) with (lookup4 t1 epc ip).
    eapply runs_mono; [apply (IPV4InfoAddLru_runs t1 epc ip _ S1); intros i; by apply lookup4_count|].
    intros [] t2 (S2 & E2 & X2). apply runs_ret. split_and!; [done|by etrans|]. intros [He Hi] X.
    split; [auto|]. apply (same_answers _ _ E1).
Qed.

(** One side of a pair: when [ok] is not set the information is the one to add. *)
Lemma pair_lookup4_runs t epc ip :
  sound t ->
  runs (pair_lookup4 epc ip) t (fun r t' => sound t' /\ same t t' /\ (exact t -> exact t') /\
    (forall i, r.2 = false -> r.1 = Some i -> count_ok t' (Info_HitCount i)) /\
    (is_i 16 epc -> is_u 32 ip -> exact t -> r.1 = lookup4 t epc ip)).
Proof.
  intros S. apply runs_bind. eapply runs_mono; [by apply Get4_runs|]. intros [v|] t1 (S1 & E1 & X1 & Hv).
  - destruct (Hv v eq_refl) as [Hc Hok]. apply runs_bind.
    eapply runs_mono; [by apply InfoStat_good|]. intros [] t2 (S2 & E2 & X2). apply runs_ret.
    split_and!; [done|by etrans|auto|done|]. intros He Hi X. by apply (e_cached4 _ X).
  - apply runs_bind, runs_get. destruct (same_answers _ _ E1) as (_ & _ & El & _ & _).
    pose proof (lookup4_count t1 epc ip) as Hcount. specialize (El epc ip).
    unfold lookup4 at 1 in El. unfold lookup4 in Hcount.
    destruct (epcIDIPV4Infos t1 !! key4 epc ip) as [i|]; apply runs_ret; cbn [fst snd]; split_and!; try done; auto.
Qed.

Lemma queryIPV4InfosPair_good epc ip epc1 ip1 :
  good ((is_i 16 epc /\ is_u 32 ip) /\ is_i 16 epc1 /\ is_u 32 ip1) (queryIPV4InfosPair epc ip epc1 ip1)
    (fun t r => r = (lookup4 t epc ip, lookup4 t epc1 ip1)).
Proof.
  intros t S. apply runs_bind. eapply runs_mono; [by apply (pair_lookup4_runs t epc ip)|].
  intros [i0 ok0] t1 (S1 & E1 & X1 & C1 & A1). apply runs_bind.
  eapply runs_mono; [by apply (pair_lookup4_runs t1 epc1 ip1)|].
  intros [i1 ok1] t2 (S2 & E2 & X2 & C2 & A2). cbn [fst snd] in *.
  assert (same t t2) as E02 by (by etrans).
  assert (forall s s' e p (i : option Info) (ok : bool), sound s -> same s s' -> sound s' ->
    (forall x, ok = false -> i = Some x -> count_ok s (Info_HitCount x)) ->
    runs (if negb ok then IPV4InfoAddLru i (key4 e p) else mret tt) s' (fun _ s'' => sound s'' /\ same s' s'' /\
      (is_i 16 e -> is_u 32 p -> i = lookup4 s' e p -> exact s' -> exact s''))) as Hadd.
  { intros s s' e p i [] _ Ess Ss' Hc; cbn [negb]; [by apply runs_ret|].
    apply IPV4InfoAddLru_runs; [done|]. intros x Hx. eapply count_ok_mono; [apply (same_counts _ _ Ess)|]. auto. }
  apply runs_bind. eapply runs_mono; [by apply (Hadd t1 t2 epc ip i0 ok0)|]. intros [] t3 (S3 & E3 & X3).
  apply runs_bind. eapply runs_mono; [by apply (Hadd t2 t3 epc1 ip1 i1 ok1)|]. intros [] t4 (S4 & E4 & X4).
  apply runs_ret. split_and!; [done|etrans; [done|]; by etrans|]. intros [[He Hi] [He1 Hi1]] X.
  destruct (same_answers _ _ E1) as (_ & _ & L1 & _). destruct (same_answers _ _ E02) as (_ & _ & L2 & _).
  destruct (same_answers _ _ E3) as (_ & _ & L3 & _).
  specialize (A1 He Hi X). specialize (A2 He1 Hi1 (X1 X)). rewrite L1 in A2. split; [|congruence].
  apply X4; [done|done|by rewrite L3, L2|]. apply X3; [done|done|by rewrite L2|]. auto.
Qed.

Lemma Get6_runs t k :
  sound t ->
  runs (on_lru6 (lru_Get k)) t (fun r t' => sound t' /\ same t t' /\ (exact t -> exact t') /\
    forall v, r = Some v -> cached (epcIDIPV6Lru t) k v /\ value_ok t' v).
Proof.
  intros S. pose proof (cache_Get k _ (s_lru6 _ S)) as Hg. unfold runs, on_lru6 in *.
  destruct (lru_Get k (epcIDIPV6Lru t)) as [[r c]|]; [|done]. destruct Hg as (Hok & Hsub & Hr).
  assert (same t (set_lru6 t c)) as Hs by (by constructor). split_and!; [|done| |].
  - apply (sound_step t); try apply S; [done|done|]. intros k' v Hk. by eapply (s_cached6 t), Hsub.
  - intros [E4 E6]. constructor; [done|]. intros epc ip v He Hi Hc. apply (E6 epc ip v); auto.
  - intros v ->. split; [by apply Hr|]. by eapply (s_cached6 t), Hr.
Qed.

Lemma Add6_runs t epc ip v :
  sound t -> value_ok t v ->
  runs (on_lru6 (lru_Add (key6 epc ip) v)) t (fun _ t' => sound t' /\ same t t' /\
    (is_i 16 epc -> ip6_ok ip -> info_of v = lookup6 t epc ip -> exact t -> exact t')).
Proof.
  intros S Hv. pose proof (cache_Add (key6 epc ip) v _ (s_lru6 _ S)) as Hg. unfold runs, on_lru6 in *.
  destruct (lru_Add (key6 epc ip) v (epcIDIPV6Lru t)) as [[r c]|]; [|done]. destruct Hg as [Hok Hsub].
  assert (same t (set_lru6 t c)) as Hs by (by constructor). split_and!; [|done|].
  - apply (sound_step t); try apply S; [done|done|].
    intros k' v' [[-> ->]|[_ Hk]]%Hsub; [done|]. by eapply (s_cached6 t).
  - intros He Hi El [E4 E6]. constructor; [done|]. intros epc' ip' v' He' Hi' [[E ->]|[_ Hk]]%Hsub.
    + apply key6_inj in E as [-> ->]; done.
    + by apply (E6 epc' ip' v').
Qed.

Lemma lookup6_count t epc ip i : sound t -> lookup6 t epc ip = Some i -> count_ok t (Info_HitCount i).
Proof.
  intros S. unfold lookup6, queryIPV6Cidr.
  destruct (epcIDIPV6Infos t !! _) eqn:E; [intros [= <-]; by eapply s_infos6|].
  destruct (epcIDIPV6CidrInfos t !! _) as [l|] eqn:Ec; [|done]. intros (c & Hc & ->)%fmap_Some.
  apply List.find_some in Hc as [Hin _]. eapply s_cidrs6; [done|done|]. by apply list_elem_of_In.
Qed.

Lemma IPV6InfoAddLru_runs t epc ip info :
  sound t -> (forall i, info = Some i -> count_ok t (Info_HitCount i)) ->
  runs (IPV6InfoAddLru info (key6 epc ip)) t (fun _ t' => sound t' /\ same t t' /\
    (is_i 16 epc -> ip6_ok ip -> info = lookup6 t epc ip -> exact t -> exact t')).
Proof.
  intros S Hi. destruct info as [i|]; cbn [IPV6InfoAddLru].
  - apply runs_bind. eapply runs_mono; [apply (Add6_runs t epc ip (LInfo i) S); by apply Hi|].
    intros [] t1 (S1 & E1 & X1). eapply runs_mono; [apply add_count_runs; [done|]|].
    + eapply count_ok_mono; [apply (same_counts _ _ E1)|]. by apply Hi.
    + intros [] t2 (S2 & E2 & X2). split_and!; [done|by etrans|]. auto.
  - apply runs_bind. eapply runs_mono; [by apply new_count_runs|]. intros c t1 (S1 & E1 & X1 & Hc).
    eapply runs_mono; [apply (Add6_runs t1 epc ip (LMiss c) S1 Hc)|].
    intros [] t2 (S2 & E2 & X2). split_and!; [done|by etrans|]. intros He Hp El X.
    apply X2; auto. by rewrite (proj1 (proj2 (proj2 (proj2 (same_answers _ _ E1))))).
Qed.

Lemma queryIPV6Infos_good epc ip :
  good (is_i 16 epc /\ ip6_ok ip) (queryIPV6Infos epc ip) (fun t r => r = lookup6 t epc ip).
Proof.
  intros t S. apply runs_bind. eapply runs_mono; [by apply Get6_runs|]. intros [v|] t1 (S1 & E1 & X1 & Hv).
  - destruct (Hv v eq_refl) as [Hc Hok]. apply runs_bind.
    eapply runs_mono; [by apply InfoStat_good|]. intros [] t2 (S2 & E2 & X2). apply runs_ret.
    split_and!; [done|by etrans|]. intros [He Hi] X. split; [auto|]. by apply (e_cached6 _ X).
  - apply runs_bind, runs_get. cbv zeta. apply runs_bind. change (match _ with Some _ => _ | None => _ end) with (lookup6 t1 epc ip).
    eapply runs_mono; [apply (IPV6InfoAddLru_runs t1 epc ip _ S1); intros i; by apply lookup6_count|].
    intros [] t2 (S2 & E2 & X2). apply runs_ret. split_and!; [done|by etrans|]. intros [He Hi] X.
    split; [auto|]. apply (same_answers _ _ E1).
Qed.

Lemma pair_lookup6_runs t epc ip :
  sound t ->
  runs (pair_lookup6 epc ip) t (fun r t' => sound t' /\ same t t' /\ (exact t -> exact t') /\
    (forall i, r.2 = false -> r.1 = Some i -> count_ok t' (Info_HitCount i)) /\
    (is_i 16 epc -> ip6_ok ip -> exact t -> r.1 = lookup6 t epc ip)).
Proof.
  intros S. apply runs_bind. eapply runs_mono; [by apply Get6_runs|]. intros [v|] t1 (S1 & E1 & X1 & Hv).
  - destruct (Hv v eq_refl) as [Hc Hok]. apply runs_bind.
    eapply runs_mono; [by apply InfoStat_good|]. intros [] t2 (S2 & E2 & X2). apply runs_ret.
    split_and!; [done|by etrans|auto|done|]. intros He Hi X. by apply (e_cached6 _ X).
  - apply runs_bind, runs_get. destruct (same_answers _ _ E1) as (_ & _ & _ & El & _).
    pose proof (lookup6_count t1 epc ip) as Hcount. specialize (El epc ip).
    unfold lookup6 at 1 in El. unfold lookup6 in Hcount.
    destruct (epcIDIPV6Infos t1 !! key6 epc ip) as [i|]; apply runs_ret; cbn [fst snd]; split_and!; try done; auto.
Qed.

Lemma queryIPV6InfosPair_good epc ip epc1 ip1 :
  good ((is_i 16 epc /\ ip6_ok ip) /\ is_i 16 epc1 /\ ip6_ok ip1) (queryIPV6InfosPair epc ip epc1 ip1)
    (fun t r => r = (lookup6 t epc ip, lookup6 t epc1 ip1)).
Proof.
  intros t S. apply runs_bind. eapply runs_mono; [by apply (pair_lookup6_runs t epc ip)|].
  intros [i0 ok0] t1 (S1 & E1 & X1 & C1 & A1). apply runs_bind.
  eapply runs_mono; [by apply (pair_lookup6_runs t1 epc1 ip1)|].
  intros [i1 ok1] t2 (S2 & E2 & X2 & C2 & A2). cbn [fst snd] in *.
  assert (same t t2) as E02 by (by etrans).
  assert (forall s s' e p (i : option Info) (ok : bool), sound s -> same s s' -> sound s' ->
    (forall x, ok = false -> i = Some x -> count_ok s (Info_HitCount x)) ->
    runs (if negb ok then IPV6InfoAddLru i (key6 e p) else mret tt) s' (fun _ s'' => sound s'' /\ same s' s'' /\
      (is_i 16 e -> ip6_ok p -> i = lookup6 s' e p -> exact s' -> exact s''))) as Hadd.
  { intros s s' e p i [] _ Ess Ss' Hc; cbn [negb]; [by apply runs_ret|].
    apply IPV6InfoAddLru_runs; [done|]. intros x Hx. eapply count_ok_mono; [apply (same_counts _ _ Ess)|]. auto. }
  apply runs_bind. eapply runs_mono; [by apply (Hadd t1 t2 epc ip i0 ok0)|]. intros [] t3 (S3 & E3 & X3).
  apply runs_bind. eapply runs_mono; [by apply (Hadd t2 t3 epc1 ip1 i1 ok1)|]. intros [] t4 (S4 & E4 & X4).
  apply runs_ret. split_and!; [done|etrans; [done|]; by etrans|]. intros [[He Hi] [He1 Hi1]] X.
  destruct (same_answers _ _ E1) as (_ & _ & _ & L1 & _). destruct (same_answers _ _ E02) as (_ & _ & _ & L2 & _).
  destruct (same_answers _ _ E3) as (_ & _ & _ & L3 & _).
  specialize (A1 He Hi X). specialize (A2 He1 Hi1 (X1 X)). rewrite L1 in A2. split; [|congruence].
  apply X4; [done|done|by rewrite L3, L2|]. apply X3; [done|done|by rewrite L2|]. auto.
Qed.

(** ** The exported queries *)

Lemma step_stats t macs bases misses :
  sound t -> (forall e, Base_RegionID <$> bases !! e = Base_RegionID <$> epcIDBaseInfos t !! e) ->
  sound (set_stats t macs bases misses) /\ same t (set_stats t macs bases misses) /\
  (exact t -> exact (set_stats t macs bases misses)).
Proof.
  intros S Hb. assert (same t (set_stats t macs bases misses)) as E by (by constructor). split_and!; [|done|].
  - apply (sound_step t); try apply S; done.
  - by intros [].
Qed.

Lemma InfoMissStat_good mac : good True (InfoMissStat mac) (fun _ _ => True).
Proof.
  intros t S. apply runs_modify. cbv zeta.
  destruct (step_stats t (<[mac:=match macMissCount t !! mac with Some n => u64 (n + 1) | None => 1 end]>
    (macMissCount t)) (epcIDBaseInfos t) (epcIDBaseMissCount t) S) as (? & ? & ?); [done|]. auto.
Qed.

Lemma queryMacInfo_good mac : good True (queryMacInfo mac) (fun t r => r = macInfos t !! mac).
Proof.
  intros t S. apply runs_bind, runs_get. destruct (macInfos t !! mac) as [i|] eqn:E; apply runs_bind.
  - eapply runs_mono; [apply add_count_runs; [done|by eapply s_macs]|]. intros [] t1 (S1 & E1 & X1). apply runs_ret. auto.
  - eapply runs_mono; [by apply InfoMissStat_good|]. intros [] t1 (S1 & E1 & X1). apply runs_ret.
    split_and!; [done|done|]. intros _ X. by apply X1 in X as [X _].
Qed.

Lemma good_seq {A} R (m : M C4 C6 L unit) (f : M C4 C6 L A) (Q : P -> A -> Prop) t0 t :
  same t0 t -> (exact t0 -> exact t) -> sound t ->
  runs m t (fun _ t' => sound t' /\ same t t' /\ (exact t -> exact t')) ->
  (forall t', same t0 t' -> (exact t0 -> exact t') -> sound t' ->
    runs f t' (fun a t'' => sound t'' /\ same t0 t'' /\ (R -> exact t0 -> exact t'' /\ Q t0 a))) ->
  runs (m ;; f) t (fun a t'' => sound t'' /\ same t0 t'' /\ (R -> exact t0 -> exact t'' /\ Q t0 a)).
Proof.
  intros E X S Hm Hf. apply runs_bind. eapply runs_mono; [exact Hm|]. intros [] t1 (S1 & E1 & X1).
  apply Hf; [by etrans|auto|done].
Qed.

Lemma queryMacInfosPair_good mac0 mac1 :
  good True (queryMacInfosPair mac0 mac1) (fun t r => r = (macInfos t !! mac0, macInfos t !! mac1)).
Proof.
  intros t0 S0. apply runs_bind, runs_get. cbv zeta.
  assert (forall t mac, same t0 t -> sound t ->
    runs (match macInfos t0 !! mac with Some i => add_count (Info_HitCount i) | None => mret tt end) t
      (fun _ t' => sound t' /\ same t t' /\ (exact t -> exact t'))) as Hhit.
  { intros t mac E S. destruct (macInfos t0 !! mac) as [i|] eqn:Em; [|by apply runs_ret].
    apply add_count_runs; [done|]. apply (s_macs _ S mac). by rewrite (same_macs _ _ E). }
  assert (forall t mac, sound t ->
    runs (match macInfos t0 !! mac with Some _ => mret tt | None => InfoMissStat mac end) t
      (fun _ t' => sound t' /\ same t t' /\ (exact t -> exact t'))) as Hmiss.
  { intros t mac S. destruct (macInfos t0 !! mac); [by apply runs_ret|].
    eapply runs_mono; [by apply InfoMissStat_good|]. intros [] t' (? & ? & X). split_and!; [done|done|].
    intros Hx. by apply X in Hx as [? _]. }
  apply (good_seq True _ _ (fun t r => r = (macInfos t !! mac0, macInfos t !! mac1)) t0); [done|done|done|by apply Hhit|]. intros t1 E1 X1 S1.
  apply (good_seq True _ _ (fun t r => r = (macInfos t !! mac0, macInfos t !! mac1)) t0); [done|done|done|by apply Hhit|]. intros t2 E2 X2 S2.
  apply (good_seq True _ _ (fun t r => r = (macInfos t !! mac0, macInfos t !! mac1)) t0); [done|done|done|by apply Hmiss|]. intros t3 E3 X3 S3.
  apply (good_seq True _ _ (fun t r => r = (macInfos t !! mac0, macInfos t !! mac1)) t0); [done|done|done|by apply Hmiss|]. intros t4 E4 X4 S4.
  apply runs_ret. auto.
Qed.

Lemma or_base_good epc i : good True (or_base epc i) (fun t r => r = or_region t epc i).
Proof.
  destruct i as [i|]; [by apply good_ret|]. intros t S. apply runs_bind, runs_bind, runs_get.
  unfold or_region, base_info. destruct (epcIDBaseInfos t !! epc) as [b|] eqn:E; apply runs_bind, runs_modify; cbv zeta.
  - match goal with |- context [set_stats t ?a ?b ?c] => destruct (step_stats t a b c S) as (S1 & E1 & X1) end.
    + intros e. destruct (decide (e = epc)) as [->|Hne]; [by rewrite lookup_insert_eq, E|by rewrite lookup_insert_ne].
    + apply runs_ret, runs_ret. auto.
  - match goal with |- context [set_stats t ?a ?b ?c] => destruct (step_stats t a b c S) as (S1 & E1 & X1) end; [done|].
    apply runs_ret, runs_ret. auto.
Qed.

Lemma QueryIPV4Infos_good epc ip :
  good (is_i 16 epc /\ is_u 32 ip) (QueryIPV4Infos epc ip) (fun t r => r = answer4 t epc ip).
Proof.
  unfold QueryIPV4Infos, answer4. case_match; [by apply good_ret|].
  eapply good_bind; [apply queryIPV4Infos_good|]. intros i. eapply good_weaken; [apply or_base_good|done|].
  intros t r _ _ -> t0 E ->. by rewrite (proj2 (proj2 (proj2 (proj2 (same_answers _ _ E))))).
Qed.

Lemma QueryIPV6Infos_good epc ip :
  good (is_i 16 epc /\ ip6_ok ip) (QueryIPV6Infos epc ip) (fun t r => r = answer6 t epc ip).
Proof.
  unfold QueryIPV6Infos, answer6. case_match; [by apply good_ret|].
  eapply good_bind; [apply queryIPV6Infos_good|]. intros i. eapply good_weaken; [apply or_base_good|done|].
  intros t r _ _ -> t0 E ->. by rewrite (proj2 (proj2 (proj2 (proj2 (same_answers _ _ E))))).
Qed.

(** The two sides after their lookups. *)
Lemma or_bases_good R epc epc1 (r : option Info * option Info) :
  good R (info0 ← or_base epc r.1; info1 ← or_base epc1 r.2; mret (info0, info1))
    (fun t a => a = (or_region t epc r.1, or_region t epc1 r.2)).
Proof.
  eapply good_bind; [eapply good_weaken; [apply or_base_good|done|]|]; [by intros t a _ _ H; exact H|].
  intros i0. eapply good_bind; [eapply good_weaken; [apply or_base_good|done|]|]; [by intros t a _ _ H; exact H|].
  intros i1. apply good_ret. intros t _ _ t1 E1 -> t0 E0 ->.
  by rewrite (proj2 (proj2 (proj2 (proj2 (same_answers _ _ E0))))).
Qed.

Lemma QueryIPV4InfosPair_good epc ip epc1 ip1 :
  good ((is_i 16 epc /\ is_u 32 ip) /\ is_i 16 epc1 /\ is_u 32 ip1) (QueryIPV4InfosPair epc ip epc1 ip1)
    (fun t r => r = (answer4 t epc ip, answer4 t epc1 ip1)).
Proof.
  unfold QueryIPV4InfosPair. destruct (epc =? EPC_FROM_INTERNET) eqn:E0; [|destruct (epc1 =? EPC_FROM_INTERNET) eqn:E1].
  - eapply good_bind; [eapply good_weaken; [apply QueryIPV4Infos_good|tauto|]|]; [by intros t a _ _ H; exact H|].
    intros i. apply good_ret. intros t _ _ t0 E ->. unfold answer4 at 2. by rewrite E0.
  - eapply good_bind; [eapply good_weaken; [apply QueryIPV4Infos_good|tauto|]|]; [by intros t a _ _ H; exact H|].
    intros i. apply good_ret. intros t _ _ t0 E ->. unfold answer4 at 3. by rewrite E1.
  - eapply good_bind; [apply queryIPV4InfosPair_good|]. intros r. eapply good_weaken; [apply or_bases_good|done|].
    intros t a _ _ -> t0 E ->. unfold answer4. rewrite E0, E1. cbn [fst snd].
    by rewrite !(proj2 (proj2 (proj2 (proj2 (same_answers _ _ E))))).
Qed.

Lemma QueryIPV6InfosPair_good epc ip epc1 ip1 :
  good ((is_i 16 epc /\ ip6_ok ip) /\ is_i 16 epc1 /\ ip6_ok ip1) (QueryIPV6InfosPair epc ip epc1 ip1)
    (fun t r => r = (answer6 t epc ip, answer6 t epc1 ip1)).
Proof.
  unfold QueryIPV6InfosPair. destruct (epc =? EPC_FROM_INTERNET) eqn:E0; [|destruct (epc1 =? EPC_FROM_INTERNET) eqn:E1].
  - eapply good_bind; [eapply good_weaken; [apply QueryIPV6Infos_good|tauto|]|]; [by intros t a _ _ H; exact H|].
    intros i. apply good_ret. intros t _ _ t0 E ->. unfold answer6 at 2. by rewrite E0.
  - eapply good_bind; [eapply good_weaken; [apply QueryIPV6Infos_good|tauto|]|]; [by intros t a _ _ H; exact H|].
    intros i. apply good_ret. intros t _ _ t0 E ->. unfold answer6 at 3. by rewrite E1.
  - eapply good_bind; [apply queryIPV6InfosPair_good|]. intros r. eapply good_weaken; [apply or_bases_good|done|].
    intros t a _ _ -> t0 E ->. unfold answer6. rewrite E0, E1. cbn [fst snd].
    by rewrite !(proj2 (proj2 (proj2 (proj2 (same_answers _ _ E))))).
Qed.

(** ** Services *)

Lemma first_service_ok (s : list GroupIDMap) idxs :
  Forall (fun i => 0 <= i < zlen s) idxs -> exists r, first_service s idxs = Some r.
Proof.
  unfold zlen. induction 1 as [|i idxs Hi _ [r IH]]; [by eexists|]. cbn.
  destruct (lookup_lt_is_Some_2 s (Z.to_nat i)) as [g ->]; [lia|]. cbn.
  destruct (0 <? g_ServiceID g); [by eexists|]. by exists r.
Qed.

Lemma service_query_good (m : ST L (list Z)) t l :
  sound t -> serviceLabeler t = Some l ->
  runs m l (fun idxs l' => labeler_ok l' (zlen (services t)) /\ Forall (fun i => 0 <= i < zlen (services t)) idxs) ->
  runs (idxs ← on_labeler m l; service_result idxs) t
    (fun _ t' => sound t' /\ same t t' /\ (True -> exact t -> exact t' /\ True)).
Proof.
  intros S Hl Hm. apply runs_bind. unfold runs in Hm. unfold on_labeler at 1. unfold runs at 1.
  destruct (m l) as [[idxs l']|]; [|done]. destruct Hm as [Hl' Hi].
  assert (same t (set_services t (Some l') (services t))) as E by (by constructor).
  apply runs_bind, runs_get. destruct (first_service_ok _ _ Hi) as [r Hr].
  apply runs_bind, (runs_of_option _ r); [done|]. apply runs_ret. split_and!; [|done|].
  - apply (sound_step t); try apply S; [done|]. by intros ? [= <-].
  - by intros _ [].
Qed.

Lemma QueryIsKeyServiceAndID_good epc ip proto port :
  good True (QueryIsKeyServiceAndID epc ip proto port) (fun _ _ => True).
Proof.
  intros t S. apply runs_bind, runs_get. destruct (serviceLabeler t) as [l|] eqn:E; [|by apply runs_ret].
  apply service_query_good; [done|done|]. apply labeler_QueryServer. by apply s_labeler.
Qed.

Lemma QueryIPv6IsKeyServiceAndID_good epc ip proto port :
  good True (QueryIPv6IsKeyServiceAndID epc ip proto port) (fun _ _ => True).
Proof.
  intros t S. apply runs_bind, runs_get. destruct (serviceLabeler t) as [l|] eqn:E; [|by apply runs_ret].
  apply service_query_good; [done|done|]. apply labeler_QueryServerIPv6. by apply s_labeler.
Qed.

(** ** The interface of the document expansion *)

Lemma AddOtherRegion_sound t : sound t -> sound (AddOtherRegion t).
Proof. by intros []. Qed.

Lemma good_query {A} R (m : M C4 C6 L A) Q : good R m Q -> query_ok sound otherRegionCount m.
Proof.
  intros H t S. eapply runs_mono; [by apply H|]. intros a t' (S' & E & _).
  split_and!; [done|apply E|apply E].
Qed.

#[export] Instance Platform_laws : PlatformLaws P.
Proof.
  refine {| platform_ok := sound; others := otherRegionCount |}; intros.
  - eapply good_query, queryMacInfo_good.
  - eapply good_query, queryMacInfosPair_good.
  - eapply good_query, QueryIPV4Infos_good.
  - eapply good_query, QueryIPV6Infos_good.
  - eapply good_query, QueryIPV4InfosPair_good.
  - eapply good_query, QueryIPV6InfosPair_good.
  - eapply good_query, QueryIsKeyServiceAndID_good.
  - eapply good_query, QueryIPv6IsKeyServiceAndID_good.
  - split_and!; [by apply AddOtherRegion_sound|done|done].
Defined.

(** ** Agents *)

(** Whether the tables know the address in a network. *)
Definition known t (epc : Z) (isIPv4 : bool) (ip4 : Z) (ip6 : list Z) : option Info :=
  if isIPv4 then lookup4 t (i16 epc) ip4 else lookup6 t (i16 epc) ip6.

(** The network of the other end of a flow: that of the agent if it has the address,
    else the first of its peers that has it, else the owner of the WAN address. *)
Definition epc1_spec t (vtap : Z) (isIPv4 : bool) (ip4 : Z) (ip6 : list Z) : Z :=
  let epc0 := QueryVtapEpc0 t vtap in
  match List.find (fun e => bool_decide (is_Some (known t e isIPv4 ip4 ip6)))
          (epc0 :: queryPeerConnections t epc0) with
  | Some e => e
  | None => match known t 0 isIPv4 ip4 ip6 with Some i => Info_EpcID i | None => EPC_FROM_INTERNET end
  end.

Lemma find_ext {A} (f g : A -> bool) l : (forall x, f x = g x) -> List.find f l = List.find g l.
Proof. intros H. induction l as [|x l IH]; [done|]. cbn. by rewrite H, IH. Qed.

Lemma known_same t t' e v4 ip4 ip6 : same t t' -> known t' e v4 ip4 ip6 = known t e v4 ip4 ip6.
Proof. intros E%same_answers. unfold known. destruct v4; apply E. Qed.

Lemma known_good e (v4 : bool) ip4 ip6 :
  good (is_u 32 ip4 /\ ip6_ok ip6) (if v4 then queryIPV4Infos (i16 e) ip4 else queryIPV6Infos (i16 e) ip6)
    (fun t r => r = known t e v4 ip4 ip6).
Proof.
  destruct v4; (eapply good_weaken; [first [apply queryIPV4Infos_good|apply queryIPV6Infos_good]| |done]);
    intros [? ?]; (split; [apply swrap_range; lia|done]).
Qed.

Lemma inPlatformData_good e (v4 : bool) ip4 ip6 :
  good (is_u 32 ip4 /\ ip6_ok ip6) (inPlatformData e v4 ip4 ip6)
    (fun t r => r = bool_decide (is_Some (known t e v4 ip4 ip6))).
Proof.
  eapply good_bind; [apply known_good|]. intros i. apply good_ret. by intros t _ _ t0 _ ->.
Qed.

Lemma find_peer_good peers (v4 : bool) ip4 ip6 :
  good (is_u 32 ip4 /\ ip6_ok ip6) (find_peer peers v4 ip4 ip6)
    (fun t r => r = List.find (fun e => bool_decide (is_Some (known t e v4 ip4 ip6))) peers).
Proof.
  induction peers as [|e peers IH]; [by apply good_ret|]. eapply good_bind; [apply inPlatformData_good|].
  intros [].
  - apply good_ret. intros t _ _ t0 _ E. cbn. by rewrite <- E.
  - eapply good_weaken; [apply IH|done|]. intros t r _ _ -> t0 E Hr. cbn [List.find]. rewrite <- Hr.
    apply find_ext. intros e'. by rewrite (known_same _ _ _ _ _ _ E).
Qed.

Lemma QueryVtapEpc1_good vtap (v4 : bool) ip4 ip6 :
  good (is_u 32 ip4 /\ ip6_ok ip6) (QueryVtapEpc1 vtap v4 ip4 ip6) (fun t r => r = epc1_spec t vtap v4 ip4 ip6).
Proof.
  intros t S. apply runs_bind, runs_get. apply runs_bind.
  eapply runs_mono; [by apply inPlatformData_good|]. intros found t1 (S1 & E1 & X1).
  assert (found = true \/ found = false) as [->| ->] by (destruct found; auto).
  { apply runs_ret. split_and!; [done|done|]. intros HR X. destruct (X1 HR X) as [? Ef]. split; [done|].
    unfold epc1_spec. cbn [List.find]. by rewrite <- Ef. }
  apply runs_bind, runs_get. apply runs_bind. eapply runs_mono; [by apply find_peer_good|].
  intros r t2 (S2 & E2 & X2). unfold queryPeerConnections in X2 at 1. rewrite (same_peers _ _ E1) in X2.
  assert (same t t2) as E12 by by etrans.
  assert ((is_u 32 ip4 /\ ip6_ok ip6) -> exact t -> exact t2 /\
    List.find (fun e => bool_decide (is_Some (known t e v4 ip4 ip6)))
      (QueryVtapEpc0 t vtap :: queryPeerConnections t (QueryVtapEpc0 t vtap)) = r) as X12.
  { intros HR X. destruct (X1 HR X) as [X1' Ef]. destruct (X2 HR X1') as [? ->]. split; [done|].
    cbn [List.find]. rewrite <- Ef. apply find_ext. intros e'. by rewrite (known_same _ _ _ _ _ _ E1). }
  destruct r as [e|].
  - apply runs_ret. split_and!; [done|done|]. intros HR X. destruct (X12 HR X) as [? Ef]. split; [done|].
    unfold epc1_spec. by rewrite Ef.
  - unfold findEpcInWan. apply runs_bind. eapply runs_mono; [by apply (known_good 0 v4 ip4 ip6 t2)|].
    intros i t3 (S3 & E3 & X3). apply runs_ret. split_and!; [done|by etrans|]. intros HR X.
    destruct (X12 HR X) as [X' Ef]. destruct (X3 HR X') as [? ->]. split; [done|].
    unfold epc1_spec. by rewrite Ef, (known_same _ _ _ _ _ _ E12).
Qed.
End Queries.
