(* ===== verification/Networks.v ===== *)
(** The tables of the platform data after a refresh: every pointer in them is one, and
    the networks of a key are those that the controller sent for it, the longest mask
    first, wherever no two keys share a backing array. *)

From S2P Require Import Prelude Strconv LineProto Ckdb Meter Tag TagMini Document Expand.
From stdpp Require Import strings.
From S2P Require Import Platform PlatformFacts.

#[local] Open Scope string_scope.
#[local] Open Scope list_scope.
#[local] Open Scope Z_scope.

(** * Slices *)

Abbreviation arrays := (list (list (option CidrInfo))).

(** The array of a slice is there and filled up to its length. *)
Definition valid (A : arrays) (s : slice) : Prop :=
  exists a, A !! s_array s = Some a /\ forall i, (i < s_len s)%nat -> exists c, a !! i = Some (Some c).

(** Every counter of a network is below [n]. *)
Definition cells_ok (n : Z) (A : arrays) : Prop :=
  forall j a i c, A !! j = Some a -> a !! i = Some (Some c) -> 0 <= Cidr_HitCount c < n.

Lemma omap_id_some (l : list (option CidrInfo)) :
  (forall i, (i < length l)%nat -> exists c, l !! i = Some (Some c)) -> l = Some <$> omap id l.
Proof.
  induction l as [|o l IH]; [done|]. intros H.
  destruct (H 0%nat) as [c [= ->]]; [cbn; lia|]. cbn. f_equal. apply IH.
  intros i Hi. apply (H (S i)). cbn. lia.
Qed.

Lemma elements_valid A s :
  valid A s -> exists a, A !! s_array s = Some a /\ take (s_len s) a = Some <$> elements A s /\
    length (elements A s) = s_len s /\ (s_len s <= length a)%nat.
Proof.
  intros (a & Ea & Hs). exists a. split; [done|].
  assert (s_len s <= length a)%nat as Hl.
  { destruct (s_len s) as [|n]; [lia|]. destruct (Hs n) as [c Hc]; [lia|]. apply lookup_lt_Some in Hc. lia. }
  assert (take (s_len s) a = Some <$> elements A s) as Et.
  { unfold elements. rewrite Ea. cbn. apply omap_id_some. rewrite length_take. intros i Hi.
    destruct (Hs i) as [c Hc]; [lia|]. exists c. rewrite lookup_take. by case_decide; [|lia]. }
  split_and!; [done| |done]. rewrite <- (length_fmap Some), <- Et, length_take. lia.
Qed.

Lemma elements_same A A' s : A' !! s_array s = A !! s_array s -> elements A' s = elements A s.
Proof. unfold elements. by intros ->. Qed.

Lemma elements_in A s c :
  c ∈ elements A s -> exists a i, A !! s_array s = Some a /\ a !! i = Some (Some c).
Proof.
  unfold elements. intros (o & Ho & Ec)%list_elem_of_omap. cbn in Ec. subst o.
  destruct (A !! s_array s) as [a|]; [|cbn in Ho; rewrite take_nil in Ho; by apply elem_of_nil in Ho].
  apply list_elem_of_lookup in Ho as [i Hi]. exists a, i. split; [done|].
  cbn in Hi. rewrite lookup_take in Hi. by case_decide.
Qed.

Lemma cells_elements n A s c : cells_ok n A -> c ∈ elements A s -> 0 <= Cidr_HitCount c < n.
Proof. intros H (a & i & Ea & Ei)%elements_in. by eapply H. Qed.

Lemma cells_mono n n' A : n <= n' -> cells_ok n A -> cells_ok n' A.
Proof. intros ? H j a i c E1 E2. specialize (H j a i c E1 E2). lia. Qed.

Lemma list_omap_fmap_id {X} (l : list X) : omap id (Some <$> l) = l.
Proof. induction l as [|x l IH]; [done|]. cbn. by rewrite IH. Qed.

(** [moved j A A']: the step from [A] to [A'] wrote to the array [j], which may be
    new, and left every slice valid and every other array alone. *)
Record moved (j : nat) (A A' : arrays) : Prop := {
  moved_valid s : valid A s -> valid A' s;
  moved_other i : (i < length A)%nat -> i <> j -> A' !! i = A !! i;
  moved_len : (length A <= length A')%nat
}.

Lemma moved_elements j A A' s : moved j A A' -> valid A s -> s_array s <> j -> elements A' s = elements A s.
Proof.
  intros Hm (a & Ea & _) Hne. apply elements_same, (moved_other _ _ _ Hm); [|done].
  by apply lookup_lt_Some in Ea.
Qed.

Lemma valid_insert A j a a' s :
  A !! j = Some a -> (forall i c, a !! i = Some (Some c) -> exists c', a' !! i = Some (Some c')) ->
  valid A s -> valid (<[j := a']> A) s.
Proof.
  intros Ej H (x & Ex & Hx). destruct (decide (s_array s = j)) as [<-|Hne].
  - rewrite Ej in Ex. injection Ex as <-. exists a'. split.
    + apply list_lookup_insert_eq. by apply lookup_lt_Some in Ej.
    + intros i [c Hc]%Hx. by eapply H.
  - exists x. by rewrite list_lookup_insert_ne.
Qed.

Lemma moved_insert A j a a' :
  A !! j = Some a -> (forall i c, a !! i = Some (Some c) -> exists c', a' !! i = Some (Some c')) ->
  moved j A (<[j := a']> A).
Proof.
  intros Ej H. constructor.
  - intros s. by eapply valid_insert.
  - intros i _ Hne. by rewrite list_lookup_insert_ne.
  - by rewrite length_insert.
Qed.

Lemma moved_snoc A a : moved (length A) A (A ++ [a]).
Proof.
  constructor.
  - intros s (x & Ex & Hx). exists x. split; [|done]. by apply lookup_app_l_Some.
  - intros i Hi _. by apply lookup_app_l.
  - rewrite length_app. lia.
Qed.

(** ** Append *)

Section Runtime.
Context {NT : NetText} {RT : Runtime CidrInfo} {RL : RuntimeLaws CidrInfo}.
Implicit Types (b : building) (A : arrays) (s : slice).

(** What appending [x] to a slice with elements [l] gives: [s'], in the array of the
    old slice, [o], or in a new one. *)
Record appended A (o : option slice) (l : list CidrInfo) (x : CidrInfo) (s' : slice) (A' : arrays) : Prop := {
  app_moved : moved (s_array s') A A';
  app_valid : valid A' s';
  app_elements : elements A' s' = l ++ [x];
  app_where : (length A <= s_array s')%nat \/ exists s, o = Some s /\ s_array s' = s_array s;
  app_cells n : cells_ok n A -> 0 <= Cidr_HitCount x < n -> cells_ok n A'
}.

Lemma fill_in_place A s x a :
  valid A s -> A !! s_array s = Some a -> (s_len s < length a)%nat ->
  appended A (Some s) (elements A s) x (mkSlice (s_array s) (S (s_len s))) (<[s_array s := <[s_len s := Some x]> a]> A).
Proof.
  intros Hv Ea Hl. destruct (elements_valid _ _ Hv) as (a' & Ea' & Et & Hlen & _).
  rewrite Ea in Ea'. injection Ea' as <-. destruct Hv as (a' & Ea' & Hv). rewrite Ea in Ea'. injection Ea' as <-.
  assert (s_array s < length A)%nat as Hj by by apply lookup_lt_Some in Ea.
  assert (forall i c, a !! i = Some (Some c) -> exists c', <[s_len s:=Some x]> a !! i = Some (Some c')) as Hin.
  { intros i c Hi. destruct (decide (i = s_len s)) as [->|].
    - exists x. by apply list_lookup_insert_eq.
    - exists c. by rewrite list_lookup_insert_ne. }
  constructor; cbn.
  - by apply (moved_insert _ _ a).
  - exists (<[s_len s:=Some x]> a). cbn. split; [by apply list_lookup_insert_eq|]. intros i Hi.
    destruct (decide (i = s_len s)) as [->|]; [exists x; by apply list_lookup_insert_eq|].
    destruct (Hv i) as [c Hc]; [lia|]. by eapply Hin.
  - unfold elements at 1. cbn. rewrite list_lookup_insert_eq by done. cbn.
    rewrite (take_S_r _ _ (Some x)) by (by apply list_lookup_insert_eq).
    rewrite take_insert_ge, Et, omap_app by lia. cbn. f_equal. apply list_omap_fmap_id.
  - right. by exists s.
  - intros n Hn Hx j y i c Ej Ei. destruct (decide (j = s_array s)) as [->|]; [|rewrite list_lookup_insert_ne in Ej by done; by eapply Hn].
    rewrite list_lookup_insert_eq in Ej by done. injection Ej as <-.
    destruct (decide (i = s_len s)) as [->|]; [rewrite list_lookup_insert_eq in Ei by done; by simplify_eq|].
    rewrite list_lookup_insert_ne in Ei by done. by eapply Hn.
Qed.

Lemma fill_new A s x a k :
  valid A s -> A !! s_array s = Some a ->
  appended A (Some s) (elements A s) x (mkSlice (length A) (S (s_len s)))
    (A ++ [take (s_len s) a ++ Some x :: replicate k None]).
Proof.
  intros Hv Ea. destruct (elements_valid _ _ Hv) as (a' & Ea' & Et & Hlen & Hl).
  rewrite Ea in Ea'. injection Ea' as <-. rewrite Et.
  assert (forall i c, ((Some <$> elements A s) ++ Some x :: replicate k None) !! i = Some (Some c) ->
    c ∈ elements A s \/ c = x) as Hc.
  { intros i c [Hi|[_ Hi]]%lookup_app_Some.
    - left. apply list_lookup_fmap_Some in Hi as (c' & [= ->] & Hi). by eapply list_elem_of_lookup_2.
    - apply lookup_cons_Some in Hi as [[_ [= ->]]|[_ Hi]]; [by right|]. by apply lookup_replicate in Hi as [[=] _]. }
  constructor; cbn.
  - apply moved_snoc.
  - eexists. cbn. split; [by apply list_lookup_middle|]. intros i Hi.
    destruct (decide (i = s_len s)) as [->|].
    + exists x. rewrite lookup_app_r; rewrite length_fmap, Hlen; [|lia]. by rewrite Nat.sub_diag.
    + destruct (lookup_lt_is_Some_2 (elements A s) i) as [c Ec]; [lia|]. exists c.
      apply lookup_app_l_Some. by rewrite list_lookup_fmap, Ec.
  - unfold elements at 1. cbn. rewrite list_lookup_middle by done. cbn.
    replace (S (s_len s)) with (length (Some <$> elements A s) + 1)%nat by (rewrite length_fmap; lia).
    rewrite take_app_add. rewrite omap_app. cbn. f_equal. apply list_omap_fmap_id.
  - left. lia.
  - intros n Hn Hx j y i c [Ej|[Hj Ej]]%lookup_app_Some; [by eapply Hn|].
    apply list_lookup_singleton_Some in Ej as [_ <-]. intros [Hi| ->]%Hc; [|done]. by eapply cells_elements.
Qed.

Lemma append_runs {R} b s x (f : slice -> B R) Q :
  valid (b_arrays b) s ->
  (forall s' A', appended (b_arrays b) (Some s) (elements (b_arrays b) s) x s' A' -> runs (f s') (set_b_arrays b A') Q) ->
  runs (s' ← append_slice s x; f s') b Q.
Proof.
  intros Hv Hf. destruct (Hv) as (a & Ea & _). apply runs_bind. apply runs_bind, runs_get.
  apply runs_bind, (runs_of_option _ a); [done|]. destruct (Nat.ltb_spec (s_len s) (length a)).
  - apply runs_bind, runs_modify, runs_ret, Hf. by apply fill_in_place.
  - apply runs_bind, runs_modify, runs_ret, Hf. by apply fill_new.
Qed.

(** The elements that a table has for a key. *)
Definition held A (m : gmap Z slice) (k : Z) : list CidrInfo :=
  match m !! k with Some s => elements A s | None => [] end.

Definition valid_table A (m : gmap Z slice) : Prop := forall k s, m !! k = Some s -> valid A s.

Lemma appended_new A n x s' A' :
  appended (A ++ [replicate n None]) (Some (mkSlice (length A) 0)) [] x s' A' -> appended A None [] x s' A'.
Proof.
  intros [Hm Hv He Hw Hc]. pose proof (moved_snoc A (replicate n None)) as Hs. rewrite length_app in Hw. cbn in Hw.
  constructor; [constructor|done|done| |].
  - intros s Hs'. by apply Hm, Hs.
  - intros i Hi Hne. rewrite (moved_other _ _ _ Hm) by (rewrite ?length_app; lia || done). by apply lookup_app_l.
  - pose proof (moved_len _ _ _ Hm) as Hl. rewrite length_app in Hl. lia.
  - left. destruct Hw as [?|(s & [= <-] & E)]; [lia|]. rewrite E. cbn. lia.
  - intros n' Hn. apply Hc. intros j y i c [Ej|[_ Ej]]%lookup_app_Some; [by eapply Hn|].
    apply list_lookup_singleton_Some in Ej as [_ <-]. by intros [[=] _]%lookup_replicate.
Qed.

(** A network is added to the slice of a key. *)
Lemma put_runs {R} b m k n x (f : slice -> B R) Q :
  valid_table (b_arrays b) m ->
  (forall s' A', appended (b_arrays b) (m !! k) (held (b_arrays b) m k) x s' A' ->
    runs (f s') (set_b_arrays b A') Q) ->
  runs (s ← slice_of m k n; s' ← append_slice s x; f s') b Q.
Proof.
  intros Hv Hf. unfold held in Hf. unfold slice_of. destruct (m !! k) as [s|] eqn:E.
  - apply runs_bind, runs_ret. apply append_runs; [by eapply Hv|done].
  - apply runs_bind. apply runs_bind, runs_get. apply runs_bind, runs_modify, runs_ret.
    apply append_runs; cbn.
    + exists (replicate n None). cbn. split; [by apply list_lookup_middle|]. lia.
    + intros s' A' Ha. apply (Hf s' A'). eapply appended_new. revert Ha. unfold elements. cbn. by rewrite take_0.
Qed.

(** ** Sort *)

Definition sorted (l : list CidrInfo) : Prop := forall i j c d,
  l !! i = Some c -> l !! j = Some d -> (i < j)%nat -> longer d c = false.

Lemma sort_is_sorted l : sorted (sort_Slice longer l).
Proof.
  intros i j c d Hc Hd Hij. apply (sort_sorted longer l i j c d); try done; unfold longer; intros *; lia.
Qed.

Lemma alter_insert {X} (f : X -> X) (l : list X) j x : l !! j = Some x -> alter f j l = <[j := f x]> l.
Proof.
  intros E. apply list_eq. intros i. destruct (decide (i = j)) as [->|Hne].
  - rewrite list_lookup_alter_eq, E, list_lookup_insert_eq; [done|]. by apply lookup_lt_Some in E.
  - by rewrite list_lookup_alter_ne, list_lookup_insert_ne.
Qed.

Lemma sort_cidrs_runs {Q : unit -> building -> Prop} b s :
  valid (b_arrays b) s ->
  (forall A', moved (s_array s) (b_arrays b) A' -> length A' = length (b_arrays b) ->
    elements A' s = sort_Slice longer (elements (b_arrays b) s) ->
    (forall n, cells_ok n (b_arrays b) -> cells_ok n A') -> Q tt (set_b_arrays b A')) ->
  runs (sort_cidrs s) b Q.
Proof.
  intros Hv HQ. apply runs_modify. set (A := b_arrays b) in *.
  destruct (elements_valid _ _ Hv) as (a & Ea & Et & Hlen & Hl). rewrite (alter_insert _ _ _ _ Ea).
  set (l := sort_Slice longer (elements A s)). assert (l ≡ₚ elements A s) as Hp by apply sort_perm.
  assert (length l = s_len s) as Hll by (by rewrite Hp).
  assert (s_array s < length A)%nat as Hj by by apply lookup_lt_Some in Ea.
  apply HQ.
  - apply (moved_insert _ _ a); [done|]. intros i c Hi. destruct (decide (i < s_len s)%nat) as [Hlt|].
    + destruct (lookup_lt_is_Some_2 l i) as [c' Ec]; [lia|]. exists c'. apply lookup_app_l_Some.
      by rewrite list_lookup_fmap, Ec.
    + exists c. rewrite lookup_app_r by (rewrite length_fmap; lia). rewrite length_fmap, Hll, lookup_drop.
      rewrite <- Hi. f_equal. lia.
  - by rewrite length_insert.
  - unfold elements at 1. rewrite list_lookup_insert_eq by done. cbn.
    rewrite take_app_length' by (by rewrite length_fmap). apply list_omap_fmap_id.
  - intros n Hn j y i c Ej Ei. destruct (decide (j = s_array s)) as [->|].
    + rewrite list_lookup_insert_eq in Ej by done. injection Ej as <-.
      apply lookup_app_Some in Ei as [Ei|[_ Ei]].
      * apply list_lookup_fmap_Some in Ei as (c' & [= ->] & Ei). apply (cells_elements n A s); [done|].
        rewrite <- Hp. by eapply list_elem_of_lookup_2.
      * rewrite lookup_drop in Ei. by eapply Hn.
    + rewrite list_lookup_insert_ne in Ej by done. by eapply Hn.
Qed.

(** No two keys of a table share an array. *)
Definition own (m : gmap Z slice) : Prop := forall k k' s s',
  m !! k = Some s -> m !! k' = Some s' -> s_array s = s_array s' -> k = k'.

Record sorting (m : gmap Z slice) (ks : list Z) A A' : Prop := {
  srt_valid s : valid A s -> valid A' s;
  srt_len : length A' = length A;
  srt_cells n : cells_ok n A -> cells_ok n A';
  srt_other i : (forall k s, m !! k = Some s -> s_array s <> i) -> A' !! i = A !! i;
  srt_held k s : own m -> m !! k = Some s ->
    elements A' s ≡ₚ elements A s /\ (k ∈ ks \/ sorted (elements A s) -> sorted (elements A' s))
}.

Lemma sort_keys_runs m ks b :
  valid_table (b_arrays b) m ->
  runs (for_each (fun k => match m !! k with Some s => sort_cidrs s | None => mret tt end) ks) b
    (fun _ b' => exists A', b' = set_b_arrays b A' /\ sorting m ks (b_arrays b) A').
Proof.
  revert b. induction ks as [|k0 ks IH]; intros b Hv.
  { apply runs_ret. exists (b_arrays b). split; [by destruct b|]. constructor; try done.
    intros k s _ _. split; [done|]. by intros [[]%elem_of_nil|]. }
  cbn [for_each]. apply runs_bind. destruct (m !! k0) as [s0|] eqn:E0.
  - apply sort_cidrs_runs; [by eapply Hv|]. intros A1 Hm Hl1 He1 Hc1.
    eapply runs_mono; [apply (IH (set_b_arrays b A1))|].
    { intros k s Hk. apply Hm. by eapply Hv. }
    intros [] b' (A' & -> & [S1 S2 S3 S4 S5]). exists A'. split; [done|]. cbn in *.
    constructor; [intros s Hs; by apply S1, Hm|congruence|auto| |].
    + intros i Hi. rewrite S4 by done. destruct (decide (i < length (b_arrays b))%nat).
      * apply Hm; [done|]. intros ->. by eapply Hi.
      * rewrite !lookup_ge_None_2 by lia. done.
    + intros k s Ho Hk. destruct (S5 k s Ho Hk) as [P1 P2]. destruct (decide (k = k0)) as [->|Hne].
      * rewrite E0 in Hk. injection Hk as <-. split; [rewrite P1, He1; apply sort_perm|]. intros _.
        apply P2. right. rewrite He1. apply sort_is_sorted.
      * assert (elements A1 s = elements (b_arrays b) s) as Es.
        { apply (moved_elements _ _ _ s Hm); [by eapply Hv|]. intros Ej. apply Hne. by eapply Ho. }
        rewrite Es in P1, P2.
        split; [done|]. intros [[->|?]%elem_of_cons|?]; [done|auto..].
  - apply runs_ret. eapply runs_mono; [by apply IH|]. intros [] b' (A' & -> & [S1 S2 S3 S4 S5]).
    exists A'. split; [done|]. constructor; try done. intros k s Ho Hk. destruct (S5 k s Ho Hk) as [P1 P2].
    split; [done|]. intros [[->|?]%elem_of_cons|?]; [congruence|auto..].
Qed.

Lemma sort_all_runs m b :
  valid_table (b_arrays b) m ->
  runs (sort_all m) b (fun _ b' => exists A', b' = set_b_arrays b A' /\ sorting m (map_to_list m).*1 (b_arrays b) A').
Proof.
  intros Hv. eapply runs_mono; [by apply sort_keys_runs|]. intros [] b' (A' & -> & [S1 S2 S3 S4 S5]).
  exists A'. split; [done|]. constructor; try done. intros k s Ho Hk. destruct (S5 k s Ho Hk) as [P1 P2].
  split; [done|]. intros H. apply P2. destruct H; [left|by right]. by rewrite range_perm.
Qed.

Lemma sorting_all m A A' k s :
  sorting m (map_to_list m).*1 A A' -> own m -> m !! k = Some s -> sorted (elements A' s).
Proof.
  intros Hs Ho Hk. apply (srt_held _ _ _ _ Hs k s); [done..|]. left.
  apply list_elem_of_fmap. exists (k, s). split; [done|]. by apply elem_of_map_to_list.
Qed.

(** * Two tables *)

Definition apart (m m' : gmap Z slice) : Prop := forall k k' s s',
  m !! k = Some s -> m' !! k' = Some s' -> s_array s <> s_array s'.

Lemma apart_sym m m' : apart m m' -> apart m' m.
Proof. intros H k k' s s' H1 H2 E. by eapply H. Qed.

(** A table whose arrays are left alone. *)
Lemma frame_table A A' j m :
  moved j A A' -> valid_table A m -> (forall k s, m !! k = Some s -> s_array s <> j) ->
  valid_table A' m /\ forall k, held A' m k = held A m k.
Proof.
  intros Hm Hv Hj. split.
  - intros k s Hk. by eapply Hm, Hv.
  - intros k. unfold held. destruct (m !! k) as [s|] eqn:E; [|done]. by eapply moved_elements; eauto.
Qed.

Lemma apart_put A m m' k s' :
  apart m m' -> valid_table A m' ->
  (length A <= s_array s')%nat \/ (exists k0 s0, m !! k0 = Some s0 /\ s_array s' = s_array s0) ->
  apart (<[k := s']> m) m' /\ forall k' s, m' !! k' = Some s -> s_array s <> s_array s'.
Proof.
  intros Ha Hv Hw.
  assert (forall k' s, m' !! k' = Some s -> s_array s <> s_array s') as Hn.
  { intros k' s Hk E. destruct Hw as [Hw|(k0 & s0 & H0 & E0)].
    - destruct (Hv _ _ Hk) as (a & Ea%lookup_lt_Some & _). lia.
    - eapply Ha; [done..|]. congruence. }
  split; [|done]. intros k1 k2 s1 s2 H1 H2 E. apply lookup_insert_Some in H1 as [[<- <-]|[_ H1]].
  - by eapply Hn.
  - by eapply Ha.
Qed.

(** A key of a table with its own arrays gets one more network. *)
Lemma put_own A m k x s' A' :
  valid_table A m -> appended A (m !! k) (held A m k) x s' A' -> own m ->
  own (<[k := s']> m) /\
  forall k', held A' (<[k := s']> m) k' = if decide (k' = k) then held A m k ++ [x] else held A m k'.
Proof.
  intros Hv Ha Ho.
  assert (forall k' s, k' <> k -> m !! k' = Some s -> s_array s <> s_array s') as Hn.
  { intros k' s Hne Hk E. destruct (app_where _ _ _ _ _ _ Ha) as [Hw|(s0 & H0 & E0)].
    - destruct (Hv _ _ Hk) as (a & Ea%lookup_lt_Some & _). lia.
    - apply Hne. eapply Ho; [done..|]. congruence. }
  split.
  - intros k1 k2 s1 s2 H1 H2 E. apply lookup_insert_Some in H1 as [[<- <-]|[N1 H1]], H2 as [[<- <-]|[N2 H2]].
    + done.
    + by destruct (Hn k2 s2).
    + by destruct (Hn k1 s1).
    + by eapply Ho.
  - intros k'. unfold held at 1. case_decide as E.
    + subst. rewrite lookup_insert_eq. apply Ha.
    + rewrite lookup_insert_ne by done. unfold held. destruct (m !! k') as [s|] eqn:Ek; [|done].
      eapply moved_elements; [apply Ha|by eapply Hv|]. by eapply Hn.
Qed.

Lemma put_valid A m k x s' A' o l :
  valid_table A m -> appended A o l x s' A' -> valid_table A' (<[k := s']> m).
Proof.
  intros Hv Ha k' s [[<- <-]|[_ Hk]]%lookup_insert_Some; [by eapply app_valid|].
  eapply (moved_valid _ _ _ (app_moved _ _ _ _ _ _ Ha)). by eapply Hv.
Qed.

(** * The networks of a message *)

(** A network without its counter. *)
Definition strip (c : CidrInfo) : CidrInfo :=
  mkCidrInfo (Cidr_Cidr c) (Cidr_EpcID c) (Cidr_RegionID c) (Cidr_SubnetID c) (Cidr_AZID c) (Cidr_IsWan c) 0.

Definition is_wan (cidr : pb_Cidr) : bool := cidr_Type cidr =? CidrType_WAN.

Definition cidr_epc (cidr : pb_Cidr) : Z := if cidr_EpcId cidr =? 0 then EPC_FROM_DEEPFLOW else cidr_EpcId cidr.

(** What a network of the message adds for the key [k] of the IPv4 or IPv6 table: it
    belongs to its [epcID], and a WAN network to the key zero too. *)
Definition cidr_for (v4 : bool) (k : Z) (cidr : pb_Cidr) : list CidrInfo :=
  match ParseCIDR (cidr_Prefix cidr) with
  | None => []
  | Some n =>
      let c := mkCidrInfo n (cidr_epc cidr) (cidr_RegionId cidr) (cidr_SubnetId cidr) (cidr_AzId cidr) (is_wan cidr) 0 in
      if Bool.eqb (isIPV4 (cidr_Prefix cidr)) v4 then
        (if decide (k = cidr_epc cidr) then [c] else []) ++ (if is_wan cidr && bool_decide (k = 0) then [c] else [])
      else []
  end.

Definition networks (v4 : bool) (cidrs : list pb_Cidr) (k : Z) : list CidrInfo := cidrs ≫= cidr_for v4 k.

(** The IPv4 table is only right without WAN networks. *)
Definition clean (v4 : bool) (cidrs : list pb_Cidr) : Prop :=
  v4 = true -> Forall (fun c => isIPV4 (cidr_Prefix c) && is_wan c = false) cidrs.

Lemma networks_snoc v4 cs c k : networks v4 (cs ++ [c]) k = networks v4 cs k ++ cidr_for v4 k c.
Proof. unfold networks. rewrite bind_app. cbn. by rewrite app_nil_r. Qed.

Lemma clean_snoc v4 cs c :
  clean v4 (cs ++ [c]) -> clean v4 cs /\ (v4 = true -> isIPV4 (cidr_Prefix c) && is_wan c = false).
Proof. unfold clean. intros Hc. split; intros E; specialize (Hc E); apply Forall_app in Hc as [H1 H2]; [exact H1|].
  by inversion H2. Qed.

(** * Tables under construction *)

Definition tbl (v4 : bool) b : gmap Z slice := if v4 then b_cidrs4 b else b_cidrs6 b.

(** Pointers to counters are below the number of counters. *)
Definition info_ok (n : Z) (i : Info) : Prop := exists c, Info_HitCount i = Some c /\ 0 <= c < n.

Record bsound b : Prop := {
  bs_infos4 k i : b_infos4 b !! k = Some i -> info_ok (zlen (b_counts b)) i;
  bs_infos6 k i : b_infos6 b !! k = Some i -> info_ok (zlen (b_counts b)) i;
  bs_macs k i : b_macs b !! k = Some i -> info_ok (zlen (b_counts b)) i;
  bs_cells : cells_ok (zlen (b_counts b)) (b_arrays b);
  bs_valid v4 : valid_table (b_arrays b) (tbl v4 b);
  bs_apart : apart (b_cidrs4 b) (b_cidrs6 b)
}.

(** The networks in the tables are those of a specification. *)
Definition holds b (v4 : bool) (spec : Z -> list CidrInfo) : Prop :=
  own (tbl v4 b) /\ forall k, strip <$> held (b_arrays b) (tbl v4 b) k ≡ₚ spec k.

Definition all_sorted b (v4 : bool) : Prop := forall k, sorted (held (b_arrays b) (tbl v4 b) k).

Lemma info_ok_mono n n' i : n <= n' -> info_ok n i -> info_ok n' i.
Proof. intros ? (c & ? & ?). exists c. split; [done|lia]. Qed.

(** What the update of the networks may change, [rest_same], leaves the entries of
    interfaces alone. *)
Record rest_same b b' : Prop := {
  rs_infos4 : b_infos4 b' = b_infos4 b;
  rs_infos6 : b_infos6 b' = b_infos6 b;
  rs_macs : b_macs b' = b_macs b;
  rs_counts : zlen (b_counts b) <= zlen (b_counts b')
}.

Lemma bsound_nets b b' :
  bsound b -> rest_same b b' -> cells_ok (zlen (b_counts b')) (b_arrays b') ->
  (forall v4, valid_table (b_arrays b') (tbl v4 b')) -> apart (b_cidrs4 b') (b_cidrs6 b') -> bsound b'.
Proof.
  intros [] [E1 E2 E3 Hc] Hcells Hv Ha. constructor; rewrite ?E1, ?E2, ?E3; try done;
    intros k i Hk; eapply info_ok_mono; eauto.
Qed.

Lemma new_runs {R} b (f : Z -> B R) Q :
  bsound b ->
  (let b1 := set_b_counts b (b_counts b ++ [0]) in
   bsound b1 -> 0 <= zlen (b_counts b) < zlen (b_counts b1) -> runs (f (zlen (b_counts b))) b1 Q) ->
  runs (c ← new_uint64; f c) b Q.
Proof.
  intros S Hf. apply runs_bind. apply runs_bind, runs_get. apply runs_bind, runs_modify, runs_ret, Hf.
  - assert (zlen (b_counts b) <= zlen (b_counts b ++ [0])) by (unfold zlen; rewrite length_app; lia).
    apply (bsound_nets b); [done|by constructor| |exact (bs_valid _ S)|exact (bs_apart _ S)].
    apply (cells_mono (zlen (b_counts b))); [done|exact (bs_cells _ S)].
  - cbn. unfold zlen. rewrite length_app. cbn. lia.
Qed.

Lemma add_base_runs b epc region (Q : unit -> building -> Prop) :
  (forall m, Q tt (set_b_bases b m)) -> runs (add_base epc region) b Q.
Proof.
  intros HQ. apply runs_modify. destruct (b_bases b !! epc); [|done].
  specialize (HQ (b_bases b)). by destruct b.
Qed.

#[local] Instance rest_same_PreOrder : PreOrder rest_same.
Proof.
  split; [by constructor|]. intros b1 b2 b3 [] []. constructor; congruence || lia.
Qed.

Definition set_tbl (v4 : bool) b (m : gmap Z slice) : building :=
  if v4 then set_b_cidrs b m (b_cidrs6 b) else set_b_cidrs b (b_cidrs4 b) m.

Lemma apart_tbl b v4 : bsound b -> apart (tbl v4 b) (tbl (negb v4) b).
Proof. intros S. destruct v4; [apply S|apply apart_sym, S]. Qed.

Lemma apart_set v4 b m : apart m (tbl (negb v4) b) -> apart (b_cidrs4 (set_tbl v4 b m)) (b_cidrs6 (set_tbl v4 b m)).
Proof. destruct v4; cbn; [done|]. by intros ?%apart_sym. Qed.

(** A key gets a slice whose array is new or of the same table. *)
Lemma put_any v4 b k x s' A' o l :
  bsound b -> appended (b_arrays b) o l x s' A' -> (forall s, o = Some s -> exists k0, tbl v4 b !! k0 = Some s) ->
  0 <= Cidr_HitCount x < zlen (b_counts b) ->
  let b' := set_tbl v4 (set_b_arrays b A') (<[k := s']> (tbl v4 b)) in
  bsound b' /\ rest_same b b' /\ forall spec, holds b (negb v4) spec -> holds b' (negb v4) spec.
Proof.
  intros S Ha Ho Hx b'.
  assert (rest_same b b') as Er by (by destruct v4; constructor).
  assert (b_arrays b' = A' /\ tbl v4 b' = <[k:=s']> (tbl v4 b) /\ tbl (negb v4) b' = tbl (negb v4) b /\
    b_counts b' = b_counts b) as (EA & Ev & En & Ec) by (by destruct v4).
  destruct (apart_put (b_arrays b) (tbl v4 b) (tbl (negb v4) b) k s') as [Hap Hne];
    [by apply apart_tbl|apply S| |].
  { destruct (app_where _ _ _ _ _ _ Ha) as [?|(s & E & ?)]; [by left|right].
    destruct (Ho s E) as [k0 ?]. by exists k0, s. }
  destruct (frame_table (b_arrays b) A' (s_array s') (tbl (negb v4) b)) as [Hvn Hhn];
    [by eapply app_moved|apply S|done|].
  split_and!; [|done|].
  - apply (bsound_nets b); [done|done| | |].
    + rewrite EA, Ec. apply (app_cells _ _ _ _ _ _ Ha); [apply S|done].
    + intros v. rewrite EA. destruct (Bool.bool_dec v v4) as [->|Hv].
      * rewrite Ev. eapply put_valid; [apply S|done].
      * assert (v = negb v4) as -> by (by destruct v, v4). by rewrite En.
    + apply apart_set. by destruct v4.
  - intros spec [Hown Hs]. split; rewrite En; [done|]. intros k'. rewrite EA, Hhn. apply Hs.
Qed.

(** A key gets one more network. *)
Lemma put_step v4 b k x s' A' :
  bsound b -> appended (b_arrays b) (tbl v4 b !! k) (held (b_arrays b) (tbl v4 b) k) x s' A' ->
  0 <= Cidr_HitCount x < zlen (b_counts b) ->
  let b' := set_tbl v4 (set_b_arrays b A') (<[k := s']> (tbl v4 b)) in
  bsound b' /\ rest_same b b' /\ forall v spec, holds b v spec ->
    holds b' v (fun k' => spec k' ++ (if Bool.eqb v4 v && bool_decide (k' = k) then [strip x] else [])).
Proof.
  intros S Ha Hx b'. destruct (put_any v4 b k x s' A' _ _ S Ha) as (S' & R' & Hn); [by intros; exists k|done|].
  split_and!; [done|done|]. intros v spec Hs. destruct (Bool.bool_dec v4 v) as [<-|Hv].
  - rewrite Bool.eqb_reflx. cbn [andb]. destruct Hs as [Hown Hs].
    assert (tbl v4 b' = <[k:=s']> (tbl v4 b) /\ b_arrays b' = A') as [Et EA] by (by destruct v4).
    destruct (put_own (b_arrays b) (tbl v4 b) k x s' A') as [Hown' Hh]; [apply S|done|done|].
    split; rewrite Et; [done|]. intros k'. rewrite EA, Hh. case_decide as E.
    + subst k'. by rewrite bool_decide_eq_true_2, fmap_app, Hs.
    + rewrite bool_decide_eq_false_2, app_nil_r by done. apply Hs.
  - assert (v = negb v4) as -> by (by destruct v, v4). destruct (Hn spec Hs) as [Ho' Hs'].
    split; [done|]. intros k'. destruct v4; cbn; rewrite app_nil_r; apply Hs'.
Qed.

(** A new array that no key has. *)
Lemma make_step b n :
  bsound b -> let b' := set_b_arrays b (b_arrays b ++ [replicate n None]) in
  bsound b' /\ rest_same b b' /\ forall v spec, holds b v spec -> holds b' v spec.
Proof.
  intros S b'. pose proof (moved_snoc (b_arrays b) (replicate n None)) as Hm.
  assert (forall v, valid_table (b_arrays b') (tbl v b) /\ forall k, held (b_arrays b') (tbl v b) k = held (b_arrays b) (tbl v b) k) as Hf.
  { intros v. apply (frame_table _ _ _ _ Hm); [apply S|]. intros k s Hk.
    destruct (bs_valid _ S v _ _ Hk) as (a & Ea%lookup_lt_Some & _). lia. }
  split_and!; [|by constructor|].
  - apply (bsound_nets b); [done|by constructor| |apply Hf|apply S].
    intros j a i c [Ej|[_ Ej]]%lookup_app_Some; [by eapply (bs_cells _ S)|].
    apply list_lookup_singleton_Some in Ej as [_ <-]. by intros [[=] _]%lookup_replicate.
  - intros v spec [Ho Hs]. split; [done|]. intros k. rewrite (proj2 (Hf v)). apply Hs.
Qed.

Lemma holds_ext b v f g : holds b v f -> (forall k, f k = g k) -> holds b v g.
Proof. intros [Ho Hf] E. split; [done|]. intros k. by rewrite <- E. Qed.

(** What one network adds to the keys of the tables. *)
Definition entries (v4 : bool) (epc : Z) (wan : bool) (x : CidrInfo) (v : bool) (k : Z) : list CidrInfo :=
  if Bool.eqb v4 v then
    (if decide (k = epc) then [strip x] else []) ++ (if wan && bool_decide (k = 0) then [strip x] else [])
  else [].

Definition added (v4 : bool) (epc : Z) (wan : bool) (x : CidrInfo) b b' : Prop :=
  bsound b' /\ rest_same b b' /\ forall v spec, v && v4 && wan = false -> holds b v spec ->
    holds b' v (fun k => spec k ++ entries v4 epc wan x v k).

Lemma put_step_lan v4 b epc x s' A' :
  bsound b -> appended (b_arrays b) (tbl v4 b !! epc) (held (b_arrays b) (tbl v4 b) epc) x s' A' ->
  0 <= Cidr_HitCount x < zlen (b_counts b) ->
  added v4 epc false x b (set_tbl v4 (set_b_arrays b A') (<[epc := s']> (tbl v4 b))).
Proof.
  intros S Ha Hx. destruct (put_step v4 b epc x s' A' S Ha Hx) as (S' & R' & Hs).
  split_and!; [done|done|]. intros v spec _ Hh. eapply holds_ext; [by apply Hs|]. intros k. cbn. f_equal.
  unfold entries. destruct (Bool.eqb v4 v); cbn; [|done].
  case_decide; [by rewrite bool_decide_eq_true_2|by rewrite bool_decide_eq_false_2].
Qed.

Lemma add_cidr6_runs b epc wan x :
  bsound b -> 0 <= Cidr_HitCount x < zlen (b_counts b) ->
  runs (add_cidr6 epc wan x) b (fun _ b' => added false epc wan x b b').
Proof.
  intros S Hx. apply runs_bind, runs_get. apply put_runs; [exact (bs_valid _ S false)|]. intros s1 A1 H1.
  apply runs_bind, runs_modify. pose proof (put_step_lan false b epc x s1 A1 S H1 Hx) as L1. cbn in L1.
  destruct wan; [|by apply runs_ret]. destruct L1 as (S1 & R1 & L1).
  apply runs_bind, runs_get. apply put_runs; [exact (bs_valid _ S1 false)|]. intros s2 A2 H2. apply runs_modify.
  destruct (put_step false _ 0 x s2 A2 S1 H2) as (S2 & R2 & L2); [done|].
  split_and!; [exact S2|by etrans|]. intros v spec _ Hh. eapply holds_ext; [apply L2, L1; [by destruct v|done]|].
  intros k. cbn. rewrite <- app_assoc. f_equal. unfold entries. destruct v; cbn; [done|]. by rewrite app_nil_r.
Qed.

(** Appending once more to the slice of the [epcID] and storing the result for the
    key zero: the IPv6 table does not see it. *)
Lemma add_wan4_step b epc x s :
  bsound b -> 0 <= Cidr_HitCount x < zlen (b_counts b) -> b_cidrs4 b !! epc = Some s ->
  runs (s ← append_slice s x; modify (fun b => set_b_cidrs b (<[0 := s]> (b_cidrs4 b)) (b_cidrs6 b))) b
    (fun _ b' => bsound b' /\ rest_same b b' /\ forall spec, holds b false spec -> holds b' false spec).
Proof.
  intros S Hx Hs. apply append_runs; [by apply (bs_valid _ S true epc)|]. intros s2 A2 H2. apply runs_modify.
  destruct (put_any true b 0 x s2 A2 _ _ S H2) as (S2 & R2 & L2); [|done|done].
  intros ? [= <-]. by exists epc.
Qed.

Lemma add_cidr4_runs b epc wan x :
  bsound b -> 0 <= Cidr_HitCount x < zlen (b_counts b) ->
  runs (add_cidr4 epc wan x) b (fun _ b' => added true epc wan x b b').
Proof.
  intros S Hx. apply runs_bind, runs_get. apply put_runs; [exact (bs_valid _ S true)|]. intros s1 A1 H1.
  apply runs_bind, runs_modify. pose proof (put_step_lan true b epc x s1 A1 S H1 Hx) as L1. cbn in L1.
  destruct wan; [|by apply runs_ret]. destruct L1 as (S1 & R1 & L1). set (b1 := set_b_cidrs _ _ _) in *.
  assert (b_cidrs4 b1 !! epc = Some s1) as E1 by apply lookup_insert_eq.
  assert (forall b2, bsound b2 /\ rest_same b b2 /\ (forall v spec, holds b1 v spec -> holds b2 v spec) ->
    b_cidrs4 b2 = b_cidrs4 b1 -> 0 <= Cidr_HitCount x < zlen (b_counts b2) ->
    runs (s ← append_slice s1 x; modify (fun b => set_b_cidrs b (<[0 := s]> (b_cidrs4 b)) (b_cidrs6 b))) b2
      (fun _ b' => added true epc true x b b')) as Hend.
  { intros b2 (S2 & R2 & H2) E2 Hx2. eapply runs_mono; [apply (add_wan4_step b2 epc x s1); [done|done|congruence]|].
    intros [] b3 (S3 & R3 & H3). split_and!; [done|by etrans|]. intros [] spec [=] Hh. cbn.
    eapply holds_ext; [apply H3, H2, (L1 false); done|]. done. }
  apply runs_bind, runs_get. unfold slice_of. apply runs_bind. destruct (b_cidrs4 b1 !! 0) as [s0|].
  - apply runs_ret, Hend; done.
  - apply runs_bind, runs_get. apply runs_bind, runs_modify, runs_ret. destruct (make_step b1 128 S1) as (S2 & R2 & H2).
    apply Hend; [|done|done]. split_and!; [done|by etrans|done].
Qed.

(** Sorting a table: its keys hold the same networks, in order, and the other table
    does not change. *)
Lemma sort_step v4 b A' :
  bsound b -> sorting (tbl v4 b) (map_to_list (tbl v4 b)).*1 (b_arrays b) A' ->
  let b' := set_b_arrays b A' in
  bsound b' /\ rest_same b b' /\
  (forall v spec, holds b v spec -> holds b' v spec /\ (v = v4 \/ all_sorted b v -> all_sorted b' v)).
Proof.
  intros S Hs b'.
  assert (forall v, tbl v b' = tbl v b) as Et by (by intros []).
  assert (forall k, held A' (tbl (negb v4) b) k = held (b_arrays b) (tbl (negb v4) b) k) as Hn.
  { intros k. unfold held. destruct (tbl (negb v4) b !! k) as [s|] eqn:E; [|done].
    apply elements_same, (srt_other _ _ _ _ Hs). intros k' s' Hk'. by eapply apart_tbl. }
  split_and!; [|by constructor|].
  - apply (bsound_nets b); [done|by constructor| | |apply S].
    + apply (srt_cells _ _ _ _ Hs), S.
    + intros v k s Hk. rewrite Et in Hk. apply (srt_valid _ _ _ _ Hs). by eapply S.
  - intros v spec [Ho Hh]. unfold holds, all_sorted. rewrite Et. change (b_arrays b') with A'.
    destruct (Bool.bool_dec v v4) as [->|Hv].
    + split; [split; [done|]|].
      * intros k. rewrite <- Hh. unfold held. destruct (tbl v4 b !! k) as [s|] eqn:E; [|done].
        by rewrite (proj1 (srt_held _ _ _ _ Hs k s Ho E)).
      * intros _ k. unfold held. destruct (tbl v4 b !! k) as [s|] eqn:E; [|by intros i j c d].
        by eapply sorting_all.
    + assert (v = negb v4) as -> by (by destruct v, v4). split; [split; [done|]|].
      * intros k. rewrite Hn. apply Hh.
      * intros [E|Hs'] k; [done|]. rewrite Hn. apply Hs'.
Qed.

Lemma sort_both_runs b :
  bsound b ->
  runs (b ← get_state; sort_all (b_cidrs4 b) ;; sort_all (b_cidrs6 b)) b (fun _ b' =>
    bsound b' /\ rest_same b b' /\ forall v spec, holds b v spec -> holds b' v spec /\ all_sorted b' v).
Proof.
  intros S. apply runs_bind, runs_get. apply runs_bind.
  eapply runs_mono; [by apply sort_all_runs, (bs_valid _ S true)|]. intros [] b1 (A1 & -> & H1).
  destruct (sort_step true b A1 S H1) as (S1 & R1 & L1).
  eapply runs_mono; [by apply (sort_all_runs (b_cidrs6 b)), (bs_valid _ S1 false)|]. intros [] b2 (A2 & -> & H2).
  destruct (sort_step false _ A2 S1 H2) as (S2 & R2 & L2). split_and!; [done|by etrans|].
  intros v spec Hh. destruct (L1 v spec Hh) as [Hh1 Hs1]. destruct (L2 v spec Hh1) as [Hh2 Hs2].
  split; [done|]. apply Hs2. destruct v; [right; auto|by left].
Qed.

(** The tables after the networks [cs]. *)
Definition nets (cs : list pb_Cidr) b : Prop :=
  bsound b /\ forall v, clean v cs -> holds b v (networks v cs) /\ all_sorted b v.

Lemma entries_cidr_for (cidr : pb_Cidr) n hit v k :
  ParseCIDR (cidr_Prefix cidr) = Some n ->
  entries (isIPV4 (cidr_Prefix cidr)) (cidr_epc cidr) (is_wan cidr)
    (mkCidrInfo n (cidr_epc cidr) (cidr_RegionId cidr) (cidr_SubnetId cidr) (cidr_AzId cidr) (is_wan cidr) hit) v k
  = cidr_for v k cidr.
Proof. intros E. unfold entries, cidr_for. by rewrite E. Qed.

Lemma updateCidrInfos_runs cs cidr b :
  nets cs b -> runs (updateCidrInfos cidr) b (fun _ b' => nets (cs ++ [cidr]) b').
Proof.
  intros [S H]. unfold updateCidrInfos. destruct (ParseCIDR (cidr_Prefix cidr)) as [n|] eqn:E.
  2: { apply runs_ret. split; [done|]. intros v [Hc _]%clean_snoc. destruct (H v Hc) as [Hh Hs]. split; [|done].
       eapply holds_ext; [done|]. intros k. rewrite networks_snoc. unfold cidr_for. by rewrite E, app_nil_r. }
  apply new_runs; [done|]. intros b1 S1 Hhit. fold (cidr_epc cidr) (is_wan cidr). set (x := mkCidrInfo _ _ _ _ _ _ _).
  apply runs_bind, add_base_runs. intros bases. set (b2 := set_b_bases b1 bases).
  assert (bsound b2) as S2 by (by apply (bsound_nets b1); [|constructor| | |]; try apply S1).
  apply runs_bind. eapply (runs_mono _ _ (fun _ b' => added (isIPV4 (cidr_Prefix cidr)) (cidr_epc cidr) (is_wan cidr) x b2 b')).
  { destruct (isIPV4 _); [by apply add_cidr4_runs|by apply add_cidr6_runs]. }
  intros [] b3 (S3 & R3 & L3). eapply runs_mono; [by apply sort_both_runs|]. intros [] b4 (S4 & R4 & L4).
  split; [done|]. intros v [Hc Hw]%clean_snoc. destruct (H v Hc) as [Hh _].
  apply L4. eapply holds_ext; [apply L3; [|exact Hh]|].
  - destruct v; [by apply Hw|done].
  - intros k. cbn. by rewrite networks_snoc, <- (entries_cidr_for cidr n (zlen (b_counts b))).
Qed.

(** * Interfaces *)

Definition no_nets b : Prop := b_cidrs4 b = ∅ /\ b_cidrs6 b = ∅.

Lemma bsound_infos b i4 i6 macs :
  bsound b -> let b' := mkBuilding i4 i6 macs (b_bases b) (b_arrays b) (b_cidrs4 b) (b_cidrs6 b) (b_counts b) in
  (forall k i, i4 !! k = Some i -> info_ok (zlen (b_counts b)) i) ->
  (forall k i, i6 !! k = Some i -> info_ok (zlen (b_counts b)) i) ->
  (forall k i, macs !! k = Some i -> info_ok (zlen (b_counts b)) i) -> bsound b'.
Proof. intros [] b' H4 H6 Hm. by constructor. Qed.

Lemma insert_ok `{Countable K} (m : gmap K Info) n k i :
  (forall k i, m !! k = Some i -> info_ok n i) -> info_ok n i ->
  forall k' i', <[k := i]> m !! k' = Some i' -> info_ok n i'.
Proof. intros Hm Hi k' i' [[_ <-]|[_ Hk]]%lookup_insert_Some; [done|]. by eapply Hm. Qed.

(** Interfaces do not touch the networks. *)
Definition infos_step b b' : Prop := bsound b' /\ (no_nets b -> no_nets b').

Lemma new_info_runs b (f : Z -> building -> building) (Q : unit -> building -> Prop) :
  bsound b ->
  (forall b c, bsound b -> 0 <= c < zlen (b_counts b) -> bsound (f c b) /\ (no_nets b -> no_nets (f c b))) ->
  (forall b', infos_step b b' -> Q tt b') ->
  runs (c ← new_uint64; modify (f c)) b Q.
Proof.
  intros S Hf HQ. apply new_runs; [done|]. intros b1 S1 Hc. apply runs_modify, HQ.
  destruct (Hf b1 _ S1 Hc) as [S2 N2]. by split.
Qed.

Lemma step_infos4 k i b c :
  bsound b -> 0 <= c < zlen (b_counts b) -> Info_HitCount i = Some c ->
  bsound (set_b_infos4 b (<[k := i]> (b_infos4 b))) /\ (no_nets b -> no_nets (set_b_infos4 b (<[k := i]> (b_infos4 b)))).
Proof.
  intros S Hc Hi. split; [|done].
  apply bsound_infos; [done|apply insert_ok; [apply S|by exists c]|apply S|apply S].
Qed.

Lemma step_infos6 k i b c :
  bsound b -> 0 <= c < zlen (b_counts b) -> Info_HitCount i = Some c ->
  bsound (set_b_infos6 b (<[k := i]> (b_infos6 b))) /\ (no_nets b -> no_nets (set_b_infos6 b (<[k := i]> (b_infos6 b)))).
Proof.
  intros S Hc Hi. split; [|done].
  apply bsound_infos; [done|apply S|apply insert_ok; [apply S|by exists c]|apply S].
Qed.

Lemma step_macs k i b c :
  bsound b -> 0 <= c < zlen (b_counts b) -> Info_HitCount i = Some c ->
  bsound (set_b_macs b (<[k := i]> (b_macs b))) /\ (no_nets b -> no_nets (set_b_macs b (<[k := i]> (b_macs b)))).
Proof.
  intros S Hc Hi. split; [|done].
  apply bsound_infos; [done|apply S|apply S|apply insert_ok; [apply S|by exists c]].
Qed.

Lemma infos_step_trans b1 b2 b3 : infos_step b1 b2 -> infos_step b2 b3 -> infos_step b1 b3.
Proof. intros [_ N1] [S2 N2]. split; [done|auto]. Qed.

Lemma add_address_runs intf epc r b :
  bsound b -> runs (add_address intf epc r) b (fun _ b' => infos_step b b').
Proof.
  intros S. unfold add_address. destruct (isIPV4 (res_Ip r)).
  - apply new_runs; [done|]. intros b1 S1 Hc. apply runs_bind, runs_modify.
    destruct (step_infos4 (Z.lor (shl 64 epc 32) (IpToUint32 (ParserStringIpV4 (res_Ip r))))
      (intf_info intf epc (res_SubnetId r) (zlen (b_counts b))) b1 _ S1 Hc eq_refl) as [S2 N2].
    case_match; [|by apply runs_ret]. apply (new_info_runs _ (fun c b => _)); [done| |].
    + intros b' c S' Hc'. by eapply step_infos4.
    + intros b' Hb'. by eapply infos_step_trans; [|done].
  - destruct (ParseIP (res_Ip r)) as [ip|]; [|by apply runs_ret].
    apply new_runs; [done|]. intros b1 S1 Hc. apply runs_bind, runs_modify.
    destruct (step_infos6 (key6 epc ip) (intf_info intf epc (res_SubnetId r) (zlen (b_counts b))) b1 _ S1 Hc eq_refl)
      as [S2 N2].
    case_match; [|by apply runs_ret]. apply (new_info_runs _ (fun c b => _)); [done| |].
    + intros b' c S' Hc'. by eapply step_infos6.
    + intros b' Hb'. by eapply infos_step_trans; [|done].
Qed.

Lemma updateInterfaceInfos_runs intf b :
  bsound b -> runs (updateInterfaceInfos intf) b (fun _ b' => infos_step b b').
Proof.
  intros S. unfold updateInterfaceInfos. apply runs_bind, add_base_runs. intros bases.
  assert (bsound (set_b_bases b bases)) as S1 by (by apply (bsound_nets b); [|constructor| | |]; try apply S).
  apply runs_bind. eapply runs_mono.
  - apply (runs_for_each _ (fun _ b' => infos_step b b')) with (seen := []); [|by split].
    intros seen r b' Hb. eapply runs_mono; [by apply add_address_runs, Hb|]. intros [] b2 H2. by eapply infos_step_trans.
  - intros [] b2 H2. apply (new_info_runs _ (fun c b => _)); [apply H2| |].
    + intros b' c S' Hc'. by eapply step_macs.
    + intros b' Hb'. by eapply infos_step_trans.
Qed.

(** * All of the message *)

Lemma nets_nil b : bsound b -> no_nets b -> nets [] b.
Proof.
  intros S [E4 E6]. split; [done|]. intros v _.
  assert (tbl v b = ∅) as Et by (by destruct v). unfold holds, all_sorted. rewrite Et. split; [split|].
  - by intros k k' s s'.
  - intros k. unfold held. by rewrite lookup_empty.
  - intros k. unfold held. rewrite lookup_empty. by intros i j c d.
Qed.

Lemma build_runs (d : pb_PlatformData) cs :
  runs (build d) (new_building cs) (fun _ b => nets (pd_Cidrs d) b).
Proof.
  unfold build. apply runs_bind. eapply runs_mono.
  - apply (runs_for_each _ (fun _ b' => bsound b' /\ no_nets b')) with (seen := []).
    + intros seen intf b [Sb Nb]. eapply runs_mono; [by apply updateInterfaceInfos_runs|]. intros [] b' [S' N']. auto.
    + split; [|done]. constructor; cbn; try done; intros []; done.
  - intros [] b [S N]. apply (runs_for_each _ nets) with (seen := []); [|by apply nets_nil].
    intros seen c b' Hn. by apply updateCidrInfos_runs.
Qed.
End Runtime.
