(* ===== verification/PlatformReload.v ===== *)
(** The platform data over its life: a new table, queries and refreshes in any order.
    No operation panics, the caches do not show in the answers, a refresh installs
    the longest match first, and WAN networks of IPv4 damage the table. *)

From S2P Require Import Prelude Strconv LineProto Ckdb Meter Tag TagMini Document Expand ExpandFacts Lru.
From stdpp Require Import strings sorting.
From S2P Require Import Platform PlatformFacts Networks.

#[local] Open Scope string_scope.
#[local] Open Scope list_scope.
#[local] Open Scope Z_scope.

Section Life.
Context {C4 C6 L : Type} `{!Cache Z lru_value C4} `{!Cache (list Z) lru_value C6} `{!ServiceLabeler L}.
Context `{!CacheLaws Z lru_value C4} `{!CacheLaws (list Z) lru_value C6} `{!LabelerLaws L}.
Context {NT : NetText} {RT : Runtime CidrInfo} {RL : RuntimeLaws CidrInfo}.
Abbreviation P := (Platform C4 C6 L).
Implicit Types (t : P).

(** * Refresh *)

Lemma reload_names_sound r t :
  sound t -> sound (reload_names r t) /\ (exact t -> exact (reload_names r t)) /\
    versionPlatformData (reload_names r t) = versionPlatformData t /\ regionID (reload_names r t) = regionID t /\
    counts (reload_names r t) = counts t.
Proof.
  intros S.
  assert (forall t pods vtaps g, sound t -> sound (set_names t pods vtaps g) /\ (exact t -> exact (set_names t pods vtaps g)))
    as Hnames by (intros t0 pods vtaps g []; split; [by constructor|by intros []]).
  assert (forall t s, sound t -> sound (set_services t (Some (NewGroupLabeler s)) s) /\
    (exact t -> exact (set_services t (Some (NewGroupLabeler s)) s))) as Hsvc.
  { intros t0 s []. split; [|by intros []]. constructor; cbn; try done. intros l [= <-]. apply labeler_New. }
  unfold reload_names. set (t1 := if negb _ then _ else t).
  assert (sound t1 /\ (exact t -> exact t1) /\ versionPlatformData t1 = versionPlatformData t /\
    regionID t1 = regionID t /\ counts t1 = counts t) as (S1 & X1 & V1 & R1 & K1).
  { subst t1. case_match; [|done]. destruct (resp_Groups r); cbn; [|done|];
      match goal with |- context [set_services t (Some (NewGroupLabeler ?s)) ?s] => destruct (Hsvc t s S) as [S' X'] end;
      (split_and!; [by apply Hnames|intros X; apply Hnames; auto|done..]). }
  clearbody t1. destruct (resp_VtapIps r) as [|v vs], (resp_PodIps r) as [|p ps]; cbn; split_and!; try done;
    try (intros X; apply X1 in X); by repeat apply Hnames.
Qed.

Lemma empty_exact t :
  (forall k v, ~ cached (epcIDIPV4Lru t) k v) -> (forall k v, ~ cached (epcIDIPV6Lru t) k v) -> exact t.
Proof. intros N4 N6. constructor; intros epc ip v _ _ Hc; [by apply N4 in Hc|by apply N6 in Hc]. Qed.

Lemma new_table_sound :
  exists t, NewPlatformInfoTable (L := L) = Some (t : P) /\ sound t /\ exact t /\ versionPlatformData t = 0.
Proof.
  unfold NewPlatformInfoTable.
  destruct (cache_New (K:=Z) (V:=lru_value) (C:=C4)) as (c4 & E4 & O4 & N4). rewrite E4. cbn.
  destruct (cache_New (K:=list Z) (V:=lru_value) (C:=C6)) as (c6 & E6 & O6 & N6). rewrite E6. cbn.
  eexists. split; [done|]. split_and!; [|by apply empty_exact|done].
  constructor; cbn; try done; intros k v Hc; [by apply N4 in Hc|by apply N6 in Hc].
Qed.

Lemma install_sound t region version peers b c4 c6 :
  bsound b -> sound t -> cache_ok c4 -> cache_ok c6 -> (forall k v, ~ cached c4 k v) -> (forall k v, ~ cached c6 k v) ->
  sound (install t region version peers b c4 c6) /\ exact (install t region version peers b c4 c6).
Proof.
  intros Sb S O4 O6 N4 N6. split; [|by apply empty_exact].
  constructor; cbn; [done|done|intros k v Hc; by apply N4 in Hc|intros k v Hc; by apply N6 in Hc|apply Sb|apply Sb|apply Sb| | |apply S].
  - intros e l c He Hc. apply lookup_fmap_Some in He as (s & <- & _). exists (Cidr_HitCount c). split; [done|].
    by eapply cells_elements, Hc; apply Sb.
  - intros e l c He Hc. apply lookup_fmap_Some in He as (s & <- & _). exists (Cidr_HitCount c). split; [done|].
    by eapply cells_elements, Hc; apply Sb.
Qed.

(** The data of a response that is to be installed. *)
Definition new_data (r : pb_SyncResponse) t : option pb_PlatformData :=
  if negb (resp_Success r) || (resp_VersionPlatformData r =? versionPlatformData t) then None
  else match resp_PlatformData r with
       | CBroken => None
       | CAbsent => Some (mkpb_PlatformData [] [] [])
       | CData d => Some d
       end.

Lemma Reload_runs response t :
  sound t -> runs (Reload response) t (fun ok t' =>
    sound t' /\ (exact t -> exact t') /\
    forall r d, response = Some r -> new_data r t = Some d ->
      ok = true /\ regionID t' = default (regionID t) (resp_RegionId r) /\
      versionPlatformData t' = resp_VersionPlatformData r /\
      exists b, build d (new_building (counts t)) = Some (tt, b) /\
        epcIDIPV4CidrInfos t' = elements (b_arrays b) <$> b_cidrs4 b /\
        epcIDIPV6CidrInfos t' = elements (b_arrays b) <$> b_cidrs6 b).
Proof.
  intros S. destruct response as [r|]; [|by apply runs_ret]. unfold Reload.
  destruct (resp_Success r) eqn:Es; cbn [negb].
  2: { apply runs_ret. split_and!; [done|done|]. intros r' d [= <-]. unfold new_data. by rewrite Es. }
  apply runs_bind, runs_modify. apply runs_bind, runs_get.
  destruct (reload_names_sound r t S) as (S1 & X1 & V1 & R1 & K1). set (t1 := reload_names r t) in *. clearbody t1. rewrite V1.
  destruct (resp_VersionPlatformData r =? versionPlatformData t) eqn:Ev.
  { apply runs_ret. split_and!; [done|done|]. intros r' d [= <-]. unfold new_data. by rewrite Es, Ev. }
  assert (forall d, runs (b ← of_option (build d (new_building (counts t1)));
      c4 ← of_option lru_New; c6 ← of_option lru_New;
      modify (fun t => install t (default (regionID t1) (resp_RegionId r)) (resp_VersionPlatformData r)
        (updatePeerConnections (pd_PeerConnections d)) b.2 c4 c6) ;; mret true) t1 (fun ok t' =>
    sound t' /\ exact t' /\ ok = true /\ regionID t' = default (regionID t) (resp_RegionId r) /\
      versionPlatformData t' = resp_VersionPlatformData r /\
      exists b, build d (new_building (counts t)) = Some (tt, b) /\
        epcIDIPV4CidrInfos t' = elements (b_arrays b) <$> b_cidrs4 b /\
        epcIDIPV6CidrInfos t' = elements (b_arrays b) <$> b_cidrs6 b)) as Hd.
  { intros d. pose proof (build_runs d (counts t1)) as Hb. unfold runs in Hb.
    destruct (build d (new_building (counts t1))) as [[[] b]|] eqn:Eb; [|done].
    destruct (cache_New (K:=Z) (V:=lru_value) (C:=C4)) as (c4 & E4 & O4 & N4).
    destruct (cache_New (K:=list Z) (V:=lru_value) (C:=C6)) as (c6 & E6 & O6 & N6).
    apply runs_bind, (runs_of_option _ (tt, b)); [done|]. apply runs_bind, (runs_of_option _ c4); [done|].
    apply runs_bind, (runs_of_option _ c6); [done|]. apply runs_bind, runs_modify, runs_ret.
    edestruct install_sound as [S2 X2]; [apply Hb|exact S1|exact O4|exact O6|exact N4|exact N6|].
    split_and!; [exact S2|exact X2|done|by rewrite <- R1|done|]. exists b. by rewrite <- K1. }
  destruct (resp_PlatformData r) as [| |d] eqn:Ed.
  - eapply runs_mono; [apply Hd|]. intros ok t' (? & ? & ? & ? & ? & ?). split_and!; [done|done|].
    intros r' d [= <-]. unfold new_data. rewrite Es, Ev, Ed. by intros [= <-].
  - apply runs_ret. split_and!; [done|done|]. intros r' d [= <-]. unfold new_data. by rewrite Es, Ev, Ed.
  - eapply runs_mono; [apply Hd|]. intros ok t' (? & ? & ? & ? & ? & ?). split_and!; [done|done|].
    intros r' d' [= <-]. unfold new_data. rewrite Es, Ev, Ed. by intros [= <-].
Qed.

(** * Operations in any order *)

Inductive operation :=
| OpIPV4 (epc ip : Z)
| OpIPV6 (epc : Z) (ip : list Z)
| OpIPV4Pair (epc ip epc1 ip1 : Z)
| OpIPV6Pair (epc : Z) (ip : list Z) (epc1 : Z) (ip1 : list Z)
| OpMac (mac : Z)
| OpMacPair (mac mac1 : Z)
| OpService (epc ip proto port : Z)
| OpServiceIPv6 (epc : Z) (ip : list Z) (proto port : Z)
| OpVtapEpc1 (vtap : Z) (isIPv4 : bool) (ip4 : Z) (ip6 : list Z)
| OpOtherRegion
| OpReload (response : option pb_SyncResponse).

Definition run_op (o : operation) : M C4 C6 L unit :=
  match o with
  | OpIPV4 epc ip => QueryIPV4Infos epc ip ;; mret tt
  | OpIPV6 epc ip => QueryIPV6Infos epc ip ;; mret tt
  | OpIPV4Pair epc ip epc1 ip1 => QueryIPV4InfosPair epc ip epc1 ip1 ;; mret tt
  | OpIPV6Pair epc ip epc1 ip1 => QueryIPV6InfosPair epc ip epc1 ip1 ;; mret tt
  | OpMac mac => queryMacInfo mac ;; mret tt
  | OpMacPair mac mac1 => queryMacInfosPair mac mac1 ;; mret tt
  | OpService epc ip proto port => QueryIsKeyServiceAndID epc ip proto port ;; mret tt
  | OpServiceIPv6 epc ip proto port => QueryIPv6IsKeyServiceAndID epc ip proto port ;; mret tt
  | OpVtapEpc1 vtap v4 ip4 ip6 => QueryVtapEpc1 vtap v4 ip4 ip6 ;; mret tt
  | OpOtherRegion => modify AddOtherRegion
  | OpReload response => Reload response ;; mret tt
  end.

(** Arguments are in the ranges of their types; an IPv6 address has 16 bytes. *)
Definition op_ok (o : operation) : Prop :=
  match o with
  | OpIPV4 epc ip => is_i 16 epc /\ is_u 32 ip
  | OpIPV6 epc ip => is_i 16 epc /\ ip6_ok ip
  | OpIPV4Pair epc ip epc1 ip1 => (is_i 16 epc /\ is_u 32 ip) /\ is_i 16 epc1 /\ is_u 32 ip1
  | OpIPV6Pair epc ip epc1 ip1 => (is_i 16 epc /\ ip6_ok ip) /\ is_i 16 epc1 /\ ip6_ok ip1
  | OpVtapEpc1 _ _ ip4 ip6 => is_u 32 ip4 /\ ip6_ok ip6
  | _ => True
  end.

Lemma good_op {A} R (m : M C4 C6 L A) Q t :
  good R m Q -> R -> sound t -> exact t -> runs (m ;; mret tt) t (fun _ t' => sound t' /\ exact t').
Proof.
  intros Hm HR S X. apply runs_bind. eapply runs_mono; [by apply Hm|]. intros a t' (S' & _ & X').
  apply runs_ret. split; [done|]. by apply X'.
Qed.

Lemma run_op_ok o t : op_ok o -> sound t -> exact t -> runs (run_op o) t (fun _ t' => sound t' /\ exact t').
Proof.
  intros Ho S X. destruct o; cbn [run_op op_ok] in *.
  - by eapply good_op; [apply QueryIPV4Infos_good|..].
  - by eapply good_op; [apply QueryIPV6Infos_good|..].
  - by eapply good_op; [apply QueryIPV4InfosPair_good|..].
  - by eapply good_op; [apply QueryIPV6InfosPair_good|..].
  - by eapply good_op; [apply queryMacInfo_good|..].
  - by eapply good_op; [apply queryMacInfosPair_good|..].
  - by eapply good_op; [apply QueryIsKeyServiceAndID_good|..].
  - by eapply good_op; [apply QueryIPv6IsKeyServiceAndID_good|..].
  - by eapply good_op; [apply QueryVtapEpc1_good|..].
  - apply runs_modify. split; [by apply AddOtherRegion_sound|by destruct X].
  - apply runs_bind. eapply runs_mono; [by apply Reload_runs|]. intros ok t' (S' & X' & _). apply runs_ret. auto.
Qed.

(** Every query returns what the tables say, without a look at the caches. *)
Record answers_exact t : Prop := {
  ax_IPV4 epc ip : is_i 16 epc -> is_u 32 ip -> runs (QueryIPV4Infos epc ip) t (fun r _ => r = answer4 t epc ip);
  ax_IPV6 epc ip : is_i 16 epc -> ip6_ok ip -> runs (QueryIPV6Infos epc ip) t (fun r _ => r = answer6 t epc ip);
  ax_IPV4Pair epc ip epc1 ip1 : is_i 16 epc -> is_u 32 ip -> is_i 16 epc1 -> is_u 32 ip1 ->
    runs (QueryIPV4InfosPair epc ip epc1 ip1) t (fun r _ => r = (answer4 t epc ip, answer4 t epc1 ip1));
  ax_IPV6Pair epc ip epc1 ip1 : is_i 16 epc -> ip6_ok ip -> is_i 16 epc1 -> ip6_ok ip1 ->
    runs (QueryIPV6InfosPair epc ip epc1 ip1) t (fun r _ => r = (answer6 t epc ip, answer6 t epc1 ip1));
  ax_Mac mac : runs (queryMacInfo mac) t (fun r _ => r = macInfos t !! mac);
  ax_MacPair mac mac1 : runs (queryMacInfosPair mac mac1) t (fun r _ => r = (macInfos t !! mac, macInfos t !! mac1));
  ax_VtapEpc1 vtap v4 ip4 ip6 : is_u 32 ip4 -> ip6_ok ip6 ->
    runs (QueryVtapEpc1 vtap v4 ip4 ip6) t (fun r _ => r = epc1_spec t vtap v4 ip4 ip6)
}.

Lemma good_answer {A} (R : Prop) (m : M C4 C6 L A) (f : P -> A) t :
  good R m (fun t r => r = f t) -> R -> sound t -> exact t -> runs m t (fun r _ => r = f t).
Proof. intros Hm HR S X. eapply runs_mono; [by apply Hm|]. intros a t' (_ & _ & X'). by apply X'. Qed.

Lemma exact_answers t : sound t -> exact t -> answers_exact t.
Proof.
  intros S X. constructor; intros.
  - by apply (good_answer _ _ (fun t => answer4 t epc ip) t (QueryIPV4Infos_good epc ip)).
  - by apply (good_answer _ _ (fun t => answer6 t epc ip) t (QueryIPV6Infos_good epc ip)).
  - by apply (good_answer _ _ (fun t => (answer4 t epc ip, answer4 t epc1 ip1)) t (QueryIPV4InfosPair_good epc ip epc1 ip1)).
  - by apply (good_answer _ _ (fun t => (answer6 t epc ip, answer6 t epc1 ip1)) t (QueryIPV6InfosPair_good epc ip epc1 ip1)).
  - by apply (good_answer _ _ (fun t => macInfos t !! mac) t (queryMacInfo_good mac)).
  - by apply (good_answer _ _ (fun t => (macInfos t !! mac, macInfos t !! mac1)) t (queryMacInfosPair_good mac mac1)).
  - by apply (good_answer _ _ (fun t => epc1_spec t vtap v4 ip4 ip6) t (QueryVtapEpc1_good vtap v4 ip4 ip6)).
Qed.

(** C16: from a new table, any sequence of queries and refreshes runs without a panic,
    whatever the responses of the controller are, and after it every query returns
    what the tables of interfaces, networks and regions say: what the caches hold
    never shows, the query for a pair is two single queries, and the network of the
    other end of a flow is the first candidate that has the address. *)
Theorem platform_queries (ops : list operation) :
  Forall op_ok ops ->
  exists t0, NewPlatformInfoTable = Some t0 /\
    runs (for_each run_op ops) t0 (fun _ t => answers_exact t).
Proof.
  intros Hops. destruct new_table_sound as (t0 & E0 & S0 & X0 & _). exists t0. split; [done|].
  clear E0. revert t0 S0 X0. induction Hops as [|o ops Ho _ IH]; intros t S X; cbn [for_each].
  - apply runs_ret. by apply exact_answers.
  - apply runs_bind. eapply runs_mono; [by apply run_op_ok|]. intros [] t' [S' X']. by apply IH.
Qed.

(** * Longest match *)

(** [r] describes a network of [l] with the longest mask of those that contain the
    address, and is nil when none does. *)
Definition longest (l : list CidrInfo) (ip : list Z) (r : option Info) : Prop :=
  match r with
  | Some i => exists c hit, c ∈ l /\ Contains (Cidr_Cidr c) ip = true /\
      (forall d, d ∈ l -> Contains (Cidr_Cidr d) ip = true ->
        mask_ones (net_Mask (Cidr_Cidr d)) <= mask_ones (net_Mask (Cidr_Cidr c))) /\
      i = mkInfo 0 0 0 "" 0 0 (Cidr_RegionID c) 0 0 (Cidr_SubnetID c) 0 0 0 0 0 (Cidr_AZID c) false false (Some hit)
  | None => forall c, c ∈ l -> Contains (Cidr_Cidr c) ip = false
  end.

Lemma find_first {A} (f : A -> bool) l x :
  List.find f l = Some x -> exists i, l !! i = Some x /\ f x = true /\
    forall j y, (j < i)%nat -> l !! j = Some y -> f y = false.
Proof.
  induction l as [|z l IH]; [done|]. cbn. destruct (f z) eqn:E.
  - intros [= <-]. exists 0%nat. split_and!; [done|done|]. lia.
  - intros (i & Hi & Hx & Hj)%IH. exists (S i). split_and!; [done|done|]. intros [|j] y Hlt Hy; cbn in Hy.
    + by simplify_eq.
    + eapply Hj; [|done]. lia.
Qed.

Lemma find_longest (l : list CidrInfo) spec ip :
  strip <$> l ≡ₚ spec -> sorted l ->
  longest spec ip (cidr_info <$> List.find (fun c => Contains (Cidr_Cidr c) ip) l).
Proof.
  intros Hp Hs. assert (forall c, c ∈ spec <-> exists d, c = strip d /\ d ∈ l) as Hin.
  { intros c. rewrite <- Hp, list_elem_of_fmap. done. }
  destruct (List.find _ l) as [c|] eqn:E; cbn.
  - apply find_first in E as (i & Hi & Hc & Hbefore). exists (strip c), (Cidr_HitCount c). split_and!; [|done| |done].
    + apply Hin. exists c. split; [done|]. by eapply list_elem_of_lookup_2.
    + intros d (d' & -> & [j Hj]%list_elem_of_lookup)%Hin Hd. cbn [strip Cidr_Cidr] in Hd |- *.
      destruct (decide (j < i)%nat) as [Hlt|]; [specialize (Hbefore j d' Hlt Hj); cbn beta in Hbefore; congruence|].
      destruct (decide (i = j)) as [->|]; [by simplify_eq; lia|].
      assert (longer d' c = false) as Hl by (apply (Hs i j); [done|done|lia]). unfold longer in Hl. lia.
  - intros c (d & -> & Hd)%Hin. apply (List.find_none _ _ E d). by apply list_elem_of_In.
Qed.

Lemma held_installed (A : arrays) (m : gmap Z slice) e :
  default [] ((elements A <$> m) !! e) = held A m e.
Proof. unfold held. rewrite lookup_fmap. by destruct (m !! e). Qed.

(** C20: a refresh with new data installs, for every key, exactly the networks that
    the data has for it, and a query finds the one with the longest mask of those that
    contain the address, or none when none does.  This holds of the IPv6 table, and of
    the IPv4 table when no IPv4 network is a WAN network. *)
Theorem networks_longest_match t r d :
  sound t -> new_data r t = Some d ->
  runs (Reload (Some r)) t (fun ok t' =>
    ok = true /\
    (forall e ip, longest (networks false (pd_Cidrs d) e) ip (queryIPV6Cidr t' e ip)) /\
    (Forall (fun c => isIPV4 (cidr_Prefix c) && is_wan c = false) (pd_Cidrs d) ->
      forall e ip, longest (networks true (pd_Cidrs d) e) (IpFromUint32 ip) (queryIPV4Cidr t' e ip))).
Proof.
  intros S Hd. eapply runs_mono; [by apply Reload_runs|]. intros ok t' (_ & _ & H).
  destruct (H r d eq_refl Hd) as (-> & _ & _ & b & Eb & E4 & E6). clear H.
  pose proof (build_runs d (counts t)) as Hn. unfold runs in Hn. rewrite Eb in Hn. destruct Hn as [_ Hn].
  split_and!; [done| |].
  - intros e ip. destruct (Hn false) as [[_ Hh] Hs]; [done|]. unfold queryIPV6Cidr. rewrite E6.
    pose proof (find_longest _ _ ip (Hh e) (Hs e)) as Hl. rewrite <- held_installed in Hl. cbn [tbl] in Hl.
    by destruct ((elements (b_arrays b) <$> b_cidrs6 b) !! e).
  - intros Hc e ip. destruct (Hn true) as [[_ Hh] Hs]; [by intros _|]. unfold queryIPV4Cidr. rewrite E4.
    pose proof (find_longest _ _ (IpFromUint32 ip) (Hh e) (Hs e)) as Hl. rewrite <- held_installed in Hl. cbn [tbl] in Hl.
    by destruct ((elements (b_arrays b) <$> b_cidrs4 b) !! e).
Qed.

End Life.

(** * Instances *)

(** A cache that forgets nothing. *)
Definition alist_Cache {K V} `{EqDecision K} : Cache K V (list (K * V)) := {|
  lru_New := Some [];
  lru_Get k := fun c => Some (snd <$> List.find (fun x => bool_decide (x.1 = k)) c, c);
  lru_Add k v := modify (fun c => (k, v) :: c)
|}.

#[refine] Definition alist_laws {K V} `{EqDecision K} : @CacheLaws K V _ alist_Cache :=
  @Build_CacheLaws K V _ alist_Cache (fun _ => True)
    (fun c k v => snd <$> List.find (fun x => bool_decide (x.1 = k)) c = Some v) _ _ _.
Proof.
  - exists []. split_and!; [done|done|]. by intros k v [=].
  - intros k c _. unfold runs. cbn. by split_and!.
  - intros k v c _. apply runs_modify. split; [done|]. intros k' v' Hc. cbn in Hc.
    destruct (decide (k = k')) as [->|Hne].
    + left. rewrite bool_decide_eq_true_2 in Hc by done. by injection Hc.
    + right. rewrite bool_decide_eq_false_2 in Hc by done. by split.
Defined.

(** A labeler that finds the first service for everything. *)
Definition first_Labeler : ServiceLabeler Z := {|
  NewGroupLabeler s := zlen s;
  QueryServer _ _ _ _ _ := fun l => Some (if 0 <? l then [0] else [], l);
  QueryServerIPv6 _ _ _ _ _ := fun l => Some (if 0 <? l then [0] else [], l)
|}.

#[refine] Definition first_laws : @LabelerLaws Z first_Labeler :=
  @Build_LabelerLaws Z first_Labeler (fun l n => l = n) _ _ _.
Proof.
  - done.
  - intros epc ip pod proto port l n ->. unfold runs. cbn. split; [done|].
    destruct (0 <? n) eqn:E; [|constructor]. apply Forall_singleton. lia.
  - intros epc ip pod proto port l n ->. unfold runs. cbn. split; [done|].
    destruct (0 <? n) eqn:E; [|constructor]. apply Forall_singleton. lia.
Defined.

(** Parsers that know some texts. *)
Definition some_NetText : NetText := {|
  ParseIP s :=
    if (s =? "10.1.2.3")%string then Some (replicate 10 0 ++ [255; 255; 10; 1; 2; 3])
    else if (s =? "2001:db8::1")%string then Some ([32; 1; 13; 184] ++ replicate 11 0 ++ [1]) else None;
  ParseCIDR s :=
    if (s =? "10.1.2.0/24")%string then Some (mkIPNet [10; 1; 2; 0] [255; 255; 255; 0])
    else if (s =? "10.1.0.0/16")%string then Some (mkIPNet [10; 1; 0; 0] [255; 255; 0; 0])
    else if (s =? "203.0.113.8/32")%string then Some (mkIPNet [203; 0; 113; 8] [255; 255; 255; 255])
    else if (s =? "2001:db8::/32")%string then
      Some (mkIPNet ([32; 1; 13; 184] ++ replicate 12 0) (replicate 4 255 ++ replicate 12 0))
    else None
|}.

(** Blocks of the pool for the cache of [hmap/lru]. *)
Definition blank_block (m : U64LRU lru_value) : list (u64LRUNode lru_value) :=
  replicate (Z.to_nat BLOCK_SIZE) blankU64LRUNodeForInit.

(** * WAN networks of IPv4 *)

Section Wan.
Context {C4 C6 L : Type} `{!Cache Z lru_value C4} `{!Cache (list Z) lru_value C6} `{!ServiceLabeler L}.
Context `{!CacheLaws Z lru_value C4} `{!CacheLaws (list Z) lru_value C6} `{!LabelerLaws L}.
Context {NT : NetText} {RT : Runtime CidrInfo} {RL : RuntimeLaws CidrInfo}.
Abbreviation P := (Platform C4 C6 L).

(** The sort has one result when no two networks have masks of the same length. *)
Lemma sort_unique (l r : list CidrInfo) :
  r ≡ₚ l -> sorted r ->
  (forall c d, c ∈ l -> d ∈ l -> mask_ones (net_Mask (Cidr_Cidr c)) = mask_ones (net_Mask (Cidr_Cidr d)) -> c = d) ->
  sort_Slice longer l = r.
Proof.
  intros Hp Hr Hinj. apply (StronglySorted_unique_strong (fun c d => longer d c = false)).
  - intros c d Hc Hd H1 H2. apply Hinj; [by rewrite <- (sort_perm longer l)|by rewrite <- Hp|]. unfold longer in *. lia.
  - apply StronglySorted_lookup. apply sort_is_sorted.
  - by apply StronglySorted_lookup.
  - by rewrite sort_perm.
Qed.

Definition shape (A : arrays) (m : gmap Z slice) (b : building) : Prop :=
  b_arrays b = A /\ b_cidrs4 b = m /\ b_cidrs6 b = ∅.

Lemma sort_cidrs_shape A m b s a (r : list CidrInfo) :
  shape A m b -> A !! s_array s = Some a -> sort_Slice longer (elements A s) = r ->
  runs (sort_cidrs s) b (fun _ b' => shape (<[s_array s := (Some <$> r) ++ drop (s_len s) a]> A) m b').
Proof.
  intros (EA & Em & E6) Ha Hr. apply runs_modify. split_and!; [|done|done]. cbn. rewrite EA, Hr.
  by rewrite (alter_insert _ _ _ a).
Qed.

Lemma updateCidrInfos_shape A m A2 m2 A3 cidr n b :
  ParseCIDR (cidr_Prefix cidr) = Some n -> isIPV4 (cidr_Prefix cidr) = true -> shape A m b ->
  (forall b1, shape A m b1 -> runs (add_cidr4 (cidr_epc cidr) (is_wan cidr)
     (mkCidrInfo n (cidr_epc cidr) (cidr_RegionId cidr) (cidr_SubnetId cidr) (cidr_AzId cidr) (is_wan cidr) (zlen (b_counts b))))
     b1 (fun _ b2 => shape A2 m2 b2)) ->
  (forall b2, shape A2 m2 b2 -> runs (sort_all m2) b2 (fun _ b3 => shape A3 m2 b3)) ->
  runs (updateCidrInfos cidr) b (fun _ b' => shape A3 m2 b').
Proof.
  intros Hn H4 (EA & Em & E6) Hadd Hsort. unfold updateCidrInfos. rewrite Hn, H4.
  apply runs_bind. apply runs_bind, runs_get. apply runs_bind, runs_modify, runs_ret.
  fold (cidr_epc cidr) (is_wan cidr). apply runs_bind, add_base_runs. intros bases. apply runs_bind.
  eapply runs_mono; [by apply Hadd|]. intros [] b2 (EA2 & Em2 & E62).
  apply runs_bind, runs_get. apply runs_bind. rewrite Em2. eapply runs_mono; [by apply Hsort|].
  intros [] b3 S3. rewrite E62. unfold sort_all. rewrite map_to_list_empty. cbn [fmap list_fmap].
  assert (range_keys [] = []) as -> by (apply Permutation_nil_r, range_perm). by apply runs_ret.
Qed.

Lemma append_room {R} A m b s x a (f : slice -> B R) Q :
  shape A m b -> A !! s_array s = Some a -> (s_len s < length a)%nat ->
  (forall b', shape (<[s_array s := <[s_len s := Some x]> a]> A) m b' ->
    runs (f (mkSlice (s_array s) (S (s_len s)))) b' Q) ->
  runs (s' ← append_slice s x; f s') b Q.
Proof.
  intros (EA & Em & E6) Ha Hl Hf. apply runs_bind. apply runs_bind, runs_get.
  apply runs_bind, (runs_of_option _ a); [by rewrite EA|]. destruct (Nat.ltb_spec (s_len s) (length a)); [|lia].
  apply runs_bind, runs_modify, runs_ret, Hf. split_and!; [cbn; by rewrite ?EA|done|done].
Qed.

Lemma append_full {R} A m b s x a (f : slice -> B R) Q :
  shape A m b -> A !! s_array s = Some a -> s_len s = length a ->
  (forall b', shape (A ++ [a ++ Some x :: replicate (grow (length a) - S (length a)) None]) m b' ->
    runs (f (mkSlice (length A) (S (length a)))) b' Q) ->
  runs (s' ← append_slice s x; f s') b Q.
Proof.
  intros (EA & Em & E6) Ha Hl Hf. apply runs_bind. apply runs_bind, runs_get.
  apply runs_bind, (runs_of_option _ a); [by rewrite EA|]. rewrite Hl, Nat.ltb_irrefl.
  apply runs_bind, runs_modify, runs_ret. rewrite EA. apply Hf. split_and!; [cbn; by rewrite ?EA, firstn_all|done|done].
Qed.

Lemma make_shape {R} A m b k n (f : slice -> B R) Q :
  shape A m b -> m !! k = None ->
  (forall b', shape (A ++ [replicate n None]) m b' -> runs (f (mkSlice (length A) 0)) b' Q) ->
  runs (s ← slice_of m k n; f s) b Q.
Proof.
  intros (EA & Em & E6) Hk Hf. unfold slice_of. rewrite Hk. apply runs_bind. apply runs_bind, runs_get.
  apply runs_bind, runs_modify, runs_ret. rewrite EA. apply Hf. split_and!; [cbn; by rewrite ?EA|done|done].
Qed.

Lemma found_slice {R} m b k n s (f : slice -> B R) Q :
  m !! k = Some s -> runs (f s) b Q -> runs (s ← slice_of m k n; f s) b Q.
Proof. intros Hk Hf. unfold slice_of. rewrite Hk. by apply runs_bind, runs_ret. Qed.

Lemma set_shape A m b k s (Q : unit -> building -> Prop) :
  shape A m b -> (forall b', shape A (<[k := s]> m) b' -> Q tt b') ->
  runs (modify (fun b => set_b_cidrs b (<[k := s]> (b_cidrs4 b)) (b_cidrs6 b))) b Q.
Proof. intros (EA & Em & E6) HQ. apply runs_modify, HQ. split_and!; [done|cbn; by rewrite Em|done]. Qed.

(** Two networks of the VPC 7 and a WAN network of it. *)
Definition lan24 : pb_Cidr := mkpb_Cidr "10.1.2.0/24" 2 7 1 1 1.
Definition lan16 : pb_Cidr := mkpb_Cidr "10.1.0.0/16" 2 7 2 1 1.
Definition wan32 : pb_Cidr := mkpb_Cidr "203.0.113.8/32" 1 7 3 1 1.

Definition net24 : IPNet := mkIPNet [10; 1; 2; 0] [255; 255; 255; 0].
Definition net16 : IPNet := mkIPNet [10; 1; 0; 0] [255; 255; 0; 0].
Definition net32 : IPNet := mkIPNet [203; 0; 113; 8] [255; 255; 255; 255].

Definition c24 (hit : Z) : CidrInfo := mkCidrInfo net24 7 1 1 1 false hit.
Definition c16 (hit : Z) : CidrInfo := mkCidrInfo net16 7 1 2 1 false hit.
Definition c32 (hit : Z) : CidrInfo := mkCidrInfo net32 7 1 3 1 true hit.

Ltac sort_three := apply sort_unique;
  [ | intros [|[|[|[|?]]]] [|[|[|[|?]]]] ? ? ? ? ?; cbn in *; simplify_eq; try lia; done
    | intros ? ?; rewrite !elem_of_cons, !elem_of_nil; intros; destruct_or?; subst; cbn in *; done ].


Lemma range_one k (s : slice) : range_keys (map_to_list ({[k := s]} : gmap Z slice)).*1 = [k].
Proof. apply Permutation_singleton_r. rewrite range_perm, map_to_list_singleton. done. Qed.

Lemma sort_one A b (s : slice) a k r :
  A !! s_array s = Some a -> sort_Slice longer (elements A s) = r -> shape A {[k := s]} b ->
  runs (sort_all {[k := s]}) b (fun _ b' => shape (<[s_array s := (Some <$> r) ++ drop (s_len s) a]> A) {[k := s]} b').
Proof.
  intros Ha Hr Hs. unfold sort_all. rewrite range_one. cbn [for_each]. rewrite lookup_singleton_eq.
  apply runs_bind. eapply runs_mono; [by apply sort_cidrs_shape|]. intros [] b' Hb. by apply runs_ret.
Qed.

Lemma add_lan24 b :
  ParseCIDR "10.1.2.0/24" = Some net24 -> shape [] ∅ b ->
  runs (updateCidrInfos lan24) b (fun _ b' => exists h, shape [[Some (c24 h)]] {[7 := mkSlice 0 1]} b').
Proof.
  intros Hp Hs. set (x := c24 (zlen (b_counts b))).
  eapply runs_mono; [eapply (updateCidrInfos_shape [] ∅ [[Some x]] {[7 := mkSlice 0 1]} [[Some x]] lan24 net24 b)|];
    [done|done|done| | |by eexists].
  - intros b1 S1. apply runs_bind, runs_get. rewrite (proj1 (proj2 S1)).
    apply (make_shape _ _ _ _ _ _ _ S1); [done|]. intros b2 S2.
    apply (append_room _ _ _ _ _ [None] _ _ S2); [done|cbn; lia|]. intros b3 S3.
    apply runs_bind, (set_shape _ _ _ _ _ _ S3). intros b4 S4. by apply runs_ret.
  - intros b2 S2. apply (sort_one [[Some x]] b2 (mkSlice 0 1) [Some x] 7 [x]); [done| |done]. cbn. sort_three. done.
Qed.

Lemma add_lan16 b h :
  ParseCIDR "10.1.0.0/16" = Some net16 -> grow 1 = 2%nat -> shape [[Some (c24 h)]] {[7 := mkSlice 0 1]} b ->
  runs (updateCidrInfos lan16) b (fun _ b' => exists h h',
    shape [[Some (c24 h)]; [Some (c24 h); Some (c16 h')]] {[7 := mkSlice 1 2]} b').
Proof.
  intros Hp Hg Hs. set (x := c16 (zlen (b_counts b))). set (A := [[Some (c24 h)]; [Some (c24 h); Some x]]).
  eapply runs_mono; [eapply (updateCidrInfos_shape _ _ A {[7 := mkSlice 1 2]} A lan16 net16 b)|];
    [done|done|done| | |intros [] ? ?; by eexists _, _].
  - intros b1 S1. apply runs_bind, runs_get. rewrite (proj1 (proj2 S1)).
    eapply found_slice; [done|].
    apply (append_full _ _ _ _ _ [Some (c24 h)] _ _ S1); [done|done|]. cbn. rewrite Hg. intros b3 S3.
    apply runs_bind, (set_shape _ _ _ _ _ _ S3). intros b4 S4. apply runs_ret. by rewrite insert_singleton_eq in S4.
  - intros b2 S2. apply (sort_one A b2 (mkSlice 1 2) [Some (c24 h); Some x] 7 [c24 h; x]); [done| |done]. cbn. sort_three. done.
Qed.

Lemma add_wan32 b h h' :
  ParseCIDR "203.0.113.8/32" = Some net32 -> grow 2 = 4%nat ->
  shape [[Some (c24 h)]; [Some (c24 h); Some (c16 h')]] {[7 := mkSlice 1 2]} b ->
  runs (updateCidrInfos wan32) b (fun _ b' => exists h h'', held (b_arrays b') (b_cidrs4 b') 7 = [c32 h''; c32 h''; c24 h]).
Proof.
  intros Hp Hg Hs. set (x := c32 (zlen (b_counts b))).
  set (A a := [[Some (c24 h)]; [Some (c24 h); Some (c16 h')]; a; replicate 128 None]).
  set (m := <[0 := mkSlice 2 4]> (<[7 := mkSlice 2 3]> ∅) : gmap Z slice).
  eapply runs_mono; [eapply (updateCidrInfos_shape _ _ (A [Some (c24 h); Some (c16 h'); Some x; Some x]) m
    (A [Some x; Some x; Some (c24 h); Some (c16 h')]) wan32 net32 b)|]; [done|done|done| | |].
  - intros b1 S1. apply runs_bind, runs_get. rewrite (proj1 (proj2 S1)).
    eapply found_slice; [done|].
    apply (append_full _ _ _ _ _ [Some (c24 h); Some (c16 h')] _ _ S1); [done|done|]. cbn. rewrite Hg. intros b3 S3.
    apply runs_bind, (set_shape _ _ _ _ _ _ S3). intros b4 S4. apply runs_bind, runs_get. rewrite (proj1 (proj2 S4)).
    apply (make_shape _ _ _ _ _ _ _ S4); [done|]. intros b5 S5.
    apply (append_room _ _ _ _ _ [Some (c24 h); Some (c16 h'); Some x; None] _ _ S5); [done|cbn; lia|]. intros b6 S6.
    apply (set_shape _ _ _ _ _ _ S6). intros b7 S7. by rewrite insert_singleton_eq in S7.
  - intros b2 S2. unfold sort_all.
    assert (range_keys (map_to_list m).*1 ≡ₚ [0; 7]) as Hk by (rewrite range_perm; apply perm_swap).
    symmetry in Hk. apply Permutation_length_2_inv in Hk as [-> | ->]; cbn [for_each].
    + change (m !! 0) with (Some (mkSlice 2 4)). change (m !! 7) with (Some (mkSlice 2 3)).
      apply runs_bind. eapply runs_mono; [apply (sort_cidrs_shape _ _ _ (mkSlice 2 4) _ [x; x; c24 h; c16 h'] S2 eq_refl)|].
      { cbn. sort_three. apply (Permutation_app_comm [x; x] [c24 h; c16 h']). }
      intros [] b3 S3. apply runs_bind.
      eapply runs_mono; [apply (sort_cidrs_shape _ _ _ (mkSlice 2 3) _ [x; x; c24 h] S3 eq_refl)|].
      { cbn. sort_three. done. }
      intros [] b4 S4. by apply runs_ret.
    + change (m !! 0) with (Some (mkSlice 2 4)). change (m !! 7) with (Some (mkSlice 2 3)).
      apply runs_bind. eapply runs_mono; [apply (sort_cidrs_shape _ _ _ (mkSlice 2 3) _ [x; c24 h; c16 h'] S2 eq_refl)|].
      { cbn. sort_three. apply (Permutation_app_comm [x] [c24 h; c16 h']). }
      intros [] b3 S3. apply runs_bind.
      eapply runs_mono; [apply (sort_cidrs_shape _ _ _ (mkSlice 2 4) _ [x; x; c24 h; c16 h'] S3 eq_refl)|].
      { cbn. sort_three. apply perm_skip, (Permutation_app_comm [x] [c24 h; c16 h']). }
      intros [] b4 S4. by apply runs_ret.
  - intros [] b' (EA & Em & _). exists h, (zlen (b_counts b)). unfold held. by rewrite EA, Em.
Qed.

(** With three networks of one VPC, two local ones and then a WAN network with a
    longer mask, the table loses the local network with the shortest mask: the refresh
    succeeds, and an address that only that network contains is not found.  Appending
    the WAN network to the slice of the VPC once more for the key zero shares the
    backing array, and sorting the longer slice moves the last network out of the
    shorter one. *)
Theorem wan_network_lost (t : P) r :
  sound t -> new_data r t = Some (mkpb_PlatformData [] [] [lan24; lan16; wan32]) ->
  ParseCIDR "10.1.2.0/24" = Some net24 -> ParseCIDR "10.1.0.0/16" = Some net16 ->
  ParseCIDR "203.0.113.8/32" = Some net32 -> grow 1 = 2%nat -> grow 2 = 4%nat ->
  runs (Reload (Some r)) t (fun ok t' =>
    ok = true /\ queryIPV4Cidr t' 7 (be_get [10; 1; 9; 9]) = None /\
    exists c, c ∈ networks true [lan24; lan16; wan32] 7 /\ Contains (Cidr_Cidr c) (IpFromUint32 (be_get [10; 1; 9; 9])) = true).
Proof.
  intros S Hd H24 H16 H32 G1 G2. eapply runs_mono; [by apply Reload_runs|]. intros ok t' (_ & _ & H).
  destruct (H r _ eq_refl Hd) as (-> & _ & _ & b & Eb & E4 & _). clear H.
  assert (runs (build (mkpb_PlatformData [] [] [lan24; lan16; wan32])) (new_building (counts t)) (fun _ b =>
    exists h h'', held (b_arrays b) (b_cidrs4 b) 7 = [c32 h''; c32 h''; c24 h])) as Hb.
  { unfold build. cbn [pd_Interfaces pd_Cidrs for_each]. apply runs_bind, runs_ret.
    apply runs_bind. eapply runs_mono; [by apply add_lan24|]. intros [] b1 (h & S1).
    apply runs_bind. eapply runs_mono; [by apply (add_lan16 b1 h)|]. intros [] b2 (h1 & h2 & S2).
    apply runs_bind. eapply runs_mono; [by apply (add_wan32 b2 h1 h2)|]. intros [] b3 S3. by apply runs_ret. }
  unfold runs in Hb. rewrite Eb in Hb. destruct Hb as (h & h'' & Hb). split_and!; [done| |].
  - unfold queryIPV4Cidr. rewrite E4. rewrite <- held_installed in Hb.
    destruct ((elements (b_arrays b) <$> b_cidrs4 b) !! 7); [|done]. cbn [default] in Hb. cbn in Hb. by rewrite Hb.
  - exists (c16 0). split; [|by vm_compute]. unfold networks. cbn [mbind list_bind].
    rewrite !elem_of_app. right. left. unfold cidr_for. cbn [cidr_Prefix lan16]. rewrite H16. by vm_compute; left.
Qed.
End Wan.

(** * Witnesses *)

#[local] Existing Instance doubling.
#[local] Existing Instance doubling_laws.
#[local] Existing Instance first_Labeler.
#[local] Existing Instance first_laws.
#[local] Existing Instance some_NetText.

Definition example_Cache4 : Cache Z lru_value (U64LRU lru_value) := U64LRU_Cache blank_block.

Lemma example_laws4 : @CacheLaws Z lru_value (U64LRU lru_value) example_Cache4.
Proof. apply U64LRU_laws. intros m. by vm_compute. Qed.

#[local] Existing Instance example_Cache4.
#[local] Existing Instance example_laws4.

Definition example_Cache6 : Cache (list Z) lru_value (list (list Z * lru_value)) := alist_Cache.
#[local] Existing Instance example_Cache6.
Definition example_laws6 : CacheLaws (list Z) lru_value (list (list Z * lru_value)) := alist_laws.
#[local] Existing Instance example_laws6.

Definition example_data : pb_PlatformData :=
  mkpb_PlatformData
    [mkpb_Interface 1 5 3 7 "" [mkpb_IpResource "10.1.2.3" 4; mkpb_IpResource "2001:db8::1" 4] 0 1 0x112233445566 0 1 0 0 0 0]
    [mkpb_Peer 7 8] [lan24; lan16; mkpb_Cidr "2001:db8::/32" 1 7 3 1 1].

Definition example_response (d : pb_PlatformData) : pb_SyncResponse :=
  mkpb_SyncResponse true (Some 1) 2 3 (CData d) (CData [mkpb_Service 0 9 7 [] [] 6 "80"]) [] [mkVtapInfo 1 7 "" 0].

Lemma platform_queries_witness :
  exists t0 : Platform (U64LRU lru_value) (list (list Z * lru_value)) Z, NewPlatformInfoTable = Some t0 /\
    runs (for_each run_op [OpReload (Some (example_response example_data)); OpIPV4 7 (be_get [10; 1; 2; 3]);
      OpIPV6 7 (replicate 16 0); OpService 7 0 6 80; OpVtapEpc1 1 true 1 (replicate 16 0); OpReload None]) t0
      (fun _ t => answers_exact t).
Proof.
  apply (platform_queries [_; _; _; _; _; _]).
  repeat apply Forall_cons_2; [done|by split; ranges|by split; ranges|done|by split; ranges|done|constructor].
Defined.

Lemma example_new_data (t : Platform (U64LRU lru_value) (list (list Z * lru_value)) Z) d :
  versionPlatformData t = 0 -> new_data (example_response d) t = Some d.
Proof. intros E. unfold new_data. by rewrite E. Qed.

Lemma networks_longest_match_witness :
  exists t : Platform (U64LRU lru_value) (list (list Z * lru_value)) Z, NewPlatformInfoTable = Some t /\
    runs (Reload (Some (example_response example_data))) t (fun ok t' =>
      ok = true /\
      (forall e ip, longest (networks false (pd_Cidrs example_data) e) ip (queryIPV6Cidr t' e ip)) /\
      (Forall (fun c => isIPV4 (cidr_Prefix c) && is_wan c = false) (pd_Cidrs example_data) ->
        forall e ip, longest (networks true (pd_Cidrs example_data) e) (IpFromUint32 ip) (queryIPV4Cidr t' e ip))).
Proof.
  destruct (new_table_sound (C4:=U64LRU lru_value) (C6:=list (list Z * lru_value)) (L:=Z)) as (t & E & S & _ & V).
  exists t. split; [done|]. apply (networks_longest_match t (example_response example_data) example_data); [done|].
  by apply example_new_data.
Defined.

Lemma wan_network_lost_witness :
  exists t : Platform (U64LRU lru_value) (list (list Z * lru_value)) Z, NewPlatformInfoTable = Some t /\
    runs (Reload (Some (example_response (mkpb_PlatformData [] [] [lan24; lan16; wan32])))) t (fun ok t' =>
      ok = true /\ queryIPV4Cidr t' 7 (be_get [10; 1; 9; 9]) = None /\
      exists c, c ∈ networks true [lan24; lan16; wan32] 7 /\
        Contains (Cidr_Cidr c) (IpFromUint32 (be_get [10; 1; 9; 9])) = true).
Proof.
  destruct (new_table_sound (C4:=U64LRU lru_value) (C6:=list (list Z * lru_value)) (L:=Z)) as (t & E & S & _ & V).
  exists t. split; [done|]. apply (wan_network_lost t); [done|by apply example_new_data|done..].
Defined.
