(* ===== verification/Ranges.v ===== *)
(** Ranges of ports and of addresses ([server/libs/datatype/utils.go] and
    [port_range.go]): the text of a list of ports as sorted and merged ranges, and a
    range of addresses as networks. *)

From stdpp Require Import strings.
From S2P Require Import Prelude Strconv LineProto Ckdb Meter Tag TagMini Document Expand Platform.

#[local] Open Scope string_scope.
#[local] Open Scope list_scope.
#[local] Open Scope Z_scope.

(** * Ports *)

(** [PortRange]: the first port in the upper half of 32 bits, the last in the lower. *)
Definition Min (p : Z) : Z := u16 (p ≫ 16).

Definition Max (p : Z) : Z := u16 (Z.land p 0xffff).

Definition NewPortRange (min max : Z) : Z := Z.lor (shl 32 min 16) max.

(** [strconv.Atoi]: a sign and decimal digits, within 64 bits. *)
Definition Atoi (s : string) : option Z :=
  v ← match s with
      | String "-" s => Z.opp <$> parse_uint 10 s
      | String "+" s => parse_uint 10 s
      | _ => parse_uint 10 s
      end;
  if decide (is_i 64 v) then Some v else None.

Definition getPorts (src : string) : list Z :=
  match Split "-"%char src with
  | a :: b :: _ =>
      match Atoi a, Atoi b with
      | Some min, Some max => [NewPortRange (u16 min) (u16 max)]
      | _, _ => []
      end
  | _ =>
      match Atoi src with
      | Some port => [NewPortRange (u16 port) (u16 port)]
      | None => []
      end
  end.

(** The loop that merges: a range is joined into the next one when they touch, and
    dropped then. *)
Fixpoint merge_next (p : Z) (rest : list Z) : list Z :=
  match rest with
  | [] => [p]
  | q :: rest =>
      if u16 (Max p + 1) >=? Min q then
        let max := if Max p >? Max q then Max p else Max q in
        merge_next (NewPortRange (Min p) max) rest
      else p :: merge_next q rest
  end.

Definition merge_ports (ports : list Z) : list Z :=
  match ports with [] => [] | p :: rest => merge_next p rest end.

Definition SplitPort2Int `{!Runtime Z} (src : string) : list Z :=
  if (src =? "")%string then [NewPortRange 0 65535]
  else merge_ports (sort_Slice (fun p q => Min p <? Min q) (Split ","%char src ≫= getPorts)).

(** * Networks *)

(** [net.CIDRMask] for a length that fits. *)
Fixpoint mask_bytes (l : nat) (n : Z) : list Z :=
  match l with
  | O => []
  | S l => if 8 <=? n then 0xff :: mask_bytes l (n - 8) else (255 - (255 ≫ n)) :: mask_bytes l 0
  end.

Definition CIDRMask (ones bits : Z) : list Z := mask_bytes (Z.to_nat (bits / 8)) ones.

(** * Ranges of IPv4 addresses *)

Definition MIN_MASK_LEN : Z := 0.
Definition MAX_MASK_LEN : Z := 32.

(** [utils.MaskLenToNetmask] *)
Definition MaskLenToNetmask (mask : Z) : Z :=
  let n := u32 (32 - mask) in if 32 <=? n then 0 else shl 32 (2 ^ 32 - 1) n.

Definition MAX_NETMASK : Z := MaskLenToNetmask MAX_MASK_LEN.

(** [^x] of 32 bits *)
Definition not32 (x : Z) : Z := 2 ^ 32 - 1 - x.

(** The loop over [maxLen], down to [MIN_MASK_LEN]. *)
Fixpoint first_mask (maxLen : nat) (start last : Z) : Z :=
  match maxLen with
  | O => MIN_MASK_LEN
  | S n =>
      let len := Z.of_nat maxLen in
      if negb (Z.land start (shl 32 1 (MAX_MASK_LEN - len)) =? 0) then len
      else if (u32 (start + not32 (MaskLenToNetmask len)) >=? last)
              || (u32 (start + not32 (MaskLenToNetmask (len - 1))) >? last) then len
      else first_mask n start last
  end.

Definition getFirstMask (start last : Z) : Z := first_mask (Z.to_nat MAX_MASK_LEN) start last.

Definition getLastIp (ip mask : Z) : Z := u32 (ip + not32 (MaskLenToNetmask mask)).

(** One round of the loop: the next start with the networks so far, or all of them. *)
Definition range4_round (last : Z) (s : Z * list IPNet) : Z * list IPNet + list IPNet :=
  let '(start, ips) := s in
  if start <=? last then
    let maskLen := getFirstMask start last in
    let ips := ips ++ [mkIPNet (IpFromUint32 start) (CIDRMask maskLen MAX_MASK_LEN)] in
    if getLastIp start maskLen =? MAX_NETMASK then inr ips
    else inl (u32 (start + shl 32 1 (MAX_MASK_LEN - maskLen)), ips)
  else inr ips.

(** [None] when the rounds are used up, which [ipv4_range_exact] excludes. *)
Definition ipv4RangeConvert (startIp endIp : list Z) : option (list IPNet) :=
  match rounds 33 (range4_round (IpToUint32 endIp)) (IpToUint32 startIp, []) with
  | inl _ => None
  | inr ips => Some ips
  end.

(** * Ranges of IPv6 addresses *)

Definition MaxUint64 : Z := 2 ^ 64 - 1.

Record ip6Field := mkip6Field { ip_0 : Z; ip_1 : Z }.

Definition newIp6Field (ip : list Z) : ip6Field :=
  mkip6Field (be_get (take 8 ip)) (be_get (take 8 (drop 8 ip))).

Definition lessOrEqual (f m : ip6Field) : bool :=
  if ip_0 f >? ip_0 m then false
  else if ip_0 f <? ip_0 m then true
  else negb (ip_1 f >? ip_1 m).

(** [true] is an overflow. *)
Definition add (f : ip6Field) (n : Z) : bool * ip6Field :=
  if n =? 0 then (false, f)
  else
    let diff := MaxUint64 - ip_1 f in
    if diff <? n then
      if ip_0 f =? MaxUint64 then (true, mkip6Field (ip_0 f) MaxUint64)
      else (false, mkip6Field (u64 (ip_0 f + 1)) (n - diff - 1))
    else (false, mkip6Field (ip_0 f) (u64 (ip_1 f + n))).

Definition sub (f : ip6Field) (n : Z) : ip6Field :=
  if n =? 0 then f
  else if n >? ip_1 f then mkip6Field (u64 (ip_0 f - 1)) (u64 (MaxUint64 - n + ip_1 f + 1))
  else mkip6Field (ip_0 f) (ip_1 f - n).

Definition addbyBitOffsetAndSub (f : ip6Field) (offset count : Z) : ip6Field :=
  let '(overflow, f) :=
    if offset <? 64 then add f (shl 64 1 offset)
    else if offset <? 128 then (false, mkip6Field (u64 (ip_0 f + shl 64 1 (offset - 64))) (ip_1 f))
    else (false, mkip6Field MaxUint64 MaxUint64) in
  if negb overflow then sub f count else f.

(** The lowest bit that is set, from [p] on. *)
Fixpoint first_bit (n : nat) (x p : Z) : option Z :=
  match n with
  | O => None
  | S n => if negb (Z.land x (shl 64 1 p) =? 0) then Some p else first_bit n x (p + 1)
  end.

Definition getMask (f : ip6Field) : Z :=
  match first_bit 64 (ip_1 f) 0 with
  | Some p => 128 - p
  | None => match first_bit 64 (ip_0 f) 0 with Some p => 64 - p | None => 0 end
  end.

Definition makeIp (f : ip6Field) : list Z := be_put 8 (ip_0 f) ++ be_put 8 (ip_1 f).

(** The inner loop: the first mask whose network ends within the range. *)
Fixpoint fit_mask (n : nat) (start last : ip6Field) (mask : Z) : Z :=
  match n with
  | O => mask
  | S n =>
      if mask <? 128 then
        if lessOrEqual (addbyBitOffsetAndSub start (128 - mask) 1) last then mask
        else fit_mask n start last (mask + 1)
      else mask
  end.

Definition ip6Max : list Z := replicate 16 255.

Definition range6_round (last : ip6Field) (s : ip6Field * list IPNet) : ip6Field * list IPNet + list IPNet :=
  let '(start, ips) := s in
  if lessOrEqual start last && negb (bool_decide (makeIp start = ip6Max)) then
    let mask := fit_mask 128 start last (getMask start) in
    let ips := ips ++ [mkIPNet (makeIp start) (CIDRMask mask 128)] in
    inl (addbyBitOffsetAndSub start (128 - mask) 0, ips)
  else inr ips.

Definition ipv6RangeConvert (startIp endIp : list Z) : option (list IPNet) :=
  match rounds 129 (range6_round (newIp6Field endIp)) (newIp6Field startIp, []) with
  | inl _ => None
  | inr ips => Some ips
  end.

Definition IpRangeConvert2CIDR (startIp endIp : list Z) : option (list IPNet) :=
  if (zlen startIp =? IPv4len) && (zlen endIp =? IPv4len) then ipv4RangeConvert startIp endIp
  else if (zlen startIp =? IPv6len) && (zlen endIp =? IPv6len) then ipv6RangeConvert startIp endIp
  else Some [].
