(* ===== verification/RangesFacts.v ===== *)
(** Ranges mean what their texts and ends say: merging ports changes no membership, the
    networks of a range of addresses contain exactly the addresses between its ends,
    and where the conversion of IPv6 ranges goes wrong. *)

From stdpp Require Import strings sorting.
From S2P Require Import Prelude Strconv LineProto Ckdb Meter Tag TagMini Document Expand Platform PlatformFacts Ranges.

#[local] Open Scope string_scope.
#[local] Open Scope list_scope.
#[local] Open Scope Z_scope.

(** * Ports *)

Definition port_in (x p : Z) : bool := (Min p <=? x) && (x <=? Max p).

Lemma Min_range p : is_u 16 (Min p).
Proof. apply wrap_range. lia. Qed.

Lemma Max_range p : is_u 16 (Max p).
Proof. apply wrap_range. lia. Qed.

Lemma NewPortRange_sum a b : is_u 16 a -> is_u 16 b -> NewPortRange a b = b + a * 2 ^ 16.
Proof.
  intros Ha Hb. unfold NewPortRange, shl. rewrite Z.lor_comm, wrap_small.
  - by apply lor_shiftl_add.
  - rewrite shiftl_mul by lia. ranges. lia.
Qed.

Lemma Min_New a b : is_u 16 a -> is_u 16 b -> Min (NewPortRange a b) = a.
Proof.
  intros Ha Hb. rewrite NewPortRange_sum by done. unfold Min. rewrite shiftr_div by lia.
  replace ((b + a * 2 ^ 16) / 2 ^ 16) with a; [by apply wrap_small|].
  rewrite Z.div_add by lia. rewrite Z.div_small by (ranges; lia). lia.
Qed.

Lemma Max_New a b : is_u 16 a -> is_u 16 b -> Max (NewPortRange a b) = b.
Proof.
  intros Ha Hb. rewrite NewPortRange_sum by done. unfold Max. change 0xffff with (2 ^ 16 - 1).
  rewrite land_mask by lia. rewrite Z.mod_add by lia. rewrite Z.mod_small by (ranges; lia). by apply wrap_small.
Qed.

Lemma port_in_New x a b : is_u 16 a -> is_u 16 b -> port_in x (NewPortRange a b) = (a <=? x) && (x <=? b).
Proof. intros. unfold port_in. by rewrite Min_New, Max_New. Qed.

(** Two ranges that touch, the one that starts first before the other. *)
Lemma merge_two x p q :
  Min p <= Min q -> u16 (Max p + 1) >= Min q ->
  port_in x (NewPortRange (Min p) (if Max p >? Max q then Max p else Max q)) = port_in x p || port_in x q.
Proof.
  intros Hpq Ht. pose proof (Min_range p). pose proof (Min_range q). pose proof (Max_range p) as Hp.
  pose proof (Max_range q) as Hq. rewrite port_in_New by (try done; by case_match). unfold port_in.
  assert (Max p = 65535 \/ Max p + 1 >= Min q) as Hm.
  { destruct (decide (Max p = 65535)) as [|Hne]; [by left|right]. rewrite wrap_small in Ht; [done|]. ranges. lia. }
  ranges. case_match; lia.
Qed.

Lemma merge_next_in x p rest :
  StronglySorted (fun p q => Min p <= Min q) (p :: rest) ->
  existsb (port_in x) (merge_next p rest) = port_in x p || existsb (port_in x) rest.
Proof.
  revert p. induction rest as [|q rest IH]; intros p Hs; [done|].
  inversion_clear Hs as [|? ? Hq Hp]. inversion_clear Hp as [|? ? Hpq Hp'].
  inversion_clear Hq as [|? ? Hr Hqr]. cbn [merge_next existsb]. case_match eqn:E.
  - rewrite IH, merge_two, orb_assoc; [done|done|lia|]. constructor; [done|].
    eapply Forall_impl; [exact Hp'|]. intros r Hr'. rewrite Min_New; [done|apply Min_range|]. case_match; apply Max_range.
  - cbn [existsb]. rewrite IH; [done|]. by constructor.
Qed.

(** The ports that a piece of the text names. *)
Definition names_port (x : Z) (piece : string) : bool :=
  match Split "-"%char piece with
  | a :: b :: _ =>
      match Atoi a, Atoi b with
      | Some min, Some max => (u16 min <=? x) && (x <=? u16 max)
      | _, _ => false
      end
  | _ => match Atoi piece with Some port => x =? u16 port | None => false end
  end.

Lemma getPorts_in x piece : existsb (port_in x) (getPorts piece) = names_port x piece.
Proof.
  assert (forall v, is_u 16 (u16 v)) as Hu by (intros v; apply wrap_range; lia).
  unfold getPorts, names_port. destruct (Split "-"%char piece) as [|a [|b l]].
  - destruct (Atoi piece); [|done]. cbn. rewrite orb_false_r, port_in_New by done. lia.
  - destruct (Atoi piece); [|done]. cbn. rewrite orb_false_r, port_in_New by done. lia.
  - destruct (Atoi a), (Atoi b); [|done..]. cbn. by rewrite orb_false_r, port_in_New.
Qed.

Lemma existsb_perm {A} (f : A -> bool) l k : l ≡ₚ k -> existsb f l = existsb f k.
Proof.
  induction 1 as [|x l k _ IH|x y l|l k j _ IH1 _ IH2]; cbn; [done|by rewrite IH| |congruence].
  by rewrite !orb_assoc, (orb_comm (f x)).
Qed.

Lemma existsb_bind {A B} (f : B -> bool) (g : A -> list B) l : existsb f (l ≫= g) = existsb (fun x => existsb f (g x)) l.
Proof. induction l as [|x l IH]; [done|]. cbn. by rewrite existsb_app, IH. Qed.

Lemma existsb_ext {A} (f g : A -> bool) l : (forall x, f x = g x) -> existsb f l = existsb g l.
Proof. intros H. induction l as [|x l IH]; [done|]. cbn. by rewrite H, IH. Qed.

Section Ports.
Context {RT : Runtime Z} {RL : RuntimeLaws Z}.

Lemma sort_ports_sorted l : StronglySorted (fun p q => Min p <= Min q) (sort_Slice (fun p q => Min p <? Min q) l).
Proof.
  apply StronglySorted_lookup. intros i j p q Hp Hq Hij.
  assert ((fun p q => Min p <? Min q) q p = false) as H; [|cbn in H; lia].
  apply (sort_sorted (fun p q => Min p <? Min q) l i j p q); try done; intros *; lia.
Qed.

Lemma split_ports_ok src x :
  is_u 16 x ->
  existsb (port_in x) (SplitPort2Int src) = (src =? "")%string || existsb (names_port x) (Split ","%char src).
Proof.
  intros Hx. unfold SplitPort2Int. destruct (src =? "")%string; cbn [orb].
  - cbn [existsb]. rewrite port_in_New by (ranges; lia). ranges. lia.
  - pose proof (sort_ports_sorted (Split ","%char src ≫= getPorts)) as Hs.
    pose proof (sort_perm (fun p q => Min p <? Min q) (Split ","%char src ≫= getPorts)) as Hp.
    transitivity (existsb (port_in x) (sort_Slice (fun p q => Min p <? Min q) (Split ","%char src ≫= getPorts))).
    + destruct (sort_Slice _ _) as [|p rest]; [done|]. by apply merge_next_in.
    + rewrite (existsb_perm _ _ _ Hp), existsb_bind. apply existsb_ext, getPorts_in.
Qed.

(** Whatever text names the ports of a service, sorting and merging its ranges
    changes no membership: a port is in a range of the result exactly when a piece of
    the text names it, or when the text is empty.  This includes ranges that end at
    the last port, where the comparison wraps, ranges that overlap, and ranges with
    swapped ends. *)
Theorem port_ranges_exact src x :
  is_u 16 x ->
  existsb (port_in x) (SplitPort2Int src) = (src =? "")%string || existsb (names_port x) (Split ","%char src).
Proof. apply split_ports_ok. Qed.
End Ports.

Lemma port_ranges_exact_witness :
  existsb (port_in 443) (@SplitPort2Int doubling "22,80-90,8080,85-443,65530-65535,0") =
    ("22,80-90,8080,85-443,65530-65535,0" =? "")%string ||
    existsb (names_port 443) (Split ","%char "22,80-90,8080,85-443,65530-65535,0").
Proof. apply (@port_ranges_exact doubling doubling_laws). split; lia. Defined.

(** * Networks as numbers *)

Lemma be_get_nil : be_get [] = 0.
Proof. done. Qed.

Lemma be_get_cons x b : is_u 8 x -> bytes_ok b -> be_get (x :: b) = x * 2 ^ (8 * zlen b) + be_get b.
Proof.
  intros Hx Hb. unfold be_get. rewrite reverse_cons, le_get_app by (by apply Forall_reverse).
  unfold zlen. rewrite length_reverse, le_get_cons by done. change (le_get []) with 0. lia.
Qed.

Lemma land_upper x n : is_u 8 x -> 0 <= n < 8 -> Z.land x (255 - (255 ≫ n)) = x / 2 ^ (8 - n) * 2 ^ (8 - n).
Proof.
  intros Hx Hn.
  assert (forallb (fun x => forallb (fun n => Z.land x (255 - (255 ≫ n)) =? x / 2 ^ (8 - n) * 2 ^ (8 - n)) (seqZ 0 8))
    (seqZ 0 256) = true) as H by by vm_compute.
  rewrite forallb_forall in H. specialize (H x). rewrite forallb_forall in H.
  apply Z.eqb_eq, H; apply list_elem_of_In, elem_of_seqZ; [ranges; lia|lia].
Qed.

Lemma land_255 x : is_u 8 x -> Z.land x 255 = x.
Proof. intros Hx. change 255 with (2 ^ 8 - 1). rewrite land_mask by lia. apply Z.mod_small. done. Qed.

(** The upper part of a number with a leading byte. *)
Lemma div_lead x X k d : 0 <= X < 2 ^ k -> 0 <= d <= k -> (x * 2 ^ k + X) / 2 ^ d = x * 2 ^ (k - d) + X / 2 ^ d.
Proof.
  intros HX Hd. replace (2 ^ k) with (2 ^ (k - d) * 2 ^ d) by (rewrite <- Z.pow_add_r; [f_equal|..]; lia).
  rewrite Z.mul_assoc, Z.add_comm, Z.div_add, Z.add_comm; [done|]. apply Z.pow_nonzero; lia.
Qed.

Lemma div_lead_all x X k d : 0 <= X < 2 ^ k -> 0 <= k <= d -> (x * 2 ^ k + X) / 2 ^ d = x / 2 ^ (d - k).
Proof.
  intros HX Hd. replace (2 ^ d) with (2 ^ k * 2 ^ (d - k)) by (rewrite <- Z.pow_add_r; [f_equal|..]; lia).
  rewrite <- Z.div_div by (try apply Z.pow_nonzero; try apply pow2_pos; lia).
  rewrite Z.div_add_l by (apply Z.pow_nonzero; lia). rewrite (Z.div_small X) by done. by rewrite Z.add_0_r.
Qed.

Definition same_under (xs ys ms : list Z) : bool :=
  forallb (fun '((x, y), z) => Z.land x z =? Z.land y z) (zip (zip xs ys) ms).

Lemma same_under_zero l xs ys : same_under xs ys (mask_bytes l 0) = true.
Proof.
  revert xs ys. induction l as [|l IH]; intros [|x xs] [|y ys]; try done. unfold same_under. cbn.
  change (255 - (255 ≫ 0)) with 0. rewrite !Z.land_0_r. cbn. apply IH.
Qed.

(** Bytes agree under a mask of [n] ones exactly when their first [n] bits do. *)
Lemma same_under_prefix l n xs ys :
  length xs = l -> length ys = l -> bytes_ok xs -> bytes_ok ys -> 0 <= n <= 8 * Z.of_nat l ->
  same_under xs ys (mask_bytes l n) = (be_get xs / 2 ^ (8 * Z.of_nat l - n) =? be_get ys / 2 ^ (8 * Z.of_nat l - n)).
Proof.
  revert n xs ys. induction l as [|l IH]; intros n [|x xs] [|y ys]; try done. intros [= Hxs] [= Hys].
  intros [Hx Hxs']%Forall_cons [Hy Hys']%Forall_cons Hn.
  assert (zlen xs = Z.of_nat l) as Zx by (unfold zlen; lia). assert (zlen ys = Z.of_nat l) as Zy by (unfold zlen; lia).
  rewrite !be_get_cons by done. rewrite Zx, Zy. pose proof (be_get_range xs Hxs') as Rx. pose proof (be_get_range ys Hys') as Ry.
  rewrite Zx in Rx. rewrite Zy in Ry. unfold same_under. cbn [zip mask_bytes]. destruct (Z.leb_spec 8 n).
  - cbn [zip_with forallb]. rewrite !land_255 by done. fold (same_under xs ys (mask_bytes l (n - 8))).
    rewrite IH by (try done; lia). replace (8 * Z.of_nat (S l) - n) with (8 * Z.of_nat l - (n - 8)) by lia.
    rewrite !div_lead by (try done; lia). set (d := 8 * Z.of_nat l - (n - 8)).
    assert (forall X, 0 <= X < 2 ^ (8 * Z.of_nat l) -> 0 <= X / 2 ^ d < 2 ^ (8 * Z.of_nat l - d)) as Hq.
    { intros X HX. split; [apply Z.div_pos; [lia|apply pow2_pos; lia]|]. apply Z.div_lt_upper_bound; [apply pow2_pos; lia|].
      rewrite <- Z.pow_add_r by lia. replace (d + (8 * Z.of_nat l - d)) with (8 * Z.of_nat l) by lia. lia. }
    pose proof (Hq _ Rx). pose proof (Hq _ Ry). apply Bool.eq_iff_eq_true. rewrite andb_true_iff, !Z.eqb_eq.
    split; [by intros [-> ->]|]. intros E. apply (Z.div_mod_unique (2 ^ (8 * Z.of_nat l - d))); [by left|by left|lia].
  - cbn [zip_with forallb]. rewrite !land_upper by (try done; lia). fold (same_under xs ys (mask_bytes l 0)).
    rewrite same_under_zero, andb_true_r. rewrite !div_lead_all by (try done; lia).
    replace (8 * Z.of_nat (S l) - n - 8 * Z.of_nat l) with (8 - n) by lia.
    apply Bool.eq_iff_eq_true. rewrite !Z.eqb_eq. pose proof (pow2_pos (8 - n) ltac:(lia)). split; [nia|by intros ->].
Qed.

(** * Ranges of IPv4 addresses *)

(** The network of [len] bits that starts at [a]. *)
Definition net4 (a len : Z) : IPNet := mkIPNet (IpFromUint32 a) (CIDRMask len MAX_MASK_LEN).

Lemma mask_bytes_length l n : length (mask_bytes l n) = l.
Proof. revert n. induction l as [|l IH]; intros n; [done|]. cbn. case_match; cbn; by rewrite IH. Qed.

Lemma be_put_length n v : 0 <= n -> length (be_put n v) = Z.to_nat n.
Proof. intros H. pose proof (be_put_zlen n v H). unfold zlen in *. lia. Qed.

Lemma Contains_net4 a len ip :
  is_u 32 a -> is_u 32 ip -> 0 <= len <= 32 ->
  Contains (net4 a len) (IpFromUint32 ip) = (a / 2 ^ (32 - len) =? ip / 2 ^ (32 - len)).
Proof.
  intros Ha Hip Hl. unfold Contains, networkNumberAndMask, net4, To4. cbn [net_IP net_Mask].
  assert (forall v, zlen (IpFromUint32 v) = 4) as Z4 by (intros; by apply be_put_zlen).
  assert (zlen (CIDRMask len MAX_MASK_LEN) = 4) as M4 by (unfold zlen, CIDRMask; by rewrite mask_bytes_length).
  rewrite !Z4. cbn [IPv4len Z.eqb Pos.eqb mbind option_bind]. rewrite M4, !Z4. cbn [Z.eqb Pos.eqb andb].
  rewrite !Z4. cbn [Z.eqb Pos.eqb andb]. fold (same_under (IpFromUint32 a) (IpFromUint32 ip) (CIDRMask len MAX_MASK_LEN)).
  unfold CIDRMask. change (Z.to_nat (MAX_MASK_LEN / 8)) with 4%nat.
  rewrite same_under_prefix; try (by apply be_put_length); try (by apply be_put_ok); [|lia].
  unfold IpFromUint32. by rewrite !be_get_put.
Qed.

Lemma netmask_not len : 0 <= len <= 32 -> not32 (MaskLenToNetmask len) = 2 ^ (32 - len) - 1.
Proof.
  intros Hl. apply Z.eqb_eq.
  apply (forall_below 33 (fun len => not32 (MaskLenToNetmask len) =? 2 ^ (32 - len) - 1)); [by vm_compute|lia].
Qed.

(** A start that is a multiple of the size of its network. *)
Definition fits (w start last len : Z) : Prop :=
  0 <= len <= w /\ start mod 2 ^ (w - len) = 0 /\ start + 2 ^ (w - len) - 1 <= last.

(** The next bit is not set: the network may be twice as large. *)
Lemma align_next w start len :
  0 < len <= w -> start mod 2 ^ (w - len) = 0 -> Z.testbit start (w - len) = false ->
  start mod 2 ^ (w - (len - 1)) = 0.
Proof.
  intros Hl Hm Hb. replace (w - (len - 1)) with (Z.succ (w - len)) by lia. rewrite Z.pow_succ_r by lia.
  rewrite Z.mul_comm, Z.rem_mul_r by (try apply Z.pow_nonzero; try apply pow2_pos; lia). rewrite Hm.
  rewrite Z.testbit_odd, Z.shiftr_div_pow2 in Hb by lia. rewrite <- Z.negb_even in Hb. apply negb_false_iff in Hb.
  apply Z.even_spec in Hb as [q Hq]. rewrite Hq, (Z.mul_comm 2 q), Z.mod_mul by lia. lia.
Qed.

(** A multiple of a power of two that is below a larger one leaves room for it. *)
Lemma align_room w start len : 0 <= len <= w -> is_u w start -> start mod 2 ^ (w - len) = 0 -> start + 2 ^ (w - len) <= 2 ^ w.
Proof.
  intros Hl [H0 Hw] Hm. pose proof (pow2_pos (w - len) ltac:(lia)) as Hp.
  apply Z.mod_divide in Hm as [q ->]; [|lia].
  replace (2 ^ w) with (2 ^ len * 2 ^ (w - len)) in * by (rewrite <- Z.pow_add_r; [f_equal|..]; lia).
  assert (q < 2 ^ len) by nia. nia.
Qed.

Lemma shl_pow w k : 0 <= k < w -> shl w 1 k = 2 ^ k.
Proof.
  intros Hk. unfold shl. rewrite shiftl_mul, Z.mul_1_l by lia. apply wrap_small.
  split; [apply Z.pow_nonneg; lia|apply Z.pow_lt_mono_r; lia].
Qed.

Lemma land_bit w x n : 0 <= n < w -> (Z.land x (shl w 1 n) =? 0) = negb (Z.testbit x n).
Proof.
  intros Hn. rewrite shl_pow by done. destruct (Z.testbit x n) eqn:E; cbn.
  - apply Z.eqb_neq. intros H. apply (f_equal (fun z => Z.testbit z n)) in H.
    rewrite Z.land_spec, E, Z.pow2_bits_true, Z.bits_0 in H by lia. done.
  - apply Z.eqb_eq, Z.bits_inj'. intros i Hi. rewrite Z.land_spec, Z.bits_0.
    destruct (decide (i = n)) as [->|Hne]; [by rewrite E|].
    rewrite Z.pow2_bits_false by lia. apply andb_false_r.
Qed.

Lemma first_mask_fits start last n :
  is_u 32 start -> is_u 32 last -> (n <= 32)%nat -> fits 32 start last (Z.of_nat n) ->
  fits 32 start last (first_mask n start last).
Proof.
  intros Hs Hl. induction n as [|n IH]; intros Hn Hf; [done|]. cbn [first_mask].
  destruct Hf as (Hlen & Hm & Hfit). set (len := Z.of_nat (S n)) in *.
  rewrite land_bit by (unfold MAX_MASK_LEN; lia). destruct (Z.testbit start (MAX_MASK_LEN - len)) eqn:Eb; [done|].
  cbn [negb]. case_match eqn:E; [done|]. apply orb_false_iff in E as [_ E]. apply IH; [lia|].
  pose proof (align_next 32 start len ltac:(lia) Hm Eb) as Hm'.
  pose proof (align_room 32 start (len - 1) ltac:(lia) Hs Hm') as Hr.
  replace (Z.of_nat n) with (len - 1) by lia. split_and!; [lia|lia|done|].
  rewrite netmask_not in E by lia. rewrite wrap_small in E; [lia|]. pose proof (pow2_pos (32 - (len - 1)) ltac:(lia)).
  unfold is_u in *. lia.
Qed.

Lemma block_in a ip k : 0 <= k -> a mod 2 ^ k = 0 -> (a / 2 ^ k =? ip / 2 ^ k) = (a <=? ip) && (ip <? a + 2 ^ k).
Proof.
  intros Hk Hm. pose proof (pow2_pos k Hk) as Hp. apply Z.mod_divide in Hm as [q ->]; [|lia].
  rewrite Z.div_mul by lia. apply Bool.eq_iff_eq_true. rewrite andb_true_iff, Z.eqb_eq, Z.leb_le, Z.ltb_lt.
  pose proof (Z.div_mod ip (2 ^ k) ltac:(lia)) as E. pose proof (Z.mod_pos_bound ip (2 ^ k) Hp). split.
  - intros ->. lia.
  - intros [H1 H2]. apply Z.le_antisymm.
    + apply Z.div_le_lower_bound; lia.
    + apply Z.lt_succ_r, Z.div_lt_upper_bound; lia.
Qed.

(** Some network of the list contains the address. *)
Definition covers (ips : list IPNet) (ip : list Z) : bool := existsb (fun n => Contains n ip) ips.

Lemma covers_snoc ips n ip : covers (ips ++ [n]) ip = covers ips ip || Contains n ip.
Proof. unfold covers. rewrite existsb_app. cbn. by rewrite orb_false_r. Qed.

Lemma getFirstMask_fits start last :
  is_u 32 start -> is_u 32 last -> start <= last -> fits 32 start last (getFirstMask start last).
Proof.
  intros Hs Hl Hle. apply first_mask_fits; [done|done|done|].
  change (Z.of_nat (Z.to_nat MAX_MASK_LEN)) with 32. unfold fits. change (2 ^ (32 - 32)) with 1.
  rewrite Z.mod_1_r. lia.
Qed.

(** What the loop keeps: the networks so far contain the addresses before [start]. *)
Definition range4_inv (first last : Z) (s : Z * list IPNet) : Prop :=
  is_u 32 s.1 /\ first <= s.1 <= Z.max first (last + 1) /\
  forall ip, is_u 32 ip -> covers s.2 (IpFromUint32 ip) = (first <=? ip) && (ip <? s.1).

Definition range4_post (first last : Z) (ips : list IPNet) : Prop :=
  forall ip, is_u 32 ip -> covers ips (IpFromUint32 ip) = (first <=? ip) && (ip <=? last).

Lemma range4_round_ok first last s :
  is_u 32 last -> range4_inv first last s ->
  match range4_round last s with
  | inl s' => range4_inv first last s' /\ 2 ^ 32 - s'.1 < 2 ^ 32 - s.1
  | inr ips => range4_post first last ips
  end.
Proof.
  destruct s as [start ips]. intros Hl (Hs & Hf & Hc). cbn [fst snd] in *. unfold range4_round.
  destruct (Z.leb_spec start last) as [Hle|Hgt].
  2: { intros ip Hip. rewrite Hc by done. lia. }
  destruct (getFirstMask_fits start last Hs Hl Hle) as (Hlen & Hm & Hfit). set (len := getFirstMask start last) in *.
  fold (net4 start len). pose proof (pow2_pos (32 - len) ltac:(lia)) as Hp.
  assert (forall ip, is_u 32 ip -> covers (ips ++ [net4 start len]) (IpFromUint32 ip) =
    (first <=? ip) && (ip <? start + 2 ^ (32 - len))) as Hc'.
  { intros ip Hip. rewrite covers_snoc, Hc, Contains_net4, block_in by (try done; lia). lia. }
  unfold getLastIp. rewrite netmask_not by lia. rewrite wrap_small by (unfold is_u in *; lia).
  change MAX_NETMASK with (2 ^ 32 - 1). destruct (Z.eqb_spec (start + (2 ^ (32 - len) - 1)) (2 ^ 32 - 1)) as [E|Hne].
  - intros ip Hip. rewrite Hc' by done. unfold is_u in *. lia.
  - assert (start + 2 ^ (32 - len) < 2 ^ 32) as Hlt by (unfold is_u in *; lia).
    assert (shl 32 1 (MAX_MASK_LEN - len) = 2 ^ (32 - len)) as ->.
    { unfold MAX_MASK_LEN. unfold is_u in *. destruct (decide (len = 0)) as [E0|]; [rewrite E0 in *; lia|]. apply shl_pow. lia. }
    rewrite wrap_small by (unfold is_u in *; lia). cbn [fst snd]. split; [|lia].
    split_and!; cbn [fst snd]; unfold is_u in *; lia || done.
Qed.

Lemma range4_ok start last :
  is_u 32 start -> is_u 32 last ->
  exists ips, ipv4RangeConvert (IpFromUint32 start) (IpFromUint32 last) = Some ips /\
    forall ip, is_u 32 ip -> covers ips (IpFromUint32 ip) = (start <=? ip) && (ip <=? last).
Proof.
  intros Hs Hl. unfold ipv4RangeConvert.
  assert (forall v, is_u 32 v -> IpToUint32 (IpFromUint32 v) = v) as Hv.
  { intros v Hv. unfold IpToUint32, IpFromUint32. rewrite be_put_zlen by lia. cbn. by apply be_get_put. }
  rewrite !Hv by done.
  destruct (rounds_exit (range4_inv start last) (range4_post start last) (fun s => 2 ^ 32 - s.1)
    (range4_round last) 33 (start, [])) as (ips & E & Hips).
  - intros s Hs'. by apply range4_round_ok.
  - intros s (Hu & _). unfold is_u in *. lia.
  - split; [done|]. cbn [fst snd]. split; [lia|]. intros ip Hip. cbn [covers existsb]. lia.
  - cbn [fst]. unfold is_u in *. change (Z.of_nat 33) with 33. lia.
  - rewrite E. by exists ips.
Qed.

(** C30: the conversion of a range of IPv4 addresses ends, and its networks contain an
    address exactly when it lies between the two ends, both included; also when the
    range ends at the last address, and when its ends are swapped. *)
Theorem ipv4_range_exact start last :
  is_u 32 start -> is_u 32 last ->
  exists ips, ipv4RangeConvert (IpFromUint32 start) (IpFromUint32 last) = Some ips /\
    forall ip, is_u 32 ip -> covers ips (IpFromUint32 ip) = (start <=? ip) && (ip <=? last).
Proof. apply range4_ok. Qed.

Lemma ipv4_range_exact_witness :
  exists ips, ipv4RangeConvert (IpFromUint32 167772163) (IpFromUint32 167772677) = Some ips /\
    forall ip, is_u 32 ip -> covers ips (IpFromUint32 ip) = (167772163 <=? ip) && (ip <=? 167772677).
Proof. apply ipv4_range_exact; split; lia. Defined.

(** * Ranges of IPv6 addresses *)

(** The number of an address. *)
Definition num6 (f : ip6Field) : Z := ip_0 f * 2 ^ 64 + ip_1 f.

Definition field_ok (f : ip6Field) : Prop := is_u 64 (ip_0 f) /\ is_u 64 (ip_1 f).

Definition max6 : Z := 2 ^ 128 - 1.

Lemma num6_range f : field_ok f -> is_u 128 (num6 f).
Proof. intros [H0 H1]. unfold num6, is_u in *. lia. Qed.

Lemma num6_inj f g : field_ok f -> field_ok g -> num6 f = num6 g -> f = g.
Proof. destruct f, g. intros [H0 H1] [H2 H3]. unfold num6, is_u in *. cbn in *. intros. f_equal; lia. Qed.

Lemma lessOrEqual_num f g : field_ok f -> field_ok g -> lessOrEqual f g = (num6 f <=? num6 g).
Proof.
  intros [H0 H1] [H2 H3]. unfold lessOrEqual, num6, is_u in *. repeat case_match; lia.
Qed.

Lemma be_get_app a b : bytes_ok b -> be_get (a ++ b) = be_get a * 2 ^ (8 * zlen b) + be_get b.
Proof.
  intros Hb. unfold be_get. rewrite reverse_app, le_get_app by (by apply Forall_reverse).
  unfold zlen. rewrite length_reverse. lia.
Qed.

Lemma newIp6Field_num ip : zlen ip = 16 -> bytes_ok ip -> field_ok (newIp6Field ip) /\ num6 (newIp6Field ip) = be_get ip.
Proof.
  intros Hl Hb. unfold zlen in Hl.
  assert (zlen (take 8 ip) = 8 /\ zlen (take 8 (drop 8 ip)) = 8) as [L1 L2].
  { unfold zlen. rewrite !length_take, length_drop. lia. }
  assert (bytes_ok (take 8 ip) /\ bytes_ok (take 8 (drop 8 ip))) as [B1 B2].
  { split; [by apply Forall_take|by apply Forall_take, Forall_drop]. }
  split.
  - pose proof (be_get_range _ B1) as R1. pose proof (be_get_range _ B2) as R2. rewrite L1 in R1. rewrite L2 in R2. by split.
  - unfold num6. cbn [ip_0 ip_1 newIp6Field].
    assert (ip = take 8 ip ++ take 8 (drop 8 ip)) as E.
    { rewrite (take_ge (drop 8 ip)) by (rewrite length_drop; lia). by rewrite take_drop. }
    rewrite E at 3. rewrite be_get_app, L2 by done. done.
Qed.

Lemma makeIp_num f : field_ok f -> zlen (makeIp f) = 16 /\ bytes_ok (makeIp f) /\ be_get (makeIp f) = num6 f.
Proof.
  intros [H0 H1]. unfold makeIp. split_and!.
  - by rewrite zlen_app, !be_put_zlen.
  - apply bytes_ok_app; by apply be_put_ok.
  - rewrite be_get_app by (by apply be_put_ok). by rewrite be_put_zlen, !be_get_put.
Qed.

Lemma makeIp_max f : field_ok f -> bool_decide (makeIp f = ip6Max) = (num6 f =? max6).
Proof.
  intros Hf. destruct (makeIp_num f Hf) as (_ & _ & Hn). apply Bool.eq_iff_eq_true. rewrite bool_decide_eq_true, Z.eqb_eq. split.
  - intros E. rewrite <- Hn, E. by vm_compute.
  - intros E. assert (f = mkip6Field MaxUint64 MaxUint64) as ->.
    { apply num6_inj; [done|by split|]. rewrite E. done. }
    by vm_compute.
Qed.

Lemma add_num f n :
  field_ok f -> 0 < n < 2 ^ 64 ->
  field_ok (add f n).2 /\
  if num6 f + n <? 2 ^ 128 then (add f n).1 = false /\ num6 (add f n).2 = num6 f + n
  else (add f n).1 = true /\ num6 (add f n).2 = max6.
Proof.
  intros [H0 H1] Hn. unfold add, num6, MaxUint64, field_ok, max6, is_u in *.
  destruct (Z.eqb_spec n 0); [lia|]. destruct (Z.ltb_spec (2 ^ 64 - 1 - ip_1 f) n).
  - destruct (Z.eqb_spec (ip_0 f) (2 ^ 64 - 1)); cbn [fst snd ip_0 ip_1].
    + rewrite (proj2 (Z.ltb_ge _ _)) by lia. lia.
    + rewrite wrap_small by (unfold is_u; lia). rewrite (proj2 (Z.ltb_lt _ _)) by lia. lia.
  - cbn [fst snd ip_0 ip_1]. rewrite wrap_small by (unfold is_u; lia). rewrite (proj2 (Z.ltb_lt _ _)) by lia. lia.
Qed.

Lemma sub_num f n :
  field_ok f -> 0 <= n <= 1 -> field_ok (sub f n) /\ num6 (sub f n) = (num6 f - n) mod 2 ^ 128.
Proof.
  intros Hf Hn. pose proof (num6_range f Hf) as Hr. destruct Hf as [H0 H1]. unfold sub.
  destruct (Z.eqb_spec n 0) as [->|]; [rewrite Z.sub_0_r, Z.mod_small by done; done|]. assert (n = 1) as -> by lia.
  unfold num6, MaxUint64, field_ok in *. destruct (Z.gtb_spec 1 (ip_1 f)); cbn [ip_0 ip_1].
  - assert (ip_1 f = 0) as E by (unfold is_u in *; lia). rewrite E in *. change (u64 (2 ^ 64 - 1 - 1 + 0 + 1)) with (2 ^ 64 - 1).
    destruct (decide (ip_0 f = 0)) as [E0|].
    + rewrite E0. done.
    + rewrite wrap_small by (unfold is_u in *; lia). split; [unfold is_u in *; lia|].
      rewrite Z.mod_small by (unfold is_u in *; lia). lia.
  - split; [unfold is_u in *; lia|]. rewrite Z.mod_small by (unfold is_u in *; lia). lia.
Qed.

(** Adding the size of a network. *)
Lemma addby_num f off count :
  field_ok f -> 0 <= off < 128 -> 0 <= count <= 1 -> num6 f + 2 ^ off <= 2 ^ 128 ->
  let g := addbyBitOffsetAndSub f off count in
  field_ok g /\
  (num6 f + 2 ^ off < 2 ^ 128 -> num6 g = num6 f + 2 ^ off - count) /\
  (num6 f + 2 ^ off = 2 ^ 128 -> count = 1 -> num6 g = max6).
Proof.
  intros Hf Ho Hc Hr. pose proof (num6_range f Hf) as Hn. pose proof (pow2_pos off ltac:(lia)) as Hp.
  unfold addbyBitOffsetAndSub. destruct (Z.ltb_spec off 64).
  - rewrite shl_pow by lia. destruct (add_num f (2 ^ off) Hf) as [Hg Ha].
    { split; [done|apply Z.pow_lt_mono_r; lia]. }
    destruct (add f (2 ^ off)) as [o g]. cbn [fst snd] in *. destruct (Z.ltb_spec (num6 f + 2 ^ off) (2 ^ 128)).
    + destruct Ha as [-> Ha]. cbn [negb]. destruct (sub_num g count Hg Hc) as [Hs Es]. split_and!; [done| |lia].
      intros _. rewrite Es, Ha, Z.mod_small; [done|]. unfold is_u in *. lia.
    + destruct Ha as [-> Ha]. cbn [negb]. split_and!; [done|lia|done].
  - rewrite (proj2 (Z.ltb_lt off 128)) by lia. cbn [negb]. rewrite shl_pow by lia.
    set (g := mkip6Field _ _). assert (field_ok g) as Hg.
    { split; cbn; [apply wrap_range; lia|apply Hf]. }
    assert (num6 g = (num6 f + 2 ^ off) mod 2 ^ 128) as Eg.
    { unfold g, num6. cbn [ip_0 ip_1]. unfold wrap. destruct Hf as [H0 H1].
      replace (2 ^ off) with (2 ^ (off - 64) * 2 ^ 64) by (rewrite <- Z.pow_add_r; [f_equal|..]; lia).
      set (X := ip_0 f + 2 ^ (off - 64)).
      replace (ip_0 f * 2 ^ 64 + ip_1 f + 2 ^ (off - 64) * 2 ^ 64) with (ip_1 f + X * 2 ^ 64) by lia.
      change (2 ^ 128) with (2 ^ 64 * 2 ^ 64). rewrite Z.rem_mul_r, Z.mod_add, Z.div_add by lia.
      rewrite (Z.mod_small (ip_1 f)), (Z.div_small (ip_1 f)), Z.add_0_l by done. lia. }
    destruct (sub_num g count Hg Hc) as [Hs Es]. split_and!; [done| |].
    + intros Hlt. rewrite Es, Eg, (Z.mod_small (num6 f + _)) by (unfold is_u in *; lia).
      apply Z.mod_small. unfold is_u in *. lia.
    + intros E ->. rewrite Es, Eg, E, Z.mod_same by lia. done.
Qed.

(** The lowest bit set: the bits below are not. *)
Lemma first_bit_spec n x p :
  is_u 64 x -> 0 <= p -> p + Z.of_nat n <= 64 -> x mod 2 ^ p = 0 ->
  match first_bit n x p with
  | Some q => p <= q < p + Z.of_nat n /\ x mod 2 ^ q = 0
  | None => x mod 2 ^ (p + Z.of_nat n) = 0
  end.
Proof.
  intros Hx. revert p. induction n as [|n IH]; intros p Hp Hn Hm; cbn [first_bit].
  - by rewrite Z.add_0_r.
  - rewrite land_bit by lia. destruct (Z.testbit x p) eqn:E; cbn [negb].
    + split; [lia|done].
    + specialize (IH (p + 1) ltac:(lia) ltac:(lia)). replace (p + Z.of_nat (S n)) with (p + 1 + Z.of_nat n) by lia.
      assert (x mod 2 ^ (p + 1) = 0) as Hm'.
      { pose proof (align_next 64 x (64 - p) ltac:(lia)) as Ha. replace (64 - (64 - p)) with p in Ha by lia.
        replace (64 - (64 - p - 1)) with (p + 1) in Ha by lia. by apply Ha. }
      specialize (IH Hm'). case_match; [|done]. destruct IH. split; [lia|done].
Qed.

Lemma getMask_spec f : field_ok f -> 0 <= getMask f <= 128 /\ num6 f mod 2 ^ (128 - getMask f) = 0.
Proof.
  intros [H0 H1]. unfold getMask, num6.
  pose proof (first_bit_spec 64 (ip_1 f) 0 H1 ltac:(lia) ltac:(lia) (Z.mod_1_r _)) as F1.
  pose proof (first_bit_spec 64 (ip_0 f) 0 H0 ltac:(lia) ltac:(lia) (Z.mod_1_r _)) as F0.
  destruct (first_bit 64 (ip_1 f) 0) as [p|].
  - split; [lia|]. replace (128 - (128 - p)) with p by lia. destruct F1 as [Hp Hm].
    replace (2 ^ 64) with (2 ^ (64 - p) * 2 ^ p) by (rewrite <- Z.pow_add_r; [f_equal|..]; lia).
    rewrite Z.mul_assoc, Z.add_comm, Z.mod_add by (apply Z.pow_nonzero; lia). done.
  - assert (ip_1 f = 0) as -> by (rewrite Z.mod_small in F1; done). rewrite Z.add_0_r.
    destruct (first_bit 64 (ip_0 f) 0) as [p|].
    + split; [lia|]. destruct F0 as [Hp Hm]. replace (128 - (64 - p)) with (p + 64) by lia.
      rewrite Z.pow_add_r, Z.mul_mod_distr_r, Hm by (try apply Z.pow_nonzero; lia). lia.
    + assert (ip_0 f = 0) as -> by (rewrite Z.mod_small in F0; done). split; [lia|]. done.
Qed.

(** A range whose networks the loop finds: it ends before the last address, and is
    not that of all addresses but the last. *)
Definition ends_before_max (first last : Z) : Prop := last < max6 /\ (first = 0 -> last < max6 - 1).

Lemma align_weaken w start len len' :
  0 <= len <= len' -> len' <= w -> start mod 2 ^ (w - len) = 0 -> start mod 2 ^ (w - len') = 0.
Proof.
  intros Hl Hw Hm. replace (w - len) with ((len' - len) + (w - len')) in Hm by lia. rewrite Z.pow_add_r in Hm by lia.
  apply Z.mod_divide in Hm as [q ->]; [|apply Z.neq_mul_0; split; apply Z.pow_nonzero; lia].
  rewrite Z.mul_assoc. apply Z.mod_mul, Z.pow_nonzero; lia.
Qed.

Lemma fit_mask_fits n f g mask :
  field_ok f -> field_ok g -> num6 f <= num6 g -> ends_before_max (num6 f) (num6 g) ->
  0 <= mask <= 128 -> 128 - mask <= Z.of_nat n -> num6 f mod 2 ^ (128 - mask) = 0 ->
  fits 128 (num6 f) (num6 g) (fit_mask n f g mask).
Proof.
  intros Hf Hg Hle [He He0]. revert mask. induction n as [|n IH]; intros mask Hm Hn Ha; cbn [fit_mask].
  - assert (mask = 128) as -> by lia. unfold fits. change (2 ^ (128 - 128)) with 1. rewrite Z.mod_1_r. lia.
  - destruct (Z.ltb_spec mask 128).
    2: { assert (mask = 128) as -> by lia. unfold fits. change (2 ^ (128 - 128)) with 1. rewrite Z.mod_1_r. lia. }
    destruct (decide (mask = 0)) as [->|Hpos].
    + pose proof (num6_range f Hf) as Hr. rewrite Z.mod_small in Ha by done.
      case_match eqn:E; [|apply IH; try lia; by rewrite Ha].
      rewrite lessOrEqual_num in E by (done || by split). apply Z.leb_le in E.
      change (num6 (addbyBitOffsetAndSub f (128 - 0) 1)) with (max6 - 1) in E. specialize (He0 Ha). lia.
    + pose proof (align_room 128 (num6 f) mask ltac:(lia) (num6_range f Hf) Ha) as Hroom.
      destruct (addby_num f (128 - mask) 1 Hf ltac:(lia) ltac:(lia) Hroom) as (Hok & H1 & H2).
      rewrite lessOrEqual_num by done. destruct (Z.leb_spec (num6 (addbyBitOffsetAndSub f (128 - mask) 1)) (num6 g)).
      * split_and!; [lia|lia|done|]. destruct (decide (num6 f + 2 ^ (128 - mask) = 2 ^ 128)) as [E|].
        -- specialize (H2 E eq_refl). lia.
        -- rewrite <- H1 by lia. done.
      * apply IH; [lia|lia|]. apply (align_weaken 128 _ mask); [lia|lia|done].
Qed.

(** ** Containing an address that is no IPv4 address *)

Lemma be_get_inj a b : bytes_ok a -> bytes_ok b -> zlen a = zlen b -> be_get a = be_get b -> a = b.
Proof.
  intros Ha Hb Hl E. unfold be_get in E. assert (forall c : list Z, zlen (reverse c) = zlen c) as Hr.
  { intros c. unfold zlen. by rewrite length_reverse. }
  apply (f_equal (le_put (zlen a))) in E. rewrite <- (Hr a), le_put_get in E by (by apply Forall_reverse).
  rewrite (Hr a), Hl, <- (Hr b), le_put_get in E by (by apply Forall_reverse). by apply (inj reverse).
Qed.

(** The twelve bytes before an IPv4 address. *)
Definition v4_prefix : list Z := replicate 10 0 ++ [255; 255].

Lemma To4_take ip : zlen ip = 16 ->
  forallb (fun x => x =? 0) (take 10 ip) && (byte_at ip 10 =? 255) && (byte_at ip 11 =? 255) = bool_decide (take 12 ip = v4_prefix).
Proof.
  intros Hl. unfold zlen in Hl. do 12 (destruct ip as [|? ip]; [cbn in Hl; lia|]). clear Hl.
  apply Bool.eq_iff_eq_true. rewrite bool_decide_eq_true. unfold byte_at.
  change (Z.to_nat 10) with 10%nat. change (Z.to_nat 11) with 11%nat. cbn. rewrite take_0, !andb_true_iff, !Z.eqb_eq. split.
  - intros. destruct_and?. by subst.
  - intros [=]. subst. by split_and!.
Qed.

Lemma To4_prefix ip : zlen ip = 16 -> bytes_ok ip ->
  match To4 ip with Some x => be_get ip / 2 ^ 32 = 0xffff /\ zlen x = 4 | None => be_get ip / 2 ^ 32 <> 0xffff end.
Proof.
  intros Hl Hb. unfold To4. rewrite Hl. cbn [IPv4len IPv6len Z.eqb Pos.eqb andb]. rewrite To4_take by done.
  assert (zlen (take 12 ip) = 12 /\ zlen (drop 12 ip) = 4) as [L1 L2].
  { unfold zlen in *. rewrite length_take, length_drop. lia. }
  assert (bytes_ok (take 12 ip) /\ bytes_ok (drop 12 ip)) as [B1 B2] by (split; [by apply Forall_take|by apply Forall_drop]).
  assert (be_get ip / 2 ^ 32 = be_get (take 12 ip)) as E.
  { rewrite <- (take_drop 12 ip) at 1. rewrite be_get_app, L2 by done. change (8 * 4) with 32.
    pose proof (be_get_range _ B2) as R. rewrite L2 in R. rewrite Z.div_add_l by lia. rewrite Z.div_small by done. lia. }
  rewrite E. change 0xffff with (be_get v4_prefix). case_bool_decide as D.
  - by rewrite D.
  - intros E'. apply D, be_get_inj; [done| |done|done]. repeat constructor; done.
Qed.

(** A network of the loop contains such an address exactly when their prefixes agree. *)
Lemma Contains_net6 f len ip :
  field_ok f -> 0 <= len <= 128 -> num6 f mod 2 ^ (128 - len) = 0 ->
  zlen ip = 16 -> bytes_ok ip -> To4 ip = None ->
  Contains (mkIPNet (makeIp f) (CIDRMask len 128)) ip = (num6 f / 2 ^ (128 - len) =? be_get ip / 2 ^ (128 - len)).
Proof.
  intros Hf Hl Ha Hz Hb H4. destruct (makeIp_num f Hf) as (Lf & Bf & Nf). unfold Contains. rewrite H4.
  unfold networkNumberAndMask. cbn [net_IP net_Mask].
  assert (zlen (CIDRMask len 128) = 16) as M16 by (unfold zlen, CIDRMask; by rewrite mask_bytes_length).
  pose proof (To4_prefix (makeIp f) Lf Bf) as Tf. pose proof (To4_prefix ip Hz Hb) as Ti. rewrite H4 in Ti.
  destruct (To4 (makeIp f)) as [x|]; cbn [mbind option_bind].
  - destruct Tf as [Tf Lx]. rewrite M16, Lx. cbn [IPv6len IPv4len Z.eqb Pos.eqb andb]. rewrite Hz, Lx. cbn [Z.eqb Pos.eqb andb].
    symmetry. rewrite Nf in Tf. apply Z.eqb_neq. intros E. apply Ti. rewrite <- Tf.
    assert (128 - len <= 32) as H32.
    { destruct (decide (128 - len <= 32)); [done|].
      assert (num6 f mod 2 ^ (128 - 95) = 0) as H33 by (apply (align_weaken 128 _ len); [lia|lia|done]).
      apply Z.mod_divide in H33 as [q Hq]; [|done]. change (2 ^ (128 - 95)) with (2 * 2 ^ 32) in Hq.
      rewrite Hq, Z.mul_assoc, Z.div_mul in Tf by lia. lia. }
    replace 32 with ((128 - len) + (32 - (128 - len))) by lia. rewrite !Z.pow_add_r by lia.
    rewrite <- !Z.div_div by (try apply Z.pow_nonzero; try apply pow2_pos; lia). by rewrite E.
  - rewrite Lf. cbn [IPv6len Z.eqb Pos.eqb mbind option_bind]. rewrite ?M16, ?Lf. cbn [Z.eqb Pos.eqb]. rewrite ?Hz, ?Lf. cbn [Z.eqb Pos.eqb andb].
    fold (same_under (makeIp f) ip (CIDRMask len 128)). unfold CIDRMask. change (Z.to_nat (128 / 8)) with 16%nat.
    unfold zlen in *. rewrite same_under_prefix; [by rewrite Nf|lia|lia|done|done|lia].
Qed.

(** ** Exact ranges *)

(** The addresses of IPv6 proper. *)
Definition ip6_addr (ip : list Z) : Prop := zlen ip = 16 /\ bytes_ok ip /\ To4 ip = None.

Definition range6_inv (first last : Z) (s : ip6Field * list IPNet) : Prop :=
  field_ok s.1 /\ first <= num6 s.1 <= Z.max first (last + 1) /\
  forall ip, ip6_addr ip -> covers s.2 ip = (first <=? be_get ip) && (be_get ip <? num6 s.1).

Definition range6_post (first last : Z) (ips : list IPNet) : Prop :=
  forall ip, ip6_addr ip -> covers ips ip = (first <=? be_get ip) && (be_get ip <=? last).

Lemma range6_round_ok first g s :
  field_ok g -> 0 <= first -> ends_before_max first (num6 g) -> range6_inv first (num6 g) s ->
  match range6_round g s with
  | inl s' => range6_inv first (num6 g) s' /\ 2 ^ 128 - num6 s'.1 < 2 ^ 128 - num6 s.1
  | inr ips => range6_post first (num6 g) ips
  end.
Proof.
  destruct s as [f ips]. intros Hg H0 [He He0] (Hf & Hr & Hc). cbn [fst snd] in *. unfold range6_round.
  rewrite lessOrEqual_num, makeIp_max by done. destruct (Z.leb_spec (num6 f) (num6 g)) as [Hle|Hgt]; cbn [andb].
  2: { intros ip Hip. rewrite Hc by done. lia. }
  destruct (Z.eqb_spec (num6 f) max6) as [|Hne]; [lia|]. cbn [negb].
  destruct (getMask_spec f Hf) as [Hm Ha].
  assert (fits 128 (num6 f) (num6 g) (fit_mask 128 f g (getMask f))) as (Hlen & Hal & Hfit).
  { apply fit_mask_fits; try done; [|lia]. split; [done|]. intros E. apply He0. lia. }
  set (len := fit_mask 128 f g (getMask f)) in *. pose proof (pow2_pos (128 - len) ltac:(lia)) as Hp.
  assert (len <> 0) as Hl0.
  { intros E. rewrite E in *. pose proof (num6_range f Hf) as Hn. rewrite Z.mod_small in Hal by done. unfold max6 in *. lia. }
  destruct (addby_num f (128 - len) 0 Hf ltac:(lia) ltac:(lia)) as (Hok & Hn & _); [unfold max6 in *; lia|].
  specialize (Hn ltac:(unfold max6 in *; lia)). split; [|cbn [fst]; lia].
  split; [done|]. cbn [fst snd]. split; [lia|]. intros ip Hip. destruct (Hip) as (L & B & T).
  rewrite covers_snoc, Hc, Contains_net6, block_in by (done || lia). lia.
Qed.

Lemma range6_ok startIp endIp :
  zlen startIp = 16 -> bytes_ok startIp -> zlen endIp = 16 -> bytes_ok endIp ->
  ends_before_max (be_get startIp) (be_get endIp) ->
  exists ips, ipv6RangeConvert startIp endIp = Some ips /\ range6_post (be_get startIp) (be_get endIp) ips.
Proof.
  intros Ls Bs Le Be Hend. destruct (newIp6Field_num startIp Ls Bs) as [Fs Ns].
  destruct (newIp6Field_num endIp Le Be) as [Fe Ne]. rewrite <- Ns, <- Ne in *.
  pose proof (num6_range _ Fs) as Hs. unfold ipv6RangeConvert.
  destruct (rounds_exit (range6_inv (num6 (newIp6Field startIp)) (num6 (newIp6Field endIp)))
    (range6_post (num6 (newIp6Field startIp)) (num6 (newIp6Field endIp))) (fun s => 2 ^ 128 - num6 s.1)
    (range6_round (newIp6Field endIp)) 129 (newIp6Field startIp, [])) as (ips & E & Hips).
  - intros s Hs'. apply range6_round_ok; try done. apply Hs.
  - intros s (Hu & _). apply num6_range in Hu. unfold is_u in *. lia.
  - split; [done|]. cbn [fst snd]. split; [lia|]. intros ip Hip. cbn [covers existsb]. lia.
  - cbn [fst]. unfold is_u in *. change (Z.of_nat 129) with 129. lia.
  - rewrite E. by exists ips.
Qed.

#[export] Instance IPNet_eq_dec : EqDecision IPNet.
Proof. solve_decision. Defined.

(** ** Every range is converted *)

Lemma addby_edge f off :
  field_ok f -> 0 <= off < 128 -> num6 f + 2 ^ off = 2 ^ 128 ->
  num6 (addbyBitOffsetAndSub f off 0) = if off <? 64 then max6 else 0.
Proof.
  intros Hf Ho E. unfold addbyBitOffsetAndSub. destruct (Z.ltb_spec off 64).
  - rewrite shl_pow by lia. destruct (add_num f (2 ^ off) Hf) as [Hg Ha].
    { split; [apply pow2_pos; lia|apply Z.pow_lt_mono_r; lia]. }
    destruct (add f (2 ^ off)) as [o g]. cbn [fst snd] in *. rewrite E, Z.ltb_irrefl in Ha. by destruct Ha as [-> Ha].
  - rewrite (proj2 (Z.ltb_lt off 128)), shl_pow by lia. cbn. unfold num6 in *. cbn [ip_0 ip_1].
    replace (2 ^ off) with (2 ^ (off - 64) * 2 ^ 64) in E by (rewrite <- Z.pow_add_r; [f_equal|..]; lia).
    destruct Hf as [H0 H1]. unfold is_u in *. assert (ip_1 f = 0) as -> by lia.
    assert (ip_0 f + 2 ^ (off - 64) = 2 ^ 64) as -> by lia. done.
Qed.

Lemma fit_mask_stops n f g mask :
  field_ok f -> 0 <= mask <= 128 -> 128 - mask <= Z.of_nat n -> num6 f mod 2 ^ (128 - mask) = 0 ->
  let r := fit_mask n f g mask in
  mask <= r <= 128 /\ num6 f mod 2 ^ (128 - r) = 0 /\
  (r = 128 \/ lessOrEqual (addbyBitOffsetAndSub f (128 - r) 1) g = true).
Proof.
  intros Hf. revert mask. induction n as [|n IH]; intros mask Hm Hn Ha; cbn [fit_mask].
  - split_and!; [lia|lia|done|left; lia].
  - destruct (Z.ltb_spec mask 128); [|split_and!; [lia|lia|done|left; lia]].
    case_match eqn:E; [split_and!; [lia|lia|done|by right]|].
    destruct (IH (mask + 1)) as (? & ? & ?); [lia|lia| |split_and!; [lia|lia|done|done]].
    apply (align_weaken 128 _ mask); [lia|lia|done].
Qed.

(** The rounds left: at the last address none, and one at zero when the range covers
    everything. *)
Definition range6_left (last v : Z) : Z :=
  if v =? max6 then 0 else if (v =? 0) && (max6 - 1 <=? last) then 1 else 2 ^ 128 - v + 2.

Lemma range6_next f g :
  field_ok f -> field_ok g -> num6 f <> max6 ->
  let next := addbyBitOffsetAndSub f (128 - fit_mask 128 f g (getMask f)) 0 in
  field_ok next /\ range6_left (num6 g) (num6 next) < range6_left (num6 g) (num6 f).
Proof.
  intros Hf Hg Hne. pose proof (num6_range f Hf) as Hr. pose proof (num6_range g Hg) as Hrg.
  destruct (getMask_spec f Hf) as [Hm Ha].
  destruct (fit_mask_stops 128 f g (getMask f) Hf Hm ltac:(lia) Ha) as (Hr1 & Ha1 & Hs).
  set (r := fit_mask 128 f g (getMask f)) in *. cbv zeta.
  assert (max6 = 2 ^ 128 - 1) as EM by done. destruct (decide (r = 0)) as [E0|Hr0].
  { rewrite E0. split; [done|]. change (num6 (addbyBitOffsetAndSub f (128 - 0) 0)) with max6. unfold range6_left. rewrite Z.eqb_refl.
    rewrite (proj2 (Z.eqb_neq _ _) Hne). case_match; [done|]. unfold is_u in *. lia. }
  pose proof (align_room 128 (num6 f) r ltac:(lia) Hr Ha1) as Hroom.
  destruct (addby_num f (128 - r) 0 Hf ltac:(lia) ltac:(lia) Hroom) as (Hok & H1 & _). split; [done|].
  pose proof (pow2_pos (128 - r) ltac:(lia)) as Hp.
  assert (forall v, num6 f < v -> is_u 128 v -> range6_left (num6 g) v < range6_left (num6 g) (num6 f) \/
    (num6 f = 0 /\ max6 - 1 <= num6 g)) as Hup.
  { intros v Hv Hu. unfold range6_left, is_u in *. repeat case_match; try lia. }
  pose proof (num6_range _ Hok) as Hu. destruct (decide (num6 f + 2 ^ (128 - r) = 2 ^ 128)) as [E|Hlt].
  - rewrite (addby_edge f (128 - r) Hf ltac:(lia) E) in *. case_match.
    + destruct (Hup max6) as [|[Hz _]]; [unfold is_u in *; lia|done|done|].
      assert (2 ^ (128 - r) < 2 ^ 128) by (apply Z.pow_lt_mono_r; lia). lia.
    + destruct (addby_num f (128 - r) 1 Hf ltac:(lia) ltac:(lia) Hroom) as (Hok1 & _ & H2).
      destruct Hs as [|Hs]; [lia|]. rewrite lessOrEqual_num in Hs by done. apply Z.leb_le in Hs.
      rewrite H2 in Hs by done. unfold range6_left, is_u in *. rewrite (proj2 (Z.leb_le _ _)) by lia.
      assert (2 ^ (128 - r) < 2 ^ 128) by (apply Z.pow_lt_mono_r; lia). repeat case_match; lia.
  - rewrite H1 in * by lia. destruct (Hup (num6 f + 2 ^ (128 - r) - 0)) as [|[Hz Hl]]; [lia|done|done|].
    exfalso. apply Hr0. unfold r. unfold num6 in Hz. destruct Hf as [F0 F1]. unfold is_u in *.
    destruct f as [a b]. cbn [ip_0 ip_1] in *. assert (a = 0) as -> by lia. assert (b = 0) as -> by lia.
    change (getMask _) with 0. cbn [fit_mask]. change (0 <? 128) with true. cbv iota.
    rewrite lessOrEqual_num by done. change (num6 (addbyBitOffsetAndSub _ (128 - 0) 1)) with (max6 - 1).
    by rewrite (proj2 (Z.leb_le _ _) Hl).
Qed.

Lemma ipv6_range_total startIp endIp :
  zlen startIp = 16 -> bytes_ok startIp -> zlen endIp = 16 -> bytes_ok endIp ->
  is_Some (ipv6RangeConvert startIp endIp).
Proof.
  intros Ls Bs Le Be. destruct (newIp6Field_num startIp Ls Bs) as [Fs _].
  destruct (newIp6Field_num endIp Le Be) as [Fe _]. unfold ipv6RangeConvert. set (g := newIp6Field endIp) in *.
  destruct (rounds_exit (fun s => field_ok s.1) (fun _ => True) (fun s => range6_left (num6 g) (num6 s.1))
    (range6_round g) 129 (newIp6Field startIp, [])) as (ips & -> & _); [|..|done].
  - intros [f ips] Hf. cbn [fst] in *. unfold range6_round. rewrite makeIp_max by done.
    destruct (lessOrEqual f g); [|done]. destruct (Z.eqb_spec (num6 f) max6); [done|]. by apply range6_next.
  - intros [f ips] Hf%num6_range. cbn [fst] in *. unfold range6_left, is_u in *. repeat case_match; lia.
  - done.
  - cbn [fst]. apply num6_range in Fs. change (2 ^ Z.of_nat 129) with (2 ^ 128 + 2 ^ 128).
    unfold range6_left, is_u in *. repeat case_match; lia.
Qed.

(** The network of all addresses. *)
Definition all6 : IPNet := mkIPNet (replicate 16 0) (replicate 16 0).

Lemma Contains_all6 ip : ip6_addr ip -> Contains all6 ip = true.
Proof.
  intros (L & B & T). assert (all6 = mkIPNet (makeIp (mkip6Field 0 0)) (CIDRMask 0 128)) as -> by by vm_compute.
  rewrite Contains_net6; [|by split|lia|by vm_compute|done|done|done].
  pose proof (be_get_range ip B) as R. rewrite L in R. rewrite (Z.div_small (be_get ip)) by exact R. by vm_compute.
Qed.

(** ** Ranges up to the last address *)

Lemma first_bit_set n x p q : 0 <= p -> p + Z.of_nat n <= 64 -> first_bit n x p = Some q -> Z.testbit x q = true.
Proof.
  revert p. induction n as [|n IH]; intros p Hp Hn; cbn [first_bit]; [done|]. rewrite land_bit by lia.
  destruct (Z.testbit x p) eqn:E; cbn [negb]; [by intros [= <-]|]. apply IH; lia.
Qed.

(** The mask ends at the lowest bit set: the number of networks of its size before it is
    odd. *)
Lemma getMask_odd f : field_ok f -> num6 f <> 0 ->
  1 <= getMask f /\ Z.odd (num6 f / 2 ^ (128 - getMask f)) = true.
Proof.
  intros [H0 H1] Hn. unfold getMask. pose proof (first_bit_spec 64 (ip_1 f) 0 H1 ltac:(lia) ltac:(lia) (Z.mod_1_r _)) as F1.
  pose proof (first_bit_spec 64 (ip_0 f) 0 H0 ltac:(lia) ltac:(lia) (Z.mod_1_r _)) as F0.
  rewrite <- Z.bit0_odd. destruct (first_bit 64 (ip_1 f) 0) as [p|] eqn:E1.
  - apply first_bit_set in E1; [|lia|lia]. split; [lia|]. replace (128 - (128 - p)) with p by lia.
    rewrite Z.div_pow2_bits, Z.add_0_l by lia. rewrite <- (Z.mod_pow2_bits_low _ 64) by lia.
    unfold num6. rewrite Z.add_comm, Z.mod_add, Z.mod_small by (done || apply H1). done.
  - assert (ip_1 f = 0) as Ez by (rewrite Z.mod_small in F1; done). unfold num6 in *. rewrite Ez, Z.add_0_r in *.
    destruct (first_bit 64 (ip_0 f) 0) as [p|] eqn:E0.
    + apply first_bit_set in E0; [|lia|lia]. split; [lia|]. replace (128 - (64 - p)) with (64 + p) by lia.
      rewrite Z.div_pow2_bits, Z.add_0_l, Z.mul_pow2_bits by lia. by replace (64 + p - 64) with p by lia.
    + exfalso. apply Hn. rewrite Z.mod_small in F0 by done. by rewrite F0.
Qed.

(** At the last address the inner loop keeps the mask. *)
Lemma fit_mask_max f g : field_ok f -> field_ok g -> max6 - 1 <= num6 g -> (num6 f <> 0 -> num6 g = max6) ->
  fit_mask 128 f g (getMask f) = getMask f.
Proof.
  intros Hf Hg Hm Hz. destruct (getMask_spec f Hf) as [Hr Ha]. cbn [fit_mask]. destruct (Z.ltb_spec (getMask f) 128); [|done].
  destruct (decide (num6 f = 0)) as [E|Hne].
  - assert (f = mkip6Field 0 0) as -> by (apply num6_inj; [done|by split|done]). change (getMask _) with 0.
    rewrite lessOrEqual_num by done. change (num6 (addbyBitOffsetAndSub _ (128 - 0) 1)) with (max6 - 1).
    by rewrite (proj2 (Z.leb_le _ _) Hm).
  - destruct (getMask_odd f Hf Hne) as [H1 _]. pose proof (align_room 128 (num6 f) (getMask f) Hr (num6_range f Hf) Ha) as Hroom.
    destruct (addby_num f (128 - getMask f) 1 Hf ltac:(lia) ltac:(lia) Hroom) as (Hok & _).
    rewrite lessOrEqual_num, (Hz Hne) by done. apply num6_range in Hok. unfold is_u, max6 in *.
    by rewrite (proj2 (Z.leb_le _ _)) by lia.
Qed.

(** One round of a range up to the last address: the network, and where the next one begins. *)
Lemma range6_top_round f g ips :
  field_ok f -> field_ok g -> num6 g = max6 -> num6 f <> 0 -> num6 f <> max6 ->
  exists k f', 0 <= k < 128 /\ num6 f mod 2 ^ k = 0 /\ Z.odd (num6 f / 2 ^ k) = true /\ num6 f + 2 ^ k <= 2 ^ 128 /\
    field_ok f' /\
    num6 f' = (if num6 f + 2 ^ k <? 2 ^ 128 then num6 f + 2 ^ k else if k <? 64 then max6 else 0) /\
    range6_round g (f, ips) = inl (f', ips ++ [mkIPNet (makeIp f) (CIDRMask (128 - k) 128)]).
Proof.
  intros Hf Hg Eg H0 Hm. destruct (getMask_spec f Hf) as [Hr Ha]. destruct (getMask_odd f Hf H0) as [H1 Ho].
  pose proof (align_room 128 (num6 f) (getMask f) Hr (num6_range f Hf) Ha) as Hroom.
  destruct (addby_num f (128 - getMask f) 0 Hf ltac:(lia) ltac:(lia) Hroom) as (Hok & Hn & _).
  exists (128 - getMask f), (addbyBitOffsetAndSub f (128 - getMask f) 0).
  split_and!; [lia|lia|done|done|done|exact Hok| |].
  - destruct (Z.ltb_spec (num6 f + 2 ^ (128 - getMask f)) (2 ^ 128)); [rewrite Hn by lia; lia|].
    apply addby_edge; [done|lia|lia].
  - unfold range6_round. rewrite lessOrEqual_num, makeIp_max, fit_mask_max by first [done|lia].
    pose proof (num6_range f Hf) as Hu. rewrite Eg, (proj2 (Z.eqb_neq _ _) Hm). unfold is_u, max6 in *.
    rewrite (proj2 (Z.leb_le _ _)) by lia. cbn [andb negb]. by replace (128 - (128 - getMask f)) with (getMask f) by lia.
Qed.

(** The network of a round takes the addresses on from its first one. *)
Lemma covers_next ips first f k ip :
  field_ok f -> 0 <= k <= 128 -> num6 f mod 2 ^ k = 0 -> first <= num6 f -> ip6_addr ip ->
  covers ips ip = (first <=? be_get ip) && (be_get ip <? num6 f) ->
  covers (ips ++ [mkIPNet (makeIp f) (CIDRMask (128 - k) 128)]) ip =
    (first <=? be_get ip) && (be_get ip <? num6 f + 2 ^ k).
Proof.
  intros Hf Hk Ha Hle (L & B & T) Hc. pose proof (pow2_pos k ltac:(lia)).
  rewrite covers_snoc, Hc, Contains_net6; try done; [|lia|by replace (128 - (128 - k)) with k by lia].
  replace (128 - (128 - k)) with k by lia. rewrite block_in by (done || lia). lia.
Qed.

(** What the loop keeps on the way to the last address, if it begins less than [2^64] before
    it, and otherwise. *)
Definition top_inv (first : Z) (s : ip6Field * list IPNet) : Prop :=
  field_ok s.1 /\
  ((first <= num6 s.1 < max6 /\ forall ip, ip6_addr ip -> covers s.2 ip = (first <=? be_get ip) && (be_get ip <? num6 s.1)) \/
   (num6 s.1 = max6 /\ forall ip, ip6_addr ip -> covers s.2 ip = (first <=? be_get ip))).

Definition wrap_inv (first : Z) (g : ip6Field) (s : ip6Field * list IPNet) : Prop :=
  field_ok s.1 /\
  ((num6 g = max6 /\ 0 < first <= num6 s.1 /\ num6 s.1 <= 2 ^ 128 - 2 ^ 64 /\
    forall ip, ip6_addr ip -> covers s.2 ip = (first <=? be_get ip) && (be_get ip <? num6 s.1)) \/
   num6 s.1 = 0 \/ (num6 s.1 = max6 /\ forall ip, ip6_addr ip -> covers s.2 ip = true)).

Lemma be_get16 ip : ip6_addr ip -> be_get ip < 2 ^ 128.
Proof. intros (L & B & _). pose proof (be_get_range ip B) as R. rewrite L in R. apply R. Qed.

Lemma odd_block a s : 0 < s -> a mod s = 0 -> Z.odd (a / s) = true -> exists q, a = (2 * q + 1) * s.
Proof.
  intros Hs Hm Ho. apply Z.mod_divide in Hm as [c ->]; [|lia]. rewrite Z.div_mul in Ho by lia.
  apply Z.odd_spec in Ho as [q ->]. by exists q.
Qed.

Lemma top_round first g s :
  field_ok g -> num6 g = max6 -> 2 ^ 128 - 2 ^ 64 < first -> top_inv first s ->
  match range6_round g s with
  | inl s' => top_inv first s'
  | inr ips => forall ip, ip6_addr ip -> covers ips ip = (first <=? be_get ip)
  end.
Proof.
  destruct s as [f ips]. intros Hg Eg Hfirst (Hf & [[Hr Hc]|[Em Hc]]); cbn [fst snd] in *.
  2: { unfold range6_round. by rewrite makeIp_max, Em, Z.eqb_refl, andb_false_r by done. }
  destruct (range6_top_round f g ips Hf Hg Eg ltac:(lia) ltac:(lia)) as (k & f' & Hk & Ha & Ho & Hroom & Hf' & En & ->).
  pose proof (pow2_pos k ltac:(lia)) as Hp.
  assert (k < 64) as Hk64 by (apply (Z.pow_lt_mono_r_iff 2); unfold max6 in *; lia).
  assert (forall ip, ip6_addr ip -> _) as Hc' by (intros ip Hip; apply (covers_next ips first f k ip); try done; try lia; by apply Hc).
  split; [done|]. cbn [fst snd]. rewrite En, (proj2 (Z.ltb_lt k 64) Hk64).
  destruct (Z.ltb_spec (num6 f + 2 ^ k) (2 ^ 128)).
  - left. split; [|done]. split; [lia|]. destruct (odd_block _ _ Hp Ha Ho) as [q Eq].
    destruct (decide (k = 0)) as [->|]; [change (2 ^ 0) with 1 in *; unfold max6 in *; lia|].
    replace (2 ^ k) with (2 * 2 ^ (k - 1)) in * by (rewrite <- Z.pow_succ_r by lia; f_equal; lia). unfold max6 in *. lia.
  - right. split; [done|]. intros ip Hip. rewrite Hc' by done. pose proof (be_get16 ip Hip). lia.
Qed.

Lemma wrap_round first g s :
  field_ok g -> max6 - 1 <= num6 g -> wrap_inv first g s ->
  match range6_round g s with
  | inl s' => wrap_inv first g s'
  | inr ips => forall ip, ip6_addr ip -> covers ips ip = true
  end.
Proof.
  destruct s as [f ips]. intros Hg Hm (Hf & [(Eg & Hr & Hh & Hc)|[Ez|[Em Hc]]]); cbn [fst snd] in *.
  3: { unfold range6_round. by rewrite makeIp_max, Em, Z.eqb_refl, andb_false_r by done. }
  - destruct (range6_top_round f g ips Hf Hg Eg ltac:(lia) ltac:(unfold max6; lia)) as (k & f' & Hk & Ha & Ho & Hroom & Hf' & En & ->).
    pose proof (pow2_pos k ltac:(lia)) as Hp. split; [done|]. cbn [fst snd]. rewrite En.
    destruct (odd_block _ _ Hp Ha Ho) as [q Eq]. destruct (Z.ltb_spec (num6 f + 2 ^ k) (2 ^ 128)) as [Hlt|Hge].
    + left. split_and!; [done|lia|lia| |].
      * destruct (Z.ltb_spec k 64) as [Hs|Hs].
        -- replace (2 ^ 64) with (2 * 2 ^ (63 - k) * 2 ^ k) in *
             by (rewrite <- Z.mul_assoc, <- Z.pow_add_r by lia; rewrite <- Z.pow_succ_r by lia; f_equal; lia).
           replace (2 ^ 128) with (2 * 2 ^ (127 - k) * 2 ^ k) in *
             by (rewrite <- Z.mul_assoc, <- Z.pow_add_r by lia; rewrite <- Z.pow_succ_r by lia; f_equal; lia).
           rewrite Eq in *. assert (2 * q + 1 <= 2 * 2 ^ (127 - k) - 2 * 2 ^ (63 - k)) by nia. nia.
        -- replace (2 ^ k) with (2 ^ (k - 64) * 2 ^ 64) in * by (rewrite <- Z.pow_add_r by lia; f_equal; lia).
           rewrite Eq in *. change (2 ^ 128) with (2 ^ 64 * 2 ^ 64) in *. nia.
      * intros ip Hip. apply covers_next; try done; try lia. by apply Hc.
    + assert (~ k < 64) as Hs by (intros Hs; assert (2 ^ k < 2 ^ 64) by (apply Z.pow_lt_mono_r; lia); lia).
      right. left. by rewrite (proj2 (Z.ltb_ge k 64)) by lia.
  - assert (f = mkip6Field 0 0) as -> by (apply num6_inj; [done|by split|done]). unfold range6_round.
    rewrite fit_mask_max, lessOrEqual_num, makeIp_max by (done || lia). change (num6 (mkip6Field 0 0)) with 0.
    rewrite (proj2 (Z.leb_le _ _)) by (unfold max6 in *; lia). change (0 =? max6) with false. cbn [andb negb].
    change (getMask _) with 0. split; [done|]. right. right. split; [done|]. cbn [fst snd]. intros ip Hip.
    rewrite covers_snoc. change (mkIPNet _ _) with all6. by rewrite Contains_all6, orb_true_r.
Qed.

Lemma range6_leaves (J : ip6Field * list IPNet -> Prop) (Q : list IPNet -> Prop) startIp endIp :
  zlen startIp = 16 -> bytes_ok startIp -> zlen endIp = 16 -> bytes_ok endIp ->
  (forall s, field_ok s.1 -> J s -> match range6_round (newIp6Field endIp) s with inl s' => J s' | inr ips => Q ips end) ->
  J (newIp6Field startIp, []) -> exists ips, ipv6RangeConvert startIp endIp = Some ips /\ Q ips.
Proof.
  intros Ls Bs Le Be Hround HJ. destruct (newIp6Field_num startIp Ls Bs) as [Fs _].
  destruct (newIp6Field_num endIp Le Be) as [Fe _]. unfold ipv6RangeConvert. set (g := newIp6Field endIp) in *.
  destruct (rounds_exit (fun s => field_ok s.1 /\ J s) Q (fun s => range6_left (num6 g) (num6 s.1))
    (range6_round g) 129 (newIp6Field startIp, [])) as (ips & -> & ?); [| |by split| |eauto].
  - intros [f ips] [Hf Hj]. cbn [fst] in *. specialize (Hround (f, ips) Hf Hj). unfold range6_round in *. rewrite makeIp_max in * by done.
    destruct (lessOrEqual f g); [|done]. destruct (Z.eqb_spec (num6 f) max6); [done|]. cbn [andb negb] in *.
    destruct (range6_next f g Hf Fe n) as [H1 H2]. done.
  - intros [f ips] [Hf%num6_range _]. cbn [fst] in *. unfold range6_left, is_u in *. repeat case_match; lia.
  - cbn [fst]. apply num6_range in Fs. change (2 ^ Z.of_nat 129) with (2 ^ 128 + 2 ^ 128).
    unfold range6_left, is_u in *. repeat case_match; lia.
Qed.

(** Where the conversion of a range goes wrong: it takes all addresses for the range, or
    none. *)
Definition takes_all (first last : Z) : bool :=
  ((first =? 0) && (max6 - 1 <=? last)) || ((first <=? 2 ^ 128 - 2 ^ 64) && (last =? max6)).

Definition takes_none (first last : Z) : bool := (first =? max6) && (last =? max6).

(** C31: the conversion of a range of IPv6 addresses ends for all ends, and its networks
    contain an address of IPv6 proper, that is not one of IPv4 in the form of IPv6, exactly
    when it lies between the ends, with these exceptions.  A range up to the last address
    that begins [2^64] addresses before its end or earlier, and the range of all addresses but
    the last, are converted to networks of all addresses, and the range of the last
    address alone to no network. *)
Theorem ipv6_range_exact startIp endIp :
  zlen startIp = 16 -> bytes_ok startIp -> zlen endIp = 16 -> bytes_ok endIp ->
  exists ips, ipv6RangeConvert startIp endIp = Some ips /\
    forall ip, ip6_addr ip -> covers ips ip =
      if takes_all (be_get startIp) (be_get endIp) then true
      else if takes_none (be_get startIp) (be_get endIp) then false
      else (be_get startIp <=? be_get ip) && (be_get ip <=? be_get endIp).
Proof.
  intros Ls Bs Le Be. destruct (newIp6Field_num startIp Ls Bs) as [Fs Ns]. destruct (newIp6Field_num endIp Le Be) as [Fe Ne].
  pose proof (num6_range _ Fs) as Rs. pose proof (num6_range _ Fe) as Re. rewrite Ns in Rs. rewrite Ne in Re. unfold is_u in *.
  destruct (takes_all (be_get startIp) (be_get endIp)) eqn:Ea.
  { apply (range6_leaves (wrap_inv (be_get startIp) (newIp6Field endIp))); try done.
    - intros s _. apply wrap_round; [done|]. unfold takes_all, max6 in *. lia.
    - split; [done|]. cbn [fst snd]. rewrite Ns, Ne. destruct (Z.eqb_spec (be_get startIp) 0); [by right; left|left].
      unfold takes_all, max6 in *. split_and!; [lia..|]. intros ip _. cbn [covers existsb]. lia. }
  destruct (decide (ends_before_max (be_get startIp) (be_get endIp))) as [He|He].
  { destruct (range6_ok startIp endIp) as (ips & E & Hips); try done. exists ips. split; [done|]. intros ip Hip.
    rewrite Hips by done. unfold takes_none. destruct He. rewrite (proj2 (Z.eqb_neq (be_get endIp) max6)), andb_false_r by lia. done. }
  assert (be_get endIp = max6 /\ 2 ^ 128 - 2 ^ 64 < be_get startIp) as [El Hfirst]
    by (unfold ends_before_max, takes_all, max6 in *; lia).
  unfold takes_none. rewrite El, Z.eqb_refl, andb_true_r. destruct (Z.eqb_spec (be_get startIp) max6) as [Em|Hne].
  - apply (range6_leaves (fun s => num6 s.1 = max6 /\ s.2 = [])); try done; [|split; [exact (eq_trans Ns Em)|done]].
    intros [f ips] Hf [E E2]. cbn [fst snd] in *. subst ips. unfold range6_round. by rewrite makeIp_max, E, Z.eqb_refl, andb_false_r by done.
  - destruct (range6_leaves (top_inv (be_get startIp)) (fun ips => forall ip, ip6_addr ip -> covers ips ip = (be_get startIp <=? be_get ip))
      startIp endIp) as (ips & E & Hips); try done.
    + intros s _. apply top_round; [done|by rewrite Ne|done].
    + split; [done|]. left. cbn [fst snd]. rewrite Ns. unfold max6 in *. split; [lia|]. intros ip _. cbn [covers existsb]. lia.
    + exists ips. split; [done|]. intros ip Hip. rewrite Hips by done. pose proof (be_get16 ip Hip). unfold max6. lia.
Qed.

(** An ordinary range, the last [2^64] addresses, and the last address. *)
Lemma ipv6_range_exact_witness :
  (exists ips, ipv6RangeConvert ([32; 1; 13; 184] ++ replicate 11 0 ++ [3]) ([32; 1; 13; 184] ++ replicate 9 0 ++ [1; 0; 5]) = Some ips /\
    forall ip, ip6_addr ip -> covers ips ip =
      (be_get ([32; 1; 13; 184] ++ replicate 11 0 ++ [3]) <=? be_get ip) &&
      (be_get ip <=? be_get ([32; 1; 13; 184] ++ replicate 9 0 ++ [1; 0; 5]))) /\
  (exists ips, ipv6RangeConvert (replicate 8 255 ++ replicate 8 0) (replicate 16 255) = Some ips /\
    forall ip, ip6_addr ip -> covers ips ip = true).
Proof.
  split.
  - apply (ipv6_range_exact ([32; 1; 13; 184] ++ replicate 11 0 ++ [3]) ([32; 1; 13; 184] ++ replicate 9 0 ++ [1; 0; 5]));
      [done|repeat constructor; done|done|repeat constructor; done].
  - apply (ipv6_range_exact (replicate 8 255 ++ replicate 8 0) (replicate 16 255));
      [done|repeat constructor; done|done|repeat constructor; done].
Defined.
