(* ===== verification/Labeler.v ===== *)
(** The labeler of services ([server/libs/grpc/labeler.go]) over the resource groups of
    addresses ([server/libs/policy/group_labeler.go]): which groups an address, a
    protocol and a port belong to, with the caches of earlier answers.

    The maps from keys to places in a cache are interfaces: the ones for keys of 160
    and 192 bits are generated, and that for 128 bits is [IdMap.U128IDMap]. *)

From stdpp Require Import strings.
From S2P Require Import Prelude Strconv LineProto Ckdb Meter Tag TagMini Document Expand Platform Ranges.

#[local] Open Scope string_scope.
#[local] Open Scope list_scope.
#[local] Open Scope Z_scope.

(** * What the labeler relies on *)

(** [idmap]: the value of a key, or the new value and [true] when there was none. *)
Class IDMap (K C : Type) := {
  NewIDMap : C;
  AddOrGet (key : K) (hash value : Z) (overwrite : bool) : ST C (Z * bool)
}.

(** [IPNet.String] *)
Class NetPrint := { IPNet_String : IPNet -> string }.

(** * Resource groups *)

Definition STANDARD_MASK_LEN : Z := 16.
Definition MASK_LEN_NUM : Z := 33.
Definition NAMED : Z := 0.
Definition ANONYMOUS : Z := 1.
Definition IP_GROUP_ID_FLAG : Z := 1000000000.
Definition PROTO_ALL : Z := 256.

Record IpGroupData := mkIpGroupData { gd_Id : Z; gd_EpcId : Z; gd_Type : Z; gd_Ips : list string; gd_VmIds : list Z }.

Record Ip6GroupItem := mkIp6Item { item_id : Z; item_ipNet : IPNet }.

Record GroupIdData := mkGroupIdData { GroupIdMap : gset Z; GroupIdSlice : list Z }.

Record MaskLenData := mkMaskLenData { maskLenMap : gset Z; maskLenSlice : list Z }.

Definition NewMaskLenData : MaskLenData := mkMaskLenData ∅ [].

Definition MaskLenData_Add (d : MaskLenData) (maskLen : Z) : MaskLenData :=
  if decide (maskLen ∈ maskLenMap d) then d
  else mkMaskLenData ({[maskLen]} ∪ maskLenMap d) (maskLenSlice d ++ [maskLen]).

(** The maps by the length of the mask: with 64-bit keys above 16, with 32-bit keys up
    to 16.  A network that [ParseCIDR] returns has at most 32 ones. *)
Definition MaskLenGroups : Type := gmap Z (gmap Z GroupIdData).

Record IpResourceGroup := mkIpResourceGroup {
  maskLenGroupData : MaskLenGroups;
  maskLenGroupDataMini : MaskLenGroups;
  anonymousGroupIds : gset Z;
  anonymousIp4GroupIds : gset Z;
  anonymousIp6GroupIds : gset Z;
  maskLenData : MaskLenData;
  maskLenDataMini : MaskLenData;
  ip6EpcMap : option (gmap Z (list Ip6GroupItem));
  internetGroupIds : list Z
}.

Definition NewIpResourceGroup : IpResourceGroup :=
  mkIpResourceGroup ∅ ∅ ∅ ∅ ∅ NewMaskLenData NewMaskLenData None [].

(** [addGroupIdToMap] and [addGroupIdToMiniMap] *)
Definition addGroupIdToMap (m : gmap Z GroupIdData) (epcIpKey id : Z) : gmap Z GroupIdData :=
  match m !! epcIpKey with
  | Some group =>
      if decide (id ∈ GroupIdMap group) then m
      else <[epcIpKey := mkGroupIdData ({[id]} ∪ GroupIdMap group) (GroupIdSlice group ++ [id])]> m
  | None => <[epcIpKey := mkGroupIdData {[id]} [id]]> m
  end.

Definition add_mask_group (g : MaskLenGroups) (maskLen epcIpKey id : Z) : MaskLenGroups :=
  <[maskLen := addGroupIdToMap (default ∅ (g !! maskLen)) epcIpKey id]> g.

Section Groups.
Context {NT : NetText}.

(** [utils.IpNetmaskFromStringCIDR] *)
Definition IpNetmaskFromStringCIDR (ipStr : string) : option (list Z * Z) :=
  n ← ParseCIDR ipStr; Some (net_IP n, mask_ones (net_Mask n)).

Definition AddAnonymousGroupId (anonymous : gset Z) (group : IpGroupData) : gset Z :=
  if gd_Type group =? ANONYMOUS then {[gd_Id group]} ∪ anonymous else anonymous.

(** The tables that [GenerateIpNetmaskMap] fills. *)
Record netmask_maps := mkNetmaskMaps {
  nm_groups : MaskLenGroups;
  nm_mini : MaskLenGroups;
  nm_len : MaskLenData;
  nm_lenMini : MaskLenData;
  nm_internet : list Z
}.

(** One address of a group. *)
Definition add_ip (id epcId : Z) (m : netmask_maps) (raw : string) : netmask_maps :=
  match IpNetmaskFromStringCIDR raw with
  | None => m
  | Some (ip, maskLen) =>
      if zlen ip =? 16 then m
      else
        let ip4 := IpToUint32 ip in
        if (ip4 =? 0) && (maskLen =? 0) && (epcId =? EPC_FROM_INTERNET) then
          mkNetmaskMaps (nm_groups m) (nm_mini m) (nm_len m) (nm_lenMini m)
            (nm_internet m ++ [u32 (IP_GROUP_ID_FLAG + id)])
        else
          let mask := MaskLenToNetmask maskLen in
          if maskLen >? STANDARD_MASK_LEN then
            let epcIpKey := Z.lor (shl 64 (u64 epcId) 32) (Z.land ip4 mask) in
            mkNetmaskMaps (add_mask_group (nm_groups m) maskLen epcIpKey (u16 id)) (nm_mini m)
              (MaskLenData_Add (nm_len m) maskLen) (nm_lenMini m) (nm_internet m)
          else
            let epcIpKey := Z.lor (shl 32 (u32 epcId) 16) (Z.land ip4 mask ≫ 16) in
            mkNetmaskMaps (nm_groups m) (add_mask_group (nm_mini m) maskLen epcIpKey (u16 id))
              (nm_len m) (MaskLenData_Add (nm_lenMini m) maskLen) (nm_internet m)
  end.

Definition add_group (m : netmask_maps) (group : IpGroupData) : netmask_maps :=
  let epcId := if gd_EpcId group =? EPC_FROM_DEEPFLOW then 0 else gd_EpcId group in
  foldl (add_ip (gd_Id group) epcId) m (gd_Ips group).

Definition GenerateIpNetmaskMap (g : IpResourceGroup) (ipgroupData : list IpGroupData) : IpResourceGroup :=
  let m := foldl add_group (mkNetmaskMaps ∅ ∅ NewMaskLenData NewMaskLenData []) ipgroupData in
  mkIpResourceGroup (nm_groups m) (nm_mini m) (anonymousGroupIds g)
    (foldl AddAnonymousGroupId ∅ ipgroupData) (anonymousIp6GroupIds g) (nm_len m) (nm_lenMini m)
    (ip6EpcMap g) (nm_internet m).

(** One IPv6 network of a group. *)
Definition add_ip6 (group : IpGroupData) (m : gmap Z (list Ip6GroupItem)) (raw : string) : gmap Z (list Ip6GroupItem) :=
  match ParseCIDR raw with
  | None => m
  | Some ipNet =>
      if zlen (net_IP ipNet) =? 4 then m
      else
        let epc := Z.land (gd_EpcId group) 0xffff in
        <[epc := default [] (m !! epc) ++ [mkIp6Item (gd_Id group) ipNet]]> m
  end.

Definition GenerateIp6NetmaskMap (g : IpResourceGroup) (ipgroupData : list IpGroupData) : IpResourceGroup :=
  mkIpResourceGroup (maskLenGroupData g) (maskLenGroupDataMini g) (anonymousGroupIds g) (anonymousIp4GroupIds g)
    (foldl AddAnonymousGroupId ∅ ipgroupData) (maskLenData g) (maskLenDataMini g)
    (Some (foldl (fun m group => foldl (add_ip6 group) m (gd_Ips group)) ∅ ipgroupData)) (internetGroupIds g).

Definition GenerateAnonymousGroupIdMap (g : IpResourceGroup) : IpResourceGroup :=
  let ids := anonymousIp4GroupIds g ∪ anonymousIp6GroupIds g in
  mkIpResourceGroup (maskLenGroupData g) (maskLenGroupDataMini g) ids ids (anonymousIp6GroupIds g)
    (maskLenData g) (maskLenDataMini g) (ip6EpcMap g) (internetGroupIds g).

Definition IpResourceGroup_Update (g : IpResourceGroup) (groups : list IpGroupData) : IpResourceGroup :=
  GenerateAnonymousGroupIdMap (GenerateIp6NetmaskMap (GenerateIpNetmaskMap g groups) groups).
End Groups.

(** ** Queries *)

(** The groups found so far, and the same as a set. *)
Definition found : Type := list Z * gset Z.

Definition add_found (f : found) (value : Z) : found :=
  if decide (value ∈ f.2) then f else (f.1 ++ [value], {[value]} ∪ f.2).

(** [getIpGroupIdFromMap] and [getIpGroupIdFromMiniMap] *)
Definition getIpGroupIdFromMap (key : Z) (f : found) (m : gmap Z GroupIdData) : found :=
  match m !! key with
  | Some group => foldl add_found f (GroupIdSlice group)
  | None => f
  end.

(** [math.MaxUint32 << uint32(MAX_MASK_LEN-maskLen)] *)
Definition upper_mask (maskLen : Z) : Z :=
  let n := u32 (u16 (MAX_MASK_LEN - maskLen)) in if 32 <=? n then 0 else shl 32 (2 ^ 32 - 1) n.

Definition find_long (g : IpResourceGroup) (epcId ip : Z) (f : found) (maskLen : Z) : found :=
  let m := default ∅ (maskLenGroupData g !! maskLen) in
  let f := getIpGroupIdFromMap (Z.lor (shl 64 epcId 32) (Z.land ip (MaskLenToNetmask maskLen))) f m in
  if negb (epcId =? 0) then getIpGroupIdFromMap (Z.land ip (upper_mask maskLen)) f m else f.

Definition find_short (g : IpResourceGroup) (epcId ip : Z) (f : found) (maskLen : Z) : found :=
  let m := default ∅ (maskLenGroupDataMini g !! maskLen) in
  let f := getIpGroupIdFromMap (Z.lor (shl 32 epcId 16) (Z.land ip (MaskLenToNetmask maskLen) ≫ 16)) f m in
  if negb (epcId =? 0) then getIpGroupIdFromMap (Z.land ip (upper_mask maskLen) ≫ 16) f m else f.

Definition GetGroupIds (g : IpResourceGroup) (ip l3EpcId : Z) : list Z :=
  let epcId := if l3EpcId >? 0 then u16 l3EpcId else 0 in
  let f := foldl (find_long g epcId ip) ([], ∅) (maskLenSlice (maskLenData g)) in
  (foldl (find_short g epcId ip) f (maskLenSlice (maskLenDataMini g))).1.

(** The loop over the items of a key; [None] is an identifier past the end of the
    array of 65536 marks. *)
Fixpoint find_items (ip : list Z) (items : list Ip6GroupItem) (f : found) : option found :=
  match items with
  | [] => Some f
  | item :: items =>
      if Contains (item_ipNet item) ip then
        if item_id item <? 65536 then
          find_items ip items
            (if decide (item_id item ∈ f.2) then f else (f.1 ++ [u16 (item_id item)], {[item_id item]} ∪ f.2))
        else None
      else find_items ip items f
  end.

(** An [epcID] above zero is an index of the array of 65536 entries. *)
Definition GetGroupIdsByIpv6 (g : IpResourceGroup) (ip : list Z) (l3EpcId : Z) : option (list Z) :=
  match ip6EpcMap g with
  | None => Some []
  | Some m =>
      f ← (if l3EpcId >? 0 then find_items ip (default [] (m !! l3EpcId)) ([], ∅) else Some ([], ∅));
      fst <$> find_items ip (default [] (m !! 0)) f
  end.

Definition FormatGroupId (id : Z) : Z := if id >=? IP_GROUP_ID_FLAG then id - IP_GROUP_ID_FLAG else id.

(** [None] is a relation past the end. *)
Fixpoint RemoveAnonymousGroupIds (g : IpResourceGroup) (groupIds relationIds : list Z) : option (list Z * list Z) :=
  match groupIds with
  | [] => Some ([], [])
  | id :: groupIds =>
      if decide (FormatGroupId id ∈ anonymousGroupIds g) then
        RemoveAnonymousGroupIds g groupIds (tail relationIds)
      else
        relation ← head relationIds;
        r ← RemoveAnonymousGroupIds g groupIds (tail relationIds);
        Some (id :: r.1, relation :: r.2)
  end.

(** * Ports *)

Record portFilter := mkPortFilter {
  fastMap : gmap Z bool;
  portRanges : gmap Z (list Z);
  hasAnyProtocol : bool
}.

(** [(uint32(i&0xFFFF) << 9) | uint32(protocol)&0x1FF] *)
Definition filter_key (i protocol : Z) : Z :=
  Z.lor (shl 32 (Z.land i 0xFFFF) 9) (Z.land protocol 0x1FF).

Section Filter.
Context {RT : Runtime Z}.

Definition service_ports (entry : GroupIDMap) : list Z :=
  if (g_ServerPorts entry =? "")%string then [NewPortRange 0 65535] else SplitPort2Int (g_ServerPorts entry).

Fixpoint port_map (i : Z) (entries : list GroupIDMap) (m : gmap Z (list Z)) : gmap Z (list Z) :=
  match entries with
  | [] => m
  | entry :: entries =>
      let key := filter_key i (g_Protocol entry) in
      port_map (i + 1) entries (<[key := default [] (m !! key) ++ service_ports entry]> m)
  end.

Definition newPortFilter (groupIDMaps : list GroupIDMap) : portFilter :=
  mkPortFilter ∅ (port_map 0 groupIDMaps ∅) (existsb (fun e => g_Protocol e =? PROTO_ALL) groupIDMaps).
End Filter.

Definition rawCheck (l : portFilter) (group protocol serverPort : Z) : bool :=
  existsb (fun r => (serverPort >=? Min r) && (serverPort <=? Max r))
    (default [] (portRanges l !! filter_key (u32 group) protocol)).

(** [group] is an [int16]. *)
Definition check (group protocol serverPort : Z) (l : portFilter) : bool * portFilter :=
  let fastKey := Z.lor (Z.lor (shl 64 (Z.land (u64 group) 0xFFFF) 24) (shl 64 (Z.land protocol 0xFF) 16))
                   (Z.land serverPort 0xFFFF) in
  match fastMap l !! fastKey with
  | Some ok => (ok, l)
  | None =>
      let ok := rawCheck l group protocol serverPort
                || (hasAnyProtocol l && rawCheck l group PROTO_ALL serverPort) in
      (ok, mkPortFilter (<[fastKey := ok]> (fastMap l)) (portRanges l) (hasAnyProtocol l))
  end.

(** * Removing duplicates *)

(** The inner loop: past the elements that equal [x]. *)
Fixpoint skip_equal (xs : list Z) (x : Z) (fuel j : nat) : nat :=
  match fuel with
  | O => j
  | S fuel =>
      match xs !! j with
      | Some y => if y =? x then skip_equal xs x fuel (S j) else j
      | None => j
      end
  end.

(** The outer loop, in place; the result is the last index. *)
Fixpoint dedup_loop (fuel : nat) (xs : list Z) (i j : nat) : list Z * nat :=
  match fuel with
  | O => (xs, i)
  | S fuel =>
      if (i <? length xs - 1)%nat then
        let j := skip_equal xs (default 0 (xs !! i)) (length xs) j in
        match xs !! j with
        | None => (xs, i)
        | Some y => dedup_loop fuel (<[S i := y]> xs) (S i) j
        end
      else (xs, i)
  end.

Definition dedup {RT : Runtime Z} (xs : list Z) : list Z :=
  match xs with
  | [] => xs
  | _ =>
      let xs := sort_Slice Z.ltb xs in
      let '(xs, i) := dedup_loop (length xs) xs 0 1 in
      take (S i) xs
  end.

(** * The labeler *)

Definition GROUP_CACHE_IPV6_KEYLEN : Z := 20.
Definition SERVER_GROUP_CACHE_IPV6_KEYLEN : Z := 24.

Record GroupLabeler (C160 C128 C192 : Type) := mkLabeler {
  ipCacheLocation : gmap Z Z;
  ipv6CacheLocation : C160;
  cache : list (list Z);
  serverIpCacheLocation : C128;
  serverIpv6CacheLocation : C192;
  serverCache : list (list Z);
  ipGroup : IpResourceGroup;
  internetGroups : list Z;
  podGroup : gmap Z Z;
  filter_ports : portFilter;
  indexToGroupID : list Z
}.
Arguments mkLabeler {C160 C128 C192}.
Arguments ipCacheLocation {C160 C128 C192}.
Arguments ipv6CacheLocation {C160 C128 C192}.
Arguments cache {C160 C128 C192}.
Arguments serverIpCacheLocation {C160 C128 C192}.
Arguments serverIpv6CacheLocation {C160 C128 C192}.
Arguments serverCache {C160 C128 C192}.
Arguments ipGroup {C160 C128 C192}.
Arguments internetGroups {C160 C128 C192}.
Arguments podGroup {C160 C128 C192}.
Arguments filter_ports {C160 C128 C192}.
Arguments indexToGroupID {C160 C128 C192}.

Section Labeler.
Context {C160 C128 C192 : Type} `{!IDMap (list Z) C160} `{!IDMap (Z * Z) C128} `{!IDMap (list Z) C192}.
Context {NT : NetText} {NP : NetPrint} {RT : Runtime Z}.
Abbreviation GL := (GroupLabeler C160 C128 C192).

(** [utils.ParserStringIp]; nil has no bytes. *)
Definition ParserStringIp (ipStr : string) : list Z :=
  match ParseIP ipStr with
  | None => []
  | Some ip => default ip (To4 ip)
  end.

(** The networks of a range, as texts; [None] when the conversion does not return. *)
Definition range_texts (r : string) : option (list string) :=
  match Split "-"%char r with
  | [a; b] =>
      cidrs ← IpRangeConvert2CIDR (ParserStringIp a) (ParserStringIp b);
      Some (map IPNet_String cidrs)
  | _ => Some []
  end.

(** The tables that [NewGroupLabeler] collects. *)
Record collected := mkCollected {
  c_ipGroupData : list IpGroupData;
  c_internet : list Z;
  c_pods : gmap Z Z
}.

Definition collect (i : Z) (c : collected) (g : GroupIDMap) : option collected :=
  if g_PodGroupID g >? 0 then
    Some (mkCollected (c_ipGroupData c) (c_internet c) (<[g_PodGroupID g := u32 i]> (c_pods c)))
  else if i16 (g_L3EpcID g) =? EPC_FROM_INTERNET then
    Some (mkCollected (c_ipGroupData c) (c_internet c ++ [u16 (g_GroupID g)]) (c_pods c))
  else
    ranges ← mapM range_texts (g_IPRanges g);
    Some (mkCollected
      (c_ipGroupData c ++ [mkIpGroupData (u32 i) (g_L3EpcID g) NAMED (g_CIDRs g ++ concat ranges) []])
      (c_internet c) (c_pods c)).

Fixpoint collect_all (i : Z) (idMaps : list GroupIDMap) (c : collected) : option collected :=
  match idMaps with
  | [] => Some c
  | g :: idMaps => c ← collect i c g; collect_all (i + 1) idMaps c
  end.

Definition NewGroupLabeler (idMaps : list GroupIDMap) : option GL :=
  c ← collect_all 0 idMaps (mkCollected [] [] ∅);
  Some (mkLabeler ∅ NewIDMap [] NewIDMap NewIDMap []
    (IpResourceGroup_Update NewIpResourceGroup (c_ipGroupData c)) (c_internet c) (c_pods c)
    (newPortFilter idMaps) (g_GroupID <$> idMaps)).

(** [None] is an index past the end. *)
Definition backMapAndDedup (l : GL) (gs : list Z) : option (list Z) :=
  newGroups ← mapM (fun g => indexToGroupID l !! Z.to_nat g) gs;
  Some (dedup newGroups).

Definition LM : Type -> Type := ST GL.

Definition set_cache (l : GL) (loc : gmap Z Z) (c160 : C160) (c : list (list Z)) : GL :=
  mkLabeler loc c160 c (serverIpCacheLocation l) (serverIpv6CacheLocation l) (serverCache l)
    (ipGroup l) (internetGroups l) (podGroup l) (filter_ports l) (indexToGroupID l).

Definition set_server (l : GL) (c128 : C128) (c192 : C192) (c : list (list Z)) : GL :=
  mkLabeler (ipCacheLocation l) (ipv6CacheLocation l) (cache l) c128 c192 c
    (ipGroup l) (internetGroups l) (podGroup l) (filter_ports l) (indexToGroupID l).

Definition set_filter (l : GL) (f : portFilter) : GL :=
  mkLabeler (ipCacheLocation l) (ipv6CacheLocation l) (cache l) (serverIpCacheLocation l)
    (serverIpv6CacheLocation l) (serverCache l) (ipGroup l) (internetGroups l) (podGroup l) f (indexToGroupID l).

(** The group of a pod is added to those of the address. *)
Definition with_pod (l : GL) (podGroupID : Z) (groups : list Z) : list Z :=
  match podGroup l !! podGroupID with Some gid => groups ++ [u16 gid] | None => groups end.

Definition ip_key (l3EpcID ip podGroupID : Z) : Z :=
  Z.lor (Z.lor (shl 64 podGroupID 48) (shl 64 (u16 l3EpcID) 32)) ip.

Definition innerQuery (l3EpcID ip podGroupID : Z) : LM (list Z) :=
  l ← get_state;
  if l3EpcID =? EPC_FROM_INTERNET then mret (internetGroups l)
  else
    let key := ip_key l3EpcID ip podGroupID in
    match ipCacheLocation l !! key with
    | Some loc => of_option (cache l !! Z.to_nat loc)
    | None =>
        let groups := with_pod l podGroupID (GetGroupIds (ipGroup l) ip l3EpcID) in
        modify (fun l => set_cache l (<[key := zlen (cache l)]> (ipCacheLocation l)) (ipv6CacheLocation l)
                           (cache l ++ [groups])) ;;
        mret groups
    end.

Definition Query (l3EpcID ip podGroupID : Z) : LM (list Z) :=
  gs ← innerQuery l3EpcID ip podGroupID;
  l ← get_state;
  of_option (backMapAndDedup l gs).

(** The groups that serve the port; [check] remembers what it finds. *)
Fixpoint filter_groups (protocol serverPort : Z) (all : list Z) : LM (list Z) :=
  match all with
  | [] => mret []
  | group :: all =>
      l ← get_state;
      let '(ok, f) := check (i16 group) protocol serverPort (filter_ports l) in
      modify (fun l => set_filter l f) ;;
      rest ← filter_groups protocol serverPort all;
      mret (if ok : bool then group :: rest else rest)
  end.

Definition server_key1 (protocol serverPort : Z) : Z := Z.lor (shl 64 serverPort 8) protocol.

Definition on_128 {A} (m : ST C128 A) : LM A := fun l =>
  match m (serverIpCacheLocation l) with
  | Some (a, c) => Some (a, set_server l c (serverIpv6CacheLocation l) (serverCache l))
  | None => None
  end.

Definition on_192 {A} (m : ST C192 A) : LM A := fun l =>
  match m (serverIpv6CacheLocation l) with
  | Some (a, c) => Some (a, set_server l (serverIpCacheLocation l) c (serverCache l))
  | None => None
  end.

Definition on_160 {A} (m : ST C160 A) : LM A := fun l =>
  match m (ipv6CacheLocation l) with
  | Some (a, c) => Some (a, set_cache l (ipCacheLocation l) c (cache l))
  | None => None
  end.

(** The end of a server query: the groups of the address are filtered and remembered. *)
Definition finish_server (protocol serverPort : Z) (all : list Z) : LM (list Z) :=
  filtered ← filter_groups protocol serverPort all;
  modify (fun l => set_server l (serverIpCacheLocation l) (serverIpv6CacheLocation l) (serverCache l ++ [filtered])) ;;
  l ← get_state;
  of_option (backMapAndDedup l filtered).

Definition QueryServer (l3EpcID ip podGroupID protocol serverPort : Z) : LM (list Z) :=
  l ← get_state;
  if l3EpcID =? EPC_FROM_INTERNET then mret (internetGroups l)
  else
    let key0 := ip_key l3EpcID ip podGroupID in
    let key1 := server_key1 protocol serverPort in
    r ← on_128 (AddOrGet (key0, key1) 0 (u32 (zlen (serverCache l))) false);
    if negb r.2 then
      l ← get_state;
      gs ← of_option (serverCache l !! Z.to_nat r.1);
      of_option (backMapAndDedup l gs)
    else
      all ← innerQuery l3EpcID ip podGroupID;
      finish_server protocol serverPort all.

(** ** IPv6 *)

(** [copy(key[n:], ip)] into an array of zeros. *)
Definition copy_ip (ip : list Z) : list Z := take 16 ip ++ replicate (16 - length ip) 0.

Definition ip6_key (l3EpcID : Z) (ip : list Z) (podGroupID : Z) : list Z :=
  be_put 2 (u16 l3EpcID) ++ be_put 2 podGroupID ++ copy_ip ip.

(** The hash of a key: its 32-bit words, combined. *)
Fixpoint key_hash (n : nat) (key : list Z) : Z :=
  match n with
  | O => 0
  | S n => Z.lxor (be_get (take 4 key)) (key_hash n (drop 4 key))
  end.

Definition innerQueryIPv6 (key : list Z) (hash l3EpcID : Z) (ip : list Z) (podGroupID : Z) : LM (list Z) :=
  l ← get_state;
  r ← on_160 (AddOrGet key hash (u32 (zlen (cache l))) false);
  if negb r.2 then
    l ← get_state;
    of_option (cache l !! Z.to_nat r.1)
  else
    groups ← of_option (GetGroupIdsByIpv6 (ipGroup l) ip l3EpcID);
    let groups := with_pod l podGroupID groups in
    modify (fun l => set_cache l (ipCacheLocation l) (ipv6CacheLocation l) (cache l ++ [groups])) ;;
    mret groups.

Definition QueryIPv6 (l3EpcID : Z) (ip : list Z) (podGroupID : Z) : LM (list Z) :=
  l ← get_state;
  if l3EpcID =? EPC_FROM_INTERNET then mret (internetGroups l)
  else
    let key := ip6_key l3EpcID ip podGroupID in
    gs ← innerQueryIPv6 key (key_hash 5 key) l3EpcID ip podGroupID;
    l ← get_state;
    of_option (backMapAndDedup l gs).

Definition QueryServerIPv6 (l3EpcID : Z) (ip : list Z) (podGroupID protocol serverPort : Z) : LM (list Z) :=
  l ← get_state;
  if l3EpcID =? EPC_FROM_INTERNET then mret (internetGroups l)
  else
    let key := be_put 2 protocol ++ be_put 2 serverPort ++ ip6_key l3EpcID ip podGroupID in
    let hash := key_hash 6 key in
    r ← on_192 (AddOrGet key hash (u32 (zlen (serverCache l))) false);
    if negb r.2 then
      l ← get_state;
      gs ← of_option (serverCache l !! Z.to_nat r.1);
      of_option (backMapAndDedup l gs)
    else
      let hash := Z.lxor hash (be_get (take 4 key)) in
      all ← innerQueryIPv6 (drop 4 key) hash l3EpcID ip podGroupID;
      finish_server protocol serverPort all.
End Labeler.
