(* ===== verification/LabelerFacts.v ===== *)
(** The labeler of services answers, whatever was asked before, with the groups whose
    addresses, protocol and ports match. *)

From stdpp Require Import strings sorting.
From S2P Require Import Prelude Strconv LineProto Ckdb Meter Tag TagMini Document Expand Platform PlatformFacts Ranges RangesFacts Labeler.

#[local] Open Scope string_scope.
#[local] Open Scope list_scope.
#[local] Open Scope Z_scope.

(** * Removing duplicates *)

Lemma skip_equal_spec xs x fuel j :
  (length xs <= fuel + j)%nat -> (j <= length xs)%nat ->
  let k := skip_equal xs x fuel j in
  (j <= k <= length xs)%nat /\ (forall n, (j <= n < k)%nat -> xs !! n = Some x) /\ xs !! k <> Some x.
Proof.
  revert j. induction fuel as [|fuel IH]; intros j Hf Hj; cbn.
  - split_and!; [lia|lia|lia|]. rewrite lookup_ge_None_2 by lia. done.
  - destruct (xs !! j) as [y|] eqn:E.
    2: { split_and!; [lia|lia|lia|by rewrite E]. }
    pose proof (lookup_lt_Some _ _ _ E). destruct (Z.eqb_spec y x) as [->|Hne].
    + destruct (IH (S j)) as (H1 & H2 & H3); [lia|lia|]. split_and!; [lia|lia| |done].
      intros n Hn. destruct (decide (n = j)) as [->|]; [done|]. apply H2. lia.
    + split_and!; [lia|lia|lia|]. rewrite E. congruence.
Qed.

Lemma elem_of_take_lookup {A} (l : list A) n x : x ∈ take n l <-> exists i, (i < n)%nat /\ l !! i = Some x.
Proof.
  rewrite list_elem_of_lookup. split.
  - intros [i Hi]. apply lookup_take_Some in Hi as [Hi Hn]. eauto.
  - intros (i & Hi & E). exists i. by rewrite lookup_take_lt.
Qed.

Lemma StronglySorted_snoc {A} (R : A -> A -> Prop) l x :
  StronglySorted R l -> Forall (fun y => R y x) l -> StronglySorted R (l ++ [x]).
Proof.
  induction 1 as [|y l Hl IH Hy]; intros H; cbn; [by repeat constructor|].
  inversion H; subst. constructor; [by apply IH|]. apply Forall_app. by repeat constructor.
Qed.

(** Between two rounds: the first [i + 1] elements are those seen, without repetition,
    and the ones from [j] on are as they were. *)
Definition dedup_inv (X xs : list Z) (i j : nat) : Prop :=
  length xs = length X /\ (i <= j)%nat /\ (j <= length X)%nat /\
  (forall n, (j <= n)%nat -> xs !! n = X !! n) /\ StronglySorted Z.lt (take (S i) xs) /\
  exists cur, xs !! i = Some cur /\ cur ∈ take (S j) X /\
    forall x, x ∈ take (S i) xs <-> x ∈ take j X \/ x = cur.

(** After the inner loop. *)
Lemma dedup_skip X xs i j cur :
  dedup_inv X xs i j -> xs !! i = Some cur ->
  let k := skip_equal xs cur (length xs) j in
  (j <= k <= length X)%nat /\ xs !! k <> Some cur /\ cur ∈ take k X /\ (S i <= k)%nat /\
  forall x, x ∈ take (S i) xs <-> x ∈ take k X.
Proof.
  intros (Hl & Hij & Hj & Hd & Hs & cur' & Ec & Hc & Hx) Ei k.
  assert (cur' = cur) as -> by congruence. clear Ei.
  destruct (skip_equal_spec xs cur (length xs) j) as (Hk & Heq & Hne); [lia|lia|]. fold k in Hk, Heq, Hne.
  assert (cur ∈ take k X) as Hin.
  { apply elem_of_take_lookup in Hc as (n & Hn & En). apply elem_of_take_lookup. exists n. split; [|done].
    destruct (decide (n < j)%nat); [lia|]. assert (n = j) as -> by lia. destruct (decide (j = k)) as [Ek|]; [|lia].
    exfalso. apply Hne. by rewrite <- Ek, Hd. }
  split_and!; [lia|lia|done|done| |].
  - destruct (decide (i < j)%nat); [lia|]. assert (i = j) as -> by lia.
    destruct (decide (j = k)) as [Ek|]; [|lia]. by rewrite <- Ek in Hne.
  - intros x. rewrite Hx, !elem_of_take_lookup. split.
    + intros [(n & Hn & En)| ->]; [exists n; split; [lia|done]|]. by apply elem_of_take_lookup.
    + intros (n & Hn & En). destruct (decide (n < j)%nat); [left; eauto|]. right.
      specialize (Heq n ltac:(lia)). rewrite Hd in Heq by lia. congruence.
Qed.

Lemma dedup_loop_spec X fuel xs i j :
  StronglySorted Z.le X -> dedup_inv X xs i j -> (length X <= fuel + S i)%nat ->
  let '(xs', i') := dedup_loop fuel xs i j in
  StronglySorted Z.lt (take (S i') xs') /\ forall x, x ∈ take (S i') xs' <-> x ∈ X.
Proof.
  intros HX. revert xs i j. induction fuel as [|fuel IH]; intros xs i j Hinv Hf.
  all: pose proof Hinv as (Hl & Hij & Hj & Hd & Hs & cur & Ec & Hc & Hx).
  all: pose proof (lookup_lt_Some _ _ _ Ec) as Hi.
  all: destruct (dedup_skip X xs i j cur Hinv Ec) as (Hk & Hne & Hin & Hik & Hset).
  all: set (k := skip_equal xs cur (length xs) j) in *; cbn [dedup_loop].
  - split; [done|]. intros x. rewrite Hset, take_ge; [done|lia].
  - destruct (Nat.ltb_spec i (length xs - 1)).
    2: { split; [done|]. intros x. rewrite Hset, take_ge; [done|lia]. }
    rewrite Ec. cbn [default from_option id]. fold k. destruct (xs !! k) as [y|] eqn:Ek.
    2: { apply lookup_ge_None in Ek. split; [done|]. intros x. rewrite Hset, take_ge; [done|lia]. }
    rewrite Hd in Ek by lia.
    assert (forall x, x ∈ take (S i) xs -> x <= cur) as Hle.
    { intros x (n & Hn & En)%elem_of_take_lookup. destruct (decide (n = i)) as [->|]; [simplify_eq; lia|].
      enough (x < cur) by lia. apply (proj1 (StronglySorted_lookup _ _) Hs n i); [..|lia].
      all: rewrite lookup_take_lt by lia; done. }
    assert (cur < y) as Hlt.
    { apply elem_of_take_lookup in Hin as (n & Hn & En).
      pose proof (proj1 (StronglySorted_lookup _ _) HX n k cur y En Ek Hn). enough (y <> cur) by lia. congruence. }
    assert (take (S (S i)) (<[S i := y]> xs) = take (S i) xs ++ [y]) as Et.
    { rewrite (take_S_r _ _ y) by (rewrite list_lookup_insert_eq by lia; done). by rewrite take_insert_ge by lia. }
    apply IH; [|lia]. unfold dedup_inv. rewrite Et, length_insert. split_and!; [done|lia|lia| | |].
    + intros n Hn. destruct (decide (n = S i)) as [->|].
      * rewrite list_lookup_insert_eq by lia. assert (S i = k) as -> by lia. by rewrite Ek.
      * rewrite list_lookup_insert_ne by lia. apply Hd. lia.
    + apply StronglySorted_snoc; [done|]. apply Forall_forall. intros x Hx'%Hle. lia.
    + exists y. split_and!; [by rewrite list_lookup_insert_eq by lia| |].
      * apply elem_of_take_lookup. exists k. split; [lia|done].
      * intros x. by rewrite elem_of_app, list_elem_of_singleton, Hset.
Qed.

Lemma mapM_members {A B} (f : A -> option B) xs ys :
  mapM f xs = Some ys -> forall y, y ∈ ys <-> exists x, x ∈ xs /\ f x = Some y.
Proof.
  intros E%mapM_Some y. split.
  - intros [k Hk]%list_elem_of_lookup. destruct (Forall2_lookup_r _ _ _ _ _ E Hk) as (x & Hx%list_elem_of_lookup_2 & Hf). eauto.
  - intros (x & [k Hk]%list_elem_of_lookup & Hf). destruct (Forall2_lookup_l _ _ _ _ _ E Hk) as (y' & Hy & Hf').
    rewrite Hf in Hf'. injection Hf' as ->. by eapply list_elem_of_lookup_2.
Qed.

Section Dedup.
Context {RT : Runtime Z} {RL : RuntimeLaws Z}.

Lemma sort_Z_sorted l : StronglySorted Z.le (sort_Slice Z.ltb l).
Proof.
  apply StronglySorted_lookup. intros i j x y Ex Ey Hij.
  enough ((y <? x) = false) by lia. apply (sort_sorted Z.ltb l i j); [apply Z.ltb_irrefl|lia..|done|done|done].
Qed.

Lemma dedup_spec xs : StronglySorted Z.lt (dedup xs) /\ forall x, x ∈ dedup xs <-> x ∈ xs.
Proof.
  destruct xs as [|a xs]; [by split; [constructor|]|]. unfold dedup. set (X := sort_Slice Z.ltb (a :: xs)).
  assert (X ≡ₚ a :: xs) as HX by apply sort_perm. pose proof (Permutation_length HX) as HL.
  assert (dedup_inv X X 0 1) as Hinv.
  { destruct X as [|b X']; [done|]. unfold dedup_inv. cbn. split_and!; [done|lia|lia|done|by repeat constructor|].
    exists b. split_and!; [done|by left|]. intros x. rewrite take_0, list_elem_of_singleton. tauto. }
  pose proof (dedup_loop_spec X (length X) X 0 1 (sort_Z_sorted _) Hinv ltac:(lia)) as H.
  destruct (dedup_loop _ _ _ _) as [xs' i]. destruct H as [H1 H2]. split; [done|]. intros x. by rewrite H2, HX.
Qed.
End Dedup.

(** * The tables of networks *)

Definition ids_at (G : MaskLenGroups) (len key : Z) : option GroupIdData := default ∅ (G !! len) !! key.

Definition slice_at (G : MaskLenGroups) (len key : Z) : list Z := from_option GroupIdSlice [] (ids_at G len key).

(** A table and the lengths of its masks hold the triples [P]: length, key, group. *)
Definition table_ok (G : MaskLenGroups) (L : MaskLenData) (P : Z -> Z -> Z -> Prop) : Prop :=
  (forall len key x, x ∈ slice_at G len key <-> P len key x) /\
  (forall len key d x, ids_at G len key = Some d -> x ∈ GroupIdMap d <-> x ∈ GroupIdSlice d) /\
  (forall len, len ∈ maskLenMap L <-> len ∈ maskLenSlice L) /\
  (forall len key x, P len key x -> len ∈ maskLenSlice L).

Lemma table_ext G L P P' : (forall len key x, P len key x <-> P' len key x) -> table_ok G L P -> table_ok G L P'.
Proof.
  intros HP (H1 & H2 & H3 & H4). split_and!; [|done|done|].
  - intros len key x. by rewrite H1.
  - intros len key x Hx%HP. by eapply H4.
Qed.

Lemma ids_at_add G len key gid len' key' :
  ids_at (add_mask_group G len key gid) len' key' =
    if decide (len' = len /\ key' = key) then
      Some match ids_at G len key with
           | Some d => if decide (gid ∈ GroupIdMap d) then d
                       else mkGroupIdData ({[gid]} ∪ GroupIdMap d) (GroupIdSlice d ++ [gid])
           | None => mkGroupIdData {[gid]} [gid]
           end
    else ids_at G len' key'.
Proof.
  unfold ids_at, add_mask_group, addGroupIdToMap, MaskLenGroups in *. destruct (decide (len' = len)) as [->|Hl].
  2: { rewrite lookup_insert_ne by done. destruct (decide _) as [[? _]|]; [done|done]. }
  rewrite lookup_insert_eq. cbn [default from_option id]. set (m := default ∅ (G !! len)).
  destruct (decide (key' = key)) as [->|Hk].
  - rewrite decide_True by done. destruct (m !! key) as [d|] eqn:E; [destruct (decide _)|].
    all: by rewrite ?lookup_insert_eq.
  - rewrite decide_False by tauto. destruct (m !! key) as [d|] eqn:E; [destruct (decide _)|].
    all: by rewrite ?lookup_insert_ne.
Qed.

Lemma MaskLenData_Add_spec L len :
  (forall l, l ∈ maskLenMap L <-> l ∈ maskLenSlice L) ->
  (forall l, l ∈ maskLenMap (MaskLenData_Add L len) <-> l ∈ maskLenSlice (MaskLenData_Add L len)) /\
  (forall l, l ∈ maskLenSlice (MaskLenData_Add L len) <-> l ∈ maskLenSlice L \/ l = len).
Proof.
  intros H. unfold MaskLenData_Add. destruct (decide _) as [Hin%H|]; cbn; split; intros l.
  - done.
  - split; [tauto|]. by intros [?| ->].
  - rewrite elem_of_app, elem_of_union, elem_of_singleton, list_elem_of_singleton, H. tauto.
  - rewrite elem_of_app, list_elem_of_singleton. tauto.
Qed.

Lemma table_add G L P len key id :
  table_ok G L P ->
  table_ok (add_mask_group G len key id) (MaskLenData_Add L len)
    (fun len' key' x => P len' key' x \/ len' = len /\ key' = key /\ x = id).
Proof.
  intros (H1 & H2 & H3 & H4). destruct (MaskLenData_Add_spec L len H3) as [H5 H6]. split_and!; [| |done|].
  - intros len' key' x. unfold slice_at. rewrite ids_at_add. destruct (decide _) as [[-> ->]|Hne]; cbn.
    + rewrite <- H1. unfold slice_at. destruct (ids_at G len key) as [d|] eqn:E; cbn.
      * destruct (decide _) as [Hin%(H2 _ _ _ _ E)|]; cbn; [split; [tauto|]; intros [?|(_ & _ & ->)]; done|].
        rewrite elem_of_app, list_elem_of_singleton. tauto.
      * rewrite list_elem_of_singleton, elem_of_nil. tauto.
    + rewrite <- H1. split; [tauto|]. intros [?|(-> & -> & _)]; [done|]. by destruct Hne.
  - intros len' key' d x. rewrite ids_at_add. destruct (decide _) as [[-> ->]|]; [|by apply H2].
    intros [= <-]. destruct (ids_at G len key) as [d|] eqn:E; cbn; [|by rewrite elem_of_singleton, list_elem_of_singleton].
    destruct (decide _); [by eapply H2|]. cbn.
    rewrite elem_of_union, elem_of_singleton, elem_of_app, list_elem_of_singleton, (H2 _ _ _ _ E). tauto.
  - intros len' key' x [Hp|(-> & _)]; apply H6; [left; by eapply H4|by right].
Qed.

(** ** Filling them *)

Section Tables.
Context {NT : NetText}.

(** An address of a group: its identifier, its epc and the text. *)
Definition entry : Type := Z * Z * string.

(** The table, [true] for the long masks, and the triple that an entry adds. *)
Definition entry_key (t : entry) : option (bool * (Z * Z * Z)) :=
  let '(id, epcId, raw) := t in
  match IpNetmaskFromStringCIDR raw with
  | None => None
  | Some (ip, maskLen) =>
      let ip4 := IpToUint32 ip in
      if (zlen ip =? 16) || ((ip4 =? 0) && (maskLen =? 0) && (epcId =? EPC_FROM_INTERNET)) then None
      else
        let a := Z.land ip4 (MaskLenToNetmask maskLen) in
        Some (if maskLen >? STANDARD_MASK_LEN then (true, (maskLen, Z.lor (shl 64 (u64 epcId) 32) a, u16 id))
              else (false, (maskLen, Z.lor (shl 32 (u32 epcId) 16) (a ≫ 16), u16 id)))
  end.

Definition own_epc (g : IpGroupData) : Z := if gd_EpcId g =? EPC_FROM_DEEPFLOW then 0 else gd_EpcId g.

Definition entries (data : list IpGroupData) : list entry :=
  data ≫= fun g => map (fun raw => (gd_Id g, own_epc g, raw)) (gd_Ips g).

Definition holds (ts : list entry) (b : bool) (len key x : Z) : Prop :=
  exists t, t ∈ ts /\ entry_key t = Some (b, (len, key, x)).

Definition maps_ok (m : netmask_maps) (ts : list entry) : Prop :=
  table_ok (nm_groups m) (nm_len m) (holds ts true) /\ table_ok (nm_mini m) (nm_lenMini m) (holds ts false).

Lemma holds_snoc ts t b len key x :
  holds (ts ++ [t]) b len key x <-> holds ts b len key x \/ entry_key t = Some (b, (len, key, x)).
Proof. unfold holds. setoid_rewrite elem_of_app. setoid_rewrite list_elem_of_singleton. naive_solver. Qed.

Lemma add_ip_ok m ts id epcId raw : maps_ok m ts -> maps_ok (add_ip id epcId m raw) (ts ++ [(id, epcId, raw)]).
Proof.
  intros [Hl Hs]. unfold add_ip.
  assert (entry_key (id, epcId, raw) = None -> maps_ok m (ts ++ [(id, epcId, raw)])) as Hskip.
  { intros E. split; [revert Hl|revert Hs]; apply table_ext; intros; rewrite holds_snoc, E; naive_solver. }
  destruct (IpNetmaskFromStringCIDR raw) as [[ip len]|] eqn:Er; cbn [entry_key] in Hskip; rewrite Er in Hskip; [|by apply Hskip].
  destruct (zlen ip =? 16) eqn:E16; [by apply Hskip|]. cbn [orb] in Hskip.
  destruct (_ && _ && _) eqn:Ei; [by apply Hskip|]. clear Hskip.
  destruct (len >? STANDARD_MASK_LEN) eqn:El; split; cbn;
    (eapply table_ext; [|first [apply table_add, Hl | apply table_add, Hs | apply Hl | apply Hs]]);
    intros len' key' x; rewrite holds_snoc; cbn [entry_key]; rewrite Er, E16, Ei, El; naive_solver.
Qed.

Lemma foldl_bind {A B C} (f : C -> B -> C) (g : A -> list B) l c :
  foldl f c (l ≫= g) = foldl (fun c x => foldl f c (g x)) c l.
Proof. revert c. induction l as [|x l IH]; intros c; [done|]. rewrite bind_cons, foldl_app. apply IH. Qed.

Lemma foldl_inv {A C} (f : C -> A -> C) (P : C -> list A -> Prop) l c :
  (forall c seen x, P c seen -> P (f c x) (seen ++ [x])) -> P c [] -> P (foldl f c l) l.
Proof.
  intros Hf. enough (forall seen, P c seen -> P (foldl f c l) (seen ++ l)) as H by exact (H []).
  revert c. induction l as [|x l IH]; intros c seen Hc; cbn; [by rewrite app_nil_r|].
  rewrite cons_middle, (assoc (++)). by apply IH, Hf.
Qed.

Lemma add_group_fold data m :
  foldl add_group m data = foldl (fun m '(id, e, raw) => add_ip id e m raw) m (entries data).
Proof.
  unfold entries. rewrite foldl_bind. revert m. induction data as [|g data IH]; intros m; [done|]. cbn. rewrite IH.
  f_equal. unfold add_group. fold (own_epc g). generalize m. induction (gd_Ips g) as [|raw raws IH']; intros m'; [done|].
  cbn. apply IH'.
Qed.

Lemma groups_of_services_ok data : maps_ok (foldl add_group (mkNetmaskMaps ∅ ∅ NewMaskLenData NewMaskLenData []) data) (entries data).
Proof.
  rewrite add_group_fold. apply (foldl_inv _ maps_ok).
  - intros m ts [[id e] raw]. apply add_ip_ok.
  - assert (forall b, table_ok ∅ NewMaskLenData (holds [] b)) as H; [|by split].
    assert (forall len key, ids_at ∅ len key = None) as E by done.
    intros b. split_and!.
    + intros len key x. unfold slice_at. rewrite E. cbn. unfold holds. split; [by intros ?%elem_of_nil|].
      by intros (t & ?%elem_of_nil & _).
    + intros len key d x. by rewrite E.
    + intros len. cbn. set_solver.
    + by intros len key x (t & ?%elem_of_nil & _).
Qed.
End Tables.

(** ** Queries *)

Definition found_ok (f : found) : Prop := forall x, x ∈ f.1 <-> x ∈ f.2.

Lemma add_found_spec f v : found_ok f -> found_ok (add_found f v) /\ forall x, x ∈ (add_found f v).1 <-> x ∈ f.1 \/ x = v.
Proof.
  unfold found_ok. intros H. unfold add_found. destruct (decide _) as [Hin%H|]; split.
  - done.
  - intros x. split; [tauto|]. by intros [?| ->].
  - intros x. cbn. rewrite elem_of_app, list_elem_of_singleton, H. set_solver.
  - intros x. cbn. rewrite elem_of_app, list_elem_of_singleton. tauto.
Qed.

Lemma foldl_found {A} (step : found -> A -> found) (hit : A -> Z -> Prop) l f :
  (forall f a, found_ok f -> found_ok (step f a) /\ forall x, x ∈ (step f a).1 <-> x ∈ f.1 \/ hit a x) ->
  found_ok f ->
  found_ok (foldl step f l) /\ forall x, x ∈ (foldl step f l).1 <-> x ∈ f.1 \/ exists a, a ∈ l /\ hit a x.
Proof.
  intros Hs. revert f. induction l as [|a l IH]; intros f Hf; cbn.
  - split; [done|]. intros x. set_solver.
  - destruct (Hs f a Hf) as [H1 H2]. destruct (IH _ H1) as [H3 H4]. split; [done|]. intros x. rewrite H4, H2. set_solver.
Qed.

Lemma get_from_map key f m : found_ok f ->
  found_ok (getIpGroupIdFromMap key f m) /\
  forall x, x ∈ (getIpGroupIdFromMap key f m).1 <-> x ∈ f.1 \/ x ∈ from_option GroupIdSlice [] (m !! key).
Proof.
  intros H. unfold getIpGroupIdFromMap. destruct (m !! key) as [d|]; cbn.
  - destruct (foldl_found add_found (fun a x => x = a) (GroupIdSlice d) f add_found_spec H) as [H1 H2].
    split; [done|]. intros x. rewrite H2. naive_solver.
  - split; [done|]. intros x. set_solver.
Qed.

Definition long_key (epc ip len : Z) : Z := Z.lor (shl 64 epc 32) (Z.land ip (MaskLenToNetmask len)).
Definition short_key (epc ip len : Z) : Z := Z.lor (shl 32 epc 16) (Z.land ip (MaskLenToNetmask len) ≫ 16).

Lemma two_keys (k0 k1 : Z) (b : bool) (m : gmap Z GroupIdData) f : found_ok f ->
  let f1 := getIpGroupIdFromMap k1 f m in
  let f2 := if b then getIpGroupIdFromMap k0 f1 m else f1 in
  found_ok f2 /\ forall x, x ∈ f2.1 <-> x ∈ f.1 \/
    (x ∈ from_option GroupIdSlice [] (m !! k1) \/ b = true /\ x ∈ from_option GroupIdSlice [] (m !! k0)).
Proof.
  intros H f1. destruct (get_from_map k1 f m H) as [H1 H2]. fold f1 in H1, H2. destruct b.
  - destruct (get_from_map k0 f1 m H1) as [H3 H4]. split; [done|]. intros x. rewrite H4, H2. tauto.
  - split; [done|]. intros x. rewrite H2. naive_solver.
Qed.

Lemma GetGroupIds_keys g ip epc (P Q : Z -> Z -> Z -> Prop) x :
  table_ok (maskLenGroupData g) (maskLenData g) P -> table_ok (maskLenGroupDataMini g) (maskLenDataMini g) Q ->
  let e := if epc >? 0 then u16 epc else 0 in
  x ∈ GetGroupIds g ip epc <->
    (exists len, P len (long_key e ip len) x \/ e <> 0 /\ P len (Z.land ip (upper_mask len)) x) \/
    (exists len, Q len (short_key e ip len) x \/ e <> 0 /\ Q len (Z.land ip (upper_mask len) ≫ 16) x).
Proof.
  intros (HP & _ & _ & HPl) (HQ & _ & _ & HQl) e. unfold GetGroupIds. fold e.
  set (hit G k1 k2 := fun len x => x ∈ slice_at G len (k1 len) \/ negb (e =? 0) = true /\ x ∈ slice_at G len (k2 len)).
  destruct (foldl_found (find_long g e ip)
    (hit (maskLenGroupData g) (long_key e ip) (fun len => Z.land ip (upper_mask len)))
    (maskLenSlice (maskLenData g)) ([], ∅)) as [H1 H2].
  { intros f len Hf. by apply two_keys. }
  { intros y. cbn. set_solver. }
  destruct (foldl_found (find_short g e ip)
    (hit (maskLenGroupDataMini g) (short_key e ip) (fun len => Z.land ip (upper_mask len) ≫ 16))
    (maskLenSlice (maskLenDataMini g)) (foldl (find_long g e ip) ([], ∅) (maskLenSlice (maskLenData g)))) as [_ H4]; [|done|].
  { intros f len Hf. by apply two_keys. }
  rewrite H4, H2. unfold hit. setoid_rewrite HP. setoid_rewrite HQ. setoid_rewrite negb_true_iff. setoid_rewrite Z.eqb_neq. cbn [fst].
  rewrite elem_of_nil. naive_solver.
Qed.

(** ** Keys are networks *)

Lemma netmask_table : forallb (fun n =>
    let len := Z.of_nat n in
    (MaskLenToNetmask len =? (2 ^ 32 - 1) - (2 ^ (32 - len) - 1)) && (upper_mask len =? MaskLenToNetmask len)
    && (mask_ones (CIDRMask len 32) =? len)) (seq 0 33) = true.
Proof. by vm_compute. Qed.

Lemma netmask_len len : 0 <= len <= 32 ->
  MaskLenToNetmask len = 2 ^ 32 - 2 ^ (32 - len) /\ upper_mask len = MaskLenToNetmask len /\
  mask_ones (CIDRMask len 32) = len.
Proof.
  intros Hl. pose proof (proj1 (forallb_forall _ _) netmask_table (Z.to_nat len)) as H.
  rewrite in_seq in H. specialize (H ltac:(lia)). cbv beta zeta in H. rewrite Z2Nat.id in H by lia. lia.
Qed.

Lemma land_netmask a len : is_u 32 a -> 0 <= len <= 32 ->
  Z.land a (MaskLenToNetmask len) = a / 2 ^ (32 - len) * 2 ^ (32 - len).
Proof.
  intros Ha Hl. rewrite (proj1 (netmask_len len Hl)). rewrite <- Z.shiftr_div_pow2, <- Z.shiftl_mul_pow2 by lia.
  replace (2 ^ 32 - 2 ^ (32 - len)) with (Z.ones len ≪ (32 - len)).
  2: { rewrite Z.shiftl_mul_pow2, Z.ones_equiv, Z.mul_pred_l, <- Z.pow_add_r by lia. f_equal. f_equal. lia. }
  apply Z.bits_inj'. intros n Hn. rewrite Z.land_spec, !Z.shiftl_spec by lia.
  destruct (decide (n < 32 - len)).
  - rewrite !(Z.testbit_neg_r _ (n - _)) by lia. by rewrite andb_false_r.
  - rewrite Z.shiftr_spec, Z.testbit_ones_nonneg by lia. replace (n - (32 - len) + (32 - len)) with n by lia.
    destruct (decide (n < 32)); [rewrite (proj2 (Z.ltb_lt _ _)) by lia; apply andb_true_r|].
    rewrite (Z.bits_above_log2 a n); [done|unfold is_u in *; lia|].
    destruct (decide (a = 0)) as [->|]; [cbn; lia|]. apply Z.log2_lt_pow2; [unfold is_u in *; lia|].
    unfold is_u in *. apply Z.lt_le_trans with (2 ^ 32); [lia|apply Z.pow_le_mono_r; lia].
Qed.

Lemma pack w n e a : 0 <= n <= w -> is_u n a -> Z.lor (shl w e n) a = e mod 2 ^ (w - n) * 2 ^ n + a.
Proof.
  intros Hn Ha. unfold shl, wrap. rewrite Z.shiftl_mul_pow2 by lia.
  replace (2 ^ w) with (2 ^ (w - n) * 2 ^ n) by (rewrite <- Z.pow_add_r; [f_equal|..]; lia).
  pose proof (pow2_pos n ltac:(lia)). pose proof (pow2_pos (w - n) ltac:(lia)).
  rewrite Z.mul_mod_distr_r, <- Z.shiftl_mul_pow2, Z.lor_comm, lor_shiftl_add by (done || lia).
  rewrite Z.shiftl_mul_pow2; lia.
Qed.

Lemma pack_inj n e a e' a' : is_u n a -> is_u n a' -> e * 2 ^ n + a = e' * 2 ^ n + a' <-> e = e' /\ a = a'.
Proof. unfold is_u. intros. split; [|by intros [-> ->]]. intros E. assert (e = e') by nia. nia. Qed.

(** The epc of a group matches that of a query. *)
Definition epc_matches (own epc : Z) : bool := (own =? 0) || ((0 <? epc) && (own =? epc)).

(** The keys that a query looks up. *)
Definition key_hit (long : bool) (epc ip len key : Z) : Prop :=
  let e := if epc >? 0 then u16 epc else 0 in
  if long then key = long_key e ip len \/ e <> 0 /\ key = Z.land ip (upper_mask len)
  else key = short_key e ip len \/ e <> 0 /\ key = Z.land ip (upper_mask len) ≫ 16.

Lemma query_epc own epc : is_i 16 own -> is_i 16 epc ->
  let e := if epc >? 0 then u16 epc else 0 in
  (forall w, 16 <= w -> own mod 2 ^ w = e mod 2 ^ w \/ e <> 0 /\ own mod 2 ^ w = 0 <-> epc_matches own epc = true).
Proof.
  intros Ho He e w Hw. unfold is_i in *. assert (2 ^ 16 <= 2 ^ w) as Hp by (apply Z.pow_le_mono_r; lia).
  change (2 ^ 16) with 65536 in Hp. change (2 ^ (16 - 1)) with 32768 in *.
  assert (e = Z.max 0 epc) as Ee.
  { unfold e. destruct (Z.gtb_spec epc 0); [|lia]. unfold wrap. rewrite Z.mod_small; lia. }
  rewrite (Z.mod_small e) by lia. unfold epc_matches.
  destruct (decide (0 <= own)) as [Hpos|Hneg].
  - rewrite (Z.mod_small own) by lia. lia.
  - replace (own mod 2 ^ w) with (own + 2 ^ w) by (apply (Z.mod_unique _ _ (-1)); lia). lia.
Qed.

Lemma key_hit_iff own epc ip a len : is_i 16 own -> is_i 16 epc -> is_u 32 ip -> is_u 32 a -> 0 <= len <= 32 ->
  let A := Z.land a (MaskLenToNetmask len) in
  let same := epc_matches own epc = true /\ a / 2 ^ (32 - len) = ip / 2 ^ (32 - len) in
  (key_hit true epc ip len (Z.lor (shl 64 (u64 own) 32) A) <-> same) /\
  (len <= 16 -> key_hit false epc ip len (Z.lor (shl 32 (u32 own) 16) (A ≫ 16)) <-> same).
Proof.
  intros Ho He Hip Ha Hl A same. unfold key_hit, long_key, short_key. set (e := if epc >? 0 then u16 epc else 0).
  pose proof (query_epc own epc Ho He) as Hq. cbv zeta in Hq. fold e in Hq.
  destruct (netmask_len len Hl) as (_ & -> & _). unfold A. rewrite !land_netmask by done.
  pose proof (pow2_pos (32 - len) ltac:(lia)) as Hp.
  assert (forall v, is_u 32 v -> is_u 32 (v / 2 ^ (32 - len) * 2 ^ (32 - len))) as Hu.
  { unfold is_u. intros v Hv. pose proof (Z.mul_div_le v (2 ^ (32 - len)) Hp).
    pose proof (Z.div_pos v (2 ^ (32 - len)) ltac:(lia) Hp). nia. }
  assert (a / 2 ^ (32 - len) * 2 ^ (32 - len) = ip / 2 ^ (32 - len) * 2 ^ (32 - len) <->
    a / 2 ^ (32 - len) = ip / 2 ^ (32 - len)) as Heq by nia.
  split; [|intros H16].
  - rewrite !pack by (lia || by apply Hu). unfold wrap. change (64 - 32) with 32.
    rewrite <- (Z.add_0_l (ip / _ * _)) at 2. rewrite <- (Z.mul_0_l (2 ^ 32)) at 2. rewrite !pack_inj by (by apply Hu).
    specialize (Hq 32 ltac:(lia)). change (2 ^ 64) with (2 ^ 32 * 2 ^ 32).
    rewrite Z.rem_mul_r, (Z.mul_comm (2 ^ 32) (_ mod _)), Z.mod_add, Z.mod_mod by lia. unfold same. tauto.
  - set (X v := v / 2 ^ (32 - len) * 2 ^ (32 - len)). fold (X a) (X ip) in Heq |- *.
    assert (forall v, is_u 32 v -> is_u 16 (X v ≫ 16) /\ X v = (X v ≫ 16) * 2 ^ 16) as Hs.
    { intros v Hv. specialize (Hu v Hv). fold (X v) in Hu. rewrite Z.shiftr_div_pow2 by lia. split.
      - unfold is_u in *. split; [apply Z.div_pos; lia|apply Z.div_lt_upper_bound; lia].
      - unfold X. replace (2 ^ (32 - len)) with (2 ^ (16 - len) * 2 ^ 16) by (rewrite <- Z.pow_add_r; [f_equal|..]; lia).
        by rewrite Z.mul_assoc, Z.div_mul by lia. }
    assert (X a ≫ 16 = X ip ≫ 16 <-> X a = X ip) as Hx.
    { pose proof (proj2 (Hs a Ha)). pose proof (proj2 (Hs ip Hip)). lia. }
    rewrite !pack by (lia || by apply Hs). unfold wrap. change (32 - 16) with 16.
    rewrite <- (Z.add_0_l (X ip ≫ 16)) at 2. rewrite <- (Z.mul_0_l (2 ^ 16)) at 2. rewrite !pack_inj by (by apply Hs).
    specialize (Hq 16 ltac:(lia)). change (2 ^ 32) with (2 ^ 16 * 2 ^ 16).
    rewrite Z.rem_mul_r, (Z.mul_comm (2 ^ 16) (_ mod _)), Z.mod_add, Z.mod_mod by lia. unfold same. tauto.
Qed.

(** * What the texts of addresses mean *)

(** Package [net]: an address has 16 bytes; a network has 4 bytes and a mask of leading
    ones, or 16 bytes. *)
Class NetTextLaws `{NT : NetText} := {
  parse_ip s ip : ParseIP s = Some ip -> zlen ip = 16 /\ bytes_ok ip;
  parse_cidr s n : ParseCIDR s = Some n ->
    (zlen (net_IP n) = 4 /\ bytes_ok (net_IP n) /\ exists len, 0 <= len <= 32 /\ net_Mask n = CIDRMask len 32) \/
    (zlen (net_IP n) = 16 /\ zlen (net_Mask n) = 16)
}.

Section Texts.
Context {NT : NetText} {NL : NetTextLaws}.

(** The text names a network of the family that contains the address. *)
Definition names_ip (v4 : bool) (raw : string) (ip : list Z) : bool :=
  match ParseCIDR raw with
  | Some n => Bool.eqb v4 (zlen (net_IP n) =? 4) && Contains n ip
  | None => false
  end.

Lemma entry_hit id own raw epc ip x : is_i 16 own -> own <> EPC_FROM_INTERNET -> is_i 16 epc -> is_u 32 ip ->
  (exists b len key, entry_key (id, own, raw) = Some (b, (len, key, x)) /\ key_hit b epc ip len key) <->
  x = u16 id /\ epc_matches own epc = true /\ names_ip true raw (IpFromUint32 ip) = true.
Proof.
  intros Ho Hi He Hip. unfold names_ip. cbn [entry_key]. unfold IpNetmaskFromStringCIDR.
  destruct (ParseCIDR raw) as [n|] eqn:E; cbn [mbind option_bind]; [|naive_solver].
  apply parse_cidr in E as [(L4 & B4 & len & Hl & Em)|[L16 _]].
  2: { rewrite L16. cbn. naive_solver. }
  rewrite L4, Em. destruct (netmask_len len Hl) as (_ & _ & ->). rewrite (proj2 (Z.eqb_neq own _) Hi), andb_false_r.
  cbn [Z.eqb Pos.eqb orb Bool.eqb andb]. unfold IpToUint32. rewrite L4. cbn [IPv4len Z.eqb Pos.eqb].
  assert (n = net4 (be_get (net_IP n)) len) as En.
  { destruct n as [nip nm]. cbn in *. subst nm. unfold net4. f_equal. apply be_get_inj; [done|by apply be_put_ok|by rewrite L4|].
    unfold IpFromUint32. rewrite be_get_put; [done|lia|]. pose proof (be_get_range _ B4) as H. by rewrite L4 in H. }
  assert (is_u 32 (be_get (net_IP n))) as Ha by (pose proof (be_get_range _ B4) as H; by rewrite L4 in H).
  generalize dependent (be_get (net_IP n)). intros a -> Ha.
  rewrite Contains_net4, Z.eqb_eq by done.
  destruct (key_hit_iff own epc ip a len Ho He Hip Ha Hl) as [H1 H2]. cbv zeta in H1, H2.
  destruct (Z.gtb_spec len STANDARD_MASK_LEN) as [|Hs].
  - rewrite <- H1. naive_solver.
  - rewrite <- (H2 Hs). naive_solver.
Qed.

Definition data_ok (g : IpGroupData) : Prop :=
  is_u 16 (gd_Id g) /\ is_i 16 (gd_EpcId g) /\ gd_EpcId g <> EPC_FROM_INTERNET.

Lemma own_epc_ok g : data_ok g -> is_i 16 (own_epc g) /\ own_epc g <> EPC_FROM_INTERNET.
Proof. intros (_ & H & Hn). unfold own_epc. case_match; [by split|by split]. Qed.

Lemma GetGroupIds_spec r data ip epc x : Forall data_ok data -> is_i 16 epc -> is_u 32 ip ->
  x ∈ GetGroupIds (IpResourceGroup_Update r data) ip epc <->
  exists g raw, g ∈ data /\ raw ∈ gd_Ips g /\ x = gd_Id g /\ epc_matches (own_epc g) epc = true /\
    names_ip true raw (IpFromUint32 ip) = true.
Proof.
  intros Hd He Hip. destruct (groups_of_services_ok data) as [HL HS]. rewrite (GetGroupIds_keys (IpResourceGroup_Update r data) ip epc _ _ x HL HS).
  transitivity (exists g raw, g ∈ data /\ raw ∈ gd_Ips g /\
    exists b len key, entry_key (gd_Id g, own_epc g, raw) = Some (b, (len, key, x)) /\ key_hit b epc ip len key).
  - assert (forall b len key, holds (entries data) b len key x <->
      exists g raw, g ∈ data /\ raw ∈ gd_Ips g /\ entry_key (gd_Id g, own_epc g, raw) = Some (b, (len, key, x))) as Hh.
    { intros b len key. unfold holds, entries. setoid_rewrite list_elem_of_bind. setoid_rewrite list_elem_of_fmap.
      naive_solver. }
    setoid_rewrite Hh. unfold key_hit. split; [naive_solver|].
    intros (g & raw & Hg & Hr & [|] & len & key & E & Hk); [left|right]; exists len; naive_solver.
  - rewrite Forall_forall in Hd. split; intros (g & raw & Hg & Hr & H); exists g, raw.
    all: destruct (own_epc_ok g (Hd g Hg)) as [Ho Hi]; destruct (Hd g Hg) as (Hid & _).
    + apply entry_hit in H as (-> & ? & ?); [|done..]. split_and!; try done. by apply Z.mod_small.
    + split_and!; [done|done|]. apply entry_hit; [done..|]. destruct H as (-> & ? & ?).
      split_and!; [|done|done]. symmetry. by apply Z.mod_small.
Qed.

(** ** IPv6 *)

Definition items_at (m : gmap Z (list Ip6GroupItem)) (e : Z) : list Ip6GroupItem := default [] (m !! e).

(** The item that a text of a group adds under an epc. *)
Definition item_from (e : Z) (item : Ip6GroupItem) (t : IpGroupData * string) : Prop :=
  Z.land (gd_EpcId t.1) 0xffff = e /\ item_id item = gd_Id t.1 /\
  ParseCIDR t.2 = Some (item_ipNet item) /\ zlen (net_IP (item_ipNet item)) <> 4.

Definition items_ok (m : gmap Z (list Ip6GroupItem)) (ts : list (IpGroupData * string)) : Prop :=
  forall e item, item ∈ items_at m e <-> Exists (item_from e item) ts.

Lemma add_ip6_ok m ts g raw : items_ok m ts -> items_ok (add_ip6 g m raw) (ts ++ [(g, raw)]).
Proof.
  intros H e item. rewrite Exists_app, Exists_cons, Exists_nil, <- (H e item). unfold add_ip6, item_from. cbn [fst snd].
  destruct (ParseCIDR raw) as [n|] eqn:E; [|naive_solver].
  destruct (Z.eqb_spec (zlen (net_IP n)) 4); [naive_solver|].
  unfold items_at. destruct (decide (e = Z.land (gd_EpcId g) 0xffff)) as [->|Hne].
  - rewrite lookup_insert_eq. cbn. rewrite elem_of_app, list_elem_of_singleton. destruct item as [i n']. cbn. naive_solver.
  - rewrite lookup_insert_ne by done. naive_solver.
Qed.

Definition texts_of (data : list IpGroupData) : list (IpGroupData * string) :=
  data ≫= fun g => map (fun raw => (g, raw)) (gd_Ips g).

Lemma items_built data :
  items_ok (foldl (fun m group => foldl (add_ip6 group) m (gd_Ips group)) ∅ data) (texts_of data).
Proof.
  replace (foldl _ ∅ data) with (foldl (fun m '(g, raw) => add_ip6 g m raw) ∅ (texts_of data)).
  - apply (foldl_inv _ items_ok); [intros m ts [g raw]; apply add_ip6_ok|].
    intros e item. unfold items_at. rewrite lookup_empty, Exists_nil. cbn. set_solver.
  - unfold texts_of. rewrite foldl_bind. generalize (∅ : gmap Z (list Ip6GroupItem)).
    induction data as [|g data IH]; intros m; [done|]. cbn. rewrite IH. f_equal. generalize m.
    induction (gd_Ips g) as [|raw raws IH']; intros m'; [done|]. cbn. apply IH'.
Qed.

Lemma find_items_spec ip items f : found_ok f -> Forall (fun item => is_u 16 (item_id item)) items ->
  exists f', find_items ip items f = Some f' /\ found_ok f' /\
    forall x, x ∈ f'.1 <-> x ∈ f.1 \/ Exists (fun item => Contains (item_ipNet item) ip = true /\ x = item_id item) items.
Proof.
  intros Hf Hi. revert f Hf. induction Hi as [|item items Hu Hi IH]; intros f Hf; cbn [find_items].
  - exists f. split_and!; [done|done|]. intros x. rewrite Exists_nil. tauto.
  - setoid_rewrite Exists_cons. destruct (Contains (item_ipNet item) ip) eqn:E.
    2: { destruct (IH f Hf) as (f' & E' & Hf' & Hx).
         exists f'. split_and!; [done|done|]. intros x. rewrite Hx. intuition congruence. }
    rewrite (proj2 (Z.ltb_lt _ 65536)) by (apply Hu). rewrite (wrap_small 16 (item_id item)) by done.
    fold (add_found f (item_id item)). destruct (add_found_spec f (item_id item) Hf) as [H1 H2].
    destruct (IH _ H1) as (f' & E' & Hf' & Hx).
    exists f'. split_and!; [done|done|]. intros x. rewrite Hx, H2. tauto.
Qed.

Lemma land_16 own : Z.land own 0xffff = own mod 2 ^ 16.
Proof. change 0xffff with (Z.ones 16). by apply Z.land_ones. Qed.

Lemma query_epc6 own epc : is_i 16 own -> is_i 16 epc ->
  Z.land own 0xffff = 0 \/ 0 < epc /\ Z.land own 0xffff = epc <-> epc_matches own epc = true.
Proof.
  intros Ho He. rewrite land_16, <- (query_epc own epc Ho He 16) by lia.
  unfold is_i in *. change (2 ^ (16 - 1)) with 32768 in *. unfold wrap. change (2 ^ 16) with 65536.
  destruct (Z.gtb_spec epc 0); [rewrite !(Z.mod_small epc) by lia|rewrite (Z.mod_small 0)]; lia.
Qed.

Lemma GetGroupIdsByIpv6_spec r data ip epc : Forall data_ok data -> is_i 16 epc ->
  exists gs, GetGroupIdsByIpv6 (IpResourceGroup_Update r data) ip epc = Some gs /\
  forall x, x ∈ gs <-> exists g raw, g ∈ data /\ raw ∈ gd_Ips g /\ x = gd_Id g /\
    epc_matches (gd_EpcId g) epc = true /\ names_ip false raw ip = true.
Proof.
  intros Hd He. rewrite Forall_forall in Hd. unfold GetGroupIdsByIpv6. cbn [ip6EpcMap IpResourceGroup_Update GenerateAnonymousGroupIdMap GenerateIp6NetmaskMap].
  set (m := foldl _ ∅ data). pose proof (items_built data) as Hm. fold m in Hm.
  assert (forall g raw, (g, raw) ∈ texts_of data <-> g ∈ data /\ raw ∈ gd_Ips g) as Ht.
  { intros g raw. unfold texts_of. rewrite list_elem_of_bind. setoid_rewrite list_elem_of_fmap. naive_solver. }
  assert (forall e, Forall (fun item => is_u 16 (item_id item)) (items_at m e)) as Hu.
  { intros e. apply Forall_forall. intros item ([g raw] & [Hg _]%Ht & _ & -> & _)%Hm%Exists_exists. by apply Hd. }
  assert (found_ok ([], ∅)) as H0 by (intros x; cbn; set_solver).
  assert (exists f1, (if epc >? 0 then find_items ip (items_at m epc) ([], ∅) else Some ([], ∅)) = Some f1 /\ found_ok f1 /\
    forall x, x ∈ f1.1 <-> 0 < epc /\ Exists (fun item => Contains (item_ipNet item) ip = true /\ x = item_id item) (items_at m epc))
    as (f1 & E1 & Hf1 & Hx1).
  { destruct (Z.gtb_spec epc 0).
    - destruct (find_items_spec ip (items_at m epc) ([], ∅) H0 (Hu epc)) as (f1 & ? & ? & Hx).
      exists f1. split_and!; [done|done|]. intros x. rewrite Hx. cbn. rewrite elem_of_nil. tauto.
    - eexists. split_and!; [done|done|]. intros x. cbn. split; [set_solver|lia]. }
  destruct (find_items_spec ip (items_at m 0) f1 Hf1 (Hu 0)) as (f2 & E2 & _ & Hx2).
  unfold items_at in E1, E2. rewrite E1. cbn [mbind option_bind]. rewrite E2. exists f2.1. split; [done|].
  intros x. rewrite Hx2, Hx1, !Exists_exists. unfold names_ip.
  assert (forall g, g ∈ data -> Z.land (gd_EpcId g) 0xffff = 0 \/ 0 < epc /\ Z.land (gd_EpcId g) 0xffff = epc <->
    epc_matches (gd_EpcId g) epc = true) as Hepc by (intros g Hg; apply query_epc6; [by apply Hd|done]).
  split.
  - intros [(Hp & item & Hin & Hc & ->)|(item & Hin & Hc & ->)].
    all: apply Hm, Exists_exists in Hin as ([g raw] & [Hg Hr]%Ht & Ee & Ei & En & H4); cbn [fst snd] in *.
    all: exists g, raw; rewrite En, (proj2 (Z.eqb_neq _ _) H4), Hc; split_and!; try done; apply Hepc; tauto.
  - intros (g & raw & Hg & Hr & -> & He' & Hn). destruct (ParseCIDR raw) as [n|] eqn:En; [|done].
    destruct (Z.eqb_spec (zlen (net_IP n)) 4); [done|]. cbn in Hn.
    apply (Hepc g Hg) in He' as [E0|[Hp E0]]; [right|left; split; [done|]].
    all: exists (mkIp6Item (gd_Id g) n); split_and!; [|done|done]; apply Hm, Exists_exists; exists (g, raw); by rewrite Ht.
Qed.
End Texts.

(** * Services *)

Section Services.
Context {NT : NetText} {NL : NetTextLaws} {NP : NetPrint} {RT : Runtime Z} {RL : RuntimeLaws Z}.

(** The fields have their widths, the epc is that of a query, and the protocol is an IP
    protocol or any. *)
Definition service_ok (g : GroupIDMap) : Prop :=
  is_i 16 (g_L3EpcID g) /\ is_u 16 (g_GroupID g) /\ is_u 16 (g_PodGroupID g) /\ 0 <= g_Protocol g <= PROTO_ALL.

Lemma ParserStringIp_len s : (zlen (ParserStringIp s) = 4 \/ zlen (ParserStringIp s) = 16 \/ ParserStringIp s = []) /\
  bytes_ok (ParserStringIp s).
Proof.
  unfold ParserStringIp. destruct (ParseIP s) as [ip|] eqn:E; [|split; [by do 2 right|constructor]].
  destruct (parse_ip _ _ E) as [Hl Hb]. unfold To4. rewrite Hl. cbn [IPv4len IPv6len Z.eqb Pos.eqb andb]. case_match; cbn.
  - split; [left; unfold zlen in *; rewrite length_drop; lia|by apply Forall_drop].
  - split; [by right; left|done].
Qed.

Lemma range_texts_total r : is_Some (range_texts r).
Proof.
  unfold range_texts. destruct (Split _ _) as [|a [|b [|? ?]]]; try by eexists.
  destruct (ParserStringIp_len a) as [_ Ba], (ParserStringIp_len b) as [_ Bb].
  cut (is_Some (IpRangeConvert2CIDR (ParserStringIp a) (ParserStringIp b))); [intros [ips ->]; by eexists|].
  unfold IpRangeConvert2CIDR. case_match eqn:E4; [|case_match eqn:E16; [|by eexists]].
  - apply andb_prop in E4 as [La%Z.eqb_eq Lb%Z.eqb_eq].
    assert (forall ip, zlen ip = 4 -> bytes_ok ip -> ip = IpFromUint32 (be_get ip) /\ is_u 32 (be_get ip)) as Hip.
    { intros ip Hl Hb. pose proof (be_get_range _ Hb) as Hr. rewrite Hl in Hr. split; [|done].
      apply be_get_inj; [done|by apply be_put_ok|by rewrite Hl|]. unfold IpFromUint32. by rewrite be_get_put. }
    destruct (Hip _ La Ba) as [Ea Ha], (Hip _ Lb Bb) as [Eb Hb]. rewrite Ea, Eb.
    destruct (range4_ok _ _ Ha Hb) as (ips & -> & _). by eexists.
  - apply andb_prop in E16 as [La%Z.eqb_eq Lb%Z.eqb_eq]. by apply ipv6_range_total.
Qed.

(** The texts of the networks of a service: those given and those of its ranges. *)
Definition service_texts (g : GroupIDMap) : list string :=
  g_CIDRs g ++ concat (default [] (mapM range_texts (g_IPRanges g))).

Definition by_address (g : GroupIDMap) : bool := (g_PodGroupID g =? 0) && negb (i16 (g_L3EpcID g) =? EPC_FROM_INTERNET).
Definition of_internet (g : GroupIDMap) : bool := (g_PodGroupID g =? 0) && (i16 (g_L3EpcID g) =? EPC_FROM_INTERNET).

Definition group_data (i : nat) (g : GroupIDMap) : IpGroupData :=
  mkIpGroupData (u32 (Z.of_nat i)) (g_L3EpcID g) NAMED (service_texts g) [].

(** The last service of a pod group. *)
Definition pod_service (s : list GroupIDMap) (pod : Z) (i : nat) : Prop :=
  0 < pod /\ (exists g, s !! i = Some g /\ g_PodGroupID g = pod) /\
  forall j g, (i < j)%nat -> s !! j = Some g -> g_PodGroupID g <> pod.

Definition collected_ok (s : list GroupIDMap) (c : collected) : Prop :=
  (forall d, d ∈ c_ipGroupData c <-> exists i g, s !! i = Some g /\ by_address g = true /\ d = group_data i g) /\
  c_internet c = map (fun g => u16 (g_GroupID g)) (List.filter of_internet s) /\
  (forall pod y, c_pods c !! pod = Some y <-> exists i, pod_service s pod i /\ y = u32 (Z.of_nat i)).

Lemma lookup_snoc_cases {A} (l : list A) x i y :
  (l ++ [x]) !! i = Some y <-> l !! i = Some y \/ i = length l /\ x = y.
Proof.
  rewrite lookup_app_Some, list_lookup_singleton_Some. split; [|intros [?|[-> ->]]; [by left|]].
  - intros [?|(? & ? & ->)]; [by left|right; split; [lia|done]].
  - right. split; [lia|]. split; [lia|done].
Qed.

Lemma pod_service_snoc s g pod i :
  pod_service (s ++ [g]) pod i <->
    if decide (0 < pod /\ g_PodGroupID g = pod) then i = length s else pod_service s pod i.
Proof.
  unfold pod_service. setoid_rewrite lookup_snoc_cases. destruct (decide _) as [[Hp Hg]|Hn].
  - split.
    + intros (_ & (g' & [Hl|[-> _]] & _) & Hlast); [|done]. apply lookup_lt_Some in Hl.
      exfalso. apply (Hlast (length s) g); [done|by right|done].
    + intros ->. split_and!; [done|exists g; tauto|]. intros j g' Hj [Hl%lookup_lt_Some|[-> _]]; lia.
  - split.
    + intros (Hp & (g' & [Hl|[-> ->]] & Hg') & Hlast); [|tauto]. split_and!; [done|by exists g'|]. intros j g'' Hj Hl'.
      apply (Hlast j); [done|by left].
    + intros (Hp & (g' & Hl & Hg') & Hlast). split_and!; [done|exists g'; tauto|].
      intros j g'' Hj [Hl'|[-> <-]]; [by apply (Hlast j)|]. intros E. by apply Hn.
Qed.

Lemma collect_ok s c g : service_ok g -> collected_ok s c ->
  exists c', collect (Z.of_nat (length s)) c g = Some c' /\ collected_ok (s ++ [g]) c'.
Proof.
  intros (_ & _ & Hpod & _) (Hd & Hi & Hp). unfold collect, collected_ok. setoid_rewrite pod_service_snoc.
  setoid_rewrite lookup_snoc_cases. rewrite List.filter_app, map_app. cbn [List.filter map].
  assert (forall q : IpGroupData -> Prop, (exists i g', (s !! i = Some g' \/ i = length s /\ g = g') /\ by_address g' = true /\ q (group_data i g')) <->
    (exists i g', s !! i = Some g' /\ by_address g' = true /\ q (group_data i g')) \/ by_address g = true /\ q (group_data (length s) g)) as Hsn.
  { intros q. naive_solver. }
  setoid_rewrite (Hsn (fun d' => _ = d')). setoid_rewrite <- Hd. unfold by_address, of_internet, is_u in *.
  destruct (Z.gtb_spec (g_PodGroupID g) 0).
  - rewrite (proj2 (Z.eqb_neq _ 0)) by lia. cbn [andb]. eexists. split; [done|]. cbn. rewrite app_nil_r. split_and!; [naive_solver|done|].
    intros pod y. destruct (decide (pod = g_PodGroupID g)) as [->|Hne].
    + rewrite lookup_insert_eq. destruct (decide _) as [_|[]]; [naive_solver|split; [lia|done]].
    + rewrite lookup_insert_ne, Hp by done. destruct (decide _) as [[_ ?]|_]; [congruence|done].
  - rewrite (proj2 (Z.eqb_eq _ 0)) by lia. cbn [andb].
    assert (forall pod, ~ (0 < pod /\ g_PodGroupID g = pod)) as Hnp by lia.
    destruct (i16 (g_L3EpcID g) =? EPC_FROM_INTERNET); cbn [negb].
    + eexists. split; [done|]. cbn. rewrite Hi. split_and!; [naive_solver|done|]. intros pod y. destruct (decide _) as [?|_]; [by destruct (Hnp pod)|apply Hp].
    + destruct (mapM range_texts (g_IPRanges g)) as [ts|] eqn:E.
      2: { exfalso. assert (Forall (fun r => is_Some (range_texts r)) (g_IPRanges g)) as Hf
             by (apply Forall_forall; intros; apply range_texts_total).
           apply mapM_is_Some_2 in Hf. rewrite E in Hf. by destruct Hf. }
      eexists. split; [done|]. cbn. rewrite app_nil_r. split_and!; [|done|].
      * intros d. rewrite elem_of_app, list_elem_of_singleton. unfold group_data, service_texts. rewrite E. naive_solver.
      * intros pod y. destruct (decide _) as [?|_]; [by destruct (Hnp pod)|apply Hp].
Qed.

Lemma collect_all_ok s : Forall service_ok s ->
  exists c, collect_all 0 s (mkCollected [] [] ∅) = Some c /\ collected_ok s c.
Proof.
  intros Hs. enough (forall seen c, collected_ok seen c ->
    exists c', collect_all (Z.of_nat (length seen)) s c = Some c' /\ collected_ok (seen ++ s) c') as H.
  { apply (H []). unfold collected_ok, pod_service. cbn. split_and!; [set_solver|done|]. intros. rewrite lookup_empty. naive_solver. }
  induction Hs as [|g s Hg Hs IH]; intros seen c Hc; cbn [collect_all]; [rewrite app_nil_r; eauto|].
  destruct (collect_ok seen c g Hg Hc) as (c1 & -> & H1). cbn [mbind option_bind].
  destruct (IH (seen ++ [g]) c1 H1) as (c2 & E & H2). rewrite length_app, <- (assoc (++)) in *. cbn [length app] in *.
  replace (Z.of_nat (length seen + 1)) with (Z.of_nat (length seen) + 1) in E by lia. eauto.
Qed.
End Services.

(** * The port filter *)

Section PortFilter.
Context {RT : Runtime Z} {RL : RuntimeLaws Z}.

(** A service serves a port of a protocol. *)
Definition serves (g : GroupIDMap) (protocol port : Z) : bool :=
  ((g_Protocol g =? protocol) || (g_Protocol g =? PROTO_ALL))
  && ((g_ServerPorts g =? "")%string || existsb (names_port port) (Split ","%char (g_ServerPorts g))).

Definition index_serves (s : list GroupIDMap) (i protocol port : Z) : bool :=
  match s !! Z.to_nat i with Some g => serves g protocol port | None => false end.

Definition fast_key (i protocol port : Z) : Z := Z.lor (Z.lor (shl 64 i 24) (shl 64 protocol 16)) port.

Definition filter_ok (s : list GroupIDMap) (l : portFilter) : Prop :=
  portRanges l = port_map 0 s ∅ /\ hasAnyProtocol l = existsb (fun e => g_Protocol e =? PROTO_ALL) s /\
  forall i protocol port b, is_u 16 i -> is_u 8 protocol -> is_u 16 port ->
    fastMap l !! fast_key i protocol port = Some b -> b = index_serves s i protocol port.

Lemma low_16 i w : 16 <= w -> is_u 16 i -> Z.land (wrap w (i16 i)) 0xFFFF = i.
Proof.
  intros Hw Hi. rewrite land_16. unfold wrap, swrap. pose proof (pow2_pos 16 ltac:(lia)) as Hp.
  replace (2 ^ w) with (2 ^ 16 * 2 ^ (w - 16)) by (rewrite <- Z.pow_add_r; [f_equal|..]; lia).
  pose proof (pow2_pos (w - 16) ltac:(lia)). rewrite Z.rem_mul_r by lia.
  rewrite (Z.mul_comm (2 ^ 16)), Z.mod_add, Z.mod_mod by lia. unfold is_u in Hi.
  change (2 ^ 16) with 65536 in *. change (2 ^ (16 - 1)) with 32768. rewrite Zminus_mod_idemp_l. 
  replace (i + 32768 - 32768) with i by lia. apply Z.mod_small. lia.
Qed.

Lemma low_n n x : 0 <= n -> is_u n x -> Z.land x (Z.ones n) = x.
Proof. intros Hn Hx. rewrite Z.land_ones by done. by apply Z.mod_small. Qed.

Lemma filter_key_pack i protocol : is_u 16 i -> is_u 9 protocol -> filter_key i protocol = i * 2 ^ 9 + protocol.
Proof.
  intros Hi Hp. unfold filter_key. change 0xFFFF with (Z.ones 16). change 0x1FF with (Z.ones 9).
  rewrite !low_n by (done || lia). rewrite pack by (done || lia). f_equal. f_equal.
  apply Z.mod_small. unfold is_u in *. lia.
Qed.

Lemma port_map_spec entries i m j protocol :
  Forall (fun g => 0 <= g_Protocol g <= PROTO_ALL) entries -> 0 <= i -> i + zlen entries <= 2 ^ 16 ->
  is_u 16 j -> 0 <= protocol <= PROTO_ALL ->
  default [] (port_map i entries m !! filter_key j protocol) =
    default [] (m !! filter_key j protocol) ++
    (if j <? i then [] else match entries !! Z.to_nat (j - i) with
     | Some g => if g_Protocol g =? protocol then service_ports g else [] | None => [] end).
Proof.
  intros Hg. revert i m. induction Hg as [|g entries Hpg Hg IH]; intros i m Hi Hl Hj Hp.
  { cbn. case_match; by rewrite app_nil_r. }
  unfold zlen in *. cbn [length] in Hl. cbn [port_map]. rewrite IH by (done || lia).
  assert (filter_key i (g_Protocol g) = filter_key j protocol <-> i = j /\ g_Protocol g = protocol) as Hk.
  { unfold PROTO_ALL in *. rewrite !filter_key_pack by (unfold is_u in *; lia). apply pack_inj; unfold is_u; lia. }
  destruct (decide (i = j)) as [->|Hne].
  - rewrite Z.ltb_irrefl, Z.sub_diag, (proj2 (Z.ltb_lt j (j + 1))) by lia. change ((g :: entries) !! Z.to_nat 0) with (Some g).
    rewrite app_nil_r. cbv iota. destruct (Z.eqb_spec (g_Protocol g) protocol) as [<-|Hn].
    + by rewrite lookup_insert_eq.
    + rewrite lookup_insert_ne by (rewrite Hk; tauto). by rewrite app_nil_r.
  - rewrite lookup_insert_ne by (rewrite Hk; tauto). f_equal. destruct (Z.ltb_spec j i).
    + by rewrite (proj2 (Z.ltb_lt j (i + 1))) by lia.
    + rewrite (proj2 (Z.ltb_ge j (i + 1))) by lia. replace (Z.to_nat (j - i)) with (S (Z.to_nat (j - (i + 1)))) by lia. done.
Qed.

Lemma service_ports_in g port : is_u 16 port ->
  existsb (port_in port) (service_ports g) =
    (g_ServerPorts g =? "")%string || existsb (names_port port) (Split ","%char (g_ServerPorts g)).
Proof.
  intros Hp. unfold service_ports. destruct (_ =? _)%string eqn:E.
  - cbn [existsb orb]. rewrite port_in_New by (ranges; lia). ranges. lia.
  - rewrite split_ports_ok, E by done. done.
Qed.

Definition services_ok (s : list GroupIDMap) : Prop := Forall service_ok s /\ zlen s <= 2 ^ 16.

Lemma rawCheck_spec s l i protocol port : services_ok s -> portRanges l = port_map 0 s ∅ ->
  is_u 16 i -> 0 <= protocol <= PROTO_ALL -> is_u 16 port ->
  rawCheck l (i16 i) protocol port =
    match s !! Z.to_nat i with
    | Some g => (g_Protocol g =? protocol) && existsb (port_in port) (service_ports g)
    | None => false
    end.
Proof.
  intros [Hs Hl] Er Hi Hp Hport. unfold rawCheck. rewrite Er.
  replace (filter_key (u32 (i16 i)) protocol) with (filter_key i protocol).
  2: { unfold filter_key. rewrite low_16 by (done || lia). by rewrite (low_n 16) by (done || lia). }
  rewrite port_map_spec by (done || lia || (eapply Forall_impl; [exact Hs|]; by intros g (_ & _ & _ & ?))).
  rewrite lookup_empty. cbn [default from_option app]. rewrite (proj2 (Z.ltb_ge i 0)), Z.sub_0_r by apply Hi.
  rewrite (existsb_ext _ (port_in port)); [|intros r; unfold port_in; lia].
  destruct (s !! Z.to_nat i) as [g|]; [|done]. by destruct (g_Protocol g =? protocol).
Qed.

Lemma fast_key_inj i p port i' p' port' :
  is_u 16 i -> is_u 8 p -> is_u 16 port -> is_u 16 i' -> is_u 8 p' -> is_u 16 port' ->
  fast_key i p port = fast_key i' p' port' -> i = i' /\ p = p' /\ port = port'.
Proof.
  assert (forall i p port, is_u 16 i -> is_u 8 p -> is_u 16 port -> fast_key i p port = (i * 2 ^ 8 + p) * 2 ^ 16 + port) as H.
  { clear. intros i p port Hi Hp Hport. unfold fast_key. rewrite <- Z.lor_assoc, (pack 64 16) by (done || lia).
    rewrite (Z.mod_small p), pack by (unfold is_u in *; lia). rewrite (Z.mod_small i) by (unfold is_u in *; lia). lia. }
  intros. rewrite !H in * by done. unfold is_u in *. lia.
Qed.

Lemma check_spec s l i protocol port : services_ok s -> filter_ok s l -> is_u 16 i -> is_u 8 protocol -> is_u 16 port ->
  (check (i16 i) protocol port l).1 = index_serves s i protocol port /\
  filter_ok s (check (i16 i) protocol port l).2.
Proof.
  intros Hs Hf Hi Hp Hport. pose proof Hf as (Er & Ea & Hm). unfold check.
  replace (Z.lor _ (Z.land port 0xFFFF)) with (fast_key i protocol port).
  2: { unfold fast_key. rewrite low_16 by (done || lia). change 0xFFFF with (Z.ones 16). change 0xFF with (Z.ones 8).
       by rewrite !low_n by (done || lia). }
  destruct (fastMap l !! _) as [b|] eqn:E; [split; [by apply Hm|done]|].
  assert (rawCheck l (i16 i) protocol port || (hasAnyProtocol l && rawCheck l (i16 i) PROTO_ALL port) =
    index_serves s i protocol port) as Ec.
  { rewrite !(rawCheck_spec s) by (done || unfold PROTO_ALL, is_u in *; lia). unfold index_serves, serves.
    destruct (s !! Z.to_nat i) as [g|] eqn:Eg; [|by rewrite andb_false_r]. rewrite service_ports_in by done.
    assert (g_Protocol g =? PROTO_ALL = true -> hasAnyProtocol l = true) as Hany.
    { intros E256. rewrite Ea. apply existsb_exists. exists g. split; [|done]. apply list_elem_of_In. by eapply list_elem_of_lookup_2. }
    destruct (g_Protocol g =? PROTO_ALL); [rewrite Hany by done|]; cbn [andb]; rewrite ?andb_false_r, ?orb_false_r; [|done].
    destruct (_ =? _)%Z; cbn; [apply orb_diag|done]. }
  rewrite Ec. split; [done|]. split_and!; [done|done|]. intros i' p' port' b Hi' Hp' Hport'. cbn [snd fastMap].
  destruct (decide (fast_key i protocol port = fast_key i' p' port')) as [Ek|Hne].
  - apply fast_key_inj in Ek as (-> & -> & ->); [|done..]. rewrite lookup_insert_eq. by intros [= <-].
  - rewrite lookup_insert_ne by done. by apply Hm.
Qed.
End PortFilter.

(** * Queries over the caches *)

(** A map of identifiers: the number of entries stays below [2^31], the keys are valid,
    and the hash that comes with a key is a function of it. *)
Class IDMapLaws (K C : Type) `{Countable K} `{!IDMap K C} (valid : K -> Prop) (hash : K -> Z) := {
  idmap_rep : C -> gmap K Z -> Prop;
  idmap_New : idmap_rep NewIDMap ∅;
  idmap_AddOrGet c m key v : idmap_rep c m -> valid key -> Z.of_nat (size m) < 2 ^ 31 -> is_u 32 v ->
    runs (AddOrGet key (hash key) v false) c (fun r c' =>
      match m !! key with
      | Some v' => r = (v', false) /\ idmap_rep c' m
      | None => r = (v, true) /\ idmap_rep c' (<[key := v]> m)
      end)
}.

(** A place in a cache holds an answer. *)
Definition cached (lst : list (list Z)) (loc : Z) (Q : list Z -> Prop) : Prop :=
  0 <= loc /\ exists gs, lst !! Z.to_nat loc = Some gs /\ Q gs.

Lemma cached_app lst loc Q x : cached lst loc Q -> cached (lst ++ [x]) loc Q.
Proof. intros (H0 & gs & E & Hq). split; [done|]. exists gs. split; [by apply lookup_app_l_Some|done]. Qed.

Lemma cached_new lst (Q : list Z -> Prop) x : Q x -> cached (lst ++ [x]) (zlen lst) Q.
Proof.
  intros Hq. unfold zlen. split; [lia|]. exists x. split; [|done]. rewrite Nat2Z.id. by apply list_lookup_middle.
Qed.

(** ** Keys *)

Lemma u16_inj a b : is_i 16 a -> is_i 16 b -> u16 a = u16 b -> a = b.
Proof.
  intros Ha Hb E. unfold wrap, is_i in *. change (2 ^ (16 - 1)) with 32768 in *. change (2 ^ 16) with 65536 in *.
  pose proof (Z.div_mod a 65536). pose proof (Z.div_mod b 65536). lia.
Qed.

Lemma ip_key_inj epc ip pod epc' ip' pod' :
  is_i 16 epc -> is_u 32 ip -> is_u 16 pod -> is_i 16 epc' -> is_u 32 ip' -> is_u 16 pod' ->
  ip_key epc ip pod = ip_key epc' ip' pod' -> epc = epc' /\ ip = ip' /\ pod = pod'.
Proof.
  assert (forall epc ip pod, is_u 32 ip -> is_u 16 pod -> ip_key epc ip pod = (pod * 2 ^ 16 + u16 epc) * 2 ^ 32 + ip) as H.
  { clear. intros epc ip pod Hip Hpod. pose proof (wrap_range 16 epc ltac:(lia)) as Hu. unfold ip_key.
    rewrite <- Z.lor_assoc, (pack 64 32) by (done || lia).
    rewrite (Z.mod_small (u16 epc)), pack by (unfold is_u in *; lia). rewrite (Z.mod_small pod) by (unfold is_u in *; lia). lia. }
  intros He Hi Hp He' Hi' Hp'. rewrite !H by done.
  pose proof (wrap_range 16 epc ltac:(lia)). pose proof (wrap_range 16 epc' ltac:(lia)). intros E.
  assert (u16 epc = u16 epc') by (unfold is_u in *; lia). split; [by apply u16_inj|]. unfold is_u in *. lia.
Qed.

Lemma server_key1_inj p port p' port' : is_u 8 p -> is_u 16 port -> is_u 8 p' -> is_u 16 port' ->
  server_key1 p port = server_key1 p' port' -> p = p' /\ port = port'.
Proof.
  intros. unfold server_key1 in *. rewrite !pack in * by (done || lia).
  rewrite !(Z.mod_small _ (2 ^ (64 - 8))) in * by (unfold is_u in *; lia). unfold is_u in *. lia.
Qed.

Definition ip16 (ip : list Z) : Prop := zlen ip = 16 /\ bytes_ok ip.

Lemma copy_ip_id ip : ip16 ip -> copy_ip ip = ip.
Proof.
  intros [Hl _]. unfold zlen in Hl. unfold copy_ip. rewrite take_ge by lia. replace (16 - length ip)%nat with 0%nat by lia.
  apply app_nil_r.
Qed.

Lemma be_put_2_inj a b : is_u 16 a -> is_u 16 b -> be_put 2 a = be_put 2 b -> a = b.
Proof. intros Ha Hb E. rewrite <- (be_get_put 2 a), <- (be_get_put 2 b) by (done || lia). by rewrite E. Qed.

Lemma be_put_app_inj a b x y : be_put 2 a ++ x = be_put 2 b ++ y -> be_put 2 a = be_put 2 b /\ x = y.
Proof. apply app_inj_1. by rewrite !be_put_length. Qed.

Lemma ip6_key_inj epc ip pod epc' ip' pod' :
  is_i 16 epc -> ip16 ip -> is_u 16 pod -> is_i 16 epc' -> ip16 ip' -> is_u 16 pod' ->
  ip6_key epc ip pod = ip6_key epc' ip' pod' -> epc = epc' /\ ip = ip' /\ pod = pod'.
Proof.
  intros He Hi Hp He' Hi' Hp'. unfold ip6_key. rewrite !copy_ip_id by done.
  intros [E1 [E2 ->]%be_put_app_inj]%be_put_app_inj. apply be_put_2_inj in E1, E2; [|done|done|apply wrap_range; lia..].
  split_and!; [by apply u16_inj|done|done].
Qed.

Lemma ip6_key_len epc ip pod : ip16 ip -> zlen (ip6_key epc ip pod) = 20.
Proof. intros Hi. unfold ip6_key. rewrite !zlen_app, !be_put_zlen, copy_ip_id by (done || lia). destruct Hi as [-> _]. done. Qed.

(** The key of a server query on IPv6. *)
Definition server6_key (epc : Z) (ip : list Z) (pod protocol port : Z) : list Z :=
  be_put 2 protocol ++ be_put 2 port ++ ip6_key epc ip pod.

Lemma server6_key_drop epc ip pod protocol port : drop 4 (server6_key epc ip pod protocol port) = ip6_key epc ip pod.
Proof. unfold server6_key. by rewrite (assoc (++)), drop_app_length' by (rewrite length_app, !be_put_length; done). Qed.

Lemma server6_hash key : Z.lxor (key_hash 6 key) (be_get (take 4 key)) = key_hash 5 (drop 4 key).
Proof.
  change (key_hash 6 key) with (Z.lxor (be_get (take 4 key)) (key_hash 5 (drop 4 key))).
  by rewrite Z.lxor_comm, <- Z.lxor_assoc, Z.lxor_nilpotent, Z.lxor_0_l.
Qed.

Lemma server6_key_inj epc ip pod p port epc' ip' pod' p' port' :
  is_i 16 epc -> ip16 ip -> is_u 16 pod -> is_u 8 p -> is_u 16 port ->
  is_i 16 epc' -> ip16 ip' -> is_u 16 pod' -> is_u 8 p' -> is_u 16 port' ->
  server6_key epc ip pod p port = server6_key epc' ip' pod' p' port' ->
  epc = epc' /\ ip = ip' /\ pod = pod' /\ p = p' /\ port = port'.
Proof.
  intros ? ? ? Hp ? ? ? ? Hp' ? [E1 [E2 E3]%be_put_app_inj]%be_put_app_inj.
  apply ip6_key_inj in E3 as (-> & -> & ->); [|done..].
  apply be_put_2_inj in E1, E2; [|done|done|unfold is_u in *; lia..]. done.
Qed.
