(* ===== verification/LabelerQueries.v ===== *)
(** The labeler over any sequence of queries: every answer is the one that the services
    give, whatever the caches hold. *)

From stdpp Require Import strings sorting.
From S2P Require Import Prelude Strconv LineProto Ckdb Meter Tag TagMini Document Expand Platform PlatformFacts Ranges RangesFacts Labeler LabelerFacts.

#[local] Open Scope string_scope.
#[local] Open Scope list_scope.
#[local] Open Scope Z_scope.

Section Queries.
Context {C160 C128 C192 : Type} `{!IDMap (list Z) C160} `{!IDMap (Z * Z) C128} `{!IDMap (list Z) C192}.
Context {NT : NetText} {NP : NetPrint} {RT : Runtime Z}.
Context {NL : NetTextLaws} {RL : RuntimeLaws Z}.
Context {L160 : IDMapLaws (list Z) C160 (fun key => zlen key = 20) (key_hash 5)}.
Context {L128 : IDMapLaws (Z * Z) C128 (fun _ => True) (fun _ => 0)}.
Context {L192 : IDMapLaws (list Z) C192 (fun key => zlen key = 24) (key_hash 6)}.
Abbreviation GL := (GroupLabeler C160 C128 C192).

Variable s : list GroupIDMap.
Hypothesis Hs : services_ok s.

(** * What an answer is *)










(** * The tables of a labeler *)








(** * The caches *)















(** * Servers *)






(** * Clients *)



(** * Sequences of queries *)















End Queries.
