(* ===== verification/IdMap.v ===== *)
(** The map from 128-bit keys to 32-bit values of [server/libs/hmap/idmap]
    ([u128_id_map.go], [common.go], [const.go]), with the hash of
    [hmap/keyhash/jenkins.go].

    Nodes fill the blocks of a buffer in order and are linked by index in the
    collision chain of their slot.  [sync.Pool] may hand out any block, so the block
    that it returns is an argument of the operation that allocates. *)

From stdpp Require Import strings.
From S2P Require Import Prelude Lru.

#[local] Open Scope list_scope.
#[local] Open Scope Z_scope.

Definition _BLOCK_SIZE_BITS : Z := 8.
Definition _BLOCK_SIZE : Z := 1 ≪ _BLOCK_SIZE_BITS.
Definition _BLOCK_SIZE_MASK : Z := _BLOCK_SIZE - 1.

Definition Jenkins128 (key0 key1 : Z) : Z := Z.lxor (Jenkins key0) (Jenkins key1).

Record Counter := mkCounter { Max : Z; Size : Z; AvgScan : Z; totalScan : Z; scanTimes : Z }.

Record u128IDMapNode := mkIDNode { key0 : Z; key1 : Z; value : Z; next : Z; slot : Z }.

Definition equal (n : u128IDMapNode) (k0 k1 : Z) : bool := (key0 n =? k0) && (key1 n =? k1).

Definition blankU128MapNodeForInit : u128IDMapNode := mkIDNode 0 0 0 0 0.

Record U128IDMap := mkU128IDMap {
  map_id : string;
  buffer : list (list u128IDMapNode);
  slotHead : list Z;
  size : Z;
  width : Z;
  hashSlotBits : Z;
  counter : Counter;
  collisionChainDebugThreshold : Z;
  debugChain : option (list Z);
  debugChainRead : Z
}.

Definition set_buffer (m : U128IDMap) (b : list (list u128IDMapNode)) : U128IDMap :=
  mkU128IDMap (map_id m) b (slotHead m) (size m) (width m) (hashSlotBits m) (counter m)
    (collisionChainDebugThreshold m) (debugChain m) (debugChainRead m).

Definition set_slotHead (m : U128IDMap) (h : list Z) : U128IDMap :=
  mkU128IDMap (map_id m) (buffer m) h (size m) (width m) (hashSlotBits m) (counter m)
    (collisionChainDebugThreshold m) (debugChain m) (debugChainRead m).

Definition set_sizes (m : U128IDMap) (size width : Z) : U128IDMap :=
  mkU128IDMap (map_id m) (buffer m) (slotHead m) size width (hashSlotBits m) (counter m)
    (collisionChainDebugThreshold m) (debugChain m) (debugChainRead m).

Definition set_counter (m : U128IDMap) (c : Counter) : U128IDMap :=
  mkU128IDMap (map_id m) (buffer m) (slotHead m) (size m) (width m) (hashSlotBits m) c
    (collisionChainDebugThreshold m) (debugChain m) (debugChainRead m).

Definition set_debug (m : U128IDMap) (threshold : Z) (chain : option (list Z)) (read : Z) : U128IDMap :=
  mkU128IDMap (map_id m) (buffer m) (slotHead m) (size m) (width m) (hashSlotBits m) (counter m) threshold chain read.

(** The loop finds the first power, from two on, that is large enough; [hashSlots] is
    below [2^30]. *)
Fixpoint slot_bits (n : nat) (i hashSlots : Z) : Z :=
  match n with
  | O => i
  | S n => if 1 ≪ i <? hashSlots then slot_bits n (i + 1) hashSlots else i
  end.

Definition NewU128IDMapNoStats (module : string) (hashSlots : Z) : option U128IDMap :=
  if hashSlots >=? 1 ≪ 30 then None
  else
    let i := slot_bits 30 1 hashSlots in
    Some (mkU128IDMap ("idmap128-" ++ module)%string [] (replicate (Z.to_nat (1 ≪ i)) (-1)) 0 0 i
      (mkCounter 0 0 0 0 0) 0 None 0).

Definition KeySize : Z := 128 / 8.

Definition compressHash (m : U128IDMap) (k0 k1 : Z) : Z :=
  Z.land (Jenkins128 k0 k1) (i32 (zlen (slotHead m) - 1)).

(** [m.buffer[i>>_BLOCK_SIZE_BITS][i&_BLOCK_SIZE_MASK]] *)
Definition cell (m : U128IDMap) (i : Z) : option u128IDMapNode :=
  block ← at_index (buffer m) (i ≫ _BLOCK_SIZE_BITS);
  at_index block (Z.land i _BLOCK_SIZE_MASK).

Definition M : Type -> Type := ST U128IDMap.

Definition getNode (i : Z) : M u128IDMapNode := m ← get_state; of_option (cell m i).

Definition setNode (i : Z) (f : u128IDMapNode -> u128IDMapNode) : M unit :=
  n ← getNode i;
  modify (fun m => set_buffer m
    (alter (fun block => <[Z.to_nat (Z.land i _BLOCK_SIZE_MASK) := f n]> block)
       (Z.to_nat (i ≫ _BLOCK_SIZE_BITS)) (buffer m))).

Definition slot_head (sl : Z) : M Z := m ← get_state; of_option (at_index (slotHead m) sl).

Definition set_slot_head (sl i : Z) : M unit :=
  slot_head sl ;; modify (fun m => set_slotHead m (<[Z.to_nat sl := i]> (slotHead m))).

(** * Searching *)

(** The loop over a chain: the index of the node, and the number of nodes looked at.
    The rounds are one more than the nodes; [panic] when they are used up, which
    [find_loop_spec] excludes. *)
Fixpoint find_loop (rounds : nat) (k0 k1 i w : Z) : M (option Z * Z) :=
  match rounds with
  | O => panic
  | S rounds =>
      if i =? -1 then mret (None, w)
      else
        node ← getNode i;
        if equal node k0 k1 then mret (Some i, i64 (w + 1)) else find_loop rounds k0 k1 (next node) (i64 (w + 1))
  end.

(** The keys of a chain in [n] times sixteen bytes. *)
Fixpoint generateCollisionChainIn (n : nat) (nodeID : Z) : M (list Z) :=
  match n with
  | O => mret []
  | S n' =>
      if nodeID =? -1 then mret (replicate (n * 16) 0)
      else
        node ← getNode nodeID;
        rest ← generateCollisionChainIn n' (next node);
        mret (be_put 8 (key0 node) ++ be_put 8 (key1 node) ++ (rest : list Z))
  end.

(** Keeps the chain for the debugger when it is wide and the last one was read. *)
Definition keep_chain (k0 k1 sl w : Z) (isAdd : bool) : M unit :=
  m ← get_state;
  if (debugChainRead m =? 1) && (0 <? collisionChainDebugThreshold m) && (collisionChainDebugThreshold m <=? w)
  then
    head ← slot_head sl;
    chain ← (if isAdd then
               rest ← generateCollisionChainIn (Z.to_nat (w - 1)) head;
               mret (be_put 8 k0 ++ be_put 8 k1 ++ (rest : list Z))
             else generateCollisionChainIn (Z.to_nat w) head);
    modify (fun m => set_debug m (collisionChainDebugThreshold m) (Some chain) 0)
  else mret tt.

Definition count_scan (w scanned : Z) : M unit :=
  modify (fun m =>
    let c := counter m in
    set_counter m
      (mkCounter (if Max c <? w then w else Max c) (Size c) (AvgScan c) (i64 (totalScan c + scanned)) (scanTimes c))).

Definition find (k0 k1 : Z) (isAdd : bool) : M (option Z) :=
  m ← get_state;
  let sl := compressHash m k0 k1 in
  head ← slot_head sl;
  modify (fun m =>
    let c := counter m in
    set_counter m (mkCounter (Max c) (Size c) (AvgScan c) (totalScan c) (i64 (scanTimes c + 1)))) ;;
  r ← find_loop (S (Z.to_nat (size m))) k0 k1 head 0;
  match r with
  | (Some i, w) => count_scan w w ;; keep_chain k0 k1 sl w false ;; mret (Some i)
  | (None, scanned) =>
      let w := if isAdd then i64 (scanned + 1) else scanned in
      modify (fun m => if width m <? w then set_sizes m (size m) w else m) ;;
      count_scan w scanned ;; keep_chain k0 k1 sl w isAdd ;; mret None
  end.

(** * Operations *)

Definition AddOrGet (pooled : list u128IDMapNode) (k0 k1 v : Z) (overwrite : bool) : M (Z * bool) :=
  r ← find k0 k1 true;
  match (r : option Z) with
  | Some i =>
      (if overwrite then setNode i (fun n => mkIDNode (key0 n) (key1 n) v (next n) (slot n)) else mret tt) ;;
      node ← getNode i;
      mret (value node, false)
  | None =>
      m ← get_state;
      let sl := compressHash m k0 k1 in
      head ← slot_head sl;
      (if size m >=? shl 64 (zlen (buffer m)) _BLOCK_SIZE_BITS
       then modify (fun m => set_buffer m (buffer m ++ [pooled])) else mret tt) ;;
      setNode (size m) (fun _ => mkIDNode k0 k1 v head (i32 sl)) ;;
      set_slot_head sl (i32 (size m)) ;;
      modify (fun m => set_sizes m (i64 (size m + 1)) (width m)) ;;
      modify (fun m =>
        let c := counter m in
        if Size c <? size m then set_counter m (mkCounter (Max c) (size m) (AvgScan c) (totalScan c) (scanTimes c)) else m) ;;
      mret (v, true)
  end.

(** The slices have sixteen bytes. *)
Definition AddOrGetWithSlice (pooled : list u128IDMapNode) (key : list Z) (hash v : Z) (overwrite : bool) : M (Z * bool) :=
  if negb (zlen key =? 16) then panic
  else AddOrGet pooled (be_get (take 8 key)) (be_get (take 8 (drop 8 key))) v overwrite.

Definition Get (k0 k1 : Z) : M (Z * bool) :=
  r ← find k0 k1 false;
  match (r : option Z) with
  | Some i => node ← getNode i; mret (value node, true)
  | None => mret (0, false)
  end.

Definition GetWithSlice (key : list Z) (hash : Z) : M (Z * bool) :=
  if negb (zlen key =? 16) then panic else Get (be_get (take 8 key)) (be_get (take 8 (drop 8 key))).

(** The nodes from [i] on, [n] of them. *)
Fixpoint clear_nodes (n : nat) (i : Z) : M unit :=
  match n with
  | O => mret tt
  | S n =>
      node ← getNode i;
      set_slot_head (slot node) (-1) ;;
      setNode i (fun _ => blankU128MapNodeForInit) ;;
      clear_nodes n (i + 1)
  end.

(** The blocks go back to the pool. *)
Definition Clear : M unit :=
  m ← get_state;
  clear_nodes (Z.to_nat (size m)) 0 ;;
  modify (fun m => set_debug (set_sizes (set_buffer m []) 0 0) (collisionChainDebugThreshold m) (debugChain m) 1).

Definition GetCounter : M Counter :=
  m ← get_state;
  let c := counter m in
  modify (fun m => set_counter m (mkCounter 0 (size m) 0 0 0)) ;;
  mret (if negb (scanTimes c =? 0)
        then mkCounter (Max c) (Size c) (i64 (Z.quot (totalScan c) (scanTimes c))) (totalScan c) (scanTimes c) else c).

Definition GetCollisionChain : M (option (list Z)) :=
  m ← get_state;
  if debugChainRead m =? 1 then mret None
  else modify (fun m => set_debug m (collisionChainDebugThreshold m) (debugChain m) 1) ;; mret (debugChain m).

Definition SetCollisionChainDebugThreshold (t : Z) : M unit :=
  modify (fun m => set_debug m (u32 t) (debugChain m) (if t >? 0 then 1 else debugChainRead m)).
