(* ===== verification/IdMapFacts.v ===== *)
(** The map of identifiers behaves as a finite map, whatever the keys hash to. *)

From stdpp Require Import strings.
From S2P Require Import Prelude Lru IdMap.

#[local] Open Scope list_scope.
#[local] Open Scope Z_scope.

#[local] Opaque Jenkins128.

(** * The nodes as one list *)

Definition flat (m : U128IDMap) : list u128IDMapNode := concat (buffer m).

Definition blocks_ok (m : U128IDMap) : Prop := Forall (fun b => length b = 256%nat) (buffer m).

Lemma concat_length_blocks {A} (bs : list (list A)) :
  Forall (fun b => length b = 256%nat) bs -> length (concat bs) = (256 * length bs)%nat.
Proof. induction 1 as [|b bs Hb _ IH]; [done|]. cbn. rewrite length_app, IH, Hb. lia. Qed.

Lemma concat_lookup {A} (bs : list (list A)) q r :
  Forall (fun b => length b = 256%nat) bs -> (r < 256)%nat -> concat bs !! (256 * q + r)%nat = b ← bs !! q; b !! r.
Proof.
  intros H Hr. revert q. induction H as [|b bs Hb _ IH]; intros q; [done|]. cbn [concat]. destruct q as [|q].
  - replace (256 * 0 + r)%nat with r by lia. by rewrite lookup_app_l by lia.
  - rewrite lookup_app_r by lia. replace (256 * S q + r - length b)%nat with (256 * q + r)%nat by lia. apply IH.
Qed.

Lemma concat_alter {A} (bs : list (list A)) q r x :
  Forall (fun b => length b = 256%nat) bs -> (r < 256)%nat ->
  concat (alter (fun b => <[r := x]> b) q bs) = <[(256 * q + r)%nat := x]> (concat bs).
Proof.
  intros H Hr. revert q. induction H as [|b bs Hb _ IH]; intros q; [done|]. destruct q as [|q].
  - replace (256 * 0 + r)%nat with r by lia. cbn [concat]. rewrite insert_app_l by lia. done.
  - cbn [concat]. replace (256 * S q + r)%nat with (length b + (256 * q + r))%nat by lia. rewrite insert_app_r. by rewrite <- IH.
Qed.

Lemma index_split i : 0 <= i ->
  Z.to_nat i = (256 * Z.to_nat (i ≫ _BLOCK_SIZE_BITS) + Z.to_nat (Z.land i _BLOCK_SIZE_MASK))%nat /\
  (Z.to_nat (Z.land i _BLOCK_SIZE_MASK) < 256)%nat /\ 0 <= i ≫ _BLOCK_SIZE_BITS /\ 0 <= Z.land i _BLOCK_SIZE_MASK.
Proof.
  intros Hi. change _BLOCK_SIZE_MASK with (Z.ones 8). rewrite Z.land_ones, Z.shiftr_div_pow2 by done.
  change (2 ^ 8) with 256. change (2 ^ _BLOCK_SIZE_BITS) with 256.
  pose proof (Z.div_mod i 256). pose proof (Z.mod_pos_bound i 256). pose proof (Z.div_pos i 256). lia.
Qed.

Lemma cell_flat m i : blocks_ok m -> 0 <= i -> cell m i = flat m !! Z.to_nat i.
Proof.
  intros Hb Hi. destruct (index_split i Hi) as (E & Hr & H0 & H1). unfold cell, at_index, flat.
  rewrite (proj2 (Z.ltb_ge _ 0) H0), (proj2 (Z.ltb_ge _ 0) H1), E, concat_lookup by done. done.
Qed.

(** * The invariant *)

(** The last node of a slot. *)
Fixpoint last_in (sl i : Z) (ns : list u128IDMapNode) (acc : Z) : Z :=
  match ns with
  | [] => acc
  | n :: ns => last_in sl (i + 1) ns (if slot n =? sl then i else acc)
  end.

Definition head_of (ns : list u128IDMapNode) (sl : Z) : Z := last_in sl 0 ns (-1).

Lemma last_in_snoc sl i ns n acc :
  last_in sl i (ns ++ [n]) acc = if slot n =? sl then i + zlen ns else last_in sl i ns acc.
Proof.
  revert i acc. induction ns as [|n' ns IH]; intros i acc; cbn.
  - by rewrite Z.add_0_r.
  - rewrite IH. unfold zlen. cbn. case_match; [lia|done].
Qed.

Lemma head_of_snoc ns n sl : head_of (ns ++ [n]) sl = if slot n =? sl then zlen ns else head_of ns sl.
Proof. unfold head_of. by rewrite last_in_snoc. Qed.

Definition keys (n : u128IDMapNode) : Z * Z := (key0 n, key1 n).

(** The values by keys. *)
Definition contents (ns : list u128IDMapNode) : gmap (Z * Z) Z := list_to_map ((fun n => (keys n, value n)) <$> ns).

(** The map holds the nodes [ns], and its slots are a power of two. *)
Definition holds (m : U128IDMap) (ns : list u128IDMapNode) : Prop :=
  blocks_ok m /\ (exists rest, flat m = ns ++ rest /\ (length rest < 256)%nat) /\ size m = zlen ns /\ zlen ns <= 2 ^ 31 /\
  (exists bits, 1 <= bits <= 30 /\ zlen (slotHead m) = 2 ^ bits) /\
  (forall sl, 0 <= sl < zlen (slotHead m) -> slotHead m !! Z.to_nat sl = Some (head_of ns sl)) /\
  (forall i n, ns !! i = Some n -> next n = head_of (take i ns) (slot n) /\ slot n = compressHash m (key0 n) (key1 n)) /\
  NoDup (keys <$> ns).

Lemma compress_range m k0 k1 ns : holds m ns -> 0 <= compressHash m k0 k1 < zlen (slotHead m).
Proof.
  intros (_ & _ & _ & _ & (bits & Hb & E) & _). unfold compressHash. rewrite E.
  assert (2 ^ bits <= 2 ^ 30) by (apply Z.pow_le_mono_r; lia). pose proof (pow2_pos bits ltac:(lia)).
  rewrite swrap_small by (unfold is_i; lia). replace (2 ^ bits - 1) with (Z.ones bits) by (rewrite Z.ones_equiv; lia).
  rewrite Z.land_ones by lia. by apply Z.mod_pos_bound.
Qed.

Lemma slot_head_runs m ns k0 k1 (Q : Z -> U128IDMap -> Prop) : holds m ns ->
  Q (head_of ns (compressHash m k0 k1)) m -> runs (slot_head (compressHash m k0 k1)) m Q.
Proof.
  intros Hh HQ. pose proof (compress_range m k0 k1 ns Hh) as Hr. destruct Hh as (_ & _ & _ & _ & _ & Hs & _).
  unfold slot_head. apply runs_bind, runs_get. eapply runs_of_option; [|done]. unfold at_index.
  rewrite (proj2 (Z.ltb_ge _ 0)) by lia. by apply Hs.
Qed.

Lemma getNode_runs m ns i n (Q : u128IDMapNode -> U128IDMap -> Prop) : holds m ns -> ns !! i = Some n ->
  Q n m -> runs (getNode (Z.of_nat i)) m Q.
Proof.
  intros (Hb & (rest & Ef & _) & _) Hn HQ. unfold getNode. apply runs_bind, runs_get. eapply runs_of_option; [|done].
  rewrite cell_flat, Ef, Nat2Z.id by (done || lia). by apply lookup_app_l_Some.
Qed.

(** * Searching *)

Lemma equal_keys n k0 k1 : equal n k0 k1 = bool_decide (keys n = (k0, k1)).
Proof.
  unfold equal, keys. destruct (Z.eqb_spec (key0 n) k0), (Z.eqb_spec (key1 n) k1); cbn; case_bool_decide; congruence.
Qed.

(** The place of a key among the first nodes. *)
Definition place (k : Z * Z) (ns : list u128IDMapNode) (r : option Z) : Prop :=
  match r with
  | Some i => exists j n, i = Z.of_nat j /\ ns !! j = Some n /\ keys n = k
  | None => forall j n, ns !! j = Some n -> keys n <> k
  end.

Lemma place_snoc k ns n r : keys n <> k -> place k ns r -> place k (ns ++ [n]) r.
Proof.
  intros Hn. destruct r as [i|]; cbn.
  - intros (j & n' & -> & Hj & Hk). exists j, n'. split_and!; [done|by apply lookup_app_l_Some|done].
  - intros H j n' [Hj|[_ Hj]]%lookup_app_Some; [by eapply H|]. by apply list_lookup_singleton_Some in Hj as [_ <-].
Qed.

Lemma find_loop_spec m ns k0 k1 rounds j w : holds m ns -> (j <= length ns)%nat -> (j < rounds)%nat ->
  runs (find_loop rounds k0 k1 (head_of (take j ns) (compressHash m k0 k1)) w) m (fun r m' => m' = m /\ place (k0, k1) (take j ns) r.1).
Proof.
  intros Hh. revert rounds w. induction j as [|j IH]; intros rounds w Hj Hr; (destruct rounds as [|rounds]; [lia|]).
  - split; [done|]. by intros j n.
  - destruct (lookup_lt_is_Some_2 ns j ltac:(lia)) as [n Hn]. rewrite (take_S_r _ _ _ Hn), head_of_snoc.
    pose proof Hh as (_ & _ & _ & _ & _ & _ & Hc & _). destruct (Hc j n Hn) as [Hnext Hslot].
    destruct (Z.eqb_spec (slot n) (compressHash m k0 k1)) as [Es|Hne].
    + replace (zlen (take j ns)) with (Z.of_nat j) by (unfold zlen; rewrite length_take; lia). cbn [find_loop].
      destruct (Z.eqb_spec (Z.of_nat j) (-1)); [lia|]. apply runs_bind. eapply getNode_runs; [done|done|].
      rewrite equal_keys. case_bool_decide as Hk.
      * apply runs_ret. split; [done|]. exists j, n. split_and!; [done| |done].
        rewrite lookup_app_r by (rewrite length_take; lia). rewrite length_take. by replace (j - j `min` length ns)%nat with 0%nat by lia.
      * rewrite Hnext, Es. eapply runs_mono; [apply IH; lia|]. intros r m' [-> Hp]. split; [done|]. by apply place_snoc.
    + eapply runs_mono; [apply IH; lia|]. intros r m' [-> Hp]. split; [done|]. apply place_snoc; [|done].
      intros Hk. apply Hne. rewrite Hslot. unfold keys in Hk. by injection Hk as -> ->.
Qed.

(** The counters and the chain kept for the debugger do not matter. *)
Definition same_data (m m' : U128IDMap) : Prop := buffer m' = buffer m /\ slotHead m' = slotHead m /\ size m' = size m.

Lemma holds_same m m' ns : same_data m m' -> holds m ns -> holds m' ns.
Proof. intros (Eb & Eh & Es). unfold holds, blocks_ok, flat, compressHash. by rewrite Eb, Eh, Es. Qed.

Lemma compress_same m m' k0 k1 : same_data m m' -> compressHash m' k0 k1 = compressHash m k0 k1.
Proof. intros (_ & E & _). unfold compressHash. rewrite E. reflexivity. Qed.

Lemma same_trans m1 m2 m3 : same_data m1 m2 -> same_data m2 m3 -> same_data m1 m3.
Proof. unfold same_data. intros (-> & -> & ->) (-> & -> & ->). done. Qed.

Lemma idchain_runs m ns n j sl : holds m ns -> (j <= length ns)%nat ->
  runs (generateCollisionChainIn n (head_of (take j ns) sl)) m (fun _ m' => m' = m).
Proof.
  intros Hh. revert n. induction j as [|j IH]; intros n Hj; [by destruct n|].
  destruct (lookup_lt_is_Some_2 ns j ltac:(lia)) as [nd Hn]. rewrite (take_S_r _ _ _ Hn), head_of_snoc.
  destruct (Z.eqb_spec (slot nd) sl) as [<-|_]; [|apply IH; lia].
  replace (zlen (take j ns)) with (Z.of_nat j) by (unfold zlen; rewrite length_take; lia).
  destruct n as [|n]; [done|]. cbn [generateCollisionChainIn]. destruct (Z.eqb_spec (Z.of_nat j) (-1)); [lia|].
  apply runs_bind. eapply getNode_runs; [done|done|]. pose proof Hh as (_ & _ & _ & _ & _ & _ & Hc & _).
  destruct (Hc j nd Hn) as [-> _]. apply runs_bind. eapply runs_mono; [apply IH; lia|]. by intros rest m' ->.
Qed.

Lemma idkeep_chain_runs m ns k0 k1 w isAdd : holds m ns ->
  runs (keep_chain k0 k1 (compressHash m k0 k1) w isAdd) m (fun _ m' => same_data m m').
Proof.
  intros Hh. unfold keep_chain. apply runs_bind, runs_get. case_match; [|done].
  apply runs_bind. eapply slot_head_runs; [done|]. apply runs_bind. rewrite <- (take_ge ns (length ns)) by lia.
  destruct isAdd; [apply runs_bind|]; (eapply runs_mono; [by eapply idchain_runs|]); by intros rest m' ->.
Qed.

Lemma idfind_runs m ns k0 k1 isAdd : holds m ns ->
  runs (find k0 k1 isAdd) m (fun r m' => same_data m m' /\ place (k0, k1) ns r).
Proof.
  intros Hh. unfold find. apply runs_bind, runs_get, runs_bind. eapply slot_head_runs; [done|]. apply runs_bind, runs_modify.
  set (m1 := set_counter _ _). assert (same_data m m1) as H1 by done. assert (holds m1 ns) as Hh1 by (by eapply holds_same).
  pose proof Hh as (_ & _ & Es & _). unfold zlen in Es. apply runs_bind.
  pose proof (find_loop_spec m1 ns k0 k1 (S (Z.to_nat (size m))) (length ns) 0 Hh1 ltac:(lia) ltac:(lia)) as Hf.
  rewrite take_ge, (compress_same m m1 k0 k1 H1) in Hf by lia. eapply runs_mono; [exact Hf|]. cbn beta. intros [r w] m' [-> Hp]. cbn [fst] in Hp.
  assert (forall m2 w isAdd, same_data m m2 ->
    runs (keep_chain k0 k1 (compressHash m k0 k1) w isAdd) m2 (fun _ m' => same_data m m')) as Hk.
  { intros m2 w' b H2. rewrite <- (compress_same m m2 k0 k1 H2).
    eapply runs_mono; [apply (idkeep_chain_runs m2 ns); by eapply holds_same|]. intros [] m3 H3. by eapply same_trans. }
  destruct r as [i|].
  - apply runs_bind, runs_modify, runs_bind. eapply runs_mono; [by apply Hk|]. intros [] m2 H2. by apply runs_ret.
  - apply runs_bind, runs_modify, runs_bind, runs_modify, runs_bind. eapply runs_mono; [apply Hk; by case_match|].
    intros [] m2 H2. by apply runs_ret.
Qed.

(** * The contents *)

Lemma contents_lookup ns k v : NoDup (keys <$> ns) ->
  contents ns !! k = Some v <-> exists j n, ns !! j = Some n /\ keys n = k /\ value n = v.
Proof.
  intros Hnd. unfold contents. rewrite <- elem_of_list_to_map.
  - rewrite list_elem_of_fmap. setoid_rewrite list_elem_of_lookup. naive_solver.
  - rewrite <- list_fmap_compose. done.
Qed.

Lemma contents_place ns k r : NoDup (keys <$> ns) -> place k ns r ->
  match r with
  | Some i => exists j n, i = Z.of_nat j /\ ns !! j = Some n /\ keys n = k /\ contents ns !! k = Some (value n)
  | None => contents ns !! k = None
  end.
Proof.
  intros Hnd Hp. destruct r as [i|]; cbn in Hp.
  - destruct Hp as (j & n & -> & Hj & Hk). exists j, n. split_and!; try done. apply contents_lookup; eauto.
  - destruct (contents ns !! k) as [v|] eqn:E; [|done]. apply contents_lookup in E as (j & n & Hj & Hk & _); [|done].
    exfalso. by eapply Hp.
Qed.

Lemma contents_snoc ns n : contents ns !! keys n = None -> contents (ns ++ [n]) = <[keys n := value n]> (contents ns).
Proof.
  intros E. unfold contents in *. rewrite fmap_app, list_to_map_app. cbn. rewrite insert_empty.
  rewrite insert_union_singleton_l, map_union_comm; [done|]. by apply map_disjoint_singleton_r.
Qed.

(** A node with another value. *)
Definition with_value (v : Z) (n : u128IDMapNode) : u128IDMapNode := mkIDNode (key0 n) (key1 n) v (next n) (slot n).

Lemma keys_insert (ns : list u128IDMapNode) (j : nat) n v : ns !! j = Some n -> keys <$> <[j := with_value v n]> ns = keys <$> ns.
Proof. intros Hj. rewrite list_fmap_insert. apply list_insert_id. by rewrite list_lookup_fmap, Hj. Qed.

Lemma contents_insert ns j n v : NoDup (keys <$> ns) -> ns !! j = Some n ->
  contents (<[j := with_value v n]> ns) = <[keys n := v]> (contents ns).
Proof.
  intros Hnd Hj. pose proof (lookup_lt_Some _ _ _ Hj) as Hl. apply map_eq. intros k. apply option_eq. intros x.
  rewrite contents_lookup by (by rewrite keys_insert). destruct (decide (keys n = k)) as [<-|Hne].
  - rewrite lookup_insert_eq. split.
    + intros (j' & n' & Hj' & Hk & <-). destruct (decide (j' = j)) as [->|Hjj].
      * rewrite list_lookup_insert_eq in Hj' by done. by injection Hj' as <-.
      * rewrite list_lookup_insert_ne in Hj' by done. exfalso. apply Hjj.
        apply (NoDup_lookup (keys <$> ns) _ _ (keys n)); [done|..]; rewrite list_lookup_fmap; [by rewrite Hj', <- Hk|by rewrite Hj].
    + intros [= ->]. exists j, (with_value x n). by rewrite list_lookup_insert_eq.
  - rewrite lookup_insert_ne, contents_lookup by done. split; intros (j' & n' & Hj' & Hk & <-).
    + destruct (decide (j' = j)) as [->|Hjj]; [rewrite list_lookup_insert_eq in Hj' by done; injection Hj' as <-; by destruct Hne|].
      rewrite list_lookup_insert_ne in Hj' by done. eauto.
    + exists j', n'. split; [|done]. rewrite list_lookup_insert_ne; [done|]. intros ->. simplify_eq.
Qed.

(** * Operations *)

Lemma setNode_runs m i n f (Q : unit -> U128IDMap -> Prop) : blocks_ok m -> flat m !! i = Some n ->
  (forall m', blocks_ok m' -> flat m' = <[i := f n]> (flat m) -> m' = set_buffer m (buffer m') ->
    length (buffer m') = length (buffer m) -> Q tt m') ->
  runs (setNode (Z.of_nat i) f) m Q.
Proof.
  intros Hb Hn HQ. unfold setNode, getNode. apply runs_bind, runs_bind, runs_get.
  eapply runs_of_option; [rewrite cell_flat, Nat2Z.id by (done || lia); done|]. apply runs_modify.
  destruct (index_split (Z.of_nat i) ltac:(lia)) as (E & Hr & _). rewrite Nat2Z.id in E. apply HQ; [..|done|].
  - unfold blocks_ok. cbn [buffer set_buffer]. apply Forall_alter; [done|]. intros b _ Hl. by rewrite length_insert.
  - unfold flat. cbn [buffer set_buffer]. rewrite concat_alter, <- E by done. done.
  - cbn [buffer set_buffer]. apply length_alter.
Qed.

Lemma head_of_insert ns j n v sl : ns !! j = Some n -> head_of (<[j := with_value v n]> ns) sl = head_of ns sl.
Proof.
  unfold head_of. generalize 0, (-1). revert j. induction ns as [|n' ns IH]; intros [|j] i acc Hj; try done; cbn.
  - by injection Hj as ->.
  - by apply IH.
Qed.

Lemma holds_value m m' ns j n v : holds m ns -> ns !! j = Some n -> blocks_ok m' ->
  flat m' = <[j := with_value v n]> (flat m) -> m' = set_buffer m (buffer m') -> holds m' (<[j := with_value v n]> ns).
Proof.
  intros (Hb & (rest & Ef & Hrest) & Es & Hsz & Hbits & Hh & Hc & Hnd) Hj Hb' Ef' Em. pose proof (lookup_lt_Some _ _ _ Hj) as Hl.
  unfold holds. split_and!; [done| | | | | | |].
  - exists rest. split; [by rewrite Ef', Ef, insert_app_l|done].
  - unfold zlen. rewrite length_insert, Em. done.
  - unfold zlen in *. by rewrite length_insert.
  - by rewrite Em.
  - intros sl Hsl. rewrite Em in *. cbn [slotHead set_buffer] in *. rewrite head_of_insert by done. by apply Hh.
  - intros i n' Hi. rewrite Em. change (compressHash (set_buffer m (buffer m'))) with (compressHash m).
    assert (exists n0, ns !! i = Some n0 /\ next n' = next n0 /\ slot n' = slot n0 /\ keys n' = keys n0) as (n0 & Hi0 & -> & -> & [= -> ->]).
    { destruct (decide (i = j)) as [->|]; [rewrite list_lookup_insert_eq in Hi by done; injection Hi as <-; by exists n|].
      rewrite list_lookup_insert_ne in Hi by done. by exists n'. }
    destruct (Hc i n0 Hi0) as [-> ->]. split; [|done]. destruct (decide (j < i)%nat).
    + rewrite take_insert_lt by lia. rewrite head_of_insert; [done|]. by rewrite lookup_take_lt.
    + by rewrite take_insert_ge by lia.
  - by rewrite keys_insert.
Qed.

(** The answer of a finite map, and the map after it. *)
Definition ref_AddOrGet (k : Z * Z) (v : Z) (overwrite : bool) (g : gmap (Z * Z) Z) : (Z * bool) * gmap (Z * Z) Z :=
  match g !! k with
  | Some v' => if overwrite then ((v, false), <[k := v]> g) else ((v', false), g)
  | None => ((v, true), <[k := v]> g)
  end.

Lemma push_holds m m' ns k0 k1 v : holds m ns -> zlen ns < 2 ^ 31 -> contents ns !! (k0, k1) = None ->
  let sl := compressHash m k0 k1 in
  let n := mkIDNode k0 k1 v (head_of ns sl) (i32 sl) in
  blocks_ok m' -> (exists rest, flat m' = ns ++ n :: rest /\ (length rest < 256)%nat) -> size m' = zlen ns + 1 ->
  slotHead m' = <[Z.to_nat sl := zlen ns]> (slotHead m) -> holds m' (ns ++ [n]).
Proof.
  intros Hh Hlt Hnone sl n Hb' (rest & Ef & Hrest) Es Eh. pose proof (compress_range m k0 k1 ns Hh) as Hsl. fold sl in Hsl.
  destruct Hh as (_ & _ & _ & _ & (bits & Hbits & Ebits) & Hh & Hc & Hnd).
  assert (zlen (slotHead m') = zlen (slotHead m)) as El by (unfold zlen; by rewrite Eh, length_insert).
  assert (forall a b, compressHash m' a b = compressHash m a b) as Ec by (intros; unfold compressHash; rewrite El; reflexivity).
  assert (slot n = sl) as Esl.
  { cbn. apply swrap_small; [done|]. assert (2 ^ bits <= 2 ^ 30) by (apply Z.pow_le_mono_r; lia). unfold is_i. lia. }
  unfold holds. split_and!.
  - done.
  - exists rest. split; [by rewrite Ef, <- (assoc (++))|done].
  - rewrite Es, zlen_app. done.
  - rewrite zlen_app. unfold zlen at 2. cbn. lia.
  - exists bits. by rewrite El.
  - intros s Hs. rewrite El in Hs. rewrite Eh, head_of_snoc, Esl. destruct (Z.eqb_spec sl s) as [<-|Hne].
    + apply list_lookup_insert_eq. unfold zlen in Hsl. lia.
    + rewrite list_lookup_insert_ne by lia. by apply Hh.
  - intros i n' Hi. rewrite Ec. apply lookup_app_Some in Hi as [Hi|[Hge Hi]].
    + rewrite take_app_le by (apply lookup_lt_Some in Hi; lia). by apply Hc.
    + apply list_lookup_singleton_Some in Hi as [Hi <-]. replace i with (length ns) by lia. rewrite take_app_length, Esl. done.
  - rewrite fmap_app. apply NoDup_app. split_and!; [done| |apply NoDup_singleton].
    intros k Hk ->%list_elem_of_singleton. apply list_elem_of_fmap in Hk as (n' & Ek & [j Hj]%list_elem_of_lookup).
    assert (contents ns !! keys n = Some (value n')) as E by (apply contents_lookup; eauto).
    change (keys n) with (k0, k1) in E. by rewrite Hnone in E.
Qed.

Section Operations.
(** Any block that the pool hands out. *)
Variable pooled : list u128IDMapNode.
Hypothesis Hpooled : length pooled = 256%nat.

Lemma idGet_runs m ns k0 k1 : holds m ns ->
  runs (Get k0 k1) m (fun r m' => holds m' ns /\
    r = match contents ns !! (k0, k1) with Some v => (v, true) | None => (0, false) end).
Proof.
  intros Hh. pose proof Hh as (_ & _ & _ & _ & _ & _ & _ & Hnd). unfold Get. apply runs_bind.
  eapply runs_mono; [by apply idfind_runs|]. intros r m' [Hsame Hp%contents_place]; [|done].
  assert (holds m' ns) as Hh' by (by eapply holds_same). destruct r as [i|].
  - destruct Hp as (j & n & -> & Hj & _ & ->). apply runs_bind. eapply getNode_runs; [done|done|]. by apply runs_ret.
  - rewrite Hp. by apply runs_ret.
Qed.

(** A new node: a block is taken from the pool when the last one is full. *)
Lemma alloc_runs m ns (Q : unit -> U128IDMap -> Prop) : holds m ns -> zlen ns < 2 ^ 31 ->
  (forall m', blocks_ok m' -> (exists x rest, flat m' = ns ++ x :: rest /\ (length rest < 256)%nat) -> m' = set_buffer m (buffer m') -> Q tt m') ->
  runs (if size m >=? shl 64 (zlen (buffer m)) _BLOCK_SIZE_BITS
        then modify (fun m => set_buffer m (buffer m ++ [pooled])) else mret tt) m Q.
Proof.
  intros (Hb & (rest & Ef & Hrest) & Es & Hsz & _) Hlt HQ. pose proof (concat_length_blocks _ Hb) as Hl.
  fold (flat m) in Hl. rewrite Ef, length_app in Hl.
  assert (shl 64 (zlen (buffer m)) _BLOCK_SIZE_BITS = zlen ns + zlen rest) as ->.
  { unfold shl. rewrite Z.shiftl_mul_pow2 by done. change (2 ^ _BLOCK_SIZE_BITS) with 256. unfold zlen in *.
    rewrite wrap_small by (unfold is_u; lia). lia. }
  rewrite Es. destruct rest as [|x rest]; cbn [length] in Hrest.
  - rewrite (proj2 (Z.geb_le _ _)) by (unfold zlen; cbn; lia). rewrite app_nil_r in Ef.
    destruct pooled as [|x rest] eqn:Ep; [done|]. apply runs_modify, HQ; [|exists x, rest; split|done].
    + unfold blocks_ok. cbn [buffer set_buffer]. apply Forall_app. split; [done|by repeat constructor].
    + unfold flat in *. cbn [buffer set_buffer]. rewrite concat_app. cbn [concat]. by rewrite app_nil_r, Ef.
    + cbn in Hpooled. lia.
  - destruct (Z.geb_spec (zlen ns) (zlen ns + zlen (x :: rest))); [unfold zlen in *; cbn in *; lia|].
    apply runs_ret, HQ; [done|exists x, rest; split; [done|lia]|by destruct m].
Qed.

Lemma AddOrGet_runs m ns k0 k1 v o : holds m ns -> zlen ns < 2 ^ 31 ->
  runs (AddOrGet pooled k0 k1 v o) m (fun r m' => exists ns', holds m' ns' /\
    (r, contents ns') = ref_AddOrGet (k0, k1) v o (contents ns)).
Proof.
  intros Hh Hlt. pose proof Hh as (_ & _ & _ & _ & _ & _ & _ & Hnd). unfold AddOrGet. apply runs_bind.
  eapply runs_mono; [by apply idfind_runs|]. intros r m1 [Hsame Hp%contents_place]; [|done].
  assert (holds m1 ns) as Hh1 by (by eapply holds_same). unfold ref_AddOrGet. destruct r as [i|].
  - destruct Hp as (j & n & -> & Hj & <- & ->). pose proof Hh1 as (Hb & (rest & Ef & _) & _). apply runs_bind. destruct o.
    + eapply setNode_runs; [done|by rewrite Ef; apply lookup_app_l_Some|]. intros m2 Hb2 Ef2 Em2 _.
      pose proof (holds_value m1 m2 ns j n v Hh1 Hj Hb2 Ef2 Em2) as Hh2. apply runs_bind.
      eapply (getNode_runs _ _ j (with_value v n)); [done|by rewrite list_lookup_insert_eq by (by eapply lookup_lt_Some)|].
      apply runs_ret. eexists. split; [done|]. by rewrite contents_insert.
    + apply runs_ret, runs_bind. eapply getNode_runs; [done|done|]. apply runs_ret. by exists ns.
  - rewrite Hp. apply runs_bind, runs_get, runs_bind. eapply slot_head_runs; [done|]. apply runs_bind.
    set (sl := compressHash m1 k0 k1). eapply alloc_runs; [done|done|]. intros m2 Hb2 (x & rest & Ef2 & Hrest) Em2.
    pose proof Hh1 as (_ & _ & Es1 & _). apply runs_bind. rewrite Es1. unfold zlen at 1.
    eapply setNode_runs; [done|rewrite Ef2; by apply list_lookup_middle|]. intros m3 Hb3 Ef3 Em3 _.
    set (n := mkIDNode k0 k1 v (head_of ns sl) (i32 sl)) in *.
    assert (slotHead m3 = slotHead m1 /\ size m3 = size m1) as [Eh3 Es3] by (by rewrite Em3, Em2).
    apply runs_bind. unfold set_slot_head. apply runs_bind. pose proof (compress_range m1 k0 k1 ns Hh1) as Hsl. fold sl in Hsl.
    pose proof Hh1 as (_ & _ & _ & _ & _ & Hheads & _). unfold slot_head. apply runs_bind, runs_get.
    eapply runs_of_option; [unfold at_index; rewrite (proj2 (Z.ltb_ge _ 0)) by lia; rewrite Eh3; by apply Hheads|].
    apply runs_modify, runs_bind, runs_modify, runs_bind, runs_modify, runs_ret. exists (ns ++ [n]).
    assert (flat m3 = ns ++ n :: rest) as Ef4 by (rewrite Ef3, Ef2; by rewrite insert_app_r_alt, Nat.sub_diag by lia).
    split; [|by rewrite contents_snoc].
    apply (push_holds m1); [done|done|done| |exists rest| |]; (case_match; [|]); cbn [buffer slotHead size set_counter set_sizes set_slotHead].
    all: try done; try (by rewrite Es3, Es1, swrap_small by (unfold zlen, is_i in *; lia)).
    all: by rewrite Eh3, swrap_small by (unfold zlen, is_i in *; lia).
Qed.

End Operations.

(** ** Clearing *)

Lemma head_of_none ns sl : (forall j n, ns !! j = Some n -> slot n <> sl) -> head_of ns sl = -1.
Proof.
  induction ns as [|n ns IH] using rev_ind; intros H; [done|]. rewrite head_of_snoc.
  rewrite (proj2 (Z.eqb_neq _ _)) by (apply (H (length ns)); by apply list_lookup_middle). apply IH. intros j n' Hj.
  apply (H j). by apply lookup_app_l_Some.
Qed.

(** When the first [i] nodes are cleared. *)
Definition clearing (m0 : U128IDMap) (ns : list u128IDMapNode) (i : nat) (m : U128IDMap) : Prop :=
  blocks_ok m /\ (forall j n, (i <= j)%nat -> ns !! j = Some n -> flat m !! j = Some n) /\
  zlen (slotHead m) = zlen (slotHead m0) /\
  forall sl, 0 <= sl < zlen (slotHead m0) -> slotHead m !! Z.to_nat sl = Some (-1) \/
    slotHead m !! Z.to_nat sl = Some (head_of ns sl) /\ forall j n, (j < i)%nat -> ns !! j = Some n -> slot n <> sl.

Lemma clear_nodes_runs m0 ns k i m : holds m0 ns -> (i + k = length ns)%nat -> clearing m0 ns i m ->
  runs (clear_nodes k (Z.of_nat i)) m (fun _ m' => clearing m0 ns (length ns) m').
Proof.
  intros Hh. revert i m. induction k as [|k IH]; intros i m Hk Hm; cbn [clear_nodes].
  { by replace (length ns) with i by lia. }
  destruct (lookup_lt_is_Some_2 ns i ltac:(lia)) as [n Hn]. pose proof Hm as (Hb & Hf & Hl & Hs).
  pose proof (Hf i n ltac:(lia) Hn) as Hfi. apply runs_bind. unfold getNode. apply runs_bind, runs_get.
  eapply runs_of_option; [rewrite cell_flat, Nat2Z.id by (done || lia); done|].
  pose proof Hh as (_ & _ & _ & _ & _ & _ & Hc & _). destruct (Hc i n Hn) as [_ Hsl].
  pose proof (compress_range m0 (key0 n) (key1 n) ns Hh) as Hr. rewrite <- Hsl in Hr.
  assert (is_Some (slotHead m !! Z.to_nat (slot n))) as [h Eh] by (destruct (Hs _ Hr) as [->|[-> _]]; by eexists).
  apply runs_bind. unfold set_slot_head, slot_head. apply runs_bind, runs_bind, runs_get.
  eapply runs_of_option; [unfold at_index; by rewrite (proj2 (Z.ltb_ge _ 0)) by lia|]. apply runs_modify, runs_bind.
  eapply setNode_runs; [exact Hb|exact Hfi|]. intros m2 Hb2 Ef2 Em2 _. replace (Z.of_nat i + 1) with (Z.of_nat (S i)) by lia.
  apply IH; [lia|]. split_and!; [done| | |].
  - intros j n' Hj Hn'. rewrite Ef2, list_lookup_insert_ne by lia. apply Hf; [lia|done].
  - rewrite Em2. cbn [slotHead set_buffer set_slotHead]. unfold zlen in *. by rewrite length_insert.
  - intros sl Hsl'. rewrite Em2. cbn [slotHead set_buffer set_slotHead]. apply lookup_lt_Some in Eh.
    destruct (decide (sl = slot n)) as [->|Hne]; [left; by apply list_lookup_insert_eq|].
    rewrite list_lookup_insert_ne by lia. destruct (Hs sl Hsl') as [?|[? Hno]]; [by left|right]. split; [done|].
    intros j n' Hj Hn'. destruct (decide (j = i)) as [->|]; [simplify_eq; done|]. apply (Hno j); [lia|done].
Qed.

Lemma Clear_runs m ns : holds m ns -> runs Clear m (fun _ m' => holds m' []).
Proof.
  intros Hh. pose proof Hh as (Hb & (rest & Ef & _) & Es & _ & Hbits & Hs & _). unfold Clear. apply runs_bind, runs_get, runs_bind.
  rewrite Es. unfold zlen. rewrite Nat2Z.id. change 0 with (Z.of_nat 0).
  eapply runs_mono; [apply (clear_nodes_runs m ns _ 0); [done|done|]|].
  { split_and!; [done| |done|]; [intros j n _ Hn; rewrite Ef; by apply lookup_app_l_Some|].
    intros sl Hsl. right. split; [by apply Hs|]. lia. }
  intros [] m' (_ & _ & Hl & Hs'). apply runs_modify. unfold holds, blocks_ok, flat.
  cbn [buffer slotHead size set_debug set_sizes set_buffer]. split_and!; [constructor|exists []; split; [done|cbn; lia]|done|done| | |done|constructor].
  - destruct Hbits as (bits & ? & E). exists bits. by rewrite Hl.
  - intros sl Hsl. rewrite Hl in Hsl. destruct (Hs' sl Hsl) as [?|[E Hno]]; [done|]. rewrite E. f_equal.
    apply head_of_none. intros j n Hj. by apply (Hno j); [eapply lookup_lt_Some|].
Qed.

Lemma slot_bits_range n i h : 1 <= i -> i <= slot_bits n i h <= i + Z.of_nat n.
Proof.
  revert i. induction n as [|n IH]; intros i Hi; cbn [slot_bits]; [lia|]. case_match; [|lia]. specialize (IH (i + 1)). lia.
Qed.

Lemma slot_bits_30 h : h < 2 ^ 30 -> 1 <= slot_bits 30 1 h <= 30.
Proof.
  intros Hh. split; [apply slot_bits_range; lia|]. change 30%nat with (29 + 1)%nat.
  enough (forall n i, 1 <= i -> i + Z.of_nat n = 30 -> slot_bits (n + 1) i h <= 30) as H by (apply H; lia).
  induction n as [|n IH]; intros i Hi E; cbn [Nat.add slot_bits]; (destruct (Z.ltb_spec (1 ≪ i) h); [|lia]).
  - assert (i = 30) as -> by lia. rewrite Z.shiftl_mul_pow2 in * by lia. lia.
  - apply IH; lia.
Qed.

Lemma New_holds module hashSlots : hashSlots < 2 ^ 30 ->
  exists m, NewU128IDMapNoStats module hashSlots = Some m /\ holds m [].
Proof.
  intros Hh. unfold NewU128IDMapNoStats. change (1 ≪ 30) with (2 ^ 30). destruct (Z.geb_spec hashSlots (2 ^ 30)); [lia|].
  eexists. split; [done|]. pose proof (slot_bits_30 hashSlots Hh) as Hr. unfold holds, blocks_ok, flat.
  cbn [buffer slotHead size]. split_and!; [constructor|exists []; split; [done|cbn; lia]|done|done| | |done|constructor].
  - exists (slot_bits 30 1 hashSlots). split; [done|]. unfold zlen. rewrite length_replicate, Z.shiftl_mul_pow2 by lia.
    pose proof (pow2_pos (slot_bits 30 1 hashSlots) ltac:(lia)). lia.
  - intros sl Hsl. apply lookup_replicate. split; [done|]. unfold zlen in Hsl. rewrite length_replicate in Hsl. lia.
Qed.

(** * Refinement *)

(** The operations; an addition carries the block that the pool would hand out. *)
Inductive idop :=
  | OpAddOrGet (pooled : list u128IDMapNode) (k0 k1 v : Z) (overwrite : bool)
  | OpGet (k0 k1 : Z)
  | OpClear.

Definition idop_ok (op : idop) : Prop :=
  match op with OpAddOrGet pooled _ _ _ _ => length pooled = 256%nat | _ => True end.

(** What the operations return. *)
Definition idop_run (op : idop) : M (option (Z * bool)) :=
  match op with
  | OpAddOrGet pooled k0 k1 v o => r ← AddOrGet pooled k0 k1 v o; mret (Some r)
  | OpGet k0 k1 => r ← Get k0 k1; mret (Some r)
  | OpClear => Clear ;; mret None
  end.

(** The same on a finite map. *)
Definition idop_ref (op : idop) (g : gmap (Z * Z) Z) : option (Z * bool) * gmap (Z * Z) Z :=
  match op with
  | OpAddOrGet _ k0 k1 v o => let '(r, g') := ref_AddOrGet (k0, k1) v o g in (Some r, g')
  | OpGet k0 k1 => (Some match g !! (k0, k1) with Some v => (v, true) | None => (0, false) end, g)
  | OpClear => (None, ∅)
  end.

Fixpoint idops_run (ops : list idop) : M (list (option (Z * bool))) :=
  match ops with
  | [] => mret []
  | op :: ops => r ← idop_run op; rs ← idops_run ops; mret (r :: rs)
  end.

Fixpoint idops_ref (ops : list idop) (g : gmap (Z * Z) Z) : list (option (Z * bool)) :=
  match ops with
  | [] => []
  | op :: ops => (idop_ref op g).1 :: idops_ref ops (idop_ref op g).2
  end.

Lemma contents_size ns : NoDup (keys <$> ns) -> base.size (contents ns) = length ns.
Proof.
  intros Hnd. unfold contents. rewrite map_size_list_to_map; [by rewrite length_fmap|].
  by rewrite <- list_fmap_compose.
Qed.

Lemma holds_size m ns : holds m ns -> Z.of_nat (base.size (contents ns)) = zlen ns.
Proof. intros (_ & _ & _ & _ & _ & _ & _ & Hnd). by rewrite contents_size. Qed.

Lemma ref_AddOrGet_size k v o g : (base.size (ref_AddOrGet k v o g).2 <= base.size g + 1)%nat.
Proof.
  unfold ref_AddOrGet. destruct (g !! k) eqn:E; [destruct o|]; cbn [snd]; rewrite ?map_size_insert, ?E; cbn; lia.
Qed.

Lemma idop_runs op m ns : idop_ok op -> holds m ns -> zlen ns < 2 ^ 31 ->
  runs (idop_run op) m (fun r m' => exists ns', holds m' ns' /\ (r, contents ns') = idop_ref op (contents ns) /\ zlen ns' <= zlen ns + 1).
Proof.
  intros Hop Hh Hlt. destruct op as [pooled k0 k1 v o|k0 k1|]; cbn [idop_run idop_ref]; apply runs_bind.
  - eapply runs_mono; [by apply AddOrGet_runs|]. intros r m' (ns' & Hh' & E). apply runs_ret. exists ns'. split_and!; [done|by rewrite <- E|].
    pose proof (ref_AddOrGet_size (k0, k1) v o (contents ns)) as Hz. rewrite <- E in Hz. cbn [snd] in Hz.
    rewrite <- (holds_size _ _ Hh), <- (holds_size _ _ Hh'). lia.
  - eapply runs_mono; [by apply idGet_runs|]. intros r m' [Hh' ->]. apply runs_ret. exists ns. split_and!; [done|done|lia].
  - eapply runs_mono; [by eapply Clear_runs|]. intros [] m' Hh'. apply runs_ret. exists []. split_and!; [done|done|unfold zlen; cbn; lia].
Qed.

Lemma idops_runs ops m ns : Forall idop_ok ops -> holds m ns -> zlen ns + zlen ops <= 2 ^ 31 ->
  runs (idops_run ops) m (fun rs _ => rs = idops_ref ops (contents ns)).
Proof.
  intros Hops. revert m ns. induction Hops as [|op ops Hop Hops IH]; intros m ns Hh Hn; cbn [idops_run idops_ref]; [done|].
  unfold zlen in Hn. cbn [length] in Hn. apply runs_bind. eapply runs_mono; [apply idop_runs; [done|done|unfold zlen; lia]|].
  intros r m' (ns' & Hh' & E & Hz). rewrite <- E. apply runs_bind. eapply runs_mono; [apply IH; [done|unfold zlen in *; lia]|].
  by intros rs m'' ->.
Qed.

(** C27: the map of identifiers returns, for any sequence of at most [2^31] operations, what
    a finite map returns: the first value of a key, unless it is overwritten, and
    whether it was added.  This holds whatever the keys hash to and whatever is in the
    blocks that the pool hands out, and no operation panics. *)
Theorem idmap_refines module hashSlots ops :
  hashSlots < 2 ^ 30 -> Forall idop_ok ops -> zlen ops <= 2 ^ 31 ->
  exists m m', NewU128IDMapNoStats module hashSlots = Some m /\ idops_run ops m = Some (idops_ref ops ∅, m').
Proof.
  intros Hh Hops Hn. destruct (New_holds module hashSlots Hh) as (m & Em & Hm).
  pose proof (idops_runs ops m [] Hops Hm Hn) as (rs & m' & E & ->)%runs_exists. by exists m, m'.
Qed.

Lemma idmap_refines_witness :
  exists m m', NewU128IDMapNoStats "example" 2 = Some m /\
    let b := replicate 256 blankU128MapNodeForInit in
    let ops := [OpAddOrGet b 1 2 10 false; OpAddOrGet b 3 4 11 false; OpAddOrGet b 5 6 12 false; OpAddOrGet b 1 2 13 false;
                OpAddOrGet b 3 4 14 true; OpGet 3 4; OpGet 7 8; OpClear; OpGet 5 6] in
    idops_run ops m = Some ([Some (10, true); Some (11, true); Some (12, true); Some (10, false); Some (14, false);
                             Some (14, true); Some (0, false); None; Some (0, false)], m').
Proof.
  refine (idmap_refines "example" 2 [OpAddOrGet _ 1 2 10 false; OpAddOrGet _ 3 4 11 false; OpAddOrGet _ 5 6 12 false;
    OpAddOrGet _ 1 2 13 false; OpAddOrGet _ 3 4 14 true; OpGet 3 4; OpGet 7 8; OpClear; OpGet 5 6] _ _ _).
  - done.
  - by repeat constructor.
  - by vm_compute.
Defined.
