(* ===== verification/LabelerMap.v ===== *)
(** The map of identifiers behind the labeler: [U128IDMap] keeps what the labeler relies
    on, and a labeler over it at work on a few services. *)

From stdpp Require Import strings sorting.
From S2P Require Import Prelude Lru IdMap IdMapFacts Strconv LineProto Ckdb Meter Tag TagMini Document Expand Platform PlatformFacts Ranges RangesFacts Labeler LabelerFacts LabelerQueries.

#[local] Open Scope string_scope.
#[local] Open Scope list_scope.
#[local] Open Scope Z_scope.

(** * Maps *)

(** [NewU128IDMap("", GROUP_CACHE_SIZE)]; the pool hands out blank blocks. *)
#[export] Instance U128_IDMap : IDMap (Z * Z) U128IDMap := {|
  NewIDMap := default (mkU128IDMap "" [] [] 0 0 0 (IdMap.mkCounter 0 0 0 0 0) 0 None 0) (NewU128IDMapNoStats "" 65536);
  Labeler.AddOrGet k _ v o := IdMap.AddOrGet (replicate 256 blankU128MapNodeForInit) k.1 k.2 v o
|}.

#[export] Instance U128_laws : IDMapLaws (Z * Z) U128IDMap (fun _ => True) (fun _ => 0).
Proof.
  refine {| idmap_rep c m := exists ns, IdMapFacts.holds c ns /\ IdMapFacts.contents ns = m |}.
  - destruct (New_holds "" 65536) as (m & E & Hm); [done|]. unfold NewIDMap, U128_IDMap. rewrite E. by exists [].
  - intros c m [k0 k1] v (ns & Hh & <-) _ Hsz _. rewrite (holds_size c ns Hh) in Hsz.
    eapply runs_mono; [by apply AddOrGet_runs|]. intros r c' (ns' & Hh' & E). unfold ref_AddOrGet in E. cbn [fst snd] in E.
    destruct (IdMapFacts.contents ns !! (k0, k1)); injection E as -> E; split; [done|by exists ns'|done|by exists ns'].
Qed.

(** A map over slices, in place of the generated ones. *)
Definition slice_IDMap : IDMap (list Z) (gmap (list Z) Z) := {|
  NewIDMap := ∅;
  Labeler.AddOrGet k _ v o := fun g =>
    match g !! k with
    | Some v' => if o : bool then Some ((v, false), <[k := v]> g) else Some ((v', false), g)
    | None => Some ((v, true), <[k := v]> g)
    end
|}.

Lemma slice_laws valid hash : @IDMapLaws (list Z) (gmap (list Z) Z) _ _ slice_IDMap valid hash.
Proof.
  refine (@Build_IDMapLaws _ _ _ _ slice_IDMap valid hash (fun c m => c = m) _ _); [done|].
  intros c m key v -> _ _ _. unfold runs. cbn. by destruct (m !! key).
Qed.

(** * Example *)

#[local] Existing Instance slice_IDMap.
#[local] Existing Instance slice_laws.
#[local] Existing Instance doubling.
#[local] Existing Instance doubling_laws.

#[local] Instance example_NetText : NetText := {|
  ParseIP t := if (t =? "10.2.0.3")%string then Some (v4_prefix ++ [10; 2; 0; 3]) else None;
  ParseCIDR t :=
    if (t =? "10.1.0.0/16")%string then Some (mkIPNet [10; 1; 0; 0] [255; 255; 0; 0])
    else if (t =? "10.2.0.3/32")%string then Some (mkIPNet [10; 2; 0; 3] [255; 255; 255; 255])
    else if (t =? "2001:db8::/32")%string then
      Some (mkIPNet ([32; 1; 13; 184] ++ replicate 12 0) (replicate 4 255 ++ replicate 12 0))
    else None
|}.

#[local] Instance example_NetPrint : NetPrint := {| IPNet_String _ := "10.2.0.3/32" |}.

#[local] Instance example_NetLaws : NetTextLaws.
Proof.
  split; cbn.
  - intros t ip. case_match; [|done]. intros [= <-]. split; [done|by repeat constructor].
  - intros t n. repeat case_match; intros E; try done; injection E as <-; [left|left|by right].
    + split_and!; [done|by repeat constructor|]. by exists 16.
    + split_and!; [done|by repeat constructor|]. by exists 32.
Qed.




