(* ===== verification/Drop.v ===== *)
(** The detection of lost packets of [server/libs/cache/drop_detection.go]: for every
    agent a window over the sequence numbers, as a ring of marks for those that came. *)

From stdpp Require Import strings.
From S2P Require Import Prelude.

#[local] Open Scope list_scope.
#[local] Open Scope Z_scope.

Record Instance := mkInstance {
  seq : Z;
  maxTimestamp : Z;
  cache : list bool;
  cacheStartIndex : Z
}.

Record DropCounter := mkDropCounter { Dropped : Z; Disorder : Z; DisorderSize : Z }.

Record DropDetection := mkDropDetection {
  name : string;
  windowSize : Z;
  instances : gmap Z Instance;
  counter : DropCounter
}.

Definition Init (name : string) (windowSize : Z) : DropDetection :=
  mkDropDetection name windowSize ∅ (mkDropCounter 0 0 0).

Definition GetCounter (d : DropDetection) : DropCounter * DropDetection :=
  (counter d, mkDropDetection (name d) (windowSize d) (instances d) (mkDropCounter 0 0 0)).

Definition findAndAdd (d : DropDetection) (id : Z) : Instance :=
  match instances d !! id with
  | Some instance => instance
  | None => mkInstance 0 0 (replicate (Z.to_nat (windowSize d)) false) 0
  end.

Definition set_seq (x : Instance) (s : Z) : Instance := mkInstance s (maxTimestamp x) (cache x) (cacheStartIndex x).

(** Indexing panics outside of the slice. *)
Definition mark (c : list bool) (i : Z) : option bool := if i <? 0 then None else c !! Z.to_nat i.

(** The window moves by one: its first mark is cleared. *)
Definition slide (w : Z) (x : Instance) : Instance :=
  mkInstance (u64 (seq x + 1)) (maxTimestamp x) (<[Z.to_nat (cacheStartIndex x) := false]> (cache x))
    (Z.land (u64 (cacheStartIndex x + 1)) (w - 1)).

(** The first loop: makes room for the number, at most a window of steps. *)
Fixpoint flush_loop (n : nat) (w : Z) (x : Instance) (offset dropped : Z) : option (Instance * Z * Z) :=
  match n with
  | O => Some (x, offset, dropped)
  | S n =>
      if offset >=? w then
        b ← mark (cache x) (cacheStartIndex x);
        flush_loop n w (slide w x) (u64 (offset - 1)) (if negb b then u64 (dropped + 1) else dropped)
      else Some (x, offset, dropped)
  end.

(** A gap that is wider than the window. *)
Definition skip_gap (w : Z) (x : Instance) (offset dropped : Z) : Instance * Z * Z :=
  if offset >=? w then
    let gap := u64 (u64 (offset - w) + 1) in
    (mkInstance (u64 (seq x + gap)) (maxTimestamp x) (cache x) (Z.land (u64 (cacheStartIndex x + gap)) (w - 1)),
     u64 (offset - gap), u64 (dropped + gap))
  else (x, offset, dropped).

(** The loop back from the new mark to the one before it, which only reads.  [None] when
    it does not end within a window, or panics. *)
Fixpoint back_loop (n : nat) (w : Z) (x : Instance) (i : Z) : option unit :=
  if i =? cacheStartIndex x then Some ()
  else
    match n with
    | O => None
    | S n =>
        let i := Z.land (u64 (i - 1)) (w - 1) in
        b ← mark (cache x) i;
        if b : bool then Some () else back_loop n w x i
    end.

(** The last loop: moves past the numbers that came. *)
Fixpoint advance_loop (n : nat) (w : Z) (x : Instance) : option Instance :=
  match n with
  | O => Some x
  | S n =>
      b ← mark (cache x) (cacheStartIndex x);
      if b : bool then advance_loop n w (slide w x) else Some x
  end.

(** A number that is in the window or above it. *)
Definition accept (w : Z) (x : Instance) (s timestamp : Z) : option (Instance * Z) :=
  let x := mkInstance (seq x) (if timestamp >? maxTimestamp x then timestamp else maxTimestamp x)
             (cache x) (cacheStartIndex x) in
  r ← flush_loop (Z.to_nat w) w x (u64 (s - seq x)) 0;
  let '(x, offset, dropped) := r in
  let '(x, offset, dropped) := skip_gap w x offset dropped in
  let current := Z.land (u64 (cacheStartIndex x + offset)) (w - 1) in
  mark (cache x) current;;
  let x := mkInstance (seq x) (maxTimestamp x) (<[Z.to_nat current := true]> (cache x)) (cacheStartIndex x) in
  back_loop (Z.to_nat w) w x current;;
  x ← advance_loop (Z.to_nat w) w x;
  Some (x, dropped).

(** An agent that was restarted: the window starts anew. *)
Definition restart (w : Z) (x : Instance) (s : Z) : Instance :=
  mkInstance (if s >? w then s - w else 1) (maxTimestamp x) (map (fun _ => false) (cache x)) 0.

Definition Detect (id s timestamp : Z) (d : DropDetection) : option DropDetection :=
  let w := windowSize d in
  let c := counter d in
  let x := findAndAdd d id in
  let x := if (seq x =? 0) || (s =? 1) then set_seq x s else x in
  let store x c := mkDropDetection (name d) w (<[id := x]> (instances d)) c in
  if (s <? seq x) && negb (timestamp >? maxTimestamp x) then
    let disorderSize := u64 (seq x - s) in
    Some (store x (mkDropCounter (Dropped c) (u64 (Disorder c + 1))
                     (if disorderSize >? DisorderSize c then disorderSize else DisorderSize c)))
  else
    let x := if s <? seq x then restart w x s else x in
    r ← accept w x s timestamp;
    Some (store r.1 (mkDropCounter (u64 (Dropped c + r.2)) (Disorder c) (DisorderSize c))).
