(* ===== verification/DropFacts.v ===== *)
(** The detection of lost packets counts exactly the sequence numbers that the window
    passed without them. *)

From stdpp Require Import strings.
From S2P Require Import Prelude Drop.

#[local] Open Scope list_scope.
#[local] Open Scope Z_scope.

(** * Counting *)

(** The numbers of [[a, b)] that are not in a set. *)
Definition missing (a b : Z) (A : gset Z) : Z := zlen (filter (fun y => y ∉ A) (seqZ a (b - a))).

Lemma missing_empty a A : missing a a A = 0.
Proof. unfold missing. by rewrite Z.sub_diag. Qed.

Lemma missing_step a b A : a < b -> missing a b A = (if decide (a ∈ A) then 0 else 1) + missing (a + 1) b A.
Proof.
  intros H. unfold missing. rewrite seqZ_cons by lia. replace (Z.pred (b - a)) with (b - (a + 1)) by lia.
  replace (Z.succ a) with (a + 1) by lia. rewrite filter_cons. destruct (decide (a ∈ A)).
  - rewrite decide_False by tauto. lia.
  - rewrite decide_True by done. unfold zlen. cbn. lia.
Qed.

Lemma missing_app a b c A : a <= b <= c -> missing a c A = missing a b A + missing b c A.
Proof.
  intros H. unfold missing.
  replace (c - a) with ((b - a) + (c - b)) by lia. rewrite seqZ_app by lia. rewrite filter_app, zlen_app.
  by replace (a + (b - a)) with b by lia.
Qed.

Lemma missing_ext a b A B : (forall y, a <= y < b -> y ∈ A <-> y ∈ B) -> missing a b A = missing a b B.
Proof.
  intros H. unfold missing. f_equal. assert (Forall (fun y => a <= y < b) (seqZ a (b - a))) as Hf.
  { apply Forall_forall. intros y Hy%elem_of_seqZ. lia. }
  induction Hf as [|y l Hy _ IH]; [done|]. rewrite !filter_cons, IH. specialize (H y Hy).
  destruct (decide (y ∉ A)), (decide (y ∉ B)); tauto.
Qed.

Lemma missing_const a b A (c : bool) : a <= b -> (forall y, a <= y < b -> bool_decide (y ∈ A) = c) ->
  missing a b A = if c then 0 else b - a.
Proof.
  intros Hab. remember (Z.to_nat (b - a)) as n eqn:E. revert a Hab E. induction n as [|n IH]; intros a Hab E H.
  - assert (b = a) as -> by lia. rewrite missing_empty. destruct c; lia.
  - rewrite missing_step, IH by (lia || (intros; apply H; lia)). specialize (H a ltac:(lia)).
    destruct (decide (a ∈ A)) as [Hin|Hin]; [rewrite bool_decide_eq_true_2 in H by done|rewrite bool_decide_eq_false_2 in H by done]; subst c; lia.
Qed.

Lemma missing_all a b A : a <= b -> (forall y, a <= y < b -> y ∉ A) -> missing a b A = b - a.
Proof. intros Hab H. apply (missing_const a b A false Hab). intros y Hy. by apply bool_decide_eq_false_2, H. Qed.

Lemma missing_none a b A : a <= b -> (forall y, a <= y < b -> y ∈ A) -> missing a b A = 0.
Proof. intros Hab H. apply (missing_const a b A true Hab). intros y Hy. by apply bool_decide_eq_true_2, H. Qed.

(** * The window *)

Section Window.
Variables (k w : Z).
Hypothesis Hk : 0 <= k < 63.
Hypothesis Hw : w = 2 ^ k.

Lemma w_pos : 0 < w < 2 ^ 63.
Proof. rewrite Hw. split; [apply pow2_pos; lia|apply Z.pow_lt_mono_r; lia]. Qed.

Lemma land_w a : Z.land a (w - 1) = a mod w.
Proof. rewrite Hw. replace (2 ^ k - 1) with (Z.ones k) by (rewrite Z.ones_equiv; lia). apply Z.land_ones. lia. Qed.

Lemma wrap_mod a : u64 a mod w = a mod w.
Proof.
  unfold wrap. rewrite Hw. replace (2 ^ 64) with (2 ^ k * 2 ^ (64 - k)) by (rewrite <- Z.pow_add_r; [f_equal|..]; lia).
  pose proof (pow2_pos k ltac:(lia)). pose proof (pow2_pos (64 - k) ltac:(lia)).
  rewrite Z.rem_mul_r, Z.mul_comm, Z.mod_add, Z.mod_mod by lia. done.
Qed.

(** The marks are those of the numbers that came. *)
Definition window (x : Instance) (A : gset Z) : Prop :=
  zlen (cache x) = w /\ 0 <= cacheStartIndex x < w /\ 0 <= seq x < 2 ^ 64 /\
  forall j, 0 <= j < w -> cache x !! Z.to_nat ((cacheStartIndex x + j) mod w) = Some (bool_decide (seq x + j ∈ A)).

Lemma mod_inj a b i : 0 <= a < w -> 0 <= b < w -> (i + a) mod w = (i + b) mod w -> a = b.
Proof.
  pose proof w_pos. intros Ha Hb E. assert ((i + a - (i + b)) mod w = 0) as E0 by (rewrite Zminus_mod, E, Z.sub_diag; apply Z.mod_0_l; lia).
  replace (i + a - (i + b)) with (a - b) in E0 by lia. apply Z.mod_divide in E0 as [q E0]; [|lia].
  clear -Ha Hb E0. assert (q = 0) by nia. nia.
Qed.

Lemma window_mark x A : window x A -> mark (cache x) (cacheStartIndex x) = Some (bool_decide (seq x ∈ A)).
Proof.
  intros (Hl & Hi & Hs & Hm). unfold mark. rewrite (proj2 (Z.ltb_ge _ 0)) by lia. specialize (Hm 0 ltac:(lia)).
  by rewrite !Z.add_0_r, Z.mod_small in Hm by lia.
Qed.

Lemma window_set x A j b : window x A -> 0 <= j < w -> forall j', 0 <= j' < w ->
  <[Z.to_nat ((cacheStartIndex x + j) mod w) := b]> (cache x) !! Z.to_nat ((cacheStartIndex x + j') mod w) =
    Some (if decide (j' = j) then b else bool_decide (seq x + j' ∈ A)).
Proof.
  pose proof w_pos. intros (Hl & Hi & Hs & Hm) Hj j' Hj'.
  pose proof (Z.mod_pos_bound (cacheStartIndex x + j) w ltac:(lia)). pose proof (Z.mod_pos_bound (cacheStartIndex x + j') w ltac:(lia)).
  destruct (decide (j' = j)) as [->|Hne].
  - apply list_lookup_insert_eq. unfold zlen in Hl. lia.
  - rewrite list_lookup_insert_ne; [by apply Hm|]. intros E. apply Hne. apply (mod_inj _ _ (cacheStartIndex x)); [done|done|]. lia.
Qed.

Lemma slide_window x A : window x A -> seq x + 1 < 2 ^ 64 -> seq x + w ∉ A ->
  window (slide w x) A /\ seq (slide w x) = seq x + 1 /\ maxTimestamp (slide w x) = maxTimestamp x.
Proof.
  pose proof w_pos as Hwp. intros Hx Hs Hn. pose proof Hx as (Hl & Hi & Hs0 & Hm). unfold slide. cbn.
  rewrite (wrap_small 64 (seq x + 1)) by (unfold is_u; lia). split; [|done]. unfold window. cbn. rewrite land_w, wrap_mod.
  pose proof (Z.mod_pos_bound (cacheStartIndex x + 1) w ltac:(lia)). split_and!; [|lia|lia|lia|lia|].
  - unfold zlen in *. by rewrite length_insert.
  - intros j Hj. rewrite Z.add_mod_idemp_l by lia. replace (cacheStartIndex x + 1 + j) with (cacheStartIndex x + (1 + j)) by lia.
    pose proof (window_set x A 0 false Hx ltac:(lia)) as Hset. rewrite Z.add_0_r, (Z.mod_small (cacheStartIndex x)) in Hset by lia.
    destruct (decide (1 + j = w)) as [E|Hne].
    + rewrite E. replace (cacheStartIndex x + w) with (cacheStartIndex x + 1 * w) by lia. rewrite Z.mod_add by lia.
      specialize (Hset 0 ltac:(lia)). rewrite Z.add_0_r in Hset. rewrite Hset, decide_True by done.
      rewrite bool_decide_eq_false_2; [done|]. by replace (seq x + 1 + j) with (seq x + w) by lia.
    + rewrite Hset by lia. rewrite decide_False by lia. by replace (seq x + 1 + j) with (seq x + (1 + j)) by lia.
Qed.

(** No mark is above the window. *)
Definition below (x : Instance) (A : gset Z) : Prop := forall y, y ∈ A -> y < seq x + w.

Lemma wrap_plus a b : u64 (u64 a + b) = u64 (a + b).
Proof. unfold wrap. by rewrite Z.add_mod_idemp_l. Qed.

Lemma flush_spec s n x A dropped : window x A -> below x A -> seq x <= s < 2 ^ 64 - 1 -> is_u 64 dropped ->
  exists x', flush_loop n w x (s - seq x) dropped = Some (x', s - seq x', u64 (dropped + missing (seq x) (seq x') A)) /\
    window x' A /\ seq x' = seq x + Z.max 0 (Z.min (Z.of_nat n) (s - w + 1 - seq x)) /\ maxTimestamp x' = maxTimestamp x.
Proof.
  pose proof w_pos as Hwp. revert x dropped. induction n as [|n IH]; intros x dropped Hx Hb Hs Hd; cbn [flush_loop].
  { exists x. rewrite missing_empty, Z.add_0_r, wrap_small by done. split_and!; [done|done|lia|done]. }
  destruct (Z.geb_spec (s - seq x) w) as [Hge|].
  2: { exists x. rewrite missing_empty, Z.add_0_r, wrap_small by done. split_and!; [done|done|lia|done]. }
  rewrite (window_mark x A Hx). cbn [mbind option_bind].
  destruct (slide_window x A Hx) as (Hx1 & Es & Et); [lia|intros Hy%Hb; lia|].
  assert (below (slide w x) A) as Hb1 by (intros y Hy%Hb; lia).
  pose proof Hx as (_ & _ & Hs0 & _). rewrite (wrap_small 64 (s - seq x - 1)) by (unfold is_u; lia).
  replace (s - seq x - 1) with (s - seq (slide w x)) by lia.
  set (d := if negb (bool_decide (seq x ∈ A)) then u64 (dropped + 1) else dropped).
  assert (d = u64 (dropped + (if decide (seq x ∈ A) then 0 else 1))) as Ed.
  { unfold d. destruct (decide (seq x ∈ A)); [rewrite bool_decide_eq_true_2 by done|by rewrite bool_decide_eq_false_2 by done].
    cbn [negb]. by rewrite Z.add_0_r, wrap_small. }
  destruct (IH (slide w x) d Hx1 Hb1 ltac:(lia)) as (x' & E & Hx' & Es' & Et'); [rewrite Ed; apply wrap_range; lia|].
  exists x'. rewrite E. split_and!; [|done|lia|congruence]. f_equal. f_equal.
  rewrite Ed, wrap_plus, Es, (missing_step (seq x)) by lia. f_equal. lia.
Qed.

(** Room for a number: the window moves up, and what it passes is counted. *)
Lemma room_spec s x A : window x A -> below x A -> seq x <= s < 2 ^ 64 - 1 ->
  exists x1 o d x', flush_loop (Z.to_nat w) w x (s - seq x) 0 = Some (x1, o, d) /\
    skip_gap w x1 o d = (x', s - seq x', u64 (missing (seq x) (seq x') A)) /\
    window x' A /\ seq x' = Z.max (seq x) (s - w + 1) /\ maxTimestamp x' = maxTimestamp x.
Proof.
  pose proof w_pos as Hwp. intros Hx Hb Hs.
  destruct (flush_spec s (Z.to_nat w) x A 0 Hx Hb Hs) as (x1 & E & Hx1 & Es & Et); [done|]. rewrite Z.add_0_l in E.
  exists x1, (s - seq x1), (u64 (missing (seq x) (seq x1) A)). unfold skip_gap.
  destruct (Z.geb_spec (s - seq x1) w) as [Hge|]; [|exists x1; split_and!; [done|done|done|lia|done]].
  pose proof Hx1 as (Hl & Hi & Hs0 & Hm). set (gap := u64 (u64 (s - seq x1 - w) + 1)).
  assert (gap = s - seq x1 - w + 1) as Eg by (unfold gap; rewrite wrap_plus, wrap_small; [lia|unfold is_u; lia]). clearbody gap.
  assert (forall y, y ∈ A -> y < seq x1) as Hlow by (intros y Hy%Hb; lia).
  rewrite (wrap_small 64 (seq x1 + gap)) by (unfold is_u; lia). exists (mkInstance (seq x1 + gap) (maxTimestamp x1) (cache x1) (Z.land (u64 (cacheStartIndex x1 + gap)) (w - 1))).
  split; [done|]. split; [|split; [|split; [cbn [seq]; lia|done]]].
  - cbn [seq]. rewrite (wrap_small 64 (s - seq x1 - gap)) by (unfold is_u; lia). f_equal; [f_equal; lia|]. rewrite wrap_plus.
    rewrite (missing_app (seq x) (seq x1) (seq x1 + gap)) by lia. f_equal. f_equal.
    rewrite missing_all; [lia|lia|]. intros y Hy Hin%Hlow. lia.
  - unfold window. cbn. rewrite land_w. pose proof (Z.mod_pos_bound (u64 (cacheStartIndex x1 + gap)) w ltac:(lia)).
    split_and!; [done|lia|lia|lia|lia|]. intros j Hj. rewrite wrap_mod, Z.add_mod_idemp_l by lia.
    rewrite bool_decide_eq_false_2 by (intros Hin%Hlow; lia).
    replace (cacheStartIndex x1 + gap + j) with (cacheStartIndex x1 + (gap + j)) by lia. rewrite <- Z.add_mod_idemp_r by lia.
    rewrite Hm by (apply Z.mod_pos_bound; lia). rewrite bool_decide_eq_false_2; [done|].
    intros Hin%Hlow. pose proof (Z.mod_pos_bound (gap + j) w ltac:(lia)). lia.
Qed.

(** What keeps indexes in range, whatever the marks are. *)
Definition shape (x : Instance) : Prop := zlen (cache x) = w /\ 0 <= cacheStartIndex x < w.

Lemma back_ends x n i : shape x -> 0 <= i < w -> (i - cacheStartIndex x) mod w <= Z.of_nat n ->
  back_loop n w x i = Some ().
Proof.
  pose proof w_pos as Hwp. intros [Hl Hi]. revert i. induction n as [|n IH]; intros i Hi' Hn; cbn [back_loop].
  - assert (i = cacheStartIndex x) as ->; [|by rewrite Z.eqb_refl].
    pose proof (Z.mod_pos_bound (i - cacheStartIndex x) w ltac:(lia)).
    apply (mod_inj _ _ (- cacheStartIndex x)); [done|done|]. rewrite !(Z.add_comm (- _)), !Z.add_opp_r, Z.sub_diag, Z.mod_0_l; lia.
  - destruct (Z.eqb_spec i (cacheStartIndex x)); [done|]. rewrite land_w, wrap_mod.
    pose proof (Z.mod_pos_bound (i - 1) w ltac:(lia)) as Hr. unfold mark. rewrite (proj2 (Z.ltb_ge _ 0)) by lia.
    destruct (lookup_lt_is_Some_2 (cache x) (Z.to_nat ((i - 1) mod w))) as [b ->]; [unfold zlen in Hl; lia|].
    cbn [mbind option_bind]. destruct b; [done|]. apply IH; [done|]. rewrite Zminus_mod_idemp_l.
    destruct (decide (i < cacheStartIndex x)).
    + replace ((i - 1 - cacheStartIndex x) mod w) with (i - 1 - cacheStartIndex x + w) by (apply (Z.mod_unique _ _ (-1)); lia).
      replace ((i - cacheStartIndex x) mod w) with (i - cacheStartIndex x + w) in Hn by (apply (Z.mod_unique _ _ (-1)); lia). lia.
    + rewrite Z.mod_small in Hn |- * by lia. lia.
Qed.

Lemma advance_spec n x A : window x A -> below x A -> (forall y, y ∈ A -> y < 2 ^ 64 - 1) ->
  exists x', advance_loop n w x = Some x' /\ window x' A /\ maxTimestamp x' = maxTimestamp x /\
    seq x <= seq x' <= seq x + Z.of_nat n /\ (forall y, seq x <= y < seq x' -> y ∈ A) /\
    (seq x' ∉ A \/ seq x' = seq x + Z.of_nat n).
Proof.
  revert x. induction n as [|n IH]; intros x Hx Hb Hy; cbn [advance_loop].
  { exists x. split_and!; [done|done|done|lia|lia|lia|right; lia]. }
  rewrite (window_mark x A Hx). cbn [mbind option_bind]. case_bool_decide as Hin.
  2: { exists x. split_and!; [done|done|done|lia|lia|lia|by left]. }
  destruct (slide_window x A Hx) as (Hx1 & Es & Et); [specialize (Hy _ Hin); lia|intros H%Hb; lia|].
  destruct (IH (slide w x) Hx1) as (x' & E & Hx' & Et' & Hs' & Hall & Hend); [intros y H%Hb; lia|done|].
  exists x'. split_and!; [done|done|congruence|lia|lia| |destruct Hend; [by left|right; lia]].
  intros y Hy'. destruct (decide (y = seq x)) as [->|]; [done|]. apply Hall. lia.
Qed.

(** * Accepting a number *)

Lemma accept_spec s t x A : window x A -> below x A -> (forall y, y ∈ A -> y < 2 ^ 64 - 1) -> seq x <= s < 2 ^ 64 - 1 ->
  exists x', accept w x s t = Some (x', u64 (missing (seq x) (seq x') ({[s]} ∪ A))) /\
    window x' ({[s]} ∪ A) /\ below x' ({[s]} ∪ A) /\ seq x <= seq x' /\ seq x' ∉ ({[s]} ∪ A : gset Z) /\
    (forall y, seq x <= y < seq x' -> y ∈ ({[s]} ∪ A : gset Z) \/ y + w <= s) /\ maxTimestamp x' = Z.max (maxTimestamp x) t.
Proof.
  pose proof w_pos as Hwp. intros Hx Hb Ht Hs. unfold accept. set (x0 := mkInstance _ _ _ _).
  assert (maxTimestamp x0 = Z.max (maxTimestamp x) t) as Et0 by (cbn; destruct (Z.gtb_spec t (maxTimestamp x)); lia).
  pose proof Hx as (_ & _ & Hs0 & _). change (seq x) with (seq x0). rewrite (wrap_small 64 (s - seq x0)) by (unfold is_u; cbn; lia).
  destruct (room_spec s x0 A Hx Hb Hs) as (x1 & o & d & x2 & E1 & E2 & Hx2 & Es2 & Et2). rewrite E1. cbn [mbind option_bind].
  rewrite E2, land_w, wrap_mod. set (cur := (cacheStartIndex x2 + (s - seq x2)) mod w).
  pose proof Hx2 as (Hl & Hi & Hs2 & Hm). assert (0 <= cur < w) as Hc by (apply Z.mod_pos_bound; lia).
  unfold mark. rewrite (proj2 (Z.ltb_ge cur 0)) by lia.
  assert (0 <= s - seq x2 < w) as Hoff by (cbn [seq x0] in Es2; lia).
  assert (cache x2 !! Z.to_nat cur = Some (bool_decide (seq x2 + (s - seq x2) ∈ A))) as -> by (apply Hm; lia). cbn [mbind option_bind].
  set (x3 := mkInstance _ _ _ _). set (A' := {[s]} ∪ A : gset Z).
  assert (window x3 A') as Hx3.
  { unfold window. cbn. split_and!; [unfold zlen in *; by rewrite length_insert|lia|lia|lia|lia|]. intros j Hj.
    unfold cur. rewrite (window_set x2 A _ true Hx2 Hoff j Hj). f_equal. unfold A'. case_decide.
    - symmetry. apply bool_decide_eq_true_2. subst j. set_solver by lia.
    - apply bool_decide_ext. rewrite elem_of_union, elem_of_singleton. lia || (split; [tauto|]; intros [E|?]; [lia|done]). }
  assert (below x3 A') as Hb3 by (intros y; unfold A'; rewrite elem_of_union, elem_of_singleton; cbn; intros [->|Hy%Hb]; cbn [seq x0] in Es2; lia).
  pose proof (Z.mod_pos_bound (cur - cacheStartIndex x3) w ltac:(lia)).
  rewrite (back_ends x3 (Z.to_nat w) cur (conj (proj1 Hx3) (proj1 (proj2 Hx3))) Hc) by lia. cbn [mbind option_bind].
  destruct (advance_spec (Z.to_nat w) x3 A' Hx3 Hb3) as (x' & E3 & Hx' & Et' & Hs' & Hall & Hend).
  { intros y. unfold A'. rewrite elem_of_union, elem_of_singleton. intros [->|Hy%Ht]; lia. }
  rewrite E3. cbn [mbind option_bind]. exists x'. cbn [seq x3 x0] in *.
  assert (seq x' ∉ A') as Hno by (destruct Hend as [?|E]; [done|intros Hin%Hb3; cbn in Hin; lia]).
  split_and!; [|done|intros y Hy%Hb3; cbn in Hy; lia|lia|done| |by rewrite Et', <- Et0, <- Et2].
  - f_equal. f_equal. f_equal. rewrite (missing_app (seq x) (seq x2) (seq x')), (missing_none (seq x2)) by (lia || done).
    rewrite Z.add_0_r. apply missing_ext. intros y Hy. unfold A'. rewrite elem_of_union, elem_of_singleton. split; [tauto|].
    intros [->|?]; [lia|done].
  - intros y Hy. destruct (decide (y < seq x2)); [right; lia|left]. apply Hall. lia.
Qed.
(** * Any numbers *)

Lemma mark_shape x i : shape x -> 0 <= i < w -> exists b, mark (cache x) i = Some b.
Proof.
  intros [Hl _] Hi. unfold mark. rewrite (proj2 (Z.ltb_ge i 0)) by lia.
  apply lookup_lt_is_Some_2. unfold zlen in Hl. lia.
Qed.

Lemma slide_shape x : shape x -> shape (slide w x).
Proof.
  pose proof w_pos. intros [Hl Hi]. unfold slide, shape. cbn. rewrite land_w. split; [|apply Z.mod_pos_bound; lia].
  unfold zlen in *. by rewrite length_insert.
Qed.

Lemma flush_shape n x offset dropped : shape x ->
  exists x' o d, flush_loop n w x offset dropped = Some (x', o, d) /\ shape x'.
Proof.
  revert x offset dropped. induction n as [|n IH]; intros x offset dropped Hx; cbn [flush_loop]; [eauto|].
  case_match; [|eauto]. destruct (mark_shape x (cacheStartIndex x) Hx (proj2 Hx)) as [b ->].
  cbn [mbind option_bind]. by apply IH, slide_shape.
Qed.

Lemma advance_shape n x : shape x -> exists x', advance_loop n w x = Some x' /\ shape x'.
Proof.
  revert x. induction n as [|n IH]; intros x Hx; cbn [advance_loop]; [eauto|].
  destruct (mark_shape x (cacheStartIndex x) Hx (proj2 Hx)) as [[] ->]; cbn [mbind option_bind]; [|eauto].
  by apply IH, slide_shape.
Qed.

Lemma accept_shape x s t : shape x -> exists x' d, accept w x s t = Some (x', d) /\ shape x'.
Proof.
  pose proof w_pos. intros Hx. unfold accept. set (x0 := mkInstance _ _ _ _). assert (shape x0) as H0 by done.
  destruct (flush_shape (Z.to_nat w) x0 (u64 (s - seq x0)) 0 H0) as (x1 & o & d & E & H1). rewrite E. cbn [mbind option_bind].
  assert (shape (skip_gap w x1 o d).1.1) as H2.
  { unfold skip_gap. case_match; [|done]. split; [apply H1|]. cbn. rewrite land_w. apply Z.mod_pos_bound. lia. }
  destruct (skip_gap w x1 o d) as [[x2 o2] d2]. cbn [fst] in H2. rewrite land_w.
  set (cur := u64 (cacheStartIndex x2 + o2) mod w). assert (0 <= cur < w) as Hc by (apply Z.mod_pos_bound; lia).
  destruct (mark_shape x2 cur H2 Hc) as [b ->]. cbn [mbind option_bind].
  set (x3 := mkInstance _ _ _ _). assert (shape x3) as H3 by (destruct H2; split; [unfold zlen in *; cbn; by rewrite length_insert|done]).
  pose proof (Z.mod_pos_bound (cur - cacheStartIndex x3) w ltac:(lia)). rewrite back_ends by (done || lia). cbn [mbind option_bind].
  destruct (advance_shape (Z.to_nat w) x3 H3) as (x4 & -> & Hx4). cbn [mbind option_bind]. eauto.
Qed.

(** All windows are well formed. *)
Definition drops_ok (d : DropDetection) : Prop := windowSize d = w /\ map_Forall (fun _ => shape) (instances d).

Lemma Init_ok name : drops_ok (Init name w).
Proof. split; [done|]. apply map_Forall_empty. Qed.

Lemma Detect_ok id s t d : drops_ok d -> exists d', Detect id s t d = Some d' /\ drops_ok d'.
Proof.
  pose proof w_pos. intros [Ew Hd]. unfold Detect. rewrite Ew.
  assert (shape (findAndAdd d id)) as Hx.
  { unfold findAndAdd. destruct (instances d !! id) as [x|] eqn:E; [by apply (Hd id)|]. rewrite Ew.
    split; [unfold zlen; cbn; rewrite length_replicate; lia|cbn; lia]. }
  set (x := if (seq (findAndAdd d id) =? 0) || (s =? 1) then _ else _).
  assert (shape x) as Hx' by (unfold x; by case_match). clearbody x. clear Hx.
  case_match. { eexists. split; [done|]. split; [done|]. by apply map_Forall_insert_2. }
  set (y := if s <? seq x then _ else _). assert (shape y) as Hy.
  { unfold y. case_match; [|done]. destruct Hx'. split; [unfold zlen in *; cbn; by rewrite length_map|cbn; lia]. }
  destruct (accept_shape y s t Hy) as (x' & n & -> & Hn). cbn [mbind option_bind].
  eexists. split; [done|]. split; [done|]. by apply map_Forall_insert_2.
Qed.
End Window.

(** * What the counters mean *)

(** Every number below the base came, or one came that is a window or more above it. *)
Definition is_base (w f : Z) (A : gset Z) (b : Z) : Prop :=
  f <= b /\ (forall y, y ∈ A -> y < b + w) /\ b ∉ A /\
  forall y, f <= y < b -> y ∈ A \/ exists z, z ∈ A /\ y + w <= z.

(** The base, computed: the first number missing from the lowest one that the highest
    one left in the window. *)
Definition highest (A : gset Z) : Z := foldr Z.max 0 (elements A).

Fixpoint gap_from (n : nat) (A : gset Z) (b : Z) : Z :=
  match n with
  | O => b
  | S n => if decide (b ∈ A) then gap_from n A (b + 1) else b
  end.

Definition base_of (w f : Z) (A : gset Z) : Z := gap_from (base.size A) A (Z.max f (highest A - w + 1)).

Lemma highest_spec A : 0 <= highest A /\ (forall y, y ∈ A -> y <= highest A) /\ (highest A = 0 \/ highest A ∈ A).
Proof.
  unfold highest. setoid_rewrite <- elem_of_elements. induction (elements A) as [|x l (IH0 & IH1 & IH2)]; cbn.
  - split_and!; [lia|set_solver|by left].
  - split_and!; [lia| |].
    + intros y [->|Hy%IH1]%elem_of_cons; lia.
    + destruct (Z.max_spec x (foldr Z.max 0 l)) as [[_ ->]|[Hle ->]]; [|right; by left].
      destruct IH2; [by left|right; by right].
Qed.

Lemma gap_from_spec n A a b : a <= b -> b - a <= Z.of_nat n -> b ∉ A -> (forall y, a <= y < b -> y ∈ A) -> gap_from n A a = b.
Proof.
  revert a. induction n as [|n IH]; intros a Hab Hn Hb Hall; cbn [gap_from]; [lia|].
  destruct (decide (a = b)) as [->|Hne]; [by rewrite decide_False|]. rewrite decide_True by (apply Hall; lia).
  apply IH; [lia|lia|done|]. intros y Hy. apply Hall. lia.
Qed.

Lemma base_of_unique w f A b : 0 < w -> 0 <= b -> is_base w f A b -> base_of w f A = b.
Proof.
  intros Hw H0 (Hf & Hb & Hno & Hall). destruct (highest_spec A) as (Hh0 & Hh & Hmem). unfold base_of.
  assert (highest A < b + w) as Hlt by (destruct Hmem as [->|?%Hb]; lia).
  assert (forall y, Z.max f (highest A - w + 1) <= y < b -> y ∈ A) as Hin.
  { intros y Hy. destruct (Hall y ltac:(lia)) as [?|(z & Hz%Hh & Hle)]; [done|lia]. }
  apply gap_from_spec; [lia| |done|done].
  set (a := Z.max f (highest A - w + 1)) in *. assert (list_to_set (seqZ a (b - a)) ⊆ A) as Hsub.
  { intros y [Hy1 Hy2]%elem_of_list_to_set%elem_of_seqZ. apply Hin. lia. }
  apply subseteq_size in Hsub. rewrite size_list_to_set, length_seqZ in Hsub by apply NoDup_seqZ. lia.
Qed.

(** The arrivals of an agent: since the first number of its run, those that came, the
    newest time, the numbers lost in earlier runs, and those that came too late. *)
Record arrivals := mkArrivals { first : Z; came : gset Z; newest : Z; lost : Z; late : Z }.

Definition base (w : Z) (r : arrivals) : Z := base_of w (first r) (came r).

Definition lost_now (w : Z) (r : arrivals) : Z := lost r + missing (first r) (base w r) (came r).

(** The numbers of the window that came, as numbers of a window that begins at one. *)
Definition carried (w : Z) (r : arrivals) : gset Z :=
  set_map (fun y => y - base w r + 1) (filter (fun y => base w r <= y) (came r)).

(** A number arrives.  Number one begins a run, with the marks of the window before; so does a
    number below the window with a newer time, whose window begins a window below it. *)
Definition arrive (w : Z) (r : arrivals) (a : Z * Z) : arrivals :=
  let '(s, t) := a in
  if s =? 1 then mkArrivals 1 ({[1]} ∪ carried w r) (Z.max (newest r) t) (lost_now w r) (late r)
  else if s <? base w r then
    if t >? newest r then mkArrivals (Z.max (s - w) 1) {[s]} t (lost_now w r) (late r)
    else mkArrivals (first r) (came r) (newest r) (lost r) (late r + 1)
  else mkArrivals (first r) ({[s]} ∪ came r) (Z.max (newest r) t) (lost r) (late r).

Fixpoint detect_all (id : Z) (l : list (Z * Z)) (d : DropDetection) : option DropDetection :=
  match l with
  | [] => Some d
  | (s, t) :: l => d ← Detect id s t d; detect_all id l d
  end.

(** Numbers begin with one, and are below the largest of 64 bits. *)
Definition arrival_ok (a : Z * Z) : Prop := 1 <= a.1 < 2 ^ 64 - 1 /\ 0 <= a.2.

Section Detection.
Variables (k w id : Z).
Hypothesis Hk : 0 <= k < 63.
Hypothesis Hw : w = 2 ^ k.

Definition detects (r : arrivals) (d : DropDetection) : Prop :=
  windowSize d = w /\ 1 <= first r /\ (forall y, y ∈ came r -> y < 2 ^ 64 - 1) /\
  Dropped (counter d) = u64 (lost_now w r) /\ Disorder (counter d) = u64 (late r) /\
  exists x, instances d !! id = Some x /\ window w x (came r) /\ seq x = base w r /\
    is_base w (first r) (came r) (seq x) /\ maxTimestamp x = newest r.

Lemma blank_window s n t : n = Z.to_nat w -> 0 <= s < 2 ^ 64 -> window w (mkInstance s t (replicate n false) 0) ∅.
Proof.
  pose proof (w_pos k w Hk Hw). intros -> Hs. unfold window, zlen. cbn. rewrite length_replicate. split_and!; try lia.
  intros j Hj. rewrite bool_decide_eq_false_2 by set_solver. apply lookup_replicate.
  split; [done|]. pose proof (Z.mod_pos_bound (0 + j) w ltac:(lia)). lia.
Qed.

(** A run that begins with a number: the window starts at it or below it. *)
Lemma accept_first x s t : window w x ∅ -> 1 <= seq x <= s -> s < 2 ^ 64 - 1 ->
  exists x', accept w x s t = Some (x', u64 (missing (seq x) (base_of w (seq x) {[s]}) {[s]})) /\
    window w x' {[s]} /\ seq x' = base_of w (seq x) {[s]} /\ is_base w (seq x) {[s]} (seq x') /\
    maxTimestamp x' = Z.max (maxTimestamp x) t.
Proof.
  pose proof (w_pos k w Hk Hw) as Hwp. intros Hx Hs Hm.
  destruct (accept_spec k w Hk Hw s t x ∅ Hx) as (x' & E & Hx' & Hb & Hle & Hno & Hall & Et); [set_solver|set_solver|lia|].
  rewrite (right_id_L ∅ (∪)) in *. assert (is_base w (seq x) {[s]} (seq x')) as Hbase.
  { split_and!; [done|done|done|]. intros y [?|?]%Hall; [by left|right]. exists s. split; [set_solver|done]. }
  pose proof (base_of_unique w (seq x) {[s]} (seq x') ltac:(lia) ltac:(lia) Hbase) as Eb. exists x'. rewrite Eb. done.
Qed.

Lemma wrap_plus_r a b : u64 (a + u64 b) = u64 (a + b).
Proof. unfold wrap. by rewrite Z.add_mod_idemp_r. Qed.

(** The first number again: the marks stay where they are. *)
Lemma carried_window x r : window w x (came r) -> seq x = base w r -> window w (set_seq x 1) (carried w r).
Proof.
  intros (Hl & Hi & Hs & Hm) Es. unfold window. cbn. split_and!; [done|lia|lia|lia|lia|]. intros j Hj.
  rewrite Hm by done. f_equal. apply bool_decide_ext. unfold carried. rewrite elem_of_map. split.
  - intros Hin. exists (seq x + j). rewrite elem_of_filter. split; [lia|]. split; [lia|done].
  - intros (y & E & [Hy Hin]%elem_of_filter). by replace (seq x + j) with y by lia.
Qed.

Lemma carried_below r y : (forall y, y ∈ came r -> y < base w r + w) -> y ∈ carried w r -> y < 1 + w.
Proof. intros Hb (z & -> & [_ Hz%Hb]%elem_of_filter)%elem_of_map. lia. Qed.

Lemma Detect_again r d t : detects r d -> 0 <= t ->
  exists d', Detect id 1 t d = Some d' /\ detects (arrive w r (1, t)) d'.
Proof.
  pose proof (w_pos k w Hk Hw) as Hwp. intros (Ew & Hf & Hc & Ed & Eo & x & Ex & Hx & Es & Hbase & Et) Ht.
  pose proof Hbase as (Hfb & Hbelow & Hno & Hall). rewrite Es in Hbelow. unfold Detect, findAndAdd, arrive. rewrite Ex, Ew.
  rewrite orb_true_r. cbn [set_seq seq]. rewrite Z.ltb_irrefl. cbn [andb Z.eqb Pos.eqb].
  destruct (accept_spec k w Hk Hw 1 t (set_seq x 1) (carried w r)) as (x' & E & Hx' & Hb' & Hle & Hno' & Hall' & Et').
  { by apply carried_window. }
  { intros y Hy. by apply (carried_below r). }
  { intros y Hy%(carried_below r); [|done]. lia. }
  { cbn. lia. }
  rewrite E. cbn [mbind option_bind fst snd]. eexists. split; [done|]. cbn [set_seq seq maxTimestamp] in *.
  assert (is_base w 1 ({[1]} ∪ carried w r) (seq x')) as Hbase'.
  { split_and!; [lia|done|done|]. intros y Hy. destruct (Hall' y Hy); [by left|lia]. }
  pose proof (base_of_unique w 1 ({[1]} ∪ carried w r) (seq x') ltac:(lia) ltac:(lia) Hbase') as Eb.
  split_and!; [done|done| | |done|].
  - cbn. intros y. rewrite elem_of_union, elem_of_singleton. intros [->|Hy%(carried_below r)]; [lia|lia|done].
  - cbn [counter Dropped]. rewrite Ed, wrap_plus, wrap_plus_r. f_equal.
    change (lost_now w (mkArrivals 1 ({[1]} ∪ carried w r) (Z.max (newest r) t) (lost_now w r) (late r)))
      with (lost_now w r + missing 1 (base_of w 1 ({[1]} ∪ carried w r)) ({[1]} ∪ carried w r)). by rewrite Eb.
  - exists x'. split_and!; [cbn [instances]; by rewrite lookup_insert_eq|done|by symmetry|done|]. cbn. congruence.
Qed.

Lemma Detect_step r d s t : detects r d -> arrival_ok (s, t) ->
  exists d', Detect id s t d = Some d' /\ detects (arrive w r (s, t)) d'.
Proof.
  pose proof (w_pos k w Hk Hw) as Hwp. intros Hd [Hs Ht]. cbn in Hs, Ht.
  destruct (decide (s = 1)) as [->|Hs1]; [by apply Detect_again|].
  destruct Hd as (Ew & Hf & Hc & Ed & Eo & x & Ex & Hx & Es & Hbase & Et).
  pose proof Hbase as (Hfb & Hbelow & Hno & Hall). unfold Detect, findAndAdd, arrive. rewrite Ex, Ew, <- Es.
  rewrite (proj2 (Z.eqb_neq (seq x) 0)), (proj2 (Z.eqb_neq s 1)) by lia. cbn [orb]. rewrite Et.
  destruct (Z.ltb_spec s (seq x)) as [Hlt|Hge]; cbn [andb]; [destruct (t >? newest r) eqn:En; cbn [negb]|].
  - set (f := Z.max (s - w) 1). assert (restart w x s = mkInstance f (newest r) (replicate (Z.to_nat w) false) 0) as ->.
    { unfold restart, f. rewrite Et. f_equal; [destruct (Z.gtb_spec s w); lia|]. destruct Hx as (Hl & _). unfold zlen in Hl.
      rewrite <- Hl, Nat2Z.id. by rewrite const_fmap || (clear; induction (cache x); cbn; congruence). }
    destruct (accept_first (mkInstance f (newest r) (replicate (Z.to_nat w) false) 0) s t) as (x' & E & Hx' & Es' & Hb' & Et');
      [by apply blank_window; lia|cbn; lia|lia|].
    rewrite E. cbn [mbind option_bind fst snd]. eexists. split; [done|]. cbn [seq maxTimestamp] in *.
    split_and!; [done|cbn; lia|cbn; set_solver by lia| |done|].
    + cbn. rewrite Ed, wrap_plus, wrap_plus_r. done.
    + exists x'. split_and!; [cbn [instances]; by rewrite lookup_insert_eq|done|done|done|]. cbn. lia.
  - eexists. split; [done|]. split_and!; [done|done|done|done| |].
    + cbn. by rewrite Eo, wrap_plus.
    + exists x. split_and!; [cbn [instances]; by rewrite lookup_insert_eq|done|done|done|done].
  - destruct (accept_spec k w Hk Hw s t x (came r) Hx) as (x' & E & Hx' & Hb' & Hle & Hno' & Hall' & Et'); [done|done|lia|].
    rewrite E. cbn [mbind option_bind fst snd]. eexists. split; [done|].
    assert (is_base w (first r) ({[s]} ∪ came r) (seq x')) as Hbase'.
    { split_and!; [lia|done|done|]. intros y Hy. destruct (decide (y < seq x)).
      - destruct (Hall y ltac:(lia)) as [?|(z & Hz & Hyz)]; [left; set_solver|right]. exists z. set_solver.
      - destruct (Hall' y ltac:(lia)) as [?|?]; [by left|right]. exists s. set_solver. }
    pose proof (base_of_unique w (first r) ({[s]} ∪ came r) (seq x') ltac:(lia) ltac:(lia) Hbase') as Eb.
    split_and!; [done|done|cbn; intros y; rewrite elem_of_union, elem_of_singleton; intros [->|Hy]; [lia|by apply Hc]| |done|].
    + cbn [counter Dropped]. rewrite Ed, wrap_plus, wrap_plus_r. unfold lost_now, base at 2. cbn [lost first came].
      rewrite Eb, <- Es. f_equal. rewrite (missing_app (first r) (seq x) (seq x')) by lia.
      rewrite (missing_ext (first r) (seq x) ({[s]} ∪ came r) (came r)); [lia|]. intros y Hy. set_solver by lia.
    + exists x'. split_and!; [cbn [instances]; by rewrite lookup_insert_eq|done|by symmetry|done|]. cbn. congruence.
Qed.

Lemma Detect_first name s t : 1 <= s < 2 ^ 64 - 1 -> 0 <= t ->
  exists d, Detect id s t (Init name w) = Some d /\ detects (mkArrivals s {[s]} t 0 0) d.
Proof.
  pose proof (w_pos k w Hk Hw) as Hwp. intros Hs Ht. unfold Detect, findAndAdd. cbn [instances Init windowSize]. rewrite lookup_empty.
  cbn [seq Z.eqb orb set_seq maxTimestamp cache cacheStartIndex]. rewrite Z.ltb_irrefl. cbn [andb].
  destruct (accept_first (mkInstance s 0 (replicate (Z.to_nat w) false) 0) s t) as (x' & E & Hx' & Es & Hb & Et);
    [apply blank_window; [done|lia]|cbn; lia|lia|].
  unfold set_seq. cbn [maxTimestamp cache cacheStartIndex]. rewrite E. cbn [mbind option_bind fst snd]. eexists. split; [done|]. cbn [seq maxTimestamp] in *.
  split_and!; [done|cbn; lia|cbn; set_solver by lia| |done|].
  - cbn [counter Dropped Init]. rewrite wrap_plus_r. done.
  - exists x'. split_and!; [cbn [instances]; by rewrite lookup_insert_eq|done|done|done|]. cbn. lia.
Qed.

Lemma detect_all_ok l r d : detects r d -> Forall arrival_ok l ->
  exists d', detect_all id l d = Some d' /\ detects (foldl (arrive w) r l) d'.
Proof.
  intros Hd Hl. revert r d Hd. induction Hl as [|[s t] l Ha _ IH]; intros r d Hd; cbn [detect_all foldl]; [by exists d|].
  destruct (Detect_step r d s t Hd Ha) as (d1 & -> & Hd1). apply (IH _ _ Hd1).
Qed.

Lemma base_single s : 1 <= s -> base_of w s {[s]} = s + 1.
Proof.
  pose proof (w_pos k w Hk Hw). intros Hs. apply base_of_unique; [lia|lia|]. split_and!; [lia|set_solver by lia|set_solver by lia|].
  intros y Hy. left. set_solver by lia.
Qed.
End Detection.

(** C26: an agent sends a packet and then others, with numbers from 1 to [2^64 - 2], in any
    order and at any times; the window is a power of two of at most [2^62], and the counters
    are those of 64 bits.  A run begins with number one, and with a number below the
    window and a newer time; the window of the latter begins a window below the number.
    The detection of losses never panics; the start of its window is the first number of the
    run that neither came nor is a window below one that came; and the counter of losses
    is the number of those, in this run and in the ones before, that the window passed
    and that had not come.  After number one the marks of the window before are taken for
    numbers of the new run ([carried]).  Those that came after the window had passed them,
    without a newer time, are counted as out of order. *)
Theorem drop_counts k w name id s0 t0 l :
  0 <= k < 63 -> w = 2 ^ k -> 1 <= s0 < 2 ^ 64 - 1 -> 0 <= t0 -> Forall arrival_ok l ->
  let r := foldl (arrive w) (mkArrivals s0 {[s0]} t0 0 0) l in
  exists d x, detect_all id ((s0, t0) :: l) (Init name w) = Some d /\ instances d !! id = Some x /\
    is_base w (first r) (came r) (seq x) /\ seq x = base w r /\
    Dropped (counter d) = u64 (lost_now w r) /\ Disorder (counter d) = u64 (late r).
Proof.
  intros Hk Hw Hs Ht Hl r. destruct (Detect_first k w id Hk Hw name s0 t0 Hs Ht) as (d1 & E1 & Hd1).
  destruct (detect_all_ok k w id Hk Hw l _ _ Hd1 Hl) as (d & E & Hd). cbn [detect_all]. rewrite E1. cbn [mbind option_bind].
  destruct Hd as (_ & _ & _ & Ed & Eo & x & Ex & _ & Es & Hb & _). exists d, x. done.
Qed.

Lemma drop_counts_witness :
  let l := [(12, 100); (13, 100); (40, 101); (11, 101); (3, 200); (5, 200); (1, 300); (2, 300)] in
  let r := foldl (arrive 4) (mkArrivals 10 {[10]} 100 0 0) l in
  exists d x, detect_all 7 ((10, 100) :: l) (Init "flow" 4) = Some d /\ instances d !! 7 = Some x /\
    is_base 4 (first r) (came r) (seq x) /\ seq x = base 4 r /\
    Dropped (counter d) = u64 (lost_now 4 r) /\ Disorder (counter d) = u64 (late r).
Proof.
  apply (drop_counts 2 4 "flow" 7 10 100); [done|done|done|done|].
  repeat constructor; cbn; lia.
Defined.

(** A restart of the agent counts one lost packet, although a restart is not to count
    any: when an agent sends a lower number with a later time, and that number is
    above a window, the counter of losses becomes one. *)
Theorem restart_counts_one k w name id s1 t1 s2 t2 :
  0 <= k < 63 -> w = 2 ^ k -> w < s2 <= s1 -> 2 <= s2 -> s1 < 2 ^ 64 - 1 -> 0 <= t1 < t2 ->
  exists d, detect_all id [(s1, t1); (s2, t2)] (Init name w) = Some d /\ Dropped (counter d) = 1.
Proof.
  intros Hk Hw Hs H2 Hm Ht. pose proof (w_pos k w Hk Hw) as Hwp.
  destruct (Detect_first k w id Hk Hw name s1 t1 ltac:(lia) ltac:(lia)) as (d1 & E1 & Hd1).
  destruct (Detect_step k w id Hk Hw _ _ s2 t2 Hd1) as (d & E & Hd); [by split; cbn; lia|].
  cbn [detect_all]. rewrite E1. cbn [mbind option_bind]. rewrite E. cbn [mbind option_bind]. exists d. split; [done|].
  destruct Hd as (_ & _ & _ & -> & _). unfold arrive, lost_now, base. cbn [first came newest lost late].
  rewrite (proj2 (Z.eqb_neq s2 1)) by lia. rewrite (base_single k w Hk Hw s1) by lia.
  rewrite (proj2 (Z.ltb_lt s2 (s1 + 1))) by lia.
  rewrite (proj2 (Z.gtb_lt t2 t1)) by lia. cbn [first came newest lost late]. rewrite Z.max_l by lia.
  rewrite (missing_none s1 (s1 + 1)) by (lia || set_solver by lia).
  set (b := if decide (w = 1) then s2 + 1 else s2 - w + 1).
  rewrite (base_of_unique w (s2 - w) {[s2]} b).
  - rewrite missing_step by (unfold b; case_decide; lia). rewrite decide_False by set_solver by lia.
    rewrite missing_none; [done|unfold b; case_decide; lia|]. unfold b. case_decide; intros y Hy; set_solver by lia.
  - lia.
  - unfold b. case_decide; lia.
  - unfold b. case_decide; split_and!; try lia; try (set_solver by lia).
    + intros y Hy. destruct (decide (y = s2)); [left; set_solver|right]. exists s2. set_solver by lia.
Qed.

Lemma restart_counts_one_witness :
  exists d, detect_all 7 [(1000, 100); (200, 101)] (Init "flow" 64) = Some d /\ Dropped (counter d) = 1.
Proof. apply (restart_counts_one 6 64); lia. Defined.

(** An agent that starts again from one keeps the marks of the run before: a packet
    of the new run that never came is taken for one that did.  After the numbers [s] and
    [s + 2], the number one moves the window to three and no loss is counted. *)
Theorem first_number_keeps_marks k w name id s t t' :
  2 <= k < 63 -> w = 2 ^ k -> 2 <= s < 2 ^ 64 - 3 -> 0 <= t ->
  exists d x, detect_all id [(s, t); (s + 2, t); (1, t')] (Init name w) = Some d /\ instances d !! id = Some x /\
    seq x = 3 /\ Dropped (counter d) = 0.
Proof.
  intros Hk Hw Hs Ht. assert (0 <= k < 63) as Hk' by lia. pose proof (w_pos k w Hk' Hw) as Hwp.
  assert (4 <= w) as H4 by (rewrite Hw; change 4 with (2 ^ 2); apply Z.pow_le_mono_r; lia).
  destruct (Detect_first k w id Hk' Hw name s t ltac:(lia) ltac:(lia)) as (d1 & E1 & Hd1).
  destruct (Detect_step k w id Hk' Hw _ _ (s + 2) t Hd1) as (d2 & E2 & Hd2); [by split; cbn; lia|].
  assert (arrive w (mkArrivals s {[s]} t 0 0) (s + 2, t) = mkArrivals s ({[s + 2]} ∪ {[s]}) t 0 0) as Er.
  { unfold arrive, base. cbn [first came newest lost late]. rewrite (proj2 (Z.eqb_neq (s + 2) 1)) by lia.
    rewrite (base_single k w Hk' Hw s) by lia.
    rewrite (proj2 (Z.ltb_ge (s + 2) (s + 1))) by lia. by rewrite Z.max_id. }
  rewrite Er in Hd2. assert (base_of w s ({[s + 2]} ∪ {[s]}) = s + 1) as Eb.
  { apply base_of_unique; [lia|lia|]. split_and!; [lia|set_solver by lia|set_solver by lia|]. intros y Hy. left. set_solver by lia. }
  destruct Hd2 as (Ew & _ & _ & Ed & _ & x & Ex & Hx & Es & _ & _). unfold lost_now, base in *. cbn [first came lost] in *.
  rewrite Eb in *. rewrite missing_none in Ed by (lia || set_solver by lia).
  assert (window w (set_seq x 1) {[2]}) as Hx1.
  { destruct Hx as (Hl & Hi & _ & Hm). unfold window. cbn. split_and!; [done|lia|lia|lia|lia|]. intros j Hj. rewrite Hm by lia. f_equal.
    apply bool_decide_ext. rewrite Es. set_solver by lia. }
  destruct (accept_spec k w Hk' Hw 1 t' (set_seq x 1) {[2]} Hx1) as (x' & E & Hx' & _ & Hle & Hno & Hall & _);
    [intros y Hy; cbn; set_solver by lia|set_solver by lia|cbn; lia|]. cbn [seq set_seq] in *.
  assert (seq x' = 3) as E3.
  { destruct (decide (3 < seq x')); [destruct (Hall 3); [lia|set_solver by lia|lia]|].
    destruct (decide (seq x' = 1)); [set_solver|]. destruct (decide (seq x' = 2)); [set_solver|]. lia. }
  cbn [detect_all]. rewrite E1. cbn [mbind option_bind]. rewrite E2. cbn [mbind option_bind]. unfold Detect, findAndAdd.
  rewrite Ex, Ew. rewrite (proj2 (Z.eqb_eq 1 1)), orb_true_r by done. cbn [seq set_seq]. rewrite Z.ltb_irrefl. cbn [andb].
  rewrite E. cbn [mbind option_bind fst snd]. eexists _, x'. split; [done|]. cbn [instances counter Dropped].
  split_and!; [by rewrite lookup_insert_eq|done|]. rewrite Ed, E3, missing_none by (lia || set_solver by lia). done.
Qed.

Lemma first_number_keeps_marks_witness :
  exists d x, detect_all 7 [(50, 9); (52, 9); (1, 10)] (Init "flow" 64) = Some d /\ instances d !! 7 = Some x /\
    seq x = 3 /\ Dropped (counter d) = 0.
Proof. apply (first_number_keeps_marks 6 64 "flow" 7 50 9 10); lia. Defined.
