(* ===== verification/Throttle.v ===== *)
(** Limits on rates: the sampling queue of the flow logs
    ([server/ingester/stream/throttler/throttling_queue.go]) and the leaky bucket
    ([server/libs/datastructure/leaky_bucket.go]), with what they let through. *)

From S2P Require Import Prelude.

#[local] Open Scope list_scope.
#[local] Open Scope Z_scope.

Module Throttling.

Definition THROTTLE_BUCKET : Z := 10.

Section Queue.
(** The items; those that have a method [Release]. *)
Context {Item : Type} (releasable : Item -> bool).

(** The queue, and what it did: the items of each call of [Put] of the writer, those
    released, and those that were left to the collector. *)
Record ThrottlingQueue := mkQueue {
  index : Z;
  Throttle : Z;
  lastFlush : Z;
  periodCount : Z;
  periodEmitCount : Z;
  sampleItems : list (option Item);
  puts : list (list Item);
  released : list Item;
  left_over : list Item
}.

(** [make] panics for a negative length. *)
Definition NewThrottlingQueue (throttle index : Z) : option ThrottlingQueue :=
  let n := i64 (throttle * THROTTLE_BUCKET) in
  if n <? 0 then None else Some (mkQueue index n 0 0 0 (replicate (Z.to_nat n) None) [] [] []).

(** The elements of the slice that are not nil. *)
Definition flush (q : ThrottlingQueue) : ThrottlingQueue :=
  if periodEmitCount q >? 0 then
    mkQueue (index q) (Throttle q) (lastFlush q) (periodCount q) (periodEmitCount q) (sampleItems q)
      (puts q ++ [omap id (take (Z.to_nat (periodEmitCount q)) (sampleItems q))]) (released q) (left_over q)
  else q.

(** An item that is not kept. *)
Definition discard (q : ThrottlingQueue) (x : option Item) : ThrottlingQueue :=
  match x with
  | None => q
  | Some x =>
      if releasable x then
        mkQueue (index q) (Throttle q) (lastFlush q) (periodCount q) (periodEmitCount q) (sampleItems q) (puts q)
          (released q ++ [x]) (left_over q)
      else
        mkQueue (index q) (Throttle q) (lastFlush q) (periodCount q) (periodEmitCount q) (sampleItems q) (puts q)
          (released q) (left_over q ++ [x])
  end.

Definition set_sample (q : ThrottlingQueue) (i : Z) (x : Item) : ThrottlingQueue :=
  mkQueue (index q) (Throttle q) (lastFlush q) (periodCount q) (periodEmitCount q)
    (<[Z.to_nat i := Some x]> (sampleItems q)) (puts q) (released q) (left_over q).

Definition set_period (q : ThrottlingQueue) (last count emit : Z) : ThrottlingQueue :=
  mkQueue (index q) (Throttle q) last count emit (sampleItems q) (puts q) (released q) (left_over q).

(** At the time [now]; [Intn] is what the generator returns below a bound.  [None] is a
    panic: of the generator for a bound that is not positive, or past the samples. *)
Definition Send (now : Z) (Intn : Z -> Z) (flow : option Item) (q : ThrottlingQueue) : option (bool * ThrottlingQueue) :=
  let q :=
    if negb (Z.quot now THROTTLE_BUCKET =? Z.quot (lastFlush q) THROTTLE_BUCKET) then set_period (flush q) now 0 0 else q in
  match flow with
  | None => Some (false, q)
  | Some flow =>
      let q := set_period q (lastFlush q) (i64 (periodCount q + 1)) (periodEmitCount q) in
      if periodEmitCount q <? Throttle q then
        sampleItems q !! Z.to_nat (periodEmitCount q);;
        let q := set_sample q (periodEmitCount q) flow in
        Some (true, set_period q (lastFlush q) (periodCount q) (i64 (periodEmitCount q + 1)))
      else if periodCount q <=? 0 then None
      else
        let r := Intn (periodCount q) in
        if r <? Throttle q then
          old ← sampleItems q !! Z.to_nat r;
          Some (false, set_sample (discard q old) r flow)
        else Some (false, discard q (Some flow))
  end.
End Queue.
Arguments ThrottlingQueue : clear implicits.
Arguments NewThrottlingQueue {Item}.
End Throttling.

Module Bucket.

Definition MaxUint64 : Z := 2 ^ 64 - 1.

Record LeakyBucket := mkBucket {
  rate : Z;
  interval : Z;
  token : Z;
  full : Z;
  quantity : Z;
  multiple : Z;
  running : bool
}.

(** [time.Second/time.Millisecond/b.interval] *)
Definition per_second (b : LeakyBucket) : Z := Z.quot 1000 (interval b).

Definition SetRate (r : Z) (b : LeakyBucket) : LeakyBucket :=
  let r := if r =? 0 then MaxUint64 else r in
  let q := r / u64 (per_second b) in
  let q := if q =? 0 then 1 else q in
  mkBucket r (interval b) (token b) (u64 (q * multiple b)) q (multiple b) (running b).

Definition Init (r : Z) : LeakyBucket :=
  let b := SetRate r (mkBucket 0 100 0 0 0 10 false) in
  mkBucket (rate b) (interval b) (full b) (full b) (quantity b) (multiple b) true.

Definition Close (b : LeakyBucket) : LeakyBucket :=
  mkBucket (rate b) (interval b) (token b) (full b) (quantity b) (multiple b) false.

Definition set_token (b : LeakyBucket) (t : Z) : LeakyBucket :=
  mkBucket (rate b) (interval b) t (full b) (quantity b) (multiple b) (running b).

(** One round of [run], when the timer fires. *)
Definition run_round (b : LeakyBucket) : LeakyBucket :=
  if u64 (token b + quantity b) >? full b then set_token b (full b)
  else set_token b (u64 (token b + quantity b)).

(** The part of [Acquire] under the lock. *)
Definition take_token (size : Z) (b : LeakyBucket) : bool * LeakyBucket :=
  if token b <? size then (false, b) else (true, set_token b (u64 (token b - size))).

Definition Acquire (size : Z) (b : LeakyBucket) : bool * LeakyBucket :=
  if rate b =? MaxUint64 then (true, b) else take_token size b.

(** The rounds of the timer and the callers, in the order in which they take the lock. *)
Inductive event :=
  | Tick
  | Take (size : Z)
  | Rate (r : Z).

(** The bucket after the events, with the tokens given out. *)
Definition step (s : LeakyBucket * Z) (e : event) : LeakyBucket * Z :=
  let '(b, granted) := s in
  match e with
  | Tick => (run_round b, granted)
  | Take size => let '(ok, b) := Acquire size b in (b, if ok : bool then granted + size else granted)
  | Rate r => (SetRate r b, granted)
  end.
End Bucket.

(** * The sampling queue *)

Section Throttled.
Import Throttling.
Context {Item : Type} (releasable : Item -> bool).
Abbreviation Q := (ThrottlingQueue Item).

(** A call: the time, the generator and the item. *)
Definition call : Type := Z * (Z -> Z) * option Item.

Definition call_ok (c : call) : Prop := forall n, 0 < n -> 0 <= c.1.2 n < n.

Fixpoint send_all (cs : list call) (q : Q) : option (list bool * Q) :=
  match cs with
  | [] => Some ([], q)
  | (now, Intn, flow) :: cs =>
      r ← Send releasable now Intn flow q;
      rs ← send_all cs r.2;
      Some (r.1 :: rs.1, rs.2)
  end.

(** The items sent, and how often the period changes. *)
Definition sent (cs : list call) : list Item := omap (fun c => c.2) cs.

Fixpoint changes (last : Z) (cs : list call) : Z :=
  match cs with
  | [] => 0
  | c :: cs =>
      if Z.quot c.1.1 THROTTLE_BUCKET =? Z.quot last THROTTLE_BUCKET then changes last cs
      else 1 + changes c.1.1 cs
  end.

Definition samples (q : Q) : list Item := omap id (take (Z.to_nat (periodEmitCount q)) (sampleItems q)).

(** The items that the queue accounts for. *)
Definition accounted (q : Q) : list Item := concat (puts q) ++ samples q ++ released q ++ left_over q.

Definition queue_ok (n : Z) (q : Q) : Prop :=
  0 <= Throttle q < 2 ^ 63 /\ zlen (sampleItems q) = Throttle q /\
  0 <= periodCount q <= n /\ periodEmitCount q = Z.min (periodCount q) (Throttle q) /\
  Forall (fun x => is_Some x) (take (Z.to_nat (periodEmitCount q)) (sampleItems q)) /\
  Forall (fun p => 0 < zlen p <= Throttle q) (puts q).

Lemma samples_length n q : queue_ok n q -> zlen (samples q) = periodEmitCount q.
Proof.
  intros (Ht & Hl & Hc & He & Hs & _). unfold samples.
  assert (zlen (take (Z.to_nat (periodEmitCount q)) (sampleItems q)) = periodEmitCount q) as E.
  { unfold zlen in *. rewrite length_take. lia. }
  rewrite <- E at 2. clear E. unfold zlen. f_equal. induction Hs as [|x l [y ->] _ IH]; [done|]. cbn in *. lia.
Qed.

Lemma omap_insert (l : list (option Item)) i old x : l !! i = Some old -> Forall (fun x => is_Some x) l ->
  exists y, old = Some y /\ y :: omap id (<[i := Some x]> l) ≡ₚ x :: omap id l.
Proof.
  intros Hi Hl. revert i Hi. induction Hl as [|z l [z' ->] Hl IH]; intros [|i] Hi; try done; cbn.
  - injection Hi as <-. exists z'. split; [done|]. apply Permutation_swap.
  - destruct (IH i Hi) as (y & -> & Hp). exists y. split; [done|]. cbn. rewrite Permutation_swap, Hp. apply Permutation_swap.
Qed.

(** A new period: the samples are written. *)
Lemma flush_ok n q now : queue_ok n q ->
  let q' := set_period (flush q) now 0 0 in
  queue_ok n q' /\ accounted q' ≡ₚ accounted q /\ zlen (puts q') <= zlen (puts q) + 1.
Proof.
  intros Hq. pose proof (samples_length n q Hq) as Hlen. pose proof Hq as (Ht & Hl & Hc & He & Hs & Hp).
  unfold flush, accounted. destruct (Z.gtb_spec (periodEmitCount q) 0) as [Hpos|Hz]; cbn.
  - fold (samples q). split_and!.
    + unfold queue_ok. cbn. split_and!; try done; try lia. apply Forall_app. split; [done|]. constructor; [lia|done].
    + rewrite concat_app. cbn. rewrite app_nil_r. by rewrite <- (assoc (++)).
    + rewrite zlen_app. unfold zlen. cbn. lia.
  - assert (samples q = []) as E by (apply nil_length_inv; unfold zlen in Hlen; lia). rewrite E. split_and!.
    + unfold queue_ok. cbn. split_and!; try done; lia.
    + done.
    + lia.
Qed.

Lemma discard_accounted q x : accounted (discard releasable q (Some x)) ≡ₚ x :: accounted q.
Proof.
  unfold discard, accounted, samples. destruct (releasable x); cbn.
  all: rewrite ?(assoc (++)), <- ?Permutation_middle, ?app_nil_r; done.
Qed.

Lemma discard_same q x : let q' := discard releasable q (Some x) in
  sampleItems q' = sampleItems q /\ periodEmitCount q' = periodEmitCount q /\ periodCount q' = periodCount q /\
  Throttle q' = Throttle q /\ puts q' = puts q /\ lastFlush q' = lastFlush q.
Proof. unfold discard. by destruct (releasable x). Qed.

(** The rest of a call, within a period. *)
Lemma sample_ok n q now Intn flow : queue_ok n q -> n + 1 < 2 ^ 63 -> call_ok (now, Intn, Some flow) ->
  Z.quot now THROTTLE_BUCKET = Z.quot (lastFlush q) THROTTLE_BUCKET ->
  exists b q', Send releasable now Intn (Some flow) q = Some (b, q') /\ queue_ok (n + 1) q' /\
    accounted q' ≡ₚ flow :: accounted q /\ puts q' = puts q /\ lastFlush q' = lastFlush q /\ Throttle q' = Throttle q.
Proof.
  intros Hq Hn Hc Enow. pose proof Hq as (Ht & Hl & Hcnt & He & Hs & Hp). unfold Send. rewrite Enow, Z.eqb_refl. cbn [negb].
  cbn [periodEmitCount set_period Throttle sampleItems periodCount lastFlush].
  rewrite (swrap_small 64 (periodCount q + 1)) by (unfold is_i; lia). unfold zlen in Hl.
  destruct (Z.ltb_spec (periodEmitCount q) (Throttle q)) as [Hlt|Hge].
  - destruct (lookup_lt_is_Some_2 (sampleItems q) (Z.to_nat (periodEmitCount q))) as [old Eo]; [lia|]. rewrite Eo.
    cbn [mbind option_bind]. eexists _, _. split; [done|]. cbn [periodEmitCount set_sample set_period].
    rewrite (swrap_small 64 (periodEmitCount q + 1)) by (unfold is_i; lia).
    assert (take (Z.to_nat (periodEmitCount q + 1)) (<[Z.to_nat (periodEmitCount q) := Some flow]> (sampleItems q)) =
      take (Z.to_nat (periodEmitCount q)) (sampleItems q) ++ [Some flow]) as E.
    { replace (Z.to_nat (periodEmitCount q + 1)) with (S (Z.to_nat (periodEmitCount q))) by lia.
      rewrite (take_S_r _ _ (Some flow)) by (rewrite list_lookup_insert_eq by lia; done). by rewrite take_insert_ge by lia. }
    split; [|split; [|done]].
    + unfold queue_ok. cbn. rewrite E. unfold zlen. rewrite length_insert. split_and!; try done; try lia.
      apply Forall_app. split; [done|]. by repeat constructor.
    + unfold accounted, samples. cbn. rewrite E, omap_app. cbn. rewrite <- !(assoc (++)). cbn [app]. by rewrite <- !Permutation_middle.
  - rewrite (proj2 (Z.leb_gt _ _)) by lia. set (r := Intn (periodCount q + 1)).
    assert (0 <= r < periodCount q + 1) as Hr by (apply (Hc (periodCount q + 1)); lia).
    destruct (Z.ltb_spec r (Throttle q)) as [Hrt|Hrt].
    + destruct (lookup_lt_is_Some_2 (sampleItems q) (Z.to_nat r)) as [old Eo]; [lia|]. rewrite Eo. cbn [mbind option_bind].
      rewrite take_ge in Hs by lia. destruct (omap_insert (sampleItems q) (Z.to_nat r) old flow Eo Hs) as (y & -> & Hperm).
      eexists _, _. split; [done|]. set (q1 := set_period q _ _ _).
      pose proof (discard_accounted q1 y) as Hd. set (q2 := discard releasable q1 (Some y)) in *.
      pose proof (discard_same q1 y) as HE. cbv zeta in HE. fold q2 in HE. clearbody q2.
      destruct HE as (E1 & E2 & E3 & E4 & E5 & E6). unfold q1 in E1, E2, E3, E4, E5, E6. cbn in E1, E2, E3, E4, E5, E6.
      split; [|split; [|done]].
      * unfold queue_ok. cbn. rewrite E1, E2, E3, E4, E5. unfold zlen. rewrite length_insert. split_and!; try done; try lia.
        rewrite take_ge by (rewrite length_insert; lia). by apply Forall_insert.
      * apply (Permutation_app_inv_l [y]). change (accounted q) with (accounted q1). cbn [app].
        rewrite (Permutation_swap flow y), <- Hd. unfold accounted at 2, accounted, samples. cbn. rewrite E1, E2.
        rewrite !take_ge by (rewrite ?length_insert; lia).
        etransitivity; [apply Permutation_middle|]. symmetry. etransitivity; [apply Permutation_middle|].
        apply Permutation_app_head. rewrite !app_comm_cons. by apply Permutation_app_tail.
    + eexists _, _. split; [done|]. set (q1 := set_period q _ _ _). pose proof (discard_accounted q1 flow) as Hd.
      set (q2 := discard releasable q1 (Some flow)) in *.
      pose proof (discard_same q1 flow) as HE. cbv zeta in HE. fold q2 in HE. clearbody q2.
      destruct HE as (E1 & E2 & E3 & E4 & E5 & E6). unfold q1 in E1, E2, E3, E4, E5, E6. cbn in E1, E2, E3, E4, E5, E6.
      split; [|split; [exact Hd|done]]. unfold queue_ok. rewrite E1, E2, E3, E4, E5. unfold zlen. split_and!; try done; lia.
Qed.

Lemma changes_step last now Intn flow cs :
  changes last ((now, Intn, flow) :: cs) =
    if Z.quot now THROTTLE_BUCKET =? Z.quot last THROTTLE_BUCKET then changes last cs else 1 + changes now cs.
Proof. done. Qed.

Lemma Send_ok n q now Intn flow : queue_ok n q -> n + 1 < 2 ^ 63 -> call_ok (now, Intn, flow) ->
  let new := negb (Z.quot now THROTTLE_BUCKET =? Z.quot (lastFlush q) THROTTLE_BUCKET) in
  exists b q', Send releasable now Intn flow q = Some (b, q') /\ queue_ok (n + 1) q' /\
    accounted q' ≡ₚ option_list flow ++ accounted q /\ zlen (puts q') <= zlen (puts q) + (if new then 1 else 0) /\
    lastFlush q' = (if new then now else lastFlush q) /\ Throttle q' = Throttle q.
Proof.
  intros Hq Hn Hc new.
  assert (exists q1, (if new then set_period (flush q) now 0 0 else q) = q1 /\ queue_ok n q1 /\ accounted q1 ≡ₚ accounted q /\
    zlen (puts q1) <= zlen (puts q) + (if new then 1 else 0) /\ lastFlush q1 = (if new then now else lastFlush q) /\
    Throttle q1 = Throttle q) as (q1 & E1 & Hq1 & Hp1 & Hz1 & Hl1 & Ht1).
  { destruct new; [|exists q; split_and!; try done; lia]. destruct (flush_ok n q now Hq) as (? & ? & ?).
    eexists. split_and!; try done. unfold flush. by case_match. }
  assert (Z.quot now THROTTLE_BUCKET = Z.quot (lastFlush q1) THROTTLE_BUCKET) as Enow.
  { rewrite Hl1. unfold new. destruct (Z.eqb_spec (Z.quot now THROTTLE_BUCKET) (Z.quot (lastFlush q) THROTTLE_BUCKET)); done. }
  assert (Send releasable now Intn flow q = Send releasable now Intn flow q1) as ->.
  { unfold Send. fold new. rewrite E1, Enow, Z.eqb_refl. done. }
  destruct flow as [flow|].
  - destruct (sample_ok n q1 now Intn flow Hq1 Hn Hc Enow) as (b & q' & E & Hq' & Hp & Hz & Hl & Ht).
    exists b, q'. split_and!; [done|done|by rewrite Hp, Hp1|by rewrite Hz|congruence|congruence].
  - unfold Send. rewrite Enow, Z.eqb_refl. exists false, q1. split_and!; [done| |done|done|done|done].
    destruct Hq1 as (? & ? & ? & ? & ? & ?). split_and!; try done; lia.
Qed.

Lemma send_all_ok cs n q : queue_ok n q -> n + zlen cs < 2 ^ 63 -> Forall call_ok cs ->
  exists rs q', send_all cs q = Some (rs, q') /\ queue_ok (n + zlen cs) q' /\ accounted q' ≡ₚ sent cs ++ accounted q /\
    zlen (puts q') <= zlen (puts q) + changes (lastFlush q) cs /\ Throttle q' = Throttle q.
Proof.
  intros Hq Hn Hcs. revert n q Hq Hn. induction Hcs as [|[[now Intn] flow] cs Hc Hcs IH]; intros n q Hq Hn.
  { exists [], q. unfold zlen. cbn. rewrite Z.add_0_r. split_and!; [done|done|done|lia|done]. }
  unfold call, zlen in *. cbn [length] in Hn.
  destruct (Send_ok n q now Intn flow Hq ltac:(lia) Hc) as (b & q1 & E1 & Hq1 & Hp1 & Hz1 & Hl1 & Ht1).
  destruct (IH (n + 1) q1 Hq1 ltac:(lia)) as (rs & q' & E & Hq' & Hp & Hz & Ht).
  cbn [send_all]. rewrite E1. cbn [mbind option_bind snd fst]. rewrite E. cbn [mbind option_bind snd fst].
  exists (b :: rs), q'. split_and!; [done| | | |congruence].
  - cbn [length]. by replace (n + Z.of_nat (S (length cs))) with (n + 1 + Z.of_nat (length cs)) by lia.
  - rewrite Hp, Hp1. unfold sent. cbn. destruct flow; cbn; [|done]. by rewrite <- Permutation_middle.
  - rewrite changes_step. rewrite Hl1 in Hz. unfold zlen in Hz1. destruct (Z.quot now _ =? Z.quot (lastFlush q) _); cbn [negb] in *; lia.
Qed.
End Throttled.

Import Throttling.

(** C28: the sampling queue never panics, writes at most once per period of ten seconds, and
    never more items than the limit at a time.  Every item that is sent is exactly one
    of: written, kept for the next write, released, or, without a method for that,
    dropped; and in a period all are kept up to the limit, and as many as the limit
    after it. *)
Theorem throttle_bounds {Item} (releasable : Item -> bool) throttle index (cs : list (call (Item := Item))) :
  0 <= throttle -> throttle * THROTTLE_BUCKET < 2 ^ 63 -> zlen cs < 2 ^ 63 -> Forall call_ok cs ->
  exists q rs q', NewThrottlingQueue throttle index = Some q /\ send_all releasable cs q = Some (rs, q') /\
    Forall (fun p => 0 < zlen p <= throttle * THROTTLE_BUCKET) (puts q') /\ zlen (puts q') <= changes 0 cs /\
    sent cs ≡ₚ concat (puts q') ++ samples q' ++ released q' ++ left_over q' /\
    zlen (samples q') = Z.min (periodCount q') (throttle * THROTTLE_BUCKET).
Proof.
  intros H0 Ht Hn Hcs. unfold NewThrottlingQueue.
  rewrite swrap_small by (unfold THROTTLE_BUCKET, is_i in *; lia). rewrite (proj2 (Z.ltb_ge _ 0)) by (unfold THROTTLE_BUCKET; lia).
  eexists. set (q := mkQueue _ _ _ _ _ _ _ _ _).
  assert (queue_ok 0 q) as Hq.
  { unfold queue_ok, zlen, q. cbn. rewrite length_replicate. unfold THROTTLE_BUCKET in *. split_and!; try lia; constructor. }
  destruct (send_all_ok releasable cs 0 q Hq ltac:(lia) Hcs) as (rs & q' & E & Hq' & Hp & Hz & Ht').
  exists rs, q'. split_and!; [done|done| |done| |].
  - destruct Hq' as (_ & _ & _ & _ & _ & Hputs). by rewrite Ht' in Hputs.
  - unfold accounted in Hp. cbn in Hp. by rewrite app_nil_r in Hp.
  - rewrite (samples_length _ q' Hq'). destruct Hq' as (_ & _ & _ & -> & _). by rewrite Ht'.
Qed.

Lemma throttle_bounds_witness :
  let cs := [(5, (fun n => 0), Some 1); (6, (fun n => n - 1), Some 2); (12, (fun n => 0), None)] ++
            map (fun i => (20, (fun n => n / 2), Some i)) (seqZ 3 14) in
  exists q rs q', NewThrottlingQueue 1 0 = Some q /\ send_all (fun i => i <? 10) cs q = Some (rs, q') /\
    Forall (fun p => 0 < zlen p <= 1 * THROTTLE_BUCKET) (puts q') /\ zlen (puts q') <= changes 0 cs /\
    sent cs ≡ₚ concat (puts q') ++ samples q' ++ released q' ++ left_over q' /\
    zlen (samples q') = Z.min (periodCount q') (1 * THROTTLE_BUCKET).
Proof.
  apply throttle_bounds; [done|done|done|]. apply Forall_app. split.
  - repeat constructor; cbn; lia.
  - apply Forall_fmap, Forall_true. intros i n Hn. cbn. split; [apply Z.div_pos; lia|apply Z.div_lt; lia].
Defined.

(** * The leaky bucket *)

Section Leaky.
Import Bucket.

(** The tokens of one round at a rate: a tenth of it, one at least; a rate of zero is the
    largest one. *)
Definition per_round (r : Z) : Z := Z.max 1 ((if r =? 0 then MaxUint64 else r) / 10).

(** A rate at which the bucket is not asked. *)
Definition unlimited (r : Z) : bool := (r =? 0) || (r =? MaxUint64).

(** What callers give: machine integers. *)
Definition event_ok (e : event) : Prop := match e with Tick => True | Take n => is_u 64 n | Rate r => is_u 64 r end.

(** The rate in force after the events, and the one at the last round of the timer. *)
Definition rate_after (r : Z) (es : list event) : Z :=
  foldl (fun r e => match e with Rate r' => r' | _ => r end) r es.

Definition filled_at (r : Z) (es : list event) : Z :=
  (foldl (fun '(r, f) e => match e with Tick => (r, r) | Take _ => (r, f) | Rate r' => (r', f) end) (r, r) es).2.

(** The tokens that the events allow: those of the rounds, each at its rate, and what was
    asked for while there was no limit. *)
Fixpoint allowance (r : Z) (es : list event) : Z :=
  match es with
  | [] => 0
  | Tick :: es => per_round r + allowance r es
  | Take n :: es => (if unlimited r then n else 0) + allowance r es
  | Rate r' :: es => allowance r' es
  end.

(** A bucket at rate [r]. *)
Definition at_rate (r : Z) (b : LeakyBucket) : Prop :=
  (rate b =? MaxUint64) = unlimited r /\ interval b = 100 /\ multiple b = 10 /\
  quantity b = per_round r /\ full b = 10 * per_round r.

Lemma per_round_bound r : is_u 64 r -> 1 <= per_round r /\ 10 * per_round r < 2 ^ 64.
Proof.
  unfold is_u, per_round, MaxUint64. intros Hr.
  pose proof (Z.mul_div_le (if r =? 0 then 2 ^ 64 - 1 else r) 10 ltac:(lia)) as H.
  split; [lia|]. destruct (Z.eqb_spec r 0); lia.
Qed.

Lemma SetRate_at r r' b : is_u 64 r' -> at_rate r b -> at_rate r' (SetRate r' b) /\ token (SetRate r' b) = token b.
Proof.
  intros Hr (_ & Hi & Hm & _). pose proof (per_round_bound r' Hr) as Hp. split; [|done].
  assert ((if (if r' =? 0 then MaxUint64 else r') / 10 =? 0 then 1 else (if r' =? 0 then MaxUint64 else r') / 10)
    = per_round r') as Eq.
  { unfold per_round. assert (0 <= (if r' =? 0 then MaxUint64 else r') / 10).
    { apply Z.div_pos; [|lia]. unfold is_u, MaxUint64 in *. destruct (r' =? 0); lia. }
    destruct (Z.eqb_spec ((if r' =? 0 then MaxUint64 else r') / 10) 0); lia. }
  unfold at_rate, SetRate, per_second, unlimited. rewrite Hi, Hm. change (u64 (Z.quot 1000 100)) with 10.
  cbv zeta. cbn [rate interval multiple quantity full]. rewrite Eq. split_and!; [|done|done|done|].
  - destruct (Z.eqb_spec r' 0); done.
  - rewrite Z.mul_comm. apply wrap_small. unfold is_u. lia.
Qed.

Lemma Init_at r : is_u 64 r -> at_rate r (Init r) /\ token (Init r) = 10 * per_round r.
Proof.
  intros Hr. set (b0 := mkBucket (rate (mkBucket MaxUint64 100 0 0 0 10 false)) 100 0 (10 * per_round 0) (per_round 0) 10 false).
  destruct (SetRate_at 0 r b0 Hr) as [(E1 & E2 & E3 & E4 & E5) _]; [done|]. split; [|exact E5]. by split_and!.
Qed.

Lemma run_round_at r b : is_u 64 r -> at_rate r b -> 0 <= token b ->
  at_rate r (run_round b) /\ 0 <= token (run_round b) <= 10 * per_round r /\
  token (run_round b) <= token b + per_round r /\
  (token b + per_round r < 2 ^ 64 -> token (run_round b) = Z.min (10 * per_round r) (token b + per_round r)).
Proof.
  intros Hr Hb Ht. pose proof (per_round_bound r Hr). destruct Hb as (E1 & E2 & E3 & E4 & E5).
  unfold run_round. rewrite E4, E5. set (q := per_round r) in *.
  pose proof (wrap_range 64 (token b + q) ltac:(lia)) as Hw. unfold is_u in Hw.
  assert (u64 (token b + q) <= token b + q) by (apply Z.mod_le; lia).
  assert (token b + q < 2 ^ 64 -> u64 (token b + q) = token b + q) as Hs
    by (intros; apply wrap_small; unfold is_u; lia).
  destruct (Z.gtb_spec (u64 (token b + q)) (10 * q)); cbn [token set_token];
    (split; [exact (conj E1 (conj E2 (conj E3 (conj E4 E5))))|split_and!; lia]).
Qed.

Lemma Acquire_at r b n : is_u 64 n -> at_rate r b -> is_u 64 (token b) ->
  let '(ok, b') := Acquire n b in
  at_rate r b' /\ ok = unlimited r || (n <=? token b) /\
  token b' = (if negb (unlimited r) && ok then token b - n else token b).
Proof.
  intros Hn Hb Ht. unfold Acquire, take_token. rewrite (proj1 Hb). unfold is_u in *.
  destruct (unlimited r) eqn:Eu; [done|]. cbn [negb orb andb].
  destruct (Z.ltb_spec (token b) n), (Z.leb_spec n (token b)); try lia; [done|].
  split; [exact Hb|]. split; [done|]. cbn. apply wrap_small. unfold is_u. lia.
Qed.

Lemma events_ok es : Forall event_ok es -> forall r f b g, is_u 64 r -> at_rate r b -> 0 <= token b <= 10 * per_round f -> is_u 64 f ->
  let '(b', g') := foldl step (b, g) es in
  at_rate (rate_after r es) b' /\ is_u 64 (rate_after r es) /\ is_u 64 (token b') /\
  0 <= token b' <= 10 * per_round (foldl (fun '(r, f) e => match e with Tick => (r, r) | Take _ => (r, f) | Rate r' => (r', f) end) (r, f) es).2 /\
  g <= g' /\ g' + token b' <= g + token b + allowance r es.
Proof.
  induction 1 as [|e es He _ IH]; intros r f b g Hr Hb Ht Hf; cbn [foldl allowance rate_after snd].
  { pose proof (per_round_bound f Hf). split_and!; unfold is_u; try done; lia. }
  pose proof (per_round_bound f Hf) as Hpf. destruct e as [|n|r']; cbn [step] in *.
  - destruct (run_round_at r b Hr Hb ltac:(lia)) as (H1 & H2 & H3 & _).
    specialize (IH r r (run_round b) g Hr H1 H2 Hr). destruct (foldl step _ es) as [b' g'].
    destruct IH as (? & ? & ? & ? & ? & ?). split_and!; try done; lia.
  - pose proof (Acquire_at r b n He Hb ltac:(unfold is_u; lia)) as H. destruct (Acquire n b) as [ok b1].
    destruct H as (H1 & H2 & H3). unfold event_ok, is_u in He.
    assert (0 <= token b1 <= token b) as H4.
    { destruct (unlimited r), ok; cbn [negb andb orb] in *; try lia. }
    specialize (IH r f b1 (if ok then g + n else g) Hr H1 ltac:(lia) Hf). destruct (foldl step _ es) as [b' g'].
    destruct IH as (? & ? & ? & ? & ? & ?). destruct (unlimited r), ok; cbn [negb andb orb] in *; split_and!; try done; lia.
  - destruct (SetRate_at r r' b He Hb) as [H1 H2]. specialize (IH r' f (SetRate r' b) g He H1 ltac:(by rewrite H2) Hf).
    destruct (foldl step _ es) as [b' g']. rewrite H2 in IH. exact IH.
Qed.
End Leaky.

(** C29: a bucket gives out no more than its rates allow.  For any rate, any requests and any
    changes of the rate, in any order with the timer, which fires ten times per second: the
    tokens given out are at most those of ten rounds at the first rate, those of each
    round of the timer at the rate of that time, and what was asked for while the rate was
    zero or 2^64 - 1, which stand for no limit.  A round is worth a tenth of the rate, but
    one token at least.  The bucket holds at most the tokens of ten rounds at the rate of the last
    round of the timer; the next round fills it by one round up to ten, unless the sum
    leaves 64 bits; and a request is refused only if there is a limit and the bucket holds
    less. *)
Theorem leaky_rate r es :
  is_u 64 r -> Forall event_ok es ->
  let '(b, granted) := foldl Bucket.step (Bucket.Init r, 0) es in
  let q := per_round (rate_after r es) in
  0 <= granted <= 10 * per_round r + allowance r es /\
  0 <= Bucket.token b <= 10 * per_round (filled_at r es) /\
  (Bucket.token b + q < 2 ^ 64 ->
   Bucket.token (Bucket.run_round b) = Z.min (10 * q) (Bucket.token b + q)) /\
  forall n, is_u 64 n ->
    (Bucket.Acquire n b).1 = unlimited (rate_after r es) || (n <=? Bucket.token b).
Proof.
  intros Hr Hes. destruct (Init_at r Hr) as [Hb Ht]. pose proof (per_round_bound r Hr) as Hp.
  pose proof (events_ok es Hes r r (Bucket.Init r) 0 Hr Hb ltac:(lia) Hr) as H. rewrite Ht in H.
  destruct (foldl Bucket.step _ es) as [b g]. destruct H as (H1 & H2 & Htb & H3 & H4 & H5). cbv zeta. split_and!; [lia|lia|apply H3|apply H3| |].
  - apply run_round_at; [done|done|lia].
  - intros n Hn. pose proof (Acquire_at _ b n Hn H1 Htb) as Ha. destruct (Bucket.Acquire n b). apply Ha.
Qed.

(** At a rate of 100 a lower rate leaves the tokens, and a rate of zero has no limit. *)
Lemma leaky_rate_witness :
  let es := [Bucket.Take 60; Bucket.Rate 5; Bucket.Take 35; Bucket.Tick; Bucket.Rate 0; Bucket.Take 1000] in
  let '(b, granted) := foldl Bucket.step (Bucket.Init 100, 0) es in
  granted = 1095 /\ 0 <= granted <= 10 * per_round 100 + allowance 100 es /\
  0 <= Bucket.token b <= 10 * per_round (filled_at 100 es).
Proof.
  pose proof (leaky_rate 100 [Bucket.Take 60; Bucket.Rate 5; Bucket.Take 35; Bucket.Tick; Bucket.Rate 0; Bucket.Take 1000]) as H.
  cbv zeta in H |- *. assert (foldl Bucket.step (Bucket.Init 100, 0)
    [Bucket.Take 60; Bucket.Rate 5; Bucket.Take 35; Bucket.Tick; Bucket.Rate 0; Bucket.Take 1000]
    = (Bucket.mkBucket (2 ^ 64 - 1) 100 6 (2 ^ 64 - 6) ((2 ^ 64 - 1) / 10) 10 true, 1095)) as E by (vm_compute; reflexivity).
  rewrite E in H |- *. destruct H as (H1 & H2 & _); [unfold is_u; lia| |].
  - repeat constructor; cbn; lia.
  - by split_and!.
Defined.
