(* ===== verification/Receiver.v ===== *)
(** The receiver of the server ([server/libs/receiver/receiver.go]): frames of agents from
    UDP datagrams and TCP connections ([server/libs/datatype/droplet-message.go]), with
    the queues and the caches in front of them that it hands their buffers to, the
    record of the agents that were heard of, and the counters.

    One round of a loop of the code is one step: the rounds of the UDP thread, of
    the threads of TCP connections and of the ticker run in any order.  A connection
    is the list of what its reads will return; the pool may hand out any buffer, so the
    bytes in it are an argument of a round. *)

From stdpp Require Import strings.
From S2P Require Import Prelude Strconv Queue Tag Expand Platform Drop Roze.

#[local] Open Scope string_scope.
#[local] Open Scope list_scope.
#[local] Open Scope Z_scope.

(** * Messages *)

Definition MESSAGE_TYPE_COMPRESS : Z := 0.
Definition MESSAGE_TYPE_SYSLOG : Z := 1.
Definition MESSAGE_TYPE_STATSD : Z := 2.
Definition MESSAGE_TYPE_METRICS : Z := 3.
Definition MESSAGE_TYPE_TAGGEDFLOW : Z := 4.
Definition MESSAGE_TYPE_PROTOCOLLOG : Z := 5.
Definition MESSAGE_TYPE_OPENTELEMETRY : Z := 6.
Definition MESSAGE_TYPE_PROMETHEUS : Z := 7.
Definition MESSAGE_TYPE_TELEGRAF : Z := 8.
Definition MESSAGE_TYPE_PACKETSEQUENCE : Z := 9.
Definition MESSAGE_TYPE_DFSTATSD : Z := 10.
Definition MESSAGE_TYPE_MAX : Z := 11.

Inductive MessageHeaderType :=
  | HEADER_TYPE_LT
  | HEADER_TYPE_LT_NOCHECK
  | HEADER_TYPE_LT_VTAP
  | HEADER_TYPE_UNKNOWN.

#[export] Instance MessageHeaderType_eq : EqDecision MessageHeaderType.
Proof. solve_decision. Defined.

(** An array; the type that it does not name has the zero value. *)
Definition MessageHeaderTypes : list MessageHeaderType :=
  [HEADER_TYPE_LT; HEADER_TYPE_LT_NOCHECK; HEADER_TYPE_LT_NOCHECK;
   HEADER_TYPE_LT_VTAP; HEADER_TYPE_LT_VTAP; HEADER_TYPE_LT_VTAP;
   HEADER_TYPE_LT_VTAP; HEADER_TYPE_LT_VTAP; HEADER_TYPE_LT_VTAP;
   HEADER_TYPE_LT; HEADER_TYPE_LT_NOCHECK].

Definition HeaderType (m : Z) : MessageHeaderType :=
  if m <? MESSAGE_TYPE_MAX then default HEADER_TYPE_UNKNOWN (MessageHeaderTypes !! Z.to_nat m)
  else HEADER_TYPE_UNKNOWN.

Definition MESSAGE_FRAME_SIZE_MAX : Z := 512000.

Definition MESSAGE_FRAME_SIZE_OFFSET : Z := 0.
Definition MESSAGE_TYPE_OFFSET : Z := MESSAGE_FRAME_SIZE_OFFSET + 4.
Definition MESSAGE_VALUE_OFFSET : Z := MESSAGE_TYPE_OFFSET + 1.
Definition MESSAGE_HEADER_LEN : Z := MESSAGE_VALUE_OFFSET.

Definition FLOW_VERSION_OFFSET : Z := 0.
Definition FLOW_SEQUENCE_OFFSET : Z := FLOW_VERSION_OFFSET + 4.
Definition FLOW_VTAPID_OFFSET : Z := FLOW_SEQUENCE_OFFSET + 8.
Definition FLOW_HEADER_LEN : Z := FLOW_VTAPID_OFFSET + 2.

Record BaseHeader := mkBaseHeader { FrameSize : Z; Type_ : Z }.

Record FlowHeader := mkFlowHeader { Version : Z; Sequence : Z; VTAPID : Z }.

(** Bytes written into a slice at an offset, and read from it; panics past its end. *)
Definition put_at (chunk : list Z) (i : Z) (b : list Z) : option (list Z) :=
  if i + zlen b <=? zlen chunk then Some (take (Z.to_nat i) chunk ++ b ++ drop (Z.to_nat (i + zlen b)) chunk)
  else None.

Definition get_at (buf : list Z) (i n : Z) : option (list Z) :=
  if i + n <=? zlen buf then Some (Prelude.slice buf i n) else None.

Definition BaseHeader_Encode (h : BaseHeader) (chunk : list Z) : option (list Z) :=
  chunk ← put_at chunk MESSAGE_FRAME_SIZE_OFFSET (be_put 4 (FrameSize h));
  put_at chunk MESSAGE_TYPE_OFFSET [Type_ h].

(** The header, and whether there is an error. *)
Definition BaseHeader_Decode (buf : list Z) : option (BaseHeader * bool) :=
  size ← get_at buf MESSAGE_FRAME_SIZE_OFFSET 4;
  type ← get_at buf MESSAGE_TYPE_OFFSET 1;
  let h := mkBaseHeader (be_get size) (be_get type) in
  Some (h,
    match HeaderType (Type_ h) with
    | HEADER_TYPE_LT => FrameSize h <=? MESSAGE_HEADER_LEN
    | HEADER_TYPE_LT_NOCHECK => false
    | HEADER_TYPE_LT_VTAP => FrameSize h <? MESSAGE_HEADER_LEN + FLOW_HEADER_LEN
    | HEADER_TYPE_UNKNOWN => true
    end).

Definition FlowHeader_Encode (h : FlowHeader) (chunk : list Z) : option (list Z) :=
  chunk ← put_at chunk FLOW_VERSION_OFFSET (le_put 4 (Version h));
  chunk ← put_at chunk FLOW_SEQUENCE_OFFSET (le_put 8 (Sequence h));
  put_at chunk FLOW_VTAPID_OFFSET (le_put 2 (VTAPID h)).

Definition FlowHeader_Decode (buf : list Z) : option FlowHeader :=
  version ← get_at buf FLOW_VERSION_OFFSET 4;
  sequence ← get_at buf FLOW_SEQUENCE_OFFSET 8;
  vtap ← get_at buf FLOW_VTAPID_OFFSET 2;
  Some (mkFlowHeader (le_get version) (le_get sequence) (le_get vtap)).

(** * Agents that were heard of *)

Inductive ServerType := UDP | TCP | BOTH.

#[export] Instance ServerType_eq : EqDecision ServerType.
Proof. solve_decision. Defined.

Record Status := mkStatus {
  st_msgType : Z;
  st_VTAPID : Z;
  st_serverType : ServerType;
  st_ip : list Z;
  lastSeq : Z;
  lastRemoteTimestamp : Z;
  LastLocalTimestamp : Z;
  firstSeq : Z;
  firstRemoteTimestamp : Z;
  firstLocalTimestamp : Z
}.

Definition NewStatus (now msgType vtapID : Z) (ip : list Z) (seq timestamp : Z) (serverType : ServerType) : Status :=
  mkStatus msgType vtapID serverType ip seq timestamp now seq timestamp now.

Definition Status_update (s : Status) (now msgType vtapID : Z) (ip : list Z) (seq timestamp : Z)
    (serverType : ServerType) : Status :=
  mkStatus msgType vtapID serverType ip seq timestamp now (firstSeq s) (firstRemoteTimestamp s) (firstLocalTimestamp s).

(** The fields of one protocol.  A pointer to a status is its place among all. *)
Record Side := mkSide {
  lastUpdate : Z;
  MetrisStatus : list nat;
  StatusFlow : list (gmap Z nat);
  StatusOthers : list (gmap string nat)
}.

Record AdapterStatus := mkAdapterStatus { statuses : list Status; udp_side : Side; tcp_side : Side }.

Definition new_Side : Side :=
  mkSide 0 [] (replicate (Z.to_nat MESSAGE_TYPE_MAX) ∅) (replicate (Z.to_nat MESSAGE_TYPE_MAX) ∅).

(** The maps are made by [init]. *)
Definition AdapterStatus_init : AdapterStatus := mkAdapterStatus [] new_Side new_Side.

Definition side_of (t : ServerType) (s : AdapterStatus) : Side :=
  match t with UDP => udp_side s | _ => tcp_side s end.

Definition set_side (t : ServerType) (s : AdapterStatus) (heap : list Status) (x : Side) : AdapterStatus :=
  match t with
  | UDP => mkAdapterStatus heap x (tcp_side s)
  | _ => mkAdapterStatus heap (udp_side s) x
  end.

Definition RECORD_STATUS_TIMEOUT : Z := 30.

(** Updates the status that the key has, or makes one. *)
Definition record_status {K M} `{Lookup K nat M} `{Insert K nat M} (heap : list Status) (table : list M) (msgType : Z)
    (key : K) (update : Status -> Status) (new : Status) : option (list Status * list M) :=
  m ← table !! Z.to_nat msgType;
  match m !! key with
  | Some p => st ← heap !! p; Some (<[p := update st]> heap, table)
  | None => Some (heap ++ [new], <[Z.to_nat msgType := <[key := length heap]> m]> table)
  end.

Section Receiver.
(** The order in which a loop over a map visits its keys. *)
Context (range_order : list Z -> list Z).

(** The pointers of the map of the metrics. *)
Definition metrics_pointers (x : Side) : list nat :=
  let m := default ∅ (StatusFlow x !! Z.to_nat MESSAGE_TYPE_METRICS) in
  omap (fun k => m !! k) (range_order (map_to_list m).*1).

Definition AdapterStatus_Update (s : AdapterStatus) (now msgType vtapID : Z) (ip : list Z) (seq timestamp : Z)
    (serverType : ServerType) : option AdapterStatus :=
  let x := side_of serverType s in
  let update st := Status_update st now msgType vtapID ip seq timestamp serverType in
  let new := NewStatus now msgType vtapID ip seq timestamp serverType in
  r ← (if negb (vtapID =? 0) then
         r ← record_status (statuses s) (StatusFlow x) msgType vtapID update new;
         Some (r.1, mkSide (lastUpdate x) (MetrisStatus x) r.2 (StatusOthers x))
       else
         r ← record_status (statuses s) (StatusOthers x) msgType (IP_String ip) update new;
         Some (r.1, mkSide (lastUpdate x) (MetrisStatus x) (StatusFlow x) r.2));
  let '(heap, x) := (r : list Status * Side) in
  let x := if u32 (now - lastUpdate x) >? RECORD_STATUS_TIMEOUT
           then mkSide now (metrics_pointers x) (StatusFlow x) (StatusOthers x) else x in
  Some (set_side serverType s heap x).

(** * The receiver *)

Definition RECV_BUFSIZE : Z := MESSAGE_FRAME_SIZE_MAX.
Definition QUEUE_CACHE_FLUSH_TIMEOUT : Z := 3.
Definition DROP_DETECT_WINDOW_SIZE : Z := 1024.
Definition QUEUE_BATCH_NUM : Z := 16.
Definition LOG_INTERVAL : Z := 10.

Record QueueCache := mkQueueCache { values : list RecvBuffer; timestamp : Z }.

Record Handler := mkHandler {
  msgType : Z;
  out_queues : MultiQueue RecvBuffer;
  nQueues : Z;
  queueUDPCaches : list QueueCache;
  queueTCPCaches : list QueueCache
}.

Record ReceiverCounter := mkReceiverCounter {
  Invalid : Z;
  RxPackets : Z;
  MaxDelay : Z;
  MinDelay : Z;
  UDPDropped : Z;
  UDPDisorder : Z;
  UDPDisorderSize : Z
}.

Context {W : Type} `{!Clock W}.

(** The receiver, the clock, and the buffers that it gave back to the pool. *)
Record Receiver := mkReceiver {
  drops : DropDetection;
  handlers : list (option Handler);
  lastUDPFlushTime : Z;
  lastTCPFlushTime : Z;
  timeNow : Z;
  lastLogTime : Z;
  lastTCPLogTime : Z;
  dropLogCount : Z;
  exit : bool;
  closed : bool;
  counter : ReceiverCounter;
  status : AdapterStatus;
  clock : W;
  pool : list RecvBuffer
}.

Definition set_drops r d := mkReceiver d (handlers r) (lastUDPFlushTime r) (lastTCPFlushTime r) (timeNow r)
  (lastLogTime r) (lastTCPLogTime r) (dropLogCount r) (exit r) (closed r) (counter r) (status r) (clock r) (pool r).
Definition set_handlers r l := mkReceiver (drops r) l (lastUDPFlushTime r) (lastTCPFlushTime r) (timeNow r)
  (lastLogTime r) (lastTCPLogTime r) (dropLogCount r) (exit r) (closed r) (counter r) (status r) (clock r) (pool r).
Definition set_flush r u t := mkReceiver (drops r) (handlers r) u t (timeNow r)
  (lastLogTime r) (lastTCPLogTime r) (dropLogCount r) (exit r) (closed r) (counter r) (status r) (clock r) (pool r).
Definition set_now r n := mkReceiver (drops r) (handlers r) (lastUDPFlushTime r) (lastTCPFlushTime r) n
  (lastLogTime r) (lastTCPLogTime r) (dropLogCount r) (exit r) (closed r) (counter r) (status r) (clock r) (pool r).
Definition set_log r u t n := mkReceiver (drops r) (handlers r) (lastUDPFlushTime r) (lastTCPFlushTime r) (timeNow r)
  u t n (exit r) (closed r) (counter r) (status r) (clock r) (pool r).
Definition set_exit r e c := mkReceiver (drops r) (handlers r) (lastUDPFlushTime r) (lastTCPFlushTime r) (timeNow r)
  (lastLogTime r) (lastTCPLogTime r) (dropLogCount r) e c (counter r) (status r) (clock r) (pool r).
Definition set_counter r c := mkReceiver (drops r) (handlers r) (lastUDPFlushTime r) (lastTCPFlushTime r) (timeNow r)
  (lastLogTime r) (lastTCPLogTime r) (dropLogCount r) (exit r) (closed r) c (status r) (clock r) (pool r).
Definition set_status r s := mkReceiver (drops r) (handlers r) (lastUDPFlushTime r) (lastTCPFlushTime r) (timeNow r)
  (lastLogTime r) (lastTCPLogTime r) (dropLogCount r) (exit r) (closed r) (counter r) s (clock r) (pool r).
Definition set_clock r w := mkReceiver (drops r) (handlers r) (lastUDPFlushTime r) (lastTCPFlushTime r) (timeNow r)
  (lastLogTime r) (lastTCPLogTime r) (dropLogCount r) (exit r) (closed r) (counter r) (status r) w (pool r).
Definition set_pool r l := mkReceiver (drops r) (handlers r) (lastUDPFlushTime r) (lastTCPFlushTime r) (timeNow r)
  (lastLogTime r) (lastTCPLogTime r) (dropLogCount r) (exit r) (closed r) (counter r) (status r) (clock r) l.

Definition M : Type -> Type := ST Receiver.

Definition NewReceiver (now : Z) (w : W) : Receiver :=
  mkReceiver (Drop.Init "receiver" DROP_DETECT_WINDOW_SIZE) (replicate (Z.to_nat MESSAGE_TYPE_MAX) None) 0 0 now 0 0 0
    false false (mkReceiverCounter 0 0 0 0 0 0 0) AdapterStatus_init w [].

(** [make] panics for a negative length, and the array of handlers outside of it. *)
Definition RegistHandler (t : Z) (outQueues : MultiQueue RecvBuffer) (n : Z) : M unit :=
  if (n <? 0) || (t >=? MESSAGE_TYPE_MAX) then panic
  else
    let caches := replicate (Z.to_nat n) (mkQueueCache [] 0) in
    modify (fun r => set_handlers r (<[Z.to_nat t := Some (mkHandler t outQueues n caches caches)]> (handlers r))).

Definition Receiver_GetCounter : M ReceiverCounter :=
  r ← get_state;
  let '(dropCounter, d) := Drop.GetCounter (drops r) in
  let c := counter r in
  modify (fun r => set_drops (set_counter r (mkReceiverCounter 0 0 (-3600) 3600 0 0 0)) d) ;;
  mret (mkReceiverCounter (Invalid c) (RxPackets c) (MaxDelay c) (MinDelay c)
          (Dropped dropCounter) (Disorder dropCounter) (DisorderSize dropCounter)).

Definition updateCounter (metriTimestamp : Z) : M unit :=
  modify (fun r =>
    let delay := i64 (timeNow r - metriTimestamp) in
    let c := counter r in
    let hi := if MaxDelay c <? delay then delay else MaxDelay c in
    let lo := if MinDelay c >? delay then delay else MinDelay c in
    set_counter r (mkReceiverCounter (Invalid c) (RxPackets c) hi lo (UDPDropped c) (UDPDisorder c) (UDPDisorderSize c))).

Definition count_invalid : M unit :=
  modify (fun r =>
    let c := counter r in
    set_counter r (mkReceiverCounter (u64 (Invalid c + 1)) (RxPackets c) (MaxDelay c) (MinDelay c) (UDPDropped c)
                     (UDPDisorder c) (UDPDisorderSize c))).

Definition count_packet : M unit :=
  modify (fun r =>
    let c := counter r in
    set_counter r (mkReceiverCounter (Invalid c) (u64 (RxPackets c + 1)) (MaxDelay c) (MinDelay c) (UDPDropped c)
                     (UDPDisorder c) (UDPDisorderSize c))).

(** A tick of [timeNowTicker]. *)
Definition read_clock : M Z :=
  r ← get_state;
  let '(n, w) := Unix (clock r) in
  modify (fun r => set_clock r w) ;; mret n.

Definition timeNowTicker_round : M unit :=
  r ← get_state;
  if exit r then mret tt else n ← read_clock; modify (fun r => set_now r n).

Definition ReleaseRecvBuffer (b : RecvBuffer) : M unit :=
  modify (fun r => set_pool r (pool r ++ [mkRecvBuffer 0 0 (Recv_Buffer b) [] 0])).

(** ** Queues *)

(** The caches of a protocol. *)
Definition caches_of (p : ServerType) (h : Handler) : list QueueCache :=
  match p with UDP => queueUDPCaches h | _ => queueTCPCaches h end.

Definition set_caches (p : ServerType) (h : Handler) (q : MultiQueue RecvBuffer) (l : list QueueCache) : Handler :=
  match p with
  | UDP => mkHandler (msgType h) q (nQueues h) l (queueTCPCaches h)
  | _ => mkHandler (msgType h) q (nQueues h) (queueUDPCaches h) l
  end.

(** The handler of a type, which the caller has found. *)
Definition handler (t : Z) : M Handler :=
  r ← get_state; of_option (handlers r !! Z.to_nat t ≫= id).

Definition set_handler (t : Z) (h : Handler) : M unit :=
  modify (fun r => set_handlers r (<[Z.to_nat t := Some h]> (handlers r))).

(** Hands what a cache holds to its queue; an error of the queue is ignored. *)
Definition put_values (p : ServerType) (h : Handler) (k : Z) (c : QueueCache) (stamp : Z) : option Handler :=
  r ← Multi_Put (out_queues h) (u8 k) (Some <$> values c);
  Some (set_caches p h r.2 (<[Z.to_nat k := mkQueueCache [] stamp]> (caches_of p h))).

(** [putUDPQueue] and [putTCPQueue], which takes a lock.  [%] rounds to zero and panics
    for zero; so does an index below zero. *)
Definition putQueue (p : ServerType) (hash t : Z) (buffer : RecvBuffer) : M unit :=
  h ← handler t;
  r ← get_state;
  let hashKey := Z.rem hash (nQueues h) in
  if (nQueues h =? 0) || (hashKey <? 0) then panic
  else
    c ← of_option (caches_of p h !! Z.to_nat hashKey);
    h ← of_option (
      if (zlen (values c) >=? QUEUE_BATCH_NUM) || (i64 (timeNow r - timestamp c) >? QUEUE_CACHE_FLUSH_TIMEOUT) then
        if zlen (values c) >? 0 then put_values p h hashKey c (timeNow r)
        else Some (set_caches p h (out_queues h) (<[Z.to_nat hashKey := mkQueueCache (values c) (timeNow r)]> (caches_of p h)))
      else Some h);
    c ← of_option (caches_of p h !! Z.to_nat hashKey);
    set_handler t (set_caches p h (out_queues h)
      (<[Z.to_nat hashKey := mkQueueCache (values c ++ [buffer]) (timestamp c)]> (caches_of p h))).

Definition putUDPQueue : Z -> Z -> RecvBuffer -> M unit := putQueue UDP.
Definition putTCPQueue : Z -> Z -> RecvBuffer -> M unit := putQueue TCP.

(** A cache of a handler; the clock is read only when there is something to hand over. *)
Definition flush_cache (p : ServerType) (t k : Z) : M unit :=
  h ← handler t;
  c ← of_option (caches_of p h !! Z.to_nat k);
  if zlen (values c) >? 0 then
    n ← read_clock;
    h ← of_option (put_values p h k c n);
    set_handler t h
  else mret tt.

Definition flush_handler (p : ServerType) (t : Z) : M unit :=
  r ← get_state;
  match handlers r !! Z.to_nat t with
  | Some (Some h) => for_each (flush_cache p t) (seqZ 0 (nQueues h))
  | _ => mret tt
  end.

Definition last_flush (p : ServerType) (r : Receiver) : Z :=
  match p with UDP => lastUDPFlushTime r | _ => lastTCPFlushTime r end.

Definition flushQueues (p : ServerType) : M unit :=
  r ← get_state;
  if i64 (timeNow r - last_flush p r) <? QUEUE_CACHE_FLUSH_TIMEOUT then mret tt
  else
    for_each (flush_handler p) (seqZ 0 (zlen (handlers r))) ;;
    modify (fun r => match p with
                     | UDP => set_flush r (timeNow r) (lastTCPFlushTime r)
                     | _ => set_flush r (lastUDPFlushTime r) (timeNow r)
                     end).

Definition flushPutUDPQueues : M unit := flushQueues UDP.
Definition flushPutTCPQueues : M unit := flushQueues TCP.

(** ** Agents for the controller *)

Definition status_at (r : Receiver) (p : nat) : option Status := statuses (status r) !! p.

(** The first status of the other protocol with the same agent, if any. *)
Definition same_agent (l : list Status) (s : Status) : option Status :=
  List.find (fun x => st_VTAPID s =? st_VTAPID x) l.

Definition GetTridentStatus (r : Receiver) : list Status :=
  let UDPStatus := omap (status_at r) (MetrisStatus (udp_side (status r))) in
  let TCPStatus := omap (status_at r) (MetrisStatus (tcp_side (status r))) in
  ((fun us => match same_agent TCPStatus us with
              | Some ts => if lastRemoteTimestamp us >? lastRemoteTimestamp ts then us else ts
              | None => us
              end) <$> UDPStatus)
  ++ filter (fun ts => same_agent UDPStatus ts = None) TCPStatus.

(** ** Frames *)

Definition app_VERSION : Z := 20220117.
Definition datatype_VERSION : Z := 20220128.
Definition LAST_SIMPLE_CODEC_VERSION : Z := 20220111.

(** Whether there is an error. *)
Definition ValidateFlowVersion (t version : Z) : bool :=
  if t =? MESSAGE_TYPE_METRICS then negb (version =? app_VERSION)
  else if (t =? MESSAGE_TYPE_TAGGEDFLOW) || (t =? MESSAGE_TYPE_PROTOCOLLOG) then negb (version =? datatype_VERSION)
  else false.

Definition logReceiveError : M unit :=
  count_invalid ;;
  modify (fun r =>
    if i64 (timeNow r - lastLogTime r) <? LOG_INTERVAL
    then set_log r (lastLogTime r) (lastTCPLogTime r) (i64 (dropLogCount r + 1))
    else set_log r (timeNow r) (lastTCPLogTime r) (dropLogCount r)).

Definition logTCPReceiveInvalidData : M unit :=
  count_invalid ;;
  modify (fun r =>
    if i64 (timeNow r - lastTCPLogTime r) <? LOG_INTERVAL
    then set_log r (lastLogTime r) (lastTCPLogTime r) (i64 (dropLogCount r + 1))
    else set_log r (lastLogTime r) (timeNow r) (dropLogCount r)).

Definition is_registered (t : Z) : M bool :=
  r ← get_state;
  h ← of_option (handlers r !! Z.to_nat t);
  mret (match h with Some _ => true | None => false end).

(** [utils.GetIpHash]: the words of the address. *)
Definition GetIpHash (ip : list Z) : Z :=
  foldl (fun h i => Z.lxor h (le_get (Prelude.slice ip (4 * i) 4))) 0 (seqZ 0 ((zlen ip + 3) / 4)).

Definition getIpHash (ip : list Z) : Z :=
  let ipU32 := IpToUint32 (default [] (To4 ip)) in
  if negb (ipU32 =? 0) then ipU32 else GetIpHash ip.

Definition getMetricsTimestamp (buffer : list Z) : M Z :=
  if zlen buffer >=? 4 then mret (le_get (Prelude.slice buffer 0 4))
  else n ← read_clock; mret (u32 n).

Definition status_Update (t vtapID : Z) (ip : list Z) (seq timestamp : Z) (p : ServerType) : M unit :=
  r ← get_state;
  s ← of_option (AdapterStatus_Update (status r) (u32 (timeNow r)) t vtapID ip seq timestamp p);
  modify (fun r => set_status r s).

Definition detect (id seq timestamp : Z) : M unit :=
  r ← get_state;
  d ← of_option (Detect id seq timestamp (drops r));
  modify (fun r => set_drops r d).

(** *** UDP *)

(** What a read of the socket gives. *)
Inductive udp_read :=
  | ReadTimeout
  | ReadError
  | Datagram (bytes : list Z) (remote : list Z).

(** A read puts what fits at the start of a buffer. *)
Definition fill (buffer bytes : list Z) : list Z := take (length buffer) bytes ++ drop (length bytes) buffer.

(** The flow header of a datagram; [None] when it is refused. *)
Definition udp_flow_header (h : BaseHeader) (recv : RecvBuffer) (remote : list Z) : M (option (Z * Z * Z)) :=
  f ← of_option (FlowHeader_Decode (drop (Z.to_nat MESSAGE_HEADER_LEN) (Recv_Buffer recv)));
  let bad := ValidateFlowVersion (Type_ h) (Version f) in
  (if bad then logReceiveError else mret tt) ;;
  if bad && (Version f <=? LAST_SIMPLE_CODEC_VERSION) then ReleaseRecvBuffer recv ;; mret None
  else if Type_ h =? MESSAGE_TYPE_METRICS then
    ts ← getMetricsTimestamp (drop (Z.to_nat (MESSAGE_HEADER_LEN + FLOW_HEADER_LEN)) (Recv_Buffer recv));
    updateCounter ts ;;
    detect (getIpHash remote) (Sequence f) ts ;;
    mret (Some (VTAPID f, Sequence f, ts))
  else mret (Some (VTAPID f, Sequence f, 0)).

(** A datagram whose base header was read. *)
Definition udp_message (h : BaseHeader) (recv : RecvBuffer) (size : Z) (remote : list Z) : M unit :=
  let vtap := bool_decide (HeaderType (Type_ h) = HEADER_TYPE_LT_VTAP) in
  let headerLen := if vtap then MESSAGE_HEADER_LEN + FLOW_HEADER_LEN else MESSAGE_HEADER_LEN in
  f ← (if vtap then udp_flow_header h recv remote else mret (Some (0, 0, 0)));
  match (f : option (Z * Z * Z)) with
  | None => mret tt
  | Some (vtapID, sequence, metricsTimestamp) =>
      status_Update (Type_ h) vtapID remote sequence metricsTimestamp UDP ;;
      r ← get_state;
      putUDPQueue (i64 (RxPackets (counter r))) (Type_ h)
        (mkRecvBuffer headerLen (if Type_ h =? MESSAGE_TYPE_COMPRESS then FrameSize h else size) (Recv_Buffer recv) remote vtapID)
  end.

Definition udp_datagram (pooled bytes remote : list Z) : M unit :=
  let recv := mkRecvBuffer 0 0 (fill pooled bytes) [] 0 in
  let size := Z.min (zlen bytes) (zlen pooled) in
  if size <? MESSAGE_HEADER_LEN then
    ReleaseRecvBuffer recv ;; flushPutUDPQueues ;; logReceiveError
  else
    d ← of_option (BaseHeader_Decode (Recv_Buffer recv));
    let '(h, err) := (d : BaseHeader * bool) in
    if err then ReleaseRecvBuffer recv ;; logReceiveError
    else
      known ← is_registered (Type_ h);
      if negb known then ReleaseRecvBuffer recv ;; logReceiveError
      else udp_message h recv size remote.

(** A round of [ProcessUDPServer], with the buffer from the pool and the read. *)
Definition ProcessUDPServer_round (pooled : list Z) (read : udp_read) : M unit :=
  r ← get_state;
  if exit r then mret tt
  else
    match read with
    | ReadTimeout => ReleaseRecvBuffer (mkRecvBuffer 0 0 pooled [] 0) ;; flushPutUDPQueues
    | ReadError => ReleaseRecvBuffer (mkRecvBuffer 0 0 pooled [] 0) ;; flushPutUDPQueues ;; logReceiveError
    | Datagram bytes remote => udp_datagram pooled bytes remote
    end.

(** *** TCP *)

(** The address of "192.0.2.1:25" or "[2001:db8::1]:80"; nil is empty. *)
Definition parseRemoteIP `{!NetText} (remoteAddr : string) : list Z :=
  match String.index 0 "[" remoteAddr with
  | Some lft =>
      match String.index 0 "]" remoteAddr with
      | Some rgt =>
          if (lft <? rgt)%nat then default [] (ParseIP (String.substring (S lft) (rgt - S lft) remoteAddr)) else []
      | None => []
      end
  | None => default [] (ParseIP (default "" (head (Split ":" remoteAddr))))
  end.

(** What the reads of a connection will return, until it ends with an error. *)
Definition conn : Type := list (list Z).

(** A read of at most [n] bytes returns one at least. *)
Fixpoint conn_Read (n : nat) (c : conn) : option (list Z * conn) :=
  match c with
  | [] => None
  | [] :: c => conn_Read n c
  | chunk :: c => Some (take n chunk, drop n chunk :: c)
  end.

(** The loop of [ReadN] with [n] bytes to go; [None] is an error. *)
Fixpoint ReadN_loop (rounds n : nat) (c : conn) : option (list Z) * conn :=
  match n, rounds with
  | O, _ => (Some [], c)
  | _, O => (None, c)
  | _, S rounds =>
      match conn_Read n c with
      | None => (None, [])
      | Some (b, c) =>
          let '(rest, c) := ReadN_loop rounds (n - length b) c in
          ((fun rest => b ++ rest) <$> rest, c)
      end
  end.

(** Every read takes one of the bytes. *)
Definition ReadN (n : Z) (c : conn) : option (list Z) * conn := ReadN_loop (Z.to_nat n) (Z.to_nat n) c.

(** The flow header of a frame; [None] when the connection is closed. *)
Definition tcp_flow_header (h : BaseHeader) (c : conn) : M (option (FlowHeader * conn)) :=
  let '(b, c) := ReadN FLOW_HEADER_LEN c in
  match b with
  | None => count_invalid ;; mret None
  | Some b =>
      f ← of_option (FlowHeader_Decode b);
      if ValidateFlowVersion (Type_ h) (Version f) then
        count_invalid ;;
        if Version f <=? LAST_SIMPLE_CODEC_VERSION then mret None
        else
          modify (fun r => if i64 (timeNow r - lastLogTime r) >? LOG_INTERVAL
                           then set_log r (timeNow r) (lastTCPLogTime r) (dropLogCount r) else r) ;;
          mret (Some (f, c))
      else mret (Some (f, c))
  end.

(** The bytes behind the headers.  What a failed read leaves in the buffer is not recorded:
    the pool may hand out any bytes. *)
Definition tcp_payload (ip pooled : list Z) (h : BaseHeader) (headerLen vtapID sequence : Z) (c : conn) : M (option conn) :=
  let dataLen := FrameSize h - headerLen in
  if dataLen >? RECV_BUFSIZE then logTCPReceiveInvalidData ;; mret None
  else if (dataLen <? 0) || (zlen pooled <? dataLen) then panic
  else
    let '(b, c) := ReadN dataLen c in
    match b with
    | None => count_invalid ;; ReleaseRecvBuffer (mkRecvBuffer 0 0 pooled [] 0) ;; mret None
    | Some b =>
        let buffer := fill pooled b in
        metricsTimestamp ← (if Type_ h =? MESSAGE_TYPE_METRICS
                            then ts ← getMetricsTimestamp buffer; updateCounter ts ;; mret ts else mret 0);
        status_Update (Type_ h) vtapID ip sequence metricsTimestamp TCP ;;
        count_packet ;;
        r ← get_state;
        putTCPQueue (i64 (RxPackets (counter r))) (Type_ h) (mkRecvBuffer 0 dataLen buffer ip vtapID) ;;
        mret (Some c)
    end.

(** A frame whose base header was read. *)
Definition tcp_message (ip pooled : list Z) (h : BaseHeader) (c : conn) : M (option conn) :=
  if FrameSize h =? MESSAGE_HEADER_LEN + FLOW_HEADER_LEN then
    let '(_, c) := ReadN FLOW_HEADER_LEN c in count_invalid ;; mret (Some c)
  else
    known ← is_registered (Type_ h);
    if negb known then count_invalid ;; mret None
    else if bool_decide (HeaderType (Type_ h) = HEADER_TYPE_LT_VTAP) then
      f ← tcp_flow_header h c;
      match (f : option (FlowHeader * conn)) with
      | None => mret None
      | Some (f, c) => tcp_payload ip pooled h (MESSAGE_HEADER_LEN + FLOW_HEADER_LEN) (VTAPID f) (Sequence f) c
      end
    else tcp_payload ip pooled h MESSAGE_HEADER_LEN 0 0 c.

(** A round of [handleTCPConnection], with the buffer from the pool; [None] when the
    connection is closed, after the caches have been flushed. *)
Definition handleTCPConnection_round (ip pooled : list Z) (c : conn) : M (option conn) :=
  r ← get_state;
  next ← (if exit r then mret None
          else
            let '(b, c) := ReadN MESSAGE_HEADER_LEN c in
            match b with
            | None => mret None
            | Some b =>
                d ← of_option (BaseHeader_Decode b);
                let '(h, err) := (d : BaseHeader * bool) in
                if err then mret None else tcp_message ip pooled h c
            end);
  match (next : option conn) with
  | Some c => mret (Some c)
  | None => flushPutTCPQueues ;; mret None
  end.

(** ** All threads *)

(** A step is a tick, a round of the UDP thread, or one of a connection, which has a
    number and an address. *)
Inductive event :=
  | Tick
  | Udp (pooled : list Z) (read : udp_read)
  | Tcp (i : Z) (pooled : list Z).

(** The receiver with the connections that are open: their addresses and what is left of
    their streams. *)
Record machine := mkMachine { recv : Receiver; conns : gmap Z (list Z * conn) }.

Definition on_recv {A} (m : M A) : ST machine A := fun s =>
  match m (recv s) with Some (a, r) => Some (a, mkMachine r (conns s)) | None => None end.

Definition step (e : event) : ST machine unit :=
  match e with
  | Tick => on_recv timeNowTicker_round
  | Udp pooled read => on_recv (ProcessUDPServer_round pooled read)
  | Tcp i pooled =>
      s ← get_state;
      match conns s !! i with
      | None => mret tt
      | Some (ip, c) =>
          next ← on_recv (handleTCPConnection_round ip pooled c);
          modify (fun s => mkMachine (recv s)
            (match (next : option conn) with Some c => <[i := (ip, c)]> (conns s) | None => delete i (conns s) end))
      end
  end.

Definition Close : M unit := modify (fun r => set_exit r true true).
End Receiver.
