(* ===== verification/ReceiverFacts.v ===== *)
(** Facts of the receiver ([Receiver.v]): frames come out of a connection as they were
    sent, however its reads cut them, and every buffer is handed to the queue of its
    type or given back; which input makes the receiver or its clients panic. *)

From stdpp Require Import strings.
From S2P Require Import Prelude Strconv Queue QueueFacts Tag Expand Platform Drop DropFacts Roze Receiver.

#[local] Open Scope list_scope.
#[local] Open Scope Z_scope.

(** The places of the fields as numbers. *)
Ltac offsets :=
  unfold MESSAGE_HEADER_LEN, MESSAGE_VALUE_OFFSET, MESSAGE_TYPE_OFFSET, MESSAGE_FRAME_SIZE_OFFSET,
    FLOW_HEADER_LEN, FLOW_VTAPID_OFFSET, FLOW_SEQUENCE_OFFSET, FLOW_VERSION_OFFSET in *.

(** * Headers *)

Lemma get_at_mid p w s i n : i = zlen p -> n = zlen w -> get_at (p ++ w ++ s) i n = Some w.
Proof.
  intros -> ->. unfold get_at. rewrite !zlen_app. rewrite (proj2 (Z.leb_le _ _)) by (pose proof (zlen_nonneg s); lia).
  by rewrite slice_mid.
Qed.

Lemma get_at_head w s i n : i = 0 -> n = zlen w -> get_at (w ++ s) i n = Some w.
Proof. apply (get_at_mid []). Qed.

Definition base_header_error (h : BaseHeader) : bool :=
  match HeaderType (Type_ h) with
  | HEADER_TYPE_LT => FrameSize h <=? MESSAGE_HEADER_LEN
  | HEADER_TYPE_LT_NOCHECK => false
  | HEADER_TYPE_LT_VTAP => FrameSize h <? MESSAGE_HEADER_LEN + FLOW_HEADER_LEN
  | HEADER_TYPE_UNKNOWN => true
  end.

(** The bytes of the headers. *)
Definition base_bytes (h : BaseHeader) : list Z := be_put 4 (FrameSize h) ++ [Type_ h].

Definition flow_bytes (f : FlowHeader) : list Z := le_put 4 (Version f) ++ le_put 8 (Sequence f) ++ le_put 2 (VTAPID f).

Definition base_ok (h : BaseHeader) : Prop := is_u 32 (FrameSize h) /\ is_u 8 (Type_ h).

Definition flow_ok (f : FlowHeader) : Prop := is_u 32 (Version f) /\ is_u 64 (Sequence f) /\ is_u 16 (VTAPID f).

Lemma base_bytes_zlen h : zlen (base_bytes h) = MESSAGE_HEADER_LEN.
Proof. unfold base_bytes. by rewrite zlen_app, be_put_zlen. Qed.

Lemma flow_bytes_zlen f : zlen (flow_bytes f) = FLOW_HEADER_LEN.
Proof. unfold flow_bytes. by rewrite !zlen_app, !le_put_zlen. Qed.

Lemma put_at_mid p w s i b : i = zlen p -> zlen b = zlen w -> put_at (p ++ w ++ s) i b = Some (p ++ b ++ s).
Proof.
  intros -> E. unfold put_at. rewrite E, !zlen_app, (proj2 (Z.leb_le _ _)) by (pose proof (zlen_nonneg s); lia).
  unfold zlen. rewrite Nat2Z.id, take_app_length. f_equal. f_equal. f_equal.
  rewrite <- Nat2Z.inj_add, Nat2Z.id, app_assoc, <- length_app. apply drop_app_length.
Qed.

Lemma be_get_one x : is_u 8 x -> be_get [x] = x.
Proof. intros Hx. unfold be_get. cbn [reverse rev_append]. rewrite le_get_cons by done. change (le_get []) with 0. lia. Qed.

Lemma BaseHeader_Decode_bytes h rest : base_ok h ->
  BaseHeader_Decode (base_bytes h ++ rest) = Some (h, base_header_error h).
Proof.
  intros [Hs Ht]. unfold BaseHeader_Decode, base_bytes. rewrite <- app_assoc.
  rewrite (get_at_head _ _ MESSAGE_FRAME_SIZE_OFFSET) by (by rewrite ?be_put_zlen). cbn [mbind option_bind].
  rewrite (get_at_mid _ [Type_ h]) by (by rewrite ?be_put_zlen). cbn [mbind option_bind].
  rewrite be_get_put, be_get_one by done. by destruct h.
Qed.

Lemma FlowHeader_Decode_bytes f rest : flow_ok f -> FlowHeader_Decode (flow_bytes f ++ rest) = Some f.
Proof.
  intros (Hv & Hs & Ht). unfold FlowHeader_Decode, flow_bytes. rewrite <- !app_assoc.
  rewrite (get_at_head _ _ FLOW_VERSION_OFFSET) by (by rewrite ?le_put_zlen). cbn [mbind option_bind].
  rewrite (get_at_mid _ (le_put 8 (Sequence f)) _ FLOW_SEQUENCE_OFFSET) by (by rewrite ?le_put_zlen). cbn [mbind option_bind].
  rewrite (app_assoc (le_put 4 _)), (get_at_mid _ (le_put 2 (VTAPID f))) by (by rewrite ?zlen_app, ?le_put_zlen).
  cbn [mbind option_bind]. rewrite !le_get_put by done. by destruct f.
Qed.

(** The decoders total on enough bytes. *)
Lemma get_at_some b i n : 0 <= i -> 0 <= n -> i + n <= zlen b -> exists x, get_at b i n = Some x /\ zlen x = n.
Proof.
  intros Hi Hn H. unfold get_at. rewrite (proj2 (Z.leb_le _ _)) by done. eexists. split; [done|]. by apply slice_zlen.
Qed.

Lemma BaseHeader_Encode_bytes h chunk : zlen chunk = MESSAGE_HEADER_LEN ->
  BaseHeader_Encode h chunk = Some (base_bytes h).
Proof.
  intros E. unfold BaseHeader_Encode, base_bytes. destruct chunk as [|a [|b [|c [|d [|e []]]]]]; try done.
  offsets. unfold zlen in E. cbn [length] in E. lia.
Qed.

(** * Reading *)

Lemma conn_Read_spec n c : (0 < n)%nat ->
  match conn_Read n c with
  | None => concat c = []
  | Some (b, c') => b <> [] /\ (length b <= n)%nat /\ b ++ concat c' = concat c
  end.
Proof.
  intros Hn. induction c as [|[|x chunk] c IH]; cbn [conn_Read]; [done|exact IH|].
  split_and!; [destruct n; [lia|done]|rewrite length_take; lia|].
  cbn [concat]. by rewrite app_assoc, take_drop.
Qed.

Lemma ReadN_loop_spec rounds n c : (n <= rounds)%nat ->
  match ReadN_loop rounds n c with
  | (Some b, c') => length b = n /\ b ++ concat c' = concat c
  | (None, c') => (length (concat c) < n)%nat /\ concat c' = []
  end.
Proof.
  revert n c. induction rounds as [|rounds IH]; intros [|n] c Hn; cbn [ReadN_loop]; try done; [lia|].
  pose proof (conn_Read_spec (S n) c ltac:(lia)) as Hr. destruct (conn_Read (S n) c) as [[b c1]|]; [|rewrite Hr; split; [cbn; lia|done]].
  destruct Hr as (Hb & Hl & E). assert (0 < length b)%nat as Hp by (destruct b; cbn; [done|lia]).
  specialize (IH (S n - length b)%nat c1 ltac:(lia)).
  destruct (ReadN_loop rounds (S n - length b) c1) as [[rest|] c2]; cbn [fmap option_fmap option_map].
  - destruct IH as [El Ec]. rewrite length_app, <- app_assoc, Ec. split; [lia|done].
  - destruct IH as [El Ec]. rewrite <- E, length_app. split; [lia|done].
Qed.

(** A read of [n] bytes gives the next [n] bytes, however they come, or fails when there
    are less. *)
Lemma ReadN_spec n c : 0 <= n ->
  match ReadN n c with
  | (Some b, c') => zlen b = n /\ b ++ concat c' = concat c
  | (None, c') => zlen (concat c) < n /\ concat c' = []
  end.
Proof.
  intros Hn. unfold ReadN. pose proof (ReadN_loop_spec (Z.to_nat n) (Z.to_nat n) c ltac:(lia)) as H.
  destruct (ReadN_loop _ _ c) as [[b|] c']; destruct H; unfold zlen; split; (lia || done).
Qed.

Lemma ReadN_app n c w s : concat c = w ++ s -> n = zlen w -> exists c', ReadN n c = (Some w, c') /\ concat c' = s.
Proof.
  intros E ->. pose proof (ReadN_spec (zlen w) c (zlen_nonneg w)) as H. rewrite E in H.
  destruct (ReadN (zlen w) c) as [[b|] c'].
  - destruct H as [Hl H]. apply app_inj_1 in H as [-> Ec]; [by exists c'|]. unfold zlen in Hl. lia.
  - destruct H as [H _]. rewrite zlen_app in H. pose proof (zlen_nonneg s). lia.
Qed.

Lemma fill_zlen buffer bytes : zlen (fill buffer bytes) = zlen buffer.
Proof. unfold fill, zlen. rewrite length_app, length_take, length_drop. lia. Qed.

Lemma fill_take buffer bytes : zlen bytes <= zlen buffer -> fill buffer bytes = bytes ++ drop (length bytes) buffer.
Proof. unfold zlen. intros H. unfold fill. by rewrite take_ge by lia. Qed.

(** * Agents that were heard of *)

(** The maps hold pointers to statuses. *)
Definition side_ok (n : nat) (x : Side) : Prop :=
  length (StatusFlow x) = Z.to_nat MESSAGE_TYPE_MAX /\ length (StatusOthers x) = Z.to_nat MESSAGE_TYPE_MAX /\
  Forall (map_Forall (fun _ p => (p < n)%nat)) (StatusFlow x) /\
  Forall (map_Forall (fun _ p => (p < n)%nat)) (StatusOthers x) /\
  Forall (fun p => (p < n)%nat) (MetrisStatus x).

Definition status_ok (s : AdapterStatus) : Prop :=
  side_ok (length (statuses s)) (udp_side s) /\ side_ok (length (statuses s)) (tcp_side s).

Lemma AdapterStatus_init_ok : status_ok AdapterStatus_init.
Proof.
  assert (forall n, side_ok n new_Side) as H; [|by split; apply H].
  intros n. unfold side_ok, new_Side. cbn. split_and!; [done|done|..]; repeat constructor; apply map_Forall_empty.
Qed.

Lemma record_ok {K} `{Countable K} heap (table : list (gmap K nat)) t key upd new :
  0 <= t < MESSAGE_TYPE_MAX -> length table = Z.to_nat MESSAGE_TYPE_MAX ->
  Forall (map_Forall (fun _ p => (p < length heap)%nat)) table ->
  exists heap' table', record_status heap table t key upd new = Some (heap', table') /\
    (length heap <= length heap')%nat /\ length table' = Z.to_nat MESSAGE_TYPE_MAX /\
    Forall (map_Forall (fun _ p => (p < length heap')%nat)) table'.
Proof.
  intros Ht Hl Hp. unfold record_status.
  destruct (lookup_lt_is_Some_2 table (Z.to_nat t)) as [m Em]; [lia|]. rewrite Em. cbn [mbind option_bind].
  pose proof (proj1 (Forall_lookup _ _) Hp _ _ Em) as Hm. destruct (m !! key) as [p|] eqn:E.
  - apply Hm in E. destruct (lookup_lt_is_Some_2 heap p E) as [st ->]. cbn [mbind option_bind].
    eexists _, _. split; [done|]. rewrite length_insert. split_and!; done.
  - eexists _, _. split; [done|]. rewrite length_app, length_insert. split_and!; [cbn; lia|done|].
    apply Forall_insert.
    + eapply Forall_impl; [exact Hp|]. intros m' Hm' k p' Hk. apply Hm' in Hk. cbn. lia.
    + apply map_Forall_insert_2; [cbn; lia|]. intros k p' Hk. apply Hm in Hk. cbn. lia.
Qed.

Lemma side_ok_mono n n' x : side_ok n x -> (n <= n')%nat -> side_ok n' x.
Proof.
  intros (? & ? & H1 & H2 & H3) Hn. split_and!; [done|done|..].
  - eapply Forall_impl; [exact H1|]. intros m Hm k p Hk. apply Hm in Hk. lia.
  - eapply Forall_impl; [exact H2|]. intros m Hm k p Hk. apply Hm in Hk. lia.
  - eapply Forall_impl; [exact H3|]. cbn. lia.
Qed.

Section Facts.
Context (range_order : list Z -> list Z) {W : Type} `{!Clock W}.
Abbreviation Update := (AdapterStatus_Update range_order).

Lemma metrics_pointers_ok n x : side_ok n x -> Forall (fun p => (p < n)%nat) (metrics_pointers range_order x).
Proof.
  intros (Hl & _ & Hf & _). unfold metrics_pointers. apply Forall_forall. intros p (k & _ & Hk)%list_elem_of_omap.
  destruct (StatusFlow x !! Z.to_nat MESSAGE_TYPE_METRICS) as [m|] eqn:E; [|done].
  by apply (proj1 (Forall_lookup _ _) Hf _ _ E k).
Qed.

Lemma AdapterStatus_Update_ok s now t vtap ip seq ts p : status_ok s -> 0 <= t < MESSAGE_TYPE_MAX ->
  exists s', Update s now t vtap ip seq ts p = Some s' /\ status_ok s'.
Proof.
  intros [Hu Ht] Htype. unfold AdapterStatus_Update.
  assert (side_ok (length (statuses s)) (side_of p s)) as Hx by (by destruct p).
  set (r := if negb (vtap =? 0) then _ else _).
  assert (exists heap x, r = Some (heap, x) /\ (length (statuses s) <= length heap)%nat /\ side_ok (length heap) x) as (heap & x & -> & Hn & Hx').
  { destruct Hx as (L1 & L2 & F1 & F2 & F3). unfold r. destruct (negb (vtap =? 0)).
    - edestruct (record_ok (statuses s) (StatusFlow (side_of p s)) t vtap) as (heap & tb & -> & Hn & Hl & Hf); [done..|].
      cbn [mbind option_bind]. eexists _, _. split; [done|]. split; [done|]. split_and!; [done|done|done|..]; cbn.
      + eapply Forall_impl; [exact F2|]. intros m Hm k q Hk. apply Hm in Hk. lia.
      + eapply Forall_impl; [exact F3|]. cbn. lia.
    - edestruct (record_ok (statuses s) (StatusOthers (side_of p s)) t (IP_String ip)) as (heap & tb & -> & Hn & Hl & Hf); [done..|].
      cbn [mbind option_bind]. eexists _, _. split; [done|]. split; [done|]. split_and!; [done|done|..|done|]; cbn.
      + eapply Forall_impl; [exact F1|]. intros m Hm k q Hk. apply Hm in Hk. lia.
      + eapply Forall_impl; [exact F3|]. cbn. lia. }
  cbn [mbind option_bind]. eexists. split; [done|]. set (y := if _ >? _ then _ else _).
  assert (side_ok (length heap) y) as Hy.
  { unfold y. case_match; [|done]. pose proof (metrics_pointers_ok _ _ Hx'). destruct Hx' as (? & ? & ? & ? & _). split_and!; done. }
  destruct p; split; cbn; (done || by eapply side_ok_mono).
Qed.

(** * Handing over *)

(** A call of [Put], of the values of a cache; a buffer that was handed to a cache. *)
Definition call : Type := ServerType * Z * list RecvBuffer.

Definition item : Type := ServerType * Z * Z * RecvBuffer.

Fixpoint put_all (l : list call) (q : MultiQueue RecvBuffer) : option (MultiQueue RecvBuffer) :=
  match l with
  | [] => Some q
  | (_, k, vs) :: l => r ← Multi_Put q (u8 k) (Some <$> vs); put_all l r.2
  end.

Definition calls_to (p : ServerType) (k : Z) (l : list call) : list RecvBuffer :=
  l ≫= (fun '(p', k', vs) => if decide ((p', k') = (p, k)) then vs else []).

Definition items_to (p : ServerType) (t k : Z) (l : list item) : list RecvBuffer :=
  l ≫= (fun '(p', t', k', b) => if decide ((p', t', k') = (p, t, k)) then [b] else []).

Definition cached (p : ServerType) (h : Handler) (k : Z) : list RecvBuffer :=
  default [] (values <$> caches_of p h !! Z.to_nat k).

(** A call from a cache of the handler. *)
Definition call_ok (n : Z) (c : call) : Prop := let '(p, k, _) := c in p <> BOTH /\ 0 <= k < n.

(** Every cache and the calls of its queue hold the buffers that were handed to it, in
    order and nothing else. *)
Definition moved (t : Z) (l : list item) (h h' : Handler) : Prop :=
  nQueues h' = nQueues h /\
  exists calls, put_all calls (out_queues h) = Some (out_queues h') /\ Forall (call_ok (nQueues h)) calls /\
    forall p k, p <> BOTH -> 0 <= k < nQueues h ->
      cached p h k ++ items_to p t k l = calls_to p k calls ++ cached p h' k.

Definition handler_hands (l : list item) (t : nat) (o o' : option Handler) : Prop :=
  match o, o' with
  | Some h, Some h' => moved (Z.of_nat t) l h h'
  | None, None => True
  | _, _ => False
  end.

Definition hands (l : list item) (r r' : Receiver (W := W)) : Prop :=
  length (handlers r') = length (handlers r) /\
  forall t o o', handlers r !! t = Some o -> handlers r' !! t = Some o' -> handler_hands l t o o'.

Lemma put_calls_app l1 l2 q q1 : put_all l1 q = Some q1 -> put_all (l1 ++ l2) q = put_all l2 q1.
Proof.
  revert q. induction l1 as [|[[p k] vs] l1 IH]; intros q; cbn [put_all app]; [by intros [= ->]|].
  destruct (Multi_Put q (u8 k) (Some <$> vs)) as [[e q2]|]; [|done]. cbn [mbind option_bind]. apply IH.
Qed.

Lemma moved_trans t l1 l2 h h1 h2 : moved t l1 h h1 -> moved t l2 h1 h2 -> moved t (l1 ++ l2) h h2.
Proof.
  intros (N1 & c1 & P1 & O1 & H1) (N2 & c2 & P2 & O2 & H2). split; [congruence|]. exists (c1 ++ c2).
  rewrite (put_calls_app _ _ _ _ P1). split; [done|]. rewrite N1 in O2. split; [by apply Forall_app|]. intros p k Hp Hk. unfold items_to, calls_to. rewrite !bind_app.
  rewrite app_assoc. specialize (H1 p k Hp Hk). unfold items_to, calls_to in H1. rewrite H1, <- !app_assoc. f_equal.
  apply H2; [done|]. by rewrite N1.
Qed.

Lemma hands_trans l1 l2 r r1 r2 : hands l1 r r1 -> hands l2 r1 r2 -> hands (l1 ++ l2) r r2.
Proof.
  intros [L1 H1] [L2 H2]. split; [congruence|]. intros t o o2 Ho Ho2.
  destruct (lookup_lt_is_Some_2 (handlers r1) t) as [o1 Ho1]; [rewrite L1; by eapply lookup_lt_Some|].
  specialize (H1 t o o1 Ho Ho1). specialize (H2 t o1 o2 Ho1 Ho2).
  destruct o as [h|], o1 as [h1|], o2 as [h2|]; try done. by eapply moved_trans.
Qed.

Lemma moved_refl t h : moved t [] h h.
Proof. split; [done|]. exists []. split; [done|]. split; [done|]. intros p k _ _. cbn. by rewrite app_nil_r. Qed.

Lemma hands_same r r' : handlers r' = handlers r -> hands [] r r'.
Proof.
  intros E. split; [by rewrite E|]. rewrite E. intros t o o' Ho Ho'. rewrite Ho in Ho'. injection Ho' as <-.
  destruct o; [apply moved_refl|done].
Qed.

(** ** Handlers *)

(** Every key below [n] has a queue. *)
Definition queues_ok (n : Z) (q : MultiQueue RecvBuffer) : Prop :=
  forall k, 0 <= k < n -> exists i, entry (entries q) k = Some i /\ (Z.to_nat i < length (queues q))%nat.

Definition handler_ok (h : Handler) : Prop :=
  0 < nQueues h <= 2 ^ 8 /\ (forall p, zlen (caches_of p h) = nQueues h) /\ queues_ok (nQueues h) (out_queues h).

Lemma queues_put n q k vs : queues_ok n q -> 0 <= k < n -> n <= 2 ^ 8 ->
  exists e q', Multi_Put q (u8 k) vs = Some (e, q') /\ queues_ok n q'.
Proof.
  intros Hq Hk Hn. unfold Multi_Put, on_entry. rewrite wrap_small by (unfold is_u; lia).
  destruct (Hq k Hk) as (i & -> & Hi). cbn [mbind option_bind].
  destruct (lookup_lt_is_Some_2 (queues q) (Z.to_nat i) Hi) as [qu ->]. cbn [mbind option_bind].
  destruct (Put qu vs) as [e qu']. eexists _, _. split; [done|]. intros k' Hk'. cbn. rewrite length_insert. by apply Hq.
Qed.

(** The queues of [NewOverwriteQueues] have keys for all of them. *)
Lemma NewOverwriteQueues_keys count size rel q : is_u 8 count -> NewOverwriteQueues count size rel = Some q ->
  queues_ok count q.
Proof.
  intros Hc. unfold NewOverwriteQueues. destruct (NewOverwriteQueues_table count) as [table|] eqn:E; [|done].
  intros [= <-] k Hk. assert (1 <= count <= MAX_QUEUE_COUNT) as Hc'.
  { unfold NewOverwriteQueues_table in E. unfold is_u in Hc. destruct (Z.gtb_spec count MAX_QUEUE_COUNT); [done|]. lia. }
  destruct (table_entry count Hc') as (table' & Et & He). rewrite E in Et. injection Et as <-.
  unfold is_u in Hc. destruct (He k ltac:(unfold is_u; lia)) as (i & Ei & Hi & _). exists i. cbn. rewrite length_replicate. split; [done|lia].
Qed.

Lemma caches_set_same p h q l : caches_of p (set_caches p h q l) = l.
Proof. by destruct p. Qed.

Lemma caches_set_other p p' h q l : p <> BOTH -> p' <> BOTH -> p' <> p -> caches_of p' (set_caches p h q l) = caches_of p' h.
Proof. by destruct p, p'. Qed.

Lemma set_caches_ok p h q l : p <> BOTH -> handler_ok h -> zlen l = nQueues h -> queues_ok (nQueues h) q ->
  handler_ok (set_caches p h q l).
Proof.
  intros Hp (Hn & Hc & Hq) Hl Hq'. assert (nQueues (set_caches p h q l) = nQueues h) as En by (by destruct p).
  unfold handler_ok. rewrite En. split_and!; [lia|lia| |by destruct p].
  intros p'. pose proof (Hc UDP). pose proof (Hc TCP). by destruct p, p'.
Qed.

Lemma cached_insert p p' h q k k' c : p <> BOTH -> p' <> BOTH -> handler_ok h -> 0 <= k < nQueues h -> 0 <= k' ->
  cached p' (set_caches p h q (<[Z.to_nat k := c]> (caches_of p h))) k' =
    if decide ((p, k) = (p', k')) then values c else cached p' h k'.
Proof.
  intros Hp Hp' (_ & Hc & _) Hk Hk'. unfold cached. case_decide as E.
  - injection E as <- <-. rewrite caches_set_same, list_lookup_insert_eq; [done|]. specialize (Hc p). unfold zlen in Hc. lia.
  - destruct (decide (p' = p)) as [->|Hne]; [|by rewrite caches_set_other].
    rewrite caches_set_same, list_lookup_insert_ne; [done|]. intros E'. apply E. f_equal. lia.
Qed.

Lemma put_values_ok p h k c stamp t : p <> BOTH -> handler_ok h -> 0 <= k < nQueues h -> caches_of p h !! Z.to_nat k = Some c ->
  exists h', put_values p h k c stamp = Some h' /\ handler_ok h' /\ moved t [] h h' /\
    caches_of p h' !! Z.to_nat k = Some (mkQueueCache [] stamp).
Proof.
  intros Hp Hh Hk Ec. pose proof Hh as (Hn & Hc & Hq). unfold put_values.
  destruct (queues_put (nQueues h) (out_queues h) k (Some <$> values c) Hq Hk ltac:(lia)) as (e & q' & E & Hq'). rewrite E.
  cbn [mbind option_bind snd]. eexists. split; [done|]. pose proof (Hc p) as Hcp. split_and!.
  - apply set_caches_ok; [done|done| |done]. unfold zlen in *. by rewrite length_insert.
  - split; [by destruct p|]. exists [(p, k, values c)]. cbn [put_all]. rewrite E. cbn [mbind option_bind snd].
    split; [by destruct p|]. split; [by apply Forall_singleton|]. intros p' k' Hp' Hk'. rewrite cached_insert by (done || lia).
    unfold items_to, calls_to. cbn [mbind list_bind]. rewrite !app_nil_r. case_decide as E'; [|done].
    injection E' as <- <-. cbn [values]. rewrite app_nil_r. unfold cached. by rewrite Ec.
  - rewrite caches_set_same. apply list_lookup_insert_eq. unfold zlen in Hcp. lia.
Qed.

(** ** The receiver *)

Abbreviation R := (Receiver (W := W)).

Definition recv_ok (r : R) : Prop :=
  length (handlers r) = Z.to_nat MESSAGE_TYPE_MAX /\
  (forall t h, handlers r !! t = Some (Some h) -> handler_ok h) /\
  drops_ok DROP_DETECT_WINDOW_SIZE (drops r) /\ status_ok (status r) /\
  is_u 64 (Invalid (Receiver.counter r)) /\ is_u 64 (RxPackets (Receiver.counter r)).

(** What the caches and the queues do not touch. *)
Definition kept (r r' : R) : Prop :=
  drops r' = drops r /\ status r' = status r /\ Receiver.counter r' = Receiver.counter r /\ pool r' = pool r /\
  exit r' = exit r /\ timeNow r' = timeNow r.

Lemma kept_refl r : kept r r.
Proof. done. Qed.

Lemma kept_trans r r1 r2 : kept r r1 -> kept r1 r2 -> kept r r2.
Proof. unfold kept. intros (?&?&?&?&?&?) (?&?&?&?&?&?). split_and!; congruence. Qed.

(** A step that hands the buffers [l] over. *)
Definition handed (l : list item) (r r' : R) : Prop := recv_ok r' /\ hands l r r' /\ kept r r'.

Lemma handed_trans l1 l2 r r1 r2 : handed l1 r r1 -> handed l2 r1 r2 -> handed (l1 ++ l2) r r2.
Proof.
  intros (_ & H1 & K1) (O2 & H2 & K2). split_and!; [done|by eapply hands_trans|by eapply kept_trans].
Qed.

(** A handler is replaced by one that was moved. *)
Lemma handed_set t h h' l r : recv_ok r -> handlers r !! Z.to_nat t = Some (Some h) -> 0 <= t -> handler_ok h' ->
  moved t l h h' -> (forall p' t' k b, (p', t', k, b) ∈ l -> t' = t) ->
  handed l r (set_handlers r (<[Z.to_nat t := Some h']> (handlers r))).
Proof.
  intros (Hl & Hh & Hd & Hs & Hi & Hx) Et Ht Hok Hm Hone. split_and!; [|split|done]; cbn.
  - split_and!; [cbn; by rewrite length_insert| |done|done|done|done]. cbn. intros t' h0 H0.
    apply list_lookup_insert_Some in H0 as [(_ & [= <-] & _)|[_ H0]]; [done|by eapply Hh].
  - by rewrite length_insert.
  - intros t' o o' Ho Ho'. apply list_lookup_insert_Some in Ho' as [(<- & <- & _)|[Hne Ho']].
    + rewrite Et in Ho. injection Ho as <-. cbn. by rewrite Z2Nat.id.
    + rewrite Ho in Ho'. injection Ho' as <-. destruct o as [h0|]; [|done]. cbn.
      destruct (moved_refl (Z.of_nat t') h0) as (N0 & c0 & P0 & O0 & H0). split; [done|]. exists c0. split; [done|]. split; [done|].
      intros p k Hp Hk. rewrite <- H0 by done. f_equal. unfold items_to. clear -Hone Hne Ht.
      induction l as [|[[[p' t0] k'] b] l IH]; [done|]. cbn [mbind list_bind]. rewrite IH by (intros; eapply Hone; by right).
      rewrite decide_False; [done|]. intros [= _ E _]. specialize (Hone p' t0 k' b ltac:(by left)). lia.
Qed.

Lemma handler_runs t h r (Q : Handler -> R -> Prop) : handlers r !! Z.to_nat t = Some (Some h) -> Q h r -> runs (handler t) r Q.
Proof. intros E HQ. unfold handler. apply runs_bind, runs_get. by apply (runs_of_option _ h); [rewrite E|]. Qed.

Lemma cache_exists p h k : handler_ok h -> 0 <= k < nQueues h -> exists c, caches_of p h !! Z.to_nat k = Some c.
Proof. intros (_ & Hc & _) Hk. apply lookup_lt_is_Some_2. specialize (Hc p). unfold zlen in Hc. lia. Qed.

Lemma moved_append p t h k c b stamp : p <> BOTH -> handler_ok h -> 0 <= k < nQueues h -> caches_of p h !! Z.to_nat k = Some c ->
  moved t [(p, t, k, b)] h
    (set_caches p h (out_queues h) (<[Z.to_nat k := mkQueueCache (values c ++ [b]) stamp]> (caches_of p h))).
Proof.
  intros Hp Hh Hk Ec. split; [by destruct p|]. exists []. split; [by destruct p|]. split; [done|]. intros p' k' Hp' Hk'.
  rewrite cached_insert by (done || lia). cbn [values]. unfold items_to, calls_to. cbn [mbind list_bind app].
  rewrite app_nil_r. destruct (decide ((p, k) = (p', k'))) as [E|E].
  - injection E as <- <-. rewrite decide_True by done. unfold cached. by rewrite Ec.
  - rewrite decide_False by congruence. by rewrite app_nil_r.
Qed.

Lemma moved_stamp p t h k c stamp : p <> BOTH -> handler_ok h -> 0 <= k < nQueues h -> caches_of p h !! Z.to_nat k = Some c ->
  moved t [] h (set_caches p h (out_queues h) (<[Z.to_nat k := mkQueueCache (values c) stamp]> (caches_of p h))).
Proof.
  intros Hp Hh Hk Ec. split; [by destruct p|]. exists []. split; [by destruct p|]. split; [done|]. intros p' k' Hp' Hk'.
  rewrite cached_insert by (done || lia). cbn. rewrite app_nil_r. case_decide as E; [|done]. injection E as <- <-.
  unfold cached. by rewrite Ec.
Qed.

Lemma insert_caches_ok p h k c : p <> BOTH -> handler_ok h ->
  handler_ok (set_caches p h (out_queues h) (<[Z.to_nat k := c]> (caches_of p h))).
Proof.
  intros Hp Hh. pose proof Hh as (_ & Hc & Hq). apply set_caches_ok; [done|done| |done]. specialize (Hc p).
  unfold zlen in *. by rewrite length_insert.
Qed.

(** A buffer goes to the cache that its number picks. *)
Lemma putQueue_runs p n t b r h : p <> BOTH -> recv_ok r -> 0 <= t -> handlers r !! Z.to_nat t = Some (Some h) -> 0 <= n ->
  runs (putQueue p n t b) r (fun _ r' => handed [(p, t, n mod nQueues h, b)] r r').
Proof.
  intros Hp Hr Ht Et Hn. pose proof (proj1 (proj2 Hr) _ _ Et) as Hh. pose proof Hh as (Hq & _).
  unfold putQueue. apply runs_bind. apply (handler_runs t h); [done|]. apply runs_bind, runs_get.
  rewrite Z.rem_mod_nonneg by lia. set (k := n mod nQueues h). assert (0 <= k < nQueues h) as Hk by (apply Z.mod_pos_bound; lia).
  rewrite (proj2 (Z.eqb_neq _ 0)), (proj2 (Z.ltb_ge k 0)) by lia. cbn [orb].
  destruct (cache_exists p h k Hh Hk) as [c Ec]. apply runs_bind. apply (runs_of_option _ c); [done|]. apply runs_bind.
  set (o := if _ || _ then _ else _).
  assert (exists h1 c1, o = Some h1 /\ handler_ok h1 /\ moved t [] h h1 /\ caches_of p h1 !! Z.to_nat k = Some c1)
    as (h1 & c1 & -> & Hh1 & Hm1 & Ec1).
  { unfold o. case_match; [case_match|].
    - destruct (put_values_ok p h k c (timeNow r) t) as (h1 & E1 & H1 & M1 & C1); [done..|]. by exists h1, (mkQueueCache [] (timeNow r)).
    - eexists _, _. split; [done|]. split_and!; [by apply insert_caches_ok|by apply moved_stamp|].
      rewrite caches_set_same. apply list_lookup_insert_eq. by eapply lookup_lt_Some.
    - by exists h, c; split_and!; [..|apply moved_refl|]. }
  apply (runs_of_option _ h1); [done|]. apply runs_bind. apply (runs_of_option _ c1); [done|].
  apply runs_modify. assert (nQueues h1 = nQueues h) as En by apply Hm1.
  apply (handed_set t h); [done|done|done|by apply insert_caches_ok| |].
  - apply (moved_trans t [] [_] h h1); [done|]. apply moved_append; [done|done|by rewrite En|done].
  - intros p' t' k' b' [= _ -> _ _]%list_elem_of_singleton. done.
Qed.

Lemma handed_refl r : recv_ok r -> handed [] r r.
Proof. intros Hr. split_and!; [done|by apply hands_same|apply kept_refl]. Qed.

Lemma handed_nil_trans l r r1 r2 : handed [] r r1 -> handed l r1 r2 -> handed l r r2.
Proof. apply (handed_trans []). Qed.

(** Loops of steps that hand nothing over. *)
Lemma for_each_handed {A} (body : A -> M unit) (P : A -> R -> Prop) xs r :
  (forall x r, P x r -> recv_ok r -> runs (body x) r (fun _ r' => handed [] r r')) ->
  (forall x r r', P x r -> handed [] r r' -> P x r') ->
  recv_ok r -> Forall (fun x => P x r) xs -> runs (for_each body xs) r (fun _ r' => handed [] r r').
Proof.
  intros Hb Hp. revert r. induction xs as [|x xs IH]; intros r Hr Hx; cbn [for_each]; [by apply runs_ret, handed_refl|].
  apply Forall_cons in Hx as [Hx Hxs]. apply runs_bind. eapply runs_mono; [by apply Hb|]. intros [] r1 H1.
  eapply runs_mono; [apply IH; [apply H1|]|].
  - eapply Forall_impl; [exact Hxs|]. cbn. intros y Hy. by eapply Hp.
  - intros [] r2 H2. by eapply handed_nil_trans.
Qed.

Lemma handed_handler l r r' t h : handed l r r' -> handlers r !! t = Some (Some h) ->
  exists h', handlers r' !! t = Some (Some h') /\ nQueues h' = nQueues h.
Proof.
  intros (_ & [Hl Hh] & _) Et. destruct (lookup_lt_is_Some_2 (handlers r') t) as [o Eo]; [rewrite Hl; by eapply lookup_lt_Some|].
  specialize (Hh t _ _ Et Eo). destruct o as [h'|]; [|done]. exists h'. split; [done|apply Hh].
Qed.

Lemma read_clock_runs r (Q : Z -> R -> Prop) : (forall n w, Q n (set_clock r w)) -> runs read_clock r Q.
Proof.
  intros HQ. unfold read_clock. apply runs_bind, runs_get. destruct (Unix (clock r)) as [n w].
  apply runs_bind, runs_modify, runs_ret. apply HQ.
Qed.

Lemma set_clock_handed r w : recv_ok r -> handed [] r (set_clock r w).
Proof. intros Hr. split_and!; [done|by apply hands_same|done]. Qed.

Lemma flush_cache_runs p t k r h : p <> BOTH -> recv_ok r -> 0 <= t -> handlers r !! Z.to_nat t = Some (Some h) ->
  0 <= k < nQueues h -> runs (flush_cache p t k) r (fun _ r' => handed [] r r').
Proof.
  intros Hp Hr Ht Et Hk. pose proof (proj1 (proj2 Hr) _ _ Et) as Hh. unfold flush_cache. apply runs_bind.
  apply (handler_runs t h); [done|]. destruct (cache_exists p h k Hh Hk) as [c Ec]. apply runs_bind.
  apply (runs_of_option _ c); [done|]. case_match; [|by apply runs_ret, handed_refl].
  apply runs_bind, read_clock_runs. intros n w. apply runs_bind.
  destruct (put_values_ok p h k c n t) as (h1 & E1 & H1 & M1 & _); [done..|]. apply (runs_of_option _ h1); [done|].
  apply runs_modify. eapply handed_nil_trans; [by apply set_clock_handed|].
  apply (handed_set t h); [done|done|done|done|done|]. by intros ???? ?%not_elem_of_nil.
Qed.

Lemma flush_handler_runs p t r : p <> BOTH -> recv_ok r -> 0 <= t -> runs (flush_handler p t) r (fun _ r' => handed [] r r').
Proof.
  intros Hp Hr Ht. unfold flush_handler. apply runs_bind, runs_get.
  destruct (handlers r !! Z.to_nat t) as [[h|]|] eqn:Et; [|by apply runs_ret, handed_refl..].
  apply (for_each_handed _ (fun k r => exists h, handlers r !! Z.to_nat t = Some (Some h) /\ 0 <= k < nQueues h)); [| |done|].
  - intros k r1 (h1 & E1 & Hk) H1. by eapply flush_cache_runs.
  - intros k r1 r2 (h1 & E1 & Hk) H12. destruct (handed_handler _ _ _ _ _ H12 E1) as (h2 & E2 & N2). exists h2. by rewrite N2.
  - apply Forall_forall. intros k Hk%elem_of_seqZ. exists h. split; [done|lia].
Qed.

Lemma flushQueues_runs p r : p <> BOTH -> recv_ok r -> runs (flushQueues p) r (fun _ r' => handed [] r r').
Proof.
  intros Hp Hr. unfold flushQueues. apply runs_bind, runs_get. case_match; [by apply runs_ret, handed_refl|].
  apply runs_bind. eapply runs_mono.
  { apply (for_each_handed _ (fun t _ => 0 <= t)); [|done|done|].
    - intros t r1 Ht H1. by apply flush_handler_runs.
    - apply Forall_forall. intros t Ht%elem_of_seqZ. lia. }
  intros [] r1 H1. apply runs_modify. eapply handed_nil_trans; [exact H1|].
  destruct H1 as (O1 & _). destruct p; (split_and!; [done|by apply hands_same|done]).
Qed.

(** *** Caches after a flush *)

(** The cache [k] of the handler [t] is empty; it stays so while nothing is handed over. *)
Definition drained (p : ServerType) (t : nat) (k : Z) (r : R) : Prop :=
  forall h, handlers r !! t = Some (Some h) -> 0 <= k < nQueues h -> cached p h k = [].

Lemma drained_handed p t k r r' : p <> BOTH -> handed [] r r' -> drained p t k r -> drained p t k r'.
Proof.
  intros Hp (_ & [Hl Hh] & _) Hd h' Eh' Hk. destruct (lookup_lt_is_Some_2 (handlers r) t) as [o Eo]; [rewrite <- Hl; by eapply lookup_lt_Some|].
  specialize (Hh t o _ Eo Eh'). destruct o as [h|]; [|done]. destruct Hh as (En & calls & _ & _ & Hc).
  rewrite En in Hk. specialize (Hc p k Hp Hk). rewrite (Hd h Eo Hk) in Hc. cbn in Hc. symmetry in Hc.
  by apply app_eq_nil in Hc as [_ ?].
Qed.

(** A loop whose rounds hand nothing over, and after which what its rounds reach holds. *)
Lemma for_each_reach {A} (body : A -> M unit) (P Q : A -> R -> Prop) xs r :
  (forall x r, P x r -> recv_ok r -> runs (body x) r (fun _ r' => handed [] r r' /\ Q x r')) ->
  (forall x r r', P x r -> handed [] r r' -> P x r') -> (forall x r r', Q x r -> handed [] r r' -> Q x r') ->
  recv_ok r -> Forall (fun x => P x r) xs ->
  runs (for_each body xs) r (fun _ r' => handed [] r r' /\ Forall (fun x => Q x r') xs).
Proof.
  intros Hb Hp Hq. revert r. induction xs as [|x xs IH]; intros r Hr Hx; cbn [for_each].
  { apply runs_ret. split; [by apply handed_refl|done]. }
  apply Forall_cons in Hx as [Hx Hxs]. apply runs_bind. eapply runs_mono; [by apply Hb|]. intros [] r1 [H1 Q1].
  eapply runs_mono; [apply IH; [apply H1|]|].
  - eapply Forall_impl; [exact Hxs|]. cbn. intros y Hy. by eapply Hp.
  - intros [] r2 [H2 Q2]. split; [by eapply handed_nil_trans|]. constructor; [by eapply Hq|done].
Qed.

Lemma flush_cache_drains p t k r h : p <> BOTH -> recv_ok r -> 0 <= t -> handlers r !! Z.to_nat t = Some (Some h) ->
  0 <= k < nQueues h -> runs (flush_cache p t k) r (fun _ r' => handed [] r r' /\ drained p (Z.to_nat t) k r').
Proof.
  intros Hp Hr Ht Et Hk. pose proof (proj1 (proj2 Hr) _ _ Et) as Hh. unfold flush_cache. apply runs_bind.
  apply (handler_runs t h); [done|]. destruct (cache_exists p h k Hh Hk) as [c Ec]. apply runs_bind.
  apply (runs_of_option _ c); [done|]. destruct (Z.gtb_spec (zlen (values c)) 0) as [Hv|Hv].
  2:{ apply runs_ret. split; [by apply handed_refl|]. intros h' Eh' _. rewrite Et in Eh'. injection Eh' as <-.
      unfold cached. rewrite Ec. cbn. destruct (values c) as [|v vs]; [done|]. rewrite zlen_cons in Hv. pose proof (zlen_nonneg vs). lia. }
  apply runs_bind, read_clock_runs. intros n w. apply runs_bind.
  destruct (put_values_ok p h k c n t) as (h1 & E1 & H1 & M1 & C1); [done..|]. apply (runs_of_option _ h1); [done|].
  apply runs_modify. split.
  - eapply handed_nil_trans; [by apply set_clock_handed|].
    apply (handed_set t h); [done|done|done|done|done|]. by intros ???? ?%not_elem_of_nil.
  - intros h' Eh' _. cbn in Eh'. rewrite list_lookup_insert_eq in Eh' by (by eapply lookup_lt_Some). injection Eh' as <-.
    unfold cached. by rewrite C1.
Qed.

Lemma flush_handler_drains p t r : p <> BOTH -> recv_ok r -> 0 <= t ->
  runs (flush_handler p t) r (fun _ r' => handed [] r r' /\ forall k, drained p (Z.to_nat t) k r').
Proof.
  intros Hp Hr Ht. unfold flush_handler. apply runs_bind, runs_get.
  destruct (handlers r !! Z.to_nat t) as [[h|]|] eqn:Et.
  2, 3: apply runs_ret; split; [by apply handed_refl|]; intros k h Eh; congruence.
  eapply runs_mono; [apply (for_each_reach _
    (fun k r => exists h, handlers r !! Z.to_nat t = Some (Some h) /\ 0 <= k < nQueues h) (fun k r => drained p (Z.to_nat t) k r)); [| | |done|]|].
  - intros k r1 (h1 & E1 & Hk) H1. by eapply flush_cache_drains.
  - intros k r1 r2 (h1 & E1 & Hk) H12. destruct (handed_handler _ _ _ _ _ H12 E1) as (h2 & E2 & N2). exists h2. by rewrite N2.
  - intros k r1 r2 Hd H12. by eapply drained_handed.
  - apply Forall_forall. intros k Hk%elem_of_seqZ. exists h. split; [done|lia].
  - intros [] r' [Hh Hd]. split; [done|]. intros k h' Eh' Hk.
    destruct (handed_handler _ _ _ _ _ Hh Et) as (h2 & E2 & N2). rewrite Eh' in E2. injection E2 as <-.
    rewrite Forall_forall in Hd. eapply (Hd k); [apply elem_of_seqZ; lia|done|done].
Qed.

(** When the time has come, the flush empties all caches of the protocol. *)
Lemma flushQueues_drains p r : p <> BOTH -> recv_ok r -> QUEUE_CACHE_FLUSH_TIMEOUT <= i64 (timeNow r - last_flush p r) ->
  runs (flushQueues p) r (fun _ r' => handed [] r r' /\ forall t k, drained p t k r').
Proof.
  intros Hp Hr Htime. unfold flushQueues. apply runs_bind, runs_get. rewrite (proj2 (Z.ltb_ge _ _)) by done.
  apply runs_bind. eapply runs_mono.
  { apply (for_each_reach _ (fun t _ => 0 <= t) (fun t r => forall k, drained p (Z.to_nat t) k r)); [|done| |done|].
    - intros t r1 Ht H1. by apply flush_handler_drains.
    - intros t r1 r2 Hd H12 k. by eapply drained_handed.
    - apply Forall_forall. intros t Ht%elem_of_seqZ. lia. }
  intros [] r1 [H1 Hd]. apply runs_modify. rewrite Forall_forall in Hd. split.
  - eapply handed_nil_trans; [exact H1|]. destruct H1 as (O1 & _). destruct p; (split_and!; [done|by apply hands_same|done]).
  - intros t k h Eh Hk. replace (handlers _) with (handlers r1) in Eh by (by destruct p).
    refine (Hd (Z.of_nat t) _ k h _ Hk); [|by rewrite Nat2Z.id].
    destruct H1 as (_ & [Hl _] & _). apply lookup_lt_Some in Eh. apply elem_of_seqZ. unfold zlen. lia.
Qed.

Lemma NewReceiver_ok now w : recv_ok (NewReceiver now w).
Proof.
  split_and!; [done| |by apply (Init_ok DROP_DETECT_WINDOW_SIZE)|apply AdapterStatus_init_ok|done|done].
  intros t h Et. by apply lookup_replicate in Et as [? _].
Qed.

Lemma RegistHandler_runs t q n r : recv_ok r -> 0 <= t < MESSAGE_TYPE_MAX -> 0 < n <= 2 ^ 8 -> queues_ok n q ->
  runs (RegistHandler t q n) r (fun _ r' => recv_ok r' /\ kept r r').
Proof.
  intros Hr Ht Hn Hq. pose proof Hr as (Hl & Hh & Hrest). unfold RegistHandler.
  rewrite (proj2 (Z.ltb_ge n 0)), Z.geb_leb, (proj2 (Z.leb_gt _ t)) by lia. cbn [orb]. apply runs_modify. split; [|done].
  split; [cbn; by rewrite length_insert|]. split; [|done]. cbn. intros t' h H0.
  apply list_lookup_insert_Some in H0 as [(_ & [= <-] & _)|[_ H0]]; [|by eapply Hh].
  split_and!; [cbn; lia|cbn; lia| |done]. intros []; cbn; unfold zlen; rewrite length_replicate; lia.
Qed.

(** ** Steps *)

(** A step that hands [l] over, counts [inv] invalid messages and [rx] packets, and gives
    [rel] buffers back. *)
Definition goes (l : list item) (inv rx : Z) (rel : nat) (r r' : R) : Prop :=
  recv_ok r' /\ hands l r r' /\ exit r' = exit r /\
  Invalid (Receiver.counter r') = u64 (Invalid (Receiver.counter r) + inv) /\
  RxPackets (Receiver.counter r') = u64 (RxPackets (Receiver.counter r) + rx) /\
  length (pool r') = (length (pool r) + rel)%nat.

Lemma goes_trans l1 l2 i1 i2 x1 x2 n1 n2 r r1 r2 : goes l1 i1 x1 n1 r r1 -> goes l2 i2 x2 n2 r1 r2 ->
  goes (l1 ++ l2) (i1 + i2) (x1 + x2) (n1 + n2) r r2.
Proof.
  intros (_ & H1 & E1 & I1 & X1 & P1) (O2 & H2 & E2 & I2 & X2 & P2).
  split_and!; [done|by eapply hands_trans|congruence| | |lia].
  - rewrite I2, I1, wrap_plus. f_equal. lia.
  - rewrite X2, X1, wrap_plus. f_equal. lia.
Qed.

Lemma goes_eq l l' i i' x x' n n' r r' : goes l i x n r r' -> l = l' -> i = i' -> x = x' -> n = n' -> goes l' i' x' n' r r'.
Proof. congruence. Qed.

Lemma recv_counts r : recv_ok r ->
  u64 (Invalid (Receiver.counter r) + 0) = Invalid (Receiver.counter r) /\
  u64 (RxPackets (Receiver.counter r) + 0) = RxPackets (Receiver.counter r).
Proof. intros (_ & _ & _ & _ & Hi & Hx). rewrite !Z.add_0_r. split; by apply wrap_small. Qed.

Lemma handed_goes l r r' : recv_ok r -> handed l r r' -> goes l 0 0 0 r r'.
Proof.
  intros Hr (O & H & _ & _ & Ec & Ep & Ee & _). destruct (recv_counts r Hr) as [Ei Ex].
  split_and!; [done|done|done|by rewrite Ec|by rewrite Ec|rewrite Ep; lia].
Qed.

Lemma goes_refl r : recv_ok r -> goes [] 0 0 0 r r.
Proof. intros Hr. by apply handed_goes, handed_refl. Qed.

(** Steps in sequence. *)
Lemma goes_bind {A B} (m : M A) (f : A -> M B) l i x n r (Q : B -> R -> Prop) :
  runs m r (fun _ r' => goes l i x n r r') ->
  (forall a r', goes l i x n r r' -> runs (f a) r' Q) -> runs (m ≫= f) r Q.
Proof. intros Hm Hf. apply runs_bind. eapply runs_mono; [exact Hm|]. done. Qed.

Lemma recv_set_counter r c : recv_ok r -> is_u 64 (Invalid c) -> is_u 64 (RxPackets c) -> recv_ok (set_counter r c).
Proof. intros (? & ? & ? & ? & _ & _) Hi Hx. split_and!; (done || apply Hi || apply Hx). Qed.

Lemma count_invalid_runs r : recv_ok r -> runs (count_invalid (W := W)) r (fun _ r' => goes [] 1 0 0 r r').
Proof.
  intros Hr. apply runs_modify. destruct (recv_counts r Hr) as [_ Ex]. split_and!; [|by apply hands_same|done|done|by rewrite Ex|cbn; lia].
  apply recv_set_counter; [done|by apply wrap_range|apply Hr].
Qed.

Lemma count_packet_runs r : recv_ok r -> runs (count_packet (W := W)) r (fun _ r' => goes [] 0 1 0 r r').
Proof.
  intros Hr. apply runs_modify. destruct (recv_counts r Hr) as [Ei _]. split_and!; [|by apply hands_same|done|by rewrite Ei|done|cbn; lia].
  apply recv_set_counter; [done|apply Hr|by apply wrap_range].
Qed.

Lemma updateCounter_runs ts r : recv_ok r -> runs (updateCounter (W := W) ts) r (fun _ r' => goes [] 0 0 0 r r').
Proof.
  intros Hr. apply runs_modify. destruct (recv_counts r Hr) as [Ei Ex].
  split_and!; [|by apply hands_same|done|by rewrite Ei|by rewrite Ex|cbn; lia]. by apply recv_set_counter; [done|apply Hr..].
Qed.

Lemma set_log_goes r u t n : recv_ok r -> goes [] 0 0 0 r (set_log r u t n).
Proof. intros Hr. apply handed_goes; [done|]. split_and!; [done|by apply hands_same|done]. Qed.

Lemma log_runs (m : M unit) (f : R -> R) r : m = (count_invalid ;; modify f) ->
  (forall r, recv_ok r -> goes [] 0 0 0 r (f r)) -> recv_ok r -> runs m r (fun _ r' => goes [] 1 0 0 r r').
Proof.
  intros -> Hf Hr. eapply goes_bind; [by apply count_invalid_runs|]. intros [] r1 H1. apply runs_modify.
  exact (goes_trans [] [] 1 0 0 0 0 0 _ _ _ H1 (Hf r1 (proj1 H1))).
Qed.

Lemma logReceiveError_runs r : recv_ok r -> runs logReceiveError r (fun _ r' => goes [] 1 0 0 r r').
Proof. apply (log_runs _ _ _ eq_refl). intros r1 H1. case_match; by apply set_log_goes. Qed.

Lemma logTCP_runs r : recv_ok r -> runs logTCPReceiveInvalidData r (fun _ r' => goes [] 1 0 0 r r').
Proof. apply (log_runs _ _ _ eq_refl). intros r1 H1. case_match; by apply set_log_goes. Qed.

Lemma ReleaseRecvBuffer_runs b r : recv_ok r -> runs (Receiver.ReleaseRecvBuffer (W := W) b) r (fun _ r' => goes [] 0 0 1 r r').
Proof.
  intros Hr. apply runs_modify. destruct (recv_counts r Hr) as [Ei Ex].
  split_and!; [done|by apply hands_same|done|by rewrite Ei|by rewrite Ex|cbn; by rewrite length_app].
Qed.

Lemma status_Update_runs t v ip seq ts p r : recv_ok r -> 0 <= t < MESSAGE_TYPE_MAX ->
  runs (status_Update range_order t v ip seq ts p) r (fun _ r' => goes [] 0 0 0 r r').
Proof.
  intros Hr Ht. pose proof Hr as (O1 & O2 & O3 & O4 & O5 & O6). unfold status_Update. apply runs_bind, runs_get. apply runs_bind.
  destruct (AdapterStatus_Update_ok (status r) (u32 (timeNow r)) t v ip seq ts p O4 Ht) as (s & Es & Hs).
  apply (runs_of_option _ s); [done|]. apply runs_modify. destruct (recv_counts r Hr) as [Ei Ex].
  split_and!; [by split_and!|by apply hands_same|done|by rewrite Ei|by rewrite Ex|cbn; lia].
Qed.

Lemma detect_runs id seq ts r : recv_ok r -> runs (detect id seq ts) r (fun _ r' => goes [] 0 0 0 r r').
Proof.
  intros Hr. pose proof Hr as (O1 & O2 & O3 & O4 & O5 & O6). unfold detect. apply runs_bind, runs_get. apply runs_bind.
  destruct (Detect_ok 10 DROP_DETECT_WINDOW_SIZE ltac:(done) eq_refl id seq ts (drops r) O3) as (d & Ed & Hd).
  apply (runs_of_option _ d); [done|]. apply runs_modify. destruct (recv_counts r Hr) as [Ei Ex].
  split_and!; [by split_and!|by apply hands_same|done|by rewrite Ei|by rewrite Ex|cbn; lia].
Qed.

Lemma getMetricsTimestamp_runs buffer r : recv_ok r ->
  runs (getMetricsTimestamp (W := W) buffer) r (fun _ r' => goes [] 0 0 0 r r').
Proof.
  intros Hr. unfold getMetricsTimestamp. case_match; [by apply runs_ret, goes_refl|].
  apply runs_bind, read_clock_runs. intros n w. by apply runs_ret, handed_goes, set_clock_handed.
Qed.

Definition registered (r : R) (t : Z) : bool :=
  match handlers r !! Z.to_nat t with Some (Some _) => true | _ => false end.

Lemma is_registered_runs t r (Q : bool -> R -> Prop) : recv_ok r -> 0 <= t < MESSAGE_TYPE_MAX ->
  Q (registered r t) r -> runs (is_registered t) r Q.
Proof.
  intros (Hl & _) Ht HQ. unfold is_registered. apply runs_bind, runs_get, runs_bind.
  destruct (lookup_lt_is_Some_2 (handlers r) (Z.to_nat t)) as [o Eo]; [lia|].
  apply (runs_of_option _ o); [done|]. apply runs_ret. unfold registered in HQ. rewrite Eo in HQ. by destruct o.
Qed.

Lemma header_type_range h : is_u 8 (Type_ h) -> base_header_error h = false -> 0 <= Type_ h < MESSAGE_TYPE_MAX.
Proof.
  intros Ht. unfold base_header_error, HeaderType. destruct (Z.ltb_spec (Type_ h) MESSAGE_TYPE_MAX); [|done].
  intros _. unfold is_u in Ht. lia.
Qed.

(** *** Datagrams *)

(** A flow header whose version is refused, and one whose version is only reported. *)
Definition old_version (h : BaseHeader) (f : FlowHeader) : bool :=
  ValidateFlowVersion (Type_ h) (Version f) && (Version f <=? LAST_SIMPLE_CODEC_VERSION).

Definition is_vtap (h : BaseHeader) : bool := bool_decide (HeaderType (Type_ h) = HEADER_TYPE_LT_VTAP).

(** The headers that the buffer holds, where the message is to be handed over. *)
Definition datagram_headers (r : R) (buffer : list Z) (size : Z) : option (BaseHeader * option FlowHeader) :=
  if size <? MESSAGE_HEADER_LEN then None
  else
    '(h, err) ← BaseHeader_Decode buffer;
    if err || negb (registered r (Type_ h)) then None
    else if is_vtap h then
      f ← FlowHeader_Decode (drop (Z.to_nat MESSAGE_HEADER_LEN) buffer);
      if old_version h f then None else Some (h, Some f)
    else Some (h, None).

Definition header_len (f : option FlowHeader) : Z :=
  match f with Some _ => MESSAGE_HEADER_LEN + FLOW_HEADER_LEN | None => MESSAGE_HEADER_LEN end.

Definition bad_version (h : BaseHeader) (f : option FlowHeader) : bool :=
  match f with Some f => ValidateFlowVersion (Type_ h) (Version f) | None => false end.

(** The buffer of a datagram with these headers. *)
Definition datagram_buffer (h : BaseHeader) (f : option FlowHeader) (size : Z) (buffer remote : list Z) : RecvBuffer :=
  mkRecvBuffer (header_len f) (if Type_ h =? MESSAGE_TYPE_COMPRESS then FrameSize h else size) buffer remote
    (from_option VTAPID 0 f).

(** The time and the sequence number of metrics. *)
Lemma udp_metrics_runs h recv remote f r : recv_ok r ->
  runs (if Type_ h =? MESSAGE_TYPE_METRICS then
          ts ← getMetricsTimestamp (drop (Z.to_nat (MESSAGE_HEADER_LEN + FLOW_HEADER_LEN)) (Recv_Buffer recv));
          updateCounter ts ;;
          detect (getIpHash remote) (Sequence f) ts ;;
          mret (Some (VTAPID f, Sequence f, ts))
        else mret (Some (VTAPID f, Sequence f, 0))) r
    (fun o r' => exists ts, o = Some (VTAPID f, Sequence f, ts) /\ goes [] 0 0 0 r r').
Proof.
  intros Hr. case_match; [|apply runs_ret; exists 0; split; [done|by apply goes_refl]].
  eapply goes_bind; [by apply getMetricsTimestamp_runs|]. intros ts r2 H2.
  eapply goes_bind; [apply updateCounter_runs, H2|]. intros [] r3 H3.
  eapply goes_bind; [apply detect_runs, H3|]. intros [] r4 H4. apply runs_ret. exists ts. split; [done|].
  exact (goes_trans [] [] 0 0 0 0 0 0 _ _ _ H2 (goes_trans [] [] 0 0 0 0 0 0 _ _ _ H3 H4)).
Qed.

Lemma udp_flow_header_runs h recv remote r f : recv_ok r ->
  FlowHeader_Decode (drop (Z.to_nat MESSAGE_HEADER_LEN) (Recv_Buffer recv)) = Some f ->
  runs (udp_flow_header h recv remote) r (fun o r' =>
    if old_version h f then o = None /\ goes [] 1 0 1 r r'
    else exists ts, o = Some (VTAPID f, Sequence f, ts) /\ goes [] (Z.b2z (bad_version h (Some f))) 0 0 r r').
Proof.
  intros Hr Ef. unfold udp_flow_header. apply runs_bind. apply (runs_of_option _ f); [done|].
  unfold old_version. cbn [bad_version]. set (bad := ValidateFlowVersion (Type_ h) (Version f)).
  apply (goes_bind _ _ [] (Z.b2z bad) 0 0).
  { destruct bad; [by apply logReceiveError_runs|by apply runs_ret, goes_refl]. }
  intros [] r1 H1. destruct (bad && (Version f <=? LAST_SIMPLE_CODEC_VERSION)) eqn:Eo.
  - apply andb_prop in Eo as [Eb _]. rewrite Eb in H1.
    eapply goes_bind; [apply ReleaseRecvBuffer_runs, H1|]. intros [] r2 H2. apply runs_ret. split; [done|].
    exact (goes_trans [] [] 1 0 0 0 0 1 _ _ _ H1 H2).
  - eapply runs_mono; [apply udp_metrics_runs, H1|]. cbn. intros o r2 (ts & -> & H2). exists ts. split; [done|].
    eapply goes_eq; [exact (goes_trans _ _ _ _ _ _ _ _ _ _ _ H1 H2)|done|lia|done|done].
Qed.

Lemma udp_message_runs h recv size remote r hd f : recv_ok r -> 0 <= Type_ h < MESSAGE_TYPE_MAX ->
  handlers r !! Z.to_nat (Type_ h) = Some (Some hd) -> RxPackets (Receiver.counter r) < 2 ^ 63 ->
  (if is_vtap h then f <> None /\ FlowHeader_Decode (drop (Z.to_nat MESSAGE_HEADER_LEN) (Recv_Buffer recv)) = f else f = None) ->
  runs (udp_message range_order h recv size remote) r (fun _ r' =>
    if from_option (old_version h) false f then goes [] 1 0 1 r r'
    else goes [(UDP, Type_ h, RxPackets (Receiver.counter r) mod nQueues hd, datagram_buffer h f size (Recv_Buffer recv) remote)]
           (Z.b2z (bad_version h f)) 0 0 r r').
Proof.
  intros Hr Ht Eh Hx Hf. unfold udp_message. fold (is_vtap h). apply runs_bind.
  assert (runs (if is_vtap h then udp_flow_header h recv remote else mret (Some (0, 0, 0))) r (fun o r' =>
    if from_option (old_version h) false f then o = None /\ goes [] 1 0 1 r r'
    else exists sq ts, o = Some (from_option VTAPID 0 f, sq, ts) /\ goes [] (Z.b2z (bad_version h f)) 0 0 r r')) as Hm.
  { destruct (is_vtap h).
    - destruct Hf as [Hn Ef]. destruct f as [f|]; [|done]. eapply runs_mono; [by apply udp_flow_header_runs|]. cbn.
      intros o r1. case_match; [done|]. intros (ts & Hts). by exists (Sequence f), ts.
    - subst f. apply runs_ret. cbn. exists 0, 0. split; [done|by apply goes_refl]. }
  eapply runs_mono; [exact Hm|]. clear Hm. cbn. intros o r1. destruct (from_option (old_version h) false f).
  { intros [-> H1]. by apply runs_ret. }
  intros (sq & ts & -> & H1). eapply goes_bind; [by apply status_Update_runs; [apply H1|]|]. intros [] r2 H2.
  apply runs_bind, runs_get. pose proof (goes_trans _ _ _ _ _ _ _ _ _ _ _ H1 H2) as H12.
  pose proof H12 as (O2 & [Hl Hh] & _ & _ & X2 & _). change (0 + 0) with 0 in X2. rewrite (proj2 (recv_counts r Hr)) in X2.
  destruct (lookup_lt_is_Some_2 (handlers r2) (Z.to_nat (Type_ h))) as [o2 Eo2]; [rewrite Hl; by eapply lookup_lt_Some|].
  specialize (Hh _ _ _ Eh Eo2). destruct o2 as [hd2|]; [|done]. destruct Hh as [N2 _].
  assert (is_u 64 (RxPackets (Receiver.counter r))) as Hu by apply Hr.
  rewrite X2. unfold swrap. rewrite Z.mod_small by (unfold is_u in Hu; lia).
  rewrite Z.add_simpl_r. eapply runs_mono; [apply (putQueue_runs UDP _ _ _ _ hd2); [done|done|lia|done|apply Hu]|].
  intros [] r3 H3. rewrite <- N2. eapply goes_eq; [exact (goes_trans _ _ _ _ _ _ _ _ _ _ _ H12 (handed_goes _ _ _ O2 H3))|..];
    [|lia|done|done]. cbn [app]. f_equal. f_equal. unfold datagram_buffer. f_equal. unfold header_len.
  destruct (is_vtap h); [|by subst f]. by destruct Hf, f.
Qed.

Lemma get_at_ok b i n : bytes_ok b -> 0 <= i -> 0 <= n -> i + n <= zlen b ->
  exists x, get_at b i n = Some x /\ bytes_ok x /\ zlen x = n.
Proof.
  intros Hb Hi Hn H. unfold get_at. rewrite (proj2 (Z.leb_le _ _)) by done. eexists. split; [done|].
  split; [by apply bytes_ok_slice|by apply slice_zlen].
Qed.

Lemma BaseHeader_Decode_total b : bytes_ok b -> MESSAGE_HEADER_LEN <= zlen b ->
  exists h, BaseHeader_Decode b = Some (h, base_header_error h) /\ base_ok h.
Proof.
  intros Hb Hl. change MESSAGE_HEADER_LEN with 5 in Hl. unfold BaseHeader_Decode.
  destruct (get_at_ok b MESSAGE_FRAME_SIZE_OFFSET 4 Hb) as (x & -> & Hx & Lx); [done|done|offsets; lia|]. cbn [mbind option_bind].
  destruct (get_at_ok b MESSAGE_TYPE_OFFSET 1 Hb) as (y & -> & Hy & Ly); [done|done|offsets; lia|]. cbn [mbind option_bind].
  eexists. split; [done|]. apply be_get_range in Hx, Hy. rewrite Lx in Hx. rewrite Ly in Hy. by split.
Qed.

Lemma FlowHeader_Decode_total b : bytes_ok b -> FLOW_HEADER_LEN <= zlen b -> exists f, FlowHeader_Decode b = Some f /\ flow_ok f.
Proof.
  intros Hb Hl. change FLOW_HEADER_LEN with 14 in Hl. unfold FlowHeader_Decode.
  destruct (get_at_ok b FLOW_VERSION_OFFSET 4 Hb) as (x & -> & Hx & Lx); [done|done|offsets; lia|]. cbn [mbind option_bind].
  destruct (get_at_ok b FLOW_SEQUENCE_OFFSET 8 Hb) as (y & -> & Hy & Ly); [done|done|offsets; lia|]. cbn [mbind option_bind].
  destruct (get_at_ok b FLOW_VTAPID_OFFSET 2 Hb) as (z & -> & Hz & Lz); [done|done|offsets; lia|]. cbn [mbind option_bind].
  eexists. split; [done|]. apply le_get_range in Hx, Hy, Hz. rewrite Lx in Hx. rewrite Ly in Hy. rewrite Lz in Hz. by split_and!.
Qed.

Lemma fill_ok buffer bytes : bytes_ok buffer -> bytes_ok bytes -> bytes_ok (fill buffer bytes).
Proof. intros Hb Hc. apply Forall_app. split; [by apply Forall_take|by apply Forall_drop]. Qed.

Lemma registered_handler r t : registered r t = true -> exists h, handlers r !! Z.to_nat t = Some (Some h).
Proof. unfold registered. destruct (handlers r !! Z.to_nat t) as [[h|]|]; [eauto|done..]. Qed.

(** Releasing and reporting, as for a message that is refused. *)
Lemma refuse_message_runs b r : recv_ok r ->
  runs (Receiver.ReleaseRecvBuffer b ;; logReceiveError) r (fun _ r' => goes [] 1 0 1 r r').
Proof.
  intros Hr. eapply goes_bind; [by apply ReleaseRecvBuffer_runs|]. intros [] r1 H1.
  eapply runs_mono; [apply logReceiveError_runs, H1|]. intros [] r2 H2. exact (goes_trans [] [] 0 1 0 0 1 0 _ _ _ H1 H2).
Qed.

Lemma udp_datagram_runs r pooled bytes remote : recv_ok r -> RxPackets (Receiver.counter r) < 2 ^ 63 ->
  bytes_ok pooled -> zlen pooled = RECV_BUFSIZE -> bytes_ok bytes ->
  runs (udp_datagram range_order pooled bytes remote) r (fun _ r' =>
    match datagram_headers r (fill pooled bytes) (Z.min (zlen bytes) RECV_BUFSIZE) with
    | None => goes [] 1 0 1 r r'
    | Some (h, f) =>
        exists hd, handlers r !! Z.to_nat (Type_ h) = Some (Some hd) /\
        goes [(UDP, Type_ h, RxPackets (Receiver.counter r) mod nQueues hd,
               datagram_buffer h f (Z.min (zlen bytes) RECV_BUFSIZE) (fill pooled bytes) remote)]
          (Z.b2z (bad_version h f)) 0 0 r r'
    end).
Proof.
  intros Hr Hx Hp Hl Hb. pose proof (fill_ok pooled bytes Hp Hb) as Hf. pose proof (fill_zlen pooled bytes) as Lf.
  unfold udp_datagram, datagram_headers. cbn [Recv_Buffer]. rewrite Hl in *. set (size := Z.min _ _).
  destruct (size <? MESSAGE_HEADER_LEN).
  { eapply goes_bind; [by apply ReleaseRecvBuffer_runs|]. intros [] r1 H1.
    eapply runs_bind, runs_mono; [apply flushQueues_runs; [done|apply H1]|]. intros [] r2 H2%handed_goes; [|apply H1].
    eapply runs_mono; [apply logReceiveError_runs, H2|]. intros [] r3 H3.
    exact (goes_trans [] [] 0 1 0 0 1 0 _ _ _ H1 (goes_trans [] [] 0 1 0 0 0 0 _ _ _ H2 H3)). }
  destruct (BaseHeader_Decode_total (fill pooled bytes) Hf) as (h & Eh & Hh); [rewrite Lf; done|].
  rewrite Eh. cbn [mbind option_bind]. apply runs_bind. apply (runs_of_option _ (h, base_header_error h)); [done|].
  destruct (base_header_error h) eqn:Ee; [by apply refuse_message_runs|]. cbn [orb].
  pose proof (header_type_range h (proj2 Hh) Ee) as Ht. apply runs_bind, is_registered_runs; [done|done|].
  destruct (registered r (Type_ h)) eqn:Er; cbn [negb]; [|by apply refuse_message_runs].
  apply registered_handler in Er as [hd Ed].
  destruct (FlowHeader_Decode_total (drop (Z.to_nat MESSAGE_HEADER_LEN) (fill pooled bytes))) as (f & Ef & _).
  { by apply Forall_drop. }
  { change RECV_BUFSIZE with 512000 in *. offsets. unfold zlen in *. rewrite length_drop. lia. }
  destruct (is_vtap h) eqn:Ev.
  - rewrite Ef. cbn [mbind option_bind].
    eapply runs_mono; [apply (udp_message_runs h _ size remote r hd (Some f)); [done..|by rewrite Ev]|].
    intros [] r1. cbn [from_option]. destruct (old_version h f); [done|]. eauto.
  - eapply runs_mono; [apply (udp_message_runs h _ size remote r hd None); [done..|by rewrite Ev]|].
    intros [] r1. cbn [from_option]. eauto.
Qed.

(** *** Frames *)

Lemma hands_handler l r r' t h : hands l r r' -> handlers r !! t = Some (Some h) ->
  exists h', handlers r' !! t = Some (Some h') /\ nQueues h' = nQueues h.
Proof.
  intros [Hl Hh] Et. destruct (lookup_lt_is_Some_2 (handlers r') t) as [o Eo]; [rewrite Hl; by eapply lookup_lt_Some|].
  specialize (Hh t _ _ Et Eo). destruct o as [h'|]; [|done]. exists h'. split; [done|apply Hh].
Qed.

Lemma tcp_stamp_runs h buffer r : recv_ok r ->
  runs (if Type_ h =? MESSAGE_TYPE_METRICS then ts ← getMetricsTimestamp buffer; updateCounter ts ;; mret ts else mret 0) r
    (fun _ r' => goes [] 0 0 0 r r').
Proof.
  intros Hr. case_match; [|by apply runs_ret, goes_refl].
  eapply goes_bind; [by apply getMetricsTimestamp_runs|]. intros ts r1 H1.
  eapply goes_bind; [apply updateCounter_runs, H1|]. intros [] r2 H2. apply runs_ret.
  exact (goes_trans [] [] 0 0 0 0 0 0 _ _ _ H1 H2).
Qed.

Lemma tcp_payload_runs ip pooled h len v sq c r hd : recv_ok r -> 0 <= Type_ h < MESSAGE_TYPE_MAX ->
  handlers r !! Z.to_nat (Type_ h) = Some (Some hd) -> RxPackets (Receiver.counter r) + 1 < 2 ^ 63 ->
  zlen pooled = RECV_BUFSIZE -> 0 <= FrameSize h - len ->
  runs (tcp_payload range_order ip pooled h len v sq c) r (fun o r' =>
    if FrameSize h - len >? RECV_BUFSIZE then o = None /\ goes [] 1 0 0 r r'
    else match ReadN (FrameSize h - len) c with
      | (Some b, c') => o = Some c' /\
          goes [(TCP, Type_ h, (RxPackets (Receiver.counter r) + 1) mod nQueues hd,
                 mkRecvBuffer 0 (FrameSize h - len) (fill pooled b) ip v)] 0 1 0 r r'
      | (None, _) => o = None /\ goes [] 1 0 1 r r'
      end).
Proof.
  intros Hr Ht Eh Hx Hl Hd. unfold tcp_payload. destruct (Z.gtb_spec (FrameSize h - len) RECV_BUFSIZE) as [Hbig|Hbig].
  { eapply goes_bind; [by apply logTCP_runs|]. intros [] r1 H1. by apply runs_ret. }
  rewrite (proj2 (Z.ltb_ge _ 0)), (proj2 (Z.ltb_ge (zlen pooled) _)) by lia. cbn [orb].
  destruct (ReadN (FrameSize h - len) c) as [[b|] c'].
  2: { eapply goes_bind; [by apply count_invalid_runs|]. intros [] r1 H1.
       eapply goes_bind; [apply ReleaseRecvBuffer_runs, H1|]. intros [] r2 H2. apply runs_ret. split; [done|].
       exact (goes_trans [] [] 1 0 0 0 0 1 _ _ _ H1 H2). }
  eapply goes_bind; [by apply tcp_stamp_runs|]. intros ts r1 H1.
  eapply goes_bind; [by apply status_Update_runs; [apply H1|]|]. intros [] r2 H2.
  eapply goes_bind; [apply count_packet_runs, H2|]. intros [] r3 H3. apply runs_bind, runs_get.
  pose proof (goes_trans _ _ _ _ _ _ _ _ _ _ _ H1 (goes_trans _ _ _ _ _ _ _ _ _ _ _ H2 H3)) as H13.
  pose proof H13 as (O3 & Hh3 & _ & _ & X3 & _). destruct (hands_handler _ _ _ _ _ Hh3 Eh) as (hd3 & E3 & N3).
  assert (is_u 64 (RxPackets (Receiver.counter r))) as Hu by apply Hr. unfold is_u in Hu. cbn [Z.add] in X3.
  rewrite wrap_small in X3 by (unfold is_u; lia). rewrite X3. unfold swrap. rewrite Z.mod_small, Z.add_simpl_r by lia.
  apply runs_bind. eapply runs_mono; [apply (putQueue_runs TCP _ _ _ _ hd3); [done|done|lia|done|lia]|].
  intros [] r4 H4. apply runs_ret. split; [done|]. rewrite <- N3.
  eapply goes_eq; [exact (goes_trans _ _ _ _ _ _ _ _ _ _ _ H13 (handed_goes _ _ _ O3 H4))|done|lia|lia|done].
Qed.

Lemma tcp_flow_header_runs h c r : recv_ok r -> bytes_ok (concat c) ->
  runs (tcp_flow_header h c) r (fun o r' =>
    match ReadN FLOW_HEADER_LEN c with
    | (None, _) => o = None /\ goes [] 1 0 0 r r'
    | (Some b, c') => exists f, FlowHeader_Decode b = Some f /\
        if old_version h f then o = None /\ goes [] 1 0 0 r r'
        else o = Some (f, c') /\ goes [] (Z.b2z (bad_version h (Some f))) 0 0 r r'
    end).
Proof.
  intros Hr Hc. unfold tcp_flow_header. pose proof (ReadN_spec FLOW_HEADER_LEN c ltac:(done)) as Hn.
  destruct (ReadN FLOW_HEADER_LEN c) as [[b|] c'].
  2: { eapply goes_bind; [by apply count_invalid_runs|]. intros [] r1 H1. by apply runs_ret. }
  destruct Hn as [Hl Ec]. destruct (FlowHeader_Decode_total b) as (f & Ef & _); [|lia|].
  { rewrite <- Ec in Hc. by apply Forall_app in Hc as [? _]. }
  apply runs_bind. apply (runs_of_option _ f); [done|].
  eapply (runs_mono _ _ (fun o r' => if old_version h f then o = None /\ goes [] 1 0 0 r r'
    else o = Some (f, c') /\ goes [] (Z.b2z (bad_version h (Some f))) 0 0 r r')); [|intros o r1 H1; by exists f].
  unfold old_version. cbn [bad_version]. destruct (ValidateFlowVersion (Type_ h) (Version f)); cbn [andb].
  - eapply goes_bind; [by apply count_invalid_runs|]. intros [] r1 H1. case_match; [by apply runs_ret|].
    apply runs_bind, runs_modify, runs_ret. split; [done|].
    assert (goes [] 0 0 0 r1 (if i64 (timeNow r1 - lastLogTime r1) >? LOG_INTERVAL
      then set_log r1 (timeNow r1) (lastTCPLogTime r1) (dropLogCount r1) else r1)) as H2
      by (case_match; [apply set_log_goes|apply goes_refl]; apply H1).
    exact (goes_trans [] [] 1 0 0 0 0 0 _ _ _ H1 H2).
  - apply runs_ret. split; [done|]. by apply goes_refl.
Qed.

(** A frame as agents send it: the type, the flow header where the type has one, and what
    it carries. *)
Record frame := mkFrame { fr_type : Z; fr_flow : option FlowHeader; payload : list Z }.

Definition frame_header (f : frame) : BaseHeader := mkBaseHeader (header_len (fr_flow f) + zlen (payload f)) (fr_type f).

Definition frame_bytes (f : frame) : list Z :=
  base_bytes (frame_header f) ++ from_option flow_bytes [] (fr_flow f) ++ payload f.

(** A frame that the receiver accepts: not the size of bare headers, and of a known
    version. *)
Definition frame_ok (f : frame) : Prop :=
  base_ok (frame_header f) /\ base_header_error (frame_header f) = false /\
  FrameSize (frame_header f) <> MESSAGE_HEADER_LEN + FLOW_HEADER_LEN /\
  is_vtap (frame_header f) = (if fr_flow f then true else false) /\
  (forall h, fr_flow f = Some h -> flow_ok h /\ old_version (frame_header f) h = false) /\
  zlen (payload f) <= RECV_BUFSIZE /\ bytes_ok (payload f).

(** The bytes that an agent sends. *)
Definition encode_frame (f : frame) : option (list Z) :=
  b ← BaseHeader_Encode (frame_header f) (replicate (Z.to_nat MESSAGE_HEADER_LEN) 0);
  h ← match fr_flow f with
      | Some h => FlowHeader_Encode h (replicate (Z.to_nat FLOW_HEADER_LEN) 0)
      | None => Some []
      end;
  Some (b ++ h ++ payload f).

Lemma encode_frame_bytes f : encode_frame f = Some (frame_bytes f).
Proof.
  unfold encode_frame. rewrite BaseHeader_Encode_bytes by done. cbn [mbind option_bind]. unfold frame_bytes.
  destruct (fr_flow f) as [h|]; reflexivity.
Qed.

(** What a queue gets of a frame. *)
Definition frame_buffer (ip pooled : list Z) (f : frame) : RecvBuffer :=
  mkRecvBuffer 0 (zlen (payload f)) (fill pooled (payload f)) ip (from_option VTAPID 0 (fr_flow f)).

Lemma frame_bytes_ok f : frame_ok f -> bytes_ok (frame_bytes f).
Proof.
  intros ([_ Ht] & _ & _ & _ & _ & _ & Hp). unfold frame_bytes, base_bytes. repeat apply Forall_app_2; try done.
  - by apply be_put_ok.
  - by apply Forall_singleton.
  - destruct (fr_flow f); [|done]. cbn. unfold flow_bytes. repeat apply Forall_app_2; by apply le_put_ok.
Qed.

Abbreviation round := (handleTCPConnection_round range_order).

Lemma round_open ip pooled c r (Q : option conn -> R -> Prop) h c' : exit r = false ->
  ReadN MESSAGE_HEADER_LEN c = (Some (base_bytes h), c') -> base_ok h -> base_header_error h = false ->
  runs (tcp_message range_order ip pooled h c') r (fun o r1 =>
    match o with Some c2 => Q (Some c2) r1 | None => runs flushPutTCPQueues r1 (fun _ r2 => Q None r2) end) ->
  runs (round ip pooled c) r Q.
Proof.
  intros He Er Hh Ee HQ. unfold handleTCPConnection_round. apply runs_bind, runs_get. apply runs_bind. rewrite He, Er.
  apply runs_bind. apply (runs_of_option _ (h, base_header_error h)).
  { rewrite <- (app_nil_r (base_bytes h)). by apply BaseHeader_Decode_bytes. }
  rewrite Ee. eapply runs_mono; [exact HQ|]. intros [c2|] r1 H1; cbn beta iota in *; [by apply runs_ret|].
  apply runs_bind. eapply runs_mono; [exact H1|]. intros [] r2 H2. by apply runs_ret.
Qed.

(** What a frame carries, behind its headers. *)
Lemma payload_frame ip pooled c r f rest hd sq : recv_ok r -> zlen pooled = RECV_BUFSIZE ->
  RxPackets (Receiver.counter r) + 1 < 2 ^ 63 -> zlen (payload f) <= RECV_BUFSIZE -> 0 <= fr_type f < MESSAGE_TYPE_MAX ->
  handlers r !! Z.to_nat (fr_type f) = Some (Some hd) -> concat c = payload f ++ rest ->
  runs (tcp_payload range_order ip pooled (frame_header f) (header_len (fr_flow f)) (from_option VTAPID 0 (fr_flow f)) sq c) r
    (fun o r' => exists c', o = Some c' /\ concat c' = rest /\
      goes [(TCP, fr_type f, (RxPackets (Receiver.counter r) + 1) mod nQueues hd, frame_buffer ip pooled f)] 0 1 0 r r').
Proof.
  intros Hr Hl Hx Hp Ht Ehd Ec. pose proof (zlen_nonneg (payload f)) as Hn.
  assert (FrameSize (frame_header f) - header_len (fr_flow f) = zlen (payload f)) as Es by (cbn; lia).
  eapply runs_mono; [apply (tcp_payload_runs ip pooled _ _ _ _ _ _ hd); [done..|by rewrite Es]|].
  cbn beta. intros o r'. rewrite Es, Z.gtb_ltb, (proj2 (Z.ltb_ge _ _)) by lia.
  destruct (ReadN_app (zlen (payload f)) c _ _ Ec eq_refl) as (c' & -> & Ec'). intros [-> H1]. by exists c'.
Qed.

(** A frame is read as a whole, and handed to the queue of its type. *)
Lemma round_frame ip pooled c r f rest hd : recv_ok r -> exit r = false -> zlen pooled = RECV_BUFSIZE ->
  RxPackets (Receiver.counter r) + 1 < 2 ^ 63 -> frame_ok f -> handlers r !! Z.to_nat (fr_type f) = Some (Some hd) ->
  bytes_ok (concat c) -> concat c = frame_bytes f ++ rest ->
  runs (round ip pooled c) r (fun o r' => exists c', o = Some c' /\ concat c' = rest /\
    goes [(TCP, fr_type f, (RxPackets (Receiver.counter r) + 1) mod nQueues hd, frame_buffer ip pooled f)]
      (Z.b2z (bad_version (frame_header f) (fr_flow f))) 1 0 r r').
Proof.
  intros Hr He Hl Hx Hf Ehd Hc Ec. pose proof Hf as (Hb & Ee & Hs & Hv & Hfl & Hp & _).
  unfold frame_bytes in Ec. rewrite <- !app_assoc in Ec.
  destruct (ReadN_app MESSAGE_HEADER_LEN c _ _ Ec) as (c1 & E1 & Ec1); [by rewrite base_bytes_zlen|].
  assert (bytes_ok (concat c1)) as Hc1 by (rewrite Ec in Hc; apply Forall_app in Hc as [_ ?]; by rewrite Ec1).
  eapply round_open; [done|exact E1|done|done|]. unfold tcp_message. rewrite (proj2 (Z.eqb_neq _ _)) by done.
  pose proof (header_type_range _ (proj2 Hb) Ee) as Ht. apply runs_bind, is_registered_runs; [done|done|].
  assert (registered r (Type_ (frame_header f)) = true) as -> by (unfold registered; cbn; by rewrite Ehd). cbn [negb].
  fold (is_vtap (frame_header f)). rewrite Hv.
  destruct (fr_flow f) as [fl|] eqn:Efl; cbn [from_option app] in Ec1.
  - destruct (Hfl fl eq_refl) as [Ho Hold]. apply runs_bind. eapply runs_mono; [by apply tcp_flow_header_runs|]. cbn beta.
    destruct (ReadN_app FLOW_HEADER_LEN c1 _ _ Ec1) as (c2 & E2 & Ec2); [by rewrite flow_bytes_zlen|]. rewrite E2.
    intros o r1 (fl' & Ed & H1). rewrite <- (app_nil_r (flow_bytes fl)), FlowHeader_Decode_bytes in Ed by done.
    injection Ed as <-. rewrite Hold in H1. destruct H1 as [-> H1]. pose proof H1 as (O1 & Hh1 & _ & _ & X1 & _).
    rewrite (proj2 (recv_counts r Hr)) in X1. destruct (hands_handler _ _ _ _ _ Hh1 Ehd) as (hd1 & Ehd1 & N1).
    pose proof (payload_frame ip pooled c2 r1 f rest hd1 (Sequence fl) O1 Hl) as H. rewrite Efl, X1 in H.
    eapply runs_mono; [by apply H|]. intros o r2 (c3 & -> & Ec3 & H2). exists c3. split; [done|]. split; [done|]. rewrite <- N1.
    eapply goes_eq; [exact (goes_trans _ _ _ _ _ _ _ _ _ _ _ H1 H2)|done|lia|done|done].
  - pose proof (payload_frame ip pooled c1 r f rest hd 0 Hr Hl) as H. rewrite Efl in H.
    eapply runs_mono; [by apply H|]. intros o r2 (c3 & -> & Ec3 & H2). by exists c3.
Qed.

(** A connection that has ended is closed. *)
Lemma round_end ip pooled c r : recv_ok r -> zlen (concat c) < MESSAGE_HEADER_LEN ->
  runs (round ip pooled c) r (fun o r' => o = None /\ goes [] 0 0 0 r r').
Proof.
  intros Hr Hc. unfold handleTCPConnection_round. apply runs_bind, runs_get, runs_bind.
  pose proof (ReadN_spec MESSAGE_HEADER_LEN c ltac:(done)) as Hn.
  apply (runs_mono _ _ (fun o r1 => o = None /\ r1 = r)).
  - destruct (exit r); [by apply runs_ret|]. destruct (ReadN MESSAGE_HEADER_LEN c) as [[b|] c']; [|by apply runs_ret].
    destruct Hn as [Hl E]. rewrite <- E, zlen_app in Hc. pose proof (zlen_nonneg (concat c')). lia.
  - intros o r1 [-> ->]. apply runs_bind. eapply runs_mono; [by apply flushQueues_runs|]. intros [] r2 H2.
    apply runs_ret. split; [done|]. by apply handed_goes.
Qed.

(** ** When a connection makes the server panic *)

(** The next frame has a type whose length is not checked, and a length below that of
    its header. *)
Definition short_frame (r : R) (c : conn) : Prop :=
  exit r = false /\ exists h rest, concat c = base_bytes h ++ rest /\ base_ok h /\ registered r (Type_ h) = true /\
    HeaderType (Type_ h) = HEADER_TYPE_LT_NOCHECK /\ FrameSize h < MESSAGE_HEADER_LEN.

Lemma base_bytes_inj h h' rest rest' : base_ok h -> base_ok h' -> base_bytes h ++ rest = base_bytes h' ++ rest' -> h = h'.
Proof.
  intros Hh Hh' E. pose proof (BaseHeader_Decode_bytes h rest Hh) as D. rewrite E, (BaseHeader_Decode_bytes h' rest' Hh') in D.
  congruence.
Qed.

(** Five bytes are a header. *)
Lemma base_bytes_of b : bytes_ok b -> zlen b = MESSAGE_HEADER_LEN -> exists h, b = base_bytes h /\ base_ok h.
Proof.
  intros Hb Hl. destruct b as [|x0 [|x1 [|x2 [|x3 [|x4 [|]]]]]]; try done; [|offsets; unfold zlen in Hl; cbn [length] in Hl; lia].
  assert (bytes_ok [x0; x1; x2; x3]) as H4 by exact (Forall_take (is_u 8) 4 _ Hb).
  exists (mkBaseHeader (be_get [x0; x1; x2; x3]) x4). split.
  - unfold base_bytes, be_put, be_get. cbn [FrameSize Type_]. pose proof (le_put_get (reverse [x0; x1; x2; x3])) as H.
    change (zlen (reverse [x0; x1; x2; x3])) with 4 in H. rewrite H by (by apply Forall_reverse). by rewrite reverse_involutive.
  - split; [by apply (be_get_range [x0; x1; x2; x3])|]. by apply (proj1 (Forall_lookup _ _) Hb 4%nat).
Qed.

Lemma payload_total ip pooled h len v sq c r : recv_ok r -> 0 <= Type_ h < MESSAGE_TYPE_MAX -> registered r (Type_ h) = true ->
  RxPackets (Receiver.counter r) + 1 < 2 ^ 63 -> zlen pooled = RECV_BUFSIZE -> 0 <= FrameSize h - len ->
  runs (tcp_payload range_order ip pooled h len v sq c) r (fun _ r' => recv_ok r').
Proof.
  intros Hr Ht Hg Hx Hl Hd. apply registered_handler in Hg as [hd Ed].
  eapply runs_mono; [by apply (tcp_payload_runs ip pooled h len v sq c r hd)|]. cbn beta. intros o r'.
  case_match; [by intros [_ []]|]. destruct (ReadN _ c) as [[b|] c']; by intros [_ []].
Qed.

Lemma message_total ip pooled h c r : recv_ok r -> RxPackets (Receiver.counter r) + 1 < 2 ^ 63 -> zlen pooled = RECV_BUFSIZE ->
  bytes_ok (concat c) -> base_ok h -> base_header_error h = false ->
  (registered r (Type_ h) = true -> HeaderType (Type_ h) = HEADER_TYPE_LT_NOCHECK -> MESSAGE_HEADER_LEN <= FrameSize h) ->
  runs (tcp_message range_order ip pooled h c) r (fun _ r' => recv_ok r').
Proof.
  intros Hr Hx Hl Hc Hb Ee Hshort. pose proof (header_type_range _ (proj2 Hb) Ee) as Ht. unfold tcp_message. case_match.
  { destruct (ReadN FLOW_HEADER_LEN c) as [o c']. eapply goes_bind; [by apply count_invalid_runs|]. intros [] r1 []. by apply runs_ret. }
  apply runs_bind, is_registered_runs; [done|done|]. destruct (registered r (Type_ h)) eqn:Er; cbn [negb].
  2: { eapply goes_bind; [by apply count_invalid_runs|]. intros [] r1 []. by apply runs_ret. }
  unfold base_header_error in Ee. case_bool_decide as Ev.
  - rewrite Ev in Ee. apply runs_bind. eapply runs_mono; [by apply tcp_flow_header_runs|]. cbn beta. intros o r1 H1.
    assert (forall f c', o = Some (f, c') -> exists i, goes [] i 0 0 r r1) as Hgo.
    { intros f c' ->. destruct (ReadN FLOW_HEADER_LEN c) as [[b|] c2]; [|by destruct H1].
      destruct H1 as (f' & _ & H1). destruct (old_version h f'); destruct H1; eauto. }
    destruct o as [[f c']|].
    + destruct (Hgo f c' eq_refl) as (i & H2). pose proof H2 as (O1 & Hh1 & _ & _ & X1 & _).
      rewrite (proj2 (recv_counts r Hr)) in X1. apply registered_handler in Er as [hd Ed].
      destruct (hands_handler _ _ _ _ _ Hh1 Ed) as (hd1 & Ed1 & _).
      apply payload_total; [done|done|unfold registered; by rewrite Ed1|by rewrite X1|done|lia].
    + apply runs_ret. destruct (ReadN FLOW_HEADER_LEN c) as [[b|] c2]; [|by destruct H1 as [_ []]].
      destruct H1 as (f' & _ & H1). destruct (old_version h f'); by destruct H1 as [? []].
  - apply payload_total; try done. destruct (HeaderType (Type_ h)); [lia|specialize (Hshort eq_refl eq_refl); lia|done|done].
Qed.

Lemma round_total ip pooled c r : recv_ok r -> RxPackets (Receiver.counter r) + 1 < 2 ^ 63 -> zlen pooled = RECV_BUFSIZE ->
  bytes_ok (concat c) -> ~ short_frame r c -> runs (round ip pooled c) r (fun _ r' => recv_ok r').
Proof.
  intros Hr Hx Hl Hc Hshort. unfold handleTCPConnection_round. apply runs_bind, runs_get, runs_bind.
  apply (runs_mono _ _ (fun _ r' => recv_ok r')).
  - destruct (exit r) eqn:Ex; [by apply runs_ret|]. pose proof (ReadN_spec MESSAGE_HEADER_LEN c ltac:(done)) as Hn.
    destruct (ReadN MESSAGE_HEADER_LEN c) as [[b|] c']; [|by apply runs_ret]. destruct Hn as [Hlen E].
    pose proof Hc as Hc'. rewrite <- E in Hc'. apply Forall_app in Hc' as [Hb Hc'].
    destruct (base_bytes_of b Hb Hlen) as (h & -> & Hh). apply runs_bind. apply (runs_of_option _ (h, base_header_error h)).
    { rewrite <- (app_nil_r (base_bytes h)). by apply BaseHeader_Decode_bytes. }
    destruct (base_header_error h) eqn:Ee; [by apply runs_ret|]. apply message_total; try done.
    intros Hg Ht. destruct (Z.le_gt_cases MESSAGE_HEADER_LEN (FrameSize h)); [done|]. exfalso. apply Hshort.
    split; [done|]. exists h, (concat c'). split_and!; (done || lia).
  - intros [c'|] r1 H1; [by apply runs_ret|]. apply runs_bind. eapply runs_mono; [by apply flushQueues_runs|].
    intros [] r2 H2. apply runs_ret. apply H2.
Qed.

Lemma round_panics ip pooled c r : recv_ok r -> short_frame r c -> round ip pooled c r = None.
Proof.
  intros Hr (He & h & rest & Ec & Hh & Hg & Ht & Hs).
  destruct (ReadN_app MESSAGE_HEADER_LEN c _ _ Ec) as (c1 & E1 & _); [by rewrite base_bytes_zlen|].
  assert (base_header_error h = false) as Ee by (unfold base_header_error; by rewrite Ht).
  pose proof (header_type_range _ (proj2 Hh) Ee) as Hrange.
  unfold handleTCPConnection_round, mbind, ST_bind, get_state. rewrite He, E1. unfold of_option.
  rewrite <- (app_nil_r (base_bytes h)), BaseHeader_Decode_bytes by done. cbn. rewrite Ee. unfold tcp_message. offsets.
  rewrite (proj2 (Z.eqb_neq _ _)) by lia. apply registered_handler in Hg as [hd Ed].
  unfold is_registered, mbind, ST_bind, get_state, of_option. rewrite Ed. cbn.
  rewrite Ht, bool_decide_eq_false_2 by done. unfold tcp_payload. change RECV_BUFSIZE with 512000.
  rewrite Z.gtb_ltb, (proj2 (Z.ltb_ge 512000 _)), (proj2 (Z.ltb_lt _ 0)) by lia. done.
Qed.

(** ** All threads *)

Abbreviation machine := (machine (W := W)).

Definition bytes_of_read (x : udp_read) : list Z := match x with Datagram bytes _ => bytes | _ => [] end.

Definition event_ok (e : event) : Prop :=
  match e with
  | Tick => True
  | Udp pooled x => bytes_ok pooled /\ zlen pooled = RECV_BUFSIZE /\ bytes_ok (bytes_of_read x)
  | Tcp _ pooled => zlen pooled = RECV_BUFSIZE
  end.

(** Every open connection carries the frames that are still to come. *)
Definition carries (sent : Z -> list frame) (m : machine) : Prop :=
  forall i ip c, conns m !! i = Some (ip, c) ->
    concat c = concat (frame_bytes <$> sent i) /\
    Forall (fun f => frame_ok f /\ registered (recv m) (fr_type f) = true) (sent i).

(** The buffers for the rounds of a connection, and what they handed over. *)
Definition is_round (i : Z) (e : event) : bool := match e with Tcp j _ => j =? i | _ => false end.

Definition pools_of (i : Z) (es : list event) : list (list Z) :=
  es ≫= (fun e => match e with Tcp j pooled => if j =? i then [pooled] else [] | _ => [] end).

Definition outs_of (i : Z) (es : list event) (outs : list (list item)) : list item :=
  zip es outs ≫= (fun '(e, l) => if is_round i e then l else []).

(** A frame, with the buffer that its round had, is handed over. *)
Definition delivers (ip : list Z) (x : frame * list Z) (it : item) : Prop :=
  exists k, it = (TCP, fr_type x.1, k, frame_buffer ip x.2 x.1).

Definition delivered (sent : Z -> list frame) (m : machine) (es : list event) (outs : list (list item)) (i : Z) : Prop :=
  match conns m !! i with
  | Some (ip, _) => Forall2 (delivers ip) (zip (sent i) (pools_of i es)) (outs_of i es outs)
  | None => outs_of i es outs = []
  end.

Lemma hands_registered l r r' t : hands l r r' -> registered r t = true -> registered r' t = true.
Proof.
  intros Hh Hg. apply registered_handler in Hg as [h Eh]. destruct (hands_handler _ _ _ _ _ Hh Eh) as (h' & E' & _).
  unfold registered. by rewrite E'.
Qed.

Lemma on_recv_runs {A} (p : M A) (m : machine) (Q : A -> machine -> Prop) :
  runs p (recv m) (fun a r => Q a (mkMachine r (conns m))) -> runs (on_recv p) m Q.
Proof. unfold runs, on_recv. by destruct (p (recv m)) as [[a r]|]. Qed.

Lemma tick_runs r : recv_ok r -> runs (timeNowTicker_round (W := W)) r (fun _ r' => goes [] 0 0 0 r r').
Proof.
  intros Hr. unfold timeNowTicker_round. apply runs_bind, runs_get. case_match; [by apply runs_ret, goes_refl|].
  apply runs_bind, read_clock_runs. intros n w. apply runs_modify. destruct (recv_counts r Hr) as [Ei Ex].
  split_and!; [done|by apply hands_same|done|by rewrite Ei|by rewrite Ex|cbn; lia].
Qed.

Lemma udp_round_runs pooled x r : recv_ok r -> RxPackets (Receiver.counter r) < 2 ^ 63 -> event_ok (Udp pooled x) ->
  runs (ProcessUDPServer_round range_order pooled x) r (fun _ r' => exists l i n, goes l i 0 n r r').
Proof.
  intros Hr Hx (Hp & Hl & Hb). unfold ProcessUDPServer_round. apply runs_bind, runs_get.
  case_match; [apply runs_ret; exists [], 0, 0%nat; by apply goes_refl|].
  assert (forall r, recv_ok r -> runs (flushPutUDPQueues (W := W)) r (fun _ r' => goes [] 0 0 0 r r')) as Hflush.
  { intros r0 H0. eapply runs_mono; [by apply flushQueues_runs|]. intros [] r1 H1. by apply handed_goes. }
  destruct x as [| |bytes remote].
  - eapply goes_bind; [by apply ReleaseRecvBuffer_runs|]. intros [] r1 H1. eapply runs_mono; [apply Hflush, H1|]. intros [] r2 H2.
    eexists _, _, _. exact (goes_trans [] [] 0 0 0 0 1 0 _ _ _ H1 H2).
  - eapply goes_bind; [by apply ReleaseRecvBuffer_runs|]. intros [] r1 H1. eapply goes_bind; [apply Hflush, H1|]. intros [] r2 H2.
    eapply runs_mono; [apply logReceiveError_runs, H2|]. intros [] r3 H3. eexists _, _, _.
    exact (goes_trans [] [] 0 1 0 0 1 0 _ _ _ H1 (goes_trans [] [] 0 1 0 0 0 0 _ _ _ H2 H3)).
  - eapply runs_mono; [by apply udp_datagram_runs|]. cbn beta. intros [] r1. destruct (datagram_headers _ _ _) as [[h f]|].
    + intros (hd & _ & H1). by eexists _, _, _.
    + intros H1. by eexists _, _, _.
Qed.

Lemma carries_hands sent sent' m l r' cs : carries sent m -> hands l (recv m) r' ->
  (forall i ip c, cs !! i = Some (ip, c) ->
     (conns m !! i = Some (ip, c) /\ sent' i = sent i) \/
     exists f c0, conns m !! i = Some (ip, c0) /\ sent i = f :: sent' i /\ concat c = concat (frame_bytes <$> sent' i)) ->
  carries sent' (mkMachine r' cs).
Proof.
  intros Hc Hh Hcs i ip c Hi. cbn in Hi. cbn [recv].
  assert (forall l', Forall (fun f => frame_ok f /\ registered (recv m) (fr_type f) = true) l' ->
    Forall (fun f => frame_ok f /\ registered r' (fr_type f) = true) l') as Hreg.
  { intros l' Hl'. eapply Forall_impl; [exact Hl'|]. intros f [Hf Hg]. split; [done|by eapply hands_registered]. }
  destruct (Hcs i ip c Hi) as [[Hi' ->]|(f & c0 & Hi' & E & Ec)].
  - destruct (Hc i ip c Hi') as [Ec Hs]. split; [done|by apply Hreg].
  - destruct (Hc i ip c0 Hi') as [_ Hs]. rewrite E in Hs. apply Forall_cons in Hs as [_ Hs]. split; [done|by apply Hreg].
Qed.

(** What a step is to do. *)
Definition good_step (sent : Z -> list frame) (m : machine) (e : event) (m' : machine) : Prop :=
  exists l sent', recv_ok (recv m') /\ exit (recv m') = exit (recv m) /\
    RxPackets (Receiver.counter (recv m')) <= RxPackets (Receiver.counter (recv m)) + 1 /\
    hands l (recv m) (recv m') /\ carries sent' m' /\
    forall es outs i, delivered sent' m' es outs i -> delivered sent m (e :: es) (l :: outs) i.

Lemma goes_rx l i x n r r' : recv_ok r -> goes l i x n r r' -> 0 <= x <= 1 ->
  RxPackets (Receiver.counter r') <= RxPackets (Receiver.counter r) + 1.
Proof.
  intros (_ & _ & _ & _ & _ & Hu) (_ & _ & _ & _ & -> & _) Hx. unfold is_u in Hu. unfold wrap.
  pose proof (Z.mod_le (RxPackets (Receiver.counter r) + x) (2 ^ 64)). lia.
Qed.

(** Steps that leave the connections alone. *)
Lemma other_step sent m e l i x n r' : carries sent m -> recv_ok (recv m) -> goes l i x n (recv m) r' -> 0 <= x <= 1 ->
  (forall j, is_round j e = true -> l = [] /\ conns m !! j = None) -> good_step sent m e (mkMachine r' (conns m)).
Proof.
  intros Hc Hr Hg Hx He. pose proof Hg as (O1 & H1 & E1 & _). exists l, sent. cbn [recv].
  split_and!; [done|done|by eapply goes_rx|done|eapply carries_hands; [done|done|by left]|].
  intros es outs j. unfold delivered. cbn [conns].
  assert (outs_of j (e :: es) (l :: outs) = outs_of j es outs) as ->.
  { unfold outs_of. cbn [zip zip_with mbind list_bind]. destruct (is_round j e) eqn:Ej; [|done]. by destruct (He j Ej) as [-> _]. }
  destruct (conns m !! j) as [[ip c]|] eqn:Ec; [|done].
  replace (pools_of j (e :: es)) with (pools_of j es); [done|]. unfold pools_of. cbn [mbind list_bind].
  destruct e as [| |j' pooled]; [done|done|]. cbn [is_round] in He. destruct (Z.eqb_spec j' j) as [->|]; [|done].
  destruct (He j (Z.eqb_refl j)) as [_ Hn]. congruence.
Qed.

Lemma tcp_step sent m i pooled ip c : carries sent m -> recv_ok (recv m) -> exit (recv m) = false ->
  RxPackets (Receiver.counter (recv m)) + 1 < 2 ^ 63 -> zlen pooled = RECV_BUFSIZE -> conns m !! i = Some (ip, c) ->
  runs (round ip pooled c) (recv m) (fun o r' =>
    good_step sent m (Tcp i pooled)
      (mkMachine r' (match o with Some c => <[i := (ip, c)]> (conns m) | None => delete i (conns m) end))).
Proof.
  intros Hc Hr He Hx Hl Ei. destruct (Hc i ip c Ei) as [Ec Hs]. destruct (sent i) as [|f fs] eqn:Esent.
  - eapply runs_mono; [apply round_end; [done|by rewrite Ec]|]. cbn beta. intros o r1 [-> H1].
    exists [], sent. pose proof H1 as (O1 & Hh1 & E1 & _). cbn [recv].
    split_and!; [done|done|eapply goes_rx; [exact Hr|exact H1|lia]|done| |].
    { eapply carries_hands; [done|done|]. intros j ip' c' Hj%lookup_delete_Some. left. by destruct Hj. }
    intros es outs j. unfold delivered, outs_of. cbn [conns zip zip_with mbind list_bind is_round].
    destruct (Z.eqb_spec i j) as [<-|Hne].
    + rewrite lookup_delete_eq, Ei, Esent. cbn [zip zip_with]. intros ->. constructor.
    + rewrite lookup_delete_ne by done. destruct (conns m !! j) as [[ip' c']|]; [|done].
      unfold pools_of. cbn [mbind list_bind]. by rewrite (proj2 (Z.eqb_neq i j)).
  - apply Forall_cons in Hs as [[Hf Hg] Hfs]. apply registered_handler in Hg as [hd Ehd].
    assert (bytes_ok (concat c)) as Hb.
    { rewrite Ec. cbn [fmap list_fmap concat]. apply Forall_app_2; [by apply frame_bytes_ok|]. apply Forall_concat, Forall_fmap.
      eapply Forall_impl; [exact Hfs|]. intros f' [Hf' _]. by apply frame_bytes_ok. }
    eapply runs_mono; [by apply (round_frame ip pooled c (recv m) f (concat (frame_bytes <$> fs)) hd)|]. cbn beta. intros o r1 (c1 & -> & Ec1 & H1).
    pose proof H1 as (O1 & Hh1 & E1 & _). set (it := (TCP, fr_type f, _, _)) in *.
    exists [it], (fun j => if decide (j = i) then fs else sent j). cbn [recv].
    split_and!; [done|done|eapply goes_rx; [exact Hr|exact H1|lia]|done| |].
    { eapply carries_hands; [done|done|]. intros j ip' c' Hj. destruct (decide (j = i)) as [->|Hne].
      - rewrite lookup_insert_eq in Hj. injection Hj as <- <-. right. exists f, c. by rewrite Esent.
      - rewrite lookup_insert_ne in Hj by done. by left. }
    intros es outs j. unfold delivered, outs_of. cbn [conns zip zip_with mbind list_bind is_round].
    destruct (Z.eqb_spec i j) as [<-|Hne].
    + rewrite lookup_insert_eq, decide_True, Ei, Esent by done. unfold pools_of. cbn [mbind list_bind]. rewrite Z.eqb_refl.
      cbn [app zip zip_with]. intros HF. constructor; [by eexists|done].
    + rewrite lookup_insert_ne, decide_False by done. destruct (conns m !! j) as [[ip' c']|]; [|done].
      unfold pools_of. cbn [mbind list_bind]. by rewrite (proj2 (Z.eqb_neq i j)).
Qed.

Lemma step_runs sent m e : carries sent m -> recv_ok (recv m) -> exit (recv m) = false ->
  RxPackets (Receiver.counter (recv m)) + 1 < 2 ^ 63 -> event_ok e ->
  runs (step range_order e) m (fun _ m' => good_step sent m e m').
Proof.
  intros Hc Hr He Hx Hok. destruct e as [|pooled x|i pooled]; cbn [step].
  - apply on_recv_runs. eapply runs_mono; [by apply tick_runs|]. intros [] r' H. by eapply other_step.
  - apply on_recv_runs. eapply runs_mono; [apply udp_round_runs; [done|lia|done]|]. cbn beta.
    intros [] r' (l & i & n & H). by eapply other_step.
  - apply runs_bind, runs_get. destruct (conns m !! i) as [[ip c]|] eqn:Ei.
    + apply runs_bind, on_recv_runs. eapply runs_mono; [by eapply tcp_step|]. cbn beta. intros o r' H. by apply runs_modify.
    + apply runs_ret. destruct m as [r cs]. eapply other_step; [done|done|by apply goes_refl|lia|].
      intros j Hj. split; [done|]. cbn [is_round] in Hj. apply Z.eqb_eq in Hj. by subst.
Qed.

Lemma steps_run es : forall sent m, carries sent m -> recv_ok (recv m) -> exit (recv m) = false ->
  RxPackets (Receiver.counter (recv m)) + zlen es < 2 ^ 63 -> Forall event_ok es ->
  runs (for_each (step range_order) es) m (fun _ m' => exists outs, recv_ok (recv m') /\
    hands (concat outs) (recv m) (recv m') /\ length outs = length es /\ forall i, delivered sent m es outs i).
Proof.
  induction es as [|e es IH]; intros sent m Hc Hr He Hx Hok; cbn [for_each].
  { apply runs_ret. exists []. split_and!; [done|by apply hands_same|done|]. intros i. unfold delivered, outs_of, pools_of. cbn.
    destruct (conns m !! i) as [[ip c]|]; [|done]. destruct (sent i); constructor. }
  apply Forall_cons in Hok as [Hok Hoks]. rewrite zlen_cons in Hx. pose proof (zlen_nonneg es).
  apply runs_bind. eapply runs_mono; [apply step_runs; try done; lia|]. cbn beta.
  intros [] m1 (l & sent1 & O1 & E1 & X1 & H1 & C1 & D1).
  eapply runs_mono; [apply (IH sent1 m1); [done|done|congruence|lia|done]|]. cbn beta.
  intros [] m2 (outs & O2 & H2 & L2 & D2). exists (l :: outs). split_and!; [done|by eapply hands_trans|cbn; lia|].
  intros i. apply D1, D2.
Qed.

(** Every open connection carries the frames of an agent, and nothing else. *)
Definition sends (sent : Z -> list frame) (m : machine) : Prop :=
  forall i ip c, conns m !! i = Some (ip, c) ->
    (exists bs, Forall2 (fun f b => encode_frame f = Some b) (sent i) bs /\ concat c = concat bs) /\
    Forall (fun f => frame_ok f /\ registered (recv m) (fr_type f) = true) (sent i).

Lemma sends_carries sent m : sends sent m -> carries sent m.
Proof.
  intros Hs i ip c Hi. destruct (Hs i ip c Hi) as [(bs & Hb & ->) Hf]. split; [|done]. f_equal.
  clear -Hb. induction Hb as [|f b fs bs Hf _ IH]; [done|]. rewrite encode_frame_bytes in Hf. injection Hf as <-. cbn. by f_equal.
Qed.

(** C21: the threads of the receiver run in any order: the ticker, the UDP thread with any
    datagrams, and the threads of connections over which agents send frames.  However
    the reads cut the bytes, no thread panics, and the rounds of a connection hand over
    its frames one by one, whole, in order, each once and each with the bytes and the
    agent that it was sent with.  All buffers that were handed over are, in order and
    nothing else, in the calls of their queue and in the cache in front of it. *)
Theorem tcp_frames_delivered (sent : Z -> list frame) (m : machine) (es : list event) :
  sends sent m -> recv_ok (recv m) -> exit (recv m) = false ->
  RxPackets (Receiver.counter (recv m)) + zlen es < 2 ^ 63 -> Forall event_ok es ->
  exists m' outs, for_each (step range_order) es m = Some (tt, m') /\ recv_ok (recv m') /\
    hands (concat outs) (recv m) (recv m') /\ length outs = length es /\ forall i, delivered sent m es outs i.
Proof.
  intros Hs Hr He Hx Hok. pose proof (steps_run es sent m (sends_carries _ _ Hs) Hr He Hx Hok) as H.
  apply runs_exists in H as ([] & m' & E & outs & H). by exists m', outs.
Qed.

Lemma short_or_not r c : bytes_ok (concat c) -> short_frame r c \/ ~ short_frame r c.
Proof.
  intros Hc. destruct (exit r) eqn:He; [right; intros [? _]; congruence|].
  pose proof (ReadN_spec MESSAGE_HEADER_LEN c ltac:(done)) as H. destruct (ReadN MESSAGE_HEADER_LEN c) as [[b|] c'].
  - destruct H as [Hl Ec]. assert (bytes_ok b) as Hb by (rewrite <- Ec in Hc; by apply Forall_app in Hc as [? _]).
    destruct (base_bytes_of b Hb Hl) as (h & -> & Hh).
    destruct (decide (registered r (Type_ h) = true /\ HeaderType (Type_ h) = HEADER_TYPE_LT_NOCHECK /\ FrameSize h < MESSAGE_HEADER_LEN))
      as [(H1 & H2 & H3)|Hn].
    + left. split; [done|]. by exists h, (concat c').
    + right. intros (_ & h' & rest & E & Hh' & Hrest). rewrite <- Ec in E. by rewrite <- (base_bytes_inj h h' _ _ Hh Hh' E) in Hrest.
  - right. intros (_ & h & rest & E & _). destruct H as [H _]. rewrite E, zlen_app, base_bytes_zlen in H.
    pose proof (zlen_nonneg rest). lia.
Qed.

(** C38: a round of a TCP connection panics, which ends the server, exactly when the next
    frame has a registered type whose length is not checked, and a length below that
    of its own header. *)
Theorem tcp_panics_iff ip pooled c r : recv_ok r -> RxPackets (Receiver.counter r) + 1 < 2 ^ 63 ->
  zlen pooled = RECV_BUFSIZE -> bytes_ok (concat c) -> round ip pooled c r = None <-> short_frame r c.
Proof.
  intros Hr Hx Hl Hc. split; [|by apply round_panics]. intros E.
  destruct (short_or_not r c Hc) as [?|Hn]; [done|].
  pose proof (round_total ip pooled c r Hr Hx Hl Hc Hn) as H. unfold runs in H. by rewrite E in H.
Qed.

(** C24: a datagram never makes the receiver panic, whatever its bytes and those of the buffer
    from the pool are.  It is refused, counted as invalid and its buffer given back, when
    its headers are; otherwise one buffer with its bytes is handed over.  A UDP packet
    is not counted, so all of them go to the same queue until a frame comes over TCP. *)
Theorem udp_datagrams pooled bytes remote r : recv_ok r -> exit r = false -> RxPackets (Receiver.counter r) < 2 ^ 63 ->
  bytes_ok pooled -> zlen pooled = RECV_BUFSIZE -> bytes_ok bytes ->
  exists r', ProcessUDPServer_round range_order pooled (Datagram bytes remote) r = Some (tt, r') /\
    match datagram_headers r (fill pooled bytes) (Z.min (zlen bytes) RECV_BUFSIZE) with
    | None => goes [] 1 0 1 r r'
    | Some (h, f) =>
        exists hd, handlers r !! Z.to_nat (Type_ h) = Some (Some hd) /\
        goes [(UDP, Type_ h, RxPackets (Receiver.counter r) mod nQueues hd,
               datagram_buffer h f (Z.min (zlen bytes) RECV_BUFSIZE) (fill pooled bytes) remote)]
          (Z.b2z (bad_version h f)) 0 0 r r'
    end.
Proof.
  intros Hr He Hx Hp Hl Hb. pose proof (udp_datagram_runs r pooled bytes remote Hr Hx Hp Hl Hb) as H.
  apply runs_exists in H as ([] & r' & E & H). exists r'. split; [|exact H].
  unfold ProcessUDPServer_round, mbind, ST_bind, get_state. by rewrite He.
Qed.
End Facts.

(** * Agents for the controller *)

Section Agents.
Context (range_order : list Z -> list Z) {W : Type}.
Hypothesis order_perm : forall l, range_order l ≡ₚ l.

(** The agent of the status that a pointer is to. *)
Definition agent_at (heap : list Status) (p : nat) : option Z := st_VTAPID <$> heap !! p.

(** Statuses under a key are of that agent, those under an address of none, and no agent
    is listed twice. *)
Definition side_agents (heap : list Status) (x : Side) : Prop :=
  Forall (map_Forall (fun k p => agent_at heap p = Some k)) (StatusFlow x) /\
  Forall (map_Forall (fun _ p => agent_at heap p = Some 0)) (StatusOthers x) /\
  NoDup (agent_at heap <$> MetrisStatus x).

Definition agents_ok (s : AdapterStatus) : Prop :=
  status_ok s /\ side_agents (statuses s) (udp_side s) /\ side_agents (statuses s) (tcp_side s).

(** A heap that keeps the agents of the pointers there are. *)
Definition same_agents (heap heap' : list Status) : Prop :=
  (length heap <= length heap')%nat /\ forall p, (p < length heap)%nat -> agent_at heap' p = agent_at heap p.

Lemma side_agents_mono heap heap' x : side_ok (length heap) x -> same_agents heap heap' -> side_agents heap x ->
  side_agents heap' x.
Proof.
  intros (_ & _ & F1 & F2 & F3) [_ Hs] (H1 & H2 & H3). split_and!.
  - apply Forall_lookup. intros i m Hm k p Hk. rewrite Hs by (by apply (proj1 (Forall_lookup _ _) F1 i m Hm k)).
    by apply (proj1 (Forall_lookup _ _) H1 i m Hm k).
  - apply Forall_lookup. intros i m Hm k p Hk. rewrite Hs by (by apply (proj1 (Forall_lookup _ _) F2 i m Hm k)).
    by apply (proj1 (Forall_lookup _ _) H2 i m Hm k).
  - replace (agent_at heap' <$> MetrisStatus x) with (agent_at heap <$> MetrisStatus x); [done|].
    apply list_fmap_ext. intros i p Hp. symmetry. apply Hs. by apply (proj1 (Forall_lookup _ _) F3 i).
Qed.

(** Recording a status of the agent [v] under a key of that agent. *)
Lemma record_agents {K} `{Countable K} heap (table : list (gmap K nat)) t key upd new v (owner : K -> Z) heap' table' :
  Forall (map_Forall (fun _ p => (p < length heap)%nat)) table ->
  Forall (map_Forall (fun k p => agent_at heap p = Some (owner k))) table ->
  owner key = v -> st_VTAPID new = v -> (forall st, st_VTAPID (upd st) = v) ->
  record_status heap table t key upd new = Some (heap', table') ->
  same_agents heap heap' /\ Forall (map_Forall (fun k p => agent_at heap' p = Some (owner k))) table'.
Proof.
  intros Hp Ho Hkey Hnew Hupd. unfold record_status. destruct (table !! Z.to_nat t) as [m|] eqn:Em; [|done]. cbn [mbind option_bind].
  destruct (m !! key) as [p|] eqn:Ek.
  - pose proof (proj1 (Forall_lookup _ _) Ho _ _ Em key p Ek) as Ea. unfold agent_at in Ea.
    destruct (heap !! p) as [st|] eqn:Est; [|done]. cbn [mbind option_bind]. intros [= <- <-].
    assert (forall q, agent_at (<[p := upd st]> heap) q = agent_at heap q) as Hq.
    { intros q. unfold agent_at. destruct (decide (q = p)) as [->|Hne]; [|by rewrite list_lookup_insert_ne].
      rewrite list_lookup_insert_eq by (by eapply lookup_lt_Some). rewrite Est. cbn. rewrite Hupd. cbn in Ea. congruence. }
    split; [split; [by rewrite length_insert|done]|]. eapply Forall_impl; [exact Ho|]. intros m' Hm' k q Hk. rewrite Hq. by apply Hm'.
  - intros [= <- <-]. assert (same_agents heap (heap ++ [new])) as Hs.
    { split; [rewrite length_app; lia|]. intros q Hq. unfold agent_at. by rewrite lookup_app_l. }
    split; [done|]. assert (Forall (map_Forall (fun k p => agent_at (heap ++ [new]) p = Some (owner k))) table) as Hold.
    { apply Forall_lookup. intros i m' Hm' k q Hk. rewrite (proj2 Hs) by (by apply (proj1 (Forall_lookup _ _) Hp i m' Hm' k)).
      by apply (proj1 (Forall_lookup _ _) Ho i m' Hm' k). }
    apply Forall_insert; [done|]. apply map_Forall_insert_2; [|by apply (proj1 (Forall_lookup _ _) Hold _ _ Em)].
    unfold agent_at. rewrite lookup_app_r, Nat.sub_diag by done. cbn. congruence.
Qed.

Lemma metrics_agents heap x : side_agents heap x -> NoDup (agent_at heap <$> metrics_pointers range_order x).
Proof.
  intros (H1 & _ & _). unfold metrics_pointers. set (m := default ∅ _).
  assert (forall k p, m !! k = Some p -> agent_at heap p = Some k) as Hm.
  { intros k p Hk. unfold m in Hk. destruct (StatusFlow x !! Z.to_nat MESSAGE_TYPE_METRICS) as [m'|] eqn:E; [|done].
    by apply (proj1 (Forall_lookup _ _) H1 _ _ E). }
  assert (NoDup (range_order (map_to_list m).*1)) as Hn by (rewrite order_perm; apply NoDup_fst_map_to_list).
  assert (agent_at heap <$> omap (fun k => m !! k) (range_order (map_to_list m).*1) = Some <$> range_order (map_to_list m).*1) as ->.
  { assert (Forall (fun k => is_Some (m !! k)) (range_order (map_to_list m).*1)) as Hs.
    { rewrite order_perm. apply Forall_fmap, Forall_forall. intros [k p] Hk%elem_of_map_to_list. by eexists. }
    clear Hn. induction Hs as [|k l [p Hk] _ IH]; [done|]. cbn. rewrite Hk. cbn. rewrite (Hm k p Hk). by f_equal. }
  by apply NoDup_fmap_2; [intros ?? [= ->]|].
Qed.
(** The part of a side that an update changes first. *)
Lemma recorded_agents heap x t v ip upd new heap' x' : side_ok (length heap) x -> side_agents heap x ->
  st_VTAPID new = v -> (forall st, st_VTAPID (upd st) = v) ->
  (if negb (v =? 0) then
     r ← record_status heap (StatusFlow x) t v upd new;
     Some (r.1, mkSide (lastUpdate x) (MetrisStatus x) r.2 (StatusOthers x))
   else
     r ← record_status heap (StatusOthers x) t (IP_String ip) upd new;
     Some (r.1, mkSide (lastUpdate x) (MetrisStatus x) (StatusFlow x) r.2)) = Some (heap', x') ->
  same_agents heap heap' /\ side_agents heap' x'.
Proof.
  intros Hx Ha Hnew Hupd. pose proof Hx as (_ & _ & F1 & F2 & _). pose proof Ha as (A1 & A2 & _).
  destruct (Z.eqb_spec v 0) as [Ev|_]; cbn [negb].
  - destruct (record_status heap (StatusOthers x) t (IP_String ip) upd new) as [[h tb]|] eqn:E; [|done]. intros [= <- <-].
    destruct (record_agents heap _ _ _ _ _ v (fun _ => 0) h tb F2 A2 (eq_sym Ev) Hnew Hupd E) as [Hs Htb]. split; [done|].
    destruct (side_agents_mono heap h x Hx Hs Ha) as (B1 & _ & B3). by split_and!.
  - destruct (record_status heap (StatusFlow x) t v upd new) as [[h tb]|] eqn:E; [|done]. intros [= <- <-].
    destruct (record_agents heap _ _ _ _ _ v id h tb F1 A1 eq_refl Hnew Hupd E) as [Hs Htb]. split; [done|].
    destruct (side_agents_mono heap h x Hx Hs Ha) as (_ & B2 & B3). by split_and!.
Qed.

Lemma Update_agents s now t v ip seq ts p : agents_ok s -> 0 <= t < MESSAGE_TYPE_MAX ->
  exists s', AdapterStatus_Update range_order s now t v ip seq ts p = Some s' /\ agents_ok s'.
Proof.
  intros (Hs & Hu & Ht) Htype. destruct (AdapterStatus_Update_ok range_order s now t v ip seq ts p Hs Htype) as (s' & E & Hs').
  exists s'. split; [done|]. split; [done|]. unfold AdapterStatus_Update in E.
  set (upd := fun st => Status_update st now t v ip seq ts p) in E. set (new := NewStatus now t v ip seq ts p) in E.
  set (r := if negb (v =? 0) then _ else _) in E. destruct r as [[heap x]|] eqn:Er; [|done]. cbn [mbind option_bind] in E.
  assert (side_ok (length (statuses s)) (side_of p s)) as Hx by (destruct Hs; by destruct p).
  assert (side_agents (statuses s) (side_of p s)) as Ha by (by destruct p).
  destruct (recorded_agents (statuses s) (side_of p s) t v ip upd new heap x Hx Ha eq_refl (fun _ => eq_refl) Er) as [Hsame Hx'].
  injection E as <-. destruct Hs as [Su St].
  assert (forall y, y = x \/ y = mkSide now (metrics_pointers range_order x) (StatusFlow x) (StatusOthers x) -> side_agents heap y) as Hy.
  { intros y [->| ->]; [done|]. pose proof (metrics_agents heap x Hx') as Hm. destruct Hx' as (? & ? & _). by split_and!. }
  destruct p; (split; cbn; first [by eapply side_agents_mono | apply Hy; case_match; [by right|by left]]).
Qed.

(** What [GetTridentStatus] makes of the two lists. *)
Lemma find_spec (l : list Status) s :
  match same_agent l s with
  | Some x => x ∈ l /\ st_VTAPID x = st_VTAPID s
  | None => forall x, x ∈ l -> st_VTAPID x <> st_VTAPID s
  end.
Proof.
  unfold same_agent. destruct (List.find _ l) as [x|] eqn:E.
  - apply find_some in E as [Hin Hx]. split; [by apply list_elem_of_In|lia].
  - intros x Hx%list_elem_of_In. pose proof (find_none _ _ E x Hx) as Hn. cbn in Hn. lia.
Qed.

Lemma agent_unique (l : list Status) x y : NoDup (st_VTAPID <$> l) -> x ∈ l -> y ∈ l -> st_VTAPID x = st_VTAPID y -> x = y.
Proof.
  intros Hn [i Hi]%list_elem_of_lookup [j Hj]%list_elem_of_lookup E.
  assert (i = j) as ->; [|congruence]. apply (NoDup_lookup _ _ _ (st_VTAPID x) Hn); rewrite list_lookup_fmap.
  - by rewrite Hi.
  - by rewrite Hj, E.
Qed.
(** Every agent of the two lists once, with its latest status. *)
Definition reports (U T L : list Status) : Prop :=
  NoDup (st_VTAPID <$> L) /\
  (forall x, x ∈ L -> x ∈ U ++ T /\
     forall y, y ∈ U ++ T -> st_VTAPID y = st_VTAPID x -> lastRemoteTimestamp y <= lastRemoteTimestamp x) /\
  (forall y, y ∈ U ++ T -> exists x, x ∈ L /\ st_VTAPID x = st_VTAPID y).

Definition latest (T : list Status) (us : Status) : Status :=
  match same_agent T us with
  | Some ts => if lastRemoteTimestamp us >? lastRemoteTimestamp ts then us else ts
  | None => us
  end.

Lemma latest_agent T us : st_VTAPID (latest T us) = st_VTAPID us.
Proof. unfold latest. pose proof (find_spec T us) as H. destruct (same_agent T us) as [ts|]; [|done]. case_match; [done|apply H]. Qed.

Lemma latest_in U T us : us ∈ U -> latest T us ∈ U ++ T.
Proof.
  intros Hu. unfold latest. rewrite elem_of_app. pose proof (find_spec T us) as H.
  destruct (same_agent T us) as [ts|]; [|by left]. case_match; [by left|right; apply H].
Qed.

Lemma latest_newest U T us y : NoDup (st_VTAPID <$> U) -> NoDup (st_VTAPID <$> T) -> us ∈ U -> y ∈ U ++ T ->
  st_VTAPID y = st_VTAPID us -> lastRemoteTimestamp y <= lastRemoteTimestamp (latest T us).
Proof.
  intros HU HT Hu Hy E. unfold latest. pose proof (find_spec T us) as H. apply elem_of_app in Hy as [Hy|Hy].
  - assert (y = us) as -> by (by apply (agent_unique U)). destruct (same_agent T us) as [ts|]; [|done]. zcases.
  - destruct (same_agent T us) as [ts|]; [|by apply H in Hy]. destruct H as [Hin Hts].
    assert (y = ts) as -> by (eapply agent_unique; [exact HT|done|done|congruence]). zcases.
Qed.

Lemma merged_reports U T : NoDup (st_VTAPID <$> U) -> NoDup (st_VTAPID <$> T) ->
  reports U T ((latest T <$> U) ++ filter (fun ts => same_agent U ts = None) T).
Proof.
  intros HU HT. split_and!.
  - rewrite fmap_app. apply NoDup_app. split_and!.
    + rewrite <- list_fmap_compose. erewrite list_fmap_ext; [exact HU|]. intros i x _. apply latest_agent.
    + intros v (x & -> & Hx)%list_elem_of_fmap (y & E & Hy)%list_elem_of_fmap. apply list_elem_of_filter in Hy as [Hn Hy].
      apply list_elem_of_fmap in Hx as (us & -> & Hu). rewrite latest_agent in E. pose proof (find_spec U y) as H. rewrite Hn in H.
      by apply (H us Hu).
    + eapply sublist_NoDup; [exact HT|]. apply fmap_sublist, sublist_filter.
  - intros x [(us & -> & Hu)%list_elem_of_fmap|[Hn Hx]%list_elem_of_filter]%elem_of_app.
    + split; [by apply latest_in|]. intros y Hy E. rewrite latest_agent in E. by apply (latest_newest U).
    + split; [apply elem_of_app; by right|]. pose proof (find_spec U x) as H. rewrite Hn in H.
      intros y [Hy|Hy]%elem_of_app E; [by apply H in Hy|]. assert (y = x) as -> by (by apply (agent_unique T)). done.
  - intros y [Hy|Hy]%elem_of_app.
    + exists (latest T y). split; [apply elem_of_app; left; by apply list_elem_of_fmap_2|apply latest_agent].
    + pose proof (find_spec U y) as H. destruct (same_agent U y) as [us|] eqn:E.
      * destruct H as [Hin Hus]. exists (latest T us). rewrite latest_agent. split; [|done].
        apply elem_of_app. left. by apply list_elem_of_fmap_2.
      * exists y. split; [|done]. apply elem_of_app. right. by apply list_elem_of_filter.
Qed.

Lemma listed_agents heap (l : list nat) : Forall (fun p => (p < length heap)%nat) l -> NoDup (agent_at heap <$> l) ->
  NoDup (st_VTAPID <$> omap (fun p => heap !! p) l).
Proof.
  intros Hl Hn. apply (NoDup_fmap_1 Some). replace (Some <$> _) with (agent_at heap <$> l); [done|]. clear Hn.
  induction Hl as [|p l Hp _ IH]; [done|]. cbn. destruct (lookup_lt_is_Some_2 heap p Hp) as [st Hst].
  unfold agent_at at 1. rewrite Hst. cbn. by f_equal.
Qed.

(** The calls of [Update]. *)
Record update_call := mkUpdate {
  u_now : Z; u_type : Z; u_vtap : Z; u_ip : list Z; u_seq : Z; u_time : Z; u_server : ServerType
}.

Fixpoint updates (l : list update_call) (s : AdapterStatus) : option AdapterStatus :=
  match l with
  | [] => Some s
  | u :: l =>
      s ← AdapterStatus_Update range_order s (u_now u) (u_type u) (u_vtap u) (u_ip u) (u_seq u) (u_time u) (u_server u);
      updates l s
  end.

Lemma updates_agents l s : Forall (fun u => 0 <= u_type u < MESSAGE_TYPE_MAX) l -> agents_ok s ->
  exists s', updates l s = Some s' /\ agents_ok s'.
Proof.
  intros Hl. revert s. induction Hl as [|u l Hu _ IH]; intros s Hs; cbn [updates]; [eauto|].
  edestruct Update_agents as (s1 & -> & H1); [done|done|]. cbn [mbind option_bind]. by apply IH.
Qed.

Lemma init_agents : agents_ok AdapterStatus_init.
Proof.
  split; [apply AdapterStatus_init_ok|]. assert (side_agents [] new_Side) as H; [|done].
  unfold side_agents, new_Side. cbn. split_and!; [..|constructor]; repeat constructor; apply map_Forall_empty.
Qed.

(** C25: messages of any agents are recorded, over both protocols and in any order.  The
    status that is reported to the controller names every agent of the two lists once,
    with the status that has the latest time of the agent. *)
Theorem agents_reported (l : list update_call) : Forall (fun u => 0 <= u_type u < MESSAGE_TYPE_MAX) l ->
  exists s, updates l AdapterStatus_init = Some s /\
    forall r : Receiver (W := W), status r = s ->
      reports (omap (status_at r) (MetrisStatus (udp_side s))) (omap (status_at r) (MetrisStatus (tcp_side s))) (GetTridentStatus r).
Proof.
  intros Hl. destruct (updates_agents l _ Hl init_agents) as (s & E & ([Hu Ht] & [_ [_ Au]] & [_ [_ At]])).
  exists s. split; [done|]. intros r Es. unfold GetTridentStatus, status_at. rewrite Es.
  apply merged_reports; apply listed_agents; (apply Hu || apply Ht || done).
Qed.
End Agents.
