(* ===== verification/ReceiverRoze.v ===== *)
(** From a connection to the database: what the receiver hands over is what the unmarshaller
    stores, and a datagram that is shorter than its headers makes it panic.  Examples
    of both. *)

From stdpp Require Import strings.
From S2P Require Import Prelude Strconv Queue QueueFacts Codec CodecFacts Meter Tag TagMini Document DocumentWire DocumentFacts.
From S2P Require Import Expand ExpandFacts CKWriter Roze RozeFacts Platform Drop DropFacts Receiver ReceiverFacts.

#[local] Open Scope list_scope.
#[local] Open Scope Z_scope.

(** A frame of metrics. *)
Definition metrics_frame (fl : FlowHeader) (bytes : list Z) : frame := mkFrame MESSAGE_TYPE_METRICS (Some fl) bytes.

Lemma metrics_frame_ok fl bytes : flow_ok fl -> Version fl = app_VERSION -> 0 < zlen bytes <= RECV_BUFSIZE -> bytes_ok bytes ->
  frame_ok (metrics_frame fl bytes).
Proof.
  intros Hf Hv Hl Hb. change RECV_BUFSIZE with 512000 in *. unfold frame_ok, base_ok, frame_header. cbn.
  change (header_len (Some fl)) with 19. change (MESSAGE_HEADER_LEN + FLOW_HEADER_LEN) with 19.
  split_and!; [unfold is_u; lia|done| |lia|done| |change RECV_BUFSIZE with 512000; lia|done].
  - unfold base_header_error. cbn. apply Z.ltb_ge. offsets. lia.
  - intros h [= <-]. split; [done|]. unfold old_version. by rewrite Hv.
Qed.

(** The bytes of a frame are where its buffer says. *)
Lemma frame_buffer_slice ip pooled f : zlen pooled = RECV_BUFSIZE -> zlen (payload f) <= RECV_BUFSIZE ->
  let b := frame_buffer ip pooled f in
  0 <= Recv_Begin b <= Recv_End b /\ Recv_End b <= zlen (Recv_Buffer b) /\
  Prelude.slice (Recv_Buffer b) (Recv_Begin b) (Recv_End b - Recv_Begin b) = payload f.
Proof.
  intros Hl Hp. cbn. rewrite fill_zlen. pose proof (zlen_nonneg (payload f)). split_and!; [lia|lia|lia|].
  rewrite fill_take by lia. apply (slice_mid []); [done|lia].
Qed.

(** * The queue between *)

(** The key of a queue is its index, as [NewOverwriteQueues] makes them. *)
Definition keyed (n : Z) (q : MultiQueue RecvBuffer) : Prop := forall k, 0 <= k < n -> entry (entries q) k = Some k.

(** The buffers that calls put into a queue. *)
Definition puts_at (k : Z) (calls : list call) : list RecvBuffer :=
  calls ≫= (fun '(_, k', vs) => if decide (k' = k) then vs else []).

Lemma puts_at_cons k p k' vs calls :
  puts_at k ((p, k', vs) :: calls) = (if decide (k' = k) then vs else []) ++ puts_at k calls.
Proof. done. Qed.

Lemma puts_at_tcp n k calls : Forall (call_ok n) calls -> calls_to UDP k calls = [] -> puts_at k calls = calls_to TCP k calls.
Proof.
  induction 1 as [|[[p k'] vs] calls [Hp _] _ IH]; [done|]. unfold calls_to, puts_at in *. cbn [mbind list_bind].
  intros [E1 E2]%app_eq_nil. rewrite IH by done. f_equal. destruct (decide (k' = k)) as [->|Hne].
  - destruct p; [by rewrite decide_True in E1 by done; subst vs; case_decide|by rewrite decide_True|done].
  - by rewrite decide_False by congruence.
Qed.

Lemma put_all_rep n k calls q q' qu C :
  Forall (call_ok n) calls -> n <= 2 ^ 8 -> keyed n q -> put_all calls q = Some q' -> 0 <= k < n ->
  queues q !! Z.to_nat k = Some qu -> rep qu C -> zlen C + zlen (puts_at k calls) <= size qu ->
  exists qu', queues q' !! Z.to_nat k = Some qu' /\ rep qu' (C ++ (Some <$> puts_at k calls)).
Proof.
  intros Hc Hn. revert q qu C. induction Hc as [|[[p k'] vs] calls [_ Hk'] _ IH]; intros q qu C Hq E Hk Eq Hr Hl.
  { injection E as <-. exists qu. by rewrite app_nil_r. }
  cbn [put_all] in E. unfold Multi_Put, on_entry in E. rewrite wrap_small in E by (unfold is_u; lia).
  rewrite (Hq k' Hk') in E. cbn [mbind option_bind] in E. destruct (queues q !! Z.to_nat k') as [qk|] eqn:Ek; [|done].
  cbn [mbind option_bind] in E. destruct (Queue.Put qk (Some <$> vs)) as [err qk'] eqn:Ep. cbn [mbind option_bind snd] in E.
  rewrite puts_at_cons in *. rewrite zlen_app in Hl. pose proof (zlen_nonneg (puts_at k calls)). pose proof (zlen_nonneg C). destruct (decide (k' = k)) as [->|Hne].
  - rewrite Eq in Ek. injection Ek as <-.
    assert (zlen (Some <$> vs) = zlen vs) as Ez by (unfold zlen; by rewrite length_fmap).
    pose proof (zlen_nonneg vs). destruct (Put_rep qu C (Some <$> vs) Hr) as [_ Hr']; [lia|].
    rewrite last_n_fits in Hr' by (rewrite zlen_app; lia). pose proof (Put_size qu (Some <$> vs)) as Hsize.
    rewrite Ep in Hr', Hsize. cbn [snd] in Hr', Hsize. rewrite fmap_app, app_assoc.
    apply (IH (mkMulti (entries q) (<[Z.to_nat k := qk']> (queues q))) qk'); [done|done|done| |done|rewrite zlen_app; lia].
    cbn. apply list_lookup_insert_eq. by eapply lookup_lt_Some.
  - cbn [app]. rewrite zlen_nil in Hl.
    apply (IH (mkMulti (entries q) (<[Z.to_nat k' := qk']> (queues q))) qu); [done|done|done| |done|lia].
    cbn. rewrite list_lookup_insert_ne by lia. done.
Qed.

Lemma put_all_entries calls q q' : put_all calls q = Some q' -> entries q' = entries q.
Proof.
  revert q. induction calls as [|[[p k] vs] calls IH]; intros q; cbn [put_all]; [by intros [= ->]|].
  unfold Multi_Put, on_entry. destruct (entry (entries q) (u8 k)) as [i|]; [|done]. cbn [mbind option_bind].
  destruct (queues q !! Z.to_nat i) as [qu|]; [|done]. cbn [mbind option_bind]. destruct (Queue.Put qu _) as [e qu'].
  cbn [mbind option_bind snd]. intros E. by rewrite (IH _ E).
Qed.

(** What reaches the queue [k] of a handler when a buffer is handed over and the caches are flushed. *)
Lemma moved_queue t k b h h' qu C :
  0 <= t -> handler_ok h -> moved t [(TCP, t, k, b)] h h' -> 0 <= k < nQueues h -> keyed (nQueues h) (out_queues h) ->
  cached UDP h k = [] -> cached TCP h' k = [] -> queues (out_queues h) !! Z.to_nat k = Some qu -> rep qu C ->
  zlen C + zlen (cached TCP h k) + 1 <= size qu ->
  exists qu', queues (out_queues h') !! Z.to_nat k = Some qu' /\ rep qu' (C ++ (Some <$> cached TCP h k ++ [b])).
Proof.
  intros Ht (Hn & _) (_ & calls & Hput & Hcalls & Hmoved) Hk Hkey Hudp Htcp Eq Hr Hl.
  assert (calls_to UDP k calls = []) as Hu.
  { specialize (Hmoved UDP k ltac:(done) Hk). rewrite Hudp in Hmoved. unfold items_to in Hmoved. cbn [mbind list_bind] in Hmoved.
    rewrite decide_False in Hmoved by congruence. cbn in Hmoved. symmetry in Hmoved. by apply app_eq_nil in Hmoved as [? _]. }
  pose proof (Hmoved TCP k ltac:(done) Hk) as Ht'. rewrite Htcp, app_nil_r in Ht'. unfold items_to in Ht'. cbn [mbind list_bind] in Ht'.
  rewrite decide_True in Ht' by done. rewrite app_nil_r in Ht'. rewrite Ht', <- (puts_at_tcp (nQueues h)) by done.
  eapply put_all_rep; [done|apply Hn|done|done|done|done|done|]. rewrite (puts_at_tcp (nQueues h)), <- Ht', zlen_app by done.
  change (zlen [b]) with 1. lia.
Qed.

(** ** Several buffers *)

Section Values.
Context {P W Conn : Type} `{!PlatformInfoTable P} `{!PlatformLaws P} `{!Clock W} `{HL : DocumentLaws}.
Implicit Types (s : state P W Conn) (before : list (list agent_doc * RecvBuffer)).

(** A buffer with documents of an agent, encoded one after the other. *)
Definition carries (docs : list agent_doc) (b : RecvBuffer) : Prop :=
  Forall agent_ok docs /\ 0 <= Recv_Begin b <= Recv_End b /\ Recv_End b <= zlen (Recv_Buffer b) /\
  Prelude.slice (Recv_Buffer b) (Recv_Begin b) (Recv_End b - Recv_Begin b) = concat (wire <$> docs).

(** What becomes of the documents of some buffers. *)
Definition stored (docs : list agent_doc) (bs : list RecvBuffer) s s' : Prop :=
  exists rs batches, fates (disableSecondWrite (self s)) (platformData s) docs rs (platformData s') /\
    queueBatchCache (self s) ++ kept_docs rs = concat batches ++ queueBatchCache (self s') /\
    RozeFacts.put_all batches (dbwriter s) = Some (dbwriter s') /\
    released s' = released s ++ dropped_docs rs /\ released_buffers s' = released_buffers s ++ bs.

Lemma handle_values_runs before s :
  roze_ok s -> Forall (fun p => carries p.1 p.2) before ->
  runs (for_each handle_value (Some <$> before.*2)) s (fun _ s' => roze_ok s' /\ stored (concat before.*1) before.*2 s s').
Proof using HL.
  intros Hs Hb. revert s Hs. induction Hb as [|[docs b] before (Hd & Hb1 & Hb2 & Hsl) Hb IH]; intros s Hs.
  { apply runs_ret. split; [done|]. exists [], []. rewrite !app_nil_r. split_and!; [constructor|done..]. }
  rewrite !fmap_cons. cbn [for_each fst snd concat]. apply runs_bind.
  eapply runs_mono; [by apply (handle_buffer_runs docs b)|].
  intros [] s1 (rs1 & F1 & Hs1 & (b1 & C1 & D1 & _) & R1 & B1 & _ & E1).
  eapply runs_mono; [by apply IH|]. intros [] s2 (Hs2 & rs2 & b2 & F2 & C2 & D2 & R2 & B2). split; [done|].
  exists (rs1 ++ rs2), (b1 ++ b2). split_and!.
  - rewrite E1 in F2. by eapply fates_app.
  - by rewrite kept_docs_app, app_assoc, C1, <- app_assoc, C2, concat_app, app_assoc.
  - by rewrite put_all_app, D1.
  - by rewrite dropped_docs_app, R2, R1, app_assoc.
  - by rewrite B2, B1, <- app_assoc.
Qed.

(** A round of the unmarshaller takes what waits in its queue. *)
Lemma QueueProcess_round_runs before s :
  roze_ok s -> rep (unmarshallQueue (self s)) (Some <$> before.*2) -> 0 < zlen before <= GET_MAX_SIZE ->
  Forall (fun p => carries p.1 p.2) before ->
  runs QueueProcess_round s (fun go s' => go = true /\ roze_ok s' /\ stored (concat before.*1) before.*2 s s').
Proof using HL.
  intros Hs Hr Hl Hb. unfold QueueProcess_round. apply runs_bind, runs_get. unfold Gets.
  change (GET_MAX_SIZE >? MAX_BATCH_GET_SIZE) with false. cbv iota.
  assert (zlen (Some <$> before.*2) = zlen before) as Ez by (unfold zlen; by rewrite !length_fmap).
  rewrite (rep_pending _ _ _ Hr), Ez, (proj2 (Z.eqb_neq _ _)) by lia.
  destruct (gets_rep _ [] _ GET_MAX_SIZE Hr ltac:(done)) as (q' & Eg & _). rewrite Eg, Ez, Z.min_r by lia.
  rewrite take_ge by (unfold zlen in *; lia). apply runs_bind, runs_modify, runs_bind. set (s1 := mkState _ _ _ _ _ _ _ _).
  assert (roze_ok s1) as Hs1 by (destruct Hs; by split).
  eapply runs_mono; [by apply handle_values_runs|]. intros [] s2 [Hs2 H2]. by apply runs_ret.
Qed.
End Values.

(** ** From the connection to the queue *)

Section Delivery.
Context {V : Type} `{!Clock V}.
Implicit Types r : Receiver (W := V).

(** The state of the queue [k] of metrics: [waiting] in the queue, nothing of datagrams in its
    cache, and room for what waits, what the TCP cache holds and one buffer more. *)
Record queue_ready (h : Handler) (k : Z) (qu : OverwriteQueue RecvBuffer) (waiting : list RecvBuffer) : Prop := {
  qr_keyed : keyed (nQueues h) (out_queues h);
  qr_queue : queues (out_queues h) !! Z.to_nat k = Some qu;
  qr_rep : rep qu (Some <$> waiting);
  qr_udp : cached UDP h k = [];
  qr_room : zlen (waiting ++ cached TCP h k) + 1 <= size qu
}.

(** After a buffer has been handed over, the next flush puts it behind what waited. *)
Lemma flushed_queue r r1 h k b qu waiting now :
  recv_ok r -> recv_ok r1 -> hands [(TCP, MESSAGE_TYPE_METRICS, k, b)] r r1 ->
  handlers r !! Z.to_nat MESSAGE_TYPE_METRICS = Some (Some h) -> 0 <= k < nQueues h -> queue_ready h k qu waiting ->
  QUEUE_CACHE_FLUSH_TIMEOUT <= i64 (now - lastTCPFlushTime r1) ->
  runs flushPutTCPQueues (set_now r1 now) (fun _ r2 => recv_ok r2 /\ exists h2 qu2,
    handlers r2 !! Z.to_nat MESSAGE_TYPE_METRICS = Some (Some h2) /\ queues (out_queues h2) !! Z.to_nat k = Some qu2 /\
    rep qu2 (Some <$> (waiting ++ cached TCP h k) ++ [b])).
Proof.
  intros Hr Hr1 Hh Eh Hk [Hkey Eq Hrep Hudp Hroom] Hnow.
  eapply runs_mono; [apply flushQueues_drains; [done|exact Hr1|exact Hnow]|]. intros [] r2 [(Hr2 & Hh2 & _) Hd].
  split; [done|]. assert (hands [(TCP, MESSAGE_TYPE_METRICS, k, b)] r r2) as [Hl Hm].
  { apply (hands_trans [_] [] r (set_now r1 now)); [exact Hh|exact Hh2]. }
  destruct (lookup_lt_is_Some_2 (handlers r2) (Z.to_nat MESSAGE_TYPE_METRICS)) as [o Eo];
    [rewrite Hl; by eapply lookup_lt_Some|].
  specialize (Hm _ _ _ Eh Eo). destruct o as [h2|]; [|done]. cbn [handler_hands] in Hm.
  rewrite Z2Nat.id in Hm by done. assert (nQueues h2 = nQueues h) as En by apply Hm.
  rewrite zlen_app in Hroom.
  destruct (moved_queue MESSAGE_TYPE_METRICS k b h h2 qu (Some <$> waiting)) as (qu2 & E2 & R2); try done.
  - by apply (proj1 (proj2 Hr) _ _ Eh).
  - apply (Hd _ k h2 Eo). by rewrite En.
  - unfold zlen in *. rewrite length_fmap. lia.
  - exists h2, qu2. split_and!; [done..|]. by rewrite !fmap_app, <- app_assoc, <- fmap_app in *.
Qed.
End Delivery.

(** C22: from an agent to the database.  An agent sends documents in one frame of metrics over
    TCP, none of them a per-second one of access control and together no longer than the
    buffer of the receiver, and its connection delivers the bytes in any pieces.  The round of the receiver reads exactly the frame and hands one
    buffer to a cache of the metrics handler, the one that the number of received messages
    picks.  The next flush after the timeout puts it into the queue of that cache,
    behind the buffers that were in the queue and in the cache; no datagram is waiting
    in the cache, and the queue has room.  A round of the unmarshaller of this queue, in any
    good state and with at most 1024 buffers waiting, all of them with documents of agents,
    takes and handles them all: every document, those of the frame last, has the fate that is
    stated of a single buffer.  It is stored, in order in the batches of the database writer
    and in the cache, or it is released; and all the buffers are released. *)
Theorem tcp_documents_stored {P W V Conn : Type} `{!PlatformInfoTable P} `{!PlatformLaws P} `{!Clock W} `{!Clock V}
    `{HL : DocumentLaws} (order : list Z -> list Z) (docs : list agent_doc) (e : SimpleEncoder) (p : pb_Document)
    (fl : FlowHeader) (frame rest ip pooled : list Z) (c : conn) (r : Receiver (W := V)) (h : Handler)
    (qu : OverwriteQueue RecvBuffer) (waiting : list RecvBuffer) (before : list (list agent_doc * RecvBuffer)) :
  Forall agent_ok docs -> encode_all docs (mkEncoder [] 1) NewDocument = Done (e, p) ->
  0 < zlen (e_buf e) <= RECV_BUFSIZE -> flow_ok fl -> Version fl = app_VERSION ->
  encode_frame (metrics_frame fl (e_buf e)) = Some frame -> concat c = frame ++ rest -> bytes_ok (concat c) ->
  zlen pooled = RECV_BUFSIZE -> recv_ok r -> exit r = false -> RxPackets (Receiver.counter r) + 1 < 2 ^ 63 ->
  handlers r !! Z.to_nat MESSAGE_TYPE_METRICS = Some (Some h) ->
  let k := (RxPackets (Receiver.counter r) + 1) mod nQueues h in
  queue_ready h k qu waiting -> waiting ++ cached TCP h k = before.*2 ->
  Forall (fun p => carries p.1 p.2) before -> zlen before < GET_MAX_SIZE ->
  exists c' r1 b,
    handleTCPConnection_round order ip pooled c r = Some (Some c', r1) /\ concat c' = rest /\
    hands [(TCP, MESSAGE_TYPE_METRICS, k, b)] r r1 /\ Recv_VtapID b = VTAPID fl /\
    forall now, QUEUE_CACHE_FLUSH_TIMEOUT <= i64 (now - lastTCPFlushTime r1) ->
    exists r2 h2 qu2, flushPutTCPQueues (set_now r1 now) = Some (tt, r2) /\
      handlers r2 !! Z.to_nat MESSAGE_TYPE_METRICS = Some (Some h2) /\ queues (out_queues h2) !! Z.to_nat k = Some qu2 /\
      forall s : state P W Conn, roze_ok s -> unmarshallQueue (self s) = qu2 ->
      exists s', QueueProcess_round s = Some (true, s') /\ roze_ok s' /\
        stored (concat before.*1 ++ docs) (before.*2 ++ [b]) s s'.
Proof.
  intros Hdocs Henc Hl Hfl Hv Hframe Hc Hcb Hp Hr He Hx Eh k Hready Hbefore Hcarry Hcount.
  rewrite encode_frame_bytes in Hframe. injection Hframe as <-.
  assert (bytes_ok (e_buf e)) as Hb.
  { rewrite Hc in Hcb. unfold frame_bytes in Hcb. apply Forall_app in Hcb as [Hcb _].
    apply Forall_app in Hcb as [_ Hcb]. by apply Forall_app in Hcb as [_ ?]. }
  pose proof (metrics_frame_ok fl (e_buf e) Hfl Hv Hl Hb) as Hf. set (f := metrics_frame fl (e_buf e)) in *.
  pose proof (round_frame order ip pooled c r f rest h Hr He Hp Hx Hf Eh Hcb Hc) as Hround.
  apply runs_exists in Hround as (o & r1 & Er & c' & -> & Ec' & Hr1 & Hh & _).
  exists c', r1, (frame_buffer ip pooled f). split_and!; [done..|]. intros now Hnow.
  assert (0 <= k < nQueues h) as Hk by (apply Z.mod_pos_bound, (proj1 (proj2 Hr) _ _ Eh)).
  pose proof (flushed_queue r r1 h k _ qu waiting now Hr Hr1 Hh Eh Hk Hready Hnow) as Hflush.
  apply runs_exists in Hflush as ([] & r2 & Er2 & _ & h2 & qu2 & E2 & Q2 & R2).
  exists r2, h2, qu2. split_and!; [done..|]. intros s Hs Eq.
  assert (carries docs (frame_buffer ip pooled f)) as Hlast.
  { destruct (frame_buffer_slice ip pooled f Hp (proj2 Hl)) as (Hb1 & Hb2 & Hslice).
    destruct (encode_all_bytes docs (mkEncoder [] 1) NewDocument Hdocs) as (e' & p' & Henc' & Hbytes).
    rewrite Henc in Henc'. injection Henc' as <- <-. change (payload f) with (e_buf e) in Hslice.
    rewrite Hbytes in Hslice. exact (conj Hdocs (conj Hb1 (conj Hb2 Hslice))). }
  rewrite Hbefore in R2.
  pose proof (QueueProcess_round_runs (before ++ [(docs, frame_buffer ip pooled f)]) s Hs) as Hrun.
  rewrite Eq, !fmap_app, zlen_app, concat_app in Hrun. cbn [fmap list_fmap concat fst snd] in Hrun. rewrite app_nil_r in Hrun.
  apply runs_exists in Hrun as (go & s' & Hrun & -> & Hs' & Hst); [by exists s'|..].
  - by rewrite fmap_app in R2.
  - pose proof (zlen_nonneg before). change (zlen [_]) with 1. lia.
  - apply Forall_app. split; [done|]. by apply Forall_singleton.
Qed.

(** A datagram that ends with its base header takes the flow header from what an earlier
    message left in the buffer.  When that is one of metrics, the buffer is handed over
    with an end before its beginning, and the unmarshaller that gets it panics. *)
Theorem udp_short_datagram_panics {P W V Conn : Type} `{!PlatformInfoTable P} `{!Clock W} `{!Clock V} `{!PBCodec pb_Document}
    (order : list Z -> list Z) (size : Z) (fl : FlowHeader) (before rest remote : list Z) (r : Receiver (W := V)) (h : Handler)
    (s : state P W Conn) :
  is_u 32 size -> MESSAGE_HEADER_LEN + FLOW_HEADER_LEN <= size -> flow_ok fl -> Version fl = app_VERSION ->
  bytes_ok before -> zlen before = MESSAGE_HEADER_LEN -> bytes_ok rest ->
  zlen before + FLOW_HEADER_LEN + zlen rest = RECV_BUFSIZE ->
  recv_ok r -> exit r = false -> RxPackets (Receiver.counter r) < 2 ^ 63 ->
  handlers r !! Z.to_nat MESSAGE_TYPE_METRICS = Some (Some h) ->
  exists r' k b,
    ProcessUDPServer_round order (before ++ flow_bytes fl ++ rest)
      (Datagram (base_bytes (mkBaseHeader size MESSAGE_TYPE_METRICS)) remote) r = Some (tt, r') /\
    hands [(UDP, MESSAGE_TYPE_METRICS, k, b)] r r' /\ handle_buffer b s = None.
Proof.
  intros Hsize Hmin Hfl Hv Hbefore Hlb Hrest Hsum Hr He Hx Eh.
  set (hd := mkBaseHeader size MESSAGE_TYPE_METRICS). set (pooled := before ++ flow_bytes fl ++ rest).
  assert (base_ok hd) as Hhd by (split; [done|by vm_compute]).
  assert (bytes_ok (flow_bytes fl)) as Hflb by (unfold flow_bytes; repeat apply Forall_app_2; by apply le_put_ok).
  assert (bytes_ok pooled) as Hp by (apply Forall_app_2; [done|by apply Forall_app_2]).
  assert (zlen pooled = RECV_BUFSIZE) as Hl by (unfold pooled; rewrite !zlen_app, flow_bytes_zlen; lia).
  assert (bytes_ok (base_bytes hd)) as Hb.
  { unfold base_bytes. apply Forall_app_2; [by apply be_put_ok|]. apply Forall_singleton, Hhd. }
  pose proof (udp_datagram_runs order r pooled (base_bytes hd) remote Hr Hx Hp Hl Hb) as Hrun.
  apply runs_exists in Hrun as ([] & r' & E & H). rewrite base_bytes_zlen in H.
  assert (fill pooled (base_bytes hd) = base_bytes hd ++ flow_bytes fl ++ rest) as Efill.
  { rewrite fill_take by (rewrite base_bytes_zlen, Hl; done). f_equal. unfold pooled.
    pose proof (base_bytes_zlen hd) as Hz. rewrite <- Hlb in Hz. apply (inj Z.of_nat) in Hz. rewrite Hz. apply drop_app_length. }
  assert (datagram_headers r (fill pooled (base_bytes hd)) (Z.min MESSAGE_HEADER_LEN RECV_BUFSIZE) = Some (hd, Some fl)) as Ed.
  { unfold datagram_headers. change (Z.min MESSAGE_HEADER_LEN RECV_BUFSIZE <? MESSAGE_HEADER_LEN) with false.
    rewrite Efill, BaseHeader_Decode_bytes by done. cbn [mbind option_bind].
    assert (base_header_error hd = false) as -> by (unfold base_header_error; cbn; by apply Z.ltb_ge).
    assert (registered r (Type_ hd) = true) as -> by (unfold registered; cbn; by rewrite Eh). cbn [orb negb].
    change (is_vtap hd) with true. pose proof (base_bytes_zlen hd) as Hz.
    replace (Z.to_nat MESSAGE_HEADER_LEN) with (length (base_bytes hd)) by (unfold zlen in Hz; lia). rewrite drop_app_length.
    rewrite FlowHeader_Decode_bytes by done. cbn [mbind option_bind]. unfold old_version. by rewrite Hv. }
  rewrite Ed in H. destruct H as (h' & _ & _ & Hh & _). exists r'. eexists _, _. split_and!; [|exact Hh|done].
  unfold ProcessUDPServer_round, mbind, ST_bind, get_state. by rewrite He.
Qed.

(** * Examples *)

#[local] Instance still_Clock : Clock unit := fun w => (1010, w).

Definition example_queues (n : Z) : MultiQueue RecvBuffer :=
  match NewOverwriteQueues n 8 true with Some q => q | None => mkMulti [] [] end.

(** A receiver of metrics, with two queues, and of system logs, with one. *)
Definition example_setup : ST (Receiver (W := unit)) unit :=
  RegistHandler MESSAGE_TYPE_METRICS (example_queues 2) 2 ;; RegistHandler MESSAGE_TYPE_SYSLOG (example_queues 1) 1.

Definition example_receiver : Receiver (W := unit) :=
  match example_setup (NewReceiver 1010 tt) with Some (_, r) => r | None => NewReceiver 1010 tt end.

Lemma example_receiver_ok : recv_ok example_receiver.
Proof.
  assert (runs example_setup (NewReceiver 1010 tt) (fun _ r => recv_ok r)) as H.
  { apply runs_bind. eapply runs_mono; [apply RegistHandler_runs; [apply NewReceiver_ok|done|done|]|].
    { by apply (NewOverwriteQueues_keys 2 8 true). }
    intros [] r1 [H1 _]. eapply runs_mono; [apply RegistHandler_runs; [done|done|done|]|by intros [] r2 [? _]].
    by apply (NewOverwriteQueues_keys 1 8 true). }
  unfold example_receiver. unfold runs in H. by destruct (example_setup (NewReceiver 1010 tt)) as [[[] r]|].
Qed.

Definition empty_pool : list Z := replicate (Z.to_nat RECV_BUFSIZE) 0.

Lemma empty_pool_zlen : zlen empty_pool = RECV_BUFSIZE.
Proof. unfold empty_pool, zlen. rewrite length_replicate. by apply Z2Nat.id. Qed.

Lemma empty_pool_ok : bytes_ok empty_pool.
Proof. by apply Forall_replicate. Qed.

Definition example_flow : FlowHeader := mkFlowHeader app_VERSION 7 12.

(** Two frames, in pieces that do not fit them. *)
Definition example_frames : list frame :=
  [mkFrame MESSAGE_TYPE_METRICS (Some example_flow) [1; 2; 3; 4; 5]; mkFrame MESSAGE_TYPE_SYSLOG None [6; 7]].

Definition example_conn : conn :=
  [take 3 (concat (frame_bytes <$> example_frames)); []; drop 3 (concat (frame_bytes <$> example_frames))].

Definition example_machine : machine (W := unit) := mkMachine example_receiver {[ 1 := ([10; 0; 0; 1], example_conn) ]}.

Definition example_events : list event :=
  [Tcp 1 empty_pool; Udp empty_pool (Datagram [0; 0] [10; 0; 0; 2]); Tick; Tcp 1 empty_pool; Tcp 2 empty_pool; Tcp 1 empty_pool].

Definition example_sent (i : Z) : list frame := if i =? 1 then example_frames else [].

Lemma example_frames_ok : Forall (fun f => frame_ok f /\ registered example_receiver (fr_type f) = true) example_frames.
Proof.
  apply Forall_cons_2; [|apply Forall_cons_2; [|done]]; (split; [|vm_compute; reflexivity]).
  - apply metrics_frame_ok; [by split_and!|done|by vm_compute|by repeat constructor].
  - split_and!; [done..|by intros h|by vm_compute|by repeat constructor].
Qed.

Example tcp_frames_delivered_witness :
  exists m' outs, for_each (step id) example_events example_machine = Some (tt, m') /\ recv_ok (recv m') /\
    hands (concat outs) example_receiver (recv m') /\ length outs = 6%nat /\
    forall i, delivered example_sent example_machine example_events outs i.
Proof.
  apply (tcp_frames_delivered id example_sent example_machine example_events).
  - intros i ip c. unfold example_machine. cbn [conns]. rewrite lookup_singleton_Some. intros [<- [= <- <-]].
    split; [|exact example_frames_ok]. exists (frame_bytes <$> example_frames). split; [|vm_compute; reflexivity].
    repeat constructor; apply encode_frame_bytes.
  - exact example_receiver_ok.
  - vm_compute. reflexivity.
  - vm_compute. reflexivity.
  - repeat (apply Forall_cons_2 || apply Forall_nil_2); cbn [event_ok]; try exact I; try exact empty_pool_zlen.
    split; [exact empty_pool_ok|]. split; [exact empty_pool_zlen|]. repeat constructor; done.
Defined.

(** A system log without a length. *)
Example tcp_panics_iff_witness : handleTCPConnection_round id [10; 0; 0; 1] empty_pool [[0; 0; 0]; [0; 1]] example_receiver = None.
Proof.
  apply (tcp_panics_iff id [10; 0; 0; 1] empty_pool [[0; 0; 0]; [0; 1]] example_receiver).
  - exact example_receiver_ok.
  - vm_compute. reflexivity.
  - exact empty_pool_zlen.
  - repeat constructor; done.
  - split; [vm_compute; reflexivity|]. exists (mkBaseHeader 0 MESSAGE_TYPE_SYSLOG), []. split_and!; (done || vm_compute; done).
Defined.

Definition example_datagram : list Z := frame_bytes (metrics_frame example_flow [1; 2; 3; 4; 5]).

Example udp_datagrams_witness :
  exists r', ProcessUDPServer_round id empty_pool (Datagram example_datagram [10; 0; 0; 2]) example_receiver = Some (tt, r') /\
    goes [(UDP, MESSAGE_TYPE_METRICS, 0, mkRecvBuffer 19 24 (fill empty_pool example_datagram) [10; 0; 0; 2] 12)] 0 0 0
      example_receiver r'.
Proof.
  destruct (udp_datagrams id empty_pool example_datagram [10; 0; 0; 2] example_receiver) as (r' & E & H).
  - exact example_receiver_ok.
  - vm_compute. reflexivity.
  - vm_compute. reflexivity.
  - exact empty_pool_ok.
  - exact empty_pool_zlen.
  - apply frame_bytes_ok, metrics_frame_ok; [by split_and!|done|by vm_compute|by repeat constructor].
  - exists r'. split; [exact E|]. clear E.
    assert (datagram_headers example_receiver (fill empty_pool example_datagram) (Z.min (zlen example_datagram) RECV_BUFSIZE)
      = Some (mkBaseHeader 24 MESSAGE_TYPE_METRICS, Some example_flow)) as Ed by (vm_compute; reflexivity).
    rewrite Ed in H. destruct H as (hd & Eh & H).
    assert (handlers example_receiver !! Z.to_nat MESSAGE_TYPE_METRICS =
      Some (Some (mkHandler MESSAGE_TYPE_METRICS (example_queues 2) 2 (replicate 2 (mkQueueCache [] 0))
        (replicate 2 (mkQueueCache [] 0))))) as Eh' by (vm_compute; reflexivity).
    cbn [Type_] in Eh. rewrite Eh' in Eh. injection Eh as <-. exact H.
Defined.

Definition example_metrics_handler : Handler :=
  mkHandler MESSAGE_TYPE_METRICS (example_queues 2) 2 (replicate 2 (mkQueueCache [] 0)) (replicate 2 (mkQueueCache [] 0)).

Definition test_frame : list Z := frame_bytes (metrics_frame example_flow (e_buf test_encoded.1)).

(** The state of the unmarshaller with another queue. *)
Definition test_with (q : OverwriteQueue RecvBuffer) : state two_regions unit unit :=
  mkState (set_queue (self test_state) q) (platformData test_state) (dbwriter test_state) (decoder test_state)
    (pbDoc test_state) (Roze.clock test_state) (released test_state) (released_buffers test_state).

Lemma test_with_ok q : roze_ok (test_with q).
Proof. destruct test_state_ok. by split. Qed.

(** A frame with two documents, byte by byte, with the start of another one behind it. *)
Example tcp_documents_stored_witness :
  exists c' r1 b now r2 h2 qu2 s',
    handleTCPConnection_round id [10; 0; 0; 1] empty_pool ((fun x => [x]) <$> test_frame ++ [9]) example_receiver
      = Some (Some c', r1) /\ concat c' = [9] /\ Recv_VtapID b = 12 /\
    flushPutTCPQueues (set_now r1 now) = Some (tt, r2) /\
    handlers r2 !! Z.to_nat MESSAGE_TYPE_METRICS = Some (Some h2) /\ queues (out_queues h2) !! 1%nat = Some qu2 /\
    QueueProcess_round (test_with qu2) = Some (true, s') /\ roze_ok s' /\
    stored [test_doc 1; test_doc 2] [b] (test_with qu2) s'.
Proof.
  destruct (tcp_documents_stored (P := two_regions) (W := unit) (Conn := unit) id [test_doc 1; test_doc 2] test_encoded.1
    test_encoded.2 example_flow test_frame [9] [10; 0; 0; 1] empty_pool ((fun x => [x]) <$> test_frame ++ [9]) example_receiver
    example_metrics_handler (Queue.Init 8 true) [] []) as (c' & r1 & b & H1 & H2 & _ & H4 & H).
  - apply Forall_cons_2; [apply test_doc_ok; by left|].
    apply Forall_cons_2; [apply test_doc_ok; by right|apply Forall_nil_2].
  - vm_compute. reflexivity.
  - vm_compute. split; congruence.
  - by split_and!.
  - reflexivity.
  - apply encode_frame_bytes.
  - vm_compute. reflexivity.
  - apply (bool_decide_unpack _). vm_compute. exact I.
  - exact empty_pool_zlen.
  - exact example_receiver_ok.
  - vm_compute. reflexivity.
  - vm_compute. reflexivity.
  - vm_compute. reflexivity.
  - split.
    + intros k Hk. cbn in Hk. assert (k = 0 \/ k = 1) as [-> | ->] by lia; vm_compute; reflexivity.
    + vm_compute. reflexivity.
    + apply Init_rep. lia.
    + vm_compute. reflexivity.
    + vm_compute. congruence.
  - vm_compute. reflexivity.
  - apply Forall_nil_2.
  - vm_compute. reflexivity.
  - destruct (H (lastTCPFlushTime r1 + 100)) as (r2 & h2 & qu2 & E2 & Eh2 & Q2 & Hs).
    { replace (lastTCPFlushTime r1 + 100 - lastTCPFlushTime r1) with 100 by lia. vm_compute. congruence. }
    destruct (Hs (test_with qu2) (test_with_ok qu2) eq_refl) as (s' & Es & Hok & Hst).
    exists c', r1, b, (lastTCPFlushTime r1 + 100), r2, h2, qu2, s'. split_and!; done.
Defined.

(** Five bytes, with a buffer that held metrics before. *)
Example udp_short_datagram_panics_witness :
  exists r' k b,
    ProcessUDPServer_round id ([0; 0; 0; 24; 3] ++ flow_bytes example_flow ++ replicate (Z.to_nat (RECV_BUFSIZE - 19)) 0)
      (Datagram [0; 0; 0; 19; 3] [10; 0; 0; 2]) example_receiver = Some (tt, r') /\
    hands [(UDP, MESSAGE_TYPE_METRICS, k, b)] example_receiver r' /\ handle_buffer b test_state = None.
Proof.
  apply (udp_short_datagram_panics id 19 example_flow [0; 0; 0; 24; 3] (replicate (Z.to_nat (RECV_BUFSIZE - 19)) 0)
    [10; 0; 0; 2] example_receiver example_metrics_handler test_state).
  - by vm_compute.
  - by vm_compute.
  - by split_and!.
  - reflexivity.
  - by repeat constructor.
  - reflexivity.
  - by apply Forall_replicate.
  - unfold zlen. rewrite length_replicate, Z2Nat.id by done. reflexivity.
  - exact example_receiver_ok.
  - vm_compute. reflexivity.
  - vm_compute. reflexivity.
  - vm_compute. reflexivity.
Defined.

(** An agent over both protocols and another one over TCP. *)
Definition example_updates : list update_call :=
  [mkUpdate 100 MESSAGE_TYPE_METRICS 12 [10; 0; 0; 2] 7 90 UDP; mkUpdate 100 MESSAGE_TYPE_METRICS 12 [10; 0; 0; 2] 1 95 TCP;
   mkUpdate 150 MESSAGE_TYPE_METRICS 13 [10; 0; 0; 3] 1 149 TCP].

Definition example_status : AdapterStatus :=
  match updates id example_updates AdapterStatus_init with Some s => s | None => AdapterStatus_init end.

Example agents_reported_witness :
  let r := set_status example_receiver example_status in
  reports (omap (status_at r) (MetrisStatus (udp_side example_status))) (omap (status_at r) (MetrisStatus (tcp_side example_status)))
    (GetTridentStatus r) /\
  (fun s => (st_VTAPID s, lastRemoteTimestamp s, lastSeq s)) <$> GetTridentStatus r = [(12, 95, 1); (13, 149, 1)].
Proof.
  destruct (agents_reported id (W := unit) (fun l => Permutation_refl l) example_updates) as (s & E & H).
  - by repeat constructor.
  - cbv zeta. split; [|vm_compute; reflexivity]. unfold example_status. rewrite E. by apply H.
Defined.
