(* ===== verification/CloudModel.v ===== *)
(** The resources a cloud platform reports, [controller/cloud/model/model.go]: the data
    that the recorder stores.  Every struct is a record with the fields of the source, the
    field [F] of the struct [S] under the name [S_F]. *)
From stdpp Require Import base strings gmap.
From S2P Require Import Prelude.

(** [time.Time]; [zero_Time] is the zero value, the one for which [IsZero] holds. *)
Definition Time : Type := Z.

Definition zero_Time : Time := 0.

Definition IsZero (t : Time) : bool := bool_decide (t = zero_Time).

Record Region := mkRegion {
  Region_Lcuuid : string;
  Region_Label : string;
  Region_Name : string
}.

Record AZ := mkAZ {
  AZ_Lcuuid : string;
  AZ_Label : string;
  AZ_Name : string;
  AZ_RegionLcuuid : string
}.

Record SubDomain := mkSubDomain {
  SubDomain_Lcuuid : string;
  SubDomain_Name : string;
  SubDomain_DisplayName : string;
  SubDomain_ClusterID : string;
  SubDomain_VpcUUID : string;
  SubDomain_PortNameRegex : string;
  SubDomain_Config : string
}.

Record Host := mkHost {
  Host_Lcuuid : string;
  Host_Name : string;
  Host_IP : string;
  Host_Type : Z;
  Host_HType : Z;
  Host_VCPUNum : Z;
  Host_MemTotal : Z;
  Host_ExtraInfo : string;
  Host_AZLcuuid : string;
  Host_RegionLcuuid : string
}.

Record VM := mkVM {
  VM_Lcuuid : string;
  VM_Name : string;
  VM_Label : string;
  VM_HType : Z;
  VM_State : Z;
  VM_LaunchServer : string;
  VM_CreatedAt : Time;
  VM_VPCLcuuid : string;
  VM_AZLcuuid : string;
  VM_RegionLcuuid : string
}.

Record VPC := mkVPC {
  VPC_Lcuuid : string;
  VPC_Name : string;
  VPC_Label : string;
  VPC_TunnelID : Z;
  VPC_CIDR : string;
  VPC_RegionLcuuid : string
}.

Record Network := mkNetwork {
  Network_Lcuuid : string;
  Network_Name : string;
  Network_Label : string;
  Network_SegmentationID : Z;
  Network_TunnelID : Z;
  Network_Shared : bool;
  Network_External : bool;
  Network_NetType : Z;
  Network_VPCLcuuid : string;
  Network_AZLcuuid : string;
  Network_RegionLcuuid : string;
  Network_SubDomainLcuuid : string
}.

Record Subnet := mkSubnet {
  Subnet_Lcuuid : string;
  Subnet_Name : string;
  Subnet_Label : string;
  Subnet_CIDR : string;
  Subnet_GatewayIP : string;
  Subnet_NetworkLcuuid : string;
  Subnet_VPCLcuuid : string;
  Subnet_SubDomainLcuuid : string
}.

Record VRouter := mkVRouter {
  VRouter_Lcuuid : string;
  VRouter_Name : string;
  VRouter_Label : string;
  VRouter_GWLaunchServer : string;
  VRouter_VPCLcuuid : string;
  VRouter_RegionLcuuid : string
}.

Record RoutingTable := mkRoutingTable {
  RoutingTable_Lcuuid : string;
  RoutingTable_VRouterLcuuid : string;
  RoutingTable_Destination : string;
  RoutingTable_NexthopType : string;
  RoutingTable_Nexthop : string
}.

Record DHCPPort := mkDHCPPort {
  DHCPPort_Lcuuid : string;
  DHCPPort_Name : string;
  DHCPPort_VPCLcuuid : string;
  DHCPPort_AZLcuuid : string;
  DHCPPort_RegionLcuuid : string
}.

Record VInterface := mkVInterface {
  VInterface_Lcuuid : string;
  VInterface_Name : string;
  VInterface_Type : Z;
  VInterface_Mac : string;
  VInterface_TapMac : string;
  VInterface_DeviceLcuuid : string;
  VInterface_DeviceType : Z;
  VInterface_NetworkLcuuid : string;
  VInterface_VPCLcuuid : string;
  VInterface_RegionLcuuid : string;
  VInterface_SubDomainLcuuid : string
}.

Record FloatingIP := mkFloatingIP {
  FloatingIP_Lcuuid : string;
  FloatingIP_IP : string;
  FloatingIP_VMLcuuid : string;
  FloatingIP_NetworkLcuuid : string;
  FloatingIP_VPCLcuuid : string;
  FloatingIP_RegionLcuuid : string
}.

Record SecurityGroup := mkSecurityGroup {
  SecurityGroup_Lcuuid : string;
  SecurityGroup_Name : string;
  SecurityGroup_Label : string;
  SecurityGroup_VPCLcuuid : string;
  SecurityGroup_RegionLcuuid : string
}.

Record SecurityGroupRule := mkSecurityGroupRule {
  SecurityGroupRule_Lcuuid : string;
  SecurityGroupRule_SecurityGroupLcuuid : string;
  SecurityGroupRule_Direction : Z;
  SecurityGroupRule_EtherType : Z;
  SecurityGroupRule_Protocol : string;
  SecurityGroupRule_LocalPortRange : string;
  SecurityGroupRule_RemotePortRange : string;
  SecurityGroupRule_Local : string;
  SecurityGroupRule_Remote : string;
  SecurityGroupRule_Action : Z;
  SecurityGroupRule_Priority : Z
}.

Record VMSecurityGroup := mkVMSecurityGroup {
  VMSecurityGroup_Lcuuid : string;
  VMSecurityGroup_VMLcuuid : string;
  VMSecurityGroup_SecurityGroupLcuuid : string;
  VMSecurityGroup_Priority : Z
}.

Record NATGateway := mkNATGateway {
  NATGateway_Lcuuid : string;
  NATGateway_Name : string;
  NATGateway_Label : string;
  NATGateway_FloatingIPs : string;
  NATGateway_VPCLcuuid : string;
  NATGateway_RegionLcuuid : string
}.

Record NATVMConnection := mkNATVMConnection {
  NATVMConnection_Lcuuid : string;
  NATVMConnection_NATGatewayLcuuid : string;
  NATVMConnection_VMLcuuid : string
}.

Record NATRule := mkNATRule {
  NATRule_Lcuuid : string;
  NATRule_NATGatewayLcuuid : string;
  NATRule_Type : string;
  NATRule_Protocol : string;
  NATRule_FloatingIP : string;
  NATRule_FloatingIPPort : Z;
  NATRule_FixedIP : string;
  NATRule_FixedIPPort : Z;
  NATRule_VInterfaceLcuuid : string
}.

Record LB := mkLB {
  LB_Lcuuid : string;
  LB_Name : string;
  LB_Label : string;
  LB_Model : Z;
  LB_VIP : string;
  LB_VPCLcuuid : string;
  LB_RegionLcuuid : string
}.

Record LBVMConnection := mkLBVMConnection {
  LBVMConnection_Lcuuid : string;
  LBVMConnection_LBLcuuid : string;
  LBVMConnection_VMLcuuid : string
}.

Record LBListener := mkLBListener {
  LBListener_Lcuuid : string;
  LBListener_LBLcuuid : string;
  LBListener_Name : string;
  LBListener_Label : string;
  LBListener_IPs : string;
  LBListener_SNATIPs : string;
  LBListener_Protocol : string;
  LBListener_Port : Z
}.

Record LBTargetServer := mkLBTargetServer {
  LBTargetServer_Lcuuid : string;
  LBTargetServer_LBLcuuid : string;
  LBTargetServer_LBListenerLcuuid : string;
  LBTargetServer_Type : Z;
  LBTargetServer_IP : string;
  LBTargetServer_VMLcuuid : string;
  LBTargetServer_Protocol : string;
  LBTargetServer_Port : Z;
  LBTargetServer_VPCLcuuid : string
}.

Record PeerConnection := mkPeerConnection {
  PeerConnection_Lcuuid : string;
  PeerConnection_Name : string;
  PeerConnection_Label : string;
  PeerConnection_LocalVPCLcuuid : string;
  PeerConnection_RemoteVPCLcuuid : string;
  PeerConnection_LocalRegionLcuuid : string;
  PeerConnection_RemoteRegionLcuuid : string
}.

Record RDSInstance := mkRDSInstance {
  RDSInstance_Lcuuid : string;
  RDSInstance_Name : string;
  RDSInstance_Label : string;
  RDSInstance_State : Z;
  RDSInstance_Type : Z;
  RDSInstance_Version : string;
  RDSInstance_Series : Z;
  RDSInstance_Model : Z;
  RDSInstance_VPCLcuuid : string;
  RDSInstance_AZLcuuid : string;
  RDSInstance_RegionLcuuid : string
}.

Record RedisInstance := mkRedisInstance {
  RedisInstance_Lcuuid : string;
  RedisInstance_Name : string;
  RedisInstance_Label : string;
  RedisInstance_State : Z;
  RedisInstance_Version : string;
  RedisInstance_InternalHost : string;
  RedisInstance_PublicHost : string;
  RedisInstance_VPCLcuuid : string;
  RedisInstance_AZLcuuid : string;
  RedisInstance_RegionLcuuid : string
}.

Record PodCluster := mkPodCluster {
  PodCluster_Lcuuid : string;
  PodCluster_Name : string;
  PodCluster_ClusterName : string;
  PodCluster_Version : string;
  PodCluster_VPCLcuuid : string;
  PodCluster_AZLcuuid : string;
  PodCluster_RegionLcuuid : string;
  PodCluster_SubDomainLcuuid : string
}.

Record PodNode := mkPodNode {
  PodNode_Lcuuid : string;
  PodNode_Name : string;
  PodNode_Type : Z;
  PodNode_ServerType : Z;
  PodNode_State : Z;
  PodNode_IP : string;
  PodNode_VCPUNum : Z;
  PodNode_MemTotal : Z;
  PodNode_PodClusterLcuuid : string;
  PodNode_VPCLcuuid : string;
  PodNode_AZLcuuid : string;
  PodNode_RegionLcuuid : string;
  PodNode_SubDomainLcuuid : string
}.

Record VMPodNodeConnection := mkVMPodNodeConnection {
  VMPodNodeConnection_Lcuuid : string;
  VMPodNodeConnection_VMLcuuid : string;
  VMPodNodeConnection_PodNodeLcuuid : string;
  VMPodNodeConnection_SubDomainLcuuid : string
}.

Record PodNamespace := mkPodNamespace {
  PodNamespace_Lcuuid : string;
  PodNamespace_Name : string;
  PodNamespace_PodClusterLcuuid : string;
  PodNamespace_AZLcuuid : string;
  PodNamespace_RegionLcuuid : string;
  PodNamespace_SubDomainLcuuid : string
}.

Record PodIngress := mkPodIngress {
  PodIngress_Lcuuid : string;
  PodIngress_Name : string;
  PodIngress_PodNamespaceLcuuid : string;
  PodIngress_PodClusterLcuuid : string;
  PodIngress_AZLcuuid : string;
  PodIngress_RegionLcuuid : string;
  PodIngress_SubDomainLcuuid : string
}.

Record PodIngressRule := mkPodIngressRule {
  PodIngressRule_Lcuuid : string;
  PodIngressRule_Name : string;
  PodIngressRule_Protocol : string;
  PodIngressRule_Host : string;
  PodIngressRule_PodIngressLcuuid : string;
  PodIngressRule_SubDomainLcuuid : string
}.

Record PodIngressRuleBackend := mkPodIngressRuleBackend {
  PodIngressRuleBackend_Lcuuid : string;
  PodIngressRuleBackend_Path : string;
  PodIngressRuleBackend_Port : Z;
  PodIngressRuleBackend_PodServiceLcuuid : string;
  PodIngressRuleBackend_PodIngressRuleLcuuid : string;
  PodIngressRuleBackend_PodIngressLcuuid : string;
  PodIngressRuleBackend_SubDomainLcuuid : string
}.

Record PodService := mkPodService {
  PodService_Lcuuid : string;
  PodService_Name : string;
  PodService_Type : Z;
  PodService_Selector : string;
  PodService_ServiceClusterIP : string;
  PodService_PodIngressLcuuid : string;
  PodService_PodNamespaceLcuuid : string;
  PodService_PodClusterLcuuid : string;
  PodService_VPCLcuuid : string;
  PodService_AZLcuuid : string;
  PodService_RegionLcuuid : string;
  PodService_SubDomainLcuuid : string
}.

Record PodServicePort := mkPodServicePort {
  PodServicePort_Lcuuid : string;
  PodServicePort_Name : string;
  PodServicePort_Protocol : string;
  PodServicePort_Port : Z;
  PodServicePort_TargetPort : Z;
  PodServicePort_NodePort : Z;
  PodServicePort_PodServiceLcuuid : string;
  PodServicePort_SubDomainLcuuid : string
}.

Record PodGroup := mkPodGroup {
  PodGroup_Lcuuid : string;
  PodGroup_Name : string;
  PodGroup_Label : string;
  PodGroup_Type : Z;
  PodGroup_PodNum : Z;
  PodGroup_PodNamespaceLcuuid : string;
  PodGroup_PodClusterLcuuid : string;
  PodGroup_AZLcuuid : string;
  PodGroup_RegionLcuuid : string;
  PodGroup_SubDomainLcuuid : string
}.

Record PodGroupPort := mkPodGroupPort {
  PodGroupPort_Lcuuid : string;
  PodGroupPort_Name : string;
  PodGroupPort_Protocol : string;
  PodGroupPort_Port : Z;
  PodGroupPort_PodGroupLcuuid : string;
  PodGroupPort_PodServiceLcuuid : string;
  PodGroupPort_SubDomainLcuuid : string
}.

Record PodReplicaSet := mkPodReplicaSet {
  PodReplicaSet_Lcuuid : string;
  PodReplicaSet_Name : string;
  PodReplicaSet_Label : string;
  PodReplicaSet_PodNum : Z;
  PodReplicaSet_PodGroupLcuuid : string;
  PodReplicaSet_PodNamespaceLcuuid : string;
  PodReplicaSet_PodClusterLcuuid : string;
  PodReplicaSet_AZLcuuid : string;
  PodReplicaSet_RegionLcuuid : string;
  PodReplicaSet_SubDomainLcuuid : string
}.

Record Pod := mkPod {
  Pod_Lcuuid : string;
  Pod_Name : string;
  Pod_Label : string;
  Pod_State : Z;
  Pod_CreatedAt : Time;
  Pod_PodReplicaSetLcuuid : string;
  Pod_PodNodeLcuuid : string;
  Pod_PodGroupLcuuid : string;
  Pod_PodNamespaceLcuuid : string;
  Pod_PodClusterLcuuid : string;
  Pod_VPCLcuuid : string;
  Pod_AZLcuuid : string;
  Pod_RegionLcuuid : string;
  Pod_SubDomainLcuuid : string
}.

Record IP := mkIP {
  IP_Lcuuid : string;
  IP_VInterfaceLcuuid : string;
  IP_IP : string;
  IP_SubnetLcuuid : string;
  IP_RegionLcuuid : string;
  IP_SubDomainLcuuid : string
}.

Record CEN := mkCEN {
  CEN_Lcuuid : string;
  CEN_Name : string;
  CEN_Label : string;
  CEN_VPCLcuuids : list string
}.

Record ThirdPartyDevice := mkThirdPartyDevice {
  ThirdPartyDevice_Lcuuid : string;
  ThirdPartyDevice_Name : string;
  ThirdPartyDevice_Label : string;
  ThirdPartyDevice_VPCLcuuid : string;
  ThirdPartyDevice_RegionLcuuid : string
}.

(** [SubDomainResource] *)
Record SubDomainResource := mkSubDomainResource {
  SubDomainResource_Verified : bool;
  SubDomainResource_ErrorState : Z;
  SubDomainResource_ErrorMessage : string;
  SubDomainResource_Networks : list Network;
  SubDomainResource_Subnets : list Subnet;
  SubDomainResource_VInterfaces : list VInterface;
  SubDomainResource_IPs : list IP;
  SubDomainResource_PodClusters : list PodCluster;
  SubDomainResource_PodNodes : list PodNode;
  SubDomainResource_VMPodNodeConnections : list VMPodNodeConnection;
  SubDomainResource_PodNamespaces : list PodNamespace;
  SubDomainResource_PodIngresses : list PodIngress;
  SubDomainResource_PodIngressRules : list PodIngressRule;
  SubDomainResource_PodIngressRuleBackends : list PodIngressRuleBackend;
  SubDomainResource_PodServices : list PodService;
  SubDomainResource_PodServicePorts : list PodServicePort;
  SubDomainResource_PodGroups : list PodGroup;
  SubDomainResource_PodGroupPorts : list PodGroupPort;
  SubDomainResource_PodReplicaSets : list PodReplicaSet;
  SubDomainResource_Pods : list Pod
}.

(** [Resource] *)
Record Resource := mkResource {
  Resource_Verified : bool;
  Resource_ErrorState : Z;
  Resource_ErrorMessage : string;
  Resource_SubDomains : list SubDomain;
  Resource_Regions : list Region;
  Resource_AZs : list AZ;
  Resource_Hosts : list Host;
  Resource_VMs : list VM;
  Resource_VPCs : list VPC;
  Resource_Networks : list Network;
  Resource_Subnets : list Subnet;
  Resource_VRouters : list VRouter;
  Resource_RoutingTables : list RoutingTable;
  Resource_DHCPPorts : list DHCPPort;
  Resource_SecurityGroups : list SecurityGroup;
  Resource_SecurityGroupRules : list SecurityGroupRule;
  Resource_VMSecurityGroups : list VMSecurityGroup;
  Resource_NATGateways : list NATGateway;
  Resource_NATRules : list NATRule;
  Resource_NATVMConnections : list NATVMConnection;
  Resource_LBs : list LB;
  Resource_LBListeners : list LBListener;
  Resource_LBTargetServers : list LBTargetServer;
  Resource_LBVMConnections : list LBVMConnection;
  Resource_PeerConnections : list PeerConnection;
  Resource_CENs : list CEN;
  Resource_RedisInstances : list RedisInstance;
  Resource_RDSInstances : list RDSInstance;
  Resource_ThirdPartyDevices : list ThirdPartyDevice;
  Resource_VInterfaces : list VInterface;
  Resource_IPs : list IP;
  Resource_FloatingIPs : list FloatingIP;
  Resource_PodClusters : list PodCluster;
  Resource_PodNodes : list PodNode;
  Resource_VMPodNodeConnections : list VMPodNodeConnection;
  Resource_PodNamespaces : list PodNamespace;
  Resource_PodGroups : list PodGroup;
  Resource_PodReplicaSets : list PodReplicaSet;
  Resource_Pods : list Pod;
  Resource_PodServices : list PodService;
  Resource_PodServicePorts : list PodServicePort;
  Resource_PodGroupPorts : list PodGroupPort;
  Resource_PodIngresses : list PodIngress;
  Resource_PodIngressRules : list PodIngressRule;
  Resource_PodIngressRuleBackends : list PodIngressRuleBackend;
  Resource_SubDomainResources : gmap string SubDomainResource
}.
