(* ===== verification/MysqlModel.v ===== *)
(** The tables of MySQL that the recorder writes, [controller/db/mysql/model.go]: one
    record per struct, the field [F] of the struct [S] under the name [S_F], the columns
    that the [gorm] tags give the fields, and the tables as an enumeration, so that code
    that is generic in the model is a function of the table. *)
From stdpp Require Import base strings gmap countable.
From S2P Require Import Prelude CloudModel.

(** The 64 bits of a [float64]; the recorder never computes with one. *)
Definition float64 : Type := Z.

Record Base := mkBase { ID : Z; Lcuuid : string }.

Definition SetID (b : Base) (id : Z) : Base := mkBase id (Lcuuid b).

Record OperatedTime := mkOperatedTime { CreatedAt : Time; UpdatedAt : Time }.

Record SoftDeleteBase := mkSoftDeleteBase {
  SoftDeleteBase_OperatedTime : OperatedTime;
  DeletedAt : option Time
}.

Definition zero_OperatedTime : OperatedTime := mkOperatedTime zero_Time zero_Time.

Definition zero_SoftDeleteBase : SoftDeleteBase := mkSoftDeleteBase zero_OperatedTime None.

Record Region := mkRegion {
  Region_Base : Base;
  Region_SoftDeleteBase : SoftDeleteBase;
  Region_Name : string;
  Region_CreateMethod : Z;
  Region_Label : string;
  Region_Longitude : float64;
  Region_Latitude : float64
}.

Record AZ := mkAZ {
  AZ_Base : Base;
  AZ_SoftDeleteBase : SoftDeleteBase;
  AZ_Name : string;
  AZ_CreateMethod : Z;
  AZ_Label : string;
  AZ_Region : string;
  AZ_Domain : string
}.

Record SubDomain := mkSubDomain {
  SubDomain_Base : Base;
  SubDomain_OperatedTime : OperatedTime;
  SubDomain_SyncedAt : option Time;
  SubDomain_Domain : string;
  SubDomain_Name : string;
  SubDomain_DisplayName : string;
  SubDomain_CreateMethod : Z;
  SubDomain_ClusterID : string;
  SubDomain_Config : string;
  SubDomain_ErrorMsg : string;
  SubDomain_Enabled : Z;
  SubDomain_State : Z
}.

Record Host := mkHost {
  Host_Base : Base;
  Host_SoftDeleteBase : SoftDeleteBase;
  Host_Type : Z;
  Host_State : Z;
  Host_Name : string;
  Host_Alias : string;
  Host_Description : string;
  Host_IP : string;
  Host_HType : Z;
  Host_CreateMethod : Z;
  Host_UserName : string;
  Host_UserPasswd : string;
  Host_VCPUNum : Z;
  Host_MemTotal : Z;
  Host_AZ : string;
  Host_Region : string;
  Host_Domain : string;
  Host_SyncedAt : Time;
  Host_ExtraInfo : string
}.

Record VM := mkVM {
  VM_Base : Base;
  VM_SoftDeleteBase : SoftDeleteBase;
  VM_State : Z;
  VM_Name : string;
  VM_Alias : string;
  VM_Label : string;
  VM_CreateMethod : Z;
  VM_HType : Z;
  VM_LaunchServer : string;
  VM_VPCID : Z;
  VM_Domain : string;
  VM_AZ : string;
  VM_Region : string;
  VM_UID : string
}.

Record VPC := mkVPC {
  VPC_Base : Base;
  VPC_SoftDeleteBase : SoftDeleteBase;
  VPC_Name : string;
  VPC_CreateMethod : Z;
  VPC_Label : string;
  VPC_Alias : string;
  VPC_Domain : string;
  VPC_Region : string;
  VPC_AZ : string;
  VPC_TunnelID : Z;
  VPC_Mode : Z;
  VPC_CIDR : string;
  VPC_UID : string
}.

Record Network := mkNetwork {
  Network_Base : Base;
  Network_SoftDeleteBase : SoftDeleteBase;
  Network_State : Z;
  Network_NetType : Z;
  Network_Name : string;
  Network_CreateMethod : Z;
  Network_Label : string;
  Network_Alias : string;
  Network_Description : string;
  Network_SubDomain : string;
  Network_Domain : string;
  Network_Region : string;
  Network_AZ : string;
  Network_ISP : Z;
  Network_VPCID : Z;
  Network_SegmentationID : Z;
  Network_TunnelID : Z;
  Network_Shared : bool;
  Network_Topped : Z;
  Network_IsVIP : Z
}.

Record Subnet := mkSubnet {
  Subnet_Base : Base;
  Subnet_Prefix : string;
  Subnet_Netmask : string;
  Subnet_NetworkID : Z;
  Subnet_NetIndex : Z;
  Subnet_Name : string;
  Subnet_Label : string;
  Subnet_SubDomain : string
}.

Record VRouter := mkVRouter {
  VRouter_Base : Base;
  VRouter_SoftDeleteBase : SoftDeleteBase;
  VRouter_State : Z;
  VRouter_Name : string;
  VRouter_Label : string;
  VRouter_Description : string;
  VRouter_VPCID : Z;
  VRouter_GWLaunchServer : string;
  VRouter_Domain : string;
  VRouter_Region : string;
  VRouter_AZ : string
}.

Record RoutingTable := mkRoutingTable {
  RoutingTable_Base : Base;
  RoutingTable_VRouterID : Z;
  RoutingTable_Destination : string;
  RoutingTable_NexthopType : string;
  RoutingTable_Nexthop : string
}.

Record DHCPPort := mkDHCPPort {
  DHCPPort_Base : Base;
  DHCPPort_SoftDeleteBase : SoftDeleteBase;
  DHCPPort_Name : string;
  DHCPPort_Domain : string;
  DHCPPort_Region : string;
  DHCPPort_AZ : string;
  DHCPPort_VPCID : Z
}.

Record VInterface := mkVInterface {
  VInterface_Base : Base;
  VInterface_Name : string;
  VInterface_Index : Z;
  VInterface_State : Z;
  VInterface_CreateMethod : Z;
  VInterface_Type : Z;
  VInterface_Mac : string;
  VInterface_TapMac : string;
  VInterface_NetworkID : Z;
  VInterface_VlanTag : Z;
  VInterface_DeviceType : Z;
  VInterface_DeviceID : Z;
  VInterface_SubDomain : string;
  VInterface_Domain : string;
  VInterface_Region : string
}.

Record WANIP := mkWANIP {
  WANIP_Base : Base;
  WANIP_IP : string;
  WANIP_Alias : string;
  WANIP_Netmask : Z;
  WANIP_Gateway : string;
  WANIP_CreateMethod : Z;
  WANIP_ISP : Z;
  WANIP_VInterfaceID : Z;
  WANIP_SubDomain : string;
  WANIP_Domain : string;
  WANIP_Region : string
}.

Record LANIP := mkLANIP {
  LANIP_Base : Base;
  LANIP_IP : string;
  LANIP_Netmask : string;
  LANIP_Gateway : string;
  LANIP_CreateMethod : Z;
  LANIP_NetworkID : Z;
  LANIP_NetIndex : Z;
  LANIP_SubDomain : string;
  LANIP_Domain : string;
  LANIP_VInterfaceID : Z;
  LANIP_ISP : Z
}.

Record FloatingIP := mkFloatingIP {
  FloatingIP_Base : Base;
  FloatingIP_Domain : string;
  FloatingIP_Region : string;
  FloatingIP_VPCID : Z;
  FloatingIP_NetworkID : Z;
  FloatingIP_VMID : Z;
  FloatingIP_IP : string
}.

Record SecurityGroup := mkSecurityGroup {
  SecurityGroup_Base : Base;
  SecurityGroup_SoftDeleteBase : SoftDeleteBase;
  SecurityGroup_Name : string;
  SecurityGroup_Label : string;
  SecurityGroup_Alias : string;
  SecurityGroup_VPCID : Z;
  SecurityGroup_Domain : string;
  SecurityGroup_Region : string;
  SecurityGroup_Topped : Z
}.

Record SecurityGroupRule := mkSecurityGroupRule {
  SecurityGroupRule_Base : Base;
  SecurityGroupRule_SecurityGroupID : Z;
  SecurityGroupRule_Direction : Z;
  SecurityGroupRule_Protocol : string;
  SecurityGroupRule_EtherType : Z;
  SecurityGroupRule_LocalPortRange : string;
  SecurityGroupRule_RemotePortRange : string;
  SecurityGroupRule_Local : string;
  SecurityGroupRule_Remote : string;
  SecurityGroupRule_Priority : Z;
  SecurityGroupRule_Action : Z
}.

Record VMSecurityGroup := mkVMSecurityGroup {
  VMSecurityGroup_Base : Base;
  VMSecurityGroup_SecurityGroupID : Z;
  VMSecurityGroup_VMID : Z;
  VMSecurityGroup_Priority : Z
}.

Record NATGateway := mkNATGateway {
  NATGateway_Base : Base;
  NATGateway_SoftDeleteBase : SoftDeleteBase;
  NATGateway_Name : string;
  NATGateway_Label : string;
  NATGateway_FloatingIPs : string;
  NATGateway_VPCID : Z;
  NATGateway_AZ : string;
  NATGateway_Region : string;
  NATGateway_Domain : string;
  NATGateway_UID : string
}.

Record NATVMConnection := mkNATVMConnection {
  NATVMConnection_Base : Base;
  NATVMConnection_NATGatewayID : Z;
  NATVMConnection_VMID : Z;
  NATVMConnection_Domain : string
}.

Record NATRule := mkNATRule {
  NATRule_Base : Base;
  NATRule_NATGatewayID : Z;
  NATRule_Type : string;
  NATRule_Protocol : string;
  NATRule_FloatingIP : string;
  NATRule_FloatingIPPort : Z;
  NATRule_FixedIP : string;
  NATRule_FixedIPPort : Z;
  NATRule_VInterfaceID : Z;
  NATRule_Domain : string
}.

Record LB := mkLB {
  LB_Base : Base;
  LB_SoftDeleteBase : SoftDeleteBase;
  LB_Name : string;
  LB_Label : string;
  LB_Model : Z;
  LB_VIP : string;
  LB_VPCID : Z;
  LB_AZ : string;
  LB_Region : string;
  LB_Domain : string;
  LB_UID : string
}.

Record LBVMConnection := mkLBVMConnection {
  LBVMConnection_Base : Base;
  LBVMConnection_LBID : Z;
  LBVMConnection_VMID : Z;
  LBVMConnection_Domain : string
}.

Record LBListener := mkLBListener {
  LBListener_Base : Base;
  LBListener_SoftDeleteBase : SoftDeleteBase;
  LBListener_LBID : Z;
  LBListener_Name : string;
  LBListener_IPs : string;
  LBListener_SNATIPs : string;
  LBListener_Label : string;
  LBListener_Port : Z;
  LBListener_Protocol : string;
  LBListener_Domain : string
}.

Record LBTargetServer := mkLBTargetServer {
  LBTargetServer_Base : Base;
  LBTargetServer_LBID : Z;
  LBTargetServer_LBListenerID : Z;
  LBTargetServer_VPCID : Z;
  LBTargetServer_Type : Z;
  LBTargetServer_IP : string;
  LBTargetServer_VMID : Z;
  LBTargetServer_Port : Z;
  LBTargetServer_Protocol : string;
  LBTargetServer_Domain : string
}.

Record PeerConnection := mkPeerConnection {
  PeerConnection_Base : Base;
  PeerConnection_SoftDeleteBase : SoftDeleteBase;
  PeerConnection_Name : string;
  PeerConnection_Label : string;
  PeerConnection_LocalVPCID : Z;
  PeerConnection_RemoteVPCID : Z;
  PeerConnection_LocalRegionID : Z;
  PeerConnection_RemoteRegionID : Z;
  PeerConnection_CreateMethod : Z;
  PeerConnection_Domain : string
}.

Record RDSInstance := mkRDSInstance {
  RDSInstance_Base : Base;
  RDSInstance_SoftDeleteBase : SoftDeleteBase;
  RDSInstance_Name : string;
  RDSInstance_Label : string;
  RDSInstance_State : Z;
  RDSInstance_Domain : string;
  RDSInstance_Region : string;
  RDSInstance_AZ : string;
  RDSInstance_VPCID : Z;
  RDSInstance_Type : Z;
  RDSInstance_Version : string;
  RDSInstance_Series : Z;
  RDSInstance_Model : Z;
  RDSInstance_UID : string
}.

Record RedisInstance := mkRedisInstance {
  RedisInstance_Base : Base;
  RedisInstance_SoftDeleteBase : SoftDeleteBase;
  RedisInstance_Name : string;
  RedisInstance_Label : string;
  RedisInstance_State : Z;
  RedisInstance_Domain : string;
  RedisInstance_Region : string;
  RedisInstance_AZ : string;
  RedisInstance_VPCID : Z;
  RedisInstance_Version : string;
  RedisInstance_InternalHost : string;
  RedisInstance_PublicHost : string;
  RedisInstance_UID : string
}.

Record PodCluster := mkPodCluster {
  PodCluster_Base : Base;
  PodCluster_SoftDeleteBase : SoftDeleteBase;
  PodCluster_Name : string;
  PodCluster_ClusterName : string;
  PodCluster_Version : string;
  PodCluster_VPCID : Z;
  PodCluster_AZ : string;
  PodCluster_Region : string;
  PodCluster_SubDomain : string;
  PodCluster_Domain : string
}.

Record PodNode := mkPodNode {
  PodNode_Base : Base;
  PodNode_SoftDeleteBase : SoftDeleteBase;
  PodNode_Name : string;
  PodNode_Alias : string;
  PodNode_Type : Z;
  PodNode_ServerType : Z;
  PodNode_State : Z;
  PodNode_IP : string;
  PodNode_VCPUNum : Z;
  PodNode_MemTotal : Z;
  PodNode_PodClusterID : Z;
  PodNode_Region : string;
  PodNode_AZ : string;
  PodNode_VPCID : Z;
  PodNode_SubDomain : string;
  PodNode_Domain : string
}.

Record VMPodNodeConnection := mkVMPodNodeConnection {
  VMPodNodeConnection_Base : Base;
  VMPodNodeConnection_VMID : Z;
  VMPodNodeConnection_PodNodeID : Z;
  VMPodNodeConnection_Domain : string;
  VMPodNodeConnection_SubDomain : string
}.

Record PodNamespace := mkPodNamespace {
  PodNamespace_Base : Base;
  PodNamespace_SoftDeleteBase : SoftDeleteBase;
  PodNamespace_Name : string;
  PodNamespace_Alias : string;
  PodNamespace_PodClusterID : Z;
  PodNamespace_AZ : string;
  PodNamespace_Region : string;
  PodNamespace_SubDomain : string;
  PodNamespace_Domain : string
}.

Record PodIngress := mkPodIngress {
  PodIngress_Base : Base;
  PodIngress_SoftDeleteBase : SoftDeleteBase;
  PodIngress_Name : string;
  PodIngress_Alias : string;
  PodIngress_PodNamespaceID : Z;
  PodIngress_PodClusterID : Z;
  PodIngress_AZ : string;
  PodIngress_Region : string;
  PodIngress_SubDomain : string;
  PodIngress_Domain : string
}.

Record PodIngressRule := mkPodIngressRule {
  PodIngressRule_Base : Base;
  PodIngressRule_Name : string;
  PodIngressRule_Protocol : string;
  PodIngressRule_Host : string;
  PodIngressRule_PodIngressID : Z;
  PodIngressRule_SubDomain : string
}.

Record PodIngressRuleBackend := mkPodIngressRuleBackend {
  PodIngressRuleBackend_Base : Base;
  PodIngressRuleBackend_Path : string;
  PodIngressRuleBackend_Port : Z;
  PodIngressRuleBackend_PodServiceID : Z;
  PodIngressRuleBackend_PodIngressRuleID : Z;
  PodIngressRuleBackend_PodIngressID : Z;
  PodIngressRuleBackend_SubDomain : string
}.

Record PodService := mkPodService {
  PodService_Base : Base;
  PodService_SoftDeleteBase : SoftDeleteBase;
  PodService_Name : string;
  PodService_Alias : string;
  PodService_Type : Z;
  PodService_Selector : string;
  PodService_ServiceClusterIP : string;
  PodService_PodIngressID : Z;
  PodService_PodNamespaceID : Z;
  PodService_PodClusterID : Z;
  PodService_VPCID : Z;
  PodService_AZ : string;
  PodService_Region : string;
  PodService_SubDomain : string;
  PodService_Domain : string
}.

Record PodServicePort := mkPodServicePort {
  PodServicePort_Base : Base;
  PodServicePort_Name : string;
  PodServicePort_Protocol : string;
  PodServicePort_Port : Z;
  PodServicePort_TargetPort : Z;
  PodServicePort_NodePort : Z;
  PodServicePort_PodServiceID : Z;
  PodServicePort_SubDomain : string
}.

Record PodGroup := mkPodGroup {
  PodGroup_Base : Base;
  PodGroup_SoftDeleteBase : SoftDeleteBase;
  PodGroup_Name : string;
  PodGroup_Alias : string;
  PodGroup_Type : Z;
  PodGroup_PodNum : Z;
  PodGroup_Label : string;
  PodGroup_PodNamespaceID : Z;
  PodGroup_PodClusterID : Z;
  PodGroup_AZ : string;
  PodGroup_Region : string;
  PodGroup_SubDomain : string;
  PodGroup_Domain : string
}.

Record PodGroupPort := mkPodGroupPort {
  PodGroupPort_Base : Base;
  PodGroupPort_Name : string;
  PodGroupPort_Protocol : string;
  PodGroupPort_Port : Z;
  PodGroupPort_PodGroupID : Z;
  PodGroupPort_PodServiceID : Z;
  PodGroupPort_SubDomain : string
}.

Record PodReplicaSet := mkPodReplicaSet {
  PodReplicaSet_Base : Base;
  PodReplicaSet_SoftDeleteBase : SoftDeleteBase;
  PodReplicaSet_Name : string;
  PodReplicaSet_Alias : string;
  PodReplicaSet_Label : string;
  PodReplicaSet_PodNum : Z;
  PodReplicaSet_PodGroupID : Z;
  PodReplicaSet_PodNamespaceID : Z;
  PodReplicaSet_PodClusterID : Z;
  PodReplicaSet_AZ : string;
  PodReplicaSet_Region : string;
  PodReplicaSet_SubDomain : string;
  PodReplicaSet_Domain : string
}.

Record Pod := mkPod {
  Pod_Base : Base;
  Pod_SoftDeleteBase : SoftDeleteBase;
  Pod_Name : string;
  Pod_Alias : string;
  Pod_State : Z;
  Pod_Label : string;
  Pod_PodReplicaSetID : Z;
  Pod_PodGroupID : Z;
  Pod_PodNamespaceID : Z;
  Pod_PodNodeID : Z;
  Pod_PodClusterID : Z;
  Pod_VPCID : Z;
  Pod_AZ : string;
  Pod_Region : string;
  Pod_SubDomain : string;
  Pod_Domain : string
}.

(** The table of the domains, which the recorder does not fill. *)
Record Domain := mkDomain {
  Domain_Base : Base;
  Domain_OperatedTime : OperatedTime;
  Domain_SyncedAt : option Time;
  Domain_Name : string;
  Domain_IconID : Z;
  Domain_DisplayName : string;
  Domain_ClusterID : string;
  Domain_Type : Z;
  Domain_Config : string;
  Domain_ErrorMsg : string;
  Domain_Enabled : Z;
  Domain_State : Z;
  Domain_ControllerIP : string
}.

(** * Tables *)

Inductive Table : Set :=
| TRegion
| TAZ
| TSubDomain
| THost
| TVM
| TVPC
| TNetwork
| TSubnet
| TVRouter
| TRoutingTable
| TDHCPPort
| TVInterface
| TWANIP
| TLANIP
| TFloatingIP
| TSecurityGroup
| TSecurityGroupRule
| TVMSecurityGroup
| TNATGateway
| TNATVMConnection
| TNATRule
| TLB
| TLBVMConnection
| TLBListener
| TLBTargetServer
| TPeerConnection
| TRDSInstance
| TRedisInstance
| TPodCluster
| TPodNode
| TVMPodNodeConnection
| TPodNamespace
| TPodIngress
| TPodIngressRule
| TPodIngressRuleBackend
| TPodService
| TPodServicePort
| TPodGroup
| TPodGroupPort
| TPodReplicaSet
| TPod.

Definition Table_index (t : Table) : nat :=
  match t with
  | TRegion => 0
  | TAZ => 1
  | TSubDomain => 2
  | THost => 3
  | TVM => 4
  | TVPC => 5
  | TNetwork => 6
  | TSubnet => 7
  | TVRouter => 8
  | TRoutingTable => 9
  | TDHCPPort => 10
  | TVInterface => 11
  | TWANIP => 12
  | TLANIP => 13
  | TFloatingIP => 14
  | TSecurityGroup => 15
  | TSecurityGroupRule => 16
  | TVMSecurityGroup => 17
  | TNATGateway => 18
  | TNATVMConnection => 19
  | TNATRule => 20
  | TLB => 21
  | TLBVMConnection => 22
  | TLBListener => 23
  | TLBTargetServer => 24
  | TPeerConnection => 25
  | TRDSInstance => 26
  | TRedisInstance => 27
  | TPodCluster => 28
  | TPodNode => 29
  | TVMPodNodeConnection => 30
  | TPodNamespace => 31
  | TPodIngress => 32
  | TPodIngressRule => 33
  | TPodIngressRuleBackend => 34
  | TPodService => 35
  | TPodServicePort => 36
  | TPodGroup => 37
  | TPodGroupPort => 38
  | TPodReplicaSet => 39
  | TPod => 40
  end.

Definition tables : list Table :=
  [TRegion; TAZ; TSubDomain; THost; TVM; TVPC;
   TNetwork; TSubnet; TVRouter; TRoutingTable; TDHCPPort; TVInterface;
   TWANIP; TLANIP; TFloatingIP; TSecurityGroup; TSecurityGroupRule; TVMSecurityGroup;
   TNATGateway; TNATVMConnection; TNATRule; TLB; TLBVMConnection; TLBListener;
   TLBTargetServer; TPeerConnection; TRDSInstance; TRedisInstance; TPodCluster; TPodNode;
   TVMPodNodeConnection; TPodNamespace; TPodIngress; TPodIngressRule; TPodIngressRuleBackend;
       TPodService;
   TPodServicePort; TPodGroup; TPodGroupPort; TPodReplicaSet; TPod].

Lemma tables_index t : tables !! Table_index t = Some t.
Proof. by destruct t. Qed.

#[global] Instance Table_index_inj : Inj (=) (=) Table_index.
Proof. intros t t' H. pose proof (tables_index t) as E. rewrite H, tables_index in E. by injection
    E. Qed.

#[global] Instance Table_eq_dec : EqDecision Table.
Proof. intros t t'. destruct t, t'; first [left; reflexivity | right; discriminate]. Defined.

(** The struct of a row. *)
Definition Model (t : Table) : Type :=
  match t with
  | TRegion => Region
  | TAZ => AZ
  | TSubDomain => SubDomain
  | THost => Host
  | TVM => VM
  | TVPC => VPC
  | TNetwork => Network
  | TSubnet => Subnet
  | TVRouter => VRouter
  | TRoutingTable => RoutingTable
  | TDHCPPort => DHCPPort
  | TVInterface => VInterface
  | TWANIP => WANIP
  | TLANIP => LANIP
  | TFloatingIP => FloatingIP
  | TSecurityGroup => SecurityGroup
  | TSecurityGroupRule => SecurityGroupRule
  | TVMSecurityGroup => VMSecurityGroup
  | TNATGateway => NATGateway
  | TNATVMConnection => NATVMConnection
  | TNATRule => NATRule
  | TLB => LB
  | TLBVMConnection => LBVMConnection
  | TLBListener => LBListener
  | TLBTargetServer => LBTargetServer
  | TPeerConnection => PeerConnection
  | TRDSInstance => RDSInstance
  | TRedisInstance => RedisInstance
  | TPodCluster => PodCluster
  | TPodNode => PodNode
  | TVMPodNodeConnection => VMPodNodeConnection
  | TPodNamespace => PodNamespace
  | TPodIngress => PodIngress
  | TPodIngressRule => PodIngressRule
  | TPodIngressRuleBackend => PodIngressRuleBackend
  | TPodService => PodService
  | TPodServicePort => PodServicePort
  | TPodGroup => PodGroup
  | TPodGroupPort => PodGroupPort
  | TPodReplicaSet => PodReplicaSet
  | TPod => Pod
  end.

(** The embedded [Base] of a row: its key and its unique identifier. *)
Definition row_Base {t : Table} : Model t -> Base :=
  match t with
  | TRegion => Region_Base
  | TAZ => AZ_Base
  | TSubDomain => SubDomain_Base
  | THost => Host_Base
  | TVM => VM_Base
  | TVPC => VPC_Base
  | TNetwork => Network_Base
  | TSubnet => Subnet_Base
  | TVRouter => VRouter_Base
  | TRoutingTable => RoutingTable_Base
  | TDHCPPort => DHCPPort_Base
  | TVInterface => VInterface_Base
  | TWANIP => WANIP_Base
  | TLANIP => LANIP_Base
  | TFloatingIP => FloatingIP_Base
  | TSecurityGroup => SecurityGroup_Base
  | TSecurityGroupRule => SecurityGroupRule_Base
  | TVMSecurityGroup => VMSecurityGroup_Base
  | TNATGateway => NATGateway_Base
  | TNATVMConnection => NATVMConnection_Base
  | TNATRule => NATRule_Base
  | TLB => LB_Base
  | TLBVMConnection => LBVMConnection_Base
  | TLBListener => LBListener_Base
  | TLBTargetServer => LBTargetServer_Base
  | TPeerConnection => PeerConnection_Base
  | TRDSInstance => RDSInstance_Base
  | TRedisInstance => RedisInstance_Base
  | TPodCluster => PodCluster_Base
  | TPodNode => PodNode_Base
  | TVMPodNodeConnection => VMPodNodeConnection_Base
  | TPodNamespace => PodNamespace_Base
  | TPodIngress => PodIngress_Base
  | TPodIngressRule => PodIngressRule_Base
  | TPodIngressRuleBackend => PodIngressRuleBackend_Base
  | TPodService => PodService_Base
  | TPodServicePort => PodServicePort_Base
  | TPodGroup => PodGroup_Base
  | TPodGroupPort => PodGroupPort_Base
  | TPodReplicaSet => PodReplicaSet_Base
  | TPod => Pod_Base
  end.

Definition row_set_Base {t : Table} : Base -> Model t -> Model t :=
  match t with
  | TRegion => fun b m => mkRegion b (Region_SoftDeleteBase m) (Region_Name m) (Region_CreateMethod
      m) (Region_Label m) (Region_Longitude m) (Region_Latitude m)
  | TAZ => fun b m => mkAZ b (AZ_SoftDeleteBase m) (AZ_Name m) (AZ_CreateMethod m) (AZ_Label m)
      (AZ_Region m) (AZ_Domain m)
  | TSubDomain => fun b m => mkSubDomain b (SubDomain_OperatedTime m) (SubDomain_SyncedAt m)
      (SubDomain_Domain m) (SubDomain_Name m) (SubDomain_DisplayName m) (SubDomain_CreateMethod m)
      (SubDomain_ClusterID m) (SubDomain_Config m) (SubDomain_ErrorMsg m) (SubDomain_Enabled m)
      (SubDomain_State m)
  | THost => fun b m => mkHost b (Host_SoftDeleteBase m) (Host_Type m) (Host_State m) (Host_Name m)
      (Host_Alias m) (Host_Description m) (Host_IP m) (Host_HType m) (Host_CreateMethod m)
      (Host_UserName m) (Host_UserPasswd m) (Host_VCPUNum m) (Host_MemTotal m) (Host_AZ m)
      (Host_Region m) (Host_Domain m) (Host_SyncedAt m) (Host_ExtraInfo m)
  | TVM => fun b m => mkVM b (VM_SoftDeleteBase m) (VM_State m) (VM_Name m) (VM_Alias m) (VM_Label
      m) (VM_CreateMethod m) (VM_HType m) (VM_LaunchServer m) (VM_VPCID m) (VM_Domain m) (VM_AZ m)
      (VM_Region m) (VM_UID m)
  | TVPC => fun b m => mkVPC b (VPC_SoftDeleteBase m) (VPC_Name m) (VPC_CreateMethod m) (VPC_Label
      m) (VPC_Alias m) (VPC_Domain m) (VPC_Region m) (VPC_AZ m) (VPC_TunnelID m) (VPC_Mode m)
      (VPC_CIDR m) (VPC_UID m)
  | TNetwork => fun b m => mkNetwork b (Network_SoftDeleteBase m) (Network_State m)
      (Network_NetType m) (Network_Name m) (Network_CreateMethod m) (Network_Label m)
      (Network_Alias m) (Network_Description m) (Network_SubDomain m) (Network_Domain m)
      (Network_Region m) (Network_AZ m) (Network_ISP m) (Network_VPCID m) (Network_SegmentationID
      m) (Network_TunnelID m) (Network_Shared m) (Network_Topped m) (Network_IsVIP m)
  | TSubnet => fun b m => mkSubnet b (Subnet_Prefix m) (Subnet_Netmask m) (Subnet_NetworkID m)
      (Subnet_NetIndex m) (Subnet_Name m) (Subnet_Label m) (Subnet_SubDomain m)
  | TVRouter => fun b m => mkVRouter b (VRouter_SoftDeleteBase m) (VRouter_State m) (VRouter_Name
      m) (VRouter_Label m) (VRouter_Description m) (VRouter_VPCID m) (VRouter_GWLaunchServer m)
      (VRouter_Domain m) (VRouter_Region m) (VRouter_AZ m)
  | TRoutingTable => fun b m => mkRoutingTable b (RoutingTable_VRouterID m)
      (RoutingTable_Destination m) (RoutingTable_NexthopType m) (RoutingTable_Nexthop m)
  | TDHCPPort => fun b m => mkDHCPPort b (DHCPPort_SoftDeleteBase m) (DHCPPort_Name m)
      (DHCPPort_Domain m) (DHCPPort_Region m) (DHCPPort_AZ m) (DHCPPort_VPCID m)
  | TVInterface => fun b m => mkVInterface b (VInterface_Name m) (VInterface_Index m)
      (VInterface_State m) (VInterface_CreateMethod m) (VInterface_Type m) (VInterface_Mac m)
      (VInterface_TapMac m) (VInterface_NetworkID m) (VInterface_VlanTag m) (VInterface_DeviceType
      m) (VInterface_DeviceID m) (VInterface_SubDomain m) (VInterface_Domain m) (VInterface_Region
      m)
  | TWANIP => fun b m => mkWANIP b (WANIP_IP m) (WANIP_Alias m) (WANIP_Netmask m) (WANIP_Gateway m)
      (WANIP_CreateMethod m) (WANIP_ISP m) (WANIP_VInterfaceID m) (WANIP_SubDomain m) (WANIP_Domain
      m) (WANIP_Region m)
  | TLANIP => fun b m => mkLANIP b (LANIP_IP m) (LANIP_Netmask m) (LANIP_Gateway m)
      (LANIP_CreateMethod m) (LANIP_NetworkID m) (LANIP_NetIndex m) (LANIP_SubDomain m)
      (LANIP_Domain m) (LANIP_VInterfaceID m) (LANIP_ISP m)
  | TFloatingIP => fun b m => mkFloatingIP b (FloatingIP_Domain m) (FloatingIP_Region m)
      (FloatingIP_VPCID m) (FloatingIP_NetworkID m) (FloatingIP_VMID m) (FloatingIP_IP m)
  | TSecurityGroup => fun b m => mkSecurityGroup b (SecurityGroup_SoftDeleteBase m)
      (SecurityGroup_Name m) (SecurityGroup_Label m) (SecurityGroup_Alias m) (SecurityGroup_VPCID
      m) (SecurityGroup_Domain m) (SecurityGroup_Region m) (SecurityGroup_Topped m)
  | TSecurityGroupRule => fun b m => mkSecurityGroupRule b (SecurityGroupRule_SecurityGroupID m)
      (SecurityGroupRule_Direction m) (SecurityGroupRule_Protocol m) (SecurityGroupRule_EtherType
      m) (SecurityGroupRule_LocalPortRange m) (SecurityGroupRule_RemotePortRange m)
      (SecurityGroupRule_Local m) (SecurityGroupRule_Remote m) (SecurityGroupRule_Priority m)
      (SecurityGroupRule_Action m)
  | TVMSecurityGroup => fun b m => mkVMSecurityGroup b (VMSecurityGroup_SecurityGroupID m)
      (VMSecurityGroup_VMID m) (VMSecurityGroup_Priority m)
  | TNATGateway => fun b m => mkNATGateway b (NATGateway_SoftDeleteBase m) (NATGateway_Name m)
      (NATGateway_Label m) (NATGateway_FloatingIPs m) (NATGateway_VPCID m) (NATGateway_AZ m)
      (NATGateway_Region m) (NATGateway_Domain m) (NATGateway_UID m)
  | TNATVMConnection => fun b m => mkNATVMConnection b (NATVMConnection_NATGatewayID m)
      (NATVMConnection_VMID m) (NATVMConnection_Domain m)
  | TNATRule => fun b m => mkNATRule b (NATRule_NATGatewayID m) (NATRule_Type m) (NATRule_Protocol
      m) (NATRule_FloatingIP m) (NATRule_FloatingIPPort m) (NATRule_FixedIP m) (NATRule_FixedIPPort
      m) (NATRule_VInterfaceID m) (NATRule_Domain m)
  | TLB => fun b m => mkLB b (LB_SoftDeleteBase m) (LB_Name m) (LB_Label m) (LB_Model m) (LB_VIP m)
      (LB_VPCID m) (LB_AZ m) (LB_Region m) (LB_Domain m) (LB_UID m)
  | TLBVMConnection => fun b m => mkLBVMConnection b (LBVMConnection_LBID m) (LBVMConnection_VMID
      m) (LBVMConnection_Domain m)
  | TLBListener => fun b m => mkLBListener b (LBListener_SoftDeleteBase m) (LBListener_LBID m)
      (LBListener_Name m) (LBListener_IPs m) (LBListener_SNATIPs m) (LBListener_Label m)
      (LBListener_Port m) (LBListener_Protocol m) (LBListener_Domain m)
  | TLBTargetServer => fun b m => mkLBTargetServer b (LBTargetServer_LBID m)
      (LBTargetServer_LBListenerID m) (LBTargetServer_VPCID m) (LBTargetServer_Type m)
      (LBTargetServer_IP m) (LBTargetServer_VMID m) (LBTargetServer_Port m)
      (LBTargetServer_Protocol m) (LBTargetServer_Domain m)
  | TPeerConnection => fun b m => mkPeerConnection b (PeerConnection_SoftDeleteBase m)
      (PeerConnection_Name m) (PeerConnection_Label m) (PeerConnection_LocalVPCID m)
      (PeerConnection_RemoteVPCID m) (PeerConnection_LocalRegionID m)
      (PeerConnection_RemoteRegionID m) (PeerConnection_CreateMethod m) (PeerConnection_Domain m)
  | TRDSInstance => fun b m => mkRDSInstance b (RDSInstance_SoftDeleteBase m) (RDSInstance_Name m)
      (RDSInstance_Label m) (RDSInstance_State m) (RDSInstance_Domain m) (RDSInstance_Region m)
      (RDSInstance_AZ m) (RDSInstance_VPCID m) (RDSInstance_Type m) (RDSInstance_Version m)
      (RDSInstance_Series m) (RDSInstance_Model m) (RDSInstance_UID m)
  | TRedisInstance => fun b m => mkRedisInstance b (RedisInstance_SoftDeleteBase m)
      (RedisInstance_Name m) (RedisInstance_Label m) (RedisInstance_State m) (RedisInstance_Domain
      m) (RedisInstance_Region m) (RedisInstance_AZ m) (RedisInstance_VPCID m)
      (RedisInstance_Version m) (RedisInstance_InternalHost m) (RedisInstance_PublicHost m)
      (RedisInstance_UID m)
  | TPodCluster => fun b m => mkPodCluster b (PodCluster_SoftDeleteBase m) (PodCluster_Name m)
      (PodCluster_ClusterName m) (PodCluster_Version m) (PodCluster_VPCID m) (PodCluster_AZ m)
      (PodCluster_Region m) (PodCluster_SubDomain m) (PodCluster_Domain m)
  | TPodNode => fun b m => mkPodNode b (PodNode_SoftDeleteBase m) (PodNode_Name m) (PodNode_Alias
      m) (PodNode_Type m) (PodNode_ServerType m) (PodNode_State m) (PodNode_IP m) (PodNode_VCPUNum
      m) (PodNode_MemTotal m) (PodNode_PodClusterID m) (PodNode_Region m) (PodNode_AZ m)
      (PodNode_VPCID m) (PodNode_SubDomain m) (PodNode_Domain m)
  | TVMPodNodeConnection => fun b m => mkVMPodNodeConnection b (VMPodNodeConnection_VMID m)
      (VMPodNodeConnection_PodNodeID m) (VMPodNodeConnection_Domain m)
      (VMPodNodeConnection_SubDomain m)
  | TPodNamespace => fun b m => mkPodNamespace b (PodNamespace_SoftDeleteBase m) (PodNamespace_Name
      m) (PodNamespace_Alias m) (PodNamespace_PodClusterID m) (PodNamespace_AZ m)
      (PodNamespace_Region m) (PodNamespace_SubDomain m) (PodNamespace_Domain m)
  | TPodIngress => fun b m => mkPodIngress b (PodIngress_SoftDeleteBase m) (PodIngress_Name m)
      (PodIngress_Alias m) (PodIngress_PodNamespaceID m) (PodIngress_PodClusterID m) (PodIngress_AZ
      m) (PodIngress_Region m) (PodIngress_SubDomain m) (PodIngress_Domain m)
  | TPodIngressRule => fun b m => mkPodIngressRule b (PodIngressRule_Name m)
      (PodIngressRule_Protocol m) (PodIngressRule_Host m) (PodIngressRule_PodIngressID m)
      (PodIngressRule_SubDomain m)
  | TPodIngressRuleBackend => fun b m => mkPodIngressRuleBackend b (PodIngressRuleBackend_Path m)
      (PodIngressRuleBackend_Port m) (PodIngressRuleBackend_PodServiceID m)
      (PodIngressRuleBackend_PodIngressRuleID m) (PodIngressRuleBackend_PodIngressID m)
      (PodIngressRuleBackend_SubDomain m)
  | TPodService => fun b m => mkPodService b (PodService_SoftDeleteBase m) (PodService_Name m)
      (PodService_Alias m) (PodService_Type m) (PodService_Selector m) (PodService_ServiceClusterIP
      m) (PodService_PodIngressID m) (PodService_PodNamespaceID m) (PodService_PodClusterID m)
      (PodService_VPCID m) (PodService_AZ m) (PodService_Region m) (PodService_SubDomain m)
      (PodService_Domain m)
  | TPodServicePort => fun b m => mkPodServicePort b (PodServicePort_Name m)
      (PodServicePort_Protocol m) (PodServicePort_Port m) (PodServicePort_TargetPort m)
      (PodServicePort_NodePort m) (PodServicePort_PodServiceID m) (PodServicePort_SubDomain m)
  | TPodGroup => fun b m => mkPodGroup b (PodGroup_SoftDeleteBase m) (PodGroup_Name m)
      (PodGroup_Alias m) (PodGroup_Type m) (PodGroup_PodNum m) (PodGroup_Label m)
      (PodGroup_PodNamespaceID m) (PodGroup_PodClusterID m) (PodGroup_AZ m) (PodGroup_Region m)
      (PodGroup_SubDomain m) (PodGroup_Domain m)
  | TPodGroupPort => fun b m => mkPodGroupPort b (PodGroupPort_Name m) (PodGroupPort_Protocol m)
      (PodGroupPort_Port m) (PodGroupPort_PodGroupID m) (PodGroupPort_PodServiceID m)
      (PodGroupPort_SubDomain m)
  | TPodReplicaSet => fun b m => mkPodReplicaSet b (PodReplicaSet_SoftDeleteBase m)
      (PodReplicaSet_Name m) (PodReplicaSet_Alias m) (PodReplicaSet_Label m) (PodReplicaSet_PodNum
      m) (PodReplicaSet_PodGroupID m) (PodReplicaSet_PodNamespaceID m) (PodReplicaSet_PodClusterID
      m) (PodReplicaSet_AZ m) (PodReplicaSet_Region m) (PodReplicaSet_SubDomain m)
      (PodReplicaSet_Domain m)
  | TPod => fun b m => mkPod b (Pod_SoftDeleteBase m) (Pod_Name m) (Pod_Alias m) (Pod_State m)
      (Pod_Label m) (Pod_PodReplicaSetID m) (Pod_PodGroupID m) (Pod_PodNamespaceID m)
      (Pod_PodNodeID m) (Pod_PodClusterID m) (Pod_VPCID m) (Pod_AZ m) (Pod_Region m) (Pod_SubDomain
      m) (Pod_Domain m)
  end.

(** [GetID], [GetLcuuid] *)
Definition GetID {t : Table} (m : Model t) : Z := ID (row_Base m).

Definition GetLcuuid {t : Table} (m : Model t) : string := Lcuuid (row_Base m).

(** The models that embed [SoftDeleteBase]: [gorm] marks a deleted row of one of these
    with [deleted_at] and hides it from queries that are not [Unscoped]. *)
Definition has_DeletedAt (t : Table) : bool :=
  match t with
  | TSubDomain | TSubnet | TRoutingTable | TVInterface | TWANIP | TLANIP | TFloatingIP |
      TSecurityGroupRule | TVMSecurityGroup | TNATVMConnection | TNATRule | TLBVMConnection |
      TLBTargetServer | TVMPodNodeConnection | TPodIngressRule | TPodIngressRuleBackend |
      TPodServicePort | TPodGroupPort => false
  | _ => true
  end.

(** What [Create] fills in: the key, and the times of a model that has them. *)
Definition row_stamp {t : Table} (id : Z) (created updated : Time) : Model t -> Model t :=
  match t with
  | TRegion => fun m => mkRegion (SetID (Region_Base m) id) (mkSoftDeleteBase (mkOperatedTime
      created updated) (DeletedAt (Region_SoftDeleteBase m))) (Region_Name m) (Region_CreateMethod
      m) (Region_Label m) (Region_Longitude m) (Region_Latitude m)
  | TAZ => fun m => mkAZ (SetID (AZ_Base m) id) (mkSoftDeleteBase (mkOperatedTime created updated)
      (DeletedAt (AZ_SoftDeleteBase m))) (AZ_Name m) (AZ_CreateMethod m) (AZ_Label m) (AZ_Region m)
      (AZ_Domain m)
  | TSubDomain => fun m => mkSubDomain (SetID (SubDomain_Base m) id) (mkOperatedTime created
      updated) (SubDomain_SyncedAt m) (SubDomain_Domain m) (SubDomain_Name m)
      (SubDomain_DisplayName m) (SubDomain_CreateMethod m) (SubDomain_ClusterID m)
      (SubDomain_Config m) (SubDomain_ErrorMsg m) (SubDomain_Enabled m) (SubDomain_State m)
  | THost => fun m => mkHost (SetID (Host_Base m) id) (mkSoftDeleteBase (mkOperatedTime created
      updated) (DeletedAt (Host_SoftDeleteBase m))) (Host_Type m) (Host_State m) (Host_Name m)
      (Host_Alias m) (Host_Description m) (Host_IP m) (Host_HType m) (Host_CreateMethod m)
      (Host_UserName m) (Host_UserPasswd m) (Host_VCPUNum m) (Host_MemTotal m) (Host_AZ m)
      (Host_Region m) (Host_Domain m) (Host_SyncedAt m) (Host_ExtraInfo m)
  | TVM => fun m => mkVM (SetID (VM_Base m) id) (mkSoftDeleteBase (mkOperatedTime created updated)
      (DeletedAt (VM_SoftDeleteBase m))) (VM_State m) (VM_Name m) (VM_Alias m) (VM_Label m)
      (VM_CreateMethod m) (VM_HType m) (VM_LaunchServer m) (VM_VPCID m) (VM_Domain m) (VM_AZ m)
      (VM_Region m) (VM_UID m)
  | TVPC => fun m => mkVPC (SetID (VPC_Base m) id) (mkSoftDeleteBase (mkOperatedTime created
      updated) (DeletedAt (VPC_SoftDeleteBase m))) (VPC_Name m) (VPC_CreateMethod m) (VPC_Label m)
      (VPC_Alias m) (VPC_Domain m) (VPC_Region m) (VPC_AZ m) (VPC_TunnelID m) (VPC_Mode m)
      (VPC_CIDR m) (VPC_UID m)
  | TNetwork => fun m => mkNetwork (SetID (Network_Base m) id) (mkSoftDeleteBase (mkOperatedTime
      created updated) (DeletedAt (Network_SoftDeleteBase m))) (Network_State m) (Network_NetType
      m) (Network_Name m) (Network_CreateMethod m) (Network_Label m) (Network_Alias m)
      (Network_Description m) (Network_SubDomain m) (Network_Domain m) (Network_Region m)
      (Network_AZ m) (Network_ISP m) (Network_VPCID m) (Network_SegmentationID m) (Network_TunnelID
      m) (Network_Shared m) (Network_Topped m) (Network_IsVIP m)
  | TSubnet => fun m => mkSubnet (SetID (Subnet_Base m) id) (Subnet_Prefix m) (Subnet_Netmask m)
      (Subnet_NetworkID m) (Subnet_NetIndex m) (Subnet_Name m) (Subnet_Label m) (Subnet_SubDomain m)
  | TVRouter => fun m => mkVRouter (SetID (VRouter_Base m) id) (mkSoftDeleteBase (mkOperatedTime
      created updated) (DeletedAt (VRouter_SoftDeleteBase m))) (VRouter_State m) (VRouter_Name m)
      (VRouter_Label m) (VRouter_Description m) (VRouter_VPCID m) (VRouter_GWLaunchServer m)
      (VRouter_Domain m) (VRouter_Region m) (VRouter_AZ m)
  | TRoutingTable => fun m => mkRoutingTable (SetID (RoutingTable_Base m) id)
      (RoutingTable_VRouterID m) (RoutingTable_Destination m) (RoutingTable_NexthopType m)
      (RoutingTable_Nexthop m)
  | TDHCPPort => fun m => mkDHCPPort (SetID (DHCPPort_Base m) id) (mkSoftDeleteBase (mkOperatedTime
      created updated) (DeletedAt (DHCPPort_SoftDeleteBase m))) (DHCPPort_Name m) (DHCPPort_Domain
      m) (DHCPPort_Region m) (DHCPPort_AZ m) (DHCPPort_VPCID m)
  | TVInterface => fun m => mkVInterface (SetID (VInterface_Base m) id) (VInterface_Name m)
      (VInterface_Index m) (VInterface_State m) (VInterface_CreateMethod m) (VInterface_Type m)
      (VInterface_Mac m) (VInterface_TapMac m) (VInterface_NetworkID m) (VInterface_VlanTag m)
      (VInterface_DeviceType m) (VInterface_DeviceID m) (VInterface_SubDomain m) (VInterface_Domain
      m) (VInterface_Region m)
  | TWANIP => fun m => mkWANIP (SetID (WANIP_Base m) id) (WANIP_IP m) (WANIP_Alias m)
      (WANIP_Netmask m) (WANIP_Gateway m) (WANIP_CreateMethod m) (WANIP_ISP m) (WANIP_VInterfaceID
      m) (WANIP_SubDomain m) (WANIP_Domain m) (WANIP_Region m)
  | TLANIP => fun m => mkLANIP (SetID (LANIP_Base m) id) (LANIP_IP m) (LANIP_Netmask m)
      (LANIP_Gateway m) (LANIP_CreateMethod m) (LANIP_NetworkID m) (LANIP_NetIndex m)
      (LANIP_SubDomain m) (LANIP_Domain m) (LANIP_VInterfaceID m) (LANIP_ISP m)
  | TFloatingIP => fun m => mkFloatingIP (SetID (FloatingIP_Base m) id) (FloatingIP_Domain m)
      (FloatingIP_Region m) (FloatingIP_VPCID m) (FloatingIP_NetworkID m) (FloatingIP_VMID m)
      (FloatingIP_IP m)
  | TSecurityGroup => fun m => mkSecurityGroup (SetID (SecurityGroup_Base m) id) (mkSoftDeleteBase
      (mkOperatedTime created updated) (DeletedAt (SecurityGroup_SoftDeleteBase m)))
      (SecurityGroup_Name m) (SecurityGroup_Label m) (SecurityGroup_Alias m) (SecurityGroup_VPCID
      m) (SecurityGroup_Domain m) (SecurityGroup_Region m) (SecurityGroup_Topped m)
  | TSecurityGroupRule => fun m => mkSecurityGroupRule (SetID (SecurityGroupRule_Base m) id)
      (SecurityGroupRule_SecurityGroupID m) (SecurityGroupRule_Direction m)
      (SecurityGroupRule_Protocol m) (SecurityGroupRule_EtherType m)
      (SecurityGroupRule_LocalPortRange m) (SecurityGroupRule_RemotePortRange m)
      (SecurityGroupRule_Local m) (SecurityGroupRule_Remote m) (SecurityGroupRule_Priority m)
      (SecurityGroupRule_Action m)
  | TVMSecurityGroup => fun m => mkVMSecurityGroup (SetID (VMSecurityGroup_Base m) id)
      (VMSecurityGroup_SecurityGroupID m) (VMSecurityGroup_VMID m) (VMSecurityGroup_Priority m)
  | TNATGateway => fun m => mkNATGateway (SetID (NATGateway_Base m) id) (mkSoftDeleteBase
      (mkOperatedTime created updated) (DeletedAt (NATGateway_SoftDeleteBase m))) (NATGateway_Name
      m) (NATGateway_Label m) (NATGateway_FloatingIPs m) (NATGateway_VPCID m) (NATGateway_AZ m)
      (NATGateway_Region m) (NATGateway_Domain m) (NATGateway_UID m)
  | TNATVMConnection => fun m => mkNATVMConnection (SetID (NATVMConnection_Base m) id)
      (NATVMConnection_NATGatewayID m) (NATVMConnection_VMID m) (NATVMConnection_Domain m)
  | TNATRule => fun m => mkNATRule (SetID (NATRule_Base m) id) (NATRule_NATGatewayID m)
      (NATRule_Type m) (NATRule_Protocol m) (NATRule_FloatingIP m) (NATRule_FloatingIPPort m)
      (NATRule_FixedIP m) (NATRule_FixedIPPort m) (NATRule_VInterfaceID m) (NATRule_Domain m)
  | TLB => fun m => mkLB (SetID (LB_Base m) id) (mkSoftDeleteBase (mkOperatedTime created updated)
      (DeletedAt (LB_SoftDeleteBase m))) (LB_Name m) (LB_Label m) (LB_Model m) (LB_VIP m) (LB_VPCID
      m) (LB_AZ m) (LB_Region m) (LB_Domain m) (LB_UID m)
  | TLBVMConnection => fun m => mkLBVMConnection (SetID (LBVMConnection_Base m) id)
      (LBVMConnection_LBID m) (LBVMConnection_VMID m) (LBVMConnection_Domain m)
  | TLBListener => fun m => mkLBListener (SetID (LBListener_Base m) id) (mkSoftDeleteBase
      (mkOperatedTime created updated) (DeletedAt (LBListener_SoftDeleteBase m))) (LBListener_LBID
      m) (LBListener_Name m) (LBListener_IPs m) (LBListener_SNATIPs m) (LBListener_Label m)
      (LBListener_Port m) (LBListener_Protocol m) (LBListener_Domain m)
  | TLBTargetServer => fun m => mkLBTargetServer (SetID (LBTargetServer_Base m) id)
      (LBTargetServer_LBID m) (LBTargetServer_LBListenerID m) (LBTargetServer_VPCID m)
      (LBTargetServer_Type m) (LBTargetServer_IP m) (LBTargetServer_VMID m) (LBTargetServer_Port m)
      (LBTargetServer_Protocol m) (LBTargetServer_Domain m)
  | TPeerConnection => fun m => mkPeerConnection (SetID (PeerConnection_Base m) id)
      (mkSoftDeleteBase (mkOperatedTime created updated) (DeletedAt (PeerConnection_SoftDeleteBase
      m))) (PeerConnection_Name m) (PeerConnection_Label m) (PeerConnection_LocalVPCID m)
      (PeerConnection_RemoteVPCID m) (PeerConnection_LocalRegionID m)
      (PeerConnection_RemoteRegionID m) (PeerConnection_CreateMethod m) (PeerConnection_Domain m)
  | TRDSInstance => fun m => mkRDSInstance (SetID (RDSInstance_Base m) id) (mkSoftDeleteBase
      (mkOperatedTime created updated) (DeletedAt (RDSInstance_SoftDeleteBase m)))
      (RDSInstance_Name m) (RDSInstance_Label m) (RDSInstance_State m) (RDSInstance_Domain m)
      (RDSInstance_Region m) (RDSInstance_AZ m) (RDSInstance_VPCID m) (RDSInstance_Type m)
      (RDSInstance_Version m) (RDSInstance_Series m) (RDSInstance_Model m) (RDSInstance_UID m)
  | TRedisInstance => fun m => mkRedisInstance (SetID (RedisInstance_Base m) id) (mkSoftDeleteBase
      (mkOperatedTime created updated) (DeletedAt (RedisInstance_SoftDeleteBase m)))
      (RedisInstance_Name m) (RedisInstance_Label m) (RedisInstance_State m) (RedisInstance_Domain
      m) (RedisInstance_Region m) (RedisInstance_AZ m) (RedisInstance_VPCID m)
      (RedisInstance_Version m) (RedisInstance_InternalHost m) (RedisInstance_PublicHost m)
      (RedisInstance_UID m)
  | TPodCluster => fun m => mkPodCluster (SetID (PodCluster_Base m) id) (mkSoftDeleteBase
      (mkOperatedTime created updated) (DeletedAt (PodCluster_SoftDeleteBase m))) (PodCluster_Name
      m) (PodCluster_ClusterName m) (PodCluster_Version m) (PodCluster_VPCID m) (PodCluster_AZ m)
      (PodCluster_Region m) (PodCluster_SubDomain m) (PodCluster_Domain m)
  | TPodNode => fun m => mkPodNode (SetID (PodNode_Base m) id) (mkSoftDeleteBase (mkOperatedTime
      created updated) (DeletedAt (PodNode_SoftDeleteBase m))) (PodNode_Name m) (PodNode_Alias m)
      (PodNode_Type m) (PodNode_ServerType m) (PodNode_State m) (PodNode_IP m) (PodNode_VCPUNum m)
      (PodNode_MemTotal m) (PodNode_PodClusterID m) (PodNode_Region m) (PodNode_AZ m)
      (PodNode_VPCID m) (PodNode_SubDomain m) (PodNode_Domain m)
  | TVMPodNodeConnection => fun m => mkVMPodNodeConnection (SetID (VMPodNodeConnection_Base m) id)
      (VMPodNodeConnection_VMID m) (VMPodNodeConnection_PodNodeID m) (VMPodNodeConnection_Domain m)
      (VMPodNodeConnection_SubDomain m)
  | TPodNamespace => fun m => mkPodNamespace (SetID (PodNamespace_Base m) id) (mkSoftDeleteBase
      (mkOperatedTime created updated) (DeletedAt (PodNamespace_SoftDeleteBase m)))
      (PodNamespace_Name m) (PodNamespace_Alias m) (PodNamespace_PodClusterID m) (PodNamespace_AZ
      m) (PodNamespace_Region m) (PodNamespace_SubDomain m) (PodNamespace_Domain m)
  | TPodIngress => fun m => mkPodIngress (SetID (PodIngress_Base m) id) (mkSoftDeleteBase
      (mkOperatedTime created updated) (DeletedAt (PodIngress_SoftDeleteBase m))) (PodIngress_Name
      m) (PodIngress_Alias m) (PodIngress_PodNamespaceID m) (PodIngress_PodClusterID m)
      (PodIngress_AZ m) (PodIngress_Region m) (PodIngress_SubDomain m) (PodIngress_Domain m)
  | TPodIngressRule => fun m => mkPodIngressRule (SetID (PodIngressRule_Base m) id)
      (PodIngressRule_Name m) (PodIngressRule_Protocol m) (PodIngressRule_Host m)
      (PodIngressRule_PodIngressID m) (PodIngressRule_SubDomain m)
  | TPodIngressRuleBackend => fun m => mkPodIngressRuleBackend (SetID (PodIngressRuleBackend_Base
      m) id) (PodIngressRuleBackend_Path m) (PodIngressRuleBackend_Port m)
      (PodIngressRuleBackend_PodServiceID m) (PodIngressRuleBackend_PodIngressRuleID m)
      (PodIngressRuleBackend_PodIngressID m) (PodIngressRuleBackend_SubDomain m)
  | TPodService => fun m => mkPodService (SetID (PodService_Base m) id) (mkSoftDeleteBase
      (mkOperatedTime created updated) (DeletedAt (PodService_SoftDeleteBase m))) (PodService_Name
      m) (PodService_Alias m) (PodService_Type m) (PodService_Selector m)
      (PodService_ServiceClusterIP m) (PodService_PodIngressID m) (PodService_PodNamespaceID m)
      (PodService_PodClusterID m) (PodService_VPCID m) (PodService_AZ m) (PodService_Region m)
      (PodService_SubDomain m) (PodService_Domain m)
  | TPodServicePort => fun m => mkPodServicePort (SetID (PodServicePort_Base m) id)
      (PodServicePort_Name m) (PodServicePort_Protocol m) (PodServicePort_Port m)
      (PodServicePort_TargetPort m) (PodServicePort_NodePort m) (PodServicePort_PodServiceID m)
      (PodServicePort_SubDomain m)
  | TPodGroup => fun m => mkPodGroup (SetID (PodGroup_Base m) id) (mkSoftDeleteBase (mkOperatedTime
      created updated) (DeletedAt (PodGroup_SoftDeleteBase m))) (PodGroup_Name m) (PodGroup_Alias
      m) (PodGroup_Type m) (PodGroup_PodNum m) (PodGroup_Label m) (PodGroup_PodNamespaceID m)
      (PodGroup_PodClusterID m) (PodGroup_AZ m) (PodGroup_Region m) (PodGroup_SubDomain m)
      (PodGroup_Domain m)
  | TPodGroupPort => fun m => mkPodGroupPort (SetID (PodGroupPort_Base m) id) (PodGroupPort_Name m)
      (PodGroupPort_Protocol m) (PodGroupPort_Port m) (PodGroupPort_PodGroupID m)
      (PodGroupPort_PodServiceID m) (PodGroupPort_SubDomain m)
  | TPodReplicaSet => fun m => mkPodReplicaSet (SetID (PodReplicaSet_Base m) id) (mkSoftDeleteBase
      (mkOperatedTime created updated) (DeletedAt (PodReplicaSet_SoftDeleteBase m)))
      (PodReplicaSet_Name m) (PodReplicaSet_Alias m) (PodReplicaSet_Label m) (PodReplicaSet_PodNum
      m) (PodReplicaSet_PodGroupID m) (PodReplicaSet_PodNamespaceID m) (PodReplicaSet_PodClusterID
      m) (PodReplicaSet_AZ m) (PodReplicaSet_Region m) (PodReplicaSet_SubDomain m)
      (PodReplicaSet_Domain m)
  | TPod => fun m => mkPod (SetID (Pod_Base m) id) (mkSoftDeleteBase (mkOperatedTime created
      updated) (DeletedAt (Pod_SoftDeleteBase m))) (Pod_Name m) (Pod_Alias m) (Pod_State m)
      (Pod_Label m) (Pod_PodReplicaSetID m) (Pod_PodGroupID m) (Pod_PodNamespaceID m)
      (Pod_PodNodeID m) (Pod_PodClusterID m) (Pod_VPCID m) (Pod_AZ m) (Pod_Region m) (Pod_SubDomain
      m) (Pod_Domain m)
  end.

(** * Columns *)

Inductive ColumnType := CText | CInt | CTime | CReal.

Definition Base_columns : list (string * ColumnType) := [("id", CInt); ("lcuuid", CText)].

Definition OperatedTime_columns : list (string * ColumnType) := [("created_at", CTime);
    ("updated_at", CTime)].

(** The columns of a table, as the tags name them. *)
Definition columns (t : Table) : list (string * ColumnType) :=
  match t with
  | TRegion => Base_columns ++ OperatedTime_columns ++
      [("deleted_at", CTime); ("name", CText); ("create_method", CInt); ("label", CText);
          ("longitude", CReal); ("latitude", CReal)]
  | TAZ => Base_columns ++ OperatedTime_columns ++
      [("deleted_at", CTime); ("name", CText); ("create_method", CInt); ("label", CText);
          ("region", CText); ("domain", CText)]
  | TSubDomain => Base_columns ++ OperatedTime_columns ++
      [("synced_at", CTime); ("domain", CText); ("name", CText); ("display_name", CText);
          ("create_method", CInt); ("cluster_id", CText); ("config", CText); ("error_msg", CText);
          ("enabled", CInt); ("state", CInt)]
  | THost => Base_columns ++ OperatedTime_columns ++
      [("deleted_at", CTime); ("type", CInt); ("state", CInt); ("name", CText); ("alias", CText);
          ("description", CText); ("ip", CText); ("htype", CInt); ("create_method", CInt);
          ("user_name", CText); ("user_passwd", CText); ("vcpu_num", CInt); ("mem_total", CInt);
          ("az", CText); ("region", CText); ("domain", CText); ("synced_at", CTime); ("extra_info",
          CText)]
  | TVM => Base_columns ++ OperatedTime_columns ++
      [("deleted_at", CTime); ("state", CInt); ("name", CText); ("alias", CText); ("label", CText);
          ("create_method", CInt); ("htype", CInt); ("launch_server", CText); ("epc_id", CInt);
          ("domain", CText); ("az", CText); ("region", CText); ("uid", CText)]
  | TVPC => Base_columns ++ OperatedTime_columns ++
      [("deleted_at", CTime); ("name", CText); ("create_method", CInt); ("label", CText); ("alias",
          CText); ("domain", CText); ("region", CText); ("az", CText); ("tunnel_id", CInt);
          ("mode", CInt); ("cidr", CText); ("uid", CText)]
  | TNetwork => Base_columns ++ OperatedTime_columns ++
      [("deleted_at", CTime); ("state", CInt); ("net_type", CInt); ("name", CText);
          ("create_method", CInt); ("label", CText); ("alias", CText); ("description", CText);
          ("sub_domain", CText); ("domain", CText); ("region", CText); ("az", CText); ("isp",
          CInt); ("epc_id", CInt); ("segmentation_id", CInt); ("tunnel_id", CInt); ("shared",
          CInt); ("topped", CInt); ("is_vip", CInt)]
  | TSubnet => Base_columns ++
      [("prefix", CText); ("netmask", CText); ("vl2id", CInt); ("net_index", CInt); ("name",
          CText); ("label", CText); ("sub_domain", CText)]
  | TVRouter => Base_columns ++ OperatedTime_columns ++
      [("deleted_at", CTime); ("state", CInt); ("name", CText); ("label", CText); ("description",
          CText); ("epc_id", CInt); ("gw_launch_server", CText); ("domain", CText); ("region",
          CText); ("az", CText)]
  | TRoutingTable => Base_columns ++
      [("vnet_id", CInt); ("destination", CText); ("nexthop_type", CText); ("nexthop", CText)]
  | TDHCPPort => Base_columns ++ OperatedTime_columns ++
      [("deleted_at", CTime); ("name", CText); ("domain", CText); ("region", CText); ("az", CText);
          ("epc_id", CInt)]
  | TVInterface => Base_columns ++
      [("name", CText); ("ifindex", CInt); ("state", CInt); ("create_method", CInt); ("iftype",
          CInt); ("mac", CText); ("tap_mac", CText); ("subnetid", CInt); ("vlantag", CInt);
          ("devicetype", CInt); ("deviceid", CInt); ("sub_domain", CText); ("domain", CText);
          ("region", CText)]
  | TWANIP => Base_columns ++
      [("ip", CText); ("alias", CText); ("netmask", CInt); ("gateway", CText); ("create_method",
          CInt); ("isp", CInt); ("vifid", CInt); ("sub_domain", CText); ("domain", CText);
          ("region", CText)]
  | TLANIP => Base_columns ++
      [("ip", CText); ("netmask", CText); ("gateway", CText); ("create_method", CInt); ("vl2id",
          CInt); ("net_index", CInt); ("sub_domain", CText); ("domain", CText); ("vifid", CInt);
          ("isp", CInt)]
  | TFloatingIP => Base_columns ++
      [("domain", CText); ("region", CText); ("epc_id", CInt); ("vl2_id", CInt); ("vm_id", CInt);
          ("ip", CText)]
  | TSecurityGroup => Base_columns ++ OperatedTime_columns ++
      [("deleted_at", CTime); ("name", CText); ("label", CText); ("alias", CText); ("epc_id",
          CInt); ("domain", CText); ("region", CText); ("topped", CInt)]
  | TSecurityGroupRule => Base_columns ++
      [("sg_id", CInt); ("direction", CInt); ("protocol", CText); ("ethertype", CInt);
          ("local_port_range", CText); ("remote_port_range", CText); ("local", CText); ("remote",
          CText); ("priority", CInt); ("action", CInt)]
  | TVMSecurityGroup => Base_columns ++
      [("sg_id", CInt); ("vm_id", CInt); ("priority", CInt)]
  | TNATGateway => Base_columns ++ OperatedTime_columns ++
      [("deleted_at", CTime); ("name", CText); ("label", CText); ("floating_ips", CText);
          ("epc_id", CInt); ("az", CText); ("region", CText); ("domain", CText); ("uid", CText)]
  | TNATVMConnection => Base_columns ++
      [("nat_id", CInt); ("vm_id", CInt); ("domain", CText)]
  | TNATRule => Base_columns ++
      [("nat_id", CInt); ("type", CText); ("protocol", CText); ("floating_ip", CText);
          ("floating_ip_port", CInt); ("fixed_ip", CText); ("fixed_ip_port", CInt); ("port_id",
          CInt); ("domain", CText)]
  | TLB => Base_columns ++ OperatedTime_columns ++
      [("deleted_at", CTime); ("name", CText); ("label", CText); ("model", CInt); ("vip", CText);
          ("epc_id", CInt); ("az", CText); ("region", CText); ("domain", CText); ("uid", CText)]
  | TLBVMConnection => Base_columns ++
      [("lb_id", CInt); ("vm_id", CInt); ("domain", CText)]
  | TLBListener => Base_columns ++ OperatedTime_columns ++
      [("deleted_at", CTime); ("lb_id", CInt); ("name", CText); ("ips", CText); ("snat_ips",
          CText); ("label", CText); ("port", CInt); ("protocol", CText); ("domain", CText)]
  | TLBTargetServer => Base_columns ++
      [("lb_id", CInt); ("lb_listener_id", CInt); ("epc_id", CInt); ("type", CInt); ("ip", CText);
          ("vm_id", CInt); ("port", CInt); ("protocol", CText); ("domain", CText)]
  | TPeerConnection => Base_columns ++ OperatedTime_columns ++
      [("deleted_at", CTime); ("name", CText); ("label", CText); ("local_epc_id", CInt);
          ("remote_epc_id", CInt); ("local_region_id", CInt); ("remote_region_id", CInt);
          ("create_method", CInt); ("domain", CText)]
  | TRDSInstance => Base_columns ++ OperatedTime_columns ++
      [("deleted_at", CTime); ("name", CText); ("label", CText); ("state", CInt); ("domain",
          CText); ("region", CText); ("az", CText); ("epc_id", CInt); ("type", CInt); ("version",
          CText); ("series", CInt); ("model", CInt); ("uid", CText)]
  | TRedisInstance => Base_columns ++ OperatedTime_columns ++
      [("deleted_at", CTime); ("name", CText); ("label", CText); ("state", CInt); ("domain",
          CText); ("region", CText); ("az", CText); ("epc_id", CInt); ("version", CText);
          ("internal_host", CText); ("public_host", CText); ("uid", CText)]
  | TPodCluster => Base_columns ++ OperatedTime_columns ++
      [("deleted_at", CTime); ("name", CText); ("cluster_name", CText); ("version", CText);
          ("epc_id", CInt); ("az", CText); ("region", CText); ("sub_domain", CText); ("domain",
          CText)]
  | TPodNode => Base_columns ++ OperatedTime_columns ++
      [("deleted_at", CTime); ("name", CText); ("alias", CText); ("type", CInt); ("server_type",
          CInt); ("state", CInt); ("ip", CText); ("vcpu_num", CInt); ("mem_total", CInt);
          ("pod_cluster_id", CInt); ("region", CText); ("az", CText); ("epc_id", CInt);
          ("sub_domain", CText); ("domain", CText)]
  | TVMPodNodeConnection => Base_columns ++
      [("vm_id", CInt); ("pod_node_id", CInt); ("domain", CText); ("sub_domain", CText)]
  | TPodNamespace => Base_columns ++ OperatedTime_columns ++
      [("deleted_at", CTime); ("name", CText); ("alias", CText); ("pod_cluster_id", CInt); ("az",
          CText); ("region", CText); ("sub_domain", CText); ("domain", CText)]
  | TPodIngress => Base_columns ++ OperatedTime_columns ++
      [("deleted_at", CTime); ("name", CText); ("alias", CText); ("pod_namespace_id", CInt);
          ("pod_cluster_id", CInt); ("az", CText); ("region", CText); ("sub_domain", CText);
          ("domain", CText)]
  | TPodIngressRule => Base_columns ++
      [("name", CText); ("protocol", CText); ("host", CText); ("pod_ingress_id", CInt);
          ("sub_domain", CText)]
  | TPodIngressRuleBackend => Base_columns ++
      [("path", CText); ("port", CInt); ("pod_service_id", CInt); ("pod_ingress_rule_id", CInt);
          ("pod_ingress_id", CInt); ("sub_domain", CText)]
  | TPodService => Base_columns ++ OperatedTime_columns ++
      [("deleted_at", CTime); ("name", CText); ("alias", CText); ("type", CInt); ("selector",
          CText); ("service_cluster_ip", CText); ("pod_ingress_id", CInt); ("pod_namespace_id",
          CInt); ("pod_cluster_id", CInt); ("epc_id", CInt); ("az", CText); ("region", CText);
          ("sub_domain", CText); ("domain", CText)]
  | TPodServicePort => Base_columns ++
      [("name", CText); ("protocol", CText); ("port", CInt); ("target_port", CInt); ("node_port",
          CInt); ("pod_service_id", CInt); ("sub_domain", CText)]
  | TPodGroup => Base_columns ++ OperatedTime_columns ++
      [("deleted_at", CTime); ("name", CText); ("alias", CText); ("type", CInt); ("pod_num", CInt);
          ("label", CText); ("pod_namespace_id", CInt); ("pod_cluster_id", CInt); ("az", CText);
          ("region", CText); ("sub_domain", CText); ("domain", CText)]
  | TPodGroupPort => Base_columns ++
      [("name", CText); ("protocol", CText); ("port", CInt); ("pod_group_id", CInt);
          ("pod_service_id", CInt); ("sub_domain", CText)]
  | TPodReplicaSet => Base_columns ++ OperatedTime_columns ++
      [("deleted_at", CTime); ("name", CText); ("alias", CText); ("label", CText); ("pod_num",
          CInt); ("pod_group_id", CInt); ("pod_namespace_id", CInt); ("pod_cluster_id", CInt);
          ("az", CText); ("region", CText); ("sub_domain", CText); ("domain", CText)]
  | TPod => Base_columns ++ OperatedTime_columns ++
      [("deleted_at", CTime); ("name", CText); ("alias", CText); ("state", CInt); ("label", CText);
          ("pod_rs_id", CInt); ("pod_group_id", CInt); ("pod_namespace_id", CInt); ("pod_node_id",
          CInt); ("pod_cluster_id", CInt); ("epc_id", CInt); ("az", CText); ("region", CText);
          ("sub_domain", CText); ("domain", CText)]
  end.
