(* ===== verification/DiffBase.v ===== *)
(** The diff bases of the recorder's cache, [controller/recorder/cache/diff_base.go]: what
    the recorder remembers of a resource to see whether the cloud data changed, one record
    per struct, and the [Update] that copies the cloud data after a row was updated. *)
From stdpp Require Import base strings gmap.
From S2P Require Import Prelude CloudModel MysqlModel.

(** [DiffBase], with [GetSequence], [SetSequence] and [GetLcuuid] *)
Record DiffBase := mkDiffBase { DiffBase_Sequence : Z; DiffBase_Lcuuid : string }.

Record Region := mkRegion {
  Region_DiffBase : DiffBase;
  Region_Name : string;
  Region_Label : string
}.

Record AZ := mkAZ {
  AZ_DiffBase : DiffBase;
  AZ_Name : string;
  AZ_Label : string;
  AZ_RegionLcuuid : string
}.

Record SubDomain := mkSubDomain {
  SubDomain_DiffBase : DiffBase
}.

Record Host := mkHost {
  Host_DiffBase : DiffBase;
  Host_Name : string;
  Host_IP : string;
  Host_HType : Z;
  Host_VCPUNum : Z;
  Host_MemTotal : Z;
  Host_ExtraInfo : string;
  Host_RegionLcuuid : string;
  Host_AZLcuuid : string
}.

Record VM := mkVM {
  VM_DiffBase : DiffBase;
  VM_Name : string;
  VM_Label : string;
  VM_State : Z;
  VM_HType : Z;
  VM_LaunchServer : string;
  VM_VPCLcuuid : string;
  VM_RegionLcuuid : string;
  VM_AZLcuuid : string
}.

Record VPC := mkVPC {
  VPC_DiffBase : DiffBase;
  VPC_Name : string;
  VPC_Label : string;
  VPC_TunnelID : Z;
  VPC_CIDR : string;
  VPC_RegionLcuuid : string
}.

Record Network := mkNetwork {
  Network_DiffBase : DiffBase;
  Network_Name : string;
  Network_Label : string;
  Network_TunnelID : Z;
  Network_NetType : Z;
  Network_SegmentationID : Z;
  Network_VPCLcuuid : string;
  Network_RegionLcuuid : string;
  Network_AZLcuuid : string;
  Network_SubDomainLcuuid : string
}.

Record Subnet := mkSubnet {
  Subnet_DiffBase : DiffBase;
  Subnet_Name : string;
  Subnet_Label : string;
  Subnet_SubDomainLcuuid : string
}.

Record VRouter := mkVRouter {
  VRouter_DiffBase : DiffBase;
  VRouter_Name : string;
  VRouter_Label : string;
  VRouter_VPCLcuuid : string;
  VRouter_RegionLcuuid : string
}.

Record RoutingTable := mkRoutingTable {
  RoutingTable_DiffBase : DiffBase;
  RoutingTable_Destination : string;
  RoutingTable_Nexthop : string;
  RoutingTable_NexthopType : string
}.

Record DHCPPort := mkDHCPPort {
  DHCPPort_DiffBase : DiffBase;
  DHCPPort_Name : string;
  DHCPPort_RegionLcuuid : string;
  DHCPPort_AZLcuuid : string
}.

Record VInterface := mkVInterface {
  VInterface_DiffBase : DiffBase;
  VInterface_Name : string;
  VInterface_Type : Z;
  VInterface_TapMac : string;
  VInterface_NetworkLcuuid : string;
  VInterface_RegionLcuuid : string;
  VInterface_SubDomainLcuuid : string
}.

Record WANIP := mkWANIP {
  WANIP_DiffBase : DiffBase;
  WANIP_RegionLcuuid : string;
  WANIP_SubDomainLcuuid : string
}.

Record LANIP := mkLANIP {
  LANIP_DiffBase : DiffBase;
  LANIP_SubDomainLcuuid : string
}.

Record FloatingIP := mkFloatingIP {
  FloatingIP_DiffBase : DiffBase;
  FloatingIP_RegionLcuuid : string
}.

Record SecurityGroup := mkSecurityGroup {
  SecurityGroup_DiffBase : DiffBase;
  SecurityGroup_Name : string;
  SecurityGroup_Label : string;
  SecurityGroup_RegionLcuuid : string
}.

Record SecurityGroupRule := mkSecurityGroupRule {
  SecurityGroupRule_DiffBase : DiffBase;
  SecurityGroupRule_Priority : Z;
  SecurityGroupRule_EtherType : Z;
  SecurityGroupRule_Local : string;
  SecurityGroupRule_Remote : string;
  SecurityGroupRule_RemotePortRange : string
}.

Record VMSecurityGroup := mkVMSecurityGroup {
  VMSecurityGroup_DiffBase : DiffBase;
  VMSecurityGroup_Priority : Z
}.

Record NATGateway := mkNATGateway {
  NATGateway_DiffBase : DiffBase;
  NATGateway_Name : string;
  NATGateway_FloatingIPs : string;
  NATGateway_RegionLcuuid : string
}.

Record NATVMConnection := mkNATVMConnection {
  NATVMConnection_DiffBase : DiffBase
}.

Record NATRule := mkNATRule {
  NATRule_DiffBase : DiffBase
}.

Record LB := mkLB {
  LB_DiffBase : DiffBase;
  LB_Name : string;
  LB_Model : Z;
  LB_VIP : string;
  LB_VPCLcuuid : string;
  LB_RegionLcuuid : string
}.

Record LBVMConnection := mkLBVMConnection {
  LBVMConnection_DiffBase : DiffBase
}.

Record LBListener := mkLBListener {
  LBListener_DiffBase : DiffBase;
  LBListener_Name : string;
  LBListener_IPs : string;
  LBListener_SNATIPs : string;
  LBListener_Port : Z;
  LBListener_Protocol : string
}.

Record LBTargetServer := mkLBTargetServer {
  LBTargetServer_DiffBase : DiffBase;
  LBTargetServer_IP : string;
  LBTargetServer_Port : Z;
  LBTargetServer_Protocol : string
}.

Record PeerConnection := mkPeerConnection {
  PeerConnection_DiffBase : DiffBase;
  PeerConnection_Name : string;
  PeerConnection_RemoteRegionLcuuid : string;
  PeerConnection_LocalRegionLcuuid : string
}.

Record RDSInstance := mkRDSInstance {
  RDSInstance_DiffBase : DiffBase;
  RDSInstance_Name : string;
  RDSInstance_State : Z;
  RDSInstance_Series : Z;
  RDSInstance_Model : Z;
  RDSInstance_VPCLcuuid : string;
  RDSInstance_RegionLcuuid : string;
  RDSInstance_AZLcuuid : string
}.

Record RedisInstance := mkRedisInstance {
  RedisInstance_DiffBase : DiffBase;
  RedisInstance_Name : string;
  RedisInstance_State : Z;
  RedisInstance_PublicHost : string;
  RedisInstance_RegionLcuuid : string;
  RedisInstance_AZLcuuid : string
}.

Record PodCluster := mkPodCluster {
  PodCluster_DiffBase : DiffBase;
  PodCluster_Name : string;
  PodCluster_ClusterName : string;
  PodCluster_RegionLcuuid : string;
  PodCluster_AZLcuuid : string;
  PodCluster_SubDomainLcuuid : string
}.

Record PodNode := mkPodNode {
  PodNode_DiffBase : DiffBase;
  PodNode_State : Z;
  PodNode_VCPUNum : Z;
  PodNode_MemTotal : Z;
  PodNode_RegionLcuuid : string;
  PodNode_AZLcuuid : string;
  PodNode_SubDomainLcuuid : string
}.

Record VMPodNodeConnection := mkVMPodNodeConnection {
  VMPodNodeConnection_DiffBase : DiffBase;
  VMPodNodeConnection_SubDomainLcuuid : string
}.

Record PodNamespace := mkPodNamespace {
  PodNamespace_DiffBase : DiffBase;
  PodNamespace_RegionLcuuid : string;
  PodNamespace_AZLcuuid : string;
  PodNamespace_SubDomainLcuuid : string
}.

Record PodIngress := mkPodIngress {
  PodIngress_DiffBase : DiffBase;
  PodIngress_Name : string;
  PodIngress_RegionLcuuid : string;
  PodIngress_AZLcuuid : string;
  PodIngress_SubDomainLcuuid : string
}.

Record PodIngressRule := mkPodIngressRule {
  PodIngressRule_DiffBase : DiffBase;
  PodIngressRule_SubDomainLcuuid : string
}.

Record PodIngressRuleBackend := mkPodIngressRuleBackend {
  PodIngressRuleBackend_DiffBase : DiffBase;
  PodIngressRuleBackend_SubDomainLcuuid : string
}.

Record PodService := mkPodService {
  PodService_DiffBase : DiffBase;
  PodService_Name : string;
  PodService_Selector : string;
  PodService_ServiceClusterIP : string;
  PodService_PodIngressLcuuid : string;
  PodService_RegionLcuuid : string;
  PodService_AZLcuuid : string;
  PodService_SubDomainLcuuid : string
}.

Record PodServicePort := mkPodServicePort {
  PodServicePort_DiffBase : DiffBase;
  PodServicePort_Name : string;
  PodServicePort_SubDomainLcuuid : string
}.

Record PodGroup := mkPodGroup {
  PodGroup_DiffBase : DiffBase;
  PodGroup_Name : string;
  PodGroup_Label : string;
  PodGroup_PodNum : Z;
  PodGroup_Type : Z;
  PodGroup_RegionLcuuid : string;
  PodGroup_AZLcuuid : string;
  PodGroup_SubDomainLcuuid : string
}.

Record PodGroupPort := mkPodGroupPort {
  PodGroupPort_DiffBase : DiffBase;
  PodGroupPort_Name : string;
  PodGroupPort_SubDomainLcuuid : string
}.

Record PodReplicaSet := mkPodReplicaSet {
  PodReplicaSet_DiffBase : DiffBase;
  PodReplicaSet_Name : string;
  PodReplicaSet_Label : string;
  PodReplicaSet_PodNum : Z;
  PodReplicaSet_RegionLcuuid : string;
  PodReplicaSet_AZLcuuid : string;
  PodReplicaSet_SubDomainLcuuid : string
}.

Record Pod := mkPod {
  Pod_DiffBase : DiffBase;
  Pod_Name : string;
  Pod_Label : string;
  Pod_State : Z;
  Pod_CreatedAt : Time;
  Pod_PodNodeLcuuid : string;
  Pod_PodReplicaSetLcuuid : string;
  Pod_VPCLcuuid : string;
  Pod_RegionLcuuid : string;
  Pod_AZLcuuid : string;
  Pod_SubDomainLcuuid : string
}.

(** * Update *)

Definition Region_Update (cloudItem : CloudModel.Region) (b : Region) : Region :=
  {| Region_DiffBase := Region_DiffBase b;
     Region_Name := CloudModel.Region_Name cloudItem;
     Region_Label := CloudModel.Region_Label cloudItem |}.

Definition AZ_Update (cloudItem : CloudModel.AZ) (b : AZ) : AZ :=
  {| AZ_DiffBase := AZ_DiffBase b;
     AZ_Name := CloudModel.AZ_Name cloudItem;
     AZ_Label := CloudModel.AZ_Label cloudItem;
     AZ_RegionLcuuid := CloudModel.AZ_RegionLcuuid cloudItem |}.

Definition Host_Update (cloudItem : CloudModel.Host) (b : Host) : Host :=
  {| Host_DiffBase := Host_DiffBase b;
     Host_Name := CloudModel.Host_Name cloudItem;
     Host_IP := CloudModel.Host_IP cloudItem;
     Host_HType := CloudModel.Host_HType cloudItem;
     Host_VCPUNum := CloudModel.Host_VCPUNum cloudItem;
     Host_MemTotal := CloudModel.Host_MemTotal cloudItem;
     Host_ExtraInfo := CloudModel.Host_ExtraInfo cloudItem;
     Host_RegionLcuuid := CloudModel.Host_RegionLcuuid cloudItem;
     Host_AZLcuuid := CloudModel.Host_AZLcuuid cloudItem |}.

Definition VM_Update (cloudItem : CloudModel.VM) (b : VM) : VM :=
  {| VM_DiffBase := VM_DiffBase b;
     VM_Name := CloudModel.VM_Name cloudItem;
     VM_Label := CloudModel.VM_Label cloudItem;
     VM_State := CloudModel.VM_State cloudItem;
     VM_HType := CloudModel.VM_HType cloudItem;
     VM_LaunchServer := CloudModel.VM_LaunchServer cloudItem;
     VM_VPCLcuuid := CloudModel.VM_VPCLcuuid cloudItem;
     VM_RegionLcuuid := CloudModel.VM_RegionLcuuid cloudItem;
     VM_AZLcuuid := CloudModel.VM_AZLcuuid cloudItem |}.

Definition VPC_Update (cloudItem : CloudModel.VPC) (b : VPC) : VPC :=
  {| VPC_DiffBase := VPC_DiffBase b;
     VPC_Name := CloudModel.VPC_Name cloudItem;
     VPC_Label := CloudModel.VPC_Label cloudItem;
     VPC_TunnelID := CloudModel.VPC_TunnelID cloudItem;
     VPC_CIDR := CloudModel.VPC_CIDR cloudItem;
     VPC_RegionLcuuid := CloudModel.VPC_RegionLcuuid cloudItem |}.

Definition Network_Update (cloudItem : CloudModel.Network) (b : Network) : Network :=
  {| Network_DiffBase := Network_DiffBase b;
     Network_Name := CloudModel.Network_Name cloudItem;
     Network_Label := CloudModel.Network_Label cloudItem;
     Network_TunnelID := CloudModel.Network_TunnelID cloudItem;
     Network_NetType := CloudModel.Network_NetType cloudItem;
     Network_SegmentationID := CloudModel.Network_SegmentationID cloudItem;
     Network_VPCLcuuid := CloudModel.Network_VPCLcuuid cloudItem;
     Network_RegionLcuuid := CloudModel.Network_RegionLcuuid cloudItem;
     Network_AZLcuuid := CloudModel.Network_AZLcuuid cloudItem;
     Network_SubDomainLcuuid := CloudModel.Network_SubDomainLcuuid cloudItem |}.

Definition Subnet_Update (cloudItem : CloudModel.Subnet) (b : Subnet) : Subnet :=
  {| Subnet_DiffBase := Subnet_DiffBase b;
     Subnet_Name := CloudModel.Subnet_Name cloudItem;
     Subnet_Label := CloudModel.Subnet_Label cloudItem;
     Subnet_SubDomainLcuuid := CloudModel.Subnet_SubDomainLcuuid cloudItem |}.

Definition VRouter_Update (cloudItem : CloudModel.VRouter) (b : VRouter) : VRouter :=
  {| VRouter_DiffBase := VRouter_DiffBase b;
     VRouter_Name := CloudModel.VRouter_Name cloudItem;
     VRouter_Label := CloudModel.VRouter_Label cloudItem;
     VRouter_VPCLcuuid := CloudModel.VRouter_VPCLcuuid cloudItem;
     VRouter_RegionLcuuid := CloudModel.VRouter_RegionLcuuid cloudItem |}.

Definition RoutingTable_Update (cloudItem : CloudModel.RoutingTable) (b : RoutingTable) :
    RoutingTable :=
  {| RoutingTable_DiffBase := RoutingTable_DiffBase b;
     RoutingTable_Destination := CloudModel.RoutingTable_Destination cloudItem;
     RoutingTable_Nexthop := CloudModel.RoutingTable_Nexthop cloudItem;
     RoutingTable_NexthopType := CloudModel.RoutingTable_NexthopType cloudItem |}.

Definition DHCPPort_Update (cloudItem : CloudModel.DHCPPort) (b : DHCPPort) : DHCPPort :=
  {| DHCPPort_DiffBase := DHCPPort_DiffBase b;
     DHCPPort_Name := CloudModel.DHCPPort_Name cloudItem;
     DHCPPort_RegionLcuuid := CloudModel.DHCPPort_RegionLcuuid cloudItem;
     DHCPPort_AZLcuuid := CloudModel.DHCPPort_AZLcuuid cloudItem |}.

Definition VInterface_Update (cloudItem : CloudModel.VInterface) (b : VInterface) : VInterface :=
  {| VInterface_DiffBase := VInterface_DiffBase b;
     VInterface_Name := CloudModel.VInterface_Name cloudItem;
     VInterface_Type := VInterface_Type b;
     VInterface_TapMac := CloudModel.VInterface_TapMac cloudItem;
     VInterface_NetworkLcuuid := CloudModel.VInterface_NetworkLcuuid cloudItem;
     VInterface_RegionLcuuid := CloudModel.VInterface_RegionLcuuid cloudItem;
     VInterface_SubDomainLcuuid := CloudModel.VInterface_SubDomainLcuuid cloudItem |}.

Definition WANIP_Update (cloudItem : CloudModel.IP) (b : WANIP) : WANIP :=
  {| WANIP_DiffBase := WANIP_DiffBase b;
     WANIP_RegionLcuuid := CloudModel.IP_RegionLcuuid cloudItem;
     WANIP_SubDomainLcuuid := CloudModel.IP_SubDomainLcuuid cloudItem |}.

Definition LANIP_Update (cloudItem : CloudModel.IP) (b : LANIP) : LANIP :=
  {| LANIP_DiffBase := LANIP_DiffBase b;
     LANIP_SubDomainLcuuid := CloudModel.IP_SubDomainLcuuid cloudItem |}.

Definition FloatingIP_Update (cloudItem : CloudModel.FloatingIP) (b : FloatingIP) : FloatingIP :=
  {| FloatingIP_DiffBase := FloatingIP_DiffBase b;
     FloatingIP_RegionLcuuid := CloudModel.FloatingIP_RegionLcuuid cloudItem |}.

Definition SecurityGroup_Update (cloudItem : CloudModel.SecurityGroup) (b : SecurityGroup) :
    SecurityGroup :=
  {| SecurityGroup_DiffBase := SecurityGroup_DiffBase b;
     SecurityGroup_Name := CloudModel.SecurityGroup_Name cloudItem;
     SecurityGroup_Label := CloudModel.SecurityGroup_Label cloudItem;
     SecurityGroup_RegionLcuuid := CloudModel.SecurityGroup_RegionLcuuid cloudItem |}.

Definition SecurityGroupRule_Update (cloudItem : CloudModel.SecurityGroupRule) (b :
    SecurityGroupRule) : SecurityGroupRule :=
  {| SecurityGroupRule_DiffBase := SecurityGroupRule_DiffBase b;
     SecurityGroupRule_Priority := CloudModel.SecurityGroupRule_Priority cloudItem;
     SecurityGroupRule_EtherType := CloudModel.SecurityGroupRule_EtherType cloudItem;
     SecurityGroupRule_Local := CloudModel.SecurityGroupRule_Local cloudItem;
     SecurityGroupRule_Remote := CloudModel.SecurityGroupRule_Remote cloudItem;
     SecurityGroupRule_RemotePortRange := CloudModel.SecurityGroupRule_RemotePortRange cloudItem |}.

Definition VMSecurityGroup_Update (cloudItem : CloudModel.VMSecurityGroup) (b : VMSecurityGroup) :
    VMSecurityGroup :=
  {| VMSecurityGroup_DiffBase := VMSecurityGroup_DiffBase b;
     VMSecurityGroup_Priority := CloudModel.VMSecurityGroup_Priority cloudItem |}.

Definition NATGateway_Update (cloudItem : CloudModel.NATGateway) (b : NATGateway) : NATGateway :=
  {| NATGateway_DiffBase := NATGateway_DiffBase b;
     NATGateway_Name := CloudModel.NATGateway_Name cloudItem;
     NATGateway_FloatingIPs := CloudModel.NATGateway_FloatingIPs cloudItem;
     NATGateway_RegionLcuuid := CloudModel.NATGateway_RegionLcuuid cloudItem |}.

Definition LB_Update (cloudItem : CloudModel.LB) (b : LB) : LB :=
  {| LB_DiffBase := LB_DiffBase b;
     LB_Name := CloudModel.LB_Name cloudItem;
     LB_Model := CloudModel.LB_Model cloudItem;
     LB_VIP := CloudModel.LB_VIP cloudItem;
     LB_VPCLcuuid := CloudModel.LB_VPCLcuuid cloudItem;
     LB_RegionLcuuid := CloudModel.LB_RegionLcuuid cloudItem |}.

Definition LBListener_Update (cloudItem : CloudModel.LBListener) (b : LBListener) : LBListener :=
  {| LBListener_DiffBase := LBListener_DiffBase b;
     LBListener_Name := CloudModel.LBListener_Name cloudItem;
     LBListener_IPs := CloudModel.LBListener_IPs cloudItem;
     LBListener_SNATIPs := CloudModel.LBListener_SNATIPs cloudItem;
     LBListener_Port := CloudModel.LBListener_Port cloudItem;
     LBListener_Protocol := CloudModel.LBListener_Protocol cloudItem |}.

Definition LBTargetServer_Update (cloudItem : CloudModel.LBTargetServer) (b : LBTargetServer) :
    LBTargetServer :=
  {| LBTargetServer_DiffBase := LBTargetServer_DiffBase b;
     LBTargetServer_IP := CloudModel.LBTargetServer_IP cloudItem;
     LBTargetServer_Port := CloudModel.LBTargetServer_Port cloudItem;
     LBTargetServer_Protocol := CloudModel.LBTargetServer_Protocol cloudItem |}.

Definition PeerConnection_Update (cloudItem : CloudModel.PeerConnection) (b : PeerConnection) :
    PeerConnection :=
  {| PeerConnection_DiffBase := PeerConnection_DiffBase b;
     PeerConnection_Name := CloudModel.PeerConnection_Name cloudItem;
     PeerConnection_RemoteRegionLcuuid := CloudModel.PeerConnection_RemoteRegionLcuuid cloudItem;
     PeerConnection_LocalRegionLcuuid := CloudModel.PeerConnection_LocalRegionLcuuid cloudItem |}.

Definition RDSInstance_Update (cloudItem : CloudModel.RDSInstance) (b : RDSInstance) : RDSInstance
    :=
  {| RDSInstance_DiffBase := RDSInstance_DiffBase b;
     RDSInstance_Name := CloudModel.RDSInstance_Name cloudItem;
     RDSInstance_State := CloudModel.RDSInstance_State cloudItem;
     RDSInstance_Series := CloudModel.RDSInstance_Series cloudItem;
     RDSInstance_Model := CloudModel.RDSInstance_Model cloudItem;
     RDSInstance_VPCLcuuid := CloudModel.RDSInstance_VPCLcuuid cloudItem;
     RDSInstance_RegionLcuuid := CloudModel.RDSInstance_RegionLcuuid cloudItem;
     RDSInstance_AZLcuuid := CloudModel.RDSInstance_AZLcuuid cloudItem |}.

Definition RedisInstance_Update (cloudItem : CloudModel.RedisInstance) (b : RedisInstance) :
    RedisInstance :=
  {| RedisInstance_DiffBase := RedisInstance_DiffBase b;
     RedisInstance_Name := CloudModel.RedisInstance_Name cloudItem;
     RedisInstance_State := CloudModel.RedisInstance_State cloudItem;
     RedisInstance_PublicHost := CloudModel.RedisInstance_PublicHost cloudItem;
     RedisInstance_RegionLcuuid := CloudModel.RedisInstance_RegionLcuuid cloudItem;
     RedisInstance_AZLcuuid := CloudModel.RedisInstance_AZLcuuid cloudItem |}.

Definition PodCluster_Update (cloudItem : CloudModel.PodCluster) (b : PodCluster) : PodCluster :=
  {| PodCluster_DiffBase := PodCluster_DiffBase b;
     PodCluster_Name := CloudModel.PodCluster_Name cloudItem;
     PodCluster_ClusterName := CloudModel.PodCluster_ClusterName cloudItem;
     PodCluster_RegionLcuuid := CloudModel.PodCluster_RegionLcuuid cloudItem;
     PodCluster_AZLcuuid := CloudModel.PodCluster_AZLcuuid cloudItem;
     PodCluster_SubDomainLcuuid := CloudModel.PodCluster_SubDomainLcuuid cloudItem |}.

Definition PodNode_Update (cloudItem : CloudModel.PodNode) (b : PodNode) : PodNode :=
  {| PodNode_DiffBase := PodNode_DiffBase b;
     PodNode_State := CloudModel.PodNode_State cloudItem;
     PodNode_VCPUNum := CloudModel.PodNode_VCPUNum cloudItem;
     PodNode_MemTotal := CloudModel.PodNode_MemTotal cloudItem;
     PodNode_RegionLcuuid := CloudModel.PodNode_RegionLcuuid cloudItem;
     PodNode_AZLcuuid := CloudModel.PodNode_AZLcuuid cloudItem;
     PodNode_SubDomainLcuuid := CloudModel.PodNode_SubDomainLcuuid cloudItem |}.

Definition VMPodNodeConnection_Update (cloudItem : CloudModel.VMPodNodeConnection) (b :
    VMPodNodeConnection) : VMPodNodeConnection :=
  {| VMPodNodeConnection_DiffBase := VMPodNodeConnection_DiffBase b;
     VMPodNodeConnection_SubDomainLcuuid := CloudModel.VMPodNodeConnection_SubDomainLcuuid
         cloudItem |}.

Definition PodNamespace_Update (cloudItem : CloudModel.PodNamespace) (b : PodNamespace) :
    PodNamespace :=
  {| PodNamespace_DiffBase := PodNamespace_DiffBase b;
     PodNamespace_RegionLcuuid := CloudModel.PodNamespace_RegionLcuuid cloudItem;
     PodNamespace_AZLcuuid := CloudModel.PodNamespace_AZLcuuid cloudItem;
     PodNamespace_SubDomainLcuuid := CloudModel.PodNamespace_SubDomainLcuuid cloudItem |}.

Definition PodIngress_Update (cloudItem : CloudModel.PodIngress) (b : PodIngress) : PodIngress :=
  {| PodIngress_DiffBase := PodIngress_DiffBase b;
     PodIngress_Name := CloudModel.PodIngress_Name cloudItem;
     PodIngress_RegionLcuuid := CloudModel.PodIngress_RegionLcuuid cloudItem;
     PodIngress_AZLcuuid := CloudModel.PodIngress_AZLcuuid cloudItem;
     PodIngress_SubDomainLcuuid := CloudModel.PodIngress_SubDomainLcuuid cloudItem |}.

Definition PodIngressRule_Update (cloudItem : CloudModel.PodIngressRule) (b : PodIngressRule) :
    PodIngressRule :=
  {| PodIngressRule_DiffBase := PodIngressRule_DiffBase b;
     PodIngressRule_SubDomainLcuuid := CloudModel.PodIngressRule_SubDomainLcuuid cloudItem |}.

Definition PodIngressRuleBackend_Update (cloudItem : CloudModel.PodIngressRuleBackend) (b :
    PodIngressRuleBackend) : PodIngressRuleBackend :=
  {| PodIngressRuleBackend_DiffBase := PodIngressRuleBackend_DiffBase b;
     PodIngressRuleBackend_SubDomainLcuuid := CloudModel.PodIngressRuleBackend_SubDomainLcuuid
         cloudItem |}.

Definition PodService_Update (cloudItem : CloudModel.PodService) (b : PodService) : PodService :=
  {| PodService_DiffBase := PodService_DiffBase b;
     PodService_Name := CloudModel.PodService_Name cloudItem;
     PodService_Selector := CloudModel.PodService_Selector cloudItem;
     PodService_ServiceClusterIP := CloudModel.PodService_ServiceClusterIP cloudItem;
     PodService_PodIngressLcuuid := CloudModel.PodService_PodIngressLcuuid cloudItem;
     PodService_RegionLcuuid := CloudModel.PodService_RegionLcuuid cloudItem;
     PodService_AZLcuuid := CloudModel.PodService_AZLcuuid cloudItem;
     PodService_SubDomainLcuuid := CloudModel.PodService_SubDomainLcuuid cloudItem |}.

Definition PodServicePort_Update (cloudItem : CloudModel.PodServicePort) (b : PodServicePort) :
    PodServicePort :=
  {| PodServicePort_DiffBase := PodServicePort_DiffBase b;
     PodServicePort_Name := CloudModel.PodServicePort_Name cloudItem;
     PodServicePort_SubDomainLcuuid := CloudModel.PodServicePort_SubDomainLcuuid cloudItem |}.

Definition PodGroup_Update (cloudItem : CloudModel.PodGroup) (b : PodGroup) : PodGroup :=
  {| PodGroup_DiffBase := PodGroup_DiffBase b;
     PodGroup_Name := CloudModel.PodGroup_Name cloudItem;
     PodGroup_Label := CloudModel.PodGroup_Label cloudItem;
     PodGroup_PodNum := CloudModel.PodGroup_PodNum cloudItem;
     PodGroup_Type := CloudModel.PodGroup_Type cloudItem;
     PodGroup_RegionLcuuid := CloudModel.PodGroup_RegionLcuuid cloudItem;
     PodGroup_AZLcuuid := CloudModel.PodGroup_AZLcuuid cloudItem;
     PodGroup_SubDomainLcuuid := CloudModel.PodGroup_SubDomainLcuuid cloudItem |}.

Definition PodGroupPort_Update (cloudItem : CloudModel.PodGroupPort) (b : PodGroupPort) :
    PodGroupPort :=
  {| PodGroupPort_DiffBase := PodGroupPort_DiffBase b;
     PodGroupPort_Name := CloudModel.PodGroupPort_Name cloudItem;
     PodGroupPort_SubDomainLcuuid := CloudModel.PodGroupPort_SubDomainLcuuid cloudItem |}.

Definition PodReplicaSet_Update (cloudItem : CloudModel.PodReplicaSet) (b : PodReplicaSet) :
    PodReplicaSet :=
  {| PodReplicaSet_DiffBase := PodReplicaSet_DiffBase b;
     PodReplicaSet_Name := CloudModel.PodReplicaSet_Name cloudItem;
     PodReplicaSet_Label := CloudModel.PodReplicaSet_Label cloudItem;
     PodReplicaSet_PodNum := CloudModel.PodReplicaSet_PodNum cloudItem;
     PodReplicaSet_RegionLcuuid := CloudModel.PodReplicaSet_RegionLcuuid cloudItem;
     PodReplicaSet_AZLcuuid := CloudModel.PodReplicaSet_AZLcuuid cloudItem;
     PodReplicaSet_SubDomainLcuuid := CloudModel.PodReplicaSet_SubDomainLcuuid cloudItem |}.

Definition Pod_Update (cloudItem : CloudModel.Pod) (b : Pod) : Pod :=
  {| Pod_DiffBase := Pod_DiffBase b;
     Pod_Name := CloudModel.Pod_Name cloudItem;
     Pod_Label := CloudModel.Pod_Label cloudItem;
     Pod_State := CloudModel.Pod_State cloudItem;
     Pod_CreatedAt := CloudModel.Pod_CreatedAt cloudItem;
     Pod_PodNodeLcuuid := CloudModel.Pod_PodNodeLcuuid cloudItem;
     Pod_PodReplicaSetLcuuid := CloudModel.Pod_PodReplicaSetLcuuid cloudItem;
     Pod_VPCLcuuid := CloudModel.Pod_VPCLcuuid cloudItem;
     Pod_RegionLcuuid := CloudModel.Pod_RegionLcuuid cloudItem;
     Pod_AZLcuuid := CloudModel.Pod_AZLcuuid cloudItem;
     Pod_SubDomainLcuuid := CloudModel.Pod_SubDomainLcuuid cloudItem |}.

(** * The diff base of a table *)

Definition Diff (t : Table) : Type :=
  match t with
  | TRegion => Region
  | TAZ => AZ
  | TSubDomain => SubDomain
  | THost => Host
  | TVM => VM
  | TVPC => VPC
  | TNetwork => Network
  | TSubnet => Subnet
  | TVRouter => VRouter
  | TRoutingTable => RoutingTable
  | TDHCPPort => DHCPPort
  | TVInterface => VInterface
  | TWANIP => WANIP
  | TLANIP => LANIP
  | TFloatingIP => FloatingIP
  | TSecurityGroup => SecurityGroup
  | TSecurityGroupRule => SecurityGroupRule
  | TVMSecurityGroup => VMSecurityGroup
  | TNATGateway => NATGateway
  | TNATVMConnection => NATVMConnection
  | TNATRule => NATRule
  | TLB => LB
  | TLBVMConnection => LBVMConnection
  | TLBListener => LBListener
  | TLBTargetServer => LBTargetServer
  | TPeerConnection => PeerConnection
  | TRDSInstance => RDSInstance
  | TRedisInstance => RedisInstance
  | TPodCluster => PodCluster
  | TPodNode => PodNode
  | TVMPodNodeConnection => VMPodNodeConnection
  | TPodNamespace => PodNamespace
  | TPodIngress => PodIngress
  | TPodIngressRule => PodIngressRule
  | TPodIngressRuleBackend => PodIngressRuleBackend
  | TPodService => PodService
  | TPodServicePort => PodServicePort
  | TPodGroup => PodGroup
  | TPodGroupPort => PodGroupPort
  | TPodReplicaSet => PodReplicaSet
  | TPod => Pod
  end.

Definition diff_DiffBase {t : Table} : Diff t -> DiffBase :=
  match t with
  | TRegion => Region_DiffBase
  | TAZ => AZ_DiffBase
  | TSubDomain => SubDomain_DiffBase
  | THost => Host_DiffBase
  | TVM => VM_DiffBase
  | TVPC => VPC_DiffBase
  | TNetwork => Network_DiffBase
  | TSubnet => Subnet_DiffBase
  | TVRouter => VRouter_DiffBase
  | TRoutingTable => RoutingTable_DiffBase
  | TDHCPPort => DHCPPort_DiffBase
  | TVInterface => VInterface_DiffBase
  | TWANIP => WANIP_DiffBase
  | TLANIP => LANIP_DiffBase
  | TFloatingIP => FloatingIP_DiffBase
  | TSecurityGroup => SecurityGroup_DiffBase
  | TSecurityGroupRule => SecurityGroupRule_DiffBase
  | TVMSecurityGroup => VMSecurityGroup_DiffBase
  | TNATGateway => NATGateway_DiffBase
  | TNATVMConnection => NATVMConnection_DiffBase
  | TNATRule => NATRule_DiffBase
  | TLB => LB_DiffBase
  | TLBVMConnection => LBVMConnection_DiffBase
  | TLBListener => LBListener_DiffBase
  | TLBTargetServer => LBTargetServer_DiffBase
  | TPeerConnection => PeerConnection_DiffBase
  | TRDSInstance => RDSInstance_DiffBase
  | TRedisInstance => RedisInstance_DiffBase
  | TPodCluster => PodCluster_DiffBase
  | TPodNode => PodNode_DiffBase
  | TVMPodNodeConnection => VMPodNodeConnection_DiffBase
  | TPodNamespace => PodNamespace_DiffBase
  | TPodIngress => PodIngress_DiffBase
  | TPodIngressRule => PodIngressRule_DiffBase
  | TPodIngressRuleBackend => PodIngressRuleBackend_DiffBase
  | TPodService => PodService_DiffBase
  | TPodServicePort => PodServicePort_DiffBase
  | TPodGroup => PodGroup_DiffBase
  | TPodGroupPort => PodGroupPort_DiffBase
  | TPodReplicaSet => PodReplicaSet_DiffBase
  | TPod => Pod_DiffBase
  end.

Definition diff_set_DiffBase {t : Table} : DiffBase -> Diff t -> Diff t :=
  match t with
  | TRegion => fun d b => mkRegion d (Region_Name b) (Region_Label b)
  | TAZ => fun d b => mkAZ d (AZ_Name b) (AZ_Label b) (AZ_RegionLcuuid b)
  | TSubDomain => fun d b => mkSubDomain d
  | THost => fun d b => mkHost d (Host_Name b) (Host_IP b) (Host_HType b) (Host_VCPUNum b)
      (Host_MemTotal b) (Host_ExtraInfo b) (Host_RegionLcuuid b) (Host_AZLcuuid b)
  | TVM => fun d b => mkVM d (VM_Name b) (VM_Label b) (VM_State b) (VM_HType b) (VM_LaunchServer b)
      (VM_VPCLcuuid b) (VM_RegionLcuuid b) (VM_AZLcuuid b)
  | TVPC => fun d b => mkVPC d (VPC_Name b) (VPC_Label b) (VPC_TunnelID b) (VPC_CIDR b)
      (VPC_RegionLcuuid b)
  | TNetwork => fun d b => mkNetwork d (Network_Name b) (Network_Label b) (Network_TunnelID b)
      (Network_NetType b) (Network_SegmentationID b) (Network_VPCLcuuid b) (Network_RegionLcuuid b)
      (Network_AZLcuuid b) (Network_SubDomainLcuuid b)
  | TSubnet => fun d b => mkSubnet d (Subnet_Name b) (Subnet_Label b) (Subnet_SubDomainLcuuid b)
  | TVRouter => fun d b => mkVRouter d (VRouter_Name b) (VRouter_Label b) (VRouter_VPCLcuuid b)
      (VRouter_RegionLcuuid b)
  | TRoutingTable => fun d b => mkRoutingTable d (RoutingTable_Destination b) (RoutingTable_Nexthop
      b) (RoutingTable_NexthopType b)
  | TDHCPPort => fun d b => mkDHCPPort d (DHCPPort_Name b) (DHCPPort_RegionLcuuid b)
      (DHCPPort_AZLcuuid b)
  | TVInterface => fun d b => mkVInterface d (VInterface_Name b) (VInterface_Type b)
      (VInterface_TapMac b) (VInterface_NetworkLcuuid b) (VInterface_RegionLcuuid b)
      (VInterface_SubDomainLcuuid b)
  | TWANIP => fun d b => mkWANIP d (WANIP_RegionLcuuid b) (WANIP_SubDomainLcuuid b)
  | TLANIP => fun d b => mkLANIP d (LANIP_SubDomainLcuuid b)
  | TFloatingIP => fun d b => mkFloatingIP d (FloatingIP_RegionLcuuid b)
  | TSecurityGroup => fun d b => mkSecurityGroup d (SecurityGroup_Name b) (SecurityGroup_Label b)
      (SecurityGroup_RegionLcuuid b)
  | TSecurityGroupRule => fun d b => mkSecurityGroupRule d (SecurityGroupRule_Priority b)
      (SecurityGroupRule_EtherType b) (SecurityGroupRule_Local b) (SecurityGroupRule_Remote b)
      (SecurityGroupRule_RemotePortRange b)
  | TVMSecurityGroup => fun d b => mkVMSecurityGroup d (VMSecurityGroup_Priority b)
  | TNATGateway => fun d b => mkNATGateway d (NATGateway_Name b) (NATGateway_FloatingIPs b)
      (NATGateway_RegionLcuuid b)
  | TNATVMConnection => fun d b => mkNATVMConnection d
  | TNATRule => fun d b => mkNATRule d
  | TLB => fun d b => mkLB d (LB_Name b) (LB_Model b) (LB_VIP b) (LB_VPCLcuuid b) (LB_RegionLcuuid
      b)
  | TLBVMConnection => fun d b => mkLBVMConnection d
  | TLBListener => fun d b => mkLBListener d (LBListener_Name b) (LBListener_IPs b)
      (LBListener_SNATIPs b) (LBListener_Port b) (LBListener_Protocol b)
  | TLBTargetServer => fun d b => mkLBTargetServer d (LBTargetServer_IP b) (LBTargetServer_Port b)
      (LBTargetServer_Protocol b)
  | TPeerConnection => fun d b => mkPeerConnection d (PeerConnection_Name b)
      (PeerConnection_RemoteRegionLcuuid b) (PeerConnection_LocalRegionLcuuid b)
  | TRDSInstance => fun d b => mkRDSInstance d (RDSInstance_Name b) (RDSInstance_State b)
      (RDSInstance_Series b) (RDSInstance_Model b) (RDSInstance_VPCLcuuid b)
      (RDSInstance_RegionLcuuid b) (RDSInstance_AZLcuuid b)
  | TRedisInstance => fun d b => mkRedisInstance d (RedisInstance_Name b) (RedisInstance_State b)
      (RedisInstance_PublicHost b) (RedisInstance_RegionLcuuid b) (RedisInstance_AZLcuuid b)
  | TPodCluster => fun d b => mkPodCluster d (PodCluster_Name b) (PodCluster_ClusterName b)
      (PodCluster_RegionLcuuid b) (PodCluster_AZLcuuid b) (PodCluster_SubDomainLcuuid b)
  | TPodNode => fun d b => mkPodNode d (PodNode_State b) (PodNode_VCPUNum b) (PodNode_MemTotal b)
      (PodNode_RegionLcuuid b) (PodNode_AZLcuuid b) (PodNode_SubDomainLcuuid b)
  | TVMPodNodeConnection => fun d b => mkVMPodNodeConnection d (VMPodNodeConnection_SubDomainLcuuid
      b)
  | TPodNamespace => fun d b => mkPodNamespace d (PodNamespace_RegionLcuuid b)
      (PodNamespace_AZLcuuid b) (PodNamespace_SubDomainLcuuid b)
  | TPodIngress => fun d b => mkPodIngress d (PodIngress_Name b) (PodIngress_RegionLcuuid b)
      (PodIngress_AZLcuuid b) (PodIngress_SubDomainLcuuid b)
  | TPodIngressRule => fun d b => mkPodIngressRule d (PodIngressRule_SubDomainLcuuid b)
  | TPodIngressRuleBackend => fun d b => mkPodIngressRuleBackend d
      (PodIngressRuleBackend_SubDomainLcuuid b)
  | TPodService => fun d b => mkPodService d (PodService_Name b) (PodService_Selector b)
      (PodService_ServiceClusterIP b) (PodService_PodIngressLcuuid b) (PodService_RegionLcuuid b)
      (PodService_AZLcuuid b) (PodService_SubDomainLcuuid b)
  | TPodServicePort => fun d b => mkPodServicePort d (PodServicePort_Name b)
      (PodServicePort_SubDomainLcuuid b)
  | TPodGroup => fun d b => mkPodGroup d (PodGroup_Name b) (PodGroup_Label b) (PodGroup_PodNum b)
      (PodGroup_Type b) (PodGroup_RegionLcuuid b) (PodGroup_AZLcuuid b) (PodGroup_SubDomainLcuuid b)
  | TPodGroupPort => fun d b => mkPodGroupPort d (PodGroupPort_Name b)
      (PodGroupPort_SubDomainLcuuid b)
  | TPodReplicaSet => fun d b => mkPodReplicaSet d (PodReplicaSet_Name b) (PodReplicaSet_Label b)
      (PodReplicaSet_PodNum b) (PodReplicaSet_RegionLcuuid b) (PodReplicaSet_AZLcuuid b)
      (PodReplicaSet_SubDomainLcuuid b)
  | TPod => fun d b => mkPod d (Pod_Name b) (Pod_Label b) (Pod_State b) (Pod_CreatedAt b)
      (Pod_PodNodeLcuuid b) (Pod_PodReplicaSetLcuuid b) (Pod_VPCLcuuid b) (Pod_RegionLcuuid b)
      (Pod_AZLcuuid b) (Pod_SubDomainLcuuid b)
  end.

Definition GetSequence {t : Table} (b : Diff t) : Z := DiffBase_Sequence (diff_DiffBase b).

Definition SetSequence {t : Table} (sequence : Z) (b : Diff t) : Diff t :=
  diff_set_DiffBase (mkDiffBase sequence (DiffBase_Lcuuid (diff_DiffBase b))) b.

Definition diff_GetLcuuid {t : Table} (b : Diff t) : string := DiffBase_Lcuuid (diff_DiffBase b).
