(* ===== verification/RecorderCache.v ===== *)
(** The cache of the recorder, [controller/recorder/cache]: the diff bases and the maps
    between identifiers that a refresh reads ([tool_map.go]), with the functions that keep
    both in step with the rows that were written ([diff_base.go], [cache.go]).

    MySQL, behind [gorm], is an interface: a state and the queries and statements that the
    recorder sends.  The code runs in a world that has the cache, the state of the database
    and the statements sent so far.

    The maps of the source that are indexed by resource are functions of the table here:
    the field [VPCLcuuidToID] is [LcuuidToID TVPC], [VPCs] of the diff bases is the map of
    [TVPC], and so on. *)
From stdpp Require Import base strings gmap functions.
From S2P Require Import Prelude CloudModel MysqlModel DiffBase.

#[local] Open Scope Z_scope.

(** * The database *)

(** A value in the argument of [Updates]. *)
Inductive Value := VString (s : string) | VInt (n : Z) | VTime (t : Time).

#[global] Instance Value_eq_dec : EqDecision Value.
Proof. solve_decision. Defined.

Definition updateInfo : Type := gmap string Value.

(** A condition of [Where] or [Not] on a column. *)
Inductive Cond :=
| ColEq (column : string) (v : Value)
| ColNull (column : string)
| ColIn (column : string) (vs : list Value)
| ColNot (column : string) (v : Value).

(** The queries and statements of the recorder.  A query that fails gives [None]; a
    statement that fails gives [false].
    - [find_lcuuid], [find_id]: [Where("lcuuid = ?", s)] and [Where("id = ?", n)] with
      [Find], the row when [RowsAffected] is 1;
    - [find_lcuuid_int]: [Where("lcuuid = ?", n)] with an integer;
    - [find_where]: [Where(conditions).Find];
    - [find_unscoped]: [Unscoped().Where("lcuuid IN ?", lcuuids).Find];
    - [find_connections]: the rows of [vm_pod_node_connection] joined with the rows of the
      table that have one of the identifiers;
    - [create], [updates], [delete_in], [delete_row], [delete_unscoped]: [Create],
      [Where("lcuuid = ?", s).Updates], [Where("lcuuid IN ?", lcuuids).Delete],
      [Delete(row)] and [Unscoped().Delete(rows)];
    - [save]: [Save], whose error is not looked at; [find_Domain] and [save_Domain] are
      the row of the domain itself. *)
Class Mysql := {
  dbst : Type;
  find_lcuuid (t : Table) : string -> dbst -> option (Model t) * dbst;
  find_id (t : Table) : Z -> dbst -> option (Model t) * dbst;
  find_lcuuid_int (t : Table) : Z -> dbst -> option (Model t) * dbst;
  find_where (t : Table) : list Cond -> dbst -> option (list (Model t)) * dbst;
  find_unscoped (t : Table) : list string -> dbst -> option (list (Model t)) * dbst;
  find_connections (t : Table) : list string -> dbst -> option (list
      MysqlModel.VMPodNodeConnection) * dbst;
  create (t : Table) : list (Model t) -> dbst -> option (list (Model t)) * dbst;
  updates (t : Table) : string -> updateInfo -> dbst -> bool * dbst;
  delete_in (t : Table) : list string -> dbst -> bool * dbst;
  delete_row (t : Table) : Model t -> dbst -> bool * dbst;
  delete_unscoped (t : Table) : list (Model t) -> dbst -> bool * dbst;
  save (t : Table) : Model t -> dbst -> dbst;
  find_Domain : string -> dbst -> option Domain * dbst;
  save_Domain : Domain -> dbst -> dbst
}.

(** The statements that write. *)
Inductive Statement :=
| SCreate (t : Table) (lcuuids : list string)
| SUpdates (t : Table) (lcuuid : string) (info : updateInfo)
| SDelete (t : Table) (lcuuids : list string)
| SDeleteUnscoped (t : Table) (lcuuids : list string)
| SSave (t : Table) (dbItem : Model t)
| SSaveDomain (domain : Domain).

(** * The data of the cache *)

(** [DiffBaseDataSet]: for each table the diff bases by [lcuuid]. *)
Definition DiffBaseDataSet : Type := forall t : Table, gmap string (Diff t).

Definition NewDiffBaseDataSet : DiffBaseDataSet := fun t => ∅.

(** Changes the map of one table. *)
Definition alter_diffs (t : Table) (f : gmap string (Diff t) -> gmap string (Diff t))
    (b : DiffBaseDataSet) : DiffBaseDataSet := fun t' =>
  match decide (t = t') with
  | left E => eq_rect t (fun t' => gmap string (Diff t')) (f (b t)) t' E
  | right _ => b t'
  end.

(** [ToolDataSet] *)
Record ToolDataSet := mkToolDataSet {
  LcuuidToID : Table -> gmap string Z;
  IDToLcuuid : Table -> gmap Z string;
  PublicNetworkID : Z;
  VInterfaceLcuuidToType : gmap string Z;
  VInterfaceLcuuidToIndex : gmap string Z;
  VInterfaceLcuuidToNetworkID : gmap string Z;
  VInterfaceLcuuidToDeviceType : gmap string Z;
  VInterfaceLcuuidToDeviceID : gmap string Z;
  VinterfaceIndexes : Table -> gmap Z (list Z);
  IPLcuuidToSubnetLcuuid : gmap string string
}.

Definition NewToolDataSet : ToolDataSet :=
  mkToolDataSet (fun _ => ∅) (fun _ => ∅) 0 ∅ ∅ ∅ ∅ ∅ (fun _ => ∅) ∅.

(** [Cache] *)
Record Cache := mkCache {
  Sequence : Z;
  DomainLcuuid : string;
  SubDomainLcuuid : string;
  Cache_DiffBaseDataSet : DiffBaseDataSet;
  Cache_ToolDataSet : ToolDataSet
}.

Definition NewCache (domainLcuuid : string) : Cache :=
  mkCache 0 domainLcuuid "" NewDiffBaseDataSet NewToolDataSet.

Definition SetCacheSequence (sequence : Z) (c : Cache) : Cache :=
  mkCache sequence (DomainLcuuid c) (SubDomainLcuuid c) (Cache_DiffBaseDataSet c)
      (Cache_ToolDataSet c).

(** The diff bases of a table. *)
Definition diffs (t : Table) (c : Cache) : gmap string (Diff t) := Cache_DiffBaseDataSet c t.

Definition set_diffs (t : Table) (f : gmap string (Diff t) -> gmap string (Diff t)) (c : Cache) :
    Cache :=
  mkCache (Sequence c) (DomainLcuuid c) (SubDomainLcuuid c) (alter_diffs t f (Cache_DiffBaseDataSet
      c))
    (Cache_ToolDataSet c).

Definition set_tool (f : ToolDataSet -> ToolDataSet) (c : Cache) : Cache :=
  mkCache (Sequence c) (DomainLcuuid c) (SubDomainLcuuid c) (Cache_DiffBaseDataSet c)
    (f (Cache_ToolDataSet c)).

(** * The world *)

Section Cache.
Context {DB : Mysql}.

Record World := mkWorld { w_cache : Cache; w_db : dbst; w_sent : list Statement }.

Definition M (A : Type) : Type := ST World A.

Definition get_cache : M Cache := w ← get_state; mret (w_cache w).

Definition on_cache (f : Cache -> Cache) : M unit :=
  modify (fun w => mkWorld (f (w_cache w)) (w_db w) (w_sent w)).

(** A query, and a statement. *)
Definition query {A} (q : dbst -> A * dbst) : M A := fun w =>
  let '(a, d) := q (w_db w) in Some (a, mkWorld (w_cache w) d (w_sent w)).

Definition execute {A} (s : Statement) (q : dbst -> A * dbst) : M A := fun w =>
  let '(a, d) := q (w_db w) in Some (a, mkWorld (w_cache w) d (w_sent w ++ [s])).

(** * [tool_map.go] *)

Definition on_LcuuidToID (t : Table) (f : gmap string Z -> gmap string Z) (d : ToolDataSet) :
    ToolDataSet :=
  mkToolDataSet (alter f t (LcuuidToID d)) (IDToLcuuid d) (PublicNetworkID d)
    (VInterfaceLcuuidToType d) (VInterfaceLcuuidToIndex d) (VInterfaceLcuuidToNetworkID d)
    (VInterfaceLcuuidToDeviceType d) (VInterfaceLcuuidToDeviceID d) (VinterfaceIndexes d)
    (IPLcuuidToSubnetLcuuid d).

Definition on_IDToLcuuid (t : Table) (f : gmap Z string -> gmap Z string) (d : ToolDataSet) :
    ToolDataSet :=
  mkToolDataSet (LcuuidToID d) (alter f t (IDToLcuuid d)) (PublicNetworkID d)
    (VInterfaceLcuuidToType d) (VInterfaceLcuuidToIndex d) (VInterfaceLcuuidToNetworkID d)
    (VInterfaceLcuuidToDeviceType d) (VInterfaceLcuuidToDeviceID d) (VinterfaceIndexes d)
    (IPLcuuidToSubnetLcuuid d).

(** The two shapes of [addX]: the identifier to the key, and both ways. *)
Definition add_lcuuid (t : Table) (b : Base) : ToolDataSet -> ToolDataSet :=
  on_LcuuidToID t (<[Lcuuid b := ID b]>).

Definition add_both (t : Table) (b : Base) (d : ToolDataSet) : ToolDataSet :=
  on_IDToLcuuid t (<[ID b := Lcuuid b]>) (add_lcuuid t b d).

(** The table of the devices of a type, [VIF_DEVICE_TYPE_X]. *)
Definition device_table (deviceType : Z) : option Table :=
  if deviceType =? 6 then Some THost
  else if deviceType =? 1 then Some TVM
  else if deviceType =? 5 then Some TVRouter
  else if deviceType =? 9 then Some TDHCPPort
  else if deviceType =? 16 then Some TNATGateway
  else if deviceType =? 15 then Some TLB
  else if deviceType =? 13 then Some TRDSInstance
  else if deviceType =? 12 then Some TRedisInstance
  else if deviceType =? 14 then Some TPodNode
  else if deviceType =? 11 then Some TPodService
  else if deviceType =? 10 then Some TPod
  else None.

Definition tool_addVInterface (item : MysqlModel.VInterface) (d : ToolDataSet) : ToolDataSet :=
  let l := Lcuuid (MysqlModel.VInterface_Base item) in
  let indexes :=
    match device_table (MysqlModel.VInterface_DeviceType item) with
    | Some t =>
        alter (fun m : gmap Z (list Z) =>
                 <[MysqlModel.VInterface_DeviceID item :=
                     default [] (m !! MysqlModel.VInterface_DeviceID item) ++ [ID
                         (MysqlModel.VInterface_Base item)]]> m)
          t (VinterfaceIndexes d)
    | None => VinterfaceIndexes d
    end in
  let d := add_lcuuid TVInterface (MysqlModel.VInterface_Base item) d in
  mkToolDataSet (LcuuidToID d) (IDToLcuuid d) (PublicNetworkID d)
    (<[l := MysqlModel.VInterface_Type item]> (VInterfaceLcuuidToType d))
    (<[l := MysqlModel.VInterface_Index item]> (VInterfaceLcuuidToIndex d))
    (<[l := MysqlModel.VInterface_NetworkID item]> (VInterfaceLcuuidToNetworkID d))
    (<[l := MysqlModel.VInterface_DeviceType item]> (VInterfaceLcuuidToDeviceType d))
    (<[l := MysqlModel.VInterface_DeviceID item]> (VInterfaceLcuuidToDeviceID d))
    indexes (IPLcuuidToSubnetLcuuid d).

Definition tool_addRegion (item : MysqlModel.Region) : ToolDataSet -> ToolDataSet :=
  add_both TRegion (MysqlModel.Region_Base item).

Definition tool_addHost (item : MysqlModel.Host) : ToolDataSet -> ToolDataSet :=
  add_lcuuid THost (MysqlModel.Host_Base item).

Definition tool_addVM (item : MysqlModel.VM) : ToolDataSet -> ToolDataSet :=
  add_lcuuid TVM (MysqlModel.VM_Base item).

Definition tool_addVPC (item : MysqlModel.VPC) : ToolDataSet -> ToolDataSet :=
  add_both TVPC (MysqlModel.VPC_Base item).

Definition tool_addNetwork (item : MysqlModel.Network) : ToolDataSet -> ToolDataSet :=
  add_both TNetwork (MysqlModel.Network_Base item).

Definition tool_addVRouter (item : MysqlModel.VRouter) : ToolDataSet -> ToolDataSet :=
  add_lcuuid TVRouter (MysqlModel.VRouter_Base item).

Definition tool_addDHCPPort (item : MysqlModel.DHCPPort) : ToolDataSet -> ToolDataSet :=
  add_lcuuid TDHCPPort (MysqlModel.DHCPPort_Base item).

Definition tool_addSecurityGroup (item : MysqlModel.SecurityGroup) : ToolDataSet -> ToolDataSet :=
  add_lcuuid TSecurityGroup (MysqlModel.SecurityGroup_Base item).

Definition tool_addNATGateway (item : MysqlModel.NATGateway) : ToolDataSet -> ToolDataSet :=
  add_lcuuid TNATGateway (MysqlModel.NATGateway_Base item).

Definition tool_addLB (item : MysqlModel.LB) : ToolDataSet -> ToolDataSet :=
  add_lcuuid TLB (MysqlModel.LB_Base item).

Definition tool_addLBListener (item : MysqlModel.LBListener) : ToolDataSet -> ToolDataSet :=
  add_lcuuid TLBListener (MysqlModel.LBListener_Base item).

Definition tool_addRDSInstance (item : MysqlModel.RDSInstance) : ToolDataSet -> ToolDataSet :=
  add_lcuuid TRDSInstance (MysqlModel.RDSInstance_Base item).

Definition tool_addRedisInstance (item : MysqlModel.RedisInstance) : ToolDataSet -> ToolDataSet :=
  add_lcuuid TRedisInstance (MysqlModel.RedisInstance_Base item).

Definition tool_addPodCluster (item : MysqlModel.PodCluster) : ToolDataSet -> ToolDataSet :=
  add_lcuuid TPodCluster (MysqlModel.PodCluster_Base item).

Definition tool_addPodNode (item : MysqlModel.PodNode) : ToolDataSet -> ToolDataSet :=
  add_both TPodNode (MysqlModel.PodNode_Base item).

Definition tool_addPodNamespace (item : MysqlModel.PodNamespace) : ToolDataSet -> ToolDataSet :=
  add_lcuuid TPodNamespace (MysqlModel.PodNamespace_Base item).

Definition tool_addPodIngress (item : MysqlModel.PodIngress) : ToolDataSet -> ToolDataSet :=
  add_both TPodIngress (MysqlModel.PodIngress_Base item).

Definition tool_addPodIngressRule (item : MysqlModel.PodIngressRule) : ToolDataSet -> ToolDataSet :=
  add_lcuuid TPodIngressRule (MysqlModel.PodIngressRule_Base item).

Definition tool_addPodService (item : MysqlModel.PodService) : ToolDataSet -> ToolDataSet :=
  add_lcuuid TPodService (MysqlModel.PodService_Base item).

Definition tool_addPodGroup (item : MysqlModel.PodGroup) : ToolDataSet -> ToolDataSet :=
  add_lcuuid TPodGroup (MysqlModel.PodGroup_Base item).

Definition tool_addPodReplicaSet (item : MysqlModel.PodReplicaSet) : ToolDataSet -> ToolDataSet :=
  add_both TPodReplicaSet (MysqlModel.PodReplicaSet_Base item).

Definition tool_addPod (item : MysqlModel.Pod) : ToolDataSet -> ToolDataSet :=
  add_lcuuid TPod (MysqlModel.Pod_Base item).

(** The [addX] of a table; the resources that nothing refers to have none. *)
Definition tool_add {t : Table} : Model t -> ToolDataSet -> ToolDataSet :=
  match t with
  | TRegion => tool_addRegion
  | TAZ => fun _ d => d
  | TSubDomain => fun _ d => d
  | THost => tool_addHost
  | TVM => tool_addVM
  | TVPC => tool_addVPC
  | TNetwork => tool_addNetwork
  | TSubnet => fun _ d => d
  | TVRouter => tool_addVRouter
  | TRoutingTable => fun _ d => d
  | TDHCPPort => tool_addDHCPPort
  | TVInterface => tool_addVInterface
  | TWANIP => fun _ d => d
  | TLANIP => fun _ d => d
  | TFloatingIP => fun _ d => d
  | TSecurityGroup => tool_addSecurityGroup
  | TSecurityGroupRule => fun _ d => d
  | TVMSecurityGroup => fun _ d => d
  | TNATGateway => tool_addNATGateway
  | TNATVMConnection => fun _ d => d
  | TNATRule => fun _ d => d
  | TLB => tool_addLB
  | TLBVMConnection => fun _ d => d
  | TLBListener => tool_addLBListener
  | TLBTargetServer => fun _ d => d
  | TPeerConnection => fun _ d => d
  | TRDSInstance => tool_addRDSInstance
  | TRedisInstance => tool_addRedisInstance
  | TPodCluster => tool_addPodCluster
  | TPodNode => tool_addPodNode
  | TVMPodNodeConnection => fun _ d => d
  | TPodNamespace => tool_addPodNamespace
  | TPodIngress => tool_addPodIngress
  | TPodIngressRule => tool_addPodIngressRule
  | TPodIngressRuleBackend => fun _ d => d
  | TPodService => tool_addPodService
  | TPodServicePort => fun _ d => d
  | TPodGroup => tool_addPodGroup
  | TPodGroupPort => fun _ d => d
  | TPodReplicaSet => tool_addPodReplicaSet
  | TPod => tool_addPod
  end.

(** [PUBLIC_NETWORK_LCUUID] *)
Definition PUBLIC_NETWORK_LCUUID : string := "ffffffff-ffff-ffff-ffff-ffffffffffff".

(** [GetXIDByLcuuid]: the map, else the row of the database, which is then remembered. *)
Definition GetIDByLcuuid (t : Table) (lcuuid : string) : M (option Z) :=
  c ← get_cache;
  match LcuuidToID (Cache_ToolDataSet c) t !! lcuuid with
  | Some id => mret (Some id)
  | None =>
      row ← query (find_lcuuid t lcuuid);
      match row with
      | Some row => on_cache (set_tool (tool_add row)) ;; mret (Some (GetID row))
      | None => mret None
      end
  end.

(** [GetXLcuuidByID], with the query of the source on a miss. *)
Definition GetLcuuidByID (t : Table) (find : Z -> dbst -> option (Model t) * dbst) (id : Z)
    : M (option string) :=
  c ← get_cache;
  match IDToLcuuid (Cache_ToolDataSet c) t !! id with
  | Some lcuuid => mret (Some lcuuid)
  | None =>
      row ← query (find id);
      match row with
      | Some row => on_cache (set_tool (tool_add row)) ;; mret (Some (GetLcuuid row))
      | None => mret None
      end
  end.

Definition GetRegionIDByLcuuid : string -> M (option Z) := GetIDByLcuuid TRegion.

Definition GetRegionLcuuidByID : Z -> M (option string) := GetLcuuidByID TRegion (find_id TRegion).

Definition GetHostIDByLcuuid : string -> M (option Z) := GetIDByLcuuid THost.

Definition GetVMIDByLcuuid : string -> M (option Z) := GetIDByLcuuid TVM.

Definition GetVPCIDByLcuuid : string -> M (option Z) := GetIDByLcuuid TVPC.

Definition GetVPCLcuuidByID : Z -> M (option string) := GetLcuuidByID TVPC (find_lcuuid_int TVPC).

Definition GetVRouterIDByLcuuid : string -> M (option Z) := GetIDByLcuuid TVRouter.

Definition GetDHCPPortIDByLcuuid : string -> M (option Z) := GetIDByLcuuid TDHCPPort.

Definition GetVInterfaceIDByLcuuid : string -> M (option Z) := GetIDByLcuuid TVInterface.

Definition GetSecurityGroupIDByLcuuid : string -> M (option Z) := GetIDByLcuuid TSecurityGroup.

Definition GetNATGatewayIDByLcuuid : string -> M (option Z) := GetIDByLcuuid TNATGateway.

Definition GetLBIDByLcuuid : string -> M (option Z) := GetIDByLcuuid TLB.

Definition GetLBListenerIDByLcuuid : string -> M (option Z) := GetIDByLcuuid TLBListener.

Definition GetRDSInstanceIDByLcuuid : string -> M (option Z) := GetIDByLcuuid TRDSInstance.

Definition GetRedisInstanceIDByLcuuid : string -> M (option Z) := GetIDByLcuuid TRedisInstance.

Definition GetPodClusterIDByLcuuid : string -> M (option Z) := GetIDByLcuuid TPodCluster.

Definition GetPodNodeIDByLcuuid : string -> M (option Z) := GetIDByLcuuid TPodNode.

Definition GetPodNodeLcuuidByID : Z -> M (option string) := GetLcuuidByID TPodNode (find_id
    TPodNode).

Definition GetPodNamespaceIDByLcuuid : string -> M (option Z) := GetIDByLcuuid TPodNamespace.

Definition GetPodIngressIDByLcuuid : string -> M (option Z) := GetIDByLcuuid TPodIngress.

Definition GetPodIngressLcuuidByID : Z -> M (option string) := GetLcuuidByID TPodIngress (find_id
    TPodIngress).

Definition GetPodIngressRuleIDByLcuuid : string -> M (option Z) := GetIDByLcuuid TPodIngressRule.

Definition GetPodServiceIDByLcuuid : string -> M (option Z) := GetIDByLcuuid TPodService.

Definition GetPodGroupIDByLcuuid : string -> M (option Z) := GetIDByLcuuid TPodGroup.

Definition GetPodReplicaSetIDByLcuuid : string -> M (option Z) := GetIDByLcuuid TPodReplicaSet.

Definition GetPodReplicaSetLcuuidByID : Z -> M (option string) := GetLcuuidByID TPodReplicaSet
    (find_id TPodReplicaSet).

Definition GetPodIDByLcuuid : string -> M (option Z) := GetIDByLcuuid TPod.

Definition GetNetworkIDByLcuuid (lcuuid : string) : M (option Z) :=
  if decide (lcuuid = PUBLIC_NETWORK_LCUUID) then
    c ← get_cache; mret (Some (PublicNetworkID (Cache_ToolDataSet c)))
  else GetIDByLcuuid TNetwork lcuuid.

Definition GetNetworkLcuuidByID (id : Z) : M (option string) :=
  c ← get_cache;
  if decide (id = PublicNetworkID (Cache_ToolDataSet c)) then mret (Some PUBLIC_NETWORK_LCUUID)
  else GetLcuuidByID TNetwork (find_lcuuid_int TNetwork) id.

Definition GetNetworkIDByVInterfaceLcuuid (vifLcuuid : string) : M (option Z) :=
  c ← get_cache;
  match VInterfaceLcuuidToNetworkID (Cache_ToolDataSet c) !! vifLcuuid with
  | Some id => mret (Some id)
  | None =>
      vif ← query (find_lcuuid TVInterface vifLcuuid);
      match vif with
      | Some vif =>
          on_cache (set_tool (tool_addVInterface vif)) ;; mret (Some
              (MysqlModel.VInterface_NetworkID vif))
      | None => mret None
      end
  end.

Definition GetDeviceIDByDeviceLcuuid (deviceType : Z) (deviceLcuuid : string) : M (option Z) :=
  match device_table deviceType with
  | Some t => GetIDByLcuuid t deviceLcuuid
  | None => mret None
  end.

(** [deleteX] of the maps: the identifier, and where there is one the key, which is looked
    up first.  [deleteRegion] looks it up after the identifier is gone. *)
Definition tool_delete_lcuuid (t : Table) (lcuuid : string) : M unit :=
  on_cache (set_tool (on_LcuuidToID t (delete lcuuid))).

Definition tool_delete_both (t : Table) (getID : string -> M (option Z)) (lcuuid : string) : M unit
    :=
  id ← getID lcuuid;
  match id with
  | Some id => on_cache (set_tool (on_IDToLcuuid t (delete id)))
  | None => mret tt
  end ;;
  tool_delete_lcuuid t lcuuid.

Definition tool_deleteRegion (lcuuid : string) : M unit :=
  tool_delete_lcuuid TRegion lcuuid ;;
  id ← GetRegionIDByLcuuid lcuuid;
  match id with
  | Some id => on_cache (set_tool (on_IDToLcuuid TRegion (delete id)))
  | None => mret tt
  end.

Definition tool_deleteVInterface (lcuuid : string) : M unit :=
  on_cache (set_tool (fun d =>
    let d := on_LcuuidToID TVInterface (delete lcuuid) d in
    mkToolDataSet (LcuuidToID d) (IDToLcuuid d) (PublicNetworkID d)
      (delete lcuuid (VInterfaceLcuuidToType d)) (delete lcuuid (VInterfaceLcuuidToIndex d))
      (delete lcuuid (VInterfaceLcuuidToNetworkID d)) (delete lcuuid (VInterfaceLcuuidToDeviceType
          d))
      (delete lcuuid (VInterfaceLcuuidToDeviceID d)) (VinterfaceIndexes d) (IPLcuuidToSubnetLcuuid
          d))).

Definition tool_delete (t : Table) : string -> M unit :=
  match t with
  | TRegion => tool_deleteRegion
  | TAZ => fun _ => mret tt
  | TSubDomain => fun _ => mret tt
  | THost => tool_delete_lcuuid THost
  | TVM => tool_delete_lcuuid TVM
  | TVPC => tool_delete_both TVPC GetVPCIDByLcuuid
  | TNetwork => tool_delete_both TNetwork GetNetworkIDByLcuuid
  | TSubnet => fun _ => mret tt
  | TVRouter => tool_delete_lcuuid TVRouter
  | TRoutingTable => fun _ => mret tt
  | TDHCPPort => tool_delete_lcuuid TDHCPPort
  | TVInterface => tool_deleteVInterface
  | TWANIP => fun _ => mret tt
  | TLANIP => fun _ => mret tt
  | TFloatingIP => fun _ => mret tt
  | TSecurityGroup => tool_delete_lcuuid TSecurityGroup
  | TSecurityGroupRule => fun _ => mret tt
  | TVMSecurityGroup => fun _ => mret tt
  | TNATGateway => tool_delete_lcuuid TNATGateway
  | TNATVMConnection => fun _ => mret tt
  | TNATRule => fun _ => mret tt
  | TLB => tool_delete_lcuuid TLB
  | TLBVMConnection => fun _ => mret tt
  | TLBListener => tool_delete_lcuuid TLBListener
  | TLBTargetServer => fun _ => mret tt
  | TPeerConnection => fun _ => mret tt
  | TRDSInstance => tool_delete_lcuuid TRDSInstance
  | TRedisInstance => tool_delete_lcuuid TRedisInstance
  | TPodCluster => tool_delete_lcuuid TPodCluster
  | TPodNode => tool_delete_both TPodNode GetPodNodeIDByLcuuid
  | TVMPodNodeConnection => fun _ => mret tt
  | TPodNamespace => tool_delete_lcuuid TPodNamespace
  | TPodIngress => tool_delete_both TPodIngress GetPodIngressIDByLcuuid
  | TPodIngressRule => tool_delete_lcuuid TPodIngressRule
  | TPodIngressRuleBackend => fun _ => mret tt
  | TPodService => tool_delete_lcuuid TPodService
  | TPodServicePort => fun _ => mret tt
  | TPodGroup => tool_delete_lcuuid TPodGroup
  | TPodGroupPort => fun _ => mret tt
  | TPodReplicaSet => tool_delete_both TPodReplicaSet GetPodReplicaSetIDByLcuuid
  | TPod => tool_delete_lcuuid TPod
  end.

(** * [diff_base.go] *)

Definition put_diff (t : Table) (lcuuid : string) (b : Diff t) : M unit :=
  on_cache (set_diffs t (<[lcuuid := b]>)).

Definition delete_diff (t : Table) (lcuuid : string) : M unit :=
  on_cache (set_diffs t (delete lcuuid)).

Definition addRegion (dbItem : MysqlModel.Region) (seq : Z) : M unit :=
  put_diff TRegion (Lcuuid (MysqlModel.Region_Base dbItem))
    {| DiffBase.Region_DiffBase := mkDiffBase seq (Lcuuid (MysqlModel.Region_Base dbItem));
       DiffBase.Region_Name := MysqlModel.Region_Name dbItem;
       DiffBase.Region_Label := MysqlModel.Region_Label dbItem |}.

Definition addAZ (dbItem : MysqlModel.AZ) (seq : Z) : M unit :=
  put_diff TAZ (Lcuuid (MysqlModel.AZ_Base dbItem))
    {| DiffBase.AZ_DiffBase := mkDiffBase seq (Lcuuid (MysqlModel.AZ_Base dbItem));
       DiffBase.AZ_Name := MysqlModel.AZ_Name dbItem;
       DiffBase.AZ_Label := MysqlModel.AZ_Label dbItem;
       DiffBase.AZ_RegionLcuuid := MysqlModel.AZ_Region dbItem |}.

Definition addSubDomain (dbItem : MysqlModel.SubDomain) (seq : Z) : M unit :=
  put_diff TSubDomain (Lcuuid (MysqlModel.SubDomain_Base dbItem))
    {| DiffBase.SubDomain_DiffBase := mkDiffBase seq (Lcuuid (MysqlModel.SubDomain_Base dbItem)) |}.

Definition addHost (dbItem : MysqlModel.Host) (seq : Z) : M unit :=
  put_diff THost (Lcuuid (MysqlModel.Host_Base dbItem))
    {| DiffBase.Host_DiffBase := mkDiffBase seq (Lcuuid (MysqlModel.Host_Base dbItem));
       DiffBase.Host_Name := MysqlModel.Host_Name dbItem;
       DiffBase.Host_IP := MysqlModel.Host_IP dbItem;
       DiffBase.Host_HType := MysqlModel.Host_HType dbItem;
       DiffBase.Host_VCPUNum := MysqlModel.Host_VCPUNum dbItem;
       DiffBase.Host_MemTotal := MysqlModel.Host_MemTotal dbItem;
       DiffBase.Host_ExtraInfo := MysqlModel.Host_ExtraInfo dbItem;
       DiffBase.Host_RegionLcuuid := MysqlModel.Host_Region dbItem;
       DiffBase.Host_AZLcuuid := MysqlModel.Host_AZ dbItem |}.

Definition addVM (dbItem : MysqlModel.VM) (seq : Z) : M unit :=
  vpcLcuuid ← GetVPCLcuuidByID (MysqlModel.VM_VPCID dbItem);
  put_diff TVM (Lcuuid (MysqlModel.VM_Base dbItem))
    {| DiffBase.VM_DiffBase := mkDiffBase seq (Lcuuid (MysqlModel.VM_Base dbItem));
       DiffBase.VM_Name := MysqlModel.VM_Name dbItem;
       DiffBase.VM_Label := MysqlModel.VM_Label dbItem;
       DiffBase.VM_State := MysqlModel.VM_State dbItem;
       DiffBase.VM_HType := MysqlModel.VM_HType dbItem;
       DiffBase.VM_LaunchServer := MysqlModel.VM_LaunchServer dbItem;
       DiffBase.VM_VPCLcuuid := default "" vpcLcuuid;
       DiffBase.VM_RegionLcuuid := MysqlModel.VM_Region dbItem;
       DiffBase.VM_AZLcuuid := MysqlModel.VM_AZ dbItem |}.

Definition addVPC (dbItem : MysqlModel.VPC) (seq : Z) : M unit :=
  put_diff TVPC (Lcuuid (MysqlModel.VPC_Base dbItem))
    {| DiffBase.VPC_DiffBase := mkDiffBase seq (Lcuuid (MysqlModel.VPC_Base dbItem));
       DiffBase.VPC_Name := MysqlModel.VPC_Name dbItem;
       DiffBase.VPC_Label := MysqlModel.VPC_Label dbItem;
       DiffBase.VPC_TunnelID := MysqlModel.VPC_TunnelID dbItem;
       DiffBase.VPC_CIDR := MysqlModel.VPC_CIDR dbItem;
       DiffBase.VPC_RegionLcuuid := MysqlModel.VPC_Region dbItem |}.

Definition addNetwork (dbItem : MysqlModel.Network) (seq : Z) : M unit :=
  vpcLcuuid ← GetVPCLcuuidByID (MysqlModel.Network_VPCID dbItem);
  put_diff TNetwork (Lcuuid (MysqlModel.Network_Base dbItem))
    {| DiffBase.Network_DiffBase := mkDiffBase seq (Lcuuid (MysqlModel.Network_Base dbItem));
       DiffBase.Network_Name := MysqlModel.Network_Name dbItem;
       DiffBase.Network_Label := MysqlModel.Network_Label dbItem;
       DiffBase.Network_TunnelID := MysqlModel.Network_TunnelID dbItem;
       DiffBase.Network_NetType := MysqlModel.Network_NetType dbItem;
       DiffBase.Network_SegmentationID := MysqlModel.Network_SegmentationID dbItem;
       DiffBase.Network_VPCLcuuid := default "" vpcLcuuid;
       DiffBase.Network_RegionLcuuid := MysqlModel.Network_Region dbItem;
       DiffBase.Network_AZLcuuid := MysqlModel.Network_AZ dbItem;
       DiffBase.Network_SubDomainLcuuid := MysqlModel.Network_SubDomain dbItem |}.

Definition addSubnet (dbItem : MysqlModel.Subnet) (seq : Z) : M unit :=
  put_diff TSubnet (Lcuuid (MysqlModel.Subnet_Base dbItem))
    {| DiffBase.Subnet_DiffBase := mkDiffBase seq (Lcuuid (MysqlModel.Subnet_Base dbItem));
       DiffBase.Subnet_Name := MysqlModel.Subnet_Name dbItem;
       DiffBase.Subnet_Label := MysqlModel.Subnet_Label dbItem;
       DiffBase.Subnet_SubDomainLcuuid := MysqlModel.Subnet_SubDomain dbItem |}.

Definition addVRouter (dbItem : MysqlModel.VRouter) (seq : Z) : M unit :=
  vpcLcuuid ← GetVPCLcuuidByID (MysqlModel.VRouter_VPCID dbItem);
  put_diff TVRouter (Lcuuid (MysqlModel.VRouter_Base dbItem))
    {| DiffBase.VRouter_DiffBase := mkDiffBase seq (Lcuuid (MysqlModel.VRouter_Base dbItem));
       DiffBase.VRouter_Name := MysqlModel.VRouter_Name dbItem;
       DiffBase.VRouter_Label := MysqlModel.VRouter_Label dbItem;
       DiffBase.VRouter_VPCLcuuid := default "" vpcLcuuid;
       DiffBase.VRouter_RegionLcuuid := MysqlModel.VRouter_Region dbItem |}.

Definition addRoutingTable (dbItem : MysqlModel.RoutingTable) (seq : Z) : M unit :=
  put_diff TRoutingTable (Lcuuid (MysqlModel.RoutingTable_Base dbItem))
    {| DiffBase.RoutingTable_DiffBase := mkDiffBase seq (Lcuuid (MysqlModel.RoutingTable_Base
        dbItem));
       DiffBase.RoutingTable_Destination := MysqlModel.RoutingTable_Destination dbItem;
       DiffBase.RoutingTable_Nexthop := MysqlModel.RoutingTable_Nexthop dbItem;
       DiffBase.RoutingTable_NexthopType := MysqlModel.RoutingTable_NexthopType dbItem |}.

Definition addDHCPPort (dbItem : MysqlModel.DHCPPort) (seq : Z) : M unit :=
  put_diff TDHCPPort (Lcuuid (MysqlModel.DHCPPort_Base dbItem))
    {| DiffBase.DHCPPort_DiffBase := mkDiffBase seq (Lcuuid (MysqlModel.DHCPPort_Base dbItem));
       DiffBase.DHCPPort_Name := MysqlModel.DHCPPort_Name dbItem;
       DiffBase.DHCPPort_RegionLcuuid := MysqlModel.DHCPPort_Region dbItem;
       DiffBase.DHCPPort_AZLcuuid := MysqlModel.DHCPPort_AZ dbItem |}.

Definition addVInterface (dbItem : MysqlModel.VInterface) (seq : Z) : M unit :=
  networkLcuuid ← GetNetworkLcuuidByID (MysqlModel.VInterface_NetworkID dbItem);
  put_diff TVInterface (Lcuuid (MysqlModel.VInterface_Base dbItem))
    {| DiffBase.VInterface_DiffBase := mkDiffBase seq (Lcuuid (MysqlModel.VInterface_Base dbItem));
       DiffBase.VInterface_Name := MysqlModel.VInterface_Name dbItem;
       DiffBase.VInterface_Type := MysqlModel.VInterface_Type dbItem;
       DiffBase.VInterface_TapMac := MysqlModel.VInterface_TapMac dbItem;
       DiffBase.VInterface_NetworkLcuuid := default "" networkLcuuid;
       DiffBase.VInterface_RegionLcuuid := MysqlModel.VInterface_Region dbItem;
       DiffBase.VInterface_SubDomainLcuuid := MysqlModel.VInterface_SubDomain dbItem |}.

Definition addWANIP (dbItem : MysqlModel.WANIP) (seq : Z) : M unit :=
  put_diff TWANIP (Lcuuid (MysqlModel.WANIP_Base dbItem))
    {| DiffBase.WANIP_DiffBase := mkDiffBase seq (Lcuuid (MysqlModel.WANIP_Base dbItem));
       DiffBase.WANIP_RegionLcuuid := MysqlModel.WANIP_Region dbItem;
       DiffBase.WANIP_SubDomainLcuuid := MysqlModel.WANIP_SubDomain dbItem |}.

Definition addLANIP (dbItem : MysqlModel.LANIP) (seq : Z) : M unit :=
  put_diff TLANIP (Lcuuid (MysqlModel.LANIP_Base dbItem))
    {| DiffBase.LANIP_DiffBase := mkDiffBase seq (Lcuuid (MysqlModel.LANIP_Base dbItem));
       DiffBase.LANIP_SubDomainLcuuid := MysqlModel.LANIP_SubDomain dbItem |}.

Definition addFloatingIP (dbItem : MysqlModel.FloatingIP) (seq : Z) : M unit :=
  put_diff TFloatingIP (Lcuuid (MysqlModel.FloatingIP_Base dbItem))
    {| DiffBase.FloatingIP_DiffBase := mkDiffBase seq (Lcuuid (MysqlModel.FloatingIP_Base dbItem));
       DiffBase.FloatingIP_RegionLcuuid := MysqlModel.FloatingIP_Region dbItem |}.

Definition addSecurityGroup (dbItem : MysqlModel.SecurityGroup) (seq : Z) : M unit :=
  put_diff TSecurityGroup (Lcuuid (MysqlModel.SecurityGroup_Base dbItem))
    {| DiffBase.SecurityGroup_DiffBase := mkDiffBase seq (Lcuuid (MysqlModel.SecurityGroup_Base
        dbItem));
       DiffBase.SecurityGroup_Name := MysqlModel.SecurityGroup_Name dbItem;
       DiffBase.SecurityGroup_Label := MysqlModel.SecurityGroup_Label dbItem;
       DiffBase.SecurityGroup_RegionLcuuid := MysqlModel.SecurityGroup_Region dbItem |}.

Definition addSecurityGroupRule (dbItem : MysqlModel.SecurityGroupRule) (seq : Z) : M unit :=
  put_diff TSecurityGroupRule (Lcuuid (MysqlModel.SecurityGroupRule_Base dbItem))
    {| DiffBase.SecurityGroupRule_DiffBase := mkDiffBase seq (Lcuuid
        (MysqlModel.SecurityGroupRule_Base dbItem));
       DiffBase.SecurityGroupRule_Priority := MysqlModel.SecurityGroupRule_Priority dbItem;
       DiffBase.SecurityGroupRule_EtherType := MysqlModel.SecurityGroupRule_EtherType dbItem;
       DiffBase.SecurityGroupRule_Local := MysqlModel.SecurityGroupRule_Local dbItem;
       DiffBase.SecurityGroupRule_Remote := MysqlModel.SecurityGroupRule_Remote dbItem;
       DiffBase.SecurityGroupRule_RemotePortRange := MysqlModel.SecurityGroupRule_RemotePortRange
           dbItem |}.

Definition addVMSecurityGroup (dbItem : MysqlModel.VMSecurityGroup) (seq : Z) : M unit :=
  put_diff TVMSecurityGroup (Lcuuid (MysqlModel.VMSecurityGroup_Base dbItem))
    {| DiffBase.VMSecurityGroup_DiffBase := mkDiffBase seq (Lcuuid (MysqlModel.VMSecurityGroup_Base
        dbItem));
       DiffBase.VMSecurityGroup_Priority := MysqlModel.VMSecurityGroup_Priority dbItem |}.

Definition addNATGateway (dbItem : MysqlModel.NATGateway) (seq : Z) : M unit :=
  put_diff TNATGateway (Lcuuid (MysqlModel.NATGateway_Base dbItem))
    {| DiffBase.NATGateway_DiffBase := mkDiffBase seq (Lcuuid (MysqlModel.NATGateway_Base dbItem));
       DiffBase.NATGateway_Name := MysqlModel.NATGateway_Name dbItem;
       DiffBase.NATGateway_FloatingIPs := MysqlModel.NATGateway_FloatingIPs dbItem;
       DiffBase.NATGateway_RegionLcuuid := MysqlModel.NATGateway_Region dbItem |}.

Definition addNATVMConnection (dbItem : MysqlModel.NATVMConnection) (seq : Z) : M unit :=
  put_diff TNATVMConnection (Lcuuid (MysqlModel.NATVMConnection_Base dbItem))
    {| DiffBase.NATVMConnection_DiffBase := mkDiffBase seq (Lcuuid (MysqlModel.NATVMConnection_Base
        dbItem)) |}.

Definition addNATRule (dbItem : MysqlModel.NATRule) (seq : Z) : M unit :=
  put_diff TNATRule (Lcuuid (MysqlModel.NATRule_Base dbItem))
    {| DiffBase.NATRule_DiffBase := mkDiffBase seq (Lcuuid (MysqlModel.NATRule_Base dbItem)) |}.

Definition addLB (dbItem : MysqlModel.LB) (seq : Z) : M unit :=
  put_diff TLB (Lcuuid (MysqlModel.LB_Base dbItem))
    {| DiffBase.LB_DiffBase := mkDiffBase seq (Lcuuid (MysqlModel.LB_Base dbItem));
       DiffBase.LB_Name := MysqlModel.LB_Name dbItem;
       DiffBase.LB_Model := MysqlModel.LB_Model dbItem;
       DiffBase.LB_VIP := MysqlModel.LB_VIP dbItem;
       DiffBase.LB_VPCLcuuid := "";
       DiffBase.LB_RegionLcuuid := MysqlModel.LB_Region dbItem |}.

Definition addLBVMConnection (dbItem : MysqlModel.LBVMConnection) (seq : Z) : M unit :=
  put_diff TLBVMConnection (Lcuuid (MysqlModel.LBVMConnection_Base dbItem))
    {| DiffBase.LBVMConnection_DiffBase := mkDiffBase seq (Lcuuid (MysqlModel.LBVMConnection_Base
        dbItem)) |}.

Definition addLBListener (dbItem : MysqlModel.LBListener) (seq : Z) : M unit :=
  put_diff TLBListener (Lcuuid (MysqlModel.LBListener_Base dbItem))
    {| DiffBase.LBListener_DiffBase := mkDiffBase seq (Lcuuid (MysqlModel.LBListener_Base dbItem));
       DiffBase.LBListener_Name := MysqlModel.LBListener_Name dbItem;
       DiffBase.LBListener_IPs := MysqlModel.LBListener_IPs dbItem;
       DiffBase.LBListener_SNATIPs := MysqlModel.LBListener_SNATIPs dbItem;
       DiffBase.LBListener_Port := MysqlModel.LBListener_Port dbItem;
       DiffBase.LBListener_Protocol := MysqlModel.LBListener_Protocol dbItem |}.

Definition addLBTargetServer (dbItem : MysqlModel.LBTargetServer) (seq : Z) : M unit :=
  put_diff TLBTargetServer (Lcuuid (MysqlModel.LBTargetServer_Base dbItem))
    {| DiffBase.LBTargetServer_DiffBase := mkDiffBase seq (Lcuuid (MysqlModel.LBTargetServer_Base
        dbItem));
       DiffBase.LBTargetServer_IP := MysqlModel.LBTargetServer_IP dbItem;
       DiffBase.LBTargetServer_Port := MysqlModel.LBTargetServer_Port dbItem;
       DiffBase.LBTargetServer_Protocol := MysqlModel.LBTargetServer_Protocol dbItem |}.

Definition addPeerConnection (dbItem : MysqlModel.PeerConnection) (seq : Z) : M unit :=
  remoteRegionLcuuid ← GetRegionLcuuidByID (MysqlModel.PeerConnection_RemoteRegionID dbItem);
  localRegionLcuuid ← GetRegionLcuuidByID (MysqlModel.PeerConnection_LocalRegionID dbItem);
  put_diff TPeerConnection (Lcuuid (MysqlModel.PeerConnection_Base dbItem))
    {| DiffBase.PeerConnection_DiffBase := mkDiffBase seq (Lcuuid (MysqlModel.PeerConnection_Base
        dbItem));
       DiffBase.PeerConnection_Name := MysqlModel.PeerConnection_Name dbItem;
       DiffBase.PeerConnection_RemoteRegionLcuuid := default "" remoteRegionLcuuid;
       DiffBase.PeerConnection_LocalRegionLcuuid := default "" localRegionLcuuid |}.

Definition addRDSInstance (dbItem : MysqlModel.RDSInstance) (seq : Z) : M unit :=
  put_diff TRDSInstance (Lcuuid (MysqlModel.RDSInstance_Base dbItem))
    {| DiffBase.RDSInstance_DiffBase := mkDiffBase seq (Lcuuid (MysqlModel.RDSInstance_Base
        dbItem));
       DiffBase.RDSInstance_Name := MysqlModel.RDSInstance_Name dbItem;
       DiffBase.RDSInstance_State := MysqlModel.RDSInstance_State dbItem;
       DiffBase.RDSInstance_Series := MysqlModel.RDSInstance_Series dbItem;
       DiffBase.RDSInstance_Model := MysqlModel.RDSInstance_Model dbItem;
       DiffBase.RDSInstance_VPCLcuuid := "";
       DiffBase.RDSInstance_RegionLcuuid := MysqlModel.RDSInstance_Region dbItem;
       DiffBase.RDSInstance_AZLcuuid := MysqlModel.RDSInstance_AZ dbItem |}.

Definition addRedisInstance (dbItem : MysqlModel.RedisInstance) (seq : Z) : M unit :=
  put_diff TRedisInstance (Lcuuid (MysqlModel.RedisInstance_Base dbItem))
    {| DiffBase.RedisInstance_DiffBase := mkDiffBase seq (Lcuuid (MysqlModel.RedisInstance_Base
        dbItem));
       DiffBase.RedisInstance_Name := MysqlModel.RedisInstance_Name dbItem;
       DiffBase.RedisInstance_State := MysqlModel.RedisInstance_State dbItem;
       DiffBase.RedisInstance_PublicHost := MysqlModel.RedisInstance_PublicHost dbItem;
       DiffBase.RedisInstance_RegionLcuuid := MysqlModel.RedisInstance_Region dbItem;
       DiffBase.RedisInstance_AZLcuuid := "" |}.

Definition addPodCluster (dbItem : MysqlModel.PodCluster) (seq : Z) : M unit :=
  put_diff TPodCluster (Lcuuid (MysqlModel.PodCluster_Base dbItem))
    {| DiffBase.PodCluster_DiffBase := mkDiffBase seq (Lcuuid (MysqlModel.PodCluster_Base dbItem));
       DiffBase.PodCluster_Name := MysqlModel.PodCluster_Name dbItem;
       DiffBase.PodCluster_ClusterName := MysqlModel.PodCluster_ClusterName dbItem;
       DiffBase.PodCluster_RegionLcuuid := MysqlModel.PodCluster_Region dbItem;
       DiffBase.PodCluster_AZLcuuid := MysqlModel.PodCluster_AZ dbItem;
       DiffBase.PodCluster_SubDomainLcuuid := MysqlModel.PodCluster_SubDomain dbItem |}.

Definition addPodNode (dbItem : MysqlModel.PodNode) (seq : Z) : M unit :=
  put_diff TPodNode (Lcuuid (MysqlModel.PodNode_Base dbItem))
    {| DiffBase.PodNode_DiffBase := mkDiffBase seq (Lcuuid (MysqlModel.PodNode_Base dbItem));
       DiffBase.PodNode_State := MysqlModel.PodNode_State dbItem;
       DiffBase.PodNode_VCPUNum := MysqlModel.PodNode_VCPUNum dbItem;
       DiffBase.PodNode_MemTotal := MysqlModel.PodNode_MemTotal dbItem;
       DiffBase.PodNode_RegionLcuuid := MysqlModel.PodNode_Region dbItem;
       DiffBase.PodNode_AZLcuuid := MysqlModel.PodNode_AZ dbItem;
       DiffBase.PodNode_SubDomainLcuuid := MysqlModel.PodNode_SubDomain dbItem |}.

Definition addVMPodNodeConnection (dbItem : MysqlModel.VMPodNodeConnection) (seq : Z) : M unit :=
  put_diff TVMPodNodeConnection (Lcuuid (MysqlModel.VMPodNodeConnection_Base dbItem))
    {| DiffBase.VMPodNodeConnection_DiffBase := mkDiffBase seq (Lcuuid
        (MysqlModel.VMPodNodeConnection_Base dbItem));
       DiffBase.VMPodNodeConnection_SubDomainLcuuid := MysqlModel.VMPodNodeConnection_SubDomain
           dbItem |}.

Definition addPodNamespace (dbItem : MysqlModel.PodNamespace) (seq : Z) : M unit :=
  put_diff TPodNamespace (Lcuuid (MysqlModel.PodNamespace_Base dbItem))
    {| DiffBase.PodNamespace_DiffBase := mkDiffBase seq (Lcuuid (MysqlModel.PodNamespace_Base
        dbItem));
       DiffBase.PodNamespace_RegionLcuuid := MysqlModel.PodNamespace_Region dbItem;
       DiffBase.PodNamespace_AZLcuuid := MysqlModel.PodNamespace_AZ dbItem;
       DiffBase.PodNamespace_SubDomainLcuuid := MysqlModel.PodNamespace_SubDomain dbItem |}.

Definition addPodIngress (dbItem : MysqlModel.PodIngress) (seq : Z) : M unit :=
  put_diff TPodIngress (Lcuuid (MysqlModel.PodIngress_Base dbItem))
    {| DiffBase.PodIngress_DiffBase := mkDiffBase seq (Lcuuid (MysqlModel.PodIngress_Base dbItem));
       DiffBase.PodIngress_Name := MysqlModel.PodIngress_Name dbItem;
       DiffBase.PodIngress_RegionLcuuid := MysqlModel.PodIngress_Region dbItem;
       DiffBase.PodIngress_AZLcuuid := MysqlModel.PodIngress_AZ dbItem;
       DiffBase.PodIngress_SubDomainLcuuid := MysqlModel.PodIngress_SubDomain dbItem |}.

Definition addPodIngressRule (dbItem : MysqlModel.PodIngressRule) (seq : Z) : M unit :=
  put_diff TPodIngressRule (Lcuuid (MysqlModel.PodIngressRule_Base dbItem))
    {| DiffBase.PodIngressRule_DiffBase := mkDiffBase seq (Lcuuid (MysqlModel.PodIngressRule_Base
        dbItem));
       DiffBase.PodIngressRule_SubDomainLcuuid := MysqlModel.PodIngressRule_SubDomain dbItem |}.

Definition addPodIngressRuleBackend (dbItem : MysqlModel.PodIngressRuleBackend) (seq : Z) : M unit
    :=
  put_diff TPodIngressRuleBackend (Lcuuid (MysqlModel.PodIngressRuleBackend_Base dbItem))
    {| DiffBase.PodIngressRuleBackend_DiffBase := mkDiffBase seq (Lcuuid
        (MysqlModel.PodIngressRuleBackend_Base dbItem));
       DiffBase.PodIngressRuleBackend_SubDomainLcuuid := MysqlModel.PodIngressRuleBackend_SubDomain
           dbItem |}.

Definition addPodService (dbItem : MysqlModel.PodService) (seq : Z) : M unit :=
  c ← get_cache;
  put_diff TPodService (Lcuuid (MysqlModel.PodService_Base dbItem))
    {| DiffBase.PodService_DiffBase := mkDiffBase seq (Lcuuid (MysqlModel.PodService_Base dbItem));
       DiffBase.PodService_Name := MysqlModel.PodService_Name dbItem;
       DiffBase.PodService_Selector := MysqlModel.PodService_Selector dbItem;
       DiffBase.PodService_ServiceClusterIP := MysqlModel.PodService_ServiceClusterIP dbItem;
       DiffBase.PodService_PodIngressLcuuid := default "" (IDToLcuuid (Cache_ToolDataSet c)
           TPodIngress !! MysqlModel.PodService_PodIngressID dbItem);
       DiffBase.PodService_RegionLcuuid := MysqlModel.PodService_Region dbItem;
       DiffBase.PodService_AZLcuuid := MysqlModel.PodService_AZ dbItem;
       DiffBase.PodService_SubDomainLcuuid := MysqlModel.PodService_SubDomain dbItem |}.

Definition addPodServicePort (dbItem : MysqlModel.PodServicePort) (seq : Z) : M unit :=
  put_diff TPodServicePort (Lcuuid (MysqlModel.PodServicePort_Base dbItem))
    {| DiffBase.PodServicePort_DiffBase := mkDiffBase seq (Lcuuid (MysqlModel.PodServicePort_Base
        dbItem));
       DiffBase.PodServicePort_Name := MysqlModel.PodServicePort_Name dbItem;
       DiffBase.PodServicePort_SubDomainLcuuid := MysqlModel.PodServicePort_SubDomain dbItem |}.

Definition addPodGroup (dbItem : MysqlModel.PodGroup) (seq : Z) : M unit :=
  put_diff TPodGroup (Lcuuid (MysqlModel.PodGroup_Base dbItem))
    {| DiffBase.PodGroup_DiffBase := mkDiffBase seq (Lcuuid (MysqlModel.PodGroup_Base dbItem));
       DiffBase.PodGroup_Name := MysqlModel.PodGroup_Name dbItem;
       DiffBase.PodGroup_Label := MysqlModel.PodGroup_Label dbItem;
       DiffBase.PodGroup_PodNum := MysqlModel.PodGroup_PodNum dbItem;
       DiffBase.PodGroup_Type := MysqlModel.PodGroup_Type dbItem;
       DiffBase.PodGroup_RegionLcuuid := MysqlModel.PodGroup_Region dbItem;
       DiffBase.PodGroup_AZLcuuid := MysqlModel.PodGroup_AZ dbItem;
       DiffBase.PodGroup_SubDomainLcuuid := MysqlModel.PodGroup_SubDomain dbItem |}.

Definition addPodGroupPort (dbItem : MysqlModel.PodGroupPort) (seq : Z) : M unit :=
  put_diff TPodGroupPort (Lcuuid (MysqlModel.PodGroupPort_Base dbItem))
    {| DiffBase.PodGroupPort_DiffBase := mkDiffBase seq (Lcuuid (MysqlModel.PodGroupPort_Base
        dbItem));
       DiffBase.PodGroupPort_Name := MysqlModel.PodGroupPort_Name dbItem;
       DiffBase.PodGroupPort_SubDomainLcuuid := MysqlModel.PodGroupPort_SubDomain dbItem |}.

Definition addPodReplicaSet (dbItem : MysqlModel.PodReplicaSet) (seq : Z) : M unit :=
  put_diff TPodReplicaSet (Lcuuid (MysqlModel.PodReplicaSet_Base dbItem))
    {| DiffBase.PodReplicaSet_DiffBase := mkDiffBase seq (Lcuuid (MysqlModel.PodReplicaSet_Base
        dbItem));
       DiffBase.PodReplicaSet_Name := MysqlModel.PodReplicaSet_Name dbItem;
       DiffBase.PodReplicaSet_Label := "";
       DiffBase.PodReplicaSet_PodNum := MysqlModel.PodReplicaSet_PodNum dbItem;
       DiffBase.PodReplicaSet_RegionLcuuid := MysqlModel.PodReplicaSet_Region dbItem;
       DiffBase.PodReplicaSet_AZLcuuid := MysqlModel.PodReplicaSet_AZ dbItem;
       DiffBase.PodReplicaSet_SubDomainLcuuid := MysqlModel.PodReplicaSet_SubDomain dbItem |}.

Definition addPod (dbItem : MysqlModel.Pod) (seq : Z) : M unit :=
  podNodeLcuuid ← GetPodNodeLcuuidByID (MysqlModel.Pod_PodNodeID dbItem);
  podReplicaSetLcuuid ←
    (if decide (MysqlModel.Pod_PodReplicaSetID dbItem ≠ 0)
     then GetPodReplicaSetLcuuidByID (MysqlModel.Pod_PodReplicaSetID dbItem) else mret None);
  vpcLcuuid ← GetVPCLcuuidByID (MysqlModel.Pod_VPCID dbItem);
  put_diff TPod (Lcuuid (MysqlModel.Pod_Base dbItem))
    {| DiffBase.Pod_DiffBase := mkDiffBase seq (Lcuuid (MysqlModel.Pod_Base dbItem));
       DiffBase.Pod_Name := MysqlModel.Pod_Name dbItem;
       DiffBase.Pod_Label := "";
       DiffBase.Pod_State := MysqlModel.Pod_State dbItem;
       DiffBase.Pod_CreatedAt := CreatedAt (SoftDeleteBase_OperatedTime
           (MysqlModel.Pod_SoftDeleteBase dbItem));
       DiffBase.Pod_PodNodeLcuuid := default "" podNodeLcuuid;
       DiffBase.Pod_PodReplicaSetLcuuid := default "" podReplicaSetLcuuid;
       DiffBase.Pod_VPCLcuuid := default "" vpcLcuuid;
       DiffBase.Pod_RegionLcuuid := MysqlModel.Pod_Region dbItem;
       DiffBase.Pod_AZLcuuid := MysqlModel.Pod_AZ dbItem;
       DiffBase.Pod_SubDomainLcuuid := MysqlModel.Pod_SubDomain dbItem |}.

Definition add_diff {t : Table} : Model t -> Z -> M unit :=
  match t with
  | TRegion => addRegion
  | TAZ => addAZ
  | TSubDomain => addSubDomain
  | THost => addHost
  | TVM => addVM
  | TVPC => addVPC
  | TNetwork => addNetwork
  | TSubnet => addSubnet
  | TVRouter => addVRouter
  | TRoutingTable => addRoutingTable
  | TDHCPPort => addDHCPPort
  | TVInterface => addVInterface
  | TWANIP => addWANIP
  | TLANIP => addLANIP
  | TFloatingIP => addFloatingIP
  | TSecurityGroup => addSecurityGroup
  | TSecurityGroupRule => addSecurityGroupRule
  | TVMSecurityGroup => addVMSecurityGroup
  | TNATGateway => addNATGateway
  | TNATVMConnection => addNATVMConnection
  | TNATRule => addNATRule
  | TLB => addLB
  | TLBVMConnection => addLBVMConnection
  | TLBListener => addLBListener
  | TLBTargetServer => addLBTargetServer
  | TPeerConnection => addPeerConnection
  | TRDSInstance => addRDSInstance
  | TRedisInstance => addRedisInstance
  | TPodCluster => addPodCluster
  | TPodNode => addPodNode
  | TVMPodNodeConnection => addVMPodNodeConnection
  | TPodNamespace => addPodNamespace
  | TPodIngress => addPodIngress
  | TPodIngressRule => addPodIngressRule
  | TPodIngressRuleBackend => addPodIngressRuleBackend
  | TPodService => addPodService
  | TPodServicePort => addPodServicePort
  | TPodGroup => addPodGroup
  | TPodGroupPort => addPodGroupPort
  | TPodReplicaSet => addPodReplicaSet
  | TPod => addPod
  end.

(** * [cache.go] *)

(** One round of [AddXs] and of [DeleteXs]. *)
Definition AddItem {t : Table} (item : Model t) : M unit :=
  c ← get_cache;
  add_diff item (Sequence c) ;;
  on_cache (set_tool (tool_add item)).

Definition DeleteItem (t : Table) (lcuuid : string) : M unit :=
  delete_diff t lcuuid ;;
  tool_delete t lcuuid.

Definition AddRegions : list MysqlModel.Region -> M unit := for_each (@AddItem TRegion).

Definition DeleteRegions : list string -> M unit := for_each (DeleteItem TRegion).

Definition AddAZs : list MysqlModel.AZ -> M unit := for_each (@AddItem TAZ).

Definition DeleteAZs : list string -> M unit := for_each (DeleteItem TAZ).

Definition AddSubDomains : list MysqlModel.SubDomain -> M unit := for_each (@AddItem TSubDomain).

Definition DeleteSubDomains : list string -> M unit := for_each (DeleteItem TSubDomain).

Definition AddHosts : list MysqlModel.Host -> M unit := for_each (@AddItem THost).

Definition DeleteHosts : list string -> M unit := for_each (DeleteItem THost).

Definition AddVMs : list MysqlModel.VM -> M unit := for_each (@AddItem TVM).

Definition DeleteVMs : list string -> M unit := for_each (DeleteItem TVM).

Definition AddVPCs : list MysqlModel.VPC -> M unit := for_each (@AddItem TVPC).

Definition DeleteVPCs : list string -> M unit := for_each (DeleteItem TVPC).

Definition AddNetworks : list MysqlModel.Network -> M unit := for_each (@AddItem TNetwork).

Definition DeleteNetworks : list string -> M unit := for_each (DeleteItem TNetwork).

Definition AddSubnets : list MysqlModel.Subnet -> M unit := for_each (@AddItem TSubnet).

Definition DeleteSubnets : list string -> M unit := for_each (DeleteItem TSubnet).

Definition AddVRouters : list MysqlModel.VRouter -> M unit := for_each (@AddItem TVRouter).

Definition DeleteVRouters : list string -> M unit := for_each (DeleteItem TVRouter).

Definition AddRoutingTables : list MysqlModel.RoutingTable -> M unit := for_each (@AddItem
    TRoutingTable).

Definition DeleteRoutingTables : list string -> M unit := for_each (DeleteItem TRoutingTable).

Definition AddDHCPPorts : list MysqlModel.DHCPPort -> M unit := for_each (@AddItem TDHCPPort).

Definition DeleteDHCPPorts : list string -> M unit := for_each (DeleteItem TDHCPPort).

Definition AddVInterfaces : list MysqlModel.VInterface -> M unit := for_each (@AddItem TVInterface).

Definition DeleteVInterfaces : list string -> M unit := for_each (DeleteItem TVInterface).

Definition AddWANIPs : list MysqlModel.WANIP -> M unit := for_each (@AddItem TWANIP).

Definition DeleteWANIPs : list string -> M unit := for_each (DeleteItem TWANIP).

Definition AddLANIPs : list MysqlModel.LANIP -> M unit := for_each (@AddItem TLANIP).

Definition DeleteLANIPs : list string -> M unit := for_each (DeleteItem TLANIP).

Definition AddFloatingIPs : list MysqlModel.FloatingIP -> M unit := for_each (@AddItem TFloatingIP).

Definition DeleteFloatingIPs : list string -> M unit := for_each (DeleteItem TFloatingIP).

Definition AddSecurityGroups : list MysqlModel.SecurityGroup -> M unit := for_each (@AddItem
    TSecurityGroup).

Definition DeleteSecurityGroups : list string -> M unit := for_each (DeleteItem TSecurityGroup).

Definition AddSecurityGroupRules : list MysqlModel.SecurityGroupRule -> M unit := for_each
    (@AddItem TSecurityGroupRule).

Definition DeleteSecurityGroupRules : list string -> M unit := for_each (DeleteItem
    TSecurityGroupRule).

Definition AddVMSecurityGroups : list MysqlModel.VMSecurityGroup -> M unit := for_each (@AddItem
    TVMSecurityGroup).

Definition DeleteVMSecurityGroups : list string -> M unit := for_each (DeleteItem TVMSecurityGroup).

Definition AddNATGateways : list MysqlModel.NATGateway -> M unit := for_each (@AddItem TNATGateway).

Definition DeleteNATGateways : list string -> M unit := for_each (DeleteItem TNATGateway).

Definition AddNATVMConnections : list MysqlModel.NATVMConnection -> M unit := for_each (@AddItem
    TNATVMConnection).

Definition DeleteNATVMConnections : list string -> M unit := for_each (DeleteItem TNATVMConnection).

Definition AddNATRules : list MysqlModel.NATRule -> M unit := for_each (@AddItem TNATRule).

Definition DeleteNATRules : list string -> M unit := for_each (DeleteItem TNATRule).

Definition AddLBs : list MysqlModel.LB -> M unit := for_each (@AddItem TLB).

Definition DeleteLBs : list string -> M unit := for_each (DeleteItem TLB).

Definition AddLBVMConnections : list MysqlModel.LBVMConnection -> M unit := for_each (@AddItem
    TLBVMConnection).

Definition DeleteLBVMConnections : list string -> M unit := for_each (DeleteItem TLBVMConnection).

Definition AddLBListeners : list MysqlModel.LBListener -> M unit := for_each (@AddItem TLBListener).

Definition DeleteLBListeners : list string -> M unit := for_each (DeleteItem TLBListener).

Definition AddLBTargetServers : list MysqlModel.LBTargetServer -> M unit := for_each (@AddItem
    TLBTargetServer).

Definition DeleteLBTargetServers : list string -> M unit := for_each (DeleteItem TLBTargetServer).

Definition AddPeerConnections : list MysqlModel.PeerConnection -> M unit := for_each (@AddItem
    TPeerConnection).

Definition DeletePeerConnections : list string -> M unit := for_each (DeleteItem TPeerConnection).

Definition AddRDSInstances : list MysqlModel.RDSInstance -> M unit := for_each (@AddItem
    TRDSInstance).

Definition DeleteRDSInstances : list string -> M unit := for_each (DeleteItem TRDSInstance).

Definition AddRedisInstances : list MysqlModel.RedisInstance -> M unit := for_each (@AddItem
    TRedisInstance).

Definition DeleteRedisInstances : list string -> M unit := for_each (DeleteItem TRedisInstance).

Definition AddPodClusters : list MysqlModel.PodCluster -> M unit := for_each (@AddItem TPodCluster).

Definition DeletePodClusters : list string -> M unit := for_each (DeleteItem TPodCluster).

Definition AddPodNodes : list MysqlModel.PodNode -> M unit := for_each (@AddItem TPodNode).

Definition DeletePodNodes : list string -> M unit := for_each (DeleteItem TPodNode).

Definition AddVMPodNodeConnections : list MysqlModel.VMPodNodeConnection -> M unit := for_each
    (@AddItem TVMPodNodeConnection).

Definition DeleteVMPodNodeConnections : list string -> M unit := for_each (DeleteItem
    TVMPodNodeConnection).

Definition AddPodNamespaces : list MysqlModel.PodNamespace -> M unit := for_each (@AddItem
    TPodNamespace).

Definition DeletePodNamespaces : list string -> M unit := for_each (DeleteItem TPodNamespace).

Definition AddPodIngresses : list MysqlModel.PodIngress -> M unit := for_each (@AddItem
    TPodIngress).

Definition DeletePodIngresses : list string -> M unit := for_each (DeleteItem TPodIngress).

Definition AddPodIngressRules : list MysqlModel.PodIngressRule -> M unit := for_each (@AddItem
    TPodIngressRule).

Definition DeletePodIngressRules : list string -> M unit := for_each (DeleteItem TPodIngressRule).

Definition AddPodIngressRuleBackends : list MysqlModel.PodIngressRuleBackend -> M unit := for_each
    (@AddItem TPodIngressRuleBackend).

Definition DeletePodIngressRuleBackends : list string -> M unit := for_each (DeleteItem
    TPodIngressRuleBackend).

Definition AddPodServices : list MysqlModel.PodService -> M unit := for_each (@AddItem TPodService).

Definition DeletePodServices : list string -> M unit := for_each (DeleteItem TPodService).

Definition AddPodServicePorts : list MysqlModel.PodServicePort -> M unit := for_each (@AddItem
    TPodServicePort).

Definition DeletePodServicePorts : list string -> M unit := for_each (DeleteItem TPodServicePort).

Definition AddPodGroups : list MysqlModel.PodGroup -> M unit := for_each (@AddItem TPodGroup).

Definition DeletePodGroups : list string -> M unit := for_each (DeleteItem TPodGroup).

Definition AddPodGroupPorts : list MysqlModel.PodGroupPort -> M unit := for_each (@AddItem
    TPodGroupPort).

Definition DeletePodGroupPorts : list string -> M unit := for_each (DeleteItem TPodGroupPort).

Definition AddPodReplicaSets : list MysqlModel.PodReplicaSet -> M unit := for_each (@AddItem
    TPodReplicaSet).

Definition DeletePodReplicaSets : list string -> M unit := for_each (DeleteItem TPodReplicaSet).

Definition AddPods : list MysqlModel.Pod -> M unit := for_each (@AddItem TPod).

Definition DeletePods : list string -> M unit := for_each (DeleteItem TPod).

(** The conditions of the queries that fill the cache: a domain without a sub domain has the
    rows whose [sub_domain] is null. *)
Definition CREATE_METHOD_LEARN : Z := 0.

Definition getConditonDomainCreateMethod (c : Cache) : list Cond :=
  [ColEq "domain" (VString (DomainLcuuid c)); ColEq "create_method" (VInt CREATE_METHOD_LEARN)].

Definition getConditionDomain (c : Cache) : list Cond := [ColEq "domain" (VString (DomainLcuuid
    c))].

Definition getConditionDomainSubDomain (c : Cache) : list Cond :=
  if decide (SubDomainLcuuid c = "") then [ColEq "domain" (VString (DomainLcuuid c)); ColNull
      "sub_domain"]
  else [ColEq "domain" (VString (DomainLcuuid c)); ColEq "sub_domain" (VString (SubDomainLcuuid
      c))].

Definition getConditonDomainSubDomainCreateMethod (c : Cache) : list Cond :=
  getConditionDomainSubDomain c ++ [ColEq "create_method" (VInt CREATE_METHOD_LEARN)].

(** [Find] with the conditions, an error of which leaves the cache as it is, then [AddXs];
    the keys of the rows are the result. *)
Definition refresh_where (t : Table) (conditions : Cache -> list Cond) : M (list Z) :=
  c ← get_cache;
  rows ← query (find_where t (conditions c));
  match rows with
  | None => mret []
  | Some rows => for_each AddItem rows ;; mret (GetID <$> rows)
  end.

Definition refresh (t : Table) (conditions : Cache -> list Cond) : M unit :=
  _ ← refresh_where t conditions; mret tt.

(** [DEFAULT_REGION] *)
Definition DEFAULT_REGION : string := "ffffffff-ffff-ffff-ffff-ffffffffffff".

Definition refreshRegions : M unit :=
  c ← get_cache;
  azs ← query (find_where TAZ (getConditonDomainCreateMethod c));
  match azs with
  | None => mret tt
  | Some azs =>
      let regionLcuuids := filter (fun r => r <> DEFAULT_REGION) (MysqlModel.AZ_Region <$> azs) in
      refresh TRegion (fun _ =>
        [ColEq "create_method" (VInt CREATE_METHOD_LEARN); ColIn "lcuuid" (VString <$>
            regionLcuuids)])
  end.

(** [HOST_TYPE_DFI] is 4. *)
Definition refreshHosts : M unit :=
  refresh THost (fun c => getConditonDomainCreateMethod c ++ [ColNot "type" (VInt 4)]).

Definition refreshNetworks : M (list Z) :=
  c ← get_cache;
  networks ← query (find_where TNetwork (getConditonDomainSubDomainCreateMethod c));
  match networks with
  | None => mret []
  | Some networks =>
  for_each AddItem networks ;;
  let networkIDs := GetID <$> networks in
  publicNetwork ← query (find_lcuuid TNetwork PUBLIC_NETWORK_LCUUID);
  match publicNetwork with
  | None => mret networkIDs
  | Some publicNetwork =>
      on_cache (set_tool (fun d =>
        mkToolDataSet (LcuuidToID d) (IDToLcuuid d) (GetID (t := TNetwork) publicNetwork)
          (VInterfaceLcuuidToType d) (VInterfaceLcuuidToIndex d) (VInterfaceLcuuidToNetworkID d)
          (VInterfaceLcuuidToDeviceType d) (VInterfaceLcuuidToDeviceID d) (VinterfaceIndexes d)
          (IPLcuuidToSubnetLcuuid d))) ;;
      mret networkIDs
  end
  end.

Definition refreshAZs : M unit := refresh TAZ getConditonDomainCreateMethod.

Definition refreshSubDomains : M unit := refresh TSubDomain getConditonDomainCreateMethod.

Definition refreshVMs : M unit := refresh TVM getConditonDomainCreateMethod.

Definition refreshVPCs : M unit := refresh TVPC getConditonDomainCreateMethod.

Definition refreshSubnets (networkIDs : list Z) : M unit :=
  refresh TSubnet (fun _ => [ColIn "vl2id" (VInt <$> networkIDs)]).

Definition refreshVRouters : M (list Z) := refresh_where TVRouter getConditionDomain.

Definition refreshRoutingTables (vrouterIDs : list Z) : M unit :=
  refresh TRoutingTable (fun _ => [ColIn "vnet_id" (VInt <$> vrouterIDs)]).

Definition refreshDHCPPorts : M unit := refresh TDHCPPort getConditionDomain.

Definition refreshVInterfaces : M unit := refresh TVInterface
    getConditonDomainSubDomainCreateMethod.

Definition refreshWANIPs : M unit := refresh TWANIP getConditionDomainSubDomain.

Definition refreshLANIPs : M unit := refresh TLANIP getConditionDomainSubDomain.

Definition refreshFloatingIPs : M unit := refresh TFloatingIP getConditionDomain.

Definition refreshSecurityGroups : M (list Z) := refresh_where TSecurityGroup getConditionDomain.

Definition refreshSecurityGroupRules (securityGroupIDs : list Z) : M unit :=
  refresh TSecurityGroupRule (fun _ => [ColIn "sg_id" (VInt <$> securityGroupIDs)]).

Definition refreshVMSecurityGroups (securityGroupIDs : list Z) : M unit :=
  refresh TVMSecurityGroup (fun _ => [ColIn "sg_id" (VInt <$> securityGroupIDs)]).

Definition refreshNATGateways : M unit := refresh TNATGateway getConditionDomain.

Definition refreshNATVMConnections : M unit := refresh TNATVMConnection getConditionDomain.

Definition refreshNATRules : M unit := refresh TNATRule getConditionDomain.

Definition refreshLBs : M unit := refresh TLB getConditionDomain.

Definition refreshLBVMConnections : M unit := refresh TLBVMConnection getConditionDomain.

Definition refreshLBListeners : M unit := refresh TLBListener getConditionDomain.

Definition refreshLBTargetServers : M unit := refresh TLBTargetServer getConditionDomain.

Definition refreshPeeConnections : M unit := refresh TPeerConnection getConditonDomainCreateMethod.

Definition refreshRDSInstances : M unit := refresh TRDSInstance getConditionDomain.

Definition refreshRedisInstances : M unit := refresh TRedisInstance getConditionDomain.

Definition refreshPodClusters : M unit := refresh TPodCluster getConditionDomainSubDomain.

Definition refreshPodNodes : M unit := refresh TPodNode getConditionDomainSubDomain.

Definition refreshVMPodNodeConnections : M unit := refresh TVMPodNodeConnection
    getConditionDomainSubDomain.

Definition refreshPodNamespaces : M unit := refresh TPodNamespace getConditionDomainSubDomain.

Definition refreshPodIngresses : M (list Z) := refresh_where TPodIngress
    getConditionDomainSubDomain.

Definition refreshPodIngressRules (podIngressIDs : list Z) : M unit :=
  if decide (podIngressIDs = []) then mret tt
  else refresh TPodIngressRule (fun _ => [ColIn "pod_ingress_id" (VInt <$> podIngressIDs)]).

Definition refreshPodIngresseRuleBackends (podIngressIDs : list Z) : M unit :=
  if decide (podIngressIDs = []) then mret tt
  else refresh TPodIngressRuleBackend (fun _ => [ColIn "pod_ingress_id" (VInt <$> podIngressIDs)]).

Definition refreshPodServices : M (list Z) := refresh_where TPodService getConditionDomainSubDomain.

Definition refreshPodServicePorts (podServiceIDs : list Z) : M unit :=
  if decide (podServiceIDs = []) then mret tt
  else refresh TPodServicePort (fun _ => [ColIn "pod_service_id" (VInt <$> podServiceIDs)]).

Definition refreshPodGroups : M unit := refresh TPodGroup getConditionDomainSubDomain.

Definition refreshPodGroupPorts (podServiceIDs : list Z) : M unit :=
  if decide (podServiceIDs = []) then mret tt
  else refresh TPodGroupPort (fun _ => [ColIn "pod_service_id" (VInt <$> podServiceIDs)]).

Definition refreshPodReplicaSets : M unit := refresh TPodReplicaSet getConditionDomainSubDomain.

Definition refreshPods : M unit := refresh TPod getConditionDomainSubDomain.

(** [Cache.Refresh] *)
Definition Cache_Refresh : M unit :=
  on_cache (fun c =>
    mkCache (Sequence c) (DomainLcuuid c) (SubDomainLcuuid c) NewDiffBaseDataSet NewToolDataSet) ;;
  refreshVPCs ;;
  refreshVMs ;;
  c ← get_cache;
  (if decide (SubDomainLcuuid c = "") then
     refreshRegions ;;
     refreshAZs ;;
     refreshSubDomains ;;
     refreshHosts ;;
     vrouterIDs ← refreshVRouters;
     refreshRoutingTables vrouterIDs ;;
     refreshDHCPPorts ;;
     refreshFloatingIPs ;;
     securityGroupIDs ← refreshSecurityGroups;
     refreshSecurityGroupRules securityGroupIDs ;;
     refreshVMSecurityGroups securityGroupIDs ;;
     refreshNATGateways ;;
     refreshNATRules ;;
     refreshNATVMConnections ;;
     refreshLBs ;;
     refreshLBListeners ;;
     refreshLBTargetServers ;;
     refreshLBVMConnections ;;
     refreshPeeConnections ;;
     refreshRDSInstances ;;
     refreshRedisInstances ;;
     mret tt
   else mret tt) ;;
  refreshPodClusters ;;
  refreshPodNodes ;;
  refreshVMPodNodeConnections ;;
  refreshPodNamespaces ;;
  podIngressIDs ← refreshPodIngresses;
  refreshPodIngressRules podIngressIDs ;;
  refreshPodIngresseRuleBackends podIngressIDs ;;
  podServiceIDs ← refreshPodServices;
  refreshPodServicePorts podServiceIDs ;;
  refreshPodGroups ;;
  refreshPodGroupPorts podServiceIDs ;;
  refreshPodReplicaSets ;;
  refreshPods ;;
  networkIDs ← refreshNetworks;
  refreshSubnets networkIDs ;;
  refreshVInterfaces ;;
  refreshWANIPs ;;
  refreshLANIPs.

End Cache.

#[global] Arguments World DB : clear implicits.
