(* ===== verification/Updater.v ===== *)
(** The generic part of a refresh: [controller/recorder/db/operator.go], which writes a
    batch of rows to a table, and [controller/recorder/updater/updater.go], which compares
    the cloud data of one resource with its diff bases and adds, updates and deletes.

    What depends on the resource is the interface [DataGenerator]; the order in which a
    [range] visits a map is [range_map]. *)
From stdpp Require Import base strings gmap.
From S2P Require Import Prelude CloudModel MysqlModel DiffBase RecorderCache.

#[local] Open Scope Z_scope.

(** The order of a [range] over a map is left open by the language. *)
Class GoMap := range_map : forall A : Type, gmap string A -> list (string * A).

#[global] Arguments range_map {_ A} _.

(** [softDelete] of [NewX] in [recorder/db]. *)
Definition softDelete (t : Table) : bool :=
  match t with
  | TRegion => true
  | TAZ => true
  | TSubDomain => false
  | THost => true
  | TVM => true
  | TVPC => true
  | TNetwork => true
  | TSubnet => false
  | TVRouter => true
  | TRoutingTable => false
  | TDHCPPort => true
  | TVInterface => false
  | TWANIP => false
  | TLANIP => false
  | TFloatingIP => false
  | TSecurityGroup => true
  | TSecurityGroupRule => false
  | TVMSecurityGroup => false
  | TNATGateway => true
  | TNATVMConnection => false
  | TNATRule => false
  | TLB => true
  | TLBVMConnection => false
  | TLBListener => true
  | TLBTargetServer => false
  | TPeerConnection => true
  | TRDSInstance => true
  | TRedisInstance => true
  | TPodCluster => true
  | TPodNode => true
  | TVMPodNodeConnection => false
  | TPodNamespace => true
  | TPodIngress => true
  | TPodIngressRule => false
  | TPodIngressRuleBackend => false
  | TPodService => true
  | TPodServicePort => false
  | TPodGroup => true
  | TPodGroupPort => false
  | TPodReplicaSet => true
  | TPod => true
  end.

Section Updater.
Context {DB : Mysql} {GM : GoMap}.

(** * [operator.go] *)

(** [setDBItemID] *)
Definition setDBItemID {t : Table} (id : Z) (dbItem : Model t) : Model t :=
  row_set_Base (SetID (row_Base dbItem) id) dbItem.

(** [lcuuidToDBItem]: the position of the item, the last one of an identifier. *)
Definition lcuuidToDBItem {t : Table} (dbItems : list (Model t)) : gmap string nat :=
  list_to_map (reverse (imap (fun i dbItem => (GetLcuuid dbItem, i)) dbItems)).

(** The identifiers of the rows that are there already go to the new items. *)
Definition reuse_ids {t : Table} (dups dbItems : list (Model t)) : list (Model t) :=
  let index := lcuuidToDBItem dbItems in
  foldl (fun items dup =>
           match index !! GetLcuuid dup with
           | Some i => alter (setDBItemID (GetID dup)) i items
           | None => items
           end) dbItems dups.

(** The items whose identifiers are not there yet, in the order of the map. *)
Definition without_dups {t : Table} (dups dbItems : list (Model t)) : list (Model t) :=
  omap (fun '(lcuuid, i) =>
          if decide (lcuuid ∈ GetLcuuid <$> dups) then None else dbItems !! i)
    (range_map (lcuuidToDBItem dbItems)).

Definition formatDBItemsToAdd {t : Table} (dbItems : list (Model t)) : M (option (list (Model t)))
    :=
  dups ← query (find_unscoped t (GetLcuuid <$> dbItems));
  match dups with
  | None => mret None
  | Some [] => mret (Some dbItems)
  | Some dups =>
      if softDelete t then
        _ ← execute (SDeleteUnscoped t (GetLcuuid <$> dups)) (delete_unscoped t dups);
        mret (Some (reuse_ids dups dbItems))
      else mret (Some (without_dups dups dbItems))
  end.

Definition AddBatch {t : Table} (dbItems : list (Model t)) : M (option (list (Model t))) :=
  dbItemsToAdd ← formatDBItemsToAdd dbItems;
  match dbItemsToAdd with
  | None => mret None
  | Some dbItemsToAdd => execute (SCreate t (GetLcuuid <$> dbItemsToAdd)) (create t dbItemsToAdd)
  end.

Definition Update (t : Table) (lcuuid : string) (info : updateInfo) : M bool :=
  execute (SUpdates t lcuuid info) (updates t lcuuid info).

Definition OperatorBase_DeleteBatch (t : Table) (lcuuids : list string) : M bool :=
  execute (SDelete t lcuuids) (delete_in t lcuuids).

(** [DeleteBatch] of virtual machines and of container nodes: first the connections
    between the two, an error of which is only logged. *)
Definition delete_connection (con : MysqlModel.VMPodNodeConnection) : M unit :=
  _ ← execute (SDelete TVMPodNodeConnection [Lcuuid (MysqlModel.VMPodNodeConnection_Base con)])
        (delete_row TVMPodNodeConnection con);
  mret tt.

Definition connected_DeleteBatch (t : Table) (lcuuids : list string) : M bool :=
  vmPodNodeConns ← query (find_connections t lcuuids);
  match vmPodNodeConns with
  | None => mret false
  | Some vmPodNodeConns =>
      for_each delete_connection vmPodNodeConns ;;
      execute (SDelete t lcuuids) (delete_in t lcuuids)
  end.

Definition VM_DeleteBatch : list string -> M bool := connected_DeleteBatch TVM.

Definition PodNode_DeleteBatch : list string -> M bool := connected_DeleteBatch TPodNode.

Definition DeleteBatch (t : Table) : list string -> M bool :=
  match t with
  | TVM => VM_DeleteBatch
  | TPodNode => PodNode_DeleteBatch
  | _ => OperatorBase_DeleteBatch t
  end.

(** * [updater.go] *)

(** [DataGenerator] and the part of [CacheHandler] that depends on the resource: the key of
    an item of the cloud data in the diff bases, the row to add, the columns to update and
    the diff base after the update. *)
Class DataGenerator (t : Table) (CT : Type) := mkDataGenerator {
  cloud_Lcuuid : CT -> string;
  generateDBItemToAdd : CT -> M (option (Model t));
  generateUpdateInfo : Diff t -> CT -> M (option updateInfo);
  updateCache : CT -> Diff t -> Diff t
}.

(** The bounds of the pages that [add] and [delete] work in, 1000 elements each. *)
Definition offset : Z := 1000.

Definition page_count (count : Z) : Z :=
  if count mod offset =? 0 then count / offset else count / offset + 1.

Definition page {A} (l : list A) (i : Z) : list A :=
  let start := i * offset in
  let end_ := (i + 1) * offset in
  let end_ := if end_ >? zlen l then zlen l else end_ in
  slice l start (end_ - start).

Definition pages {A} (l : list A) : list (list A) :=
  page l <$> seqZ 0 (page_count (zlen l)).

Section Resource.
Context {t : Table} {CT : Type} {DG : DataGenerator t CT}.

Definition addPage (dbItemsToAdd : list (Model t)) : M unit :=
  addedDBItems ← AddBatch dbItemsToAdd;
  match addedDBItems with
  | Some addedDBItems => for_each AddItem addedDBItems
  | None => mret tt
  end.

Definition add (dbItemsToAdd : list (Model t)) : M unit := for_each addPage (pages dbItemsToAdd).

Definition deletePage (lcuuids : list string) : M unit :=
  ok ← DeleteBatch t lcuuids;
  if (ok : bool) then for_each (DeleteItem t) lcuuids else mret tt.

Definition delete_all (lcuuids : list string) : M unit := for_each deletePage (pages lcuuids).

Definition update (cloudItem : CT) (diffBase : Diff t) (info : updateInfo) : M unit :=
  ok ← Update t (diff_GetLcuuid diffBase) info;
  if (ok : bool) then put_diff t (cloud_Lcuuid cloudItem) (updateCache cloudItem diffBase) else
      mret tt.

(** One round of the loop of [HandleAddAndUpdate], with the rows to add so far. *)
Definition handle_item (dbItemsToAdd : list (Model t)) (cloudItem : CT) : M (list (Model t)) :=
  c ← get_cache;
  match diffs t c !! cloud_Lcuuid cloudItem with
  | None =>
      dbItem ← generateDBItemToAdd cloudItem;
      match dbItem with
      | Some dbItem => mret (dbItemsToAdd ++ [dbItem])
      | None => mret dbItemsToAdd
      end
  | Some diffBase =>
      let diffBase := SetSequence (Sequence c) diffBase in
      put_diff t (cloud_Lcuuid cloudItem) diffBase ;;
      info ← generateUpdateInfo diffBase cloudItem;
      match info with
      | Some info => update cloudItem diffBase info
      | None => mret tt
      end ;;
      mret dbItemsToAdd
  end.

Fixpoint handle_items (cloudData : list CT) (dbItemsToAdd : list (Model t)) : M (list (Model t)) :=
  match cloudData with
  | [] => mret dbItemsToAdd
  | cloudItem :: cloudData =>
      dbItemsToAdd ← handle_item dbItemsToAdd cloudItem;
      handle_items cloudData dbItemsToAdd
  end.

Definition HandleAddAndUpdate (cloudData : list CT) : M unit :=
  dbItemsToAdd ← handle_items cloudData [];
  match dbItemsToAdd with
  | [] => mret tt
  | _ => add dbItemsToAdd
  end.

(** The identifiers of the diff bases that this refresh did not see. *)
Definition unseen (c : Cache) : list string :=
  (filter (fun p => GetSequence p.2 <> Sequence c) (range_map (diffs t c))).*1.

Definition HandleDelete : M unit :=
  c ← get_cache;
  match unseen c with
  | [] => mret tt
  | lcuuids => delete_all lcuuids
  end.

End Resource.

End Updater.
