(* ===== verification/UpdaterResources.v ===== *)
(** The resources of the recorder, [controller/recorder/updater]: for each of them the row
    that is added for an item of the cloud data ([generateDBItemToAdd]) and the columns that
    are updated ([generateUpdateInfo]), as instances of [DataGenerator].

    A [nil] result of the source is [None].  [x ←? m; k] is a call whose failure is the
    failure of the caller. *)
From stdpp Require Import base strings gmap.
From S2P Require Import Prelude Strconv CloudModel MysqlModel DiffBase RecorderCache Updater.

#[local] Open Scope Z_scope.

Notation "x ←? m ; k" := (m ≫= fun r => match r with Some x => k | None => mret None end)
  (at level 20, m at level 100, k at level 200, only parsing).

Notation "' x ←? m ; k" := (m ≫= fun r => match r with Some x => k | None => mret None end)
  (at level 20, x pattern, m at level 100, k at level 200, only parsing).

(** What the resources use of the packages [net] and [strings]: [net.ParseIP],
    [net.ParseCIDR] with the address and the mask of the network, [IP.String], where [None]
    is the nil address, and [strings.ToLower]. *)
Class GoText := {
  ParseIP : string -> option (list Z);
  ParseCIDR : string -> option (list Z * list Z);
  IP_String : option (list Z) -> string;
  ToLower : string -> string
}.

(** [recorder/common/util.go] *)
Definition CIDRToPreNetMask `{GoText} (cidr : string) : option (string * string) :=
  ' (ip, mask) ← ParseCIDR cidr;
  Some (IP_String (Some ip), IP_String (Some mask)).

Definition FormatIP `{GoText} (ip : string) : string := IP_String (ParseIP ip).

(** [strings.Contains(s, ":")] *)
Definition Contains_colon (s : string) : bool := negb (without ":" s).

(** [if old != new { updateInfo[column] = new }] *)
Definition put_if {A} `{EqDecision A} (old new : A) (column : string) (V : A -> Value)
    (info : updateInfo) : updateInfo :=
  if decide (old = new) then info else <[column := V new]> info.

Section Resources.
Context {DB : Mysql} {GT : GoText}.

(** The same for the identifier of another resource, which is stored as its key. *)
Definition put_ref (old new : string) (column : string) (get : string -> M (option Z))
    (info : updateInfo) : M (option updateInfo) :=
  if decide (old = new) then mret (Some info)
  else id ←? get new; mret (Some (<[column := VInt id]> info)).

(** * Region *)

Definition Region_generateDBItemToAdd (cloudItem : CloudModel.Region)
    : M (option MysqlModel.Region) :=
  mret (Some
  {| MysqlModel.Region_Base := mkBase 0 (CloudModel.Region_Lcuuid cloudItem);
     MysqlModel.Region_SoftDeleteBase := zero_SoftDeleteBase;
     MysqlModel.Region_Name := CloudModel.Region_Name cloudItem;
     MysqlModel.Region_CreateMethod := 0;
     MysqlModel.Region_Label := CloudModel.Region_Label cloudItem;
     MysqlModel.Region_Longitude := 0;
     MysqlModel.Region_Latitude := 0 |}).

Definition Region_generateUpdateInfo 
    (diffBase : DiffBase.Region) (cloudItem : CloudModel.Region) : M (option updateInfo) :=
  let info : updateInfo := ∅ in
  let info := put_if (DiffBase.Region_Name diffBase) (CloudModel.Region_Name cloudItem) "name"
      VString info in
  let info := put_if (DiffBase.Region_Label diffBase) (CloudModel.Region_Label cloudItem) "label"
      VString info in
  mret (if decide (info = ∅) then None else Some info).

#[global] Instance Region_updater
    : DataGenerator TRegion CloudModel.Region :=
  @mkDataGenerator _ TRegion CloudModel.Region CloudModel.Region_Lcuuid
    Region_generateDBItemToAdd Region_generateUpdateInfo (DiffBase.Region_Update).

(** * AZ *)

Definition AZ_generateDBItemToAdd (cloudItem : CloudModel.AZ)
    : M (option MysqlModel.AZ) :=
  c ← get_cache;
  mret (Some
  {| MysqlModel.AZ_Base := mkBase 0 (CloudModel.AZ_Lcuuid cloudItem);
     MysqlModel.AZ_SoftDeleteBase := zero_SoftDeleteBase;
     MysqlModel.AZ_Name := CloudModel.AZ_Name cloudItem;
     MysqlModel.AZ_CreateMethod := 0;
     MysqlModel.AZ_Label := CloudModel.AZ_Label cloudItem;
     MysqlModel.AZ_Region := CloudModel.AZ_RegionLcuuid cloudItem;
     MysqlModel.AZ_Domain := DomainLcuuid c |}).

Definition AZ_generateUpdateInfo 
    (diffBase : DiffBase.AZ) (cloudItem : CloudModel.AZ) : M (option updateInfo) :=
  let info : updateInfo := ∅ in
  let info := put_if (DiffBase.AZ_Name diffBase) (CloudModel.AZ_Name cloudItem) "name" VString info
      in
  let info := put_if (DiffBase.AZ_Label diffBase) (CloudModel.AZ_Label cloudItem) "label" VString
      info in
  let info := put_if (DiffBase.AZ_RegionLcuuid diffBase) (CloudModel.AZ_RegionLcuuid cloudItem)
      "region" VString info in
  mret (if decide (info = ∅) then None else Some info).

#[global] Instance AZ_updater
    : DataGenerator TAZ CloudModel.AZ :=
  @mkDataGenerator _ TAZ CloudModel.AZ CloudModel.AZ_Lcuuid
    AZ_generateDBItemToAdd AZ_generateUpdateInfo (DiffBase.AZ_Update).

(** * SubDomain *)

Definition SubDomain_generateDBItemToAdd (cloudItem : CloudModel.SubDomain)
    : M (option MysqlModel.SubDomain) :=
  c ← get_cache;
  mret (Some
  {| MysqlModel.SubDomain_Base := mkBase 0 (CloudModel.SubDomain_Lcuuid cloudItem);
     MysqlModel.SubDomain_OperatedTime := zero_OperatedTime;
     MysqlModel.SubDomain_SyncedAt := None;
     MysqlModel.SubDomain_Domain := DomainLcuuid c;
     MysqlModel.SubDomain_Name := CloudModel.SubDomain_Name cloudItem;
     MysqlModel.SubDomain_DisplayName := CloudModel.SubDomain_Name cloudItem;
     MysqlModel.SubDomain_CreateMethod := 0;
     MysqlModel.SubDomain_ClusterID := CloudModel.SubDomain_ClusterID cloudItem;
     MysqlModel.SubDomain_Config := CloudModel.SubDomain_Config cloudItem;
     MysqlModel.SubDomain_ErrorMsg := "";
     MysqlModel.SubDomain_Enabled := 0;
     MysqlModel.SubDomain_State := 0 |}).

Definition SubDomain_generateUpdateInfo 
    (diffBase : DiffBase.SubDomain) (cloudItem : CloudModel.SubDomain) : M (option updateInfo) :=
  mret None.

#[global] Instance SubDomain_updater
    : DataGenerator TSubDomain CloudModel.SubDomain :=
  @mkDataGenerator _ TSubDomain CloudModel.SubDomain CloudModel.SubDomain_Lcuuid
    SubDomain_generateDBItemToAdd SubDomain_generateUpdateInfo (fun _ b => b).

(** * Host *)

Definition Host_generateDBItemToAdd (cloudItem : CloudModel.Host)
    : M (option MysqlModel.Host) :=
  c ← get_cache;
  mret (Some
  {| MysqlModel.Host_Base := mkBase 0 (CloudModel.Host_Lcuuid cloudItem);
     MysqlModel.Host_SoftDeleteBase := zero_SoftDeleteBase;
     MysqlModel.Host_Type := CloudModel.Host_Type cloudItem;
     MysqlModel.Host_State := 2;
     MysqlModel.Host_Name := CloudModel.Host_Name cloudItem;
     MysqlModel.Host_Alias := "";
     MysqlModel.Host_Description := "";
     MysqlModel.Host_IP := CloudModel.Host_IP cloudItem;
     MysqlModel.Host_HType := CloudModel.Host_HType cloudItem;
     MysqlModel.Host_CreateMethod := 0;
     MysqlModel.Host_UserName := "root";
     MysqlModel.Host_UserPasswd := "metaflow";
     MysqlModel.Host_VCPUNum := CloudModel.Host_VCPUNum cloudItem;
     MysqlModel.Host_MemTotal := CloudModel.Host_MemTotal cloudItem;
     MysqlModel.Host_AZ := CloudModel.Host_AZLcuuid cloudItem;
     MysqlModel.Host_Region := CloudModel.Host_RegionLcuuid cloudItem;
     MysqlModel.Host_Domain := DomainLcuuid c;
     MysqlModel.Host_SyncedAt := zero_Time;
     MysqlModel.Host_ExtraInfo := CloudModel.Host_ExtraInfo cloudItem |}).

Definition Host_generateUpdateInfo 
    (diffBase : DiffBase.Host) (cloudItem : CloudModel.Host) : M (option updateInfo) :=
  let info : updateInfo := ∅ in
  let info := put_if (DiffBase.Host_Name diffBase) (CloudModel.Host_Name cloudItem) "name" VString
      info in
  let info := put_if (DiffBase.Host_IP diffBase) (CloudModel.Host_IP cloudItem) "ip" VString info in
  let info := put_if (DiffBase.Host_HType diffBase) (CloudModel.Host_HType cloudItem) "htype" VInt
      info in
  let info := put_if (DiffBase.Host_VCPUNum diffBase) (CloudModel.Host_VCPUNum cloudItem)
      "vcpu_num" VInt info in
  let info := put_if (DiffBase.Host_MemTotal diffBase) (CloudModel.Host_MemTotal cloudItem)
      "mem_total" VInt info in
  let info := put_if (DiffBase.Host_ExtraInfo diffBase) (CloudModel.Host_ExtraInfo cloudItem)
      "extra_info" VString info in
  let info := put_if (DiffBase.Host_RegionLcuuid diffBase) (CloudModel.Host_RegionLcuuid cloudItem)
      "region" VString info in
  let info := put_if (DiffBase.Host_AZLcuuid diffBase) (CloudModel.Host_AZLcuuid cloudItem) "az"
      VString info in
  mret (if decide (info = ∅) then None else Some info).

#[global] Instance Host_updater
    : DataGenerator THost CloudModel.Host :=
  @mkDataGenerator _ THost CloudModel.Host CloudModel.Host_Lcuuid
    Host_generateDBItemToAdd Host_generateUpdateInfo (DiffBase.Host_Update).

(** * VM *)

Definition VM_generateDBItemToAdd (cloudItem : CloudModel.VM)
    : M (option MysqlModel.VM) :=
  c ← get_cache;
  vpcID ←? GetVPCIDByLcuuid (CloudModel.VM_VPCLcuuid cloudItem);
  mret (Some
  {| MysqlModel.VM_Base := mkBase 0 (CloudModel.VM_Lcuuid cloudItem);
     MysqlModel.VM_SoftDeleteBase := if negb (IsZero (CloudModel.VM_CreatedAt cloudItem)) then
         mkSoftDeleteBase (mkOperatedTime (CloudModel.VM_CreatedAt cloudItem) zero_Time) None
       else zero_SoftDeleteBase;
     MysqlModel.VM_State := CloudModel.VM_State cloudItem;
     MysqlModel.VM_Name := CloudModel.VM_Name cloudItem;
     MysqlModel.VM_Alias := "";
     MysqlModel.VM_Label := CloudModel.VM_Label cloudItem;
     MysqlModel.VM_CreateMethod := 0;
     MysqlModel.VM_HType := CloudModel.VM_HType cloudItem;
     MysqlModel.VM_LaunchServer := CloudModel.VM_LaunchServer cloudItem;
     MysqlModel.VM_VPCID := vpcID;
     MysqlModel.VM_Domain := DomainLcuuid c;
     MysqlModel.VM_AZ := CloudModel.VM_AZLcuuid cloudItem;
     MysqlModel.VM_Region := CloudModel.VM_RegionLcuuid cloudItem;
     MysqlModel.VM_UID := CloudModel.VM_Label cloudItem |}).

Definition VM_generateUpdateInfo 
    (diffBase : DiffBase.VM) (cloudItem : CloudModel.VM) : M (option updateInfo) :=
  let info : updateInfo := ∅ in
  info ←? put_ref (DiffBase.VM_VPCLcuuid diffBase) (CloudModel.VM_VPCLcuuid cloudItem) "epc_id"
      GetVPCIDByLcuuid info;
  let info := put_if (DiffBase.VM_Name diffBase) (CloudModel.VM_Name cloudItem) "name" VString info
      in
  let info := put_if (DiffBase.VM_Label diffBase) (CloudModel.VM_Label cloudItem) "label" VString
      info in
  let info := put_if (DiffBase.VM_State diffBase) (CloudModel.VM_State cloudItem) "state" VInt info
      in
  let info := put_if (DiffBase.VM_HType diffBase) (CloudModel.VM_HType cloudItem) "htype" VInt info
      in
  let info := put_if (DiffBase.VM_LaunchServer diffBase) (CloudModel.VM_LaunchServer cloudItem)
      "launch_server" VString info in
  let info := put_if (DiffBase.VM_RegionLcuuid diffBase) (CloudModel.VM_RegionLcuuid cloudItem)
      "region" VString info in
  let info := put_if (DiffBase.VM_AZLcuuid diffBase) (CloudModel.VM_AZLcuuid cloudItem) "az"
      VString info in
  mret (if decide (info = ∅) then None else Some info).

#[global] Instance VM_updater
    : DataGenerator TVM CloudModel.VM :=
  @mkDataGenerator _ TVM CloudModel.VM CloudModel.VM_Lcuuid
    VM_generateDBItemToAdd VM_generateUpdateInfo (DiffBase.VM_Update).

(** * VPC *)

Definition VPC_generateDBItemToAdd (cloudItem : CloudModel.VPC)
    : M (option MysqlModel.VPC) :=
  c ← get_cache;
  mret (Some
  {| MysqlModel.VPC_Base := mkBase 0 (CloudModel.VPC_Lcuuid cloudItem);
     MysqlModel.VPC_SoftDeleteBase := zero_SoftDeleteBase;
     MysqlModel.VPC_Name := CloudModel.VPC_Name cloudItem;
     MysqlModel.VPC_CreateMethod := 0;
     MysqlModel.VPC_Label := CloudModel.VPC_Label cloudItem;
     MysqlModel.VPC_Alias := "";
     MysqlModel.VPC_Domain := DomainLcuuid c;
     MysqlModel.VPC_Region := CloudModel.VPC_RegionLcuuid cloudItem;
     MysqlModel.VPC_AZ := "";
     MysqlModel.VPC_TunnelID := 0;
     MysqlModel.VPC_Mode := 0;
     MysqlModel.VPC_CIDR := "";
     MysqlModel.VPC_UID := CloudModel.VPC_Label cloudItem |}).

Definition VPC_generateUpdateInfo 
    (diffBase : DiffBase.VPC) (cloudItem : CloudModel.VPC) : M (option updateInfo) :=
  let info : updateInfo := ∅ in
  let info := put_if (DiffBase.VPC_Name diffBase) (CloudModel.VPC_Name cloudItem) "name" VString
      info in
  let info := put_if (DiffBase.VPC_Label diffBase) (CloudModel.VPC_Label cloudItem) "label" VString
      info in
  let info := put_if (DiffBase.VPC_RegionLcuuid diffBase) (CloudModel.VPC_RegionLcuuid cloudItem)
      "region" VString info in
  let info := put_if (DiffBase.VPC_CIDR diffBase) (CloudModel.VPC_CIDR cloudItem) "cidr" VString
      info in
  let info := put_if (DiffBase.VPC_TunnelID diffBase) (CloudModel.VPC_TunnelID cloudItem)
      "tunnel_id" VInt info in
  mret (if decide (info = ∅) then None else Some info).

#[global] Instance VPC_updater
    : DataGenerator TVPC CloudModel.VPC :=
  @mkDataGenerator _ TVPC CloudModel.VPC CloudModel.VPC_Lcuuid
    VPC_generateDBItemToAdd VPC_generateUpdateInfo (DiffBase.VPC_Update).

(** * Network *)

Definition Network_generateDBItemToAdd (cloudItem : CloudModel.Network)
    : M (option MysqlModel.Network) :=
  c ← get_cache;
  vpcID ←? GetVPCIDByLcuuid (CloudModel.Network_VPCLcuuid cloudItem);
  mret (Some
  {| MysqlModel.Network_Base := mkBase 0 (CloudModel.Network_Lcuuid cloudItem);
     MysqlModel.Network_SoftDeleteBase := zero_SoftDeleteBase;
     MysqlModel.Network_State := 2;
     MysqlModel.Network_NetType := CloudModel.Network_NetType cloudItem;
     MysqlModel.Network_Name := CloudModel.Network_Name cloudItem;
     MysqlModel.Network_CreateMethod := 0;
     MysqlModel.Network_Label := CloudModel.Network_Label cloudItem;
     MysqlModel.Network_Alias := "";
     MysqlModel.Network_Description := "";
     MysqlModel.Network_SubDomain := CloudModel.Network_SubDomainLcuuid cloudItem;
     MysqlModel.Network_Domain := DomainLcuuid c;
     MysqlModel.Network_Region := CloudModel.Network_RegionLcuuid cloudItem;
     MysqlModel.Network_AZ := CloudModel.Network_AZLcuuid cloudItem;
     MysqlModel.Network_ISP := 0;
     MysqlModel.Network_VPCID := vpcID;
     MysqlModel.Network_SegmentationID := CloudModel.Network_SegmentationID cloudItem;
     MysqlModel.Network_TunnelID := CloudModel.Network_TunnelID cloudItem;
     MysqlModel.Network_Shared := CloudModel.Network_Shared cloudItem;
     MysqlModel.Network_Topped := 0;
     MysqlModel.Network_IsVIP := 0 |}).

Definition Network_generateUpdateInfo 
    (diffBase : DiffBase.Network) (cloudItem : CloudModel.Network) : M (option updateInfo) :=
  let info : updateInfo := ∅ in
  info ←? put_ref (DiffBase.Network_VPCLcuuid diffBase) (CloudModel.Network_VPCLcuuid cloudItem)
      "epc_id" GetVPCIDByLcuuid info;
  let info := put_if (DiffBase.Network_Name diffBase) (CloudModel.Network_Name cloudItem) "name"
      VString info in
  let info := put_if (DiffBase.Network_Label diffBase) (CloudModel.Network_Label cloudItem) "label"
      VString info in
  let info := put_if (DiffBase.Network_TunnelID diffBase) (CloudModel.Network_TunnelID cloudItem)
      "tunnel_id" VInt info in
  let info := put_if (DiffBase.Network_SegmentationID diffBase) (CloudModel.Network_SegmentationID
      cloudItem) "segmentation_id" VInt info in
  let info := put_if (DiffBase.Network_NetType diffBase) (CloudModel.Network_NetType cloudItem)
      "net_type" VInt info in
  let info := put_if (DiffBase.Network_RegionLcuuid diffBase) (CloudModel.Network_RegionLcuuid
      cloudItem) "region" VString info in
  let info := put_if (DiffBase.Network_AZLcuuid diffBase) (CloudModel.Network_AZLcuuid cloudItem)
      "az" VString info in
  mret (if decide (info = ∅) then None else Some info).

#[global] Instance Network_updater
    : DataGenerator TNetwork CloudModel.Network :=
  @mkDataGenerator _ TNetwork CloudModel.Network CloudModel.Network_Lcuuid
    Network_generateDBItemToAdd Network_generateUpdateInfo (DiffBase.Network_Update).

(** * Subnet *)

Definition Subnet_generateDBItemToAdd (cloudItem : CloudModel.Subnet)
    : M (option MysqlModel.Subnet) :=
  c ← get_cache;
  networkID ←? GetNetworkIDByLcuuid (CloudModel.Subnet_NetworkLcuuid cloudItem);
  ' (prefix, netmask) ←? mret (CIDRToPreNetMask (CloudModel.Subnet_CIDR cloudItem));
  mret (Some
  {| MysqlModel.Subnet_Base := mkBase 0 (CloudModel.Subnet_Lcuuid cloudItem);
     MysqlModel.Subnet_Prefix := prefix;
     MysqlModel.Subnet_Netmask := netmask;
     MysqlModel.Subnet_NetworkID := networkID;
     MysqlModel.Subnet_NetIndex := 0;
     MysqlModel.Subnet_Name := CloudModel.Subnet_Name cloudItem;
     MysqlModel.Subnet_Label := CloudModel.Subnet_Label cloudItem;
     MysqlModel.Subnet_SubDomain := CloudModel.Subnet_SubDomainLcuuid cloudItem |}).

Definition Subnet_generateUpdateInfo 
    (diffBase : DiffBase.Subnet) (cloudItem : CloudModel.Subnet) : M (option updateInfo) :=
  let info : updateInfo := ∅ in
  let info := put_if (DiffBase.Subnet_Name diffBase) (CloudModel.Subnet_Name cloudItem) "name"
      VString info in
  let info := put_if (DiffBase.Subnet_Label diffBase) (CloudModel.Subnet_Label cloudItem) "label"
      VString info in
  mret (if decide (info = ∅) then None else Some info).

#[global] Instance Subnet_updater
    : DataGenerator TSubnet CloudModel.Subnet :=
  @mkDataGenerator _ TSubnet CloudModel.Subnet CloudModel.Subnet_Lcuuid
    Subnet_generateDBItemToAdd Subnet_generateUpdateInfo (DiffBase.Subnet_Update).

(** * VRouter *)

Definition VRouter_generateDBItemToAdd (cloudItem : CloudModel.VRouter)
    : M (option MysqlModel.VRouter) :=
  c ← get_cache;
  vpcID ←? GetVPCIDByLcuuid (CloudModel.VRouter_VPCLcuuid cloudItem);
  mret (Some
  {| MysqlModel.VRouter_Base := mkBase 0 (CloudModel.VRouter_Lcuuid cloudItem);
     MysqlModel.VRouter_SoftDeleteBase := zero_SoftDeleteBase;
     MysqlModel.VRouter_State := 7;
     MysqlModel.VRouter_Name := CloudModel.VRouter_Name cloudItem;
     MysqlModel.VRouter_Label := CloudModel.VRouter_Label cloudItem;
     MysqlModel.VRouter_Description := "";
     MysqlModel.VRouter_VPCID := vpcID;
     MysqlModel.VRouter_GWLaunchServer := CloudModel.VRouter_GWLaunchServer cloudItem;
     MysqlModel.VRouter_Domain := DomainLcuuid c;
     MysqlModel.VRouter_Region := CloudModel.VRouter_RegionLcuuid cloudItem;
     MysqlModel.VRouter_AZ := "" |}).

Definition VRouter_generateUpdateInfo 
    (diffBase : DiffBase.VRouter) (cloudItem : CloudModel.VRouter) : M (option updateInfo) :=
  let info : updateInfo := ∅ in
  info ←? put_ref (DiffBase.VRouter_VPCLcuuid diffBase) (CloudModel.VRouter_VPCLcuuid cloudItem)
      "epc_id" GetVPCIDByLcuuid info;
  let info := put_if (DiffBase.VRouter_Name diffBase) (CloudModel.VRouter_Name cloudItem) "name"
      VString info in
  let info := put_if (DiffBase.VRouter_Label diffBase) (CloudModel.VRouter_Label cloudItem) "label"
      VString info in
  let info := put_if (DiffBase.VRouter_RegionLcuuid diffBase) (CloudModel.VRouter_RegionLcuuid
      cloudItem) "region" VString info in
  mret (if decide (info = ∅) then None else Some info).

#[global] Instance VRouter_updater
    : DataGenerator TVRouter CloudModel.VRouter :=
  @mkDataGenerator _ TVRouter CloudModel.VRouter CloudModel.VRouter_Lcuuid
    VRouter_generateDBItemToAdd VRouter_generateUpdateInfo (DiffBase.VRouter_Update).

(** * RoutingTable *)

Definition RoutingTable_generateDBItemToAdd (cloudItem : CloudModel.RoutingTable)
    : M (option MysqlModel.RoutingTable) :=
  vrouterID ←? GetVRouterIDByLcuuid (CloudModel.RoutingTable_VRouterLcuuid cloudItem);
  mret (Some
  {| MysqlModel.RoutingTable_Base := mkBase 0 (CloudModel.RoutingTable_Lcuuid cloudItem);
     MysqlModel.RoutingTable_VRouterID := vrouterID;
     MysqlModel.RoutingTable_Destination := CloudModel.RoutingTable_Destination cloudItem;
     MysqlModel.RoutingTable_NexthopType := CloudModel.RoutingTable_NexthopType cloudItem;
     MysqlModel.RoutingTable_Nexthop := CloudModel.RoutingTable_Nexthop cloudItem |}).

Definition RoutingTable_generateUpdateInfo 
    (diffBase : DiffBase.RoutingTable) (cloudItem : CloudModel.RoutingTable) : M (option
        updateInfo) :=
  let info : updateInfo := ∅ in
  let info := put_if (DiffBase.RoutingTable_Destination diffBase)
      (CloudModel.RoutingTable_Destination cloudItem) "destination" VString info in
  let info := put_if (DiffBase.RoutingTable_NexthopType diffBase)
      (CloudModel.RoutingTable_NexthopType cloudItem) "nexthop_type" VString info in
  let info := put_if (DiffBase.RoutingTable_Nexthop diffBase) (CloudModel.RoutingTable_Nexthop
      cloudItem) "nexthop" VString info in
  mret (if decide (info = ∅) then None else Some info).

#[global] Instance RoutingTable_updater
    : DataGenerator TRoutingTable CloudModel.RoutingTable :=
  @mkDataGenerator _ TRoutingTable CloudModel.RoutingTable CloudModel.RoutingTable_Lcuuid
    RoutingTable_generateDBItemToAdd RoutingTable_generateUpdateInfo (DiffBase.RoutingTable_Update).

(** * DHCPPort *)

Definition DHCPPort_generateDBItemToAdd (cloudItem : CloudModel.DHCPPort)
    : M (option MysqlModel.DHCPPort) :=
  c ← get_cache;
  vpcID ←? GetVPCIDByLcuuid (CloudModel.DHCPPort_VPCLcuuid cloudItem);
  mret (Some
  {| MysqlModel.DHCPPort_Base := mkBase 0 (CloudModel.DHCPPort_Lcuuid cloudItem);
     MysqlModel.DHCPPort_SoftDeleteBase := zero_SoftDeleteBase;
     MysqlModel.DHCPPort_Name := CloudModel.DHCPPort_Name cloudItem;
     MysqlModel.DHCPPort_Domain := DomainLcuuid c;
     MysqlModel.DHCPPort_Region := CloudModel.DHCPPort_RegionLcuuid cloudItem;
     MysqlModel.DHCPPort_AZ := CloudModel.DHCPPort_AZLcuuid cloudItem;
     MysqlModel.DHCPPort_VPCID := vpcID |}).

Definition DHCPPort_generateUpdateInfo 
    (diffBase : DiffBase.DHCPPort) (cloudItem : CloudModel.DHCPPort) : M (option updateInfo) :=
  let info : updateInfo := ∅ in
  let info := put_if (DiffBase.DHCPPort_Name diffBase) (CloudModel.DHCPPort_Name cloudItem) "name"
      VString info in
  let info := put_if (DiffBase.DHCPPort_RegionLcuuid diffBase) (CloudModel.DHCPPort_RegionLcuuid
      cloudItem) "region" VString info in
  let info := put_if (DiffBase.DHCPPort_AZLcuuid diffBase) (CloudModel.DHCPPort_AZLcuuid cloudItem)
      "az" VString info in
  mret (if decide (info = ∅) then None else Some info).

#[global] Instance DHCPPort_updater
    : DataGenerator TDHCPPort CloudModel.DHCPPort :=
  @mkDataGenerator _ TDHCPPort CloudModel.DHCPPort CloudModel.DHCPPort_Lcuuid
    DHCPPort_generateDBItemToAdd DHCPPort_generateUpdateInfo (DiffBase.DHCPPort_Update).

(** * VInterface *)

Definition VInterface_generateDBItemToAdd (cloudItem : CloudModel.VInterface)
    : M (option MysqlModel.VInterface) :=
  c ← get_cache;
  networkID ←? GetNetworkIDByLcuuid (CloudModel.VInterface_NetworkLcuuid cloudItem);
  deviceID ←? GetDeviceIDByDeviceLcuuid (CloudModel.VInterface_DeviceType cloudItem)
      (CloudModel.VInterface_DeviceLcuuid cloudItem);
  mret (Some
  {| MysqlModel.VInterface_Base := mkBase 0 (CloudModel.VInterface_Lcuuid cloudItem);
     MysqlModel.VInterface_Name := CloudModel.VInterface_Name cloudItem;
     MysqlModel.VInterface_Index := 0;
     MysqlModel.VInterface_State := 1;
     MysqlModel.VInterface_CreateMethod := 0;
     MysqlModel.VInterface_Type := CloudModel.VInterface_Type cloudItem;
     MysqlModel.VInterface_Mac := ToLower (CloudModel.VInterface_Mac cloudItem);
     MysqlModel.VInterface_TapMac := ToLower (CloudModel.VInterface_TapMac cloudItem);
     MysqlModel.VInterface_NetworkID := networkID;
     MysqlModel.VInterface_VlanTag := 0;
     MysqlModel.VInterface_DeviceType := CloudModel.VInterface_DeviceType cloudItem;
     MysqlModel.VInterface_DeviceID := deviceID;
     MysqlModel.VInterface_SubDomain := CloudModel.VInterface_SubDomainLcuuid cloudItem;
     MysqlModel.VInterface_Domain := DomainLcuuid c;
     MysqlModel.VInterface_Region := CloudModel.VInterface_RegionLcuuid cloudItem |}).

Definition VInterface_generateUpdateInfo 
    (diffBase : DiffBase.VInterface) (cloudItem : CloudModel.VInterface) : M (option updateInfo) :=
  let info : updateInfo := ∅ in
  info ←? put_ref (DiffBase.VInterface_NetworkLcuuid diffBase) (CloudModel.VInterface_NetworkLcuuid
      cloudItem) "subnetid" GetNetworkIDByLcuuid info;
  let info := put_if (DiffBase.VInterface_Name diffBase) (CloudModel.VInterface_Name cloudItem)
      "name" VString info in
  let info := put_if (DiffBase.VInterface_TapMac diffBase) (CloudModel.VInterface_TapMac cloudItem)
      "tap_mac" VString info in
  let info := put_if (DiffBase.VInterface_RegionLcuuid diffBase)
      (CloudModel.VInterface_RegionLcuuid cloudItem) "region" VString info in
  mret (if decide (info = ∅) then None else Some info).

#[global] Instance VInterface_updater
    : DataGenerator TVInterface CloudModel.VInterface :=
  @mkDataGenerator _ TVInterface CloudModel.VInterface CloudModel.VInterface_Lcuuid
    VInterface_generateDBItemToAdd VInterface_generateUpdateInfo (DiffBase.VInterface_Update).

(** * WANIP *)

Definition WANIP_generateDBItemToAdd (cloudItem : CloudModel.IP)
    : M (option MysqlModel.WANIP) :=
  c ← get_cache;
  vinterfaceID ←? GetVInterfaceIDByLcuuid (CloudModel.IP_VInterfaceLcuuid cloudItem);
  mret (Some
  {| MysqlModel.WANIP_Base := mkBase 0 (CloudModel.IP_Lcuuid cloudItem);
     MysqlModel.WANIP_IP := FormatIP (CloudModel.IP_IP cloudItem);
     MysqlModel.WANIP_Alias := "";
     MysqlModel.WANIP_Netmask := if Contains_colon (CloudModel.IP_IP cloudItem) then 128 else 32;
     MysqlModel.WANIP_Gateway := if Contains_colon (CloudModel.IP_IP cloudItem) then "::" else
         "0.0.0.0";
     MysqlModel.WANIP_CreateMethod := 0;
     MysqlModel.WANIP_ISP := 7;
     MysqlModel.WANIP_VInterfaceID := vinterfaceID;
     MysqlModel.WANIP_SubDomain := CloudModel.IP_SubDomainLcuuid cloudItem;
     MysqlModel.WANIP_Domain := DomainLcuuid c;
     MysqlModel.WANIP_Region := CloudModel.IP_RegionLcuuid cloudItem |}).

Definition WANIP_generateUpdateInfo 
    (diffBase : DiffBase.WANIP) (cloudItem : CloudModel.IP) : M (option updateInfo) :=
  let info : updateInfo := ∅ in
  let info := put_if (DiffBase.WANIP_RegionLcuuid diffBase) (CloudModel.IP_RegionLcuuid cloudItem)
      "region" VString info in
  mret (if decide (info = ∅) then None else Some info).

#[global] Instance WANIP_updater
    : DataGenerator TWANIP CloudModel.IP :=
  @mkDataGenerator _ TWANIP CloudModel.IP CloudModel.IP_Lcuuid
    WANIP_generateDBItemToAdd WANIP_generateUpdateInfo (DiffBase.WANIP_Update).

(** * LANIP *)

Definition LANIP_generateDBItemToAdd (cloudItem : CloudModel.IP)
    : M (option MysqlModel.LANIP) :=
  c ← get_cache;
  vinterfaceID ←? GetVInterfaceIDByLcuuid (CloudModel.IP_VInterfaceLcuuid cloudItem);
  networkID ←? GetNetworkIDByVInterfaceLcuuid (CloudModel.IP_VInterfaceLcuuid cloudItem);
  mret (Some
  {| MysqlModel.LANIP_Base := mkBase 0 (CloudModel.IP_Lcuuid cloudItem);
     MysqlModel.LANIP_IP := FormatIP (CloudModel.IP_IP cloudItem);
     MysqlModel.LANIP_Netmask := "";
     MysqlModel.LANIP_Gateway := "";
     MysqlModel.LANIP_CreateMethod := 0;
     MysqlModel.LANIP_NetworkID := networkID;
     MysqlModel.LANIP_NetIndex := 0;
     MysqlModel.LANIP_SubDomain := CloudModel.IP_SubDomainLcuuid cloudItem;
     MysqlModel.LANIP_Domain := DomainLcuuid c;
     MysqlModel.LANIP_VInterfaceID := vinterfaceID;
     MysqlModel.LANIP_ISP := 0 |}).

Definition LANIP_generateUpdateInfo 
    (diffBase : DiffBase.LANIP) (cloudItem : CloudModel.IP) : M (option updateInfo) :=
  mret None.

#[global] Instance LANIP_updater
    : DataGenerator TLANIP CloudModel.IP :=
  @mkDataGenerator _ TLANIP CloudModel.IP CloudModel.IP_Lcuuid
    LANIP_generateDBItemToAdd LANIP_generateUpdateInfo (fun _ b => b).

(** * FloatingIP *)

Definition FloatingIP_generateDBItemToAdd (cloudItem : CloudModel.FloatingIP)
    : M (option MysqlModel.FloatingIP) :=
  c ← get_cache;
  networkID ←? GetNetworkIDByLcuuid (CloudModel.FloatingIP_NetworkLcuuid cloudItem);
  vmID ←? GetVMIDByLcuuid (CloudModel.FloatingIP_VMLcuuid cloudItem);
  vpcID ←? GetVPCIDByLcuuid (CloudModel.FloatingIP_VPCLcuuid cloudItem);
  mret (Some
  {| MysqlModel.FloatingIP_Base := mkBase 0 (CloudModel.FloatingIP_Lcuuid cloudItem);
     MysqlModel.FloatingIP_Domain := DomainLcuuid c;
     MysqlModel.FloatingIP_Region := CloudModel.FloatingIP_RegionLcuuid cloudItem;
     MysqlModel.FloatingIP_VPCID := vpcID;
     MysqlModel.FloatingIP_NetworkID := networkID;
     MysqlModel.FloatingIP_VMID := vmID;
     MysqlModel.FloatingIP_IP := FormatIP (CloudModel.FloatingIP_IP cloudItem) |}).

Definition FloatingIP_generateUpdateInfo 
    (diffBase : DiffBase.FloatingIP) (cloudItem : CloudModel.FloatingIP) : M (option updateInfo) :=
  let info : updateInfo := ∅ in
  let info := put_if (DiffBase.FloatingIP_RegionLcuuid diffBase)
      (CloudModel.FloatingIP_RegionLcuuid cloudItem) "region" VString info in
  mret (if decide (info = ∅) then None else Some info).

#[global] Instance FloatingIP_updater
    : DataGenerator TFloatingIP CloudModel.FloatingIP :=
  @mkDataGenerator _ TFloatingIP CloudModel.FloatingIP CloudModel.FloatingIP_Lcuuid
    FloatingIP_generateDBItemToAdd FloatingIP_generateUpdateInfo (DiffBase.FloatingIP_Update).

(** * SecurityGroup *)

Definition SecurityGroup_generateDBItemToAdd (cloudItem : CloudModel.SecurityGroup)
    : M (option MysqlModel.SecurityGroup) :=
  c ← get_cache;
  vpcID ←? (if decide (CloudModel.SecurityGroup_VPCLcuuid cloudItem ≠ "") then GetVPCIDByLcuuid
      (CloudModel.SecurityGroup_VPCLcuuid cloudItem) else mret (Some 0));
  mret (Some
  {| MysqlModel.SecurityGroup_Base := mkBase 0 (CloudModel.SecurityGroup_Lcuuid cloudItem);
     MysqlModel.SecurityGroup_SoftDeleteBase := zero_SoftDeleteBase;
     MysqlModel.SecurityGroup_Name := CloudModel.SecurityGroup_Name cloudItem;
     MysqlModel.SecurityGroup_Label := CloudModel.SecurityGroup_Label cloudItem;
     MysqlModel.SecurityGroup_Alias := "";
     MysqlModel.SecurityGroup_VPCID := vpcID;
     MysqlModel.SecurityGroup_Domain := DomainLcuuid c;
     MysqlModel.SecurityGroup_Region := CloudModel.SecurityGroup_RegionLcuuid cloudItem;
     MysqlModel.SecurityGroup_Topped := 0 |}).

Definition SecurityGroup_generateUpdateInfo 
    (diffBase : DiffBase.SecurityGroup) (cloudItem : CloudModel.SecurityGroup) : M (option
        updateInfo) :=
  let info : updateInfo := ∅ in
  let info := put_if (DiffBase.SecurityGroup_Name diffBase) (CloudModel.SecurityGroup_Name
      cloudItem) "name" VString info in
  let info := put_if (DiffBase.SecurityGroup_Label diffBase) (CloudModel.SecurityGroup_Label
      cloudItem) "label" VString info in
  let info := put_if (DiffBase.SecurityGroup_RegionLcuuid diffBase)
      (CloudModel.SecurityGroup_RegionLcuuid cloudItem) "region" VString info in
  mret (if decide (info = ∅) then None else Some info).

#[global] Instance SecurityGroup_updater
    : DataGenerator TSecurityGroup CloudModel.SecurityGroup :=
  @mkDataGenerator _ TSecurityGroup CloudModel.SecurityGroup CloudModel.SecurityGroup_Lcuuid
    SecurityGroup_generateDBItemToAdd SecurityGroup_generateUpdateInfo
        (DiffBase.SecurityGroup_Update).

(** * SecurityGroupRule *)

Definition SecurityGroupRule_generateDBItemToAdd (cloudItem : CloudModel.SecurityGroupRule)
    : M (option MysqlModel.SecurityGroupRule) :=
  securityGroupID ←? GetSecurityGroupIDByLcuuid (CloudModel.SecurityGroupRule_SecurityGroupLcuuid
      cloudItem);
  mret (Some
  {| MysqlModel.SecurityGroupRule_Base := mkBase 0 (CloudModel.SecurityGroupRule_Lcuuid cloudItem);
     MysqlModel.SecurityGroupRule_SecurityGroupID := securityGroupID;
     MysqlModel.SecurityGroupRule_Direction := CloudModel.SecurityGroupRule_Direction cloudItem;
     MysqlModel.SecurityGroupRule_Protocol := CloudModel.SecurityGroupRule_Protocol cloudItem;
     MysqlModel.SecurityGroupRule_EtherType := CloudModel.SecurityGroupRule_EtherType cloudItem;
     MysqlModel.SecurityGroupRule_LocalPortRange := CloudModel.SecurityGroupRule_LocalPortRange
         cloudItem;
     MysqlModel.SecurityGroupRule_RemotePortRange := CloudModel.SecurityGroupRule_RemotePortRange
         cloudItem;
     MysqlModel.SecurityGroupRule_Local := CloudModel.SecurityGroupRule_Local cloudItem;
     MysqlModel.SecurityGroupRule_Remote := CloudModel.SecurityGroupRule_Remote cloudItem;
     MysqlModel.SecurityGroupRule_Priority := CloudModel.SecurityGroupRule_Priority cloudItem;
     MysqlModel.SecurityGroupRule_Action := CloudModel.SecurityGroupRule_Action cloudItem |}).

Definition SecurityGroupRule_generateUpdateInfo 
    (diffBase : DiffBase.SecurityGroupRule) (cloudItem : CloudModel.SecurityGroupRule) : M (option
        updateInfo) :=
  let info : updateInfo := ∅ in
  let info := put_if (DiffBase.SecurityGroupRule_Priority diffBase)
      (CloudModel.SecurityGroupRule_Priority cloudItem) "priority" VInt info in
  let info := put_if (DiffBase.SecurityGroupRule_EtherType diffBase)
      (CloudModel.SecurityGroupRule_EtherType cloudItem) "ethertype" VInt info in
  let info := put_if (DiffBase.SecurityGroupRule_RemotePortRange diffBase)
      (CloudModel.SecurityGroupRule_RemotePortRange cloudItem) "remote_port_range" VString info in
  let info := put_if (DiffBase.SecurityGroupRule_Local diffBase)
      (CloudModel.SecurityGroupRule_Local cloudItem) "local" VString info in
  let info := put_if (DiffBase.SecurityGroupRule_Remote diffBase)
      (CloudModel.SecurityGroupRule_Remote cloudItem) "remote" VString info in
  mret (if decide (info = ∅) then None else Some info).

#[global] Instance SecurityGroupRule_updater
    : DataGenerator TSecurityGroupRule CloudModel.SecurityGroupRule :=
  @mkDataGenerator _ TSecurityGroupRule CloudModel.SecurityGroupRule
      CloudModel.SecurityGroupRule_Lcuuid
    SecurityGroupRule_generateDBItemToAdd SecurityGroupRule_generateUpdateInfo
        (DiffBase.SecurityGroupRule_Update).

(** * VMSecurityGroup *)

Definition VMSecurityGroup_generateDBItemToAdd (cloudItem : CloudModel.VMSecurityGroup)
    : M (option MysqlModel.VMSecurityGroup) :=
  securityGroupID ←? GetSecurityGroupIDByLcuuid (CloudModel.VMSecurityGroup_SecurityGroupLcuuid
      cloudItem);
  vmID ←? GetVMIDByLcuuid (CloudModel.VMSecurityGroup_VMLcuuid cloudItem);
  mret (Some
  {| MysqlModel.VMSecurityGroup_Base := mkBase 0 (CloudModel.VMSecurityGroup_Lcuuid cloudItem);
     MysqlModel.VMSecurityGroup_SecurityGroupID := securityGroupID;
     MysqlModel.VMSecurityGroup_VMID := vmID;
     MysqlModel.VMSecurityGroup_Priority := CloudModel.VMSecurityGroup_Priority cloudItem |}).

Definition VMSecurityGroup_generateUpdateInfo 
    (diffBase : DiffBase.VMSecurityGroup) (cloudItem : CloudModel.VMSecurityGroup) : M (option
        updateInfo) :=
  let info : updateInfo := ∅ in
  let info := put_if (DiffBase.VMSecurityGroup_Priority diffBase)
      (CloudModel.VMSecurityGroup_Priority cloudItem) "priority" VInt info in
  mret (if decide (info = ∅) then None else Some info).

#[global] Instance VMSecurityGroup_updater
    : DataGenerator TVMSecurityGroup CloudModel.VMSecurityGroup :=
  @mkDataGenerator _ TVMSecurityGroup CloudModel.VMSecurityGroup CloudModel.VMSecurityGroup_Lcuuid
    VMSecurityGroup_generateDBItemToAdd VMSecurityGroup_generateUpdateInfo
        (DiffBase.VMSecurityGroup_Update).

(** * NATGateway *)

Definition NATGateway_generateDBItemToAdd (cloudItem : CloudModel.NATGateway)
    : M (option MysqlModel.NATGateway) :=
  c ← get_cache;
  vpcID ←? GetVPCIDByLcuuid (CloudModel.NATGateway_VPCLcuuid cloudItem);
  mret (Some
  {| MysqlModel.NATGateway_Base := mkBase 0 (CloudModel.NATGateway_Lcuuid cloudItem);
     MysqlModel.NATGateway_SoftDeleteBase := zero_SoftDeleteBase;
     MysqlModel.NATGateway_Name := CloudModel.NATGateway_Name cloudItem;
     MysqlModel.NATGateway_Label := CloudModel.NATGateway_Label cloudItem;
     MysqlModel.NATGateway_FloatingIPs := CloudModel.NATGateway_FloatingIPs cloudItem;
     MysqlModel.NATGateway_VPCID := vpcID;
     MysqlModel.NATGateway_AZ := "";
     MysqlModel.NATGateway_Region := CloudModel.NATGateway_RegionLcuuid cloudItem;
     MysqlModel.NATGateway_Domain := DomainLcuuid c;
     MysqlModel.NATGateway_UID := CloudModel.NATGateway_Label cloudItem |}).

Definition NATGateway_generateUpdateInfo 
    (diffBase : DiffBase.NATGateway) (cloudItem : CloudModel.NATGateway) : M (option updateInfo) :=
  let info : updateInfo := ∅ in
  let info := put_if (DiffBase.NATGateway_Name diffBase) (CloudModel.NATGateway_Name cloudItem)
      "name" VString info in
  let info := put_if (DiffBase.NATGateway_RegionLcuuid diffBase)
      (CloudModel.NATGateway_RegionLcuuid cloudItem) "region" VString info in
  let info := put_if (DiffBase.NATGateway_FloatingIPs diffBase) (CloudModel.NATGateway_FloatingIPs
      cloudItem) "floating_ips" VString info in
  mret (if decide (info = ∅) then None else Some info).

#[global] Instance NATGateway_updater
    : DataGenerator TNATGateway CloudModel.NATGateway :=
  @mkDataGenerator _ TNATGateway CloudModel.NATGateway CloudModel.NATGateway_Lcuuid
    NATGateway_generateDBItemToAdd NATGateway_generateUpdateInfo (DiffBase.NATGateway_Update).

(** * NATVMConnection *)

Definition NATVMConnection_generateDBItemToAdd (cloudItem : CloudModel.NATVMConnection)
    : M (option MysqlModel.NATVMConnection) :=
  c ← get_cache;
  vmID ←? GetVMIDByLcuuid (CloudModel.NATVMConnection_VMLcuuid cloudItem);
  natID ←? GetNATGatewayIDByLcuuid (CloudModel.NATVMConnection_NATGatewayLcuuid cloudItem);
  mret (Some
  {| MysqlModel.NATVMConnection_Base := mkBase 0 (CloudModel.NATVMConnection_Lcuuid cloudItem);
     MysqlModel.NATVMConnection_NATGatewayID := natID;
     MysqlModel.NATVMConnection_VMID := vmID;
     MysqlModel.NATVMConnection_Domain := DomainLcuuid c |}).

Definition NATVMConnection_generateUpdateInfo 
    (diffBase : DiffBase.NATVMConnection) (cloudItem : CloudModel.NATVMConnection) : M (option
        updateInfo) :=
  mret None.

#[global] Instance NATVMConnection_updater
    : DataGenerator TNATVMConnection CloudModel.NATVMConnection :=
  @mkDataGenerator _ TNATVMConnection CloudModel.NATVMConnection CloudModel.NATVMConnection_Lcuuid
    NATVMConnection_generateDBItemToAdd NATVMConnection_generateUpdateInfo (fun _ b => b).

(** * NATRule *)

Definition NATRule_generateDBItemToAdd (cloudItem : CloudModel.NATRule)
    : M (option MysqlModel.NATRule) :=
  c ← get_cache;
  natGatewayID ←? (if decide (CloudModel.NATRule_NATGatewayLcuuid cloudItem ≠ "") then
      GetNATGatewayIDByLcuuid (CloudModel.NATRule_NATGatewayLcuuid cloudItem) else mret (Some 0));
  vinterfaceID ←? (if decide (CloudModel.NATRule_VInterfaceLcuuid cloudItem ≠ "") then
      GetVInterfaceIDByLcuuid (CloudModel.NATRule_VInterfaceLcuuid cloudItem) else mret (Some 0));
  mret (Some
  {| MysqlModel.NATRule_Base := mkBase 0 (CloudModel.NATRule_Lcuuid cloudItem);
     MysqlModel.NATRule_NATGatewayID := natGatewayID;
     MysqlModel.NATRule_Type := CloudModel.NATRule_Type cloudItem;
     MysqlModel.NATRule_Protocol := CloudModel.NATRule_Protocol cloudItem;
     MysqlModel.NATRule_FloatingIP := CloudModel.NATRule_FloatingIP cloudItem;
     MysqlModel.NATRule_FloatingIPPort := CloudModel.NATRule_FloatingIPPort cloudItem;
     MysqlModel.NATRule_FixedIP := CloudModel.NATRule_FixedIP cloudItem;
     MysqlModel.NATRule_FixedIPPort := CloudModel.NATRule_FixedIPPort cloudItem;
     MysqlModel.NATRule_VInterfaceID := vinterfaceID;
     MysqlModel.NATRule_Domain := DomainLcuuid c |}).

Definition NATRule_generateUpdateInfo 
    (diffBase : DiffBase.NATRule) (cloudItem : CloudModel.NATRule) : M (option updateInfo) :=
  mret None.

#[global] Instance NATRule_updater
    : DataGenerator TNATRule CloudModel.NATRule :=
  @mkDataGenerator _ TNATRule CloudModel.NATRule CloudModel.NATRule_Lcuuid
    NATRule_generateDBItemToAdd NATRule_generateUpdateInfo (fun _ b => b).

(** * LB *)

Definition LB_generateDBItemToAdd (cloudItem : CloudModel.LB)
    : M (option MysqlModel.LB) :=
  c ← get_cache;
  vpcID ←? GetVPCIDByLcuuid (CloudModel.LB_VPCLcuuid cloudItem);
  mret (Some
  {| MysqlModel.LB_Base := mkBase 0 (CloudModel.LB_Lcuuid cloudItem);
     MysqlModel.LB_SoftDeleteBase := zero_SoftDeleteBase;
     MysqlModel.LB_Name := CloudModel.LB_Name cloudItem;
     MysqlModel.LB_Label := CloudModel.LB_Label cloudItem;
     MysqlModel.LB_Model := CloudModel.LB_Model cloudItem;
     MysqlModel.LB_VIP := CloudModel.LB_VIP cloudItem;
     MysqlModel.LB_VPCID := vpcID;
     MysqlModel.LB_AZ := "";
     MysqlModel.LB_Region := CloudModel.LB_RegionLcuuid cloudItem;
     MysqlModel.LB_Domain := DomainLcuuid c;
     MysqlModel.LB_UID := CloudModel.LB_Label cloudItem |}).

Definition LB_generateUpdateInfo 
    (diffBase : DiffBase.LB) (cloudItem : CloudModel.LB) : M (option updateInfo) :=
  let info : updateInfo := ∅ in
  let info := put_if (DiffBase.LB_Name diffBase) (CloudModel.LB_Name cloudItem) "name" VString info
      in
  let info := put_if (DiffBase.LB_Model diffBase) (CloudModel.LB_Model cloudItem) "model" VInt info
      in
  let info := put_if (DiffBase.LB_VIP diffBase) (CloudModel.LB_VIP cloudItem) "vip" VString info in
  let info := put_if (DiffBase.LB_RegionLcuuid diffBase) (CloudModel.LB_RegionLcuuid cloudItem)
      "region" VString info in
  mret (if decide (info = ∅) then None else Some info).

#[global] Instance LB_updater
    : DataGenerator TLB CloudModel.LB :=
  @mkDataGenerator _ TLB CloudModel.LB CloudModel.LB_Lcuuid
    LB_generateDBItemToAdd LB_generateUpdateInfo (DiffBase.LB_Update).

(** * LBVMConnection *)

Definition LBVMConnection_generateDBItemToAdd (cloudItem : CloudModel.LBVMConnection)
    : M (option MysqlModel.LBVMConnection) :=
  c ← get_cache;
  vmID ←? GetVMIDByLcuuid (CloudModel.LBVMConnection_VMLcuuid cloudItem);
  lbID ←? GetLBIDByLcuuid (CloudModel.LBVMConnection_LBLcuuid cloudItem);
  mret (Some
  {| MysqlModel.LBVMConnection_Base := mkBase 0 (CloudModel.LBVMConnection_Lcuuid cloudItem);
     MysqlModel.LBVMConnection_LBID := lbID;
     MysqlModel.LBVMConnection_VMID := vmID;
     MysqlModel.LBVMConnection_Domain := DomainLcuuid c |}).

Definition LBVMConnection_generateUpdateInfo 
    (diffBase : DiffBase.LBVMConnection) (cloudItem : CloudModel.LBVMConnection) : M (option
        updateInfo) :=
  mret None.

#[global] Instance LBVMConnection_updater
    : DataGenerator TLBVMConnection CloudModel.LBVMConnection :=
  @mkDataGenerator _ TLBVMConnection CloudModel.LBVMConnection CloudModel.LBVMConnection_Lcuuid
    LBVMConnection_generateDBItemToAdd LBVMConnection_generateUpdateInfo (fun _ b => b).

(** * LBListener *)

Definition LBListener_generateDBItemToAdd (cloudItem : CloudModel.LBListener)
    : M (option MysqlModel.LBListener) :=
  c ← get_cache;
  lbID ←? GetLBIDByLcuuid (CloudModel.LBListener_LBLcuuid cloudItem);
  mret (Some
  {| MysqlModel.LBListener_Base := mkBase 0 (CloudModel.LBListener_Lcuuid cloudItem);
     MysqlModel.LBListener_SoftDeleteBase := zero_SoftDeleteBase;
     MysqlModel.LBListener_LBID := lbID;
     MysqlModel.LBListener_Name := CloudModel.LBListener_Name cloudItem;
     MysqlModel.LBListener_IPs := CloudModel.LBListener_IPs cloudItem;
     MysqlModel.LBListener_SNATIPs := CloudModel.LBListener_SNATIPs cloudItem;
     MysqlModel.LBListener_Label := CloudModel.LBListener_Label cloudItem;
     MysqlModel.LBListener_Port := CloudModel.LBListener_Port cloudItem;
     MysqlModel.LBListener_Protocol := CloudModel.LBListener_Protocol cloudItem;
     MysqlModel.LBListener_Domain := DomainLcuuid c |}).

Definition LBListener_generateUpdateInfo 
    (diffBase : DiffBase.LBListener) (cloudItem : CloudModel.LBListener) : M (option updateInfo) :=
  let info : updateInfo := ∅ in
  let info := put_if (DiffBase.LBListener_Name diffBase) (CloudModel.LBListener_Name cloudItem)
      "name" VString info in
  let info := put_if (DiffBase.LBListener_IPs diffBase) (CloudModel.LBListener_IPs cloudItem) "ips"
      VString info in
  let info := put_if (DiffBase.LBListener_SNATIPs diffBase) (CloudModel.LBListener_SNATIPs
      cloudItem) "snat_ips" VString info in
  let info := put_if (DiffBase.LBListener_Port diffBase) (CloudModel.LBListener_Port cloudItem)
      "port" VInt info in
  let info := put_if (DiffBase.LBListener_Protocol diffBase) (CloudModel.LBListener_Protocol
      cloudItem) "protocol" VString info in
  mret (if decide (info = ∅) then None else Some info).

#[global] Instance LBListener_updater
    : DataGenerator TLBListener CloudModel.LBListener :=
  @mkDataGenerator _ TLBListener CloudModel.LBListener CloudModel.LBListener_Lcuuid
    LBListener_generateDBItemToAdd LBListener_generateUpdateInfo (DiffBase.LBListener_Update).

(** * LBTargetServer *)

Definition LBTargetServer_generateDBItemToAdd (cloudItem : CloudModel.LBTargetServer)
    : M (option MysqlModel.LBTargetServer) :=
  c ← get_cache;
  lbID ←? GetLBIDByLcuuid (CloudModel.LBTargetServer_LBLcuuid cloudItem);
  lbListenerID ←? GetLBListenerIDByLcuuid (CloudModel.LBTargetServer_LBListenerLcuuid cloudItem);
  vmID ←? (if decide (CloudModel.LBTargetServer_VMLcuuid cloudItem ≠ "") then GetVMIDByLcuuid
      (CloudModel.LBTargetServer_VMLcuuid cloudItem) else mret (Some 0));
  vpcID ← GetVPCIDByLcuuid (CloudModel.LBTargetServer_VPCLcuuid cloudItem);
  let vpcID := default 0 vpcID in
  mret (Some
  {| MysqlModel.LBTargetServer_Base := mkBase 0 (CloudModel.LBTargetServer_Lcuuid cloudItem);
     MysqlModel.LBTargetServer_LBID := lbID;
     MysqlModel.LBTargetServer_LBListenerID := lbListenerID;
     MysqlModel.LBTargetServer_VPCID := vpcID;
     MysqlModel.LBTargetServer_Type := CloudModel.LBTargetServer_Type cloudItem;
     MysqlModel.LBTargetServer_IP := CloudModel.LBTargetServer_IP cloudItem;
     MysqlModel.LBTargetServer_VMID := vmID;
     MysqlModel.LBTargetServer_Port := CloudModel.LBTargetServer_Port cloudItem;
     MysqlModel.LBTargetServer_Protocol := CloudModel.LBTargetServer_Protocol cloudItem;
     MysqlModel.LBTargetServer_Domain := DomainLcuuid c |}).

Definition LBTargetServer_generateUpdateInfo 
    (diffBase : DiffBase.LBTargetServer) (cloudItem : CloudModel.LBTargetServer) : M (option
        updateInfo) :=
  let info : updateInfo := ∅ in
  let info := put_if (DiffBase.LBTargetServer_IP diffBase) (CloudModel.LBTargetServer_IP cloudItem)
      "ip" VString info in
  let info := put_if (DiffBase.LBTargetServer_Port diffBase) (CloudModel.LBTargetServer_Port
      cloudItem) "port" VInt info in
  let info := put_if (DiffBase.LBTargetServer_Protocol diffBase)
      (CloudModel.LBTargetServer_Protocol cloudItem) "protocol" VString info in
  mret (if decide (info = ∅) then None else Some info).

#[global] Instance LBTargetServer_updater
    : DataGenerator TLBTargetServer CloudModel.LBTargetServer :=
  @mkDataGenerator _ TLBTargetServer CloudModel.LBTargetServer CloudModel.LBTargetServer_Lcuuid
    LBTargetServer_generateDBItemToAdd LBTargetServer_generateUpdateInfo
        (DiffBase.LBTargetServer_Update).

(** * PeerConnection *)

Definition PeerConnection_generateDBItemToAdd (cloudItem : CloudModel.PeerConnection)
    : M (option MysqlModel.PeerConnection) :=
  c ← get_cache;
  remoteVPCID ←? GetVPCIDByLcuuid (CloudModel.PeerConnection_RemoteVPCLcuuid cloudItem);
  localVPCID ←? GetVPCIDByLcuuid (CloudModel.PeerConnection_LocalVPCLcuuid cloudItem);
  remoteRegionID ←? GetRegionIDByLcuuid (CloudModel.PeerConnection_RemoteRegionLcuuid cloudItem);
  localRegionID ←? GetRegionIDByLcuuid (CloudModel.PeerConnection_LocalRegionLcuuid cloudItem);
  mret (Some
  {| MysqlModel.PeerConnection_Base := mkBase 0 (CloudModel.PeerConnection_Lcuuid cloudItem);
     MysqlModel.PeerConnection_SoftDeleteBase := zero_SoftDeleteBase;
     MysqlModel.PeerConnection_Name := CloudModel.PeerConnection_Name cloudItem;
     MysqlModel.PeerConnection_Label := CloudModel.PeerConnection_Label cloudItem;
     MysqlModel.PeerConnection_LocalVPCID := localVPCID;
     MysqlModel.PeerConnection_RemoteVPCID := remoteVPCID;
     MysqlModel.PeerConnection_LocalRegionID := localRegionID;
     MysqlModel.PeerConnection_RemoteRegionID := remoteRegionID;
     MysqlModel.PeerConnection_CreateMethod := 0;
     MysqlModel.PeerConnection_Domain := DomainLcuuid c |}).

Definition PeerConnection_generateUpdateInfo 
    (diffBase : DiffBase.PeerConnection) (cloudItem : CloudModel.PeerConnection) : M (option
        updateInfo) :=
  let info : updateInfo := ∅ in
  let info := put_if (DiffBase.PeerConnection_Name diffBase) (CloudModel.PeerConnection_Name
      cloudItem) "name" VString info in
  info ←? put_ref (DiffBase.PeerConnection_RemoteRegionLcuuid diffBase)
      (CloudModel.PeerConnection_RemoteRegionLcuuid cloudItem) "remote_region_id"
      GetRegionIDByLcuuid info;
  info ←? put_ref (DiffBase.PeerConnection_LocalRegionLcuuid diffBase)
      (CloudModel.PeerConnection_LocalRegionLcuuid cloudItem) "local_region_id" GetRegionIDByLcuuid
      info;
  mret (if decide (info = ∅) then None else Some info).

#[global] Instance PeerConnection_updater
    : DataGenerator TPeerConnection CloudModel.PeerConnection :=
  @mkDataGenerator _ TPeerConnection CloudModel.PeerConnection CloudModel.PeerConnection_Lcuuid
    PeerConnection_generateDBItemToAdd PeerConnection_generateUpdateInfo
        (DiffBase.PeerConnection_Update).

(** * RDSInstance *)

Definition RDSInstance_generateDBItemToAdd (cloudItem : CloudModel.RDSInstance)
    : M (option MysqlModel.RDSInstance) :=
  c ← get_cache;
  vpcID ←? GetVPCIDByLcuuid (CloudModel.RDSInstance_VPCLcuuid cloudItem);
  mret (Some
  {| MysqlModel.RDSInstance_Base := mkBase 0 (CloudModel.RDSInstance_Lcuuid cloudItem);
     MysqlModel.RDSInstance_SoftDeleteBase := zero_SoftDeleteBase;
     MysqlModel.RDSInstance_Name := CloudModel.RDSInstance_Name cloudItem;
     MysqlModel.RDSInstance_Label := CloudModel.RDSInstance_Label cloudItem;
     MysqlModel.RDSInstance_State := CloudModel.RDSInstance_State cloudItem;
     MysqlModel.RDSInstance_Domain := DomainLcuuid c;
     MysqlModel.RDSInstance_Region := CloudModel.RDSInstance_RegionLcuuid cloudItem;
     MysqlModel.RDSInstance_AZ := CloudModel.RDSInstance_AZLcuuid cloudItem;
     MysqlModel.RDSInstance_VPCID := vpcID;
     MysqlModel.RDSInstance_Type := CloudModel.RDSInstance_Type cloudItem;
     MysqlModel.RDSInstance_Version := CloudModel.RDSInstance_Version cloudItem;
     MysqlModel.RDSInstance_Series := CloudModel.RDSInstance_Series cloudItem;
     MysqlModel.RDSInstance_Model := CloudModel.RDSInstance_Model cloudItem;
     MysqlModel.RDSInstance_UID := CloudModel.RDSInstance_Label cloudItem |}).

Definition RDSInstance_generateUpdateInfo 
    (diffBase : DiffBase.RDSInstance) (cloudItem : CloudModel.RDSInstance) : M (option updateInfo)
        :=
  let info : updateInfo := ∅ in
  let info := put_if (DiffBase.RDSInstance_Name diffBase) (CloudModel.RDSInstance_Name cloudItem)
      "name" VString info in
  let info := put_if (DiffBase.RDSInstance_State diffBase) (CloudModel.RDSInstance_State cloudItem)
      "state" VInt info in
  let info := put_if (DiffBase.RDSInstance_Series diffBase) (CloudModel.RDSInstance_Series
      cloudItem) "series" VInt info in
  let info := put_if (DiffBase.RDSInstance_Model diffBase) (CloudModel.RDSInstance_Model cloudItem)
      "model" VInt info in
  let info := put_if (DiffBase.RDSInstance_RegionLcuuid diffBase)
      (CloudModel.RDSInstance_RegionLcuuid cloudItem) "region" VString info in
  let info := put_if (DiffBase.RDSInstance_AZLcuuid diffBase) (CloudModel.RDSInstance_AZLcuuid
      cloudItem) "az" VString info in
  mret (if decide (info = ∅) then None else Some info).

#[global] Instance RDSInstance_updater
    : DataGenerator TRDSInstance CloudModel.RDSInstance :=
  @mkDataGenerator _ TRDSInstance CloudModel.RDSInstance CloudModel.RDSInstance_Lcuuid
    RDSInstance_generateDBItemToAdd RDSInstance_generateUpdateInfo (DiffBase.RDSInstance_Update).

(** * RedisInstance *)

Definition RedisInstance_generateDBItemToAdd (cloudItem : CloudModel.RedisInstance)
    : M (option MysqlModel.RedisInstance) :=
  c ← get_cache;
  vpcID ←? GetVPCIDByLcuuid (CloudModel.RedisInstance_VPCLcuuid cloudItem);
  mret (Some
  {| MysqlModel.RedisInstance_Base := mkBase 0 (CloudModel.RedisInstance_Lcuuid cloudItem);
     MysqlModel.RedisInstance_SoftDeleteBase := zero_SoftDeleteBase;
     MysqlModel.RedisInstance_Name := CloudModel.RedisInstance_Name cloudItem;
     MysqlModel.RedisInstance_Label := CloudModel.RedisInstance_Label cloudItem;
     MysqlModel.RedisInstance_State := CloudModel.RedisInstance_State cloudItem;
     MysqlModel.RedisInstance_Domain := DomainLcuuid c;
     MysqlModel.RedisInstance_Region := CloudModel.RedisInstance_RegionLcuuid cloudItem;
     MysqlModel.RedisInstance_AZ := CloudModel.RedisInstance_AZLcuuid cloudItem;
     MysqlModel.RedisInstance_VPCID := vpcID;
     MysqlModel.RedisInstance_Version := CloudModel.RedisInstance_Version cloudItem;
     MysqlModel.RedisInstance_InternalHost := CloudModel.RedisInstance_InternalHost cloudItem;
     MysqlModel.RedisInstance_PublicHost := CloudModel.RedisInstance_PublicHost cloudItem;
     MysqlModel.RedisInstance_UID := CloudModel.RedisInstance_Label cloudItem |}).

Definition RedisInstance_generateUpdateInfo 
    (diffBase : DiffBase.RedisInstance) (cloudItem : CloudModel.RedisInstance) : M (option
        updateInfo) :=
  let info : updateInfo := ∅ in
  let info := put_if (DiffBase.RedisInstance_Name diffBase) (CloudModel.RedisInstance_Name
      cloudItem) "name" VString info in
  let info := put_if (DiffBase.RedisInstance_State diffBase) (CloudModel.RedisInstance_State
      cloudItem) "state" VInt info in
  let info := put_if (DiffBase.RedisInstance_PublicHost diffBase)
      (CloudModel.RedisInstance_PublicHost cloudItem) "public_host" VString info in
  let info := put_if (DiffBase.RedisInstance_RegionLcuuid diffBase)
      (CloudModel.RedisInstance_RegionLcuuid cloudItem) "region" VString info in
  let info := put_if (DiffBase.RedisInstance_AZLcuuid diffBase) (CloudModel.RedisInstance_AZLcuuid
      cloudItem) "az" VString info in
  mret (if decide (info = ∅) then None else Some info).

#[global] Instance RedisInstance_updater
    : DataGenerator TRedisInstance CloudModel.RedisInstance :=
  @mkDataGenerator _ TRedisInstance CloudModel.RedisInstance CloudModel.RedisInstance_Lcuuid
    RedisInstance_generateDBItemToAdd RedisInstance_generateUpdateInfo
        (DiffBase.RedisInstance_Update).

(** * PodCluster *)

Definition PodCluster_generateDBItemToAdd (cloudItem : CloudModel.PodCluster)
    : M (option MysqlModel.PodCluster) :=
  c ← get_cache;
  vpcID ←? GetVPCIDByLcuuid (CloudModel.PodCluster_VPCLcuuid cloudItem);
  mret (Some
  {| MysqlModel.PodCluster_Base := mkBase 0 (CloudModel.PodCluster_Lcuuid cloudItem);
     MysqlModel.PodCluster_SoftDeleteBase := zero_SoftDeleteBase;
     MysqlModel.PodCluster_Name := CloudModel.PodCluster_Name cloudItem;
     MysqlModel.PodCluster_ClusterName := CloudModel.PodCluster_ClusterName cloudItem;
     MysqlModel.PodCluster_Version := CloudModel.PodCluster_Version cloudItem;
     MysqlModel.PodCluster_VPCID := vpcID;
     MysqlModel.PodCluster_AZ := CloudModel.PodCluster_AZLcuuid cloudItem;
     MysqlModel.PodCluster_Region := CloudModel.PodCluster_RegionLcuuid cloudItem;
     MysqlModel.PodCluster_SubDomain := CloudModel.PodCluster_SubDomainLcuuid cloudItem;
     MysqlModel.PodCluster_Domain := DomainLcuuid c |}).

Definition PodCluster_generateUpdateInfo 
    (diffBase : DiffBase.PodCluster) (cloudItem : CloudModel.PodCluster) : M (option updateInfo) :=
  let info : updateInfo := ∅ in
  let info := put_if (DiffBase.PodCluster_Name diffBase) (CloudModel.PodCluster_Name cloudItem)
      "name" VString info in
  let info := put_if (DiffBase.PodCluster_ClusterName diffBase) (CloudModel.PodCluster_ClusterName
      cloudItem) "cluster_name" VString info in
  let info := put_if (DiffBase.PodCluster_RegionLcuuid diffBase)
      (CloudModel.PodCluster_RegionLcuuid cloudItem) "region" VString info in
  let info := put_if (DiffBase.PodCluster_AZLcuuid diffBase) (CloudModel.PodCluster_AZLcuuid
      cloudItem) "az" VString info in
  mret (if decide (info = ∅) then None else Some info).

#[global] Instance PodCluster_updater
    : DataGenerator TPodCluster CloudModel.PodCluster :=
  @mkDataGenerator _ TPodCluster CloudModel.PodCluster CloudModel.PodCluster_Lcuuid
    PodCluster_generateDBItemToAdd PodCluster_generateUpdateInfo (DiffBase.PodCluster_Update).

(** * PodNode *)

Definition PodNode_generateDBItemToAdd (cloudItem : CloudModel.PodNode)
    : M (option MysqlModel.PodNode) :=
  c ← get_cache;
  vpcID ←? GetVPCIDByLcuuid (CloudModel.PodNode_VPCLcuuid cloudItem);
  podClusterID ←? GetPodClusterIDByLcuuid (CloudModel.PodNode_PodClusterLcuuid cloudItem);
  mret (Some
  {| MysqlModel.PodNode_Base := mkBase 0 (CloudModel.PodNode_Lcuuid cloudItem);
     MysqlModel.PodNode_SoftDeleteBase := zero_SoftDeleteBase;
     MysqlModel.PodNode_Name := CloudModel.PodNode_Name cloudItem;
     MysqlModel.PodNode_Alias := "";
     MysqlModel.PodNode_Type := CloudModel.PodNode_Type cloudItem;
     MysqlModel.PodNode_ServerType := CloudModel.PodNode_ServerType cloudItem;
     MysqlModel.PodNode_State := CloudModel.PodNode_State cloudItem;
     MysqlModel.PodNode_IP := CloudModel.PodNode_IP cloudItem;
     MysqlModel.PodNode_VCPUNum := CloudModel.PodNode_VCPUNum cloudItem;
     MysqlModel.PodNode_MemTotal := CloudModel.PodNode_MemTotal cloudItem;
     MysqlModel.PodNode_PodClusterID := podClusterID;
     MysqlModel.PodNode_Region := CloudModel.PodNode_RegionLcuuid cloudItem;
     MysqlModel.PodNode_AZ := CloudModel.PodNode_AZLcuuid cloudItem;
     MysqlModel.PodNode_VPCID := vpcID;
     MysqlModel.PodNode_SubDomain := CloudModel.PodNode_SubDomainLcuuid cloudItem;
     MysqlModel.PodNode_Domain := DomainLcuuid c |}).

Definition PodNode_generateUpdateInfo 
    (diffBase : DiffBase.PodNode) (cloudItem : CloudModel.PodNode) : M (option updateInfo) :=
  let info : updateInfo := ∅ in
  let info := put_if (DiffBase.PodNode_State diffBase) (CloudModel.PodNode_State cloudItem) "state"
      VInt info in
  let info := put_if (DiffBase.PodNode_RegionLcuuid diffBase) (CloudModel.PodNode_RegionLcuuid
      cloudItem) "region" VString info in
  let info := put_if (DiffBase.PodNode_AZLcuuid diffBase) (CloudModel.PodNode_AZLcuuid cloudItem)
      "az" VString info in
  let info := put_if (DiffBase.PodNode_VCPUNum diffBase) (CloudModel.PodNode_VCPUNum cloudItem)
      "vcpu_num" VInt info in
  let info := put_if (DiffBase.PodNode_MemTotal diffBase) (CloudModel.PodNode_MemTotal cloudItem)
      "mem_total" VInt info in
  mret (if decide (info = ∅) then None else Some info).

#[global] Instance PodNode_updater
    : DataGenerator TPodNode CloudModel.PodNode :=
  @mkDataGenerator _ TPodNode CloudModel.PodNode CloudModel.PodNode_Lcuuid
    PodNode_generateDBItemToAdd PodNode_generateUpdateInfo (DiffBase.PodNode_Update).

(** * VMPodNodeConnection *)

Definition VMPodNodeConnection_generateDBItemToAdd (cloudItem : CloudModel.VMPodNodeConnection)
    : M (option MysqlModel.VMPodNodeConnection) :=
  c ← get_cache;
  vmID ←? GetVMIDByLcuuid (CloudModel.VMPodNodeConnection_VMLcuuid cloudItem);
  podNodeID ←? GetPodNodeIDByLcuuid (CloudModel.VMPodNodeConnection_PodNodeLcuuid cloudItem);
  mret (Some
  {| MysqlModel.VMPodNodeConnection_Base := mkBase 0 (CloudModel.VMPodNodeConnection_Lcuuid
      cloudItem);
     MysqlModel.VMPodNodeConnection_VMID := vmID;
     MysqlModel.VMPodNodeConnection_PodNodeID := podNodeID;
     MysqlModel.VMPodNodeConnection_Domain := DomainLcuuid c;
     MysqlModel.VMPodNodeConnection_SubDomain := CloudModel.VMPodNodeConnection_SubDomainLcuuid
         cloudItem |}).

Definition VMPodNodeConnection_generateUpdateInfo 
    (diffBase : DiffBase.VMPodNodeConnection) (cloudItem : CloudModel.VMPodNodeConnection) : M
        (option updateInfo) :=
  mret None.

#[global] Instance VMPodNodeConnection_updater
    : DataGenerator TVMPodNodeConnection CloudModel.VMPodNodeConnection :=
  @mkDataGenerator _ TVMPodNodeConnection CloudModel.VMPodNodeConnection
      CloudModel.VMPodNodeConnection_Lcuuid
    VMPodNodeConnection_generateDBItemToAdd VMPodNodeConnection_generateUpdateInfo (fun _ b => b).

(** * PodNamespace *)

Definition PodNamespace_generateDBItemToAdd (cloudItem : CloudModel.PodNamespace)
    : M (option MysqlModel.PodNamespace) :=
  c ← get_cache;
  podClusterID ←? GetPodClusterIDByLcuuid (CloudModel.PodNamespace_PodClusterLcuuid cloudItem);
  mret (Some
  {| MysqlModel.PodNamespace_Base := mkBase 0 (CloudModel.PodNamespace_Lcuuid cloudItem);
     MysqlModel.PodNamespace_SoftDeleteBase := zero_SoftDeleteBase;
     MysqlModel.PodNamespace_Name := CloudModel.PodNamespace_Name cloudItem;
     MysqlModel.PodNamespace_Alias := "";
     MysqlModel.PodNamespace_PodClusterID := podClusterID;
     MysqlModel.PodNamespace_AZ := CloudModel.PodNamespace_AZLcuuid cloudItem;
     MysqlModel.PodNamespace_Region := CloudModel.PodNamespace_RegionLcuuid cloudItem;
     MysqlModel.PodNamespace_SubDomain := CloudModel.PodNamespace_SubDomainLcuuid cloudItem;
     MysqlModel.PodNamespace_Domain := DomainLcuuid c |}).

Definition PodNamespace_generateUpdateInfo 
    (diffBase : DiffBase.PodNamespace) (cloudItem : CloudModel.PodNamespace) : M (option
        updateInfo) :=
  let info : updateInfo := ∅ in
  let info := put_if (DiffBase.PodNamespace_RegionLcuuid diffBase)
      (CloudModel.PodNamespace_RegionLcuuid cloudItem) "region" VString info in
  let info := put_if (DiffBase.PodNamespace_AZLcuuid diffBase) (CloudModel.PodNamespace_AZLcuuid
      cloudItem) "az" VString info in
  mret (if decide (info = ∅) then None else Some info).

#[global] Instance PodNamespace_updater
    : DataGenerator TPodNamespace CloudModel.PodNamespace :=
  @mkDataGenerator _ TPodNamespace CloudModel.PodNamespace CloudModel.PodNamespace_Lcuuid
    PodNamespace_generateDBItemToAdd PodNamespace_generateUpdateInfo (DiffBase.PodNamespace_Update).

(** * PodIngress *)

Definition PodIngress_generateDBItemToAdd (cloudItem : CloudModel.PodIngress)
    : M (option MysqlModel.PodIngress) :=
  c ← get_cache;
  podNamespaceID ←? GetPodNamespaceIDByLcuuid (CloudModel.PodIngress_PodNamespaceLcuuid cloudItem);
  podClusterID ←? GetPodClusterIDByLcuuid (CloudModel.PodIngress_PodClusterLcuuid cloudItem);
  mret (Some
  {| MysqlModel.PodIngress_Base := mkBase 0 (CloudModel.PodIngress_Lcuuid cloudItem);
     MysqlModel.PodIngress_SoftDeleteBase := zero_SoftDeleteBase;
     MysqlModel.PodIngress_Name := CloudModel.PodIngress_Name cloudItem;
     MysqlModel.PodIngress_Alias := "";
     MysqlModel.PodIngress_PodNamespaceID := podNamespaceID;
     MysqlModel.PodIngress_PodClusterID := podClusterID;
     MysqlModel.PodIngress_AZ := CloudModel.PodIngress_AZLcuuid cloudItem;
     MysqlModel.PodIngress_Region := CloudModel.PodIngress_RegionLcuuid cloudItem;
     MysqlModel.PodIngress_SubDomain := CloudModel.PodIngress_SubDomainLcuuid cloudItem;
     MysqlModel.PodIngress_Domain := DomainLcuuid c |}).

Definition PodIngress_generateUpdateInfo 
    (diffBase : DiffBase.PodIngress) (cloudItem : CloudModel.PodIngress) : M (option updateInfo) :=
  let info : updateInfo := ∅ in
  let info := put_if (DiffBase.PodIngress_Name diffBase) (CloudModel.PodIngress_Name cloudItem)
      "name" VString info in
  let info := put_if (DiffBase.PodIngress_RegionLcuuid diffBase)
      (CloudModel.PodIngress_RegionLcuuid cloudItem) "region" VString info in
  let info := put_if (DiffBase.PodIngress_AZLcuuid diffBase) (CloudModel.PodIngress_AZLcuuid
      cloudItem) "az" VString info in
  mret (if decide (info = ∅) then None else Some info).

#[global] Instance PodIngress_updater
    : DataGenerator TPodIngress CloudModel.PodIngress :=
  @mkDataGenerator _ TPodIngress CloudModel.PodIngress CloudModel.PodIngress_Lcuuid
    PodIngress_generateDBItemToAdd PodIngress_generateUpdateInfo (DiffBase.PodIngress_Update).

(** * PodIngressRule *)

Definition PodIngressRule_generateDBItemToAdd (cloudItem : CloudModel.PodIngressRule)
    : M (option MysqlModel.PodIngressRule) :=
  c ← get_cache;
  podIngressID ←? GetPodIngressIDByLcuuid (CloudModel.PodIngressRule_PodIngressLcuuid cloudItem);
  mret (Some
  {| MysqlModel.PodIngressRule_Base := mkBase 0 (CloudModel.PodIngressRule_Lcuuid cloudItem);
     MysqlModel.PodIngressRule_Name := CloudModel.PodIngressRule_Name cloudItem;
     MysqlModel.PodIngressRule_Protocol := CloudModel.PodIngressRule_Protocol cloudItem;
     MysqlModel.PodIngressRule_Host := CloudModel.PodIngressRule_Host cloudItem;
     MysqlModel.PodIngressRule_PodIngressID := podIngressID;
     MysqlModel.PodIngressRule_SubDomain := CloudModel.PodIngressRule_SubDomainLcuuid cloudItem |}).

Definition PodIngressRule_generateUpdateInfo 
    (diffBase : DiffBase.PodIngressRule) (cloudItem : CloudModel.PodIngressRule) : M (option
        updateInfo) :=
  mret None.

#[global] Instance PodIngressRule_updater
    : DataGenerator TPodIngressRule CloudModel.PodIngressRule :=
  @mkDataGenerator _ TPodIngressRule CloudModel.PodIngressRule CloudModel.PodIngressRule_Lcuuid
    PodIngressRule_generateDBItemToAdd PodIngressRule_generateUpdateInfo (fun _ b => b).

(** * PodIngressRuleBackend *)

Definition PodIngressRuleBackend_generateDBItemToAdd (cloudItem : CloudModel.PodIngressRuleBackend)
    : M (option MysqlModel.PodIngressRuleBackend) :=
  c ← get_cache;
  podIngressRuleID ←? GetPodIngressRuleIDByLcuuid
      (CloudModel.PodIngressRuleBackend_PodIngressRuleLcuuid cloudItem);
  podIngressID ←? GetPodIngressIDByLcuuid (CloudModel.PodIngressRuleBackend_PodIngressLcuuid
      cloudItem);
  podServiceID ←? GetPodServiceIDByLcuuid (CloudModel.PodIngressRuleBackend_PodServiceLcuuid
      cloudItem);
  mret (Some
  {| MysqlModel.PodIngressRuleBackend_Base := mkBase 0 (CloudModel.PodIngressRuleBackend_Lcuuid
      cloudItem);
     MysqlModel.PodIngressRuleBackend_Path := CloudModel.PodIngressRuleBackend_Path cloudItem;
     MysqlModel.PodIngressRuleBackend_Port := CloudModel.PodIngressRuleBackend_Port cloudItem;
     MysqlModel.PodIngressRuleBackend_PodServiceID := podServiceID;
     MysqlModel.PodIngressRuleBackend_PodIngressRuleID := podIngressRuleID;
     MysqlModel.PodIngressRuleBackend_PodIngressID := podIngressID;
     MysqlModel.PodIngressRuleBackend_SubDomain := CloudModel.PodIngressRuleBackend_SubDomainLcuuid
         cloudItem |}).

Definition PodIngressRuleBackend_generateUpdateInfo 
    (diffBase : DiffBase.PodIngressRuleBackend) (cloudItem : CloudModel.PodIngressRuleBackend) : M
        (option updateInfo) :=
  mret None.

#[global] Instance PodIngressRuleBackend_updater
    : DataGenerator TPodIngressRuleBackend CloudModel.PodIngressRuleBackend :=
  @mkDataGenerator _ TPodIngressRuleBackend CloudModel.PodIngressRuleBackend
      CloudModel.PodIngressRuleBackend_Lcuuid
    PodIngressRuleBackend_generateDBItemToAdd PodIngressRuleBackend_generateUpdateInfo (fun _ b =>
        b).

(** * PodService *)

Definition PodService_generateDBItemToAdd (cloudItem : CloudModel.PodService)
    : M (option MysqlModel.PodService) :=
  c ← get_cache;
  vpcID ←? GetVPCIDByLcuuid (CloudModel.PodService_VPCLcuuid cloudItem);
  podNamespaceID ← GetPodNamespaceIDByLcuuid (CloudModel.PodService_PodNamespaceLcuuid cloudItem);
  let podNamespaceID := default 0 podNamespaceID in
  podClusterID ←? GetPodClusterIDByLcuuid (CloudModel.PodService_PodClusterLcuuid cloudItem);
  podIngressID ←? (if decide (CloudModel.PodService_PodIngressLcuuid cloudItem ≠ "") then
      GetPodIngressIDByLcuuid (CloudModel.PodService_PodIngressLcuuid cloudItem) else mret (Some
      0));
  mret (Some
  {| MysqlModel.PodService_Base := mkBase 0 (CloudModel.PodService_Lcuuid cloudItem);
     MysqlModel.PodService_SoftDeleteBase := zero_SoftDeleteBase;
     MysqlModel.PodService_Name := CloudModel.PodService_Name cloudItem;
     MysqlModel.PodService_Alias := "";
     MysqlModel.PodService_Type := CloudModel.PodService_Type cloudItem;
     MysqlModel.PodService_Selector := CloudModel.PodService_Selector cloudItem;
     MysqlModel.PodService_ServiceClusterIP := CloudModel.PodService_ServiceClusterIP cloudItem;
     MysqlModel.PodService_PodIngressID := podIngressID;
     MysqlModel.PodService_PodNamespaceID := podNamespaceID;
     MysqlModel.PodService_PodClusterID := podClusterID;
     MysqlModel.PodService_VPCID := vpcID;
     MysqlModel.PodService_AZ := CloudModel.PodService_AZLcuuid cloudItem;
     MysqlModel.PodService_Region := CloudModel.PodService_RegionLcuuid cloudItem;
     MysqlModel.PodService_SubDomain := CloudModel.PodService_SubDomainLcuuid cloudItem;
     MysqlModel.PodService_Domain := DomainLcuuid c |}).

Definition PodService_generateUpdateInfo 
    (diffBase : DiffBase.PodService) (cloudItem : CloudModel.PodService) : M (option updateInfo) :=
  let info : updateInfo := ∅ in
  info ←? put_ref (DiffBase.PodService_PodIngressLcuuid diffBase)
      (CloudModel.PodService_PodIngressLcuuid cloudItem) "pod_ingress_id"
    (fun l => if decide (l ≠ "") then GetPodIngressIDByLcuuid l else mret (Some 0)) info;
  let info := put_if (DiffBase.PodService_Name diffBase) (CloudModel.PodService_Name cloudItem)
      "name" VString info in
  let info := put_if (DiffBase.PodService_Selector diffBase) (CloudModel.PodService_Selector
      cloudItem) "selector" VString info in
  let info := put_if (DiffBase.PodService_ServiceClusterIP diffBase)
      (CloudModel.PodService_ServiceClusterIP cloudItem) "service_cluster_ip" VString info in
  let info := put_if (DiffBase.PodService_RegionLcuuid diffBase)
      (CloudModel.PodService_RegionLcuuid cloudItem) "region" VString info in
  let info := put_if (DiffBase.PodService_AZLcuuid diffBase) (CloudModel.PodService_AZLcuuid
      cloudItem) "az" VString info in
  mret (if decide (info = ∅) then None else Some info).

#[global] Instance PodService_updater
    : DataGenerator TPodService CloudModel.PodService :=
  @mkDataGenerator _ TPodService CloudModel.PodService CloudModel.PodService_Lcuuid
    PodService_generateDBItemToAdd PodService_generateUpdateInfo (DiffBase.PodService_Update).

(** * PodServicePort *)

Definition PodServicePort_generateDBItemToAdd (cloudItem : CloudModel.PodServicePort)
    : M (option MysqlModel.PodServicePort) :=
  c ← get_cache;
  podServiceID ←? GetPodServiceIDByLcuuid (CloudModel.PodServicePort_PodServiceLcuuid cloudItem);
  mret (Some
  {| MysqlModel.PodServicePort_Base := mkBase 0 (CloudModel.PodServicePort_Lcuuid cloudItem);
     MysqlModel.PodServicePort_Name := CloudModel.PodServicePort_Name cloudItem;
     MysqlModel.PodServicePort_Protocol := CloudModel.PodServicePort_Protocol cloudItem;
     MysqlModel.PodServicePort_Port := CloudModel.PodServicePort_Port cloudItem;
     MysqlModel.PodServicePort_TargetPort := CloudModel.PodServicePort_TargetPort cloudItem;
     MysqlModel.PodServicePort_NodePort := CloudModel.PodServicePort_NodePort cloudItem;
     MysqlModel.PodServicePort_PodServiceID := podServiceID;
     MysqlModel.PodServicePort_SubDomain := CloudModel.PodServicePort_SubDomainLcuuid cloudItem |}).

Definition PodServicePort_generateUpdateInfo 
    (diffBase : DiffBase.PodServicePort) (cloudItem : CloudModel.PodServicePort) : M (option
        updateInfo) :=
  let info : updateInfo := ∅ in
  let info := put_if (DiffBase.PodServicePort_Name diffBase) (CloudModel.PodServicePort_Name
      cloudItem) "name" VString info in
  mret (if decide (info = ∅) then None else Some info).

#[global] Instance PodServicePort_updater
    : DataGenerator TPodServicePort CloudModel.PodServicePort :=
  @mkDataGenerator _ TPodServicePort CloudModel.PodServicePort CloudModel.PodServicePort_Lcuuid
    PodServicePort_generateDBItemToAdd PodServicePort_generateUpdateInfo
        (DiffBase.PodServicePort_Update).

(** * PodGroup *)

Definition PodGroup_generateDBItemToAdd (cloudItem : CloudModel.PodGroup)
    : M (option MysqlModel.PodGroup) :=
  c ← get_cache;
  podNamespaceID ←? GetPodNamespaceIDByLcuuid (CloudModel.PodGroup_PodNamespaceLcuuid cloudItem);
  podClusterID ←? GetPodClusterIDByLcuuid (CloudModel.PodGroup_PodClusterLcuuid cloudItem);
  mret (Some
  {| MysqlModel.PodGroup_Base := mkBase 0 (CloudModel.PodGroup_Lcuuid cloudItem);
     MysqlModel.PodGroup_SoftDeleteBase := zero_SoftDeleteBase;
     MysqlModel.PodGroup_Name := CloudModel.PodGroup_Name cloudItem;
     MysqlModel.PodGroup_Alias := "";
     MysqlModel.PodGroup_Type := CloudModel.PodGroup_Type cloudItem;
     MysqlModel.PodGroup_PodNum := CloudModel.PodGroup_PodNum cloudItem;
     MysqlModel.PodGroup_Label := CloudModel.PodGroup_Label cloudItem;
     MysqlModel.PodGroup_PodNamespaceID := podNamespaceID;
     MysqlModel.PodGroup_PodClusterID := podClusterID;
     MysqlModel.PodGroup_AZ := CloudModel.PodGroup_AZLcuuid cloudItem;
     MysqlModel.PodGroup_Region := CloudModel.PodGroup_RegionLcuuid cloudItem;
     MysqlModel.PodGroup_SubDomain := CloudModel.PodGroup_SubDomainLcuuid cloudItem;
     MysqlModel.PodGroup_Domain := DomainLcuuid c |}).

Definition PodGroup_generateUpdateInfo 
    (diffBase : DiffBase.PodGroup) (cloudItem : CloudModel.PodGroup) : M (option updateInfo) :=
  let info : updateInfo := ∅ in
  let info := put_if (DiffBase.PodGroup_Name diffBase) (CloudModel.PodGroup_Name cloudItem) "name"
      VString info in
  let info := put_if (DiffBase.PodGroup_Type diffBase) (CloudModel.PodGroup_Type cloudItem) "type"
      VInt info in
  let info := put_if (DiffBase.PodGroup_PodNum diffBase) (CloudModel.PodGroup_PodNum cloudItem)
      "pod_num" VInt info in
  let info := put_if (DiffBase.PodGroup_Label diffBase) (CloudModel.PodGroup_Label cloudItem)
      "label" VString info in
  let info := put_if (DiffBase.PodGroup_RegionLcuuid diffBase) (CloudModel.PodGroup_RegionLcuuid
      cloudItem) "region" VString info in
  let info := put_if (DiffBase.PodGroup_AZLcuuid diffBase) (CloudModel.PodGroup_AZLcuuid cloudItem)
      "az" VString info in
  mret (if decide (info = ∅) then None else Some info).

#[global] Instance PodGroup_updater
    : DataGenerator TPodGroup CloudModel.PodGroup :=
  @mkDataGenerator _ TPodGroup CloudModel.PodGroup CloudModel.PodGroup_Lcuuid
    PodGroup_generateDBItemToAdd PodGroup_generateUpdateInfo (DiffBase.PodGroup_Update).

(** * PodGroupPort *)

Definition PodGroupPort_generateDBItemToAdd (cloudItem : CloudModel.PodGroupPort)
    : M (option MysqlModel.PodGroupPort) :=
  c ← get_cache;
  podGroupID ←? GetPodGroupIDByLcuuid (CloudModel.PodGroupPort_PodGroupLcuuid cloudItem);
  podServiceID ←? GetPodServiceIDByLcuuid (CloudModel.PodGroupPort_PodServiceLcuuid cloudItem);
  mret (Some
  {| MysqlModel.PodGroupPort_Base := mkBase 0 (CloudModel.PodGroupPort_Lcuuid cloudItem);
     MysqlModel.PodGroupPort_Name := CloudModel.PodGroupPort_Name cloudItem;
     MysqlModel.PodGroupPort_Protocol := CloudModel.PodGroupPort_Protocol cloudItem;
     MysqlModel.PodGroupPort_Port := CloudModel.PodGroupPort_Port cloudItem;
     MysqlModel.PodGroupPort_PodGroupID := podGroupID;
     MysqlModel.PodGroupPort_PodServiceID := podServiceID;
     MysqlModel.PodGroupPort_SubDomain := CloudModel.PodGroupPort_SubDomainLcuuid cloudItem |}).

Definition PodGroupPort_generateUpdateInfo 
    (diffBase : DiffBase.PodGroupPort) (cloudItem : CloudModel.PodGroupPort) : M (option
        updateInfo) :=
  let info : updateInfo := ∅ in
  let info := put_if (DiffBase.PodGroupPort_Name diffBase) (CloudModel.PodGroupPort_Name cloudItem)
      "name" VString info in
  mret (if decide (info = ∅) then None else Some info).

#[global] Instance PodGroupPort_updater
    : DataGenerator TPodGroupPort CloudModel.PodGroupPort :=
  @mkDataGenerator _ TPodGroupPort CloudModel.PodGroupPort CloudModel.PodGroupPort_Lcuuid
    PodGroupPort_generateDBItemToAdd PodGroupPort_generateUpdateInfo (DiffBase.PodGroupPort_Update).

(** * PodReplicaSet *)

Definition PodReplicaSet_generateDBItemToAdd (cloudItem : CloudModel.PodReplicaSet)
    : M (option MysqlModel.PodReplicaSet) :=
  c ← get_cache;
  podNamespaceID ←? GetPodNamespaceIDByLcuuid (CloudModel.PodReplicaSet_PodNamespaceLcuuid
      cloudItem);
  podClusterID ←? GetPodClusterIDByLcuuid (CloudModel.PodReplicaSet_PodClusterLcuuid cloudItem);
  podGroupID ←? GetPodGroupIDByLcuuid (CloudModel.PodReplicaSet_PodGroupLcuuid cloudItem);
  mret (Some
  {| MysqlModel.PodReplicaSet_Base := mkBase 0 (CloudModel.PodReplicaSet_Lcuuid cloudItem);
     MysqlModel.PodReplicaSet_SoftDeleteBase := zero_SoftDeleteBase;
     MysqlModel.PodReplicaSet_Name := CloudModel.PodReplicaSet_Name cloudItem;
     MysqlModel.PodReplicaSet_Alias := "";
     MysqlModel.PodReplicaSet_Label := CloudModel.PodReplicaSet_Label cloudItem;
     MysqlModel.PodReplicaSet_PodNum := CloudModel.PodReplicaSet_PodNum cloudItem;
     MysqlModel.PodReplicaSet_PodGroupID := podGroupID;
     MysqlModel.PodReplicaSet_PodNamespaceID := podNamespaceID;
     MysqlModel.PodReplicaSet_PodClusterID := podClusterID;
     MysqlModel.PodReplicaSet_AZ := CloudModel.PodReplicaSet_AZLcuuid cloudItem;
     MysqlModel.PodReplicaSet_Region := CloudModel.PodReplicaSet_RegionLcuuid cloudItem;
     MysqlModel.PodReplicaSet_SubDomain := CloudModel.PodReplicaSet_SubDomainLcuuid cloudItem;
     MysqlModel.PodReplicaSet_Domain := DomainLcuuid c |}).

Definition PodReplicaSet_generateUpdateInfo 
    (diffBase : DiffBase.PodReplicaSet) (cloudItem : CloudModel.PodReplicaSet) : M (option
        updateInfo) :=
  let info : updateInfo := ∅ in
  let info := put_if (DiffBase.PodReplicaSet_Name diffBase) (CloudModel.PodReplicaSet_Name
      cloudItem) "name" VString info in
  let info := put_if (DiffBase.PodReplicaSet_PodNum diffBase) (CloudModel.PodReplicaSet_PodNum
      cloudItem) "pod_num" VInt info in
  let info := put_if (DiffBase.PodReplicaSet_RegionLcuuid diffBase)
      (CloudModel.PodReplicaSet_RegionLcuuid cloudItem) "region" VString info in
  let info := put_if (DiffBase.PodReplicaSet_AZLcuuid diffBase) (CloudModel.PodReplicaSet_AZLcuuid
      cloudItem) "az" VString info in
  let info := put_if (DiffBase.PodReplicaSet_Label diffBase) (CloudModel.PodReplicaSet_Label
      cloudItem) "label" VString info in
  mret (if decide (info = ∅) then None else Some info).

#[global] Instance PodReplicaSet_updater
    : DataGenerator TPodReplicaSet CloudModel.PodReplicaSet :=
  @mkDataGenerator _ TPodReplicaSet CloudModel.PodReplicaSet CloudModel.PodReplicaSet_Lcuuid
    PodReplicaSet_generateDBItemToAdd PodReplicaSet_generateUpdateInfo
        (DiffBase.PodReplicaSet_Update).

(** * Pod *)

Definition Pod_generateDBItemToAdd (cloudItem : CloudModel.Pod)
    : M (option MysqlModel.Pod) :=
  c ← get_cache;
  vpcID ←? GetVPCIDByLcuuid (CloudModel.Pod_VPCLcuuid cloudItem);
  podNodeID ←? GetPodNodeIDByLcuuid (CloudModel.Pod_PodNodeLcuuid cloudItem);
  podNamespaceID ←? GetPodNamespaceIDByLcuuid (CloudModel.Pod_PodNamespaceLcuuid cloudItem);
  podClusterID ←? GetPodClusterIDByLcuuid (CloudModel.Pod_PodClusterLcuuid cloudItem);
  podGroupID ←? GetPodGroupIDByLcuuid (CloudModel.Pod_PodGroupLcuuid cloudItem);
  podReplicaSetID ←? (if decide (CloudModel.Pod_PodReplicaSetLcuuid cloudItem ≠ "") then
      GetPodReplicaSetIDByLcuuid (CloudModel.Pod_PodReplicaSetLcuuid cloudItem) else mret (Some 0));
  mret (Some
  {| MysqlModel.Pod_Base := mkBase 0 (CloudModel.Pod_Lcuuid cloudItem);
     MysqlModel.Pod_SoftDeleteBase := if negb (IsZero (CloudModel.Pod_CreatedAt cloudItem)) then
         mkSoftDeleteBase (mkOperatedTime (CloudModel.Pod_CreatedAt cloudItem) zero_Time) None
       else zero_SoftDeleteBase;
     MysqlModel.Pod_Name := CloudModel.Pod_Name cloudItem;
     MysqlModel.Pod_Alias := "";
     MysqlModel.Pod_State := CloudModel.Pod_State cloudItem;
     MysqlModel.Pod_Label := CloudModel.Pod_Label cloudItem;
     MysqlModel.Pod_PodReplicaSetID := podReplicaSetID;
     MysqlModel.Pod_PodGroupID := podGroupID;
     MysqlModel.Pod_PodNamespaceID := podNamespaceID;
     MysqlModel.Pod_PodNodeID := podNodeID;
     MysqlModel.Pod_PodClusterID := podClusterID;
     MysqlModel.Pod_VPCID := vpcID;
     MysqlModel.Pod_AZ := CloudModel.Pod_AZLcuuid cloudItem;
     MysqlModel.Pod_Region := CloudModel.Pod_RegionLcuuid cloudItem;
     MysqlModel.Pod_SubDomain := CloudModel.Pod_SubDomainLcuuid cloudItem;
     MysqlModel.Pod_Domain := DomainLcuuid c |}).

Definition Pod_generateUpdateInfo 
    (diffBase : DiffBase.Pod) (cloudItem : CloudModel.Pod) : M (option updateInfo) :=
  let info : updateInfo := ∅ in
  info ←? put_ref (DiffBase.Pod_VPCLcuuid diffBase) (CloudModel.Pod_VPCLcuuid cloudItem) "epc_id"
      GetVPCIDByLcuuid info;
  info ←? put_ref (DiffBase.Pod_PodNodeLcuuid diffBase) (CloudModel.Pod_PodNodeLcuuid cloudItem)
      "pod_node_id" GetPodNodeIDByLcuuid info;
  info ←? put_ref (DiffBase.Pod_PodReplicaSetLcuuid diffBase) (CloudModel.Pod_PodReplicaSetLcuuid
      cloudItem) "pod_rs_id"
    (fun l => if decide (l ≠ "") then GetPodReplicaSetIDByLcuuid l else mret (Some 0)) info;
  let info := put_if (DiffBase.Pod_Name diffBase) (CloudModel.Pod_Name cloudItem) "name" VString
      info in
  let info := put_if (DiffBase.Pod_Label diffBase) (CloudModel.Pod_Label cloudItem) "label" VString
      info in
  let info := put_if (DiffBase.Pod_RegionLcuuid diffBase) (CloudModel.Pod_RegionLcuuid cloudItem)
      "region" VString info in
  let info := put_if (DiffBase.Pod_AZLcuuid diffBase) (CloudModel.Pod_AZLcuuid cloudItem) "az"
      VString info in
  let info := put_if (DiffBase.Pod_State diffBase) (CloudModel.Pod_State cloudItem) "state" VInt
      info in
  let info := put_if (DiffBase.Pod_CreatedAt diffBase) (CloudModel.Pod_CreatedAt cloudItem)
      "created_at" VTime info in
  mret (if decide (info = ∅) then None else Some info).

#[global] Instance Pod_updater
    : DataGenerator TPod CloudModel.Pod :=
  @mkDataGenerator _ TPod CloudModel.Pod CloudModel.Pod_Lcuuid
    Pod_generateDBItemToAdd Pod_generateUpdateInfo (DiffBase.Pod_Update).

End Resources.
