(* ===== verification/Recorder.v ===== *)
(** The recorder of a domain, [controller/recorder/recorder.go] and
    [recorder/updater/ip.go]: the caches of the domain and of its sub domains
    ([CacheManager] of [cache.go]) and the order in which the resources are added, updated
    and deleted. *)
From stdpp Require Import base strings gmap.
From S2P Require Import Prelude Strconv CloudModel MysqlModel DiffBase RecorderCache Updater.
From S2P Require Import UpdaterResources.

#[local] Open Scope Z_scope.

Section Recorder.
Context {DB : Mysql} {GM : GoMap} {GT : GoText}.

(** * The updaters *)

(** [ResourceUpdater] *)
Record ResourceUpdater := mkUpdater { handle_add : M unit; handle_delete : M unit }.

(** [NewX(cache, cloudData)] *)
Definition NewUpdater (t : Table) {CT : Type} {DG : DataGenerator t CT} (cloudData : list CT)
    : ResourceUpdater :=
  mkUpdater (HandleAddAndUpdate cloudData) (HandleDelete (t := t)).

(** [VIF_TYPE_WAN] *)
Definition VIF_TYPE_WAN : Z := 3.

(** [splitToWANAndLAN] *)
Fixpoint splitToWANAndLAN (c : Cache) (cloudData : list CloudModel.IP)
    : list CloudModel.IP * list CloudModel.IP :=
  match cloudData with
  | [] => ([], [])
  | cloudItem :: cloudData =>
      let '(wan, lan) := splitToWANAndLAN c cloudData in
      match diffs TVInterface c !! CloudModel.IP_VInterfaceLcuuid cloudItem with
      | None => (wan, lan)
      | Some vinterface =>
          if DiffBase.VInterface_Type vinterface =? VIF_TYPE_WAN then (cloudItem :: wan, lan)
          else (wan, cloudItem :: lan)
      end
  end.

(** The handlers of [IP]. *)
Definition IP_HandleAddAndUpdate (cloudData : list CloudModel.IP) : M unit :=
  c ← get_cache;
  let '(wanCloudData, lanCloudData) := splitToWANAndLAN c cloudData in
  HandleAddAndUpdate (t := TWANIP) wanCloudData ;;
  HandleAddAndUpdate (t := TLANIP) lanCloudData.

Definition IP_HandleDelete : M unit := HandleDelete (t := TWANIP) ;; HandleDelete (t := TLANIP).

Definition NewIP (cloudData : list CloudModel.IP) : ResourceUpdater :=
  mkUpdater (IP_HandleAddAndUpdate cloudData) IP_HandleDelete.

(** The resources of a domain in the order of creation; [CEN] is left out. *)
Definition getDomainUpdatersInOrder (cloudData : Resource) : list ResourceUpdater :=
  [NewUpdater TRegion (Resource_Regions cloudData);
   NewUpdater TAZ (Resource_AZs cloudData);
   NewUpdater TSubDomain (Resource_SubDomains cloudData);
   NewUpdater TVPC (Resource_VPCs cloudData);
   NewUpdater THost (Resource_Hosts cloudData);
   NewUpdater TVM (Resource_VMs cloudData);
   NewUpdater TPodCluster (Resource_PodClusters cloudData);
   NewUpdater TPodNode (Resource_PodNodes cloudData);
   NewUpdater TPodNamespace (Resource_PodNamespaces cloudData);
   NewUpdater TPodIngress (Resource_PodIngresses cloudData);
   NewUpdater TPodIngressRule (Resource_PodIngressRules cloudData);
   NewUpdater TPodService (Resource_PodServices cloudData);
   NewUpdater TPodIngressRuleBackend (Resource_PodIngressRuleBackends cloudData);
   NewUpdater TPodServicePort (Resource_PodServicePorts cloudData);
   NewUpdater TPodGroup (Resource_PodGroups cloudData);
   NewUpdater TPodGroupPort (Resource_PodGroupPorts cloudData);
   NewUpdater TPodReplicaSet (Resource_PodReplicaSets cloudData);
   NewUpdater TPod (Resource_Pods cloudData);
   NewUpdater TNetwork (Resource_Networks cloudData);
   NewUpdater TSubnet (Resource_Subnets cloudData);
   NewUpdater TVRouter (Resource_VRouters cloudData);
   NewUpdater TRoutingTable (Resource_RoutingTables cloudData);
   NewUpdater TDHCPPort (Resource_DHCPPorts cloudData);
   NewUpdater TSecurityGroup (Resource_SecurityGroups cloudData);
   NewUpdater TSecurityGroupRule (Resource_SecurityGroupRules cloudData);
   NewUpdater TVMSecurityGroup (Resource_VMSecurityGroups cloudData);
   NewUpdater TNATGateway (Resource_NATGateways cloudData);
   NewUpdater TNATVMConnection (Resource_NATVMConnections cloudData);
   NewUpdater TNATRule (Resource_NATRules cloudData);
   NewUpdater TLB (Resource_LBs cloudData);
   NewUpdater TLBVMConnection (Resource_LBVMConnections cloudData);
   NewUpdater TLBListener (Resource_LBListeners cloudData);
   NewUpdater TLBTargetServer (Resource_LBTargetServers cloudData);
   NewUpdater TRDSInstance (Resource_RDSInstances cloudData);
   NewUpdater TRedisInstance (Resource_RedisInstances cloudData);
   NewUpdater TPeerConnection (Resource_PeerConnections cloudData);
   NewUpdater TVInterface (Resource_VInterfaces cloudData);
   NewUpdater TFloatingIP (Resource_FloatingIPs cloudData);
   NewIP (Resource_IPs cloudData);
   NewUpdater TVMPodNodeConnection (Resource_VMPodNodeConnections cloudData)].

Definition getSubDomainUpdatersInOrder (cloudData : SubDomainResource) : list ResourceUpdater :=
  [NewUpdater TPodCluster (SubDomainResource_PodClusters cloudData);
   NewUpdater TPodNode (SubDomainResource_PodNodes cloudData);
   NewUpdater TPodNamespace (SubDomainResource_PodNamespaces cloudData);
   NewUpdater TPodIngress (SubDomainResource_PodIngresses cloudData);
   NewUpdater TPodIngressRule (SubDomainResource_PodIngressRules cloudData);
   NewUpdater TPodService (SubDomainResource_PodServices cloudData);
   NewUpdater TPodIngressRuleBackend (SubDomainResource_PodIngressRuleBackends cloudData);
   NewUpdater TPodServicePort (SubDomainResource_PodServicePorts cloudData);
   NewUpdater TPodGroup (SubDomainResource_PodGroups cloudData);
   NewUpdater TPodGroupPort (SubDomainResource_PodGroupPorts cloudData);
   NewUpdater TPodReplicaSet (SubDomainResource_PodReplicaSets cloudData);
   NewUpdater TPod (SubDomainResource_Pods cloudData);
   NewUpdater TNetwork (SubDomainResource_Networks cloudData);
   NewUpdater TSubnet (SubDomainResource_Subnets cloudData);
   NewUpdater TVInterface (SubDomainResource_VInterfaces cloudData);
   NewIP (SubDomainResource_IPs cloudData);
   NewUpdater TVMPodNodeConnection (SubDomainResource_VMPodNodeConnections cloudData)].

(** The deletions go in the reverse order; of a domain, the connections between virtual
    machines and container nodes, which were created last, are deleted last as well.  The
    loop of a sub domain starts at the last but one. *)
Definition refresh_domain (updaters : list ResourceUpdater) : M unit :=
  for_each handle_add updaters ;;
  for_each handle_delete (reverse (take (length updaters - 1) updaters)) ;;
  match last updaters with
  | Some vmPodNodeConnectionUpdater => handle_delete vmPodNodeConnectionUpdater
  | None => panic
  end.

Definition refresh_sub_domain (updaters : list ResourceUpdater) : M unit :=
  for_each handle_add updaters ;;
  for_each handle_delete (reverse (take (length updaters - 1) updaters)).

(** * The caches *)

(** [CacheManager] *)
Record CacheManager := mkCacheManager {
  DomainCache : Cache;
  SubDomainCacheMap : gmap string Cache
}.

(** What a recorder works on. *)
Record RecorderWorld := mkRecorderWorld {
  r_manager : CacheManager;
  r_db : dbst;
  r_sent : list Statement
}.

Definition R (A : Type) : Type := ST RecorderWorld A.

(** Code of one cache, run on the cache of the domain, and on that of a sub domain:
    [GetSubDomainCache] gives a new cache when the manager has none, and does not keep it. *)
Definition on_domain {A} (m : M A) : R A := fun r =>
  match m (mkWorld (DomainCache (r_manager r)) (r_db r) (r_sent r)) with
  | Some (a, w) =>
      Some (a, mkRecorderWorld (mkCacheManager (w_cache w) (SubDomainCacheMap (r_manager r)))
                 (w_db w) (w_sent w))
  | None => None
  end.

Definition GetSubDomainCache (subDomainLcuuid : string) (m : CacheManager) : Cache :=
  match SubDomainCacheMap m !! subDomainLcuuid with
  | Some c => c
  | None =>
      let c := NewCache (DomainLcuuid (DomainCache m)) in
      mkCache (Sequence c) (DomainLcuuid c) subDomainLcuuid (Cache_DiffBaseDataSet c)
          (Cache_ToolDataSet c)
  end.

Definition on_sub_domain {A} (subDomainLcuuid : string) (m : M A) : R A := fun r =>
  let mng := r_manager r in
  match m (mkWorld (GetSubDomainCache subDomainLcuuid mng) (r_db r) (r_sent r)) with
  | Some (a, w) =>
      let subs := match SubDomainCacheMap mng !! subDomainLcuuid with
                  | Some _ => <[subDomainLcuuid := w_cache w]> (SubDomainCacheMap mng)
                  | None => SubDomainCacheMap mng
                  end in
      Some (a, mkRecorderWorld (mkCacheManager (DomainCache mng) subs) (w_db w) (w_sent w))
  | None => None
  end.

Definition on_db {A} (q : dbst -> A * dbst) : R A := fun r =>
  let '(a, d) := q (r_db r) in Some (a, mkRecorderWorld (r_manager r) d (r_sent r)).

(** A [Save], whose error is not looked at. *)
Definition on_db_save (s : Statement) (f : dbst -> dbst) : R unit := fun r =>
  Some (tt, mkRecorderWorld (r_manager r) (f (r_db r)) (r_sent r ++ [s])).

(** [NewCacheManager]: a cache per sub domain that the database has now. *)
Definition NewCacheManager (domainLcuuid : string) (d : dbst) : CacheManager * dbst :=
  let '(subDomains, d) := find_where TSubDomain [ColEq "domain" (VString domainLcuuid)] d in
  let sub (subDomain : MysqlModel.SubDomain) :=
    let c := NewCache domainLcuuid in
    let l := Lcuuid (MysqlModel.SubDomain_Base subDomain) in
    (l, mkCache (Sequence c) (DomainLcuuid c) l (Cache_DiffBaseDataSet c) (Cache_ToolDataSet c)) in
  (mkCacheManager (NewCache domainLcuuid) (list_to_map (reverse (sub <$> default [] subDomains))),
      d).

Definition manager_Refresh : R unit :=
  on_domain Cache_Refresh ;;
  r ← get_state;
  for_each (fun p => on_sub_domain p.1 Cache_Refresh) (range_map (SubDomainCacheMap (r_manager r))).

Definition UpdateSequence : R unit :=
  modify (fun r =>
    let seq := i64 (Sequence (DomainCache (r_manager r)) + 1) in
    mkRecorderWorld
      (mkCacheManager (SetCacheSequence seq (DomainCache (r_manager r)))
         (SetCacheSequence seq <$> SubDomainCacheMap (r_manager r)))
      (r_db r) (r_sent r)).

(** * States *)

(** The level of a state, 0 for one that the table does not have. *)
Definition stateToLevel (state : Z) : Z :=
  if state =? 1 then 1 else if state =? 4 then 2 else if state =? 3 then 3 else 0.

Definition SUB_DOMAIN_ERROR_DISPLAY_NUM : nat := 10.

Definition newline : string := String (Ascii.ascii_of_nat 10) EmptyString.

Definition formatDomainStateInfo (domainResource : Resource) : Z * string :=
  let subs := (range_map (Resource_SubDomainResources domainResource)).*2 in
  let state :=
    foldl (fun state sub =>
             if stateToLevel (SubDomainResource_ErrorState sub) >? stateToLevel state
             then SubDomainResource_ErrorState sub else state)
      (Resource_ErrorState domainResource) subs in
  let subDomainErrMsgs := filter (fun s => s <> "") (SubDomainResource_ErrorMessage <$> subs) in
  let errMsg := Resource_ErrorMessage domainResource in
  if decide (subDomainErrMsgs = []) then (state, errMsg)
  else
    let errMsg := if decide (errMsg <> "") then errMsg +:+ newline +:+ newline else errMsg in
    let errMsg := errMsg +:+ "共有" +:+ FormatInt (zlen subDomainErrMsgs) 10 +:+
                    "个附属容器集群存在异常" +:+ newline in
    let msgs :=
      if decide (SUB_DOMAIN_ERROR_DISPLAY_NUM < length subDomainErrMsgs)%nat then
        Join (take SUB_DOMAIN_ERROR_DISPLAY_NUM subDomainErrMsgs) newline +:+ newline +:+ "..."
      else Join subDomainErrMsgs newline in
    (state, errMsg +:+ msgs).

(** The row of the domain with the time and the state of a refresh. *)
Definition synced_Domain (now : Time) (domainData : Resource) (domain : Domain) : Domain :=
  let '(state, errorMsg) := formatDomainStateInfo domainData in
  {| Domain_Base := Domain_Base domain;
     Domain_OperatedTime := Domain_OperatedTime domain;
     Domain_SyncedAt := Some now;
     Domain_Name := Domain_Name domain;
     Domain_IconID := Domain_IconID domain;
     Domain_DisplayName := Domain_DisplayName domain;
     Domain_ClusterID := Domain_ClusterID domain;
     Domain_Type := Domain_Type domain;
     Domain_Config := Domain_Config domain;
     Domain_ErrorMsg := errorMsg;
     Domain_Enabled := Domain_Enabled domain;
     Domain_State := state;
     Domain_ControllerIP := Domain_ControllerIP domain |}.

Definition syncDomain (now : Time) (domainLcuuid : string) (domainData : Resource) : R unit :=
  domain ← on_db (find_Domain domainLcuuid);
  match domain with
  | None => mret tt
  | Some domain =>
      let domain := synced_Domain now domainData domain in
      on_db_save (SSaveDomain domain) (save_Domain domain)
  end.

Definition synced_SubDomain (now : Time) (subDomainResource : SubDomainResource)
    (subDomain : MysqlModel.SubDomain) : MysqlModel.SubDomain :=
  {| MysqlModel.SubDomain_Base := MysqlModel.SubDomain_Base subDomain;
     MysqlModel.SubDomain_OperatedTime := MysqlModel.SubDomain_OperatedTime subDomain;
     MysqlModel.SubDomain_SyncedAt := Some now;
     MysqlModel.SubDomain_Domain := MysqlModel.SubDomain_Domain subDomain;
     MysqlModel.SubDomain_Name := MysqlModel.SubDomain_Name subDomain;
     MysqlModel.SubDomain_DisplayName := MysqlModel.SubDomain_DisplayName subDomain;
     MysqlModel.SubDomain_CreateMethod := MysqlModel.SubDomain_CreateMethod subDomain;
     MysqlModel.SubDomain_ClusterID := MysqlModel.SubDomain_ClusterID subDomain;
     MysqlModel.SubDomain_Config := MysqlModel.SubDomain_Config subDomain;
     MysqlModel.SubDomain_ErrorMsg := SubDomainResource_ErrorMessage subDomainResource;
     MysqlModel.SubDomain_Enabled := MysqlModel.SubDomain_Enabled subDomain;
     MysqlModel.SubDomain_State := SubDomainResource_ErrorState subDomainResource |}.

Definition syncSubDomain (now : Time) (lcuuid : string) (subDomainResource : SubDomainResource) : R
    unit :=
  subDomain ← on_db (find_lcuuid TSubDomain lcuuid);
  match subDomain with
  | None => mret tt
  | Some subDomain =>
      let subDomain := synced_SubDomain now subDomainResource subDomain in
      on_db_save (SSave TSubDomain subDomain) (save TSubDomain subDomain)
  end.

(** * A refresh *)

Definition checkCloudData (domainLcuuid : string) (cloudData : Resource) : R bool :=
  domain ← on_db (find_Domain domainLcuuid);
  match domain with
  | None => mret false
  | Some _ =>
      mret (Resource_Verified cloudData
            || (negb (bool_decide (Resource_Networks cloudData = [])
                      || bool_decide (Resource_VInterfaces cloudData = []))
                && negb (bool_decide (Resource_VMs cloudData = [])
                         && bool_decide (Resource_Pods cloudData = []))))
  end.

(** The body of one sub domain. *)
Definition refresh_one_sub_domain (now : Time) (p : string * SubDomainResource) : R unit :=
  let '(subDomainLcuuid, subDomainResource) := p in
  if SubDomainResource_Verified subDomainResource then
    syncSubDomain now subDomainLcuuid subDomainResource ;;
    on_sub_domain subDomainLcuuid (refresh_sub_domain (getSubDomainUpdatersInOrder
        subDomainResource))
  else mret tt.

(** The goroutine of [runNewRefreshWhole], up to the channel. *)
Definition runNewRefreshWhole (now : Time) (domainLcuuid : string) (cloudData : Resource) : R unit
    :=
  ok ← checkCloudData domainLcuuid cloudData;
  if (ok : bool) then
    UpdateSequence ;;
    syncDomain now domainLcuuid cloudData ;;
    on_domain (refresh_domain (getDomainUpdatersInOrder cloudData)) ;;
    for_each (refresh_one_sub_domain now) (range_map (Resource_SubDomainResources cloudData))
  else mret tt.

End Recorder.
