(* ===== verification/CacheFacts.v ===== *)
(** Facts of the recorder's cache ([RecorderCache.v]): what [gorm] and MySQL promise as the
    laws of the interface, and what each function of the cache changes.  The functions that
    look an identifier up change neither the diff bases nor the rows; [AddItem] and
    [DeleteItem] change the diff base of one identifier. *)
From stdpp Require Import base strings gmap functions.
From S2P Require Import Prelude CloudModel MysqlModel DiffBase RecorderCache Updater.

#[local] Open Scope Z_scope.

(** * The laws of the database *)

(** A table as the recorder sees it: identifiers to keys, with a mark for deleted rows. *)
Notation rows := (gmap string (Z * bool)).

Definition live (r : rows) (l : string) : Prop := exists id, r !! l = Some (id, false).

(** What [Delete] leaves of the rows that satisfy a condition, and of the others. *)
Definition mark_deleted (soft : bool) (P : string -> Z -> bool) (r : rows) : rows :=
  map_imap (fun l '(id, deleted) =>
              if P l id then if soft then Some (id, true) else None
              else Some (id, deleted)) r.

(** The rows of items. *)
Definition rows_of {t : Table} (items : list (Model t)) : rows :=
  list_to_map ((fun m => (GetLcuuid m, (GetID m, false))) <$> items).

(** [Create] keeps what the item says, the key if it has one, and fills in key and times. *)
Definition stamped {t : Table} (m m' : Model t) : Prop :=
  exists id created updated, m' = row_stamp id created updated m /\ (GetID m <> 0 -> id = GetID m).

(** What [Create] needs: identifiers and keys that are not there yet. *)
Record insertable {t : Table} (r : rows) (items : list (Model t)) : Prop := {
  ins_some : items <> [];
  ins_lcuuid : NoDup (GetLcuuid <$> items);
  ins_new m : m ∈ items -> r !! GetLcuuid m = None;
  ins_key m m' : m ∈ items -> m' ∈ items -> GetID m <> 0 -> GetID m = GetID m' -> m = m';
  ins_key_new m l p : m ∈ items -> r !! l = Some p -> GetID m <> 0 -> GetID m <> p.1
}.

Section Laws.
Context {DB : Mysql}.

(** [up]: the server answers, and goes on doing so. *)
Class MysqlLaws := {
  table : Table -> dbst -> rows;
  up : dbst -> Prop;
  table_keys t d l l' id b b' :
    table t d !! l = Some (id, b) -> table t d !! l' = Some (id, b') -> l = l';
  find_lcuuid_law t l d r d' : find_lcuuid t l d = (r, d') ->
    (forall t', table t' d' = table t' d) /\ (up d -> up d') /\
    match r with
    | Some m => GetLcuuid m = l /\ table t d !! l = Some (GetID m, false)
    | None => up d -> ~ live (table t d) l
    end;
  find_id_law t id d r d' : find_id t id d = (r, d') ->
    (forall t', table t' d' = table t' d) /\ (up d -> up d') /\
    (forall m, r = Some m -> GetID m = id /\ table t d !! GetLcuuid m = Some (id, false));
  find_lcuuid_int_law t id d r d' : find_lcuuid_int t id d = (r, d') ->
    (forall t', table t' d' = table t' d) /\ (up d -> up d') /\
    (forall m, r = Some m -> table t d !! GetLcuuid m = Some (GetID m, false));
  find_where_law t conds d r d' : find_where t conds d = (r, d') ->
    (forall t', table t' d' = table t' d) /\ (up d -> up d') /\
    match r with
    | Some ms => Forall (fun m => table t d !! GetLcuuid m = Some (GetID m, false)) ms
    | None => ~ up d
    end;
  find_unscoped_law t ls d r d' : find_unscoped t ls d = (r, d') ->
    (forall t', table t' d' = table t' d) /\ (up d -> up d') /\
    match r with
    | Some ms =>
        NoDup (GetLcuuid <$> ms) /\
        (forall m, m ∈ ms -> GetLcuuid m ∈ ls /\ fst <$> table t d !! GetLcuuid m = Some (GetID m)) /\
        (forall l, l ∈ ls -> is_Some (table t d !! l) -> l ∈ GetLcuuid <$> ms)
    | None => ~ up d
    end;
  find_connections_law t ls d r d' : find_connections t ls d = (r, d') ->
    (forall t', table t' d' = table t' d) /\ (up d -> up d') /\ (r = None -> ~ up d);
  create_law t ms d r d' : create t ms d = (r, d') ->
    (forall t', t' <> t -> table t' d' = table t' d) /\ (up d -> up d') /\
    match r with
    | Some ms' =>
        Forall2 stamped ms ms' /\ table t d' = rows_of ms' ∪ table t d /\
        NoDup (GetLcuuid <$> ms) /\ (forall m, m ∈ ms -> table t d !! GetLcuuid m = None)
    | None => table t d' = table t d /\ (up d -> ~ insertable (table t d) ms)
    end;
  updates_law t l info d r d' : updates t l info d = (r, d') ->
    (forall t', table t' d' = table t' d) /\ (up d -> up d') /\
    (r = false -> up d -> ~ dom info ⊆ list_to_set (columns t).*1);
  delete_in_law t ls d r d' : delete_in t ls d = (r, d') ->
    (forall t', t' <> t -> table t' d' = table t' d) /\ (up d -> up d') /\
    if r then table t d' = mark_deleted (has_DeletedAt t) (fun l _ => bool_decide (l ∈ ls)) (table t d)
    else table t d' = table t d /\ ~ up d;
  delete_row_law t m d r d' : delete_row t m d = (r, d') ->
    (forall t', t' <> t -> table t' d' = table t' d) /\ (up d -> up d') /\
    if r then table t d' = mark_deleted (has_DeletedAt t) (fun _ id => bool_decide (id = GetID m)) (table t d)
    else table t d' = table t d /\ ~ up d;
  delete_unscoped_law t ms d r d' : delete_unscoped t ms d = (r, d') ->
    (forall t', t' <> t -> table t' d' = table t' d) /\ (up d -> up d') /\
    if r then table t d' = mark_deleted false (fun _ id => bool_decide (id ∈ GetID <$> ms)) (table t d)
    else table t d' = table t d /\ ~ up d;
  save_law t m d : table t d !! GetLcuuid m = Some (GetID m, false) ->
    (forall t', table t' (save t m d) = table t' d) /\ (up d -> up (save t m d));
  find_Domain_law l d r d' : find_Domain l d = (r, d') ->
    (forall t', table t' d' = table t' d) /\ (up d -> up d');
  save_Domain_law m d : (forall t', table t' (save_Domain m d) = table t' d) /\ (up d -> up (save_Domain m d))
}.
End Laws.

(** * The parts of a cache *)

Lemma alter_diffs_eq t f b : alter_diffs t f b t = f (b t).
Proof.
  unfold alter_diffs. destruct (decide (t = t)) as [E|]; [|done].
  by rewrite (Eqdep_dec.UIP_dec (decide_rel (=)) E eq_refl).
Qed.

Lemma alter_diffs_ne t t' f b : t <> t' -> alter_diffs t f b t' = b t'.
Proof. intros H. unfold alter_diffs. by destruct (decide (t = t')). Qed.

Lemma diffs_set_eq t f c : diffs t (set_diffs t f c) = f (diffs t c).
Proof. apply alter_diffs_eq. Qed.

Lemma diffs_set_ne t t' f c : t <> t' -> diffs t' (set_diffs t f c) = diffs t' c.
Proof. apply alter_diffs_ne. Qed.

Section Facts.
Context {DB : Mysql} {ML : MysqlLaws}.

Implicit Types w : World DB.

(** The diff bases and the rows of a table in a world. *)
Definition D (t : Table) (w : World DB) : gmap string (Diff t) := diffs t (w_cache w).

Definition T (t : Table) (w : World DB) : rows := table t (w_db w).

(** What no function of the cache changes. *)
Record keeps (w w' : World DB) : Prop := mkKeeps {
  k_sequence : Sequence (w_cache w') = Sequence (w_cache w);
  k_domain : DomainLcuuid (w_cache w') = DomainLcuuid (w_cache w);
  k_sub_domain : SubDomainLcuuid (w_cache w') = SubDomainLcuuid (w_cache w);
  k_up : up (w_db w) -> up (w_db w')
}.

(** [quiet]: nothing but the maps of [tool_map.go] changes.  [touches t f]: besides these,
    the diff bases of [t] change by [f]. *)
Record quiet (w w' : World DB) : Prop := mkQuiet {
  q_keeps : keeps w w';
  q_diffs t : D t w' = D t w;
  q_rows t : T t w' = T t w;
  q_sent : w_sent w' = w_sent w
}.

Record touches (t : Table) (f : gmap string (Diff t) -> gmap string (Diff t)) (w w' : World DB)
    : Prop := mkTouches {
  to_keeps : keeps w w';
  to_diffs : D t w' = f (D t w);
  to_other t' : t' <> t -> D t' w' = D t' w;
  to_rows t' : T t' w' = T t' w;
  to_sent : w_sent w' = w_sent w
}.

#[export] Instance keeps_preorder : PreOrder keeps.
Proof.
  split; [by constructor|]. intros w w' w'' [] []. constructor; try congruence. auto.
Qed.

#[export] Instance quiet_preorder : PreOrder quiet.
Proof.
  split; [by constructor|]. intros w w' w'' [] []. constructor; intros; try congruence. by etransitivity.
Qed.

Lemma touches_quiet t f w w' w'' : touches t f w w' -> quiet w' w'' -> touches t f w w''.
Proof.
  intros [K D1 D2 R S] [K' D' R' S']. constructor; intros; rewrite ?D', ?R', ?S'; auto. by etransitivity.
Qed.

Lemma quiet_touches t f w w' w'' : quiet w w' -> touches t f w' w'' -> touches t f w w''.
Proof.
  intros [K' D' R' S'] [K D1 D2 R S]. constructor; intros; rewrite ?D1, ?D2, ?R, ?S, ?D', ?R', ?S' by done; auto.
  by etransitivity.
Qed.

Lemma touches_touches t f g w w' w'' :
  touches t f w w' -> touches t g w' w'' -> touches t (fun m => g (f m)) w w''.
Proof.
  intros [K D1 D2 R S] [K' D1' D2' R' S']. constructor; intros.
  - by etransitivity.
  - by rewrite D1', D1.
  - by rewrite D2', D2.
  - by rewrite R', R.
  - by rewrite S', S.
Qed.

(** * Steps *)

Lemma runs_get_cache w (Q : Cache -> World DB -> Prop) : Q (w_cache w) w -> runs get_cache w Q.
Proof. done. Qed.

Lemma runs_on_cache f w (Q : unit -> World DB -> Prop) :
  Q tt (mkWorld (f (w_cache w)) (w_db w) (w_sent w)) -> runs (on_cache f) w Q.
Proof. done. Qed.

Lemma runs_query {A} (q : dbst -> A * dbst) w (Q : A -> World DB -> Prop) :
  (forall a d, q (w_db w) = (a, d) -> Q a (mkWorld (w_cache w) d (w_sent w))) -> runs (query q) w Q.
Proof. intros H. unfold runs, query. destruct (q (w_db w)) as [a d] eqn:E. by apply H. Qed.

Lemma runs_execute {A} s (q : dbst -> A * dbst) w (Q : A -> World DB -> Prop) :
  (forall a d, q (w_db w) = (a, d) -> Q a (mkWorld (w_cache w) d (w_sent w ++ [s]))) ->
  runs (execute s q) w Q.
Proof. intros H. unfold runs, execute. destruct (q (w_db w)) as [a d] eqn:E. by apply H. Qed.

(** A query whose answer leaves the rows as they were. *)
Lemma quiet_query w d :
  (forall t, table t d = table t (w_db w)) -> (up (w_db w) -> up d) -> quiet w (mkWorld (w_cache w) d (w_sent w)).
Proof. intros HT Hu. by constructor. Qed.

Lemma quiet_tool w f : quiet w (mkWorld (set_tool f (w_cache w)) (w_db w) (w_sent w)).
Proof. by constructor. Qed.

Lemma touches_put t l b w : touches t (<[l := b]>) w (mkWorld (set_diffs t (<[l := b]>) (w_cache w)) (w_db w) (w_sent w)).
Proof. constructor; intros; try done; [apply diffs_set_eq|by apply diffs_set_ne]. Qed.

Lemma touches_delete t l w : touches t (delete l) w (mkWorld (set_diffs t (delete l) (w_cache w)) (w_db w) (w_sent w)).
Proof. constructor; intros; try done; [apply diffs_set_eq|by apply diffs_set_ne]. Qed.

(** * Look-ups *)

Lemma GetIDByLcuuid_ok t l w :
  runs (GetIDByLcuuid t l) w (fun r w' => quiet w w' /\ (up (w_db w) -> live (T t w) l -> is_Some r)).
Proof.
  unfold GetIDByLcuuid. apply runs_bind, runs_get_cache.
  destruct (LcuuidToID _ t !! l) as [id|]; [apply runs_ret; split; [reflexivity|by eauto]|].
  apply runs_bind, runs_query. intros row d E. destruct (find_lcuuid_law _ _ _ _ _ E) as (HT & Hu & Hr).
  destruct row as [m|].
  - apply runs_bind, runs_on_cache, runs_ret. split; [|eauto].
    etransitivity; [by apply (quiet_query w d)|]. apply (quiet_tool (mkWorld (w_cache w) d (w_sent w))).
  - apply runs_ret. split; [by apply quiet_query|]. intros Hup Hl. by destruct (Hr Hup).
Qed.

Lemma GetLcuuidByID_ok t find id w :
  (forall id d r d', find id d = (r, d') -> (forall t', table t' d' = table t' d) /\ (up d -> up d')) ->
  runs (GetLcuuidByID t find id) w (fun _ w' => quiet w w').
Proof.
  intros Hf. unfold GetLcuuidByID. apply runs_bind, runs_get_cache.
  destruct (IDToLcuuid _ t !! id) as [l|]; [apply runs_ret; reflexivity|].
  apply runs_bind, runs_query. intros row d E. destruct (Hf _ _ _ _ E) as (HT & Hu).
  destruct row as [m|]; [|by apply runs_ret, quiet_query].
  apply runs_bind, runs_on_cache, runs_ret.
  etransitivity; [by apply (quiet_query w d)|]. apply (quiet_tool (mkWorld (w_cache w) d (w_sent w))).
Qed.

Lemma find_id_quiet t id d r d' : find_id t id d = (r, d') ->
  (forall t', table t' d' = table t' d) /\ (up d -> up d').
Proof. intros E. by destruct (find_id_law _ _ _ _ _ E) as (? & ? & _). Qed.

Lemma find_lcuuid_int_quiet t id d r d' : find_lcuuid_int t id d = (r, d') ->
  (forall t', table t' d' = table t' d) /\ (up d -> up d').
Proof. intros E. by destruct (find_lcuuid_int_law _ _ _ _ _ E) as (? & ? & _). Qed.

(** A reference that [GetNetworkIDByLcuuid] resolves: the public network always. *)
Definition known_network (w : World DB) (l : string) : Prop :=
  l <> PUBLIC_NETWORK_LCUUID -> live (T TNetwork w) l.

Lemma GetNetworkIDByLcuuid_ok l w :
  runs (GetNetworkIDByLcuuid l) w
    (fun r w' => quiet w w' /\ (up (w_db w) -> known_network w l -> is_Some r)).
Proof.
  unfold GetNetworkIDByLcuuid. destruct (decide _).
  - apply runs_bind, runs_get_cache, runs_ret. split; [reflexivity|by eauto].
  - eapply runs_mono; [apply GetIDByLcuuid_ok|]. intros r w' [Hq Hr]. split; [done|]. intros Hup Hk. auto.
Qed.

Lemma GetNetworkLcuuidByID_ok id w : runs (GetNetworkLcuuidByID id) w (fun _ w' => quiet w w').
Proof.
  unfold GetNetworkLcuuidByID. apply runs_bind, runs_get_cache. destruct (decide _).
  - apply runs_ret. reflexivity.
  - apply GetLcuuidByID_ok. intros. by eapply find_lcuuid_int_quiet.
Qed.

Lemma GetNetworkIDByVInterfaceLcuuid_ok l w :
  runs (GetNetworkIDByVInterfaceLcuuid l) w
    (fun r w' => quiet w w' /\ (up (w_db w) -> live (T TVInterface w) l -> is_Some r)).
Proof.
  unfold GetNetworkIDByVInterfaceLcuuid. apply runs_bind, runs_get_cache.
  destruct (VInterfaceLcuuidToNetworkID _ !! l) as [id|]; [apply runs_ret; split; [reflexivity|by eauto]|].
  apply runs_bind, runs_query. intros row d E. destruct (find_lcuuid_law TVInterface _ _ _ _ E) as (HT & Hu & Hr).
  destruct row as [m|].
  - apply runs_bind, runs_on_cache, runs_ret. split; [|eauto].
    etransitivity; [by apply (quiet_query w d)|]. apply (quiet_tool (mkWorld (w_cache w) d (w_sent w))).
  - apply runs_ret. split; [by apply quiet_query|]. intros Hup Hl. by destruct (Hr Hup).
Qed.

Lemma GetDeviceIDByDeviceLcuuid_ok ty l w :
  runs (GetDeviceIDByDeviceLcuuid ty l) w
    (fun r w' => quiet w w' /\
       (up (w_db w) -> forall t, device_table ty = Some t -> live (T t w) l -> is_Some r)).
Proof.
  unfold GetDeviceIDByDeviceLcuuid. destruct (device_table ty) as [t|].
  - eapply runs_mono; [apply GetIDByLcuuid_ok|]. intros r w' [Hq Hr]. split; [done|]. intros Hup t' [= <-]. auto.
  - apply runs_ret. split; [reflexivity|done].
Qed.

Lemma GetLcuuidByID_id t id w : runs (GetLcuuidByID t (find_id t) id) w (fun _ w' => quiet w w').
Proof. apply GetLcuuidByID_ok. intros. by eapply find_id_quiet. Qed.

Lemma GetLcuuidByID_int t id w : runs (GetLcuuidByID t (find_lcuuid_int t) id) w (fun _ w' => quiet w w').
Proof. apply GetLcuuidByID_ok. intros. by eapply find_lcuuid_int_quiet. Qed.

(** * Adding and deleting *)

Lemma put_diff_ok t l b w : runs (put_diff t l b) w (fun _ w' => touches t (<[l := b]>) w w').
Proof. apply runs_on_cache, touches_put. Qed.

Lemma delete_diff_ok t l w : runs (delete_diff t l) w (fun _ w' => touches t (delete l) w w').
Proof. apply runs_on_cache, touches_delete. Qed.

(** [addX] puts a diff base with the sequence and the identifier of the row. *)
Definition adds_diff (t : Table) (b : DiffBase) (w w' : World DB) : Prop :=
  exists d : Diff t, diff_DiffBase d = b /\ touches t (<[DiffBase_Lcuuid b := d]>) w w'.

Lemma adds_diff_put t l (d : Diff t) b w :
  diff_DiffBase d = b -> DiffBase_Lcuuid b = l -> runs (put_diff t l d) w (fun _ w' => adds_diff t b w w').
Proof. intros Hd Hl. eapply runs_mono; [apply put_diff_ok|]. intros [] w' Ht. exists d. by rewrite Hl. Qed.

(** A look-up before the rest of [addX]. *)
Lemma adds_diff_after {A} t b (m : M A) (k : A -> M unit) w :
  runs m w (fun _ w' => quiet w w') ->
  (forall a w', runs (k a) w' (fun _ w'' => adds_diff t b w' w'')) ->
  runs (m ≫= k) w (fun _ w'' => adds_diff t b w w'').
Proof.
  intros Hm Hk. apply runs_bind. eapply runs_mono; [exact Hm|]. intros a w' Hq.
  eapply runs_mono; [apply Hk|]. intros [] w'' (d & Hd & Ht). exists d. split; [done|]. exact (quiet_touches _ _ _ _ _ Hq Ht).
Qed.

Ltac add_diff_lookup :=
  apply adds_diff_after; [|intros ? ?];
  [first [ apply GetLcuuidByID_id | apply GetLcuuidByID_int | apply GetNetworkLcuuidByID_ok
         | apply runs_get_cache; reflexivity
         | destruct (decide _); [apply GetLcuuidByID_id|apply runs_ret; reflexivity] ]|].

Ltac open_add := cbn [add_diff]; unfold addRegion, addAZ, addSubDomain, addHost, addVM, addVPC,
    addNetwork, addSubnet, addVRouter, addRoutingTable, addDHCPPort, addVInterface, addWANIP,
    addLANIP, addFloatingIP, addSecurityGroup, addSecurityGroupRule, addVMSecurityGroup,
    addNATGateway, addNATVMConnection, addNATRule, addLB, addLBVMConnection, addLBListener,
    addLBTargetServer, addPeerConnection, addRDSInstance, addRedisInstance, addPodCluster,
    addPodNode, addVMPodNodeConnection, addPodNamespace, addPodIngress, addPodIngressRule,
    addPodIngressRuleBackend, addPodService, addPodServicePort, addPodGroup, addPodGroupPort,
    addPodReplicaSet, addPod.

Lemma add_diff_ok t (item : Model t) seq w :
  runs (add_diff item seq) w (fun _ w' => adds_diff t (mkDiffBase seq (GetLcuuid item)) w w').
Proof.
  destruct t; open_add; repeat add_diff_lookup; by apply adds_diff_put.
Qed.

Lemma AddItem_ok t (item : Model t) w :
  runs (AddItem item) w
    (fun _ w' => adds_diff t (mkDiffBase (Sequence (w_cache w)) (GetLcuuid item)) w w').
Proof.
  unfold AddItem. apply runs_bind, runs_get_cache, runs_bind. eapply runs_mono; [apply add_diff_ok|].
  intros [] w' (d & Hd & Ht). apply runs_on_cache. exists d. split; [done|].
  eapply touches_quiet; [exact Ht|]. apply quiet_tool.
Qed.

Lemma tool_delete_lcuuid_ok t l w : runs (tool_delete_lcuuid t l) w (fun _ w' => quiet w w').
Proof. apply runs_on_cache, quiet_tool. Qed.

(** The key of an identifier is looked up and dropped. *)
Definition drop_id (t : Table) (id : option Z) : M unit :=
  match id with
  | Some id => on_cache (set_tool (on_IDToLcuuid t (delete id)))
  | None => mret tt
  end.

Lemma drop_id_ok t id w : runs (drop_id t id) w (fun _ w' => quiet w w').
Proof. destruct id; [apply runs_on_cache, quiet_tool|apply runs_ret; reflexivity]. Qed.

Lemma quiet_bind {A B} (m : M A) (k : A -> M B) w :
  runs m w (fun _ w' => quiet w w') -> (forall a w', runs (k a) w' (fun _ w'' => quiet w' w'')) ->
  runs (m ≫= k) w (fun _ w' => quiet w w').
Proof.
  intros Hm Hk. apply runs_bind. eapply runs_mono; [exact Hm|]. intros a w' Hq.
  eapply runs_mono; [apply Hk|]. intros b w'' Hq'. etransitivity; [exact Hq|exact Hq'].
Qed.

Lemma GetIDByLcuuid_quiet t l w : runs (GetIDByLcuuid t l) w (fun _ w' => quiet w w').
Proof. eapply runs_mono; [apply GetIDByLcuuid_ok|]. by intros r w' [? _]. Qed.

Lemma GetNetworkIDByLcuuid_quiet l w : runs (GetNetworkIDByLcuuid l) w (fun _ w' => quiet w w').
Proof. eapply runs_mono; [apply GetNetworkIDByLcuuid_ok|]. by intros r w' [? _]. Qed.

Lemma tool_delete_both_ok t get l w :
  (forall l w, runs (get l) w (fun _ w' => quiet w w')) ->
  runs (tool_delete_both t get l) w (fun _ w' => quiet w w').
Proof.
  intros Hg. apply quiet_bind; [apply Hg|]. intros id w'.
  apply quiet_bind; [apply (drop_id_ok _ id)|]. intros. apply tool_delete_lcuuid_ok.
Qed.

Lemma tool_deleteRegion_ok l w : runs (tool_deleteRegion l) w (fun _ w' => quiet w w').
Proof.
  apply quiet_bind; [apply tool_delete_lcuuid_ok|]. intros _ w'.
  apply quiet_bind; [apply GetIDByLcuuid_quiet|]. intros id w''. apply (drop_id_ok _ id).
Qed.

Lemma tool_delete_ok t l w : runs (tool_delete t l) w (fun _ w' => quiet w w').
Proof.
  destruct t; cbn [tool_delete];
    first [ apply tool_delete_lcuuid_ok | apply tool_deleteRegion_ok | apply runs_ret; reflexivity
          | apply tool_delete_both_ok; first [apply GetIDByLcuuid_quiet | apply GetNetworkIDByLcuuid_quiet]
          | apply runs_on_cache, quiet_tool ].
Qed.

Lemma DeleteItem_ok t l w : runs (DeleteItem t l) w (fun _ w' => touches t (delete l) w w').
Proof.
  unfold DeleteItem. apply runs_bind. eapply runs_mono; [apply delete_diff_ok|]. intros [] w' Ht.
  eapply runs_mono; [apply tool_delete_ok|]. intros [] w'' Hq. exact (touches_quiet _ _ _ _ _ Ht Hq).
Qed.

End Facts.
