(* ===== verification/UpdaterFacts.v ===== *)
(** Facts of the generic updater ([Updater.v]), for any resource whose generators satisfy
    [GeneratorLaws]: what a batch, a page and a refresh of one table leave, whether or not
    the database answers. *)
From stdpp Require Import base strings gmap.
From S2P Require Import Prelude CloudModel MysqlModel DiffBase RecorderCache Updater CacheFacts.

#[local] Open Scope Z_scope.

(** The order of a [range] is one of the elements of the map. *)
Class GoMapLaws {GM : GoMap} : Prop :=
  range_perm A (m : gmap string A) : range_map m ≡ₚ map_to_list m.

(** * Pages *)

Lemma page_eq {A} (l : list A) (i : nat) :
  Z.of_nat i * offset <= zlen l -> page l (Z.of_nat i) = take 1000 (drop (i * 1000) l).
Proof.
  unfold page, offset, slice, zlen. intros Hi. rewrite Z2Nat.inj_mul, Nat2Z.id by lia.
  change (Z.to_nat 1000) with 1000%nat. zcases.
  - rewrite !(take_ge (drop _ l)); [done|rewrite length_drop; lia..].
  - f_equal. lia.
Qed.

Lemma take_pages {A} (l : list A) (n : nat) :
  Z.of_nat n * offset <= zlen l + (offset - 1) ->
  concat (page l <$> seqZ 0 (Z.of_nat n)) = take (n * 1000) l.
Proof.
  unfold offset. induction n as [|n IH]; intros Hn; [done|].
  rewrite seqZ_S, fmap_app, concat_app, IH by lia. cbn [fmap list_fmap concat].
  rewrite app_nil_r, Z.add_0_l, page_eq by (unfold offset; lia).
  replace (S n * 1000)%nat with (n * 1000 + 1000)%nat by lia. by rewrite take_take_drop.
Qed.

Lemma page_count_bound n : 0 <= n -> n <= page_count n * offset <= n + (offset - 1).
Proof.
  unfold page_count, offset. intros Hn.
  pose proof (Z.div_mod n 1000) as Hd. pose proof (Z.mod_pos_bound n 1000). destruct (Z.eqb_spec (n mod 1000) 0); lia.
Qed.

Lemma elem_of_concat {A} (x : A) p ps : x ∈ p -> p ∈ ps -> x ∈ concat ps.
Proof.
  intros Hx. induction ps as [|q ps IH]; intros Hp; [by apply elem_of_nil in Hp|].
  cbn [concat]. apply elem_of_app. apply elem_of_cons in Hp as [<-|Hp]; auto.
Qed.

Lemma NoDup_concat {A} (p : list A) ps : NoDup (concat ps) -> p ∈ ps -> NoDup p.
Proof.
  induction ps as [|q ps IH]; cbn [concat]; [by intros _ Hp%elem_of_nil|].
  intros (? & _ & ?)%NoDup_app [->|Hp]%elem_of_cons; auto.
Qed.

(** The pages are the list, and no page is empty. *)
Lemma concat_pages {A} (l : list A) : concat (pages l) = l.
Proof.
  unfold pages. pose proof (page_count_bound (zlen l) (zlen_nonneg l)) as Hb. unfold offset in Hb.
  pose proof (zlen_nonneg l) as Hl.
  rewrite <- (Z2Nat.id (page_count (zlen l))) by lia. rewrite take_pages by (unfold offset; lia).
  apply take_ge. unfold zlen in *. lia.
Qed.

Lemma pages_nonempty {A} (l : list A) p : p ∈ pages l -> p <> [].
Proof.
  unfold pages. intros (i & -> & Hi)%list_elem_of_fmap. apply elem_of_seqZ in Hi.
  assert (i * offset < zlen l) as Hlt.
  { pose proof (page_count_bound (zlen l) (zlen_nonneg l)). unfold offset in *. nia. }
  rewrite <- (Z2Nat.id i) by lia. rewrite page_eq by (rewrite Z2Nat.id; lia).
  intros E%(f_equal length). rewrite length_take, length_drop in E. change (length (@nil A)) with 0%nat in E.
  unfold offset, zlen in *. lia.
Qed.

(** * Rows *)

Lemma GetLcuuid_setDBItemID {t} id (m : Model t) : GetLcuuid (setDBItemID id m) = GetLcuuid m.
Proof. by destruct t. Qed.

Lemma GetID_setDBItemID {t} id (m : Model t) : GetID (setDBItemID id m) = id.
Proof. by destruct t. Qed.

Lemma GetLcuuid_stamp {t} id c u (m : Model t) : GetLcuuid (row_stamp id c u m) = GetLcuuid m.
Proof. by destruct t. Qed.

Lemma stamped_lcuuids {t} (ms ms' : list (Model t)) :
  Forall2 stamped ms ms' -> GetLcuuid <$> ms' = GetLcuuid <$> ms.
Proof.
  induction 1 as [|m m' ms ms' (id & c & u & -> & _) _ IH]; [done|].
  rewrite !fmap_cons, IH. by rewrite GetLcuuid_stamp.
Qed.

Lemma rows_of_live {t} (ms : list (Model t)) l r : l ∈ GetLcuuid <$> ms -> live (rows_of ms ∪ r) l.
Proof.
  intros Hl. destruct (rows_of ms !! l) as [[id b]|] eqn:E.
  - unfold live. rewrite (lookup_union_Some_l _ _ _ _ E). exists id.
    apply elem_of_list_to_map_2, list_elem_of_fmap in E as (m & E & _). by simplify_eq.
  - apply not_elem_of_list_to_map_2 in E. rewrite <- list_fmap_compose in E. by destruct E.
Qed.

Lemma rows_of_other {t} (ms : list (Model t)) l r : l ∉ GetLcuuid <$> ms -> (rows_of ms ∪ r) !! l = r !! l.
Proof.
  intros Hl. rewrite (lookup_union_r (M := gmap string)); [done|]. apply not_elem_of_list_to_map_1.
  by rewrite <- list_fmap_compose.
Qed.

Lemma mark_deleted_lookup soft P r l :
  mark_deleted soft P r !! l =
  '(id, b) ← r !! l; if (P l id : bool) then if soft then Some (id, true) else None else Some (id, b).
Proof. unfold mark_deleted. rewrite map_lookup_imap. by destruct (r !! l) as [[id b]|]. Qed.

(** * Identifiers of rows that are there already *)

Lemma lcuuidToDBItem_lookup {t} (items : list (Model t)) l i :
  lcuuidToDBItem items !! l = Some i -> (GetLcuuid <$> items) !! i = Some l.
Proof.
  intros E%elem_of_list_to_map_2. rewrite elem_of_reverse in E.
  apply elem_of_lookup_imap in E as (j & m & [= -> ->] & Hm). by rewrite list_lookup_fmap, Hm.
Qed.

(** What [reuse_ids] leaves: the identifiers, and keys that are those of rows of the same
    identifier. *)
Definition reuses {t} (dups : list (Model t)) (m : Model t) : Prop :=
  GetID m = 0 \/ exists dup, dup ∈ dups /\ GetLcuuid m = GetLcuuid dup /\ GetID m = GetID dup.

Lemma lcuuids_alter {t} id i (acc : list (Model t)) :
  GetLcuuid <$> alter (setDBItemID id) i acc = GetLcuuid <$> acc.
Proof.
  revert i. induction acc as [|m acc IH]; intros [|i]; [done..| |].
  - by rewrite fmap_cons, <- GetLcuuid_setDBItemID with (id := id).
  - cbn. by rewrite <- (IH i).
Qed.

Lemma reuse_ids_lcuuids {t} (dups items : list (Model t)) :
  GetLcuuid <$> reuse_ids dups items = GetLcuuid <$> items.
Proof.
  unfold reuse_ids. generalize (lcuuidToDBItem items) as index. intros index. revert items.
  induction dups as [|dup dups IH]; intros items; [done|]. cbn [foldl]. rewrite IH.
  destruct (index !! _); [apply lcuuids_alter|done].
Qed.

Lemma reuse_ids_ok {t} (dups items : list (Model t)) :
  Forall (fun m => GetID m = 0) items -> Forall (reuses dups) (reuse_ids dups items).
Proof.
  intros Hz. unfold reuse_ids. set (f := fun _ _ => _).
  cut (forall ds acc, (forall d, d ∈ ds -> d ∈ dups) -> GetLcuuid <$> acc = GetLcuuid <$> items ->
    Forall (reuses dups) acc -> Forall (reuses dups) (foldl f acc ds)).
  { intros H. apply H; [done|done|]. eapply Forall_impl; [exact Hz|]. by left. }
  induction ds as [|d ds IH]; intros acc Hd Hl Hacc; [done|]. cbn [foldl].
  apply IH; [intros; apply Hd; by right|..]; unfold f; destruct (_ !! _) as [i|] eqn:E; try done.
  - by rewrite lcuuids_alter.
  - apply Forall_alter; [done|]. intros m Hm _. right. exists d.
    rewrite GetLcuuid_setDBItemID, GetID_setDBItemID. split_and!; [apply Hd; by left| |done].
    apply lcuuidToDBItem_lookup in E. rewrite <- Hl, list_lookup_fmap, Hm in E. by injection E.
Qed.

Lemma without_dups_in {GM : GoMap} {t} (dups items : list (Model t)) m :
  m ∈ without_dups dups items -> m ∈ items.
Proof.
  unfold without_dups. intros ([l i] & _ & E)%list_elem_of_omap.
  destruct (decide _); [done|]. by apply list_elem_of_lookup_2 in E.
Qed.

Section Facts.
Context {DB : Mysql} {ML : MysqlLaws} {GM : GoMap} {GL : GoMapLaws}.

Implicit Types w : World DB.

(** * Batches *)

(** Only rows of [t] with identifiers of [L] change. *)
Record batch (t : Table) (L : list string) w w' : Prop := mkBatch {
  ba_keeps : keeps w w';
  ba_diffs t' : D t' w' = D t' w;
  ba_other t' : t' <> t -> T t' w' = T t' w;
  ba_rows l : l ∉ L -> T t w' !! l = T t w !! l
}.

Lemma batch_trans t L w w' w'' : batch t L w w' -> batch t L w' w'' -> batch t L w w''.
Proof.
  intros [] []. constructor; intros.
  - by etransitivity.
  - by rewrite ba_diffs1.
  - by rewrite ba_other1, ba_other0.
  - by rewrite ba_rows1, ba_rows0.
Qed.

Lemma quiet_batch t L w w' : quiet w w' -> batch t L w w'.
Proof. intros [? ? E ?]. constructor; intros; rewrite ?E; auto. Qed.

(** What a batch to add needs: new rows, for a table without soft deletion also new
    identifiers. *)
Record addable {t} w (items : list (Model t)) : Prop := mkAddable {
  aa_some : items <> [];
  aa_lcuuids : NoDup (GetLcuuid <$> items);
  aa_new : Forall (fun m => GetID m = 0) items;
  aa_fresh m : softDelete t = false -> m ∈ items -> T t w !! GetLcuuid m = None
}.

(** The rows that [formatDBItemsToAdd] takes away are those of the same identifiers. *)
Definition found {t} (r : rows) (ls : list string) (dups : list (Model t)) : Prop :=
  forall m, m ∈ dups -> GetLcuuid m ∈ ls /\ fst <$> r !! GetLcuuid m = Some (GetID m).

Lemma found_key {t} w ls (dups : list (Model t)) l id b :
  found (T t w) ls dups -> T t w !! l = Some (id, b) -> id ∈ GetID <$> dups -> l ∈ ls.
Proof.
  intros Hf Hl (m & -> & Hm)%list_elem_of_fmap. destruct (Hf _ Hm) as [Hin Hk].
  apply fmap_Some in Hk as ([id b'] & Hk & E). cbn in E. subst id.
  by rewrite (table_keys _ _ _ _ _ _ _ Hl Hk).
Qed.

Lemma format_insertable {t} w (items dups : list (Model t)) r :
  addable w items -> found (T t w) (GetLcuuid <$> items) dups ->
  (forall l, l ∈ GetLcuuid <$> items -> is_Some (T t w !! l) -> l ∈ GetLcuuid <$> dups) ->
  r = mark_deleted false (fun _ id => bool_decide (id ∈ GetID <$> dups)) (T t w) ->
  insertable r (reuse_ids dups items).
Proof.
  intros [Hne Hnd Hz _] Hf Ha ->. pose proof (reuse_ids_lcuuids dups items) as El.
  pose proof (reuse_ids_ok dups items Hz) as Hr. rewrite Forall_forall in Hr. constructor.
  - intros E. rewrite E in El. by destruct items.
  - by rewrite El.
  - intros m Hm. rewrite mark_deleted_lookup. destruct (T t w !! GetLcuuid m) as [[id b]|] eqn:E; [|done].
    cbn. rewrite bool_decide_true; [done|].
    assert (GetLcuuid m ∈ GetLcuuid <$> dups) as (d & Ed & Hd)%list_elem_of_fmap.
    { apply Ha; [rewrite <- El; by apply list_elem_of_fmap_2|by eexists]. }
    destruct (Hf _ Hd) as [_ Hk]. rewrite <- Ed, E in Hk. injection Hk as ->. by apply list_elem_of_fmap_2.
  - intros m m' Hm Hm' Hz' Eid. destruct (Hr _ Hm) as [|(d & Hd & Ed & Eid1)]; [done|].
    destruct (Hr _ Hm') as [|(d' & Hd' & Ed' & Eid2)]; [congruence|].
    apply list_elem_of_lookup in Hm as [i Hi], Hm' as [j Hj].
    assert (i = j) as ->; [|congruence].
    apply (NoDup_lookup (GetLcuuid <$> reuse_ids dups items) i j (GetLcuuid m)); [by rewrite El| |].
    + by rewrite list_lookup_fmap, Hi.
    + rewrite list_lookup_fmap, Hj. cbn. f_equal. destruct (Hf _ Hd) as [_ H1], (Hf _ Hd') as [_ H2].
      apply fmap_Some in H1 as ([k b] & H1 & E1), H2 as ([k' b'] & H2 & E2). cbn in E1, E2.
      assert (k' = k) as -> by congruence. rewrite Ed, Ed'. exact (table_keys _ _ _ _ _ _ _ H2 H1).
  - intros m l p Hm. rewrite mark_deleted_lookup. intros Hp Hz' Eid.
    destruct (Hr _ Hm) as [|(d & Hd & _ & Eid1)]; [done|].
    destruct (T t w !! l) as [[id b]|]; [|done]. cbn in Hp. case_bool_decide as Hc; [done|].
    simplify_eq. cbn in Eid. destruct Hc. rewrite <- Eid, Eid1. by apply list_elem_of_fmap_2.
Qed.

Lemma batch_world {t L w} d s :
  (up (w_db w) -> up d) -> (forall t', t' <> t -> table t' d = T t' w) ->
  (forall l, l ∉ L -> table t d !! l = T t w !! l) -> batch t L w (mkWorld (w_cache w) d s).
Proof. intros Hu Ho Hr. by constructor. Qed.

(** Nothing is there yet. *)
Lemma fresh_insertable {t} w (items : list (Model t)) r :
  addable w items -> (forall m, m ∈ items -> r !! GetLcuuid m = None) -> insertable r items.
Proof.
  intros [Hne Hnd Hz _] Hr. rewrite Forall_forall in Hz.
  constructor; [done|done|done|intros m ? Hm; by rewrite (Hz _ Hm)|intros m ?? Hm; by rewrite (Hz _ Hm)].
Qed.

(** What [formatDBItemsToAdd] answers. *)
Definition formatted {t} (items : list (Model t)) w (r : option (list (Model t))) w' : Prop :=
  batch t (GetLcuuid <$> items) w w' /\
  (forall ms m, r = Some ms -> m ∈ ms -> GetLcuuid m ∈ GetLcuuid <$> items) /\
  (up (w_db w) -> addable w items ->
   exists ms, r = Some ms /\ GetLcuuid <$> ms = GetLcuuid <$> items /\ insertable (T t w') ms).

Lemma format_soft_ok {t} (items dups : list (Model t)) w :
  found (T t w) (GetLcuuid <$> items) dups ->
  (forall l, l ∈ GetLcuuid <$> items -> is_Some (T t w !! l) -> l ∈ GetLcuuid <$> dups) ->
  runs (_ ← execute (SDeleteUnscoped t (GetLcuuid <$> dups)) (delete_unscoped t dups);
        mret (Some (reuse_ids dups items))) w (formatted items w).
Proof.
  intros Hf Ha. apply runs_bind, runs_execute. intros ok d' E'. apply runs_ret.
  destruct (delete_unscoped_law _ _ _ _ _ E') as (Ho & Hu' & Hd). split_and!.
  - apply batch_world; [done..|]. intros l Hl. destruct ok; [|by destruct Hd as [-> _]].
    rewrite Hd, mark_deleted_lookup. change (table t (w_db w)) with (T t w).
    destruct (T t w !! l) as [[id b]|] eqn:El; [|done]. cbn. rewrite bool_decide_false; [done|].
    intros Hin. exact (Hl (found_key w _ dups _ _ _ Hf El Hin)).
  - intros ms m [= <-] Hm. rewrite <- (reuse_ids_lcuuids dups). by apply list_elem_of_fmap_2.
  - intros Hup Hadd. exists (reuse_ids dups items). split_and!; [done|apply reuse_ids_lcuuids|].
    destruct ok; [|destruct Hd as [_ []]; auto]. by eapply format_insertable.
Qed.

Lemma formatted_quiet {t} (items : list (Model t)) w w1 r w' :
  quiet w w1 -> formatted items w1 r w' -> formatted items w r w'.
Proof.
  intros Hq (Hb & Hin & Hup). split_and!; [by eapply batch_trans; [apply quiet_batch|]|done|].
  intros Hu [H1 H2 H3 H4]. apply Hup; [by apply (k_up _ _ (q_keeps _ _ Hq))|]. constructor; [done..|].
  intros. rewrite (q_rows _ _ Hq). by apply H4.
Qed.

Lemma formatDBItemsToAdd_ok {t} (items : list (Model t)) w :
  runs (formatDBItemsToAdd items) w (formatted items w).
Proof.
  unfold formatDBItemsToAdd. apply runs_bind, runs_query. intros r d E.
  destruct (find_unscoped_law _ _ _ _ _ E) as (HT & Hu & Hr).
  set (w1 := mkWorld _ _ _). assert (quiet w w1) as Hq by by apply quiet_query.
  destruct r as [dups|]; [|by apply runs_ret; split_and!; [apply quiet_batch, Hq|..]].
  destruct Hr as (_ & Hf & Ha). destruct dups as [|dup dups'] eqn:Ed; rewrite <- ?Ed in *.
  { apply runs_ret. split_and!; [by apply quiet_batch| |].
    - intros ms m [= <-]. apply list_elem_of_fmap_2.
    - intros Hup Hadd. exists items. split_and!; [done..|]. eapply fresh_insertable; [exact Hadd|].
      intros m Hm. rewrite (q_rows _ _ Hq). apply eq_None_not_Some. intros Hs.
      apply (Ha (GetLcuuid m)) in Hs; [rewrite Ed in Hs; by apply elem_of_nil in Hs|by apply list_elem_of_fmap_2]. }
  destruct (softDelete t) eqn:Es.
  - eapply runs_mono; [apply format_soft_ok|]; [by rewrite (q_rows _ _ Hq)..|].
    intros r' w'. by apply formatted_quiet.
  - apply runs_ret. split_and!; [by apply quiet_batch| |].
    + intros ms m [= <-] Hm%without_dups_in. by apply list_elem_of_fmap_2.
    + intros Hup [_ _ _ Hfr]. destruct (Hf dup) as [(m & Em & Hm)%list_elem_of_fmap Hs]; [rewrite Ed; by left|].
      rewrite Em in Hs. change (table t (w_db w)) with (T t w) in Hs. by rewrite Hfr in Hs.
Qed.

(** [AddBatch]: the rows it answers with are there; it answers with all of them if the
    database is up and the batch can be added. *)
Lemma AddBatch_ok {t} (items : list (Model t)) w :
  runs (AddBatch items) w (fun r w' =>
    batch t (GetLcuuid <$> items) w w' /\
    (forall ms m, r = Some ms -> m ∈ ms -> GetLcuuid m ∈ GetLcuuid <$> items /\ live (T t w') (GetLcuuid m)) /\
    (up (w_db w) -> addable w items -> exists ms, r = Some ms /\ GetLcuuid <$> ms = GetLcuuid <$> items)).
Proof.
  unfold AddBatch. apply runs_bind. eapply runs_mono; [apply formatDBItemsToAdd_ok|].
  intros r w1 (Hb & Hin & Hup). destruct r as [ms|].
  2:{ apply runs_ret. split_and!; [done..|]. intros Hu Ha. by destruct (Hup Hu Ha) as (? & ? & _). }
  apply runs_execute. intros r d E. destruct (create_law _ _ _ _ _ E) as (Ho & Hu & Hr). split_and!.
  - eapply batch_trans; [exact Hb|]. apply batch_world; [done..|]. intros l Hl. destruct r as [ms'|].
    + destruct Hr as (Hs & -> & _). apply rows_of_other. rewrite (stamped_lcuuids _ _ Hs).
      intros (m & -> & Hm)%list_elem_of_fmap. eauto.
    + by destruct Hr as [-> _].
  - intros ms' m -> Hm. destruct Hr as (Hs & Ht & _). split.
    + assert (GetLcuuid m ∈ GetLcuuid <$> ms) as (m0 & -> & Hm0)%list_elem_of_fmap; [|by eauto].
      rewrite <- (stamped_lcuuids _ _ Hs). by apply list_elem_of_fmap_2.
    + unfold T. cbn. rewrite Ht. apply rows_of_live. by apply list_elem_of_fmap_2.
  - intros Hu0 Ha. destruct (Hup Hu0 Ha) as (ms1 & [= <-] & El & Hi). destruct r as [ms'|].
    + exists ms'. split; [done|]. destruct Hr as (Hs & _). by rewrite (stamped_lcuuids _ _ Hs).
    + destruct Hr as [_ []]; [|done]. apply (k_up _ _ (ba_keeps _ _ _ _ Hb)), Hu0.
Qed.

(** * Phases *)

(** Only entries and rows of [t] with identifiers of [L] change; the rows of the tables of
    [A] are left open. *)
Record phase (A : Table -> Prop) (t : Table) (L : list string) w w' : Prop := mkPhase {
  ph_keeps : keeps w w';
  ph_diffs t' : t' <> t -> D t' w' = D t' w;
  ph_rows t' : t' <> t -> ~ A t' -> T t' w' = T t' w;
  ph_diff_at l : l ∉ L -> D t w' !! l = D t w !! l;
  ph_row_at l : l ∉ L -> T t w' !! l = T t w !! l
}.

Definition no_table (_ : Table) : Prop := False.

Lemma phase_refl A t L w : phase A t L w w.
Proof. by constructor. Qed.

Lemma phase_trans A t L w w' w'' : phase A t L w w' -> phase A t L w' w'' -> phase A t L w w''.
Proof.
  intros [K D1 R1 Dl Rl] [K' D1' R1' Dl' Rl']. constructor; intros.
  - by etransitivity.
  - by rewrite D1', D1.
  - by rewrite R1', R1.
  - by rewrite Dl', Dl.
  - by rewrite Rl', Rl.
Qed.

Lemma phase_mono A t L L' w w' : (forall l, l ∈ L -> l ∈ L') -> phase A t L w w' -> phase A t L' w w'.
Proof. intros HL []. constructor; auto. Qed.

Lemma batch_phase A t L w w' : batch t L w w' -> phase A t L w w'.
Proof. intros [K D1 R1 Rl]. constructor; intros; rewrite ?D1; auto. Qed.

Lemma quiet_phase A t L w w' : quiet w w' -> phase A t L w w'.
Proof. intros. by apply batch_phase, quiet_batch. Qed.

Lemma touches_phase A t f L w w' :
  (forall m l, l ∉ L -> f m !! l = m !! l) -> touches t f w w' -> phase A t L w w'.
Proof.
  intros Hf [K D1 D2 R _]. constructor; intros; rewrite ?R; auto. by rewrite D1, Hf.
Qed.

(** An entry that this refresh has seen: it has the current sequence number and a row. *)
Definition fresh (t : Table) w (l : string) : Prop :=
  exists b, D t w !! l = Some b /\ diff_DiffBase b = mkDiffBase (Sequence (w_cache w)) l /\ live (T t w) l.

Lemma fresh_phase A t t' L w w' l :
  phase A t L w w' -> (t' = t -> l ∉ L) -> (t' <> t -> ~ A t') -> fresh t' w l -> fresh t' w' l.
Proof.
  intros [K D1 R1 Dl Rl] Hl HA (b & Hb & Eb & Hr). destruct (decide (t' = t)) as [->|Hne].
  - exists b. rewrite Dl, (k_sequence _ _ K) by auto. split_and!; [done..|]. unfold live. by rewrite Rl by auto.
  - exists b. rewrite D1, R1, (k_sequence _ _ K) by auto. done.
Qed.

(** * Adding *)

Lemma AddItems_ok {t} (ms : list (Model t)) w :
  (forall m, m ∈ ms -> live (T t w) (GetLcuuid m)) ->
  runs (for_each AddItem ms) w (fun _ w' =>
    phase no_table t (GetLcuuid <$> ms) w w' /\ T t w' = T t w /\
    forall l, l ∈ GetLcuuid <$> ms -> fresh t w' l).
Proof.
  revert w. induction ms as [|m ms IH]; intros w Hl.
  { apply runs_ret. split_and!; [apply phase_refl|done|]. intros l H. by apply elem_of_nil in H. }
  cbn [for_each]. apply runs_bind. eapply runs_mono; [apply AddItem_ok|].
  intros [] w1 (b & Eb & Ht). cbn [DiffBase_Lcuuid] in Ht.
  assert (phase no_table t [GetLcuuid m] w w1) as Hp.
  { eapply touches_phase; [|exact Ht]. intros d l Hn. apply lookup_insert_ne. set_solver. }
  eapply runs_mono; [apply IH|].
  { intros. rewrite (to_rows _ _ _ _ Ht). apply Hl. by right. }
  intros [] w' (Hp' & Et & Hf). split_and!.
  - eapply phase_trans; (eapply phase_mono; [|eassumption]); rewrite fmap_cons; set_solver.
  - by rewrite Et, (to_rows _ _ _ _ Ht).
  - intros l Hin. destruct (decide (l ∈ GetLcuuid <$> ms)) as [|Hn]; [auto|].
    rewrite fmap_cons in Hin. assert (l = GetLcuuid m) as -> by set_solver.
    eapply fresh_phase; [exact Hp'|done|done|]. exists b.
    rewrite (to_diffs _ _ _ _ Ht), (to_rows _ _ _ _ Ht), lookup_insert_eq, (k_sequence _ _ (ph_keeps _ _ _ _ _ Hp)).
    split_and!; [done..|]. apply Hl. by left.
Qed.

(** What [addPage] and [add] leave of rows [ls] that have no entry yet. *)
Definition adds {t} (items : list (Model t)) w w' : Prop :=
  phase no_table t (GetLcuuid <$> items) w w' /\
  (forall l, l ∈ GetLcuuid <$> items -> D t w' !! l = None \/ fresh t w' l).

Lemma addPage_ok {t} (items : list (Model t)) w :
  (forall m, m ∈ items -> D t w !! GetLcuuid m = None) ->
  runs (addPage items) w (fun _ w' => adds items w w' /\
    (up (w_db w) -> addable w items -> forall m, m ∈ items -> fresh t w' (GetLcuuid m))).
Proof.
  intros Hn. unfold addPage. apply runs_bind. eapply runs_mono; [apply AddBatch_ok|].
  intros r w1 (Hb & Hin & Hup).
  assert (forall l, l ∈ GetLcuuid <$> items -> D t w1 !! l = None) as Hn1.
  { intros l (m & -> & Hm)%list_elem_of_fmap. rewrite (ba_diffs _ _ _ _ Hb). auto. }
  apply (batch_phase no_table) in Hb. destruct r as [ms|].
  2:{ apply runs_ret. split; [split; [done|auto]|]. intros Hu Ha. by destruct (Hup Hu Ha) as (? & ? & _). }
  eapply runs_mono; [apply AddItems_ok; intros m Hm; by apply (Hin ms)|]. intros [] w' (Hp & _ & Hf). split; [split|].
  - eapply phase_trans; [exact Hb|]. eapply phase_mono; [|exact Hp].
    intros l (m & -> & Hm)%list_elem_of_fmap. by apply (Hin ms).
  - intros l Hl. destruct (decide (l ∈ GetLcuuid <$> ms)); [auto|]. left.
    rewrite (ph_diff_at _ _ _ _ _ Hp) by done. auto.
  - intros Hu Ha m Hm. destruct (Hup Hu Ha) as (ms' & [= <-] & E). apply Hf. rewrite E.
    by apply list_elem_of_fmap_2.
Qed.

(** The pages one after the other. *)
Lemma addPages_ok {t} (ps : list (list (Model t))) w :
  (forall m, m ∈ concat ps -> D t w !! GetLcuuid m = None) -> NoDup (GetLcuuid <$> concat ps) ->
  runs (for_each addPage ps) w (fun _ w' => adds (concat ps) w w' /\
    (up (w_db w) -> (forall p, p ∈ ps -> addable w p) -> forall m, m ∈ concat ps -> fresh t w' (GetLcuuid m))).
Proof.
  revert w. induction ps as [|p ps IH]; intros w Hn Hnd; cbn [concat] in *.
  { apply runs_ret. split; [split; [apply phase_refl|]|]; intros; set_solver. }
  rewrite fmap_app in *. apply NoDup_app in Hnd as (_ & Hdis & Hnd).
  cbn [for_each]. apply runs_bind. eapply runs_mono; [apply addPage_ok|]; [set_solver|].
  intros [] w1 ([Hp Ha] & Hup).
  assert (forall l, l ∈ GetLcuuid <$> concat ps -> l ∉ GetLcuuid <$> p) as Hdis' by set_solver.
  eapply runs_mono; [apply IH; [|done]|].
  { intros m Hm. rewrite (ph_diff_at _ _ _ _ _ Hp); [set_solver|]. apply Hdis'. by apply list_elem_of_fmap_2. }
  intros [] w' ([Hp' Ha'] & Hup'). unfold adds. rewrite fmap_app. split; [split|].
  - eapply phase_trans; (eapply phase_mono; [|eassumption]); set_solver.
  - intros l [Hl|Hl]%elem_of_app; [|auto]. destruct (Ha l Hl) as [E|Hf].
    + left. by rewrite (ph_diff_at _ _ _ _ _ Hp') by auto.
    + right. by eapply fresh_phase; [exact Hp'|auto..].
  - intros Hu Hadd m [Hm|Hm]%elem_of_app.
    + eapply fresh_phase; [exact Hp'|intros; apply Hdis; by apply list_elem_of_fmap_2|auto|].
      apply Hup; [done|apply Hadd; by left|done].
    + apply Hup'; [by apply (k_up _ _ (ph_keeps _ _ _ _ _ Hp))| |done]. intros q Hq.
      destruct (Hadd q) as [H1 H2 H3 H4]; [by right|]. constructor; [done..|]. intros m' Hs Hm'.
      rewrite (ph_row_at _ _ _ _ _ Hp); [auto|]. apply Hdis', list_elem_of_fmap_2. by eapply elem_of_concat.
Qed.

Lemma add_ok {t} (items : list (Model t)) w :
  (forall m, m ∈ items -> D t w !! GetLcuuid m = None) -> NoDup (GetLcuuid <$> items) ->
  runs (add items) w (fun _ w' => adds items w w' /\
    (up (w_db w) -> Forall (fun m => GetID m = 0) items ->
     (softDelete t = false -> forall m, m ∈ items -> T t w !! GetLcuuid m = None) ->
     forall m, m ∈ items -> fresh t w' (GetLcuuid m))).
Proof.
  intros Hn Hnd. unfold add. eapply runs_mono; [apply addPages_ok|]; rewrite ?concat_pages; [done..|].
  intros [] w' [Ha Hup]. split; [done|]. intros Hu Hz Hr. apply Hup; [done|]. intros p Hp.
  assert (forall m, m ∈ p -> m ∈ items) as Hin.
  { intros m Hm. rewrite <- (concat_pages items). by eapply elem_of_concat. }
  rewrite Forall_forall in Hz. constructor; [by eapply pages_nonempty| |apply Forall_forall; auto|auto].
  apply (NoDup_concat _ (map (map GetLcuuid) (pages items))); [|by apply list_elem_of_fmap_2].
  by rewrite <- concat_map, concat_pages.
Qed.

(** * One resource *)

(** The type of an interface, which no update changes. *)
Definition diff_kind {t : Table} : Diff t -> Z :=
  match t with
  | TVInterface => DiffBase.VInterface_Type
  | _ => fun _ => 0
  end.

(** An entry that needs no update, whatever the references of the item. *)
Definition agrees {t CT} {DG : DataGenerator t CT} (b : Diff t) (item : CT) : Prop :=
  forall w, runs (generateUpdateInfo b item) w (fun r w' => r = None /\ w' = w).

(** What the functions of one resource promise to the generic updater.  [refs] are the rows
    that an item of the cloud data refers to, [wellformed] what else its row needs. *)
Class GeneratorLaws (t : Table) (CT : Type) {DG : DataGenerator t CT} := {
  refs : CT -> list (Table * string);
  wellformed : CT -> Prop;
  generate_ok item w : runs (generateDBItemToAdd item) w (fun r w' =>
    quiet w w' /\
    (forall m, r = Some m -> GetLcuuid m = cloud_Lcuuid item /\ GetID m = 0) /\
    (up (w_db w) -> wellformed item -> Forall (fun '(t', l) => live (T t' w) l) (refs item) -> is_Some r));
  info_ok b item w : runs (generateUpdateInfo b item) w (fun r w' =>
    quiet w w' /\ (forall i, r = Some i -> dom i ⊆ list_to_set (columns t).*1) /\
    (up (w_db w) -> Forall (fun '(t', l) => live (T t' w) l) (refs item) -> r = None -> agrees b item));
  cache_ok item b : diff_DiffBase (updateCache item b) = diff_DiffBase b;
  kind_ok item b : diff_kind (updateCache item b) = diff_kind b;
  settle_ok item b : agrees (updateCache item b) item;
  agrees_SetSequence item s b : agrees b item -> agrees (SetSequence s b) item
}.

Section Resource.
Context {t : Table} {CT : Type} {DG : DataGenerator t CT} {GEN : GeneratorLaws t CT}.

(** An entry that this refresh has seen, after an entry [b]. *)
Definition seen (b : Diff t) w (l : string) : Prop :=
  exists b', D t w !! l = Some b' /\ diff_DiffBase b' = mkDiffBase (Sequence (w_cache w)) (diff_GetLcuuid b) /\
    diff_kind b' = diff_kind b.

Lemma diff_DiffBase_SetSequence s (b : Diff t) :
  diff_DiffBase (SetSequence s b) = mkDiffBase s (diff_GetLcuuid b).
Proof. by destruct t. Qed.

Lemma diff_kind_SetSequence s (b : Diff t) : diff_kind (SetSequence s b) = diff_kind b.
Proof. by destruct t. Qed.

Lemma touches_put_phase A l (b : Diff t) w w' : touches t (<[l := b]>) w w' -> phase A t [l] w w'.
Proof. apply touches_phase. intros m l' Hl. apply lookup_insert_ne. set_solver. Qed.

(** [update]: the entry changes if the statement succeeds. *)
Lemma update_ok item b info w :
  runs (update item b info) w (fun _ w' =>
    phase no_table t [cloud_Lcuuid item] w w' /\ (forall t', T t' w' = T t' w) /\
    (D t w' = D t w \/ D t w' = <[cloud_Lcuuid item := updateCache item b]> (D t w)) /\
    (up (w_db w) -> dom info ⊆ list_to_set (columns t).*1 ->
     D t w' = <[cloud_Lcuuid item := updateCache item b]> (D t w))).
Proof.
  unfold update. apply runs_bind. apply runs_execute. intros ok d E.
  destruct (updates_law _ _ _ _ _ _ E) as (HT & Hu & Hf). set (w1 := mkWorld _ _ _).
  assert (phase no_table t [cloud_Lcuuid item] w w1) as Hp.
  { apply (batch_phase no_table), batch_world; [done|..]; intros; by rewrite ?HT. }
  destruct ok; [|by apply runs_ret; split_and!; [exact Hp| |left|intros Hup Hc; destruct (Hf eq_refl Hup)]].
  eapply runs_mono; [apply put_diff_ok|]. intros [] w' Ht. split_and!.
  - eapply phase_trans; [exact Hp|]. exact (touches_put_phase _ _ _ _ _ Ht).
  - intros. rewrite (to_rows _ _ _ _ Ht). apply HT.
  - right. apply (to_diffs _ _ _ _ Ht).
  - intros _ _. apply (to_diffs _ _ _ _ Ht).
Qed.

(** The entry of an item needs no update. *)
Definition settled (item : CT) w : Prop :=
  exists b, D t w !! cloud_Lcuuid item = Some b /\ agrees b item.

(** An entry that is there: it gets the sequence number, and the update if there is one. *)
Lemma handle_known_ok acc item w b :
  D t w !! cloud_Lcuuid item = Some b ->
  runs (handle_item acc item) w (fun r w' =>
    r = acc /\ phase no_table t [cloud_Lcuuid item] w w' /\ (forall t', T t' w' = T t' w) /\
    seen b w' (cloud_Lcuuid item) /\
    (up (w_db w) -> Forall (fun '(t', l) => live (T t' w) l) (refs item) -> settled item w')).
Proof.
  intros Hb. unfold handle_item. apply runs_bind, runs_get_cache. fold (D t w). rewrite Hb.
  set (b1 := SetSequence _ b). apply runs_bind. eapply runs_mono; [apply put_diff_ok|]. intros [] w1 Ht.
  apply runs_bind. eapply runs_mono; [apply info_ok|]. intros info w2 (Hq & Hc & Hn).
  assert (phase no_table t [cloud_Lcuuid item] w w2) as Hp.
  { eapply phase_trans; [by eapply touches_put_phase|by apply quiet_phase]. }
  assert (forall t', T t' w2 = T t' w) as HT by (intros; by rewrite (q_rows _ _ Hq), (to_rows _ _ _ _ Ht)).
  assert (forall w', keeps w w' -> diff_DiffBase b1 = mkDiffBase (Sequence (w_cache w')) (diff_GetLcuuid b)) as Eb1.
  { intros w' K. rewrite (k_sequence _ _ K). apply diff_DiffBase_SetSequence. }
  assert (D t w2 !! cloud_Lcuuid item = Some b1) as Hb1.
  { by rewrite (q_diffs _ _ Hq), (to_diffs _ _ _ _ Ht), lookup_insert_eq. }
  assert (forall i, up (w_db w) -> Forall (fun '(t', l) => live (T t' w) l) (refs item) -> info = i ->
      up (w_db w2) /\ (i = None -> agrees b1 item)) as Hn1.
  { intros i Hu Hr <-. split; [by apply (k_up _ _ (ph_keeps _ _ _ _ _ Hp))|].
    apply Hn; [by apply (k_up _ _ (to_keeps _ _ _ _ Ht))|].
    eapply Forall_impl; [exact Hr|]. intros [t' l]. by rewrite (to_rows _ _ _ _ Ht). }
  apply runs_bind. destruct info as [i|].
  2:{ apply runs_ret, runs_ret. split_and!; [done..| |].
      - exists b1. split_and!; [done|apply Eb1, Hp|apply diff_kind_SetSequence].
      - intros Hu Hr. exists b1. split; [done|]. by apply (Hn1 None). }
  eapply runs_mono; [apply update_ok|]. intros [] w3 (Hp3 & HT3 & HD & HDu). apply runs_ret.
  assert (phase no_table t [cloud_Lcuuid item] w w3) as Hp' by by eapply phase_trans.
  split_and!; [done|done|intros; by rewrite HT3| |].
  - destruct HD as [HD|HD]; [exists b1|exists (updateCache item b1)]; rewrite HD, ?lookup_insert_eq, ?cache_ok, ?kind_ok;
      (split_and!; [done|apply Eb1, Hp'|apply diff_kind_SetSequence]).
  - intros Hu Hr. exists (updateCache item b1). split; [|apply settle_ok].
    rewrite HDu, lookup_insert_eq; [done| |by apply Hc]. by apply (Hn1 (Some i)).
Qed.

(** The row of an item can be built. *)
Definition ready (item : CT) w : Prop :=
  wellformed item /\ Forall (fun '(t', l) => live (T t' w) l) (refs item).

(** An item without an entry: a row to add, if its references are there. *)
Lemma handle_new_ok acc item w :
  D t w !! cloud_Lcuuid item = None ->
  runs (handle_item acc item) w (fun r w' => quiet w w' /\
    exists o, r = acc ++ option_list o /\
      (forall m, o = Some m -> GetLcuuid m = cloud_Lcuuid item /\ GetID m = 0) /\
      (up (w_db w) -> ready item w -> is_Some o)).
Proof.
  intros Hb. unfold handle_item. apply runs_bind, runs_get_cache. fold (D t w). rewrite Hb.
  apply runs_bind. eapply runs_mono; [apply generate_ok|]. intros o w' (Hq & Hm & Hs).
  destruct o as [m|]; apply runs_ret; (split; [done|]).
  - by exists (Some m).
  - exists None. cbn. rewrite app_nil_r. split_and!; [done..|]. intros Hu []. auto.
Qed.

(** What the loop over the cloud data leaves, and the rows it collects. *)
Record handled (cloud : list CT) w (new : list (Model t)) w' : Prop := mkHandled {
  h_phase : phase no_table t (cloud_Lcuuid <$> cloud) w w';
  h_rows t' : T t' w' = T t' w;
  h_none l : D t w !! l = None -> D t w' !! l = None;
  h_seen l b : l ∈ cloud_Lcuuid <$> cloud -> D t w !! l = Some b -> seen b w' l;
  h_new m : m ∈ new -> GetLcuuid m ∈ cloud_Lcuuid <$> cloud /\ GetID m = 0 /\ D t w !! GetLcuuid m = None;
  h_nodup : NoDup (GetLcuuid <$> new);
  h_all item : up (w_db w) -> item ∈ cloud -> D t w !! cloud_Lcuuid item = None -> ready item w ->
    cloud_Lcuuid item ∈ GetLcuuid <$> new;
  h_settled item : up (w_db w) -> item ∈ cloud -> is_Some (D t w !! cloud_Lcuuid item) -> ready item w ->
    settled item w'
}.

Lemma seen_phase A b l L w w' : phase A t L w w' -> l ∉ L -> seen b w l -> seen b w' l.
Proof.
  intros Hp Hl (b' & Hb & Eb & Ek). exists b'. by rewrite (ph_diff_at _ _ _ _ _ Hp), (k_sequence _ _ (ph_keeps _ _ _ _ _ Hp)).
Qed.

Lemma ready_rows item w w' : (forall t', T t' w' = T t' w) -> ready item w -> ready item w'.
Proof.
  intros HT [Hw Hf]. split; [done|]. eapply Forall_impl; [exact Hf|]. intros [t' l]. by rewrite HT.
Qed.

Lemma handled_known item cloud new w w1 w' b :
  cloud_Lcuuid item ∉ cloud_Lcuuid <$> cloud -> D t w !! cloud_Lcuuid item = Some b ->
  phase no_table t [cloud_Lcuuid item] w w1 -> (forall t', T t' w1 = T t' w) ->
  seen b w1 (cloud_Lcuuid item) -> (up (w_db w) -> ready item w -> settled item w1) ->
  handled cloud w1 new w' -> handled (item :: cloud) w new w'.
Proof.
  intros Hni Hb Hp HT Hs Hst [Hp' HT' Hn Hse Hne Hnd Ha Hset].
  assert (forall l, l <> cloud_Lcuuid item -> D t w1 !! l = D t w !! l) as HD.
  { intros l Hl. apply (ph_diff_at _ _ _ _ _ Hp). set_solver. }
  constructor; rewrite ?fmap_cons.
  - eapply phase_trans; (eapply phase_mono; [|eassumption]); set_solver.
  - intros. by rewrite HT'.
  - intros l Hl. apply Hn. rewrite HD; [done|]. congruence.
  - intros l b' Hl Hb'. destruct (decide (l = cloud_Lcuuid item)) as [->|Hne'].
    + assert (b' = b) as -> by congruence. by eapply seen_phase.
    + apply Hse; [set_solver|]. by rewrite HD.
  - intros m Hm. destruct (Hne m Hm) as (? & ? & E). split_and!; [by right|done|].
    rewrite <- HD; [done|]. intros El. congruence.
  - done.
  - intros it Hu Hit Hnone Hr. apply elem_of_cons in Hit as [->|Hit]; [congruence|].
    apply Ha; [by apply (k_up _ _ (ph_keeps _ _ _ _ _ Hp))|done| |by eapply ready_rows].
    rewrite HD; [done|]. congruence.
  - intros it Hu Hit Hsome Hr. apply elem_of_cons in Hit as [->|Hit].
    + destruct (Hst Hu Hr) as (b' & Hb' & Hag). exists b'. split; [|done]. by rewrite (ph_diff_at _ _ _ _ _ Hp').
    + apply Hset; [by apply (k_up _ _ (ph_keeps _ _ _ _ _ Hp))|done| |by eapply ready_rows].
      rewrite HD; [done|]. intros E. apply Hni. rewrite <- E. by apply list_elem_of_fmap_2.
Qed.

Lemma handled_new item cloud o new w w1 w' :
  cloud_Lcuuid item ∉ cloud_Lcuuid <$> cloud -> D t w !! cloud_Lcuuid item = None ->
  quiet w w1 -> (forall m, o = Some m -> GetLcuuid m = cloud_Lcuuid item /\ GetID m = 0) ->
  (up (w_db w) -> ready item w -> is_Some o) ->
  handled cloud w1 new w' -> handled (item :: cloud) w (option_list o ++ new) w'.
Proof.
  intros Hni Hb Hq Hm Ho [Hp' HT' Hn Hse Hne Hnd Ha Hset].
  pose proof (q_diffs _ _ Hq t) as HD. pose proof (q_rows _ _ Hq) as HT. rewrite HD in *.
  constructor; rewrite ?fmap_cons.
  - eapply phase_trans; [by apply quiet_phase|]. eapply phase_mono; [|exact Hp']. set_solver.
  - intros. by rewrite HT'.
  - done.
  - intros l b' Hl Hb'. apply Hse; [|done]. apply elem_of_cons in Hl as [->|]; [congruence|done].
  - intros m [Hin|Hin]%elem_of_app; [|by destruct (Hne m Hin) as (? & ? & ?); split_and!; [right|..]].
    destruct o as [m'|]; [|by apply elem_of_nil in Hin]. apply list_elem_of_singleton in Hin as ->.
    destruct (Hm m' eq_refl) as [-> ->]. split_and!; [by left|done..].
  - destruct o as [m'|]; [|done]. cbn. apply NoDup_cons. split; [|done].
    intros (m & E & Hin)%list_elem_of_fmap. destruct (Hm m' eq_refl) as [E' _]. destruct (Hne m Hin). congruence.
  - intros it Hu Hit Hnone Hr. rewrite fmap_app. apply elem_of_app.
    apply elem_of_cons in Hit as [->|Hit].
    + left. destruct (Ho Hu Hr) as [m ->]. destruct (Hm m eq_refl) as [E _]. by apply list_elem_of_singleton.
    + right. apply Ha; [by apply (k_up _ _ (q_keeps _ _ Hq))|done|done|by eapply ready_rows].
  - intros it Hu Hit Hsome Hr. apply elem_of_cons in Hit as [->|Hit]; [by rewrite Hb in Hsome; destruct Hsome|].
    apply Hset; [by apply (k_up _ _ (q_keeps _ _ Hq))|done|done|by eapply ready_rows].
Qed.

Lemma handle_items_ok cloud acc w :
  NoDup (cloud_Lcuuid <$> cloud) ->
  runs (handle_items cloud acc) w (fun r w' => exists new, r = acc ++ new /\ handled cloud w new w').
Proof.
  revert acc w. induction cloud as [|item cloud IH]; intros acc w Hnd; cbn [handle_items].
  { apply runs_ret. exists []. rewrite app_nil_r. split; [done|].
    constructor; try done; try apply phase_refl; try apply NoDup_nil_2; intros *; set_solver. }
  rewrite fmap_cons in Hnd. apply NoDup_cons in Hnd as [Hni Hnd]. apply runs_bind.
  destruct (D t w !! cloud_Lcuuid item) as [b|] eqn:Hb.
  - eapply runs_mono; [by apply handle_known_ok|]. intros r w1 (-> & Hp & HT & Hs & Hst).
    eapply runs_mono; [by apply IH|]. intros r w' (new & -> & Hh). exists new. split; [done|].
    eapply handled_known; [done..| |done]. intros Hu []. auto.
  - eapply runs_mono; [by apply handle_new_ok|]. intros r w1 (Hq & o & -> & Hm & Ho).
    eapply runs_mono; [by apply IH|]. intros r w' (new & -> & Hh). exists (option_list o ++ new).
    rewrite app_assoc. split; [done|]. by eapply handled_new.
Qed.

(** The rows of a table without soft deletion are those with an entry, among [L]. *)
Definition no_stray (L : list string) w : Prop :=
  softDelete t = false -> forall l, l ∈ L -> D t w !! l = None -> T t w !! l = None.

(** The rows that were collected are new. *)
Lemma handled_add cloud new w w1 :
  handled cloud w new w1 ->
  runs (match new with [] => mret tt | _ => add new end) w1 (fun _ w' => adds new w1 w' /\
    (up (w_db w) -> no_stray (cloud_Lcuuid <$> cloud) w -> forall m, m ∈ new -> fresh t w' (GetLcuuid m))).
Proof.
  intros [Hp HT Hn _ Hne Hnd _ _].
  assert (runs (add new) w1 (fun _ w' => adds new w1 w' /\
    (up (w_db w) -> no_stray (cloud_Lcuuid <$> cloud) w -> forall m, m ∈ new -> fresh t w' (GetLcuuid m)))) as Hadd.
  { eapply runs_mono; [apply add_ok; [|done]|].
    { intros m Hm. destruct (Hne m Hm) as (_ & _ & E). auto. }
    intros [] w' [Ha Hup]. split; [done|]. intros Hu Hst. apply Hup; [by apply (k_up _ _ (ph_keeps _ _ _ _ _ Hp))|..].
    - apply Forall_forall. intros m Hm. by destruct (Hne m Hm) as (_ & ? & _).
    - intros Hs m Hm. rewrite HT. destruct (Hne m Hm) as (? & _ & ?). by apply Hst. }
  destruct new as [|m new]; [|exact Hadd].
  apply runs_ret. split; [split; [apply phase_refl|]|]; intros; set_solver.
Qed.

(** What the updates and additions of one resource leave: an entry for each item that had
    one; for the others an entry with a row, or none. *)
Record updated (cloud : list CT) w w' : Prop := mkUpdated {
  up_phase : phase no_table t (cloud_Lcuuid <$> cloud) w w';
  up_known l b : l ∈ cloud_Lcuuid <$> cloud -> D t w !! l = Some b -> seen b w' l /\ T t w' !! l = T t w !! l;
  up_new l : l ∈ cloud_Lcuuid <$> cloud -> D t w !! l = None -> D t w' !! l = None \/ fresh t w' l;
  up_added item : up (w_db w) -> no_stray (cloud_Lcuuid <$> cloud) w -> item ∈ cloud ->
    D t w !! cloud_Lcuuid item = None -> ready item w -> fresh t w' (cloud_Lcuuid item);
  up_settled item : up (w_db w) -> item ∈ cloud -> is_Some (D t w !! cloud_Lcuuid item) -> ready item w ->
    settled item w'
}.

Lemma handled_updated cloud new w w1 w' :
  handled cloud w new w1 -> adds new w1 w' ->
  (up (w_db w) -> no_stray (cloud_Lcuuid <$> cloud) w -> forall m, m ∈ new -> fresh t w' (GetLcuuid m)) ->
  updated cloud w w'.
Proof.
  intros Hh [Hp' Hadd] Hup.
  assert (forall l b, D t w !! l = Some b -> l ∉ GetLcuuid <$> new) as Hold.
  { intros l b Hb (m & -> & Hm)%list_elem_of_fmap. destruct (h_new _ _ _ _ Hh m Hm) as (_ & _ & E). congruence. }
  constructor.
  - eapply phase_trans; [apply (h_phase _ _ _ _ Hh)|]. eapply phase_mono; [|apply Hp'].
    intros l (m & -> & Hm)%list_elem_of_fmap. by apply (h_new _ _ _ _ Hh).
  - intros l b Hl Hb. specialize (Hold l b Hb). split.
    + eapply seen_phase; [exact Hp'|done|]. by eapply h_seen.
    + by rewrite (ph_row_at _ _ _ _ _ Hp'), (h_rows _ _ _ _ Hh).
  - intros l Hl Hb. destruct (decide (l ∈ GetLcuuid <$> new)) as [|Hn]; [by apply Hadd|]. left.
    rewrite (ph_diff_at _ _ _ _ _ Hp') by done. by apply (h_none _ _ _ _ Hh).
  - intros item Hu Hst Hi Hb Hr.
    assert (cloud_Lcuuid item ∈ GetLcuuid <$> new) as (m & -> & Hm)%list_elem_of_fmap by by eapply h_all.
    auto.
  - intros item Hu Hi [b Hb] Hr. destruct (h_settled _ _ _ _ Hh item Hu Hi) as (b' & Hb' & Hag); [by rewrite Hb|done|].
    exists b'. split; [|done]. by rewrite (ph_diff_at _ _ _ _ _ Hp') by by eapply Hold.
Qed.

Lemma HandleAddAndUpdate_ok cloud w :
  NoDup (cloud_Lcuuid <$> cloud) -> runs (HandleAddAndUpdate cloud) w (fun _ w' => updated cloud w w').
Proof.
  intros Hnd. unfold HandleAddAndUpdate. apply runs_bind. eapply runs_mono; [by apply handle_items_ok|].
  intros r w1 (new & -> & Hh). cbn [app]. eapply runs_mono; [by eapply handled_add|]. intros [] w' [Ha Hup].
  by eapply handled_updated.
Qed.

(** Items whose entries need no update: only the sequence numbers change. *)
Record restamped (L : list string) w w' : Prop := mkRestamped {
  rs_phase : phase no_table t L w w';
  rs_rows t' : T t' w' = T t' w;
  rs_sent : w_sent w' = w_sent w;
  rs_diffs l : l ∈ L -> D t w' !! l = SetSequence (Sequence (w_cache w)) <$> D t w !! l
}.

Lemma handle_item_settled acc item w :
  settled item w ->
  runs (handle_item acc item) w (fun r w' => r = acc /\ restamped [cloud_Lcuuid item] w w').
Proof.
  intros (b & Hb & Hag). unfold handle_item. apply runs_bind, runs_get_cache. fold (D t w). rewrite Hb.
  apply runs_bind. eapply runs_mono; [apply put_diff_ok|]. intros [] w1 Ht.
  apply runs_bind. eapply runs_mono; [by apply agrees_SetSequence|]. intros r w' [-> ->].
  apply runs_bind, runs_ret, runs_ret. split; [done|]. constructor.
  - by eapply touches_put_phase.
  - apply (to_rows _ _ _ _ Ht).
  - apply (to_sent _ _ _ _ Ht).
  - intros l ->%list_elem_of_singleton. by rewrite (to_diffs _ _ _ _ Ht), lookup_insert_eq, Hb.
Qed.

Lemma restamped_trans L L' w w1 w' :
  (forall l, l ∈ L -> l ∉ L') -> restamped L w w1 -> restamped L' w1 w' -> restamped (L ++ L') w w'.
Proof.
  intros Hdis [Hp HT Hs HD] [Hp' HT' Hs' HD']. constructor.
  - eapply phase_trans; (eapply phase_mono; [|eassumption]); set_solver.
  - intros. by rewrite HT'.
  - by rewrite Hs'.
  - intros l [Hl|Hl]%elem_of_app.
    + rewrite (ph_diff_at _ _ _ _ _ Hp'), HD; auto.
    + rewrite HD', (ph_diff_at _ _ _ _ _ Hp), (k_sequence _ _ (ph_keeps _ _ _ _ _ Hp)); [done| |done].
      intros Hl'. by apply (Hdis l).
Qed.

Lemma HandleAddAndUpdate_settled cloud w :
  NoDup (cloud_Lcuuid <$> cloud) -> (forall item, item ∈ cloud -> settled item w) ->
  runs (HandleAddAndUpdate cloud) w (fun _ w' => restamped (cloud_Lcuuid <$> cloud) w w').
Proof.
  intros Hnd Hse. unfold HandleAddAndUpdate. apply runs_bind.
  eapply (runs_mono _ _ (fun r w' => r = [] /\ restamped (cloud_Lcuuid <$> cloud) w w')).
  2:{ intros r w' [-> Hr]. by apply runs_ret. }
  revert w Hse. induction cloud as [|item cloud IH]; intros w Hse; cbn [handle_items].
  { apply runs_ret. split; [done|]. constructor; try done. intros l H. by apply elem_of_nil in H. }
  rewrite fmap_cons in *. apply NoDup_cons in Hnd as [Hni Hnd]. apply runs_bind.
  eapply runs_mono; [apply handle_item_settled, Hse; by left|]. intros r w1 [-> H1].
  eapply runs_mono; [apply IH; [done|]|].
  - intros it Hit. destruct (Hse it) as (b & Hb & Hag); [by right|]. exists b. split; [|done].
    rewrite (ph_diff_at _ _ _ _ _ (rs_phase _ _ _ H1)); [done|]. intros E%list_elem_of_singleton.
    apply Hni. rewrite <- E. by apply list_elem_of_fmap_2.
  - intros r w' [-> H2]. split; [done|]. eapply (restamped_trans [_]); [|exact H1|exact H2]. set_solver.
Qed.

End Resource.

(** * Deleting *)

(** The table whose rows [DeleteBatch] of [t] may delete besides. *)
Definition connected (t t' : Table) : Prop := (t = TVM \/ t = TPodNode) /\ t' = TVMPodNodeConnection.

Lemma DeleteItems_ok t ls w :
  runs (for_each (DeleteItem t) ls) w (fun _ w' =>
    phase no_table t ls w w' /\ (forall t', T t' w' = T t' w) /\ forall l, l ∈ ls -> D t w' !! l = None).
Proof.
  revert w. induction ls as [|l ls IH]; intros w; cbn [for_each].
  { apply runs_ret. split_and!; [apply phase_refl|done|]. intros l H. by apply elem_of_nil in H. }
  apply runs_bind. eapply runs_mono; [apply DeleteItem_ok|]. intros [] w1 Ht.
  assert (phase no_table t [l] w w1) as Hp.
  { eapply touches_phase; [|exact Ht]. intros m l' Hl. apply lookup_delete_ne. set_solver. }
  eapply runs_mono; [apply IH|]. intros [] w' (Hp' & HT & Hd). split_and!.
  - eapply phase_trans; (eapply phase_mono; [|eassumption]); set_solver.
  - intros. by rewrite HT, (to_rows _ _ _ _ Ht).
  - intros l' Hl. destruct (decide (l' ∈ ls)) as [|Hn]; [auto|]. assert (l' = l) as -> by set_solver.
    by rewrite (ph_diff_at _ _ _ _ _ Hp'), (to_diffs _ _ _ _ Ht), lookup_delete_eq by done.
Qed.

(** What is left of the rows of a batch. *)
Definition deletes (t : Table) (ls : list string) w (ok : bool) w' : Prop :=
  keeps w w' /\ (forall t', D t' w' = D t' w) /\ (forall t', t' <> t -> ~ connected t t' -> T t' w' = T t' w) /\
  if ok then T t w' = mark_deleted (has_DeletedAt t) (fun l _ => bool_decide (l ∈ ls)) (T t w)
  else T t w' = T t w /\ ~ up (w_db w).

Lemma delete_in_ok t ls w : runs (execute (SDelete t ls) (delete_in t ls)) w (deletes t ls w).
Proof.
  apply runs_execute. intros ok d E. destruct (delete_in_law _ _ _ _ _ E) as (Ho & Hu & Hr).
  split_and!; [by constructor|done|intros; by apply Ho|]. by destruct ok.
Qed.

(** The connections are rows of another table. *)
Lemma delete_connections_ok cons w :
  runs (for_each delete_connection cons) w (fun _ w' =>
    keeps w w' /\ (forall t', D t' w' = D t' w) /\ forall t', t' <> TVMPodNodeConnection -> T t' w' = T t' w).
Proof.
  revert w. induction cons as [|con cons IH]; intros w; cbn [for_each]; [by apply runs_ret|].
  apply runs_bind. unfold delete_connection. apply runs_bind, runs_execute. intros ok d E. apply runs_ret.
  destruct (delete_row_law TVMPodNodeConnection _ _ _ _ E) as (Ho & Hu & _).
  eapply runs_mono; [apply IH|]. intros [] w' (K & HD & HT). split_and!.
  - etransitivity; [|exact K]. by constructor.
  - intros. by rewrite HD.
  - intros. rewrite HT by done. by apply Ho.
Qed.

Lemma connected_DeleteBatch_ok t ls w :
  t = TVM \/ t = TPodNode -> runs (connected_DeleteBatch t ls) w (deletes t ls w).
Proof.
  intros Ht. unfold connected_DeleteBatch. apply runs_bind, runs_query. intros r d E.
  destruct (find_connections_law _ _ _ _ _ E) as (HT & Hu & Hr). set (w1 := mkWorld _ _ _).
  destruct r as [cons|]; [|apply runs_ret; split_and!; [by constructor|done|intros; apply HT|apply HT|auto]].
  assert (t <> TVMPodNodeConnection) as Hne by by destruct Ht as [-> | ->].
  apply runs_bind. eapply runs_mono; [apply delete_connections_ok|]. intros [] w2 (K & HD & HT2).
  assert (keeps w w2) as K2 by (etransitivity; [|exact K]; by constructor).
  eapply runs_mono; [apply delete_in_ok|]. intros ok w' (K' & HD' & HT' & Hok). split_and!.
  - by etransitivity.
  - intros. by rewrite HD', HD.
  - intros t' Hn Hc. rewrite HT', HT2; [apply HT| |done..]. intros ->. by apply Hc.
  - assert (T t w2 = T t w) as E2 by (rewrite HT2 by done; apply HT). rewrite E2 in Hok.
    destruct ok; [done|]. destruct Hok as [? Hn]. split; [done|]. intros Hup. by apply Hn, (k_up _ _ K2).
Qed.

Lemma DeleteBatch_ok t ls w : runs (DeleteBatch t ls) w (deletes t ls w).
Proof.
  destruct t; try apply delete_in_ok; apply connected_DeleteBatch_ok; auto.
Qed.

(** An entry and its row, both gone or both as they were. *)
Definition gone (t : Table) w (l : string) : Prop := D t w !! l = None /\ ~ live (T t w) l.

Definition removed (t : Table) w w' (l : string) : Prop :=
  gone t w' l \/ D t w' !! l = D t w !! l /\ T t w' !! l = T t w !! l.

Lemma mark_deleted_dead soft (ls : list string) r l :
  l ∈ ls -> ~ live (mark_deleted soft (fun l _ => bool_decide (l ∈ ls)) r) l.
Proof.
  intros Hl [id Hid]. rewrite mark_deleted_lookup in Hid. destruct (r !! l) as [[k b]|]; [|done]. cbn in Hid.
  rewrite bool_decide_true in Hid by done. by destruct soft.
Qed.

Lemma deletePage_ok t ls w :
  runs (deletePage (t := t) ls) w (fun _ w' => phase (connected t) t ls w w' /\
    forall l, l ∈ ls -> removed t w w' l /\ (up (w_db w) -> gone t w' l)).
Proof.
  unfold deletePage. apply runs_bind. eapply runs_mono; [apply DeleteBatch_ok|].
  intros ok w1 (K & HD & HT & Hok). destruct ok.
  - assert (phase (connected t) t ls w w1) as Hp.
    { constructor; [done|done|done|by intros; rewrite HD|]. intros l Hl.
      rewrite Hok, mark_deleted_lookup. destruct (T t w !! l) as [[id b]|]; [|done].
      cbn. by rewrite bool_decide_false. }
    eapply runs_mono; [apply DeleteItems_ok|]. intros [] w' (Hp' & HT' & Hd).
    assert (forall l, l ∈ ls -> gone t w' l) as Hg.
    { intros l Hl. split; [auto|]. rewrite HT', Hok. by apply mark_deleted_dead. }
    split; [|intros l Hl; split; [left|]; auto]. eapply phase_trans; [exact Hp|].
    destruct Hp' as [? ? R ? ?]. constructor; auto.
  - destruct Hok as [Hr Hn]. apply runs_ret. split; [constructor|]; try done.
    + intros. by rewrite HD.
    + intros. by rewrite Hr.
    + intros l Hl. split; [right|done]. by rewrite HD, Hr.
Qed.

Lemma removed_trans t w w1 w' l : removed t w w1 l -> removed t w1 w' l -> removed t w w' l.
Proof.
  intros H1 [Hg|[ED ET]]; [by left|]. destruct H1 as [[Hd Hl]|[ED1 ET1]].
  - left. split; [by rewrite ED|]. unfold live in *. by rewrite ET.
  - right. by rewrite ED, ET.
Qed.

Lemma gone_removed t w w' l : gone t w l -> removed t w w' l -> gone t w' l.
Proof. intros [Hd Hl] [?|[ED ET]]; [done|]. split; [by rewrite ED|]. unfold live in *. by rewrite ET. Qed.

Lemma deletePages_ok t ps w :
  runs (for_each (deletePage (t := t)) ps) w (fun _ w' => phase (connected t) t (concat ps) w w' /\
    forall l, l ∈ concat ps -> removed t w w' l /\ (up (w_db w) -> gone t w' l)).
Proof.
  revert w. induction ps as [|p ps IH]; intros w; cbn [for_each concat].
  { apply runs_ret. split; [apply phase_refl|]. intros l H. by apply elem_of_nil in H. }
  apply runs_bind. eapply runs_mono; [apply deletePage_ok|]. intros [] w1 [Hp Hl].
  eapply runs_mono; [apply IH|]. intros [] w' [Hp' Hl']. split.
  { eapply phase_trans; (eapply phase_mono; [|eassumption]); set_solver. }
  assert (forall l, removed t w w1 l) as H1.
  { intros l. destruct (decide (l ∈ p)); [by apply Hl|]. right. split; by apply Hp. }
  assert (forall l, removed t w1 w' l) as H2.
  { intros l. destruct (decide (l ∈ concat ps)); [by apply Hl'|]. right. split; by apply Hp'. }
  intros l Hin. split; [by eapply removed_trans|]. intros Hu.
  apply elem_of_app in Hin as [Hin|Hin]; [by eapply gone_removed; [apply Hl|]|].
  apply Hl'; [done|]. by apply (k_up _ _ (ph_keeps _ _ _ _ _ Hp)).
Qed.

(** The entries that this refresh has not seen. *)
Definition stale (t : Table) w (l : string) : Prop :=
  exists b, D t w !! l = Some b /\ GetSequence b <> Sequence (w_cache w).

Lemma elem_of_unseen t w l : l ∈ unseen (t := t) (w_cache w) <-> stale t w l.
Proof.
  unfold unseen, stale. rewrite list_elem_of_fmap. split.
  - intros ([l' b] & -> & [Hs Hin]%list_elem_of_filter). exists b. split; [|done].
    rewrite range_perm in Hin. by apply elem_of_map_to_list in Hin.
  - intros (b & Hb & Hs). exists (l, b). split; [done|]. apply list_elem_of_filter. split; [done|].
    rewrite range_perm. by apply elem_of_map_to_list.
Qed.

(** The deletions of one resource: an entry that was seen stays as it is, one that was not
    goes with its row, or stays with it. *)
Lemma HandleDelete_ok t w :
  runs (HandleDelete (t := t)) w (fun _ w' => exists L, (forall l, l ∈ L <-> stale t w l) /\
    phase (connected t) t L w w' /\
    forall l, stale t w l -> removed t w w' l /\ (up (w_db w) -> gone t w' l)).
Proof.
  unfold HandleDelete. apply runs_bind, runs_get_cache.
  pose proof (elem_of_unseen t w) as Hun. destruct (unseen (w_cache w)) as [|l ls] eqn:E.
  - apply runs_ret. exists []. split_and!; [done|apply phase_refl|]. intros l Hl%Hun. by apply elem_of_nil in Hl.
  - unfold delete_all. eapply runs_mono; [apply deletePages_ok|]. rewrite concat_pages.
    intros [] w' [Hp Hl]. exists (l :: ls). split_and!; [done..|]. intros l' Hl'%Hun. auto.
Qed.

Lemma HandleDelete_none t w :
  (forall l, ~ stale t w l) -> runs (HandleDelete (t := t)) w (fun _ w' => w' = w).
Proof.
  intros Hn. unfold HandleDelete. apply runs_bind, runs_get_cache.
  destruct (unseen (w_cache w)) as [|l ls] eqn:E; [by apply runs_ret|].
  destruct (Hn l). apply elem_of_unseen. rewrite E. by left.
Qed.

End Facts.
