(* ===== verification/ResourceFacts.v ===== *)
(** What the functions of [UpdaterResources.v] promise to the updater, resource by
    resource: the rows an item refers to, that its row is built when these are there, that
    the columns of an update are columns of the table, and that an updated entry needs no
    update. *)
From stdpp Require Import base strings gmap.
From S2P Require Import Prelude CloudModel MysqlModel DiffBase RecorderCache Updater.
From S2P Require Import UpdaterResources CacheFacts UpdaterFacts.

#[local] Open Scope Z_scope.

(** * References *)

Definition ref (t : Table) (l : string) : list (Table * string) := [(t, l)].

Definition opt_ref (t : Table) (l : string) : list (Table * string) :=
  if decide (l <> "") then [(t, l)] else [].

Definition network_ref (l : string) : list (Table * string) :=
  if decide (l = PUBLIC_NETWORK_LCUUID) then [] else [(TNetwork, l)].

Definition device_ref (deviceType : Z) (l : string) : list (Table * string) :=
  match device_table deviceType with
  | Some t => [(t, l)]
  | None => []
  end.

Lemma included_l {A} (x y : list A) : x ⊆ x ++ y.
Proof. set_solver. Qed.

Lemma included_r {A} (x y z : list A) : x ⊆ z -> x ⊆ y ++ z.
Proof. set_solver. Qed.

Ltac included := first [reflexivity | apply included_l | apply included_r; included].

Section Facts.
Context {DB : Mysql} {ML : MysqlLaws} {GT : GoText}.

Implicit Types w : World DB.

Definition all_live (R : list (Table * string)) w : Prop := Forall (fun '(t, l) => live (T t w) l) R.

Lemma all_live_quiet R w w' : quiet w w' -> all_live R w -> all_live R w'.
Proof.
  intros Hq HR. eapply Forall_impl; [exact HR|]. intros [t l]. by rewrite (q_rows _ _ Hq).
Qed.

Lemma all_live_in R w t l : all_live R w -> [(t, l)] ⊆ R -> live (T t w) l.
Proof. intros HR Hin. apply (proj1 (Forall_forall _ _) HR (t, l)), Hin. by left. Qed.

(** A look-up that succeeds if the references [R] are there and the item is as [W] says. *)
Definition resolves {A} (R : list (Table * string)) (W : Prop) (get : M (option A)) w : Prop :=
  runs get w (fun r w' => quiet w w' /\ (up (w_db w) -> W -> all_live R w -> is_Some r)).

Lemma resolves_id R W t l w : ref t l ⊆ R -> resolves R W (GetIDByLcuuid t l) w.
Proof.
  intros Hin. eapply runs_mono; [apply GetIDByLcuuid_ok|]. intros r w' [Hq Hr]. split; [done|].
  intros Hu _ HR. apply Hr; [done|]. by eapply all_live_in.
Qed.

Lemma resolves_opt R W t l w :
  opt_ref t l ⊆ R -> resolves R W (if decide (l <> "") then GetIDByLcuuid t l else mret (Some 0)) w.
Proof.
  unfold opt_ref. destruct (decide _); [apply resolves_id|]. intros _. apply runs_ret. split; [reflexivity|eauto].
Qed.

Lemma resolves_network R W l w : network_ref l ⊆ R -> resolves R W (GetNetworkIDByLcuuid l) w.
Proof.
  unfold network_ref. intros Hin. eapply runs_mono; [apply GetNetworkIDByLcuuid_ok|]. intros r w' [Hq Hr].
  split; [done|]. intros Hu _ HR. apply Hr; [done|]. intros Hl. destruct (decide _); [done|].
  by eapply all_live_in.
Qed.

Lemma resolves_device R (W : Prop) ty l w :
  device_ref ty l ⊆ R -> (W -> is_Some (device_table ty)) -> resolves R W (GetDeviceIDByDeviceLcuuid ty l) w.
Proof.
  unfold device_ref. intros Hin HW. eapply runs_mono; [apply GetDeviceIDByDeviceLcuuid_ok|]. intros r w' [Hq Hr].
  split; [done|]. intros Hu Hw HR. destruct (HW Hw) as [t Et]. rewrite Et in *.
  eapply Hr; [done..|]. by eapply all_live_in.
Qed.

Lemma resolves_vinterface_network R W l w :
  ref TVInterface l ⊆ R -> resolves R W (GetNetworkIDByVInterfaceLcuuid l) w.
Proof.
  intros Hin. eapply runs_mono; [apply GetNetworkIDByVInterfaceLcuuid_ok|]. intros r w' [Hq Hr].
  split; [done|]. intros Hu _ HR. apply Hr; [done|]. by eapply all_live_in.
Qed.

Lemma resolves_pure {A} R (W : Prop) (o : option A) w : (W -> is_Some o) -> resolves R W (mret o) w.
Proof. intros Ho. apply runs_ret. split; [reflexivity|auto]. Qed.

(** The row of an item with identifier [l]. *)
Definition yields (t : Table) (l : string) (R : list (Table * string)) (W : Prop) (m : M (option (Model t))) w
    : Prop :=
  runs m w (fun r w' => quiet w w' /\ (forall m, r = Some m -> GetLcuuid m = l /\ GetID m = 0) /\
    (up (w_db w) -> W -> all_live R w -> is_Some r)).

Lemma yields_ret t l R W (m : Model t) w : row_Base m = mkBase 0 l -> yields t l R W (mret (Some m)) w.
Proof.
  intros Hm. apply runs_ret. split_and!; [reflexivity| |eauto]. intros m' [= <-].
  unfold GetLcuuid, GetID. by rewrite Hm.
Qed.

Lemma yields_quiet t l R W m w w' : quiet w w' -> yields t l R W m w' ->
  runs m w' (fun r w'' => quiet w w'' /\ (forall m, r = Some m -> GetLcuuid m = l /\ GetID m = 0) /\
    (up (w_db w) -> W -> all_live R w -> is_Some r)).
Proof.
  intros Hq Hy. eapply runs_mono; [exact Hy|]. intros r w'' (Hq' & Hm & Hs).
  split_and!; [by etransitivity|done|]. intros Hu HW HR.
  apply Hs; [by apply (k_up _ _ (q_keeps _ _ Hq))|done|by eapply all_live_quiet].
Qed.

Lemma yields_cache t l R W k w : yields t l R W (k (w_cache w)) w -> yields t l R W (get_cache ≫= k) w.
Proof. done. Qed.

Lemma yields_any {A} t l R W (get : M A) k w :
  runs get w (fun _ w' => quiet w w') -> (forall a w', yields t l R W (k a) w') -> yields t l R W (get ≫= k) w.
Proof.
  intros Hg Hk. apply runs_bind. eapply runs_mono; [exact Hg|]. intros a w' Hq. by apply yields_quiet.
Qed.

Lemma yields_lookup {A} t l R W (get : M (option A)) k w :
  resolves R W get w -> (forall a w', yields t l R W (k a) w') ->
  yields t l R W (get ≫= fun r => match r with Some a => k a | None => mret None end) w.
Proof.
  intros Hg Hk. apply runs_bind. eapply runs_mono; [exact Hg|]. intros r w' [Hq Hr].
  destruct r as [a|]; [by apply yields_quiet|]. apply runs_ret. split_and!; [done..|]. intros Hu HW HR.
  by destruct (Hr Hu HW HR).
Qed.

(** * Updates *)

(** Columns of a table. *)
Definition cols (t : Table) : gset string := list_to_set (columns t).*1.

Definition has_column (t : Table) (c : string) : bool := bool_decide (c ∈ (columns t).*1).

Definition informs (t : Table) (R : list (Table * string)) (G : Prop) (m : M (option updateInfo)) w : Prop :=
  runs m w (fun r w' => quiet w w' /\ (forall i, r = Some i -> dom i ⊆ cols t) /\
    (up (w_db w) -> all_live R w -> r = None -> G)).

Lemma insert_cols t c v (info : gmap string Value) :
  has_column t c = true -> dom info ⊆ cols t -> dom (<[c := v]> info) ⊆ cols t.
Proof. intros Hc%bool_decide_eq_true Hd. rewrite dom_insert. unfold cols in *. set_solver. Qed.

Lemma put_if_cols {A} `{EqDecision A} t (old new : A) c V (info : updateInfo) :
  has_column t c = true -> dom info ⊆ cols t -> dom (put_if old new c V info) ⊆ cols t.
Proof. intros Hc Hd. unfold put_if. destruct (decide _); [done|]. by apply insert_cols. Qed.

Lemma put_if_empty {A} `{EqDecision A} (old new : A) c V (info : updateInfo) :
  put_if old new c V info = ∅ -> old = new /\ info = ∅.
Proof.
  unfold put_if. destruct (decide _); [done|]. intros E. exfalso. revert E. apply (insert_non_empty (M := gmap string)).
Qed.

Lemma informs_none t R (G : Prop) w : G -> informs t R G (mret None) w.
Proof. intros HG. apply runs_ret. split_and!; [reflexivity|done|auto]. Qed.

Lemma informs_ret t R (G : Prop) (info : updateInfo) w :
  dom info ⊆ cols t -> (info = ∅ -> G) -> informs t R G (mret (if decide (info = ∅) then None else Some info)) w.
Proof.
  intros Hd HG. apply runs_ret. split_and!; [reflexivity|..]; destruct (decide _); [done| |auto|done]. by intros i [= <-].
Qed.

Lemma informs_quiet t R G m w w' : quiet w w' -> informs t R G m w' ->
  runs m w' (fun r w'' => quiet w w'' /\ (forall i, r = Some i -> dom i ⊆ cols t) /\
    (up (w_db w) -> all_live R w -> r = None -> G)).
Proof.
  intros Hq Hi. eapply runs_mono; [exact Hi|]. intros r w'' (Hq' & Hc & Hn).
  split_and!; [by etransitivity|done|]. intros Hu HR.
  apply Hn; [by apply (k_up _ _ (q_keeps _ _ Hq))|by eapply all_live_quiet].
Qed.

Lemma informs_ref t R G old new c get (info : updateInfo) k w :
  resolves R True (get new) w -> has_column t c = true -> dom info ⊆ cols t ->
  (old = new -> informs t R G (k info) w) ->
  (forall info w, info <> ∅ -> dom info ⊆ cols t -> informs t R G (k info) w) ->
  informs t R G (put_ref old new c get info ≫= fun r => match r with Some i => k i | None => mret None end) w.
Proof.
  intros Hg Hc Hd Hs Hk. apply runs_bind. unfold put_ref. destruct (decide _); [by apply runs_ret, Hs|].
  apply runs_bind. eapply runs_mono; [apply Hg|]. intros [id|] w' [Hq Hr]; apply runs_ret.
  - apply informs_quiet; [done|]. apply Hk; [apply (insert_non_empty (M := gmap string))|by apply insert_cols].
  - apply runs_ret. split_and!; [done..|]. intros Hu HR. by destruct (Hr Hu I HR).
Qed.

Lemma put_if_same {A} `{EqDecision A} (x y : A) c V info : x = y -> put_if x y c V info = info.
Proof. intros ->. unfold put_if. by rewrite decide_True. Qed.

Lemma put_ref_same l l' c get info (k : updateInfo -> M (option updateInfo)) w Q :
  l = l' -> runs (k info) w Q ->
  runs (put_ref l l' c get info ≫= fun r => match r with Some i => k i | None => mret None end) w Q.
Proof. intros <- Hk. apply runs_bind. unfold put_ref. rewrite decide_True by done. by apply runs_ret. Qed.

Lemma runs_none w (Q : option updateInfo -> World DB -> Prop) (info : updateInfo) :
  info = ∅ -> Q None w -> runs (mret (if decide (info = ∅) then None else Some info)) w Q.
Proof. intros ->. rewrite decide_True by done. apply runs_ret. Qed.

Lemma empty_cols t : dom (∅ : updateInfo) ⊆ cols t.
Proof. unfold updateInfo. rewrite dom_empty. apply empty_subseteq. Qed.

(** The body of a function of a resource. *)
Ltac opened m :=
  let m := eval cbn [generateDBItemToAdd generateUpdateInfo updateCache
    Region_updater AZ_updater SubDomain_updater Host_updater VM_updater VPC_updater
    Network_updater Subnet_updater VRouter_updater RoutingTable_updater DHCPPort_updater
    VInterface_updater WANIP_updater LANIP_updater FloatingIP_updater SecurityGroup_updater
    SecurityGroupRule_updater VMSecurityGroup_updater NATGateway_updater NATVMConnection_updater
    NATRule_updater LB_updater LBVMConnection_updater LBListener_updater LBTargetServer_updater
    PeerConnection_updater RDSInstance_updater RedisInstance_updater PodCluster_updater
    PodNode_updater VMPodNodeConnection_updater PodNamespace_updater PodIngress_updater
    PodIngressRule_updater PodIngressRuleBackend_updater PodService_updater
    PodServicePort_updater PodGroup_updater PodGroupPort_updater PodReplicaSet_updater
    Pod_updater] in m in
  let m := eval red in m in m.

Ltac lookup_law :=
  first [ apply resolves_id; included | apply resolves_opt; included | apply resolves_network; included
        | apply resolves_vinterface_network; included | apply resolves_device; [included|done]
        | apply resolves_pure; done ].

Ltac row_law t :=
  intros item w;
  lazymatch goal with
  | |- runs ?m _ (fun r w' => _ /\ (forall _, _ -> _ = ?l /\ _) /\ (_ -> ?W -> Forall _ ?R -> _)) =>
      let m := opened m in
      change (yields t (cloud_Lcuuid item) R W m w)
  end;
  repeat lazymatch goal with
    | |- yields _ _ _ _ (get_cache ≫= _) _ => apply yields_cache
    | |- yields _ _ _ _ (_ ≫= fun r => match r with _ => _ end) _ => apply yields_lookup; [lookup_law|intros ? ?]
    | |- yields _ _ _ _ (_ ≫= _) _ => apply yields_any; [apply GetIDByLcuuid_quiet|intros ? ?]
    | |- yields _ _ _ _ (match ?p with _ => _ end) _ => destruct p
    end;
  by apply yields_ret.

(** The fields that have been compared are the same. *)
Ltac same_law :=
  let v := fresh "v" in intros v;
  lazymatch goal with |- runs ?m _ _ =>
    let m := opened m in
    change (runs m v (fun r w' => r = None /\ w' = v))
  end;
  repeat (apply put_ref_same; [first [reflexivity|assumption]|]);
  repeat (rewrite put_if_same by first [reflexivity|assumption]);
  first [by apply runs_ret | by apply runs_none].

Ltac compared := let H := fresh in intros H; repeat apply put_if_empty in H as [? H].

Ltac info_law t :=
  intros b item w;
  lazymatch goal with
  | |- runs ?m _ (fun r w' => _ /\ _ /\ (_ -> Forall _ ?R -> _ -> ?G)) =>
      let m := opened m in change (informs t R G m w)
  end;
  repeat lazymatch goal with
    | |- informs _ _ _ (put_ref _ _ _ _ _ ≫= _) _ =>
        apply informs_ref; [lookup_law|vm_compute; reflexivity| |intros ?|intros ? ? ? ?]
    | |- informs _ _ _ (mret None) _ => apply informs_none; same_law
    | |- informs _ _ _ (mret (if _ then _ else _)) _ =>
        apply informs_ret; [|compared; first [done | same_law]]
    | |- _ =>
        first [assumption | apply empty_cols
              | apply put_if_cols; [vm_compute; reflexivity|]]
    end.

Ltac laws t :=
  lazymatch goal with
  | |- context [generateDBItemToAdd] => row_law t
  | |- context [columns] => info_law t
  | |- context [diff_DiffBase] => done
  | |- context [diff_kind] => done
  | |- forall item b, agrees _ _ => intros item b; same_law
  | |- _ => by intros item s b H
  end.

(** * The resources *)

#[export, refine] Instance Region_laws : GeneratorLaws TRegion CloudModel.Region := {
  refs item := [];
  wellformed item := True
}.
Proof. all: laws TRegion. Defined.

#[export, refine] Instance AZ_laws : GeneratorLaws TAZ CloudModel.AZ := {
  refs item := [];
  wellformed item := True
}.
Proof. all: laws TAZ. Defined.

#[export, refine] Instance SubDomain_laws : GeneratorLaws TSubDomain CloudModel.SubDomain := {
  refs item := [];
  wellformed item := True
}.
Proof. all: laws TSubDomain. Defined.

#[export, refine] Instance Host_laws : GeneratorLaws THost CloudModel.Host := {
  refs item := [];
  wellformed item := True
}.
Proof. all: laws THost. Defined.

#[export, refine] Instance VM_laws : GeneratorLaws TVM CloudModel.VM := {
  refs item := ref TVPC (CloudModel.VM_VPCLcuuid item);
  wellformed item := True
}.
Proof. all: laws TVM. Defined.

#[export, refine] Instance VPC_laws : GeneratorLaws TVPC CloudModel.VPC := {
  refs item := [];
  wellformed item := True
}.
Proof. all: laws TVPC. Defined.

#[export, refine] Instance Network_laws : GeneratorLaws TNetwork CloudModel.Network := {
  refs item := ref TVPC (CloudModel.Network_VPCLcuuid item);
  wellformed item := True
}.
Proof. all: laws TNetwork. Defined.

#[export, refine] Instance Subnet_laws : GeneratorLaws TSubnet CloudModel.Subnet := {
  refs item := network_ref (CloudModel.Subnet_NetworkLcuuid item);
  wellformed item := is_Some (CIDRToPreNetMask (CloudModel.Subnet_CIDR item))
}.
Proof. all: laws TSubnet. Defined.

#[export, refine] Instance VRouter_laws : GeneratorLaws TVRouter CloudModel.VRouter := {
  refs item := ref TVPC (CloudModel.VRouter_VPCLcuuid item);
  wellformed item := True
}.
Proof. all: laws TVRouter. Defined.

#[export, refine] Instance RoutingTable_laws : GeneratorLaws TRoutingTable CloudModel.RoutingTable := {
  refs item := ref TVRouter (CloudModel.RoutingTable_VRouterLcuuid item);
  wellformed item := True
}.
Proof. all: laws TRoutingTable. Defined.

#[export, refine] Instance DHCPPort_laws : GeneratorLaws TDHCPPort CloudModel.DHCPPort := {
  refs item := ref TVPC (CloudModel.DHCPPort_VPCLcuuid item);
  wellformed item := True
}.
Proof. all: laws TDHCPPort. Defined.

#[export, refine] Instance VInterface_laws : GeneratorLaws TVInterface CloudModel.VInterface := {
  refs item :=
    network_ref (CloudModel.VInterface_NetworkLcuuid item) ++
    device_ref (CloudModel.VInterface_DeviceType item) (CloudModel.VInterface_DeviceLcuuid item);
  wellformed item := is_Some (device_table (CloudModel.VInterface_DeviceType item))
}.
Proof. all: laws TVInterface. Defined.

#[export, refine] Instance WANIP_laws : GeneratorLaws TWANIP CloudModel.IP := {
  refs item := ref TVInterface (CloudModel.IP_VInterfaceLcuuid item);
  wellformed item := True
}.
Proof. all: laws TWANIP. Defined.

#[export, refine] Instance LANIP_laws : GeneratorLaws TLANIP CloudModel.IP := {
  refs item := ref TVInterface (CloudModel.IP_VInterfaceLcuuid item);
  wellformed item := True
}.
Proof. all: laws TLANIP. Defined.

#[export, refine] Instance FloatingIP_laws : GeneratorLaws TFloatingIP CloudModel.FloatingIP := {
  refs item :=
    network_ref (CloudModel.FloatingIP_NetworkLcuuid item) ++
    ref TVM (CloudModel.FloatingIP_VMLcuuid item) ++
    ref TVPC (CloudModel.FloatingIP_VPCLcuuid item);
  wellformed item := True
}.
Proof. all: laws TFloatingIP. Defined.

#[export, refine] Instance SecurityGroup_laws : GeneratorLaws TSecurityGroup CloudModel.SecurityGroup := {
  refs item := opt_ref TVPC (CloudModel.SecurityGroup_VPCLcuuid item);
  wellformed item := True
}.
Proof. all: laws TSecurityGroup. Defined.

#[export, refine] Instance SecurityGroupRule_laws : GeneratorLaws TSecurityGroupRule CloudModel.SecurityGroupRule := {
  refs item := ref TSecurityGroup (CloudModel.SecurityGroupRule_SecurityGroupLcuuid item);
  wellformed item := True
}.
Proof. all: laws TSecurityGroupRule. Defined.

#[export, refine] Instance VMSecurityGroup_laws : GeneratorLaws TVMSecurityGroup CloudModel.VMSecurityGroup := {
  refs item :=
    ref TSecurityGroup (CloudModel.VMSecurityGroup_SecurityGroupLcuuid item) ++
    ref TVM (CloudModel.VMSecurityGroup_VMLcuuid item);
  wellformed item := True
}.
Proof. all: laws TVMSecurityGroup. Defined.

#[export, refine] Instance NATGateway_laws : GeneratorLaws TNATGateway CloudModel.NATGateway := {
  refs item := ref TVPC (CloudModel.NATGateway_VPCLcuuid item);
  wellformed item := True
}.
Proof. all: laws TNATGateway. Defined.

#[export, refine] Instance NATVMConnection_laws : GeneratorLaws TNATVMConnection CloudModel.NATVMConnection := {
  refs item :=
    ref TVM (CloudModel.NATVMConnection_VMLcuuid item) ++
    ref TNATGateway (CloudModel.NATVMConnection_NATGatewayLcuuid item);
  wellformed item := True
}.
Proof. all: laws TNATVMConnection. Defined.

#[export, refine] Instance NATRule_laws : GeneratorLaws TNATRule CloudModel.NATRule := {
  refs item :=
    opt_ref TNATGateway (CloudModel.NATRule_NATGatewayLcuuid item) ++
    opt_ref TVInterface (CloudModel.NATRule_VInterfaceLcuuid item);
  wellformed item := True
}.
Proof. all: laws TNATRule. Defined.

#[export, refine] Instance LB_laws : GeneratorLaws TLB CloudModel.LB := {
  refs item := ref TVPC (CloudModel.LB_VPCLcuuid item);
  wellformed item := True
}.
Proof. all: laws TLB. Defined.

#[export, refine] Instance LBVMConnection_laws : GeneratorLaws TLBVMConnection CloudModel.LBVMConnection := {
  refs item :=
    ref TVM (CloudModel.LBVMConnection_VMLcuuid item) ++
    ref TLB (CloudModel.LBVMConnection_LBLcuuid item);
  wellformed item := True
}.
Proof. all: laws TLBVMConnection. Defined.

#[export, refine] Instance LBListener_laws : GeneratorLaws TLBListener CloudModel.LBListener := {
  refs item := ref TLB (CloudModel.LBListener_LBLcuuid item);
  wellformed item := True
}.
Proof. all: laws TLBListener. Defined.

#[export, refine] Instance LBTargetServer_laws : GeneratorLaws TLBTargetServer CloudModel.LBTargetServer := {
  refs item :=
    ref TLB (CloudModel.LBTargetServer_LBLcuuid item) ++
    ref TLBListener (CloudModel.LBTargetServer_LBListenerLcuuid item) ++
    opt_ref TVM (CloudModel.LBTargetServer_VMLcuuid item);
  wellformed item := True
}.
Proof. all: laws TLBTargetServer. Defined.

#[export, refine] Instance PeerConnection_laws : GeneratorLaws TPeerConnection CloudModel.PeerConnection := {
  refs item :=
    ref TVPC (CloudModel.PeerConnection_RemoteVPCLcuuid item) ++
    ref TVPC (CloudModel.PeerConnection_LocalVPCLcuuid item) ++
    ref TRegion (CloudModel.PeerConnection_RemoteRegionLcuuid item) ++
    ref TRegion (CloudModel.PeerConnection_LocalRegionLcuuid item);
  wellformed item := True
}.
Proof. all: laws TPeerConnection. Defined.

#[export, refine] Instance RDSInstance_laws : GeneratorLaws TRDSInstance CloudModel.RDSInstance := {
  refs item := ref TVPC (CloudModel.RDSInstance_VPCLcuuid item);
  wellformed item := True
}.
Proof. all: laws TRDSInstance. Defined.

#[export, refine] Instance RedisInstance_laws : GeneratorLaws TRedisInstance CloudModel.RedisInstance := {
  refs item := ref TVPC (CloudModel.RedisInstance_VPCLcuuid item);
  wellformed item := True
}.
Proof. all: laws TRedisInstance. Defined.

#[export, refine] Instance PodCluster_laws : GeneratorLaws TPodCluster CloudModel.PodCluster := {
  refs item := ref TVPC (CloudModel.PodCluster_VPCLcuuid item);
  wellformed item := True
}.
Proof. all: laws TPodCluster. Defined.

#[export, refine] Instance PodNode_laws : GeneratorLaws TPodNode CloudModel.PodNode := {
  refs item :=
    ref TVPC (CloudModel.PodNode_VPCLcuuid item) ++
    ref TPodCluster (CloudModel.PodNode_PodClusterLcuuid item);
  wellformed item := True
}.
Proof. all: laws TPodNode. Defined.

#[export, refine] Instance VMPodNodeConnection_laws : GeneratorLaws TVMPodNodeConnection CloudModel.VMPodNodeConnection := {
  refs item :=
    ref TVM (CloudModel.VMPodNodeConnection_VMLcuuid item) ++
    ref TPodNode (CloudModel.VMPodNodeConnection_PodNodeLcuuid item);
  wellformed item := True
}.
Proof. all: laws TVMPodNodeConnection. Defined.

#[export, refine] Instance PodNamespace_laws : GeneratorLaws TPodNamespace CloudModel.PodNamespace := {
  refs item := ref TPodCluster (CloudModel.PodNamespace_PodClusterLcuuid item);
  wellformed item := True
}.
Proof. all: laws TPodNamespace. Defined.

#[export, refine] Instance PodIngress_laws : GeneratorLaws TPodIngress CloudModel.PodIngress := {
  refs item :=
    ref TPodNamespace (CloudModel.PodIngress_PodNamespaceLcuuid item) ++
    ref TPodCluster (CloudModel.PodIngress_PodClusterLcuuid item);
  wellformed item := True
}.
Proof. all: laws TPodIngress. Defined.

#[export, refine] Instance PodIngressRule_laws : GeneratorLaws TPodIngressRule CloudModel.PodIngressRule := {
  refs item := ref TPodIngress (CloudModel.PodIngressRule_PodIngressLcuuid item);
  wellformed item := True
}.
Proof. all: laws TPodIngressRule. Defined.

#[export, refine] Instance PodIngressRuleBackend_laws : GeneratorLaws TPodIngressRuleBackend CloudModel.PodIngressRuleBackend := {
  refs item :=
    ref TPodIngressRule (CloudModel.PodIngressRuleBackend_PodIngressRuleLcuuid item) ++
    ref TPodIngress (CloudModel.PodIngressRuleBackend_PodIngressLcuuid item) ++
    ref TPodService (CloudModel.PodIngressRuleBackend_PodServiceLcuuid item);
  wellformed item := True
}.
Proof. all: laws TPodIngressRuleBackend. Defined.

#[export, refine] Instance PodService_laws : GeneratorLaws TPodService CloudModel.PodService := {
  refs item :=
    ref TVPC (CloudModel.PodService_VPCLcuuid item) ++
    ref TPodCluster (CloudModel.PodService_PodClusterLcuuid item) ++
    opt_ref TPodIngress (CloudModel.PodService_PodIngressLcuuid item);
  wellformed item := True
}.
Proof. all: laws TPodService. Defined.

#[export, refine] Instance PodServicePort_laws : GeneratorLaws TPodServicePort CloudModel.PodServicePort := {
  refs item := ref TPodService (CloudModel.PodServicePort_PodServiceLcuuid item);
  wellformed item := True
}.
Proof. all: laws TPodServicePort. Defined.

#[export, refine] Instance PodGroup_laws : GeneratorLaws TPodGroup CloudModel.PodGroup := {
  refs item :=
    ref TPodNamespace (CloudModel.PodGroup_PodNamespaceLcuuid item) ++
    ref TPodCluster (CloudModel.PodGroup_PodClusterLcuuid item);
  wellformed item := True
}.
Proof. all: laws TPodGroup. Defined.

#[export, refine] Instance PodGroupPort_laws : GeneratorLaws TPodGroupPort CloudModel.PodGroupPort := {
  refs item :=
    ref TPodGroup (CloudModel.PodGroupPort_PodGroupLcuuid item) ++
    ref TPodService (CloudModel.PodGroupPort_PodServiceLcuuid item);
  wellformed item := True
}.
Proof. all: laws TPodGroupPort. Defined.

#[export, refine] Instance PodReplicaSet_laws : GeneratorLaws TPodReplicaSet CloudModel.PodReplicaSet := {
  refs item :=
    ref TPodNamespace (CloudModel.PodReplicaSet_PodNamespaceLcuuid item) ++
    ref TPodCluster (CloudModel.PodReplicaSet_PodClusterLcuuid item) ++
    ref TPodGroup (CloudModel.PodReplicaSet_PodGroupLcuuid item);
  wellformed item := True
}.
Proof. all: laws TPodReplicaSet. Defined.

#[export, refine] Instance Pod_laws : GeneratorLaws TPod CloudModel.Pod := {
  refs item :=
    ref TVPC (CloudModel.Pod_VPCLcuuid item) ++
    ref TPodNode (CloudModel.Pod_PodNodeLcuuid item) ++
    ref TPodNamespace (CloudModel.Pod_PodNamespaceLcuuid item) ++
    ref TPodCluster (CloudModel.Pod_PodClusterLcuuid item) ++
    ref TPodGroup (CloudModel.Pod_PodGroupLcuuid item) ++
    opt_ref TPodReplicaSet (CloudModel.Pod_PodReplicaSetLcuuid item);
  wellformed item := True
}.
Proof. all: laws TPod. Defined.

End Facts.
