(* ===== verification/RecorderFacts.v ===== *)
(** Facts of a refresh ([Recorder.v]): the cache stays sound whatever the database does, a
    refresh of a database that answers leaves what the cloud data says, and refreshes with
    the same cloud data come to rest. *)
From stdpp Require Import base strings gmap.
From S2P Require Import Prelude CloudModel MysqlModel DiffBase RecorderCache Updater.
From S2P Require Import UpdaterResources Recorder CacheFacts UpdaterFacts ResourceFacts.

#[local] Open Scope Z_scope.

Section Facts.
Context {DB : Mysql} {ML : MysqlLaws} {GM : GoMap} {GL : GoMapLaws} {GT : GoText}.

Implicit Types w : World DB.

(** * Jobs *)

(** An updater with its resource and the laws of it. *)
Inductive Job :=
| JTable (t : Table) (CT : Type) (DG : DataGenerator t CT) (GEN : GeneratorLaws t CT) (cloud : list CT)
| JIP (cloud : list CloudModel.IP).

#[local] Arguments JTable t {CT DG GEN} cloud.

Definition updater_of (j : Job) : ResourceUpdater :=
  match j with
  | JTable t cloud => NewUpdater t cloud
  | JIP cloud => NewIP cloud
  end.

Definition domain_jobs (cloudData : Resource) : list Job :=
  [JTable TRegion (Resource_Regions cloudData);
   JTable TAZ (Resource_AZs cloudData);
   JTable TSubDomain (Resource_SubDomains cloudData);
   JTable TVPC (Resource_VPCs cloudData);
   JTable THost (Resource_Hosts cloudData);
   JTable TVM (Resource_VMs cloudData);
   JTable TPodCluster (Resource_PodClusters cloudData);
   JTable TPodNode (Resource_PodNodes cloudData);
   JTable TPodNamespace (Resource_PodNamespaces cloudData);
   JTable TPodIngress (Resource_PodIngresses cloudData);
   JTable TPodIngressRule (Resource_PodIngressRules cloudData);
   JTable TPodService (Resource_PodServices cloudData);
   JTable TPodIngressRuleBackend (Resource_PodIngressRuleBackends cloudData);
   JTable TPodServicePort (Resource_PodServicePorts cloudData);
   JTable TPodGroup (Resource_PodGroups cloudData);
   JTable TPodGroupPort (Resource_PodGroupPorts cloudData);
   JTable TPodReplicaSet (Resource_PodReplicaSets cloudData);
   JTable TPod (Resource_Pods cloudData);
   JTable TNetwork (Resource_Networks cloudData);
   JTable TSubnet (Resource_Subnets cloudData);
   JTable TVRouter (Resource_VRouters cloudData);
   JTable TRoutingTable (Resource_RoutingTables cloudData);
   JTable TDHCPPort (Resource_DHCPPorts cloudData);
   JTable TSecurityGroup (Resource_SecurityGroups cloudData);
   JTable TSecurityGroupRule (Resource_SecurityGroupRules cloudData);
   JTable TVMSecurityGroup (Resource_VMSecurityGroups cloudData);
   JTable TNATGateway (Resource_NATGateways cloudData);
   JTable TNATVMConnection (Resource_NATVMConnections cloudData);
   JTable TNATRule (Resource_NATRules cloudData);
   JTable TLB (Resource_LBs cloudData);
   JTable TLBVMConnection (Resource_LBVMConnections cloudData);
   JTable TLBListener (Resource_LBListeners cloudData);
   JTable TLBTargetServer (Resource_LBTargetServers cloudData);
   JTable TRDSInstance (Resource_RDSInstances cloudData);
   JTable TRedisInstance (Resource_RedisInstances cloudData);
   JTable TPeerConnection (Resource_PeerConnections cloudData);
   JTable TVInterface (Resource_VInterfaces cloudData);
   JTable TFloatingIP (Resource_FloatingIPs cloudData);
   JIP (Resource_IPs cloudData);
   JTable TVMPodNodeConnection (Resource_VMPodNodeConnections cloudData)].

Definition sub_domain_jobs (cloudData : SubDomainResource) : list Job :=
  [JTable TPodCluster (SubDomainResource_PodClusters cloudData);
   JTable TPodNode (SubDomainResource_PodNodes cloudData);
   JTable TPodNamespace (SubDomainResource_PodNamespaces cloudData);
   JTable TPodIngress (SubDomainResource_PodIngresses cloudData);
   JTable TPodIngressRule (SubDomainResource_PodIngressRules cloudData);
   JTable TPodService (SubDomainResource_PodServices cloudData);
   JTable TPodIngressRuleBackend (SubDomainResource_PodIngressRuleBackends cloudData);
   JTable TPodServicePort (SubDomainResource_PodServicePorts cloudData);
   JTable TPodGroup (SubDomainResource_PodGroups cloudData);
   JTable TPodGroupPort (SubDomainResource_PodGroupPorts cloudData);
   JTable TPodReplicaSet (SubDomainResource_PodReplicaSets cloudData);
   JTable TPod (SubDomainResource_Pods cloudData);
   JTable TNetwork (SubDomainResource_Networks cloudData);
   JTable TSubnet (SubDomainResource_Subnets cloudData);
   JTable TVInterface (SubDomainResource_VInterfaces cloudData);
   JIP (SubDomainResource_IPs cloudData);
   JTable TVMPodNodeConnection (SubDomainResource_VMPodNodeConnections cloudData)].

Lemma domain_updaters cd : getDomainUpdatersInOrder cd = updater_of <$> domain_jobs cd.
Proof. done. Qed.

Lemma sub_domain_updaters cd : getSubDomainUpdatersInOrder cd = updater_of <$> sub_domain_jobs cd.
Proof. done. Qed.

(** No identifier twice in the data of a job. *)
Definition job_distinct (j : Job) : Prop :=
  match j with
  | JTable t cloud => NoDup (cloud_Lcuuid <$> cloud)
  | JIP cloud => NoDup (CloudModel.IP_Lcuuid <$> cloud)
  end.

Definition job_tables (j : Job) : list Table :=
  match j with
  | JTable t _ => [t]
  | JIP _ => [TWANIP; TLANIP]
  end.

Lemma split_sublists c cloud :
  (splitToWANAndLAN c cloud).1 `sublist_of` cloud /\ (splitToWANAndLAN c cloud).2 `sublist_of` cloud.
Proof.
  induction cloud as [|item cloud [IH1 IH2]]; [done|]. cbn [splitToWANAndLAN].
  destruct (splitToWANAndLAN c cloud) as [wan lan]. cbn in IH1, IH2.
  destruct (_ !! _) as [v|]; [|by split; constructor]. destruct (_ =? _); split; cbn; by constructor.
Qed.

Lemma split_distinct c cloud :
  NoDup (CloudModel.IP_Lcuuid <$> cloud) ->
  NoDup (CloudModel.IP_Lcuuid <$> (splitToWANAndLAN c cloud).1) /\
  NoDup (CloudModel.IP_Lcuuid <$> (splitToWANAndLAN c cloud).2).
Proof.
  intros Hnd. destruct (split_sublists c cloud) as [H1 H2].
  split; eapply sublist_NoDup; try exact Hnd; by apply fmap_sublist.
Qed.

(** * The cache is sound *)

(** Every entry is that of its identifier and has a live row.  The rows of connections
    between virtual machines and container nodes are excepted, for [DeleteBatch] of these
    deletes them behind the cache. *)
Definition cache_sound w : Prop :=
  forall t l b, D t w !! l = Some b ->
    diff_GetLcuuid b = l /\ (t <> TVMPodNodeConnection -> live (T t w) l).

Lemma sound_updated {t CT} {DG : DataGenerator t CT} {GEN : GeneratorLaws t CT} (cloud : list CT) w w' :
  cache_sound w -> updated cloud w w' -> cache_sound w'.
Proof.
  intros Hs [Hp Hk Hn _ _] t' l b Hb. destruct (decide (t' = t)) as [->|Hne].
  2:{ rewrite (ph_diffs _ _ _ _ _ Hp) in Hb by done. destruct (Hs _ _ _ Hb) as [? Hl].
      split; [done|]. intros Hc. rewrite (ph_rows _ _ _ _ _ Hp); [auto|done|by intros []]. }
  destruct (decide (l ∈ cloud_Lcuuid <$> cloud)) as [Hin|Hni].
  2:{ rewrite (ph_diff_at _ _ _ _ _ Hp) in Hb by done. destruct (Hs _ _ _ Hb) as [? Hl].
      split; [done|]. intros Hc. unfold live. rewrite (ph_row_at _ _ _ _ _ Hp) by done. by apply Hl. }
  destruct (D t w !! l) as [b0|] eqn:Hb0.
  - destruct (Hk l b0 Hin Hb0) as [(b' & Hb' & Eb & _) ET]. destruct (Hs _ _ _ Hb0) as [E0 Hl].
    simplify_eq. unfold diff_GetLcuuid at 1. rewrite Eb. split; [done|]. unfold live. by rewrite ET.
  - destruct (Hn l Hin Hb0) as [?|(b' & Hb' & Eb & Hl)]; simplify_eq.
    unfold diff_GetLcuuid. by rewrite Eb.
Qed.

Lemma sound_deleted t L w w' :
  cache_sound w -> phase (connected t) t L w w' -> (forall l, l ∈ L -> removed t w w' l) -> cache_sound w'.
Proof.
  intros Hs Hp Hr t' l b Hb. destruct (decide (t' = t)) as [->|Hne].
  2:{ rewrite (ph_diffs _ _ _ _ _ Hp) in Hb by done. destruct (Hs _ _ _ Hb) as [? Hl].
      split; [done|]. intros Hc. rewrite (ph_rows _ _ _ _ _ Hp); [auto|done|by intros []]. }
  assert (removed t w w' l) as [[? _]|[ED ET]].
  { destruct (decide (l ∈ L)); [auto|]. right. split; by apply Hp. }
  - congruence.
  - rewrite ED in Hb. unfold live. rewrite ET. by apply Hs.
Qed.

Lemma sound_HandleDelete t w :
  cache_sound w -> runs (HandleDelete (t := t)) w (fun _ w' => cache_sound w').
Proof.
  intros Hs. eapply runs_mono; [apply HandleDelete_ok|]. intros [] w' (L & HL & Hp & Hr).
  eapply sound_deleted; [done..|]. intros l Hl%HL. by apply Hr.
Qed.

Lemma sound_HandleAddAndUpdate {t CT} {DG : DataGenerator t CT} {GEN : GeneratorLaws t CT} (cloud : list CT) w :
  NoDup (cloud_Lcuuid <$> cloud) -> cache_sound w ->
  runs (HandleAddAndUpdate cloud) w (fun _ w' => cache_sound w').
Proof.
  intros Hnd Hs. eapply runs_mono; [by apply HandleAddAndUpdate_ok|]. intros [] w'. by apply sound_updated.
Qed.

Lemma sound_add j w :
  job_distinct j -> cache_sound w -> runs (handle_add (updater_of j)) w (fun _ w' => cache_sound w').
Proof.
  destruct j as [t CT DG GEN cloud|cloud]; intros Hnd Hs; cbn [updater_of handle_add NewUpdater NewIP].
  - by apply sound_HandleAddAndUpdate.
  - unfold IP_HandleAddAndUpdate. apply runs_bind, runs_get_cache.
    destruct (split_distinct (w_cache w) cloud Hnd) as [H1 H2]. destruct (splitToWANAndLAN _ _) as [wan lan].
    apply runs_bind. eapply runs_mono; [by apply sound_HandleAddAndUpdate|]. intros [] w1 Hs1.
    by apply sound_HandleAddAndUpdate.
Qed.

Lemma sound_delete j w : cache_sound w -> runs (handle_delete (updater_of j)) w (fun _ w' => cache_sound w').
Proof.
  destruct j as [t CT DG GEN cloud|cloud]; intros Hs; cbn [updater_of handle_delete NewUpdater NewIP].
  - by apply sound_HandleDelete.
  - unfold IP_HandleDelete. apply runs_bind. eapply runs_mono; [by apply sound_HandleDelete|]. intros [] w1 Hs1.
    by apply sound_HandleDelete.
Qed.

(** * Loops *)

Lemma runs_bind_inv {A B} (m : M A) (f : A -> M B) w Q :
  runs (m ≫= f) w Q -> runs m w (fun a w' => runs (f a) w' Q).
Proof. unfold runs, mbind, ST_bind. by destruct (m w) as [[a w']|]. Qed.

Lemma for_each_fmap {A B} (f : B -> M unit) (g : A -> B) xs w Q :
  runs (for_each (fun x => f (g x)) xs) w Q -> runs (for_each f (g <$> xs)) w Q.
Proof.
  revert w. induction xs as [|x xs IH]; intros w H; [done|]. rewrite fmap_cons. cbn [for_each] in *.
  apply runs_bind. apply runs_bind_inv in H. eapply runs_mono; [exact H|]. intros [] w'. apply IH.
Qed.

Lemma runs_and {A} (m : M A) w Q Q' :
  runs m w (fun _ w' => Q w') -> runs m w (fun _ w' => Q' w') -> runs m w (fun _ w' => Q w' /\ Q' w').
Proof. unfold runs. by destruct (m w) as [[a w']|]. Qed.

(** A loop that keeps an invariant. *)
Lemma for_each_keeps {A} (f : A -> M unit) (P : World DB -> Prop) xs w :
  (forall x w, x ∈ xs -> P w -> runs (f x) w (fun _ w' => P w')) -> P w ->
  runs (for_each f xs) w (fun _ w' => P w').
Proof.
  revert w. induction xs as [|x xs IH]; intros w Hf HP; cbn [for_each]; [by apply runs_ret|].
  apply runs_bind. eapply runs_mono; [apply Hf; [by left|done]|]. intros [] w' HP'.
  apply IH; [|done]. intros y v Hy. apply Hf. by right.
Qed.

(** The order of deletion: the last job comes last again. *)
Definition delete_order (js : list Job) : list Job :=
  reverse (take (length js - 1) js) ++ option_list (last js).

Lemma delete_order_perm js : delete_order js ≡ₚ js.
Proof.
  destruct js as [|j js _] using rev_ind; [done|]. unfold delete_order.
  rewrite last_snoc, length_app, take_app_length' by (cbn; lia). cbn. by rewrite reverse_Permutation.
Qed.

Lemma refresh_domain_runs js w Q :
  js <> [] ->
  runs (for_each (fun j => handle_add (updater_of j)) js) w (fun _ w1 =>
    runs (for_each (fun j => handle_delete (updater_of j)) (delete_order js)) w1 Q) ->
  runs (refresh_domain (updater_of <$> js)) w Q.
Proof.
  intros Hne H. unfold refresh_domain. apply runs_bind. eapply runs_mono; [apply for_each_fmap, H|].
  intros [] w1 Hd. unfold delete_order in Hd. destruct js as [|j js _] using rev_ind; [done|].
  rewrite last_snoc, length_app, take_app_length' in Hd by (cbn; lia).
  rewrite fmap_app, length_app, length_fmap, take_app_length' by (rewrite ?length_fmap; cbn [length fmap list_fmap]; lia).
  change (updater_of <$> [j]) with [updater_of j]. rewrite last_snoc, <- fmap_reverse. clear H Hne. revert w1 Hd. generalize (reverse js) as ds.
  induction ds as [|d ds IH]; intros w1 Hd.
  - apply runs_bind, runs_ret. cbn in Hd. apply runs_bind_inv in Hd.
    eapply runs_mono; [exact Hd|]. by intros [] w'.
  - cbn in Hd. apply runs_bind_inv in Hd. apply runs_bind. rewrite fmap_cons. cbn [for_each].
    apply runs_bind. eapply runs_mono; [exact Hd|]. intros [] w2 Hd2. specialize (IH w2 Hd2).
    by apply runs_bind_inv in IH.
Qed.

(** * What a refresh leaves *)

(** An entry with the current sequence number. *)
Definition current (t : Table) w (l : string) : Prop :=
  exists b, D t w !! l = Some b /\ diff_DiffBase b = mkDiffBase (Sequence (w_cache w)) l.

(** The identifiers [L] of a table after the additions and updates. *)
Record table_added (t : Table) (L : list string) w w' : Prop := mkTableAdded {
  ta_current l : l ∈ L -> current t w' l;
  ta_live l : l ∈ L -> D t w !! l = None \/ live (T t w) l -> live (T t w') l;
  ta_diff l : l ∉ L -> D t w' !! l = D t w !! l;
  ta_row l : l ∉ L -> T t w' !! l = T t w !! l
}.

(** Only the tables [ts] change. *)
Record frame (ts : list Table) w w' : Prop := mkFrame {
  fr_keeps : keeps w w';
  fr_diffs t : t ∉ ts -> D t w' = D t w;
  fr_rows t : t ∉ ts -> T t w' = T t w
}.

Lemma frame_trans ts ts' w w1 w' : frame ts w w1 -> frame ts' w1 w' -> frame (ts ++ ts') w w'.
Proof.
  intros [K HD HT] [K' HD' HT']. constructor; [by etransitivity|..]; intros t [? ?]%not_elem_of_app;
    rewrite ?HD', ?HT' by done; auto.
Qed.

Lemma current_keeps t w w' l : keeps w w' -> D t w' !! l = D t w !! l -> current t w l -> current t w' l.
Proof. intros K E (b & Hb & Eb). exists b. by rewrite E, (k_sequence _ _ K). Qed.

Lemma table_added_after ts t L w w1 w' :
  t ∉ ts -> frame ts w1 w' -> table_added t L w w1 -> table_added t L w w'.
Proof.
  intros Ht [K HD HT] [H1 H2 H3 H4]. specialize (HD t Ht). specialize (HT t Ht).
  constructor; intros; rewrite ?HD, ?HT; auto. eapply current_keeps; [done|by rewrite HD|auto].
Qed.

Lemma table_added_before ts t L w w1 w' :
  t ∉ ts -> frame ts w w1 -> table_added t L w1 w' -> table_added t L w w'.
Proof.
  intros Ht [K HD HT] [H1 H2 H3 H4]. specialize (HD t Ht). specialize (HT t Ht). rewrite HD, HT in *.
  by constructor.
Qed.

Lemma table_added_live t L w w' t' l :
  frame [t] w w' -> table_added t L w w' -> live (T t' w) l -> live (T t' w') l.
Proof.
  intros Hf [_ H2 _ H4] Hl. destruct (decide (t' = t)) as [->|Hne].
  - destruct (decide (l ∈ L)); [auto|]. unfold live. by rewrite H4.
  - by rewrite (fr_rows _ _ _ Hf) by set_solver.
Qed.

Lemma table_added_current t L w w' t' l :
  frame [t] w w' -> table_added t L w w' -> current t' w l -> current t' w' l.
Proof.
  intros Hf [H1 _ H3 _] Hl. destruct (decide (t' = t)) as [->|Hne].
  - destruct (decide (l ∈ L)); [auto|]. eapply current_keeps; [apply Hf|auto|done].
  - eapply current_keeps; [apply Hf| |done]. by rewrite (fr_diffs _ _ _ Hf) by set_solver.
Qed.

(** Entries stay, and their kinds. *)
Definition entries_stay w w' : Prop :=
  forall t l b, D t w !! l = Some b -> exists b', D t w' !! l = Some b' /\ diff_kind b' = diff_kind b.

Lemma entries_stay_trans w w1 w' : entries_stay w w1 -> entries_stay w1 w' -> entries_stay w w'.
Proof.
  intros H1 H2 t l b Hb. destruct (H1 _ _ _ Hb) as (b1 & Hb1 & E1). destruct (H2 _ _ _ Hb1) as (b' & Hb' & E2).
  exists b'. by rewrite E2.
Qed.

Lemma updated_entries_stay {t CT} {DG : DataGenerator t CT} {GEN : GeneratorLaws t CT} (cloud : list CT) w w' :
  updated cloud w w' -> entries_stay w w'.
Proof.
  intros [Hp Hk _ _ _] t' l b Hb. destruct (decide (t' = t)) as [->|Hne].
  - destruct (decide (l ∈ cloud_Lcuuid <$> cloud)) as [Hl|Hl].
    + destruct (Hk l b Hl Hb) as [(b' & Hb' & _ & Ek) _]. eauto.
    + exists b. by rewrite (ph_diff_at _ _ _ _ _ Hp).
  - exists b. by rewrite (ph_diffs _ _ _ _ _ Hp).
Qed.

(** One resource of a database that answers. *)
Lemma updated_table_added {t CT} {DG : DataGenerator t CT} {GEN : GeneratorLaws t CT} (cloud : list CT) w w' :
  up (w_db w) -> cache_sound w -> no_stray (t := t) (cloud_Lcuuid <$> cloud) w ->
  (forall item, item ∈ cloud -> ready item w) -> updated cloud w w' ->
  frame [t] w w' /\ table_added t (cloud_Lcuuid <$> cloud) w w'.
Proof.
  intros Hu Hs Hst Hr [Hp Hk _ Ha _]. split.
  { constructor; [apply Hp|..]; intros t' Ht; [apply Hp; set_solver|]. apply Hp; [set_solver|by intros []]. }
  constructor; try by apply Hp.
  - intros l Hl. destruct (D t w !! l) as [b|] eqn:Hb.
    + destruct (Hk l b Hl Hb) as [(b' & Hb' & Eb & _) _]. exists b'. rewrite Eb. by destruct (Hs _ _ _ Hb) as [-> _].
    + apply list_elem_of_fmap in Hl as (item & -> & Hi).
      destruct (Ha item) as (b & Hb' & Eb & _); auto. by exists b.
  - intros l Hl Hor. destruct (D t w !! l) as [b|] eqn:Hb.
    + destruct Hor as [|Hl']; [done|]. destruct (Hk l b Hl Hb) as [_ ET]. unfold live. by rewrite ET.
    + apply list_elem_of_fmap in Hl as (item & -> & Hi). destruct (Ha item) as (b & _ & _ & ?); auto.
Qed.

(** ** Jobs *)

(** What the items of a job need: their references are among the rows [R], the interfaces
    of addresses among those of this refresh, [F]. *)
Definition job_ready (R F : list (Table * string)) (j : Job) : Prop :=
  match j with
  | JTable t cloud => forall item, item ∈ cloud -> wellformed item /\ refs item ⊆ R ++ F
  | JIP cloud => forall item, item ∈ cloud -> (TVInterface, CloudModel.IP_VInterfaceLcuuid item) ∈ F
  end.

Definition job_rows (j : Job) : list (Table * string) :=
  match j with
  | JTable t cloud =>
      if decide (t = TVMPodNodeConnection) then [] else (fun item => (t, cloud_Lcuuid item)) <$> cloud
  | JIP _ => []
  end.

(** Cloud data that is closed: each item refers to rows that are there or that come before
    it in the order of creation. *)
Fixpoint closed (R F : list (Table * string)) (js : list Job) : Prop :=
  match js with
  | [] => True
  | j :: js => job_ready R F j /\ closed R (F ++ job_rows j) js
  end.

(** Tables without soft deletion have no rows of new identifiers. *)
Definition job_clean (j : Job) w : Prop :=
  match j with
  | JTable t cloud => no_stray (t := t) (cloud_Lcuuid <$> cloud) w
  | JIP cloud =>
      no_stray (t := TWANIP) (CloudModel.IP_Lcuuid <$> cloud) w /\
      no_stray (t := TLANIP) (CloudModel.IP_Lcuuid <$> cloud) w
  end.

(** The interface of an address has an entry of the kind. *)
Definition is_wan w (item : CloudModel.IP) : option bool :=
  (fun v => diff_kind (t := TVInterface) v =? VIF_TYPE_WAN) <$>
    D TVInterface w !! CloudModel.IP_VInterfaceLcuuid item.

(** The entries that were there need no update afterwards. *)
Definition settles {t CT} {DG : DataGenerator t CT} (cloud : list CT) w w' : Prop :=
  forall item, item ∈ cloud -> is_Some (D t w !! cloud_Lcuuid item) -> settled item w'.

Definition job_added (j : Job) w w' : Prop :=
  match j with
  | JTable t cloud => table_added t (cloud_Lcuuid <$> cloud) w w' /\ settles cloud w w'
  | JIP cloud => exists wan lan,
      wan ++ lan ≡ₚ cloud /\ Forall (fun item => is_wan w' item = Some true) wan /\
      Forall (fun item => is_wan w' item = Some false) lan /\
      (forall item, item ∈ cloud -> current TVInterface w' (CloudModel.IP_VInterfaceLcuuid item)) /\
      (table_added TWANIP (CloudModel.IP_Lcuuid <$> wan) w w' /\ settles (t := TWANIP) wan w w') /\
      (table_added TLANIP (CloudModel.IP_Lcuuid <$> lan) w w' /\ settles (t := TLANIP) lan w w')
  end.

(** Every item has an entry. *)
Definition job_known (j : Job) w : Prop :=
  match j with
  | JTable t cloud => forall item, item ∈ cloud -> is_Some (D t w !! cloud_Lcuuid item)
  | JIP cloud => forall item, item ∈ cloud ->
      is_wan w item = Some true /\ is_Some (D TWANIP w !! CloudModel.IP_Lcuuid item) \/
      is_wan w item = Some false /\ is_Some (D TLANIP w !! CloudModel.IP_Lcuuid item)
  end.

Lemma is_wan_stays w w' item k : entries_stay w w' -> is_wan w item = Some k -> is_wan w' item = Some k.
Proof.
  unfold is_wan. intros He Hk. apply fmap_Some in Hk as (v & Hv & ->).
  destruct (He _ _ _ Hv) as (v' & -> & Ek). cbn [fmap option_fmap option_map]. by rewrite Ek.
Qed.

Lemma job_known_stays j w w' : entries_stay w w' -> job_known j w -> job_known j w'.
Proof.
  intros He. assert (forall t l, is_Some (D t w !! l) -> is_Some (D t w' !! l)) as Hs.
  { intros t l [b Hb]. destruct (He _ _ _ Hb) as (b' & -> & _). eauto. }
  destruct j as [t CT DG GEN cloud|cloud]; intros Hk item Hi; [by apply Hs, Hk|].
  destruct (Hk item Hi) as [[E ?]|[E ?]]; apply (is_wan_stays _ w') in E; auto.
Qed.

(** Addresses whose interfaces have entries are split into two. *)
Lemma split_perm w cloud :
  (forall item, item ∈ cloud -> is_Some (is_wan w item)) ->
  let '(wan, lan) := splitToWANAndLAN (w_cache w) cloud in
  wan ++ lan ≡ₚ cloud /\ Forall (fun item => is_wan w item = Some true) wan /\
  Forall (fun item => is_wan w item = Some false) lan.
Proof.
  induction cloud as [|item cloud IH]; intros Hs; [done|]. cbn [splitToWANAndLAN].
  specialize (IH (fun it Hit => Hs it (list_elem_of_further _ _ _ Hit))).
  destruct (splitToWANAndLAN _ cloud) as [wan lan]. destruct IH as (Hp & Hw & Hl).
  destruct (Hs item) as [k Hk]; [by left|]. pose proof Hk as Hk'. unfold is_wan, D in Hk'.
  destruct (diffs TVInterface _ !! _) as [v|]; [|done]. cbn in Hk'. injection Hk' as Ek.
  destruct (_ =? _) eqn:E; rewrite <- Ek in Hk; (split_and!; [| |]); try done; try by constructor.
  by rewrite <- Permutation_middle, Hp.
Qed.

(** A table that another one leaves as it is. *)
Lemma no_stray_frame {t} ts L w w' : t ∉ ts -> frame ts w w' -> no_stray (t := t) L w -> no_stray (t := t) L w'.
Proof.
  intros Ht Hf Hst Hsoft l Hl. rewrite (fr_diffs _ _ _ Hf), (fr_rows _ _ _ Hf) by done. auto.
Qed.

Lemma no_stray_mono {t} L L' w : (forall l, l ∈ L -> l ∈ L') -> no_stray (t := t) L' w -> no_stray (t := t) L w.
Proof. intros HL Hst Hsoft l Hl. auto. Qed.

(** Rows that stay, of the tables before. *)
Record available (R F : list (Table * string)) w : Prop := mkAvailable {
  av_live : all_live (R ++ F) w;
  av_current l : (TVInterface, l) ∈ F -> current TVInterface w l
}.

Lemma available_ready R F w {t CT} {DG : DataGenerator t CT} {GEN : GeneratorLaws t CT} (item : CT) :
  available R F w -> wellformed item /\ refs item ⊆ R ++ F -> ready item w.
Proof.
  intros [Hl _] [Hw Hr]. split; [done|]. apply Forall_forall. intros x Hx.
  apply (proj1 (Forall_forall _ _) Hl), Hr, Hx.
Qed.

Lemma available_mono R F w w' :
  (forall t l, live (T t w) l -> live (T t w') l) -> (forall t l, current t w l -> current t w' l) ->
  available R F w -> available R F w'.
Proof.
  intros Hl Hc [H1 H2]. constructor; [|auto]. eapply Forall_impl; [exact H1|]. intros [t l]. auto.
Qed.

Lemma table_after {t CT} {DG : DataGenerator t CT} (cloud : list CT) ts w w1 w' :
  t ∉ ts -> frame ts w1 w' -> table_added t (cloud_Lcuuid <$> cloud) w w1 /\ settles cloud w w1 ->
  table_added t (cloud_Lcuuid <$> cloud) w w' /\ settles cloud w w'.
Proof.
  intros Ht Hf [Ha Hst]. split; [by eapply table_added_after|]. intros item Hi Hk.
  destruct (Hst item Hi Hk) as (b & Hb & Hag). exists b. by rewrite (fr_diffs _ _ _ Hf).
Qed.

Lemma table_before {t CT} {DG : DataGenerator t CT} (cloud : list CT) ts w w1 w' :
  t ∉ ts -> frame ts w w1 -> table_added t (cloud_Lcuuid <$> cloud) w1 w' /\ settles cloud w1 w' ->
  table_added t (cloud_Lcuuid <$> cloud) w w' /\ settles cloud w w'.
Proof.
  intros Ht Hf [Ha Hst]. split; [by eapply table_added_before|]. intros item Hi Hk.
  apply Hst; [done|]. by rewrite (fr_diffs _ _ _ Hf).
Qed.

(** One table of a job. *)
Lemma table_add_ok {t CT} {DG : DataGenerator t CT} {GEN : GeneratorLaws t CT} R F (cloud : list CT) w :
  up (w_db w) -> cache_sound w -> NoDup (cloud_Lcuuid <$> cloud) ->
  no_stray (t := t) (cloud_Lcuuid <$> cloud) w -> available R F w ->
  (forall item, item ∈ cloud -> wellformed item /\ refs item ⊆ R ++ F) ->
  runs (HandleAddAndUpdate cloud) w (fun _ w' =>
    frame [t] w w' /\ (table_added t (cloud_Lcuuid <$> cloud) w w' /\ settles cloud w w') /\
    cache_sound w' /\ available R F w' /\ entries_stay w w').
Proof.
  intros Hu Hs Hnd Hst Hav Hr. eapply runs_mono; [by apply HandleAddAndUpdate_ok|]. intros [] w' Hup.
  assert (forall item, item ∈ cloud -> ready item w) as Hready.
  { intros item Hi. eapply available_ready; [done|]. by apply Hr. }
  destruct (updated_table_added cloud w w') as [Hf Ha]; [done..|].
  split_and!; [done|done| |by eapply sound_updated| |by eapply updated_entries_stay].
  { intros item Hi Hk. apply (up_settled _ _ _ Hup); auto. }
  eapply available_mono; [..|done]; intros t' l; [by eapply table_added_live|by eapply table_added_current].
Qed.

(** One job. *)
Definition job_done R F (j : Job) w w' : Prop :=
  frame (job_tables j) w w' /\ job_added j w w' /\ cache_sound w' /\ available R F w' /\ entries_stay w w'.

(** Either nothing stray is in the tables of a job, or it has nothing to add. *)
Definition job_addable (j : Job) w : Prop := job_clean j w \/ job_known j w.

Lemma no_stray_known {t} L w : (forall l, l ∈ L -> is_Some (D t w !! l)) -> no_stray (t := t) L w.
Proof. intros Hk _ l Hl Hn. destruct (Hk l Hl) as [b Hb]. congruence. Qed.

Lemma split_no_stray w cloud wan lan :
  job_addable (JIP cloud) w -> wan ++ lan ≡ₚ cloud ->
  Forall (fun item => is_wan w item = Some true) wan -> Forall (fun item => is_wan w item = Some false) lan ->
  no_stray (t := TWANIP) (CloudModel.IP_Lcuuid <$> wan) w /\ no_stray (t := TLANIP) (CloudModel.IP_Lcuuid <$> lan) w.
Proof.
  intros [[H1 H2]|Hk] Hp Hw Hl.
  - split; (eapply no_stray_mono; [|eassumption]); intros l Hl'; rewrite <- Hp, fmap_app; set_solver.
  - rewrite !Forall_forall in *. split; apply no_stray_known; intros l (item & -> & Hi)%list_elem_of_fmap.
    + destruct (Hk item) as [[_ ?]|[E _]]; [rewrite <- Hp; set_solver|done|]. by rewrite Hw in E.
    + destruct (Hk item) as [[E _]|[_ ?]]; [rewrite <- Hp; set_solver| |done]. by rewrite Hl in E.
Qed.

Lemma IP_add_ok R F cloud w :
  up (w_db w) -> cache_sound w -> job_distinct (JIP cloud) -> job_addable (JIP cloud) w -> available R F w ->
  job_ready R F (JIP cloud) -> runs (IP_HandleAddAndUpdate cloud) w (fun _ w' => job_done R F (JIP cloud) w w').
Proof.
  intros Hu Hs Hnd Hcl Hav Hr. unfold IP_HandleAddAndUpdate. apply runs_bind, runs_get_cache.
  destruct (split_distinct (w_cache w) cloud Hnd) as [Hn1 Hn2].
  pose proof (split_perm w cloud) as Hsp. destruct (splitToWANAndLAN _ _) as [wan lan]. cbn [fst snd] in *.
  destruct Hsp as (Hp & Hw & Hl).
  { intros item Hi. destruct (av_current _ _ _ Hav _ (Hr item Hi)) as (b & Hb & _). unfold is_wan. by rewrite Hb. }
  assert (forall item, item ∈ wan ++ lan -> True /\ ref TVInterface (CloudModel.IP_VInterfaceLcuuid item) ⊆ R ++ F) as Hri.
  { intros item Hi. split; [done|]. rewrite Hp in Hi. specialize (Hr item Hi). unfold ref. set_solver. }
  destruct (split_no_stray w cloud wan lan) as [Hc1 Hc2]; [done..|].
  apply runs_bind. eapply runs_mono; [apply (table_add_ok (t := TWANIP) R F); auto|].
  { intros item Hi. apply Hri. set_solver. }
  intros [] w1 (Hf1 & Ha1 & Hs1 & Hav1 & He1).
  eapply runs_mono; [apply (table_add_ok (t := TLANIP) R F); auto|].
  { by apply (k_up _ _ (fr_keeps _ _ _ Hf1)). }
  { eapply no_stray_frame; [|exact Hf1|done]. set_solver. }
  { intros item Hi. apply Hri. set_solver. }
  intros [] w' (Hf2 & Ha2 & Hs2 & Hav2 & He2).
  split_and!; [by eapply (frame_trans [_] [_])| |done|done|by eapply entries_stay_trans].
  exists wan, lan.
  assert (forall item, is_wan w' item = is_wan w item) as Ew.
  { intros item. unfold is_wan. by rewrite (fr_diffs _ _ _ Hf2), (fr_diffs _ _ _ Hf1) by set_solver. }
  split; [done|]. do 2 (split; [by eapply Forall_impl; [|intros; rewrite Ew]|]). split; [|split].
  - intros item Hi. apply (av_current _ _ _ Hav2), Hr, Hi.
  - apply (table_after (DG := WANIP_updater) wan [TLANIP] w w1); [set_solver|done..].
  - apply (table_before (DG := LANIP_updater) lan [TWANIP] w w1); [set_solver|done..].
Qed.

Lemma job_add_ok R F j w :
  up (w_db w) -> cache_sound w -> job_distinct j -> job_addable j w -> available R F w -> job_ready R F j ->
  runs (handle_add (updater_of j)) w (fun _ w' => job_done R F j w w').
Proof.
  destruct j as [t CT DG GEN cloud|cloud]; [|apply IP_add_ok]. intros Hu Hs Hnd Hc Hav Hr. apply table_add_ok; try done.
  destruct Hc as [Hc|Hk]; [exact Hc|]. apply no_stray_known. intros l (item & -> & Hi)%list_elem_of_fmap. by apply Hk.
Qed.

(** ** The loop *)

(** The tables that the result of a job depends on, and an order in which no job changes
    these for a job before it. *)
Definition job_uses (j : Job) : list Table :=
  match j with
  | JTable t _ => [t]
  | JIP _ => [TWANIP; TLANIP; TVInterface]
  end.

Definition tables_of (js : list Job) : list Table := concat (job_tables <$> js).

Fixpoint ordered (js : list Job) : Prop :=
  match js with
  | [] => True
  | j :: js => (forall t, t ∈ job_uses j -> t ∉ tables_of js) /\ ordered js
  end.

Lemma job_tables_uses j t : t ∈ job_tables j -> t ∈ job_uses j.
Proof. destruct j; [done|]. cbn. set_solver. Qed.

Lemma job_added_after ts j w w1 w' :
  (forall t, t ∈ job_uses j -> t ∉ ts) -> frame ts w1 w' -> job_added j w w1 -> job_added j w w'.
Proof.
  intros Ht Hf. destruct j as [t CT DG GEN cloud|cloud]; cbn [job_added job_uses] in *.
  - apply table_after with ts; [|done]. set_solver.
  - intros (wan & lan & Hp & Hw & Hl & Hc & Ha1 & Ha2).
    assert (D TVInterface w' = D TVInterface w1) as ED by (apply Hf, Ht; set_solver).
    assert (forall item, is_wan w' item = is_wan w1 item) as Ew by (intros; unfold is_wan; by rewrite ED).
    exists wan, lan. split; [done|]. do 2 (split; [by eapply Forall_impl; [|intros; rewrite Ew]|]). split; [|split].
    + intros item Hi. eapply current_keeps; [apply Hf|by rewrite ED|auto].
    + apply (table_after (DG := WANIP_updater) wan ts w w1); [set_solver|done..].
    + apply (table_after (DG := LANIP_updater) lan ts w w1); [set_solver|done..].
Qed.

Lemma job_added_before ts j w w1 w' :
  (forall t, t ∈ job_tables j -> t ∉ ts) -> frame ts w w1 -> job_added j w1 w' -> job_added j w w'.
Proof.
  intros Ht Hf. destruct j as [t CT DG GEN cloud|cloud]; cbn [job_added job_tables] in *.
  - apply table_before with ts; [|done]. set_solver.
  - intros (wan & lan & Hp & Hw & Hl & Hc & Ha1 & Ha2). exists wan, lan. do 4 (split; [done|]).
    split.
    + apply (table_before (DG := WANIP_updater) wan ts w w1); [set_solver|done..].
    + apply (table_before (DG := LANIP_updater) lan ts w w1); [set_solver|done..].
Qed.

Lemma job_clean_frame ts j w w' :
  (forall t, t ∈ job_tables j -> t ∉ ts) -> frame ts w w' -> job_clean j w -> job_clean j w'.
Proof.
  intros Ht Hf. destruct j as [t CT DG GEN cloud|cloud]; cbn [job_clean job_tables] in *.
  - apply no_stray_frame with ts; [|done]. set_solver.
  - intros [H1 H2]. split; (eapply no_stray_frame; [|done..]; set_solver).
Qed.

Lemma job_addable_frame ts j w w' :
  (forall t, t ∈ job_tables j -> t ∉ ts) -> frame ts w w' -> entries_stay w w' -> job_addable j w -> job_addable j w'.
Proof. intros Ht Hf He [Hc|Hk]; [left; by eapply job_clean_frame|right; by eapply job_known_stays]. Qed.

(** The rows of a job are there for those after it. *)
Lemma available_next R F j w w' : job_done R F j w w' -> available R (F ++ job_rows j) w'.
Proof.
  intros (_ & Ha & Hs' & [Hav Hcu] & _).
  destruct j as [t CT DG GEN cloud|cloud]; cbn [job_rows job_added] in *; [|by rewrite app_nil_r].
  destruct (decide (t = _)) as [Et|Et]; [by rewrite app_nil_r|].
  assert (forall item, item ∈ cloud -> current t w' (cloud_Lcuuid item)) as Hc.
  { intros item Hi. apply (ta_current _ _ _ _ (proj1 Ha)). by apply list_elem_of_fmap_2. }
  constructor.
  - rewrite app_assoc. apply Forall_app. split; [done|]. apply Forall_fmap, Forall_forall. intros item Hi.
    destruct (Hc item Hi) as (b & Hb & _). by apply (Hs' _ _ _ Hb).
  - intros l [Hl|Hl]%elem_of_app; [auto|]. apply list_elem_of_fmap in Hl as (item & [= <- ->] & Hi). auto.
Qed.

Lemma elem_tables_of js j t : j ∈ js -> t ∈ job_tables j -> t ∈ tables_of js.
Proof. intros Hj Ht. eapply elem_of_concat; [exact Ht|]. by apply list_elem_of_fmap_2. Qed.

Lemma add_loop_ok R F js w :
  up (w_db w) -> cache_sound w -> ordered js -> Forall job_distinct js -> Forall (fun j => job_addable j w) js ->
  available R F w -> closed R F js ->
  runs (for_each (fun j => handle_add (updater_of j)) js) w (fun _ w' =>
    frame (tables_of js) w w' /\ Forall (fun j => job_added j w w') js /\ cache_sound w' /\ entries_stay w w').
Proof.
  revert F w. induction js as [|j js IH]; intros F w Hu Hs Ho Hd Hc Hav Hcl; cbn [for_each].
  { apply runs_ret. split_and!; [by constructor|done|done|intros t l b; eauto]. }
  destruct Ho as [Hj Ho], Hcl as [Hr Hcl]. apply Forall_cons in Hd as [Hd Hds], Hc as [Hc Hcs].
  assert (forall j' t, j' ∈ js -> t ∈ job_tables j' -> t ∉ job_tables j) as Hdis.
  { intros j' t Hj' Ht Ht'. apply (Hj t); [by apply job_tables_uses|by eapply elem_tables_of]. }
  apply runs_bind. eapply runs_mono; [by apply (job_add_ok R F)|]. intros [] w1 H1.
  pose proof (available_next _ _ _ _ _ H1) as Hav1. destruct H1 as (Hf1 & Ha1 & Hs1 & _ & He1).
  eapply runs_mono; [apply (IH (F ++ job_rows j)); try done|].
  { by apply (k_up _ _ (fr_keeps _ _ _ Hf1)). }
  { apply Forall_forall. intros j' Hj'. rewrite Forall_forall in Hcs.
    eapply job_addable_frame; [|exact Hf1|done|auto]. intros t. by apply Hdis. }
  intros [] w' (Hf & Ha & Hs' & He). split_and!; [by eapply frame_trans| |done|by eapply entries_stay_trans]. constructor.
  - by eapply job_added_after.
  - apply Forall_forall. intros j' Hj'. rewrite Forall_forall in Ha.
    eapply job_added_before; [|exact Hf1|auto]. intros t. by apply Hdis.
Qed.

(** ** Deletions *)

(** The entries of a table that were not seen go, with their rows; the others stay. *)
Record table_deleted (t : Table) w w' : Prop := mkTableDeleted {
  td_gone l : stale t w l -> D t w' !! l = None;
  td_dead l : t <> TVMPodNodeConnection -> stale t w l -> ~ live (T t w') l;
  td_diff l : ~ stale t w l -> D t w' !! l = D t w !! l;
  td_row l : t <> TVMPodNodeConnection -> ~ stale t w l -> T t w' !! l = T t w !! l
}.

Definition job_deleted (j : Job) w w' : Prop := forall t, t ∈ job_tables j -> table_deleted t w w'.

(** Only the tables [ts] change, and the rows of connections. *)
Record del_frame (ts : list Table) w w' : Prop := mkDelFrame {
  df_keeps : keeps w w';
  df_diffs t : t ∉ ts -> D t w' = D t w;
  df_rows t : t ∉ ts -> t <> TVMPodNodeConnection -> T t w' = T t w
}.

Lemma del_frame_trans ts ts' w w1 w' : del_frame ts w w1 -> del_frame ts' w1 w' -> del_frame (ts ++ ts') w w'.
Proof.
  intros [K HD HT] [K' HD' HT']. constructor; [by etransitivity|..]; intros t [? ?]%not_elem_of_app; intros;
    rewrite ?HD', ?HT' by done; auto.
Qed.

Lemma stale_frame ts t w w' l : t ∉ ts -> del_frame ts w w' -> stale t w' l <-> stale t w l.
Proof. intros Ht Hf. unfold stale. by rewrite (df_diffs _ _ _ Hf), (k_sequence _ _ (df_keeps _ _ _ Hf)). Qed.

Lemma table_delete_ok t w :
  up (w_db w) -> runs (HandleDelete (t := t)) w (fun _ w' => del_frame [t] w w' /\ table_deleted t w w').
Proof.
  intros Hu. eapply runs_mono; [apply HandleDelete_ok|]. intros [] w' (L & HL & Hp & Hr). split; constructor.
  - apply Hp.
  - intros t' Ht. apply Hp. set_solver.
  - intros t' Ht Hc. apply Hp; [set_solver|by intros []].
  - intros l Hl. by apply Hr.
  - intros l _ Hl. by apply Hr.
  - intros l Hl. apply Hp. by rewrite HL.
  - intros l _ Hl. apply Hp. by rewrite HL.
Qed.

Lemma table_deleted_after ts t w w1 w' :
  t ∉ ts -> del_frame ts w1 w' -> table_deleted t w w1 -> table_deleted t w w'.
Proof.
  intros Ht [K HD HT] [H1 H2 H3 H4]. specialize (HD t Ht). specialize (HT t Ht).
  constructor; intros; rewrite ?HD, ?HT by done; auto.
Qed.

Lemma table_deleted_before ts t w w1 w' :
  t ∉ ts -> del_frame ts w w1 -> table_deleted t w1 w' -> table_deleted t w w'.
Proof.
  intros Ht Hf [H1 H2 H3 H4]. pose proof (fun l => stale_frame ts t w w1 l Ht Hf) as Hst.
  pose proof (df_diffs _ _ _ Hf t Ht) as HD. pose proof (df_rows _ _ _ Hf t Ht) as HT.
  constructor; intros l; rewrite <- Hst; [auto..| |]; intros; rewrite <- ?HD, <- ?HT by done; auto.
Qed.

Lemma job_delete_ok j w :
  up (w_db w) ->
  runs (handle_delete (updater_of j)) w (fun _ w' => del_frame (job_tables j) w w' /\ job_deleted j w w').
Proof.
  intros Hu. destruct j as [t CT DG GEN cloud|cloud]; cbn [updater_of handle_delete NewUpdater NewIP].
  - eapply runs_mono; [by apply table_delete_ok|]. intros [] w' [Hf Hd]. split; [done|].
    by intros t' ->%list_elem_of_singleton.
  - unfold IP_HandleDelete. apply runs_bind. eapply runs_mono; [by apply table_delete_ok|]. intros [] w1 [Hf1 Hd1].
    eapply runs_mono; [apply table_delete_ok; by apply (k_up _ _ (df_keeps _ _ _ Hf1))|]. intros [] w' [Hf2 Hd2].
    split; [by eapply (del_frame_trans [_] [_])|]. intros t' [-> | Ht]%elem_of_cons; [|apply list_elem_of_singleton in Ht as ->].
    + eapply table_deleted_after; [|done..]. set_solver.
    + eapply table_deleted_before; [|done..]. set_solver.
Qed.

Lemma delete_loop_ok js w :
  up (w_db w) -> NoDup (tables_of js) ->
  runs (for_each (fun j => handle_delete (updater_of j)) js) w (fun _ w' =>
    del_frame (tables_of js) w w' /\ forall t, t ∈ tables_of js -> table_deleted t w w').
Proof.
  revert w. induction js as [|j js IH]; intros w Hu Hnd; cbn [for_each].
  { apply runs_ret. split; [by constructor|]. intros t Ht. by apply elem_of_nil in Ht. }
  unfold tables_of in *. rewrite fmap_cons in *. cbn [concat] in *. apply NoDup_app in Hnd as (_ & Hdis & Hnd).
  apply runs_bind. eapply runs_mono; [by apply job_delete_ok|]. intros [] w1 [Hf1 Hd1].
  eapply runs_mono; [apply IH; [by apply (k_up _ _ (df_keeps _ _ _ Hf1))|done]|]. intros [] w' [Hf Hd].
  split; [by eapply del_frame_trans|]. intros t [Ht|Ht]%elem_of_app.
  - eapply table_deleted_after; [by apply Hdis|done|auto].
  - eapply table_deleted_before; [|exact Hf1|auto]. intros Ht'. by apply (Hdis t).
Qed.

(** ** The whole refresh *)

(** Entries of former refreshes only. *)
Definition outdated w : Prop :=
  forall t l b, D t w !! l = Some b -> GetSequence b <> Sequence (w_cache w).

(** The entries of a table are those of [L], and its rows are these and the ones that had
    no entry. *)
Record table_exact (t : Table) (L : list string) w w' : Prop := mkTableExact {
  te_entries l : is_Some (D t w' !! l) <-> l ∈ L;
  te_current l : l ∈ L -> current t w' l;
  te_rows l : t <> TVMPodNodeConnection ->
    live (T t w') l <-> l ∈ L \/ live (T t w) l /\ D t w !! l = None
}.

Lemma table_exact_intro t L w w1 w' :
  cache_sound w -> outdated w -> Sequence (w_cache w1) = Sequence (w_cache w) -> keeps w1 w' ->
  table_added t L w w1 -> table_deleted t w1 w' -> table_exact t L w w'.
Proof.
  intros Hs Ho Eq K [H1 H2 H3 H4] [G1 G2 G3 G4].
  assert (forall l, l ∈ L -> ~ stale t w1 l) as Hin.
  { intros l Hl (b & Hb & Hne). destruct (H1 l Hl) as (b' & Hb' & Eb). simplify_eq.
    apply Hne. unfold GetSequence. by rewrite Eb. }
  assert (forall l, l ∉ L -> is_Some (D t w !! l) -> stale t w1 l) as Hout.
  { intros l Hl [b Hb]. exists b. rewrite H3, Eq by done. split; [done|]. by eapply Ho. }
  assert (forall l, l ∉ L -> D t w !! l = None -> ~ stale t w1 l) as Hnone.
  { intros l Hl Hn (b & Hb & _). rewrite H3 in Hb by done. congruence. }
  constructor.
  - intros l. destruct (decide (l ∈ L)) as [Hl|Hl].
    + rewrite G3 by auto. destruct (H1 l Hl) as (b & -> & _). split; [done|]. by eexists.
    + split; [|done]. intros Hsome. destruct (D t w !! l) as [b|] eqn:Hb.
      * rewrite G1 in Hsome by (apply Hout; [done|by rewrite Hb]). by destruct Hsome.
      * rewrite G3, H3, Hb in Hsome by auto. by destruct Hsome.
  - intros l Hl. eapply current_keeps; [exact K|by rewrite G3 by auto|auto].
  - intros l Hc. destruct (decide (l ∈ L)) as [Hl|Hl].
    + split; [by left|]. intros _. unfold live. rewrite G4 by auto. apply H2; [done|].
      destruct (D t w !! l) as [b|] eqn:Hb; [|by left]. right. by apply (Hs _ _ _ Hb).
    + destruct (D t w !! l) as [b|] eqn:Hb.
      * split; [|by intros [|[_ ?]]]. intros Hlive. exfalso. revert Hlive.
        apply G2; [done|]. apply Hout; [done|by rewrite Hb].
      * unfold live. rewrite G4, H4 by auto. split; [by right|by intros [|[? _]]].
Qed.

Definition job_exact (j : Job) w w' : Prop :=
  match j with
  | JTable t cloud => table_exact t (cloud_Lcuuid <$> cloud) w w'
  | JIP cloud => exists wan lan,
      wan ++ lan ≡ₚ cloud /\ Forall (fun item => is_wan w' item = Some true) wan /\
      Forall (fun item => is_wan w' item = Some false) lan /\
      table_exact TWANIP (CloudModel.IP_Lcuuid <$> wan) w w' /\
      table_exact TLANIP (CloudModel.IP_Lcuuid <$> lan) w w'
  end.

(** Entries that were seen are not deleted. *)
Lemma current_kept t l ts w w' :
  del_frame ts w w' -> (t ∈ ts -> table_deleted t w w') -> current t w l -> D t w' !! l = D t w !! l.
Proof.
  intros Hf Hd (b & Hb & Eb). destruct (decide (t ∈ ts)) as [Ht|Ht]; [|by rewrite (df_diffs _ _ _ Hf)].
  apply (td_diff _ _ _ (Hd Ht)). intros (b' & Hb' & Hne). simplify_eq. apply Hne. unfold GetSequence. by rewrite Eb.
Qed.

Lemma job_exact_intro js j w w1 w' :
  cache_sound w -> outdated w -> j ∈ js -> keeps w w1 -> job_added j w w1 ->
  del_frame (tables_of js) w1 w' -> (forall t, t ∈ tables_of js -> table_deleted t w1 w') ->
  job_exact j w w'.
Proof.
  intros Hs Ho Hj K Ha Hf Hd. pose proof (fun t => elem_tables_of js j t Hj) as Hin.
  pose proof (k_sequence _ _ K) as Eq.
  destruct j as [t CT DG GEN cloud|cloud]; cbn [job_added job_exact job_tables] in *.
  { eapply table_exact_intro; [done..|apply Hf|apply Ha|]. apply Hd, Hin. by left. }
  destruct Ha as (wan & lan & Hp & Hw & Hl & Hc & [Ha1 _] & [Ha2 _]).
  assert (forall item k, item ∈ cloud -> is_wan w1 item = Some k -> is_wan w' item = Some k) as Ew.
  { intros item k Hi <-. unfold is_wan. f_equal. eapply current_kept; [exact Hf|apply Hd|by apply Hc]. }
  exists wan, lan. split_and!; [done|..].
  - rewrite Forall_forall in *. intros item Hi. apply Ew; [|auto]. rewrite <- Hp. apply elem_of_app. by left.
  - rewrite Forall_forall in *. intros item Hi. apply Ew; [|auto]. rewrite <- Hp. apply elem_of_app. by right.
  - eapply table_exact_intro; [done..|apply Hf|done|]. apply Hd, Hin. by left.
  - eapply table_exact_intro; [done..|apply Hf|done|]. apply Hd, Hin. by right; left.
Qed.

(** Every item has an entry that needs no update. *)
Definition job_settled (j : Job) w : Prop :=
  match j with
  | JTable t cloud => forall item, item ∈ cloud -> settled item w
  | JIP cloud => forall item, item ∈ cloud ->
      is_wan w item = Some true /\ settled (t := TWANIP) item w \/
      is_wan w item = Some false /\ settled (t := TLANIP) item w
  end.

Lemma settled_kept {t CT} {DG : DataGenerator t CT} ts L w0 w w' (item : CT) :
  del_frame ts w w' -> (t ∈ ts -> table_deleted t w w') -> table_added t L w0 w ->
  cloud_Lcuuid item ∈ L -> settled item w -> settled item w'.
Proof.
  intros Hf Hd Ha Hi (b & Hb & Hag). exists b. split; [|done].
  rewrite (current_kept t _ ts w w'); [done..|]. by apply (ta_current _ _ _ _ Ha).
Qed.

(** The items that had an entry have one that needs no update. *)
Definition job_updates (j : Job) w w' : Prop :=
  match j with
  | JTable t cloud => forall item, item ∈ cloud -> is_Some (D t w !! cloud_Lcuuid item) -> settled item w'
  | JIP cloud => forall item, item ∈ cloud ->
      (is_wan w item = Some true -> is_Some (D TWANIP w !! CloudModel.IP_Lcuuid item) ->
         is_wan w' item = Some true /\ settled (t := TWANIP) item w') /\
      (is_wan w item = Some false -> is_Some (D TLANIP w !! CloudModel.IP_Lcuuid item) ->
         is_wan w' item = Some false /\ settled (t := TLANIP) item w')
  end.

Lemma job_updates_settled j w w' : job_known j w -> job_updates j w w' -> job_settled j w'.
Proof.
  destruct j as [t CT DG GEN cloud|cloud]; cbn [job_known job_updates job_settled]; intros Hk Hu item Hi; [auto|].
  destruct (Hu item Hi) as [Hw Hl], (Hk item Hi) as [[E Hs]|[E Hs]]; auto.
Qed.

Lemma job_updates_intro js j w w1 w' :
  entries_stay w w1 -> job_added j w w1 ->
  del_frame (tables_of js) w1 w' -> (forall t, t ∈ tables_of js -> table_deleted t w1 w') ->
  job_updates j w w'.
Proof.
  intros He Ha Hf Hd.
  destruct j as [t CT DG GEN cloud|cloud]; cbn [job_added job_updates] in *; intros item Hi.
  { intros Hk. eapply settled_kept; [done|apply Hd|apply Ha|by apply list_elem_of_fmap_2|]. by apply Ha, Hk. }
  destruct Ha as (wan & lan & Hp & Hw & Hl & Hc & [Ha1 Hs1] & [Ha2 Hs2]). rewrite Forall_forall in Hw, Hl.
  assert (forall k, is_wan w item = Some k -> is_wan w1 item = Some k /\ is_wan w' item = Some k) as Ew.
  { intros k E. assert (is_wan w1 item = Some k) as E1 by by eapply is_wan_stays. split; [done|]. rewrite <- E1.
    unfold is_wan. f_equal. eapply current_kept; [exact Hf|apply Hd|by apply Hc]. }
  rewrite <- Hp in Hi. split; intros E Hs; destruct (Ew _ E) as [E1 E']; (split; [done|]); apply elem_of_app in Hi as [Hi|Hi].
  - eapply settled_kept; [done|apply Hd|exact Ha1| |by apply Hs1]. by apply (list_elem_of_fmap_2 CloudModel.IP_Lcuuid).
  - by rewrite Hl in E1.
  - by rewrite Hw in E1.
  - eapply settled_kept; [done|apply Hd|exact Ha2| |by apply Hs2]. by apply (list_elem_of_fmap_2 CloudModel.IP_Lcuuid).
Qed.

#[local] Instance tables_of_perm : Proper ((≡ₚ) ==> (≡ₚ)) tables_of.
Proof.
  unfold tables_of. induction 1 as [|j js js' _ IH|j j' js|js js1 js2 _ IH1 _ IH2]; rewrite ?fmap_cons; cbn [concat].
  - done.
  - by rewrite IH.
  - rewrite !app_assoc. by rewrite (Permutation_app_comm (job_tables j)).
  - by etransitivity.
Qed.

Lemma ordered_nodup js : ordered js -> NoDup (tables_of js).
Proof.
  induction js as [|j js IH]; [intros _; apply NoDup_nil_2|]. intros [Hj Ho].
  unfold tables_of. rewrite fmap_cons. cbn [concat]. apply NoDup_app. split_and!.
  - destruct j; cbn; repeat constructor; set_solver.
  - intros t Ht. by apply Hj, job_tables_uses.
  - by apply IH.
Qed.

(** A refresh whose database answers, of cloud data that is closed. *)
Record sane (R : list (Table * string)) (js : list Job) w : Prop := mkSane {
  sane_up : up (w_db w);
  sane_sound : cache_sound w;
  sane_outdated : outdated w;
  sane_clean : Forall (fun j => job_addable j w) js;
  sane_live : all_live R w
}.

Lemma refresh_domain_ok R js w :
  js <> [] -> ordered js -> Forall job_distinct js -> closed R [] js -> sane R js w ->
  runs (refresh_domain (updater_of <$> js)) w (fun _ w' =>
    keeps w w' /\ cache_sound w' /\ (forall t, t ∉ tables_of js -> D t w' = D t w) /\
    Forall (fun j => job_exact j w w' /\ job_updates j w w') js).
Proof.
  intros Hne Ho Hd Hcl [Hu Hs Hout Hc Hl]. apply refresh_domain_runs; [done|].
  eapply runs_mono; [apply (add_loop_ok R []); try done|].
  { constructor; [by rewrite app_nil_r|]. intros l Hl'. by apply elem_of_nil in Hl'. }
  intros [] w1 (Hf1 & Ha & Hs1 & He). pose proof (delete_order_perm js) as Hperm.
  assert (runs (for_each (fun j => handle_delete (updater_of j)) (delete_order js)) w1 (fun _ w' =>
    cache_sound w' /\ (del_frame (tables_of js) w1 w' /\ forall t, t ∈ tables_of js -> table_deleted t w1 w'))) as Hdel.
  { apply runs_and.
    - apply for_each_keeps; [|done]. intros j v _. apply sound_delete.
    - eapply runs_mono; [apply delete_loop_ok|]; rewrite ?Hperm.
      + by apply (k_up _ _ (fr_keeps _ _ _ Hf1)).
      + by apply ordered_nodup.
      + intros [] w' [Hf Htd]. split; [|intros t Ht; apply Htd; by rewrite Hperm].
        destruct Hf as [K HD HT]. constructor; [done|..]; intros t Ht; rewrite <- Hperm in Ht; auto. }
  eapply runs_mono; [exact Hdel|]. intros [] w' (Hs' & Hf & Htd).
  split_and!; [etransitivity; [apply Hf1|apply Hf]|done| |].
  { intros t Ht. by rewrite (df_diffs _ _ _ Hf), (fr_diffs _ _ _ Hf1). }
  rewrite Forall_forall in *. intros j Hj. split.
  - eapply job_exact_intro; [done..|apply Hf1|auto|done|done].
  - eapply job_updates_intro; [exact He|auto|exact Hf|done].
Qed.

End Facts.

#[global] Arguments JTable {DB ML} t {CT DG GEN} cloud.
#[global] Arguments JIP {DB ML} cloud.
