(* ===== verification/RecorderRest.v ===== *)
(** A refresh that finds nothing to do sends no statement to the database, and what a
    refresh with closed cloud data leaves is ready for the next one. *)
From stdpp Require Import base strings gmap.
From S2P Require Import Prelude CloudModel MysqlModel DiffBase RecorderCache Updater.
From S2P Require Import UpdaterResources Recorder CacheFacts UpdaterFacts ResourceFacts.
From S2P Require Import RecorderFacts.

#[local] Open Scope Z_scope.

Section Facts.
Context {DB : Mysql} {ML : MysqlLaws} {GM : GoMap} {GL : GoMapLaws} {GT : GoText}.

Implicit Types w : World DB.

(** * Sequence numbers *)

(** Nothing is sent and only sequence numbers of entries change, to the current one. *)
Record idle w w' : Prop := mkIdle {
  id_keeps : keeps w w';
  id_rows t : T t w' = T t w;
  id_sent : w_sent w' = w_sent w;
  id_diffs t l : D t w' !! l = D t w !! l \/
    D t w' !! l = SetSequence (Sequence (w_cache w)) <$> D t w !! l
}.

Lemma SetSequence_twice {t} s (b : Diff t) : SetSequence s (SetSequence s b) = SetSequence s b.
Proof. by destruct t. Qed.

#[local] Instance idle_preorder : PreOrder idle.
Proof.
  split; [by constructor; auto|]. intros w w1 w' [K R S HD] [K' R' S' HD'].
  constructor; [by etransitivity|by intros; rewrite R'|by rewrite S'|]. intros t l. pose proof (k_sequence _ _ K) as Eq.
  destruct (HD' t l) as [->| ->], (HD t l) as [->| ->]; rewrite ?Eq; auto. right.
  destruct (D t w !! l); [|done]. cbn. by rewrite SetSequence_twice.
Qed.

Lemma idle_is_Some t l w w' : idle w w' -> is_Some (D t w' !! l) <-> is_Some (D t w !! l).
Proof. intros [_ _ _ HD]. destruct (HD t l) as [->| ->]; [done|]. by rewrite fmap_is_Some. Qed.

Lemma idle_is_wan w w' item : idle w w' -> is_wan w' item = is_wan w item.
Proof.
  intros [_ _ _ HD]. unfold is_wan. destruct (HD TVInterface (CloudModel.IP_VInterfaceLcuuid item)) as [->| ->]; [done|].
  by destruct (D TVInterface w !! _).
Qed.

Lemma idle_settled {t CT} {DG : DataGenerator t CT} {GEN : GeneratorLaws t CT} (item : CT) w w' :
  idle w w' -> settled item w -> settled item w'.
Proof.
  intros [_ _ _ HD] (b & Hb & Hag). unfold settled. destruct (HD t (cloud_Lcuuid item)) as [->| ->]; rewrite Hb; [eauto|].
  eexists. split; [done|]. by apply agrees_SetSequence.
Qed.

Lemma idle_job_settled j w w' : idle w w' -> job_settled j w -> job_settled j w'.
Proof.
  intros Hi. destruct j as [t CT DG GEN cloud|cloud]; intros Hs item Hit; [by eapply idle_settled, Hs|].
  rewrite (idle_is_wan _ _ _ Hi). destruct (Hs item Hit) as [[? ?]|[? ?]]; [left|right];
    (split; [done|by eapply idle_settled]).
Qed.

(** An entry with the current sequence number. *)
Definition stamped_now (t : Table) w (l : string) : Prop :=
  exists b, D t w !! l = Some b /\ GetSequence b = Sequence (w_cache w).

Lemma idle_stamped t l w w' : idle w w' -> stamped_now t w l -> stamped_now t w' l.
Proof.
  intros [K _ _ HD] (b & Hb & Eb). unfold stamped_now. rewrite (k_sequence _ _ K).
  destruct (HD t l) as [->| ->]; rewrite Hb; [eauto|]. eexists. split; [done|]. by destruct t.
Qed.

Lemma restamped_idle {t} L w w' : restamped (t := t) L w w' -> idle w w'.
Proof.
  intros [Hp HT HS HD]. constructor; [apply Hp|done|done|]. intros t' l.
  destruct (decide (t' = t)) as [->|Hne]; [|left; by rewrite (ph_diffs _ _ _ _ _ Hp)].
  destruct (decide (l ∈ L)); [right; auto|left; by apply Hp].
Qed.

(** * Jobs *)

(** The additions and updates of one resource. *)
Lemma table_idle {t CT} {DG : DataGenerator t CT} {GEN : GeneratorLaws t CT} (cloud : list CT) w :
  NoDup (cloud_Lcuuid <$> cloud) -> (forall item, item ∈ cloud -> settled item w) ->
  runs (HandleAddAndUpdate cloud) w (fun _ w' => idle w w' /\
    forall item, item ∈ cloud -> stamped_now t w' (cloud_Lcuuid item)).
Proof.
  intros Hnd Hs. eapply runs_mono; [by apply HandleAddAndUpdate_settled|]. intros [] w' Hr.
  split; [by eapply restamped_idle|]. intros item Hi. destruct (Hs item Hi) as (b & Hb & _).
  exists (SetSequence (Sequence (w_cache w)) b).
  rewrite (rs_diffs _ _ _ Hr), Hb by by apply list_elem_of_fmap_2. split; [done|].
  rewrite (k_sequence _ _ (ph_keeps _ _ _ _ _ (rs_phase _ _ _ Hr))). by destruct t.
Qed.

Definition job_stamped (j : Job) w : Prop :=
  match j with
  | JTable t cloud => forall item, item ∈ cloud -> stamped_now t w (cloud_Lcuuid item)
  | JIP cloud => forall item, item ∈ cloud ->
      is_wan w item = Some true /\ stamped_now TWANIP w (CloudModel.IP_Lcuuid item) \/
      is_wan w item = Some false /\ stamped_now TLANIP w (CloudModel.IP_Lcuuid item)
  end.

Lemma idle_job_stamped j w w' : idle w w' -> job_stamped j w -> job_stamped j w'.
Proof.
  intros Hi. destruct j as [t CT DG GEN cloud|cloud]; intros Hs item Hit; [by eapply idle_stamped, Hs|].
  rewrite (idle_is_wan _ _ _ Hi). destruct (Hs item Hit) as [[? ?]|[? ?]]; [left|right];
    (split; [done|by eapply idle_stamped]).
Qed.

Lemma job_idle j w :
  job_distinct j -> job_settled j w ->
  runs (handle_add (updater_of j)) w (fun _ w' => idle w w' /\ job_stamped j w').
Proof.
  destruct j as [t CT DG GEN cloud|cloud]; [apply table_idle|]. intros Hnd Hs.
  cbn [updater_of handle_add NewIP]. unfold IP_HandleAddAndUpdate. apply runs_bind, runs_get_cache.
  destruct (split_distinct (w_cache w) cloud Hnd) as [Hn1 Hn2].
  pose proof (split_perm w cloud) as Hsp. destruct (splitToWANAndLAN _ _) as [wan lan]. cbn [fst snd] in *.
  destruct Hsp as (Hp & Hw & Hl).
  { intros item Hi. destruct (Hs item Hi) as [[-> _]|[-> _]]; eauto. }
  rewrite Forall_forall in Hw, Hl.
  apply runs_bind. eapply runs_mono; [apply (table_idle (t := TWANIP)); [done|]|].
  { intros item Hi. destruct (Hs item) as [[_ ?]|[E _]]; [rewrite <- Hp; set_solver|done|]. by rewrite Hw in E. }
  intros [] w1 [Hi1 Hs1]. eapply runs_mono; [apply (table_idle (t := TLANIP)); [done|]|].
  { intros item Hi. eapply idle_settled; [exact Hi1|].
    destruct (Hs item) as [[E _]|[_ ?]]; [rewrite <- Hp; set_solver| |done]. by rewrite Hl in E. }
  intros [] w' [Hi2 Hs2]. assert (idle w w') as Hi by by etransitivity. split; [done|].
  intros item Hit. rewrite (idle_is_wan _ _ _ Hi). rewrite <- Hp in Hit. apply elem_of_app in Hit as [Hit|Hit].
  - left. split; [auto|]. eapply idle_stamped; [exact Hi2|by apply Hs1].
  - right. split; [auto|by apply Hs2].
Qed.

Lemma add_loop_idle js w :
  Forall job_distinct js -> Forall (fun j => job_settled j w) js ->
  runs (for_each (fun j => handle_add (updater_of j)) js) w (fun _ w' =>
    idle w w' /\ Forall (fun j => job_stamped j w') js).
Proof.
  revert w. induction js as [|j js IH]; intros w Hd Hs; cbn [for_each].
  { apply runs_ret. by split; [reflexivity|]. }
  apply Forall_cons in Hd as [Hd Hds], Hs as [Hs Hss]. apply runs_bind.
  eapply runs_mono; [by apply job_idle|]. intros [] w1 [Hi1 Hs1].
  eapply runs_mono; [apply IH; [done|]|].
  { eapply Forall_impl; [exact Hss|]. intros j'. by apply idle_job_settled. }
  intros [] w' [Hi Hst]. split; [by etransitivity|]. constructor; [by eapply idle_job_stamped|done].
Qed.

(** Every entry is that of an item. *)
Definition job_covered (j : Job) w : Prop :=
  match j with
  | JTable t cloud => forall l, is_Some (D t w !! l) -> l ∈ cloud_Lcuuid <$> cloud
  | JIP cloud =>
      (forall l, is_Some (D TWANIP w !! l) ->
         exists item, item ∈ cloud /\ l = CloudModel.IP_Lcuuid item /\ is_wan w item = Some true) /\
      (forall l, is_Some (D TLANIP w !! l) ->
         exists item, item ∈ cloud /\ l = CloudModel.IP_Lcuuid item /\ is_wan w item = Some false)
  end.

Lemma job_exact_covered j w w' : job_exact j w w' -> job_covered j w'.
Proof.
  destruct j as [t CT DG GEN cloud|cloud]; cbn [job_exact job_covered].
  { intros He l. by apply (te_entries _ _ _ _ He). }
  intros (wan & lan & Hp & Hw & Hl & He1 & He2). rewrite Forall_forall in Hw, Hl. split; intros l Hs.
  - apply (te_entries _ _ _ _ He1), list_elem_of_fmap in Hs as (item & -> & Hi). exists item.
    split_and!; [rewrite <- Hp; set_solver|done|auto].
  - apply (te_entries _ _ _ _ He2), list_elem_of_fmap in Hs as (item & -> & Hi). exists item.
    split_and!; [rewrite <- Hp; set_solver|done|auto].
Qed.

Lemma job_exact_known j w w' : job_exact j w w' -> job_known j w'.
Proof.
  destruct j as [t CT DG GEN cloud|cloud]; cbn [job_exact job_known].
  { intros He item Hi. apply (te_entries _ _ _ _ He). by apply list_elem_of_fmap_2. }
  intros (wan & lan & Hp & Hw & Hl & He1 & He2) item Hi. rewrite Forall_forall in Hw, Hl.
  rewrite <- Hp in Hi. apply elem_of_app in Hi as [Hi|Hi].
  - left. split; [auto|]. apply (te_entries _ _ _ _ He1). by apply (list_elem_of_fmap_2 CloudModel.IP_Lcuuid).
  - right. split; [auto|]. apply (te_entries _ _ _ _ He2). by apply (list_elem_of_fmap_2 CloudModel.IP_Lcuuid).
Qed.

(** Nothing is left to delete. *)
Lemma stamped_not_stale t w l : (is_Some (D t w !! l) -> stamped_now t w l) -> ~ stale t w l.
Proof. intros Hs (b & Hb & Hne). destruct Hs as (b' & Hb' & E); [by rewrite Hb|]. congruence. Qed.

Lemma job_not_stale j w w' t l :
  idle w w' -> job_covered j w -> job_stamped j w' -> t ∈ job_tables j -> ~ stale t w' l.
Proof.
  intros Hi Hc Hs Ht. apply stamped_not_stale. rewrite (idle_is_Some _ _ _ _ Hi). intros Hsome.
  destruct j as [t' CT DG GEN cloud|cloud]; cbn [job_covered job_stamped job_tables] in *.
  - apply list_elem_of_singleton in Ht as ->. apply Hc, list_elem_of_fmap in Hsome as (item & -> & Hit). auto.
  - destruct Hc as [Hc1 Hc2]. apply elem_of_cons in Ht as [-> | Ht]; [|apply list_elem_of_singleton in Ht as ->].
    + destruct (Hc1 l Hsome) as (item & Hit & -> & E). rewrite <- (idle_is_wan _ _ _ Hi) in E.
      destruct (Hs item Hit) as [[_ ?]|[E' _]]; [done|congruence].
    + destruct (Hc2 l Hsome) as (item & Hit & -> & E). rewrite <- (idle_is_wan _ _ _ Hi) in E.
      destruct (Hs item Hit) as [[E' _]|[_ ?]]; [congruence|done].
Qed.

Lemma job_delete_idle j w :
  (forall t l, t ∈ job_tables j -> ~ stale t w l) ->
  runs (handle_delete (updater_of j)) w (fun _ w' => w' = w).
Proof.
  intros Hn. destruct j as [t CT DG GEN cloud|cloud]; cbn [updater_of handle_delete NewUpdater NewIP].
  - apply HandleDelete_none. intros l. apply Hn. by left.
  - unfold IP_HandleDelete. apply runs_bind. eapply runs_mono; [apply HandleDelete_none; intros l; apply Hn; by left|].
    intros [] w' ->. apply HandleDelete_none. intros l. apply Hn. by right; left.
Qed.

(** A refresh with nothing to do. *)
Lemma refresh_idle js w :
  js <> [] -> Forall job_distinct js -> Forall (fun j => job_settled j w) js ->
  Forall (fun j => job_covered j w) js ->
  runs (refresh_domain (updater_of <$> js)) w (fun _ w' => idle w w').
Proof.
  intros Hne Hd Hs Hc. apply refresh_domain_runs; [done|]. eapply runs_mono; [by apply add_loop_idle|].
  intros [] w1 [Hi Hst]. eapply runs_mono; [apply (for_each_keeps _ (eq w1)); [|done]|by intros [] w' <-].
  intros j v Hj <-. eapply runs_mono; [apply job_delete_idle|by intros [] w' ->].
  rewrite Forall_forall in Hc, Hst. rewrite delete_order_perm in Hj.
  intros t l Ht. eapply job_not_stale; eauto.
Qed.

(** * Rounds *)

(** The next sequence number, and a refresh. *)
Definition bump w : World DB :=
  mkWorld (SetCacheSequence (i64 (Sequence (w_cache w) + 1)) (w_cache w)) (w_db w) (w_sent w).

(** No entry is from the future, and there are numbers left. *)
Definition past (n : Z) w : Prop :=
  is_i 64 (Sequence (w_cache w) + n) /\ 0 <= Sequence (w_cache w) /\
  forall t l b, D t w !! l = Some b -> GetSequence b <= Sequence (w_cache w).

Lemma bump_outdated n w :
  0 <= n -> past (n + 1) w -> Sequence (w_cache (bump w)) = Sequence (w_cache w) + 1 /\ outdated (bump w).
Proof.
  intros Hn (Hr & H0 & He).
  assert (Sequence (w_cache (bump w)) = Sequence (w_cache w) + 1) as E by (apply swrap_small; ranges; lia).
  split; [done|]. intros t l b Hb. rewrite E. specialize (He t l b Hb). lia.
Qed.

Lemma table_exact_now t L w w' l b :
  table_exact t L w w' -> D t w' !! l = Some b -> GetSequence b = Sequence (w_cache w').
Proof.
  intros He Hb. destruct (te_current _ _ _ _ He l) as (b' & Hb' & E).
  - apply (te_entries _ _ _ _ He). by rewrite Hb.
  - simplify_eq. unfold GetSequence. by rewrite E.
Qed.

Lemma job_exact_now j w w' t l b :
  job_exact j w w' -> t ∈ job_tables j -> D t w' !! l = Some b -> GetSequence b = Sequence (w_cache w').
Proof.
  destruct j as [t' CT DG GEN cloud|cloud]; cbn [job_exact job_tables].
  - intros He ->%list_elem_of_singleton. by eapply table_exact_now.
  - intros (wan & lan & _ & _ & _ & He1 & He2) [-> | Ht]%elem_of_cons; [by eapply table_exact_now|].
    apply list_elem_of_singleton in Ht as ->. by eapply table_exact_now.
Qed.

(** What a round starts from, with [n] rounds to come. *)
Record steady (n : Z) (js : list Job) w : Prop := mkSteady {
  st_up : up (w_db w);
  st_sound : cache_sound w;
  st_past : past n w;
  st_addable : Forall (fun j => job_addable j w) js
}.

Lemma elem_of_tables_of js t : t ∈ tables_of js -> exists j, j ∈ js /\ t ∈ job_tables j.
Proof.
  unfold tables_of. induction js as [|j js IH]; rewrite ?fmap_cons; cbn [concat].
  - intros Ht. by apply elem_of_nil in Ht.
  - intros [Ht|Ht]%elem_of_app; [exists j; split; [by left|done]|]. destruct (IH Ht) as (j' & ? & ?).
    exists j'. split; [by right|done].
Qed.

Lemma refresh_round_ok n js w :
  0 <= n -> js <> [] -> ordered js -> Forall job_distinct js -> closed [] [] js -> steady (n + 1) js w ->
  runs (refresh_domain (updater_of <$> js)) (bump w) (fun _ w' =>
    steady n js w' /\ Forall (fun j => job_exact j (bump w) w' /\ job_updates j (bump w) w') js).
Proof.
  intros Hn Hne Ho Hd Hcl [Hu Hs Hp Ha]. destruct (bump_outdated n w Hn Hp) as [Eq Hout].
  eapply runs_mono; [apply (refresh_domain_ok []); try done|].
  { constructor; try done. by apply Forall_nil. }
  intros [] w' (K & Hs' & Hsame & Hex). split; [|done]. rewrite Forall_forall in Hex. constructor.
  - by apply (k_up _ _ K).
  - done.
  - destruct Hp as (Hr & H0 & He). unfold past. rewrite (k_sequence _ _ K), Eq. split_and!; [|lia|].
    { by replace (Sequence (w_cache w) + 1 + n) with (Sequence (w_cache w) + (n + 1)) by lia. }
    intros t l b Hb. destruct (decide (t ∈ tables_of js)) as [(j & Hj & Ht)%elem_of_tables_of|Ht].
    + rewrite (job_exact_now j (bump w) w' t l b); [|by apply Hex|done..]. rewrite (k_sequence _ _ K), Eq. lia.
    + rewrite Hsame in Hb by done. specialize (He t l b Hb). lia.
  - apply Forall_forall. intros j Hj. right. eapply job_exact_known. by apply Hex.
Qed.

Lemma job_settled_bump j w : job_settled j w -> job_settled j (bump w).
Proof. by destruct j. Qed.

Lemma job_known_bump j w : job_known j w -> job_known j (bump w).
Proof. by destruct j. Qed.

Lemma job_covered_bump j w : job_covered j w -> job_covered j (bump w).
Proof. by destruct j. Qed.

End Facts.
