(* ===== verification/RecorderStore.v ===== *)
(** A database in memory that satisfies the laws of [CacheFacts.v], with the order of maps
    and a small [GoText]: the theorems on the recorder are applied to it.

    A table is a map from identifiers to rows, with a mark for deleted ones.  Columns other
    than the key and the identifier are not brought up to date, and the conditions of
    [find_where] hold of all rows, as in a database of one domain. *)
From stdpp Require Import base strings gmap.
From S2P Require Import Prelude CloudModel MysqlModel DiffBase RecorderCache Updater.
From S2P Require Import UpdaterResources CacheFacts UpdaterFacts.

#[local] Open Scope Z_scope.

(** * Tables *)

Notation Contents t := (gmap string (Model t * bool)).

Record Store := mkStore { answers : bool; contents : forall t, Contents t }.

Definition alter_contents (t : Table) (f : Contents t -> Contents t) (b : forall t, Contents t)
    : forall t, Contents t :=
  fun t' =>
    match decide (t = t') with
    | left e => match e in _ = t' return Contents t' -> Contents t' with eq_refl => f end (b t')
    | right _ => b t'
    end.

Lemma alter_contents_eq t f b : alter_contents t f b t = f (b t).
Proof.
  unfold alter_contents. destruct (decide (t = t)) as [E|]; [|done].
  by rewrite (Eqdep_dec.UIP_dec (decide_rel (=)) E eq_refl).
Qed.

Lemma alter_contents_ne t t' f b : t <> t' -> alter_contents t f b t' = b t'.
Proof. intros H. unfold alter_contents. by destruct (decide (t = t')). Qed.

Definition set_contents (t : Table) (f : Contents t -> Contents t) (d : Store) : Store :=
  mkStore (answers d) (alter_contents t f (contents d)).

(** The rows of a table are under their identifiers and have keys of their own. *)
Definition rows_ok {t : Table} (c : Contents t) : Prop :=
  map_Forall (fun l p => GetLcuuid p.1 = l) c /\
  forall l l' p p', c !! l = Some p -> c !! l' = Some p' -> GetID p.1 = GetID p'.1 -> l = l'.

Definition rows_okb {t : Table} (c : Contents t) : bool :=
  forallb (fun '(l, p) => bool_decide (GetLcuuid p.1 = l)) (map_to_list c) &&
  bool_decide (NoDup ((fun p => GetID p.2.1) <$> map_to_list c)).

Lemma rows_okb_spec {t} (c : Contents t) : rows_okb c = true <-> rows_ok c.
Proof.
  unfold rows_okb. rewrite andb_true_iff, forallb_forall, bool_decide_eq_true. split.
  - intros [H1 H2]. split.
    + intros l p Hp. specialize (H1 (l, p)). cbn in H1. apply bool_decide_eq_true in H1; [done|].
      by apply list_elem_of_In, elem_of_map_to_list.
    + intros l l' p p' Hp Hp' E.
      apply elem_of_map_to_list, list_elem_of_lookup in Hp as [i Hi], Hp' as [j Hj].
      assert (i = j) as ->.
      { apply (NoDup_lookup _ i j (GetID p.1) H2); rewrite list_lookup_fmap, ?Hi, ?Hj; cbn; congruence. }
      congruence.
  - intros [H1 H2]. split.
    + intros [l p] Hp%list_elem_of_In%elem_of_map_to_list. apply bool_decide_eq_true. by apply (H1 l p).
    + apply NoDup_alt. intros i j k. rewrite !list_lookup_fmap.
      destruct (map_to_list c !! i) as [[l p]|] eqn:Hi; [|done].
      destruct (map_to_list c !! j) as [[l' p']|] eqn:Hj; [|done]. cbn. intros [= E] [= E'].
      pose proof (proj1 (elem_of_map_to_list c l p) (list_elem_of_lookup_2 _ _ _ Hi)) as Hp.
      pose proof (proj1 (elem_of_map_to_list c l' p') (list_elem_of_lookup_2 _ _ _ Hj)) as Hp'.
      assert (l = l') as <- by (eapply H2; [done..|congruence]). assert (p = p') as <- by congruence.
      exact (NoDup_lookup _ _ _ _ (NoDup_map_to_list c) Hi Hj).
Qed.

Definition okb (d : Store) : bool := answers d && forallb (fun t => rows_okb (contents d t)) tables.

Lemma all_tables t : In t tables.
Proof. destruct t; cbn; tauto. Qed.

Lemma okb_spec d : okb d = true <-> answers d = true /\ forall t, rows_ok (contents d t).
Proof.
  unfold okb. rewrite andb_true_iff, forallb_forall. split; intros [Ha H]; (split; [done|]).
  - intros t. apply rows_okb_spec, H, all_tables.
  - intros t _. by apply rows_okb_spec.
Qed.

(** The table of the laws. *)
Definition store_table (t : Table) (d : Store) : rows :=
  if okb d then (fun p => (GetID p.1, p.2)) <$> contents d t else ∅.

Lemma store_table_lookup t d l id b :
  store_table t d !! l = Some (id, b) <->
  okb d = true /\ exists m, contents d t !! l = Some (m, b) /\ GetID m = id.
Proof.
  unfold store_table. destruct (okb d); [|by rewrite lookup_empty; split; [done|intros [? _]]].
  rewrite lookup_fmap, fmap_Some. split.
  - intros ([m b'] & Hm & [= -> ->]). eauto.
  - intros (_ & m & Hm & <-). by exists (m, b).
Qed.

(** * Queries and statements *)

(** The server answers if the store is in order. *)
Definition ask {A} (none : A) (f : Store -> A) (d : Store) : A * Store :=
  if okb d then (f d, d) else (none, d).

Definition tell {A} (none : A) (f : Store -> A * Store) (d : Store) : A * Store :=
  if okb d then f d else (none, d).

(** The first row that satisfies a condition. *)
Definition find_row {t : Table} (P : Model t -> bool) (c : Contents t) : option (Model t) :=
  head (omap (fun '(_, (m, deleted)) => if negb deleted && P m then Some m else None) (map_to_list c)).

Definition live_rows {t : Table} (c : Contents t) : list (Model t) :=
  omap (fun '(_, (m, deleted)) => if deleted : bool then None else Some m) (map_to_list c).

(** What is left of a table. *)
Definition marked {t : Table} (soft : bool) (P : string -> Z -> bool) (c : Contents t) : Contents t :=
  map_imap (fun l '(m, deleted) =>
              if P l (GetID m) then if soft then Some (m, true) else None else Some (m, deleted)) c.

(** New rows get the keys after the largest one. *)
Fixpoint assign {t : Table} (next : Z) (ms : list (Model t)) : list (Model t) :=
  match ms with
  | [] => []
  | m :: ms =>
      if GetID m =? 0 then row_stamp next 1 1 m :: assign (next + 1) ms
      else row_stamp (GetID m) 1 1 m :: assign next ms
  end.

Definition largest (ids : list Z) : Z := foldr Z.max 0 ids.

Definition next_id {t : Table} (ms : list (Model t)) (c : Contents t) : Z :=
  1 + largest ((GetID <$> ms) ++ ((fun p => GetID p.2.1) <$> map_to_list c)).

Definition inserted {t : Table} (ms : list (Model t)) (c : Contents t) : Contents t :=
  list_to_map ((fun m => (GetLcuuid m, (m, false))) <$> ms) ∪ c.

Definition store_create (t : Table) (ms : list (Model t)) (d : Store) : option (list (Model t)) * Store :=
  let ms' := assign (next_id ms (contents d t)) ms in
  let d' := set_contents t (inserted ms') d in
  if okb d then
    if bool_decide (ms <> []) && bool_decide (NoDup (GetLcuuid <$> ms)) &&
       bool_decide (Forall (fun m => store_table t d !! GetLcuuid m = None) ms) && okb d'
    then (Some ms', d') else (None, d)
  else (None, d).

#[global] Instance store_Mysql : Mysql := {|
  dbst := Store;
  find_lcuuid t l := ask None (fun d => m ← contents d t !! l; if (m.2 : bool) then None else Some m.1);
  find_id t id := ask None (fun d => find_row (fun m => GetID m =? id) (contents d t));
  find_lcuuid_int t _ := ask None (fun _ => None);
  find_where t _ := ask None (fun d => Some (live_rows (contents d t)));
  find_unscoped t ls := ask None (fun d => Some (omap (fun l => fst <$> contents d t !! l) (remove_dups ls)));
  find_connections t ls :=
    ask None (fun d =>
      let ids := omap (fun l => (fun p => GetID p.1) <$> contents d t !! l) ls in
      Some (filter (fun con : MysqlModel.VMPodNodeConnection =>
                      (if decide (t = TVM) then MysqlModel.VMPodNodeConnection_VMID con
                       else MysqlModel.VMPodNodeConnection_PodNodeID con) ∈ ids)
              (live_rows (contents d TVMPodNodeConnection))));
  create := store_create;
  updates t _ info := ask false (fun _ => bool_decide (dom info ⊆ list_to_set (columns t).*1));
  delete_in t ls :=
    tell false (fun d => (true, set_contents t (marked (has_DeletedAt t) (fun l _ => bool_decide (l ∈ ls))) d));
  delete_row t m :=
    tell false (fun d =>
      (true, set_contents t (marked (has_DeletedAt t) (fun _ id => bool_decide (id = GetID m))) d));
  delete_unscoped t ms :=
    tell false (fun d =>
      (true, set_contents t (marked false (fun _ id => bool_decide (id ∈ GetID <$> ms))) d));
  save _ _ d := d;
  find_Domain l :=
    ask None (fun _ => Some
      {| Domain_Base := mkBase 1 l; Domain_OperatedTime := zero_OperatedTime; Domain_SyncedAt := None;
         Domain_Name := ""; Domain_IconID := 0; Domain_DisplayName := ""; Domain_ClusterID := "";
         Domain_Type := 0; Domain_Config := ""; Domain_ErrorMsg := ""; Domain_Enabled := 1; Domain_State := 1;
         Domain_ControllerIP := "" |});
  save_Domain _ d := d
|}.

(** * The laws *)

Lemma contents_set_eq t f d : contents (set_contents t f d) t = f (contents d t).
Proof. apply alter_contents_eq. Qed.

Lemma contents_set_ne t t' f d : t' <> t -> contents (set_contents t f d) t' = contents d t'.
Proof. intros. by apply alter_contents_ne. Qed.

Lemma set_contents_ok t f d :
  okb d = true -> rows_ok (f (contents d t)) -> okb (set_contents t f d) = true.
Proof.
  rewrite !okb_spec. intros [Ha H] Hf. split; [done|]. intros t'. destruct (decide (t' = t)) as [->|Hne].
  - by rewrite contents_set_eq.
  - by rewrite contents_set_ne.
Qed.

Lemma store_table_ne t t' f d :
  okb d = true -> okb (set_contents t f d) = true -> t' <> t ->
  store_table t' (set_contents t f d) = store_table t' d.
Proof. intros H1 H2 Hne. unfold store_table. by rewrite H1, H2, contents_set_ne. Qed.

Lemma marked_lookup {t} soft P (c : Contents t) l p :
  marked soft P c !! l = Some p -> exists b, c !! l = Some (p.1, b).
Proof.
  unfold marked. rewrite map_lookup_imap. destruct (c !! l) as [[m b]|]; [|done]. cbn.
  destruct (P l (GetID m)); [destruct soft|]; intros [= <-]; eauto.
Qed.

Lemma marked_ok {t} soft P (c : Contents t) : rows_ok c -> rows_ok (marked soft P c).
Proof.
  intros [H1 H2]. split.
  - intros l p (b & Hp)%marked_lookup. by apply (H1 l _ Hp).
  - intros l l' p p' (b & Hp)%marked_lookup (b' & Hp')%marked_lookup E. exact (H2 _ _ _ _ Hp Hp' E).
Qed.

Lemma store_table_marked t soft P d :
  okb d = true ->
  okb (set_contents t (marked soft P) d) = true /\
  store_table t (set_contents t (marked soft P) d) = mark_deleted soft P (store_table t d).
Proof.
  intros Hok. assert (okb (set_contents t (marked soft P) d) = true) as Hok'.
  { apply set_contents_ok; [done|]. apply marked_ok. by apply okb_spec in Hok as [_ ?]. }
  split; [done|]. unfold store_table. rewrite Hok, Hok', contents_set_eq. apply map_eq. intros l.
  unfold marked, mark_deleted. rewrite lookup_fmap, !map_lookup_imap, lookup_fmap.
  destruct (contents d t !! l) as [[m b]|]; [|done]. cbn. destruct (P l (GetID m)); [destruct soft|]; done.
Qed.

(** Keys of new rows *)

Lemma largest_le ids id : id ∈ ids -> id <= largest ids.
Proof. unfold largest. induction 1; cbn [foldr]; lia. Qed.

Lemma GetID_stamp {t} id c u (m : Model t) : GetID (row_stamp id c u m) = id.
Proof. by destruct t. Qed.

Lemma assign_stamped {t} next (ms : list (Model t)) : Forall2 stamped ms (assign next ms).
Proof.
  revert next. induction ms as [|m ms IH]; intros next; cbn [assign]; [done|].
  destruct (Z.eqb_spec (GetID m) 0); (constructor; [|done]).
  - exists next, 1, 1. done.
  - exists (GetID m), 1, 1. done.
Qed.

Lemma assign_ids {t} next (ms : list (Model t)) m' :
  m' ∈ assign next ms -> next <= GetID m' \/ exists m, m ∈ ms /\ GetID m <> 0 /\ GetID m' = GetID m /\ GetLcuuid m' = GetLcuuid m.
Proof.
  revert next. induction ms as [|m ms IH]; intros next; cbn [assign]; [by intros H%elem_of_nil|].
  destruct (Z.eqb_spec (GetID m) 0) as [E|E]; intros [->|Hm]%elem_of_cons.
  - left. rewrite GetID_stamp. lia.
  - destruct (IH _ Hm) as [|(m1 & ? & ?)]; [left; lia|right; exists m1; split; [by right|done]].
  - right. exists m. rewrite GetID_stamp, GetLcuuid_stamp. split_and!; [by left|done..].
  - destruct (IH _ Hm) as [|(m1 & ? & ?)]; [by left|right; exists m1; split; [by right|done]].
Qed.

Lemma assign_unique {t} next (ms : list (Model t)) m1 m2 :
  (forall m, m ∈ ms -> GetID m < next) ->
  (forall m m', m ∈ ms -> m' ∈ ms -> GetID m <> 0 -> GetID m = GetID m' -> m = m') ->
  m1 ∈ assign next ms -> m2 ∈ assign next ms -> GetID m1 = GetID m2 -> GetLcuuid m1 = GetLcuuid m2.
Proof.
  revert next. induction ms as [|m ms IH]; intros next Hlt Hk; cbn [assign]; [by intros H%elem_of_nil|].
  assert (forall m0, m0 ∈ ms -> GetID m0 < next) as Hlt' by (intros; apply Hlt; by right).
  assert (forall a b, a ∈ ms -> b ∈ ms -> GetID a <> 0 -> GetID a = GetID b -> a = b) as Hk'
    by (intros; apply Hk; auto; by right).
  destruct (Z.eqb_spec (GetID m) 0) as [E|E].
  - assert (forall x, x ∈ assign (next + 1) ms -> GetID x <> next) as Hx.
    { intros x Hx Ex. destruct (assign_ids _ _ _ Hx) as [|(m0 & H0 & _ & E0 & _)]; [lia|]. specialize (Hlt' m0 H0). lia. }
    intros [->|H1]%elem_of_cons [->|H2]%elem_of_cons; rewrite ?GetID_stamp; intros Eid; try done.
    + by destruct (Hx _ H2).
    + by destruct (Hx _ H1).
    + eapply (IH (next + 1)); try done. intros. specialize (Hlt' m0 H). lia.
  - assert (forall x, x ∈ assign next ms -> GetID x = GetID m -> GetLcuuid x = GetLcuuid m) as Hx.
    { intros x Hx Ex. destruct (assign_ids _ _ _ Hx) as [|(m0 & H0 & Hz & E0 & El)].
      - specialize (Hlt m (list_elem_of_here _ _)). lia.
      - rewrite El. f_equal. apply Hk; [by right|by left|done|congruence]. }
    intros [->|H1]%elem_of_cons [->|H2]%elem_of_cons; rewrite ?GetID_stamp, ?GetLcuuid_stamp; intros Eid; try done.
    + symmetry. by apply Hx.
    + by apply Hx.
    + by eapply (IH next).
Qed.

Lemma inserted_lookup {t} (ms : list (Model t)) (c : Contents t) l p :
  inserted ms c !! l = Some p ->
  (exists m, m ∈ ms /\ GetLcuuid m = l /\ p = (m, false)) \/ l ∉ GetLcuuid <$> ms /\ c !! l = Some p.
Proof.
  unfold inserted. rewrite lookup_union_Some_raw. intros [H|[H1 H2]].
  - left. apply elem_of_list_to_map_2, list_elem_of_fmap in H as (m & [= -> ->] & Hm). by exists m.
  - right. split; [|done]. apply not_elem_of_list_to_map_2 in H1. by rewrite <- list_fmap_compose in H1.
Qed.

Lemma store_table_contents t d l p : okb d = true -> contents d t !! l = Some p -> store_table t d !! l = Some (GetID p.1, p.2).
Proof. intros Hok Hp. apply store_table_lookup. destruct p as [m b]. eauto. Qed.

Lemma inserted_ok {t} (ms : list (Model t)) d :
  okb d = true -> insertable (store_table t d) ms ->
  rows_ok (inserted (assign (next_id ms (contents d t)) ms) (contents d t)).
Proof.
  intros Hok [_ Hnd Hnew Hk Hkn]. apply okb_spec in Hok as Hok'. destruct Hok' as [_ Hr]. destruct (Hr t) as [H1 H2].
  assert (forall id, id ∈ (GetID <$> ms) ++ ((fun p => GetID p.2.1) <$> map_to_list (contents d t)) ->
    id < next_id ms (contents d t)) as Hlt by (intros id Hid%largest_le; unfold next_id; lia).
  set (next := next_id _ _) in *.
  assert (forall l p m, contents d t !! l = Some p -> m ∈ assign next ms -> GetID m <> GetID p.1) as Hne.
  { intros l p m Hp Hm E. destruct (assign_ids _ _ _ Hm) as [Hge|(m0 & H0 & Hz & E0 & _)].
    - assert (GetID p.1 < next); [|lia]. apply Hlt, elem_of_app. right.
      apply (list_elem_of_fmap_2 (fun p => GetID p.2.1) _ (l, p)). by apply elem_of_map_to_list.
    - apply (Hkn m0 l (GetID p.1, p.2) H0); [by apply store_table_contents|done|]. cbn. congruence. }
  split.
  - intros l p [(m & _ & E & ->)|[_ Hp]]%inserted_lookup; [done|by apply (H1 l p)].
  - intros l l' p p' [(m & Hm & <- & ->)|[_ Hp]]%inserted_lookup [(m' & Hm' & <- & ->)|[_ Hp']]%inserted_lookup; cbn; intros E.
    + eapply assign_unique; [|exact Hk|exact Hm|exact Hm'|done].
      intros m0 H0. apply Hlt, elem_of_app. left. by apply list_elem_of_fmap_2.
    + by destruct (Hne _ _ _ Hp' Hm).
    + by destruct (Hne _ _ _ Hp Hm').
    + by eapply H2.
Qed.

Lemma store_table_inserted t ms d :
  okb d = true -> okb (set_contents t (inserted ms) d) = true ->
  store_table t (set_contents t (inserted ms) d) = rows_of ms ∪ store_table t d.
Proof.
  intros Hok Hok'. unfold store_table. rewrite Hok, Hok', contents_set_eq. unfold inserted.
  rewrite map_fmap_union. f_equal. unfold rows_of. rewrite <- list_to_map_fmap. f_equal.
  by rewrite <- list_fmap_compose.
Qed.

Lemma store_create_ok t ms d r d' :
  store_create t ms d = (r, d') ->
  (forall t', t' <> t -> store_table t' d' = store_table t' d) /\ (okb d = true -> okb d' = true) /\
  match r with
  | Some ms' =>
      Forall2 stamped ms ms' /\ store_table t d' = rows_of ms' ∪ store_table t d /\
      NoDup (GetLcuuid <$> ms) /\ (forall m, m ∈ ms -> store_table t d !! GetLcuuid m = None)
  | None => store_table t d' = store_table t d /\ (okb d = true -> ~ insertable (store_table t d) ms)
  end.
Proof.
  unfold store_create. set (ms' := assign _ ms). destruct (okb d) eqn:Hok; [|by intros [= <- <-]].
  destruct (bool_decide _ && _ && _ && _) eqn:Hc.
  - rewrite !andb_true_iff, !bool_decide_eq_true in Hc. destruct Hc as (((_ & Hnd) & Hf) & Hok').
    intros [= <- <-]. split_and!; [intros; by apply store_table_ne|done|apply assign_stamped|..|done|].
    + by apply store_table_inserted.
    + by apply Forall_forall.
  - intros [= <- <-]. split_and!; [done..|]. intros _ Hi. rewrite !andb_false_iff, !bool_decide_eq_false in Hc.
    destruct Hc as [[[Hc|Hc]|Hc]|Hc].
    + by apply Hc, (ins_some _ _ Hi).
    + by apply Hc, (ins_lcuuid _ _ Hi).
    + apply Hc, Forall_forall. apply (ins_new _ _ Hi).
    + rewrite set_contents_ok in Hc; [done..|]. by apply inserted_ok.
Qed.

(** A query changes nothing; a statement deletes rows. *)
Lemma ask_ok {A} (none : A) f d r d' :
  ask none f d = (r, d') ->
  (forall t, store_table t d' = store_table t d) /\ (okb d = true -> okb d' = true) /\
  (okb d = true /\ r = f d \/ okb d = false /\ r = none).
Proof. unfold ask. destruct (okb d) eqn:E; intros [= <- <-]; split_and!; naive_solver. Qed.

Lemma tell_ok t soft P d r d' :
  tell false (fun d => (true, set_contents t (marked soft P) d)) d = (r, d') ->
  (forall t', t' <> t -> store_table t' d' = store_table t' d) /\ (okb d = true -> okb d' = true) /\
  if (r : bool) then store_table t d' = mark_deleted soft P (store_table t d)
  else store_table t d' = store_table t d /\ ~ okb d = true.
Proof.
  unfold tell. destruct (okb d) eqn:E; intros [= <- <-].
  - destruct (store_table_marked t soft P d E) as [Hok Ht]. split_and!; [|done|done]. intros. by apply store_table_ne.
  - split_and!; [done..|]. congruence.
Qed.

Lemma live_rows_in {t} (c : Contents t) m : m ∈ live_rows c -> exists l, c !! l = Some (m, false).
Proof.
  intros ([l [m' b]] & Hin & E)%list_elem_of_omap. destruct b; [done|]. injection E as ->.
  exists l. by apply elem_of_map_to_list.
Qed.

Lemma find_row_in {t} P (c : Contents t) m : find_row P c = Some m -> P m = true /\ exists l, c !! l = Some (m, false).
Proof.
  unfold find_row. intros H%head_Some_elem_of. apply list_elem_of_omap in H as ([l [m' b]] & Hin & E).
  destruct b; [done|]. cbn in E. destruct (P m') eqn:HP; [|done]. injection E as ->.
  split; [done|]. exists l. by apply elem_of_map_to_list.
Qed.

Lemma row_in_table t d l m b :
  okb d = true -> contents d t !! l = Some (m, b) -> GetLcuuid m = l /\ store_table t d !! GetLcuuid m = Some (GetID m, b).
Proof.
  intros Hok Hm. apply okb_spec in Hok as Hr. destruct Hr as [_ Hr]. destruct (Hr t) as [H1 _].
  pose proof (H1 l _ Hm) as El. cbn in El. split; [done|]. rewrite El. exact (store_table_contents t d l (m, b) Hok Hm).
Qed.

Lemma find_unscoped_ok t ls d r d' :
  find_unscoped t ls d = (r, d') ->
  (forall t', store_table t' d' = store_table t' d) /\ (okb d = true -> okb d' = true) /\
  match r with
  | Some ms =>
      NoDup (GetLcuuid <$> ms) /\
      (forall m, m ∈ ms -> GetLcuuid m ∈ ls /\ fst <$> store_table t d !! GetLcuuid m = Some (GetID m)) /\
      (forall l, l ∈ ls -> is_Some (store_table t d !! l) -> l ∈ GetLcuuid <$> ms)
  | None => ~ okb d = true
  end.
Proof.
  intros (HT & Hu & [[Hok ->]|[Hok ->]])%ask_ok; (split; [done|split; [done|]]); [|congruence].
  assert (forall l m, fst <$> contents d t !! l = Some m -> GetLcuuid m = l /\ fst <$> store_table t d !! l = Some (GetID m)) as Hrow.
  { intros l m ([m' b] & Hm & ->)%fmap_Some. destruct (row_in_table t d l m' b Hok Hm) as [<- ->]. done. }
  split_and!.
  - generalize (NoDup_remove_dups ls). generalize (remove_dups ls) as ks. induction ks as [|k ks IH]; [done|].
    intros [Hk Hks]%NoDup_cons. cbn. destruct (fst <$> contents d t !! k) as [m|] eqn:E; [|auto].
    cbn. apply NoDup_cons. split; [|auto]. destruct (Hrow _ _ E) as [El _].
    intros (m' & Em & (k' & Hk' & E')%list_elem_of_omap)%list_elem_of_fmap. destruct (Hrow _ _ E') as [El' _].
    apply Hk. congruence.
  - intros m (k & Hk & E)%list_elem_of_omap. destruct (Hrow _ _ E) as [-> ?]. split; [by apply elem_of_remove_dups|done].
  - intros l Hl [[id b] Hs]. apply store_table_lookup in Hs as (_ & m & Hm & _).
    destruct (row_in_table t d l m b Hok Hm) as [<- _]. apply list_elem_of_fmap_2.
    apply list_elem_of_omap. exists (GetLcuuid m). rewrite elem_of_remove_dups, Hm. done.
Qed.

#[global] Instance store_laws : MysqlLaws.
Proof.
  refine {| table := store_table; up d := okb d = true |}.
  - intros t d l l' id b b' (Hok & m & Hm & <-)%store_table_lookup (_ & m' & Hm' & E)%store_table_lookup.
    apply okb_spec in Hok as [_ Hr]. destruct (Hr t) as [_ H2]. exact (H2 _ _ _ _ Hm Hm' (eq_sym E)).
  - intros t l d r d' (HT & Hu & [[Hok ->]|[Hok ->]])%ask_ok; (split; [done|split; [done|]]); [|congruence].
    destruct (contents d t !! l) as [[m b]|] eqn:Hm; cbn.
    + destruct (row_in_table t d l m b Hok Hm) as [<- Ht]. destruct b; [|done].
      intros _ [id Hl]. rewrite Ht in Hl. done.
    + intros _ [id (_ & m & Hm' & _)%store_table_lookup]. congruence.
  - intros t id d r d' (HT & Hu & [[Hok ->]|[Hok ->]])%ask_ok; (split; [done|split; [done|]]); [|done].
    intros m (HP & l & Hl)%find_row_in. destruct (row_in_table t d l m false Hok Hl) as [_ Ht].
    apply Z.eqb_eq in HP. by rewrite <- HP.
  - intros t id d r d' (HT & Hu & [[Hok ->]|[Hok ->]])%ask_ok; by split_and!.
  - intros t conds d r d' (HT & Hu & [[Hok ->]|[Hok ->]])%ask_ok; (split; [done|split; [done|]]); [|congruence].
    apply Forall_forall. intros m (l & Hl)%live_rows_in. by destruct (row_in_table t d l m false Hok Hl).
  - apply find_unscoped_ok.
  - intros t ls d r d' (HT & Hu & [[Hok ->]|[Hok ->]])%ask_ok; (split; [done|split; [done|]]); [done|congruence].
  - apply store_create_ok.
  - intros t l info d r d' (HT & Hu & [[Hok ->]|[Hok ->]])%ask_ok; (split; [done|split; [done|]]); [|congruence].
    by intros Hd%bool_decide_eq_false _.
  - intros t ls d r d'. apply tell_ok.
  - intros t m d r d'. apply tell_ok.
  - intros t ms d r d'. apply tell_ok.
  - done.
  - intros l d r d' (HT & Hu & _)%ask_ok. done.
  - done.
Defined.

(** * Maps and addresses *)

#[global] Instance store_GoMap : GoMap := fun A m => map_to_list m.

#[global] Instance store_GoMapLaws : GoMapLaws.
Proof. by intros A m. Qed.

(** Addresses that are kept as they are written. *)
#[global] Instance store_GoText : GoText := {|
  ParseIP _ := Some [];
  ParseCIDR cidr := if decide (cidr = "") then None else Some ([], []);
  IP_String _ := "0.0.0.0";
  ToLower s := s
|}.

(** * An example *)

Definition empty_store : Store := mkStore true (fun _ => ∅).

(** A machine with an interface to the outside and its address. *)
Definition example_cloud : Resource :=
  {| Resource_Verified := false; Resource_ErrorState := 1; Resource_ErrorMessage := "";
     Resource_SubDomains := []; Resource_Regions := [CloudModel.mkRegion "region" "" "r"]; Resource_AZs := [];
     Resource_Hosts := [];
     Resource_VMs := [CloudModel.mkVM "vm" "m" "" 1 4 "" 0 "vpc" "" "region"];
     Resource_VPCs := [CloudModel.mkVPC "vpc" "v" "" 0 "10.0.0.0/8" "region"];
     Resource_Networks := [CloudModel.mkNetwork "network" "n" "" 0 0 false false 4 "vpc" "" "region" ""];
     Resource_Subnets := []; Resource_VRouters := []; Resource_RoutingTables := []; Resource_DHCPPorts := [];
     Resource_SecurityGroups := []; Resource_SecurityGroupRules := []; Resource_VMSecurityGroups := [];
     Resource_NATGateways := []; Resource_NATRules := []; Resource_NATVMConnections := []; Resource_LBs := [];
     Resource_LBListeners := []; Resource_LBTargetServers := []; Resource_LBVMConnections := [];
     Resource_PeerConnections := []; Resource_CENs := []; Resource_RedisInstances := [];
     Resource_RDSInstances := []; Resource_ThirdPartyDevices := [];
     Resource_VInterfaces :=
       [CloudModel.mkVInterface "interface" "" 3 "00:00:00:00:00:01" "" "vm" 1 "network" "vpc" "region" ""];
     Resource_IPs := [CloudModel.mkIP "address" "interface" "1.2.3.4" "" "region" ""];
     Resource_FloatingIPs := []; Resource_PodClusters := []; Resource_PodNodes := [];
     Resource_VMPodNodeConnections := []; Resource_PodNamespaces := []; Resource_PodGroups := [];
     Resource_PodReplicaSets := []; Resource_Pods := []; Resource_PodServices := [];
     Resource_PodServicePorts := []; Resource_PodGroupPorts := []; Resource_PodIngresses := [];
     Resource_PodIngressRules := []; Resource_PodIngressRuleBackends := [];
     Resource_SubDomainResources := ∅ |}.

Definition example_sub : SubDomainResource :=
  {| SubDomainResource_Verified := true; SubDomainResource_ErrorState := 3;
     SubDomainResource_ErrorMessage := "timeout"; SubDomainResource_Networks := [];
     SubDomainResource_Subnets := []; SubDomainResource_VInterfaces := []; SubDomainResource_IPs := [];
     SubDomainResource_PodClusters := []; SubDomainResource_PodNodes := [];
     SubDomainResource_VMPodNodeConnections := []; SubDomainResource_PodNamespaces := [];
     SubDomainResource_PodIngresses := []; SubDomainResource_PodIngressRules := [];
     SubDomainResource_PodIngressRuleBackends := []; SubDomainResource_PodServices := [];
     SubDomainResource_PodServicePorts := []; SubDomainResource_PodGroups := [];
     SubDomainResource_PodGroupPorts := []; SubDomainResource_PodReplicaSets := [];
     SubDomainResource_Pods := [] |}.

Definition empty_world : World store_Mysql := mkWorld (NewCache "domain") empty_store [].

Lemma empty_up : okb empty_store = true.
Proof. vm_compute. reflexivity. Qed.

Lemma empty_entry t l : D t empty_world !! l = None.
Proof. apply lookup_empty. Qed.

Lemma empty_row t l : T t empty_world !! l = None.
Proof.
  change (store_table t empty_store !! l = None). unfold store_table. rewrite empty_up.
  change (contents empty_store t) with (∅ : gmap string (Model t * bool)). by rewrite fmap_empty, lookup_empty.
Qed.
