(* ===== verification/RecorderSpec.v ===== *)
(** What the recorder promises: theorems on [runNewRefreshWhole], [Cache.Refresh] and the
    refresh of a sub domain, each applied to the database of [RecorderStore.v]. *)
From stdpp Require Import base strings gmap.
From S2P Require Import Prelude CloudModel MysqlModel DiffBase RecorderCache Updater.
From S2P Require Import UpdaterResources Recorder CacheFacts UpdaterFacts ResourceFacts.
From S2P Require Import RecorderFacts RecorderRest RecorderStore.

#[local] Open Scope Z_scope.

Section Facts.
Context {DB : Mysql} {ML : MysqlLaws} {GM : GoMap} {GL : GoMapLaws} {GT : GoText}.

Implicit Types w : World DB.

(** * The order of the resources *)

Fixpoint orderedb (js : list Job) : bool :=
  match js with
  | [] => true
  | j :: js => forallb (fun t => negb (bool_decide (t ∈ tables_of js))) (job_uses j) && orderedb js
  end.

Lemma orderedb_ok js : orderedb js = true -> ordered js.
Proof.
  induction js as [|j js IH]; [done|]. cbn [orderedb ordered]. rewrite andb_true_iff, forallb_forall.
  intros [Hj Ho]. split; [|auto]. intros t Ht. specialize (Hj t).
  rewrite <- list_elem_of_In, negb_true_iff, bool_decide_eq_false in Hj. auto.
Qed.

Lemma domain_ordered cd : ordered (domain_jobs cd).
Proof. apply orderedb_ok. vm_compute. reflexivity. Qed.

Lemma sub_domain_ordered cd : ordered (sub_domain_jobs cd).
Proof. apply orderedb_ok. vm_compute. reflexivity. Qed.

(** * Worlds of the domain *)

Definition domain_world (r : RecorderWorld) : World DB :=
  mkWorld (DomainCache (r_manager r)) (r_db r) (r_sent r).

Definition with_domain (r : RecorderWorld) w : RecorderWorld :=
  mkRecorderWorld (mkCacheManager (w_cache w) (SubDomainCacheMap (r_manager r))) (w_db w) (w_sent w).

Lemma runs_on_domain {A} (m : M A) r Q :
  runs m (domain_world r) (fun a w => Q a (with_domain r w)) -> runs (on_domain m) r Q.
Proof. unfold runs, on_domain, domain_world. by destruct (m _) as [[a w]|]. Qed.

Lemma runs_on_db {A} (q : dbst -> A * dbst) r (Q : A -> RecorderWorld -> Prop) :
  (forall a d, q (r_db r) = (a, d) -> Q a (mkRecorderWorld (r_manager r) d (r_sent r))) -> runs (on_db q) r Q.
Proof. intros H. unfold runs, on_db. destruct (q (r_db r)) as [a d] eqn:E. by apply H. Qed.

(** The same cache and rows. *)
Record like w w' : Prop := mkLike {
  lk_cache : w_cache w' = w_cache w;
  lk_rows t : T t w' = T t w;
  lk_up : up (w_db w) -> up (w_db w')
}.

Lemma like_diffs t w w' : like w w' -> D t w' = D t w.
Proof. intros [E _ _]. unfold D. by rewrite E. Qed.

Lemma like_trans w w1 w' : like w w1 -> like w1 w' -> like w w'.
Proof. intros [] []. constructor; intros; try congruence; auto. Qed.

Lemma job_known_like j w w' : like w w' -> job_known j w -> job_known j w'.
Proof.
  intros Hl. pose proof (fun t => like_diffs t _ _ Hl) as HD. destruct j as [t CT DG GEN cloud|cloud]; cbn [job_known];
    intros Hk item Hi; unfold is_wan in *; rewrite !HD; auto.
Qed.

Lemma job_clean_like j w w' : like w w' -> job_clean j w -> job_clean j w'.
Proof.
  intros Hl. pose proof (fun t => like_diffs t _ _ Hl) as HD. pose proof (lk_rows _ _ Hl) as HT.
  destruct j as [t CT DG GEN cloud|cloud]; cbn [job_clean]; unfold no_stray; by rewrite !HD, !HT.
Qed.

Lemma steady_like n js w w' : like w w' -> steady n js w -> steady n js w'.
Proof.
  intros Hl [Hu Hs Hp Ha]. pose proof (fun t => like_diffs t _ _ Hl) as HD. pose proof (lk_rows _ _ Hl) as HT. constructor.
  - by apply (lk_up _ _ Hl).
  - intros t l b. rewrite HD, HT. apply Hs.
  - destruct Hp as (H1 & H2 & H3). unfold past. rewrite (lk_cache _ _ Hl). split_and!; [done..|].
    intros t l b. rewrite HD. apply H3.
  - eapply Forall_impl; [exact Ha|]. intros j [?|?]; [left; by eapply job_clean_like|right; by eapply job_known_like].
Qed.


Lemma job_settled_like j w w' : like w w' -> job_settled j w -> job_settled j w'.
Proof.
  intros Hl. pose proof (fun t => like_diffs t _ _ Hl) as HD. destruct j as [t CT DG GEN cloud|cloud]; cbn [job_settled];
    intros Hk item Hi; unfold is_wan, settled in *; rewrite !HD; auto.
Qed.

Lemma job_covered_like j w w' : like w w' -> job_covered j w -> job_covered j w'.
Proof.
  intros Hl. pose proof (fun t => like_diffs t _ _ Hl) as HD. destruct j as [t CT DG GEN cloud|cloud]; cbn [job_covered];
    unfold is_wan; by rewrite !HD.
Qed.

(** * A refresh of the domain *)

(** Cloud data that [checkCloudData] takes if the domain is in the database. *)
Definition plausible (cd : Resource) : Prop :=
  (Resource_Verified cd
   || (negb (bool_decide (Resource_Networks cd = []) || bool_decide (Resource_VInterfaces cd = []))
       && negb (bool_decide (Resource_VMs cd = []) && bool_decide (Resource_Pods cd = [])))) = true.

(** The database has the domain. *)
Definition has_domain (domainLcuuid : string) : Prop :=
  forall d, up d -> is_Some (find_Domain domainLcuuid d).1.

Lemma syncDomain_ok now l cd r :
  up (r_db r) -> has_domain l ->
  runs (syncDomain now l cd) r (fun _ r' => r_manager r' = r_manager r /\ like (domain_world r) (domain_world r') /\
    exists domain, r_sent r' = r_sent r ++ [SSaveDomain (synced_Domain now cd domain)]).
Proof.
  intros Hup Hd. unfold syncDomain. apply runs_bind, runs_on_db. intros o d E. destruct (find_Domain_law _ _ _ _ E) as [HT Hu].
  pose proof (Hd _ Hup) as [dm Ed]. rewrite E in Ed. cbn in Ed. subst o. cbv zeta.
  unfold runs, on_db_save. cbn [r_db r_manager r_sent].
  destruct (save_Domain_law (synced_Domain now cd dm) d) as [HT' Hu'].
  split; [done|]. split; [|by exists dm]. constructor; [done..| |by intros; apply Hu', Hu].
  intros t. unfold T. cbn. by rewrite HT'.
Qed.

Lemma range_empty {A} : range_map (∅ : gmap string A) = [].
Proof. apply Permutation_nil. by rewrite range_perm, map_to_list_empty. Qed.

(** [runNewRefreshWhole] without sub domains is [refresh_domain] with the next number. *)
Lemma whole_runs now l cd r Q :
  up (r_db r) -> has_domain l -> plausible cd -> Resource_SubDomainResources cd = ∅ ->
  (forall w domain, like (domain_world r) w ->
     w_sent w = r_sent r ++ [SSaveDomain (synced_Domain now cd domain)] ->
     runs (refresh_domain (updater_of <$> domain_jobs cd)) (bump w) (fun _ w' => forall r', domain_world r' = w' -> Q r')) ->
  runs (runNewRefreshWhole now l cd) r (fun _ r' => Q r').
Proof.
  intros Hu Hd Hp Hsub HQ. unfold runNewRefreshWhole, checkCloudData.
  apply runs_bind, runs_bind, runs_on_db. intros o d E. destruct (find_Domain_law _ _ _ _ E) as [HT Hud].
  pose proof (Hd _ Hu) as [dm Ed]. rewrite E in Ed. cbn in Ed. subst o. apply runs_ret. rewrite Hp.
  apply runs_bind, runs_modify, runs_bind. eapply runs_mono; [apply syncDomain_ok; [by apply Hud|done]|].
  intros [] r2 (Em & Hl & domain & Es). cbn [r_manager r_db r_sent] in *. apply runs_bind, runs_on_domain.
  rewrite Hsub, range_empty, domain_updaters.
  assert (exists w, like (domain_world r) w /\ domain_world r2 = bump w /\ w_sent w = r_sent r2) as (w & Hw & Ew & Ews).
  { exists (mkWorld (DomainCache (r_manager r)) (r_db r2) (r_sent r2)). destruct Hl as [Ec Er Eu].
    split; [|split; [unfold domain_world, bump; cbn; by rewrite Em|done]].
    constructor; [done| |intros; by apply Eu, Hud]. intros t. specialize (Er t). unfold T in *. cbn in *. by rewrite Er. }
  rewrite Ew. eapply runs_mono; [apply (HQ w domain); [done|by rewrite Ews]|]. intros [] w' HQ'. apply runs_ret. apply HQ'. by destruct w'.
Qed.

(** * The cache *)

Lemma sound_adds js w :
  Forall job_distinct js -> cache_sound w ->
  runs (for_each (fun j => handle_add (updater_of j)) js) w (fun _ w' => cache_sound w').
Proof.
  intros Hd Hs. apply for_each_keeps; [|done]. intros j v Hj. apply sound_add.
  by apply (proj1 (Forall_forall _ _) Hd).
Qed.

(** C9: whatever the database answers, a refresh of a domain or of a sub domain runs to its
    end, and afterwards every entry of the cache is that of its identifier and, unless it is a
    connection between a virtual machine and a container node, has a live row, if this was
    so before and no identifier comes twice among the items of one resource in the
    cloud data.  The rows of such connections are excepted because [DeleteBatch] of virtual
    machines and of container nodes deletes them behind the cache. *)
Theorem recorder_cache_sound cd sub w :
  cache_sound w -> Forall job_distinct (domain_jobs cd) -> Forall job_distinct (sub_domain_jobs sub) ->
  runs (refresh_domain (getDomainUpdatersInOrder cd)) w (fun _ w' => cache_sound w') /\
  runs (refresh_sub_domain (getSubDomainUpdatersInOrder sub)) w (fun _ w' => cache_sound w').
Proof.
  intros Hs Hd Hd'. rewrite domain_updaters, sub_domain_updaters. split.
  - apply refresh_domain_runs; [done|]. eapply runs_mono; [by apply sound_adds|]. intros [] w1 Hs1.
    apply for_each_keeps; [|done]. intros j v _. apply sound_delete.
  - unfold refresh_sub_domain. apply runs_bind. eapply runs_mono; [by apply for_each_fmap, sound_adds|].
    intros [] w1 Hs1. rewrite <- fmap_take, <- fmap_reverse. apply for_each_fmap, for_each_keeps; [|done].
    intros j v _. apply sound_delete.
Qed.

(** * Refreshes *)

(** What is asked of the cloud data: no identifier twice, every reference to an item before
    it in the order of creation, no sub domains, no networks of clouds (CEN). *)
Record proper (cd : Resource) : Prop := mkProper {
  pr_plausible : plausible cd;
  pr_distinct : Forall job_distinct (domain_jobs cd);
  pr_closed : closed [] [] (domain_jobs cd);
  pr_alone : Resource_SubDomainResources cd = ∅;
  pr_cens : Resource_CENs cd = []
}.



(** C7: refreshes come to rest.  Of three refreshes with the same cloud data, under the
    conditions of a refresh that leaves what the cloud data says, the third one sends a
    single statement, the [Save] of the row of the domain with the time and the state of the
    refresh, and it adds, updates and deletes no row of a resource: every table
    has the same identifiers, and soft deletions, as before. *)
Theorem recorder_comes_to_rest now1 now2 now3 l cd r :
  has_domain l -> proper cd -> steady 3 (domain_jobs cd) (domain_world r) ->
  runs (runNewRefreshWhole now1 l cd ;; runNewRefreshWhole now2 l cd) r (fun _ r2 =>
    runs (runNewRefreshWhole now3 l cd) r2 (fun _ r3 =>
      (exists domain, r_sent r3 = r_sent r2 ++ [SSaveDomain (synced_Domain now3 cd domain)]) /\
      forall t, T t (domain_world r3) = T t (domain_world r2))).
Proof.
  intros Hd [Hp Hdi Hcl Hsub _] Hst. pose proof (domain_ordered cd) as Ho. apply runs_bind.
  apply whole_runs; [apply Hst|done..|]. intros w dm Hw _.
  eapply runs_mono; [apply (refresh_round_ok 2); try done; by eapply steady_like|].
  intros [] w1 [Hst1 Hex1] r1 E1. rewrite <- E1 in Hst1, Hex1.
  apply whole_runs; [apply Hst1|done..|]. intros w1' dm1 Hw1 _.
  eapply runs_mono; [apply (refresh_round_ok 1); try done; by eapply steady_like|].
  intros [] w2 [Hst2 Hex2] r2 E2. rewrite <- E2 in Hst2, Hex2. rewrite !Forall_forall in Hex1, Hex2.
  apply (whole_runs _ _ _ _ (fun r3 =>
      (exists domain, r_sent r3 = r_sent r2 ++ [SSaveDomain (synced_Domain now3 cd domain)]) /\
      forall t, T t (domain_world r3) = T t (domain_world r2))); [apply Hst2|done..|].
  intros w2' dm2 Hw2 Es2. eapply runs_mono; [apply refresh_idle; try done|].
  - apply Forall_forall. intros j Hj. apply job_settled_bump, (job_settled_like _ _ _ Hw2).
    eapply job_updates_settled; [|by apply Hex2]. apply job_known_bump, (job_known_like _ _ _ Hw1).
    eapply job_exact_known. by apply Hex1.
  - apply Forall_forall. intros j Hj. apply job_covered_bump, (job_covered_like _ _ _ Hw2).
    eapply job_exact_covered. by apply Hex2.
  - intros [] w3 Hi r3 E3. split.
    + exists dm2. transitivity (w_sent (domain_world r3)); [done|]. by rewrite E3, (id_sent _ _ Hi).
    + intros t. rewrite E3, (id_rows _ _ Hi). apply (lk_rows _ _ Hw2).
Qed.

(** * The cache is rebuilt *)

(** The rows and statements are those of [w0], and every entry is fresh. *)
Record rebuilding (w0 w : World DB) : Prop := mkRebuilding {
  rb_keeps : keeps w0 w;
  rb_rows t : T t w = T t w0;
  rb_sent : w_sent w = w_sent w0;
  rb_fresh t l : is_Some (D t w !! l) -> fresh t w l
}.

Definition rebuilds {A} (m : M A) : Prop :=
  forall w0 w, rebuilding w0 w -> runs m w (fun _ w' => rebuilding w0 w').

Lemma rebuilds_ret {A} (a : A) : rebuilds (mret a).
Proof. intros w0 w H. by apply runs_ret. Qed.

Lemma rebuilds_bind {A B} (m : M A) (k : A -> M B) :
  rebuilds m -> (forall a, rebuilds (k a)) -> rebuilds (m ≫= k).
Proof. intros Hm Hk w0 w H. apply runs_bind. eapply runs_mono; [by apply Hm|]. intros a w'. apply Hk. Qed.

Lemma rebuilds_cache {A} (k : Cache -> M A) : (forall c, rebuilds (k c)) -> rebuilds (get_cache ≫= k).
Proof. intros Hk w0 w H. apply runs_bind, runs_get_cache. by apply Hk. Qed.

Lemma rebuilding_quiet w0 w w' : rebuilding w0 w -> quiet w w' -> rebuilding w0 w'.
Proof.
  intros [K R S F] Hq. constructor.
  - etransitivity; [exact K|apply Hq].
  - intros t. by rewrite (q_rows _ _ Hq).
  - by rewrite (q_sent _ _ Hq).
  - intros t l. rewrite (q_diffs _ _ Hq). intros Hs. eapply (fresh_phase no_table t t []); [by apply quiet_phase|set_solver|by intros|auto].
Qed.

Lemma rebuilding_add {t} (item : Model t) w0 w :
  rebuilding w0 w -> live (T t w0) (GetLcuuid item) -> runs (AddItem item) w (fun _ w' => rebuilding w0 w').
Proof.
  intros [K R S F] Hl. eapply runs_mono; [apply AddItem_ok|]. intros [] w' (b & Eb & Ht). cbn [DiffBase_Lcuuid] in Ht.
  constructor.
  - etransitivity; [exact K|apply Ht].
  - intros t'. by rewrite (to_rows _ _ _ _ Ht).
  - by rewrite (to_sent _ _ _ _ Ht).
  - intros t' l Hs. assert (phase no_table t [GetLcuuid item] w w') as Hp.
    { eapply touches_phase; [|exact Ht]. intros m k Hk. apply lookup_insert_ne. set_solver. }
    destruct (decide (t' = t)) as [->|Hne].
    + destruct (decide (l = GetLcuuid item)) as [->|Hl'].
      * exists b. rewrite (to_diffs _ _ _ _ Ht), lookup_insert_eq, (to_rows _ _ _ _ Ht), R.
        by rewrite (k_sequence _ _ (to_keeps _ _ _ _ Ht)).
      * rewrite (ph_diff_at _ _ _ _ _ Hp) in Hs by set_solver.
        eapply fresh_phase; [exact Hp|set_solver|by intros|auto].
    + rewrite (ph_diffs _ _ _ _ _ Hp) in Hs by done. eapply fresh_phase; [exact Hp|done|by intros _ []|auto].
Qed.

Lemma rebuilds_find t conds {A} (k : option (list (Model t)) -> M A) :
  (forall o w0 w, rebuilding w0 w -> (forall ms m, o = Some ms -> m ∈ ms -> live (T t w0) (GetLcuuid m)) ->
     runs (k o) w (fun _ w' => rebuilding w0 w')) ->
  rebuilds (query (find_where t conds) ≫= k).
Proof.
  intros Hk w0 w H. apply runs_bind, runs_query. intros o d E. destruct (find_where_law _ _ _ _ _ E) as (HT & Hu & Hr).
  apply Hk; [eapply rebuilding_quiet; [exact H|by apply quiet_query]|]. intros ms m -> Hm.
  rewrite Forall_forall in Hr. rewrite <- (rb_rows _ _ H). exists (GetID m). by apply Hr.
Qed.

Lemma rebuilds_adds {t} (ms : list (Model t)) w0 w :
  rebuilding w0 w -> (forall m, m ∈ ms -> live (T t w0) (GetLcuuid m)) ->
  runs (for_each AddItem ms) w (fun _ w' => rebuilding w0 w').
Proof. intros H Hl. apply for_each_keeps; [|done]. intros m v Hm Hv. apply rebuilding_add; auto. Qed.

Lemma rebuilds_where t conds : rebuilds (refresh_where t conds).
Proof.
  apply rebuilds_cache. intros c. apply rebuilds_find. intros [ms|] w0 w H Hl; [|by apply runs_ret].
  apply runs_bind. eapply runs_mono; [apply rebuilds_adds; eauto|]. intros [] w' H'. by apply runs_ret.
Qed.

Lemma rebuilds_refresh t conds : rebuilds (refresh t conds).
Proof. apply rebuilds_bind; [apply rebuilds_where|]. intros. apply rebuilds_ret. Qed.

Lemma rebuilds_regions : rebuilds refreshRegions.
Proof.
  apply rebuilds_cache. intros c. apply (rebuilds_find TAZ). intros [azs|] w0 w H _; [by apply rebuilds_refresh|by apply runs_ret].
Qed.

Lemma rebuilds_networks : rebuilds refreshNetworks.
Proof.
  apply rebuilds_cache. intros c. apply (rebuilds_find TNetwork). intros [ns|] w0 w H Hl; [|by apply runs_ret].
  apply runs_bind. eapply runs_mono; [apply rebuilds_adds; eauto|]. intros [] w1 H1.
  apply runs_bind, runs_query. intros o d E. destruct (find_lcuuid_law TNetwork _ _ _ _ E) as (HT & Hu & _).
  assert (rebuilding w0 (mkWorld (w_cache w1) d (w_sent w1))) as H2.
  { eapply rebuilding_quiet; [exact H1|by apply quiet_query]. }
  destruct o as [m|]; [|by apply runs_ret].
  apply runs_bind, runs_on_cache, runs_ret. eapply rebuilding_quiet; [exact H2|]. apply (quiet_tool (mkWorld _ _ _)).
Qed.

Lemma rebuilds_some (ids : list Z) m : rebuilds m -> rebuilds (if decide (ids = []) then mret tt else m).
Proof. intros Hm. destruct (decide _); [apply rebuilds_ret|done]. Qed.

Lemma no_entry t l s dom sub tool d sent :
  D t (mkWorld (mkCache s dom sub NewDiffBaseDataSet tool) d sent) !! l = None.
Proof. apply lookup_empty. Qed.

(** C18: [Cache.Refresh] rebuilds the cache from the rows: it changes no row and sends no
    statement, and every entry that the cache has afterwards is that of a live row, with the
    current sequence number, whether the database answers or not. *)
Theorem cache_rebuilt w :
  runs Cache_Refresh w (fun _ w' =>
    (forall t, T t w' = T t w) /\ w_sent w' = w_sent w /\
    forall t l, is_Some (D t w' !! l) -> fresh t w' l).
Proof.
  unfold Cache_Refresh. apply runs_bind, runs_on_cache. set (w1 := mkWorld _ _ _).
  assert (rebuilding w w1) as H1.
  { constructor; [by constructor|done|done|]. intros t l [b Hb]. unfold w1 in Hb. by rewrite no_entry in Hb. }
  eapply (runs_mono _ _ (fun _ w' => rebuilding w w')); [|intros [] w' [_ HT HS HF]; auto].
  refine ((_ : rebuilds _) w w1 H1).
  repeat lazymatch goal with
    | |- rebuilds (get_cache ≫= _) => apply rebuilds_cache; intros ?
    | |- rebuilds (_ ≫= _) => apply rebuilds_bind; [|intros ?]
    | |- rebuilds (mret _) => apply rebuilds_ret
    | |- rebuilds refreshRegions => apply rebuilds_regions
    | |- rebuilds refreshNetworks => apply rebuilds_networks
    | |- rebuilds (if _ then _ else _) => case_match
    | |- rebuilds _ => first [apply rebuilds_refresh | apply rebuilds_where | apply rebuilds_some, rebuilds_refresh]
    end.
Qed.

End Facts.

(** * The example *)

Definition example_start : RecorderWorld :=
  mkRecorderWorld (mkCacheManager (NewCache "domain") ∅) empty_store [].

Lemma example_has_domain : has_domain "domain".
Proof. intros d Hd. cbn in *. unfold ask. rewrite Hd. eauto. Qed.

Lemma example_steady n js : 0 <= n <= 3 -> steady n js (domain_world example_start).
Proof.
  intros Hn. change (domain_world example_start) with empty_world. constructor.
  - exact empty_up.
  - intros t l b Hb. by rewrite empty_entry in Hb.
  - split_and!; [|done|]; [cbn; ranges; lia|]. intros t l b Hb. by rewrite empty_entry in Hb.
  - apply Forall_forall. intros j _. left. destruct j as [t CT DG GEN cloud|cloud]; cbn [job_clean].
    + intros _ l _ _. apply empty_row.
    + split; intros _ l _ _; apply empty_row.
Qed.

Lemma example_distinct : Forall job_distinct (domain_jobs example_cloud).
Proof. repeat constructor; cbn; set_solver. Qed.

Lemma example_sub_distinct : Forall job_distinct (sub_domain_jobs example_sub).
Proof. repeat constructor; cbn; set_solver. Qed.

Lemma closed_cons `{MysqlLaws} R F F' j js :
  job_ready R F j -> F ++ job_rows j = F' -> closed R F' js -> closed R F (j :: js).
Proof. by intros ? <-. Qed.

Ltac close_job :=
  eapply closed_cons;
  [ intros item Hi; cbn in Hi;
    repeat (apply elem_of_cons in Hi as [-> | Hi]; [first [split; [by eauto|]; cbn; set_solver | cbn; set_solver]|]);
    by apply elem_of_nil in Hi
  | vm_compute; reflexivity |].

Lemma example_proper : proper example_cloud.
Proof.
  constructor; [reflexivity|apply example_distinct| |reflexivity|reflexivity]. unfold domain_jobs.
  repeat close_job. exact I.
Qed.


(** The example comes to rest. *)
Lemma recorder_comes_to_rest_witness :
  runs (runNewRefreshWhole 7 "domain" example_cloud ;; runNewRefreshWhole 8 "domain" example_cloud) example_start
    (fun _ r2 => runs (runNewRefreshWhole 9 "domain" example_cloud) r2 (fun _ r3 =>
       (exists domain, r_sent r3 = r_sent r2 ++ [SSaveDomain (synced_Domain 9 example_cloud domain)]) /\
       forall t, T t (domain_world r3) = T t (domain_world r2))).
Proof.
  apply (recorder_comes_to_rest 7 8 9 "domain" example_cloud example_start);
    [apply example_has_domain|apply example_proper|].
  apply example_steady. lia.
Defined.

(** Also with a database that does not answer. *)
Definition down_world : World store_Mysql := mkWorld (NewCache "domain") (mkStore false (fun _ => ∅)) [].

Lemma recorder_cache_sound_witness :
  runs (refresh_domain (getDomainUpdatersInOrder example_cloud)) down_world (fun _ w' => cache_sound w') /\
  runs (refresh_sub_domain (getSubDomainUpdatersInOrder example_sub)) down_world (fun _ w' => cache_sound w').
Proof.
  apply (recorder_cache_sound example_cloud example_sub down_world).
  - intros t l b Hb. unfold down_world, NewCache in Hb. by rewrite no_entry in Hb.
  - apply example_distinct.
  - apply example_sub_distinct.
Defined.

(** The cache of an empty database is empty. *)
Lemma cache_rebuilt_witness :
  runs Cache_Refresh empty_world (fun _ w' =>
    (forall t, T t w' = T t empty_world) /\ w_sent w' = w_sent empty_world /\
    forall t l, is_Some (D t w' !! l) -> fresh t w' l).
Proof. apply (cache_rebuilt empty_world). Defined.
