(* ===== verification/RecorderSub.v ===== *)
(** The refresh of a sub domain: what it does not delete, and the state of a domain. *)
From stdpp Require Import base strings gmap.
From S2P Require Import Prelude CloudModel MysqlModel DiffBase RecorderCache Updater.
From S2P Require Import UpdaterResources Recorder CacheFacts UpdaterFacts ResourceFacts.
From S2P Require Import RecorderFacts RecorderRest RecorderStore RecorderSpec.

#[local] Open Scope Z_scope.

Section Facts.
Context {DB : Mysql} {ML : MysqlLaws} {GM : GoMap} {GL : GoMapLaws} {GT : GoText}.

Implicit Types w : World DB.

(** * Connections *)

(** The entry and the row of an identifier stay as they are. *)
Definition stays (t : Table) (l : string) w w' : Prop := D t w' !! l = D t w !! l /\ T t w' !! l = T t w !! l.

(** Only entries of [L] are left in a table; none of them is older than this refresh. *)
Definition only (t : Table) (L : list string) w : Prop := forall l, is_Some (D t w !! l) -> l ∈ L.

Definition none_stale (t : Table) w : Prop := forall l, ~ stale t w l.

Lemma phase_stays A t t' L l w w' : phase A t' L w w' -> (t = t' -> l ∉ L) -> (t <> t' -> ~ A t) -> stays t l w w'.
Proof.
  intros Hp Hl HA. destruct (decide (t = t')) as [->|Hne].
  - split; apply Hp; auto.
  - split; [by rewrite (ph_diffs _ _ _ _ _ Hp)|by rewrite (ph_rows _ _ _ _ _ Hp) by auto].
Qed.

Lemma phase_none_stale A t t' L w w' : phase A t' L w w' -> t <> t' -> none_stale t w -> none_stale t w'.
Proof.
  intros Hp Hne Hn l (b & Hb & Hs). apply (Hn l). exists b.
  by rewrite <- (ph_diffs _ _ _ _ _ Hp), <- (k_sequence _ _ (ph_keeps _ _ _ _ _ Hp)).
Qed.

Lemma updated_none_stale {t CT} {DG : DataGenerator t CT} {GEN : GeneratorLaws t CT} (cloud : list CT) w w' :
  updated cloud w w' -> only t (cloud_Lcuuid <$> cloud) w -> none_stale t w'.
Proof.
  intros [Hp Hk Hn _ _] Ho l (b & Hb & Hs). destruct (D t w !! l) as [b0|] eqn:Hb0.
  - destruct (Hk l b0) as [(b' & Hb' & E & _) _]; [by apply Ho; rewrite Hb0|done|]. simplify_eq.
    apply Hs. unfold GetSequence. by rewrite E.
  - destruct (decide (l ∈ cloud_Lcuuid <$> cloud)) as [Hl|Hl]; [|by rewrite (ph_diff_at _ _ _ _ _ Hp), Hb0 in Hb].
    destruct (Hn l Hl Hb0) as [|(b' & Hb' & E & _)]; simplify_eq. apply Hs. unfold GetSequence. by rewrite E.
Qed.

(** What a job leaves of another table, or of an identifier that it does not have. *)
Definition job_leaves (t : Table) (l : string) (j : Job) : Prop :=
  match j with
  | JTable t' cloud => t = t' -> l ∉ cloud_Lcuuid <$> cloud
  | JIP _ => t <> TWANIP /\ t <> TLANIP
  end.

Lemma add_leaves t l w0 j w :
  job_distinct j -> job_leaves t l j -> stays t l w0 w -> runs (handle_add (updater_of j)) w (fun _ w' => stays t l w0 w').
Proof.
  intros Hnd Hl [H1 H2].
  assert (forall t' CT (DG : DataGenerator t' CT) (GEN : GeneratorLaws t' CT) (cloud : list CT) v v',
    updated cloud v v' -> (t = t' -> l ∉ cloud_Lcuuid <$> cloud) -> stays t l w0 v -> stays t l w0 v') as Hu.
  { intros t' CT DG GEN cloud v v' [Hp _ _ _ _] Hl' [G1 G2]. destruct (phase_stays _ _ _ _ l _ _ Hp Hl') as [E1 E2]; [by intros _ []|].
    split; congruence. }
  destruct j as [t' CT DG GEN cloud|cloud].
  - eapply runs_mono; [by apply HandleAddAndUpdate_ok|]. intros [] w' Hup. by refine (Hu _ _ _ _ _ _ _ Hup _ _).
  - destruct Hl as [Hl1 Hl2]. cbn [updater_of handle_add NewIP]. unfold IP_HandleAddAndUpdate. apply runs_bind, runs_get_cache.
    destruct (split_distinct (w_cache w) cloud Hnd) as [Hn1 Hn2]. destruct (splitToWANAndLAN _ _) as [wan lan].
    apply runs_bind. eapply runs_mono; [by apply HandleAddAndUpdate_ok|]. intros [] w1 Hup1.
    eapply runs_mono; [by apply HandleAddAndUpdate_ok|]. intros [] w' Hup2.
    refine (Hu _ _ _ _ _ _ _ Hup2 _ _); [done|]. by refine (Hu _ _ _ _ _ _ _ Hup1 _ _).
Qed.

Lemma add_none_stale t j w :
  job_distinct j -> t ∉ job_tables j -> none_stale t w -> runs (handle_add (updater_of j)) w (fun _ w' => none_stale t w').
Proof.
  intros Hnd Ht Hs. destruct j as [t' CT DG GEN cloud|cloud]; cbn [job_tables] in Ht.
  - eapply runs_mono; [by apply HandleAddAndUpdate_ok|]. intros [] w' Hup.
    eapply phase_none_stale; [apply Hup|set_solver|done].
  - cbn [updater_of handle_add NewIP]. unfold IP_HandleAddAndUpdate. apply runs_bind, runs_get_cache.
    destruct (split_distinct (w_cache w) cloud Hnd) as [Hn1 Hn2]. destruct (splitToWANAndLAN _ _) as [wan lan].
    apply runs_bind. eapply runs_mono; [by apply HandleAddAndUpdate_ok|]. intros [] w1 Hup1.
    eapply runs_mono; [by apply HandleAddAndUpdate_ok|]. intros [] w' Hup2.
    eapply phase_none_stale; [apply Hup2|set_solver|]. eapply phase_none_stale; [apply Hup1|set_solver|done].
Qed.

Lemma HandleDelete_entry t l b t' w :
  t <> t' -> D t w !! l = Some b -> runs (HandleDelete (t := t')) w (fun _ w' => D t w' !! l = Some b).
Proof.
  intros Hne Hb. eapply runs_mono; [apply HandleDelete_ok|]. intros [] w' (L & _ & Hp & _).
  by rewrite (ph_diffs _ _ _ _ _ Hp).
Qed.

Lemma delete_entry t l b j w :
  t ∉ job_tables j -> D t w !! l = Some b ->
  runs (handle_delete (updater_of j)) w (fun _ w' => D t w' !! l = Some b).
Proof.
  destruct j as [t' CT DG GEN cloud|cloud]; cbn [job_tables updater_of handle_delete NewUpdater NewIP]; intros Ht Hb.
  - apply HandleDelete_entry; [set_solver|done].
  - unfold IP_HandleDelete. apply runs_bind.
    eapply runs_mono; [apply HandleDelete_entry; [|exact Hb]; set_solver|]. intros [] w1 Hb1.
    apply HandleDelete_entry; [set_solver|done].
Qed.

(** A connection stays while no node goes. *)
Definition connected_still l w0 w : Prop := stays TVMPodNodeConnection l w0 w /\ none_stale TPodNode w.

Lemma HandleDelete_still l w0 t' w :
  t' <> TVMPodNodeConnection -> t' <> TVM -> connected_still l w0 w ->
  runs (HandleDelete (t := t')) w (fun _ w' => connected_still l w0 w').
Proof.
  intros H1 H2 [[Hb Hr] Hn]. destruct (decide (t' = TPodNode)) as [->|H3].
  - eapply runs_mono; [by apply HandleDelete_none|]. by intros [] w' ->.
  - eapply runs_mono; [apply HandleDelete_ok|]. intros [] w' (L & _ & Hp & _).
    split; [|by eapply phase_none_stale].
    destruct (phase_stays _ TVMPodNodeConnection _ _ l _ _ Hp) as [E1 E2]; [done|by intros _ [[|] _]|].
    split; congruence.
Qed.

Lemma delete_still l w0 j w :
  TVMPodNodeConnection ∉ job_tables j -> TVM ∉ job_tables j -> connected_still l w0 w ->
  runs (handle_delete (updater_of j)) w (fun _ w' => connected_still l w0 w').
Proof.
  destruct j as [t' CT DG GEN cloud|cloud]; cbn [job_tables updater_of handle_delete NewUpdater NewIP]; intros H1 H2 Hs.
  - apply HandleDelete_still; [set_solver..|done].
  - unfold IP_HandleDelete. apply runs_bind. eapply runs_mono; [by apply HandleDelete_still|].
    intros [] w1 Hs1. by apply HandleDelete_still.
Qed.

Lemma runs_and_if {A} (m : M A) w Q (H : Prop) Q' :
  runs m w (fun _ w' => Q w') -> (H -> runs m w (fun _ w' => Q' w')) -> runs m w (fun _ w' => Q w' /\ (H -> Q' w')).
Proof. unfold runs. destruct (m w) as [[a w']|]; auto. Qed.

Lemma runs_for_each_cons {A} (f : A -> M unit) x xs w Q :
  runs (f x) w (fun _ w' => runs (for_each f xs) w' Q) -> runs (for_each f (x :: xs)) w Q.
Proof. intros H. apply runs_bind. eapply runs_mono; [exact H|]. by intros [] w'. Qed.

Ltac each_job Hj := cbn in Hj;
  repeat (apply elem_of_cons in Hj as [-> | Hj]; [first [done|by intros _|set_solver]|]); by apply elem_of_nil in Hj.

(** The additions of a sub domain. *)
Lemma sub_domain_adds_leave sub l w :
  Forall job_distinct (sub_domain_jobs sub) ->
  l ∉ CloudModel.VMPodNodeConnection_Lcuuid <$> SubDomainResource_VMPodNodeConnections sub ->
  runs (for_each (fun j => handle_add (updater_of j)) (sub_domain_jobs sub)) w
    (fun _ w' => stays TVMPodNodeConnection l w w').
Proof.
  intros Hd Hl. apply (for_each_keeps _ (stays TVMPodNodeConnection l w)); [|done].
  intros j v Hj. apply add_leaves; [by apply (proj1 (Forall_forall _ _) Hd)|]. clear Hd. each_job Hj.
Qed.

Lemma sub_domain_adds_nodes sub w :
  Forall job_distinct (sub_domain_jobs sub) ->
  only TPodNode (CloudModel.PodNode_Lcuuid <$> SubDomainResource_PodNodes sub) w ->
  runs (for_each (fun j => handle_add (updater_of j)) (sub_domain_jobs sub)) w (fun _ w' => none_stale TPodNode w').
Proof.
  intros Hd Ho. unfold sub_domain_jobs in *. apply Forall_cons in Hd as [Hd1 Hd]. apply Forall_cons in Hd as [Hd2 Hd].
  apply runs_for_each_cons. eapply runs_mono; [by apply HandleAddAndUpdate_ok|]. intros [] w1 Hu1.
  apply runs_for_each_cons. eapply runs_mono; [by apply HandleAddAndUpdate_ok|]. intros [] w2 Hu2.
  apply for_each_keeps.
  - intros j v Hj. apply add_none_stale; [by apply (proj1 (Forall_forall _ _) Hd)|]. clear -Hj. each_job Hj.
  - eapply updated_none_stale; [exact Hu2|]. intros k. rewrite (ph_diffs _ _ _ _ _ (up_phase _ _ _ Hu1)) by done. apply Ho.
Qed.

(** C39: the refresh of a sub domain does not delete the connections between virtual machines
    and container nodes that the cloud data no longer has, for the loop over the deletions
    starts at the last but one updater, and the connections are the last one.  If no
    identifier comes twice among the items of one resource, the entry of such a connection stays in
    the cache with its old sequence number; and if no container node goes either, that
    is if all nodes of the cache are in the cloud data, its row stays as it is. *)
Theorem sub_domain_connections_stay sub w l b :
  Forall job_distinct (sub_domain_jobs sub) ->
  l ∉ CloudModel.VMPodNodeConnection_Lcuuid <$> SubDomainResource_VMPodNodeConnections sub ->
  D TVMPodNodeConnection w !! l = Some b ->
  runs (refresh_sub_domain (getSubDomainUpdatersInOrder sub)) w (fun _ w' =>
    D TVMPodNodeConnection w' !! l = Some b /\
    (only TPodNode (CloudModel.PodNode_Lcuuid <$> SubDomainResource_PodNodes sub) w ->
     T TVMPodNodeConnection w' !! l = T TVMPodNodeConnection w !! l)).
Proof.
  intros Hd Hl Hb. rewrite sub_domain_updaters. unfold refresh_sub_domain. rewrite <- fmap_take, <- fmap_reverse.
  apply (runs_and_if _ _ (fun w' => D TVMPodNodeConnection w' !! l = Some b)).
  - apply runs_bind. eapply runs_mono; [by apply for_each_fmap, sub_domain_adds_leave|]. intros [] w1 [Hb1 _].
    apply for_each_fmap, (for_each_keeps _ (fun v => D TVMPodNodeConnection v !! l = Some b)); [|congruence].
    intros j v Hj. apply delete_entry. clear -Hj. each_job Hj.
  - intros Ho. apply runs_bind. eapply runs_mono.
    { apply runs_and; apply for_each_fmap; [by apply sub_domain_adds_leave|by apply sub_domain_adds_nodes]. }
    intros [] w1 [Hs Hn]. eapply (runs_mono _ _ (fun _ w' => connected_still l w w')); [|by intros [] w' [[_ Hr] _]].
    apply for_each_fmap, (for_each_keeps _ (connected_still l w)); [|by split].
    intros j v Hj. apply delete_still; clear -Hj; each_job Hj.
Qed.

(** * A sub domain without a cache *)

(** All entries are from this refresh. *)
Definition all_now w : Prop := forall t l b, D t w !! l = Some b -> GetSequence b = Sequence (w_cache w).

Lemma updated_now {t CT} {DG : DataGenerator t CT} {GEN : GeneratorLaws t CT} (cloud : list CT) w w' :
  updated cloud w w' -> all_now w -> all_now w'.
Proof.
  intros [Hp Hk Hn _ _] Ha t' l b Hb. rewrite (k_sequence _ _ (ph_keeps _ _ _ _ _ Hp)).
  destruct (decide (t' = t)) as [->|Hne].
  2:{ rewrite (ph_diffs _ _ _ _ _ Hp) in Hb by done. by eapply Ha. }
  destruct (decide (l ∈ cloud_Lcuuid <$> cloud)) as [Hl|Hl].
  2:{ rewrite (ph_diff_at _ _ _ _ _ Hp) in Hb by done. by eapply Ha. }
  rewrite <- (k_sequence _ _ (ph_keeps _ _ _ _ _ Hp)). destruct (D t w !! l) as [b0|] eqn:Hb0.
  - destruct (Hk l b0 Hl Hb0) as [(b' & Hb' & E & _) _]. simplify_eq. unfold GetSequence. by rewrite E.
  - destruct (Hn l Hl Hb0) as [|(b' & Hb' & E & _)]; simplify_eq. unfold GetSequence. by rewrite E.
Qed.

(** Statements that create rows with identifiers of [ids], and those that make room for them. *)
Definition creates (ids : Table -> list string) (s : Statement) : Prop :=
  match s with
  | SCreate t ls | SDeleteUnscoped t ls => ls ⊆ ids t
  | _ => False
  end.

Definition sends ids w w' : Prop := exists s, w_sent w' = w_sent w ++ s /\ Forall (creates ids) s.

Lemma sends_same ids w w' : w_sent w' = w_sent w -> sends ids w w'.
Proof. intros E. exists []. by rewrite app_nil_r. Qed.

Lemma sends_trans ids w w1 w' : sends ids w w1 -> sends ids w1 w' -> sends ids w w'.
Proof.
  intros (s & E & Hs) (s' & E' & Hs'). exists (s ++ s'). rewrite E', E, app_assoc. split; [done|]. by apply Forall_app.
Qed.

Lemma sends_one ids w w' s : w_sent w' = w_sent w ++ [s] -> creates ids s -> sends ids w w'.
Proof. intros E Hs. exists [s]. split; [done|]. by apply Forall_singleton. Qed.

Lemma runs_both {A} (m : M A) w Q Q' : runs m w Q -> runs m w Q' -> runs m w (fun a w' => Q a w' /\ Q' a w').
Proof. unfold runs. by destruct (m w) as [[a w']|]. Qed.

Lemma format_sends {t} (items : list (Model t)) ids w :
  GetLcuuid <$> items ⊆ ids t -> runs (formatDBItemsToAdd items) w (fun _ w' => sends ids w w').
Proof.
  intros Hi. unfold formatDBItemsToAdd. apply runs_bind, runs_query. intros r d E.
  destruct (find_unscoped_law _ _ _ _ _ E) as (_ & _ & Hr).
  destruct r as [dups|]; [|by apply runs_ret, sends_same]. destruct Hr as (_ & Hf & _).
  destruct dups as [|dup dups'] eqn:Ed; rewrite <- ?Ed in *; [by apply runs_ret, sends_same|].
  destruct (softDelete t); [|by apply runs_ret, sends_same].
  apply runs_bind, runs_execute. intros ok d' _. apply runs_ret. eapply sends_one; [done|]. cbn.
  intros l (m & -> & Hm)%list_elem_of_fmap. apply Hi. by apply Hf.
Qed.

Lemma addPage_sends {t} (items : list (Model t)) ids w :
  GetLcuuid <$> items ⊆ ids t -> runs (addPage items) w (fun _ w' => sends ids w w').
Proof.
  intros Hi. unfold addPage, AddBatch. apply runs_bind, runs_bind.
  eapply runs_mono; [apply runs_both; [apply formatDBItemsToAdd_ok|by apply format_sends]|].
  intros [ms|] w1 [(_ & Hin & _) Hs]; [|by apply runs_ret, runs_ret].
  apply runs_execute. intros r d _. set (w2 := mkWorld _ _ _).
  assert (sends ids w w2) as Hs2.
  { eapply sends_trans; [exact Hs|]. eapply sends_one; [done|]. cbn. intros l (m & -> & Hm)%list_elem_of_fmap. by apply Hi, (Hin ms). }
  destruct r as [added|]; [|by apply runs_ret]. apply for_each_keeps; [|done]. intros m v _ Hv.
  eapply runs_mono; [apply AddItem_ok|]. intros [] v' (b & _ & Ht). eapply sends_trans; [exact Hv|].
  apply sends_same, (to_sent _ _ _ _ Ht).
Qed.

Lemma add_sends {t} (items : list (Model t)) ids w :
  GetLcuuid <$> items ⊆ ids t -> runs (add items) w (fun _ w' => sends ids w w').
Proof.
  intros Hi. unfold add. apply (for_each_keeps _ (sends ids w)); [|by apply sends_same]. intros p v Hp Hv.
  eapply runs_mono; [apply addPage_sends|by intros [] v'; apply sends_trans].
  intros l (m & -> & Hm)%list_elem_of_fmap. apply Hi, list_elem_of_fmap_2. rewrite <- (concat_pages items).
  apply list_elem_of_In, in_concat. exists p. split; by apply list_elem_of_In.
Qed.

(** Items without entries send nothing by themselves. *)
Lemma handle_items_quiet {t CT} {DG : DataGenerator t CT} {GEN : GeneratorLaws t CT} (cloud : list CT) acc w :
  (forall l, D t w !! l = None) -> runs (handle_items cloud acc) w (fun _ w' => w_sent w' = w_sent w).
Proof.
  revert acc w. induction cloud as [|item cloud IH]; intros acc w Hn; cbn [handle_items]; [by apply runs_ret|].
  apply runs_bind. eapply runs_mono; [by apply handle_new_ok|]. intros r w1 (Hq & _).
  eapply runs_mono; [apply IH; intros l; by rewrite (q_diffs _ _ Hq)|]. intros r' w' ->. apply Hq.
Qed.

Lemma new_table {t CT} {DG : DataGenerator t CT} {GEN : GeneratorLaws t CT} (cloud : list CT) ids w :
  NoDup (cloud_Lcuuid <$> cloud) -> (forall l, D t w !! l = None) -> cloud_Lcuuid <$> cloud ⊆ ids t ->
  runs (HandleAddAndUpdate cloud) w (fun _ w' => updated cloud w w' /\ sends ids w w').
Proof.
  intros Hnd Hn Hi. apply runs_and; [by apply HandleAddAndUpdate_ok|]. unfold HandleAddAndUpdate. apply runs_bind.
  eapply runs_mono; [apply runs_both; [by apply handle_items_ok|by apply handle_items_quiet]|].
  intros r w1 [(new & -> & Hh) Hs]. cbn [app].
  assert (runs (add new) w1 (fun _ w' => sends ids w w')) as Hadd.
  { eapply runs_mono; [apply (add_sends new ids)|].
    - intros l (m & -> & Hm)%list_elem_of_fmap. apply Hi. by apply (h_new _ _ _ _ Hh).
    - intros [] w'. apply sends_trans. by apply sends_same. }
  destruct new as [|m new]; [|exact Hadd]. apply runs_ret. by apply sends_same.
Qed.

(** The identifiers of a table in the cloud data. *)
Definition job_ids (j : Job) (t : Table) : list string :=
  match j with
  | JTable t' cloud => if decide (t = t') then cloud_Lcuuid <$> cloud else []
  | JIP cloud => if decide (t = TWANIP \/ t = TLANIP) then CloudModel.IP_Lcuuid <$> cloud else []
  end.

Definition named (js : list Job) (t : Table) : list string := js ≫= (fun j => job_ids j t).

(** What the additions to an empty cache do: nothing to other identifiers. *)
Record grows (ids : Table -> list string) w w' : Prop := mkGrows {
  gr_now : all_now w -> all_now w';
  gr_diff t l : l ∉ ids t -> D t w' !! l = D t w !! l;
  gr_row t l : l ∉ ids t -> T t w' !! l = T t w !! l;
  gr_sent : sends ids w w'
}.

Lemma grows_trans ids w w1 w' : grows ids w w1 -> grows ids w1 w' -> grows ids w w'.
Proof.
  intros [N D1 R S] [N' D1' R' S']. constructor; [auto|..]; [by intros; rewrite D1', D1|by intros; rewrite R', R|].
  by eapply sends_trans.
Qed.

Lemma grows_mono ids ids' w w' : (forall t, ids t ⊆ ids' t) -> grows ids w w' -> grows ids' w w'.
Proof.
  intros Hi [N D1 R (s & E & Hs)]. constructor; [done|..]; [by intros; apply D1; set_solver|by intros; apply R; set_solver|].
  exists s. split; [done|]. eapply Forall_impl; [exact Hs|]. intros []; cbn; set_solver.
Qed.

Lemma updated_grows {t CT} {DG : DataGenerator t CT} {GEN : GeneratorLaws t CT} (cloud : list CT) ids w w' :
  cloud_Lcuuid <$> cloud ⊆ ids t -> updated cloud w w' -> sends ids w w' -> grows ids w w'.
Proof.
  intros Hi Hu Hs. pose proof (up_phase _ _ _ Hu) as Hp. constructor; [by apply updated_now with cloud| | |done]; intros t' l Hl.
  - destruct (phase_stays _ t' _ _ l _ _ Hp) as [E _]; [intros ->; set_solver|by intros _ []|done].
  - destruct (phase_stays _ t' _ _ l _ _ Hp) as [_ E]; [intros ->; set_solver|by intros _ []|done].
Qed.

Lemma job_grows j w :
  job_distinct j -> (forall t l, t ∈ job_tables j -> D t w !! l = None) ->
  runs (handle_add (updater_of j)) w (fun _ w' => grows (job_ids j) w w').
Proof.
  destruct j as [t CT DG GEN cloud|cloud]; intros Hnd Hn.
  - assert (cloud_Lcuuid <$> cloud ⊆ job_ids (JTable t cloud) t) as Hi
      by (unfold job_ids; rewrite decide_True by done; reflexivity).
    eapply runs_mono; [apply (new_table cloud (job_ids (JTable t cloud))); [done| |done]|].
    { intros l. apply Hn. cbn. set_solver. }
    intros [] w' [Hu Hs]. by eapply updated_grows.
  - cbn [updater_of handle_add NewIP]. unfold IP_HandleAddAndUpdate. apply runs_bind, runs_get_cache.
    destruct (split_distinct (w_cache w) cloud Hnd) as [Hn1 Hn2]. destruct (split_sublists (w_cache w) cloud) as [Hs1 Hs2].
    destruct (splitToWANAndLAN _ _) as [wan lan]. cbn [fst snd] in *.
    apply (fmap_sublist CloudModel.IP_Lcuuid), sublist_subseteq in Hs1, Hs2.
    assert (forall t, t = TWANIP \/ t = TLANIP -> job_ids (JIP cloud) t = CloudModel.IP_Lcuuid <$> cloud) as Hi
      by (intros t Ht; unfold job_ids; by rewrite decide_True).
    apply runs_bind. eapply runs_mono; [apply (new_table (t := TWANIP) wan (job_ids (JIP cloud))); [done| |]|].
    { intros l. apply Hn. by left. }
    { rewrite Hi by auto. exact Hs1. }
    intros [] w1 [Hu1 Hw1]. eapply runs_mono; [apply (new_table (t := TLANIP) lan (job_ids (JIP cloud))); [done| |]|].
    { intros l. rewrite (ph_diffs _ _ _ _ _ (up_phase _ _ _ Hu1)) by done. apply Hn. by right; left. }
    { rewrite Hi by auto. exact Hs2. }
    intros [] w' [Hu2 Hw2]. apply (grows_trans _ _ w1).
    + refine (updated_grows (t := TWANIP) wan _ _ _ _ Hu1 Hw1). rewrite Hi by auto. exact Hs1.
    + refine (updated_grows (t := TLANIP) lan _ _ _ _ Hu2 Hw2). rewrite Hi by auto. exact Hs2.
Qed.

Lemma job_ids_tables j t l : l ∈ job_ids j t -> t ∈ job_tables j.
Proof. destruct j; cbn; case_decide; set_solver. Qed.

(** The additions to a cache that has no entries of the tables of the jobs. *)
Lemma jobs_grow js w :
  Forall job_distinct js -> NoDup (tables_of js) -> (forall t l, t ∈ tables_of js -> D t w !! l = None) ->
  runs (for_each (fun j => handle_add (updater_of j)) js) w (fun _ w' => grows (named js) w w').
Proof.
  revert w. induction js as [|j js IH]; intros w Hd Hnd Hn; cbn [for_each].
  { apply runs_ret. constructor; try done. by apply sends_same. }
  apply Forall_cons in Hd as [Hj Hd]. unfold tables_of in Hnd, Hn. rewrite fmap_cons in Hnd, Hn. cbn [concat] in Hnd, Hn.
  apply NoDup_app in Hnd as (_ & Hdis & Hnd). apply runs_bind. eapply runs_mono; [apply job_grows; [done|]|].
  { intros t l Ht. apply Hn, elem_of_app. by left. }
  intros [] w1 H1. eapply runs_mono; [apply IH; [done|done|]|].
  { intros t l Ht. rewrite (gr_diff _ _ _ H1); [apply Hn, elem_of_app; by right|].
    intros Hl%job_ids_tables. by apply (Hdis t). }
  intros [] w' H2. apply (grows_trans _ _ w1); (eapply grows_mono; [|eassumption]); intros t l Hl; cbn; set_solver.
Qed.

Lemma delete_now j w : all_now w -> runs (handle_delete (updater_of j)) w (fun _ w' => w' = w).
Proof. intros Ha. apply job_delete_idle. intros t l _ (b & Hb & Hne). by apply Hne, (Ha _ _ _ Hb). Qed.

(** With no entry to begin with, nothing is deleted. *)
Lemma refresh_sub_domain_new js w :
  Forall job_distinct js -> NoDup (tables_of js) -> (forall t l, D t w !! l = None) ->
  runs (refresh_sub_domain (updater_of <$> js)) w (fun _ w' => grows (named js) w w').
Proof.
  intros Hd Hnd Hn. apply runs_bind. eapply runs_mono; [apply for_each_fmap, jobs_grow; auto|]. intros [] w1 H1.
  rewrite <- fmap_take, <- fmap_reverse.
  eapply runs_mono; [apply for_each_fmap, (for_each_keeps _ (eq w1)); [|done]|by intros [] w' <-].
  intros j v _ <-. eapply runs_mono; [apply delete_now, (gr_now _ _ _ H1)|by intros [] w' ->].
  intros t l b Hb. by rewrite Hn in Hb.
Qed.

(** The row of the sub domain is saved, if there is one. *)
Lemma syncSubDomain_ok now l sub r :
  runs (syncSubDomain now l sub) r (fun _ r' => r_manager r' = r_manager r /\
    (forall t, table t (r_db r') = table t (r_db r)) /\
    exists saved, r_sent r' = r_sent r ++ (SSave TSubDomain <$> option_list saved) /\
      forall m, saved = Some m -> GetLcuuid (t := TSubDomain) m = l).
Proof.
  unfold syncSubDomain. apply runs_bind, runs_on_db. intros o d E.
  destruct (find_lcuuid_law TSubDomain _ _ _ _ E) as (HT & _ & Ho). destruct o as [m|].
  - destruct Ho as [El Hm]. cbv zeta. unfold runs, on_db_save. cbn [r_manager r_db r_sent].
    destruct (save_law TSubDomain (synced_SubDomain now sub m) d) as [HT' _].
    { change (table TSubDomain d !! GetLcuuid (t := TSubDomain) m = Some (GetID (t := TSubDomain) m, false)). by rewrite HT, El. }
    split_and!; [done|intros t; by rewrite HT'|]. exists (Some (synced_SubDomain now sub m)). split; [done|]. by intros ? [= <-].
  - apply runs_ret. split_and!; [done|done|]. exists None. by rewrite app_nil_r.
Qed.

(** C40: [GetSubDomainCache] does not keep the cache it makes.  The refresh of a sub domain
    that was not in the database when the recorder was made leaves the caches as they are,
    so every refresh of it starts from an empty one.  If no identifier comes twice among the items of one
    resource, the statements it sends are the [Save] of the row of the sub domain, if there is
    one, and those that create rows with identifiers of the cloud data: [Create], and the
    unscoped [Delete] of rows that have such an identifier already.  No row with another
    identifier changes: what the sub domain loses stays in the database. *)
Theorem new_sub_domain_keeps_rows now l sub r :
  SubDomainCacheMap (r_manager r) !! l = None ->
  Forall job_distinct (sub_domain_jobs sub) ->
  runs (refresh_one_sub_domain now (l, sub)) r (fun _ r' =>
    r_manager r' = r_manager r /\
    (exists saved s, r_sent r' = r_sent r ++ (SSave TSubDomain <$> option_list saved) ++ s /\
       (forall m, saved = Some m -> GetLcuuid (t := TSubDomain) m = l) /\
       Forall (creates (named (sub_domain_jobs sub))) s) /\
    forall t k, k ∉ named (sub_domain_jobs sub) t -> table t (r_db r') !! k = table t (r_db r) !! k).
Proof.
  intros Hl Hd. unfold refresh_one_sub_domain. destruct (SubDomainResource_Verified sub).
  2:{ apply runs_ret. split_and!; [done| |done]. exists None, []. by rewrite app_nil_r. }
  apply runs_bind. eapply runs_mono; [apply syncSubDomain_ok|]. intros [] r1 (Em & HT & saved & Es & Hsaved).
  rewrite sub_domain_updaters. set (w := mkWorld (GetSubDomainCache l (r_manager r1)) (r_db r1) (r_sent r1)).
  assert (runs (refresh_sub_domain (updater_of <$> sub_domain_jobs sub)) w (fun _ w' => grows (named (sub_domain_jobs sub)) w w')) as H.
  { apply refresh_sub_domain_new; [done|apply ordered_nodup, sub_domain_ordered|].
    intros t k. unfold w, GetSubDomainCache. rewrite Em, Hl. unfold D, diffs.
    change ((∅ : gmap string (Diff t)) !! k = None). apply lookup_empty. }
  unfold on_sub_domain, runs. unfold runs in H. fold w. destruct (refresh_sub_domain _ w) as [[[] w']|]; [|done].
  rewrite Em, Hl. cbn [r_manager r_sent r_db]. destruct H as [_ _ HR (s & E & Hs)].
  split_and!; [by destruct (r_manager r)| |].
  - exists saved, s. split; [|done]. rewrite E. cbn [w w_sent]. by rewrite Es, <- app_assoc.
  - intros t k Hk. specialize (HR t k Hk). unfold T in HR. cbn [w w_db] in HR. by rewrite HR, HT.
Qed.

(** * The state of a domain *)

Lemma worst_state subs state :
  let s := foldl (fun state sub =>
             if stateToLevel (SubDomainResource_ErrorState sub) >? stateToLevel state
             then SubDomainResource_ErrorState sub else state) state subs in
  (s = state \/ s ∈ SubDomainResource_ErrorState <$> subs) /\ stateToLevel state <= stateToLevel s /\
  forall sub, sub ∈ subs -> stateToLevel (SubDomainResource_ErrorState sub) <= stateToLevel s.
Proof.
  revert state. induction subs as [|sub subs IH]; intros state; cbn [foldl].
  { split_and!; [by left|lia|]. intros sub H. by apply elem_of_nil in H. }
  destruct (stateToLevel (SubDomainResource_ErrorState sub) >? stateToLevel state) eqn:E.
  - destruct (IH (SubDomainResource_ErrorState sub)) as (H1 & H2 & H3). rewrite fmap_cons. split_and!.
    + right. apply elem_of_cons. destruct H1; auto.
    + lia.
    + intros sub' [->|Hs]%elem_of_cons; [done|auto].
  - destruct (IH state) as (H1 & H2 & H3). rewrite fmap_cons. split_and!; [|done|].
    + destruct H1; [by left|right]. apply elem_of_cons. auto.
    + intros sub' [->|Hs]%elem_of_cons; [lia|auto].
Qed.

(** The state that [syncDomain] stores is the worst of those of the domain and of its sub
    domains, in whatever order the map is visited: it is one of them, and none has a higher
    level. *)
Theorem domain_state_is_worst cd :
  let s := (formatDomainStateInfo cd).1 in
  (s = Resource_ErrorState cd \/
   exists l sub, Resource_SubDomainResources cd !! l = Some sub /\ s = SubDomainResource_ErrorState sub) /\
  stateToLevel (Resource_ErrorState cd) <= stateToLevel s /\
  forall l sub, Resource_SubDomainResources cd !! l = Some sub ->
    stateToLevel (SubDomainResource_ErrorState sub) <= stateToLevel s.
Proof.
  pose proof (worst_state (range_map (Resource_SubDomainResources cd)).*2 (Resource_ErrorState cd)) as (H1 & H2 & H3).
  assert (forall sub, sub ∈ (range_map (Resource_SubDomainResources cd)).*2 <->
    exists l, Resource_SubDomainResources cd !! l = Some sub) as Hin.
  { intros sub. rewrite list_elem_of_fmap. split.
    - intros ([l sub'] & -> & Hp). rewrite range_perm in Hp. exists l. by apply elem_of_map_to_list.
    - intros [l Hl]. exists (l, sub). split; [done|]. rewrite range_perm. by apply elem_of_map_to_list. }
  cbv zeta. replace ((formatDomainStateInfo cd).1) with
    (foldl (fun state sub =>
              if stateToLevel (SubDomainResource_ErrorState sub) >? stateToLevel state
              then SubDomainResource_ErrorState sub else state)
       (Resource_ErrorState cd) (range_map (Resource_SubDomainResources cd)).*2)
    by (unfold formatDomainStateInfo; by destruct (decide _)).
  split_and!; [|done|].
  - destruct H1 as [H1|(sub & E & Hs)%list_elem_of_fmap]; [by left|right].
    apply Hin in Hs as [l Hl]. by exists l, sub.
  - intros l sub Hl. apply H3, Hin. by exists l.
Qed.

End Facts.

(** * Examples *)

(** A connection that the sub domain has lost, with its row. *)
Definition lost_connection : Diff TVMPodNodeConnection :=
  DiffBase.mkVMPodNodeConnection (mkDiffBase 0 "connection") "sub".

Definition lost_row : Model TVMPodNodeConnection :=
  MysqlModel.mkVMPodNodeConnection (mkBase 5 "connection") 1 2 "domain" "sub".

Definition connected_store : Store :=
  mkStore true (alter_contents TVMPodNodeConnection (<["connection" := (lost_row, false)]>) (fun _ => ∅)).

Definition connected_world : World store_Mysql :=
  mkWorld (set_diffs TVMPodNodeConnection (<["connection" := lost_connection]>) (NewCache "domain")) connected_store [].

Lemma sub_domain_connections_stay_witness :
  runs (refresh_sub_domain (getSubDomainUpdatersInOrder example_sub)) connected_world (fun _ w' =>
    D TVMPodNodeConnection w' !! "connection" = Some lost_connection /\
    T TVMPodNodeConnection w' !! "connection" = Some (5, false)).
Proof.
  eapply runs_mono; [apply (sub_domain_connections_stay example_sub connected_world "connection" lost_connection)|].
  - apply example_sub_distinct.
  - cbn. set_solver.
  - reflexivity.
  - intros [] w' [Hb Hr]. split; [exact Hb|]. rewrite Hr; [vm_compute; reflexivity|].
    intros l [b Hb']. change ((∅ : gmap string (Diff TPodNode)) !! l = Some b) in Hb'. by rewrite lookup_empty in Hb'.
Defined.

(** A sub domain that came later, and the same row. *)
Definition later_start : RecorderWorld :=
  mkRecorderWorld (mkCacheManager (NewCache "domain") ∅) connected_store [].

Lemma new_sub_domain_keeps_rows_witness :
  runs (refresh_one_sub_domain 7 ("sub", example_sub)) later_start (fun _ r' =>
    r_manager r' = r_manager later_start /\
    (exists saved s, r_sent r' = (SSave TSubDomain <$> option_list saved) ++ s /\
       Forall (creates (named (sub_domain_jobs example_sub))) s) /\
    table TVMPodNodeConnection (r_db r') !! "connection" = Some (5, false)).
Proof.
  eapply runs_mono; [apply (new_sub_domain_keeps_rows 7 "sub" example_sub later_start)|].
  - reflexivity.
  - apply example_sub_distinct.
  - intros [] r' (Hm & (saved & s & Es & _ & Hs) & Hr). split; [exact Hm|]. split; [by exists saved, s|].
    rewrite Hr; [vm_compute; reflexivity|]. cbn. set_solver.
Defined.

Lemma domain_state_is_worst_witness :
  stateToLevel (Resource_ErrorState example_cloud) <= stateToLevel (formatDomainStateInfo example_cloud).1.
Proof. exact (proj1 (proj2 (domain_state_is_worst example_cloud))). Defined.
