(* ===== verification/RecorderLoop.v ===== *)
(** The channel [canRefresh] of a recorder ([controller/recorder/recorder.go]): goroutines
    that refresh the data ([Refresh], [runNewRefreshWhole]) and the one that rebuilds the
    cache from time to time ([Start], [runNewRefreshCache]) take its only element before they
    touch the cache, and give it back afterwards. *)
From stdpp Require Import base list.
From S2P Require Import Prelude.

#[local] Open Scope nat_scope.

(** * The goroutines *)

(** Where the goroutine of [Start] is: before [Start], at the [select] of
    [runNewRefreshCache], in [cacheMng.Refresh], before the send, at the [select] on the
    ticker, and after the end of the context. *)
Inductive Cacher := CNew | CSelect | CRefresh | CSend | CTicker | CStopped.

(** A goroutine of [runNewRefreshWhole]: at work, and before the send. *)
Inductive Whole := WRefresh | WSend.

#[global] Instance Whole_eq_dec : EqDecision Whole.
Proof. solve_decision. Defined.

(** The channel has room for one element: [canRefresh] says whether it is there. *)
Record Loop := mkLoop { canRefresh : bool; cacher : Cacher; wholes : list Whole }.

Definition NewRecorder_loop : Loop := mkLoop false CNew [].

(** What happens next.  A receive needs an element, a send needs room; the [default] of a
    [select] is taken when there is no element. *)
Inductive Event :=
| Start                  (** [Start]: send, and start the goroutine *)
| RefreshCall            (** [Refresh] *)
| WholeDone (i : nat)    (** the end of the work of a goroutine *)
| WholeSend (i : nat)    (** its send, and its end *)
| CacherSelect           (** the [select] of [runNewRefreshCache] *)
| CacherDone
| CacherSend
| Tick                   (** a tick of the ticker *)
| Done.                  (** the context is done *)

Definition step (s : Loop) (e : Event) : option Loop :=
  match e, cacher s with
  | Start, CNew => if canRefresh s then None else Some (mkLoop true CSelect (wholes s))
  | RefreshCall, _ =>
      if canRefresh s then Some (mkLoop false (cacher s) (wholes s ++ [WRefresh])) else Some s
  | WholeDone i, _ =>
      match wholes s !! i with
      | Some WRefresh => Some (mkLoop (canRefresh s) (cacher s) (<[i := WSend]> (wholes s)))
      | _ => None
      end
  | WholeSend i, _ =>
      match wholes s !! i with
      | Some WSend => if canRefresh s then None else Some (mkLoop true (cacher s) (delete i (wholes s)))
      | _ => None
      end
  | CacherSelect, CSelect => if canRefresh s then Some (mkLoop false CRefresh (wholes s)) else Some s
  | CacherDone, CRefresh => Some (mkLoop (canRefresh s) CSend (wholes s))
  | CacherSend, CSend => if canRefresh s then None else Some (mkLoop true CTicker (wholes s))
  | Tick, CTicker => Some (mkLoop (canRefresh s) CSelect (wholes s))
  | Done, CTicker => Some (mkLoop (canRefresh s) CStopped (wholes s))
  | _, _ => None
  end.

Inductive reachable : Loop -> Prop :=
| reach_new : reachable NewRecorder_loop
| reach_step s e s' : reachable s -> step s e = Some s' -> reachable s'.

(** * One at a time *)

(** Those that touch the cache, and those that hold the element of the channel. *)
Definition at_work (s : Loop) : nat :=
  length (filter (fun g => g = WRefresh) (wholes s)) + (match cacher s with CRefresh => 1 | _ => 0 end).

Definition holders (s : Loop) : nat :=
  length (wholes s) + (match cacher s with CRefresh | CSend => 1 | _ => 0 end).

Definition elements (s : Loop) : nat :=
  (if canRefresh s then 1 else 0) + holders s.

Lemma elements_step s e s' :
  elements s = (match cacher s with CNew => 0 | _ => 1 end) -> step s e = Some s' ->
  elements s' = match cacher s' with CNew => 0 | _ => 1 end.
Proof.
  destruct s as [b c ws]. unfold elements, holders. cbn [canRefresh cacher wholes]. intros H E.
  assert (forall i g, ws !! i = Some g -> length (delete i ws) = length ws - 1 /\ length ws <> 0) as Hd.
  { intros i g Hi. rewrite length_delete by eauto. apply lookup_lt_Some in Hi. lia. }
  destruct e as [| |i|i| | | | |]; cbn in E.
  3, 4: destruct (ws !! i) as [[]|] eqn:Hi; try (destruct c; discriminate); destruct (Hd _ _ Hi).
  all: destruct c, b; try discriminate E; injection E as <-; cbn [canRefresh cacher wholes];
    rewrite ?length_app, ?length_insert; cbn [length]; lia.
Qed.

Lemma reachable_elements s : reachable s -> elements s = match cacher s with CNew => 0 | _ => 1 end.
Proof. induction 1; [done|]. by eapply elements_step. Qed.

Lemma elements_bound s : reachable s -> (elements s <= 1)%nat.
Proof. intros H%reachable_elements. rewrite H. destruct (cacher s); lia. Qed.

Lemma at_work_holders s : (at_work s <= holders s)%nat.
Proof.
  unfold at_work, holders. pose proof (length_filter (fun g => g = WRefresh) (wholes s)).
  destruct (cacher s); lia.
Qed.

(** C17: [canRefresh] keeps the goroutines of a recorder apart.  In every state that a
    recorder reaches at most one goroutine is at work on the cache; a goroutine that sends
    finds room in the channel, so none is stuck; and once [Start] has been called, a call of
    [Refresh] is taken unless a goroutine holds the element. *)
Theorem recorder_exclusive s :
  reachable s ->
  (at_work s <= 1)%nat /\
  (forall i, wholes s !! i = Some WSend -> is_Some (step s (WholeSend i))) /\
  (cacher s = CSend -> is_Some (step s CacherSend)) /\
  (cacher s <> CNew -> holders s = 0%nat ->
   step s RefreshCall = Some (mkLoop false (cacher s) (wholes s ++ [WRefresh]))).
Proof.
  intros Hr. pose proof (elements_bound s Hr) as Hb. pose proof (reachable_elements s Hr) as He.
  pose proof (at_work_holders s) as Hw. unfold elements in *. split_and!.
  - destruct (canRefresh s); lia.
  - intros i Hi. unfold step. rewrite Hi. apply lookup_lt_Some in Hi. unfold holders in Hb.
    destruct (cacher s), (canRefresh s); try lia; eauto.
  - intros Hc. unfold step. rewrite Hc. unfold holders in Hb. rewrite Hc in Hb. destruct (canRefresh s); [lia|eauto].
  - intros Hc Hh. unfold step. destruct (canRefresh s), (cacher s); try done; lia.
Qed.

(** A refresh during the first rebuild of the cache is dropped, one after it is taken. *)
Lemma recorder_exclusive_witness :
  let s := mkLoop false CTicker [WSend] in
  reachable s /\ at_work s = 0%nat /\ is_Some (step s (WholeSend 0)).
Proof.
  assert (reachable (mkLoop false CTicker [WSend])) as Hr.
  { apply (reach_step (mkLoop false CTicker [WRefresh]) (WholeDone 0)); [|done].
    apply (reach_step (mkLoop true CTicker []) RefreshCall); [|done].
    apply (reach_step (mkLoop false CSend []) CacherSend); [|done].
    apply (reach_step (mkLoop false CRefresh []) CacherDone); [|done].
    apply (reach_step (mkLoop false CRefresh []) RefreshCall); [|done].
    apply (reach_step (mkLoop true CSelect []) CacherSelect); [|done].
    apply (reach_step NewRecorder_loop Start); [apply reach_new|done]. }
  split; [exact Hr|]. split; [reflexivity|]. exact (proj1 (proj2 (recorder_exclusive _ Hr)) 0%nat eq_refl).
Defined.
